(* ===== verification/_CoqProject ===== *)
-Q . S2P
Prelude.v
DdialProtocol.v
DdialRoster.v
DdialClient.v
DdialRelay.v
DdialSend.v
DdialMembers.v
DdialRoll.v
FileTransfer.v
SftpServer.v
TextTools.v
BbsEditor.v
BbsPosts.v
BbsBoard.v
BbsListing.v
IpRules.v
HostGuard.v
DdialServer.v
DdialText.v
DdialSession.v
DdialChat.v
DdialCommands.v
DdialPolicy.v
DdialStation.v
DdialTalk.v
HostBans.v
DisplayModel.v
Jwt.v
Othello.v
Tetris.v
TetrisInput.v
