(* ===== verification/Prelude.v ===== *)
(** * ssh-chatter: verification development

    ssh-chatter is a chat and bulletin-board server over SSH and telnet, about
    a hundred thousand lines of C under [src/src/].  A host accepts connections,
    throttles and bans them, runs a session per client (chat room, commands,
    bulletin board, games, file transfer), and links to other boards over the
    DDial wire protocol.  This library models parts of it as Rocq functions on
    explicit state and proves what makes each part correct.

    ** Files, and the sources they model

    - [Prelude] (this file): bytes and C strings, the functions of <string.h>,
      <ctype.h>, <stdio.h> and <stdlib.h> the code calls, machine integers, and
      the lemmas and tactics the other files share.
    - [DdialProtocol], Module [Wire]: the lines of the DDial protocol, every
      formatter, parser and filter of [host/ddial/protocol.c].
    - [DdialRoster]: who is on the linked boards.  Module [Buckets] is the hash
      table with tombstones, Module [Lines] the relay lines that feed it
      ([host/ddial/roster.c]).
    - [DdialClient], [DdialRelay], [DdialSend]: the upstream client
      ([host/ddial/client.c], the tests of local users in
      [host/ddial/integration.c]).  Telnet machine, cleaning and extraction of
      lines, hang-up notices; then the way of a received line into the room and
      the roster; then what is sent, echoes and broadcasting.
    - [DdialMembers], [DdialRoll]: the member roll and the mail of the dial-in
      station with the two files they are kept in ([host/ddial/members.c]);
      [DdialRoll] holds the theorems.
    - [DdialServer]: a dialed-in session byte by byte ([host/ddial/server.c]).
      Module [Output] is the buffer to the terminal with its paced region and
      baud rate, [Input] the cutting of what is typed into lines.
    - [DdialText]: what the station does with texts ([host/ddial/magviz.c]):
      Module [Slots] the lists of line numbers, [Text] the transformations of a
      message, [Colour] the rendering of markers and colours.
    - [DdialSession]: Module [Session] is the state of the station, its sessions,
      the chat members that hold a line, channels, boots, visits and vanishing
      messages, and the registry of [host/ddial/integration.c].  What leaves the
      station is a list of effects.
    - [DdialChat], [DdialCommands]: Module [Chat] delivers public and private
      messages; Module [Commands] has login, logout, the tick, every command and
      the dispatcher, up to [step], one event at the station.
    - [DdialPolicy], [DdialStation]: the abstract specification of the station,
      an automaton on names, numbers, lines, channels and rights, its
      invariant, and the proof that the station refines it.
    - [DdialTalk]: the theorems on saved handles and on who hears what, and the
      samples of the station.
    - [FileTransfer], [SftpServer]: the file storage and its transfer protocols
      ([file_transfer.c]).  Module [Paths] resolves the paths of users, [Scp]
      and [Zmodem] are the transfers, Module [Sftp] answers SFTP requests.
    - [TextTools]: placeholders that carry escape sequences through a
      translation ([translation_helpers.c]); templates, searching and the
      digit-sum question ([host/core/text_utils.c]).
    - [BbsEditor]: the editor of posts and ASCII art ([host/output/bbs_editor.c],
      with its keys in [host/runtime/session_lifecycle.c] and the capture of
      lines in [host/commands/bbs.c] and [host/commands/art.c]).
    - [BbsPosts]: the bulletin board itself ([host/commands/bbs.c],
      [host/storage/bbs_storage.c]).  Module [Posts] has the posts, the comment
      arrays they point to and the state file, [Queues] flood limits,
      notifications, reports, mutes and the moderation log, [Commands] the
      commands that write.  [BbsBoard] holds the theorems about them.
    - [BbsListing]: the commands that show the board: listing, topics, reading,
      searching and the dashboard, from memory or from the state file.
    - [IpRules]: networks, version patterns and the table of bans by client
      version ([host/core/ip_ban.c]).
    - [HostGuard]: time arithmetic, the connection guard
      ([host/transport/connection_guard.c], [host/transport/keys.c]), the join
      throttle ([host/runtime/user_commands.c]) with the cooldown of ASCII art
      ([host/commands/art.c]) and the operator grants by address
      ([host/transport/session_setup.c]).
    - [HostBans]: the ban list and protected addresses
      ([host/runtime/user_commands.c], [host/core/system_config.c],
      [host/security/vote_ban.c]).
    - [DisplayModel]: the message log, its wrapping into lines and the scrolled
      view ([display_model.c], [abstract_byte_buffer.h]).
    - [Jwt]: base64url and the web tokens ([utils/jwt.c]).
    - [Othello], [Tetris], [TetrisInput]: rules, matchmaking slots and input
      handling of two games ([host/games/othello.c], [host/games/tetris.c], the
      Tetris branches of [host/games/misc.c] and [host/games/gonu.c]).

    The paths above are below [src/src/]; PROJECT.json maps every definition to
    its lines.

    ** How the parts interact

    The client of [DdialRelay] feeds the lines it extracts (with the formatters
    and parsers of [DdialProtocol]) to the roster of [DdialRoster] and to the
    broadcast of [DdialSend]; [chat_arrives] and [private_stays_private] are
    about the whole way from received bytes to what the room sees.  In the
    station, [DdialServer] hands lines to the dispatcher of [DdialCommands],
    which reads and writes the roll of [DdialMembers], renders with [DdialText]
    and delivers through [DdialChat] into the output buffers of [DdialServer];
    lines of the link come in through [relay_upstream_line], private ones
    through [host_ddial_deliver_link_private].  [SftpServer]
    uses the path resolution of [FileTransfer].  [BbsEditor] uses the trimming
    of [FileTransfer].  A draft finished in [BbsEditor] is committed by
    [BbsPosts], whose board [BbsListing] shows.  [HostBans] uses the networks of
    [IpRules] for its protected addresses and the clock of [HostGuard].
    [TetrisInput] drives the game of [Tetris].

    ** Conventions

    A [char] is its value as an unsigned byte in [Z]; a C string is the list of
    its bytes before the NUL, and a pointer into it is the suffix it points at.
    Integers of a width are [Z] with the wrap-around written out ([u8] to
    [u64]); counts and sizes that the code bounds below its width are [nat],
    and the bounds are proved.  A buffer of [n] bytes cuts what is printed into
    it to [n - 1].  Loops that consume a list are structural; loops with other
    measures take fuel, as much as the bytes, cells or rounds that are left, and
    the theorems about them are stated for that fuel, so that they say that the
    loop ends.  Two bounds are numbers of the code: a free line is looked for
    among the 65535 there are, and a call of [/h] may call itself, which it does
    at most eleven times or for ever ([handle_call_ends_or_never]).  State is passed explicitly, a record per struct; failure is an
    option or a boolean as in the code.  What is not under [src/] (the kernel,
    libssh, libcurl, the allocator, HMAC, random numbers, the clock) is an
    argument of the definitions that use it, with what is relied on as named
    hypotheses; Concrete instances are in the [...Samples] modules, which hold
    the witnesses.

    ** What the theorems show

    - Refinement: the roster's table implements a finite map
      ([roster_refines]), the connection guard an automaton per address
      ([guard_refines]), the editor's buffer a list of lines
      ([draft_refines]), the output buffer of a session the stream written to it
      ([terminal_gets_stream]), and the station its policy, whatever happens in
      it ([station_follows_policy]).
    - Invariants over any run: the registry of the station
      ([registry_in_order]), its roll of members ([roll_in_order]), the Tetris session ([session_stays_ok]), the
      editor under any keys ([keys_keep_editor]), the votes of the board, which
      are one per user and counted right ([one_vote_each], [votes_counted]).
    - Safety: user paths stay below the storage root ([resolve_confined],
      [sftp_stays_below]), private messages of the link stay private
      ([private_stays_private]), no control bytes come in with a line
      ([lines_are_calm]), one line goes out per message ([one_line_sent]),
      tokens are accepted only with their signature ([verify_sound]), a muted
      session is not heard ([muted_not_heard]), what is for members reaches no
      guest ([members_talk_private]), a private message nobody else
      ([private_not_overheard]) and a line only its channel
      ([line_stays_on_channel]), posts are
      safe from other users ([others_posts_safe]) and hidden ones stay hidden
      ([hidden_not_shown]).
    - Round trips: the wire formats, SCP, ZMODEM's channel, base64url, escape
      sequences through a translation, the saved ban list, the saved board
      ([board_survives_restart]), the member files ([restart_loses_nothing]),
      cutting and pasting.
    - Equivalence with a reference: laying out a log again
      ([layout_of_log]), a telnet stream in any pieces ([telnet_stream]), the
      moves of Othello by the rule book ([collect_moves_exact]), address
      networks by their bits ([cidr6_contains]), the mentions of a text
      ([mentions_exact]), a listing by pages ([every_post_listed]), typed lines
      in any pieces ([lines_however_cut]), a coloured message and its plain text
      ([styled_shows_plain]).
    - Bounds and progress: the rate of a session is kept ([baud_bound]) and its
      buffer drains ([output_drains]).
    - Ends and errors: uploads succeed only complete ([upload_sound]), a
      directory is read to its end ([readdir_complete]), a negotiation that
      never ends ([negotiation_never_ends]), a search that costs a line
      ([search_erases_line]), a deletion that costs comments
      ([delete_wipes_last]), a refusal that costs a slot
      ([muted_posts_refused]), a line that is too long ([long_line_deafens]).

    ** Not modelled

    Sockets, threads, locks and the event loop that drives the sessions; of the
    dial-in station what a command only prints to the terminal of the session
    that gave it (listings, help, profiles), the captcha and the welcome, and
    the floating-point colour of a letter, which is an argument; the
    HTTP calls to the translator, the RSS and AI members; persistence formats
    but for what is named above; of the board the drafts, boards, profiles and
    the files beside the state file; terminal output beyond what is named above; the external doors; tables of
    texts.  Each operation is modelled as it runs under its lock.  The list of
    components in PROJECT.json says for each part what is left out and why. *)

From Stdlib Require Import ZArith Lia String Ascii.
From stdpp Require Import prelude.

Open Scope Z_scope.

(** ** Bytes, characters and C strings

    A [char] is its value as an [unsigned char], 0..255.  The content of a
    NUL-terminated string is the list of its bytes before the NUL, so it holds
    no 0; a [const char *] into a string is the suffix it points at, and
    reading at the end of a string yields the NUL. *)

Abbreviation bytes := (list Z).

Definition byte_ok (c : Z) : Prop := 0 <= c < 256.
Definition cstr_ok (s : bytes) : Prop := Forall (fun c => 0 < c < 256) s.

(** The bytes of a string literal of the source. *)
Definition lit (s : string) : bytes :=
  map (fun a => Z.of_N (N_of_ascii a)) (String.list_ascii_of_string s).

Abbreviation c_nul := 0 (only parsing).
Abbreviation c_bel := 7 (only parsing).
Abbreviation c_bs := 8 (only parsing).
Abbreviation c_lf := 10 (only parsing).
Abbreviation c_cr := 13 (only parsing).
Abbreviation c_esc := 27 (only parsing).
Abbreviation c_space := 32 (only parsing).
Abbreviation c_dquote := 34 (only parsing).
Abbreviation c_hash := 35 (only parsing).
Abbreviation c_dollar := 36 (only parsing).
Abbreviation c_percent := 37 (only parsing).
Abbreviation c_lparen := 40 (only parsing).
Abbreviation c_rparen := 41 (only parsing).
Abbreviation c_star := 42 (only parsing).
Abbreviation c_plus := 43 (only parsing).
Abbreviation c_comma := 44 (only parsing).
Abbreviation c_minus := 45 (only parsing).
Abbreviation c_dot := 46 (only parsing).
Abbreviation c_slash := 47 (only parsing).
Abbreviation c_0 := 48 (only parsing).
Abbreviation c_1 := 49 (only parsing).
Abbreviation c_8 := 56 (only parsing).
Abbreviation c_9 := 57 (only parsing).
Abbreviation c_colon := 58 (only parsing).
Abbreviation c_lt := 60 (only parsing).
Abbreviation c_eq := 61 (only parsing).
Abbreviation c_gt := 62 (only parsing).
Abbreviation c_question := 63 (only parsing).
Abbreviation c_at := 64 (only parsing).
Abbreviation c_E := 69 (only parsing).
Abbreviation c_P := 80 (only parsing).
Abbreviation c_T := 84 (only parsing).
Abbreviation c_lbracket := 91 (only parsing).
Abbreviation c_rbracket := 93 (only parsing).
Abbreviation c_caret := 94 (only parsing).
Abbreviation c_underscore := 95 (only parsing).
Abbreviation c_a := 97 (only parsing).
Abbreviation c_e := 101 (only parsing).
Abbreviation c_p := 112 (only parsing).
Abbreviation c_s := 115 (only parsing).
Abbreviation c_rbrace := 125 (only parsing).
Abbreviation c_tilde := 126 (only parsing).

(** [*p]: the byte a pointer is at, the NUL at the end of the string. *)
Definition peek (p : bytes) : Z := match p with [] => c_nul | c :: _ => c end.

Arguments peek !p.

(** [p[n]], with the NUL (and nothing else) at the end. *)
Definition nthb (p : bytes) (n : nat) : Z := nth n p c_nul.

(** ** <ctype.h> in the C locale *)

Definition isspace (c : Z) : bool := (c =? 32) || ((9 <=? c) && (c <=? 13)).
Definition isdigit (c : Z) : bool := (48 <=? c) && (c <=? 57).
Definition isupper (c : Z) : bool := (65 <=? c) && (c <=? 90).
Definition islower (c : Z) : bool := (97 <=? c) && (c <=? 122).
Definition isalnum (c : Z) : bool := isdigit c || isupper c || islower c.
Definition toupper (c : Z) : Z := if islower c then c - 32 else c.
Definition tolower (c : Z) : Z := if isupper c then c + 32 else c.

(** ** Integers at their width *)

Abbreviation u8 z := (Z.modulo z 256).
Abbreviation u16 z := (Z.modulo z 65536).
Abbreviation u32 z := (Z.modulo z 4294967296).
Abbreviation u64 z := (Z.modulo z 18446744073709551616).

Definition UINT16_MAX : Z := 65535.
Definition UINT_MAX : Z := 4294967295.
Definition SIZE_MAX : Z := 18446744073709551615.
Definition ULONG_MAX : Z := 18446744073709551615.
Definition LONG_MAX : Z := 9223372036854775807.
Definition LONG_MIN : Z := -9223372036854775808.

(** ** <string.h> *)

(** [skip_while f p]: [while ( *p != 0 && f( *p)) ++p]. *)
Fixpoint skip_while (f : Z -> bool) (p : bytes) : bytes :=
  match p with
  | c :: t => if f c then skip_while f t else p
  | [] => []
  end.

(** The prefix a [skip_while] steps over. *)
Fixpoint take_while (f : Z -> bool) (p : bytes) : bytes :=
  match p with
  | c :: t => if f c then c :: take_while f t else []
  | [] => []
  end.

Definition bytes_eqb (a b : bytes) : bool := bool_decide (a = b).

(** [strncmp(a, b, n) == 0] on the contents of two strings. *)
Definition strn_eq (n : nat) (a b : bytes) : bool := bytes_eqb (take n a) (take n b).

(** [strncmp(s, p, strlen(p)) == 0]. *)
Fixpoint is_prefix (p s : bytes) : bool :=
  match p, s with
  | [], _ => true
  | a :: p', b :: s' => (a =? b) && is_prefix p' s'
  | _ :: _, [] => false
  end.

(** [strstr(s, p)]: the suffix at the first occurrence. *)
Fixpoint strstr (s p : bytes) : option bytes :=
  if is_prefix p s then Some s
  else match s with
       | [] => None
       | _ :: t => strstr t p
       end.

(** [strchr(s, c)] for a [c] other than NUL. *)
Fixpoint strchr (s : bytes) (c : Z) : option bytes :=
  match s with
  | [] => None
  | d :: t => if d =? c then Some s else strchr t c
  end.

(** ** <stdio.h>: the text [snprintf] leaves in a buffer of [cap] bytes, and
    whether it was all of it ([written > 0 && written < cap]) *)

Definition snprintf_text (cap : nat) (s : bytes) : bytes := take (cap - 1) s.

Definition snprintf_fits (cap : nat) (s : bytes) : bool :=
  (0 <? Z.of_nat (length s)) && (Z.of_nat (length s) <? Z.of_nat cap).

(** [written = snprintf(dst, cap, ...); return written > 0 && written < cap]:
    the value returned and the string left in [dst]. *)
Definition snprintf (cap : nat) (s : bytes) : bool * bytes :=
  (snprintf_fits cap s, snprintf_text cap s).

(** [%u]: the decimal digits of a nonnegative integer; 20 digits are enough
    for every [unsigned long]. *)
Fixpoint dec_go (fuel : nat) (n : Z) (acc : bytes) : bytes :=
  match fuel with
  | O => acc
  | S f =>
      let acc' := (48 + n mod 10) :: acc in
      if n / 10 =? 0 then acc' else dec_go f (n / 10) acc'
  end.

Definition dec (n : Z) : bytes := dec_go 20 n [].

(** [%0<w>u]. *)
Definition dec_pad (w : nat) (n : Z) : bytes :=
  replicate (w - length (dec n)) c_0 ++ dec n.

(** ** <stdlib.h>: [strtoul(p, &p, 10)] *)

Fixpoint scan_digits (p : bytes) (v : Z) : Z * bytes :=
  match p with
  | c :: t => if isdigit c then scan_digits t (Z.min ULONG_MAX (10 * v + (c - 48)))
              else (v, p)
  | [] => (v, p)
  end.

(** Leading white space and a sign are accepted; with no digit the result is 0
    and the pointer is left where it was; a value out of range is [ULONG_MAX]. *)
Definition strtoul (p : bytes) : Z * bytes :=
  let q := skip_while isspace p in
  let neg := peek q =? c_minus in
  let r := if neg || (peek q =? c_plus) then drop 1 q else q in
  if isdigit (peek r) then
    let (v, rest) := scan_digits r 0 in
    ((if neg then u64 (- v) else v), rest)
  else (0, p).

(** [strtol(p, &end, 10)]: the value and [end], or [None] when [end = p]. *)
Definition strtol (p : bytes) : option (Z * bytes) :=
  let q := skip_while isspace p in
  let neg := peek q =? c_minus in
  let r := if neg || (peek q =? c_plus) then drop 1 q else q in
  if isdigit (peek r) then
    let (v, rest) := scan_digits r 0 in
    Some ((if neg then Z.max LONG_MIN (- v) else Z.min LONG_MAX v), rest)
  else None.

(** Trailing bytes removed: [while (end > start && f(end[-1])) --end]. *)
Definition strip_trailing (f : Z -> bool) (s : bytes) : bytes := rev (skip_while f (rev s)).

(** The tokens [strtok_r(s, seps, &ctx)] returns one after the other: the
    maximal nonempty runs of bytes that are no separator. *)
Fixpoint strtok_go (sep : Z -> bool) (s tok : bytes) : list bytes :=
  match s with
  | [] => match tok with [] => [] | _ => [rev tok] end
  | c :: t =>
      if sep c then match tok with [] => strtok_go sep t [] | _ => rev tok :: strtok_go sep t [] end
      else strtok_go sep t (c :: tok)
  end.

Definition strtok_all (sep : Z -> bool) (s : bytes) : list bytes := strtok_go sep s [].

Arguments dec : simpl never.
Arguments strtoul : simpl never.
Arguments strtol : simpl never.
Arguments isdigit : simpl never.
Arguments isspace : simpl never.

(** ** Automation *)

Create Rewrite HintDb bprop.

(** Boolean tests of the code read as propositions. *)
#[export] Hint Rewrite andb_true_iff andb_false_iff orb_true_iff orb_false_iff
  negb_true_iff negb_false_iff Z.eqb_eq Z.eqb_neq Z.leb_le Z.leb_gt Z.ltb_lt
  Z.ltb_ge Nat.ltb_lt Nat.ltb_ge Nat.leb_le Nat.leb_gt Nat.eqb_eq Nat.eqb_neq
  bool_decide_eq_true bool_decide_eq_false : bprop.

Ltac bprop :=
  autorewrite with bprop;
  repeat match goal with
    | H : _ = true |- _ => progress (autorewrite with bprop in H)
    | H : _ = false |- _ => progress (autorewrite with bprop in H)
    end.

(** Split on every [if] of the goal, then of the context, and read the tests. *)
Ltac cases := repeat case_match; bprop; simplify_eq/=.

(** Linear arithmetic with [/] and [mod] by constants. *)
Ltac dlia := Z.div_mod_to_equations; lia.

(** Compute the literals of the source in the goal. *)
Ltac lits :=
  repeat match goal with
    | |- context [lit ?s] =>
        let v := eval vm_compute in (lit s) in change (lit s) with v
    end.

(** Step pointers over the bytes that are known. *)
Ltac psimp := repeat progress (simpl; rewrite ?drop_0).

Create HintDb csem.

(** ** Lemmas on strings *)

Lemma take_skip_while f p : take_while f p ++ skip_while f p = p.
Proof. induction p as [|c t IH]; simpl; [done|]. case_match; simpl; congruence. Qed.

Lemma skip_while_app f p q :
  Forall (fun c => f c = true) p -> skip_while f (p ++ q) = skip_while f q.
Proof. induction 1 as [|c t Hc _ IH]; simpl; [done|]. by rewrite Hc. Qed.

Lemma skip_while_stop f p : f (peek p) = false -> skip_while f p = p.
Proof. destruct p as [|c t]; simpl; [done|]. by intros ->. Qed.

Lemma skip_while_length f p : (length (skip_while f p) <= length p)%nat.
Proof. induction p; simpl; [lia|]. case_match; simpl; lia. Qed.

Lemma is_prefix_spec p s : is_prefix p s = true <-> exists t, s = p ++ t.
Proof.
  revert s; induction p as [|a p IH]; intros s; simpl; [split; eauto|].
  destruct s as [|b s]; [split; [done|intros [? [=]]]|].
  rewrite andb_true_iff, Z.eqb_eq, IH. split.
  - intros [-> [t ->]]. eauto.
  - intros [t [= -> ->]]. eauto.
Qed.

Lemma is_prefix_app p t : is_prefix p (p ++ t) = true.
Proof. apply is_prefix_spec; eauto. Qed.

Lemma bytes_eqb_eq a b : bytes_eqb a b = true <-> a = b.
Proof. apply bool_decide_eq_true. Qed.

Lemma bytes_eqb_refl a : bytes_eqb a a = true.
Proof. by apply bytes_eqb_eq. Qed.

Lemma bytes_eqb_neq a b : bytes_eqb a b = false <-> a <> b.
Proof. apply bool_decide_eq_false. Qed.

#[export] Hint Rewrite bytes_eqb_eq bytes_eqb_neq : bprop.

Lemma forallb_Forall {A} (f : A -> bool) l :
  forallb f l = true <-> Forall (fun x => f x = true) l.
Proof.
  induction l as [|x l IH]; simpl; [split; auto|].
  rewrite andb_true_iff, IH, Forall_cons. done.
Qed.

Lemma snprintf_true cap s line : snprintf cap s = (true, line) -> line = s.
Proof.
  unfold snprintf, snprintf_fits, snprintf_text. intros [= H <-]. bprop.
  apply take_ge. lia.
Qed.

Lemma length_omap_le {A B} (f : A -> option B) (l : list A) : (length (omap f l) <= length l)%nat.
Proof. induction l as [|x l IH]; csimpl; [lia|]. destruct (f x); csimpl; lia. Qed.

Lemma existsb_ext {A} (f g : A -> bool) l : (forall x, f x = g x) -> existsb f l = existsb g l.
Proof. intros Heq. induction l as [|x l IH]; simpl; [done|]. by rewrite Heq, IH. Qed.

Lemma fold_left_ext {A B} (f g : A -> B -> A) l a :
  (forall x y, f x y = g x y) -> fold_left f l a = fold_left g l a.
Proof. intros Heq. revert a. induction l as [|y l IH]; intros a; simpl; [done|]. by rewrite Heq. Qed.

Lemma Exists_insert_iff {A} (P : A -> Prop) l i x y :
  l !! i = Some x -> (P y <-> P x) -> Exists P (<[i:=y]> l) <-> Exists P l.
Proof.
  intros Hi HP. rewrite <- (take_drop_middle l i x) at 2 by done.
  rewrite insert_take_drop by (by eapply lookup_lt_Some).
  rewrite !Exists_app, !Exists_cons. by rewrite HP.
Qed.

Lemma strstr_spec s p : is_Some (strstr s p) <-> exists t u, s = t ++ p ++ u.
Proof.
  induction s as [|c s IH]; simpl; destruct (is_prefix p _) eqn:E.
  - apply is_prefix_spec in E as [u Hu]. split; [|eauto]. intros _. by exists [], u.
  - split; [by intros [? ?]|]. intros (t & u & Htu). destruct t; [|done].
    destruct p; [done|]. done.
  - apply is_prefix_spec in E as [u Hu]. split; [|eauto]. intros _. by exists [], u.
  - rewrite IH. split.
    + intros (t & u & ->). by exists (c :: t), u.
    + intros (t & u & Htu). destruct t as [|d t]; simplify_eq/=; [|eauto].
      rewrite Htu, is_prefix_app in E. done.
Qed.

(** ** Decimal numbers: [strtoul] reads back what [%u] prints *)

Definition dval (v : Z) (ds : bytes) : Z := fold_left (fun v d => 10 * v + (d - 48)) ds v.

Lemma dval_ge v ds : 0 <= v -> Forall (fun c => isdigit c = true) ds -> v <= dval v ds.
Proof.
  intros Hv Hds; revert v Hv; induction Hds as [|d ds Hd _ IH]; intros v Hv; simpl; [lia|].
  unfold isdigit in Hd; bprop. etrans; [|apply IH]; lia.
Qed.

Lemma dec_go_spec fuel n acc :
  0 <= n < 10 ^ Z.of_nat fuel -> (0 < fuel)%nat ->
  exists ds, dec_go fuel n acc = ds ++ acc /\ ds <> [] /\
    Forall (fun c => isdigit c = true) ds /\ dval 0 ds = n /\
    (length ds <= fuel)%nat.
Proof.
  revert n acc; induction fuel as [|f IH]; intros n acc Hn Hf; [lia|].
  simpl dec_go. rewrite Nat2Z.inj_succ, Z.pow_succ_r in Hn by lia.
  assert (isdigit (48 + n mod 10) = true) as Hdig
    by (unfold isdigit; rewrite andb_true_iff, !Z.leb_le; dlia).
  destruct (Z.eqb_spec (n / 10) 0) as [H0|H0].
  - exists [48 + n mod 10]. repeat split; [done|by constructor|simpl; dlia|simpl; lia].
  - destruct (IH (n / 10) ((48 + n mod 10) :: acc)) as (ds & -> & Hne & Hall & Hv & Hl).
    + dlia.
    + destruct f; [simpl in Hn; dlia|lia].
    + exists (ds ++ [48 + n mod 10]). rewrite <- app_assoc. repeat split.
      * by destruct ds.
      * apply Forall_app; eauto.
      * unfold dval in *. rewrite fold_left_app, Hv. simpl. dlia.
      * rewrite length_app; simpl; lia.
Qed.

Lemma dec_spec n : 0 <= n <= ULONG_MAX ->
  dec n <> [] /\ Forall (fun c => isdigit c = true) (dec n) /\
  dval 0 (dec n) = n /\ (length (dec n) <= 20)%nat.
Proof.
  intros Hn. destruct (dec_go_spec 20 n []) as (ds & Hd & ? & ? & ? & ?); [|lia|].
  - unfold ULONG_MAX in Hn. change (10 ^ Z.of_nat 20) with 100000000000000000000. lia.
  - unfold dec. rewrite Hd, app_nil_r. done.
Qed.

Lemma dec_go_length k fuel n acc :
  0 <= n < 10 ^ Z.of_nat k -> (0 < k <= fuel)%nat ->
  (length (dec_go fuel n acc) <= k + length acc)%nat.
Proof.
  revert k n acc; induction fuel as [|f IH]; intros k n acc Hn Hk; [lia|]. simpl.
  destruct (Z.eqb_spec (n / 10) 0) as [H0|H0]; [simpl; lia|].
  destruct k as [|k]; [lia|]. rewrite Nat2Z.inj_succ, Z.pow_succ_r in Hn by lia.
  assert ((0 < k)%nat) by (destruct k; [simpl in Hn; dlia|lia]).
  etrans; [apply (IH k); [dlia|lia]|]. simpl. lia.
Qed.

Lemma dec_length n k : 0 <= n < 10 ^ Z.of_nat k -> (0 < k <= 20)%nat ->
  (length (dec n) <= k)%nat.
Proof. intros. etrans; [by apply dec_go_length|]. simpl; lia. Qed.

Lemma scan_digits_app ds rest v :
  Forall (fun c => isdigit c = true) ds -> 0 <= v -> dval v ds <= ULONG_MAX ->
  scan_digits (ds ++ rest) v = scan_digits rest (dval v ds).
Proof.
  intros Hds; revert v; induction Hds as [|d ds Hd Hds IH]; intros v Hv Hm; simpl; [done|].
  rewrite Hd. simpl in Hm.
  assert (48 <= d) by (unfold isdigit in Hd; bprop; lia).
  assert (10 * v + (d - 48) <= dval (10 * v + (d - 48)) ds) by (apply dval_ge; [lia|done]).
  rewrite Z.min_r by (unfold dval in *; lia). apply IH; [lia|done].
Qed.

Lemma scan_digits_stop p v : isdigit (peek p) = false -> scan_digits p v = (v, p).
Proof. destruct p as [|c t]; simpl; [done|]. by intros ->. Qed.

Lemma isdigit_not_space c : isdigit c = true -> isspace c = false.
Proof. unfold isdigit, isspace. intros; bprop. lia. Qed.

(** [strtoul] at a digit starts reading there. *)
Lemma strtoul_digit p : isdigit (peek p) = true -> strtoul p = scan_digits p 0.
Proof.
  intros Hp. unfold strtoul. rewrite skip_while_stop by (by apply isdigit_not_space).
  assert (peek p <> c_minus /\ peek p <> c_plus) as [H1 H2]
    by (unfold isdigit in Hp; bprop; lia).
  apply Z.eqb_neq in H1, H2. rewrite H1, H2. simpl. rewrite Hp.
  by destruct (scan_digits p 0).
Qed.

Lemma dec_peek n rest : 0 <= n <= ULONG_MAX -> isdigit (peek (dec n ++ rest)) = true.
Proof.
  intros (Hne & Hall & _)%dec_spec. destruct (dec n) as [|d ds]; [done|].
  by apply Forall_cons in Hall as [? _].
Qed.

Lemma strtoul_dec n rest : 0 <= n <= ULONG_MAX -> isdigit (peek rest) = false ->
  strtoul (dec n ++ rest) = (n, rest).
Proof.
  intros Hn Hr. rewrite strtoul_digit by (by apply dec_peek).
  apply dec_spec in Hn as Hs. destruct Hs as (_ & Hall & Hv & _).
  rewrite scan_digits_app by (done || lia). rewrite Hv. by apply scan_digits_stop.
Qed.

Lemma scan_digits_range p v w r :
  scan_digits p v = (w, r) -> 0 <= v <= ULONG_MAX -> 0 <= w <= ULONG_MAX.
Proof.
  revert v; induction p as [|c t IH]; intros v; simpl; [by intros [= -> _]|].
  destruct (isdigit c) eqn:Hc; [|by intros [= -> _]]. intros Hs Hv.
  apply (IH _ Hs). unfold isdigit in Hc; bprop. unfold ULONG_MAX in *. lia.
Qed.

Lemma strtoul_range p : 0 <= fst (strtoul p) <= ULONG_MAX.
Proof.
  unfold strtoul. case_match; [|simpl; unfold ULONG_MAX; lia].
  destruct (scan_digits _ 0) as [v rest] eqn:Hs.
  apply scan_digits_range in Hs; [|unfold ULONG_MAX; lia]. simpl.
  destruct (_ =? c_minus); [|done]. unfold ULONG_MAX.
  pose proof (Z.mod_pos_bound (- v) 18446744073709551616). lia.
Qed.

#[export] Hint Resolve isdigit_not_space dec_peek : csem.

(** ** Masks: keeping the high bits of a [w]-bit value *)

Lemma land_high_mask w k x : 0 <= k <= w -> 0 <= x < 2 ^ w ->
  Z.land x (Z.shiftl (Z.ones w) k mod 2 ^ w) = Z.shiftl (Z.shiftr x k) k.
Proof.
  intros Hk Hx. apply Z.bits_inj'. intros i Hi.
  rewrite Z.land_spec, Z.shiftl_spec by lia.
  destruct (Z.ltb_spec i w) as [Hw|Hw].
  - rewrite Z.mod_pow2_bits_low, Z.shiftl_spec by lia.
    destruct (Z.ltb_spec i k).
    + rewrite !(Z.testbit_neg_r _ (i - k)) by lia. by rewrite andb_false_r.
    + rewrite Z.shiftr_spec, Z.ones_spec_low by lia. rewrite andb_true_r. f_equal. lia.
  - rewrite Z.mod_pow2_bits_high, andb_false_r by lia.
    destruct (Z.ltb_spec i k); [by rewrite Z.testbit_neg_r by lia|].
    rewrite Z.shiftr_spec by lia. replace (i - k + k) with i by lia.
    destruct (Z.eq_dec x 0) as [->|Hx0]; [by rewrite Z.bits_0|].
    symmetry. apply Z.bits_above_log2; [lia|]. apply Z.log2_lt_pow2; [lia|].
    eapply Z.lt_le_trans; [apply Hx|]. apply Z.pow_le_mono_r; lia.
Qed.

(** Two values agree under the mask exactly when their high parts agree. *)
Lemma land_high_mask_eqb w k x y : 0 <= k <= w -> 0 <= x < 2 ^ w -> 0 <= y < 2 ^ w ->
  (Z.land x (Z.shiftl (Z.ones w) k mod 2 ^ w) =? Z.land y (Z.shiftl (Z.ones w) k mod 2 ^ w)) =
  (x / 2 ^ k =? y / 2 ^ k).
Proof.
  intros Hk Hx Hy. rewrite !land_high_mask, !Z.shiftr_div_pow2, !Z.shiftl_mul_pow2 by lia.
  assert (0 < 2 ^ k) by (apply Z.pow_pos_nonneg; lia).
  destruct (Z.eqb_spec (x / 2 ^ k) (y / 2 ^ k)) as [->|Hne]; [apply Z.eqb_refl|].
  apply Z.eqb_neq. intros Heq. apply Hne. nia.
Qed.

Lemma strchr_app a c b : ~ In c a -> strchr (a ++ c :: b) c = Some (c :: b).
Proof.
  induction a as [|x a IH]; simpl; intros Hin; [by rewrite Z.eqb_refl|].
  destruct (Z.eqb_spec x c); [naive_solver|]. apply IH. naive_solver.
Qed.

Lemma take_while_stop f p c rest :
  Forall (fun c => f c = true) p -> f c = false -> take_while f (p ++ c :: rest) = p.
Proof. intros Hp Hc. induction Hp as [|d p Hd _ IH]; simpl; [by rewrite Hc|]. by rewrite Hd, IH. Qed.

Lemma take_while_all f p : Forall (fun c => f c = true) p -> take_while f p = p.
Proof. induction 1 as [|d p Hd _ IH]; simpl; [done|]. by rewrite Hd, IH. Qed.

Lemma strtol_dec n rest : 0 <= n <= LONG_MAX -> isdigit (peek rest) = false ->
  strtol (dec n ++ rest) = Some (n, rest).
Proof.
  intros Hn Hr. assert (0 <= n <= ULONG_MAX) as Hn' by (unfold LONG_MAX, ULONG_MAX in *; lia).
  pose proof (dec_peek n rest Hn') as Hp. pose proof (strtoul_dec n rest Hn' Hr) as Hs.
  rewrite strtoul_digit in Hs by done. unfold strtol.
  rewrite skip_while_stop by (by apply isdigit_not_space).
  assert (peek (dec n ++ rest) <> c_minus /\ peek (dec n ++ rest) <> c_plus) as [H1 H2]
    by (unfold isdigit in Hp; bprop; lia).
  apply Z.eqb_neq in H1, H2. rewrite H1, H2. simpl. rewrite Hp, Hs. f_equal. f_equal.
  unfold LONG_MAX in *. lia.
Qed.
