(* ===== verification/DdialProtocol.v ===== *)
(** Diversi-Dial wire protocol: [src/host/ddial/protocol.c] with the types of
    [include/ssh_chatter/ddial_protocol.h].  Module [Wire] holds the
    formatters and the parsers of the lines exchanged with a DDial station;
    its theorems show that what the formatters print is what the parsers read
    back, that handles and bodies are made safe for the wire, and what each
    filter lets through.  A [dst]/[dst_cap] pair is the capacity and the string
    left in the buffer; pointers are not NULL. *)

From Stdlib Require Import ZArith Lia String Ascii.
From stdpp Require Import prelude.
From S2P Require Import Prelude.

Module Wire.

Definition DDIAL_MIN_CHANNEL : Z := 1.
Definition DDIAL_MAX_CHANNEL : Z := 4.
Definition DDIAL_DEFAULT_CHANNEL : Z := 1.
Definition DDIAL_MAX_HANDLE_LEN : nat := 32.
Definition DDIAL_MAX_HANDLE_WIRE_LEN : nat := 25.
Definition DDIAL_MAX_MESSAGE_LEN : nat := 512.
Definition DDIAL_MAX_BODY_LEN : nat := 255.
Definition DDIAL_LINK_ESCAPE : Z := 126.

Inductive ddial_command :=
  | DDIAL_CMD_UNKNOWN | DDIAL_CMD_CHAT | DDIAL_CMD_PRIVATE | DDIAL_CMD_JOIN
  | DDIAL_CMD_WHO | DDIAL_CMD_MAIL | DDIAL_CMD_QUIT | DDIAL_CMD_HELP
  | DDIAL_CMD_TIME | DDIAL_CMD_USERS | DDIAL_CMD_STATS | DDIAL_CMD_NEWS
  | DDIAL_CMD_INFO | DDIAL_CMD_VERSION | DDIAL_CMD_BELL | DDIAL_CMD_DUPLEX
  | DDIAL_CMD_KICK | DDIAL_CMD_LINK.

Inductive ddial_user_tier := DDIAL_TIER_GUEST | DDIAL_TIER_PASSWORD | DDIAL_TIER_MASTER.

Inductive ddial_link_msg :=
  | DDIAL_LINK_MSG_UNKNOWN | DDIAL_LINK_MSG_MEMBER_EVENT
  | DDIAL_LINK_MSG_GUEST_EVENT | DDIAL_LINK_MSG_STATION_BROADCAST.

#[export] Instance ddial_command_eq_dec : EqDecision ddial_command.
Proof. solve_decision. Defined.
#[export] Instance ddial_user_tier_eq_dec : EqDecision ddial_user_tier.
Proof. solve_decision. Defined.
#[export] Instance ddial_link_msg_eq_dec : EqDecision ddial_link_msg.
Proof. solve_decision. Defined.

Record ddial_parsed_message := {
  pm_command : ddial_command;
  pm_handle : bytes;
  pm_body : bytes;
  pm_channel : Z
}.

Definition ddial_tier_symbol (tier : ddial_user_tier) : bytes :=
  match tier with
  | DDIAL_TIER_PASSWORD => lit "*"
  | DDIAL_TIER_MASTER => lit "$"
  | DDIAL_TIER_GUEST => lit ""
  end.

Definition ddial_tier_bracket_open (tier : ddial_user_tier) : bytes :=
  match tier with
  | DDIAL_TIER_PASSWORD => lit "["
  | DDIAL_TIER_MASTER => lit "<"
  | DDIAL_TIER_GUEST => lit "("
  end.

Definition ddial_tier_bracket_close (tier : ddial_user_tier) : bytes :=
  match tier with
  | DDIAL_TIER_PASSWORD => lit "]"
  | DDIAL_TIER_MASTER => lit ">"
  | DDIAL_TIER_GUEST => lit ")"
  end.

(** ** Filters *)

(** The final byte of a CSI sequence. *)
Definition csi_final (p : Z) : bool := (64 <=? p) && (p <=? 126).

(** The loop of [ddial_strip_ansi]; [room] is [dst_cap - 1 - j]. *)
Fixpoint strip_ansi_go (room : nat) (src : bytes) {struct src} : bytes :=
  match room, src with
  | O, _ | _, [] => []
  | S room', c :: t =>
      if c =? c_esc then
        match t with
        | [] => []
        | d :: t' =>
            if d =? c_lbracket then
              (fix skip_csi (p : bytes) : bytes :=
                 match p with
                 | [] => []
                 | e :: p' => if csi_final e then strip_ansi_go room p' else skip_csi p'
                 end) t'
            else strip_ansi_go room t'
        end
      else if (c =? c_bel) || (c =? c_bs) then strip_ansi_go room t
      else c :: strip_ansi_go room' t
  end.

Definition ddial_strip_ansi (src : bytes) (dst_cap : nat) : bytes :=
  strip_ansi_go (dst_cap - 1) src.

(** The characters a handle must not hold on the wire. *)
Definition handle_forbidden (c : Z) : bool :=
  (c =? c_caret) || (c =? c_rparen) || (c =? c_rbrace) || (c =? c_rbracket) ||
  (c =? c_gt) || (c =? c_cr) || (c =? c_lf).

(** The copy loop of [ddial_sanitize_handle]. *)
Fixpoint sanitize_go (room : nat) (s : bytes) : bytes :=
  match room, s with
  | O, _ | _, [] => []
  | S room', c :: t =>
      if c =? c_nul then []
      else if handle_forbidden c then sanitize_go room t
      else c :: sanitize_go room' t
  end.

Definition ddial_sanitize_handle (src : bytes) (dst_cap : nat) : bytes :=
  sanitize_go (Nat.min (dst_cap - 1) DDIAL_MAX_HANDLE_WIRE_LEN)
    (ddial_strip_ansi src DDIAL_MAX_HANDLE_LEN).

(** [clean_handle] of the formatters. *)
Definition clean_handle (handle : bytes) : bytes :=
  ddial_sanitize_handle handle DDIAL_MAX_HANDLE_LEN.

(** The digit loop of [ddial_slot_is_valid]; a [uint16_t] has 5 digits. *)
Fixpoint slot_digits_ok (fuel : nat) (n : Z) : bool :=
  match fuel with
  | O => true
  | S f =>
      if 0 <? n then
        let digit := n mod 10 in
        if (digit =? 8) || (digit =? 9) then false else slot_digits_ok f (n / 10)
      else true
  end.

Definition ddial_slot_is_valid (slot : Z) : bool :=
  if slot =? 0 then true else slot_digits_ok 5 slot.

Fixpoint clean_body_go (room : nat) (s : bytes) : bytes :=
  match room, s with
  | O, _ | _, [] => []
  | S room', c :: t =>
      if (c =? c_cr) || (c =? c_lf) then [] else c :: clean_body_go room' t
  end.

Definition ddial_clean_body (message : bytes) (dst_cap : nat) : bytes :=
  clean_body_go (Nat.min (dst_cap - 1) DDIAL_MAX_BODY_LEN) message.

(** [clean_body] of the formatters. *)
Definition clean_body (message : bytes) : bytes :=
  ddial_clean_body message (DDIAL_MAX_BODY_LEN + 1).

Fixpoint expand_carets_go (room : nat) (s : bytes) : bytes :=
  match room, s with
  | O, _ | _, [] => []
  | S room', c :: t =>
      (if c =? c_caret then c_lf else c) :: expand_carets_go room' t
  end.

Definition ddial_expand_carets (src : bytes) (dst_cap : nat) : bytes :=
  expand_carets_go (dst_cap - 1) src.

(** The loop of [ddial_filter_telnet_iac]; [room] is [dst_cap - j].  A byte
    that is not IAC needs [j + 1 < dst_cap], the escaped IAC only
    [j < dst_cap]. *)
Fixpoint telnet_iac_go (room : nat) (src : bytes) {struct src} : bytes :=
  match room, src with
  | O, _ | _, [] => []
  | S room', c :: t =>
      if negb (c =? 255) then
        match room' with
        | O => telnet_iac_go room t
        | S _ => c :: telnet_iac_go room' t
        end
      else
        match t with
        | [] => []
        | cmd :: t' =>
            if cmd =? 255 then 255 :: telnet_iac_go room' t'
            else if cmd =? 250 then
              (fix skip_sb (p : bytes) : bytes :=
                 match p with
                 | [] => []
                 | x :: p' =>
                     match p' with
                     | [] => []
                     | y :: p'' =>
                         if (x =? 255) && (y =? 240) then telnet_iac_go room p''
                         else skip_sb p'
                     end
                 end) t'
            else if (240 <=? cmd) && (cmd <=? 249) then telnet_iac_go room t'
            else if (251 <=? cmd) && (cmd <=? 254) then
              match t' with
              | [] => telnet_iac_go room t'
              | _ :: t'' => telnet_iac_go room t''
              end
            else telnet_iac_go room t'
        end
  end.

Definition ddial_filter_telnet_iac (src : bytes) (dst_cap : nat) : bytes :=
  telnet_iac_go dst_cap src.

(** ** Formatters *)

Definition clamp_channel (channel : Z) : Z :=
  let channel := if channel <? DDIAL_MIN_CHANNEL then DDIAL_DEFAULT_CHANNEL else channel in
  if DDIAL_MAX_CHANNEL <? channel then DDIAL_MAX_CHANNEL else channel.

Definition crlf : bytes := [c_cr; c_lf].

Definition ddial_format_chat (dst_cap : nat) (slot channel : Z) (tier : ddial_user_tier)
    (handle message : bytes) : bool * bytes :=
  let channel := clamp_channel channel in
  snprintf dst_cap
    (lit "#" ++ dec slot ++ ddial_tier_bracket_open tier ++ lit "T" ++ dec channel ++ lit ":" ++
     clean_handle handle ++ ddial_tier_symbol tier ++ ddial_tier_bracket_close tier ++
     lit " " ++ clean_body message ++ crlf).

Definition ddial_format_private (dst_cap : nat) (from_slot : Z) (from_handle message : bytes) :
    bool * bytes :=
  snprintf dst_cap
    (lit "IM from #" ++ dec from_slot ++ lit "[" ++ clean_handle from_handle ++ lit "]: " ++
     clean_body message ++ crlf).

Definition ddial_format_who_entry (dst_cap : nat) (slot channel : Z) (tier : ddial_user_tier)
    (handle : bytes) (account : Z) : bool * bytes :=
  snprintf dst_cap
    (lit "#" ++ dec slot ++ ddial_tier_bracket_open tier ++ lit "T" ++ dec channel ++ lit ":" ++
     clean_handle handle ++ ddial_tier_symbol tier ++ ddial_tier_bracket_close tier ++
     lit " #" ++ dec_pad 3 account ++ crlf).

Definition ddial_format_link_chat (dst_cap : nat) (slot channel : Z) (tier : ddial_user_tier)
    (handle message : bytes) : bool * bytes :=
  let channel := clamp_channel channel in
  snprintf dst_cap
    (lit "#" ++ dec slot ++ ddial_tier_bracket_open tier ++ lit "T" ++ dec channel ++ lit ":" ++
     clean_handle handle ++ lit ") " ++ clean_body message ++ crlf).

Definition ddial_format_link_dual_chat (dst_cap : nat) (slot channel : Z)
    (tier : ddial_user_tier) (handle message : bytes) : bool * bytes :=
  let channel := clamp_channel channel in
  snprintf dst_cap
    (lit "~#" ++ dec slot ++ ddial_tier_bracket_open tier ++ lit "T" ++ dec channel ++ lit ":" ++
     clean_handle handle ++ lit ") " ++ clean_body message ++ crlf).

Definition ddial_format_broadcast_header (dst_cap : nat) (station_name : bytes)
    (station_locked : bool) : bool * bytes :=
  if (dst_cap =? 0)%nat || bytes_eqb station_name [] then (false, [])
  else
    let clean_name := clean_handle station_name in
    if bytes_eqb clean_name [] then (false, [])
    else snprintf dst_cap
           (lit "}}}-" ++ [if station_locked then c_comma else c_dot] ++ clean_name).

Definition ddial_format_broadcast_entry (dst_cap : nat) (slot channel : Z)
    (tier : ddial_user_tier) (handle : bytes) (account : Z) (is_link : bool) : bool * bytes :=
  let channel := clamp_channel channel in
  let head := lit "^#" ++ dec slot ++ ddial_tier_bracket_open tier ++ lit "T" ++ dec channel in
  if is_link then
    snprintf dst_cap (head ++ lit "=" ++ clean_handle handle ++ lit ":" ++ dec account)
  else match tier with
       | DDIAL_TIER_GUEST => snprintf dst_cap (head ++ lit ":" ++ clean_handle handle)
       | _ => snprintf dst_cap (head ++ lit ":" ++ clean_handle handle ++ lit ":" ++ dec account)
       end.

Definition ddial_format_link_private (dst_cap : nat) (target_slot our_slot channel : Z)
    (our_tier : ddial_user_tier) (our_handle message : bytes) : bool * bytes :=
  let channel := clamp_channel channel in
  snprintf dst_cap
    (lit "/P" ++ dec target_slot ++ lit " #" ++ dec our_slot ++
     ddial_tier_bracket_open our_tier ++ lit "T" ++ dec channel ++ lit ":" ++
     clean_handle our_handle ++ lit ") " ++ clean_body message ++ crlf).

Definition ddial_format_link_email (dst_cap : nat) (to_station from_account : Z)
    (from_handle message : bytes) : bool * bytes :=
  snprintf dst_cap
    (lit "/E~" ++ dec_pad 3 to_station ++ lit "(" ++ dec_pad 3 from_account ++ lit ":" ++
     clean_handle from_handle ++ lit ") " ++ clean_body message ++ crlf).

Definition ddial_format_link_event (dst_cap : nat) (slot channel : Z) (tier : ddial_user_tier)
    (handle : bytes) (account : Z) (is_link station_locked is_login : bool) : bool * bytes :=
  let prefix := match tier with DDIAL_TIER_GUEST => lit "}}" | _ => lit "}" end in
  let lock_char := if station_locked then c_comma else c_dot in
  let sign := if is_login then c_plus else c_minus in
  let channel := clamp_channel channel in
  let head := prefix ++ lit "-->" ++ [lock_char] ++ lit " " ++ [sign] ++ lit "^#" ++ dec slot ++
              ddial_tier_bracket_open tier ++ lit "T" ++ dec channel in
  if is_link then snprintf dst_cap (head ++ lit "=" ++ clean_handle handle ++ crlf)
  else match tier with
       | DDIAL_TIER_GUEST => snprintf dst_cap (head ++ lit ":?" ++ crlf)
       | _ =>
           if 0 <? account then
             snprintf dst_cap
               (head ++ lit ":" ++ clean_handle handle ++ lit ":#" ++ dec account ++ lit "*" ++ crlf)
           else snprintf dst_cap (head ++ lit ":" ++ clean_handle handle ++ crlf)
       end.

Definition ddial_format_link_login (dst_cap : nat) (slot channel : Z) (tier : ddial_user_tier)
    (handle : bytes) (account : Z) (is_link station_locked : bool) : bool * bytes :=
  ddial_format_link_event dst_cap slot channel tier handle account is_link station_locked true.

Definition ddial_format_link_logout (dst_cap : nat) (slot channel : Z) (tier : ddial_user_tier)
    (handle : bytes) (account : Z) (is_link station_locked : bool) : bool * bytes :=
  ddial_format_link_event dst_cap slot channel tier handle account is_link station_locked false.

Definition ddial_format_prompt (dst_cap : nat) : bool * bytes := snprintf dst_cap (lit "--> ").

Definition ddial_format_system (dst_cap : nat) (message : bytes) : bool * bytes :=
  snprintf dst_cap (lit "** " ++ message ++ lit " **" ++ crlf).

(** ** Parsers *)

(** The kind of a link broadcast and the text after its prefix. *)
Definition ddial_parse_link_prefix (line : bytes) : ddial_link_msg * bytes :=
  if negb (peek line =? c_rbrace) then (DDIAL_LINK_MSG_UNKNOWN, line)
  else if negb (nthb line 1 =? c_nul) && (nthb line 1 =? c_rbrace) && (nthb line 2 =? c_rbrace)
  then (DDIAL_LINK_MSG_STATION_BROADCAST, drop 3 line)
  else if nthb line 1 =? c_rbrace then (DDIAL_LINK_MSG_GUEST_EVENT, drop 2 line)
  else (DDIAL_LINK_MSG_MEMBER_EVENT, drop 1 line).

Definition no_message : ddial_parsed_message :=
  {| pm_command := DDIAL_CMD_UNKNOWN; pm_handle := []; pm_body := [];
     pm_channel := DDIAL_DEFAULT_CHANNEL |}.

Definition with_command (c : ddial_command) (m : ddial_parsed_message) : ddial_parsed_message :=
  {| pm_command := c; pm_handle := pm_handle m; pm_body := pm_body m; pm_channel := pm_channel m |}.
Definition with_handle (h : bytes) (m : ddial_parsed_message) : ddial_parsed_message :=
  {| pm_command := pm_command m; pm_handle := h; pm_body := pm_body m; pm_channel := pm_channel m |}.
Definition with_body (b : bytes) (m : ddial_parsed_message) : ddial_parsed_message :=
  {| pm_command := pm_command m; pm_handle := pm_handle m; pm_body := b; pm_channel := pm_channel m |}.
Definition with_channel (c : Z) (m : ddial_parsed_message) : ddial_parsed_message :=
  {| pm_command := pm_command m; pm_handle := pm_handle m; pm_body := pm_body m; pm_channel := c |}.

(** A copy into [body], cut to its size. *)
Definition copy_body (s : bytes) : bytes := take (DDIAL_MAX_MESSAGE_LEN - 1) s.

(** The commands that are recognised by their letter alone. *)
Definition simple_command (cmd_char : Z) : option ddial_command :=
  if cmd_char =? 87 then Some DDIAL_CMD_WHO
  else if cmd_char =? 69 then Some DDIAL_CMD_MAIL
  else if cmd_char =? 81 then Some DDIAL_CMD_QUIT
  else if (cmd_char =? 72) || (cmd_char =? c_question) then Some DDIAL_CMD_HELP
  else if cmd_char =? 84 then Some DDIAL_CMD_TIME
  else if cmd_char =? 85 then Some DDIAL_CMD_USERS
  else if cmd_char =? 83 then Some DDIAL_CMD_STATS
  else if cmd_char =? 78 then Some DDIAL_CMD_NEWS
  else if cmd_char =? 73 then Some DDIAL_CMD_INFO
  else if cmd_char =? 86 then Some DDIAL_CMD_VERSION
  else if cmd_char =? 66 then Some DDIAL_CMD_BELL
  else if cmd_char =? 68 then Some DDIAL_CMD_DUPLEX
  else None.

(** The [/P] branch: the first token is the handle, the rest the body. *)
Definition parse_private_args (args : bytes) (m : ddial_parsed_message) : ddial_parsed_message :=
  let at_name := skip_while isspace args in
  let name := take_while (fun c => negb (isspace c)) at_name in
  let after := skip_while (fun c => negb (isspace c)) at_name in
  let m := if ((0 <? length name) && (length name <? DDIAL_MAX_HANDLE_LEN))%nat
           then with_handle name m else m in
  with_body (copy_body (skip_while isspace after)) m.

(** The value returned and, unless [line_len] is 0, the message written. *)
Definition ddial_parse_command (line : bytes) : ddial_command * option ddial_parsed_message :=
  match line with
  | [] => (DDIAL_CMD_UNKNOWN, None)
  | _ =>
      match skip_while isspace line with
      | [] => (DDIAL_CMD_UNKNOWN, Some no_message)
      | c :: t =>
          if negb (c =? c_slash) then
            (DDIAL_CMD_CHAT, Some (with_body (copy_body (c :: t)) (with_command DDIAL_CMD_CHAT no_message)))
          else
            match t with
            | [] => (DDIAL_CMD_UNKNOWN, Some no_message)
            | d :: t' =>
                let cmd_char := toupper d in
                let args := skip_while isspace t' in
                let body_of c := with_body (copy_body args) (with_command c no_message) in
                if cmd_char =? 67 then (DDIAL_CMD_CHAT, Some (body_of DDIAL_CMD_CHAT))
                else if cmd_char =? c_P then
                  (DDIAL_CMD_PRIVATE,
                   Some (let m := with_command DDIAL_CMD_PRIVATE no_message in
                         match args with [] => m | _ => parse_private_args args m end))
                else if cmd_char =? 74 then
                  (DDIAL_CMD_JOIN,
                   Some (let m := with_command DDIAL_CMD_JOIN no_message in
                         match args with
                         | [] => m
                         | a :: _ =>
                             let ch := a - c_0 in
                             if (DDIAL_MIN_CHANNEL <=? ch) && (ch <=? DDIAL_MAX_CHANNEL)
                             then with_channel ch m else m
                         end))
                else if cmd_char =? 75 then (DDIAL_CMD_KICK, Some (body_of DDIAL_CMD_KICK))
                else match simple_command cmd_char with
                     | Some c => (c, Some (with_command c no_message))
                     | None => (DDIAL_CMD_UNKNOWN, Some no_message)
                     end
            end
      end
  end.

#[local] Arguments parse_private_args : simpl never.

Record identity := {
  id_slot : Z; id_channel : Z; id_is_link : bool; id_handle : bytes
}.

(** The byte that ends a handle on the wire. *)
Definition handle_closer (c : Z) : bool :=
  (c =? c_rparen) || (c =? c_rbracket) || (c =? c_gt).

(** The handle inside the brackets: without the account number after a [:],
    without the tier marks at its end. *)
Definition identity_handle (region : bytes) (handle_cap : nat) : bytes :=
  let h := take_while (fun c => negb (c =? c_colon)) region in
  let h := strip_trailing (fun c => (c =? c_star) || (c =? c_dollar)) h in
  take (handle_cap - 1) h.

Definition ddial_parse_identity (p : bytes) (handle_cap : nat) : option (identity * bytes) :=
  if negb (peek p =? c_hash) then None else
  let p := drop 1 p in
  if negb (isdigit (peek p)) then None else
  let (slot, p) := strtoul p in
  if UINT16_MAX <? slot then None else
  let bo := peek p in
  if negb (bo =? c_lparen) && negb (bo =? c_lbracket) && negb (bo =? c_lt) then None else
  let p := drop 1 p in
  if negb (peek p =? c_T) || negb (isdigit (nthb p 1)) then None else
  let channel := nthb p 1 - c_0 in
  let p := drop 2 p in
  let marked := (peek p =? c_colon) || (peek p =? c_eq) in
  let is_link := marked && (peek p =? c_eq) in
  let p := if marked then drop 1 p else p in
  let region := take_while (fun c => negb (handle_closer c)) p in
  match skip_while (fun c => negb (handle_closer c)) p with
  | [] => None
  | _ :: rest =>
      Some ({| id_slot := slot; id_channel := channel; id_is_link := is_link;
               id_handle := identity_handle region handle_cap |}, rest)
  end.

Record incoming_chat := {
  ic_link_slot : Z; ic_identity : identity; ic_dual_channel : bool; ic_message : bytes
}.

Definition skip_one_space (p : bytes) : bytes := if peek p =? c_space then drop 1 p else p.

Definition ddial_parse_incoming_chat (line : bytes) (handle_cap : nat) : option incoming_chat :=
  let dual := peek line =? DDIAL_LINK_ESCAPE in
  let p := if dual then drop 1 line else line in
  let (link_slot, p) :=
    if isdigit (peek p) then
      let (candidate, q) := strtoul p in
      if (peek q =? c_hash) && (0 <? candidate) && (candidate <=? UINT16_MAX)
      then (candidate, q) else (0, p)
    else (0, p) in
  match ddial_parse_identity p handle_cap with
  | None => None
  | Some (i, p) =>
      Some {| ic_link_slot := link_slot; ic_identity := i; ic_dual_channel := dual;
              ic_message := skip_one_space p |}
  end.

Record incoming_private := { ip_target_slot : Z; ip_from : identity; ip_message : bytes }.

Definition ddial_parse_incoming_private (line : bytes) (handle_cap : nat) :
    option incoming_private :=
  if negb (peek line =? c_slash) || (negb (nthb line 1 =? c_P) && negb (nthb line 1 =? c_p))
  then None else
  let p := drop 2 line in
  if negb (isdigit (peek p)) then None else
  let (target, p) := strtoul p in
  if UINT16_MAX <? target then None else
  let p := skip_while (fun c => c =? c_space) p in
  match ddial_parse_identity p handle_cap with
  | None => None
  | Some (i, p) =>
      Some {| ip_target_slot := target; ip_from := i; ip_message := skip_one_space p |}
  end.

Record incoming_email := {
  ie_from_station : Z; ie_to_id : Z; ie_from_id : Z; ie_handle : bytes; ie_message : bytes
}.

Definition digits3 (p : bytes) (i : nat) : Z :=
  (nthb p i - c_0) * 100 + (nthb p (i + 1) - c_0) * 10 + (nthb p (i + 2) - c_0).

Definition ddial_parse_incoming_email (line : bytes) (handle_cap : nat) : option incoming_email :=
  if negb (peek line =? c_slash) || (negb (nthb line 1 =? c_E) && negb (nthb line 1 =? c_e))
     || negb (nthb line 2 =? c_tilde)
  then None else
  let p := drop 3 line in
  if negb (forallb (fun i => isdigit (nthb p i)) (seq 0 6)) then None else
  let from_station := digits3 p 0 in
  let to_id := digits3 p 3 in
  let p := drop 6 p in
  if negb (peek p =? c_lparen) then None else
  let p := drop 1 p in
  if negb (isdigit (peek p)) then None else
  let (from_id, p) := strtoul p in
  let from_id := u32 from_id in
  if negb (peek p =? c_colon) then None else
  let p := drop 1 p in
  match skip_while (fun c => negb (c =? c_rparen)) p with
  | [] => None
  | _ :: rest =>
      Some {| ie_from_station := from_station; ie_to_id := to_id; ie_from_id := from_id;
              ie_handle := take (handle_cap - 1) (take_while (fun c => negb (c =? c_rparen)) p);
              ie_message := skip_one_space rest |}
  end.

(** ** What the filters guarantee *)


Lemma sanitize_go_length room s : (length (sanitize_go room s) <= room)%nat.
Proof.
  revert room; induction s as [|c t IH]; intros [|room]; simpl; try lia.
  repeat case_match; simpl; [lia|apply IH|]. specialize (IH room). lia.
Qed.

Lemma sanitize_go_clean room s :
  Forall (fun c => handle_forbidden c = false /\ c <> c_nul) (sanitize_go room s).
Proof.
  revert room; induction s as [|c t IH]; intros [|room]; simpl; try by constructor.
  repeat case_match; bprop; eauto.
Qed.

Lemma sanitize_go_subset (P : Z -> Prop) room s : Forall P s -> Forall P (sanitize_go room s).
Proof.
  intros Hs; revert room; induction Hs as [|c t Hc _ IH]; intros [|room]; simpl; try by constructor.
  repeat case_match; eauto.
Qed.

Lemma sanitize_go_id room s :
  Forall (fun c => handle_forbidden c = false /\ c <> c_nul) s -> (length s <= room)%nat ->
  sanitize_go room s = s.
Proof.
  intros Hs; revert room; induction Hs as [|c t [Hc Hc'] _ IH]; intros [|room] Hl; simpl in *;
    try done; [lia|].
  apply Z.eqb_neq in Hc'. rewrite Hc', Hc. f_equal. apply IH. lia.
Qed.

Lemma clean_handle_length h : (length (clean_handle h) <= 25)%nat.
Proof. unfold clean_handle, ddial_sanitize_handle. etrans; [apply sanitize_go_length|]. vm_compute. lia. Qed.

Lemma clean_handle_clean h :
  Forall (fun c => handle_forbidden c = false /\ c <> c_nul) (clean_handle h).
Proof. apply sanitize_go_clean. Qed.

Lemma clean_handle_no_closer h : Forall (fun c => negb (handle_closer c) = true) (clean_handle h).
Proof.
  eapply Forall_impl; [apply clean_handle_clean|]. unfold handle_forbidden, handle_closer.
  intros c [Hc _]. bprop. lia.
Qed.

(** Strong induction on the source, shared by the filters that skip ahead. *)
Lemma bytes_len_ind (P : bytes -> Prop) :
  (forall s, (forall t, (length t < length s)%nat -> P t) -> P s) -> forall s, P s.
Proof. intros H s. induction s as [s IH] using (induction_ltof1 _ (@length Z)). auto. Qed.

(** A CSI sequence inside [strip_ansi_go]: what is left after its final byte. *)
Fixpoint after_csi (p : bytes) : bytes :=
  match p with
  | [] => []
  | e :: p' => if csi_final e then p' else after_csi p'
  end.

Lemma after_csi_length p : (length (after_csi p) <= length p)%nat.
Proof. induction p; simpl; [lia|]. case_match; simpl; lia. Qed.

Lemma strip_ansi_csi room t' : strip_ansi_go (S room) (c_esc :: c_lbracket :: t') =
  strip_ansi_go (S room) (after_csi t').
Proof.
  simpl. induction t' as [|e p IH]; [done|].
  simpl after_csi. destruct (csi_final e); [done|apply IH].
Qed.

Definition ansi_noise (c : Z) : bool := (c =? c_esc) || (c =? c_bel) || (c =? c_bs).

Lemma strip_ansi_go_inv room src :
  Forall (fun c => ansi_noise c = false) (strip_ansi_go room src) /\
  (length (strip_ansi_go room src) <= room)%nat.
Proof.
  revert room; induction src as [src IH] using bytes_len_ind; intros [|room].
  { destruct src; simpl; split; done || constructor. }
  destruct src as [|c t]; [simpl; split; [constructor|lia]|].
  destruct (Z.eqb_spec c c_esc) as [->|Hc].
  - destruct t as [|d t']; [simpl; split; [constructor|lia]|].
    destruct (Z.eqb_spec d c_lbracket) as [->|Hd].
    + rewrite strip_ansi_csi. apply IH. pose proof (after_csi_length t'). simpl. lia.
    + apply Z.eqb_neq in Hd. simpl. rewrite Hd. apply IH. simpl. lia.
  - apply Z.eqb_neq in Hc. simpl. rewrite Hc.
    destruct ((c =? c_bel) || (c =? c_bs)) eqn:Hn; [apply IH; simpl; lia|].
    destruct (IH t ltac:(simpl; lia) room) as [H1 H2]. split; [|simpl; lia].
    constructor; [|done]. unfold ansi_noise. by rewrite Hc.
Qed.

Lemma strip_ansi_go_id room s :
  Forall (fun c => ansi_noise c = false) s -> strip_ansi_go room s = take room s.
Proof.
  revert room; induction s as [|c t IH]; intros [|room] Hs; try done.
  apply Forall_cons in Hs as [Hc Ht]. unfold ansi_noise in Hc.
  rewrite <- orb_assoc in Hc. apply orb_false_iff in Hc as [H1 H2].
  simpl. rewrite H1, H2. f_equal. by apply IH.
Qed.

(** ** What the parsers read *)

(** A handle that the identity parser returns whole: no [:] (an account number
    would start there) and no tier mark at its end. *)
Definition plain_handle (h : bytes) : bool :=
  forallb (fun c => negb (c =? c_colon)) h &&
  match last h with
  | Some c => negb ((c =? c_star) || (c =? c_dollar))
  | None => true
  end.

Lemma strip_trailing_sym f h sym :
  Forall (fun c => f c = true) sym ->
  match last h with Some c => f c | None => false end = false ->
  strip_trailing f (h ++ sym) = h.
Proof.
  intros Hsym Hlast. unfold strip_trailing.
  rewrite rev_app_distr, skip_while_app by (rewrite Forall_forall in *; intros x;
    rewrite list_elem_of_In, <- in_rev, <- list_elem_of_In; auto).
  destruct h as [|h c _] using rev_ind; [done|].
  rewrite last_snoc in Hlast. rewrite rev_app_distr; simpl. rewrite Hlast.
  simpl. rewrite rev_involutive. done.
Qed.

Lemma identity_handle_plain h sym cap :
  plain_handle h = true -> (length h < cap)%nat ->
  Forall (fun c => (c =? c_star) || (c =? c_dollar) = true) sym ->
  identity_handle (h ++ sym) cap = h.
Proof.
  unfold plain_handle, identity_handle. rewrite andb_true_iff, forallb_Forall.
  intros [Hcol Hlast] Hlen Hsym.
  rewrite take_while_all, strip_trailing_sym; [apply take_ge; lia|done| |].
  - destruct (last h); [|done]. by apply negb_true_iff.
  - apply Forall_app; split; [done|]. eapply Forall_impl; [done|]. simpl; intros x Hx; bprop; lia.
Qed.

Lemma clamp_channel_range ch : 1 <= clamp_channel ch <= 4.
Proof. unfold clamp_channel, DDIAL_MIN_CHANNEL, DDIAL_DEFAULT_CHANNEL, DDIAL_MAX_CHANNEL. cases; lia. Qed.

Lemma dec_small n : 0 <= n < 10 -> dec n = [48 + n].
Proof.
  intros Hn. unfold dec. change 20%nat with (S 19). simpl.
  rewrite Z.div_small, Z.mod_small by lia. done.
Qed.

Lemma bracket_open_ok tier : exists bo, ddial_tier_bracket_open tier = [bo] /\
  negb (bo =? c_lparen) && negb (bo =? c_lbracket) && negb (bo =? c_lt) = false /\
  isdigit bo = false.
Proof. destruct tier; eexists; repeat split. Qed.

(** The identity every formatter prints is the one the parser returns. *)
Lemma parse_identity_printed slot ch tier sep h closer rest cap :
  0 <= slot <= UINT16_MAX -> 0 <= ch < 10 -> sep = c_colon \/ sep = c_eq ->
  Forall (fun c => negb (handle_closer c) = true) h -> handle_closer closer = true ->
  ddial_parse_identity
    (c_hash :: dec slot ++ ddial_tier_bracket_open tier ++ c_T :: dec ch ++ sep :: h ++ closer :: rest)
    cap =
  Some ({| id_slot := slot; id_channel := ch; id_is_link := sep =? c_eq;
           id_handle := identity_handle h cap |}, rest).
Proof.
  intros Hslot Hch Hsep Hh Hcl. destruct (bracket_open_ok tier) as (bo & -> & Hbo & Hdig).
  unfold ddial_parse_identity. psimp.
  rewrite dec_peek by (unfold UINT16_MAX, ULONG_MAX in *; lia).
  rewrite strtoul_dec by (done || (unfold UINT16_MAX, ULONG_MAX in *; lia)).
  assert ((UINT16_MAX <? slot) = false) as -> by lia.
  rewrite (dec_small ch) by lia. psimp. rewrite Hbo. unfold nthb. psimp.
  assert (isdigit (48 + ch) = true) as -> by (unfold isdigit; lia).
  simpl.
  assert ((sep =? c_colon) || (sep =? c_eq) = true) as Hm by (destruct Hsep; subst; done).
  rewrite Hm. psimp.
  rewrite take_while_stop by (done || by rewrite Hcl).
  rewrite skip_while_app by done. simpl. rewrite Hcl. simpl.
  do 4 f_equal. lia.
Qed.

(** The tier marks and brackets around a handle are what the parser skips. *)
Lemma tier_marks tier : exists closer,
  ddial_tier_bracket_close tier = [closer] /\ handle_closer closer = true /\
  Forall (fun c => (c =? c_star) || (c =? c_dollar) = true) (ddial_tier_symbol tier) /\
  Forall (fun c => negb (handle_closer c) = true) (ddial_tier_symbol tier).
Proof. destruct tier; eexists; repeat split; repeat constructor. Qed.

(** [parse_identity_printed] for the handle the formatters print. *)
Lemma parse_identity_clean slot ch tier handle sym closer rest :
  0 <= slot <= UINT16_MAX -> plain_handle (clean_handle handle) = true ->
  handle_closer closer = true ->
  Forall (fun c => (c =? c_star) || (c =? c_dollar) = true) sym ->
  Forall (fun c => negb (handle_closer c) = true) sym ->
  ddial_parse_identity
    (c_hash :: dec slot ++ ddial_tier_bracket_open tier ++
     c_T :: dec (clamp_channel ch) ++ c_colon :: clean_handle handle ++ sym ++ closer :: rest)
    DDIAL_MAX_HANDLE_LEN =
  Some ({| id_slot := slot; id_channel := clamp_channel ch; id_is_link := false;
           id_handle := clean_handle handle |}, rest).
Proof.
  intros. pose proof (clamp_channel_range ch). pose proof (clean_handle_length handle).
  rewrite (app_assoc (clean_handle handle)), parse_identity_printed; [|done|lia|by left| |done].
  - rewrite identity_handle_plain; [done|done| |done]. unfold DDIAL_MAX_HANDLE_LEN; lia.
  - apply Forall_app; split; [apply clean_handle_no_closer|done].
Qed.

Lemma parse_identity_link slot ch tier handle rest :
  0 <= slot <= UINT16_MAX -> plain_handle (clean_handle handle) = true ->
  ddial_parse_identity
    (c_hash :: dec slot ++ ddial_tier_bracket_open tier ++
     c_T :: dec (clamp_channel ch) ++ c_colon :: clean_handle handle ++ c_rparen :: rest)
    DDIAL_MAX_HANDLE_LEN =
  Some ({| id_slot := slot; id_channel := clamp_channel ch; id_is_link := false;
           id_handle := clean_handle handle |}, rest).
Proof. intros. by apply (parse_identity_clean _ _ _ _ []). Qed.

(** What [ddial_format_chat] prints is read back. *)
Lemma format_chat_parses cap slot channel tier handle message line :
  0 <= slot <= UINT16_MAX -> plain_handle (clean_handle handle) = true ->
  ddial_format_chat cap slot channel tier handle message = (true, line) ->
  ddial_parse_incoming_chat line DDIAL_MAX_HANDLE_LEN =
  Some {| ic_link_slot := 0;
          ic_identity := {| id_slot := slot; id_channel := clamp_channel channel;
                            id_is_link := false; id_handle := clean_handle handle |};
          ic_dual_channel := false;
          ic_message := clean_body message ++ crlf |}.
Proof.
  intros Hslot Hplain ->%snprintf_true. unfold ddial_parse_incoming_chat.
  destruct (tier_marks tier) as (closer & -> & Hcl & Hsym & Hsym'). lits. psimp.
  change (isdigit c_hash) with false. cbn iota.
  rewrite parse_identity_clean by done. done.
Qed.

(** ** Properties *)

(** A public chat line printed by [ddial_format_chat] (any tier, any
    message, any channel) is read back by [ddial_parse_incoming_chat] as the
    same slot, the channel clamped to 1..4, the handle as it was made safe, and
    the cleaned body with the line end that follows it, provided the safe handle
    holds no [:] and does not end in a tier mark. *)
Theorem chat_roundtrip cap slot channel tier handle message line :
  0 <= slot <= UINT16_MAX -> plain_handle (clean_handle handle) = true ->
  ddial_format_chat cap slot channel tier handle message = (true, line) ->
  ddial_parse_incoming_chat line DDIAL_MAX_HANDLE_LEN =
  Some {| ic_link_slot := 0;
          ic_identity := {| id_slot := slot; id_channel := clamp_channel channel;
                            id_is_link := false; id_handle := clean_handle handle |};
          ic_dual_channel := false;
          ic_message := clean_body message ++ crlf |}.
Proof. apply format_chat_parses. Qed.

(** The two public chat lines a link sends, plain and dual-channel, are
    read back with the dual mark, slot, clamped channel, safe handle and body
    they were printed from. *)
Theorem link_chat_roundtrip (dual : bool) cap slot channel tier handle message line :
  0 <= slot <= UINT16_MAX -> plain_handle (clean_handle handle) = true ->
  (if dual then ddial_format_link_dual_chat cap slot channel tier handle message
   else ddial_format_link_chat cap slot channel tier handle message) = (true, line) ->
  ddial_parse_incoming_chat line DDIAL_MAX_HANDLE_LEN =
  Some {| ic_link_slot := 0;
          ic_identity := {| id_slot := slot; id_channel := clamp_channel channel;
                            id_is_link := false; id_handle := clean_handle handle |};
          ic_dual_channel := dual;
          ic_message := clean_body message ++ crlf |}.
Proof.
  intros Hslot Hplain Hline. unfold ddial_parse_incoming_chat.
  destruct dual; apply snprintf_true in Hline as ->; lits; psimp;
    change (isdigit c_hash) with false; cbn iota;
    rewrite parse_identity_link by done; done.
Qed.

(** A private message printed for a link is read back by
    [ddial_parse_incoming_private] with the same target slot, sender and body. *)
Theorem link_private_roundtrip cap target slot channel tier handle message line :
  0 <= target <= UINT16_MAX -> 0 <= slot <= UINT16_MAX ->
  plain_handle (clean_handle handle) = true ->
  ddial_format_link_private cap target slot channel tier handle message = (true, line) ->
  ddial_parse_incoming_private line DDIAL_MAX_HANDLE_LEN =
  Some {| ip_target_slot := target;
          ip_from := {| id_slot := slot; id_channel := clamp_channel channel;
                        id_is_link := false; id_handle := clean_handle handle |};
          ip_message := clean_body message ++ crlf |}.
Proof.
  intros Htgt Hslot Hplain ->%snprintf_true. unfold ddial_parse_incoming_private.
  lits. psimp. unfold nthb. psimp.
  rewrite dec_peek, strtoul_dec
    by (done || (unfold UINT16_MAX, ULONG_MAX in *; lia)). psimp.
  assert ((UINT16_MAX <? target) = false) as -> by lia.
  rewrite parse_identity_link by done. done.
Qed.

Lemma nthb_drop k s n : nthb (drop k s) n = nthb s (k + n).
Proof. unfold nthb. apply nth_skipn. Qed.

Lemma nthb_take n s k : nthb (take n s) k = if (k <? n)%nat then nthb s k else c_nul.
Proof.
  unfold nthb. destruct (Nat.ltb_spec k n).
  - rewrite !nth_lookup, lookup_take_lt by done. done.
  - rewrite nth_overflow; [done|]. rewrite length_take. lia.
Qed.

Lemma nthb_middle a c b : nthb (a ++ c :: b) (length a) = c.
Proof. unfold nthb. apply nth_middle. Qed.

(** No line the program prints with [ddial_format_link_email] is an e-mail
    to [ddial_parse_incoming_email]: the formatter writes a three-digit station
    ("/E~001(002:User) hello") where the parser wants the six digits of the
    station and the recipient that the comment above the formatter shows. *)
Theorem link_email_not_parsed cap st account handle message handle_cap :
  0 <= st <= UINT16_MAX ->
  ddial_parse_incoming_email (snd (ddial_format_link_email cap st account handle message))
    handle_cap = None.
Proof.
  intros Hst. unfold ddial_format_link_email, snprintf, snprintf_text. simpl snd.
  set (n := (cap - 1)%nat). set (pad := dec_pad 3 st).
  set (tl := dec_pad 3 account ++ _). set (line := take n _).
  unfold ddial_parse_incoming_email. case_match; [done|].
  assert (3 <= length pad <= 5)%nat as Hpad.
  { unfold pad, dec_pad. rewrite length_app, length_replicate.
    pose proof (dec_length st 5 ltac:(unfold UINT16_MAX in Hst; simpl; lia) ltac:(lia)). lia. }
  replace (forallb _ (seq 0 6)) with false; [done|]. symmetry.
  apply not_true_iff_false. rewrite forallb_Forall, Forall_forall. intros Hall.
  specialize (Hall (length pad)). rewrite list_elem_of_In, in_seq in Hall.
  specialize (Hall ltac:(lia)). revert Hall. rewrite nthb_drop. unfold line. rewrite nthb_take.
  case_match; [|done].
  replace (nthb _ (3 + length pad)) with c_lparen; [done|].
  symmetry. exact (nthb_middle (lit "/E~" ++ pad) c_lparen tl).
Qed.

(** A handle made safe for the wire is at most 25 bytes, shorter than the
    buffer, holds none of the characters that would end the handle or the line
    early, no terminal escape, bell or backspace, and is left unchanged when it
    is made safe again. *)
Theorem sanitize_handle_safe src cap :
  let h := ddial_sanitize_handle src cap in
  (length h <= Nat.min (cap - 1) DDIAL_MAX_HANDLE_WIRE_LEN)%nat /\
  Forall (fun c => handle_forbidden c = false /\ ansi_noise c = false) h /\
  ddial_sanitize_handle h cap = h.
Proof.
  intros h. assert (Hlen := sanitize_go_length (Nat.min (cap - 1) DDIAL_MAX_HANDLE_WIRE_LEN)
    (ddial_strip_ansi src DDIAL_MAX_HANDLE_LEN)).
  assert (Hcl := sanitize_go_clean (Nat.min (cap - 1) DDIAL_MAX_HANDLE_WIRE_LEN)
    (ddial_strip_ansi src DDIAL_MAX_HANDLE_LEN)).
  fold (ddial_sanitize_handle src cap) in Hlen, Hcl. fold h in Hlen, Hcl.
  assert (Forall (fun c => ansi_noise c = false) h) as Hn.
  { apply sanitize_go_subset. apply strip_ansi_go_inv. }
  split; [done|split].
  - apply Forall_and; split; [|done]. eapply Forall_impl; [exact Hcl|]. by intros c [? _].
  - unfold ddial_sanitize_handle at 1, ddial_strip_ansi.
    rewrite strip_ansi_go_id by done.
    rewrite take_ge by (unfold DDIAL_MAX_HANDLE_WIRE_LEN, DDIAL_MAX_HANDLE_LEN in *; lia).
    by apply sanitize_go_id.
Qed.

(** The ANSI filter removes every escape, bell and backspace, never
    fills the buffer, and keeps a text that holds none of them up to the
    buffer's size; filtering twice is filtering once. *)
Theorem strip_ansi_filters src cap :
  let out := ddial_strip_ansi src cap in
  Forall (fun c => ansi_noise c = false) out /\
  (length out <= cap - 1)%nat /\
  ddial_strip_ansi out cap = out /\
  (Forall (fun c => ansi_noise c = false) src -> out = take (cap - 1) src).
Proof.
  intros out. destruct (strip_ansi_go_inv (cap - 1) src) as [Hn Hl].
  split_and!; [done|done| |apply strip_ansi_go_id].
  unfold ddial_strip_ansi at 1. rewrite strip_ansi_go_id by done. by apply take_ge.
Qed.

(** The telnet encoding of data: every IAC byte doubled. *)
Definition telnet_escape (s : bytes) : bytes :=
  mbind (fun c => if c =? 255 then [255; 255] else [c]) s.

(** A subnegotiation inside [telnet_iac_go]: what is left after IAC SE. *)
Fixpoint after_sb (p : bytes) : bytes :=
  match p with
  | [] => []
  | x :: p' =>
      match p' with
      | [] => []
      | y :: p'' => if (x =? 255) && (y =? 240) then p'' else after_sb p'
      end
  end.

Lemma after_sb_length p : (length (after_sb p) <= length p)%nat.
Proof.
  induction p as [|x p IH]; simpl; [lia|]. destruct p; simpl; [lia|].
  case_match; simpl in *; lia.
Qed.

Lemma telnet_iac_sb room t' : telnet_iac_go (S room) (255 :: 250 :: t') =
  telnet_iac_go (S room) (after_sb t').
Proof.
  simpl. induction t' as [|x p IH]; [done|]. destruct p as [|y p]; [done|].
  cbn [after_sb]. destruct ((x =? 255) && (y =? 240)); [done|apply IH].
Qed.

Lemma telnet_iac_go_length room src : (length (telnet_iac_go room src) <= room)%nat.
Proof.
  revert room; induction src as [src IH] using bytes_len_ind; intros [|room]; [by destruct src|].
  destruct src as [|c t]; [simpl; lia|].
  destruct (Z.eqb_spec c 255) as [->|Hc].
  2: { apply Z.eqb_neq in Hc. simpl. rewrite Hc.
       destruct room; simpl; [apply IH; simpl; lia|]. apply le_n_S, IH. simpl; lia. }
  destruct t as [|cmd t']; [simpl; lia|].
  destruct (Z.eqb_spec cmd 250) as [->|Hsb].
  { rewrite telnet_iac_sb. apply IH. pose proof (after_sb_length t'). simpl; lia. }
  apply Z.eqb_neq in Hsb. simpl. rewrite Hsb.
  repeat case_match; subst; first [apply le_n_S, IH | apply IH]; simpl; lia.
Qed.

(** The telnet filter never writes past its buffer, and data sent with its
    IAC bytes doubled comes out exactly as it was, whenever it is shorter than
    the buffer. *)
Theorem telnet_filter_data cap :
  (forall src, (length (ddial_filter_telnet_iac src cap) <= cap)%nat) /\
  (forall data, (length data < cap)%nat ->
     ddial_filter_telnet_iac (telnet_escape data) cap = data).
Proof.
  split; [apply telnet_iac_go_length|].
  unfold ddial_filter_telnet_iac. intros data. revert cap.
  induction data as [|c t IH]; intros cap Hl; [by destruct cap|].
  simpl in Hl. destruct cap as [|cap]; [lia|].
  change (telnet_escape (c :: t)) with ((if c =? 255 then [255; 255] else [c]) ++ telnet_escape t).
  destruct (Z.eqb_spec c 255) as [->|Hc]; simpl; [f_equal; apply IH; lia|].
  apply Z.eqb_neq in Hc. rewrite Hc. simpl. destruct cap; [lia|]. f_equal. apply IH. lia.
Qed.

Lemma slot_digits_dec f g n acc :
  0 < n < 10 ^ Z.of_nat f -> (f <= g)%nat ->
  forallb (fun c => negb ((c =? c_8) || (c =? c_9))) (dec_go g n acc) =
  slot_digits_ok f n && forallb (fun c => negb ((c =? c_8) || (c =? c_9))) acc.
Proof.
  revert g n acc; induction f as [|f IH]; intros g n acc Hn Hg; [simpl in Hn; lia|].
  destruct g as [|g]; [lia|]. rewrite Nat2Z.inj_succ, Z.pow_succ_r in Hn by lia. simpl.
  assert ((0 <? n) = true) as -> by lia.
  assert ((48 + n mod 10 =? c_8) = (n mod 10 =? 8)) as H8
    by (destruct (Z.eqb_spec (n mod 10) 8); [rewrite e; done|apply Z.eqb_neq; lia]).
  assert ((48 + n mod 10 =? c_9) = (n mod 10 =? 9)) as H9
    by (destruct (Z.eqb_spec (n mod 10) 9); [rewrite e; done|apply Z.eqb_neq; lia]).
  destruct (Z.eqb_spec (n / 10) 0) as [H0|H0].
  - simpl. rewrite H8, H9, H0.
    replace (slot_digits_ok f 0) with true by (by destruct f). by case_match.
  - rewrite IH by (dlia || lia). simpl. rewrite H8, H9.
    case_match; simpl; [by rewrite andb_false_r|done].
Qed.

(** A line number is wire-legal exactly when its decimal form has no
    digit 8 or 9. *)
Theorem slot_is_valid_digits slot : 0 <= slot <= UINT16_MAX ->
  ddial_slot_is_valid slot = forallb (fun c => negb ((c =? c_8) || (c =? c_9))) (dec slot).
Proof.
  intros Hs. unfold ddial_slot_is_valid. destruct (Z.eqb_spec slot 0) as [->|H0]; [done|].
  unfold dec. rewrite (slot_digits_dec 5) by (unfold UINT16_MAX in *; simpl; lia).
  by rewrite andb_true_r.
Qed.

(** Every branch of the parser leaves its fields within their buffers. *)
Definition message_fits (m : ddial_parsed_message) : Prop :=
  (length (pm_handle m) < DDIAL_MAX_HANDLE_LEN)%nat /\
  (length (pm_body m) < DDIAL_MAX_MESSAGE_LEN)%nat /\
  DDIAL_MIN_CHANNEL <= pm_channel m <= DDIAL_MAX_CHANNEL.

Lemma no_message_fits c : message_fits (with_command c no_message).
Proof. unfold message_fits; simpl; unfold DDIAL_MAX_HANDLE_LEN, DDIAL_MAX_MESSAGE_LEN,
  DDIAL_MIN_CHANNEL, DDIAL_MAX_CHANNEL, DDIAL_DEFAULT_CHANNEL; lia. Qed.

Lemma with_body_fits b m : message_fits m -> message_fits (with_body (copy_body b) m).
Proof.
  unfold message_fits, copy_body; simpl. intros (? & ? & ?). split; [done|split; [|done]].
  rewrite length_take. unfold DDIAL_MAX_MESSAGE_LEN; lia.
Qed.

Lemma parse_private_fits args m : message_fits m -> message_fits (parse_private_args args m).
Proof.
  intros Hm. apply with_body_fits. case_match eqn:E; [|done].
  apply andb_true_iff in E as [_ E%Nat.ltb_lt]. unfold message_fits in *. by destruct Hm.
Qed.

Lemma parse_private_command args m : pm_command (parse_private_args args m) = pm_command m.
Proof. unfold parse_private_args. by case_match. Qed.

Create HintDb ddial.
#[local] Hint Resolve no_message_fits with_body_fits parse_private_fits : ddial.

(** A command line always parses to a message that fits its buffers (handle
    below 32 bytes, body below 512, channel in 1..4) and that carries the
    command the parser returns; nothing is written only for an empty line. *)
Theorem parse_command_fits line :
  match ddial_parse_command line with
  | (cmd, Some m) => line <> [] /\ pm_command m = cmd /\ message_fits m
  | (cmd, None) => line = [] /\ cmd = DDIAL_CMD_UNKNOWN
  end.
Proof.
  unfold ddial_parse_command. destruct line as [|c0 line]; [done|].
  destruct (skip_while isspace (c0 :: line)) as [|c t]; [eauto using no_message_fits|].
  destruct (negb (c =? c_slash)); [eauto with ddial|].
  destruct t as [|d t']; [eauto using no_message_fits|].
  repeat case_match; simplify_eq/=; split_and!; eauto using no_message_fits with ddial; try done.
  - exact (parse_private_command (_ :: _) _).
  - unfold message_fits; simpl. bprop. unfold DDIAL_MAX_HANDLE_LEN, DDIAL_MAX_MESSAGE_LEN. lia.
Qed.

Lemma parse_identity_range p cap i rest :
  ddial_parse_identity p cap = Some (i, rest) ->
  0 <= id_slot i <= UINT16_MAX /\ 0 <= id_channel i <= 9 /\
  (length (id_handle i) <= cap - 1)%nat.
Proof.
  unfold ddial_parse_identity. case_match; [done|]. case_match; [done|].
  destruct (strtoul (drop 1 p)) as [slot q] eqn:Hs.
  pose proof (strtoul_range (drop 1 p)) as Hr. rewrite Hs in Hr. simpl in Hr.
  destruct (UINT16_MAX <? slot) eqn:Hmax; [done|]. case_match; [done|].
  destruct (negb (peek (drop 1 q) =? c_T) || negb (isdigit (nthb (drop 1 q) 1))) eqn:Hd; [done|].
  case_match; [done|]. intros [= <- <-]. simpl.
  unfold isdigit in Hd. bprop. split_and!; try lia.
  unfold identity_handle. rewrite length_take. lia.
Qed.

(** Whatever line arrives, a chat line that parses yields values of
    their C types: a link slot and a slot of 16 bits, a one-digit channel, and a
    handle shorter than the caller's buffer; the link slot is 0 when absent. *)
Theorem incoming_chat_range line cap c :
  ddial_parse_incoming_chat line cap = Some c ->
  0 <= ic_link_slot c <= UINT16_MAX /\
  0 <= id_slot (ic_identity c) <= UINT16_MAX /\
  0 <= id_channel (ic_identity c) <= 9 /\
  (length (id_handle (ic_identity c)) <= cap - 1)%nat /\
  (ic_dual_channel c = true <-> peek line = DDIAL_LINK_ESCAPE).
Proof.
  unfold ddial_parse_incoming_chat. set (p0 := if _ =? _ then _ else _).
  match goal with |- context [let (_, _) := ?e in _] => destruct e as [ls p] eqn:He end.
  destruct (ddial_parse_identity p cap) as [[i rest]|] eqn:Hi; [|done].
  intros [= <-]. simpl. apply parse_identity_range in Hi as (? & ? & ?).
  split_and!; try done; try lia.
  - revert He. case_match; [|intros [= <- _]; unfold UINT16_MAX; lia].
    destruct (strtoul p0) as [cand q]. case_match eqn:Hc; intros [= <- _];
      [bprop; lia|unfold UINT16_MAX; lia].
  - revert He. case_match; [|intros [= <- _]; unfold UINT16_MAX; lia].
    destruct (strtoul p0) as [cand q]. case_match eqn:Hc; intros [= <- _];
      [bprop; lia|unfold UINT16_MAX; lia].
Qed.

(** The events a link sends are recognised by their prefix: guests'
    logins and logouts, members' logins and logouts, and station lists. *)
Theorem link_event_kind cap slot ch tier handle account is_link locked is_login line :
  ddial_format_link_event cap slot ch tier handle account is_link locked is_login = (true, line) ->
  fst (ddial_parse_link_prefix line) =
    match tier with
    | DDIAL_TIER_GUEST => DDIAL_LINK_MSG_GUEST_EVENT
    | _ => DDIAL_LINK_MSG_MEMBER_EVENT
    end.
Proof.
  unfold ddial_format_link_event. intros Hl.
  repeat case_match; apply snprintf_true in Hl as ->; reflexivity.
Qed.

(** ** Witnesses *)

Definition demo_handle : bytes := lit "al)ice".
Definition demo_text : bytes := lit "hello".

Lemma chat_roundtrip_witness :
  exists line,
    ddial_format_chat 512 12 9 DDIAL_TIER_MASTER demo_handle demo_text = (true, line) /\
    ddial_parse_incoming_chat line DDIAL_MAX_HANDLE_LEN =
    Some {| ic_link_slot := 0;
            ic_identity := {| id_slot := 12; id_channel := clamp_channel 9; id_is_link := false;
                              id_handle := clean_handle demo_handle |};
            ic_dual_channel := false; ic_message := clean_body demo_text ++ crlf |}.
Proof.
  exists (lit "#12<T4:alice$> hello" ++ crlf). split; [vm_compute; reflexivity|].
  apply (chat_roundtrip 512 12 9 DDIAL_TIER_MASTER demo_handle demo_text);
    [unfold UINT16_MAX; lia|vm_compute; reflexivity|vm_compute; reflexivity].
Defined.

Lemma link_chat_roundtrip_witness :
  ddial_parse_incoming_chat (lit "~#7(T1:alice) hello" ++ crlf) DDIAL_MAX_HANDLE_LEN =
  Some {| ic_link_slot := 0;
          ic_identity := {| id_slot := 7; id_channel := clamp_channel 0; id_is_link := false;
                            id_handle := clean_handle demo_handle |};
          ic_dual_channel := true; ic_message := clean_body demo_text ++ crlf |}.
Proof.
  apply (link_chat_roundtrip true 512 7 0 DDIAL_TIER_GUEST demo_handle demo_text);
    [unfold UINT16_MAX; lia|vm_compute; reflexivity|vm_compute; reflexivity].
Defined.

Lemma link_private_roundtrip_witness :
  ddial_parse_incoming_private (lit "/P31 #7[T2:alice) hello" ++ crlf) DDIAL_MAX_HANDLE_LEN =
  Some {| ip_target_slot := 31;
          ip_from := {| id_slot := 7; id_channel := clamp_channel 2; id_is_link := false;
                        id_handle := clean_handle demo_handle |};
          ip_message := clean_body demo_text ++ crlf |}.
Proof.
  apply (link_private_roundtrip 512 31 7 2 DDIAL_TIER_PASSWORD demo_handle demo_text);
    [unfold UINT16_MAX; lia|unfold UINT16_MAX; lia|vm_compute; reflexivity|vm_compute; reflexivity].
Defined.

Lemma link_email_not_parsed_witness :
  ddial_parse_incoming_email (snd (ddial_format_link_email 128 1 2 (lit "User") (lit "hello")))
    DDIAL_MAX_HANDLE_LEN = None.
Proof. apply link_email_not_parsed. unfold UINT16_MAX; lia. Defined.

Lemma slot_is_valid_digits_witness :
  ddial_slot_is_valid 18 = forallb (fun c => negb ((c =? c_8) || (c =? c_9))) (dec 18) /\
  ddial_slot_is_valid 18 = false.
Proof. split; [apply slot_is_valid_digits; unfold UINT16_MAX; lia|reflexivity]. Defined.

Lemma incoming_chat_range_witness :
  exists c, ddial_parse_incoming_chat (lit "99#12[T2:Freddy:123*] hi") 32 = Some c /\
    (length (id_handle (ic_identity c)) <= 31)%nat.
Proof.
  eexists. split; [vm_compute; reflexivity|].
  apply (incoming_chat_range (lit "99#12[T2:Freddy:123*] hi") 32). vm_compute. reflexivity.
Defined.

Lemma link_event_kind_witness :
  fst (ddial_parse_link_prefix (lit "}}-->. +^#3(T1:?" ++ crlf)) = DDIAL_LINK_MSG_GUEST_EVENT.
Proof.
  apply (link_event_kind 128 3 1 DDIAL_TIER_GUEST (lit "x") 0 false false true).
  vm_compute. reflexivity.
Defined.

End Wire.
