(* ===== verification/DdialRoster.v ===== *)
(** The roster of the users on the far side of a DDial link
    ([src/host/ddial/roster.c]): an open-addressing hash table of entries with
    tombstones, and the relay lines that feed it.  The table is shown to
    implement a finite map from keys to entries, and the lines to act on that
    map. *)

From Stdlib Require Import ZArith Lia String Ascii.
From stdpp Require Import prelude gmap.
From S2P Require Import Prelude DdialProtocol.
Import Wire.

Module Buckets.

Definition DDIAL_ROSTER_BUCKETS : Z := 1024.
Definition DDIAL_ROSTER_MAX : Z := 512.
Definition DDIAL_ROSTER_KEY_LEN : nat := 48.

Record ddial_roster_entry := {
  re_key : bytes;
  re_handle : bytes;
  re_station : bytes;
  re_link_slot : Z;
  re_slot : Z
}.

Inductive bucket_state := DDIAL_ROSTER_EMPTY | DDIAL_ROSTER_USED | DDIAL_ROSTER_TOMBSTONE.

#[export] Instance bucket_state_eq_dec : EqDecision bucket_state.
Proof. solve_decision. Defined.

(** The two arrays of the file, bucket by bucket, and the count. *)
Record bucket := { b_state : bucket_state; b_entry : ddial_roster_entry }.
Record roster := { g_buckets : list bucket; g_count : Z }.

Definition blank_entry (key : bytes) : ddial_roster_entry :=
  {| re_key := key; re_handle := []; re_station := []; re_link_slot := 0; re_slot := 0 |}.

Definition empty_bucket : bucket :=
  {| b_state := DDIAL_ROSTER_EMPTY; b_entry := blank_entry [] |}.

(** The roster at the start of the program. *)
Definition empty_roster : roster :=
  {| g_buckets := replicate (Z.to_nat DDIAL_ROSTER_BUCKETS) empty_bucket; g_count := 0 |}.

Definition ddial_roster_make_key (handle : bytes) (link_slot slot : Z) (cap : nat) : bytes :=
  if bytes_eqb handle (lit "?")
  then snprintf_text cap (lit "?#" ++ dec link_slot ++ lit "#" ++ dec slot)
  else map tolower (take (cap - 1) handle).

(** FNV-1a. *)
Definition ddial_roster_hash (key : bytes) : Z :=
  Z.land (fold_left (fun h c => u32 (Z.lxor h c * 16777619)) key 2166136261)
    (DDIAL_ROSTER_BUCKETS - 1).

Definition bucket_at (t : list bucket) (idx : Z) : bucket := nth (Z.to_nat idx) t empty_bucket.

Definition next_bucket (idx : Z) : Z := Z.land (idx + 1) (DDIAL_ROSTER_BUCKETS - 1).

(** The probe loop. *)
Fixpoint lookup_go (probes : nat) (t : list bucket) (idx : Z) (key : bytes) : option Z :=
  match probes with
  | O => None
  | S probes =>
      let b := bucket_at t idx in
      if bool_decide (b_state b = DDIAL_ROSTER_EMPTY) then None
      else if bool_decide (b_state b = DDIAL_ROSTER_USED) && bytes_eqb (re_key (b_entry b)) key
      then Some idx
      else lookup_go probes t (next_bucket idx) key
  end.

Definition ddial_roster_lookup_locked (r : roster) (key : bytes) : option Z :=
  lookup_go (Z.to_nat DDIAL_ROSTER_BUCKETS) (g_buckets r) (ddial_roster_hash key) key.

(** The first bucket from [idx] on that is not used; [None] only if all are. *)
Fixpoint free_go (probes : nat) (t : list bucket) (idx : Z) : option Z :=
  match probes with
  | O => None
  | S probes =>
      if bool_decide (b_state (bucket_at t idx) = DDIAL_ROSTER_USED)
      then free_go probes t (next_bucket idx) else Some idx
  end.

Definition set_bucket (r : roster) (idx : Z) (b : bucket) (count : Z) : roster :=
  {| g_buckets := <[Z.to_nat idx := b]> (g_buckets r); g_count := count |}.

(** What a put writes to its entry; a station that is not named is kept. *)
Definition fill (e : ddial_roster_entry) (handle : bytes) (link_slot slot : Z)
    (station : option bytes) : ddial_roster_entry :=
  {| re_key := re_key e; re_handle := snprintf_text DDIAL_MAX_HANDLE_LEN handle;
     re_station := match station with
                   | Some s => snprintf_text DDIAL_MAX_HANDLE_LEN s
                   | None => re_station e
                   end;
     re_link_slot := link_slot; re_slot := slot |}.

Definition ddial_roster_put_locked (r : roster) (handle : bytes) (link_slot slot : Z)
    (station : option bytes) : roster :=
  let key := ddial_roster_make_key handle link_slot slot DDIAL_ROSTER_KEY_LEN in
  let used e := {| b_state := DDIAL_ROSTER_USED; b_entry := fill e handle link_slot slot station |} in
  if bytes_eqb key [] then r
  else match ddial_roster_lookup_locked r key with
  | Some idx => set_bucket r idx (used (b_entry (bucket_at (g_buckets r) idx))) (g_count r)
  | None =>
      if DDIAL_ROSTER_MAX <=? g_count r then r
      else match free_go (Z.to_nat DDIAL_ROSTER_BUCKETS) (g_buckets r) (ddial_roster_hash key) with
      | Some idx =>
          set_bucket r idx (used (blank_entry (snprintf_text DDIAL_ROSTER_KEY_LEN key)))
            (g_count r + 1)
      | None => r
      end
  end.

Definition ddial_roster_remove_at_locked (r : roster) (idx : Z) : roster :=
  set_bucket r idx {| b_state := DDIAL_ROSTER_TOMBSTONE;
                      b_entry := b_entry (bucket_at (g_buckets r) idx) |} (g_count r - 1).

Definition ddial_roster_remove_locked (r : roster) (handle : bytes) (link_slot slot : Z) : roster :=
  match ddial_roster_lookup_locked r
          (ddial_roster_make_key handle link_slot slot DDIAL_ROSTER_KEY_LEN) with
  | Some idx => ddial_roster_remove_at_locked r idx
  | None => r
  end.

(** ** The invariant of the table *)

(** The [d]-th bucket probed from [h]. *)
Definition pos (h : Z) (d : nat) : Z := (h + Z.of_nat d) mod 1024.

Definition used_at (t : list bucket) (i : Z) (e : ddial_roster_entry) : Prop :=
  0 <= i < 1024 /\ t !! Z.to_nat i = Some {| b_state := DDIAL_ROSTER_USED; b_entry := e |}.

Definition is_used (b : bucket) : bool := bool_decide (b_state b = DDIAL_ROSTER_USED).

Definition entries (t : list bucket) : list ddial_roster_entry :=
  b_entry <$> List.filter is_used t.

(** Every entry can be reached from the hash of its key over buckets that are not
    empty, no key is there twice, and the count is right and within its limit. *)
Record buckets_ok (t : list bucket) : Prop := {
  ok_length : length t = 1024%nat;
  ok_reach i e : used_at t i e -> exists d, (d < 1024)%nat /\
    i = pos (ddial_roster_hash (re_key e)) d /\
    forall d', (d' < d)%nat ->
      b_state (bucket_at t (pos (ddial_roster_hash (re_key e)) d')) <> DDIAL_ROSTER_EMPTY;
  ok_unique i j e e' : used_at t i e -> used_at t j e' -> re_key e = re_key e' -> i = j
}.

Definition roster_ok (r : roster) : Prop :=
  buckets_ok (g_buckets r) /\
  g_count r = Z.of_nat (length (entries (g_buckets r))) /\ g_count r <= DDIAL_ROSTER_MAX.

(** The map a table stands for. *)
Definition contents (r : roster) : gmap bytes ddial_roster_entry :=
  list_to_map ((fun e => (re_key e, e)) <$> entries (g_buckets r)).

(** ** Probing *)

Lemma mask_mod x : Z.land x (DDIAL_ROSTER_BUCKETS - 1) = x mod 1024.
Proof. change (DDIAL_ROSTER_BUCKETS - 1) with (Z.ones 10). by rewrite Z.land_ones. Qed.

Lemma next_pos h d : next_bucket (pos h d) = pos h (S d).
Proof. unfold next_bucket, pos. rewrite mask_mod. dlia. Qed.

Lemma pos_range h d : 0 <= pos h d < 1024.
Proof. unfold pos. apply Z.mod_pos_bound. lia. Qed.

Lemma hash_range key : 0 <= ddial_roster_hash key < 1024.
Proof. unfold ddial_roster_hash. rewrite mask_mod. apply Z.mod_pos_bound. lia. Qed.

Lemma pos_0 key : pos (ddial_roster_hash key) 0 = ddial_roster_hash key.
Proof. unfold pos. pose proof (hash_range key). rewrite Z.add_0_r. by apply Z.mod_small. Qed.

(** Every bucket is probed once. *)
Lemma pos_onto h i : 0 <= h < 1024 -> 0 <= i < 1024 -> exists d, (d < 1024)%nat /\ pos h d = i.
Proof.
  intros Hh Hi. exists (Z.to_nat ((i - h) mod 1024)). unfold pos.
  pose proof (Z.mod_pos_bound (i - h) 1024 ltac:(lia)). split; [lia|].
  rewrite Z2Nat.id by lia. dlia.
Qed.

Lemma pos_inj h d d' : (d < 1024)%nat -> (d' < 1024)%nat -> pos h d = pos h d' -> d = d'.
Proof. unfold pos. intros. dlia. Qed.

Lemma used_at_bucket t i e : used_at t i e ->
  bucket_at t i = {| b_state := DDIAL_ROSTER_USED; b_entry := e |}.
Proof. intros [_ Hi]. unfold bucket_at. by apply nth_lookup_Some. Qed.

Lemma bucket_used t i : length t = 1024%nat -> 0 <= i < 1024 ->
  b_state (bucket_at t i) = DDIAL_ROSTER_USED -> used_at t i (b_entry (bucket_at t i)).
Proof.
  intros Hl Hi Hs. split; [done|]. unfold bucket_at in *.
  destruct (lookup_lt_is_Some_2 t (Z.to_nat i) ltac:(lia)) as [b Hb].
  rewrite (nth_lookup_Some _ _ _ _ Hb) in *. rewrite Hb. f_equal. destruct b; simpl in *. congruence.
Qed.

(** What the probe loop finds is a used bucket of the key... *)
Lemma lookup_go_sound probes t idx key i : length t = 1024%nat -> 0 <= idx < 1024 ->
  lookup_go probes t idx key = Some i ->
  exists e, used_at t i e /\ re_key e = key.
Proof.
  intros Hl. revert idx; induction probes as [|n IH]; intros idx Hi; cbn [lookup_go]; [done|].
  destruct (bool_decide _) eqn:He; [done|].
  destruct (bool_decide (_ = DDIAL_ROSTER_USED)) eqn:Hu; cbn [andb].
  - apply bool_decide_eq_true in Hu. destruct (bytes_eqb _ _) eqn:Hk.
    + intros [= <-]. apply bytes_eqb_eq in Hk. eexists. split; [by apply bucket_used|done].
    + apply IH. unfold next_bucket. rewrite mask_mod. apply Z.mod_pos_bound. lia.
  - apply IH. unfold next_bucket. rewrite mask_mod. apply Z.mod_pos_bound. lia.
Qed.

(** ... and it finds the bucket when there is one. *)
Lemma lookup_go_complete t e d n : buckets_ok t -> let h := ddial_roster_hash (re_key e) in
  used_at t (pos h (d + n)) e -> (d + n < 1024)%nat ->
  (forall d', (d' < d + n)%nat -> b_state (bucket_at t (pos h d')) <> DDIAL_ROSTER_EMPTY) ->
  lookup_go (1024 - d) t (pos h d) (re_key e) = Some (pos h (d + n)).
Proof.
  intros Hok h Hu Hd Hne. revert d Hu Hd Hne; induction n as [|n IH]; intros d Hu Hd Hne.
  - replace (1024 - d)%nat with (S (1023 - d)) by lia. cbn [lookup_go].
    rewrite Nat.add_0_r in *. rewrite (used_at_bucket _ _ _ Hu). cbn.
    by rewrite bytes_eqb_refl.
  - replace (1024 - d)%nat with (S (1024 - S d)) by lia. cbn [lookup_go].
    rewrite bool_decide_eq_false_2 by (apply Hne; lia).
    destruct (bool_decide (_ = DDIAL_ROSTER_USED)) eqn:Hs; cbn [andb].
    + apply bool_decide_eq_true in Hs. destruct (bytes_eqb _ _) eqn:Hk.
      * apply bytes_eqb_eq in Hk. f_equal. eapply (ok_unique t Hok); [|exact Hu|exact Hk].
        apply bucket_used; [by apply Hok|apply pos_range|done].
      * rewrite next_pos. replace (d + S n)%nat with (S d + n)%nat in * by lia. by apply IH.
    + rewrite next_pos. replace (d + S n)%nat with (S d + n)%nat in * by lia. by apply IH.
Qed.

Lemma lookup_used r i e : buckets_ok (g_buckets r) -> used_at (g_buckets r) i e ->
  ddial_roster_lookup_locked r (re_key e) = Some i.
Proof.
  intros Hok Hu. destruct (ok_reach _ Hok _ _ Hu) as (d & Hd & -> & Hne).
  pose proof (lookup_go_complete _ _ 0 d Hok Hu Hd Hne) as Hf. by rewrite pos_0 in Hf.
Qed.

Lemma lookup_sound r key i : buckets_ok (g_buckets r) ->
  ddial_roster_lookup_locked r key = Some i ->
  exists e, used_at (g_buckets r) i e /\ re_key e = key.
Proof. intros Hok. apply lookup_go_sound; [by apply Hok|apply hash_range]. Qed.

(** ** The entries and the map *)

Lemma entries_used t e : e ∈ entries t <-> exists n, t !! n = Some {| b_state := DDIAL_ROSTER_USED; b_entry := e |}.
Proof.
  unfold entries. rewrite list_elem_of_fmap. split.
  - intros (b & -> & Hb). apply list_elem_of_In, filter_In in Hb as [Hin Hu].
    apply list_elem_of_In, list_elem_of_lookup_1 in Hin as [n Hn]. exists n. rewrite Hn. f_equal.
    unfold is_used in Hu. apply bool_decide_eq_true in Hu. destruct b; simpl in *; congruence.
  - intros [n Hn]. eexists; split; [|apply list_elem_of_In, filter_In; split;
      [apply list_elem_of_In; by eapply list_elem_of_lookup_2|done]]. done.
Qed.

Lemma nodup_keys t :
  (forall n m e e', t !! n = Some {| b_state := DDIAL_ROSTER_USED; b_entry := e |} ->
     t !! m = Some {| b_state := DDIAL_ROSTER_USED; b_entry := e' |} -> re_key e = re_key e' -> n = m) ->
  NoDup (re_key <$> entries t).
Proof.
  induction t as [|b t IH]; intros Hu; [constructor|].
  assert (NoDup (re_key <$> entries t)) as IHt.
  { apply IH. intros n m e e' Hn Hm Hk. assert (S n = S m) by (by eapply Hu). lia. }
  unfold entries. cbn [List.filter]. destruct (is_used b) eqn:Hb; [|exact IHt].
  cbn. constructor; [|exact IHt].
  intros Hin. apply list_elem_of_fmap in Hin as (e & Hk & He).
  apply entries_used in He as [n Hn].
  assert (O = S n); [|lia]. eapply (Hu O (S n) (b_entry b) e); [|done|done].
  cbn. f_equal. unfold is_used in Hb. apply bool_decide_eq_true in Hb. destruct b; simpl in *; congruence.
Qed.

Lemma used_index t n e : length t = 1024%nat ->
  t !! n = Some {| b_state := DDIAL_ROSTER_USED; b_entry := e |} -> used_at t (Z.of_nat n) e.
Proof.
  intros Hl Hn. pose proof (lookup_lt_Some _ _ _ Hn). split; [lia|by rewrite Nat2Z.id].
Qed.

Lemma keys_nodup t : buckets_ok t -> NoDup (re_key <$> entries t).
Proof.
  intros Hok. apply nodup_keys. intros n m e e' Hn Hm Hk.
  assert (Z.of_nat n = Z.of_nat m); [|lia].
  eapply (ok_unique t Hok); [by apply used_index; [apply Hok|]..|done].
Qed.

(** The map holds the entries of the used buckets. *)
Lemma contents_spec r k e : buckets_ok (g_buckets r) ->
  contents r !! k = Some e <-> re_key e = k /\ exists i, used_at (g_buckets r) i e.
Proof.
  intros Hok. unfold contents. rewrite <- elem_of_list_to_map.
  - rewrite list_elem_of_fmap. split.
    + intros (e' & [= -> ->] & He). split; [done|]. apply entries_used in He as [n Hn].
      eexists. by apply used_index; [apply Hok|].
    + intros [<- [i [Hi He]]]. exists e. split; [done|]. apply entries_used. eauto.
  - rewrite <- list_fmap_compose. apply (keys_nodup _ Hok).
Qed.

Lemma contents_size r : roster_ok r -> Z.of_nat (size (contents r)) = g_count r.
Proof.
  intros (Hok & -> & _). f_equal. unfold contents. rewrite map_size_list_to_map.
  - by rewrite length_fmap.
  - rewrite <- list_fmap_compose. apply (keys_nodup _ Hok).
Qed.

(** Looking a key up in the table is looking it up in the map. *)
Lemma lookup_contents r key : buckets_ok (g_buckets r) ->
  contents r !! key =
  (fun i => b_entry (bucket_at (g_buckets r) i)) <$> ddial_roster_lookup_locked r key.
Proof.
  intros Hok. destruct (ddial_roster_lookup_locked r key) as [i|] eqn:E; simpl.
  - destruct (lookup_sound _ _ _ Hok E) as (e & Hu & Hk). apply contents_spec; [done|].
    rewrite (used_at_bucket _ _ _ Hu). simpl. eauto.
  - destruct (contents r !! key) as [e|] eqn:Hc; [|done].
    apply contents_spec in Hc as [<- [i Hu]]; [|done].
    rewrite (lookup_used _ _ _ Hok Hu) in E. done.
Qed.

(** ** Writing a bucket *)

Lemma bucket_at_insert (t : list bucket) i j b :
  length t = 1024%nat -> 0 <= i < 1024 -> 0 <= j < 1024 ->
  bucket_at (<[Z.to_nat i := b]> t) j = if j =? i then b else bucket_at t j.
Proof.
  intros Hl Hi Hj. unfold bucket_at.
  destruct (Z.eqb_spec j i) as [->|Hne].
  - apply nth_lookup_Some. apply list_lookup_insert_eq. lia.
  - rewrite !nth_lookup. by rewrite list_lookup_insert_ne by lia.
Qed.

Lemma used_at_insert t i b j e : length t = 1024%nat -> 0 <= i < 1024 ->
  used_at (<[Z.to_nat i := b]> t) j e <->
  (j = i /\ b = {| b_state := DDIAL_ROSTER_USED; b_entry := e |}) \/ (j <> i /\ used_at t j e).
Proof.
  intros Hl Hi. unfold used_at. split.
  - intros [Hj Hb]. destruct (Z.eq_dec j i) as [->|Hne].
    + rewrite list_lookup_insert_eq in Hb by lia. left. by simplify_eq.
    + rewrite list_lookup_insert_ne in Hb by lia. by right.
  - intros [[-> ->]|[Hne [Hj Hb]]].
    + rewrite list_lookup_insert_eq by lia. done.
    + rewrite list_lookup_insert_ne by lia. done.
Qed.

(** The entries a bucket contributes to the count. *)
Definition weight (b : bucket) : nat := if is_used b then 1 else 0.

Lemma entries_insert t n b b0 : t !! n = Some b0 ->
  (length (entries (<[n := b]> t)) + weight b0 = length (entries t) + weight b)%nat.
Proof.
  unfold entries. rewrite !length_fmap. unfold weight.
  revert n; induction t as [|c t IH]; intros [|n]; csimpl; [done..| |].
  - intros [= <-]. change (<[0%nat := b]> (c :: t)) with (b :: t). cbn [List.filter].
    destruct (is_used b), (is_used c); simpl; lia.
  - intros Hn. change (<[S n := b]> (c :: t)) with (c :: <[n := b]> t). cbn [List.filter].
    specialize (IH n Hn). destruct (is_used c); simpl; lia.
Qed.

Lemma weight_used e : weight {| b_state := DDIAL_ROSTER_USED; b_entry := e |} = 1%nat.
Proof. done. Qed.

Lemma weight_unused b : b_state b <> DDIAL_ROSTER_USED -> weight b = 0%nat.
Proof. intros Hb. unfold weight, is_used. by rewrite bool_decide_eq_false_2. Qed.

(** Writing a bucket that is not empty keeps every probe sequence: what is left is
    that the bucket written can be reached, and that its key is there once. *)
Lemma set_bucket_ok t i b : buckets_ok t -> 0 <= i < 1024 -> b_state b <> DDIAL_ROSTER_EMPTY ->
  (b_state b = DDIAL_ROSTER_USED ->
     (exists d, (d < 1024)%nat /\ i = pos (ddial_roster_hash (re_key (b_entry b))) d /\
        forall d', (d' < d)%nat ->
        b_state (bucket_at t (pos (ddial_roster_hash (re_key (b_entry b))) d')) <> DDIAL_ROSTER_EMPTY) /\
     forall j e, used_at t j e -> re_key e = re_key (b_entry b) -> j = i) ->
  buckets_ok (<[Z.to_nat i := b]> t).
Proof.
  intros Hok Hi Hb Hused. pose proof (ok_length _ Hok) as Hl.
  assert (forall j, 0 <= j < 1024 -> b_state (bucket_at t j) <> DDIAL_ROSTER_EMPTY ->
    b_state (bucket_at (<[Z.to_nat i := b]> t) j) <> DDIAL_ROSTER_EMPTY) as Hkeep.
  { intros j Hj Hs. rewrite bucket_at_insert by done. by case_match. }
  constructor.
  - by rewrite length_insert.
  - intros j e. rewrite used_at_insert by done. intros [[-> ->]|[Hne Hu]].
    + destruct (Hused eq_refl) as [(d & Hd & Hp & Hbef) _]. exists d. repeat split; [done..|].
      intros d' Hd'. apply Hkeep; [apply pos_range|by apply Hbef].
    + destruct (ok_reach _ Hok _ _ Hu) as (d & Hd & -> & Hbef). exists d. repeat split; [done..|].
      intros d' Hd'. apply Hkeep; [apply pos_range|by apply Hbef].
  - intros j k e e'. rewrite !used_at_insert by done.
    intros [[-> ->]|[Hj Hu]] [[-> Hb']|[Hk Hu']] Hkey; try done.
    + exfalso. apply Hk. destruct (Hused eq_refl) as [_ H]. by apply (H k e').
    + exfalso. apply Hj. subst b. destruct (Hused eq_refl) as [_ H]. by apply (H j e).
    + by eapply (ok_unique _ Hok).
Qed.

(** The first bucket that is not used: there is one, as the count is below the
    number of buckets, and those before it are used. *)
Lemma free_go_spec n d t h : 0 <= h < 1024 ->
  match free_go n t (pos h d) with
  | Some i => exists k, (d <= k < d + n)%nat /\ i = pos h k /\
      b_state (bucket_at t i) <> DDIAL_ROSTER_USED /\
      forall d', (d <= d' < k)%nat -> b_state (bucket_at t (pos h d')) = DDIAL_ROSTER_USED
  | None => forall d', (d <= d' < d + n)%nat -> b_state (bucket_at t (pos h d')) = DDIAL_ROSTER_USED
  end.
Proof.
  intros Hh. revert d; induction n as [|n IH]; intros d; cbn [free_go]; [intros; lia|].
  destruct (bool_decide _) eqn:Hs; bprop.
  - rewrite next_pos. specialize (IH (S d)). destruct (free_go n t (pos h (S d))) as [i|].
    + destruct IH as (k & Hk & -> & Hf & Hbef). exists k. repeat split; [lia|lia|done|].
      intros d' Hd'. destruct (Nat.eq_dec d d') as [<-|]; [done|apply Hbef; lia].
    + intros d' Hd'. destruct (Nat.eq_dec d d') as [<-|]; [done|apply IH; lia].
  - exists d. repeat split; [lia|lia|done|]. intros; lia.
Qed.

Lemma all_used_count t : Forall (fun b => b_state b = DDIAL_ROSTER_USED) t ->
  length (entries t) = length t.
Proof.
  unfold entries. rewrite length_fmap. induction 1 as [|b t Hb _ IH]; [done|]. cbn [List.filter].
  unfold is_used at 1. rewrite bool_decide_eq_true_2 by done. simpl. by rewrite IH.
Qed.

Lemma free_found r key : roster_ok r -> exists d, (d < 1024)%nat /\
  free_go (Z.to_nat DDIAL_ROSTER_BUCKETS) (g_buckets r) (ddial_roster_hash key) =
    Some (pos (ddial_roster_hash key) d) /\
  b_state (bucket_at (g_buckets r) (pos (ddial_roster_hash key) d)) <> DDIAL_ROSTER_USED /\
  forall d', (d' < d)%nat ->
    b_state (bucket_at (g_buckets r) (pos (ddial_roster_hash key) d')) = DDIAL_ROSTER_USED.
Proof.
  intros (Hok & Hc & Hm). pose proof (hash_range key) as Hh.
  pose proof (free_go_spec (Z.to_nat DDIAL_ROSTER_BUCKETS) 0 (g_buckets r) _ Hh) as Hf.
  rewrite pos_0 in Hf. destruct (free_go _ _ _) as [i|].
  - destruct Hf as (k & Hk & -> & Hs & Hbef). exists k. repeat split; [|done|].
    + change (Z.to_nat DDIAL_ROSTER_BUCKETS) with 1024%nat in Hk. lia.
    + intros d' Hd'. apply Hbef. lia.
  - exfalso. rewrite all_used_count, (ok_length _ Hok) in Hc; [unfold DDIAL_ROSTER_MAX in Hm; lia|].
    apply Forall_forall. intros b Hb. apply list_elem_of_lookup_1 in Hb as [n Hn].
    pose proof (lookup_lt_Some _ _ _ Hn) as Hlt. rewrite (ok_length _ Hok) in Hlt.
    destruct (pos_onto _ (Z.of_nat n) Hh ltac:(lia)) as (d & Hd & Hp).
    specialize (Hf d). rewrite Hp in Hf. unfold bucket_at in Hf. rewrite Nat2Z.id in Hf.
    rewrite (nth_lookup_Some _ _ _ _ Hn) in Hf. apply Hf.
    change (Z.to_nat DDIAL_ROSTER_BUCKETS) with 1024%nat. lia.
Qed.

Lemma contents_set_used r i e count : buckets_ok (g_buckets r) -> 0 <= i < 1024 ->
  let b := {| b_state := DDIAL_ROSTER_USED; b_entry := e |} in
  buckets_ok (<[Z.to_nat i := b]> (g_buckets r)) ->
  (forall e0, used_at (g_buckets r) i e0 -> re_key e0 = re_key e) ->
  contents (set_bucket r i b count) = <[re_key e := e]> (contents r).
Proof.
  intros Hok Hi b Hok' Hsame. apply map_eq; intros k; apply option_eq; intros e'.
  rewrite contents_spec by done. cbn [set_bucket g_buckets].
  setoid_rewrite used_at_insert; [|apply Hok|done].
  destruct (decide (re_key e = k)) as [Hk|Hk].
  - rewrite <- Hk, lookup_insert_eq. split.
    + intros (Hk' & j & [[-> [= ->]]|[Hne Hu]]); [done|]. exfalso. apply Hne.
      apply (ok_unique _ Hok' j i e' e); [| |done]; apply used_at_insert; try done;
        [apply Hok|by right|apply Hok|by left].
    + intros [= <-]. split; [done|]. exists i. by left.
  - rewrite lookup_insert_ne by done. rewrite contents_spec by done. split.
    + intros (Hk' & j & [[-> [= ->]]|[Hne Hu]]); [done|eauto].
    + intros (Hk' & j & Hu). split; [done|]. exists j. right. split; [|done].
      intros ->. apply Hk. rewrite <- Hk'. symmetry. by apply Hsame.
Qed.

Lemma contents_set_free r i b count e0 : buckets_ok (g_buckets r) -> 0 <= i < 1024 ->
  b_state b <> DDIAL_ROSTER_USED -> buckets_ok (<[Z.to_nat i := b]> (g_buckets r)) ->
  used_at (g_buckets r) i e0 ->
  contents (set_bucket r i b count) = delete (re_key e0) (contents r).
Proof.
  intros Hok Hi Hb Hok' Hu0. apply map_eq; intros k; apply option_eq; intros e'.
  rewrite contents_spec by done. cbn [set_bucket g_buckets].
  setoid_rewrite used_at_insert; [|apply Hok|done].
  rewrite lookup_delete_Some, contents_spec by done. split.
  - intros (Hk' & j & [[-> ->]|[Hne Hu]]); [done|]. split; [|eauto].
    intros <-. apply Hne. by apply (ok_unique _ Hok j i e' e0).
  - intros (Hk & Hk' & j & Hu). split; [done|]. exists j. right. split; [|done].
    intros ->. apply Hk. destruct Hu as [_ Hu], Hu0 as [_ Hu0]. congruence.
Qed.

(** ** What the operations mean, on the map *)

Definition key_of (handle : bytes) (link_slot slot : Z) : bytes :=
  ddial_roster_make_key handle link_slot slot DDIAL_ROSTER_KEY_LEN.

Definition put_spec (m : gmap bytes ddial_roster_entry) (handle : bytes) (link_slot slot : Z)
    (station : option bytes) : gmap bytes ddial_roster_entry :=
  let key := key_of handle link_slot slot in
  if decide (key = []) then m
  else match m !! key with
       | Some e => <[key := fill e handle link_slot slot station]> m
       | None => if decide (512 <= size m)%nat then m
                 else <[key := fill (blank_entry key) handle link_slot slot station]> m
       end.

Lemma make_key_short handle l s : 
  snprintf_text DDIAL_ROSTER_KEY_LEN (key_of handle l s) = key_of handle l s.
Proof.
  unfold key_of, ddial_roster_make_key, snprintf_text. apply take_ge.
  case_match; [|rewrite length_map]; rewrite length_take; lia.
Qed.

Lemma used_in_range t i e : used_at t i e -> 0 <= i < 1024.
Proof. by intros [? _]. Qed.

Lemma used_weight t i e : used_at t i e ->
  t !! Z.to_nat i = Some {| b_state := DDIAL_ROSTER_USED; b_entry := e |}.
Proof. by intros [_ ?]. Qed.

Lemma lookup_none r key : buckets_ok (g_buckets r) -> ddial_roster_lookup_locked r key = None ->
  contents r !! key = None /\ forall j e, used_at (g_buckets r) j e -> re_key e <> key.
Proof.
  intros Hok Hn. split; [by rewrite lookup_contents, Hn|].
  intros j e Hu <-. by rewrite (lookup_used _ _ _ Hok Hu) in Hn.
Qed.

(** Writing an entry into a bucket its key reaches, where no other bucket has the
    key and the bucket itself, if used, has it. *)
Lemma write_used r i e count : roster_ok r -> 0 <= i < 1024 ->
  (exists d, (d < 1024)%nat /\ i = pos (ddial_roster_hash (re_key e)) d /\ forall d', (d' < d)%nat ->
     b_state (bucket_at (g_buckets r) (pos (ddial_roster_hash (re_key e)) d')) <> DDIAL_ROSTER_EMPTY) ->
  (forall j e1, used_at (g_buckets r) j e1 -> re_key e1 = re_key e -> j = i) ->
  (forall e0, used_at (g_buckets r) i e0 -> re_key e0 = re_key e) ->
  count = g_count r + 1 - Z.of_nat (weight (bucket_at (g_buckets r) i)) ->
  count <= DDIAL_ROSTER_MAX ->
  let r' := set_bucket r i {| b_state := DDIAL_ROSTER_USED; b_entry := e |} count in
  roster_ok r' /\ contents r' = <[re_key e := e]> (contents r).
Proof.
  intros (Hok & Hc & Hm) Hi Hreach Honce Hsame Hcount Hmax r'.
  assert (buckets_ok (g_buckets r')) as Hok' by (by apply set_bucket_ok).
  split; [split; [done|]|by apply contents_set_used]. split; [|done].
  destruct (lookup_lt_is_Some_2 (g_buckets r) (Z.to_nat i)) as [b0 Hb0];
    [rewrite (ok_length _ Hok); lia|].
  pose proof (entries_insert _ _ {| b_state := DDIAL_ROSTER_USED; b_entry := e |} _ Hb0) as Hw.
  rewrite weight_used in Hw. unfold bucket_at in Hcount.
  rewrite (nth_lookup_Some _ _ _ _ Hb0) in Hcount. subst r'. cbn [set_bucket g_count g_buckets]. lia.
Qed.

Lemma put_contents r handle l s station : roster_ok r ->
  roster_ok (ddial_roster_put_locked r handle l s station) /\
  contents (ddial_roster_put_locked r handle l s station) = put_spec (contents r) handle l s station.
Proof.
  intros Hr. pose proof Hr as (Hok & Hc & Hm). unfold ddial_roster_put_locked, put_spec.
  fold (key_of handle l s). set (key := key_of handle l s) in *.
  destruct (decide (key = [])) as [Hk|Hk].
  { assert (bytes_eqb key [] = true) as -> by (by apply bytes_eqb_eq). done. }
  assert (bytes_eqb key [] = false) as -> by (by apply bytes_eqb_neq).
  destruct (ddial_roster_lookup_locked r key) as [i|] eqn:Hl.
  - destruct (lookup_sound _ _ _ Hok Hl) as (e & Hu & Hkey).
    assert (contents r !! key = Some e) as -> by (apply contents_spec; eauto).
    rewrite (used_at_bucket _ _ _ Hu). cbn [b_entry]. rewrite <- Hkey.
    apply (write_used r i (fill e handle l s station)).
    + done.
    + by eapply used_in_range.
    + exact (ok_reach _ Hok i e Hu).
    + intros j e1 Hu1 Hk1. by eapply (ok_unique _ Hok).
    + intros e0 [_ Hu0]. destruct Hu as [_ Hu]. rewrite Hu0 in Hu. by simplify_eq.
    + rewrite (used_at_bucket _ _ _ Hu), weight_used. lia.
    + done.
  - destruct (lookup_none _ _ Hok Hl) as [-> Hnone]. pose proof (contents_size _ Hr) as Hsz.
    unfold DDIAL_ROSTER_MAX in Hm |- *.
    destruct (Z.leb_spec 512 (g_count r)); [by rewrite decide_True by lia|].
    rewrite decide_False by lia.
    destruct (free_found r key Hr) as (d & Hd & -> & Hfree & Hbef).
    unfold key. rewrite make_key_short. fold key.
    apply (write_used r _ (fill (blank_entry key) handle l s station)); try done.
    + apply pos_range.
    + exists d. split; [done|]. split; [done|]. intros d' Hd'. by rewrite Hbef.
    + intros j e1 Hu1 Hk1. by destruct (Hnone j e1).
    + intros e0 Hu0. by rewrite (used_at_bucket _ _ _ Hu0) in Hfree.
    + rewrite (weight_unused _ Hfree). lia.
    + unfold DDIAL_ROSTER_MAX. lia.
Qed.

Lemma remove_at_contents r i e : roster_ok r -> used_at (g_buckets r) i e ->
  roster_ok (ddial_roster_remove_at_locked r i) /\
  contents (ddial_roster_remove_at_locked r i) = delete (re_key e) (contents r).
Proof.
  intros (Hok & Hc & Hm) Hu. pose proof (used_in_range _ _ _ Hu) as Hi.
  unfold ddial_roster_remove_at_locked. rewrite (used_at_bucket _ _ _ Hu). cbn [b_entry].
  assert (buckets_ok (<[Z.to_nat i := {| b_state := DDIAL_ROSTER_TOMBSTONE; b_entry := e |}]> (g_buckets r)))
    as Hok' by (by apply set_bucket_ok).
  split; [split; [done|]|by apply contents_set_free].
  cbn [set_bucket g_count g_buckets].
  pose proof (entries_insert (g_buckets r) (Z.to_nat i) {| b_state := DDIAL_ROSTER_TOMBSTONE; b_entry := e |} _ (used_weight _ _ _ Hu)) as Hw.
  rewrite weight_used, weight_unused in Hw by done. unfold DDIAL_ROSTER_MAX in *. lia.
Qed.

Lemma remove_contents r handle l s : roster_ok r ->
  roster_ok (ddial_roster_remove_locked r handle l s) /\
  contents (ddial_roster_remove_locked r handle l s) = delete (key_of handle l s) (contents r).
Proof.
  intros Hr. pose proof Hr as (Hok & _). unfold ddial_roster_remove_locked. fold (key_of handle l s).
  destruct (ddial_roster_lookup_locked r (key_of handle l s)) as [i|] eqn:Hl.
  - destruct (lookup_sound _ _ _ Hok Hl) as (e & Hu & <-). by apply remove_at_contents.
  - split; [done|]. symmetry. apply delete_id. by apply lookup_none.
Qed.

Lemma empty_roster_ok : roster_ok empty_roster /\ contents empty_roster = ∅.
Proof.
  assert (entries (g_buckets empty_roster) = []) as He by (vm_compute; reflexivity).
  assert (forall i e, ~ used_at (g_buckets empty_roster) i e) as Hno.
  { intros i e [_ Hu]. assert (e ∈ entries (g_buckets empty_roster)) as Hin
      by (apply entries_used; eauto). rewrite He in Hin. by apply not_elem_of_nil in Hin. }
  split; [|unfold contents; by rewrite He].
  split; [constructor|split; [by rewrite He|done]].
  - unfold empty_roster. cbn [g_buckets]. by rewrite length_replicate.
  - intros i e Hu. by destruct (Hno i e).
  - intros i j e e' Hu. by destruct (Hno i e).
Qed.

End Buckets.

Module Lines.
Import Buckets.

(** ** The relay lines *)

(** [strcasecmp(a, b) == 0]. *)
Definition strcase_eq (a b : bytes) : bool := bytes_eqb (map tolower a) (map tolower b).

Definition ddial_roster_is_entry (p : bytes) : bool :=
  if negb (peek p =? c_hash) || negb (isdigit (nthb p 1)) then false
  else
    let p := skip_while isdigit (drop 1 p) in
    ((peek p =? c_lparen) || (peek p =? c_lbracket) || (peek p =? c_lt)) &&
    (nthb p 1 =? c_T) && isdigit (nthb p 2).

(** [start]: the byte is at [p] or after a space or a caret. *)
Fixpoint next_entry_go (start : bool) (q : bytes) : option bytes :=
  match q with
  | [] => None
  | c :: t =>
      if (c =? c_hash) && start && ddial_roster_is_entry q then Some q
      else next_entry_go ((c =? c_space) || (c =? c_caret)) t
  end.

Definition ddial_roster_next_entry (p : bytes) : option bytes := next_entry_go true p.

(** A byte of a handle: not one of those that end it. *)
Definition handle_byte (c : Z) : bool :=
  negb ((c =? c_caret) || (c =? c_colon) || (c =? c_star) || (c =? c_rparen) ||
        (c =? c_rbracket) || (c =? c_gt)).

Record entry_identity := { ei_link : Z; ei_slot : Z; ei_is_link : bool; ei_handle : bytes }.

(** [limit]: the suffix of [p] where the next entry starts, if any. *)
Definition ddial_roster_parse_identity (p : bytes) (limit : option bytes) (cap : nat) :
    option entry_identity :=
  let number :=
    if isdigit (peek p) then
      let (v, rest) := strtoul p in
      if negb (peek rest =? c_hash) || (UINT16_MAX <? v) then None else Some (v, rest)
    else Some (0, p) in
  match number with
  | None => None
  | Some (link_slot, p) =>
      if negb (ddial_roster_is_entry p) then None else
      let (slot, rest) := strtoul (drop 1 p) in
      if UINT16_MAX <? slot then None else
      let p := skip_while isdigit (drop 2 rest) in
      if negb (peek p =? c_colon) && negb (peek p =? c_eq) then None else
      let is_link := peek p =? c_eq in
      let p := drop 1 p in
      let room := match limit with Some l => (length p - length l)%nat | None => length p end in
      let handle := strip_trailing (Z.eqb c_space) (take_while handle_byte (take room p)) in
      if bytes_eqb handle [] then None
      else Some {| ei_link := link_slot; ei_slot := slot; ei_is_link := is_link;
                   ei_handle := take (cap - 1) handle |}
  end.

(** The first loop of a station list, from the entry at [q]: the entries listed
    are put into the roster and their keys collected. *)
Fixpoint list_entries_go (fuel : nat) (r : roster) (q : option bytes) (link_slot : Z)
    (station : bytes) (listed : list bytes) : roster * list bytes :=
  match fuel, q with
  | S fuel, Some q =>
      let next := ddial_roster_next_entry (drop 1 q) in
      match (if Z.of_nat (length listed) <? DDIAL_ROSTER_MAX
             then ddial_roster_parse_identity q next DDIAL_MAX_HANDLE_LEN else None) with
      | Some i =>
          if ei_is_link i then list_entries_go fuel r next link_slot station listed
          else
            let key := ddial_roster_make_key (ei_handle i) link_slot (ei_slot i) DDIAL_ROSTER_KEY_LEN in
            let r := ddial_roster_put_locked r (ei_handle i) link_slot (ei_slot i) (Some station) in
            list_entries_go fuel r next link_slot station (listed ++ [key])
      | None => list_entries_go fuel r next link_slot station listed
      end
  | _, _ => (r, listed)
  end.

(** The body of the second loop for the bucket [i]. *)
Definition sweep_bucket (station : bytes) (listed : list bytes) (r : roster) (i : nat) : roster :=
  let b := bucket_at (g_buckets r) (Z.of_nat i) in
  if negb (bool_decide (b_state b = DDIAL_ROSTER_USED)) ||
     negb (strcase_eq (re_station (b_entry b)) station) then r
  else if existsb (fun k => bytes_eqb k (re_key (b_entry b))) listed then r
  else ddial_roster_remove_at_locked r (Z.of_nat i).

Definition sweep (r : roster) (station : bytes) (listed : list bytes) : roster :=
  fold_left (sweep_bucket station listed) (seq 0 (Z.to_nat DDIAL_ROSTER_BUCKETS)) r.

(** The number, station name and first entry a station list starts with; [own] is
    the value of the environment variable CHATTER_DDIAL_STATION. *)
Definition station_list_head (p : bytes) : option (Z * bytes * option bytes) :=
  let number :=
    if isdigit (peek p) then
      let (v, rest) := strtoul p in if UINT16_MAX <? v then None else Some (v, rest)
    else Some (0, p) in
  match number with
  | None => None
  | Some (link_slot, p) =>
      if negb (peek p =? c_minus) || (negb (nthb p 1 =? c_dot) && negb (nthb p 1 =? c_comma))
      then None
      else
        let p := drop 2 p in
        let first := ddial_roster_next_entry p in
        let name := match first with Some f => take (length p - length f) p | None => p end in
        let name := strip_trailing (fun c => (c =? c_space) || (c =? c_caret)) name in
        if bytes_eqb name [] then None
        else Some (link_slot, take (DDIAL_MAX_HANDLE_LEN - 1) name, first)
  end.

Definition ddial_roster_note_station_list_locked (own : option bytes) (r : roster) (p : bytes) : roster :=
  match station_list_head p with
  | None => r
  | Some (link_slot, station, first) =>
      if match own with Some o => strcase_eq o station | None => false end then r
      else
        let (r, listed) := list_entries_go (S (length p)) r first link_slot station [] in
        sweep r station listed
  end.

(** The sign and the rest of a login or logout line. *)
Definition event_head (p : bytes) : option (Z * bytes) :=
  if negb (is_prefix (lit "-->") p) then None else
  let p := drop 3 p in
  let p := if (peek p =? c_dot) || (peek p =? c_comma) then drop 1 p else p in
  let p := skip_while (Z.eqb c_space) p in
  let sign := peek p in
  if negb (sign =? c_plus) && negb (sign =? c_minus) then None
  else Some (sign, skip_while (fun c => (c =? c_space) || (c =? c_caret)) (drop 1 p)).

Definition ddial_roster_note_event_locked (r : roster) (p : bytes) : roster :=
  match event_head p with
  | None => r
  | Some (sign, p) =>
      match ddial_roster_parse_identity p None DDIAL_MAX_HANDLE_LEN with
      | None => r
      | Some i =>
          if ei_is_link i then r
          else if sign =? c_plus
          then ddial_roster_put_locked r (ei_handle i) (ei_link i) (ei_slot i) None
          else ddial_roster_remove_locked r (ei_handle i) (ei_link i) (ei_slot i)
      end
  end.

Definition ddial_roster_note_locked (own : option bytes) (r : roster) (line : bytes) : roster :=
  if is_prefix (lit "[SYSOP] ") line
  then ddial_roster_note_station_list_locked own r (drop 8 line)
  else if is_prefix (lit "[LINK] ") line then ddial_roster_note_event_locked r (drop 7 line)
  else match ddial_parse_incoming_chat line DDIAL_MAX_HANDLE_LEN with
       | None => r
       | Some c =>
           let i := ic_identity c in
           if negb (id_is_link i) && negb (bytes_eqb (id_handle i) [])
           then ddial_roster_put_locked r (id_handle i) (ic_link_slot c) (id_slot i) None
           else r
       end.

Definition ddial_roster_note_line (own : option bytes) (r : roster) (line : bytes) : roster :=
  if bytes_eqb line [] then r else ddial_roster_note_locked own r line.

Definition ddial_roster_line_is_operational (line : bytes) : bool :=
  is_prefix (lit "[SYSOP] ") line || is_prefix (lit "[LINK] ") line.

Definition ddial_line_is_network_map_noise (line : bytes) : bool :=
  if bytes_eqb line [] then false
  else if bool_decide (is_Some (strstr line (lit "}}}"))) ||
          bool_decide (is_Some (strstr line (lit "^#"))) then true
  else existsb (fun c => (c <? 32) && negb (c =? 9)) line.

Record history_line := { hl_is_user_message : bool; hl_message : bytes }.

Definition DDIAL_ROSTER_HISTORY_SCAN : nat := 2048.

Definition ddial_roster_seed_from_history (own : option bytes) (r : roster)
    (history : list history_line) : roster :=
  fold_left (fun r e => if hl_is_user_message e then r else ddial_roster_note_locked own r (hl_message e))
    (drop (length history - DDIAL_ROSTER_HISTORY_SCAN) history) r.

(** ** Who is ours: the registered dial-in sessions and the chat members' links *)

Record dialin := { dl_valid : bool; dl_logged_in : bool; dl_handle : bytes }.
Record local_users := { lu_sessions : list dialin; lu_chat_links : list bytes }.

Definition host_ddial_handle_is_local (u : local_users) (handle : bytes)
    (include_chat_links : bool) : bool :=
  if bytes_eqb handle [] then false
  else existsb (fun s => dl_valid s && dl_logged_in s && strcase_eq (dl_handle s) handle) (lu_sessions u)
    || (include_chat_links && existsb (fun h => strcase_eq h handle) (lu_chat_links u)).

(** ** Reading the roster *)

Definition roster_copy (r : roster) : list ddial_roster_entry :=
  take (Z.to_nat DDIAL_ROSTER_MAX) (entries (g_buckets r)).

Definition snapshot_skips (u : local_users) (exclude_handle : option bytes)
    (e : ddial_roster_entry) : bool :=
  negb (bytes_eqb (re_handle e) (lit "?")) &&
  (match exclude_handle with
   | Some x => negb (bytes_eqb x []) && strcase_eq (re_handle e) x
   | None => false
   end || host_ddial_handle_is_local u (re_handle e) true).

Definition ddial_roster_snapshot (r : roster) (u : local_users) (exclude_handle : option bytes)
    (cap : nat) : list ddial_roster_entry :=
  take cap (List.filter (fun e => negb (snapshot_skips u exclude_handle e)) (roster_copy r)).

Definition ddial_roster_find (r : roster) (u : local_users) (handle : bytes) : option Z :=
  if bytes_eqb handle [] || bytes_eqb handle (lit "?") then None
  else
    let key := ddial_roster_make_key handle 0 0 DDIAL_ROSTER_KEY_LEN in
    let found :=
      match ddial_roster_lookup_locked r key with
      | Some idx =>
          let e := b_entry (bucket_at (g_buckets r) idx) in
          if re_link_slot e =? 0 then Some (re_slot e) else None
      | None => None
      end in
    match found with
    | Some slot => if host_ddial_handle_is_local u handle true then None else Some slot
    | None => None
    end.

(** ** What a line says, apart from the table *)

Inductive relay_event :=
  | Nothing
  | Seen (handle : bytes) (link_slot slot : Z)
  | Left (handle : bytes) (link_slot slot : Z)
  | Listed (station : bytes) (link_slot : Z) (users : list entry_identity).

(** The places of a station list where an entry starts. *)
Fixpoint entry_starts (start : bool) (q : bytes) : list bytes :=
  match q with
  | [] => []
  | c :: t =>
      if (c =? c_hash) && start && ddial_roster_is_entry q then q :: entry_starts true t
      else entry_starts ((c =? c_space) || (c =? c_caret)) t
  end.

(** The users named there; links are left out. *)
Fixpoint read_users (starts : list bytes) : list entry_identity :=
  match starts with
  | [] => []
  | q :: rest =>
      match ddial_roster_parse_identity q (head rest) DDIAL_MAX_HANDLE_LEN with
      | Some i => if ei_is_link i then read_users rest else i :: read_users rest
      | None => read_users rest
      end
  end.

Definition read_list (own : option bytes) (p : bytes) : relay_event :=
  match station_list_head p with
  | None => Nothing
  | Some (link_slot, station, first) =>
      if match own with Some o => strcase_eq o station | None => false end then Nothing
      else Listed station link_slot (take 512 (read_users (default [] (entry_starts true <$> first))))
  end.

Definition read_event (p : bytes) : relay_event :=
  match event_head p with
  | None => Nothing
  | Some (sign, p) =>
      match ddial_roster_parse_identity p None DDIAL_MAX_HANDLE_LEN with
      | Some i =>
          if ei_is_link i then Nothing
          else if sign =? c_plus then Seen (ei_handle i) (ei_link i) (ei_slot i)
          else Left (ei_handle i) (ei_link i) (ei_slot i)
      | None => Nothing
      end
  end.

Definition read_line (own : option bytes) (line : bytes) : relay_event :=
  if is_prefix (lit "[SYSOP] ") line then read_list own (drop 8 line)
  else if is_prefix (lit "[LINK] ") line then read_event (drop 7 line)
  else match ddial_parse_incoming_chat line DDIAL_MAX_HANDLE_LEN with
       | Some c =>
           let i := ic_identity c in
           if id_is_link i then Nothing
           else if decide (id_handle i = []) then Nothing
           else Seen (id_handle i) (ic_link_slot c) (id_slot i)
       | None => Nothing
       end.

(** What it does to the users known, as a map. *)
Definition user_key (link_slot : Z) (i : entry_identity) : bytes :=
  key_of (ei_handle i) link_slot (ei_slot i).

Definition departed (station : bytes) (keys : list bytes) (kv : bytes * ddial_roster_entry) : Prop :=
  strcase_eq (re_station kv.2) station = true /\ kv.1 ∉ keys.

#[export] Instance departed_dec station keys kv : Decision (departed station keys kv).
Proof. unfold departed. apply _. Defined.

Definition apply_event (m : gmap bytes ddial_roster_entry) (ev : relay_event) :
    gmap bytes ddial_roster_entry :=
  match ev with
  | Nothing => m
  | Seen handle l s => put_spec m handle l s None
  | Left handle l s => delete (key_of handle l s) m
  | Listed station l users =>
      filter (fun kv => ~ departed station (user_key l <$> users) kv)
        (fold_left (fun m i => put_spec m (ei_handle i) l (ei_slot i) (Some station)) users m)
  end.

(** ** The station list *)

Lemma entry_starts_next start q :
  entry_starts start q =
  match next_entry_go start q with
  | Some q => q :: entry_starts true (drop 1 q)
  | None => []
  end.
Proof.
  revert start; induction q as [|c t IH]; intros start; [done|]. cbn [entry_starts next_entry_go].
  destruct (_ && _); [done|]. apply IH.
Qed.

Lemma next_entry_length start q q' : next_entry_go start q = Some q' ->
  (0 < length q' <= length q)%nat.
Proof.
  revert start; induction q as [|c t IH]; intros start; cbn [next_entry_go]; [done|].
  destruct (_ && _); [intros [= <-]; simpl; lia|]. intros H%IH. simpl. lia.
Qed.

(** An entry found is the first one read from there. *)
Lemma next_entry_starts start q q' : next_entry_go start q = Some q' ->
  entry_starts true q' = q' :: entry_starts true (drop 1 q').
Proof.
  revert start; induction q as [|c t IH]; intros start; cbn [next_entry_go]; [done|].
  destruct (_ && _) eqn:E; [|by apply IH]. intros [= <-]. cbn [entry_starts].
  apply andb_prop in E as [E ->]. apply andb_prop in E as [-> _]. done.
Qed.

Lemma scan_digits_length p v : (length (snd (scan_digits p v)) <= length p)%nat.
Proof.
  revert v; induction p as [|c t IH]; intros v; cbn [scan_digits]; [done|].
  destruct (isdigit c); [|done]. etrans; [apply IH|]. simpl; lia.
Qed.

Lemma station_head_first p l station f : station_list_head p = Some (l, station, Some f) ->
  (0 < length f <= length p)%nat /\ entry_starts true f = f :: entry_starts true (drop 1 f).
Proof.
  unfold station_list_head. set (number := if isdigit (peek p) then _ else _).
  assert (forall v p', number = Some (v, p') -> (length p' <= length p)%nat) as Hnum.
  { subst number. intros v p'. destruct (isdigit (peek p)) eqn:Hd; [|by intros [= _ <-]].
    rewrite strtoul_digit by done. pose proof (scan_digits_length p 0).
    destruct (scan_digits p 0) as [v0 rest]. simpl in *. case_match; [done|]. by intros [= _ <-]. }
  destruct number as [[v p']|]; [|done]. specialize (Hnum _ _ eq_refl).
  destruct (_ || _); [done|]. destruct (bytes_eqb _ _); [done|]. intros [= _ _ Hf].
  unfold ddial_roster_next_entry in Hf. split; [|by eapply next_entry_starts].
  apply next_entry_length in Hf. rewrite length_drop in Hf. lia.
Qed.

Lemma list_entries_spec fuel r q l station listed :
  (forall q', q = Some q' -> (0 < length q' < fuel)%nat) -> (length listed <= 512)%nat ->
  let users := take (512 - length listed)
    (read_users (match q with Some q => q :: entry_starts true (drop 1 q) | None => [] end)) in
  list_entries_go fuel r q l station listed =
  (fold_left (fun r i => ddial_roster_put_locked r (ei_handle i) l (ei_slot i) (Some station)) users r,
   listed ++ (user_key l <$> users)).
Proof.
  revert r q listed; induction fuel as [|f IH]; intros r q listed Hf Hl;
    (destruct q as [q|]; [specialize (Hf q eq_refl)|cbn; by rewrite take_nil, app_nil_r]); [lia|].
  cbn [list_entries_go]. set (next := ddial_roster_next_entry (drop 1 q)).
  assert (forall q', next = Some q' -> (0 < length q' < f)%nat) as Hn.
  { intros q' E. apply next_entry_length in E. rewrite length_drop in E. lia. }
  assert (head (entry_starts true (drop 1 q)) = next) as Hhead.
  { rewrite entry_starts_next. fold (ddial_roster_next_entry (drop 1 q)). fold next. by destruct next. }
  assert (entry_starts true (drop 1 q) =
    match next with Some q => q :: entry_starts true (drop 1 q) | None => [] end) as Hst
    by apply entry_starts_next.
  cbn [read_users]. rewrite Hhead. unfold DDIAL_ROSTER_MAX.
  destruct (Z.ltb_spec (Z.of_nat (length listed)) 512) as [Hlt|Hge].
  - destruct (ddial_roster_parse_identity q next DDIAL_MAX_HANDLE_LEN) as [i|].
    + destruct (ei_is_link i); [by rewrite IH, <- Hst by (done || lia)|].
      rewrite IH, <- Hst by (done || (rewrite ?length_app; simpl; lia)).
      replace (512 - length listed)%nat with (S (512 - S (length listed)))%nat by lia.
      rewrite length_app. simpl length. replace (length listed + 1)%nat with (S (length listed)) by lia.
      cbn [take fold_left fmap list_fmap]. by rewrite <- app_assoc.
    + by rewrite IH, <- Hst by (done || lia).
  - rewrite IH by (done || lia). by replace (512 - length listed)%nat with 0%nat by lia.
Qed.

(** *** Dropping the users who left *)

Lemma sweep_bucket_cases station listed r i : 
  (exists e, bucket_at (g_buckets r) (Z.of_nat i) = {| b_state := DDIAL_ROSTER_USED; b_entry := e |} /\
     departed station listed (re_key e, e) /\
     sweep_bucket station listed r i = ddial_roster_remove_at_locked r (Z.of_nat i)) \/
  ((forall e, used_at (g_buckets r) (Z.of_nat i) e -> ~ departed station listed (re_key e, e)) /\
     sweep_bucket station listed r i = r).
Proof.
  unfold sweep_bucket, departed. cbn [fst snd].
  destruct (bucket_at (g_buckets r) (Z.of_nat i)) as [st e] eqn:Hb. cbn [b_state b_entry].
  assert (forall e', used_at (g_buckets r) (Z.of_nat i) e' -> st = DDIAL_ROSTER_USED /\ e' = e) as Hu.
  { intros e' Hu. rewrite (used_at_bucket _ _ _ Hu) in Hb. by simplify_eq. }
  destruct (bool_decide (st = DDIAL_ROSTER_USED)) eqn:Hs; [apply bool_decide_eq_true in Hs|apply bool_decide_eq_false in Hs]; cbn [negb orb];
    [|right; split; [|done]; by intros e' [? _]%Hu].
  destruct (strcase_eq (re_station e) station) eqn:Hst; cbn [negb];
    [|right; split; [|done]; intros e' [_ ->]%Hu; intros [? _]; congruence].
  destruct (existsb _ listed) eqn:He.
  - right. split; [|done]. intros e' [_ ->]%Hu [_ Hni]. apply Hni.
    apply existsb_exists in He as (k & Hk & Heq%bytes_eqb_eq). subst. by apply list_elem_of_In.
  - left. exists e. subst st. split; [done|]. split; [|done]. split; [done|]. intros Hin.
    apply not_true_iff_false in He. apply He. apply existsb_exists. exists (re_key e).
    rewrite bytes_eqb_refl. by rewrite <- list_elem_of_In.
Qed.

Lemma sweep_go station listed idxs r : roster_ok r -> Forall (fun i => (i < 1024)%nat) idxs ->
  let r' := fold_left (sweep_bucket station listed) idxs r in
  roster_ok r' /\ forall j e, used_at (g_buckets r') j e <->
    used_at (g_buckets r) j e /\ ~ (departed station listed (re_key e, e) /\ Z.to_nat j ∈ idxs).
Proof.
  revert r; induction idxs as [|i idxs IH]; intros r Hr His.
  - split; [done|]. intros j e. split; [|tauto]. intros Hu. split; [done|].
    intros [_ H]. by apply not_elem_of_nil in H.
  - apply Forall_cons in His as [Hi His]. cbn [fold_left].
    destruct (sweep_bucket_cases station listed r i) as [(e0 & Hb & Hd & ->)|[Hn ->]].
    + assert (used_at (g_buckets r) (Z.of_nat i) e0) as Hu0.
      { replace e0 with (b_entry (bucket_at (g_buckets r) (Z.of_nat i))) by (by rewrite Hb).
        apply bucket_used; [apply Hr|lia|by rewrite Hb]. }
      destruct (remove_at_contents _ _ _ Hr Hu0) as [Hr1 _].
      destruct (IH _ Hr1 His) as [Hr' Hiff]. split; [done|]. intros j e. rewrite Hiff.
      unfold ddial_roster_remove_at_locked. cbn [set_bucket g_buckets].
      rewrite used_at_insert by (try apply Hr; lia). rewrite elem_of_cons. split.
      * intros [[[_ [=]]|[Hne Hu]] Hnot]. split; [done|]. intros [Hdep [Hj|Hj]]; [|tauto].
        apply Hne. pose proof (used_in_range _ _ _ Hu). lia.
      * intros [Hu Hnot]. split; [|tauto]. right. split; [|done]. intros ->.
        apply Hnot. rewrite Nat2Z.id. split; [|by left].
        destruct Hu as [_ Hu], Hu0 as [_ Hu0]. rewrite Hu in Hu0. by simplify_eq.
    + destruct (IH _ Hr His) as [Hr' Hiff]. split; [done|]. intros j e. rewrite Hiff, elem_of_cons.
      split; [|tauto]. intros [Hu Hnot]. split; [done|]. intros [Hdep [Hj|Hj]]; [|tauto].
      pose proof (used_in_range _ _ _ Hu). apply (Hn e); [|done].
      by replace (Z.of_nat i) with j by lia.
Qed.

Lemma sweep_contents r station listed : roster_ok r ->
  roster_ok (sweep r station listed) /\
  contents (sweep r station listed) = filter (fun kv => ~ departed station listed kv) (contents r).
Proof.
  intros Hr. unfold sweep. change (Z.to_nat DDIAL_ROSTER_BUCKETS) with 1024%nat.
  destruct (sweep_go station listed (seq 0 1024) r Hr) as [Hr' Hiff].
  { apply Forall_forall. intros i. rewrite elem_of_seq. lia. }
  split; [done|]. apply map_eq; intros k; apply option_eq; intros e.
  rewrite contents_spec, map_lookup_filter_Some, contents_spec by (apply Hr' || apply Hr).
  setoid_rewrite Hiff. split.
  - intros (<- & j & Hu & Hnot). split; [eauto|]. intros Hd. apply Hnot. split; [done|].
    rewrite elem_of_seq. pose proof (used_in_range _ _ _ Hu). lia.
  - intros [[<- [j Hu]] Hnot]. split; [done|]. exists j. split; [done|]. tauto.
Qed.

(** ** Lines act on the map *)

Lemma put_users_contents users l station r : roster_ok r ->
  let r' := fold_left (fun r i => ddial_roster_put_locked r (ei_handle i) l (ei_slot i) (Some station)) users r in
  roster_ok r' /\ contents r' =
    fold_left (fun m i => put_spec m (ei_handle i) l (ei_slot i) (Some station)) users (contents r).
Proof.
  revert r; induction users as [|i users IH]; intros r Hr; [done|]. cbn [fold_left].
  destruct (put_contents r (ei_handle i) l (ei_slot i) (Some station) Hr) as [Hr1 <-]. by apply IH.
Qed.

Lemma station_list_contents own r p : roster_ok r ->
  let r' := ddial_roster_note_station_list_locked own r p in
  roster_ok r' /\ contents r' = apply_event (contents r) (read_list own p).
Proof.
  intros Hr. unfold ddial_roster_note_station_list_locked, read_list.
  destruct (station_list_head p) as [[[l station] first]|] eqn:Hh; [|done].
  destruct (match own with Some _ => _ | None => _ end); [done|].
  assert (match first with Some q => q :: entry_starts true (drop 1 q) | None => [] end =
          default [] (entry_starts true <$> first)) as Hst.
  { destruct first as [f|]; [|done]. simpl. by destruct (station_head_first _ _ _ _ Hh) as [_ ->]. }
  rewrite list_entries_spec, Hst; [|intros f ->|simpl; lia].
  - cbn [length app]. rewrite Nat.sub_0_r. cbv zeta. set (users := take 512 _).
    destruct (put_users_contents users l station r Hr) as [Hr1 Hc].
    destruct (sweep_contents _ station (user_key l <$> users) Hr1) as [Hr2 Hc2].
    split; [done|]. by rewrite Hc2, Hc.
  - destruct (station_head_first _ _ _ _ Hh). lia.
Qed.

Lemma event_contents r p : roster_ok r ->
  let r' := ddial_roster_note_event_locked r p in
  roster_ok r' /\ contents r' = apply_event (contents r) (read_event p).
Proof.
  intros Hr. unfold ddial_roster_note_event_locked, read_event.
  destruct (event_head p) as [[sign q]|]; [|done].
  destruct (ddial_roster_parse_identity _ _ _) as [i|]; [|done].
  destruct (ei_is_link i); [done|]. destruct (sign =? c_plus).
  - by apply put_contents.
  - by apply remove_contents.
Qed.

Lemma note_line_contents own r line : roster_ok r ->
  let r' := ddial_roster_note_line own r line in
  roster_ok r' /\ contents r' = apply_event (contents r) (read_line own line).
Proof.
  intros Hr. unfold ddial_roster_note_line.
  destruct (bytes_eqb line []) eqn:E; [apply bytes_eqb_eq in E; by subst|].
  unfold ddial_roster_note_locked, read_line.
  destruct (is_prefix (lit "[SYSOP] ") line); [by apply station_list_contents|].
  destruct (is_prefix (lit "[LINK] ") line); [by apply event_contents|].
  destruct (ddial_parse_incoming_chat _ _) as [c|]; [|done]. cbv zeta.
  destruct (id_is_link (ic_identity c)); [done|].
  destruct (decide (id_handle (ic_identity c) = [])) as [->|Hne]; [done|].
  assert (bytes_eqb (id_handle (ic_identity c)) [] = false) as -> by (by apply bytes_eqb_neq).
  by apply put_contents.
Qed.

(** Noting lines one after the other, on the table and on the map. *)
Lemma note_lines_contents own lines r : roster_ok r ->
  let r' := fold_left (ddial_roster_note_line own) lines r in
  roster_ok r' /\ contents r' = fold_left apply_event (read_line own <$> lines) (contents r).
Proof.
  revert r; induction lines as [|line lines IH]; intros r Hr; [done|]. cbn [fold_left fmap list_fmap].
  destruct (note_line_contents own r line Hr) as [Hr1 <-]. by apply IH.
Qed.

Lemma note_locked_line own r line :
  ddial_roster_note_locked own r line = ddial_roster_note_line own r line.
Proof.
  unfold ddial_roster_note_line. destruct (bytes_eqb line []) eqn:E; [|done].
  apply bytes_eqb_eq in E. by subst.
Qed.

(** Looking a handle up goes through the map. *)
Lemma find_contents r u handle : roster_ok r -> handle <> [] -> handle <> lit "?" ->
  ddial_roster_find r u handle =
  match contents r !! key_of handle 0 0 with
  | Some e => if (re_link_slot e =? 0) && negb (host_ddial_handle_is_local u handle true)
              then Some (re_slot e) else None
  | None => None
  end.
Proof.
  intros [Hok _] Hne Hq. unfold ddial_roster_find.
  assert (bytes_eqb handle [] = false) as -> by (by apply bytes_eqb_neq).
  assert (bytes_eqb handle (lit "?") = false) as -> by (by apply bytes_eqb_neq).
  rewrite lookup_contents by done. fold (key_of handle 0 0).
  destruct (ddial_roster_lookup_locked r (key_of handle 0 0)) as [i|]; [|done]. simpl.
  destruct (re_link_slot _ =? 0); simpl; [|done]. by destruct (host_ddial_handle_is_local u handle true).
Qed.

(** The key of a handle that is no guest's forgets the case and the line. *)
Lemma key_of_handle h h' l s l' s' : strcase_eq h h' = true -> h <> lit "?" -> h' <> lit "?" ->
  key_of h l s = key_of h' l' s'.
Proof.
  intros Heq%bytes_eqb_eq Hq Hq'. unfold key_of, ddial_roster_make_key.
  assert (bytes_eqb h (lit "?") = false) as -> by (by apply bytes_eqb_neq).
  assert (bytes_eqb h' (lit "?") = false) as -> by (by apply bytes_eqb_neq).
  by rewrite <- !firstn_map, Heq.
Qed.

Lemma key_of_nonempty h l s : h <> [] -> key_of h l s <> [].
Proof.
  intros Hne. unfold key_of, ddial_roster_make_key. destruct (bytes_eqb _ _); [done|].
  by destruct h.
Qed.

(** After a put there is room for, the entry is there. *)
Lemma put_spec_lookup m h l s station : h <> [] ->
  is_Some (m !! key_of h l s) \/ (size m < 512)%nat ->
  exists e, put_spec m h l s station !! key_of h l s = Some e /\
    re_link_slot e = l /\ re_slot e = s /\ re_handle e = snprintf_text DDIAL_MAX_HANDLE_LEN h /\
    forall st, station = Some st -> re_station e = snprintf_text DDIAL_MAX_HANDLE_LEN st.
Proof.
  intros Hne Hroom. unfold put_spec. rewrite decide_False by (by apply key_of_nonempty).
  destruct (m !! key_of h l s) as [e|].
  - rewrite lookup_insert_eq. eexists. split; [done|]. repeat split. by intros st ->.
  - rewrite decide_False by (destruct Hroom as [[? [=]]|]; lia). rewrite lookup_insert_eq.
    eexists. split; [done|]. repeat split. by intros st ->.
Qed.

(** ** Theorems *)

(** C2: the open-addressing table implements a finite map of the users known: for
    any relay lines, in any order, from the empty roster on, the table stays well
    formed (every entry reachable from the hash of its key, no key twice, the
    count right and at most 512, so that the search for a free bucket ends), and
    its contents are those of the map on which each line acts by what it says:
    a chat or login line puts the user, a logout removes it, a station list puts
    the users it names and drops the users of that station it does not name. *)
Theorem roster_refines own lines :
  let r := fold_left (ddial_roster_note_line own) lines empty_roster in
  roster_ok r /\ contents r = fold_left apply_event (read_line own <$> lines) ∅.
Proof.
  destruct empty_roster_ok as [Hok <-]. by apply note_lines_contents.
Qed.

(** Seeding from the history is noting its last 2048 lines that no user wrote,
    in their order. *)
Theorem seed_is_replay own r history : roster_ok r ->
  let seeded := ddial_roster_seed_from_history own r history in
  roster_ok seeded /\
  contents seeded = fold_left apply_event
    (read_line own <$> (hl_message <$> List.filter (fun e => negb (hl_is_user_message e))
       (drop (length history - 2048) history))) (contents r).
Proof.
  intros Hr. unfold ddial_roster_seed_from_history, DDIAL_ROSTER_HISTORY_SCAN.
  generalize (drop (length history - 2048) history). intros h. revert r Hr.
  induction h as [|e h IH]; intros r Hr; [done|]. cbn [fold_left List.filter].
  destruct (hl_is_user_message e); cbn [negb]; [by apply IH|].
  cbn [fmap list_fmap fold_left]. rewrite note_locked_line.
  destruct (note_line_contents own r (hl_message e) Hr) as [Hr1 <-]. by apply IH.
Qed.

(** After a station's user list is noted, whoever the roster has for that
    station (its name compared without case) is on the list. *)
Theorem station_list_exact own r line station l users k e : roster_ok r ->
  read_line own line = Listed station l users ->
  contents (ddial_roster_note_line own r line) !! k = Some e ->
  strcase_eq (re_station e) station = true ->
  exists i, i ∈ users /\ k = user_key l i.
Proof.
  intros Hr Hread. destruct (note_line_contents own r line Hr) as [_ ->]. rewrite Hread.
  cbn [apply_event]. intros [_ Hnd]%map_lookup_filter_Some Hst.
  destruct (decide (k ∈ user_key l <$> users)) as [Hin|Hni].
  - apply list_elem_of_fmap in Hin as (i & -> & Hi). eauto.
  - by destruct Hnd.
Qed.

(** A public chat line formatted for a user makes the user known at the line it
    came from: when there is room, a private message to that handle, in any case,
    finds the slot, unless the handle is a local user's. *)
Theorem chat_then_find own r u cap slot channel tier handle message line h : roster_ok r ->
  0 <= slot <= UINT16_MAX -> plain_handle (clean_handle handle) = true ->
  clean_handle handle <> [] -> clean_handle handle <> lit "?" ->
  g_count r < 512 -> ddial_format_chat cap slot channel tier handle message = (true, line) ->
  strcase_eq h (clean_handle handle) = true -> h <> [] -> h <> lit "?" ->
  host_ddial_handle_is_local u h true = false ->
  ddial_roster_find (ddial_roster_note_line own r line) u h = Some slot.
Proof.
  intros Hr Hslot Hplain Hne Hq Hroom Hline Hh Hhne Hhq Hloc.
  destruct (note_line_contents own r line Hr) as [Hr1 Hc]. rewrite find_contents by done.
  assert (read_line own line = Seen (clean_handle handle) 0 slot) as Hread.
  { unfold read_line. rewrite (format_chat_parses _ _ _ _ _ _ _ Hslot Hplain Hline).
    cbn [ic_identity id_is_link id_handle id_slot ic_link_slot]. rewrite decide_False by done.
    apply snprintf_true in Hline as ->. lits. reflexivity. }
  rewrite Hc, Hread, (key_of_handle h (clean_handle handle) 0 0 0 slot) by done. cbn [apply_event].
  pose proof (contents_size _ Hr).
  destruct (put_spec_lookup (contents r) (clean_handle handle) 0 slot None Hne) as (e & -> & -> & -> & _);
    [right; lia|]. by rewrite Hloc.
Qed.

(** What the room is shown of the roster: with a buffer of 512 entries, every
    user known that is neither a local user nor the excluded account, guests
    included, once each, and nobody else. *)
Theorem snapshot_exact r u exclude : roster_ok r ->
  let shown := ddial_roster_snapshot r u exclude 512 in
  NoDup (re_key <$> shown) /\
  forall e, e ∈ shown <-> contents r !! re_key e = Some e /\ snapshot_skips u exclude e = false.
Proof.
  intros (Hok & Hc & Hm). unfold ddial_roster_snapshot, roster_copy. unfold DDIAL_ROSTER_MAX in *.
  rewrite (take_ge (entries _)) by lia.
  rewrite take_ge by (etrans; [apply filter_length_le|lia]).
  split.
  - pose proof (keys_nodup _ Hok) as Hnd. revert Hnd. generalize (entries (g_buckets r)).
    intros es. induction es as [|e es IH]; [done|]. rewrite fmap_cons, NoDup_cons. intros [Hni Hnd].
    cbn [List.filter]. destruct (negb _); [|by apply IH]. rewrite fmap_cons, NoDup_cons.
    split; [|by apply IH]. intros (e' & Hk & Hin)%list_elem_of_fmap. apply Hni. rewrite Hk.
    apply list_elem_of_fmap. exists e'. split; [done|].
    apply list_elem_of_In, filter_In in Hin as [Hin _]. by apply list_elem_of_In.
  - intros e. rewrite list_elem_of_In, filter_In, <- list_elem_of_In, negb_true_iff.
    rewrite contents_spec, entries_used by done. split.
    + intros [[n Hn] Hs]. split; [|done]. split; [done|]. eexists.
      apply used_index; [apply Hok|done].
    + intros [[_ [i [_ Hi]]] Hs]. eauto.
Qed.

End Lines.

Module RosterSamples.
Import Buckets Lines.

Definition sample_list : bytes :=
  lit "[SYSOP] 73-.SynerChat #0[T1:AriZona Mae #2<T1:Joe Boo:232 #3[T1:bassboy:057".

(** The users of a sample list, as they are read. *)
Definition sample_users : list entry_identity :=
  match read_line None sample_list with Listed _ _ users => users | _ => [] end.

Definition sample_roster : roster := ddial_roster_note_line None empty_roster sample_list.

Lemma sample_roster_ok : roster_ok sample_roster.
Proof. apply note_line_contents, empty_roster_ok. Qed.

Definition nobody : local_users := {| lu_sessions := []; lu_chat_links := [] |}.

(** A shorter list of the same station: Joe Boo has left. *)
Definition sample_list2 : bytes := lit "[SYSOP] 73-.SynerChat #0[T1:AriZona Mae #3[T1:bassboy:057".

Definition bassboy_entry : ddial_roster_entry :=
  {| re_key := lit "bassboy"; re_handle := lit "bassboy"; re_station := lit "SynerChat";
     re_link_slot := 73; re_slot := 3 |}.

Lemma station_list_exact_witness :
  exists i, i ∈ match read_line None sample_list2 with Listed _ _ users => users | _ => [] end /\
    lit "bassboy" = user_key 73 i.
Proof.
  apply (station_list_exact None sample_roster sample_list2 (lit "SynerChat") 73 _ _ bassboy_entry).
  - exact sample_roster_ok.
  - vm_compute; reflexivity.
  - rewrite lookup_contents; [vm_compute; reflexivity|].
    apply (note_line_contents None sample_roster sample_list2 sample_roster_ok).
  - vm_compute; reflexivity.
Defined.

Lemma chat_then_find_witness :
  ddial_roster_find
    (ddial_roster_note_line None sample_roster
       (ddial_format_chat 300 12 2 DDIAL_TIER_GUEST (lit "Kermit") (lit "hi ho")).2) nobody (lit "KERMIT")
  = Some 12.
Proof.
  apply (chat_then_find None sample_roster nobody 300 12 2 DDIAL_TIER_GUEST (lit "Kermit") (lit "hi ho"));
    try (vm_compute; reflexivity); try (vm_compute; discriminate).
  - exact sample_roster_ok.
  - vm_compute; split; discriminate.
Defined.

Lemma snapshot_exact_witness :
  NoDup (re_key <$> ddial_roster_snapshot sample_roster nobody None 512).
Proof. apply (snapshot_exact sample_roster nobody None sample_roster_ok). Defined.
End RosterSamples.
