(* ===== verification/DdialClient.v ===== *)
(** The upstream DDial client ([src/host/ddial/client.c]): the telnet state
    machine that takes the bytes of the socket, the cleaning and rewriting of the
    lines, their extraction from the receive buffer, and the lines sent out.  The
    lines extracted feed the roster ([DdialRoster]). *)

From Stdlib Require Import ZArith Lia String Ascii.
From stdpp Require Import prelude gmap.
From S2P Require Import Prelude DdialProtocol DdialRoster.
Import Wire.

(** ** The telnet machine *)

Module Telnet.

Inductive telnet_state :=
  | DDIAL_TELNET_DATA | DDIAL_TELNET_IAC | DDIAL_TELNET_OPT
  | DDIAL_TELNET_SB_OPT | DDIAL_TELNET_SB | DDIAL_TELNET_SB_IAC.

#[export] Instance telnet_state_eq_dec : EqDecision telnet_state.
Proof. solve_decision. Defined.

Definition RECV_BUFFER_SIZE : Z := 16384.
Definition TELNET_SB_SIZE : Z := 64.
Definition IAC_BUF_SIZE : Z := 128.

(** The parser's fields of the client, with its receive buffer. *)
Record telnet := {
  tn_state : telnet_state; tn_cmd : Z; tn_sb_opt : Z; tn_sb : bytes; tn_recv : bytes
}.

Definition goto (st : telnet_state) (t : telnet) : telnet :=
  {| tn_state := st; tn_cmd := tn_cmd t; tn_sb_opt := tn_sb_opt t; tn_sb := tn_sb t;
     tn_recv := tn_recv t |}.

(** [if (len < sizeof(buf)) buf[len++] = byte]. *)
Definition push (cap : Z) (buf : bytes) (byte : Z) : bytes :=
  if Z.of_nat (length buf) <? cap then buf ++ [byte] else buf.

#[local] Arguments push : simpl never.

Definition recv_byte (t : telnet) (byte : Z) : telnet :=
  {| tn_state := tn_state t; tn_cmd := tn_cmd t; tn_sb_opt := tn_sb_opt t; tn_sb := tn_sb t;
     tn_recv := push RECV_BUFFER_SIZE (tn_recv t) byte |}.

Definition sb_byte (t : telnet) (byte : Z) : telnet :=
  {| tn_state := tn_state t; tn_cmd := tn_cmd t; tn_sb_opt := tn_sb_opt t;
     tn_sb := push TELNET_SB_SIZE (tn_sb t) byte; tn_recv := tn_recv t |}.

Definition sb_reset (opt : Z) (t : telnet) : telnet :=
  {| tn_state := tn_state t; tn_cmd := tn_cmd t; tn_sb_opt := opt; tn_sb := [];
     tn_recv := tn_recv t |}.

Definition sb_clear (t : telnet) : telnet := sb_reset (tn_sb_opt t) t.

Definition set_cmd (cmd : Z) (t : telnet) : telnet :=
  {| tn_state := tn_state t; tn_cmd := cmd; tn_sb_opt := tn_sb_opt t; tn_sb := tn_sb t;
     tn_recv := tn_recv t |}.

(** A reply is appended whole or not at all. *)
Definition append_reply (buf reply : bytes) : bytes :=
  if IAC_BUF_SIZE <? Z.of_nat (length buf) + Z.of_nat (length reply) then buf else buf ++ reply.

Definition ddial_client_append_telnet_reply (buf : bytes) (cmd opt : Z) : bytes :=
  append_reply buf [255; cmd; opt].

(** [IAC SB TERMINAL-TYPE IS "ANSI" IAC SE]. *)
Definition terminal_type_reply : bytes := [255; 250; 24; 0; 65; 78; 83; 73; 255; 240].

Definition ddial_client_append_terminal_type_reply (buf : bytes) : bytes :=
  append_reply buf terminal_type_reply.

(** The command that answers [cmd opt]; 0 for none. *)
Definition reply_cmd (cmd opt : Z) : Z :=
  if cmd =? 251 then (if (opt =? 1) || (opt =? 3) then 253 else 252)
  else if cmd =? 252 then 254
  else if cmd =? 253 then
    (if opt =? 24 then 251 else if opt =? 3 then 251 else 252)
  else if cmd =? 254 then 252
  else 0.

Definition ddial_client_process_telnet_option (buf : bytes) (cmd opt : Z) : bytes :=
  if reply_cmd cmd opt =? 0 then buf
  else ddial_client_append_telnet_reply buf (reply_cmd cmd opt) opt.

(** The loop body: the client and [iac_buf] after one byte. *)
Definition telnet_byte (s : telnet * bytes) (byte : Z) : telnet * bytes :=
  let (t, iac) := s in
  match tn_state t with
  | DDIAL_TELNET_DATA =>
      if byte =? 255 then (goto DDIAL_TELNET_IAC t, iac) else (recv_byte t byte, iac)
  | DDIAL_TELNET_IAC =>
      if byte =? 255 then (goto DDIAL_TELNET_DATA (recv_byte t 255), iac)
      else if (240 <=? byte) && (byte <=? 250) then
        if byte =? 250 then (goto DDIAL_TELNET_SB_OPT (sb_reset 0 t), iac)
        else (goto DDIAL_TELNET_DATA t, iac)
      else if (251 <=? byte) && (byte <=? 254) then (goto DDIAL_TELNET_OPT (set_cmd byte t), iac)
      else (goto DDIAL_TELNET_DATA t, iac)
  | DDIAL_TELNET_OPT =>
      (goto DDIAL_TELNET_DATA t, ddial_client_process_telnet_option iac (tn_cmd t) byte)
  | DDIAL_TELNET_SB_OPT => (goto DDIAL_TELNET_SB (sb_reset byte t), iac)
  | DDIAL_TELNET_SB =>
      if byte =? 255 then (goto DDIAL_TELNET_SB_IAC t, iac) else (sb_byte t byte, iac)
  | DDIAL_TELNET_SB_IAC =>
      if byte =? 240 then
        let iac :=
          if (tn_sb_opt t =? 24) && (0 <? Z.of_nat (length (tn_sb t))) && (nthb (tn_sb t) 0 =? 1)
          then ddial_client_append_terminal_type_reply iac else iac in
        (goto DDIAL_TELNET_DATA (sb_clear t), iac)
      else if byte =? 255 then (goto DDIAL_TELNET_SB (sb_byte t 255), iac)
      else (goto DDIAL_TELNET_DATA t, iac)
  end.

(** The client after the bytes of one read, and the reply sent. *)
Definition ddial_client_process_telnet (t : telnet) (src : bytes) : telnet * bytes :=
  fold_left telnet_byte src (t, []).

(** ** What a telnet stream carries *)

Inductive token :=
  | Data (byte : Z)                   (** a byte of text; 255 goes doubled *)
  | Command (cmd : Z)                 (** a command without argument *)
  | Option (cmd opt : Z)              (** WILL, WONT, DO, DONT *)
  | Subnegotiation (opt : Z) (payload : bytes).

Definition token_ok (k : token) : Prop :=
  match k with
  | Data byte => byte_ok byte
  | Command cmd => 240 <= cmd < 250
  | Option cmd opt => 251 <= cmd <= 254 /\ byte_ok opt
  | Subnegotiation opt payload => byte_ok opt /\ Forall byte_ok payload
  end.

Definition encode (k : token) : bytes :=
  match k with
  | Data byte => if byte =? 255 then [255; 255] else [byte]
  | Command cmd => [255; cmd]
  | Option cmd opt => [255; cmd; opt]
  | Subnegotiation opt payload => [255; 250; opt] ++ telnet_escape payload ++ [255; 240]
  end.

Definition text_of (k : token) : bytes := match k with Data byte => [byte] | _ => [] end.

Definition reply_to (k : token) : bytes :=
  match k with
  | Option cmd opt => [255; reply_cmd cmd opt; opt]
  | Subnegotiation opt payload =>
      if (opt =? 24) && (peek payload =? 1) then terminal_type_reply else []
  | _ => []
  end.

Definition at_rest (t : telnet) : Prop := tn_state t = DDIAL_TELNET_DATA.

Lemma push_fits cap buf byte : Z.of_nat (length buf) < cap -> push cap buf byte = buf ++ [byte].
Proof. intros. unfold push. by destruct (Z.ltb_spec (Z.of_nat (length buf)) cap); [|lia]. Qed.

Lemma push_head cap buf byte : 0 < cap ->
  peek (push cap buf byte) = match buf with [] => byte | c :: _ => c end.
Proof. intros. unfold push. case_match eqn:E; bprop; destruct buf; simpl in *; try done; lia. Qed.

Lemma push_nonempty cap buf byte : 0 < cap -> push cap buf byte <> [].
Proof. intros. unfold push. case_match eqn:E; bprop; destruct buf; simpl in *; try done; lia. Qed.

(** Reading a payload: it is collected, and only its head matters. *)
Lemma payload_read payload t iac : tn_state t = DDIAL_TELNET_SB ->
  exists t', fold_left telnet_byte (telnet_escape payload) (t, iac) = (t', iac) /\
    tn_state t' = DDIAL_TELNET_SB /\ tn_sb_opt t' = tn_sb_opt t /\ tn_recv t' = tn_recv t /\
    peek (tn_sb t') = match tn_sb t with [] => peek payload | c :: _ => c end /\
    (tn_sb t' = [] <-> tn_sb t = [] /\ payload = []).
Proof.
  revert t; induction payload as [|c payload IH]; intros t Hst.
  { exists t. cbn. split; [done|]. split; [done|]. split; [done|]. split; [done|].
    split; [by destruct (tn_sb t)|tauto]. }
  assert (exists t1, fold_left telnet_byte (if c =? 255 then [255; 255] else [c]) (t, iac) = (t1, iac) /\
    tn_state t1 = DDIAL_TELNET_SB /\ tn_sb_opt t1 = tn_sb_opt t /\ tn_recv t1 = tn_recv t /\
    tn_sb t1 = push TELNET_SB_SIZE (tn_sb t) c) as (t1 & H1 & Hst1 & Ho1 & Hr1 & Hsb1).
  { destruct (Z.eqb_spec c 255) as [->|Hc]; cbn; rewrite Hst; cbn.
    - eexists. split; [done|]. by repeat split.
    - apply Z.eqb_neq in Hc. rewrite Hc. eexists. split; [done|]. by repeat split. }
  destruct (IH t1 Hst1) as (t' & H' & Hst' & Ho' & Hr' & Hp' & He').
  exists t'. split; [|split; [done|split; [congruence|split; [congruence|split]]]].
  - change (telnet_escape (c :: payload)) with
      ((if c =? 255 then [255; 255] else [c]) ++ telnet_escape payload).
    rewrite fold_left_app, H1. exact H'.
  - rewrite Hp', Hsb1. pose proof (push_head TELNET_SB_SIZE (tn_sb t) c ltac:(done)) as Hh.
    destruct (push _ _ _) eqn:E; [by apply push_nonempty in E|]. exact Hh.
  - rewrite He', Hsb1. split; [intros [E _]; by apply push_nonempty in E|by intros [_ [=]]].
Qed.

(** One token from a machine at rest. *)
Lemma token_read k t iac : token_ok k -> at_rest t ->
  Z.of_nat (length (tn_recv t ++ text_of k)) <= RECV_BUFFER_SIZE ->
  Z.of_nat (length (iac ++ reply_to k)) <= IAC_BUF_SIZE ->
  exists t', fold_left telnet_byte (encode k) (t, iac) = (t', iac ++ reply_to k) /\ at_rest t' /\
    tn_recv t' = tn_recv t ++ text_of k.
Proof.
  unfold at_rest. intros Hk Hst. rewrite !length_app. destruct k as [c|c|c opt|opt payload]; cbn [text_of reply_to length]; intros Hl Hi.
  - assert (push RECV_BUFFER_SIZE (tn_recv t) c = tn_recv t ++ [c]) as Hp by (apply push_fits; lia).
    cbn [encode]. destruct (Z.eqb_spec c 255) as [->|Hc].
    + cbn. rewrite Hst. cbn. rewrite app_nil_r. eexists. split; [done|]. done.
    + cbn [fold_left telnet_byte]. rewrite Hst. apply Z.eqb_neq in Hc. rewrite Hc, app_nil_r.
      eexists. split; [done|]. done.
  - cbn [encode fold_left telnet_byte]. rewrite Hst. cbn. cbn in Hk.
    assert ((c =? 255) = false) as -> by lia. assert ((240 <=? c) && (c <=? 250) = true) as -> by lia.
    assert ((c =? 250) = false) as -> by lia. rewrite !app_nil_r. eexists. split; [done|]. done.
  - cbn [encode fold_left telnet_byte]. rewrite Hst. cbn. destruct Hk as [Hk _].
    assert ((c =? 255) = false) as -> by lia. assert ((240 <=? c) && (c <=? 250) = false) as -> by lia.
    assert ((251 <=? c) && (c <=? 254) = true) as -> by lia. cbn.
    unfold ddial_client_process_telnet_option, ddial_client_append_telnet_reply, append_reply.
    assert ((reply_cmd c opt =? 0) = false) as -> by (unfold reply_cmd; repeat case_match; lia).
    cbn [length]. destruct (Z.ltb_spec IAC_BUF_SIZE (Z.of_nat (length iac) + Z.of_nat 3)); [lia|].
    eexists. split; [done|]. by rewrite app_nil_r.
  - cbn [encode]. rewrite fold_left_app. cbn [fold_left telnet_byte]. rewrite Hst. cbn.
    set (t1 := goto DDIAL_TELNET_SB _). rewrite fold_left_app.
    destruct (payload_read payload t1 iac eq_refl) as (t' & -> & Hst' & Ho' & Hr' & Hp' & He').
    cbn [fold_left telnet_byte]. rewrite Hst'. cbn. rewrite Ho'. cbn [t1 tn_sb_opt].
    exists (goto DDIAL_TELNET_DATA (sb_clear (goto DDIAL_TELNET_SB_IAC t'))).
    split; [|split; [done|by rewrite app_nil_r]]. f_equal. change (tn_sb_opt t1) with opt.
    assert (nth 0 (tn_sb t') 0 = peek payload) as ->.
    { transitivity (peek (tn_sb t')); [by destruct (tn_sb t')|]. by rewrite Hp'. }
    destruct (opt =? 24) eqn:E24; cbn [andb]; [|by rewrite app_nil_r].
    destruct (Z.eqb_spec (peek payload) 1) as [H1|H1]; [|by rewrite andb_false_r, app_nil_r].
    assert ((0 <? Z.of_nat (length (tn_sb t'))) = true) as ->.
    { destruct (tn_sb t') eqn:E; [|done]. exfalso.
      destruct He' as [He' _]. destruct (He' eq_refl) as [_ ->]. done. }
    cbn [andb]. unfold ddial_client_append_terminal_type_reply, append_reply.
    cbn [andb] in Hi.
    by destruct (Z.ltb_spec IAC_BUF_SIZE (Z.of_nat (length iac) + Z.of_nat (length terminal_type_reply))); [lia|].
Qed.

Lemma tokens_read ks t iac : Forall token_ok ks -> at_rest t ->
  Z.of_nat (length (tn_recv t ++ flat_map text_of ks)) <= RECV_BUFFER_SIZE ->
  Z.of_nat (length (iac ++ flat_map reply_to ks)) <= IAC_BUF_SIZE ->
  exists t', fold_left telnet_byte (flat_map encode ks) (t, iac) = (t', iac ++ flat_map reply_to ks) /\
    at_rest t' /\ tn_recv t' = tn_recv t ++ flat_map text_of ks.
Proof.
  revert t iac; induction ks as [|k ks IH]; intros t iac Hok Hst; cbn [flat_map]; intros Hl Hi.
  { exists t. by rewrite !app_nil_r. }
  apply Forall_cons in Hok as [Hk Hok]. rewrite app_assoc in Hl, Hi. rewrite fold_left_app.
  destruct (token_read k t iac Hk Hst) as (t1 & -> & Hst1 & Hr1).
  { rewrite length_app in Hl. lia. }
  { rewrite length_app in Hi. lia. }
  rewrite <- Hr1 in Hl. destruct (IH t1 _ Hok Hst1 Hl Hi) as (t' & -> & Hst' & Hr').
  exists t'. rewrite Hr', Hr1, <- !app_assoc. done.
Qed.

(** The machine does not read its reply buffer. *)
Lemma byte_indep t iac iac' b : fst (telnet_byte (t, iac) b) = fst (telnet_byte (t, iac') b).
Proof. unfold telnet_byte. repeat case_match; done. Qed.

Lemma bytes_indep src t iac iac' :
  fst (fold_left telnet_byte src (t, iac)) = fst (fold_left telnet_byte src (t, iac')).
Proof.
  revert t iac iac'; induction src as [|b src IH]; intros t iac iac'; [done|]. cbn [fold_left].
  pose proof (byte_indep t iac iac' b) as Hb.
  destruct (telnet_byte (t, iac) b) as [t1 i1], (telnet_byte (t, iac') b) as [t2 i2].
  simpl in Hb. subst. apply IH.
Qed.

Lemma process_app t a b :
  fst (ddial_client_process_telnet t (a ++ b)) =
  fst (ddial_client_process_telnet (fst (ddial_client_process_telnet t a)) b).
Proof.
  unfold ddial_client_process_telnet. rewrite fold_left_app.
  destruct (fold_left telnet_byte a (t, [])) as [t1 iac]. apply bytes_indep.
Qed.

Lemma process_chunks t chunks :
  fold_left (fun t c => fst (ddial_client_process_telnet t c)) chunks t =
  fst (ddial_client_process_telnet t (concat chunks)).
Proof.
  revert t; induction chunks as [|c chunks IH]; intros t; [done|]. cbn [fold_left concat].
  by rewrite process_app, IH.
Qed.

Lemma reply_short k : Z.of_nat (length ([] ++ reply_to k)) <= IAC_BUF_SIZE.
Proof. destruct k; simpl; try done. by case_match. Qed.

Lemma text_read ks t : Forall token_ok ks -> at_rest t ->
  Z.of_nat (length (tn_recv t ++ flat_map text_of ks)) <= RECV_BUFFER_SIZE ->
  let t' := fst (ddial_client_process_telnet t (flat_map encode ks)) in
  at_rest t' /\ tn_recv t' = tn_recv t ++ flat_map text_of ks.
Proof.
  revert t; induction ks as [|k ks IH]; intros t Hok Hst; cbn [flat_map].
  { intros _. by rewrite app_nil_r. }
  apply Forall_cons in Hok as [Hk Hok]. rewrite app_assoc. intros Hl. rewrite process_app.
  destruct (token_read k t [] Hk Hst) as (t1 & E & Hst1 & Hr1).
  { rewrite length_app in Hl. lia. }
  { apply reply_short. }
  assert (fst (ddial_client_process_telnet t (encode k)) = t1) as ->
    by (unfold ddial_client_process_telnet; by rewrite E).
  rewrite <- Hr1 in Hl |- *. by apply IH.
Qed.

(** C37: telnet streams.  However a stream of text, commands, option requests and
    subnegotiations is cut into reads (in the middle of a sequence included), the
    receive buffer gains the text and nothing else while it has room, and the
    machine is back at rest; read in one go, the stream is answered by the
    replies to its requests, in order, when they fit their buffer. *)
Theorem telnet_stream ks chunks t : Forall token_ok ks -> at_rest t ->
  concat chunks = flat_map encode ks ->
  Z.of_nat (length (tn_recv t ++ flat_map text_of ks)) <= RECV_BUFFER_SIZE ->
  let t' := fold_left (fun t c => fst (ddial_client_process_telnet t c)) chunks t in
  at_rest t' /\ tn_recv t' = tn_recv t ++ flat_map text_of ks /\
  (Z.of_nat (length (flat_map reply_to ks)) <= IAC_BUF_SIZE ->
   snd (ddial_client_process_telnet t (flat_map encode ks)) = flat_map reply_to ks).
Proof.
  intros Hok Hst Hc Hl. rewrite process_chunks, Hc.
  destruct (text_read ks t Hok Hst Hl) as [H1 H2]. split; [done|]. split; [done|]. intros Hi.
  unfold ddial_client_process_telnet.
  by destruct (tokens_read ks t [] Hok Hst Hl Hi) as (t' & -> & _).
Qed.

(** What is on the wire after [n] exchanges between two such machines, each sending
    the other the reply to what it got. *)
Fixpoint exchanges (n : nat) (here there : telnet) (wire : bytes) : bytes :=
  match n with
  | O => wire
  | S n =>
      let (here, reply) := ddial_client_process_telnet here wire in exchanges n there here reply
  end.

Lemma exchanges_S n here there wire : exchanges (S n) here there wire =
  let (here, reply) := ddial_client_process_telnet here wire in exchanges n there here reply.
Proof. done. Qed.

Lemma option_answer t cmd opt : 251 <= cmd <= 254 -> byte_ok opt -> at_rest t ->
  exists t', at_rest t' /\
    ddial_client_process_telnet t [255; cmd; opt] = (t', [255; reply_cmd cmd opt; opt]).
Proof.
  intros Hc Ho Hst. unfold ddial_client_process_telnet. cbn [fold_left telnet_byte].
  unfold at_rest in Hst. rewrite Hst. cbn.
  assert ((cmd =? 255) = false) as -> by lia. assert ((240 <=? cmd) && (cmd <=? 250) = false) as -> by lia.
  assert ((251 <=? cmd) && (cmd <=? 254) = true) as -> by lia. cbn.
  eexists. split; [|f_equal; unfold ddial_client_process_telnet_option]; [done|].
  assert ((reply_cmd cmd opt =? 0) = false) as -> by (unfold reply_cmd; repeat case_match; lia). done.
Qed.

(** Option negotiation need not end.  Every refusal is answered: between two
    such machines a single WONT, or the WILL of an option the other will not have
    (which it refuses with WONT, the refusal of an option asked for, where DONT is
    due), is answered with WONT and DONT in turn for ever: however many
    exchanges there were, three more bytes are on the wire. *)
Theorem negotiation_never_ends n here there cmd opt : byte_ok opt -> opt <> 1 -> opt <> 3 ->
  cmd = 251 \/ cmd = 252 \/ cmd = 254 -> at_rest here -> at_rest there ->
  exchanges (S n) here there [255; cmd; opt] =
  [255; (if cmd =? 252 then if Nat.even n then 254 else 252 else if Nat.even n then 252 else 254); opt].
Proof.
  intros Ho H1 H3 Hcmd Hh Ht. revert here there cmd Hcmd Hh Ht.
  induction n as [|n IH]; intros here there cmd Hcmd Hh Ht; rewrite exchanges_S;
    (destruct (option_answer here cmd opt) as (t' & Hst & ->); [lia|done|done|]);
    assert (reply_cmd cmd opt = if cmd =? 252 then 254 else 252) as ->
      by (apply Z.eqb_neq in H1, H3; unfold reply_cmd; destruct Hcmd as [->|[->| ->]]; cbn; by rewrite ?H1, ?H3).
  - destruct Hcmd as [->|[->| ->]]; done.
  - rewrite (IH there t'); [|by destruct Hcmd as [->|[->| ->]]; cbn; auto|done|done].
    rewrite Nat.even_succ, <- Nat.negb_even. destruct Hcmd as [->|[->| ->]]; cbn; by destruct (Nat.even n).
Qed.

End Telnet.

(** ** Cleaning and reading the lines *)

Module Cleaning.

Definition SSH_CHATTER_MESSAGE_LIMIT : nat := 4096.

(** [strcasestr(line, needle) != NULL]. *)
Definition contains_ci (line needle : bytes) : bool :=
  bool_decide (is_Some (strstr (map tolower line) (map tolower needle))).

(** Glued prompts: [-->] with spaces before it. *)
Fixpoint skip_prompts (fuel : nat) (p : bytes) : bytes :=
  match fuel with
  | O => p
  | S fuel =>
      let p := skip_while (Z.eqb c_space) p in
      if is_prefix (lit "-->") p then skip_prompts fuel (drop 3 p) else p
  end.

Definition ddial_client_line_is_chat_content (line : bytes) : bool :=
  let p := skip_prompts (S (length line)) line in
  let p := skip_while isdigit p in
  let p := if peek p =? c_tilde then drop 1 p else p in
  let p := if (peek p =? c_P) || (peek p =? c_p) then drop 1 p else p in
  if negb (peek p =? c_hash) then false
  else
    let p := drop 1 p in
    if negb (isdigit (peek p)) then false
    else
      let p := skip_while isdigit p in
      ((peek p =? c_lbracket) || (peek p =? c_lparen) || (peek p =? c_lt)) &&
      bool_decide (is_Some (strchr p c_rparen)).

Definition lockout_needles : list bytes :=
  [lit "already logged"; lit "already on line"; lit "already online"; lit "logged in twice";
   lit "account disabled"; lit "account locked"; lit "account in use"; lit "is in use";
   lit "duplicate login"].

Definition ddial_client_line_looks_like_lockout (line : bytes) : bool :=
  existsb (contains_ci line) lockout_needles.

Definition kick_needles : list bytes :=
  [lit "kicked"; lit "disconnected"; lit "timeout"; lit "timed out"; lit "bye"; lit "goodbye";
   lit "see ya"; lit "link down"; lit "booted"; lit "removed"; lit "offline"; lit "hangup";
   lit "no carrier"].

Definition ddial_client_line_looks_like_kick (line : bytes) : bool :=
  negb (bytes_eqb line []) && existsb (contains_ci line) kick_needles.

Definition ddial_client_echo_key (text : bytes) (cap : nat) : bytes :=
  take (cap - 1) (tolower <$> List.filter isalnum text).

(** What follows the introducer of an escape sequence. *)
Definition after_csi_seq (p : bytes) : bytes := drop 1 (skip_while (fun c => negb (csi_final c)) p).

Fixpoint after_osc (p : bytes) : bytes :=
  match p with
  | [] => []
  | c :: t =>
      if c =? c_bel then t
      else if (c =? c_esc) && (peek t =? 92) then drop 1 t
      else after_osc t
  end.

(** The last byte of an unfinished sequence is left. *)
Fixpoint after_dcs (p : bytes) : bytes :=
  match p with
  | a :: t =>
      match t with
      | b :: t' => if (a =? c_esc) && (b =? 92) then t' else after_dcs t
      | [] => p
      end
  | [] => []
  end.

(** Control bytes that are dropped. *)
Definition dropped_byte (c : Z) : bool :=
  (c =? 127) || ((c <? 32) && negb (c =? 9) && negb (c =? c_cr) && negb (c =? c_lf)) || (c =? 255).

(** Every round takes a byte, so a fuel of the length of [src] is enough. *)
Fixpoint sanitize_line_go (fuel room : nat) (src : bytes) : bytes :=
  match fuel, room, src with
  | O, _, _ | _, O, _ | _, _, [] => []
  | S fuel, S room', c :: t =>
      if c =? c_esc then
        match t with
        | [] => []
        | next :: t' =>
            if next =? c_lbracket then sanitize_line_go fuel room (after_csi_seq t')
            else if next =? c_rbracket then sanitize_line_go fuel room (after_osc t')
            else if (next =? c_P) || (next =? c_underscore) || (next =? c_caret)
            then sanitize_line_go fuel room (after_dcs t')
            else sanitize_line_go fuel room t'
        end
      else if dropped_byte c then sanitize_line_go fuel room t
      else c :: sanitize_line_go fuel room' t
  end.

Definition ddial_client_sanitize_line (src : bytes) (dst_cap : nat) : bytes :=
  sanitize_line_go (length src) (dst_cap - 1) src.

(** The loop that drops prompts glued to a chat line. *)
Fixpoint drop_prompts (fuel : nat) (start : bytes) : bytes :=
  match fuel with
  | O => start
  | S fuel =>
      if is_prefix (lit "-->") start then
        let after := skip_while (Z.eqb c_space) (drop 3 start) in
        if negb (peek after =? c_hash) && negb (peek after =? c_tilde) && negb (isdigit (peek after))
        then start else drop_prompts fuel after
      else start
  end.

(** The part of [ddial_client_normalize_line] before the rewriting: cleaned,
    trimmed, without glued prompts; empty when nothing is left. *)
Definition normalize_start (src : bytes) : bytes :=
  let sanitized := ddial_client_sanitize_line src SSH_CHATTER_MESSAGE_LIMIT in
  let start := strip_trailing isspace (skip_while isspace sanitized) in
  drop_prompts (length start) start.

Definition expand_link_payload (rest : bytes) : bytes :=
  skip_while isspace
    (take (SSH_CHATTER_MESSAGE_LIMIT - 1) ((fun c => if c =? c_caret then c_space else c) <$> rest)).

(** A node list line such as [7762-.LateNight]. *)
Definition is_node_line (start : bytes) : bool :=
  match strstr start (lit "-.") with
  | Some dash_dot =>
      let before := take (length start - length dash_dot) start in
      negb (bytes_eqb before []) && isdigit (peek start) && forallb isdigit before
  | None => false
  end.

(** The rewriting by the form of the line. *)
Definition normalize_form (start : bytes) : bytes :=
  if peek start =? c_rbrace then
    let (kind, rest) := ddial_parse_link_prefix start in
    let payload := expand_link_payload rest in
    match kind with
    | DDIAL_LINK_MSG_STATION_BROADCAST => lit "[SYSOP] " ++ payload
    | DDIAL_LINK_MSG_MEMBER_EVENT | DDIAL_LINK_MSG_GUEST_EVENT => lit "[LINK] " ++ payload
    | _ => start
    end
  else if (peek start =? c_tilde) && (nthb start 1 =? c_hash) then drop 1 start
  else if (peek start =? c_slash) && ((nthb start 1 =? c_P) || (nthb start 1 =? c_p)) &&
          ((nthb start 2 =? 83) || (nthb start 2 =? c_s))
  then lit "[SYSOP] " ++ skip_while (Z.eqb c_space) (drop 3 start)
  else match ddial_parse_incoming_private start DDIAL_MAX_HANDLE_LEN with
  | Some m =>
      lit "P#" ++ dec (id_slot (ip_from m)) ++ lit "[T" ++ dec (id_channel (ip_from m)) ++ lit ":" ++
      id_handle (ip_from m) ++ lit ") " ++ ip_message m
  | None =>
  match ddial_parse_incoming_email start DDIAL_MAX_HANDLE_LEN with
  | Some m =>
      lit "[E-MAIL #" ++ dec_pad 3 (ie_from_id m) ++ lit "@" ++ dec_pad 3 (ie_from_station m) ++
      lit " " ++ ie_handle m ++ lit "] " ++ ie_message m
  | None => if is_node_line start then c_hash :: start else start
  end end.

Definition ddial_client_normalize_line (src : bytes) (dst_cap : nat) : bytes :=
  let sanitized := ddial_client_sanitize_line src SSH_CHATTER_MESSAGE_LIMIT in
  if bytes_eqb (strip_trailing isspace (skip_while isspace sanitized)) [] then []
  else snprintf_text dst_cap (normalize_form (normalize_start src)).

End Cleaning.

(** ** The client *)

Module Client.
Import Cleaning Telnet.

Inductive ddial_auth_state :=
  | DDIAL_AUTH_NONE | DDIAL_AUTH_PENDING | DDIAL_AUTH_APPROVED | DDIAL_AUTH_REJECTED
  | DDIAL_AUTH_TIMEOUT.

#[export] Instance ddial_auth_state_eq_dec : EqDecision ddial_auth_state.
Proof. solve_decision. Defined.

(** What is configured. *)
Record client_config := {
  cf_enabled : bool; cf_host : bytes; cf_port : Z; cf_handle : bytes; cf_key : bytes;
  cf_user_mode : bool; cf_relogin_cooldown_sec : Z
}.

(** The state of the connection.  [cc_fd]: the socket, -1 when closed.  [cc_account]: the
    text of the account lock file as its reader takes it apart, a word and a
    time, when the lock is held. *)
Record connection := {
  cc_fd : Z; cc_connected : bool; cc_auth_state : ddial_auth_state; cc_auth_result : Z;
  cc_reconnect_attempts : Z; cc_last_disconnect : Z; cc_locked_out : bool;
  cc_account : option (option (bytes * Z))
}.

(** The last eight lines sent, as echo keys with their times. *)
Record echo_ring := { er_sent : list (bytes * Z); er_head : nat }.

Record ddial_client := {
  cl_config : client_config; cl_conn : connection; cl_telnet : telnet;
  cl_slot : Z; cl_slot_known : bool; cl_echo : echo_ring
}.

Definition with_conn (k : connection) (c : ddial_client) : ddial_client :=
  {| cl_config := cl_config c; cl_conn := k; cl_telnet := cl_telnet c; cl_slot := cl_slot c;
     cl_slot_known := cl_slot_known c; cl_echo := cl_echo c |}.
Definition with_telnet (t : telnet) (c : ddial_client) : ddial_client :=
  {| cl_config := cl_config c; cl_conn := cl_conn c; cl_telnet := t; cl_slot := cl_slot c;
     cl_slot_known := cl_slot_known c; cl_echo := cl_echo c |}.
Definition with_slot (slot : Z) (c : ddial_client) : ddial_client :=
  {| cl_config := cl_config c; cl_conn := cl_conn c; cl_telnet := cl_telnet c; cl_slot := slot;
     cl_slot_known := true; cl_echo := cl_echo c |}.
Definition with_echo (e : echo_ring) (c : ddial_client) : ddial_client :=
  {| cl_config := cl_config c; cl_conn := cl_conn c; cl_telnet := cl_telnet c; cl_slot := cl_slot c;
     cl_slot_known := cl_slot_known c; cl_echo := e |}.

Definition set_recv (buf : bytes) (t : telnet) : telnet :=
  {| tn_state := tn_state t; tn_cmd := tn_cmd t; tn_sb_opt := tn_sb_opt t; tn_sb := tn_sb t;
     tn_recv := buf |}.

Definition with_recv (buf : bytes) (c : ddial_client) : ddial_client :=
  with_telnet (set_recv buf (cl_telnet c)) c.

Definition set_auth_result (v : Z) (k : connection) : connection :=
  {| cc_fd := cc_fd k; cc_connected := cc_connected k; cc_auth_state := cc_auth_state k;
     cc_auth_result := v; cc_reconnect_attempts := cc_reconnect_attempts k;
     cc_last_disconnect := cc_last_disconnect k; cc_locked_out := cc_locked_out k;
     cc_account := cc_account k |}.

Definition set_locked_out (k : connection) : connection :=
  {| cc_fd := cc_fd k; cc_connected := cc_connected k; cc_auth_state := cc_auth_state k;
     cc_auth_result := cc_auth_result k; cc_reconnect_attempts := cc_reconnect_attempts k;
     cc_last_disconnect := cc_last_disconnect k; cc_locked_out := true; cc_account := cc_account k |}.

(** The account lock file; [wall] is [time(NULL)]. *)
Definition ddial_client_account_mark (user_mode : bool) (account : option (option (bytes * Z)))
    (active : bool) (wall : Z) : option (option (bytes * Z)) :=
  match account with
  | Some _ => if user_mode then Some (Some (if active then lit "active" else lit "closed", wall)) else account
  | None => None
  end.

(** [now]: the seconds of the monotonic clock. *)
Definition ddial_client_remember_sent (now : Z) (text : bytes) (e : echo_ring) : echo_ring :=
  let slot := (er_head e mod 8)%nat in
  {| er_sent := <[slot := (ddial_client_echo_key text 256, now)]> (er_sent e);
     er_head := ((er_head e + 1) mod 8)%nat |}.

Definition DDIAL_CLIENT_ECHO_WINDOW_SEC : Z := 90.

(** The first entry that matches is consumed. *)
Fixpoint consume_echo (now : Z) (key : bytes) (sent : list (bytes * Z)) : option (list (bytes * Z)) :=
  match sent with
  | [] => None
  | (k, at_) :: rest =>
      if negb (bytes_eqb k []) && negb (DDIAL_CLIENT_ECHO_WINDOW_SEC <? now - at_) && bytes_eqb k key
      then Some (([], at_) :: rest)
      else (cons (k, at_)) <$> consume_echo now key rest
  end.

Definition ddial_client_is_recent_echo (now : Z) (text : bytes) (e : echo_ring) : bool * echo_ring :=
  let key := ddial_client_echo_key text 256 in
  if bytes_eqb key [] then (false, e)
  else match consume_echo now key (er_sent e) with
       | Some sent => (true, {| er_sent := sent; er_head := er_head e |})
       | None => (false, e)
       end.

(** The seconds left, with the account file that may be rewritten. *)
Definition ddial_client_cooldown_remaining (now wall : Z) (cfg : client_config) (k : connection) :
    Z * option (option (bytes * Z)) :=
  if negb (cf_user_mode cfg) then (0, cc_account k)
  else
    let since := if cc_last_disconnect k =? 0 then -1 else now - cc_last_disconnect k in
    let '(since, account) :=
      match cc_account k with
      | Some (Some (state, when)) =>
          let stale := bytes_eqb state (lit "active") && negb (cc_connected k) in
          let account := if stale then ddial_client_account_mark true (cc_account k) false wall
                         else cc_account k in
          let elapsed := wall - (if stale then wall else when) in
          (if (since <? 0) || (elapsed <? since) then elapsed else since, account)
      | account => (since, account)
      end in
    (if (since <? 0) || (cf_relogin_cooldown_sec cfg <=? since) then 0
     else u32 (cf_relogin_cooldown_sec cfg - u32 since), account).

Definition DDIAL_CLIENT_RECONNECT_BACKOFF_SEC : Z := 5.

Definition ddial_client_backoff_sec (k : connection) : Z :=
  let base := Z.shiftl 1 (if 5 <? cc_reconnect_attempts k then 5 else cc_reconnect_attempts k) in
  let base := if 30 <? base then 30 else base in
  if base <? DDIAL_CLIENT_RECONNECT_BACKOFF_SEC then DDIAL_CLIENT_RECONNECT_BACKOFF_SEC else base.

Definition next_attempts (k : connection) : Z :=
  if cc_reconnect_attempts k <? 100000 then cc_reconnect_attempts k + 1 else cc_reconnect_attempts k.

(** [if (fd >= 0) { close(fd); fd = -1; }]. *)
Definition closed_fd (k : connection) : Z := if 0 <=? cc_fd k then -1 else cc_fd k.

Definition rest_telnet : telnet :=
  {| tn_state := DDIAL_TELNET_DATA; tn_cmd := 0; tn_sb_opt := 0; tn_sb := []; tn_recv := [] |}.

Definition ddial_client_disconnect (now wall : Z) (c : ddial_client) : ddial_client :=
  let k := cl_conn c in
  let account := if 0 <=? cc_fd k
    then ddial_client_account_mark (cf_user_mode (cl_config c)) (cc_account k) false wall
    else cc_account k in
  {| cl_config := cl_config c;
     cl_conn := {| cc_fd := closed_fd k; cc_connected := false; cc_auth_state := DDIAL_AUTH_NONE;
                   cc_auth_result := 0; cc_reconnect_attempts := next_attempts k;
                   cc_last_disconnect := now; cc_locked_out := cc_locked_out k;
                   cc_account := account |};
     cl_telnet := rest_telnet; cl_slot := 0; cl_slot_known := false; cl_echo := cl_echo c |}.

(** The state [ddial_client_connect_socket] leaves when the connection was made. *)
Definition ddial_client_connected (fd wall : Z) (c : ddial_client) : ddial_client :=
  let k := cl_conn c in
  {| cl_config := cl_config c;
     cl_conn := {| cc_fd := fd; cc_connected := true; cc_auth_state := DDIAL_AUTH_NONE;
                   cc_auth_result := 0; cc_reconnect_attempts := 0; cc_last_disconnect := 0;
                   cc_locked_out := cc_locked_out k;
                   cc_account := ddial_client_account_mark (cf_user_mode (cl_config c))
                                   (cc_account k) true wall |};
     cl_telnet := rest_telnet; cl_slot := 0; cl_slot_known := false; cl_echo := cl_echo c |}.

(** The slot a status line names: [#N(] or [#N\[], and in station mode only
    [#N(T1:?)]. *)
Definition learned_slot (user_mode : bool) (line : bytes) : option Z :=
  let p := skip_while isspace line in
  if negb (peek p =? c_hash) then None else
  let p := drop 1 p in
  if negb (isdigit (peek p)) then None else
  let slot := fst (strtoul p) in
  if (slot =? 0) || (9999 <? slot) then None else
  let after := skip_while isdigit p in
  if negb (peek after =? c_lparen) && negb (peek after =? c_lbracket) then None else
  if user_mode then Some slot
  else
    let q := drop 1 after in
    if negb (peek q =? c_T) || negb (isdigit (nthb q 1)) then None else
    let q := skip_while isdigit (drop 1 q) in
    if negb (peek q =? c_colon) || negb (nthb q 1 =? c_question) then None else Some slot.

Definition ddial_client_learn_slot (line : bytes) (c : ddial_client) : ddial_client :=
  match learned_slot (cf_user_mode (cl_config c)) line with
  | Some slot => with_slot slot c
  | None => c
  end.

Definition auth_fail_needles : list bytes :=
  [lit "invalid password"; lit "incorrect password"; lit "wrong password"; lit "access denied";
   lit "try again"].

Definition auth_ok_needles : list bytes := [lit "welcome to"; lit "callers today"; lit "callers total"].

Definition contains (line needle : bytes) : bool := bool_decide (is_Some (strstr line needle)).

Definition ddial_client_note_auth_marker (line : bytes) (c : ddial_client) : ddial_client :=
  if bytes_eqb (cf_key (cl_config c)) [] || negb (cc_auth_result (cl_conn c) =? 0) then c
  else if existsb (contains_ci line) auth_fail_needles
  then with_conn (set_auth_result (-1) (cl_conn c)) c
  else if existsb (contains_ci line) auth_ok_needles
  then with_conn (set_auth_result 1 (cl_conn c)) c
  else if contains line (lit "+^") || contains line (lit "->")
  then with_conn (set_auth_result 1 (cl_conn c)) c
  else c.

End Client.

(** ** Taking lines out of the receive buffer *)

Module Inbound.
Import Cleaning Telnet Client Buckets DdialRoster.Lines.

Fixpoint index_of (c : Z) (s : bytes) : option nat :=
  match s with
  | [] => None
  | d :: t => if d =? c then Some O else S <$> index_of c t
  end.

Fixpoint index_crlf (s : bytes) : option nat :=
  match s with
  | [] => None
  | d :: t => if (d =? c_cr) && (peek t =? c_lf) then Some O else S <$> index_crlf t
  end.

(** The end of the first line and the length of its terminator: CR LF anywhere,
    else LF, else, unless the buffer ends in CR, CR. *)
Definition find_eol (buf : bytes) : option (nat * nat) :=
  match index_crlf buf with
  | Some i => Some (i, 2%nat)
  | None =>
      match index_of c_lf buf with
      | Some i => Some (i, 1%nat)
      | None =>
          if negb (bytes_eqb buf []) && negb (bool_decide (last buf = Some c_cr))
          then (fun i => (i, 1%nat)) <$> index_of c_cr buf else None
      end
  end.

Definition cstr (raw : bytes) : bytes := take_while (fun c => negb (c =? c_nul)) raw.

(** The text of a line of [line_len] bytes: without a CR at its end, up to a NUL. *)
Definition line_text (buf : bytes) (line_len : nat) : bytes :=
  let raw := take line_len buf in
  cstr (if bool_decide (last raw = Some c_cr) then take (length raw - 1) raw else raw).

(** A line longer than the limit is cut there. *)
Definition cut_len (n : nat) : nat :=
  if (SSH_CHATTER_MESSAGE_LIMIT <=? n)%nat then SSH_CHATTER_MESSAGE_LIMIT - 1 else n.

(** The client and the roster its lines feed; [own] is CHATTER_DDIAL_STATION. *)
Record relay := { rl_client : ddial_client; rl_roster : roster }.

(** [close(upstream_fd)] and what goes with it while lines are extracted. *)
Definition hang_up (mark : bool) (now wall : Z) (c : ddial_client) : ddial_client :=
  let k := cl_conn c in
  let account := if (0 <=? cc_fd k) && mark
    then ddial_client_account_mark (cf_user_mode (cl_config c)) (cc_account k) false wall
    else cc_account k in
  with_recv [] (with_conn
    {| cc_fd := closed_fd k; cc_connected := false; cc_auth_state := cc_auth_state k;
       cc_auth_result := cc_auth_result k; cc_reconnect_attempts := next_attempts k;
       cc_last_disconnect := now; cc_locked_out := cc_locked_out k; cc_account := account |} c).

(** The slot of a line, learned from any line by a station and only from its own
    chat by a user. *)
Definition learn_from (chat_content : bool) (line : bytes) (c : ddial_client) : ddial_client :=
  let cfg := cl_config c in
  if negb (cf_user_mode cfg) then ddial_client_learn_slot line c
  else if chat_content && negb (bytes_eqb (cf_handle cfg) []) then
    match ddial_parse_incoming_chat line DDIAL_MAX_HANDLE_LEN with
    | Some i => if strcase_eq (id_handle (ic_identity i)) (cf_handle cfg)
                then ddial_client_learn_slot line c else c
    | None => c
    end
  else c.

Inductive line_result :=
  | Skip
  | HungUp (r : relay)
  | Extracted (r : relay) (line : bytes).

(** The line of an extraction, without a look at the relay. *)
Lemma extracted_line r r' a b : Extracted r a = Extracted r' b -> a = b.
Proof. by intros [= _ ->]. Qed.

Definition is_some {A} (o : option A) : bool := match o with Some _ => true | None => false end.

(** One line that has been cut out of the buffer. *)
Definition handle_line (own : option bytes) (now wall : Z) (r : relay) (line : bytes) : line_result :=
  if bytes_eqb line [] then Skip else
  let normalized := ddial_client_normalize_line line SSH_CHATTER_MESSAGE_LIMIT in
  if bytes_eqb normalized [] then Skip else
  let c := rl_client r in
  let chat_content := ddial_client_line_is_chat_content normalized in
  let lockout := negb chat_content && ddial_client_line_looks_like_lockout normalized in
  let c := if lockout && cf_user_mode (cl_config c) then with_conn (set_locked_out (cl_conn c)) c else c in
  if lockout || (negb chat_content && ddial_client_line_looks_like_kick normalized)
  then HungUp {| rl_client := hang_up true now wall c; rl_roster := rl_roster r |}
  else
    let c := learn_from chat_content normalized c in
    let c := ddial_client_note_auth_marker normalized c in
    let raw_clean := ddial_client_sanitize_line line SSH_CHATTER_MESSAGE_LIMIT in
    let raw_start := skip_while (Z.eqb c_space) raw_clean in
    let r := {| rl_client := c; rl_roster := ddial_roster_note_line own (rl_roster r) normalized |} in
    if is_some (ddial_parse_incoming_private raw_start DDIAL_MAX_HANDLE_LEN) ||
       is_some (ddial_parse_incoming_email raw_start DDIAL_MAX_HANDLE_LEN)
    then Extracted r (snprintf_text SSH_CHATTER_MESSAGE_LIMIT raw_start)
    else Extracted r (snprintf_text SSH_CHATTER_MESSAGE_LIMIT normalized).

Record extraction := { ex_relay : relay; ex_buf : bytes; ex_lines : list bytes; ex_hung_up : bool }.

(** The loop; every round takes at least a byte of [buf]. *)
Fixpoint extract_go (fuel : nat) (own : option bytes) (now wall : Z) (max_lines : nat)
    (r : relay) (buf : bytes) (lines : list bytes) : extraction :=
  let stop := {| ex_relay := r; ex_buf := buf; ex_lines := lines; ex_hung_up := false |} in
  match fuel with
  | O => stop
  | S fuel =>
      if (max_lines <=? length lines)%nat then stop
      else match find_eol buf with
      | None => stop
      | Some (eol, eol_len) =>
          let n := cut_len eol in
          let rest := drop (n + eol_len) buf in
          match handle_line own now wall r (line_text buf n) with
          | Skip => extract_go fuel own now wall max_lines r rest lines
          | HungUp r => {| ex_relay := r; ex_buf := []; ex_lines := []; ex_hung_up := true |}
          | Extracted r line => extract_go fuel own now wall max_lines r rest (lines ++ [line])
          end
      end
  end.

(** The rest of the buffer as a last line. *)
Definition flush_rest (now wall : Z) (e : extraction) : extraction :=
  let c := rl_client (ex_relay e) in
  let line := line_text (ex_buf e) (cut_len (length (ex_buf e))) in
  let emptied := {| ex_relay := ex_relay e; ex_buf := []; ex_lines := ex_lines e; ex_hung_up := false |} in
  if bytes_eqb line [] then emptied else
  let normalized := ddial_client_normalize_line line SSH_CHATTER_MESSAGE_LIMIT in
  if bytes_eqb normalized [] then emptied
  else if ddial_client_line_looks_like_kick normalized
  then {| ex_relay := {| rl_client := hang_up false now wall c; rl_roster := rl_roster (ex_relay e) |};
          ex_buf := []; ex_lines := []; ex_hung_up := true |}
  else
    let c := ddial_client_note_auth_marker normalized (ddial_client_learn_slot normalized c) in
    {| ex_relay := {| rl_client := c; rl_roster := rl_roster (ex_relay e) |}; ex_buf := [];
       ex_lines := ex_lines e ++ [snprintf_text SSH_CHATTER_MESSAGE_LIMIT normalized];
       ex_hung_up := false |}.

Definition ddial_client_extract_lines (own : option bytes) (now wall : Z) (max_lines : nat)
    (force_flush : bool) (r : relay) : relay * list bytes * bool :=
  if (max_lines =? 0)%nat then (r, [], false) else
  let buf := tn_recv (cl_telnet (rl_client r)) in
  let e := extract_go (S (length buf)) own now wall max_lines r buf [] in
  let e := if negb (ex_hung_up e) && force_flush && (0 <? length (ex_buf e))%nat &&
              (length (ex_lines e) <? max_lines)%nat
           then flush_rest now wall e else e in
  let r := ex_relay e in
  ({| rl_client := with_recv (ex_buf e) (rl_client r); rl_roster := rl_roster r |}, ex_lines e, ex_hung_up e).

Definition DDIAL_CLIENT_MAX_EXTRACTED_LINES : nat := 64.
Definition DDIAL_CLIENT_RECV_CHUNK_SIZE : Z := 4096.

(** A nearly full buffer loses its older half. *)
Definition make_room (buf : bytes) : bytes :=
  if RECV_BUFFER_SIZE - DDIAL_CLIENT_RECV_CHUNK_SIZE <? Z.of_nat (length buf)
  then drop (length buf / 2) buf else buf.

(** A read of [data]: the relay, the telnet reply sent, and the lines to broadcast. *)
Definition ddial_client_read_chunk (own : option bytes) (now wall : Z) (r : relay) (data : bytes) :
    relay * bytes * list bytes :=
  let c := rl_client r in
  let (t, reply) := ddial_client_process_telnet (cl_telnet c) data in
  let c := with_telnet (set_recv (make_room (tn_recv t)) t) c in
  let '(r, lines, _) := ddial_client_extract_lines own now wall DDIAL_CLIENT_MAX_EXTRACTED_LINES false
                          {| rl_client := c; rl_roster := rl_roster r |} in
  (r, reply, lines).

End Inbound.
