(* ===== verification/DdialRelay.v ===== *)
(** The lines of the upstream DDial link, end to end: what the bytes of the socket
    become ([DdialClient]) and what they do to the roster ([DdialRoster]).  Chat
    arrives, a name can hang up the link, extraction ends, and no terminal
    control gets through. *)

From Stdlib Require Import ZArith Lia String Ascii.
From stdpp Require Import prelude gmap.
From S2P Require Import Prelude DdialProtocol DdialRoster DdialClient.
Import Wire.

(** ** Lines of printable text *)

Module Text.
Import Cleaning Telnet Client Inbound Buckets DdialRoster.Lines.

Definition printable (c : Z) : bool := (32 <=? c) && (c <? 127).

Lemma skip_while_app_gen f x y :
  skip_while f (x ++ y) = match skip_while f x with [] => skip_while f y | r => r ++ y end.
Proof. induction x as [|c x IH]; simpl; [done|]. by destruct (f c). Qed.

(** Trimming stops at a byte that stays. *)
Lemma strip_trailing_app f a c b : f c = false ->
  strip_trailing f (a ++ c :: b) = a ++ c :: strip_trailing f b.
Proof.
  intros Hc. unfold strip_trailing. rewrite rev_app_distr. simpl.
  rewrite <- app_assoc, skip_while_app_gen. destruct (skip_while f (rev b)) as [|d r].
  - simpl. rewrite Hc. simpl. by rewrite rev_involutive.
  - simpl. rewrite rev_app_distr. simpl. by rewrite rev_involutive, <- !app_assoc.
Qed.

Lemma skip_while_Forall (P : Z -> Prop) f s : Forall P s -> Forall P (skip_while f s).
Proof. induction 1; simpl; [done|]. case_match; [done|by constructor]. Qed.

Lemma Forall_rev_bytes (P : Z -> Prop) s : Forall P s -> Forall P (rev s).
Proof. rewrite !Forall_forall. intros H x. rewrite list_elem_of_In, <- in_rev, <- list_elem_of_In. auto. Qed.

Lemma strip_trailing_Forall (P : Z -> Prop) f s : Forall P s -> Forall P (strip_trailing f s).
Proof. intros. unfold strip_trailing. by apply Forall_rev_bytes, skip_while_Forall, Forall_rev_bytes. Qed.


(** Cleaning leaves printable text alone. *)
Lemma sanitize_printable s cap : Forall (fun c => printable c = true) s -> (length s <= cap - 1)%nat ->
  ddial_client_sanitize_line s cap = s.
Proof.
  unfold ddial_client_sanitize_line. generalize (cap - 1)%nat. intros room Hs; revert room.
  induction Hs as [|c s Hc _ IH]; intros room Hl; [by destruct room|].
  destruct room as [|room]; [simpl in Hl; lia|]. cbn [length sanitize_line_go].
  unfold printable in Hc. bprop.
  assert ((c =? c_esc) = false) as -> by lia.
  assert (dropped_byte c = false) as -> by (unfold dropped_byte; bprop; lia).
  f_equal. apply IH. simpl in Hl. lia.
Qed.

(** A line of text that fits the line buffer. *)
Record text_line (s : bytes) : Prop := {
  tl_printable : Forall (fun c => printable c = true) s;
  tl_length : (length s < SSH_CHATTER_MESSAGE_LIMIT)%nat;
  tl_nonempty : s <> []
}.

Lemma printable_not c d s : Forall (fun c => printable c = true) s -> printable d = false ->
  c ∈ s -> c <> d.
Proof. rewrite Forall_forall. intros Hs Hd Hc ->. apply Hs in Hc. congruence. Qed.

Lemma index_of_none c s : c ∉ s -> index_of c s = None.
Proof.
  induction s as [|d s IH]; simpl; [done|]. rewrite not_elem_of_cons. intros [Hne Hs].
  destruct (Z.eqb_spec d c); [congruence|]. by rewrite IH.
Qed.

Lemma index_crlf_none s : c_lf ∉ s -> index_crlf s = None.
Proof.
  induction s as [|d s IH]; simpl; [done|]. rewrite not_elem_of_cons. intros [Hne Hs].
  destruct s as [|e s]; simpl in *; [by rewrite andb_false_r|].
  destruct (Z.eqb_spec e c_lf) as [->|]; [exfalso; apply Hs; by left|].
  rewrite andb_false_r. by rewrite IH.
Qed.

Lemma printable_free d s : Forall (fun c => printable c = true) s -> printable d = false -> d ∉ s.
Proof. intros Hs Hd Hin. by eapply printable_not. Qed.

Lemma index_crlf_line s : Forall (fun c => printable c = true) s ->
  index_crlf (s ++ crlf) = Some (length s).
Proof.
  induction 1 as [|c s Hc _ IH]; [done|]. cbn [app index_crlf length]. rewrite IH.
  assert ((c =? c_cr) = false) as -> by (unfold printable in Hc; bprop; lia). done.
Qed.

(** Nothing is taken from a part of the line... *)
Lemma find_eol_part s a b : Forall (fun c => printable c = true) s ->
  a ++ b = s ++ crlf -> b <> [] -> find_eol a = None.
Proof.
  intros Hs Hab Hb. assert ((c_lf ∉ a) /\ ((c_cr ∉ a) \/ last a = Some c_cr)) as [Hlf Hcr].
  { destruct b as [|x b _] using rev_ind; [done|]. rewrite app_assoc in Hab.
    change (s ++ crlf) with (s ++ [c_cr] ++ [c_lf]) in Hab. rewrite (app_assoc s) in Hab.
    apply app_inj_tail in Hab as [Hab _].
    destruct b as [|y b _] using rev_ind.
    - rewrite app_nil_r in Hab. subst. split; [|right; by rewrite last_snoc].
      rewrite elem_of_app, list_elem_of_singleton. intros [H|H]; [|done].
      by eapply (printable_free c_lf).
    - rewrite app_assoc in Hab. apply app_inj_tail in Hab as [Hab _].
      assert (Forall (fun c => printable c = true) a) as Ha by (subst s; by apply Forall_app in Hs as [? _]).
      split; [|left]; by apply printable_free. }
  unfold find_eol. rewrite index_crlf_none, index_of_none by done.
  destruct Hcr as [Hcr|Hcr].
  - rewrite index_of_none by done. by case_match.
  - rewrite Hcr. rewrite bool_decide_eq_true_2 by done. cbn [negb]. by rewrite andb_false_r.
Qed.

(** ... and the whole of it at its end. *)
Lemma find_eol_line s : Forall (fun c => printable c = true) s -> find_eol (s ++ crlf) = Some (length s, 2%nat).
Proof. intros Hs. unfold find_eol. by rewrite index_crlf_line. Qed.

Lemma line_text_line s rest : text_line s -> line_text (s ++ rest) (cut_len (length s)) = s.
Proof.
  intros [Hp Hl Hne]. unfold line_text, cut_len.
  destruct (Nat.leb_spec SSH_CHATTER_MESSAGE_LIMIT (length s)); [lia|].
  rewrite take_app_length. rewrite bool_decide_eq_false_2.
  - unfold cstr. apply take_while_all. eapply Forall_impl; [done|]. simpl. intros c Hc.
    unfold printable in Hc. bprop. lia.
  - intros Hlast. apply last_Some_elem_of in Hlast.
    by apply (printable_free c_cr s Hp).
Qed.

(** ** Reading a line that arrives in pieces *)

Definition refill (buf : bytes) (r : relay) : relay :=
  {| rl_client := with_recv buf (rl_client r); rl_roster := rl_roster r |}.

Definition recv_of (r : relay) : bytes := tn_recv (cl_telnet (rl_client r)).

(** The reads of a connection one after the other: the lines they broadcast. *)
Fixpoint read_chunks (own : option bytes) (now wall : Z) (r : relay) (chunks : list bytes) :
    relay * list bytes :=
  match chunks with
  | [] => (r, [])
  | d :: ds =>
      let '(r1, _, l1) := ddial_client_read_chunk own now wall r d in
      let (r2, l2) := read_chunks own now wall r1 ds in (r2, l1 ++ l2)
  end.

Lemma process_plain t a : at_rest t -> Forall (fun c => c <> 255) a ->
  Z.of_nat (length (tn_recv t ++ a)) <= RECV_BUFFER_SIZE ->
  ddial_client_process_telnet t a = (set_recv (tn_recv t ++ a) t, []).
Proof.
  unfold ddial_client_process_telnet. intros Hst Ha. revert t Hst.
  induction Ha as [|c a Hc _ IH]; intros t Hst Hl.
  { cbn. rewrite app_nil_r. f_equal. by destruct t. }
  cbn [fold_left telnet_byte]. unfold at_rest in Hst. rewrite Hst.
  apply Z.eqb_neq in Hc. rewrite Hc.
  assert (recv_byte t c = set_recv (tn_recv t ++ [c]) t) as ->.
  { unfold recv_byte, set_recv. rewrite push_fits; [done|]. rewrite length_app in Hl. simpl in Hl. lia. }
  rewrite IH; [|done|].
  - cbn. by rewrite <- app_assoc.
  - cbn. by rewrite <- app_assoc.
Qed.

Lemma make_room_small buf : Z.of_nat (length buf) <= 12288 -> make_room buf = buf.
Proof.
  intros. unfold make_room, RECV_BUFFER_SIZE, DDIAL_CLIENT_RECV_CHUNK_SIZE.
  by destruct (Z.ltb_spec (16384 - 4096) (Z.of_nat (length buf))); [lia|].
Qed.

(** A read of plain bytes is an extraction from the buffer they fill. *)
Lemma read_plain own now wall r d : at_rest (cl_telnet (rl_client r)) -> Forall (fun c => c <> 255) d ->
  Z.of_nat (length (recv_of r ++ d)) <= 12288 ->
  ddial_client_read_chunk own now wall r d =
  let '(r', lines, _) := ddial_client_extract_lines own now wall DDIAL_CLIENT_MAX_EXTRACTED_LINES false
                           (refill (recv_of r ++ d) r) in
  (r', [], lines).
Proof.
  intros Hst Hd Hl. unfold ddial_client_read_chunk, recv_of in *.
  rewrite process_plain by (done || (unfold RECV_BUFFER_SIZE; lia)).
  cbn [tn_recv set_recv]. rewrite make_room_small by done. done.
Qed.

Lemma read_part own now wall r d : at_rest (cl_telnet (rl_client r)) -> Forall (fun c => c <> 255) d ->
  Z.of_nat (length (recv_of r ++ d)) <= 12288 -> find_eol (recv_of r ++ d) = None ->
  ddial_client_read_chunk own now wall r d = (refill (recv_of r ++ d) r, [], []).
Proof.
  intros. rewrite read_plain by done. unfold ddial_client_extract_lines.
  cbn [Nat.eqb DDIAL_CLIENT_MAX_EXTRACTED_LINES refill rl_client with_recv with_telnet cl_telnet
       set_recv tn_recv extract_go length Nat.leb]. rewrite H2. done.
Qed.

Definition after_line (result : line_result) (r : relay) : relay * list bytes :=
  match result with
  | Skip => (refill [] r, [])
  | HungUp r => (refill [] r, [])
  | Extracted r line => (refill [] r, [line])
  end.

Lemma read_end own now wall r s d : text_line s -> at_rest (cl_telnet (rl_client r)) ->
  recv_of r ++ d = s ++ crlf -> Forall (fun c => c <> 255) d ->
  exists reply, ddial_client_read_chunk own now wall r d =
  let (r', lines) := after_line (handle_line own now wall (refill (s ++ crlf) r) s) (refill (s ++ crlf) r) in
  (r', reply, lines).
Proof.
  intros Hs Hst Hrd Hd. pose proof Hs as [Hp Hl Hne]. unfold SSH_CHATTER_MESSAGE_LIMIT in Hl.
  rewrite read_plain, Hrd by (done || (rewrite Hrd, length_app; cbn [crlf length]; lia)).
  exists []. unfold ddial_client_extract_lines.
  change (tn_recv (cl_telnet (rl_client (refill (s ++ crlf) r)))) with (s ++ crlf).
  cbn [Nat.eqb DDIAL_CLIENT_MAX_EXTRACTED_LINES].
  replace (S (length (s ++ crlf))) with (S (S (length s + 1))) by (rewrite length_app; simpl; lia).
  cbn [extract_go length Nat.leb]. rewrite find_eol_line, line_text_line by done.
  assert (drop (cut_len (length s) + 2) (s ++ crlf) = []) as ->.
  { apply drop_ge. unfold cut_len, SSH_CHATTER_MESSAGE_LIMIT. rewrite length_app. cbn [crlf length].
    destruct (Nat.leb_spec 4096 (length s)); lia. }
  destruct (handle_line own now wall (refill (s ++ crlf) r) s) as [|r1|r1 line];
    cbn [extract_go length app Nat.leb after_line]; rewrite ?andb_false_r; done.
Qed.

(** A line that arrives in any pieces is handled once, at its end. *)
Lemma reads_line own now wall s chunks r : text_line s -> at_rest (cl_telnet (rl_client r)) ->
  chunks <> [] -> Forall (fun d => d <> []) chunks -> recv_of r ++ concat chunks = s ++ crlf ->
  read_chunks own now wall r chunks =
  after_line (handle_line own now wall (refill (s ++ crlf) r) s) (refill (s ++ crlf) r).
Proof.
  intros Hs Hst Hne Hchunks. revert r Hst. pose proof Hs as [Hp Hl _].
  unfold SSH_CHATTER_MESSAGE_LIMIT in Hl.
  induction Hchunks as [|d ds Hd Hds IH]; [done|]. intros r Hst Hcat. cbn [read_chunks concat] in *.
  assert (Forall (fun c => c <> 255) (s ++ crlf)) as Hno.
  { apply Forall_app; split; [|repeat constructor; done]. eapply Forall_impl; [done|]. simpl.
    intros c Hc. unfold printable in Hc. bprop. lia. }
  assert (Forall (fun c => c <> 255) d) as Hdno.
  { rewrite <- Hcat, app_assoc in Hno. apply Forall_app in Hno as [Hno _]. by apply Forall_app in Hno as [_ ?]. }
  destruct (decide (ds = [])) as [->|Hdsne].
  - cbn [concat read_chunks] in *. rewrite app_nil_r in Hcat.
    destruct (read_end own now wall r s d Hs Hst Hcat Hdno) as [reply ->].
    destruct (after_line _ _) as [r' lines]. by rewrite app_nil_r.
  - assert (Z.of_nat (length (recv_of r ++ d)) <= 12288) as Hsz.
    { assert (length (recv_of r ++ d ++ concat ds) = length (s ++ crlf)) as He by (by rewrite Hcat).
      rewrite !length_app in *. cbn [crlf length] in He. lia. }
    rewrite app_assoc in Hcat. rewrite read_part; [|done|done|done|].
    + rewrite IH; [|done|done|done].
      change (refill (s ++ crlf) (refill (recv_of r ++ d) r)) with (refill (s ++ crlf) r).
      by destruct (after_line _ _).
    + eapply find_eol_part; [done..|]. destruct ds as [|e ds]; [done|]. apply Forall_cons in Hds as [He _].
      cbn [concat]. by destruct e.
Qed.

End Text.

(** ** Chat and login lines *)

Module Relay.
Import Cleaning Telnet Client Inbound Text Buckets DdialRoster.Lines.

(** The part of a link chat line before the message. *)
Definition chat_head (slot channel : Z) (tier : ddial_user_tier) (handle : bytes) : bytes :=
  c_hash :: dec slot ++ ddial_tier_bracket_open tier ++
  c_T :: dec (clamp_channel channel) ++ c_colon :: clean_handle handle ++ [c_rparen].

Lemma digits_printable s : Forall (fun c => isdigit c = true) s -> Forall (fun c => printable c = true) s.
Proof. intros H. eapply Forall_impl; [exact H|]. simpl. unfold isdigit, printable. intros c Hc. bprop. lia. Qed.

Lemma dec_printable n : 0 <= n <= ULONG_MAX -> Forall (fun c => printable c = true) (dec n).
Proof. intros (_ & H & _)%dec_spec. by apply digits_printable. Qed.


Lemma chat_head_length slot channel tier handle : 0 <= slot <= UINT16_MAX ->
  (length (chat_head slot channel tier handle) <= 40)%nat.
Proof.
  intros Hs. pose proof (clamp_channel_range channel). pose proof (clean_handle_length handle).
  pose proof (dec_length slot 5 ltac:(unfold UINT16_MAX in *; simpl; lia) ltac:(lia)).
  unfold chat_head. rewrite (dec_small (clamp_channel channel)) by lia.
  destruct tier; cbn [length app ddial_tier_bracket_open]; rewrite !length_app; lits;
    cbn [length app]; rewrite ?length_app; cbn [length]; lia.
Qed.





















(** *** Login and logout lines *)

(** What a member's event looks like once normalized, and on the wire. *)
Definition event_tail (slot channel : Z) (tier : ddial_user_tier) (handle : bytes) (account : Z) : bytes :=
  c_hash :: dec slot ++ ddial_tier_bracket_open tier ++
  c_T :: dec (clamp_channel channel) ++ c_colon :: clean_handle handle ++
  c_colon :: c_hash :: dec account ++ [c_star].

Definition event_mark (locked is_login : bool) : bytes :=
  lit "-->" ++ [if locked then c_comma else c_dot; c_space; if is_login then c_plus else c_minus].

Definition event_text (locked is_login : bool) (tail : bytes) : bytes :=
  lit "[LINK] " ++ event_mark locked is_login ++ c_space :: tail.

Definition event_wire (locked is_login : bool) (tail : bytes) : bytes :=
  c_rbrace :: event_mark locked is_login ++ c_caret :: tail.

Lemma event_tail_printable slot channel tier handle account : 0 <= slot <= UINT16_MAX ->
  0 < account <= UINT16_MAX -> Forall (fun c => printable c = true) (clean_handle handle) ->
  Forall (fun c => printable c = true) (event_tail slot channel tier handle account).
Proof.
  intros Hs Ha Hh. pose proof (clamp_channel_range channel). unfold event_tail, UINT16_MAX in *.
  assert (forall n, 0 <= n <= 65535 -> Forall (fun c => printable c = true) (dec n)) as Hdec
    by (intros n Hn; apply dec_printable; unfold ULONG_MAX; lia).
  repeat first [apply Forall_cons; split; [done|] | apply Forall_app; split]; try done;
    try (apply Hdec; lia); destruct tier; by repeat constructor.
Qed.

Lemma event_tail_length slot channel tier handle account : 0 <= slot <= UINT16_MAX ->
  0 < account <= UINT16_MAX -> (length (event_tail slot channel tier handle account) <= 60)%nat.
Proof.
  intros Hs Ha. pose proof (chat_head_length slot channel tier handle Hs) as H.
  pose proof (dec_length account 5 ltac:(unfold UINT16_MAX in *; simpl; lia) ltac:(lia)).
  unfold chat_head, event_tail in *. cbn [length] in *. rewrite !length_app in *. cbn [length] in *.
  rewrite !length_app in *. cbn [length] in *. rewrite !length_app in *. cbn [length] in *.
  rewrite !length_app. cbn [length]. lia.
Qed.

Lemma no_caret s : Forall (fun c => c <> c_caret) s ->
  ((fun c => if c =? c_caret then c_space else c) <$> s) = s.
Proof.
  induction 1 as [|c s Hc _ IH]; [done|]. cbn. apply Z.eqb_neq in Hc. rewrite Hc. f_equal. exact IH.
Qed.

Lemma digits_no_caret s : Forall (fun c => isdigit c = true) s -> Forall (fun c => c <> c_caret) s.
Proof. intros H. eapply Forall_impl; [exact H|]. simpl. unfold isdigit. intros c Hc. bprop. lia. Qed.

Lemma event_tail_no_caret slot channel tier handle account : 0 <= slot <= UINT16_MAX ->
  0 < account <= UINT16_MAX -> Forall (fun c => c <> c_caret) (event_tail slot channel tier handle account).
Proof.
  intros Hs Ha. pose proof (clamp_channel_range channel). unfold event_tail, UINT16_MAX in *.
  assert (forall n, 0 <= n <= 65535 -> Forall (fun c => c <> c_caret) (dec n)) as Hdec.
  { intros n Hn. apply digits_no_caret. apply dec_spec. unfold ULONG_MAX. lia. }
  assert (Forall (fun c => c <> c_caret) (clean_handle handle)) as Hh.
  { eapply Forall_impl; [apply clean_handle_clean|]. simpl. unfold handle_forbidden. intros c [Hc _].
    bprop. lia. }
  repeat first [apply Forall_cons; split; [done|] | apply Forall_app; split]; try done;
    try (apply Hdec; lia); destruct tier; by repeat constructor.
Qed.

Lemma event_tail_ends slot channel tier handle account : exists a,
  event_tail slot channel tier handle account = a ++ [c_star].
Proof.
  exists (c_hash :: dec slot ++ ddial_tier_bracket_open tier ++ c_T :: dec (clamp_channel channel) ++
          c_colon :: clean_handle handle ++ c_colon :: c_hash :: dec account).
  unfold event_tail. cbn [app]. by repeat (rewrite <- app_assoc; cbn [app]).
Qed.

Section Event.
Context (slot channel : Z) (tier : ddial_user_tier) (handle : bytes) (account : Z).
Context (locked is_login : bool).
Hypothesis Hslot : 0 <= slot <= UINT16_MAX.
Hypothesis Haccount : 0 < account <= UINT16_MAX.
Hypothesis Hprintable : Forall (fun c => printable c = true) (clean_handle handle).

#[local] Abbreviation tail := (event_tail slot channel tier handle account).

Lemma event_wire_line : text_line (event_wire locked is_login tail).
Proof using Haccount Hprintable Hslot.
  pose proof (event_tail_length slot channel tier handle account Hslot Haccount).
  constructor; [| |done].
  - unfold event_wire. apply Forall_cons; split; [done|]. apply Forall_app; split.
    + destruct locked, is_login; repeat constructor.
    + apply Forall_cons; split; [done|]. by apply event_tail_printable.
  - unfold event_wire. cbn [length]. rewrite length_app.
    change (length (event_mark locked is_login)) with 6%nat. cbn [length].
    unfold SSH_CHATTER_MESSAGE_LIMIT. lia.
Qed.

Lemma normalize_event :
  ddial_client_normalize_line (event_wire locked is_login tail) SSH_CHATTER_MESSAGE_LIMIT =
  event_text locked is_login tail.
Proof using Haccount Hprintable Hslot.
  pose proof (event_tail_length slot channel tier handle account Hslot Haccount) as Hlen.
  pose proof event_wire_line as [Hp Hl _]. unfold ddial_client_normalize_line, normalize_start.
  rewrite sanitize_printable by (done || lia).
  assert (skip_while isspace (event_wire locked is_login tail) = event_wire locked is_login tail) as ->
    by done.
  assert (strip_trailing isspace (event_wire locked is_login tail) = event_wire locked is_login tail) as ->.
  { destruct (event_tail_ends slot channel tier handle account) as [a Ha]. rewrite Ha.
    unfold event_wire. rewrite !app_comm_cons, app_assoc. by rewrite strip_trailing_app. }
  assert (forall n, drop_prompts n (event_wire locked is_login tail) = event_wire locked is_login tail) as ->
    by (by intros [|n]).
  change (bytes_eqb (event_wire locked is_login tail) []) with false. cbn iota.
  assert (normalize_form (event_wire locked is_login tail) = event_text locked is_login tail) as ->.
  { unfold normalize_form, event_wire, event_text. cbn [peek]. rewrite Z.eqb_refl.
    assert (ddial_parse_link_prefix (c_rbrace :: event_mark locked is_login ++ c_caret :: tail) =
      (DDIAL_LINK_MSG_MEMBER_EVENT, event_mark locked is_login ++ c_caret :: tail)) as ->
      by (by destruct locked, is_login).
    f_equal. unfold expand_link_payload. rewrite fmap_app, fmap_cons.
    rewrite (no_caret tail) by (by apply event_tail_no_caret).
    rewrite take_ge; [by destruct locked, is_login|].
    rewrite length_app, length_fmap. cbn [length]. change (length (event_mark locked is_login)) with 6%nat.
    unfold SSH_CHATTER_MESSAGE_LIMIT. lia. }
  unfold snprintf_text. apply take_ge. unfold event_text. rewrite !length_app. cbn [length].
  change (length (event_mark locked is_login)) with 6%nat. lits. cbn [length].
  unfold SSH_CHATTER_MESSAGE_LIMIT. lia.
Qed.

End Event.

Lemma contains_ci_app a b c needle : contains_ci b needle = true -> contains_ci (a ++ b ++ c) needle = true.
Proof.
  unfold contains_ci. rewrite !bool_decide_eq_true, !strstr_spec. intros (t & u & H).
  rewrite !map_app, H. exists (map tolower a ++ t), (u ++ map tolower c). by rewrite <- !app_assoc.
Qed.

Lemma closed_fd_neg k : closed_fd k < 0.
Proof. unfold closed_fd. destruct (Z.leb_spec 0 (cc_fd k)); lia. Qed.

(** A name that contains a word of the list. *)
Definition kick_name (handle : bytes) : bool := existsb (contains_ci (clean_handle handle)) kick_needles.

Lemma event_kicks locked is_login slot channel tier handle account : kick_name handle = true ->
  let text := event_text locked is_login (event_tail slot channel tier handle account) in
  ddial_client_line_looks_like_kick text = true /\ ddial_client_line_is_chat_content text = false.
Proof.
  intros Hk text. split; [|done]. unfold ddial_client_line_looks_like_kick.
  change (bytes_eqb text []) with false. cbn [negb andb].
  unfold kick_name in Hk. apply existsb_exists in Hk as (needle & Hin & Hc). apply existsb_exists.
  exists needle. split; [done|].
  assert (exists a c, text = a ++ clean_handle handle ++ c) as (a & c & ->); [|by apply contains_ci_app].
  subst text. unfold event_text, event_tail.
  exists (lit "[LINK] " ++ event_mark locked is_login ++ c_space :: c_hash :: dec slot ++
          ddial_tier_bracket_open tier ++ c_T :: dec (clamp_channel channel) ++ [c_colon]),
    (c_colon :: c_hash :: dec account ++ [c_star]).
  by repeat (rewrite <- app_assoc; cbn [app]).
Qed.

(** A login or logout that the far side announces for a member whose name
    contains one of the words of a hang-up notice ([bye], [timeout], [removed],
    [offline], ...) hangs up the link: the announcement is not
    chat, so it is searched for those words, name included; the line is not
    broadcast and the roster does not learn of it. *)
Theorem name_hangs_up own now wall r chunks cap slot channel tier handle account locked is_login line :
  0 <= slot <= UINT16_MAX -> 0 < account <= UINT16_MAX -> tier <> DDIAL_TIER_GUEST ->
  Forall (fun c => printable c = true) (clean_handle handle) -> kick_name handle = true ->
  ddial_format_link_event cap slot channel tier handle account false locked is_login = (true, line) ->
  at_rest (cl_telnet (rl_client r)) -> recv_of r = [] ->
  Forall (fun d => d <> []) chunks -> concat chunks = line ->
  let (r', lines) := read_chunks own now wall r chunks in
  cc_connected (cl_conn (rl_client r')) = false /\ cc_fd (cl_conn (rl_client r')) < 0 /\
  lines = [] /\ rl_roster r' = rl_roster r.
Proof.
  intros Hs Ha Ht Hh Hk Hfmt Hst Hrecv Hchunks Hcat.
  assert (line = event_wire locked is_login (event_tail slot channel tier handle account) ++ crlf) as Hline.
  { unfold ddial_format_link_event in Hfmt. cbv zeta in Hfmt.
    assert ((0 <? account) = true) as Hpos by lia. rewrite Hpos in Hfmt.
    unfold event_wire, event_mark, event_tail.
    destruct tier; [done| |]; apply snprintf_true in Hfmt as ->; lits; cbn [app];
      by repeat (rewrite <- app_assoc; cbn [app]). }
  pose proof (event_wire_line slot channel tier handle account locked is_login Hs Ha Hh) as Htl.
  rewrite (reads_line own now wall _ chunks r Htl); [|done| |done|by rewrite Hrecv, Hcat, Hline].
  - unfold handle_line. change (bytes_eqb (event_wire _ _ _) []) with false. cbn iota.
    rewrite normalize_event by done. change (bytes_eqb (event_text _ _ _) []) with false. cbn iota.
    destruct (event_kicks locked is_login slot channel tier handle account Hk) as [-> ->].
    cbn [negb andb]. rewrite orb_true_r. split; [done|]. split; [|done]. apply closed_fd_neg.
  - intros ->. rewrite Hline in Hcat. done.
Qed.

End Relay.

(** ** What comes out of the buffer *)

Module Extraction.
Import Cleaning Telnet Client Inbound Text DdialRoster.Lines.

Lemma index_of_bound c s i : index_of c s = Some i -> (i < length s)%nat.
Proof.
  revert i; induction s as [|d s IH]; intros i; simpl; [done|]. destruct (d =? c); [intros [= <-]; lia|].
  destruct (index_of c s); [|done]. intros [= <-]. specialize (IH _ eq_refl). lia.
Qed.

Lemma index_crlf_bound s i : index_crlf s = Some i -> (i + 2 <= length s)%nat.
Proof.
  revert i; induction s as [|d s IH]; intros i; cbn [index_crlf]; [done|].
  destruct ((d =? c_cr) && (peek s =? c_lf)) eqn:E.
  - intros [= <-]. destruct s; simpl in *; [by rewrite andb_false_r in E|lia].
  - destruct (index_crlf s); [|done]. intros [= <-]. specialize (IH _ eq_refl). simpl. lia.
Qed.

Lemma find_eol_bound buf i n : find_eol buf = Some (i, n) -> (0 < n /\ i + n <= length buf)%nat.
Proof.
  unfold find_eol. destruct (index_crlf buf) as [j|] eqn:E1; [intros [= <- <-]; apply index_crlf_bound in E1; lia|].
  destruct (index_of c_lf buf) as [j|] eqn:E2; [intros [= <- <-]; apply index_of_bound in E2; lia|].
  case_match; [|done]. destruct (index_of c_cr buf) as [j|] eqn:E3; [|done].
  intros [= <- <-]. apply index_of_bound in E3. lia.
Qed.

Lemma extract_go_complete fuel own now wall max r buf lines : (length buf < fuel)%nat ->
  (length lines <= max)%nat ->
  let e := extract_go fuel own now wall max r buf lines in
  (length (ex_lines e) <= max)%nat /\
  (ex_hung_up e = false -> length (ex_lines e) = max \/ find_eol (ex_buf e) = None).
Proof.
  revert r buf lines; induction fuel as [|f IH]; intros r buf lines Hf Hm; [lia|]. cbn [extract_go].
  destruct (Nat.leb_spec max (length lines)); [cbn; split; [done|]; left; lia|].
  destruct (find_eol buf) as [[i n]|] eqn:E; [|cbn; split; [lia|]; by right].
  pose proof (find_eol_bound _ _ _ E) as [Hn Hi].
  assert (length (drop (cut_len i + n) buf) < f)%nat as Hd by (rewrite length_drop; lia).
  destruct (handle_line own now wall r (line_text buf (cut_len i))).
  - by apply IH.
  - cbn. split; [lia|done].
  - apply IH; [done|]. rewrite length_app. simpl. lia.
Qed.

(** Extraction ends, with at most the lines asked for, and when it stopped
    early and the link is up no complete line is left in the buffer. *)
Theorem extraction_complete own now wall max r : (0 < max)%nat ->
  let '(r', lines, hung_up) := ddial_client_extract_lines own now wall max false r in
  (length lines <= max)%nat /\
  (hung_up = false -> (length lines < max)%nat -> find_eol (recv_of r') = None).
Proof.
  intros Hmax. unfold ddial_client_extract_lines.
  destruct (Nat.eqb_spec max 0); [lia|]. rewrite andb_false_r. cbn [andb].
  pose proof (extract_go_complete (S (length (tn_recv (cl_telnet (rl_client r))))) own now wall max r
    (tn_recv (cl_telnet (rl_client r))) [] ltac:(lia) ltac:(simpl; lia)) as [Hl Hc].
  split; [done|]. intros Hh Hlt. destruct (Hc Hh) as [?|He]; [lia|]. exact He.
Qed.

(** *** No terminal control gets through *)

(** A byte that can stand in a line of the room: no control byte but tab, CR and
    LF, no DEL, no telnet IAC. *)
Definition calm (c : Z) : Prop := (32 <= c /\ c <> 127 /\ c <> 255) \/ c = 9 \/ c = c_cr \/ c = c_lf.

Lemma dropped_calm c : dropped_byte c = false -> calm c.
Proof. unfold dropped_byte, calm. intros. bprop. lia. Qed.

Ltac calm_lit := lits; repeat (apply Forall_cons; split; [by apply dropped_calm|]); by apply Forall_nil_2.

Lemma sanitize_calm s cap : Forall calm (ddial_client_sanitize_line s cap).
Proof.
  unfold ddial_client_sanitize_line. generalize (length s) (cap - 1)%nat. intros fuel. revert s.
  induction fuel as [|f IH]; intros s room; [constructor|]. destruct room as [|room]; [constructor|].
  destruct s as [|c t]; cbn [sanitize_line_go]; [constructor|].
  destruct (c =? c_esc); [repeat case_match; try apply IH; constructor|].
  destruct (dropped_byte c) eqn:E; [apply IH|]. constructor; [by apply dropped_calm|apply IH].
Qed.

Lemma drop_prompts_Forall (P : Z -> Prop) n s : Forall P s -> Forall P (drop_prompts n s).
Proof.
  revert s; induction n as [|n IH]; intros s Hs; cbn [drop_prompts]; [done|]. case_match; [|done].
  case_match; [done|]. apply IH. by apply skip_while_Forall, Forall_drop.
Qed.

Lemma take_while_Forall (P : Z -> Prop) f s : Forall P s -> Forall P (take_while f s).
Proof. induction 1; simpl; [done|]. case_match; by constructor. Qed.

Lemma scan_digits_Forall (P : Z -> Prop) s v : Forall P s -> Forall P (snd (scan_digits s v)).
Proof. intros Hs; revert v; induction Hs; intros v; simpl; [done|]. case_match; [eauto|by constructor]. Qed.

Lemma strtoul_Forall (P : Z -> Prop) s v r : Forall P s -> strtoul s = (v, r) -> Forall P r.
Proof.
  intros Hs. unfold strtoul. set (q := if _ : bool then drop 1 _ else _).
  assert (Forall P q) as Hq by (subst q; case_match; [apply Forall_drop|]; by apply skip_while_Forall).
  destruct (isdigit (peek q)); [|by intros [= _ <-]].
  pose proof (scan_digits_Forall P q 0 Hq). destruct (scan_digits q 0). by intros [= _ <-].
Qed.

Lemma skip_one_space_Forall (P : Z -> Prop) s : Forall P s -> Forall P (skip_one_space s).
Proof. intros. unfold skip_one_space. case_match; [by apply Forall_drop|done]. Qed.

Lemma parse_identity_Forall (P : Z -> Prop) s cap i rest : Forall P s ->
  ddial_parse_identity s cap = Some (i, rest) -> Forall P (id_handle i) /\ Forall P rest.
Proof.
  intros Hs. unfold ddial_parse_identity. case_match; [done|]. case_match; [done|].
  destruct (strtoul (drop 1 s)) as [slot p] eqn:E. apply (strtoul_Forall P) in E; [|by apply Forall_drop].
  case_match; [done|]. case_match; [done|]. case_match; [done|].
  set (q := if _ : bool then _ else _).
  assert (Forall P q) as Hq by (subst q; case_match; repeat apply Forall_drop; done).
  pose proof (skip_while_Forall P (fun c => negb (handle_closer c)) q Hq) as Hrest.
  destruct (skip_while _ q) as [|x rest'] eqn:Eq; [done|]. intros [= <- <-]. cbn [id_handle].
  apply Forall_cons in Hrest as [_ Hrest]. split; [|done]. unfold identity_handle.
  by apply Forall_take, strip_trailing_Forall, take_while_Forall, take_while_Forall.
Qed.

Lemma incoming_private_Forall (P : Z -> Prop) s cap m : Forall P s ->
  ddial_parse_incoming_private s cap = Some m -> Forall P (id_handle (ip_from m)) /\ Forall P (ip_message m).
Proof.
  intros Hs. unfold ddial_parse_incoming_private. case_match; [done|]. case_match; [done|].
  destruct (strtoul (drop 2 s)) as [t p] eqn:E. apply (strtoul_Forall P) in E; [|by apply Forall_drop].
  case_match; [done|]. destruct (ddial_parse_identity _ cap) as [[i rest]|] eqn:Ei; [|done].
  apply (parse_identity_Forall P) in Ei as [Hh Hr]; [|by apply skip_while_Forall].
  intros [= <-]. split; [done|]. by apply skip_one_space_Forall.
Qed.

Lemma incoming_email_Forall (P : Z -> Prop) s cap m : Forall P s ->
  ddial_parse_incoming_email s cap = Some m -> Forall P (ie_handle m) /\ Forall P (ie_message m).
Proof.
  intros Hs. unfold ddial_parse_incoming_email. case_match; [done|]. case_match; [done|].
  case_match; [done|]. case_match; [done|].
  destruct (strtoul _) as [t p] eqn:E. apply (strtoul_Forall P) in E; [|by repeat apply Forall_drop].
  case_match; [done|].
  pose proof (skip_while_Forall P (fun c => negb (c =? c_rparen)) (drop 1 p) ltac:(by apply Forall_drop)) as Hr.
  destruct (skip_while _ _) as [|x rest]; [done|]. apply Forall_cons in Hr as [_ Hr]. intros [= <-].
  cbn [ie_handle ie_message]. split; [|by apply skip_one_space_Forall].
  by apply Forall_take, take_while_Forall, Forall_drop.
Qed.

Lemma digits_calm s : Forall (fun c => isdigit c = true) s -> Forall calm s.
Proof.
  intros H. eapply Forall_impl; [exact H|]. simpl. unfold isdigit, calm. intros c Hc.
  bprop. lia.
Qed.

Lemma dec_go_calm fuel n acc : 0 <= n -> Forall calm acc -> Forall calm (dec_go fuel n acc).
Proof.
  revert n acc; induction fuel as [|f IH]; intros n acc Hn Hacc; simpl; [done|].
  assert (Forall calm ((48 + n mod 10) :: acc)) as H'.
  { constructor; [|done]. unfold calm. pose proof (Z.mod_pos_bound n 10). lia. }
  case_match; [done|]. apply IH; [dlia|done].
Qed.

Lemma dec_pad_calm w n : 0 <= n -> Forall calm (dec_pad w n).
Proof.
  intros Hn. unfold dec_pad. apply Forall_app; split; [apply Forall_replicate; by apply dropped_calm|].
  by apply dec_go_calm.
Qed.

Lemma strtoul_nonneg s : 0 <= fst (strtoul s).
Proof. pose proof (strtoul_range s). lia. Qed.

Lemma private_numbers s cap m : ddial_parse_incoming_private s cap = Some m ->
  0 <= id_slot (ip_from m) /\ 0 <= id_channel (ip_from m).
Proof.
  unfold ddial_parse_incoming_private. case_match; [done|]. case_match; [done|].
  destruct (strtoul (drop 2 s)) as [t p]. case_match; [done|].
  destruct (ddial_parse_identity _ cap) as [[i rest]|] eqn:Ei; [|done]. intros [= <-]. cbn [ip_from].
  apply parse_identity_range in Ei. lia.
Qed.

Lemma email_numbers s cap m : ddial_parse_incoming_email s cap = Some m ->
  0 <= ie_from_id m /\ 0 <= ie_from_station m.
Proof.
  unfold ddial_parse_incoming_email. case_match; [done|]. destruct (negb (forallb _ _)) eqn:Ed; [done|].
  repeat (case_match; try done). intros [= <-]. cbn [ie_from_id ie_from_station].
  split; [by apply Z.mod_pos_bound|]. apply negb_false_iff in Ed. rewrite forallb_forall in Ed.
  assert (forall i, (i < 6)%nat -> 0 <= nthb (drop 3 s) i - c_0) as Hd.
  { intros i Hi. specialize (Ed i ltac:(by apply in_seq; lia)). unfold isdigit in Ed. bprop. lia. }
  unfold digits3. pose proof (Hd 0%nat ltac:(lia)). pose proof (Hd 1%nat ltac:(lia)).
  pose proof (Hd 2%nat ltac:(lia)). simpl. lia.
Qed.

Lemma normalize_form_calm s : Forall calm s -> Forall calm (normalize_form s).
Proof.
  intros Hs. unfold normalize_form. destruct (peek s =? c_rbrace).
  - destruct (ddial_parse_link_prefix s) as [kind rest] eqn:E.
    assert (Forall calm rest) as Hr.
    { unfold ddial_parse_link_prefix in E. repeat case_match; simplify_eq; try done; by apply Forall_drop. }
    assert (Forall calm (expand_link_payload rest)) as Hp.
    { apply skip_while_Forall, Forall_take, Forall_fmap. eapply Forall_impl; [exact Hr|].
      intros c Hc. simpl. case_match; [by apply dropped_calm|done]. }
    destruct kind; try done; (apply Forall_app; split; [by calm_lit|done]).
  - destruct (_ && _); [by apply Forall_drop|].
    destruct (_ && _); [apply Forall_app; split; [by calm_lit|by apply skip_while_Forall, Forall_drop]|].
    destruct (ddial_parse_incoming_private s _) as [m|] eqn:Em.
    + destruct (incoming_private_Forall _ _ _ _ Hs Em). destruct (private_numbers _ _ _ Em).
      repeat (apply Forall_app; split); try done; try (by calm_lit); by apply dec_go_calm.
    + destruct (ddial_parse_incoming_email s _) as [m|] eqn:Ee.
      * destruct (incoming_email_Forall _ _ _ _ Hs Ee). destruct (email_numbers _ _ _ Ee).
        repeat (apply Forall_app; split); try done; first [by calm_lit | by apply Forall_replicate, dropped_calm | by apply dec_go_calm].
      * case_match; [constructor; [by apply dropped_calm|done]|done].
Qed.

Lemma normalize_calm s cap : Forall calm (ddial_client_normalize_line s cap).
Proof.
  unfold ddial_client_normalize_line. case_match; [constructor|].
  apply Forall_take, normalize_form_calm, drop_prompts_Forall, strip_trailing_Forall, skip_while_Forall,
    sanitize_calm.
Qed.

Lemma handle_line_calm own now wall r line r' out :
  handle_line own now wall r line = Extracted r' out -> Forall calm out.
Proof.
  unfold handle_line. case_match; [done|]. case_match; [done|]. case_match; [done|].
  case_match; intros <-%extracted_line; apply Forall_take; [|apply normalize_calm].
  apply skip_while_Forall, sanitize_calm.
Qed.

Lemma extract_go_calm fuel own now wall max r buf lines : Forall (Forall calm) lines ->
  Forall (Forall calm) (ex_lines (extract_go fuel own now wall max r buf lines)).
Proof.
  revert r buf lines; induction fuel as [|f IH]; intros r buf lines Hl; cbn [extract_go]; [done|].
  case_match; [done|]. destruct (find_eol buf) as [[i n]|]; [|done].
  destruct (handle_line _ _ _ _ _) as [|r1|r1 out] eqn:E; [by apply IH|constructor|].
  apply IH, Forall_app. split; [done|]. constructor; [|constructor]. by eapply handle_line_calm.
Qed.

(** C26: whatever bytes the far side sends, in whatever state, a line that reaches the
    room, a mailbox or a user holds no escape sequence and no control byte
    but tab, CR and LF: nothing of it can drive a terminal. *)
Theorem lines_are_calm own now wall r data :
  Forall (Forall calm) (snd (ddial_client_read_chunk own now wall r data)).
Proof.
  unfold ddial_client_read_chunk. destruct (ddial_client_process_telnet _ _) as [t reply].
  unfold ddial_client_extract_lines. cbn [Nat.eqb DDIAL_CLIENT_MAX_EXTRACTED_LINES].
  rewrite andb_false_r. cbn [andb snd]. by apply extract_go_calm.
Qed.

(** The wait before dialing again is between 5 and 30 seconds. *)
Lemma backoff_bounds k : 0 <= cc_reconnect_attempts k -> 5 <= ddial_client_backoff_sec k <= 30.
Proof.
  intros H. unfold ddial_client_backoff_sec, DDIAL_CLIENT_RECONNECT_BACKOFF_SEC.
  repeat case_match; bprop; lia.
Qed.

End Extraction.
