(* ===== verification/DdialSend.v ===== *)
(** What the DDial client hands on to the room, its members and the mail, and
    what it sends upstream ([src/host/ddial/client.c]), with samples for the whole
    client. *)

From Stdlib Require Import ZArith Lia String Ascii.
From stdpp Require Import prelude gmap.
From S2P Require Import Prelude DdialProtocol DdialRoster DdialClient DdialRelay.
Import Wire.

(** ** Sending *)

Module Outbound.
Import Cleaning Telnet Client DdialRoster.Lines.

(** A byte that may go out. *)
Definition outbound_byte (c : Z) : bool :=
  ((32 <=? c) && (c <=? 126)) || (c =? 9) || (c =? c_lf) || (c =? c_cr).

(** Nothing at all is sent of a text that is not 7-bit or has nothing to show. *)
Definition ddial_client_normalize_outbound_text (src : bytes) (dst_cap : nat) : bytes :=
  if existsb (fun c => negb (Z.land c 128 =? 0)) src then []
  else
    let dst := take (dst_cap - 1) (List.filter outbound_byte src) in
    if existsb (fun c => 32 <? c) dst then dst else [].

Definition DDIAL_LINK_DEFAULT_SLOT : Z := 1.

Definition ddial_client_link_from_slot (c : ddial_client) (from_slot : Z) : Z :=
  if 0 <? from_slot then from_slot
  else if cl_slot_known c && (0 <? cl_slot c) then cl_slot c
  else DDIAL_LINK_DEFAULT_SLOT.

Definition ready (c : ddial_client) : bool :=
  cf_enabled (cl_config c) && cc_connected (cl_conn c) && (0 <=? cc_fd (cl_conn c)) &&
  bool_decide (cc_auth_state (cl_conn c) = DDIAL_AUTH_APPROVED).

Definition WIRE_LINE_SIZE : nat := 4096 + 64.

(** What a user account says for [named]: the name goes inside the message, and
    the account's own words are kept from being a command. *)
Definition user_text (c : ddial_client) (named : option bytes) (clean_msg : bytes) : bytes :=
  let own := (if peek clean_msg =? c_slash then lit " " else []) ++ clean_msg in
  match named with
  | Some h =>
      if strcase_eq h (cf_handle (cl_config c)) then own
      else ddial_sanitize_handle h DDIAL_MAX_HANDLE_LEN ++ lit ": " ++ clean_msg
  | None => own
  end.

(** The line of a public message, and in user mode the text its echo will have;
    [None]: nothing is sent. *)
Definition channel_line (c : ddial_client) (from_slot : Z) (handle : option bytes) (channel : Z)
    (clean_msg : bytes) : option (bytes * option bytes) :=
  let our_slot := ddial_client_link_from_slot c from_slot in
  let channel := clamp_channel channel in
  let named := match handle with Some h => if bytes_eqb h [] then None else Some h | None => None end in
  let fits := fun line => snprintf_fits WIRE_LINE_SIZE line in
  if cf_user_mode (cl_config c) then
    if negb (channel =? DDIAL_DEFAULT_CHANNEL) then None else
    let text := user_text c named clean_msg in
    let body := ddial_clean_body (snprintf_text SSH_CHATTER_MESSAGE_LIMIT text) (DDIAL_MAX_BODY_LEN + 1) in
    if fits (body ++ crlf) then Some (body ++ crlf, Some body) else None
  else match named with
  | Some h =>
      let (formatted, line) :=
        if negb (channel =? DDIAL_DEFAULT_CHANNEL)
        then ddial_format_link_dual_chat WIRE_LINE_SIZE our_slot channel DDIAL_TIER_PASSWORD h clean_msg
        else ddial_format_link_chat WIRE_LINE_SIZE our_slot channel DDIAL_TIER_PASSWORD h clean_msg in
      if formatted && negb (bytes_eqb line []) then Some (line, None) else None
  | None =>
      let body := ddial_clean_body clean_msg (DDIAL_MAX_BODY_LEN + 1) in
      if fits (body ++ crlf) then Some (body ++ crlf, None) else None
  end.

(** What is fixed before the line is written: the socket it is for, the line, the
    echo to remember. *)
Record prepared := { pr_fd : Z; pr_line : bytes; pr_echo : option bytes }.

Definition prepare_channel (c : ddial_client) (from_slot : Z) (handle : option bytes) (channel : Z)
    (message : bytes) : option prepared :=
  if negb (ready c) then None else
  let clean_msg := ddial_client_normalize_outbound_text message SSH_CHATTER_MESSAGE_LIMIT in
  if bytes_eqb clean_msg [] then None else
  match channel_line c from_slot handle channel clean_msg with
  | Some (line, echo) => Some {| pr_fd := cc_fd (cl_conn c); pr_line := line; pr_echo := echo |}
  | None => None
  end.

(** The lock is taken again for the write, on the state it then finds. *)
Definition commit (c : ddial_client) (p : prepared) : option bytes :=
  if cf_enabled (cl_config c) && cc_connected (cl_conn c) && (cc_fd (cl_conn c) =? pr_fd p) &&
     bool_decide (cc_auth_state (cl_conn c) = DDIAL_AUTH_APPROVED)
  then Some (pr_line p) else None.

Definition remember (now : Z) (echo : option bytes) (c : ddial_client) : ddial_client :=
  match echo with
  | Some text => with_echo (ddial_client_remember_sent now text (cl_echo c)) c
  | None => c
  end.

(** The three steps without another thread between them: the client, and the
    bytes written. *)
Definition host_ddial_client_send_channel (now : Z) (c : ddial_client) (from_slot : Z)
    (handle : option bytes) (channel : Z) (message : bytes) : ddial_client * option bytes :=
  match prepare_channel c from_slot handle channel message with
  | Some p => let c := remember now (pr_echo p) c in (c, commit c p)
  | None => (c, None)
  end.

(** [chat_slot]: the line number of the member's chat link, 0 for none. *)
Definition host_ddial_client_send (now : Z) (c : ddial_client) (chat_slot : bytes -> Z)
    (handle : option bytes) (message : bytes) : ddial_client * option bytes :=
  host_ddial_client_send_channel now c
    (match handle with Some h => chat_slot h | None => 0 end) handle DDIAL_DEFAULT_CHANNEL message.

Definition private_line (c : ddial_client) (target_slot from_slot : Z) (our_handle : option bytes)
    (clean_msg : bytes) : option bytes :=
  if cf_user_mode (cl_config c) then
    let text := match our_handle with
                | Some h => h ++ (if bytes_eqb h [] then [] else lit ": ") ++ clean_msg
                | None => clean_msg
                end in
    let body := ddial_clean_body (snprintf_text SSH_CHATTER_MESSAGE_LIMIT text) (DDIAL_MAX_BODY_LEN + 1) in
    Some (snprintf_text WIRE_LINE_SIZE (lit "/P" ++ dec target_slot ++ lit " " ++ body ++ crlf))
  else
    let (formatted, line) :=
      ddial_format_link_private WIRE_LINE_SIZE target_slot (ddial_client_link_from_slot c from_slot)
        DDIAL_DEFAULT_CHANNEL DDIAL_TIER_PASSWORD (default [] our_handle) clean_msg in
    if formatted then Some line else None.

Definition host_ddial_client_send_private (now : Z) (c : ddial_client) (target_slot from_slot : Z)
    (our_handle : option bytes) (message : bytes) : ddial_client * option bytes :=
  if (target_slot =? 0) || negb (ready c) then (c, None) else
  let clean_msg := ddial_client_normalize_outbound_text message SSH_CHATTER_MESSAGE_LIMIT in
  if bytes_eqb clean_msg [] then (c, None) else
  match private_line c target_slot from_slot our_handle clean_msg with
  | Some line =>
      match commit c {| pr_fd := cc_fd (cl_conn c); pr_line := line; pr_echo := None |} with
      | Some sent => (remember now (Some clean_msg) c, Some sent)
      | None => (c, None)
      end
  | None => (c, None)
  end.

(** The announcement of one of our users; a user account announces nobody. *)
Definition host_ddial_client_send_link_event (c : ddial_client) (slot channel : Z)
    (tier : ddial_user_tier) (handle : bytes) (account : Z) (is_login : bool) : option bytes :=
  if bytes_eqb handle [] || negb (ready c) || cf_user_mode (cl_config c) then None else
  let (formatted, line) :=
    if is_login then ddial_format_link_login WIRE_LINE_SIZE slot channel tier handle account false false
    else ddial_format_link_logout WIRE_LINE_SIZE slot channel tier handle account false false in
  if formatted then commit c {| pr_fd := cc_fd (cl_conn c); pr_line := line; pr_echo := None |} else None.

Definition host_ddial_client_send_login (c : ddial_client) (slot channel : Z) (tier : ddial_user_tier)
    (handle : bytes) (account : Z) : option bytes :=
  host_ddial_client_send_link_event c slot channel tier handle account true.

Definition host_ddial_client_send_logout (c : ddial_client) (slot channel : Z) (tier : ddial_user_tier)
    (handle : bytes) (account : Z) : option bytes :=
  host_ddial_client_send_link_event c slot channel tier handle account false.

Definition host_ddial_client_send_raw (c : ddial_client) (data : bytes) : option bytes :=
  if bytes_eqb data [] || negb (ready c) then None else Some data.

(** ** What is sent *)

Definition seven_bit (c : Z) : Prop := 0 <= c < 128.

Lemma seven_bit_check c : (0 <=? c) && (c <? 128) = true -> seven_bit c.
Proof. unfold seven_bit. intros. bprop. lia. Qed.

Ltac sb_literal := repeat (apply Forall_cons; split; [by apply seven_bit_check|]); apply Forall_nil_2.

(** A text of one line. *)
Definition one_line (s : bytes) : Prop := Forall (fun c => c <> c_cr /\ c <> c_lf) s.

Lemma clean_body_go_line n s : one_line (clean_body_go n s).
Proof.
  unfold one_line. revert n; induction s as [|c s IH]; intros [|n]; simpl; try by constructor.
  destruct ((c =? c_cr) || (c =? c_lf)) eqn:E; constructor; [bprop; lia|apply IH].
Qed.

Lemma clean_body_go_Forall (P : Z -> Prop) n s : Forall P s -> Forall P (clean_body_go n s).
Proof. intros Hs; revert n; induction Hs; intros [|n]; simpl; try by constructor. case_match; by constructor. Qed.

Lemma clean_handle_line h : one_line (clean_handle h).
Proof.
  eapply Forall_impl; [apply clean_handle_clean|]. simpl. unfold handle_forbidden. intros c [Hc _]. bprop. lia.
Qed.

Lemma isdigit_line s : Forall (fun c => isdigit c = true) s -> Forall (fun c => (c <> c_cr /\ c <> c_lf) /\ seven_bit c) s.
Proof.
  intros H. eapply Forall_impl; [exact H|]. simpl. unfold isdigit, seven_bit. intros c Hc. bprop. lia.
Qed.

Lemma dec_line n : 0 <= n <= UINT16_MAX -> one_line (dec n) /\ Forall seven_bit (dec n).
Proof.
  intros Hn. apply Forall_and, isdigit_line, dec_spec. unfold UINT16_MAX, ULONG_MAX in *. lia.
Qed.

(** The outbound text is 7-bit. *)
Lemma outbound_seven_bit src cap : Forall byte_ok src ->
  Forall seven_bit (ddial_client_normalize_outbound_text src cap).
Proof.
  intros Hb. unfold ddial_client_normalize_outbound_text. case_match; [done|]. case_match; [|done].
  apply Forall_take. apply Forall_forall. intros c Hc.
  apply list_elem_of_In, filter_In in Hc as [Hin Hout]. unfold outbound_byte in Hout. unfold seven_bit.
  apply list_elem_of_In in Hin. rewrite Forall_forall in Hb. specialize (Hb c Hin). unfold byte_ok in Hb.
  bprop. lia.
Qed.

Lemma link_from_slot_range c from_slot : 0 <= from_slot <= UINT16_MAX -> 0 <= cl_slot c <= UINT16_MAX ->
  0 < ddial_client_link_from_slot c from_slot <= UINT16_MAX.
Proof.
  intros. unfold ddial_client_link_from_slot, DDIAL_LINK_DEFAULT_SLOT. unfold UINT16_MAX in *.
  repeat case_match; bprop; lia.
Qed.

(** The two properties of a printed chat line. *)
Lemma link_chat_line (P : Z -> Prop) slot channel h m :
  (forall c, c = c_tilde \/ c = c_hash \/ c = c_lbracket \/ c = c_T \/ c = c_colon \/ c = c_rparen \/ c = c_space -> P c) ->
  Forall P (dec slot) -> Forall P (dec (clamp_channel channel)) -> Forall P (clean_handle h) ->
  Forall P (clean_body m) ->
  Forall P (lit "~#" ++ dec slot ++ ddial_tier_bracket_open DDIAL_TIER_PASSWORD ++ lit "T" ++
            dec (clamp_channel channel) ++ lit ":" ++ clean_handle h ++ lit ") " ++ clean_body m).
Proof.
  intros HP Hs Hc Hh Hm. lits.
  repeat (apply Forall_app; split); try done; repeat (constructor; [apply HP; tauto|]); constructor.
Qed.

Lemma commit_line c p w : commit c p = Some w -> w = pr_line p.
Proof. unfold commit. case_match; [|done]. by intros [= <-]. Qed.

Lemma formatted_line (dual : bool) slot channel h m line P :
  (if dual then ddial_format_link_dual_chat WIRE_LINE_SIZE slot channel DDIAL_TIER_PASSWORD h m
   else ddial_format_link_chat WIRE_LINE_SIZE slot channel DDIAL_TIER_PASSWORD h m) = (true, line) ->
  (forall c, c = c_tilde \/ c = c_hash \/ c = c_lbracket \/ c = c_T \/ c = c_colon \/ c = c_rparen \/ c = c_space -> P c) ->
  Forall P (dec slot) -> Forall P (dec (clamp_channel channel)) -> Forall P (clean_handle h) ->
  Forall P (clean_body m) -> exists text, line = text ++ crlf /\ Forall P text.
Proof.
  intros Hf HP Hs Hc Hh Hm. pose proof (link_chat_line P slot channel h m HP Hs Hc Hh Hm) as H.
  destruct dual; apply snprintf_true in Hf as ->; eexists.
  - split; [|exact H]. by rewrite <- !app_assoc.
  - lits. apply Forall_cons in H as [_ H]. split; [|exact H]. cbn [app]. by rewrite <- !app_assoc.
Qed.

Lemma channel_line_one c from_slot handle channel m line echo : Forall seven_bit m ->
  0 <= from_slot <= UINT16_MAX -> 0 <= cl_slot c <= UINT16_MAX ->
  channel_line c from_slot handle channel m = Some (line, echo) ->
  exists text, line = text ++ crlf /\ one_line text /\
    (match handle with Some h => Forall seven_bit (clean_handle h) | None => True end ->
     Forall seven_bit text).
Proof.
  intros Hm Hfrom Hslot. unfold channel_line. cbv zeta.
  set (slot := ddial_client_link_from_slot c from_slot).
  assert (0 < slot <= UINT16_MAX) as Hs by (by apply link_from_slot_range).
  destruct (cf_user_mode (cl_config c)).
  - destruct (negb _); [done|]. set (text := user_text _ _ _).
    destruct (snprintf_fits _ _); [|done]. intros [= <- _]. eexists. split; [done|].
    split; [apply clean_body_go_line|]. intros Hh. apply clean_body_go_Forall, Forall_take.
    assert (Forall seven_bit ((if peek m =? c_slash then lit " " else []) ++ m)) as Hown.
    { apply Forall_app; split; [|done]. lits. destruct (peek m =? c_slash); sb_literal. }
    subst text. unfold user_text. destruct handle as [h|]; [|done]. destruct (bytes_eqb h []); [done|].
    destruct (strcase_eq _ _); [done|]. apply Forall_app; split; [done|].
    apply Forall_app; split; [|done]. lits. sb_literal.
  - set (named := match handle with Some _ => _ | None => None end).
    destruct named as [h|] eqn:En.
    + assert (handle = Some h) as ->.
      { subst named. destruct handle as [h'|]; [|done]. by destruct (bytes_eqb h' []); simplify_eq. }
      set (dual := negb (clamp_channel channel =? DDIAL_DEFAULT_CHANNEL)).
      destruct (if dual then _ else _) as [formatted wire] eqn:Ef.
      destruct (formatted && _) eqn:Eb; [|done]. apply andb_prop in Eb as [-> _]. intros [= <- _].
      assert (0 <= clamp_channel (clamp_channel channel) <= UINT16_MAX) as Hcc
        by (pose proof (clamp_channel_range (clamp_channel channel)); unfold UINT16_MAX; lia).
      destruct (dec_line slot ltac:(lia)) as [Hd1 Hd2]. destruct (dec_line _ Hcc) as [Hc1 Hc2].
      assert (exists text, wire = text ++ crlf /\ one_line text) as (text & Hw & Hone).
      { apply (formatted_line dual slot (clamp_channel channel) h m wire); [done| |done|done| |].
        - intros x [->|[->|[->|[->|[->|[->| ->]]]]]]; done.
        - apply clean_handle_line.
        - apply clean_body_go_line. }
      exists text. split; [done|]. split; [done|]. intros Hh.
      destruct (formatted_line dual slot (clamp_channel channel) h m wire seven_bit) as (text' & Hw' & H7);
        [done| |done|done|done|by apply clean_body_go_Forall|].
      { intros x [->|[->|[->|[->|[->|[->| ->]]]]]]; done. }
      rewrite Hw in Hw'. by apply app_inv_tail in Hw' as ->.
    + destruct (snprintf_fits _ _); [|done]. intros [= <- _]. eexists. split; [done|].
      split; [apply clean_body_go_line|]. intros _. by apply clean_body_go_Forall.
Qed.

(** Whatever the handle and the message, a public message puts at most one line
    on the wire: what is written is a text without CR or LF, and CR LF, so a
    message cannot carry a second line (a command of the far side) with it;
    and if the handle is 7-bit, so is every byte written. *)
Theorem one_line_sent now c from_slot handle channel message w : Forall byte_ok message ->
  0 <= from_slot <= UINT16_MAX -> 0 <= cl_slot c <= UINT16_MAX ->
  snd (host_ddial_client_send_channel now c from_slot handle channel message) = Some w ->
  exists text, w = text ++ crlf /\ one_line text /\
    (match handle with Some h => Forall seven_bit (clean_handle h) | None => True end ->
     Forall seven_bit text).
Proof.
  intros Hb Hfrom Hslot. unfold host_ddial_client_send_channel, prepare_channel.
  destruct (negb (ready c)); [done|].
  pose proof (outbound_seven_bit message SSH_CHATTER_MESSAGE_LIMIT Hb) as H7.
  set (m := ddial_client_normalize_outbound_text _ _) in *. destruct (bytes_eqb m []); [done|].
  destruct (channel_line c from_slot handle channel m) as [[line echo]|] eqn:El; [|done]. cbn [snd].
  intros ->%commit_line. cbn [pr_line]. exact (channel_line_one _ _ _ _ _ _ _ H7 Hfrom Hslot El).
Qed.

(** The text a user account writes is a command of the far side exactly when it
    starts with a slash. *)
Definition is_command (w : bytes) : Prop := peek w = c_slash.

(** In user mode a line that starts with a slash would be a command of the far
    side.  A message of the account itself or without a name never becomes one;
    a message of another member does exactly when the name, made safe,
    starts with a slash: only the message is looked at, and the name goes first. *)
Theorem command_by_name now c from_slot handle channel message w :
  cf_user_mode (cl_config c) = true ->
  snd (host_ddial_client_send_channel now c from_slot handle channel message) = Some w ->
  is_command w <-> exists h, handle = Some h /\ h <> [] /\
    strcase_eq h (cf_handle (cl_config c)) = false /\ peek (clean_handle h) = c_slash.
Proof.
  intros Hu. unfold host_ddial_client_send_channel, prepare_channel. destruct (negb (ready c)); [done|].
  set (m := ddial_client_normalize_outbound_text _ _). destruct (bytes_eqb m []); [done|].
  unfold channel_line. cbv zeta. rewrite Hu. destruct (negb _); [done|].
  set (text := user_text _ _ _).
  destruct (snprintf_fits _ _); [|done]. cbn [snd].
  intros ->%commit_line. cbn [pr_line]. unfold is_command.
  assert (peek (ddial_clean_body (snprintf_text SSH_CHATTER_MESSAGE_LIMIT text) (DDIAL_MAX_BODY_LEN + 1) ++ crlf) = c_slash
          <-> peek text = c_slash) as ->.
  { unfold ddial_clean_body, snprintf_text. change (SSH_CHATTER_MESSAGE_LIMIT - 1)%nat with (S 4094).
    change (Nat.min (DDIAL_MAX_BODY_LEN + 1 - 1) DDIAL_MAX_BODY_LEN) with (S 254).
    destruct text as [|x text]; [done|]. cbn [take clean_body_go].
    destruct ((x =? c_cr) || (x =? c_lf)) eqn:E; [|done]. cbn. bprop. lia. }
  assert (peek ((if peek m =? c_slash then lit " " else []) ++ m) <> c_slash) as Hown.
  { destruct (Z.eqb_spec (peek m) c_slash); [done|]. done. }
  subst text. unfold user_text. destruct handle as [h|].
  - destruct (bytes_eqb h []) eqn:Eh; bprop.
    + split; [done|]. intros (h' & [= <-] & Hne & _). done.
    + destruct (strcase_eq h (cf_handle (cl_config c))) eqn:Es.
      * split; [done|]. intros (h' & [= <-] & _ & Hs & _). congruence.
      * change (ddial_sanitize_handle h DDIAL_MAX_HANDLE_LEN) with (clean_handle h).
        split; [|intros (h' & [= <-] & _ & _ & Hp); by destruct (clean_handle h)].
        intros Hp. exists h. repeat split; try done. by destruct (clean_handle h).
  - split; [done|]. by intros (h & [=] & _).
Qed.

End Outbound.

(** ** Handing the lines on *)

Module Broadcast.
Import Cleaning Telnet Client Inbound Text DdialRoster.Lines.

Inductive action :=
  | MailInbound (station to_id : Z) (handle text : bytes)
  | DeliverPrivate (target from channel : Z) (handle message : bytes)
  | DeliverPublic (channel : Z) (line body : bytes)
  | HistoryDelete (message : bytes)
  | RecordSystem (line : bytes)
  | RouteAi (handle message : bytes).

(** The newest entry a user wrote with this text is taken out. *)
Fixpoint remove_matching (f : history_line -> bool) (h : list history_line) : list history_line :=
  match h with
  | [] => []
  | e :: t => if f e then t else e :: remove_matching f t
  end.

Definition host_history_delete_matching_message (message : bytes) (history : list history_line) :
    list history_line :=
  rev (remove_matching (fun e => hl_is_user_message e && bytes_eqb (hl_message e) message) (rev history)).

Definition host_ddial_relay_upstream_line (u : local_users) (line : bytes) : list action :=
  match ddial_parse_incoming_chat line DDIAL_MAX_HANDLE_LEN with
  | None => []
  | Some m =>
      let i := ic_identity m in
      if host_ddial_handle_is_local u (id_handle i) true then []
      else [DeliverPublic (if (DDIAL_MIN_CHANNEL <=? id_channel i) && (id_channel i <=? DDIAL_MAX_CHANNEL)
                           then id_channel i else DDIAL_DEFAULT_CHANNEL) line (ic_message m)]
  end.

(** Is the line one of ours, and was it said by the echo of one? *)
Definition is_our_line (c : ddial_client) (handle : bytes) : bool :=
  negb (bytes_eqb (cf_handle (cl_config c)) []) && strcase_eq handle (cf_handle (cl_config c)).

Definition sent_prefix (user_color : option bytes) : bytes :=
  let (start, fin) :=
    match user_color with
    | Some color => if bytes_eqb color [] then ([27; 91; 51; 50; 109], [27; 91; 48; 109])
                    else (color, [27; 91; 48; 109])
    | None => ([27; 91; 51; 50; 109], [27; 91; 48; 109])
    end in
  start ++ lit "[SENT]" ++ fin ++ lit " ".

Definition DISPLAY_LINE_SIZE : nat := 4096 + 128.

(** What is done with a line once it is known whether it is chat. *)
Definition room_line (u : local_users) (user_color : option bytes) (ours : bool) (line : bytes)
    (chat : option incoming_chat) : list action :=
  let handle := match chat with Some m => id_handle (ic_identity m) | None => [] end in
  (if ours then [] else host_ddial_relay_upstream_line u line) ++
  (if ours then
     match chat with Some m => [HistoryDelete (ic_message m)] | None => [] end ++
     [RecordSystem (snprintf_text DISPLAY_LINE_SIZE (sent_prefix user_color ++ line))]
   else [RecordSystem (snprintf_text DISPLAY_LINE_SIZE line)]) ++
  match chat with
  | Some m => if negb ours && negb (host_ddial_handle_is_local u handle true)
              then [RouteAi handle (ic_message m)] else []
  | None => []
  end.

Definition ddial_client_broadcast_line (now : Z) (u : local_users) (user_color : option bytes)
    (c : ddial_client) (line : bytes) : ddial_client * list action :=
  if bytes_eqb line [] then (c, []) else
  match ddial_parse_incoming_email line DDIAL_MAX_HANDLE_LEN with
  | Some m => (c, [MailInbound (ie_from_station m) (ie_to_id m) (ie_handle m) (ie_message m)])
  | None =>
  match ddial_parse_incoming_private line DDIAL_MAX_HANDLE_LEN with
  | Some m =>
      let (echo, ring) := ddial_client_is_recent_echo now (ip_message m) (cl_echo c) in
      let from := ip_from m in
      (with_echo ring c,
       if negb echo && negb (host_ddial_handle_is_local u (id_handle from) true)
       then [DeliverPrivate (ip_target_slot m) (id_slot from) (id_channel from) (id_handle from) (ip_message m)]
       else [])
  | None =>
  match ddial_parse_incoming_chat line DDIAL_MAX_HANDLE_LEN with
  | None => (c, room_line u user_color false line None)
  | Some m =>
      let handle := id_handle (ic_identity m) in
      let ours := is_our_line c handle in
      let (echo, ring) :=
        if cf_user_mode (cl_config c) then ddial_client_is_recent_echo now (ic_message m) (cl_echo c)
        else (false, cl_echo c) in
      let c := with_echo ring c in
      if cf_user_mode (cl_config c) && (ours || echo) then (c, [])
      else if negb ours && host_ddial_handle_is_local u handle false then (c, [])
      else (c, room_line u user_color ours line (Some m))
  end end end.

(** An action that everybody in the room, or an AI member, can see. *)
Definition in_the_open (a : action) : bool :=
  match a with
  | DeliverPublic _ _ _ | RecordSystem _ | RouteAi _ _ => true
  | MailInbound _ _ _ _ | DeliverPrivate _ _ _ _ _ | HistoryDelete _ => false
  end.

Lemma private_is_no_mail line cap m : ddial_parse_incoming_private line cap = Some m ->
  ddial_parse_incoming_email line cap = None.
Proof.
  unfold ddial_parse_incoming_private, ddial_parse_incoming_email.
  destruct (peek line =? c_slash); [|done]. cbn [negb orb].
  destruct (negb (nthb line 1 =? c_P) && negb (nthb line 1 =? c_p)) eqn:E; [done|].
  assert (negb (nthb line 1 =? c_E) && negb (nthb line 1 =? c_e) = true) as ->; [|done].
  bprop. lia.
Qed.

Lemma sanitize_length s cap : (length (ddial_client_sanitize_line s cap) <= cap - 1)%nat.
Proof.
  unfold ddial_client_sanitize_line. generalize (length s) (cap - 1)%nat. intros fuel. revert s.
  induction fuel as [|f IH]; intros s room; [simpl; lia|]. destruct room as [|room]; [simpl; lia|].
  destruct s as [|c t]; cbn [sanitize_line_go]; [simpl; lia|].
  repeat case_match; try apply IH; simpl; try lia. specialize (IH t room). lia.
Qed.

(** C28: a private message or e-mail of the link is never shown in the open: when
    the cleaned line, without the spaces in front, is one, then whatever
    the line does to the client, what is handed on is the private message or the
    mail, or nothing (our own echo, or a local sender), and it reaches
    neither the room, its history, the dial-ins' public chat nor an AI member. *)
Theorem private_stays_private own now wall r line r' out u color c :
  let raw := skip_while (Z.eqb c_space) (ddial_client_sanitize_line line SSH_CHATTER_MESSAGE_LIMIT) in
  is_some (ddial_parse_incoming_private raw DDIAL_MAX_HANDLE_LEN) = true \/
  is_some (ddial_parse_incoming_email raw DDIAL_MAX_HANDLE_LEN) = true ->
  handle_line own now wall r line = Extracted r' out ->
  out = raw /\ existsb in_the_open (snd (ddial_client_broadcast_line now u color c out)) = false.
Proof.
  intros raw Hp. unfold handle_line. destruct (bytes_eqb line []); [done|].
  destruct (bytes_eqb _ []); [done|]. destruct (_ || _); [done|]. fold raw.
  assert (is_some (ddial_parse_incoming_private raw DDIAL_MAX_HANDLE_LEN) ||
          is_some (ddial_parse_incoming_email raw DDIAL_MAX_HANDLE_LEN) = true) as -> by (by apply orb_true_iff).
  intros <-%extracted_line.
  assert (snprintf_text SSH_CHATTER_MESSAGE_LIMIT raw = raw) as ->.
  { apply take_ge. subst raw. etrans; [apply skip_while_length|apply sanitize_length]. }
  split; [done|]. unfold ddial_client_broadcast_line. destruct (bytes_eqb raw []); [done|].
  destruct (ddial_parse_incoming_email raw _) as [m|] eqn:Em; [done|].
  destruct (ddial_parse_incoming_private raw _) as [m|] eqn:Epm; [|by destruct Hp].
  destruct (ddial_client_is_recent_echo _ _ _) as [echo ring]. cbn [snd]. by destruct (_ && _).
Qed.

(** Nobody's words come back to the room as somebody else's: a chat line of a
    local dial-in, echoed by the link, is not handed on at all; nor is, in user
    mode, what the account said. *)
Theorem echoes_are_dropped now u color c line m :
  ddial_parse_incoming_chat line DDIAL_MAX_HANDLE_LEN = Some m ->
  ddial_parse_incoming_private line DDIAL_MAX_HANDLE_LEN = None ->
  ddial_parse_incoming_email line DDIAL_MAX_HANDLE_LEN = None ->
  let handle := id_handle (ic_identity m) in
  (is_our_line c handle = false /\ host_ddial_handle_is_local u handle false = true) \/
  (cf_user_mode (cl_config c) = true /\
   (is_our_line c handle = true \/ fst (ddial_client_is_recent_echo now (ic_message m) (cl_echo c)) = true)) ->
  snd (ddial_client_broadcast_line now u color c line) = [].
Proof.
  intros Hm Hpm Hem handle Hcase. unfold ddial_client_broadcast_line.
  destruct (bytes_eqb line []); [done|]. rewrite Hem, Hpm, Hm. fold handle.
  destruct (cf_user_mode (cl_config c)) eqn:Hu; cbn [with_echo cl_config].
  - destruct (ddial_client_is_recent_echo _ _ _) as [echo ring]. cbn [with_echo cl_config]. rewrite Hu.
    cbn [andb fst] in *. destruct Hcase as [[-> ->]|[_ [-> | ->]]]; cbn [negb andb orb];
      rewrite ?orb_true_r; try done. by destruct echo.
  - destruct Hcase as [[-> ->]|[? _]]; [|done]. cbn [negb andb]. rewrite Hu. done.
Qed.

(** ** Echoes *)

Definition ring_ok (e : echo_ring) : Prop := length (er_sent e) = 8%nat /\ (er_head e < 8)%nat.

Lemma remember_ok now text e : ring_ok e -> ring_ok (ddial_client_remember_sent now text e).
Proof.
  intros [Hl Hh]. split; cbn [ddial_client_remember_sent er_sent er_head].
  - by rewrite length_insert.
  - apply Nat.mod_upper_bound. lia.
Qed.

Lemma consume_found now key sent i at_ : key <> [] -> now - at_ <= 90 ->
  sent !! i = Some (key, at_) -> is_Some (consume_echo now key sent).
Proof.
  intros Hk Ht. revert i; induction sent as [|[k a] sent IH]; intros i Hi; [done|]. cbn [consume_echo].
  destruct (_ && _ && _) eqn:E; [by eexists|]. destruct i as [|i]; simpl in Hi.
  - exfalso. injection Hi as -> ->. rewrite bytes_eqb_refl in E. unfold DDIAL_CLIENT_ECHO_WINDOW_SEC in E.
    bprop. destruct E as [[E|E]|E]; try done. lia.
  - destruct (IH _ Hi) as [x ->]. by eexists.
Qed.

(** Lines sent later do not reach the place of a line for eight lines. *)
Lemma later_lines_keep later e i entry : ring_ok e -> er_sent e !! i = Some entry ->
  (forall d, (d < length later)%nat -> i <> ((er_head e + d) mod 8)%nat) ->
  er_sent (fold_left (fun e '(t, text) => ddial_client_remember_sent t text e) later e) !! i = Some entry.
Proof.
  revert e; induction later as [|[t text] later IH]; intros e Hok Hi Hd; [done|]. cbn [fold_left].
  destruct Hok as [Hl Hh]. apply IH; [by apply remember_ok| |].
  - cbn [ddial_client_remember_sent er_sent]. rewrite list_lookup_insert_ne; [done|].
    specialize (Hd 0%nat). cbn [length] in Hd. rewrite Nat.add_0_r in Hd. intros Heq. apply Hd; lia.
  - intros d Hdl. cbn [ddial_client_remember_sent er_head].
    rewrite Nat.Div0.add_mod_idemp_l. specialize (Hd (S d)). cbn [length] in Hd.
    replace (er_head e + 1 + d)%nat with (er_head e + S d)%nat by lia. apply Hd. lia.
Qed.

(** What was sent is known as an echo for ninety seconds, however the far side
    re-spaces it, changes its case or punctuation, as long as no more than
    seven lines were sent after it. *)
Theorem echo_recognized sent_at text later now text' e : ring_ok e ->
  (length later <= 7)%nat -> now - sent_at <= 90 ->
  ddial_client_echo_key text' 256 = ddial_client_echo_key text 256 ->
  ddial_client_echo_key text 256 <> [] ->
  fst (ddial_client_is_recent_echo now text'
    (fold_left (fun e '(t, text) => ddial_client_remember_sent t text e) later
       (ddial_client_remember_sent sent_at text e))) = true.
Proof.
  intros Hok Hlater Hnow Hkey Hne. unfold ddial_client_is_recent_echo. rewrite Hkey.
  assert (bytes_eqb (ddial_client_echo_key text 256) [] = false) as -> by (by apply bytes_eqb_neq).
  set (e1 := ddial_client_remember_sent sent_at text e).
  assert (er_sent e1 !! er_head e = Some (ddial_client_echo_key text 256, sent_at)) as Hi.
  { destruct Hok as [Hl Hh]. cbn [e1 ddial_client_remember_sent er_sent].
    rewrite Nat.mod_small by lia. apply list_lookup_insert_eq. lia. }
  destruct (consume_found now (ddial_client_echo_key text 256)
    (er_sent (fold_left (fun e '(t, text) => ddial_client_remember_sent t text e) later e1))
    (er_head e) sent_at) as [x ->]; [done|done| |done].
  apply later_lines_keep; [by apply remember_ok|done|]. intros d Hd Heq.
  destruct Hok as [_ Hh]. cbn [e1 ddial_client_remember_sent er_head] in Heq.
  rewrite Nat.Div0.add_mod_idemp_l in Heq.
  pose proof (Nat.div_mod_eq (er_head e + 1 + d) 8). pose proof (Nat.mod_upper_bound (er_head e + 1 + d) 8).
  assert ((er_head e + 1 + d) / 8 = 0 \/ (er_head e + 1 + d) / 8 = 1)%nat by nia. lia.
Qed.

End Broadcast.

Module ClientSamples.
Import Cleaning Telnet Client Inbound Text Relay Outbound Broadcast Extraction Buckets DdialRoster.Lines.

(** A station link that is up and logged in, and a user account. *)
Definition config (user_mode : bool) : client_config :=
  {| cf_enabled := true; cf_host := lit "dial.example"; cf_port := 23; cf_handle := lit "relay";
     cf_key := lit "secret"; cf_user_mode := user_mode; cf_relogin_cooldown_sec := 120 |}.

Definition fresh (user_mode : bool) : ddial_client :=
  {| cl_config := config user_mode;
     cl_conn := {| cc_fd := 7; cc_connected := true; cc_auth_state := DDIAL_AUTH_APPROVED;
                   cc_auth_result := 1; cc_reconnect_attempts := 0; cc_last_disconnect := 0;
                   cc_locked_out := false; cc_account := None |};
     cl_telnet := rest_telnet; cl_slot := 0; cl_slot_known := false;
     cl_echo := {| er_sent := replicate 8 ([], 0); er_head := 0 |} |}.

Definition link : relay := {| rl_client := fresh false; rl_roster := empty_roster |}.

(** "hi" with WILL ECHO in its middle, and an IAC byte of data. *)
Definition sample_tokens : list token := [Data 104; Option 251 1; Data 105; Data 255; Subnegotiation 24 [1]].

Lemma telnet_stream_witness :
  let t' := fold_left (fun t c => fst (ddial_client_process_telnet t c))
              [[104; 255]; [251]; [1; 105; 255; 255; 255; 250]; [24; 1; 255]; [240]] rest_telnet in
  at_rest t' /\ tn_recv t' = [104; 105; 255].
Proof.
  destruct (telnet_stream sample_tokens
    [[104; 255]; [251]; [1; 105; 255; 255; 255; 250]; [24; 1; 255]; [240]] rest_telnet) as (H1 & H2 & _).
  - repeat constructor; vm_compute; discriminate.
  - reflexivity.
  - reflexivity.
  - vm_compute. discriminate.
  - exact (conj H1 H2).
Defined.

Lemma negotiation_never_ends_witness :
  exchanges 1000 rest_telnet rest_telnet [255; 251; 31] = [255; 254; 31].
Proof.
  apply (negotiation_never_ends 999 rest_telnet rest_telnet 251 31); try discriminate;
    try reflexivity; [split; [discriminate|reflexivity]|by left].
Defined.



Definition sample_login (handle : bytes) : bytes :=
  (ddial_format_link_event 300 5 1 DDIAL_TIER_PASSWORD handle 123 false false true).2.

Lemma name_hangs_up_witness :
  let (r', lines) := read_chunks None 0 0 link [sample_login (lit "Abyeguy")] in
  cc_connected (cl_conn (rl_client r')) = false /\ lines = [].
Proof.
  pose proof (name_hangs_up None 0 0 link [sample_login (lit "Abyeguy")] 300 5 1 DDIAL_TIER_PASSWORD
    (lit "Abyeguy") 123 false true (sample_login (lit "Abyeguy"))) as H.
  destruct (read_chunks _ _ _ _ _) as [r' lines]. destruct H as (H1 & _ & H2 & _).
  1, 2: vm_compute; split; discriminate || reflexivity.
  1: discriminate.
  1, 2, 3, 4, 5: vm_compute; repeat constructor.
  1: vm_compute; repeat constructor; discriminate.
  1: reflexivity.
  split; [exact H1|exact H2].
Defined.

Lemma one_line_sent_witness :
  exists text, lit "#1[T1:bob) hi" ++ crlf = text ++ crlf /\ one_line text.
Proof.
  destruct (one_line_sent 0 (fresh false) 0 (Some (lit "bob")) 1 (lit "hi" ++ c_lf :: lit "/Q")
    (lit "#1[T1:bob) hi" ++ crlf)) as (text & H1 & H2 & _).
  - vm_compute. repeat constructor; vm_compute; discriminate.
  - vm_compute; split; discriminate.
  - vm_compute; split; discriminate.
  - vm_compute; reflexivity.
  - exists text. exact (conj H1 H2).
Defined.

Lemma command_by_name_witness :
  is_command (lit "/Q: hi" ++ crlf) <-> exists h, Some (lit "/Q") = Some h /\ h <> [] /\
    strcase_eq h (lit "relay") = false /\ peek (clean_handle h) = c_slash.
Proof.
  apply (command_by_name 0 (fresh true) 0 (Some (lit "/Q")) 1 (lit "hi")).
  - reflexivity.
  - vm_compute; reflexivity.
Defined.

Lemma private_stays_private_witness :
  existsb in_the_open (snd (ddial_client_broadcast_line 0 RosterSamples.nobody None (fresh false)
    (lit "/P12 #5[T1:Freddy) psst"))) = false.
Proof.
  destruct (handle_line None 0 0 link (lit "  /P12 #5[T1:Freddy) psst")) as [|r1|r1 out] eqn:E;
    [vm_compute in E; discriminate E..|].
  destruct (private_stays_private None 0 0 link (lit "  /P12 #5[T1:Freddy) psst") r1 out
    RosterSamples.nobody None (fresh false)) as [Hout H].
  - left. vm_compute. reflexivity.
  - exact E.
  - rewrite <- H, Hout. vm_compute. reflexivity.
Defined.

Lemma echo_recognized_witness :
  fst (ddial_client_is_recent_echo 50 (lit "Hello, world")
    (ddial_client_remember_sent 0 (lit "hello world!") (cl_echo (fresh true)))) = true.
Proof.
  apply (echo_recognized 0 (lit "hello world!") [] 50 (lit "Hello, world") (cl_echo (fresh true))).
  - vm_compute; split; [reflexivity|lia].
  - simpl; lia.
  - lia.
  - vm_compute; reflexivity.
  - vm_compute; discriminate.
Defined.

Lemma extraction_complete_witness :
  let '(r', lines, hung_up) := ddial_client_extract_lines None 0 0 64 false link in
  (length lines <= 64)%nat /\
  (hung_up = false -> (length lines < 64)%nat -> find_eol (recv_of r') = None).
Proof. apply (extraction_complete None 0 0 64 link). lia. Defined.

Lemma echoes_are_dropped_witness :
  snd (ddial_client_broadcast_line 0
    {| lu_sessions := [{| dl_valid := true; dl_logged_in := true; dl_handle := lit "freddy" |}];
       lu_chat_links := [] |} None (fresh false) (lit "#5[T2:Freddy) hello")) = [].
Proof.
  eapply echoes_are_dropped.
  - vm_compute; reflexivity.
  - vm_compute; reflexivity.
  - vm_compute; reflexivity.
  - left. vm_compute. split; reflexivity.
Defined.

End ClientSamples.
