(* ===== verification/DdialMembers.v ===== *)
(** The members of the DDial listener: their records, mailboxes and notes, the
    two text files they are kept in, signing up and logging in
    ([src/host/ddial/members.c]). *)

From Stdlib Require Import ZArith Lia String Ascii.
From stdpp Require Import prelude.
From S2P Require Import Prelude.

Module Members.

Definition DDIAL_MEMBER_MAX : nat := 1024.
Definition DDIAL_MAIL_MAX : nat := 1024.
Definition DDIAL_MEMBER_MIN_PASSWORD : nat := 4.
Definition DDIAL_MAX_HANDLE_LEN : nat := 32.
Definition DDIAL_MV_SAVED_HANDLES : nat := 9.
Definition DDIAL_MV_TEXT_LIMIT : nat := 512.
Definition DDIAL_MV_BEEP_PM : Z := 1.
Definition DDIAL_MV_BEEP_MENTION : Z := 2.
Definition DDIAL_MV_BEEP_BUZZ : Z := 16.

Arguments DDIAL_MEMBER_MAX : simpl never.
Arguments DDIAL_MAIL_MAX : simpl never.
Arguments DDIAL_MV_TEXT_LIMIT : simpl never.

(** ** Records *)

Record ddial_member := {
  m_number : Z;
  m_handle : bytes;
  m_salt : bytes;
  m_hash : bytes;
  m_cosysop : bool;
  m_handle_color : bytes;
  m_msg_color : bytes;
  m_prefix : bytes;
  m_postfix : bytes;
  m_status : bytes;
  m_profile : bytes;
  m_bday : bytes;
  m_bday_countdown : bool;
  m_box : bytes;
  m_box_rotate : bool;
  m_saved_handles : list bytes;
  m_font : bytes;
  m_beep_on : bool;
  m_beep_volume : Z;
  m_beep_events : Z;
  m_baud : Z;
  m_badges_on : bool;
  m_replies_on : bool;
  m_auto_slash : bool;
  m_voice_on : bool;
  m_notify_on : bool;
  m_logins : Z;
  m_messages : Z;
  m_created : Z;
  m_last_seen : Z
}.

Definition set_number (m : ddial_member) (v : Z) : ddial_member :=
  {| m_number := v; m_handle := m_handle m; m_salt := m_salt m; m_hash := m_hash m; m_cosysop := m_cosysop
     m; m_handle_color := m_handle_color m; m_msg_color := m_msg_color m; m_prefix := m_prefix m; m_postfix
     := m_postfix m; m_status := m_status m; m_profile := m_profile m; m_bday := m_bday m; m_bday_countdown
     := m_bday_countdown m; m_box := m_box m; m_box_rotate := m_box_rotate m; m_saved_handles :=
     m_saved_handles m; m_font := m_font m; m_beep_on := m_beep_on m; m_beep_volume := m_beep_volume m;
     m_beep_events := m_beep_events m; m_baud := m_baud m; m_badges_on := m_badges_on m; m_replies_on :=
     m_replies_on m; m_auto_slash := m_auto_slash m; m_voice_on := m_voice_on m; m_notify_on := m_notify_on
     m; m_logins := m_logins m; m_messages := m_messages m; m_created := m_created m; m_last_seen :=
     m_last_seen m |}.

Definition set_handle (m : ddial_member) (v : bytes) : ddial_member :=
  {| m_number := m_number m; m_handle := v; m_salt := m_salt m; m_hash := m_hash m; m_cosysop := m_cosysop
     m; m_handle_color := m_handle_color m; m_msg_color := m_msg_color m; m_prefix := m_prefix m; m_postfix
     := m_postfix m; m_status := m_status m; m_profile := m_profile m; m_bday := m_bday m; m_bday_countdown
     := m_bday_countdown m; m_box := m_box m; m_box_rotate := m_box_rotate m; m_saved_handles :=
     m_saved_handles m; m_font := m_font m; m_beep_on := m_beep_on m; m_beep_volume := m_beep_volume m;
     m_beep_events := m_beep_events m; m_baud := m_baud m; m_badges_on := m_badges_on m; m_replies_on :=
     m_replies_on m; m_auto_slash := m_auto_slash m; m_voice_on := m_voice_on m; m_notify_on := m_notify_on
     m; m_logins := m_logins m; m_messages := m_messages m; m_created := m_created m; m_last_seen :=
     m_last_seen m |}.

Definition set_salt (m : ddial_member) (v : bytes) : ddial_member :=
  {| m_number := m_number m; m_handle := m_handle m; m_salt := v; m_hash := m_hash m; m_cosysop := m_cosysop
     m; m_handle_color := m_handle_color m; m_msg_color := m_msg_color m; m_prefix := m_prefix m; m_postfix
     := m_postfix m; m_status := m_status m; m_profile := m_profile m; m_bday := m_bday m; m_bday_countdown
     := m_bday_countdown m; m_box := m_box m; m_box_rotate := m_box_rotate m; m_saved_handles :=
     m_saved_handles m; m_font := m_font m; m_beep_on := m_beep_on m; m_beep_volume := m_beep_volume m;
     m_beep_events := m_beep_events m; m_baud := m_baud m; m_badges_on := m_badges_on m; m_replies_on :=
     m_replies_on m; m_auto_slash := m_auto_slash m; m_voice_on := m_voice_on m; m_notify_on := m_notify_on
     m; m_logins := m_logins m; m_messages := m_messages m; m_created := m_created m; m_last_seen :=
     m_last_seen m |}.

Definition set_hash (m : ddial_member) (v : bytes) : ddial_member :=
  {| m_number := m_number m; m_handle := m_handle m; m_salt := m_salt m; m_hash := v; m_cosysop := m_cosysop
     m; m_handle_color := m_handle_color m; m_msg_color := m_msg_color m; m_prefix := m_prefix m; m_postfix
     := m_postfix m; m_status := m_status m; m_profile := m_profile m; m_bday := m_bday m; m_bday_countdown
     := m_bday_countdown m; m_box := m_box m; m_box_rotate := m_box_rotate m; m_saved_handles :=
     m_saved_handles m; m_font := m_font m; m_beep_on := m_beep_on m; m_beep_volume := m_beep_volume m;
     m_beep_events := m_beep_events m; m_baud := m_baud m; m_badges_on := m_badges_on m; m_replies_on :=
     m_replies_on m; m_auto_slash := m_auto_slash m; m_voice_on := m_voice_on m; m_notify_on := m_notify_on
     m; m_logins := m_logins m; m_messages := m_messages m; m_created := m_created m; m_last_seen :=
     m_last_seen m |}.

Definition set_cosysop (m : ddial_member) (v : bool) : ddial_member :=
  {| m_number := m_number m; m_handle := m_handle m; m_salt := m_salt m; m_hash := m_hash m; m_cosysop := v;
     m_handle_color := m_handle_color m; m_msg_color := m_msg_color m; m_prefix := m_prefix m; m_postfix :=
     m_postfix m; m_status := m_status m; m_profile := m_profile m; m_bday := m_bday m; m_bday_countdown :=
     m_bday_countdown m; m_box := m_box m; m_box_rotate := m_box_rotate m; m_saved_handles :=
     m_saved_handles m; m_font := m_font m; m_beep_on := m_beep_on m; m_beep_volume := m_beep_volume m;
     m_beep_events := m_beep_events m; m_baud := m_baud m; m_badges_on := m_badges_on m; m_replies_on :=
     m_replies_on m; m_auto_slash := m_auto_slash m; m_voice_on := m_voice_on m; m_notify_on := m_notify_on
     m; m_logins := m_logins m; m_messages := m_messages m; m_created := m_created m; m_last_seen :=
     m_last_seen m |}.

Definition set_handle_color (m : ddial_member) (v : bytes) : ddial_member :=
  {| m_number := m_number m; m_handle := m_handle m; m_salt := m_salt m; m_hash := m_hash m; m_cosysop :=
     m_cosysop m; m_handle_color := v; m_msg_color := m_msg_color m; m_prefix := m_prefix m; m_postfix :=
     m_postfix m; m_status := m_status m; m_profile := m_profile m; m_bday := m_bday m; m_bday_countdown :=
     m_bday_countdown m; m_box := m_box m; m_box_rotate := m_box_rotate m; m_saved_handles :=
     m_saved_handles m; m_font := m_font m; m_beep_on := m_beep_on m; m_beep_volume := m_beep_volume m;
     m_beep_events := m_beep_events m; m_baud := m_baud m; m_badges_on := m_badges_on m; m_replies_on :=
     m_replies_on m; m_auto_slash := m_auto_slash m; m_voice_on := m_voice_on m; m_notify_on := m_notify_on
     m; m_logins := m_logins m; m_messages := m_messages m; m_created := m_created m; m_last_seen :=
     m_last_seen m |}.

Definition set_msg_color (m : ddial_member) (v : bytes) : ddial_member :=
  {| m_number := m_number m; m_handle := m_handle m; m_salt := m_salt m; m_hash := m_hash m; m_cosysop :=
     m_cosysop m; m_handle_color := m_handle_color m; m_msg_color := v; m_prefix := m_prefix m; m_postfix :=
     m_postfix m; m_status := m_status m; m_profile := m_profile m; m_bday := m_bday m; m_bday_countdown :=
     m_bday_countdown m; m_box := m_box m; m_box_rotate := m_box_rotate m; m_saved_handles :=
     m_saved_handles m; m_font := m_font m; m_beep_on := m_beep_on m; m_beep_volume := m_beep_volume m;
     m_beep_events := m_beep_events m; m_baud := m_baud m; m_badges_on := m_badges_on m; m_replies_on :=
     m_replies_on m; m_auto_slash := m_auto_slash m; m_voice_on := m_voice_on m; m_notify_on := m_notify_on
     m; m_logins := m_logins m; m_messages := m_messages m; m_created := m_created m; m_last_seen :=
     m_last_seen m |}.

Definition set_prefix (m : ddial_member) (v : bytes) : ddial_member :=
  {| m_number := m_number m; m_handle := m_handle m; m_salt := m_salt m; m_hash := m_hash m; m_cosysop :=
     m_cosysop m; m_handle_color := m_handle_color m; m_msg_color := m_msg_color m; m_prefix := v; m_postfix
     := m_postfix m; m_status := m_status m; m_profile := m_profile m; m_bday := m_bday m; m_bday_countdown
     := m_bday_countdown m; m_box := m_box m; m_box_rotate := m_box_rotate m; m_saved_handles :=
     m_saved_handles m; m_font := m_font m; m_beep_on := m_beep_on m; m_beep_volume := m_beep_volume m;
     m_beep_events := m_beep_events m; m_baud := m_baud m; m_badges_on := m_badges_on m; m_replies_on :=
     m_replies_on m; m_auto_slash := m_auto_slash m; m_voice_on := m_voice_on m; m_notify_on := m_notify_on
     m; m_logins := m_logins m; m_messages := m_messages m; m_created := m_created m; m_last_seen :=
     m_last_seen m |}.

Definition set_postfix (m : ddial_member) (v : bytes) : ddial_member :=
  {| m_number := m_number m; m_handle := m_handle m; m_salt := m_salt m; m_hash := m_hash m; m_cosysop :=
     m_cosysop m; m_handle_color := m_handle_color m; m_msg_color := m_msg_color m; m_prefix := m_prefix m;
     m_postfix := v; m_status := m_status m; m_profile := m_profile m; m_bday := m_bday m; m_bday_countdown
     := m_bday_countdown m; m_box := m_box m; m_box_rotate := m_box_rotate m; m_saved_handles :=
     m_saved_handles m; m_font := m_font m; m_beep_on := m_beep_on m; m_beep_volume := m_beep_volume m;
     m_beep_events := m_beep_events m; m_baud := m_baud m; m_badges_on := m_badges_on m; m_replies_on :=
     m_replies_on m; m_auto_slash := m_auto_slash m; m_voice_on := m_voice_on m; m_notify_on := m_notify_on
     m; m_logins := m_logins m; m_messages := m_messages m; m_created := m_created m; m_last_seen :=
     m_last_seen m |}.

Definition set_status (m : ddial_member) (v : bytes) : ddial_member :=
  {| m_number := m_number m; m_handle := m_handle m; m_salt := m_salt m; m_hash := m_hash m; m_cosysop :=
     m_cosysop m; m_handle_color := m_handle_color m; m_msg_color := m_msg_color m; m_prefix := m_prefix m;
     m_postfix := m_postfix m; m_status := v; m_profile := m_profile m; m_bday := m_bday m; m_bday_countdown
     := m_bday_countdown m; m_box := m_box m; m_box_rotate := m_box_rotate m; m_saved_handles :=
     m_saved_handles m; m_font := m_font m; m_beep_on := m_beep_on m; m_beep_volume := m_beep_volume m;
     m_beep_events := m_beep_events m; m_baud := m_baud m; m_badges_on := m_badges_on m; m_replies_on :=
     m_replies_on m; m_auto_slash := m_auto_slash m; m_voice_on := m_voice_on m; m_notify_on := m_notify_on
     m; m_logins := m_logins m; m_messages := m_messages m; m_created := m_created m; m_last_seen :=
     m_last_seen m |}.

Definition set_profile (m : ddial_member) (v : bytes) : ddial_member :=
  {| m_number := m_number m; m_handle := m_handle m; m_salt := m_salt m; m_hash := m_hash m; m_cosysop :=
     m_cosysop m; m_handle_color := m_handle_color m; m_msg_color := m_msg_color m; m_prefix := m_prefix m;
     m_postfix := m_postfix m; m_status := m_status m; m_profile := v; m_bday := m_bday m; m_bday_countdown
     := m_bday_countdown m; m_box := m_box m; m_box_rotate := m_box_rotate m; m_saved_handles :=
     m_saved_handles m; m_font := m_font m; m_beep_on := m_beep_on m; m_beep_volume := m_beep_volume m;
     m_beep_events := m_beep_events m; m_baud := m_baud m; m_badges_on := m_badges_on m; m_replies_on :=
     m_replies_on m; m_auto_slash := m_auto_slash m; m_voice_on := m_voice_on m; m_notify_on := m_notify_on
     m; m_logins := m_logins m; m_messages := m_messages m; m_created := m_created m; m_last_seen :=
     m_last_seen m |}.

Definition set_bday (m : ddial_member) (v : bytes) : ddial_member :=
  {| m_number := m_number m; m_handle := m_handle m; m_salt := m_salt m; m_hash := m_hash m; m_cosysop :=
     m_cosysop m; m_handle_color := m_handle_color m; m_msg_color := m_msg_color m; m_prefix := m_prefix m;
     m_postfix := m_postfix m; m_status := m_status m; m_profile := m_profile m; m_bday := v;
     m_bday_countdown := m_bday_countdown m; m_box := m_box m; m_box_rotate := m_box_rotate m;
     m_saved_handles := m_saved_handles m; m_font := m_font m; m_beep_on := m_beep_on m; m_beep_volume :=
     m_beep_volume m; m_beep_events := m_beep_events m; m_baud := m_baud m; m_badges_on := m_badges_on m;
     m_replies_on := m_replies_on m; m_auto_slash := m_auto_slash m; m_voice_on := m_voice_on m; m_notify_on
     := m_notify_on m; m_logins := m_logins m; m_messages := m_messages m; m_created := m_created m;
     m_last_seen := m_last_seen m |}.

Definition set_bday_countdown (m : ddial_member) (v : bool) : ddial_member :=
  {| m_number := m_number m; m_handle := m_handle m; m_salt := m_salt m; m_hash := m_hash m; m_cosysop :=
     m_cosysop m; m_handle_color := m_handle_color m; m_msg_color := m_msg_color m; m_prefix := m_prefix m;
     m_postfix := m_postfix m; m_status := m_status m; m_profile := m_profile m; m_bday := m_bday m;
     m_bday_countdown := v; m_box := m_box m; m_box_rotate := m_box_rotate m; m_saved_handles :=
     m_saved_handles m; m_font := m_font m; m_beep_on := m_beep_on m; m_beep_volume := m_beep_volume m;
     m_beep_events := m_beep_events m; m_baud := m_baud m; m_badges_on := m_badges_on m; m_replies_on :=
     m_replies_on m; m_auto_slash := m_auto_slash m; m_voice_on := m_voice_on m; m_notify_on := m_notify_on
     m; m_logins := m_logins m; m_messages := m_messages m; m_created := m_created m; m_last_seen :=
     m_last_seen m |}.

Definition set_box (m : ddial_member) (v : bytes) : ddial_member :=
  {| m_number := m_number m; m_handle := m_handle m; m_salt := m_salt m; m_hash := m_hash m; m_cosysop :=
     m_cosysop m; m_handle_color := m_handle_color m; m_msg_color := m_msg_color m; m_prefix := m_prefix m;
     m_postfix := m_postfix m; m_status := m_status m; m_profile := m_profile m; m_bday := m_bday m;
     m_bday_countdown := m_bday_countdown m; m_box := v; m_box_rotate := m_box_rotate m; m_saved_handles :=
     m_saved_handles m; m_font := m_font m; m_beep_on := m_beep_on m; m_beep_volume := m_beep_volume m;
     m_beep_events := m_beep_events m; m_baud := m_baud m; m_badges_on := m_badges_on m; m_replies_on :=
     m_replies_on m; m_auto_slash := m_auto_slash m; m_voice_on := m_voice_on m; m_notify_on := m_notify_on
     m; m_logins := m_logins m; m_messages := m_messages m; m_created := m_created m; m_last_seen :=
     m_last_seen m |}.

Definition set_box_rotate (m : ddial_member) (v : bool) : ddial_member :=
  {| m_number := m_number m; m_handle := m_handle m; m_salt := m_salt m; m_hash := m_hash m; m_cosysop :=
     m_cosysop m; m_handle_color := m_handle_color m; m_msg_color := m_msg_color m; m_prefix := m_prefix m;
     m_postfix := m_postfix m; m_status := m_status m; m_profile := m_profile m; m_bday := m_bday m;
     m_bday_countdown := m_bday_countdown m; m_box := m_box m; m_box_rotate := v; m_saved_handles :=
     m_saved_handles m; m_font := m_font m; m_beep_on := m_beep_on m; m_beep_volume := m_beep_volume m;
     m_beep_events := m_beep_events m; m_baud := m_baud m; m_badges_on := m_badges_on m; m_replies_on :=
     m_replies_on m; m_auto_slash := m_auto_slash m; m_voice_on := m_voice_on m; m_notify_on := m_notify_on
     m; m_logins := m_logins m; m_messages := m_messages m; m_created := m_created m; m_last_seen :=
     m_last_seen m |}.

Definition set_saved_handles (m : ddial_member) (v : list bytes) : ddial_member :=
  {| m_number := m_number m; m_handle := m_handle m; m_salt := m_salt m; m_hash := m_hash m; m_cosysop :=
     m_cosysop m; m_handle_color := m_handle_color m; m_msg_color := m_msg_color m; m_prefix := m_prefix m;
     m_postfix := m_postfix m; m_status := m_status m; m_profile := m_profile m; m_bday := m_bday m;
     m_bday_countdown := m_bday_countdown m; m_box := m_box m; m_box_rotate := m_box_rotate m;
     m_saved_handles := v; m_font := m_font m; m_beep_on := m_beep_on m; m_beep_volume := m_beep_volume m;
     m_beep_events := m_beep_events m; m_baud := m_baud m; m_badges_on := m_badges_on m; m_replies_on :=
     m_replies_on m; m_auto_slash := m_auto_slash m; m_voice_on := m_voice_on m; m_notify_on := m_notify_on
     m; m_logins := m_logins m; m_messages := m_messages m; m_created := m_created m; m_last_seen :=
     m_last_seen m |}.

Definition set_font (m : ddial_member) (v : bytes) : ddial_member :=
  {| m_number := m_number m; m_handle := m_handle m; m_salt := m_salt m; m_hash := m_hash m; m_cosysop :=
     m_cosysop m; m_handle_color := m_handle_color m; m_msg_color := m_msg_color m; m_prefix := m_prefix m;
     m_postfix := m_postfix m; m_status := m_status m; m_profile := m_profile m; m_bday := m_bday m;
     m_bday_countdown := m_bday_countdown m; m_box := m_box m; m_box_rotate := m_box_rotate m;
     m_saved_handles := m_saved_handles m; m_font := v; m_beep_on := m_beep_on m; m_beep_volume :=
     m_beep_volume m; m_beep_events := m_beep_events m; m_baud := m_baud m; m_badges_on := m_badges_on m;
     m_replies_on := m_replies_on m; m_auto_slash := m_auto_slash m; m_voice_on := m_voice_on m; m_notify_on
     := m_notify_on m; m_logins := m_logins m; m_messages := m_messages m; m_created := m_created m;
     m_last_seen := m_last_seen m |}.

Definition set_beep_on (m : ddial_member) (v : bool) : ddial_member :=
  {| m_number := m_number m; m_handle := m_handle m; m_salt := m_salt m; m_hash := m_hash m; m_cosysop :=
     m_cosysop m; m_handle_color := m_handle_color m; m_msg_color := m_msg_color m; m_prefix := m_prefix m;
     m_postfix := m_postfix m; m_status := m_status m; m_profile := m_profile m; m_bday := m_bday m;
     m_bday_countdown := m_bday_countdown m; m_box := m_box m; m_box_rotate := m_box_rotate m;
     m_saved_handles := m_saved_handles m; m_font := m_font m; m_beep_on := v; m_beep_volume :=
     m_beep_volume m; m_beep_events := m_beep_events m; m_baud := m_baud m; m_badges_on := m_badges_on m;
     m_replies_on := m_replies_on m; m_auto_slash := m_auto_slash m; m_voice_on := m_voice_on m; m_notify_on
     := m_notify_on m; m_logins := m_logins m; m_messages := m_messages m; m_created := m_created m;
     m_last_seen := m_last_seen m |}.

Definition set_beep_volume (m : ddial_member) (v : Z) : ddial_member :=
  {| m_number := m_number m; m_handle := m_handle m; m_salt := m_salt m; m_hash := m_hash m; m_cosysop :=
     m_cosysop m; m_handle_color := m_handle_color m; m_msg_color := m_msg_color m; m_prefix := m_prefix m;
     m_postfix := m_postfix m; m_status := m_status m; m_profile := m_profile m; m_bday := m_bday m;
     m_bday_countdown := m_bday_countdown m; m_box := m_box m; m_box_rotate := m_box_rotate m;
     m_saved_handles := m_saved_handles m; m_font := m_font m; m_beep_on := m_beep_on m; m_beep_volume := v;
     m_beep_events := m_beep_events m; m_baud := m_baud m; m_badges_on := m_badges_on m; m_replies_on :=
     m_replies_on m; m_auto_slash := m_auto_slash m; m_voice_on := m_voice_on m; m_notify_on := m_notify_on
     m; m_logins := m_logins m; m_messages := m_messages m; m_created := m_created m; m_last_seen :=
     m_last_seen m |}.

Definition set_beep_events (m : ddial_member) (v : Z) : ddial_member :=
  {| m_number := m_number m; m_handle := m_handle m; m_salt := m_salt m; m_hash := m_hash m; m_cosysop :=
     m_cosysop m; m_handle_color := m_handle_color m; m_msg_color := m_msg_color m; m_prefix := m_prefix m;
     m_postfix := m_postfix m; m_status := m_status m; m_profile := m_profile m; m_bday := m_bday m;
     m_bday_countdown := m_bday_countdown m; m_box := m_box m; m_box_rotate := m_box_rotate m;
     m_saved_handles := m_saved_handles m; m_font := m_font m; m_beep_on := m_beep_on m; m_beep_volume :=
     m_beep_volume m; m_beep_events := v; m_baud := m_baud m; m_badges_on := m_badges_on m; m_replies_on :=
     m_replies_on m; m_auto_slash := m_auto_slash m; m_voice_on := m_voice_on m; m_notify_on := m_notify_on
     m; m_logins := m_logins m; m_messages := m_messages m; m_created := m_created m; m_last_seen :=
     m_last_seen m |}.

Definition set_baud (m : ddial_member) (v : Z) : ddial_member :=
  {| m_number := m_number m; m_handle := m_handle m; m_salt := m_salt m; m_hash := m_hash m; m_cosysop :=
     m_cosysop m; m_handle_color := m_handle_color m; m_msg_color := m_msg_color m; m_prefix := m_prefix m;
     m_postfix := m_postfix m; m_status := m_status m; m_profile := m_profile m; m_bday := m_bday m;
     m_bday_countdown := m_bday_countdown m; m_box := m_box m; m_box_rotate := m_box_rotate m;
     m_saved_handles := m_saved_handles m; m_font := m_font m; m_beep_on := m_beep_on m; m_beep_volume :=
     m_beep_volume m; m_beep_events := m_beep_events m; m_baud := v; m_badges_on := m_badges_on m;
     m_replies_on := m_replies_on m; m_auto_slash := m_auto_slash m; m_voice_on := m_voice_on m; m_notify_on
     := m_notify_on m; m_logins := m_logins m; m_messages := m_messages m; m_created := m_created m;
     m_last_seen := m_last_seen m |}.

Definition set_badges_on (m : ddial_member) (v : bool) : ddial_member :=
  {| m_number := m_number m; m_handle := m_handle m; m_salt := m_salt m; m_hash := m_hash m; m_cosysop :=
     m_cosysop m; m_handle_color := m_handle_color m; m_msg_color := m_msg_color m; m_prefix := m_prefix m;
     m_postfix := m_postfix m; m_status := m_status m; m_profile := m_profile m; m_bday := m_bday m;
     m_bday_countdown := m_bday_countdown m; m_box := m_box m; m_box_rotate := m_box_rotate m;
     m_saved_handles := m_saved_handles m; m_font := m_font m; m_beep_on := m_beep_on m; m_beep_volume :=
     m_beep_volume m; m_beep_events := m_beep_events m; m_baud := m_baud m; m_badges_on := v; m_replies_on
     := m_replies_on m; m_auto_slash := m_auto_slash m; m_voice_on := m_voice_on m; m_notify_on :=
     m_notify_on m; m_logins := m_logins m; m_messages := m_messages m; m_created := m_created m;
     m_last_seen := m_last_seen m |}.

Definition set_replies_on (m : ddial_member) (v : bool) : ddial_member :=
  {| m_number := m_number m; m_handle := m_handle m; m_salt := m_salt m; m_hash := m_hash m; m_cosysop :=
     m_cosysop m; m_handle_color := m_handle_color m; m_msg_color := m_msg_color m; m_prefix := m_prefix m;
     m_postfix := m_postfix m; m_status := m_status m; m_profile := m_profile m; m_bday := m_bday m;
     m_bday_countdown := m_bday_countdown m; m_box := m_box m; m_box_rotate := m_box_rotate m;
     m_saved_handles := m_saved_handles m; m_font := m_font m; m_beep_on := m_beep_on m; m_beep_volume :=
     m_beep_volume m; m_beep_events := m_beep_events m; m_baud := m_baud m; m_badges_on := m_badges_on m;
     m_replies_on := v; m_auto_slash := m_auto_slash m; m_voice_on := m_voice_on m; m_notify_on :=
     m_notify_on m; m_logins := m_logins m; m_messages := m_messages m; m_created := m_created m;
     m_last_seen := m_last_seen m |}.

Definition set_auto_slash (m : ddial_member) (v : bool) : ddial_member :=
  {| m_number := m_number m; m_handle := m_handle m; m_salt := m_salt m; m_hash := m_hash m; m_cosysop :=
     m_cosysop m; m_handle_color := m_handle_color m; m_msg_color := m_msg_color m; m_prefix := m_prefix m;
     m_postfix := m_postfix m; m_status := m_status m; m_profile := m_profile m; m_bday := m_bday m;
     m_bday_countdown := m_bday_countdown m; m_box := m_box m; m_box_rotate := m_box_rotate m;
     m_saved_handles := m_saved_handles m; m_font := m_font m; m_beep_on := m_beep_on m; m_beep_volume :=
     m_beep_volume m; m_beep_events := m_beep_events m; m_baud := m_baud m; m_badges_on := m_badges_on m;
     m_replies_on := m_replies_on m; m_auto_slash := v; m_voice_on := m_voice_on m; m_notify_on :=
     m_notify_on m; m_logins := m_logins m; m_messages := m_messages m; m_created := m_created m;
     m_last_seen := m_last_seen m |}.

Definition set_voice_on (m : ddial_member) (v : bool) : ddial_member :=
  {| m_number := m_number m; m_handle := m_handle m; m_salt := m_salt m; m_hash := m_hash m; m_cosysop :=
     m_cosysop m; m_handle_color := m_handle_color m; m_msg_color := m_msg_color m; m_prefix := m_prefix m;
     m_postfix := m_postfix m; m_status := m_status m; m_profile := m_profile m; m_bday := m_bday m;
     m_bday_countdown := m_bday_countdown m; m_box := m_box m; m_box_rotate := m_box_rotate m;
     m_saved_handles := m_saved_handles m; m_font := m_font m; m_beep_on := m_beep_on m; m_beep_volume :=
     m_beep_volume m; m_beep_events := m_beep_events m; m_baud := m_baud m; m_badges_on := m_badges_on m;
     m_replies_on := m_replies_on m; m_auto_slash := m_auto_slash m; m_voice_on := v; m_notify_on :=
     m_notify_on m; m_logins := m_logins m; m_messages := m_messages m; m_created := m_created m;
     m_last_seen := m_last_seen m |}.

Definition set_notify_on (m : ddial_member) (v : bool) : ddial_member :=
  {| m_number := m_number m; m_handle := m_handle m; m_salt := m_salt m; m_hash := m_hash m; m_cosysop :=
     m_cosysop m; m_handle_color := m_handle_color m; m_msg_color := m_msg_color m; m_prefix := m_prefix m;
     m_postfix := m_postfix m; m_status := m_status m; m_profile := m_profile m; m_bday := m_bday m;
     m_bday_countdown := m_bday_countdown m; m_box := m_box m; m_box_rotate := m_box_rotate m;
     m_saved_handles := m_saved_handles m; m_font := m_font m; m_beep_on := m_beep_on m; m_beep_volume :=
     m_beep_volume m; m_beep_events := m_beep_events m; m_baud := m_baud m; m_badges_on := m_badges_on m;
     m_replies_on := m_replies_on m; m_auto_slash := m_auto_slash m; m_voice_on := m_voice_on m; m_notify_on
     := v; m_logins := m_logins m; m_messages := m_messages m; m_created := m_created m; m_last_seen :=
     m_last_seen m |}.

Definition set_logins (m : ddial_member) (v : Z) : ddial_member :=
  {| m_number := m_number m; m_handle := m_handle m; m_salt := m_salt m; m_hash := m_hash m; m_cosysop :=
     m_cosysop m; m_handle_color := m_handle_color m; m_msg_color := m_msg_color m; m_prefix := m_prefix m;
     m_postfix := m_postfix m; m_status := m_status m; m_profile := m_profile m; m_bday := m_bday m;
     m_bday_countdown := m_bday_countdown m; m_box := m_box m; m_box_rotate := m_box_rotate m;
     m_saved_handles := m_saved_handles m; m_font := m_font m; m_beep_on := m_beep_on m; m_beep_volume :=
     m_beep_volume m; m_beep_events := m_beep_events m; m_baud := m_baud m; m_badges_on := m_badges_on m;
     m_replies_on := m_replies_on m; m_auto_slash := m_auto_slash m; m_voice_on := m_voice_on m; m_notify_on
     := m_notify_on m; m_logins := v; m_messages := m_messages m; m_created := m_created m; m_last_seen :=
     m_last_seen m |}.

Definition set_messages (m : ddial_member) (v : Z) : ddial_member :=
  {| m_number := m_number m; m_handle := m_handle m; m_salt := m_salt m; m_hash := m_hash m; m_cosysop :=
     m_cosysop m; m_handle_color := m_handle_color m; m_msg_color := m_msg_color m; m_prefix := m_prefix m;
     m_postfix := m_postfix m; m_status := m_status m; m_profile := m_profile m; m_bday := m_bday m;
     m_bday_countdown := m_bday_countdown m; m_box := m_box m; m_box_rotate := m_box_rotate m;
     m_saved_handles := m_saved_handles m; m_font := m_font m; m_beep_on := m_beep_on m; m_beep_volume :=
     m_beep_volume m; m_beep_events := m_beep_events m; m_baud := m_baud m; m_badges_on := m_badges_on m;
     m_replies_on := m_replies_on m; m_auto_slash := m_auto_slash m; m_voice_on := m_voice_on m; m_notify_on
     := m_notify_on m; m_logins := m_logins m; m_messages := v; m_created := m_created m; m_last_seen :=
     m_last_seen m |}.

Definition set_created (m : ddial_member) (v : Z) : ddial_member :=
  {| m_number := m_number m; m_handle := m_handle m; m_salt := m_salt m; m_hash := m_hash m; m_cosysop :=
     m_cosysop m; m_handle_color := m_handle_color m; m_msg_color := m_msg_color m; m_prefix := m_prefix m;
     m_postfix := m_postfix m; m_status := m_status m; m_profile := m_profile m; m_bday := m_bday m;
     m_bday_countdown := m_bday_countdown m; m_box := m_box m; m_box_rotate := m_box_rotate m;
     m_saved_handles := m_saved_handles m; m_font := m_font m; m_beep_on := m_beep_on m; m_beep_volume :=
     m_beep_volume m; m_beep_events := m_beep_events m; m_baud := m_baud m; m_badges_on := m_badges_on m;
     m_replies_on := m_replies_on m; m_auto_slash := m_auto_slash m; m_voice_on := m_voice_on m; m_notify_on
     := m_notify_on m; m_logins := m_logins m; m_messages := m_messages m; m_created := v; m_last_seen :=
     m_last_seen m |}.

Definition set_last_seen (m : ddial_member) (v : Z) : ddial_member :=
  {| m_number := m_number m; m_handle := m_handle m; m_salt := m_salt m; m_hash := m_hash m; m_cosysop :=
     m_cosysop m; m_handle_color := m_handle_color m; m_msg_color := m_msg_color m; m_prefix := m_prefix m;
     m_postfix := m_postfix m; m_status := m_status m; m_profile := m_profile m; m_bday := m_bday m;
     m_bday_countdown := m_bday_countdown m; m_box := m_box m; m_box_rotate := m_box_rotate m;
     m_saved_handles := m_saved_handles m; m_font := m_font m; m_beep_on := m_beep_on m; m_beep_volume :=
     m_beep_volume m; m_beep_events := m_beep_events m; m_baud := m_baud m; m_badges_on := m_badges_on m;
     m_replies_on := m_replies_on m; m_auto_slash := m_auto_slash m; m_voice_on := m_voice_on m; m_notify_on
     := m_notify_on m; m_logins := m_logins m; m_messages := m_messages m; m_created := m_created m;
     m_last_seen := v |}.

(** [memset(&m, 0, sizeof(m))]. *)
Definition no_member : ddial_member :=
  {| m_number := 0; m_handle := []; m_salt := replicate 16 0; m_hash := replicate 32 0;
     m_cosysop := false; m_handle_color := []; m_msg_color := []; m_prefix := []; m_postfix := [];
     m_status := []; m_profile := []; m_bday := []; m_bday_countdown := false; m_box := [];
     m_box_rotate := false; m_saved_handles := replicate DDIAL_MV_SAVED_HANDLES [];
     m_font := []; m_beep_on := false; m_beep_volume := 0; m_beep_events := 0; m_baud := 0;
     m_badges_on := false; m_replies_on := false; m_auto_slash := false; m_voice_on := false;
     m_notify_on := false; m_logins := 0; m_messages := 0; m_created := 0; m_last_seen := 0 |}.

Record ddial_mail := {
  ml_id : Z;
  ml_to : Z;
  ml_from : Z;
  ml_from_handle : bytes;
  ml_sent : Z;
  ml_offline : bool;
  ml_text : bytes
}.

Definition no_mail : ddial_mail :=
  {| ml_id := 0; ml_to := 0; ml_from := 0; ml_from_handle := []; ml_sent := 0;
     ml_offline := false; ml_text := [] |}.

(** ** Fields of a line *)

Definition c_tab : Z := 9.
Definition c_backslash : Z := 92.

Definition escape_char (c : Z) : bytes :=
  if c =? c_backslash then [c_backslash; c_backslash]
  else if c =? c_tab then [c_backslash; 116]
  else if c =? c_lf then [c_backslash; 110]
  else if c =? c_cr then [c_backslash; 114]
  else [c].

Definition escape_text (value : bytes) : bytes := concat (map escape_char value).

Definition ddial_member_escape (key value : bytes) : bytes :=
  key ++ [c_eq] ++ escape_text value ++ [c_tab].

Definition ddial_member_escape_u64 (key : bytes) (value : Z) : bytes :=
  key ++ [c_eq] ++ dec (u64 value) ++ [c_tab].

(** [room] bytes of [dst] are left, the one for the NUL not counted. *)
Fixpoint unescape_go (room : nat) (src : bytes) : bytes :=
  match room, src with
  | O, _ | _, [] => []
  | S room, c :: t =>
      match t with
      | d :: t' =>
          if c =? c_backslash
          then (if d =? 116 then c_tab else if d =? 110 then c_lf else if d =? 114 then c_cr else d)
               :: unescape_go room t'
          else c :: unescape_go room t
      | [] => [c]
      end
  end.

Definition ddial_member_unescape (src : bytes) (cap : nat) : bytes := unescape_go (cap - 1) src.

Definition hex_digit (v : Z) : Z := if v <? 10 then c_0 + v else c_a + (v - 10).

Definition ddial_member_hex (src : bytes) : bytes :=
  concat (map (fun b => [hex_digit (Z.shiftr b 4); hex_digit (Z.land b 15)]) src).

Definition hex_value (c : Z) : option Z :=
  if isdigit c then Some (c - c_0)
  else if (97 <=? tolower c) && (tolower c <=? 102) then Some (tolower c - 97 + 10)
  else None.

(** [sscanf(p, "%2x", &value) == 1]: white space is skipped, then at most two
    characters are read, of which the first may be a sign; the [x] of [0x] is
    read like a character that ends the number. *)
Definition scan_2x (p : bytes) : option Z :=
  let q := skip_while isspace p in
  if (peek q =? c_minus) || (peek q =? c_plus)
  then match hex_value (peek (drop 1 q)) with
       | Some v => Some (if peek q =? c_minus then u32 (- v) else v)
       | None => None
       end
  else match hex_value (peek q) with
       | None => None
       | Some v => match hex_value (peek (drop 1 q)) with
                   | Some w => Some (16 * v + w)
                   | None => Some v
                   end
       end.

Fixpoint ddial_member_unhex (src : bytes) (len : nat) : bytes :=
  match len with
  | O => []
  | S len' =>
      match src with
      | _ :: _ :: rest =>
          match scan_2x src with Some v => u8 v | None => 0 end :: ddial_member_unhex rest len'
      | _ => replicate len 0
      end
  end.

(** The pairs of a line: the tokens between tabs that hold an equals sign. *)
Definition split_pair (tok : bytes) : option (bytes * bytes) :=
  match strchr tok c_eq with
  | None => None
  | Some eq => Some (take (length tok - length eq) tok, drop 1 eq)
  end.

Definition ddial_member_parse_line {A} (line : bytes) (cb : A -> bytes -> bytes -> A) (user : A) : A :=
  fold_left (fun m tok => match split_pair tok with
                          | None => m
                          | Some (key, value) => cb m key value
                          end)
    (strtok_all (fun c => c =? c_tab) line) user.

Definition s32 (z : Z) : Z := (z + 2147483648) mod 4294967296 - 2147483648.
Definition strtoll (buf : bytes) : Z := match strtol buf with Some (v, _) => v | None => 0 end.
Definition atoi (buf : bytes) : Z := s32 (strtoll buf).
Definition nonzero_number (buf : bytes) : bool := negb (atoi buf =? 0).

Definition set_saved_handle (m : ddial_member) (i : nat) (v : bytes) : ddial_member :=
  set_saved_handles m (<[i:=snprintf_text DDIAL_MAX_HANDLE_LEN v]> (m_saved_handles m)).

(** The keys [h1] to [h9]. *)
Definition saved_key (key : bytes) : option nat :=
  match key with
  | [h; d] => if (h =? 104) && (49 <=? d) && (d <=? 57) then Some (Z.to_nat (d - 49)) else None
  | _ => None
  end.

Definition member_set (m : ddial_member) (key buf : bytes) : ddial_member :=
  if bytes_eqb key (lit "no") then set_number m (u32 (fst (strtoul buf)))
  else if bytes_eqb key (lit "handle") then set_handle m (snprintf_text DDIAL_MAX_HANDLE_LEN buf)
  else if bytes_eqb key (lit "salt") then set_salt m (ddial_member_unhex buf 16)
  else if bytes_eqb key (lit "hash") then set_hash m (ddial_member_unhex buf 32)
  else if bytes_eqb key (lit "cosysop") then set_cosysop m (nonzero_number buf)
  else if bytes_eqb key (lit "hcolor") then set_handle_color m (snprintf_text 160 buf)
  else if bytes_eqb key (lit "mcolor") then set_msg_color m (snprintf_text 16 buf)
  else if bytes_eqb key (lit "pre") then set_prefix m (snprintf_text 48 buf)
  else if bytes_eqb key (lit "post") then set_postfix m (snprintf_text 48 buf)
  else if bytes_eqb key (lit "status") then set_status m (snprintf_text 96 buf)
  else if bytes_eqb key (lit "profile") then set_profile m (snprintf_text 512 buf)
  else if bytes_eqb key (lit "bday") then set_bday m (snprintf_text 11 buf)
  else if bytes_eqb key (lit "bdaycd") then set_bday_countdown m (nonzero_number buf)
  else if bytes_eqb key (lit "box") then set_box m (snprintf_text 512 buf)
  else if bytes_eqb key (lit "boxrot") then set_box_rotate m (nonzero_number buf)
  else match saved_key key with
  | Some i => set_saved_handle m i buf
  | None =>
  if bytes_eqb key (lit "font") then set_font m (snprintf_text 48 buf)
  else if bytes_eqb key (lit "beep") then set_beep_on m (nonzero_number buf)
  else if bytes_eqb key (lit "beepvol") then set_beep_volume m (u8 (atoi buf))
  else if bytes_eqb key (lit "beepev") then set_beep_events m (u8 (atoi buf))
  else if bytes_eqb key (lit "baud") then set_baud m (u16 (atoi buf))
  else if bytes_eqb key (lit "badges") then set_badges_on m (nonzero_number buf)
  else if bytes_eqb key (lit "replies") then set_replies_on m (nonzero_number buf)
  else if bytes_eqb key (lit "autoslash") then set_auto_slash m (nonzero_number buf)
  else if bytes_eqb key (lit "voice") then set_voice_on m (nonzero_number buf)
  else if bytes_eqb key (lit "notify") then set_notify_on m (nonzero_number buf)
  else if bytes_eqb key (lit "logins") then set_logins m (u32 (fst (strtoul buf)))
  else if bytes_eqb key (lit "messages") then set_messages m (u32 (fst (strtoul buf)))
  else if bytes_eqb key (lit "created") then set_created m (strtoll buf)
  else if bytes_eqb key (lit "seen") then set_last_seen m (strtoll buf)
  else m
  end.

Definition ddial_member_field (m : ddial_member) (key value : bytes) : ddial_member :=
  member_set m key (ddial_member_unescape value (DDIAL_MV_TEXT_LIMIT * 2)).

Definition mail_set (m : ddial_mail) (key buf : bytes) : ddial_mail :=
  let '{| ml_id := i; ml_to := t; ml_from := f; ml_from_handle := fh; ml_sent := s;
          ml_offline := o; ml_text := x |} := m in
  if bytes_eqb key (lit "id") then Build_ddial_mail (u32 (fst (strtoul buf))) t f fh s o x
  else if bytes_eqb key (lit "to") then Build_ddial_mail i (u32 (fst (strtoul buf))) f fh s o x
  else if bytes_eqb key (lit "from") then Build_ddial_mail i t (u32 (fst (strtoul buf))) fh s o x
  else if bytes_eqb key (lit "fromh")
  then Build_ddial_mail i t f (snprintf_text DDIAL_MAX_HANDLE_LEN buf) s o x
  else if bytes_eqb key (lit "sent") then Build_ddial_mail i t f fh (strtoll buf) o x
  else if bytes_eqb key (lit "offline") then Build_ddial_mail i t f fh s (nonzero_number buf) x
  else if bytes_eqb key (lit "text")
  then Build_ddial_mail i t f fh s o (snprintf_text DDIAL_MV_TEXT_LIMIT buf)
  else m.

Definition ddial_mail_field (m : ddial_mail) (key value : bytes) : ddial_mail :=
  mail_set m key (ddial_member_unescape value (DDIAL_MV_TEXT_LIMIT * 2)).

(** ** Files *)

Definition flag (b : bool) : Z := if b then 1 else 0.

Definition saved_fields (i : nat) (handles : list bytes) : bytes :=
  concat (imap (fun h v => if peek v =? c_nul then []
                           else ddial_member_escape [104; 49 + Z.of_nat (i + h)] v) handles).

Definition member_line (m : ddial_member) : bytes :=
  ddial_member_escape_u64 (lit "no") (m_number m) ++
  ddial_member_escape (lit "handle") (m_handle m) ++
  ddial_member_escape (lit "salt") (ddial_member_hex (m_salt m)) ++
  ddial_member_escape (lit "hash") (ddial_member_hex (m_hash m)) ++
  ddial_member_escape_u64 (lit "cosysop") (flag (m_cosysop m)) ++
  ddial_member_escape (lit "hcolor") (m_handle_color m) ++
  ddial_member_escape (lit "mcolor") (m_msg_color m) ++
  ddial_member_escape (lit "pre") (m_prefix m) ++
  ddial_member_escape (lit "post") (m_postfix m) ++
  ddial_member_escape (lit "status") (m_status m) ++
  ddial_member_escape (lit "profile") (m_profile m) ++
  ddial_member_escape (lit "bday") (m_bday m) ++
  ddial_member_escape_u64 (lit "bdaycd") (flag (m_bday_countdown m)) ++
  ddial_member_escape (lit "box") (m_box m) ++
  ddial_member_escape_u64 (lit "boxrot") (flag (m_box_rotate m)) ++
  saved_fields 0 (m_saved_handles m) ++
  ddial_member_escape (lit "font") (m_font m) ++
  ddial_member_escape_u64 (lit "beep") (flag (m_beep_on m)) ++
  ddial_member_escape_u64 (lit "beepvol") (m_beep_volume m) ++
  ddial_member_escape_u64 (lit "beepev") (m_beep_events m) ++
  ddial_member_escape_u64 (lit "baud") (m_baud m) ++
  ddial_member_escape_u64 (lit "badges") (flag (m_badges_on m)) ++
  ddial_member_escape_u64 (lit "replies") (flag (m_replies_on m)) ++
  ddial_member_escape_u64 (lit "autoslash") (flag (m_auto_slash m)) ++
  ddial_member_escape_u64 (lit "voice") (flag (m_voice_on m)) ++
  ddial_member_escape_u64 (lit "notify") (flag (m_notify_on m)) ++
  ddial_member_escape_u64 (lit "logins") (m_logins m) ++
  ddial_member_escape_u64 (lit "messages") (m_messages m) ++
  ddial_member_escape_u64 (lit "created") (m_created m) ++
  ddial_member_escape_u64 (lit "seen") (m_last_seen m).

Definition mail_line (m : ddial_mail) : bytes :=
  ddial_member_escape_u64 (lit "id") (ml_id m) ++
  ddial_member_escape_u64 (lit "to") (ml_to m) ++
  ddial_member_escape_u64 (lit "from") (ml_from m) ++
  ddial_member_escape (lit "fromh") (ml_from_handle m) ++
  ddial_member_escape_u64 (lit "sent") (ml_sent m) ++
  ddial_member_escape_u64 (lit "offline") (flag (ml_offline m)) ++
  ddial_member_escape (lit "text") (ml_text m).

(** The tables behind the lock, and what the two files hold. *)
Record store := {
  g_ddial_members_loaded : bool;
  g_ddial_members : list ddial_member;
  g_ddial_mail : list ddial_mail;
  g_ddial_mail_next_id : Z;
  members_file : option bytes;
  mail_file : option bytes
}.

Definition with_members (s : store) (l : list ddial_member) : store :=
  {| g_ddial_members_loaded := g_ddial_members_loaded s; g_ddial_members := l;
     g_ddial_mail := g_ddial_mail s; g_ddial_mail_next_id := g_ddial_mail_next_id s;
     members_file := members_file s; mail_file := mail_file s |}.

Definition with_mail (s : store) (l : list ddial_mail) (next : Z) : store :=
  {| g_ddial_members_loaded := g_ddial_members_loaded s; g_ddial_members := g_ddial_members s;
     g_ddial_mail := l; g_ddial_mail_next_id := next;
     members_file := members_file s; mail_file := mail_file s |}.

Definition with_files (s : store) (members mail : option bytes) : store :=
  {| g_ddial_members_loaded := g_ddial_members_loaded s; g_ddial_members := g_ddial_members s;
     g_ddial_mail := g_ddial_mail s; g_ddial_mail_next_id := g_ddial_mail_next_id s;
     members_file := members; mail_file := mail |}.

Definition file_of {A} (line : A -> bytes) (l : list A) : bytes :=
  concat (map (fun m => line m ++ [c_lf]) l).

Definition ddial_members_save_locked (s : store) : store :=
  with_files s (Some (file_of member_line (g_ddial_members s))) (mail_file s).

Definition ddial_mail_save_locked (s : store) : store :=
  with_files s (members_file s) (Some (file_of mail_line (g_ddial_mail s))).

(** [fgets(line, n + 1, fp)]: up to [n] bytes and no further than a newline. *)
Fixpoint fgets_go (n : nat) (fp : bytes) : bytes * bytes :=
  match n, fp with
  | S n', c :: t =>
      if c =? c_lf then ([c], t)
      else let (line, rest) := fgets_go n' t in (c :: line, rest)
  | _, _ => ([], fp)
  end.

Definition LINE_SIZE : nat := 8192.
Arguments LINE_SIZE : simpl never.

(** The record of a line: cut at its end and at a NUL. *)
Definition read_record {A} (cb : A -> bytes -> bytes -> A) (zero : A) (line : bytes) : A :=
  ddial_member_parse_line
    (take_while (fun c => negb ((c =? c_cr) || (c =? c_lf) || (c =? c_nul))) line) cb zero.

(** The loop over the lines of a file; [fuel] of its length is enough. *)
Fixpoint load_lines {A} (cb : A -> bytes -> bytes -> A) (zero : A) (keep : A -> bool) (most : nat)
  (fuel : nat) (fp : bytes) (l : list A) : list A :=
  match fuel with
  | O => l
  | S fuel =>
      match fp with
      | [] => l
      | _ =>
          let (line, rest) := fgets_go (LINE_SIZE - 1) fp in
          if (length l <? most)%nat
          then let m := read_record cb zero line in
               load_lines cb zero keep most fuel rest (if keep m then l ++ [m] else l)
          else l
      end
  end.

Definition keep_member (m : ddial_member) : bool :=
  negb (m_number m =? 0) && negb (peek (m_handle m) =? c_nul).
Definition keep_mail (m : ddial_mail) : bool := negb (ml_id m =? 0) && negb (ml_to m =? 0).

Definition load_members (fp : bytes) : list ddial_member :=
  load_lines ddial_member_field no_member keep_member DDIAL_MEMBER_MAX (length fp) fp [].
Definition load_mail (fp : bytes) : list ddial_mail :=
  load_lines ddial_mail_field no_mail keep_mail DDIAL_MAIL_MAX (length fp) fp [].

Definition next_id_of (next : Z) (m : ddial_mail) : Z :=
  if next <=? ml_id m then u32 (ml_id m + 1) else next.

(** Before the files are read the tables are empty, as they are at the start. *)
Definition ddial_members_ensure_loaded_locked (s : store) : store :=
  if g_ddial_members_loaded s then s
  else
    let members := match members_file s with Some fp => load_members fp | None => g_ddial_members s end in
    let (mail, next) :=
      match mail_file s with
      | Some fp => let l := load_mail fp in (l, fold_left next_id_of l (g_ddial_mail_next_id s))
      | None => (g_ddial_mail s, g_ddial_mail_next_id s)
      end in
    {| g_ddial_members_loaded := true; g_ddial_members := members; g_ddial_mail := mail;
       g_ddial_mail_next_id := next; members_file := members_file s; mail_file := mail_file s |}.

(** ** Members *)

Fixpoint find_go {A} (f : A -> bool) (l : list A) (i : nat) : option (nat * A) :=
  match l with
  | [] => None
  | m :: t => if f m then Some (i, m) else find_go f t (S i)
  end.

Definition ddial_member_find_no_locked (s : store) (number : Z) : option (nat * ddial_member) :=
  find_go (fun m => m_number m =? number) (g_ddial_members s) 0.

Definition same_nocase (a b : bytes) : bool := bytes_eqb (map tolower a) (map tolower b).

Definition ddial_member_find_handle_locked (s : store) (handle : bytes) : option (nat * ddial_member) :=
  find_go (fun m => same_nocase (m_handle m) handle) (g_ddial_members s) 0.

Section Accounts.
(** [PKCS5_PBKDF2_HMAC] with the rounds and the digest of the code: a hash of
    32 bytes, or a failure. *)
Context (ddial_member_derive : bytes -> bytes -> option bytes).

Definition ddial_member_get (s : store) (number : Z) : store * option ddial_member :=
  let s := ddial_members_ensure_loaded_locked s in
  (s, option_map snd (ddial_member_find_no_locked s number)).

Definition ddial_member_owner_of (s : store) (handle : bytes) : store * Z :=
  let s := ddial_members_ensure_loaded_locked s in
  (s, match ddial_member_find_handle_locked s handle with Some (_, m) => m_number m | None => 0 end).

Definition ddial_member_put (s : store) (member : ddial_member) : store * bool :=
  let s := ddial_members_ensure_loaded_locked s in
  match ddial_member_find_no_locked s (m_number member) with
  | None => (s, false)
  | Some (i, _) => (ddial_members_save_locked (with_members s (<[i:=member]> (g_ddial_members s))), true)
  end.

Definition password_too_short : bytes := lit "Password must be at least 4 characters.".
Definition password_forbidden : bytes := lit "Password may not contain spaces or ':'.".

(** What is wrong with a new password. *)
Definition password_error (password : bytes) : option bytes :=
  if (length password <? DDIAL_MEMBER_MIN_PASSWORD)%nat then Some password_too_short
  else if bool_decide (is_Some (strchr password c_colon)) || bool_decide (is_Some (strchr password c_space))
  then Some password_forbidden
  else None.

Definition next_number (l : list ddial_member) : Z :=
  fold_left (fun next m => if next <=? m_number m then u32 (m_number m + 1) else next) l 1.

Definition new_member (number : Z) (handle salt hash : bytes) (now : Z) : ddial_member :=
  {| m_number := number; m_handle := snprintf_text DDIAL_MAX_HANDLE_LEN handle; m_salt := salt;
     m_hash := hash; m_cosysop := false; m_handle_color := []; m_msg_color := []; m_prefix := [];
     m_postfix := []; m_status := []; m_profile := []; m_bday := []; m_bday_countdown := false;
     m_box := []; m_box_rotate := false; m_saved_handles := replicate DDIAL_MV_SAVED_HANDLES [];
     m_font := []; m_beep_on := true; m_beep_volume := 100;
     m_beep_events := Z.lor (Z.lor DDIAL_MV_BEEP_PM DDIAL_MV_BEEP_MENTION) DDIAL_MV_BEEP_BUZZ;
     m_baud := 0; m_badges_on := true; m_replies_on := true; m_auto_slash := true;
     m_voice_on := false; m_notify_on := false; m_logins := 0; m_messages := 0;
     m_created := now; m_last_seen := now |}.

(** The new number, or the reason there is none; [salt] is what [RAND_bytes]
    gives. *)
Definition ddial_member_signup (s : store) (handle password : bytes) (salt : option bytes) (now : Z)
  : store * (Z + bytes) :=
  match password_error password with
  | Some err => (s, inr err)
  | None =>
      let s := ddial_members_ensure_loaded_locked s in
      match ddial_member_find_handle_locked s handle with
      | Some _ => (s, inr (lit "Handle '" ++ handle ++ lit "' is already a member."))
      | None =>
          if (DDIAL_MEMBER_MAX <=? length (g_ddial_members s))%nat
          then (s, inr (lit "Member roll is full."))
          else
            match salt with
            | None => (s, inr (lit "Could not hash password."))
            | Some salt =>
                match ddial_member_derive password salt with
                | None => (s, inr (lit "Could not hash password."))
                | Some hash =>
                    let number := next_number (g_ddial_members s) in
                    (ddial_members_save_locked
                       (with_members s (g_ddial_members s ++ [new_member number handle salt hash now])),
                     inl number)
                end
            end
      end
  end.

Definition ddial_member_authenticate (s : store) (number : Z) (password : bytes)
  : store * option ddial_member :=
  let s := ddial_members_ensure_loaded_locked s in
  (s, match ddial_member_find_no_locked s number with
      | None => None
      | Some (_, m) =>
          match ddial_member_derive password (m_salt m) with
          | Some derived => if bytes_eqb derived (m_hash m) then Some m else None
          | None => None
          end
      end).

(** A failure of the derivation comes after the new salt is in place. *)
Definition ddial_member_set_password (s : store) (number : Z) (password : bytes) (salt : option bytes)
  : store * bool :=
  match password_error password with
  | Some _ => (s, false)
  | None =>
      let s := ddial_members_ensure_loaded_locked s in
      match ddial_member_find_no_locked s number, salt with
      | Some (i, m), Some salt =>
          match ddial_member_derive password salt with
          | Some hash =>
              (ddial_members_save_locked
                 (with_members s (<[i:=set_hash (set_salt m salt) hash]> (g_ddial_members s))), true)
          | None => (with_members s (<[i:=set_salt m salt]> (g_ddial_members s)), false)
          end
      | _, _ => (s, false)
      end
  end.

(** ** Mail *)

(** The id of the mail sent, or 0. *)
Definition ddial_mail_send (s : store) (to from : Z) (from_handle : option bytes) (text : bytes)
  (offline : bool) (now : Z) : store * Z :=
  let s := ddial_members_ensure_loaded_locked s in
  if bool_decide (is_Some (ddial_member_find_no_locked s to)) &&
     (length (g_ddial_mail s) <? DDIAL_MAIL_MAX)%nat
  then
    let id := g_ddial_mail_next_id s in
    let m := {| ml_id := id; ml_to := to; ml_from := from;
                ml_from_handle := snprintf_text DDIAL_MAX_HANDLE_LEN
                                    (match from_handle with Some h => h | None => lit "?" end);
                ml_sent := now; ml_offline := offline;
                ml_text := snprintf_text DDIAL_MV_TEXT_LIMIT text |} in
    (ddial_mail_save_locked (with_mail s (g_ddial_mail s ++ [m]) (u32 (id + 1))), id)
  else (s, 0).

(** The loop that keeps what does not match: the entries kept, and those it
    hands to the callback. *)
Fixpoint sift (f : ddial_mail -> bool) (l : list ddial_mail) : list ddial_mail * list ddial_mail :=
  match l with
  | [] => ([], [])
  | m :: t => let (kept, hit) := sift f t in if f m then (kept, m :: hit) else (m :: kept, hit)
  end.

(** The entries visited, in order. *)
Definition ddial_mail_visit (s : store) (to : Z) (offline consume : bool) : store * list ddial_mail :=
  let s := ddial_members_ensure_loaded_locked s in
  let (kept, hit) := sift (fun m => (ml_to m =? to) && Bool.eqb (ml_offline m) offline) (g_ddial_mail s) in
  if consume && negb (length kept =? length (g_ddial_mail s))%nat
  then (ddial_mail_save_locked (with_mail s kept (g_ddial_mail_next_id s)), hit)
  else (s, hit).

Definition ddial_mail_delete (s : store) (to id : Z) : store * nat :=
  let s := ddial_members_ensure_loaded_locked s in
  let (kept, hit) := sift (fun m => (ml_to m =? to) && negb (ml_offline m) && ((id =? 0) || (ml_id m =? id)))
                          (g_ddial_mail s) in
  if (0 <? length hit)%nat
  then (ddial_mail_save_locked (with_mail s kept (g_ddial_mail_next_id s)), length hit)
  else (s, 0%nat).

(** ** Histories *)

Inductive request :=
  | Signup (handle password : bytes) (salt : option bytes)
  | Login (number : Z) (password : bytes)
  | SetPassword (number : Z) (password : bytes) (salt : option bytes)
  | Put (member : ddial_member)
  | Send (to from : Z) (from_handle : option bytes) (text : bytes) (offline : bool)
  | Visit (to : Z) (offline consume : bool)
  | DeleteMail (to id : Z)
  | Restart.

(** A new process finds the files and empty tables. *)
Definition restarted (s : store) : store :=
  {| g_ddial_members_loaded := false; g_ddial_members := []; g_ddial_mail := [];
     g_ddial_mail_next_id := 1; members_file := members_file s; mail_file := mail_file s |}.

Definition serve (s : store) (r : request * Z) : store :=
  let now := snd r in
  match fst r with
  | Signup handle password salt => fst (ddial_member_signup s handle password salt now)
  | Login number password => fst (ddial_member_authenticate s number password)
  | SetPassword number password salt => fst (ddial_member_set_password s number password salt)
  | Put member => fst (ddial_member_put s member)
  | Send to from from_handle text offline => fst (ddial_mail_send s to from from_handle text offline now)
  | Visit to offline consume => fst (ddial_mail_visit s to offline consume)
  | DeleteMail to id => fst (ddial_mail_delete s to id)
  | Restart => restarted s
  end.

Definition serve_all (s : store) (rs : list (request * Z)) : store := fold_left serve rs s.

End Accounts.

End Members.
