(* ===== verification/DdialRoll.v ===== *)
(** The roll of the members and their mail: what the files hold is read back,
    numbers and handles stay unique, passwords open the account they were set
    for, and mail is handed over once. *)

From Stdlib Require Import ZArith Lia String Ascii.
From stdpp Require Import prelude sorting.
From S2P Require Import Prelude DdialMembers.

Module Roll.
Import Members.

(** ** Fields *)

Definition plain_char (c : Z) : Prop := c <> c_tab /\ c <> c_lf /\ c <> c_cr /\ c <> c_nul.

Lemma unescape_escape v room : (length v <= room)%nat -> unescape_go room (escape_text v) = v.
Proof.
  revert room. induction v as [|c v IHv]; intros [|room] Hr; try done; [simpl in Hr; lia|].
  simpl in Hr. unfold escape_text in *. cbn [map concat].
  assert (unescape_go room (concat (map escape_char v)) = v) as IH by (apply IHv; lia).
  unfold escape_char at 1. repeat case_match; bprop; subst; cbn; try (by rewrite IH).
  destruct (concat (map escape_char v)) eqn:Hc.
  - destruct room; simpl in IH; by subst.
  - replace (c =? c_backslash) with false by (symmetry; by apply Z.eqb_neq). by rewrite IH.
Qed.

Lemma escape_char_plain c : c <> 0 -> Forall plain_char (escape_char c).
Proof.
  intros Hc. unfold escape_char. repeat case_match; bprop; subst;
    repeat (apply Forall_cons; split); try done; unfold plain_char, c_tab, c_backslash in *; lia.
Qed.

Lemma escape_text_plain v : Forall (fun c => c <> 0) v -> Forall plain_char (escape_text v).
Proof.
  induction 1 as [|c v Hc _ IH]; [constructor|]. unfold escape_text. cbn [map concat].
  apply Forall_app. split; [by apply escape_char_plain|done].
Qed.

Lemma escape_char_length c : (length (escape_char c) <= 2)%nat.
Proof. unfold escape_char. repeat case_match; simpl; lia. Qed.

Lemma escape_text_length v : (length (escape_text v) <= 2 * length v)%nat.
Proof.
  induction v as [|c v IHv]; simpl; [lia|]. unfold escape_text in *. cbn [map concat].
  rewrite length_app. pose proof (escape_char_length c). lia.
Qed.

Lemma escape_digits v : Forall (fun c => isdigit c = true) v -> escape_text v = v.
Proof.
  induction 1 as [|c v Hc _ IH]; [done|]. unfold escape_text in *. cbn [map concat]. rewrite IH.
  unfold escape_char. unfold isdigit in Hc. bprop. unfold c_backslash, c_tab.
  replace (c =? 92) with false by (symmetry; apply Z.eqb_neq; lia).
  replace (c =? 9) with false by (symmetry; apply Z.eqb_neq; lia).
  replace (c =? 10) with false by (symmetry; apply Z.eqb_neq; lia).
  by replace (c =? 13) with false by (symmetry; apply Z.eqb_neq; lia).
Qed.

Lemma u64_range z : 0 <= u64 z <= ULONG_MAX.
Proof. unfold ULONG_MAX. pose proof (Z.mod_pos_bound z 18446744073709551616). lia. Qed.

Lemma escape_u64_field key n : ddial_member_escape_u64 key n = ddial_member_escape key (dec (u64 n)).
Proof.
  unfold ddial_member_escape_u64, ddial_member_escape. rewrite escape_digits; [done|].
  by apply dec_spec, u64_range.
Qed.

Definition field_text (f : bytes * bytes) : bytes := f.1 ++ [c_eq] ++ escape_text f.2.

Lemma strtok_tabs toks :
  Forall (fun t => t <> [] /\ Forall (fun c => c <> c_tab) t) toks ->
  strtok_all (fun c => c =? c_tab) (concat (map (fun t => t ++ [c_tab]) toks)) = toks.
Proof.
  unfold strtok_all. induction 1 as [|t toks [Hne Ht] _ IH]; [done|]. cbn [map concat].
  rewrite <- app_assoc. simpl.
  assert (forall a rest, strtok_go (fun c => c =? c_tab) (t ++ rest) a =
                         strtok_go (fun c => c =? c_tab) rest (rev t ++ a)) as Hgo.
  { clear -Ht. induction Ht as [|c t Hc _ IH]; intros a rest; [done|]. simpl.
    apply Z.eqb_neq in Hc. rewrite Hc, IH. by rewrite <- app_assoc. }
  rewrite Hgo, app_nil_r. cbn [strtok_go]. rewrite Z.eqb_refl.
  destruct (rev t) as [|x r] eqn:Hr.
  { apply (f_equal (@rev Z)) in Hr. by rewrite rev_involutive in Hr. }
  rewrite IH, <- Hr. by rewrite rev_involutive.
Qed.

Lemma split_pair_field k v : Forall (fun c => c <> c_eq) k -> split_pair (k ++ [c_eq] ++ v) = Some (k, v).
Proof.
  intros Hk. unfold split_pair. cbn [app]. rewrite (strchr_app k c_eq v).
  - f_equal. f_equal. rewrite length_app. simpl.
    replace (length k + S (length v) - S (length v))%nat with (length k) by lia. apply take_app_length.
  - intros Hin. by eapply Forall_forall in Hk; [|apply list_elem_of_In, Hin].
Qed.

(** The keys of the two files. *)
Definition key_ok (k : bytes) : Prop := k <> [] /\ Forall (fun c => plain_char c /\ c <> c_eq) k.

Lemma parse_fields {A} (cb : A -> bytes -> bytes -> A) (fs : list (bytes * bytes)) user :
  Forall (fun f => key_ok f.1 /\ Forall (fun c => c <> 0) f.2) fs ->
  ddial_member_parse_line (concat (map (fun f => ddial_member_escape f.1 f.2) fs)) cb user =
  fold_left (fun m f => cb m f.1 (escape_text f.2)) fs user.
Proof.
  intros Hfs. unfold ddial_member_parse_line.
  assert (concat (map (fun f => ddial_member_escape f.1 f.2) fs) =
          concat (map (fun t => t ++ [c_tab]) (map field_text fs))) as ->.
  { f_equal. rewrite map_map. apply map_ext. intros [k v]. unfold ddial_member_escape, field_text. cbn.
    by rewrite <- app_assoc. }
  rewrite strtok_tabs.
  - clear -Hfs. revert user. induction Hfs as [|[k v] fs [[_ Hk] _] _ IH]; intros user; [done|].
    cbn [map fold_left fst snd] in *. unfold field_text at 2. cbn [fst snd].
    rewrite split_pair_field; [apply IH|]. eapply Forall_impl; [exact Hk|]. by intros c [_ ?].
  - apply Forall_map. eapply Forall_impl; [exact Hfs|]. intros [k v] [[Hne Hk] Hv].
    cbn [fst snd] in *. unfold field_text. cbn [fst snd]. split; [by destruct k|].
    apply Forall_app. split; [eapply Forall_impl; [exact Hk|]; by intros c [[? _] _]|].
    apply Forall_cons. split; [done|]. eapply Forall_impl; [by apply escape_text_plain|]. by intros c [? _].
Qed.

(** ** Member records *)

Definition member_pairs (m : ddial_member) : list (bytes * bytes) :=
  [(lit "no", dec (u64 (m_number m))); (lit "handle", m_handle m);
   (lit "salt", ddial_member_hex (m_salt m)); (lit "hash", ddial_member_hex (m_hash m));
   (lit "cosysop", dec (u64 (flag (m_cosysop m)))); (lit "hcolor", m_handle_color m);
   (lit "mcolor", m_msg_color m); (lit "pre", m_prefix m); (lit "post", m_postfix m);
   (lit "status", m_status m); (lit "profile", m_profile m); (lit "bday", m_bday m);
   (lit "bdaycd", dec (u64 (flag (m_bday_countdown m)))); (lit "box", m_box m);
   (lit "boxrot", dec (u64 (flag (m_box_rotate m))))].

Definition saved_pairs (i : nat) (handles : list bytes) : list (bytes * bytes) :=
  concat (imap (fun h v => if peek v =? c_nul then []
                           else [([104; 49 + Z.of_nat (i + h)], v)]) handles).

Definition member_pairs2 (m : ddial_member) : list (bytes * bytes) :=
  [(lit "font", m_font m); (lit "beep", dec (u64 (flag (m_beep_on m))));
   (lit "beepvol", dec (u64 (m_beep_volume m))); (lit "beepev", dec (u64 (m_beep_events m)));
   (lit "baud", dec (u64 (m_baud m))); (lit "badges", dec (u64 (flag (m_badges_on m))));
   (lit "replies", dec (u64 (flag (m_replies_on m)))); (lit "autoslash", dec (u64 (flag (m_auto_slash m))));
   (lit "voice", dec (u64 (flag (m_voice_on m)))); (lit "notify", dec (u64 (flag (m_notify_on m))));
   (lit "logins", dec (u64 (m_logins m))); (lit "messages", dec (u64 (m_messages m)));
   (lit "created", dec (u64 (m_created m))); (lit "seen", dec (u64 (m_last_seen m)))].

Definition write_pairs (fs : list (bytes * bytes)) : bytes :=
  concat (map (fun f => ddial_member_escape f.1 f.2) fs).

Lemma write_pairs_app a b : write_pairs (a ++ b) = write_pairs a ++ write_pairs b.
Proof. unfold write_pairs. by rewrite map_app, concat_app. Qed.

Lemma saved_fields_pairs i hs : saved_fields i hs = write_pairs (saved_pairs i hs).
Proof.
  revert i. induction hs as [|h hs IHh]; intros i; [done|]. unfold saved_fields, saved_pairs in *.
  cbn [imap concat]. rewrite write_pairs_app. f_equal.
  - destruct (peek h =? c_nul); [done|]. unfold write_pairs. cbn. by rewrite app_nil_r.
  - specialize (IHh (S i)). rewrite !imap_ext with
      (l := hs) (g := fun h0 v => if peek v =? c_nul then [] else [([104; 49 + Z.of_nat (S i + h0)], v)]).
    2: { intros k x _. cbn. by replace (i + S k)%nat with (S i + k)%nat by lia. }
    rewrite <- IHh. f_equal. apply imap_ext. intros k x _. cbn.
    by replace (i + S k)%nat with (S i + k)%nat by lia.
Qed.

Lemma member_line_pairs m :
  member_line m = write_pairs (member_pairs m ++ saved_pairs 0 (m_saved_handles m) ++ member_pairs2 m).
Proof.
  unfold member_line. rewrite !escape_u64_field, saved_fields_pairs, !write_pairs_app.
  unfold member_pairs, member_pairs2. unfold write_pairs at 2 4. cbn [map concat fst snd].
  by rewrite <- !app_assoc, app_nil_r.
Qed.

(** What a record may hold: texts that fit their buffers, hashes of their
    size, numbers within their width and times that are not negative. *)
Definition text_ok (cap : nat) (t : bytes) : Prop := (length t < cap)%nat /\ Forall (fun c => c <> 0) t.
Definition hash_ok (n : nat) (t : bytes) : Prop := length t = n /\ Forall byte_ok t.

Record member_ok (m : ddial_member) : Prop := {
  ok_number : 0 < m_number m < 4294967296;
  ok_named : m_handle m <> [];
  ok_handle : text_ok DDIAL_MAX_HANDLE_LEN (m_handle m);
  ok_salt : hash_ok 16 (m_salt m);
  ok_hash : hash_ok 32 (m_hash m);
  ok_handle_color : text_ok 160 (m_handle_color m);
  ok_msg_color : text_ok 16 (m_msg_color m);
  ok_prefix : text_ok 48 (m_prefix m);
  ok_postfix : text_ok 48 (m_postfix m);
  ok_status : text_ok 96 (m_status m);
  ok_profile : text_ok 512 (m_profile m);
  ok_bday : text_ok 11 (m_bday m);
  ok_box : text_ok 512 (m_box m);
  ok_saved : length (m_saved_handles m) = DDIAL_MV_SAVED_HANDLES;
  ok_saved_each : Forall (text_ok DDIAL_MAX_HANDLE_LEN) (m_saved_handles m);
  ok_font : text_ok 48 (m_font m);
  ok_volume : 0 <= m_beep_volume m < 256;
  ok_events : 0 <= m_beep_events m < 256;
  ok_baud : 0 <= m_baud m < 65536;
  ok_logins : 0 <= m_logins m < 4294967296;
  ok_messages : 0 <= m_messages m < 4294967296;
  ok_created : 0 <= m_created m <= LONG_MAX;
  ok_seen : 0 <= m_last_seen m <= LONG_MAX
}.

(** Each key sets its own field. *)
Lemma key_no m v : member_set m (lit "no") v = set_number m (u32 (fst (strtoul v))).
Proof. reflexivity. Qed.
Lemma key_handle m v : member_set m (lit "handle") v = set_handle m (snprintf_text DDIAL_MAX_HANDLE_LEN v).
Proof. reflexivity. Qed.
Lemma key_salt m v : member_set m (lit "salt") v = set_salt m (ddial_member_unhex v 16).
Proof. reflexivity. Qed.
Lemma key_hash m v : member_set m (lit "hash") v = set_hash m (ddial_member_unhex v 32).
Proof. reflexivity. Qed.
Lemma key_cosysop m v : member_set m (lit "cosysop") v = set_cosysop m (nonzero_number v).
Proof. reflexivity. Qed.
Lemma key_hcolor m v : member_set m (lit "hcolor") v = set_handle_color m (snprintf_text 160 v).
Proof. reflexivity. Qed.
Lemma key_mcolor m v : member_set m (lit "mcolor") v = set_msg_color m (snprintf_text 16 v).
Proof. reflexivity. Qed.
Lemma key_pre m v : member_set m (lit "pre") v = set_prefix m (snprintf_text 48 v).
Proof. reflexivity. Qed.
Lemma key_post m v : member_set m (lit "post") v = set_postfix m (snprintf_text 48 v).
Proof. reflexivity. Qed.
Lemma key_status m v : member_set m (lit "status") v = set_status m (snprintf_text 96 v).
Proof. reflexivity. Qed.
Lemma key_profile m v : member_set m (lit "profile") v = set_profile m (snprintf_text 512 v).
Proof. reflexivity. Qed.
Lemma key_bday m v : member_set m (lit "bday") v = set_bday m (snprintf_text 11 v).
Proof. reflexivity. Qed.
Lemma key_bdaycd m v : member_set m (lit "bdaycd") v = set_bday_countdown m (nonzero_number v).
Proof. reflexivity. Qed.
Lemma key_box m v : member_set m (lit "box") v = set_box m (snprintf_text 512 v).
Proof. reflexivity. Qed.
Lemma key_boxrot m v : member_set m (lit "boxrot") v = set_box_rotate m (nonzero_number v).
Proof. reflexivity. Qed.
Lemma key_font m v : member_set m (lit "font") v = set_font m (snprintf_text 48 v).
Proof. reflexivity. Qed.
Lemma key_beep m v : member_set m (lit "beep") v = set_beep_on m (nonzero_number v).
Proof. reflexivity. Qed.
Lemma key_beepvol m v : member_set m (lit "beepvol") v = set_beep_volume m (u8 (atoi v)).
Proof. reflexivity. Qed.
Lemma key_beepev m v : member_set m (lit "beepev") v = set_beep_events m (u8 (atoi v)).
Proof. reflexivity. Qed.
Lemma key_baud m v : member_set m (lit "baud") v = set_baud m (u16 (atoi v)).
Proof. reflexivity. Qed.
Lemma key_badges m v : member_set m (lit "badges") v = set_badges_on m (nonzero_number v).
Proof. reflexivity. Qed.
Lemma key_replies m v : member_set m (lit "replies") v = set_replies_on m (nonzero_number v).
Proof. reflexivity. Qed.
Lemma key_autoslash m v : member_set m (lit "autoslash") v = set_auto_slash m (nonzero_number v).
Proof. reflexivity. Qed.
Lemma key_voice m v : member_set m (lit "voice") v = set_voice_on m (nonzero_number v).
Proof. reflexivity. Qed.
Lemma key_notify m v : member_set m (lit "notify") v = set_notify_on m (nonzero_number v).
Proof. reflexivity. Qed.
Lemma key_logins m v : member_set m (lit "logins") v = set_logins m (u32 (fst (strtoul v))).
Proof. reflexivity. Qed.
Lemma key_messages m v : member_set m (lit "messages") v = set_messages m (u32 (fst (strtoul v))).
Proof. reflexivity. Qed.
Lemma key_created m v : member_set m (lit "created") v = set_created m (strtoll v).
Proof. reflexivity. Qed.
Lemma key_seen m v : member_set m (lit "seen") v = set_last_seen m (strtoll v).
Proof. reflexivity. Qed.

Create Rewrite HintDb member_keys.
#[export] Hint Rewrite key_no key_handle key_salt key_hash key_cosysop key_hcolor key_mcolor key_pre key_post
  key_status key_profile key_bday key_bdaycd key_box key_boxrot key_font key_beep key_beepvol
  key_beepev key_baud key_badges key_replies key_autoslash key_voice key_notify key_logins key_messages
  key_created key_seen : member_keys.

(** Numbers and hashes are read back. *)

Lemma read_ul n : 0 <= n <= ULONG_MAX -> fst (strtoul (dec (u64 n))) = n.
Proof.
  intros Hn. rewrite Z.mod_small by (unfold ULONG_MAX in Hn; lia).
  rewrite <- (app_nil_r (dec n)), strtoul_dec; done.
Qed.

Lemma read_u32 n : 0 <= n < 4294967296 -> u32 (fst (strtoul (dec (u64 n)))) = n.
Proof. intros Hn. rewrite read_ul by (unfold ULONG_MAX; lia). by apply Z.mod_small. Qed.

Lemma read_ll n : 0 <= n <= LONG_MAX -> strtoll (dec (u64 n)) = n.
Proof.
  intros Hn. rewrite Z.mod_small by (unfold LONG_MAX in Hn; lia). unfold strtoll.
  rewrite <- (app_nil_r (dec n)), strtol_dec; done.
Qed.

Lemma read_int n : 0 <= n < 65536 -> atoi (dec (u64 n)) = n.
Proof.
  intros Hn. unfold atoi. rewrite read_ll by (unfold LONG_MAX; lia). unfold s32.
  rewrite Z.mod_small; lia.
Qed.

Lemma read_u8 n : 0 <= n < 256 -> u8 (atoi (dec (u64 n))) = n.
Proof. intros Hn. rewrite read_int by lia. by apply Z.mod_small. Qed.

Lemma read_u16 n : 0 <= n < 65536 -> u16 (atoi (dec (u64 n))) = n.
Proof. intros Hn. rewrite read_int by lia. by apply Z.mod_small. Qed.

Lemma read_flag b : nonzero_number (dec (u64 (flag b))) = b.
Proof. by destruct b; vm_compute. Qed.

Lemma read_text cap t : text_ok cap t -> snprintf_text cap t = t.
Proof. intros [Hl _]. unfold snprintf_text. apply take_ge. lia. Qed.

Lemma hex_digit_facts v : 0 <= v < 16 ->
  hex_value (hex_digit v) = Some v /\ isspace (hex_digit v) = false /\
  hex_digit v <> c_minus /\ hex_digit v <> c_plus /\ plain_char (hex_digit v) /\ 48 <= hex_digit v < 256.
Proof.
  intros Hv. assert (In v (map Z.of_nat (seq 0 16))) as Hin.
  { apply in_map_iff. exists (Z.to_nat v). split; [lia|]. apply in_seq. lia. }
  cbn in Hin. repeat (destruct Hin as [<-|Hin]); [repeat split; cbn; try done; lia ..|done].
Qed.

Lemma nibbles b : byte_ok b -> 0 <= Z.shiftr b 4 < 16 /\ 0 <= Z.land b 15 < 16 /\
  16 * Z.shiftr b 4 + Z.land b 15 = b.
Proof.
  unfold byte_ok. intros Hb. change 15 with (Z.ones 4). rewrite Z.land_ones, Z.shiftr_div_pow2 by lia.
  change (2 ^ 4) with 16. dlia.
Qed.

Lemma unhex_hex t : Forall byte_ok t -> ddial_member_unhex (ddial_member_hex t) (length t) = t.
Proof.
  induction 1 as [|b t Hb _ IH]; [done|]. unfold ddial_member_hex in *. cbn [map concat app length].
  cbn [ddial_member_unhex]. rewrite IH. f_equal. destruct (nibbles b Hb) as (Hh & Hl & Hs).
  destruct (hex_digit_facts _ Hh) as (Hv & Hsp & Hm & Hp & _).
  destruct (hex_digit_facts _ Hl) as (Hv2 & _). unfold scan_2x. cbn [skip_while peek]. rewrite Hsp.
  cbn [peek drop]. apply Z.eqb_neq in Hm, Hp. rewrite Hm, Hp. cbn [orb]. rewrite Hv, Hv2, Hs.
  by apply Z.mod_small.
Qed.

Lemma read_hash n t : hash_ok n t -> ddial_member_unhex (ddial_member_hex t) n = t.
Proof. intros [<- Ht]. by apply unhex_hex. Qed.

Lemma hex_length t : length (ddial_member_hex t) = (2 * length t)%nat.
Proof. induction t as [|b t IHt]; [done|]. unfold ddial_member_hex in *. cbn [map concat app length]. lia. Qed.

Lemma hex_plain t : Forall byte_ok t -> Forall (fun c => c <> 0) (ddial_member_hex t).
Proof.
  induction 1 as [|b t Hb _ IH]; [constructor|]. unfold ddial_member_hex in *. cbn [map concat app].
  destruct (nibbles b Hb) as (Hh & Hl & _).
  apply hex_digit_facts in Hh as (_ & _ & _ & _ & _ & Hh), Hl as (_ & _ & _ & _ & _ & Hl).
  repeat (apply Forall_cons; split); [lia..|done].
Qed.

#[export] Hint Rewrite read_flag : member_keys.

(** A loaded record whose saved handles are still to come. *)
Definition before_saved (m : ddial_member) : ddial_member :=
  {| m_number := m_number m; m_handle := m_handle m; m_salt := m_salt m; m_hash := m_hash m;
     m_cosysop := m_cosysop m; m_handle_color := m_handle_color m; m_msg_color := m_msg_color m;
     m_prefix := m_prefix m; m_postfix := m_postfix m; m_status := m_status m; m_profile := m_profile m;
     m_bday := m_bday m; m_bday_countdown := m_bday_countdown m; m_box := m_box m;
     m_box_rotate := m_box_rotate m; m_saved_handles := replicate DDIAL_MV_SAVED_HANDLES [];
     m_font := []; m_beep_on := false; m_beep_volume := 0; m_beep_events := 0; m_baud := 0;
     m_badges_on := false; m_replies_on := false; m_auto_slash := false; m_voice_on := false;
     m_notify_on := false; m_logins := 0; m_messages := 0; m_created := 0; m_last_seen := 0 |}.

Definition roll_set_all (fs : list (bytes * bytes)) (m : ddial_member) : ddial_member :=
  fold_left (fun m f => member_set m f.1 f.2) fs m.

Lemma set_all_app a b m : roll_set_all (a ++ b) m = roll_set_all b (roll_set_all a m).
Proof. apply fold_left_app. Qed.

Lemma set_first m : member_ok m -> roll_set_all (member_pairs m) no_member = before_saved m.
Proof.
  intros Hm. unfold roll_set_all, member_pairs. cbn [fold_left fst snd]. autorewrite with member_keys.
  destruct Hm. rewrite read_u32, !read_text, !read_hash by (done || lia). reflexivity.
Qed.

Lemma set_last m : member_ok m ->
  roll_set_all (member_pairs2 m) (set_saved_handles (before_saved m) (m_saved_handles m)) = m.
Proof.
  intros Hm. unfold roll_set_all, member_pairs2. cbn [fold_left fst snd]. autorewrite with member_keys.
  destruct Hm. rewrite !read_u32, !read_text, !read_u8, read_u16, !read_ll by (done || lia).
  by destruct m.
Qed.

Lemma saved_key_digit i : (i < 9)%nat -> saved_key [104; 49 + Z.of_nat i] = Some i.
Proof.
  intros Hi. unfold saved_key. rewrite Z.eqb_refl. cbn [andb].
  replace (49 <=? _) with true by (symmetry; apply Z.leb_le; lia).
  replace (_ <=? 57) with true by (symmetry; apply Z.leb_le; lia). cbn. f_equal. lia.
Qed.

Lemma key_saved m i v : (i < 9)%nat -> member_set m [104; 49 + Z.of_nat i] v = set_saved_handle m i v.
Proof.
  intros Hi. unfold member_set. rewrite saved_key_digit by done.
  assert (exists x, In x [49; 50; 51; 52; 53; 54; 55; 56; 57] /\ 49 + Z.of_nat i = x) as (x & Hx & ->).
  { exists (49 + Z.of_nat i). split; [|done]. do 9 (destruct i as [|i]; [simpl; tauto|]). lia. }
  simpl in Hx. repeat (destruct Hx as [<-|Hx]; [reflexivity|]). done.
Qed.

Lemma set_saved_twice m a b : set_saved_handles (set_saved_handles m a) b = set_saved_handles m b.
Proof. reflexivity. Qed.

Lemma saved_pairs_cons i h hs :
  saved_pairs i (h :: hs) =
  (if peek h =? c_nul then [] else [([104; 49 + Z.of_nat i], h)]) ++ saved_pairs (S i) hs.
Proof.
  unfold saved_pairs. cbn [imap concat]. f_equal; [by rewrite Nat.add_0_r|]. f_equal.
  apply imap_ext. intros k x _. cbn. by replace (i + S k)%nat with (S i + k)%nat by lia.
Qed.

Lemma set_saved hs : forall pre m,
  m_saved_handles m = pre ++ replicate (length hs) [] -> (length pre + length hs <= 9)%nat ->
  Forall (text_ok DDIAL_MAX_HANDLE_LEN) hs ->
  roll_set_all (saved_pairs (length pre) hs) m = set_saved_handles m (pre ++ hs).
Proof.
  induction hs as [|h hs IHhs]; intros pre m Hm Hl Hok.
  { rewrite app_nil_r in *. cbn. rewrite <- Hm. by destruct m. }
  apply Forall_cons in Hok as [Hh Hok]. rewrite saved_pairs_cons, set_all_app. simpl in Hl.
  assert (roll_set_all (if peek h =? c_nul then [] else [([104; 49 + Z.of_nat (length pre)], h)]) m =
          set_saved_handles m (pre ++ h :: replicate (length hs) [])) as ->.
  { destruct (peek h =? c_nul) eqn:Hp; bprop.
    - assert (h = []) as -> by (destruct h; [done|]; destruct Hh as [_ Hh]; by apply Forall_cons in Hh as [? _]).
      cbn in *. rewrite <- Hm. by destruct m.
    - cbn [roll_set_all fold_left fst snd]. unfold roll_set_all. cbn [fold_left fst snd].
      rewrite key_saved by lia. unfold set_saved_handle. rewrite (read_text DDIAL_MAX_HANDLE_LEN h Hh), Hm. f_equal.
      cbn [length replicate]. by rewrite insert_app_r_alt, Nat.sub_diag by lia. }
  replace (S (length pre)) with (length (pre ++ [h])) by (rewrite length_app; simpl; lia).
  rewrite (IHhs (pre ++ [h])).
  - rewrite set_saved_twice. by rewrite <- app_assoc.
  - cbn. by rewrite <- app_assoc.
  - rewrite length_app. simpl. lia.
  - done.
Qed.

Lemma set_member m : member_ok m ->
  roll_set_all (member_pairs m ++ saved_pairs 0 (m_saved_handles m) ++ member_pairs2 m) no_member = m.
Proof.
  intros Hm. rewrite !set_all_app, set_first by done.
  pose proof (set_saved (m_saved_handles m) [] (before_saved m)) as Hs. cbn [length app] in Hs.
  rewrite Hs; [by apply set_last|by rewrite (ok_saved m Hm)|by rewrite (ok_saved m Hm)|by apply ok_saved_each].
Qed.

(** ** Lines of a file *)

Definition pair_ok (f : bytes * bytes) : Prop := key_ok f.1 /\ text_ok 1024 f.2.

Lemma text_ok_le n k t : (n <= k)%nat -> text_ok n t -> text_ok k t.
Proof. intros Hn [Hl Ht]. split; [lia|done]. Qed.

Lemma number_ok n : text_ok 21 (dec (u64 n)).
Proof.
  pose proof (u64_range n) as Hn. apply dec_spec in Hn as (_ & Hd & _ & Hl). split; [lia|].
  eapply Forall_impl; [exact Hd|]. intros c Hc. unfold isdigit in Hc. cbn in Hc. bprop. lia.
Qed.

Lemma hex_ok n t : hash_ok n t -> text_ok (2 * n + 1) (ddial_member_hex t).
Proof. intros [Hl Ht]. split; [rewrite hex_length; lia|by apply hex_plain]. Qed.

Lemma key_check k : forallb (fun c => negb ((c =? c_tab) || (c =? c_lf) || (c =? c_cr) || (c =? c_nul) || (c =? c_eq))) k =
  true -> k <> [] -> key_ok k.
Proof.
  intros Hk Hne. split; [done|]. apply forallb_Forall in Hk. eapply Forall_impl; [exact Hk|].
  intros c Hc. cbn in Hc. unfold plain_char, c_tab in *. bprop. tauto.
Qed.

Ltac good_key := apply key_check; [by vm_compute|done].

Ltac good_pair :=
  split; cbn [fst snd];
  [good_key |
   first [ eapply text_ok_le; [|apply number_ok]; lia
         | eapply text_ok_le; [|by apply hex_ok]; lia
         | eapply text_ok_le; [|eassumption]; unfold DDIAL_MAX_HANDLE_LEN, DDIAL_MV_TEXT_LIMIT; lia ]].

Lemma member_pairs_ok m : member_ok m -> Forall pair_ok (member_pairs m ++ member_pairs2 m).
Proof.
  intros []. unfold member_pairs, member_pairs2. cbn [app].
  repeat (apply Forall_cons; split; [good_pair|]). constructor.
Qed.

Lemma saved_pairs_ok i hs : (i + length hs <= 9)%nat -> Forall (text_ok DDIAL_MAX_HANDLE_LEN) hs ->
  Forall pair_ok (saved_pairs i hs).
Proof.
  revert i. induction hs as [|h hs IHhs]; intros i Hl Hok; [constructor|].
  apply Forall_cons in Hok as [Hh Hok]. rewrite saved_pairs_cons. simpl in Hl.
  apply Forall_app. split; [|apply IHhs; [lia|done]]. case_match; [constructor|].
  apply Forall_singleton. split; cbn [fst snd].
  - split; [done|]. repeat (apply Forall_cons; split); [..|constructor];
      unfold plain_char, c_tab; lia.
  - eapply text_ok_le; [|exact Hh]. unfold DDIAL_MAX_HANDLE_LEN. lia.
Qed.

Definition weight (fs : list (bytes * bytes)) : nat :=
  sum_list_with (fun f => length f.1 + 2 + 2 * length f.2)%nat fs.

Lemma field_length k v : (length (ddial_member_escape k v) <= length k + 2 + 2 * length v)%nat.
Proof. unfold ddial_member_escape. rewrite !length_app. pose proof (escape_text_length v). simpl. lia. Qed.

Lemma write_pairs_length fs : (length (write_pairs fs) <= weight fs)%nat.
Proof.
  induction fs as [|[k v] fs IHfs]; [done|]. unfold write_pairs, weight in *.
  cbn [map concat sum_list_with fst snd]. rewrite length_app. pose proof (field_length k v). lia.
Qed.

Lemma weight_app a b : weight (a ++ b) = (weight a + weight b)%nat.
Proof. apply sum_list_with_app. Qed.

Lemma saved_weight i hs : Forall (text_ok DDIAL_MAX_HANDLE_LEN) hs ->
  (weight (saved_pairs i hs) <= 66 * length hs)%nat.
Proof.
  revert i. induction hs as [|h hs IHhs]; intros i Hok; [simpl; lia|].
  apply Forall_cons in Hok as [[Hh _] Hok]. rewrite saved_pairs_cons, weight_app.
  specialize (IHhs (S i) Hok). unfold DDIAL_MAX_HANDLE_LEN in Hh.
  unfold weight in *. case_match; cbn [sum_list_with fst snd length]; lia.
Qed.

Lemma member_weight m : member_ok m -> (weight (member_pairs m ++ member_pairs2 m) <= 60 * 100)%nat.
Proof.
  intros []. unfold text_ok, hash_ok, DDIAL_MAX_HANDLE_LEN in *. destruct_and!.
  assert (Hn : forall n, (length (dec (u64 n)) <= 20)%nat) by (intros n; pose proof (number_ok n) as [? _]; lia).
  unfold member_pairs, member_pairs2, weight. cbn [app sum_list_with fst snd].
  rewrite !hex_length. lits. cbn [length].
  repeat match goal with |- context [length (dec (u64 ?n))] => pose proof (Hn n); generalize dependent (length (dec (u64 n))); intros end.
  lia.
Qed.

Lemma member_weight_all m : member_ok m ->
  (weight (member_pairs m ++ saved_pairs 0 (m_saved_handles m) ++ member_pairs2 m) <= 66 * 100)%nat.
Proof.
  intros Hm. pose proof (member_weight m Hm) as Hw. rewrite !weight_app in *.
  pose proof (saved_weight 0 (m_saved_handles m) (ok_saved_each m Hm)) as Hs.
  rewrite (ok_saved m Hm) in Hs. unfold DDIAL_MV_SAVED_HANDLES in Hs. lia.
Qed.

Lemma all_pairs_ok m : member_ok m ->
  Forall pair_ok (member_pairs m ++ saved_pairs 0 (m_saved_handles m) ++ member_pairs2 m).
Proof.
  intros Hm. pose proof (member_pairs_ok m Hm) as [H1 H2]%Forall_app. rewrite !Forall_app.
  split_and!; [done| |done]. apply saved_pairs_ok; [by rewrite (ok_saved m Hm)|by apply ok_saved_each].
Qed.

Lemma write_pairs_plain fs : Forall pair_ok fs ->
  Forall (fun c => c <> c_lf /\ c <> c_cr /\ c <> c_nul) (write_pairs fs).
Proof.
  induction 1 as [|[k v] fs [[_ Hk] [_ Hv]] _ IH]; [constructor|]. unfold write_pairs in *.
  cbn [map concat fst snd] in *. apply Forall_app. split; [|done]. unfold ddial_member_escape.
  rewrite !Forall_app. split_and!.
  - eapply Forall_impl; [exact Hk|]. unfold plain_char. tauto.
  - by apply Forall_singleton.
  - eapply Forall_impl; [by apply escape_text_plain|]. unfold plain_char. tauto.
  - by apply Forall_singleton.
Qed.

Lemma fgets_line line rest n : (length line < n)%nat -> Forall (fun c => c <> c_lf) line ->
  fgets_go n (line ++ c_lf :: rest) = (line ++ [c_lf], rest).
Proof.
  revert n. induction line as [|c line IHl]; intros [|n] Hn Hl; simpl in Hn; try lia; [done|].
  apply Forall_cons in Hl as [Hc Hl]. apply Z.eqb_neq in Hc. cbn [fgets_go app]. rewrite Hc.
  by rewrite IHl by (lia || done).
Qed.

(** A line printed from pairs is read as those pairs. *)
Lemma read_pairs {A} (set : A -> bytes -> bytes -> A) (zero : A) fs :
  Forall pair_ok fs ->
  read_record (fun m k v => set m k (ddial_member_unescape v (DDIAL_MV_TEXT_LIMIT * 2))) zero
    (write_pairs fs ++ [c_lf]) = fold_left (fun m f => set m f.1 f.2) fs zero.
Proof.
  intros Hfs. unfold read_record. rewrite (take_while_stop _ _ c_lf []); [|clear -Hfs|done].
  - unfold write_pairs. rewrite parse_fields.
    + clear -Hfs. revert zero. induction Hfs as [|[k v] fs [_ [Hl Hv]] _ IH]; intros zero; [done|].
      cbn [fold_left fst snd] in *. rewrite IH. unfold ddial_member_unescape.
      rewrite unescape_escape; [done|]. unfold DDIAL_MV_TEXT_LIMIT. lia.
    + eapply Forall_impl; [exact Hfs|]. intros [k v] [Hk [_ Hv]]. by split.
  - eapply Forall_impl; [by apply write_pairs_plain|]. intros c (H1 & H2 & H3). cbn. bprop. tauto.
Qed.

Section Files.
Context {A : Type} (set : A -> bytes -> bytes -> A) (zero : A) (keep : A -> bool) (most : nat).
Context (pairs : A -> list (bytes * bytes)) (good : A -> Prop).
Hypothesis good_pairs : forall m, good m -> Forall pair_ok (pairs m).
Hypothesis good_weight : forall m, good m -> (weight (pairs m) <= 66 * 100)%nat.
Hypothesis good_set : forall m, good m -> fold_left (fun m f => set m f.1 f.2) (pairs m) zero = m.
Hypothesis good_keep : forall m, good m -> keep m = true.

Let cb (m : A) (k v : bytes) : A := set m k (ddial_member_unescape v (DDIAL_MV_TEXT_LIMIT * 2)).
Let line (m : A) : bytes := write_pairs (pairs m).

Lemma load_record m rest l fuel : good m -> (length l < most)%nat ->
  load_lines cb zero keep most (S fuel) ((line m ++ [c_lf]) ++ rest) l =
  load_lines cb zero keep most fuel rest (l ++ [m]).
Proof.
  intros Hm Hl. cbn [load_lines]. rewrite <- app_assoc. cbn [app].
  destruct (line m ++ c_lf :: rest) eqn:He; [by destruct (line m)|]. rewrite <- He. clear He.
  pose proof (good_weight m Hm) as Hw. pose proof (write_pairs_length (pairs m)) as Hlen.
  rewrite fgets_line.
  - replace (length l <? most)%nat with true by (symmetry; by apply Nat.ltb_lt).
    unfold line, cb. rewrite read_pairs, good_set, good_keep by auto. done.
  - assert (66 * 100 < LINE_SIZE - 1)%nat by (apply Nat.ltb_lt; by vm_compute).
    unfold line. lia.
  - eapply Forall_impl; [apply write_pairs_plain; by apply good_pairs|]. by intros c [? _].
Qed.

Lemma load_records ms l fuel : Forall good ms -> (length l + length ms <= most)%nat -> (length ms <= fuel)%nat ->
  load_lines cb zero keep most fuel (concat (map (fun m => line m ++ [c_lf]) ms)) l = l ++ ms.
Proof.
  intros Hms. revert l fuel. induction Hms as [|m ms Hm _ IH]; intros l fuel Hl Hf.
  { rewrite app_nil_r. by destruct fuel. }
  simpl in Hl, Hf. destruct fuel as [|fuel]; [lia|]. cbn [map concat]. rewrite load_record by (done || lia).
  rewrite IH; [by rewrite <- app_assoc| |lia]. rewrite length_app. simpl. lia.
Qed.

Lemma load_saved ms : Forall good ms -> (length ms <= most)%nat ->
  load_lines cb zero keep most (length (concat (map (fun m => line m ++ [c_lf]) ms)))
    (concat (map (fun m => line m ++ [c_lf]) ms)) [] = ms.
Proof.
  intros Hms Hl. apply (load_records ms []); [done|done|]. clear.
  induction ms as [|m ms IHms]; [done|]. cbn [map concat length]. rewrite !length_app. simpl. lia.
Qed.

End Files.

Lemma load_members_saved ms : Forall member_ok ms -> (length ms <= DDIAL_MEMBER_MAX)%nat ->
  load_members (file_of member_line ms) = ms.
Proof.
  intros Hms Hl. unfold load_members, file_of.
  replace (map (fun m => member_line m ++ [c_lf]) ms) with
    (map (fun m => write_pairs (member_pairs m ++ saved_pairs 0 (m_saved_handles m) ++ member_pairs2 m) ++ [c_lf]) ms).
  2: { apply map_ext. intros m. by rewrite member_line_pairs. }
  change ddial_member_field with
    (fun m k v => member_set m k (ddial_member_unescape v (DDIAL_MV_TEXT_LIMIT * 2))).
  apply (load_saved member_set no_member keep_member DDIAL_MEMBER_MAX
           (fun m => member_pairs m ++ saved_pairs 0 (m_saved_handles m) ++ member_pairs2 m) member_ok).
  - apply all_pairs_ok.
  - apply member_weight_all.
  - apply set_member.
  - intros m Hm. unfold keep_member. pose proof (ok_number m Hm). pose proof (ok_named m Hm).
    pose proof (ok_handle m Hm) as [_ Hc]. destruct (m_handle m) as [|c h]; [done|].
    apply Forall_cons in Hc as [Hc _]. cbn [peek]. apply Z.eqb_neq in Hc. rewrite Hc.
    by replace (m_number m =? 0) with false by (symmetry; apply Z.eqb_neq; lia).
  - done.
  - done.
Qed.

(** ** Mail *)

Record mail_ok (m : ddial_mail) : Prop := {
  ok_id : 0 < ml_id m < 4294967296;
  ok_to : 0 < ml_to m < 4294967296;
  ok_from : 0 <= ml_from m < 4294967296;
  ok_from_handle : text_ok DDIAL_MAX_HANDLE_LEN (ml_from_handle m);
  ok_sent : 0 <= ml_sent m <= LONG_MAX;
  ok_text : text_ok DDIAL_MV_TEXT_LIMIT (ml_text m)
}.

Definition mail_pairs (m : ddial_mail) : list (bytes * bytes) :=
  [(lit "id", dec (u64 (ml_id m))); (lit "to", dec (u64 (ml_to m))); (lit "from", dec (u64 (ml_from m)));
   (lit "fromh", ml_from_handle m); (lit "sent", dec (u64 (ml_sent m)));
   (lit "offline", dec (u64 (flag (ml_offline m)))); (lit "text", ml_text m)].

Lemma mail_line_pairs m : mail_line m = write_pairs (mail_pairs m).
Proof.
  unfold mail_line. rewrite !escape_u64_field. unfold write_pairs, mail_pairs. cbn [map concat fst snd].
  by rewrite app_nil_r.
Qed.

Lemma set_mail m : mail_ok m -> fold_left (fun m f => mail_set m f.1 f.2) (mail_pairs m) no_mail = m.
Proof.
  intros []. destruct m as [i t f h s o x].
  cbn [ml_id ml_to ml_from ml_from_handle ml_sent ml_offline ml_text] in *.
  change (Build_ddial_mail (u32 (fst (strtoul (dec (u64 i))))) (u32 (fst (strtoul (dec (u64 t)))))
    (u32 (fst (strtoul (dec (u64 f))))) (snprintf_text DDIAL_MAX_HANDLE_LEN h) (strtoll (dec (u64 s)))
    (nonzero_number (dec (u64 (flag o)))) (snprintf_text DDIAL_MV_TEXT_LIMIT x) = Build_ddial_mail i t f h s o x).
  rewrite !read_u32, read_ll, read_flag, !read_text by (done || lia). done.
Qed.

Lemma mail_pairs_ok m : mail_ok m -> Forall pair_ok (mail_pairs m).
Proof.
  intros []. unfold mail_pairs. repeat (apply Forall_cons; split; [good_pair|]). constructor.
Qed.

Lemma mail_weight m : mail_ok m -> (weight (mail_pairs m) <= 66 * 100)%nat.
Proof.
  intros []. unfold text_ok, DDIAL_MAX_HANDLE_LEN, DDIAL_MV_TEXT_LIMIT in *. destruct_and!.
  assert (Hn : forall n, (length (dec (u64 n)) <= 20)%nat) by (intros n; pose proof (number_ok n) as [? _]; lia).
  unfold mail_pairs, weight. cbn [app sum_list_with fst snd]. lits. cbn [length].
  repeat match goal with |- context [length (dec (u64 ?n))] =>
    pose proof (Hn n); generalize dependent (length (dec (u64 n))); intros end.
  lia.
Qed.

Lemma load_mail_saved ms : Forall mail_ok ms -> (length ms <= DDIAL_MAIL_MAX)%nat ->
  load_mail (file_of mail_line ms) = ms.
Proof.
  intros Hms Hl. unfold load_mail, file_of.
  replace (map (fun m => mail_line m ++ [c_lf]) ms) with (map (fun m => write_pairs (mail_pairs m) ++ [c_lf]) ms).
  2: { apply map_ext. intros m. by rewrite mail_line_pairs. }
  change ddial_mail_field with
    (fun m k v => mail_set m k (ddial_member_unescape v (DDIAL_MV_TEXT_LIMIT * 2))).
  apply (load_saved mail_set no_mail keep_mail DDIAL_MAIL_MAX mail_pairs mail_ok).
  - apply mail_pairs_ok.
  - apply mail_weight.
  - apply set_mail.
  - intros m Hm. unfold keep_mail. pose proof (ok_id m Hm). pose proof (ok_to m Hm).
    replace (ml_id m =? 0) with false by (symmetry; apply Z.eqb_neq; lia).
    by replace (ml_to m =? 0) with false by (symmetry; apply Z.eqb_neq; lia).
  - done.
  - done.
Qed.

(** ** The tables *)

Abbreviation ensure := ddial_members_ensure_loaded_locked.

Definition folded (m : ddial_member) : bytes := map tolower (m_handle m).

(** What the file holds is the table; no file has been written as long as the
    table is empty. *)
Definition filed {A} (line : A -> bytes) (l : list A) (fp : option bytes) : Prop :=
  fp = Some (file_of line l) \/ (l = [] /\ fp = None).

Record tables_ok (bound : Z) (s : store) : Prop := {
  is_loaded : g_ddial_members_loaded s = true;
  numbered : map m_number (g_ddial_members s) = seqZ 1 (Z.of_nat (length (g_ddial_members s)));
  each_member : Forall member_ok (g_ddial_members s);
  own_handles : NoDup (map folded (g_ddial_members s));
  few_members : (length (g_ddial_members s) <= DDIAL_MEMBER_MAX)%nat;
  members_filed : filed member_line (g_ddial_members s) (members_file s);
  each_mail : Forall mail_ok (g_ddial_mail s);
  few_mail : (length (g_ddial_mail s) <= DDIAL_MAIL_MAX)%nat;
  mail_filed : filed mail_line (g_ddial_mail s) (mail_file s);
  ids_rise : StronglySorted Z.lt (map ml_id (g_ddial_mail s));
  ids_below : Forall (fun m => ml_id m < g_ddial_mail_next_id s) (g_ddial_mail s);
  next_positive : 0 < g_ddial_mail_next_id s;
  next_bounded : g_ddial_mail_next_id s <= bound
}.

Lemma ensure_loaded_id s : g_ddial_members_loaded s = true -> ensure s = s.
Proof. unfold ensure. by intros ->. Qed.

Lemma next_id_fold l n bound :
  Forall (fun m => 0 < ml_id m < bound) l -> 0 < n <= bound -> bound < 4294967296 ->
  n <= fold_left next_id_of l n <= bound /\ Forall (fun m => ml_id m < fold_left next_id_of l n) l.
Proof.
  intros Hl. revert n. induction Hl as [|m l Hm Hl IH]; intros n Hn Hb; [cbn; split; [lia|constructor]|].
  cbn [fold_left]. assert (n <= next_id_of n m <= bound /\ ml_id m < next_id_of n m) as [H1 H2].
  { unfold next_id_of. destruct (n <=? ml_id m) eqn:He; bprop; [rewrite Z.mod_small by lia|]; lia. }
  destruct (IH (next_id_of n m)) as [H3 H4]; [lia|done|]. split; [lia|]. constructor; [lia|done].
Qed.

(** A restart finds everything. *)
Lemma restart_tables bound s : tables_ok bound s -> bound < 4294967296 ->
  let r := ensure (restarted s) in
  tables_ok bound r /\ g_ddial_members r = g_ddial_members s /\ g_ddial_mail r = g_ddial_mail s /\
  g_ddial_mail_next_id r <= g_ddial_mail_next_id s.
Proof.
  intros Hs Hb r.
  assert (g_ddial_members r = g_ddial_members s) as Hm.
  { subst r. unfold ensure, restarted. cbn. destruct (members_filed _ _ Hs) as [-> |[He ->]].
    - rewrite load_members_saved by apply Hs. by case_match.
    - rewrite He. by case_match. }
  assert (g_ddial_mail r = g_ddial_mail s /\ 0 < g_ddial_mail_next_id r <= g_ddial_mail_next_id s /\
          Forall (fun m => ml_id m < g_ddial_mail_next_id r) (g_ddial_mail s)) as (Hml & Hn & Hbelow).
  { subst r. unfold ensure, restarted. cbn. destruct (mail_filed _ _ Hs) as [-> |[He ->]].
    - rewrite load_mail_saved by apply Hs. cbn. split; [done|].
      pose proof (next_positive _ _ Hs). pose proof (next_bounded _ _ Hs).
      destruct (next_id_fold (g_ddial_mail s) 1 (g_ddial_mail_next_id s)) as [Hr Hf]; [|lia|lia|by split; [lia|]].
      pose proof (each_mail _ _ Hs) as Hok. pose proof (ids_below _ _ Hs) as Hid.
      rewrite Forall_forall in *. intros m Hin. specialize (Hok m Hin). specialize (Hid m Hin).
      pose proof (ok_id m Hok). lia.
    - rewrite He. cbn. pose proof (next_positive _ _ Hs). split_and!; [done|lia|lia|constructor]. }
  assert (members_file r = members_file s /\ mail_file r = mail_file s /\ g_ddial_members_loaded r = true)
    as (Hf1 & Hf2 & Hld) by (subst r; unfold ensure, restarted; cbn; by case_match).
  split_and!; [|done|done|lia]. destruct Hs.
  constructor; rewrite ?Hm, ?Hml, ?Hf1, ?Hf2; try done; lia.
Qed.

(** *** Finding *)

Lemma find_go_spec {A} (f : A -> bool) l i :
  match find_go f l i with
  | Some (k, m) => (i <= k)%nat /\ l !! (k - i)%nat = Some m /\ f m = true
  | None => Forall (fun m => f m = false) l
  end.
Proof.
  revert i. induction l as [|m l IHl]; intros i; cbn [find_go]; [constructor|].
  destruct (f m) eqn:Hf; [by rewrite Nat.sub_diag|]. specialize (IHl (S i)).
  destruct (find_go f l (S i)) as [[k x]|]; [|by constructor].
  destruct IHl as (Hk & Hx & Hfx). split_and!; [lia| |done].
  by replace (k - i)%nat with (S (k - S i)) by lia.
Qed.

Lemma find_no_spec s n :
  match ddial_member_find_no_locked s n with
  | Some (k, m) => g_ddial_members s !! k = Some m /\ m_number m = n
  | None => Forall (fun m => m_number m <> n) (g_ddial_members s)
  end.
Proof.
  unfold ddial_member_find_no_locked. pose proof (find_go_spec (fun m => m_number m =? n) (g_ddial_members s) 0) as H.
  destruct (find_go _ _ _) as [[k m]|].
  - destruct H as (_ & Hk & Hn). rewrite Nat.sub_0_r in Hk. bprop. done.
  - eapply Forall_impl; [exact H|]. intros m Hm. cbn in Hm. by bprop.
Qed.

Lemma numbered_lookup s bound k m : tables_ok bound s -> g_ddial_members s !! k = Some m ->
  m_number m = 1 + Z.of_nat k.
Proof.
  intros Hs Hk. pose proof (numbered _ _ Hs) as Hn.
  assert (map m_number (g_ddial_members s) !! k = Some (m_number m)) as Hl by (by rewrite list_lookup_fmap, Hk).
  rewrite Hn in Hl. apply lookup_seqZ in Hl. lia.
Qed.

(** Members are where their numbers say. *)
Lemma find_no_at s bound n : tables_ok bound s -> 1 <= n ->
  ddial_member_find_no_locked s n = option_map (fun m => (Z.to_nat (n - 1), m)) (g_ddial_members s !! Z.to_nat (n - 1)).
Proof.
  intros Hs Hn. pose proof (find_no_spec s n) as H. destruct (ddial_member_find_no_locked s n) as [[k m]|].
  - destruct H as [Hk Hm]. pose proof (numbered_lookup _ _ _ _ Hs Hk). replace (Z.to_nat (n - 1)) with k by lia.
    by rewrite Hk.
  - destruct (g_ddial_members s !! Z.to_nat (n - 1)) as [m|] eqn:Hk; [|done].
    pose proof (numbered_lookup _ _ _ _ Hs Hk). rewrite Forall_forall in H.
    exfalso. apply (H m); [by eapply list_elem_of_lookup_2|lia].
Qed.

Lemma next_number_seq l n : map m_number l = seqZ n (Z.of_nat (length l)) -> 1 <= n ->
  n + Z.of_nat (length l) < 4294967296 ->
  fold_left (fun next m => if next <=? m_number m then u32 (m_number m + 1) else next) l n = n + Z.of_nat (length l).
Proof.
  revert n. induction l as [|m l IHl]; intros n Hl Hn Hb; [simpl; lia|].
  cbn [map length fold_left] in *. rewrite Nat2Z.inj_succ in *. rewrite seqZ_cons in Hl by lia.
  injection Hl as Hm Hl. rewrite Z.pred_succ in Hl. rewrite Hm.
  replace (n <=? n) with true by (symmetry; apply Z.leb_le; lia). rewrite Z.mod_small by lia.
  rewrite (IHl (n + 1)); [lia| |lia|lia]. by rewrite <- Z.add_1_r in Hl.
Qed.

Lemma next_number_ok s bound : tables_ok bound s ->
  next_number (g_ddial_members s) = 1 + Z.of_nat (length (g_ddial_members s)).
Proof.
  intros Hs. apply next_number_seq; [by apply (numbered _ _ Hs)|lia|].
  pose proof (few_members _ _ Hs). unfold DDIAL_MEMBER_MAX in *. lia.
Qed.

(** *** Changing the tables *)

Lemma tables_bound b c s : tables_ok b s -> b <= c -> tables_ok c s.
Proof. intros [] Hb. constructor; done || lia. Qed.

Lemma save_members_ok b s l :
  tables_ok b s -> map m_number l = seqZ 1 (Z.of_nat (length l)) -> Forall member_ok l ->
  NoDup (map folded l) -> (length l <= DDIAL_MEMBER_MAX)%nat ->
  tables_ok b (ddial_members_save_locked (with_members s l)).
Proof. intros [] Hn Hok Hd Hl. constructor; try done. by left. Qed.

Lemma save_mail_ok b c s l next :
  tables_ok b s -> Forall mail_ok l -> (length l <= DDIAL_MAIL_MAX)%nat ->
  StronglySorted Z.lt (map ml_id l) -> Forall (fun m => ml_id m < next) l -> 0 < next <= c ->
  tables_ok c (ddial_mail_save_locked (with_mail s l next)).
Proof. intros [] Hok Hl Hs Hn Hb. constructor; try done; [by left|cbn; lia..]. Qed.

Lemma folded_insert l k m x :
  l !! k = Some x -> NoDup (map folded l) ->
  (forall j y, l !! j = Some y -> folded y = folded m -> j = k) -> NoDup (map folded (<[k:=m]> l)).
Proof.
  intros Hk Hnd Hm. change (map folded (<[k:=m]> l)) with (folded <$> <[k:=m]> l).
  rewrite list_fmap_insert. apply NoDup_alt. intros i j y Hi Hj.
  assert (k < length (folded <$> l))%nat as Hlt by (rewrite length_fmap; by eapply lookup_lt_Some).
  destruct (decide (i = k)) as [->|Hik], (decide (j = k)) as [->|Hjk]; [done| | |].
  - rewrite list_lookup_insert_eq in Hi by done. rewrite list_lookup_insert_ne in Hj by done.
    rewrite list_lookup_fmap in Hj. destruct (l !! j) as [z|] eqn:Hz; [|done]. cbn in *. simplify_eq.
    symmetry. by eapply Hm.
  - rewrite list_lookup_insert_eq in Hj by done. rewrite list_lookup_insert_ne in Hi by done.
    rewrite list_lookup_fmap in Hi. destruct (l !! i) as [z|] eqn:Hz; [|done]. cbn in *. simplify_eq.
    by eapply Hm.
  - rewrite list_lookup_insert_ne in Hi, Hj by done. by eapply NoDup_lookup.
Qed.

(** A record takes the place of the one with its number. *)
Lemma replace_member_ok b s k x m :
  tables_ok b s -> g_ddial_members s !! k = Some x -> m_number m = m_number x -> member_ok m ->
  (forall j y, g_ddial_members s !! j = Some y -> folded y = folded m -> j = k) ->
  tables_ok b (ddial_members_save_locked (with_members s (<[k:=m]> (g_ddial_members s)))).
Proof.
  intros Hs Hk Hn Hok Hh. apply save_members_ok; [done| | | |].
  - rewrite length_insert, <- (numbered _ _ Hs).
    change (map m_number (<[k:=m]> (g_ddial_members s))) with (m_number <$> <[k:=m]> (g_ddial_members s)).
    rewrite list_fmap_insert. apply list_insert_id. by rewrite list_lookup_fmap, Hk, Hn.
  - apply Forall_insert; [by apply (each_member _ _ Hs)|done].
  - by eapply folded_insert; [| apply (own_handles _ _ Hs)|].
  - rewrite length_insert. by apply (few_members _ _ Hs).
Qed.

Lemma handle_elsewhere b s k x : tables_ok b s -> g_ddial_members s !! k = Some x ->
  forall j y, g_ddial_members s !! j = Some y -> folded y = folded x -> j = k.
Proof.
  intros Hs Hk j y Hj Hf. eapply NoDup_lookup; [apply (own_handles _ _ Hs)| |].
  - change (map folded (g_ddial_members s)) with (folded <$> g_ddial_members s). rewrite list_lookup_fmap, Hj. done.
  - change (map folded (g_ddial_members s)) with (folded <$> g_ddial_members s). rewrite list_lookup_fmap, Hk. cbn.
    by rewrite Hf.
Qed.

(** A new member joins at the end. *)
Lemma add_member_ok b s m :
  tables_ok b s -> m_number m = 1 + Z.of_nat (length (g_ddial_members s)) -> member_ok m ->
  Forall (fun x => folded x <> folded m) (g_ddial_members s) ->
  (length (g_ddial_members s) < DDIAL_MEMBER_MAX)%nat ->
  tables_ok b (ddial_members_save_locked (with_members s (g_ddial_members s ++ [m]))).
Proof.
  intros Hs Hn Hok Hh Hl. apply save_members_ok; [done| | | |].
  - rewrite map_app, (numbered _ _ Hs), length_app. cbn [map length]. rewrite Hn, Nat2Z.inj_add.
    change (Z.of_nat 1) with 1. rewrite seqZ_app by lia.
    by f_equal.
  - apply Forall_app. split; [by apply (each_member _ _ Hs)|by apply Forall_singleton].
  - rewrite map_app. apply NoDup_app. split_and!; [by apply (own_handles _ _ Hs)| |apply NoDup_singleton].
    intros h Hin [=->]%list_elem_of_singleton. apply list_elem_of_fmap in Hin as (x & He & Hx).
    rewrite Forall_forall in Hh. by apply (Hh x Hx).
  - rewrite length_app. simpl. lia.
Qed.

(** *** Sifting *)

Lemma sift_spec f l : sift f l = (filter (fun m => f m = false) l, filter (fun m => f m = true) l).
Proof.
  induction l as [|m l IHl]; [done|]. cbn [sift]. rewrite IHl.
  destruct (f m) eqn:Hf.
  - rewrite filter_cons_False, (filter_cons_True (fun m => f m = true)) by congruence. done.
  - rewrite filter_cons_True, (filter_cons_False (fun m => f m = true)) by congruence. done.
Qed.

Lemma sorted_filter (P : ddial_mail -> Prop) `{forall m, Decision (P m)} l :
  StronglySorted Z.lt (map ml_id l) -> StronglySorted Z.lt (map ml_id (filter P l)).
Proof.
  induction l as [|m l IHl]; intros Hl; [done|]. cbn [map] in Hl. apply StronglySorted_inv in Hl as [Hl Hm].
  destruct (decide (P m)); [rewrite filter_cons_True by done|rewrite filter_cons_False by done; by apply IHl].
  cbn [map]. constructor; [by apply IHl|]. rewrite Forall_forall in *. intros i Hi. apply Hm.
  apply list_elem_of_fmap in Hi as (x & -> & Hx). apply list_elem_of_filter in Hx as [_ Hx].
  by apply list_elem_of_fmap_2.
Qed.

Lemma Forall_sifted (Q : ddial_mail -> Prop) (P : ddial_mail -> Prop) `{forall m, Decision (P m)} l :
  Forall Q l -> Forall Q (filter P l).
Proof. rewrite !Forall_forall. intros Hl m [_ Hm]%list_elem_of_filter. by apply Hl. Qed.

Lemma sifted_ok b s (P : ddial_mail -> Prop) `{forall m, Decision (P m)} : tables_ok b s ->
  tables_ok b (ddial_mail_save_locked (with_mail s (filter P (g_ddial_mail s)) (g_ddial_mail_next_id s))).
Proof.
  intros Hs. apply (save_mail_ok b b); [done| | | | |split; [by apply (next_positive _ _ Hs)|by apply (next_bounded _ _ Hs)]].
  - apply Forall_sifted, (each_mail _ _ Hs).
  - etrans; [apply length_filter|apply (few_mail _ _ Hs)].
  - apply sorted_filter, (ids_rise _ _ Hs).
  - apply Forall_sifted, (ids_below _ _ Hs).
Qed.

(** ** Histories *)

Section Accounts.
Context (derive : bytes -> bytes -> option bytes).
Hypothesis derive_ok : forall password salt, hash_ok 16 salt ->
  exists hash, derive password salt = Some hash /\ hash_ok 32 hash.

Definition salt_ok (salt : option bytes) : Prop := match salt with Some s => hash_ok 16 s | None => True end.

(** What the sessions ask for: handles and texts of their buffers; a record is
    put back with texts that fit and a handle that belongs to nobody else. *)
Definition request_ok (s : store) (r : request) : Prop :=
  match r with
  | Signup handle _ salt => handle <> [] /\ text_ok DDIAL_MAX_HANDLE_LEN handle /\ salt_ok salt
  | SetPassword _ _ salt => salt_ok salt
  | Put m => member_ok m /\
      (snd (ddial_member_owner_of s (m_handle m)) = 0 \/ snd (ddial_member_owner_of s (m_handle m)) = m_number m)
  | Send _ from from_handle text _ =>
      0 <= from < 4294967296 /\ Forall (fun c => c <> 0) text /\
      match from_handle with Some h => Forall (fun c => c <> 0) h | None => True end
  | _ => True
  end.

Definition nothing : store :=
  {| g_ddial_members_loaded := false; g_ddial_members := []; g_ddial_mail := [];
     g_ddial_mail_next_id := 1; members_file := None; mail_file := None |}.

(** Any requests in any order, restarts among them, from no files on. *)
Inductive history : nat -> store -> Prop :=
  | at_first : history 0 nothing
  | served n s r now : history n s -> request_ok s r -> 0 <= now <= LONG_MAX ->
      history (S n) (serve derive s (r, now)).

Lemma cut_text_ok cap t : (0 < cap)%nat -> Forall (fun c => c <> 0) t -> text_ok cap (snprintf_text cap t).
Proof.
  intros Hc Ht. unfold snprintf_text. split; [rewrite length_take; lia|by apply Forall_take].
Qed.

Lemma no_text cap : (0 < cap)%nat -> text_ok cap [].
Proof. intros Hc. split; [simpl; lia|constructor]. Qed.

Lemma new_member_ok n h salt hash now :
  0 < n < 4294967296 -> h <> [] -> text_ok DDIAL_MAX_HANDLE_LEN h -> hash_ok 16 salt -> hash_ok 32 hash ->
  0 <= now <= LONG_MAX -> member_ok (new_member n h salt hash now).
Proof.
  intros Hn Hne Hh Hs Hha Hnow. unfold new_member. rewrite read_text by done.
  constructor; cbn; try done; try (apply no_text; lia); try lia.
  repeat (apply Forall_cons; split; [apply no_text; unfold DDIAL_MAX_HANDLE_LEN; lia|]). constructor.
Qed.

Lemma folded_new n h salt hash now : text_ok DDIAL_MAX_HANDLE_LEN h ->
  folded (new_member n h salt hash now) = map tolower h.
Proof. intros Hh. unfold folded, new_member. cbn [m_handle]. by rewrite read_text. Qed.

Lemma owner_free s m : snd (ddial_member_owner_of s (m_handle m)) = 0 \/
    snd (ddial_member_owner_of s (m_handle m)) = m_number m ->
  forall b, tables_ok b (ensure s) ->
  forall j y, g_ddial_members (ensure s) !! j = Some y -> folded y = folded m -> m_number y = m_number m.
Proof.
  intros Ho b Hs j y Hj Hf. unfold ddial_member_owner_of, ddial_member_find_handle_locked in Ho. cbn [snd] in Ho.
  pose proof (find_go_spec (fun x => same_nocase (m_handle x) (m_handle m)) (g_ddial_members (ensure s)) 0) as H.
  destruct (find_go _ _ _) as [[k x]|].
  - destruct H as (_ & Hk & He). rewrite Nat.sub_0_r in Hk. unfold same_nocase in He. rewrite bytes_eqb_eq in He.
    assert (j = k) as -> by (eapply (handle_elsewhere b); [done|exact Hk|exact Hj|]; unfold folded in *; congruence).
    rewrite Hk in Hj. simplify_eq. pose proof (numbered_lookup _ _ _ _ Hs Hk). lia.
  - rewrite Forall_forall in H. specialize (H y (list_elem_of_lookup_2 _ _ _ Hj)). unfold same_nocase in H.
    apply bytes_eqb_neq in H. done.
Qed.

Lemma serve_ok b s r now : tables_ok b (ensure s) -> request_ok s r -> 0 <= now <= LONG_MAX -> 0 < b < 4294967295 ->
  (g_ddial_members_loaded s = false -> restarted s = s) ->
  tables_ok (b + 1) (ensure (serve derive s (r, now))).
Proof.
  intros Hs Hr Hnow Hb Hun. pose proof (is_loaded _ _ Hs) as Hld.
  assert (tables_ok (b + 1) (ensure (ensure s))) as Hsame
    by (rewrite ensure_loaded_id by done; apply (tables_bound b); [exact Hs|lia]).
  destruct r; cbn [serve fst snd request_ok] in *.
  - unfold ddial_member_signup. destruct (password_error password); [cbn [fst]; by apply (tables_bound b); [exact Hs|lia]|].
    destruct Hr as (Hne & Hh & Hsalt).
    destruct (ddial_member_find_handle_locked (ensure s) handle) as [[]|] eqn:Hf; [done|].
    destruct (DDIAL_MEMBER_MAX <=? _)%nat eqn:Hfull; [done|]. apply Nat.leb_gt in Hfull.
    destruct salt as [salt|]; [|done]. destruct (derive_ok password salt Hsalt) as (hash & -> & Hhash).
    cbn [fst]. rewrite ensure_loaded_id by done. apply (tables_bound b); [|lia].
    pose proof (next_number_ok _ _ Hs) as Hnum. pose proof (few_members _ _ Hs). unfold DDIAL_MEMBER_MAX in *.
    apply add_member_ok; [exact Hs|by rewrite Hnum| | |done].
    + apply new_member_ok; [lia|done..].
    + unfold ddial_member_find_handle_locked in Hf.
      pose proof (find_go_spec (fun x => same_nocase (m_handle x) handle) (g_ddial_members (ensure s)) 0) as H0.
      rewrite Hf in H0. eapply Forall_impl; [exact H0|]. intros x Hx He. unfold same_nocase in Hx.
      apply bytes_eqb_neq in Hx. by rewrite folded_new in He.
  - done.
  - unfold ddial_member_set_password. destruct (password_error password); [cbn [fst]; by apply (tables_bound b); [exact Hs|lia]|].
    pose proof (find_no_spec (ensure s) number) as Hf.
    destruct (ddial_member_find_no_locked (ensure s) number) as [[k m]|]; [|done].
    destruct salt as [salt|]; [|done]. destruct (derive_ok password salt Hr) as (hash & -> & Hhash).
    cbn [fst]. destruct Hf as [Hk Hn]. rewrite ensure_loaded_id by done. apply (tables_bound b); [|lia].
    pose proof (each_member _ _ Hs) as Hm. eapply Forall_lookup_1 in Hm; [|exact Hk].
    eapply replace_member_ok; [exact Hs|exact Hk|done| |].
    + destruct Hm. by constructor.
    + exact (handle_elsewhere _ _ _ _ Hs Hk).
  - unfold ddial_member_put. destruct Hr as [Hm Ho]. pose proof (find_no_spec (ensure s) (m_number member)) as Hf.
    destruct (ddial_member_find_no_locked (ensure s) (m_number member)) as [[k x]|]; [|done].
    destruct Hf as [Hk Hn]. cbn [fst]. rewrite ensure_loaded_id by done. apply (tables_bound b); [|lia].
    eapply replace_member_ok; [exact Hs|exact Hk|done|done|]. intros j y Hj He.
    pose proof (owner_free _ _ Ho _ Hs j y Hj He) as Hy.
    pose proof (numbered_lookup _ _ _ _ Hs Hj). pose proof (numbered_lookup _ _ _ _ Hs Hk). lia.
  - unfold ddial_mail_send. destruct (_ && _) eqn:Hc; [|done]. bprop. destruct Hc as [[[k m] Hto] Hl].
    destruct Hr as (Hfrom & Htext & Hfh). cbn [fst]. rewrite ensure_loaded_id by done.
    pose proof (next_positive _ _ Hs). pose proof (next_bounded _ _ Hs).
    rewrite Z.mod_small by lia.
    pose proof (find_no_spec (ensure s) to) as Hf. rewrite Hto in Hf. destruct Hf as [Hk Hn].
    pose proof (each_member _ _ Hs) as Hm. eapply Forall_lookup_1 in Hm; [|exact Hk]. pose proof (ok_number m Hm).
    apply (save_mail_ok b); [done| | | | |lia].
    + apply Forall_app. split; [by apply (each_mail _ _ Hs)|]. apply Forall_singleton.
      constructor; cbn [ml_id ml_to ml_from ml_from_handle ml_sent ml_text]; try lia.
      * apply cut_text_ok; [unfold DDIAL_MAX_HANDLE_LEN; lia|]. destruct from_handle; [done|]. by apply Forall_singleton.
      * apply cut_text_ok; [unfold DDIAL_MV_TEXT_LIMIT; lia|done].
    + rewrite length_app. simpl. lia.
    + rewrite map_app. cbn [map]. pose proof (ids_rise _ _ Hs) as Hrise. pose proof (ids_below _ _ Hs) as Hbel.
      clear -Hrise Hbel. cbn. generalize dependent (g_ddial_mail_next_id (ensure s)). intros next Hbel.
      induction (g_ddial_mail (ensure s)) as [|x l IHl]; [by constructor|]. cbn [map app] in *.
      apply StronglySorted_inv in Hrise as [Hrise Hx]. apply Forall_cons in Hbel as [Hxn Hbel].
      constructor; [by apply IHl|]. apply Forall_app. split; [done|by apply Forall_singleton].
    + apply Forall_app. split; [|apply Forall_singleton; cbn; lia].
      eapply Forall_impl; [apply (ids_below _ _ Hs)|]. intros x Hx. cbn in Hx. lia.
  - unfold ddial_mail_visit. rewrite sift_spec. destruct (consume && _); [|done]. cbn [fst].
    rewrite ensure_loaded_id by done. apply (tables_bound b); [by apply sifted_ok|lia].
  - unfold ddial_mail_delete. rewrite sift_spec. destruct (_ <? _)%nat; [|done]. cbn [fst].
    rewrite ensure_loaded_id by done. apply (tables_bound b); [by apply sifted_ok|lia].
  - destruct (g_ddial_members_loaded s) eqn:Hl.
    + rewrite ensure_loaded_id in Hs by done. destruct (restart_tables b s Hs) as [Hrs _]; [lia|].
      apply (tables_bound b); [exact Hrs|lia].
    + rewrite Hun by done. apply (tables_bound b); [done|lia].
Qed.

Lemma history_sound n s : history n s -> Z.of_nat n < 4294967294 ->
  tables_ok (Z.of_nat n + 1) (ensure s) /\ (g_ddial_members_loaded s = false -> restarted s = s).
Proof.
  induction 1 as [|n s r now Hh IH Hr Hnow]; intros Hn.
  - split; [|done]. change (ensure nothing) with
      {| g_ddial_members_loaded := true; g_ddial_members := []; g_ddial_mail := [];
         g_ddial_mail_next_id := 1; members_file := None; mail_file := None |}.
    constructor; cbn; first [done | lia | by apply NoDup_nil_2 | by constructor | by right].
  - destruct IH as [Hs Hun]; [lia|]. split.
    + replace (Z.of_nat (S n) + 1) with ((Z.of_nat n + 1) + 1) by lia. apply serve_ok; done || lia.
    + pose proof (is_loaded _ _ Hs) as Hld. destruct r; cbn [serve fst snd]; [..|done].
      * unfold ddial_member_signup. repeat case_match; try done; cbn in *; congruence.
      * cbn in *. congruence.
      * unfold ddial_member_set_password. repeat case_match; try done; cbn in *; congruence.
      * unfold ddial_member_put. repeat case_match; cbn in *; congruence.
      * unfold ddial_mail_send. repeat case_match; cbn in *; congruence.
      * unfold ddial_mail_visit. rewrite sift_spec. case_match; cbn in *; congruence.
      * unfold ddial_mail_delete. rewrite sift_spec. case_match; cbn in *; congruence.
Qed.



(** *** Passwords *)

Lemma authenticate_member s k m p : g_ddial_members (ensure s) !! k = Some m ->
  ddial_member_find_no_locked (ensure s) (m_number m) = Some (k, m) ->
  snd (ddial_member_authenticate derive s (m_number m) p) =
  match derive p (m_salt m) with Some d => if bytes_eqb d (m_hash m) then Some m else None | None => None end.
Proof. intros Hk Hf. unfold ddial_member_authenticate. by rewrite Hf. Qed.

(** After the record at [k] got a new salt and hash, or was added with them:
    its number opens with exactly the passwords that derive the same hash, and
    every other number opens as before. *)
Lemma opens_after b c s s' k m p hash :
  tables_ok b (ensure s) -> tables_ok c (ensure s') -> g_ddial_members (ensure s') !! k = Some m ->
  derive p (m_salt m) = Some hash -> m_hash m = hash ->
  (forall j, j <> k -> g_ddial_members (ensure s') !! j = g_ddial_members (ensure s) !! j) ->
  (forall q, is_Some (snd (ddial_member_authenticate derive s' (m_number m) q)) <-> derive q (m_salt m) = Some hash) /\
  (forall j q, 1 <= j -> j <> m_number m ->
     snd (ddial_member_authenticate derive s' j q) = snd (ddial_member_authenticate derive s j q)).
Proof.
  intros Hs Hs' Hk Hd Hh Hsame. pose proof (numbered_lookup _ _ _ _ Hs' Hk) as Hnum. split.
  - intros q. rewrite (authenticate_member s' k m q Hk).
    + rewrite Hh. destruct (derive q (m_salt m)) as [d|]; [|split; [by intros []|done]].
      destruct (bytes_eqb d hash) eqn:He.
      * apply bytes_eqb_eq in He. subst. split; [done|by eexists].
      * apply bytes_eqb_neq in He. split; [by intros []|congruence].
    + rewrite (find_no_at _ _ _ Hs') by lia. rewrite Hnum.
      replace (Z.to_nat (1 + Z.of_nat k - 1)) with k by lia. by rewrite Hk.
  - intros j q Hj Hne. unfold ddial_member_authenticate. cbn [snd].
    rewrite (find_no_at _ _ _ Hs'), (find_no_at _ _ _ Hs), Hsame by lia. done.
Qed.

(** A password was set for a number, by signing up or by changing it. *)
Definition password_set (s : store) (handle password salt : bytes) (now : Z) (s' : store) (number : Z) : Prop :=
  (handle <> [] /\ text_ok DDIAL_MAX_HANDLE_LEN handle /\
   ddial_member_signup derive s handle password (Some salt) now = (s', inl number)) \/
  ddial_member_set_password derive s number password (Some salt) = (s', true).

Lemma password_set_member b s handle password salt now s' number :
  tables_ok b (ensure s) -> 0 < b < 4294967295 -> (g_ddial_members_loaded s = false -> restarted s = s) ->
  hash_ok 16 salt -> 0 <= now <= LONG_MAX -> password_set s handle password salt now s' number ->
  exists k m hash, tables_ok (b + 1) s' /\ g_ddial_members s' !! k = Some m /\ m_number m = number /\
    m_salt m = salt /\ m_hash m = hash /\ derive password salt = Some hash /\
    (forall j, j <> k -> g_ddial_members s' !! j = g_ddial_members (ensure s) !! j).
Proof.
  intros Hs Hb Hun Hsalt Hnow Hset.
  assert (tables_ok (b + 1) (ensure s')) as Hs'.
  { destruct Hset as [(Hne & Hh & He)|He].
    - replace s' with (serve derive s (Signup handle password (Some salt), now)) by (cbn; by rewrite He).
      apply serve_ok; [done| |done..]. by split_and!.
    - replace s' with (serve derive s (SetPassword number password (Some salt), now)) by (cbn; by rewrite He).
      by apply serve_ok. }
  pose proof (is_loaded _ _ Hs) as Hld. destruct (derive_ok password salt Hsalt) as (hash & Hd & Hhash).
  destruct Hset as [(Hne & Hh & He)|He].
  - unfold ddial_member_signup in He. destruct (password_error password); [done|].
    destruct (ddial_member_find_handle_locked _ _) as [[]|]; [done|]. destruct (_ <=? _)%nat; [done|].
    rewrite Hd in He. injection He as <- <-. rewrite ensure_loaded_id in Hs' by done.
    exists (length (g_ddial_members (ensure s))),
      (new_member (next_number (g_ddial_members (ensure s))) handle salt hash now), hash. split_and!; [exact Hs'| |done|done|done|done|].
    + cbn. by rewrite list_lookup_middle.
    + intros j Hj. cbn [g_ddial_members ddial_members_save_locked with_files with_members].
      destruct (decide (j < length (g_ddial_members (ensure s)))%nat); [by apply lookup_app_l|].
      rewrite lookup_app_r by lia. rewrite (lookup_ge_None_2 (g_ddial_members (ensure s))) by lia.
      apply lookup_ge_None_2. simpl. lia.
  - unfold ddial_member_set_password in He. destruct (password_error password); [done|].
    pose proof (find_no_spec (ensure s) number) as Hf.
    destruct (ddial_member_find_no_locked (ensure s) number) as [[k m]|]; [|done].
    rewrite Hd in He. injection He as <-. rewrite ensure_loaded_id in Hs' by done. destruct Hf as [Hk Hn].
    exists k, (set_hash (set_salt m salt) hash), hash. split_and!; [exact Hs'| | | | |done|].
    + cbn. apply list_lookup_insert_eq. by eapply lookup_lt_Some.
    + done.
    + done.
    + done.
    + intros j Hj. cbn. by apply list_lookup_insert_ne.
Qed.

(** C9: Once a password is set for a member, by signing up or by changing it,
    exactly the passwords of the same hash open the account, at once and
    after a restart, and every other account opens with the passwords it
    opened with before. *)
Theorem password_opens n s handle password salt now s' number t :
  history n s -> Z.of_nat n < 4294967293 -> hash_ok 16 salt -> 0 <= now <= LONG_MAX ->
  password_set s handle password salt now s' number -> t = s' \/ t = restarted s' ->
  (forall q, is_Some (snd (ddial_member_authenticate derive t number q)) <-> derive q salt = derive password salt) /\
  (forall j q, 1 <= j -> j <> number ->
     snd (ddial_member_authenticate derive t j q) = snd (ddial_member_authenticate derive s j q)).
Proof.
  intros Hh Hn Hsalt Hnow Hset Ht. destruct (history_sound n s Hh) as [Hs Hun]; [lia|].
  destruct (password_set_member (Z.of_nat n + 1) s handle password salt now s' number)
    as (k & m & hash & Hs' & Hk & <- & <- & Hm & Hd & Hsame); try done; try lia.
  assert (tables_ok (Z.of_nat n + 1 + 1) (ensure t) /\ g_ddial_members (ensure t) = g_ddial_members s') as [Ht1 Ht2].
  { destruct Ht as [->| ->].
    - rewrite ensure_loaded_id by apply Hs'. done.
    - destruct (restart_tables _ s' Hs') as (H1 & H2 & _); [lia|]. done. }
  rewrite Hd. apply (opens_after (Z.of_nat n + 1) (Z.of_nat n + 1 + 1) s t k m password hash); try done.
  - by rewrite Ht2.
  - intros j Hj. rewrite Ht2. by apply Hsame.
Qed.

(** When the derivation fails the new salt stays in the record, so the old
    password is tried with it from then on. *)
Theorem failed_change_keeps_salt s number password salt k m :
  password_error password = None -> derive password salt = None ->
  ddial_member_find_no_locked (ensure s) number = Some (k, m) -> g_ddial_members_loaded s = true ->
  g_ddial_members s !! k = Some m ->
  let s' := fst (ddial_member_set_password derive s number password (Some salt)) in
  g_ddial_members s' !! k = Some (set_salt m salt).
Proof.
  intros Hp Hd Hf Hl Hk s'. subst s'. unfold ddial_member_set_password. rewrite Hp, Hf, Hd. cbn.
  rewrite ensure_loaded_id by done. apply list_lookup_insert_eq. by eapply lookup_lt_Some.
Qed.

(** *** Mail *)

Definition addressed (to : Z) (offline : bool) (m : ddial_mail) : Prop := ml_to m = to /\ ml_offline m = offline.
#[export] Instance addressed_dec to offline m : Decision (addressed to offline m).
Proof. unfold addressed. apply _. Defined.

Lemma addressed_bool to offline m :
  (ml_to m =? to) && Bool.eqb (ml_offline m) offline = true <-> addressed to offline m.
Proof. rewrite andb_true_iff, Z.eqb_eq, Bool.eqb_true_iff. done. Qed.

Lemma visit_spec s to offline :
  g_ddial_members_loaded (ensure s) = true ->
  let (s', out) := ddial_mail_visit s to offline true in
  out = filter (addressed to offline) (g_ddial_mail (ensure s)) /\
  g_ddial_mail s' = filter (fun m => ~ addressed to offline m) (g_ddial_mail (ensure s)) /\
  g_ddial_members_loaded s' = true.
Proof.
  intros Hl. unfold ddial_mail_visit. rewrite sift_spec. cbn [andb].
  rewrite (list_filter_iff (fun m => (ml_to m =? to) && Bool.eqb (ml_offline m) offline = true) (addressed to offline))
    by apply addressed_bool.
  rewrite (list_filter_iff (fun m => (ml_to m =? to) && Bool.eqb (ml_offline m) offline = false)
             (fun m => ~ addressed to offline m))
    by (intros m; rewrite <- addressed_bool, not_true_iff_false; done).
  destruct (_ =? _)%nat eqn:He; cbn [negb]; [|done]. apply Nat.eqb_eq in He. split_and!; [done| |done].
  symmetry. clear -He. induction (g_ddial_mail (ensure s)) as [|m l IHl]; [done|].
  destruct (decide (addressed to offline m)) as [Ha|Ha].
  - rewrite filter_cons_False in He by tauto. pose proof (length_filter (fun m => ~ addressed to offline m) l).
    simpl in He. lia.
  - rewrite filter_cons_True in * by done. simpl in He. f_equal. apply IHl. lia.
Qed.

(** Collecting mail hands over everything kept for the member in the order
    it was sent and takes it away: nothing is left to collect, not even after
    a restart, and what is kept for others, or as the other kind, stays. *)
Theorem mail_collected_once n s to offline s' out :
  history n s -> Z.of_nat n < 4294967293 -> ddial_mail_visit s to offline true = (s', out) ->
  out = filter (addressed to offline) (g_ddial_mail (ensure s)) /\
  g_ddial_mail (ensure (restarted s')) = filter (fun m => ~ addressed to offline m) (g_ddial_mail (ensure s)) /\
  snd (ddial_mail_visit (restarted s') to offline true) = [].
Proof.
  intros Hh Hn Hv. destruct (history_sound n s Hh) as [Hs Hun]; [lia|].
  assert (tables_ok (Z.of_nat n + 1 + 1) (ensure s')) as Hs'.
  { replace s' with (serve derive s (Visit to offline true, 0)) by (cbn; by rewrite Hv).
    apply serve_ok; try done; lia. }
  pose proof (visit_spec s to offline (is_loaded _ _ Hs)) as H. rewrite Hv in H. destruct H as (Ho & Hk & Hl).
  rewrite ensure_loaded_id in Hs' by done. destruct (restart_tables _ s' Hs') as (Hr & _ & Hm & _); [lia|].
  split; [done|]. split; [by rewrite Hm|].
  pose proof (visit_spec (restarted s') to offline (is_loaded _ _ Hr)) as H.
  destruct (ddial_mail_visit (restarted s') to offline true) as [s2 out2]. destruct H as (-> & _).
  rewrite Hm, Hk. cbn [snd]. clear. induction (g_ddial_mail (ensure s)) as [|m l IHl]; [done|].
  destruct (decide (addressed to offline m)) as [Ha|Ha].
  - rewrite (filter_cons_False (fun m => ~ _)) by tauto. done.
  - rewrite (filter_cons_True (fun m => ~ _)) by tauto. by rewrite filter_cons_False.
Qed.

End Accounts.

End Roll.

Module RollSamples.
Import Members Roll.

Definition sample_derive (password salt : bytes) : option bytes :=
  Some (map (fun b => u8 b) (take 32 (password ++ salt ++ replicate 32 0))).

Lemma sample_derive_ok password salt : hash_ok 16 salt ->
  exists hash, sample_derive password salt = Some hash /\ hash_ok 32 hash.
Proof.
  intros _. eexists. split; [done|]. split.
  - rewrite length_map, length_take, !length_app, length_replicate. lia.
  - apply Forall_map, Forall_true. intros b. unfold byte_ok. apply Z.mod_pos_bound. lia.
Qed.

Definition now : Z := 1700000000.
Definition salt : bytes := map Z.of_nat (seq 100 16).
Definition zoe : bytes := lit "Zoe".
Definition adam : bytes := lit "adam".
Definition first_password : bytes := lit "sesame".

Definition s1 : store := serve sample_derive nothing (Signup zoe first_password (Some salt), now).
Definition s2 : store := serve sample_derive s1 (Signup adam (lit "1234") (Some salt), now).
(** A note with a tab and a line break in it. *)
Definition s3 : store := serve sample_derive s2 (Send 1 2 (Some adam) (lit "one" ++ [9; 10] ++ lit "two") true, now).
Definition s4 : store := serve sample_derive s3 (Send 1 2 (Some adam) (lit "letter") false, now).

Ltac sample_text := split; [vm_compute; lia|repeat constructor; done].

Lemma sample_salt : hash_ok 16 salt.
Proof.
  split; [done|].
  apply Forall_forall. intros b Hb. unfold salt in Hb. apply list_elem_of_fmap in Hb as (k & -> & Hk).
  apply elem_of_seq in Hk. unfold byte_ok. lia.
Qed.

Lemma history_s2 : history sample_derive 2 s2.
Proof.
  assert (0 <= now <= LONG_MAX) as Hnow by (unfold now, LONG_MAX; lia).
  apply served; [apply served; [constructor| |done]| |done];
    (split; [done|split; [sample_text|exact sample_salt]]).
Qed.

Lemma history_s4 : history sample_derive 4 s4.
Proof.
  assert (0 <= now <= LONG_MAX) as Hnow by (unfold now, LONG_MAX; lia).
  apply served; [apply served; [exact history_s2| |done]| |done];
    (split; [lia|split; repeat constructor; done]).
Qed.



Theorem password_opens_witness :
  is_Some (snd (ddial_member_authenticate sample_derive (restarted s2) 2 (lit "1234"))) /\
  snd (ddial_member_authenticate sample_derive (restarted s2) 1 (lit "1234")) = None.
Proof.
  destruct (password_opens sample_derive sample_derive_ok 1 s1 adam (lit "1234") salt now s2 2 (restarted s2))
    as [Hown Hother].
  - apply served; [constructor| |unfold now, LONG_MAX; lia].
    split; [done|split; [sample_text|exact sample_salt]].
  - lia.
  - exact sample_salt.
  - unfold now, LONG_MAX. lia.
  - left. split; [done|]. split; [sample_text|by vm_compute].
  - by right.
  - split; [by apply Hown|]. rewrite Hother by lia. by vm_compute.
Defined.

Theorem mail_collected_once_witness :
  let '(s5, out) := ddial_mail_visit s4 1 true true in
  map ml_text out = [lit "one" ++ [9; 10] ++ lit "two"] /\ snd (ddial_mail_visit (restarted s5) 1 true true) = [].
Proof.
  destruct (ddial_mail_visit s4 1 true true) as [s5 out] eqn:Hv.
  destruct (mail_collected_once sample_derive sample_derive_ok 4 s4 1 true s5 out history_s4) as (-> & _ & Hnone);
    [lia|exact Hv|]. split; [by vm_compute|exact Hnone].
Defined.

End RollSamples.
