(* ===== verification/FileTransfer.v ===== *)
(** The file storage of the server ([src/host/file_transfer.c]): how a path
    given by a user becomes a path below the storage root, the SCP server, and
    the transparent byte channel the ZMODEM programs run over. *)

From Stdlib Require Import ZArith Lia String Ascii.
From stdpp Require Import prelude.
From S2P Require Import Prelude.

(** ** Paths *)

Module Paths.

Definition PATH_MAX : nat := Z.to_nat 4096.
Definition NAME_MAX : nat := Z.to_nat 255.

Definition is_slash (c : Z) : bool := c =? c_slash.
Definition is_blank (c : Z) : bool := (c =? c_space) || (c =? 9).

(** [snprintf(dst, cap, "%s", s) >= cap] is a failure: the text that was left
    whole, if it was. *)
Definition snprintf_whole (cap : nat) (s : bytes) : option bytes :=
  if (cap <=? length s)%nat then None else Some s.

Definition path_buffer_copy (dest_len : nat) (src : bytes) : option bytes :=
  if (dest_len =? 0)%nat then None
  else if (dest_len <=? length src)%nat then None else Some src.

Definition path_buffer_join (dest_len : nat) (base suffix : bytes) : option bytes :=
  if (dest_len =? 0)%nat then None
  else if (dest_len <=? length base)%nat || (dest_len <=? length suffix)%nat then None
  else if (dest_len <? length base + 1 + length suffix + 1)%nat then None
  else Some (base ++ c_slash :: suffix).

Definition trim_whitespace_inplace (text : bytes) : bytes :=
  strip_trailing isspace (skip_while isspace text).

(** [cursor] is at a component start or a separator; [saw] tells whether a
    component was passed.  Every round consumes a byte, so as many rounds as
    there are bytes are enough. *)
Fixpoint root_reference_go (fuel : nat) (virtual_path cursor : bytes) (saw : bool) : bool :=
  match fuel, cursor with
  | _, [] => saw
  | O, _ => false
  | S f, _ =>
      let cursor := skip_while is_slash cursor in
      match cursor with
      | [] => saw || existsb is_slash virtual_path
      | _ =>
          if bytes_eqb (take_while (fun c => negb (is_slash c)) cursor) (lit ".")
          then root_reference_go f virtual_path
                 (skip_while (fun c => negb (is_slash c)) cursor) true
          else false
      end
  end.

Definition file_transfer_is_root_reference (virtual_path : bytes) : bool :=
  root_reference_go (length virtual_path) virtual_path virtual_path false.

(** The loop over the components of the path: [None] is the early refusal,
    else the path cleaned of empty and [.] components. *)
Fixpoint sanitize_path_go (fuel : nat) (cursor sanitized : bytes) : option bytes :=
  match fuel, cursor with
  | _, [] => Some sanitized
  | O, _ => None
  | S f, _ =>
      let cursor := skip_while is_slash cursor in
      match cursor with
      | [] => Some sanitized
      | _ =>
          let component := take_while (fun c => negb (is_slash c)) cursor in
          let rest := skip_while (fun c => negb (is_slash c)) cursor in
          if (NAME_MAX <? length component)%nat then None
          else if bytes_eqb component (lit ".") then sanitize_path_go f rest sanitized
          else if bytes_eqb component (lit "..") then None
          else if (PATH_MAX <=? length sanitized + length component + 2)%nat then None
          else sanitize_path_go f rest
                 ((match sanitized with [] => [] | _ => sanitized ++ [c_slash] end) ++ component)
      end
  end.

(** The two fields of [host_t] about the storage. *)
Record storage := {
  file_storage_root : bytes;
  file_storage_ready : bool
}.

Definition file_storage_is_ready (h : storage) : bool :=
  file_storage_ready h && negb (bytes_eqb (file_storage_root h) []).

(** The path in the file system and the path shown to the user, which is only
    made when there is a buffer for it ([display_len] other than 0). *)
Definition file_transfer_resolve_path (h : storage) (virtual_path : bytes)
    (resolved_len display_len : nat) : option (bytes * option bytes) :=
  if (resolved_len =? 0)%nat then None
  else if negb (file_storage_is_ready h) then None
  else
    let working := trim_whitespace_inplace
                     (snprintf_text PATH_MAX (skip_while is_blank virtual_path)) in
    match working with
    | [] => None
    | _ =>
        match sanitize_path_go (length working) working [] with
        | None => None
        | Some [] =>
            if negb (file_transfer_is_root_reference working) then None
            else match path_buffer_copy resolved_len (file_storage_root h) with
                 | None => None
                 | Some resolved =>
                     if (display_len =? 0)%nat then Some (resolved, None)
                     else match snprintf_whole display_len [c_slash] with
                          | None => None
                          | Some d => Some (resolved, Some d)
                          end
                 end
        | Some sanitized =>
            match path_buffer_join resolved_len (file_storage_root h) sanitized with
            | None => None
            | Some resolved =>
                if (display_len =? 0)%nat then Some (resolved, None)
                else match snprintf_whole display_len (c_slash :: sanitized) with
                     | None => None
                     | Some d => Some (resolved, Some d)
                     end
            end
        end
    end.

Definition SSH_CHATTER_FILE_STORAGE_ROOT : bytes := lit "/etc/ssh-chatter/user-files".

(** The root taken from the environment; [ensure_directory] is whether
    [file_storage_ensure_directory] finds or makes the directory. *)
Definition host_file_storage_init (h : storage) (override_filestore override_legacy : option bytes)
    (ensure_directory : bytes -> bool) : bool * storage :=
  let given o := match o with Some (c :: t) => Some (c :: t) | _ => None end in
  let root := match given override_filestore with
              | Some r => r
              | None => match given override_legacy with
                        | Some r => r
                        | None => SSH_CHATTER_FILE_STORAGE_ROOT
                        end
              end in
  if negb (peek root =? c_slash) then
    (false, {| file_storage_root := []; file_storage_ready := false |})
  else match snprintf_whole PATH_MAX root with
       | None => (false, {| file_storage_root := []; file_storage_ready := false |})
       | Some r =>
           if ensure_directory r
           then (true, {| file_storage_root := r; file_storage_ready := true |})
           else (false, {| file_storage_root := r; file_storage_ready := false |})
       end.

(** *** The reference: a path is its list of components *)

Fixpoint join_slash (l : list bytes) : bytes :=
  match l with
  | [] => []
  | [c] => c
  | c :: t => c ++ c_slash :: join_slash t
  end.

(** The components that count: the maximal runs without a slash, dots left out. *)
Definition components (w : bytes) : list bytes :=
  List.filter (fun c => negb (bytes_eqb c (lit "."))) (strtok_all is_slash w).

(** A component the code lets through. *)
Definition component_ok (c : bytes) : Prop :=
  c <> [] /\ c <> lit "." /\ c <> lit ".." /\ ~ In c_slash c /\ (length c <= NAME_MAX)%nat.

Definition below (root : bytes) (cs : list bytes) : bytes :=
  match cs with [] => root | _ => root ++ c_slash :: join_slash cs end.

Definition shown (cs : list bytes) : bytes := c_slash :: join_slash cs.

(** What the user's text is reduced to before it is taken apart. *)
Definition working_of (v : bytes) : bytes :=
  trim_whitespace_inplace (take (PATH_MAX - 1) (skip_while is_blank v)).

Definition refused (c : bytes) : bool :=
  bytes_eqb c (lit "..") || (NAME_MAX <? length c)%nat.

Definition resolve_ref (h : storage) (v : bytes) (resolved_len display_len : nat) :
    option (bytes * option bytes) :=
  let cs := components (working_of v) in
  if negb (file_storage_is_ready h) || bytes_eqb (working_of v) [] || existsb refused cs
     || (resolved_len <=? length (below (file_storage_root h) cs))%nat
  then None
  else if (display_len =? 0)%nat then Some (below (file_storage_root h) cs, None)
  else if (display_len <=? length (shown cs))%nat then None
  else Some (below (file_storage_root h) cs, Some (shown cs)).

(** *** Tokens, components and the joined path *)

Lemma strtok_go_split sep s tok : tok <> [] ->
  strtok_go sep s tok =
  (rev tok ++ take_while (fun c => negb (sep c)) s)
    :: strtok_all sep (skip_while (fun c => negb (sep c)) s).
Proof.
  revert tok; induction s as [|c s IH]; intros tok Ht; simpl.
  - destruct tok; [done|]. by rewrite app_nil_r.
  - destruct (sep c) eqn:Hc; simpl.
    + destruct tok; [done|]. rewrite app_nil_r. unfold strtok_all. simpl. by rewrite Hc.
    + rewrite IH by done. simpl. by rewrite <- app_assoc.
Qed.

Lemma strtok_all_skip sep s : strtok_all sep (skip_while sep s) = strtok_all sep s.
Proof.
  unfold strtok_all. induction s as [|c s IH]; simpl; [done|].
  destruct (sep c) eqn:Hc; [done|]. simpl. by rewrite Hc.
Qed.

Lemma strtok_all_cons sep c s : sep c = false ->
  strtok_all sep (c :: s) =
  take_while (fun c => negb (sep c)) (c :: s)
    :: strtok_all sep (skip_while (fun c => negb (sep c)) (c :: s)).
Proof.
  intros Hc. unfold strtok_all at 1. simpl. rewrite Hc. simpl.
  by rewrite strtok_go_split.
Qed.

Lemma skip_while_head f s c t : skip_while f s = c :: t -> f c = false.
Proof.
  induction s as [|d s IH]; simpl; [done|]. destruct (f d) eqn:Hd; [done|]. by intros [= -> _].
Qed.

Lemma take_while_true f s : Forall (fun c => f c = true) (take_while f s).
Proof. induction s as [|c s IH]; simpl; [done|]. destruct (f c) eqn:Hc; by constructor. Qed.

Lemma strtok_all_tokens sep s :
  Forall (fun t => t <> [] /\ Forall (fun c => sep c = false) t) (strtok_all sep s).
Proof.
  remember (length s) as n eqn:Hn. revert s Hn.
  induction n as [n IH] using lt_wf_ind; intros s ->.
  rewrite <- strtok_all_skip. destruct (skip_while sep s) as [|c t] eqn:Hs; [constructor|].
  apply skip_while_head in Hs as Hc. rewrite strtok_all_cons by done. constructor.
  - split; [simpl; by rewrite Hc|].
    eapply Forall_impl; [apply take_while_true|]. intros d Hd. by apply negb_true_iff.
  - eapply IH; [|done]. simpl. rewrite Hc. simpl.
    pose proof (skip_while_length (fun c => negb (sep c)) t).
    pose proof (skip_while_length sep s) as Hl. rewrite Hs in Hl. simpl in Hl. lia.
Qed.

Lemma join_slash_snoc l c : l <> [] ->
  join_slash (l ++ [c]) = join_slash l ++ c_slash :: c.
Proof.
  induction l as [|d l IH]; intros Hl; [done|]. destruct l as [|e l]; [done|].
  change (join_slash ((d :: e :: l) ++ [c])) with (d ++ c_slash :: join_slash ((e :: l) ++ [c])).
  rewrite IH by done. simpl. by rewrite <- app_assoc.
Qed.

Lemma join_slash_length_app l1 l2 : (length (join_slash l1) <= length (join_slash (l1 ++ l2)))%nat.
Proof.
  induction l1 as [|c l1 IH]; simpl; [lia|]. destruct l1 as [|d l1]; simpl in *.
  - destruct l2; simpl; [lia|]. rewrite length_app. lia.
  - rewrite !length_app. simpl. lia.
Qed.

Lemma join_slash_nil l : Forall (fun c : bytes => c <> []) l -> join_slash l = [] -> l = [].
Proof.
  intros Hl. destruct l as [|c l]; [done|]. apply Forall_cons in Hl as [Hc _].
  simpl. destruct l; [done|]. by destruct c.
Qed.

(** The components and what is left of them after one. *)
Lemma components_step s :
  components s =
  match skip_while is_slash s with
  | [] => []
  | r =>
      let c := take_while (fun c => negb (is_slash c)) r in
      let cs := components (skip_while (fun c => negb (is_slash c)) r) in
      if bytes_eqb c (lit ".") then cs else c :: cs
  end.
Proof.
  unfold components at 1. rewrite <- strtok_all_skip.
  destruct (skip_while is_slash s) as [|c t] eqn:Hs; [done|].
  rewrite strtok_all_cons by (by eapply skip_while_head).
  cbn zeta. cbn [List.filter]. fold (components (skip_while (fun c => negb (is_slash c)) (c :: t))).
  by destruct (bytes_eqb _ _).
Qed.

Lemma components_ok s : existsb refused (components s) = false -> Forall component_ok (components s).
Proof.
  intros Hr. apply Forall_forall. intros c Hc.
  assert (refused c = false) as Hrc.
  { destruct (refused c) eqn:E; [|done]. exfalso. rewrite <- not_true_iff_false in Hr.
    apply Hr, existsb_exists. exists c. split; [by apply list_elem_of_In|done]. }
  unfold refused in Hrc. apply orb_false_iff in Hrc as [Hdd Hlen].
  apply list_elem_of_In, List.filter_In in Hc as [Hc Hdot].
  pose proof (strtok_all_tokens is_slash s) as Ht. rewrite List.Forall_forall in Ht.
  destruct (Ht c Hc) as [Hne Hns]. rewrite List.Forall_forall in Hns. bprop.
  repeat split; [done|done|done| |lia].
  intros Hin. apply Hns in Hin. done.
Qed.

Lemma rest_shorter f s c t : skip_while is_slash s = c :: t -> is_slash c = false ->
  f = (fun c => negb (is_slash c)) -> (length (skip_while f (c :: t)) < length s)%nat.
Proof.
  intros Hs Hc ->. pose proof (skip_while_length is_slash s) as Hl. rewrite Hs in Hl.
  cbn [skip_while]. rewrite Hc. simpl in *.
  pose proof (skip_while_length (fun c => negb (is_slash c)) t). lia.
Qed.

(** What the loop over the components returns. *)
Lemma sanitize_path_go_spec fuel s acc :
  (length s <= fuel)%nat -> Forall (fun c : bytes => c <> []) acc ->
  match sanitize_path_go fuel s (join_slash acc) with
  | Some r => existsb refused (components s) = false /\ r = join_slash (acc ++ components s)
  | None => existsb refused (components s) = true \/
            (PATH_MAX <= length (join_slash (acc ++ components s)) + 1)%nat
  end.
Proof.
  revert s acc; induction fuel as [|f IH]; intros s acc Hf Hacc.
  { destruct s; [|simpl in Hf; lia]. simpl. by rewrite app_nil_r. }
  destruct s as [|s0 s']; [simpl; by rewrite app_nil_r|].
  set (s := s0 :: s') in *. cbn [sanitize_path_go]. unfold s at 1. fold s.
  rewrite (components_step s).
  destruct (skip_while is_slash s) as [|c t] eqn:Hs; [by rewrite app_nil_r|].
  apply skip_while_head in Hs as Hc.
  pose proof (rest_shorter _ s c t Hs Hc eq_refl) as Hl.
  cbn zeta. set (comp := take_while (fun c => negb (is_slash c)) (c :: t)).
  set (rest := skip_while (fun c => negb (is_slash c)) (c :: t)) in *.
  assert (comp <> []) as Hcomp by (unfold comp; simpl; by rewrite Hc).
  destruct (bytes_eqb comp (lit ".")) eqn:Hdot.
  { apply bytes_eqb_eq in Hdot. rewrite Hdot.
    change (NAME_MAX <? length (lit "."))%nat with false. cbv iota.
    apply IH; [lia|done]. }
  cbn [existsb]. unfold refused at 1 3.
  destruct (NAME_MAX <? length comp)%nat eqn:Hlen; [left; by rewrite orb_true_r|].
  destruct (bytes_eqb comp (lit "..")) eqn:Hdd; [by left|]. cbn [orb].
  bprop.
  destruct (PATH_MAX <=? length (join_slash acc) + length comp + 2)%nat eqn:Hm; bprop.
  - right. destruct acc as [|a acc].
    + simpl in Hm. unfold PATH_MAX, NAME_MAX in *. lia.
    + rewrite (cons_middle comp), (app_assoc (a :: acc)).
      pose proof (join_slash_length_app ((a :: acc) ++ [comp]) (components rest)) as Hj.
      rewrite join_slash_snoc, length_app in Hj by done. cbn [length] in Hj.
      clearbody comp rest. lia.
  - replace ((match join_slash acc with [] => [] | _ => join_slash acc ++ [c_slash] end) ++ comp)
      with (join_slash (acc ++ [comp])).
    + rewrite (cons_middle comp acc (components rest)), (app_assoc acc [comp] (components rest)).
      apply IH; [lia|]. apply Forall_app; split; [done|by constructor].
    + destruct acc as [|a acc]; [done|]. rewrite join_slash_snoc by done.
      destruct (join_slash (a :: acc)) eqn:E; [|by rewrite <- E, <- app_assoc].
      by apply join_slash_nil in E.
Qed.

(** A text without components is a root reference, unless it is empty. *)
Lemma root_reference_go_nil fuel p s saw :
  (length s <= fuel)%nat -> components s = [] -> (s <> [] \/ saw = true) ->
  root_reference_go fuel (p ++ s) s saw = true.
Proof.
  revert p s saw; induction fuel as [|f IH]; intros p s saw Hf Hs Hv.
  { destruct s; [|simpl in Hf; lia]. simpl. by destruct Hv. }
  destruct s as [|s0 s']; [simpl; by destruct Hv|].
  set (s := s0 :: s') in *. cbn [root_reference_go]. unfold s at 1. fold s.
  rewrite components_step in Hs.
  destruct (skip_while is_slash s) as [|c t] eqn:Hsk.
  - rewrite existsb_app. replace (existsb is_slash s) with true; [by rewrite !orb_true_r|].
    unfold s in Hsk |- *. simpl in Hsk |- *. by destruct (is_slash s0).
  - pose proof (take_skip_while is_slash s) as Hsplit. rewrite Hsk in Hsplit.
    apply skip_while_head in Hsk as Hc.
    pose proof (rest_shorter _ s c t Hsk Hc eq_refl) as Hl.
    pose proof (take_skip_while (fun c => negb (is_slash c)) (c :: t)) as Hct.
    cbn zeta in Hs.
    destruct (bytes_eqb (take_while (fun c => negb (is_slash c)) (c :: t)) (lit ".")); [|done].
    set (rest := skip_while (fun c => negb (is_slash c)) (c :: t)) in *.
    replace (p ++ s)
      with ((p ++ take_while is_slash s ++ take_while (fun c => negb (is_slash c)) (c :: t)) ++ rest)
      by (by rewrite <- !app_assoc, Hct, Hsplit).
    apply IH; [lia|done|by right].
Qed.

Lemma is_root_reference_nil s : s <> [] -> components s = [] ->
  file_transfer_is_root_reference s = true.
Proof. intros Hne Hs. apply (root_reference_go_nil _ [] s false); auto. Qed.

Lemma below_length h cs :
  (length (below h cs) =
   length h + match cs with [] => 0 | _ => 1 + length (join_slash cs) end)%nat.
Proof. unfold below. destruct cs; [lia|]. rewrite length_app. simpl. lia. Qed.

Lemma path_buffer_join_below cap root cs : cs <> [] ->
  path_buffer_join cap root (join_slash cs) =
  if (cap <=? length (below root cs))%nat then None else Some (below root cs).
Proof.
  intros Hcs. rewrite below_length. unfold path_buffer_join.
  destruct cs as [|c cs]; [done|]. unfold below.
  repeat case_match; bprop; try done; try lia.
Qed.

Lemma path_buffer_copy_below cap root :
  path_buffer_copy cap root = if (cap <=? length (below root []))%nat then None else Some root.
Proof. unfold path_buffer_copy, below. repeat case_match; bprop; try done; lia. Qed.

(** Refusing [..], over-long components and a path that does not fit is all
    the loop of the code does: the tests on the way and the final test for a
    reference to the root never decide anything else. *)
Lemma resolve_path_spec h v resolved_len display_len : (resolved_len <= PATH_MAX)%nat ->
  file_transfer_resolve_path h v resolved_len display_len = resolve_ref h v resolved_len display_len.
Proof.
  intros Hcap. unfold file_transfer_resolve_path, resolve_ref. cbn zeta.
  unfold snprintf_text. fold (working_of v). set (w := working_of v).
  assert (file_storage_is_ready h = true -> file_storage_root h <> []) as Hroot.
  { unfold file_storage_is_ready. intros Hr. bprop. by destruct Hr. }
  destruct (Nat.eqb_spec resolved_len 0) as [->|Hpos]; [by rewrite !orb_true_r|].
  destruct (file_storage_is_ready h); [|done]. cbn [negb orb].
  specialize (Hroot eq_refl).
  destruct w as [|w0 w'] eqn:Hw; [done|]. rewrite <- Hw.
  replace (bytes_eqb w []) with false by (rewrite Hw; symmetry; by apply bytes_eqb_neq).
  cbn [orb].
  pose proof (sanitize_path_go_spec (length w) w [] (le_n _) (Forall_nil_2 _)) as Hgo.
  change (join_slash []) with ([] : bytes) in Hgo. rewrite app_nil_l in Hgo.
  destruct (sanitize_path_go (length w) w []) as [r|].
  2:{ destruct Hgo as [->|Hlen]; [done|]. rewrite below_length.
      destruct (components w) as [|c cs] eqn:Hcs; [simpl in Hlen; unfold PATH_MAX in Hlen; lia|].
      rewrite <- Hcs in *. assert (0 < length (file_storage_root h))%nat
        by (destruct (file_storage_root h); [done|simpl; lia]).
      destruct (_ <=? _)%nat eqn:E; [by rewrite orb_true_r|]. bprop. lia. }
  destruct Hgo as [Hr ->]. rewrite Hr. cbn [orb].
  apply components_ok in Hr.
  destruct (components w) as [|c cs] eqn:Hcs; cbn [join_slash].
  - rewrite is_root_reference_nil by (done || by rewrite Hw). cbn [negb].
    rewrite path_buffer_copy_below. destruct (resolved_len <=? _)%nat; [done|].
    unfold snprintf_whole, shown. cbn [join_slash]. destruct (display_len =? 0)%nat; [done|].
    by destruct (display_len <=? _)%nat.
  - destruct (match cs with [] => c | _ => c ++ c_slash :: join_slash cs end) eqn:Hj.
    { apply (join_slash_nil (c :: cs)) in Hj; [done|].
      eapply Forall_impl; [done|]. by intros ? (? & _). }
    rewrite <- Hj. change (match cs with [] => c | _ => c ++ c_slash :: join_slash cs end)
      with (join_slash (c :: cs)).
    rewrite path_buffer_join_below by done. destruct (resolved_len <=? _)%nat; [done|].
    unfold snprintf_whole, shown. destruct (display_len =? 0)%nat; [done|].
    by destruct (display_len <=? _)%nat.
Qed.

Lemma refused_ok cs : Forall component_ok cs -> existsb refused cs = false.
Proof.
  induction 1 as [|c cs (_ & _ & Hdd & _ & Hl) _ IH]; [done|]. simpl. rewrite IH, orb_false_r.
  unfold refused. apply bytes_eqb_neq in Hdd. rewrite Hdd. apply Nat.ltb_ge. lia.
Qed.

(** A component at the front of a path. *)
Lemma components_front c r : c <> [] -> ~ In c_slash c -> (r = [] \/ peek r = c_slash) ->
  components (c ++ r) = if bytes_eqb c (lit ".") then components r else c :: components r.
Proof.
  intros Hne Hns Hr.
  assert (Forall (fun d => negb (is_slash d) = true) c) as Hall.
  { apply List.Forall_forall. intros d Hd. apply negb_true_iff, Z.eqb_neq. by intros ->. }
  assert (take_while (fun d => negb (is_slash d)) (c ++ r) = c) as Ht.
  { destruct r as [|d r]; [by rewrite app_nil_r, take_while_all|].
    destruct Hr as [?|Hr]; [done|]. simpl in Hr. subst d. by apply take_while_stop. }
  assert (skip_while (fun d => negb (is_slash d)) (c ++ r) = r) as Hs.
  { rewrite skip_while_app by done. destruct Hr as [-> |Hr]; [done|].
    apply skip_while_stop. by rewrite Hr. }
  rewrite components_step, skip_while_stop.
  - destruct (c ++ r) as [|x y] eqn:E; [by destruct c|]. cbn zeta. by rewrite Ht, Hs.
  - destruct c as [|d c]; [done|]. apply Z.eqb_neq. simpl. intros ->. apply Hns. by left.
Qed.

Lemma components_slash s : components (c_slash :: s) = components s.
Proof. by rewrite components_step, (components_step s). Qed.

Lemma components_join cs : Forall component_ok cs -> components (join_slash cs) = cs.
Proof.
  induction 1 as [|c cs (Hne & Hdot & _ & Hns & _) Hcs IH]; [done|].
  apply bytes_eqb_neq in Hdot. destruct cs as [|e cs].
  - cbn [join_slash]. rewrite <- (app_nil_r c) at 1. rewrite components_front by auto. by rewrite Hdot.
  - change (join_slash (c :: e :: cs)) with (c ++ c_slash :: join_slash (e :: cs)).
    rewrite components_front by auto. by rewrite Hdot, components_slash, IH.
Qed.

Lemma components_shown cs : Forall component_ok cs -> components (shown cs) = cs.
Proof.
  intros Hcs. unfold shown. by rewrite components_slash, components_join.
Qed.

Lemma strip_trailing_last f s c : f c = false -> strip_trailing f (s ++ [c]) = s ++ [c].
Proof.
  intros Hc. unfold strip_trailing. rewrite rev_app_distr. simpl. rewrite Hc. simpl.
  by rewrite rev_involutive.
Qed.

Lemma working_of_plain v : isspace (peek v) = false -> isspace (List.last v c_nul) = false ->
  (length v < PATH_MAX)%nat -> working_of v = v.
Proof.
  intros Hf Hl Hn. unfold working_of.
  assert (is_blank (peek v) = false) as Hb.
  { unfold is_blank, isspace in *. bprop. lia. }
  rewrite skip_while_stop by done. rewrite take_ge by lia.
  unfold trim_whitespace_inplace. rewrite skip_while_stop by done.
  destruct v as [|c v] using rev_ind; [done|]. rewrite List.last_last in Hl.
  by apply strip_trailing_last.
Qed.

(** C29: exactly when and to what a path of a user resolves: the storage is
    ready, there is text, none of the components between slashes is [..] or
    too long, and the path fits; it is then the root followed by the
    components left, none of which is empty, a dot or two dots or holds a
    slash, so that it stays below the root. *)
Theorem resolve_confined h v resolved_len display_len r d :
  (resolved_len <= PATH_MAX)%nat ->
  file_transfer_resolve_path h v resolved_len display_len = Some (r, d) <->
  exists cs, cs = components (working_of v) /\ Forall component_ok cs /\
    file_storage_is_ready h = true /\ working_of v <> [] /\
    r = below (file_storage_root h) cs /\ (length r < resolved_len)%nat /\
    (if (display_len =? 0)%nat then d = None
     else d = Some (shown cs) /\ (length (shown cs) < display_len)%nat).
Proof.
  intros Hcap. rewrite resolve_path_spec by done. unfold resolve_ref. cbn zeta.
  remember (components (working_of v)) as cs eqn:Hcs. split.
  - intros H. exists cs. destruct (_ || _) eqn:E; [done|].
    rewrite !orb_false_iff, negb_false_iff, bytes_eqb_neq, Nat.leb_gt in E.
    destruct E as [[[? ?] ?] ?].
    assert (Forall component_ok cs) by (subst cs; by apply components_ok).
    destruct (display_len =? 0)%nat.
    { injection H as <- <-. split_and!; done. }
    destruct (display_len <=? length (shown cs))%nat eqn:Hd; [done|]. apply Nat.leb_gt in Hd.
    injection H as <- <-. split_and!; done.
  - intros (cs' & -> & Hok & -> & Hw & -> & Hr & Hd).
    apply bytes_eqb_neq in Hw. rewrite Hw, refused_ok by done. cbn [negb orb].
    destruct (_ <=? _)%nat eqn:E; [bprop; lia|].
    destruct (display_len =? 0)%nat; [by subst|]. destruct Hd as [-> Hd].
    destruct (display_len <=? _)%nat eqn:Hle; [bprop; lia|done].
Qed.

(** A resolved path lies below the root. *)
Lemma resolve_below h v resolved_len display_len r d : (resolved_len <= PATH_MAX)%nat ->
  file_transfer_resolve_path h v resolved_len display_len = Some (r, d) ->
  exists cs, Forall component_ok cs /\ r = below (file_storage_root h) cs.
Proof.
  intros Hcap. rewrite resolve_path_spec by done. unfold resolve_ref. cbn zeta.
  destruct (_ || _) eqn:Hg; [done|]. rewrite !orb_false_iff in Hg. destruct Hg as [[_ Hr] _].
  apply components_ok in Hr. intros H. exists (components (working_of v)).
  split; [done|]. repeat case_match; by simplify_eq.
Qed.

(** The path shown to a user names the same file again, unless it ends in
    white space, which a path typed in loses. *)
Theorem resolve_shown_again h v resolved_len display_len r s :
  (resolved_len <= PATH_MAX)%nat -> (display_len <= PATH_MAX)%nat ->
  file_transfer_resolve_path h v resolved_len display_len = Some (r, Some s) ->
  isspace (List.last s c_nul) = false ->
  file_transfer_resolve_path h s resolved_len display_len = Some (r, Some s).
Proof.
  intros Hcap Hdc. rewrite !resolve_path_spec by done. unfold resolve_ref. cbn zeta.
  set (cs := components (working_of v)).
  destruct (_ || _) eqn:E; [done|].
  rewrite !orb_false_iff, negb_false_iff, bytes_eqb_neq in E. destruct E as [[[Hrdy ?] Href] Hfit].
  assert (Forall component_ok cs) as Hok by (by apply components_ok).
  destruct (display_len =? 0)%nat; [done|].
  destruct (display_len <=? length (shown cs))%nat eqn:Hd; [done|]. intros [= <- <-] Hl.
  apply Nat.leb_gt in Hd as Hd'. rewrite working_of_plain by (done || lia).
  rewrite components_shown by done. rewrite Hrdy, Href, Hfit, Hd. done.
Qed.

End Paths.

(** ** The SCP server *)

Module Scp.
Import Paths.

Inductive scp_mode_t := SCP_MODE_UPLOAD | SCP_MODE_DOWNLOAD.

(** *** The command *)

Definition harmless_flag (opt : Z) : bool :=
  existsb (Z.eqb opt) (lit "dprv").

(** A bundle of flags after a dash: the mode it leaves, [None] where a flag is
    refused. *)
Fixpoint scan_flags (p : bytes) (mode : option scp_mode_t) : option (option scp_mode_t * bytes) :=
  match p with
  | [] => Some (mode, [])
  | opt :: t =>
      if is_blank opt then Some (mode, p)
      else if opt =? 116 then scan_flags t (Some SCP_MODE_UPLOAD)
      else if opt =? 102 then scan_flags t (Some SCP_MODE_DOWNLOAD)
      else if harmless_flag opt then scan_flags t mode
      else None
  end.

(** A token up to its closing quote, or up to a blank without one; [None] when
    it outgrows its buffer. *)
Fixpoint scan_token (p : bytes) (quote : option Z) (token : bytes) : option (bytes * bytes) :=
  match p with
  | [] => Some (token, [])
  | c :: t =>
      let more := if (PATH_MAX <=? length token + 1)%nat then None
                  else scan_token t quote (token ++ [c]) in
      match quote with
      | Some q => if c =? q then Some (token, t) else more
      | None => if is_blank c then Some (token, p) else more
      end
  end.

(** The loop over the words after [scp]; every round consumes a byte. *)
Fixpoint scp_words (fuel : nat) (cursor : bytes) (end_of_options : bool)
    (mode : option scp_mode_t) (path : option bytes) (path_length : nat) :
    option (option scp_mode_t * option bytes) :=
  match fuel, cursor with
  | _, [] => Some (mode, path)
  | O, _ => None
  | S f, _ =>
      match skip_while is_blank cursor with
      | [] => Some (mode, path)
      | c :: t =>
          if negb end_of_options && (c =? c_minus) then
            match t with
            | d :: t' =>
                if d =? c_minus then scp_words f t' true mode path path_length
                else match scan_flags t mode with
                     | None => None
                     | Some (mode, rest) => scp_words f rest end_of_options mode path path_length
                     end
            | [] => scp_words f [] end_of_options mode path path_length
            end
          else match path with
               | Some _ => None
               | None =>
                   let quoted := (c =? 39) || (c =? c_dquote) in
                   match (if quoted then scan_token t (Some c) [] else scan_token (c :: t) None []) with
                   | None => None
                   | Some ([], rest) => scp_words f rest end_of_options mode path path_length
                   | Some (token, rest) =>
                       match snprintf_whole path_length token with
                       | None => None
                       | Some p => scp_words f rest true mode (Some p) path_length
                       end
                   end
               end
      end
  end.

Definition scp_parse_command (command : bytes) (path_length : nat) : option (scp_mode_t * bytes) :=
  if (path_length =? 0)%nat then None
  else
    let cursor := skip_while is_blank command in
    if negb (is_prefix (lit "scp") cursor) then None
    else
      let cursor := drop 3 cursor in
      match scp_words (length cursor) cursor false None None path_length with
      | Some (Some mode, Some path) => Some (mode, path)
      | _ => None
      end.

(** *** The channel *)

(** What the peer sends is an argument: the pieces in which [ssh_channel_read]
    hands it over, an empty one for an error, none left at the end of the
    stream.  So is how much each [ssh_channel_write] accepts: the numbers of
    [ch_accept], 0 for an error, and everything once they are used up. *)
Record channel := {
  ch_in : list bytes;
  ch_accept : list nat;
  ch_out : bytes
}.

Definition with_in (l : list bytes) (ch : channel) : channel :=
  {| ch_in := l; ch_accept := ch_accept ch; ch_out := ch_out ch |}.

(** At most [length] bytes; nothing for [read_len <= 0]. *)
Definition scp_channel_read (len : nat) (ch : channel) : bytes * channel :=
  match ch_in ch with
  | [] => ([], ch)
  | p :: t =>
      (take len p, with_in (match drop len p with [] => t | r => r :: t end) ch)
  end.

(** One [ssh_channel_write] of [data]: how many bytes it took. *)
Definition ssh_channel_write (data : bytes) (ch : channel) : nat * channel :=
  match ch_accept ch with
  | [] => (length data, {| ch_in := ch_in ch; ch_accept := []; ch_out := ch_out ch ++ data |})
  | n :: a =>
      (Nat.min n (length data),
       {| ch_in := ch_in ch; ch_accept := a; ch_out := ch_out ch ++ take n data |})
  end.

(** The loop until all is written; every round takes a byte at least. *)
Fixpoint write_all_go (fuel : nat) (data : bytes) (ch : channel) : bool * channel :=
  match fuel, data with
  | _, [] => (true, ch)
  | O, _ => (false, ch)
  | S f, _ =>
      let '(written, ch) := ssh_channel_write data ch in
      if (written =? 0)%nat then (false, ch) else write_all_go f (drop written data) ch
  end.

Definition scp_channel_write_all (data : bytes) (ch : channel) : bool * channel :=
  write_all_go (length data) data ch.

Definition SCP_MESSAGE_LIMIT : nat := Z.to_nat 4096.

Definition scp_send_status (code : Z) (message : option bytes) (ch : channel) : bool * channel :=
  let '(n, ch) := ssh_channel_write [code] ch in
  if negb (n =? 1)%nat then (false, ch)
  else match message with
       | Some (c :: t) =>
           let '(ok, ch) :=
             scp_channel_write_all (take (SCP_MESSAGE_LIMIT - 1) (c :: t)) ch in
           if negb ok then (false, ch) else scp_channel_write_all [c_lf] ch
       | _ => (true, ch)
       end.

Definition scp_expect_byte (ch : channel) : option Z * channel :=
  let '(p, ch) := scp_channel_read 1 ch in
  match p with c :: _ => (Some c, ch) | [] => (None, ch) end.

Definition scp_expect_ok (ch : channel) : bool * channel :=
  let '(b, ch) := scp_expect_byte ch in
  (match b with Some c => c =? 0 | None => false end, ch).

Definition scp_send_ok (ch : channel) : bool * channel := scp_channel_write_all [0] ch.

(** *** Receiving a file *)

Definition FILE_TRANSFER_BUFFER : Z := 65536.

(** The header line: [None] when the stream ends in it; it is cut off when the
    buffer is full. *)
Fixpoint read_header (room : nat) (header : bytes) (ch : channel) : option bytes * channel :=
  match room with
  | O => (Some header, ch)
  | S r =>
      match scp_expect_byte ch with
      | (None, ch) => (None, ch)
      | (Some c, ch) => if c =? c_lf then (Some header, ch) else read_header r (header ++ [c]) ch
      end
  end.

(** [sscanf]'s [%<n>s] and [%llu]. *)
Definition scan_word (n : nat) (p : bytes) : option (bytes * bytes) :=
  let q := skip_while isspace p in
  match take n (take_while (fun c => negb (isspace c)) q) with
  | [] => None
  | w => Some (w, drop (length w) q)
  end.

Definition scan_llu (p : bytes) : option (Z * bytes) :=
  let q := skip_while isspace p in
  let r := if (peek q =? c_minus) || (peek q =? c_plus) then drop 1 q else q in
  if isdigit (peek r) then Some (strtoul q) else None.

(** [sscanf(header, "C%7s %llu %1023s", mode, &size, filename) == 3]: the
    announced size, the only part that is used. *)
Definition header_size (header : bytes) : option Z :=
  match scan_word 7 (drop 1 header) with
  | None => None
  | Some (_, p) =>
      match scan_llu p with
      | None => None
      | Some (size, p) =>
          match scan_word (Z.to_nat 1023) p with
          | None => None
          | Some _ => Some size
          end
      end
  end.

(** The file system seen by one upload: whether the directory and the file
    can be made, and how many bytes [write] takes before it falls short. *)
Record disk := {
  disk_parent : bool;
  disk_open : bool;
  disk_room : nat
}.

(** The loop over the announced bytes: what was written, whether it was all,
    and how it failed.  A round that goes on consumes a byte of the stream. *)
Fixpoint receive_go (fuel : nat) (room : nat) (remaining : Z) (file : bytes) (ch : channel) :
    bool * bytes * channel :=
  if remaining <=? 0 then (true, file, ch)
  else match fuel with
       | O => (false, file, ch)
       | S f =>
           let '(p, ch) := scp_channel_read (Z.to_nat (Z.min remaining FILE_TRANSFER_BUFFER)) ch in
           match p with
           | [] => (false, file, ch)
           | _ =>
               if (room <? length p)%nat then
                 let '(_, ch) :=
                   scp_send_status 2 (Some (lit "Failed writing destination file.")) ch in
                 (false, file ++ take room p, ch)
               else receive_go f (room - length p) (remaining - Z.of_nat (length p)) (file ++ p) ch
           end
       end.

(** As many rounds as the stream has bytes, and one for its end. *)
Definition receive (room : nat) (size : Z) (ch : channel) : bool * bytes * channel :=
  receive_go (S (length (mjoin (ch_in ch)))) room size [] ch.

Definition fail_with (message : string) (file : option bytes) (ch : channel) :
    bool * option bytes * channel :=
  let '(_, ch) := scp_send_status 2 (Some (lit message)) ch in (false, file, ch).

(** Whether it returns 0, and what the target file holds when it was opened. *)
Definition scp_handle_upload (h : storage) (d : disk) (ch : channel) : bool * option bytes * channel :=
  if negb (file_storage_is_ready h) then fail_with "File storage unavailable." None ch
  else if negb (disk_parent d) then fail_with "Unable to create destination directory." None ch
  else
    let '(ok, ch) := scp_send_ok ch in
    if negb ok then (false, None, ch)
    else match read_header (PATH_MAX - 1) [] ch with
         | (None, ch) => (false, None, ch)
         | (Some line, ch) =>
             let header := take_while (fun c => negb (c =? c_nul)) line in
             if negb (peek header =? 67) then
               fail_with "Only regular file uploads are supported." None ch
             else match header_size header with
                  | None => fail_with "Malformed SCP header." None ch
                  | Some size =>
                      if negb (disk_open d) then
                        fail_with "Unable to open target for writing." None ch
                      else
                        let '(ok, ch) := scp_send_ok ch in
                        if negb ok then (false, Some [], ch)
                        else match receive (disk_room d) size ch with
                             | (false, file, ch) => (false, Some file, ch)
                             | (true, file, ch) =>
                                 let '(ok, ch) := scp_expect_ok ch in
                                 if negb ok then fail_with "Sender aborted transfer." (Some file) ch
                                 else (true, Some file, ch)
                             end
                  end
         end.

(** *** Sending a file *)

(** What [stat], [open] and [read] answer for the file: its mode and size when
    it is a regular one, whether it opens, and the pieces it is read in, with
    an error at their end or not. *)
Record source := {
  src_stat : option (Z * Z);
  src_open : bool;
  src_reads : list bytes;
  src_error : bool
}.

(** [%04o] of the permission bits. *)
Definition octal4 (m : Z) : bytes :=
  [48 + m / 512 mod 8; 48 + m / 64 mod 8; 48 + m / 8 mod 8; 48 + m mod 8].

Definition basename_of (path : bytes) : bytes :=
  rev (take_while (fun c => negb (is_slash c)) (rev path)).

Definition file_header (mode size : Z) (path : bytes) : bytes :=
  lit "C" ++ octal4 (Z.land mode 511) ++ [c_space] ++ dec size ++ [c_space]
    ++ basename_of path ++ [c_lf].

(** The read loop; a read of nothing ends it. *)
Fixpoint send_pieces (reads : list bytes) (ch : channel) : bool * channel :=
  match reads with
  | [] | [] :: _ => (true, ch)
  | p :: t =>
      let '(ok, ch) := scp_channel_write_all p ch in
      if negb ok then (false, ch) else send_pieces t ch
  end.

Definition refuse (message : string) (ch : channel) : bool * channel :=
  (false, snd (scp_send_status 2 (Some (lit message)) ch)).

Definition scp_handle_download (src : source) (real_path : bytes) (ch : channel) : bool * channel :=
  match src_stat src with
  | None => refuse "File not found." ch
  | Some (mode, size) =>
      let '(ok, ch) := scp_expect_ok ch in
      if negb ok then (false, ch)
      else
        let '(ok, ch) := scp_channel_write_all (file_header mode size real_path) ch in
        if negb ok then (false, ch)
        else
          let '(ok, ch) := scp_expect_ok ch in
          if negb ok then (false, ch)
          else if negb (src_open src) then refuse "Unable to read file." ch
          else
            let '(ok, ch) := send_pieces (src_reads src) ch in
            if negb ok then (false, ch)
            else if src_error src then refuse "Failed reading file." ch
            else
              let '(ok, ch) := scp_send_ok ch in
              if negb ok then (false, ch) else scp_expect_ok ch
  end.

(** The whole exec request; the file system answers for the path it is asked
    about. *)
Definition file_transfer_handle_scp_exec (h : storage) (command : bytes)
    (disk_at : bytes -> disk) (source_at : bytes -> source) (ch : channel) :
    bool * option (bytes * bytes) * channel :=
  match scp_parse_command command PATH_MAX with
  | None => (false, None, snd (scp_send_status 2 (Some (lit "Unsupported SCP command.")) ch))
  | Some (mode, path) =>
      match file_transfer_resolve_path h path PATH_MAX PATH_MAX with
      | None =>
          (false, None,
           snd (scp_send_status 2
                  (Some (lit "Invalid target path or directory traversal attempt.")) ch))
      | Some (resolved, _) =>
          let '(ok, file, ch) :=
            match mode with
            | SCP_MODE_UPLOAD => scp_handle_upload h (disk_at resolved) ch
            | SCP_MODE_DOWNLOAD =>
                let '(ok, ch) := scp_handle_download (source_at resolved) resolved ch in (ok, None, ch)
            end in
          let ch := if ok then snd (scp_send_status 0 None ch) else ch in
          (ok, match file with Some f => Some (resolved, f) | None => None end, ch)
      end
  end.

(** *** The channel delivers and accepts *)

(** The peer sends [s] and nothing else, however cut into pieces. *)
Definition delivers (s : bytes) (ch : channel) : Prop :=
  Forall (fun p : bytes => p <> []) (ch_in ch) /\ mjoin (ch_in ch) = s.

(** Every write takes something. *)
Definition willing (ch : channel) : Prop := Forall (fun n => n <> 0%nat) (ch_accept ch).

(** [ch'] is [ch] after [data] went out, the input untouched. *)
Definition sent (data : bytes) (ch ch' : channel) : Prop :=
  ch_in ch' = ch_in ch /\ ch_out ch' = ch_out ch ++ data /\ (willing ch -> willing ch').

Lemma write_spec data ch n ch' : ssh_channel_write data ch = (n, ch') ->
  (n <= length data)%nat /\ sent (take n data) ch ch' /\
  (willing ch -> data <> [] -> n <> 0%nat).
Proof.
  unfold ssh_channel_write, sent, willing. destruct (ch_accept ch) as [|m a] eqn:Ha.
  - intros [= <- <-]. cbn [ch_in ch_out ch_accept]. rewrite take_ge by lia.
    split; [done|]. split; [done|]. intros _ Hd. by destruct data.
  - intros [= <- <-]. cbn [ch_in ch_out ch_accept]. split; [lia|]. split.
    + split; [done|]. split; [|intros Hw; by apply Forall_cons in Hw as [_ ?]].
      destruct (Nat.min_spec m (length data)) as [[? ->]|[? ->]]; [done|].
      by rewrite !take_ge by lia.
    + intros Hw Hd. apply Forall_cons in Hw as [? _]. destruct data; [done|]. simpl. lia.
Qed.

Lemma sent_trans a b ch ch1 ch2 : sent a ch ch1 -> sent b ch1 ch2 -> sent (a ++ b) ch ch2.
Proof.
  intros (Hi & Ho & Hw) (Hi' & Ho' & Hw'). split_and!; [congruence| |auto].
  by rewrite Ho', Ho, app_assoc.
Qed.

Lemma write_all_go_spec fuel data ch : (length data <= fuel)%nat -> willing ch ->
  exists ch', write_all_go fuel data ch = (true, ch') /\ sent data ch ch'.
Proof.
  revert data ch; induction fuel as [|f IH]; intros data ch Hf Hw.
  { destruct data; [|simpl in Hf; lia]. exists ch. repeat split; auto. by rewrite app_nil_r. }
  destruct data as [|c t]; [exists ch; repeat split; auto; by rewrite app_nil_r|].
  set (data := c :: t) in *. cbn [write_all_go]. unfold data at 1. fold data.
  destruct (ssh_channel_write data ch) as [n ch1] eqn:E.
  apply write_spec in E as (Hn & Hs & Hne). specialize (Hne Hw ltac:(done)).
  destruct (Nat.eqb_spec n 0) as [|_]; [done|].
  destruct (IH (drop n data) ch1) as (ch2 & -> & Hs2).
  { rewrite length_drop. lia. } { apply Hs, Hw. }
  exists ch2. split; [done|]. rewrite <- (take_drop n data). by eapply sent_trans.
Qed.

Lemma write_all_spec data ch : willing ch ->
  exists ch', scp_channel_write_all data ch = (true, ch') /\ sent data ch ch'.
Proof. intros. by apply write_all_go_spec. Qed.

(** What a willing channel delivers in one read: something, unless the stream
    is at its end. *)
Lemma read_spec n s ch p ch' : delivers s ch -> (0 < n)%nat ->
  scp_channel_read n ch = (p, ch') ->
  exists s', s = p ++ s' /\ delivers s' ch' /\ (p = [] -> s = []) /\ (length p <= n)%nat /\
    ch_out ch' = ch_out ch /\ ch_accept ch' = ch_accept ch.
Proof.
  intros [Hne Hj] Hn. unfold scp_channel_read. destruct ch as [[|q l] a o]; simpl in *.
  - intros [= <- <-]. exists []. subst s. repeat split; auto. simpl. lia.
  - apply Forall_cons in Hne as [Hq Hl]. intros [= <- <-].
    exists (drop n q ++ mjoin l). subst s. rewrite app_assoc, take_drop.
    split; [done|]. split.
    { split; [simpl; destruct (drop n q) eqn:E; [done|by constructor]|].
      simpl. destruct (drop n q) eqn:E; done. }
    split_and!; [|rewrite length_take; lia|done|done].
    intros Ht. destruct q; [done|]. destruct n; [lia|done].
Qed.

Lemma expect_byte_spec c s ch : delivers (c :: s) ch ->
  exists ch', scp_expect_byte ch = (Some c, ch') /\ delivers s ch' /\
    ch_out ch' = ch_out ch /\ ch_accept ch' = ch_accept ch.
Proof.
  intros Hd. unfold scp_expect_byte. destruct (scp_channel_read 1 ch) as [p ch'] eqn:E.
  eapply read_spec in E as (s' & Hs & Hd' & Hp & Hl & Ho & Ha); [|done|lia].
  destruct p as [|d [|? ?]]; [by specialize (Hp eq_refl)| |simpl in Hl; lia].
  simplify_eq/=. eauto 10.
Qed.

Lemma expect_ok_spec c s ch : delivers (c :: s) ch ->
  exists ch', scp_expect_ok ch = ((c =? 0), ch') /\ delivers s ch' /\
    ch_out ch' = ch_out ch /\ ch_accept ch' = ch_accept ch.
Proof.
  intros (ch' & E & ?)%expect_byte_spec. exists ch'. unfold scp_expect_ok. by rewrite E.
Qed.

Lemma delivers_sent s data ch ch' : sent data ch ch' -> delivers s ch -> delivers s ch'.
Proof. intros (Hi & _) [? ?]. split; by rewrite Hi. Qed.

Lemma willing_accept ch ch' : ch_accept ch' = ch_accept ch -> willing ch -> willing ch'.
Proof. unfold willing. by intros ->. Qed.

(** *** What an upload reads *)

Lemma read_header_spec room line acc rest ch :
  delivers (line ++ c_lf :: rest) ch -> ~ In c_lf line -> (length line < room)%nat ->
  exists ch', read_header room acc ch = (Some (acc ++ line), ch') /\ delivers rest ch' /\
    ch_out ch' = ch_out ch /\ ch_accept ch' = ch_accept ch.
Proof.
  revert acc room ch; induction line as [|c line IH]; intros acc room ch Hd Hlf Hr;
    (destruct room as [|room]; [simpl in Hr; lia|]); simpl in Hd; simpl read_header.
  - apply expect_byte_spec in Hd as (ch' & -> & ?). exists ch'. simpl. by rewrite app_nil_r.
  - apply expect_byte_spec in Hd as (ch' & -> & Hd & Ho & Ha).
    destruct (Z.eqb_spec c c_lf) as [->|_]; [exfalso; apply Hlf; by left|].
    destruct (IH (acc ++ [c]) room ch') as (ch2 & -> & ? & ? & ?); [done| |simpl in Hr; lia|].
    { intros ?. apply Hlf. by right. }
    exists ch2. rewrite <- app_assoc. split_and!; done || congruence.
Qed.

Lemma receive_go_spec fuel room content file rest ch :
  delivers (content ++ rest) ch -> (length content < fuel)%nat -> (length content <= room)%nat ->
  exists ch', receive_go fuel room (Z.of_nat (length content)) file ch = (true, file ++ content, ch') /\
    delivers rest ch' /\ ch_out ch' = ch_out ch /\ ch_accept ch' = ch_accept ch.
Proof.
  revert room content file ch; induction fuel as [|f IH]; intros room content file ch Hd Hf Hr; [lia|].
  simpl receive_go. destruct (Z.leb_spec (Z.of_nat (length content)) 0) as [H0|H0].
  { destruct content; [|simpl in H0; lia]. exists ch. by rewrite app_nil_r. }
  set (n := Z.to_nat (Z.min (Z.of_nat (length content)) FILE_TRANSFER_BUFFER)).
  assert (0 < n <= length content)%nat as Hn by (unfold n, FILE_TRANSFER_BUFFER; lia).
  destruct (scp_channel_read n ch) as [p ch1] eqn:E.
  eapply read_spec in E as (s' & Hs & Hd1 & Hp & Hl & Ho & Ha); [|done|lia].
  assert (p <> []) as Hpne.
  { intros ->. specialize (Hp eq_refl). apply app_eq_nil in Hp as [-> _]. simpl in H0. lia. }
  assert (exists content', content = p ++ content') as [content' ->].
  { exists (drop (length p) content).
    assert (take (length p) (content ++ rest) = p) as Ht by (rewrite Hs; apply take_app_length).
    rewrite take_app_le in Ht by lia. rewrite <- Ht at 1. by rewrite take_drop. }
  rewrite <- app_assoc in Hs. apply app_inv_head in Hs as <-. rewrite length_app in *.
  destruct p as [|c p]; [done|]. destruct (Nat.ltb_spec room (length (c :: p))); [lia|].
  replace (Z.of_nat (length (c :: p) + length content') - Z.of_nat (length (c :: p)))
    with (Z.of_nat (length content')) by lia.
  destruct (IH (room - length (c :: p))%nat content' (file ++ c :: p) ch1)
    as (ch2 & -> & ? & ? & ?); [done|simpl in *; lia|lia|].
  exists ch2. rewrite <- app_assoc. split_and!; done || congruence.
Qed.

Lemma receive_spec room content rest ch :
  delivers (content ++ rest) ch -> (length content <= room)%nat ->
  exists ch', receive room (Z.of_nat (length content)) ch = (true, content, ch') /\
    delivers rest ch' /\ ch_out ch' = ch_out ch /\ ch_accept ch' = ch_accept ch.
Proof.
  intros Hd Hr. apply (receive_go_spec _ _ _ []); [done| |done].
  destruct Hd as [_ ->]. rewrite length_app. lia.
Qed.

Lemma scan_word_app n w rest : w <> [] -> (length w <= n)%nat ->
  Forall (fun c => isspace c = false) w -> (rest = [] \/ isspace (peek rest) = true) ->
  scan_word n (w ++ rest) = Some (w, rest).
Proof.
  intros Hne Hl Hw Hr. unfold scan_word.
  assert (Forall (fun c => negb (isspace c) = true) w) as Hw'.
  { eapply Forall_impl; [done|]. by intros c ->. }
  rewrite skip_while_stop.
  2:{ destruct w; [done|]. by apply Forall_cons in Hw as [? _]. }
  assert (take_while (fun c => negb (isspace c)) (w ++ rest) = w) as ->.
  { destruct rest as [|d rest]; [by rewrite app_nil_r, take_while_all|].
    destruct Hr as [?|Hr]; [done|]. apply take_while_stop; [done|]. simpl in Hr. by rewrite Hr. }
  rewrite take_ge by done. destruct w as [|d w]; [done|]. by rewrite drop_app_length.
Qed.

Lemma scan_llu_dec n rest : 0 <= n <= ULONG_MAX -> isdigit (peek rest) = false ->
  scan_llu (c_space :: dec n ++ rest) = Some (n, rest).
Proof.
  intros Hn Hr. pose proof (dec_peek n rest Hn) as Hp. unfold scan_llu.
  cbn [skip_while]. change (isspace c_space) with true. cbv iota.
  rewrite (skip_while_stop isspace) by (by apply isdigit_not_space).
  assert (peek (dec n ++ rest) <> c_minus /\ peek (dec n ++ rest) <> c_plus) as [H1 H2]
    by (unfold isdigit in Hp; bprop; lia).
  apply Z.eqb_neq in H1, H2. rewrite H1, H2. cbn [orb]. rewrite Hp. by rewrite strtoul_dec.
Qed.

Lemma scan_word_some n s : (0 < n)%nat -> existsb (fun c => negb (isspace c)) s = true ->
  is_Some (scan_word n s).
Proof.
  intros Hn Hs. unfold scan_word. induction s as [|c s IH]; [done|]. simpl in *.
  destruct (isspace c) eqn:Hc; [by apply IH|]. simpl. rewrite Hc. simpl.
  destruct n; [lia|]. simpl. eauto.
Qed.

Lemma octal4_space m : Forall (fun c => isspace c = false) (octal4 m).
Proof.
  unfold octal4. assert (forall x, isspace (48 + x mod 8) = false) as H.
  { intros x. unfold isspace. pose proof (Z.mod_pos_bound x 8). bprop. lia. }
  by repeat constructor.
Qed.

(** The name in a header: it has to be a line, and has to have a word. *)
Definition name_ok (name : bytes) : Prop :=
  cstr_ok name /\ ~ In c_lf name /\ existsb (fun c => negb (isspace c)) name = true /\
  (length name <= NAME_MAX)%nat.

Definition header_line (mode size : Z) (name : bytes) : bytes :=
  lit "C" ++ octal4 (Z.land mode 511) ++ [c_space] ++ dec size ++ [c_space] ++ name.

Lemma header_size_line mode size name : 0 <= size <= ULONG_MAX -> name_ok name ->
  header_size (header_line mode size name) = Some size.
Proof.
  intros Hsize (_ & _ & Hword & _). unfold header_size, header_line.
  change (drop 1 (lit "C" ++ ?s)) with s. rewrite scan_word_app.
  - cbn [app]. change (c_space :: dec size ++ c_space :: name)
      with (c_space :: dec size ++ (c_space :: name)).
    rewrite scan_llu_dec by done.
    destruct (scan_word_some (Z.to_nat 1023) (c_space :: name)) as [[w p] ->]; [lia| |done].
    simpl. by rewrite Hword.
  - done.
  - simpl. lia.
  - apply octal4_space.
  - by right.
Qed.

Lemma header_line_bytes mode size name : 0 <= size <= LONG_MAX -> name_ok name ->
  (length (header_line mode size name) < PATH_MAX - 1)%nat /\
  ~ In c_lf (header_line mode size name) /\
  take_while (fun c => negb (c =? c_nul)) (header_line mode size name) = header_line mode size name.
Proof.
  intros Hsize (Hc & Hlf & _ & Hl).
  assert (0 <= size <= ULONG_MAX) as Hs' by (unfold LONG_MAX, ULONG_MAX in *; lia).
  apply dec_spec in Hs' as (_ & Hdig & _ & Hdl).
  assert (Forall (fun c => 32 <= c < 256) (lit "C" ++ octal4 (Z.land mode 511) ++ [c_space]
            ++ dec size ++ [c_space])) as Hpre.
  { repeat apply Forall_app_2; try (repeat constructor; done).
    - unfold octal4. repeat constructor; dlia.
    - eapply Forall_impl; [done|]. intros c Hd. unfold isdigit in Hd. bprop. lia. }
  assert (header_line mode size name =
          (lit "C" ++ octal4 (Z.land mode 511) ++ [c_space] ++ dec size ++ [c_space]) ++ name) as ->
    by (unfold header_line; by rewrite <- !app_assoc).
  split_and!.
  - rewrite !length_app. change (length (octal4 _)) with 4%nat. simpl length.
    unfold NAME_MAX, PATH_MAX in *. lia.
  - rewrite in_app_iff. intros [Hin|?]; [|done]. rewrite List.Forall_forall in Hpre.
    apply Hpre in Hin. lia.
  - apply take_while_all, Forall_app_2.
    + eapply Forall_impl; [apply Hpre|]. intros c Hcz. apply negb_true_iff, Z.eqb_neq. cbn beta in Hcz. lia.
    + eapply Forall_impl; [apply Hc|]. intros c Hcz. apply negb_true_iff, Z.eqb_neq. cbn beta in Hcz. lia.
Qed.

(** A disk that takes a file of [n] bytes. *)
Definition disk_takes (n : nat) (d : disk) : Prop :=
  disk_parent d = true /\ disk_open d = true /\ (n <= disk_room d)%nat.

Lemma upload_spec h d mode content name rest ch :
  file_storage_is_ready h = true -> disk_takes (length content) d -> name_ok name ->
  Z.of_nat (length content) <= LONG_MAX -> willing ch ->
  delivers (header_line mode (Z.of_nat (length content)) name ++ c_lf :: content ++ 0 :: rest) ch ->
  exists ch', scp_handle_upload h d ch = (true, Some content, ch') /\
    ch_out ch' = ch_out ch ++ [0; 0] /\ delivers rest ch'.
Proof.
  intros Hh (Hpar & Hop & Hroom) Hname Hmax Hw Hd. unfold scp_handle_upload.
  rewrite Hh, Hpar, Hop. cbn [negb].
  destruct (write_all_spec [0] ch Hw) as (ch1 & E1 & Hs1). unfold scp_send_ok. rewrite E1. cbn [negb].
  apply (delivers_sent _ _ _ _ Hs1) in Hd. destruct Hs1 as (_ & Ho1 & Hw1).
  set (size := Z.of_nat (length content)) in *.
  destruct (header_line_bytes mode size name) as (Hlen & Hlf & Hnul); [lia|done|].
  destruct (read_header_spec _ _ [] _ _ Hd Hlf Hlen) as (ch2 & -> & Hd2 & Ho2 & Ha2).
  rewrite app_nil_l, Hnul. change (negb (peek (header_line mode size name) =? 67)) with false.
  rewrite header_size_line by (done || unfold LONG_MAX, ULONG_MAX in *; lia).
  assert (willing ch2) as Hw2 by (eapply willing_accept; eauto).
  destruct (write_all_spec [0] ch2 Hw2) as (ch3 & -> & Hs3). cbn [negb].
  apply (delivers_sent _ _ _ _ Hs3) in Hd2. destruct Hs3 as (_ & Ho3 & _).
  destruct (receive_spec _ _ _ _ Hd2 Hroom) as (ch4 & E4 & Hd4 & Ho4 & _).
  fold size in E4. rewrite E4.
  destruct (expect_ok_spec _ _ _ Hd4) as (ch5 & -> & Hd5 & Ho5 & _). cbn.
  exists ch5. split_and!; [done| |done]. rewrite Ho5, Ho4, Ho3, Ho2, Ho1. by rewrite <- app_assoc.
Qed.

Lemma send_pieces_spec reads ch : willing ch -> Forall (fun p : bytes => p <> []) reads ->
  exists ch', send_pieces reads ch = (true, ch') /\ sent (mjoin reads) ch ch'.
Proof.
  intros Hw Hr. revert ch Hw. induction Hr as [|p t Hp _ IH]; intros ch Hw.
  - exists ch. repeat split; auto. by rewrite app_nil_r.
  - simpl. destruct (write_all_spec p ch Hw) as (ch1 & E & Hs). rewrite E. simpl.
    destruct p as [|c p]; [done|]. destruct (IH ch1) as (ch2 & E2 & Hs2); [apply Hs, Hw|].
    exists ch2. split; [done|]. by eapply sent_trans.
Qed.

Lemma file_header_line mode size path :
  file_header mode size path = header_line mode size (basename_of path) ++ [c_lf].
Proof. unfold file_header, header_line. by rewrite <- !app_assoc. Qed.

Lemma download_spec src mode size path rest ch :
  src_stat src = Some (mode, size) -> src_open src = true -> src_error src = false ->
  Forall (fun p : bytes => p <> []) (src_reads src) -> willing ch ->
  delivers (0 :: 0 :: 0 :: rest) ch ->
  exists ch', scp_handle_download src path ch = (true, ch') /\
    ch_out ch' = ch_out ch ++ file_header mode size path ++ mjoin (src_reads src) ++ [0] /\
    delivers rest ch' /\ willing ch'.
Proof.
  intros Hst Hop Her Hr Hw Hd. unfold scp_handle_download. rewrite Hst, Hop, Her.
  destruct (expect_ok_spec _ _ _ Hd) as (ch1 & -> & Hd1 & Ho1 & Ha1). cbn [negb Z.eqb].
  assert (willing ch1) as Hw1 by (eapply willing_accept; eauto).
  destruct (write_all_spec (file_header mode size path) ch1 Hw1) as (ch2 & -> & Hs2). cbn [negb].
  apply (delivers_sent _ _ _ _ Hs2) in Hd1. destruct Hs2 as (_ & Ho2 & Hw2).
  destruct (expect_ok_spec _ _ _ Hd1) as (ch3 & -> & Hd3 & Ho3 & Ha3). cbn [negb Z.eqb].
  assert (willing ch3) as Hw3 by (eapply willing_accept; eauto).
  destruct (send_pieces_spec (src_reads src) ch3 Hw3 Hr) as (ch4 & -> & Hs4). cbn [negb].
  assert (willing ch4) as Hw4 by (apply Hs4, Hw3).
  destruct (write_all_spec [0] ch4 Hw4) as (ch5 & E5 & Hs5). unfold scp_send_ok. rewrite E5. cbn [negb].
  apply (delivers_sent _ _ _ _ Hs4) in Hd3. apply (delivers_sent _ _ _ _ Hs5) in Hd3.
  destruct (expect_ok_spec _ _ _ Hd3) as (ch6 & -> & Hd6 & Ho6 & Ha6).
  exists ch6. split_and!; [done| |done|].
  2:{ eapply willing_accept; [done|]. by apply Hs5. } destruct Hs4 as (_ & Ho4 & _). destruct Hs5 as (_ & Ho5 & _).
  rewrite Ho6, Ho5, Ho4, Ho3, Ho2, Ho1. by rewrite <- !app_assoc.
Qed.

(** C33: what the server sends for a download, fed to an upload in any pieces,
    stores the same bytes, whatever is in them and however the file was read
    and the channels cut the streams. *)
Theorem scp_roundtrip h d src mode path acks ch up :
  let content := mjoin (src_reads src) in
  src_stat src = Some (mode, Z.of_nat (length content)) ->
  src_open src = true -> src_error src = false ->
  Forall (fun p : bytes => p <> []) (src_reads src) ->
  Z.of_nat (length content) <= LONG_MAX -> name_ok (basename_of path) ->
  willing ch -> delivers (0 :: 0 :: 0 :: acks) ch -> ch_out ch = [] ->
  file_storage_is_ready h = true -> disk_takes (length content) d -> willing up ->
  exists ch', scp_handle_download src path ch = (true, ch') /\
    (delivers (ch_out ch') up ->
     exists up', scp_handle_upload h d up = (true, Some content, up') /\
       ch_out up' = ch_out up ++ [0; 0]).
Proof.
  intros content Hst Hop Her Hr Hmax Hname Hw Hd Hout Hh Hdisk Hwu.
  destruct (download_spec src mode _ path acks ch Hst Hop Her Hr Hw Hd) as (ch' & E & Ho & _).
  exists ch'. split; [done|]. rewrite Hout, file_header_line, <- app_assoc in Ho. cbn [app] in Ho.
  rewrite Ho. fold content. intros Hup.
  destruct (upload_spec h d mode content (basename_of path) [] up) as (up' & Eu & Hou & _); try done.
  eauto.
Qed.

(** *** What an upload that succeeds has read *)

Lemma read_consumes n ch p ch' : scp_channel_read n ch = (p, ch') ->
  mjoin (ch_in ch) = p ++ mjoin (ch_in ch') /\ (length p <= n)%nat.
Proof.
  unfold scp_channel_read. destruct ch as [[|q l] a o]; simpl; intros [= <- <-]; simpl.
  - split; [done|lia].
  - split; [|rewrite length_take; lia].
    transitivity ((take n q ++ drop n q) ++ mjoin l); [by rewrite take_drop|].
    rewrite <- app_assoc. f_equal. by destruct (drop n q).
Qed.

Lemma expect_byte_consumes ch c ch' : scp_expect_byte ch = (Some c, ch') ->
  mjoin (ch_in ch) = c :: mjoin (ch_in ch').
Proof.
  unfold scp_expect_byte. destruct (scp_channel_read 1 ch) as [p ch1] eqn:E.
  apply read_consumes in E as [-> Hl]. destruct p as [|d [|? ?]]; intros; simplify_eq/=; [done|lia].
Qed.

Lemma read_header_consumes room acc ch line ch' : read_header room acc ch = (Some line, ch') ->
  exists l, line = acc ++ l /\ ~ In c_lf l /\
    (mjoin (ch_in ch) = l ++ c_lf :: mjoin (ch_in ch') \/
     mjoin (ch_in ch) = l ++ mjoin (ch_in ch') /\ length l = room).
Proof.
  revert acc ch; induction room as [|room IH]; intros acc ch; simpl.
  - intros [= <- <-]. exists []. rewrite app_nil_r. auto.
  - destruct (scp_expect_byte ch) as [[c|] ch1] eqn:E; [|done].
    apply expect_byte_consumes in E as ->. destruct (Z.eqb_spec c c_lf) as [->|Hc].
    + intros [= <- <-]. exists []. rewrite app_nil_r. auto.
    + intros (l & -> & Hl & Hm)%IH. exists (c :: l). rewrite <- app_assoc.
      split; [done|]. split; [by intros [|]|].
      destruct Hm as [->|[-> <-]]; [by left|by right].
Qed.

Lemma write_all_go_in fuel data ch ok ch' : write_all_go fuel data ch = (ok, ch') -> ch_in ch' = ch_in ch.
Proof.
  revert data ch; induction fuel as [|f IH]; intros [|c data] ch; try (by intros [= _ <-]).
  cbn [write_all_go]. destruct (ssh_channel_write _ ch) as [n ch1] eqn:E.
  apply write_spec in E as (_ & (Hi & _) & _).
  destruct (n =? 0)%nat; [by intros [= _ <-]|]. intros H%IH. congruence.
Qed.

Lemma receive_go_consumes fuel room size file ch out ch' : 0 <= size ->
  receive_go fuel room size file ch = (true, out, ch') ->
  exists content, out = file ++ content /\ Z.of_nat (length content) = size /\
    (length content <= room)%nat /\ mjoin (ch_in ch) = content ++ mjoin (ch_in ch').
Proof.
  revert room size file ch; induction fuel as [|f IH]; intros room size file ch Hsz; simpl.
  - destruct (Z.leb_spec size 0); [|done]. intros [= <- <-]. exists []. rewrite app_nil_r.
    split_and!; [done|simpl; lia|simpl; lia|done].
  - destruct (Z.leb_spec size 0).
    { intros [= <- <-]. exists []. rewrite app_nil_r.
      split_and!; [done|simpl; lia|simpl; lia|done]. }
    destruct (scp_channel_read _ ch) as [p ch1] eqn:E. apply read_consumes in E as [Hm Hl].
    destruct p as [|c p]; [done|]. set (q := c :: p) in *.
    destruct (Nat.ltb_spec room (length q)).
    { by destruct (scp_send_status _ _ _). }
    intros (content & -> & Hc & Hr & Hm')%IH; [|lia].
    exists (q ++ content). rewrite length_app, Hm, Hm', <- !app_assoc. split_and!; [done|lia|lia|done].
Qed.

Lemma scan_llu_range p v rest : scan_llu p = Some (v, rest) -> 0 <= v.
Proof.
  unfold scan_llu. destruct (isdigit _); [|done]. intros Hs. apply (inj Some) in Hs.
  pose proof (strtoul_range (skip_while isspace p)) as Hr. rewrite Hs in Hr. simpl in Hr. lia.
Qed.

Lemma fail_with_false m f ch r ch' : fail_with m f ch <> (true, r, ch').
Proof. unfold fail_with. by destruct (scp_send_status _ _ _). Qed.

(** An upload that reports success has read a header line with a size, so
    many bytes, and the closing zero byte; the file holds exactly those bytes,
    and what follows them is still to be read.  Only a line of the length of the
    buffer ends without a line feed. *)
Theorem upload_sound h d ch file ch' :
  scp_handle_upload h d ch = (true, file, ch') ->
  exists line content size,
    header_size (take_while (fun c => negb (c =? c_nul)) line) = Some size /\
    file = Some content /\ Z.of_nat (length content) = size /\ ~ In c_lf line /\
    (mjoin (ch_in ch) = line ++ c_lf :: content ++ 0 :: mjoin (ch_in ch') \/
     mjoin (ch_in ch) = line ++ content ++ 0 :: mjoin (ch_in ch') /\ length line = (PATH_MAX - 1)%nat).
Proof.
  unfold scp_handle_upload, scp_send_ok, scp_channel_write_all.
  do 2 (case_match; [by intros ?%fail_with_false|]).
  destruct (write_all_go _ [0] ch) as [ok ch1] eqn:E1. apply write_all_go_in in E1.
  case_match; [done|]. destruct (read_header _ [] ch1) as [[line|] ch2] eqn:E2; [|done].
  apply read_header_consumes in E2 as (l & -> & Hl & Hm). rewrite app_nil_l. rewrite E1 in Hm.
  case_match; [by intros ?%fail_with_false|].
  destruct (header_size _) as [size|] eqn:Hsize; [|by intros ?%fail_with_false].
  case_match; [by intros ?%fail_with_false|].
  destruct (write_all_go _ [0] ch2) as [ok2 ch3] eqn:E3. apply write_all_go_in in E3.
  case_match; [done|].
  destruct (receive _ size ch3) as [[[|] f] ch4] eqn:E4; [|done].
  assert (0 <= size) as Hsz.
  { unfold header_size in Hsize. repeat case_match; simplify_eq. by eapply scan_llu_range. }
  apply receive_go_consumes in E4 as (content & -> & Hc & _ & Hm4); [|done].
  rewrite app_nil_l. destruct (scp_expect_ok ch4) as [ok3 ch5] eqn:E5.
  case_match eqn:Hok3; [by intros ?%fail_with_false|]. intros [= <- <-].
  assert (mjoin (ch_in ch4) = 0 :: mjoin (ch_in ch5)) as Hm5.
  { unfold scp_expect_ok in E5. destruct (scp_expect_byte ch4) as [[b|] c5] eqn:E6; simplify_eq/=.
    bprop. subst b. by apply expect_byte_consumes. }
  exists l, content, size. split_and!; [done..|].
  rewrite <- E3, Hm4, Hm5 in Hm. exact Hm.
Qed.

(** *** Reading a command back *)

Definition mode_flag (m : scp_mode_t) : Z := match m with SCP_MODE_UPLOAD => 116 | SCP_MODE_DOWNLOAD => 102 end.

(** A path as a client writes it: in quotes it does not hold itself, or bare,
    without blanks and not looking like a quote or, before [--], like flags. *)
Inductive word_for (dashes : bool) (path : bytes) : bytes -> Prop :=
  | word_quoted q : q = 39 \/ q = c_dquote -> ~ In q path -> word_for dashes path (q :: path ++ [q])
  | word_bare : Forall (fun c => is_blank c = false) path -> peek path <> 39 ->
      peek path <> c_dquote -> (dashes = false -> peek path <> c_minus) ->
      word_for dashes path path.

Definition scp_command (before after : bytes) (m : scp_mode_t) (dashes : bool) (word : bytes) : bytes :=
  lit "scp -" ++ before ++ [mode_flag m] ++ after ++ lit " "
    ++ (if dashes then lit "-- " else []) ++ word.

Lemma scan_flags_harmless fl m rest : forallb harmless_flag fl = true ->
  scan_flags (fl ++ rest) m = scan_flags rest m.
Proof.
  induction fl as [|o fl IH]; [done|]. simpl. intros [Ho Hfl]%andb_true_iff.
  unfold harmless_flag in Ho. apply existsb_exists in Ho as (x & Hx & He). apply Z.eqb_eq in He as ->.
  rewrite IH by done. vm_compute in Hx. by repeat (destruct Hx as [<-|Hx]; [done|]).
Qed.

Lemma scan_flags_mode m p o : scan_flags (mode_flag m :: p) o = scan_flags p (Some m).
Proof. by destruct m. Qed.

Lemma scan_token_quoted q path token : (length token + length path < PATH_MAX)%nat -> ~ In q path ->
  scan_token (path ++ [q]) (Some q) token = Some (token ++ path, []).
Proof.
  revert token; induction path as [|c path IH]; intros token Hl Hq; cbn [app scan_token].
  - rewrite Z.eqb_refl. by rewrite app_nil_r.
  - cbn [length] in Hl. cbn [In] in Hq. destruct (Z.eqb_spec c q); [naive_solver|].
    destruct (Nat.leb_spec PATH_MAX (length token + 1)); [lia|].
    rewrite IH; [by rewrite <- app_assoc|rewrite length_app; simpl; lia|naive_solver].
Qed.

Lemma scan_token_bare path token : (length token + length path < PATH_MAX)%nat ->
  Forall (fun c => is_blank c = false) path ->
  scan_token path None token = Some (token ++ path, []).
Proof.
  intros Hl Hp; revert token Hl; induction Hp as [|c path Hc _ IH]; intros token Hl; cbn [scan_token length] in *.
  - by rewrite app_nil_r.
  - rewrite Hc. destruct (Nat.leb_spec PATH_MAX (length token + 1)); [lia|].
    rewrite IH; [by rewrite <- app_assoc|rewrite length_app; simpl; lia].
Qed.

Lemma scp_words_nil f e m p n : scp_words f [] e m p n = Some (m, p).
Proof. by destruct f. Qed.

Lemma scp_words_flags f d t m p n : (d =? c_minus) = false ->
  scp_words (S f) (c_space :: c_minus :: d :: t) false m p n =
  match scan_flags (d :: t) m with
  | None => None
  | Some (m', rest) => scp_words f rest false m' p n
  end.
Proof. intros Hd. cbn -[scan_flags]. by rewrite Hd. Qed.

Lemma scp_words_dashes f t m p n :
  scp_words (S f) (c_space :: c_minus :: c_minus :: t) false m p n = scp_words f t true m p n.
Proof. done. Qed.

(** The last word of a command is the path. *)
Lemma scp_words_path f dashes path word m : path <> [] -> (length path < PATH_MAX)%nat ->
  word_for dashes path word ->
  scp_words (S f) (c_space :: word) dashes (Some m) None PATH_MAX = Some (Some m, Some path).
Proof.
  intros Hne Hl Hw.
  assert (snprintf_whole PATH_MAX path = Some path) as Hsn.
  { unfold snprintf_whole. destruct (Nat.leb_spec PATH_MAX (length path)); [lia|done]. }
  destruct Hw as [q Hq Hin|Hb H39 H34 Hdash].
  - cbn [scp_words skip_while]. change (is_blank c_space) with true. cbv iota.
    assert (is_blank q = false /\ (q =? c_minus) = false /\ (q =? 39) || (q =? c_dquote) = true)
      as (-> & -> & ->) by (by destruct Hq as [-> | ->]).
    cbn [skip_while]. rewrite andb_false_r.
    rewrite (scan_token_quoted q path []) by (simpl; done || lia). rewrite app_nil_l.
    destruct path as [|c path]; [done|]. rewrite Hsn. apply scp_words_nil.
  - cbn [scp_words skip_while]. change (is_blank c_space) with true. cbv iota.
    destruct path as [|c path]; [done|]. cbn [skip_while].
    apply Forall_cons in Hb as [Hc Hb]. rewrite Hc. simpl in H39, H34, Hdash.
    replace (negb dashes && (c =? c_minus)) with false
      by (destruct dashes; [done|]; symmetry; apply Z.eqb_neq; auto).
    apply Z.eqb_neq in H39, H34. rewrite H39, H34. cbn [orb].
    rewrite (scan_token_bare (c :: path) []) by (simpl in *; done || lia || by constructor).
    rewrite app_nil_l, Hsn. apply scp_words_nil.
Qed.

(** A command with the mode among harmless flags, with or without the end
    of options, and with a path in quotes or bare, gives back mode and path. *)
Theorem scp_command_parses before after m dashes path word :
  forallb harmless_flag before = true -> forallb harmless_flag after = true ->
  path <> [] -> (length path < PATH_MAX)%nat -> word_for dashes path word ->
  scp_parse_command (scp_command before after m dashes word) PATH_MAX = Some (m, path).
Proof.
  intros Hb Ha Hne Hl Hw. unfold scp_parse_command, scp_command.
  change (PATH_MAX =? 0)%nat with false. cbv iota.
  set (tail := before ++ _).
  change (skip_while is_blank (lit "scp -" ++ tail)) with (lit "scp -" ++ tail).
  change (is_prefix (lit "scp") (lit "scp -" ++ tail)) with true. cbn [negb].
  change (drop 3 (lit "scp -" ++ tail)) with (c_space :: c_minus :: tail).
  assert (exists m0 t0, tail = m0 :: t0 /\ (m0 =? c_minus) = false) as (m0 & t0 & Htail & Hm0).
  { unfold tail. destruct before as [|o before]; simpl in *.
    - eexists _, _. split; [done|]. by destruct m.
    - eexists _, _. split; [done|]. apply andb_true_iff in Hb as [Ho _].
      destruct (Z.eqb_spec o c_minus) as [->|]; [done|done]. }
  assert (scan_flags tail None = Some (Some m, c_space :: (if dashes then lit "-- " else []) ++ word))
    as Hflags.
  { unfold tail. rewrite scan_flags_harmless by done. cbn [app].
    rewrite scan_flags_mode, scan_flags_harmless by done. by destruct dashes. }
  assert (2 <= length tail)%nat as Hlt.
  { unfold tail. rewrite !length_app. simpl. lia. }
  change (length (c_space :: c_minus :: tail)) with (S (S (length tail))).
  rewrite Htail, scp_words_flags, <- Htail, Hflags by done.
  destruct (length tail) as [|[|f]]; [lia|lia|]. destruct dashes; cbn [app].
  - change (c_space :: lit "-- " ++ word) with (c_space :: c_minus :: c_minus :: c_space :: word).
    rewrite scp_words_dashes. by rewrite (scp_words_path (S f) true path).
  - by rewrite (scp_words_path (S (S f)) false path).
Qed.

(** The file an exec request writes lies below the root. *)
Theorem exec_writes_below h command disk_at source_at ch ok p f ch' :
  file_transfer_handle_scp_exec h command disk_at source_at ch = (ok, Some (p, f), ch') ->
  exists cs, Forall component_ok cs /\ p = below (file_storage_root h) cs.
Proof.
  unfold file_transfer_handle_scp_exec.
  destruct (scp_parse_command command PATH_MAX) as [[mode path]|]; [|done].
  destruct (file_transfer_resolve_path h path PATH_MAX PATH_MAX) as [[resolved d]|] eqn:E; [|done].
  apply resolve_below in E as Hb; [|lia].
  destruct mode.
  - destruct (scp_handle_upload _ _ _) as [[ok1 [f1|]] ch1]; [|done].
    by intros [= _ <- _ _].
  - by destruct (scp_handle_download _ _ _) as [ok1 ch1].
Qed.

(** After a download the request sends its zero byte once more: the stream ends
    with two where one closes the file. *)
Theorem exec_download_closes_twice h command path disk_at source_at src mode size resolved d acks ch :
  scp_parse_command command PATH_MAX = Some (SCP_MODE_DOWNLOAD, path) ->
  file_transfer_resolve_path h path PATH_MAX PATH_MAX = Some (resolved, d) ->
  source_at resolved = src -> src_stat src = Some (mode, size) -> src_open src = true ->
  src_error src = false -> Forall (fun p : bytes => p <> []) (src_reads src) ->
  willing ch -> delivers (0 :: 0 :: 0 :: acks) ch ->
  exists ch', file_transfer_handle_scp_exec h command disk_at source_at ch = (true, None, ch') /\
    ch_out ch' = ch_out ch ++ file_header mode size resolved ++ mjoin (src_reads src) ++ [0; 0].
Proof.
  intros Hc Hp Hsrc Hst Hop Her Hr Hw Hd. unfold file_transfer_handle_scp_exec. rewrite Hc, Hp, Hsrc.
  destruct (download_spec src mode size resolved acks ch Hst Hop Her Hr Hw Hd) as (ch1 & E & Ho & _ & Hw1).
  rewrite E. eexists; split; [done|]. unfold scp_send_status.
  destruct (ssh_channel_write [0] ch1) as [n ch2] eqn:E2.
  apply write_spec in E2 as (Hn & (_ & Ho2 & _) & Hne). specialize (Hne Hw1 ltac:(done)).
  simpl in Hn. assert (n = 1%nat) as -> by lia. cbn [negb Nat.eqb snd]. rewrite Ho2, Ho.
  change (take 1 [0]) with [0]. by rewrite <- !app_assoc.
Qed.

End Scp.

(** ** The byte channel under ZMODEM *)

Module Zmodem.
Import Paths.

Abbreviation TELNET_IAC := 255.
Abbreviation TELNET_CMD_DONT := 254.
Abbreviation TELNET_CMD_DO := 253.
Abbreviation TELNET_CMD_WONT := 252.
Abbreviation TELNET_CMD_WILL := 251.
Abbreviation TELNET_CMD_SB := 250.
Abbreviation TELNET_CMD_SE := 240.
Abbreviation TELNET_OPT_BINARY := 0.
Abbreviation TELNET_OPT_SUPPRESS_GO_AHEAD := 3.

(** [room] is how many of the [send] calls, one byte each, go through. *)
Fixpoint telnet_binary_write (room : nat) (data : bytes) {struct data} : bool * bytes :=
  match data with
  | [] => (true, [])
  | byte :: t =>
      match room with
      | O => (false, [])
      | S r =>
          if byte =? TELNET_IAC then
            match r with
            | O => (false, [byte])
            | S r => let '(ok, out) := telnet_binary_write r t in (ok, byte :: byte :: out)
            end
          else let '(ok, out) := telnet_binary_write r t in (ok, byte :: out)
      end
  end.

Definition wanted (option : Z) : bool :=
  (option =? TELNET_OPT_BINARY) || (option =? TELNET_OPT_SUPPRESS_GO_AHEAD).

(** [while (recv(...) > 0)] up to IAC SE or the end of the stream. *)
Fixpoint skip_subnegotiation (prev : Z) (stream : bytes) : bytes :=
  match stream with
  | [] => []
  | chunk :: t =>
      if (prev =? TELNET_IAC) && (chunk =? TELNET_CMD_SE) then t
      else skip_subnegotiation (if chunk =? TELNET_IAC then TELNET_IAC else 0) t
  end.

(** The answer to a request about an option. *)
Definition option_reply (command option : Z) : bytes :=
  if command =? TELNET_CMD_DO then
    [TELNET_IAC; if wanted option then TELNET_CMD_WILL else TELNET_CMD_WONT; option]
  else if command =? TELNET_CMD_DONT then [TELNET_IAC; TELNET_CMD_WONT; option]
  else [TELNET_IAC; if wanted option then TELNET_CMD_DO else TELNET_CMD_DONT; option].

(** The next byte for the program, what is left of the stream, and the answers
    sent on the way; no byte when the stream ends or fails.  Waiting has no
    effect here, so only the bytes received count; every round of the loop
    receives one. *)
Fixpoint read_go (fuel : nat) (stream out : bytes) : option Z * bytes * bytes :=
  match fuel, stream with
  | _, [] => (None, [], out)
  | O, _ => (None, stream, out)
  | S f, byte :: t =>
      if byte =? TELNET_IAC then
        match t with
        | [] => (None, [], out)
        | command :: t =>
            if command =? TELNET_IAC then (Some TELNET_IAC, t, out)
            else if (command =? TELNET_CMD_DO) || (command =? TELNET_CMD_DONT)
                    || (command =? TELNET_CMD_WILL) then
              match t with
              | [] => (None, [], out)
              | option :: t => read_go f t (out ++ option_reply command option)
              end
            else if command =? TELNET_CMD_SB then read_go f (skip_subnegotiation 0 t) out
            else read_go f t out
        end
      else (Some byte, t, out)
  end.

Definition telnet_binary_read (stream : bytes) : option Z * bytes * bytes :=
  read_go (length stream) stream [].

(** The relay loop on the way in: a byte at a time until the stream fails. *)
Fixpoint read_all (fuel : nat) (stream : bytes) : bytes * bytes :=
  match fuel with
  | O => ([], [])
  | S f =>
      match telnet_binary_read stream with
      | (None, _, out) => ([], out)
      | (Some byte, rest, out) =>
          let '(data, more) := read_all f rest in (byte :: data, out ++ more)
      end
  end.

(** POSIX [basename]: the last component, trailing slashes left out. *)
Definition basename (path : bytes) : bytes :=
  match path with
  | [] => lit "."
  | _ => match skip_while is_slash (rev path) with
         | [] => lit "/"
         | r => rev (take_while (fun c => negb (is_slash c)) r)
         end
  end.

(** The argument the file is named by to [sz], which runs in the root. *)
Definition sz_argument (root resolved : bytes) : bytes :=
  match skip_while is_slash (snprintf_text PATH_MAX (drop (length root) resolved)) with
  | [] => snprintf_text PATH_MAX (basename resolved)
  | p => p
  end.

(** *** What a telnet client sends during a transfer *)

Inductive item :=
  | Data (byte : Z)
  | Ask (command option : Z)
  | Sub (payload : bytes)
  | Bare (command : Z).

Definition item_ok (i : item) : Prop :=
  match i with
  | Data _ => True
  | Ask c _ => c = TELNET_CMD_DO \/ c = TELNET_CMD_DONT \/ c = TELNET_CMD_WILL
  | Sub p => ~ In TELNET_IAC p
  | Bare c => ~ In c [TELNET_IAC; TELNET_CMD_DO; TELNET_CMD_DONT; TELNET_CMD_WILL; TELNET_CMD_SB]
  end.

Definition on_wire (i : item) : bytes :=
  match i with
  | Data b => snd (telnet_binary_write 2 [b])
  | Ask c o => [TELNET_IAC; c; o]
  | Sub p => TELNET_IAC :: TELNET_CMD_SB :: p ++ [TELNET_IAC; TELNET_CMD_SE]
  | Bare c => [TELNET_IAC; c]
  end.

Definition data_of (i : item) : bytes := match i with Data b => [b] | _ => [] end.

Definition answer_to (i : item) : bytes :=
  match i with Ask c o => option_reply c o | _ => [] end.

Definition wire (l : list item) : bytes := flat_map on_wire l.

Lemma skip_sub_end p prev rest : prev <> TELNET_IAC -> ~ In TELNET_IAC p ->
  skip_subnegotiation prev (p ++ TELNET_IAC :: TELNET_CMD_SE :: rest) = rest.
Proof.
  revert prev; induction p as [|c p IH]; intros prev Hp Hin; apply Z.eqb_neq in Hp; simpl; rewrite Hp; simpl.
  - done.
  - destruct (Z.eqb_spec c TELNET_IAC); [naive_solver|]. apply IH; [done|naive_solver].
Qed.

(** One item read: either its byte, or nothing but an answer. *)
Lemma read_go_item i rest f out : item_ok i -> (length (on_wire i ++ rest) <= f)%nat ->
  match i with
  | Data b => read_go f (on_wire i ++ rest) out = (Some b, rest, out)
  | _ => exists f', (length rest <= f')%nat /\
           read_go f (on_wire i ++ rest) out = read_go f' rest (out ++ answer_to i)
  end.
Proof.
  intros Hok Hf. destruct i as [b|c o|p|c]; simpl in Hok.
  - unfold on_wire in *. cbn [telnet_binary_write] in *.
    destruct (Z.eqb_spec b TELNET_IAC) as [->|Hb]; simpl in Hf |- *;
      (destruct f as [|f]; [lia|]); simpl; [done|]. apply Z.eqb_neq in Hb. by rewrite Hb.
  - simpl in Hf. destruct f as [|f]; [lia|]. exists f. split; [lia|].
    by destruct Hok as [->|[-> | ->]].
  - cbn [on_wire app] in *. rewrite <- app_assoc in *. simpl in Hf. destruct f as [|f]; [lia|].
    exists f. rewrite length_app in Hf. simpl in Hf. split; [lia|].
    simpl. rewrite skip_sub_end by done. by rewrite app_nil_r.
  - simpl in Hf. destruct f as [|f]; [lia|]. exists f. split; [lia|].
    simpl in Hok. simpl. rewrite app_nil_r.
    repeat match goal with
      | |- context [c =? ?k] => replace (c =? k) with false by (symmetry; apply Z.eqb_neq; naive_solver)
      end. done.
Qed.

Lemma wire_cons i l : wire (i :: l) = on_wire i ++ wire l.
Proof. done. Qed.

(** The next byte: everything before it is answered. *)
Lemma read_go_items l f out : Forall item_ok l -> (length (wire l) <= f)%nat ->
  (flat_map data_of l = [] /\ read_go f (wire l) out = (None, [], out ++ flat_map answer_to l)) \/
  (exists b l1 l2, l = l1 ++ Data b :: l2 /\ flat_map data_of l1 = [] /\
     read_go f (wire l) out = (Some b, wire l2, out ++ flat_map answer_to l1)).
Proof.
  intros Hl; revert f out; induction Hl as [|i l Hi Hl IH]; intros f out Hf.
  { left. simpl. rewrite app_nil_r. by destruct f. }
  rewrite wire_cons in *. pose proof (read_go_item i (wire l) f out Hi Hf) as Hstep.
  assert ((exists b, i = Data b /\ read_go f (on_wire i ++ wire l) out = (Some b, wire l, out)) \/
          (data_of i = [] /\ exists f', (length (wire l) <= f')%nat /\
             read_go f (on_wire i ++ wire l) out = read_go f' (wire l) (out ++ answer_to i)))
    as [(b & -> & ->)|(Hi0 & f' & Hf' & ->)] by (destruct i; eauto).
  { right. exists b, [], l. rewrite app_nil_r. done. }
  destruct (IH f' (out ++ answer_to i) Hf') as [[Hd ->]|(b & l1 & l2 & -> & Hd & ->)].
  - left. simpl. by rewrite Hi0, <- app_assoc.
  - right. exists b, (i :: l1), l2. simpl. by rewrite Hi0, <- app_assoc.
Qed.

(** A file written by the server side and read back, with a client's
    option traffic anywhere in between, arrives byte for byte, and each request
    is answered once, in order; this needs that the client sends no refusal of
    an option. *)
Theorem zmodem_transparent l :
  Forall item_ok l ->
  read_all (S (length (wire l))) (wire l) = (flat_map data_of l, flat_map answer_to l).
Proof.
  intros Hl. assert (forall n, (length (wire l) < n)%nat ->
    read_all n (wire l) = (flat_map data_of l, flat_map answer_to l)) as H; [|apply H; lia].
  remember (length (wire l)) as k eqn:Hk. revert l Hl Hk.
  induction k as [k IH] using lt_wf_ind; intros l Hl -> n Hn.
  destruct n as [|n]; [lia|]. cbn [read_all]. unfold telnet_binary_read.
  destruct (read_go_items l (length (wire l)) [] Hl (le_n _))
    as [[Hd ->]|(b & l1 & l2 & -> & Hd & ->)].
  - by rewrite Hd.
  - apply Forall_app in Hl as [_ Hl]. apply Forall_cons in Hl as [_ Hl2].
    assert (length (wire l2) < length (wire (l1 ++ Data b :: l2)))%nat as Hlt.
    { unfold wire. rewrite flat_map_app, length_app. simpl flat_map. rewrite length_app.
      destruct (b =? 255); simpl; lia. }
    rewrite (IH (length (wire l2)) Hlt l2 Hl2 eq_refl n) by lia.
    rewrite !flat_map_app, Hd. simpl. done.
Qed.

(** What [telnet_binary_write] sends is the data doubled at IAC. *)
Lemma write_wire data room : (2 * length data <= room)%nat ->
  telnet_binary_write room data = (true, wire (map Data data)).
Proof.
  revert room; induction data as [|b t IH]; intros room Hr; [done|]. simpl in Hr.
  destruct room as [|[|room]]; [lia|lia|]. simpl. destruct (b =? 255).
  - rewrite IH by lia. done.
  - rewrite IH by lia. done.
Qed.

(** A refusal keeps its option byte: it is taken for a byte of the file. *)
Theorem refusal_leaks option rest : option <> TELNET_IAC ->
  telnet_binary_read (TELNET_IAC :: TELNET_CMD_WONT :: option :: rest) = (Some option, rest, []).
Proof. intros Ho. apply Z.eqb_neq in Ho. unfold telnet_binary_read. simpl. by rewrite Ho. Qed.

(** A file whose name starts with a dash is handed to [sz] as an option. *)
Theorem name_read_as_option root t : component_ok (c_minus :: t) ->
  sz_argument root (below root [c_minus :: t]) = c_minus :: t.
Proof.
  intros (_ & _ & _ & _ & Hl). unfold sz_argument, below. cbn [join_slash].
  rewrite drop_app_length. unfold snprintf_text.
  rewrite take_ge by (cbn [length] in *; unfold NAME_MAX, PATH_MAX in *; lia). done.
Qed.

End Zmodem.

(** ** Samples *)

Module TransferSamples.
Import Paths Scp Zmodem.

Definition store : storage :=
  {| file_storage_root := lit "/srv/files"; file_storage_ready := true |}.

Example dots_skipped :
  file_transfer_resolve_path store (lit "  //docs/./a b.txt  ") PATH_MAX PATH_MAX =
  Some (lit "/srv/files/docs/a b.txt", Some (lit "/docs/a b.txt")).
Proof. vm_compute. reflexivity. Qed.

Example parent_refused : file_transfer_resolve_path store (lit "docs/../x") PATH_MAX 0 = None.
Proof. vm_compute. reflexivity. Qed.

Example root_itself :
  file_transfer_resolve_path store (lit "././/") PATH_MAX PATH_MAX = Some (lit "/srv/files", Some (lit "/")).
Proof. vm_compute. reflexivity. Qed.

Lemma resolve_confined_witness :
  exists cs, cs = components (working_of (lit "docs/./a.txt")) /\ Forall component_ok cs /\
    file_storage_is_ready store = true /\ working_of (lit "docs/./a.txt") <> [] /\
    lit "/srv/files/docs/a.txt" = below (file_storage_root store) cs /\
    (length (lit "/srv/files/docs/a.txt") < PATH_MAX)%nat /\
    (if (PATH_MAX =? 0)%nat then Some (lit "/docs/a.txt") = None
     else Some (lit "/docs/a.txt") = Some (shown cs) /\ (length (shown cs) < PATH_MAX)%nat).
Proof.
  apply (resolve_confined store (lit "docs/./a.txt") PATH_MAX PATH_MAX
           (lit "/srv/files/docs/a.txt") (Some (lit "/docs/a.txt"))); [lia|].
  vm_compute. reflexivity.
Defined.

Lemma resolve_shown_again_witness :
  file_transfer_resolve_path store (lit "/docs/a b.txt") PATH_MAX PATH_MAX =
  Some (lit "/srv/files/docs/a b.txt", Some (lit "/docs/a b.txt")).
Proof.
  apply (resolve_shown_again store (lit "  //docs/./a b.txt  ")); [lia|lia| |];
    vm_compute; reflexivity.
Defined.

(** A file read in two pieces, sent over a channel that takes three bytes at a
    time at first, and received a byte, then the rest. *)
Definition sample_source : source :=
  {| src_stat := Some (33188, 5); src_open := true; src_reads := [[1; 10]; [0; 255; 7]];
     src_error := false |}.
Definition sample_path : bytes := lit "/srv/files/docs/a b.txt".
Definition sample_down : channel :=
  {| ch_in := [[0; 0]; [0]]; ch_accept := [3%nat; 3%nat]; ch_out := [] |}.
Definition sample_disk : disk :=
  {| disk_parent := true; disk_open := true; disk_room := 100 |}.
Definition sample_stream : bytes := lit "C0644 5 a b.txt" ++ [10; 1; 10; 0; 255; 7; 0].
Definition sample_up : channel :=
  {| ch_in := [lit "C"; drop 1 sample_stream]; ch_accept := []; ch_out := [] |}.

Lemma forall_by {A} (f : A -> bool) (P : A -> Prop) l :
  (forall x, f x = true -> P x) -> forallb f l = true -> Forall P l.
Proof. intros Hf Hl. eapply Forall_impl; [by apply forallb_Forall|done]. Qed.

Lemma scp_roundtrip_witness :
  exists ch', scp_handle_download sample_source sample_path sample_down = (true, ch') /\
    (delivers (ch_out ch') sample_up ->
     exists up', scp_handle_upload store sample_disk sample_up =
       (true, Some (mjoin (src_reads sample_source)), up') /\ ch_out up' = ch_out sample_up ++ [0; 0]).
Proof.
  apply (scp_roundtrip store sample_disk sample_source 33188 sample_path [] sample_down sample_up).
  - reflexivity.
  - reflexivity.
  - reflexivity.
  - by repeat constructor.
  - unfold LONG_MAX. simpl. lia.
  - split_and!; [repeat constructor; vm_compute; split; congruence| |reflexivity|].
    + vm_compute. intros H. repeat (destruct H as [H|H]; [discriminate H|]). done.
    + vm_compute. lia.
  - repeat constructor; lia.
  - split; [by repeat constructor|reflexivity].
  - reflexivity.
  - reflexivity.
  - split_and!; [reflexivity..|simpl; lia].
  - constructor.
Defined.

Example sample_delivered : forall ch', 
  scp_handle_download sample_source sample_path sample_down = (true, ch') ->
  delivers (ch_out ch') sample_up.
Proof. intros ch' H. vm_compute in H. injection H as <-. split; [by repeat constructor|]. reflexivity. Qed.

Lemma upload_sound_witness :
  exists line content size,
    header_size (take_while (fun c => negb (c =? c_nul)) line) = Some size /\
    Some [1; 10; 0; 255; 7] = Some content /\ Z.of_nat (length content) = size /\ ~ In c_lf line /\
    (mjoin (ch_in sample_up) = line ++ c_lf :: content ++ 0 :: mjoin [] \/
     mjoin (ch_in sample_up) = line ++ content ++ 0 :: mjoin [] /\ length line = (PATH_MAX - 1)%nat).
Proof.
  apply (upload_sound store sample_disk sample_up (Some [1; 10; 0; 255; 7])
           {| ch_in := []; ch_accept := []; ch_out := [0; 0] |}).
  vm_compute. reflexivity.
Defined.

Lemma scp_command_parses_witness :
  scp_parse_command (lit "scp -pft -- '/docs/a b.txt'") PATH_MAX =
  Some (SCP_MODE_UPLOAD, lit "/docs/a b.txt") /\
  scp_parse_command (scp_command (lit "p") (lit "v") SCP_MODE_DOWNLOAD true (lit "'-a b.txt'")) PATH_MAX =
  Some (SCP_MODE_DOWNLOAD, lit "-a b.txt").
Proof.
  split; [vm_compute; reflexivity|].
  apply (scp_command_parses (lit "p") (lit "v") SCP_MODE_DOWNLOAD true (lit "-a b.txt")).
  - reflexivity.
  - reflexivity.
  - done.
  - vm_compute. lia.
  - apply (word_quoted true (lit "-a b.txt") 39); [by left|].
    vm_compute. intros H. repeat (destruct H as [H|H]; [discriminate H|]). done.
Defined.

Definition sample_items : list item :=
  [Data 255; Ask 253 0; Data 1; Sub [24; 1]; Ask 251 31; Bare 241; Data 0].

Lemma zmodem_transparent_witness :
  read_all 27 (wire sample_items) = ([255; 1; 0], [255; 251; 0; 255; 254; 31]).
Proof.
  apply (zmodem_transparent sample_items).
  repeat constructor; vm_compute; intuition congruence.
Defined.

Lemma refusal_leaks_witness : telnet_binary_read [255; 252; 0; 9] = (Some 0, [9], []).
Proof. apply (refusal_leaks 0 [9]). done. Defined.

Lemma name_read_as_option_witness :
  sz_argument (lit "/srv/files") (below (lit "/srv/files") [lit "-y"]) = lit "-y".
Proof.
  apply (name_read_as_option (lit "/srv/files") (lit "y")).
  split_and!; try done.
  - vm_compute. intros H. repeat (destruct H as [H|H]; [discriminate H|]). done.
  - vm_compute. lia.
Defined.

Lemma exec_writes_below_witness :
  exists cs, Forall component_ok cs /\ lit "/srv/files/a" = below (file_storage_root store) cs.
Proof.
  apply (exec_writes_below store (lit "scp -t a") (fun _ => sample_disk) (fun _ => sample_source)
           {| ch_in := [sample_stream]; ch_accept := []; ch_out := [] |} true (lit "/srv/files/a")
           [1; 10; 0; 255; 7] {| ch_in := []; ch_accept := []; ch_out := [0; 0; 0] |}).
  vm_compute. reflexivity.
Defined.

Lemma exec_download_closes_twice_witness :
  exists ch', file_transfer_handle_scp_exec store (lit "scp -f 'docs/a b.txt'") (fun _ => sample_disk)
                (fun _ => sample_source) sample_down = (true, None, ch') /\
    ch_out ch' = ch_out sample_down ++ file_header 33188 5 sample_path ++
                 mjoin (src_reads sample_source) ++ [0; 0].
Proof.
  apply (exec_download_closes_twice store (lit "scp -f 'docs/a b.txt'") (lit "docs/a b.txt")
           (fun _ => sample_disk) (fun _ => sample_source) sample_source 33188 5 sample_path
           (Some (lit "/docs/a b.txt")) [] sample_down);
    try (vm_compute; reflexivity).
  - by repeat constructor.
  - repeat constructor; lia.
  - split; [by repeat constructor|reflexivity].
Defined.

End TransferSamples.
