(* ===== verification/SftpServer.v ===== *)
(** The SFTP server of the file storage ([file_transfer_handle_sftp] in
    [src/host/file_transfer.c]): one handler per request over the handles of the
    session, with the answers of the operating system as an argument and the
    calls made to it as a trace. *)

From Stdlib Require Import ZArith Lia String Ascii.
From stdpp Require Import prelude gmap.
From S2P Require Import Prelude FileTransfer.
Import FileTransfer.Paths.

Module Sftp.

(** ** The operating system *)

Record stat_t := {
  st_isdir : bool;
  st_isreg : bool;
  st_islnk : bool;
  st_mode : Z;
  st_size : Z;
  st_uid : Z;
  st_gid : Z;
  st_atime : Z;
  st_mtime : Z
}.

(** The calls of the handlers, with their arguments. *)
Inductive call :=
  | Stat (path : bytes)
  | Lstat (path : bytes)
  | Opendir (path : bytes)
  | Open (path : bytes) (flags : Z)
  | Unlink (path : bytes)
  | Rename (from to : bytes)
  | Mkdir (path : bytes)
  | Rmdir (path : bytes)
  | Truncate (path : bytes) (size : Z)
  | Chmod (path : bytes) (mode : Z)
  | Utimes (path : bytes) (atime mtime : Z)
  | Pread (fd len offset : Z)
  | Pwrite (fd : Z) (data : bytes) (offset : Z)
  | Fstat (fd : Z)
  | Ftruncate (fd size : Z)
  | Fchmod (fd mode : Z)
  | Futimes (fd atime mtime : Z)
  | Close (fd : Z)
  | Closedir (path : bytes).

(** Its answers, which may depend on all calls before: a status or [errno], the
    entries of a directory, a descriptor (negative for an error), the bytes
    read, the number written, and for the other calls 0 or [errno]; and whether
    there is memory for another allocation. *)
Record os := {
  os_stat : list call -> bytes -> Z + stat_t;
  os_lstat : list call -> bytes -> Z + stat_t;
  os_opendir : list call -> bytes -> option (list bytes);
  os_open : list call -> bytes -> Z -> Z;
  os_pread : list call -> Z -> Z -> Z -> option bytes;
  os_pwrite : list call -> Z -> bytes -> Z -> Z;
  os_fstat : list call -> Z -> option stat_t;
  os_done : list call -> call -> Z;
  os_memory : list call -> bool
}.

Definition ENOENT : Z := 2.
Definition EEXIST : Z := 17.

(** ** The session *)

(** [sftp_handle_data_t]; an open directory is what is left of its entries. *)
Inductive sftp_handle_data :=
  | SFTP_HANDLE_FILE (path : bytes) (fd : Z)
  | SFTP_HANDLE_DIR (path : bytes) (entries : list bytes).

Record attributes := {
  at_name : bytes;
  at_size : Z;
  at_uid : Z;
  at_gid : Z;
  at_permissions : Z;
  at_atime : Z;
  at_mtime : Z;
  at_type : Z
}.

Inductive reply :=
  | ReplyStatus (code : Z)
  | ReplyName (path : bytes)
  | ReplyAttr (a : attributes)
  | ReplyHandle (h : option Z)
  | ReplyNames (names : list (bytes * attributes))
  | ReplyData (data : bytes).

Definition SSH_FX_OK : Z := 0.
Definition SSH_FX_EOF : Z := 1.
Definition SSH_FX_NO_SUCH_FILE : Z := 2.
Definition SSH_FX_PERMISSION_DENIED : Z := 3.
Definition SSH_FX_FAILURE : Z := 4.
Definition SSH_FX_OP_UNSUPPORTED : Z := 8.
Definition SSH_FX_INVALID_HANDLE : Z := 9.

Record server := {
  sv_handles : gmap Z sftp_handle_data;
  sv_trace : list call;
  sv_replies : list reply
}.

Definition with_handles (f : gmap Z sftp_handle_data -> gmap Z sftp_handle_data) (s : server) : server :=
  {| sv_handles := f (sv_handles s); sv_trace := sv_trace s; sv_replies := sv_replies s |}.

(** ** Handlers are state transformers *)

Definition M (A : Type) : Type := server -> A * server.

Definition ret {A} (a : A) : M A := fun s => (a, s).
Definition bind {A B} (m : M A) (k : A -> M B) : M B := fun s => let '(a, s) := m s in k a s.

Declare Scope sftp_scope.
Delimit Scope sftp_scope with sftp.
Notation "'let!' x := m 'in' k" := (bind m (fun x => k))
  (at level 10, x name, m at level 100, k at level 200) : sftp_scope.
Notation "'do!' m 'in' k" := (bind m (fun _ => k)) (at level 10, m at level 100, k at level 200) : sftp_scope.
Open Scope sftp_scope.

(** A call: it goes into the trace, and the answer is of the state before it. *)
Definition calling {A} (c : call) (answer : list call -> A) : M A := fun s =>
  (answer (sv_trace s),
   {| sv_handles := sv_handles s; sv_trace := sv_trace s ++ [c]; sv_replies := sv_replies s |}).

Definition answer (r : reply) : M unit := fun s =>
  (tt, {| sv_handles := sv_handles s; sv_trace := sv_trace s; sv_replies := sv_replies s ++ [r] |}).

Definition status (code : Z) : M unit := answer (ReplyStatus code).

Definition lookup_handle (h : Z) : M (option sftp_handle_data) := fun s => (sv_handles s !! h, s).
Definition set_handle (h : Z) (d : sftp_handle_data) : M unit := fun s => (tt, with_handles <[h := d]> s).
Definition remove_handle (h : Z) : M unit := fun s => (tt, with_handles (delete h) s).

(** ** Directories on the way to a path *)

(** POSIX [dirname]. *)
Definition dirname (path : bytes) : bytes :=
  let trimmed := skip_while is_slash (rev path) in
  match skip_while (fun c => negb (is_slash c)) trimmed with
  | [] => match path with
          | [] => lit "."
          | c :: _ => if is_slash c then lit "/" else lit "."
          end
  | up => match skip_while is_slash up with
          | [] => lit "/"
          | d => rev d
          end
  end.

Section Server.
Context (o : os).

(** [sftp_handle_alloc] of libssh: a free slot, if there is one. *)
Context (alloc : gmap Z sftp_handle_data -> option Z).
Context (h : storage).

Definition do_stat (p : bytes) : M (Z + stat_t) := calling (Stat p) (fun t => os_stat o t p).
Definition do_call (c : call) : M Z := calling c (fun t => os_done o t c).
Definition have_memory : M bool := fun s => (os_memory o (sv_trace s), s).

(** [mkdir] of a directory that is missing, after its parents. *)
Definition make_missing (p : bytes) (parents : M bool) : M bool :=
  let! st := do_stat p in
  match st with
  | inr st => ret (st_isdir st)
  | inl errno =>
      if negb (errno =? ENOENT) then ret false
      else
        let! ok := parents in
        if negb ok then ret false
        else
          let! r := do_call (Mkdir p) in
          ret ((r =? 0) || (r =? EEXIST))
  end.

(** Each level is shorter than the one below it. *)
Fixpoint file_storage_ensure_parent (fuel : nat) (path : bytes) : M bool :=
  match fuel, path with
  | _, [] => ret false
  | O, _ => ret false
  | S f, _ =>
      let parent := dirname (snprintf_text PATH_MAX path) in
      if bytes_eqb parent (lit "/") then ret true
      else make_missing parent (file_storage_ensure_parent f parent)
  end.

Definition file_storage_ensure_directory (path : bytes) : M bool :=
  make_missing path (file_storage_ensure_parent (length path) path).

(** ** The requests *)

Record set_attributes := {
  sa_size : option Z;
  sa_permissions : option Z;
  sa_times : option (Z * Z)
}.

Inductive request :=
  | REALPATH (path : option bytes)
  | STAT (path : option bytes)
  | LSTAT (path : option bytes)
  | OPENDIR (path : option bytes)
  | READDIR (handle : Z)
  | OPEN (path : option bytes) (flags : Z)
  | READ (handle offset len : Z)
  | WRITE (handle offset : Z) (data : option bytes)
  | FSTAT (handle : Z)
  | CLOSE (handle : Z)
  | REMOVE (path : option bytes)
  | RENAME (oldpath newpath : option bytes)
  | MKDIR (path : option bytes)
  | RMDIR (path : option bytes)
  | SETSTAT (path : option bytes) (attr : option set_attributes)
  | FSETSTAT (handle : Z) (attr : option set_attributes)
  | UNSUPPORTED.

Definition resolve (path : option bytes) : option bytes :=
  match path with
  | None => None
  | Some p => match file_transfer_resolve_path h p PATH_MAX 0 with
              | Some (r, _) => Some r
              | None => None
              end
  end.

(** A request about a path: refused unless the path resolves. *)
Definition with_path (path : option bytes) (k : bytes -> M unit) : M unit :=
  match resolve path with
  | None => status SSH_FX_PERMISSION_DENIED
  | Some r => k r
  end.

Definition SSH_FILEXFER_TYPE_REGULAR : Z := 1.
Definition SSH_FILEXFER_TYPE_DIRECTORY : Z := 2.
Definition SSH_FILEXFER_TYPE_SYMLINK : Z := 3.
Definition SSH_FILEXFER_TYPE_SPECIAL : Z := 4.

Definition sftp_attr_from_stat (name : bytes) (st : stat_t) : attributes :=
  {| at_name := name;
     at_size := u64 (st_size st);
     at_uid := u32 (st_uid st);
     at_gid := u32 (st_gid st);
     at_permissions := u32 (st_mode st);
     at_atime := u32 (st_atime st);
     at_mtime := u32 (st_mtime st);
     at_type := if st_isreg st then SSH_FILEXFER_TYPE_REGULAR
                else if st_isdir st then SSH_FILEXFER_TYPE_DIRECTORY
                else if st_islnk st then SSH_FILEXFER_TYPE_SYMLINK
                else SSH_FILEXFER_TYPE_SPECIAL |}.

Definition reply_stat (name : bytes) (st : stat_t) : M unit :=
  let! memory := have_memory in
  if memory then answer (ReplyAttr (sftp_attr_from_stat name st)) else status SSH_FX_FAILURE.

(** A handle for [d]; [undo] gives up what it holds when there is no memory. *)
Definition new_handle (d : sftp_handle_data) (undo : call) : M unit :=
  let! memory := have_memory in
  if negb memory then do! do_call undo in status SSH_FX_FAILURE
  else fun s =>
    match alloc (sv_handles s) with
    | None => answer (ReplyHandle None) s
    | Some i => bind (set_handle i d) (fun _ => answer (ReplyHandle (Some i))) s
    end.

Definition SSH_FXF_READ : Z := 1.
Definition SSH_FXF_WRITE : Z := 2.
Definition SSH_FXF_APPEND : Z := 4.
Definition SSH_FXF_CREAT : Z := 8.
Definition SSH_FXF_TRUNC : Z := 16.
Definition SSH_FXF_EXCL : Z := 32.

Definition has (flags bit : Z) : bool := negb (Z.land flags bit =? 0).

(** The [O_] flags of Linux. *)
Definition system_flags (flags : Z) : Z :=
  let access := if has flags SSH_FXF_READ && has flags SSH_FXF_WRITE then 2
                else if has flags SSH_FXF_WRITE then 1 else 0 in
  let f := if has flags SSH_FXF_CREAT then Z.lor access 64 else access in
  let f := if has flags SSH_FXF_TRUNC then Z.lor f 512 else f in
  let f := if has flags SSH_FXF_EXCL then Z.lor f 128 else f in
  if has flags SSH_FXF_APPEND then Z.lor f 1024 else f.

(** The entries listed until there are a hundred or none are left: the page, and
    the entries still to read.  (Where there is no memory for the attributes of
    an entry the code goes on with none; that is left out.) *)
Fixpoint read_entries (path : bytes) (entries : list bytes) (page : list (bytes * attributes)) :
    M (list (bytes * attributes) * list bytes) :=
  match entries with
  | [] => ret (page, [])
  | name :: t =>
      if bytes_eqb name (lit ".") || bytes_eqb name (lit "..") then read_entries path t page
      else match path_buffer_join PATH_MAX path name with
           | None => read_entries path t page
           | Some full =>
               let! st := do_stat full in
               let page := match st with
                           | inr st => page ++ [(name, sftp_attr_from_stat name st)]
                           | inl _ => page
                           end in
               if (100 <=? length page)%nat then ret (page, t) else read_entries path t page
           end
  end.

(** Attributes set through a path or a descriptor, in order; only a failed
    change of the size is reported. *)
Definition set_all (attr : option set_attributes) (truncate_to : Z -> call) (chmod_to : Z -> call)
    (utimes_to : Z -> Z -> call) : M unit :=
  match attr with
  | None => status SSH_FX_OK
  | Some a =>
      let! r := match sa_size a with Some n => do_call (truncate_to n) | None => ret 0 end in
      if negb (r =? 0) then status SSH_FX_FAILURE
      else
        do! match sa_permissions a with
            | Some m => do_call (chmod_to (Z.land m 511)) | None => ret 0 end in
        do! match sa_times a with Some (x, y) => do_call (utimes_to x y) | None => ret 0 end in
        status SSH_FX_OK
  end.

Definition ok_or_failure (r : Z) : M unit := status (if r =? 0 then SSH_FX_OK else SSH_FX_FAILURE).

Definition handle_realpath (path : option bytes) : M unit :=
  match file_transfer_resolve_path h (default (lit "/") path) PATH_MAX PATH_MAX with
  | Some (_, Some display) => answer (ReplyName display)
  | _ => answer (ReplyName (lit "/"))
  end.

Definition handle_stat (path : option bytes) : M unit :=
  with_path path (fun r =>
  let! st := do_stat r in
  match st with
  | inl _ => status SSH_FX_NO_SUCH_FILE
  | inr st => reply_stat (Zmodem.basename r) st
  end).

Definition handle_lstat (path : option bytes) : M unit :=
  with_path path (fun r =>
  let! st := calling (Lstat r) (fun t => os_lstat o t r) in
  match st with
  | inl _ => status SSH_FX_NO_SUCH_FILE
  | inr st => reply_stat (Zmodem.basename r) st
  end).

Definition handle_opendir (path : option bytes) : M unit :=
  with_path path (fun r =>
  let! dir := calling (Opendir r) (fun t => os_opendir o t r) in
  match dir with
  | None => status SSH_FX_FAILURE
  | Some entries => new_handle (SFTP_HANDLE_DIR r entries) (Closedir r)
  end).

Definition handle_readdir (i : Z) : M unit :=
  let! d := lookup_handle i in
  match d with
  | Some (SFTP_HANDLE_DIR path entries) =>
      let! page := read_entries path entries [] in
      do! set_handle i (SFTP_HANDLE_DIR path (snd page)) in
      match fst page with
      | [] => status SSH_FX_EOF
      | names => answer (ReplyNames names)
      end
  | _ => status SSH_FX_INVALID_HANDLE
  end.

Definition handle_open (path : option bytes) (flags : Z) : M unit :=
  with_path path (fun r =>
  let! parent :=
    if has flags SSH_FXF_CREAT then file_storage_ensure_parent (length r) r else ret true in
  if negb parent then status SSH_FX_FAILURE
  else
    let! fd := calling (Open r (system_flags flags)) (fun t => os_open o t r (system_flags flags)) in
    if fd <? 0 then status SSH_FX_FAILURE
    else new_handle (SFTP_HANDLE_FILE r fd) (Close fd)).

Definition handle_read (i offset len : Z) : M unit :=
  let! d := lookup_handle i in
  match d with
  | Some (SFTP_HANDLE_FILE _ fd) =>
      let! memory := have_memory in
      if negb memory then status SSH_FX_FAILURE
      else
        let! data := calling (Pread fd len offset) (fun t => os_pread o t fd len offset) in
        match data with
        | None => status SSH_FX_FAILURE
        | Some [] => status SSH_FX_EOF
        | Some d => answer (ReplyData d)
        end
  | _ => status SSH_FX_INVALID_HANDLE
  end.

Definition handle_write (i offset : Z) (data : option bytes) : M unit :=
  let! d := lookup_handle i in
  match d with
  | Some (SFTP_HANDLE_FILE _ fd) =>
      match data with
      | None => status SSH_FX_FAILURE
      | Some data =>
          let! written := calling (Pwrite fd data offset) (fun t => os_pwrite o t fd data offset) in
          status (if written =? Z.of_nat (length data) then SSH_FX_OK else SSH_FX_FAILURE)
      end
  | _ => status SSH_FX_INVALID_HANDLE
  end.

Definition handle_fstat (i : Z) : M unit :=
  let! d := lookup_handle i in
  match d with
  | Some (SFTP_HANDLE_FILE path fd) =>
      let! st := calling (Fstat fd) (fun t => os_fstat o t fd) in
      match st with
      | None => status SSH_FX_FAILURE
      | Some st => reply_stat (Zmodem.basename path) st
      end
  | _ => status SSH_FX_INVALID_HANDLE
  end.

Definition handle_close (i : Z) : M unit :=
  let! d := lookup_handle i in
  do! match d with
      | Some (SFTP_HANDLE_FILE _ fd) => do! do_call (Close fd) in remove_handle i
      | Some (SFTP_HANDLE_DIR path _) => do! do_call (Closedir path) in remove_handle i
      | None => ret tt
      end in
  status SSH_FX_OK.

Definition handle_remove (path : option bytes) : M unit :=
  with_path path (fun r => let! e := do_call (Unlink r) in ok_or_failure e).

Definition handle_rename (oldpath newpath : option bytes) : M unit :=
  match resolve oldpath, resolve newpath with
  | Some r, Some r' => let! e := do_call (Rename r r') in ok_or_failure e
  | _, _ => status SSH_FX_PERMISSION_DENIED
  end.

Definition handle_mkdir (path : option bytes) : M unit :=
  with_path path (fun r =>
  let! ok := file_storage_ensure_directory r in
  status (if ok then SSH_FX_OK else SSH_FX_FAILURE)).

Definition handle_rmdir (path : option bytes) : M unit :=
  with_path path (fun r => let! e := do_call (Rmdir r) in ok_or_failure e).

Definition handle_setstat (path : option bytes) (attr : option set_attributes) : M unit :=
  with_path path (fun r => set_all attr (Truncate r) (Chmod r) (Utimes r)).

Definition handle_fsetstat (i : Z) (attr : option set_attributes) : M unit :=
  let! d := lookup_handle i in
  match d with
  | Some (SFTP_HANDLE_FILE _ fd) => set_all attr (Ftruncate fd) (Fchmod fd) (Futimes fd)
  | _ => status SSH_FX_INVALID_HANDLE
  end.

Definition handle_request (msg : request) : M unit :=
  match msg with
  | REALPATH path => handle_realpath path
  | STAT path => handle_stat path
  | LSTAT path => handle_lstat path
  | OPENDIR path => handle_opendir path
  | READDIR i => handle_readdir i
  | OPEN path flags => handle_open path flags
  | READ i offset len => handle_read i offset len
  | WRITE i offset data => handle_write i offset data
  | FSTAT i => handle_fstat i
  | CLOSE i => handle_close i
  | REMOVE path => handle_remove path
  | RENAME oldpath newpath => handle_rename oldpath newpath
  | MKDIR path => handle_mkdir path
  | RMDIR path => handle_rmdir path
  | SETSTAT path attr => handle_setstat path attr
  | FSETSTAT i attr => handle_fsetstat i attr
  | UNSUPPORTED => status SSH_FX_OP_UNSUPPORTED
  end.

(** The session: requests until the client ends it. *)
Definition new_session : server := {| sv_handles := ∅; sv_trace := []; sv_replies := [] |}.

Definition file_transfer_handle_sftp (msgs : list request) : server :=
  fold_left (fun s m => snd (handle_request m s)) msgs new_session.

End Server.

(** ** Invariants through the handlers *)

Definition keeps {A} (P : server -> Prop) (m : M A) : Prop := forall s, P s -> P (snd (m s)).

Lemma keeps_ret {A} P (a : A) : keeps P (ret a).
Proof. by intros s. Qed.

Lemma keeps_bind {A B} P (m : M A) (k : A -> M B) :
  keeps P m -> (forall a, keeps P (k a)) -> keeps P (bind m k).
Proof.
  intros Hm Hk s Hs. unfold bind. pose proof (Hm s Hs) as H.
  destruct (m s) as [a s']. by apply Hk.
Qed.

(** The handler of a request, written out. *)
Ltac open_request :=
  cbn [handle_request];
  unfold handle_realpath, handle_stat, handle_lstat, handle_opendir, handle_readdir, handle_open,
    handle_read, handle_write, handle_fstat, handle_close, handle_remove, handle_rename,
    handle_mkdir, handle_rmdir, handle_setstat, handle_fsetstat.

Lemma suffix_skip_while f s : exists p, s = p ++ skip_while f s.
Proof. exists (take_while f s). by rewrite take_skip_while. Qed.

Lemma suffix_rev_prefix (p s : bytes) : (exists q, rev s = q ++ p) -> exists r, s = rev p ++ r.
Proof.
  intros [q Hq]. exists (rev q). rewrite <- rev_app_distr, <- Hq. by rewrite rev_involutive.
Qed.

(** The directory of an absolute path is an absolute prefix of it, shorter
    unless it is the root. *)
Lemma dirname_prefix path : peek path = c_slash ->
  peek (dirname path) = c_slash /\ (exists r, path = dirname path ++ r) /\
  (dirname path <> lit "/" -> (length (dirname path) < length path)%nat).
Proof.
  intros Hp. destruct path as [|c path]; [done|]. simpl in Hp. subst c.
  set (p := c_slash :: path) in *. unfold dirname.
  destruct (suffix_skip_while is_slash (rev p)) as [q1 Hq1].
  set (trimmed := skip_while is_slash (rev p)) in *.
  destruct (suffix_skip_while (fun c => negb (is_slash c)) trimmed) as [q2 Hq2].
  destruct (skip_while (fun c => negb (is_slash c)) trimmed) as [|u up] eqn:Hup.
  { unfold p. change (is_slash c_slash) with true. cbv iota.
    split; [done|]. split; [by exists path|done]. }
  destruct (suffix_skip_while is_slash (u :: up)) as [q3 Hq3].
  destruct (skip_while is_slash (u :: up)) as [|d ds] eqn:Hd.
  { split; [done|]. split; [by exists path|done]. }
  destruct (suffix_rev_prefix (d :: ds) p) as [r Hr].
  { exists (q1 ++ q2 ++ q3). rewrite Hq1, Hq2 at 1. rewrite Hq3 at 1. by rewrite <- !app_assoc. }
  split; [|split; [by exists r|]].
  - destruct (rev (d :: ds)) as [|e es] eqn:He.
    { apply (f_equal (@length Z)) in He. rewrite length_rev in He. done. }
    unfold p in Hr. simpl in Hr. by injection Hr as <-.
  - intros _. apply (f_equal (@length Z)) in Hq1, Hq2. rewrite !length_app in Hq1, Hq2.
    rewrite length_rev in *. apply skip_while_head, negb_false_iff in Hup.
    simpl in Hd. rewrite Hup in Hd. pose proof (skip_while_length is_slash up) as Hl.
    rewrite Hd in Hl. simpl in *. lia.
Qed.

(** *** Where the calls go *)

Section Below.
Context (o : os) (alloc : gmap Z sftp_handle_data -> option Z) (h : storage).

(** The root is absolute, which [host_file_storage_init] sees to, and directory
    entries are file names. *)
Context (Hroot : peek (file_storage_root h) = c_slash).

Definition entry_name (e : bytes) : Prop := e = lit "." \/ e = lit ".." \/ component_ok e.

Context (Hentries : forall t p es, os_opendir o t p = Some es -> Forall entry_name es).

Definition inside (p : bytes) : Prop :=
  exists cs, Forall component_ok cs /\ p = below (file_storage_root h) cs.

(** A directory on the way to a path inside. *)
Definition on_the_way (p : bytes) : Prop :=
  peek p = c_slash /\ exists r, inside (p ++ r).

Definition call_ok (c : call) : Prop :=
  match c with
  | Stat p | Mkdir p => on_the_way p
  | Lstat p | Opendir p | Open p _ | Unlink p | Rmdir p | Truncate p _ | Chmod p _
  | Utimes p _ _ | Closedir p => inside p
  | Rename p q => inside p /\ inside q
  | Pread _ _ _ | Pwrite _ _ _ | Fstat _ | Ftruncate _ _ | Fchmod _ _ | Futimes _ _ _
  | Close _ => True
  end.

Definition handle_ok (d : sftp_handle_data) : Prop :=
  match d with
  | SFTP_HANDLE_FILE p _ => inside p
  | SFTP_HANDLE_DIR p es => inside p /\ Forall entry_name es
  end.

Definition server_ok (s : server) : Prop :=
  Forall call_ok (sv_trace s) /\ map_Forall (fun _ d => handle_ok d) (sv_handles s).

Lemma inside_on_the_way p : inside p -> on_the_way p.
Proof.
  intros Hp. split; [|exists []; by rewrite app_nil_r].
  destruct Hp as (cs & _ & ->). unfold below.
  destruct (file_storage_root h) as [|c r] eqn:E; [done|]. simpl in Hroot. subst c. by destruct cs.
Qed.

Lemma on_the_way_dirname p : on_the_way p -> on_the_way (dirname p).
Proof.
  intros (Hp & r & Hin). destruct (dirname_prefix p Hp) as (Hd & (q & Hq) & _).
  split; [done|]. exists (q ++ r). by rewrite app_assoc, <- Hq.
Qed.

Lemma on_the_way_take n p : on_the_way p -> (0 < n)%nat -> on_the_way (take n p).
Proof.
  intros (Hp & r & Hin) Hn. split.
  - destruct p as [|c p]; [done|]. by destruct n; [lia|].
  - exists (drop n p ++ r). by rewrite app_assoc, take_drop.
Qed.

Lemma inside_entry p e full : inside p -> component_ok e ->
  path_buffer_join PATH_MAX p e = Some full -> inside full.
Proof.
  intros (cs & Hcs & ->) He Hj.
  assert (full = below (file_storage_root h) cs ++ c_slash :: e) as ->.
  { unfold path_buffer_join in Hj. by repeat case_match; simplify_eq. }
  exists (cs ++ [e]). split; [by apply Forall_app_2; [|constructor]|].
  destruct cs as [|c cs]; [done|]. unfold below. rewrite <- app_assoc.
  change ((c :: cs) ++ [e]) with (c :: (cs ++ [e])). cbn [app]. f_equal. f_equal.
  change (c :: (cs ++ [e])) with ((c :: cs) ++ [e]). by rewrite join_slash_snoc.
Qed.

Lemma resolve_inside path r : resolve h path = Some r -> inside r.
Proof.
  unfold resolve. destruct path as [v|]; [|done].
  destruct (file_transfer_resolve_path h v PATH_MAX 0) as [[r' d]|] eqn:E; [|done]. intros [= <-].
  by apply resolve_below in E.
Qed.

Abbreviation safe := (keeps server_ok).

Lemma safe_calling {A} c (f : list call -> A) : call_ok c -> safe (calling c f).
Proof. intros Hc s [Ht Hh]. split; simpl; [|done]. apply Forall_app_2; [done|by constructor]. Qed.

Lemma safe_answer r : safe (answer r).
Proof. by intros s [? ?]. Qed.

Lemma safe_set i d : handle_ok d -> safe (set_handle i d).
Proof. intros Hd s [Ht Hh]. split; simpl; [done|]. by apply map_Forall_insert_2. Qed.

Lemma safe_remove i : safe (remove_handle i).
Proof. intros s [Ht Hh]. split; simpl; [done|]. by apply map_Forall_delete. Qed.

Lemma safe_memory : safe (have_memory o).
Proof. by intros s ?. Qed.

(** Looking a handle up gives one that is well formed. *)
Lemma safe_lookup {B} i (k : option sftp_handle_data -> M B) :
  (forall d, (forall d', d = Some d' -> handle_ok d') -> safe (k d)) -> safe (bind (lookup_handle i) k).
Proof.
  intros Hk s Hs. unfold bind, lookup_handle. apply Hk; [|done].
  intros d Hd. destruct Hs as [_ Hh]. by apply (Hh i).
Qed.

Lemma safe_call c : call_ok c -> safe (do_call o c).
Proof. apply safe_calling. Qed.

Lemma safe_make_missing p parents : on_the_way p -> safe parents -> safe (make_missing o p parents).
Proof.
  intros Hp Hpar. unfold make_missing, do_stat. apply keeps_bind; [by apply safe_calling|].
  intros [e|st]; [|apply keeps_ret]. destruct (negb _); [apply keeps_ret|].
  apply keeps_bind; [done|]. intros ok. destruct (negb ok); [apply keeps_ret|].
  apply keeps_bind; [by apply safe_call|]. intros; apply keeps_ret.
Qed.

Lemma safe_ensure_parent fuel p : on_the_way p -> safe (file_storage_ensure_parent o fuel p).
Proof.
  revert p; induction fuel as [|f IH]; intros p Hp; simpl; (destruct p as [|c t]; [apply keeps_ret|]).
  { apply keeps_ret. }
  assert (on_the_way (dirname (snprintf_text PATH_MAX (c :: t)))) as Hd.
  { apply on_the_way_dirname, on_the_way_take; [done|]. unfold PATH_MAX. lia. }
  destruct (bytes_eqb _ _); [apply keeps_ret|]. apply safe_make_missing; auto.
Qed.

Lemma safe_ensure_directory p : on_the_way p -> safe (file_storage_ensure_directory o p).
Proof. intros Hp. apply safe_make_missing; [done|]. by apply safe_ensure_parent. Qed.

Lemma safe_read_entries p es page s s' res : inside p -> Forall entry_name es -> server_ok s ->
  read_entries o p es page s = (res, s') -> server_ok s' /\ Forall entry_name (snd res).
Proof.
  intros Hp Hes; revert page s; induction Hes as [|e es He Hes IH]; intros page s Hs; cbn [read_entries].
  { by intros [= <- <-]. }
  destruct (_ || _) eqn:Hdots; [by apply IH|]. rewrite orb_false_iff, !bytes_eqb_neq in Hdots.
  destruct (path_buffer_join _ _ _) as [full|] eqn:Hj; [|by apply IH].
  destruct Hdots as [H1 H2]. destruct He as [?|[?|He]]; [done..|].
  assert (on_the_way full) as Hfull by (by eapply inside_on_the_way, inside_entry).
  unfold bind, do_stat.
  pose proof (safe_calling (Stat full) (fun t => os_stat o t full) Hfull s Hs) as Hs1.
  destruct (calling (Stat full) (fun t => os_stat o t full) s) as [st s1]. simpl in Hs1. cbv zeta.
  destruct (100 <=? _)%nat; [by intros [= <- <-]|]. by apply IH.
Qed.

Lemma safe_new_handle d c : handle_ok d -> call_ok c -> safe (new_handle o alloc d c).
Proof.
  intros Hd Hc. unfold new_handle. apply keeps_bind; [apply safe_memory|]. intros m.
  destruct (negb m).
  - apply keeps_bind; [by apply safe_call|]. intros; apply safe_answer.
  - intros s Hs. destruct (alloc _); [|by apply safe_answer].
    apply keeps_bind; [by apply safe_set|intros; apply safe_answer|done].
Qed.

Lemma safe_set_all attr f g k : (forall n, call_ok (f n)) -> (forall n, call_ok (g n)) ->
  (forall x y, call_ok (k x y)) -> safe (set_all o attr f g k).
Proof.
  intros Hf Hg Hk. unfold set_all. destruct attr as [a|]; [|apply safe_answer].
  apply keeps_bind; [destruct (sa_size a); [by apply safe_call|apply keeps_ret]|]. intros r.
  destruct (negb _); [apply safe_answer|].
  apply keeps_bind; [destruct (sa_permissions a); [by apply safe_call|apply keeps_ret]|]. intros _.
  apply keeps_bind; [destruct (sa_times a) as [[x y]|]; [by apply safe_call|apply keeps_ret]|].
  intros _. apply safe_answer.
Qed.

Lemma safe_with_path path k : (forall r, inside r -> safe (k r)) -> safe (with_path h path k).
Proof.
  intros Hk. unfold with_path. destruct (resolve h path) eqn:E; [|apply safe_answer].
  by eapply Hk, resolve_inside.
Qed.

Lemma safe_reply_stat n st : safe (reply_stat o n st).
Proof.
  unfold reply_stat. apply keeps_bind; [apply safe_memory|]. intros [|]; apply safe_answer.
Qed.

Lemma safe_opendir r k : inside r -> (forall es, Forall entry_name es -> safe (k es)) ->
  safe (bind (calling (Opendir r) (fun t => os_opendir o t r))
             (fun dir => match dir with None => status SSH_FX_FAILURE | Some es => k es end)).
Proof.
  intros Hr Hk s Hs. unfold bind.
  pose proof (safe_calling (Opendir r) (fun t => os_opendir o t r) Hr s Hs) as Hs1.
  unfold calling in *. destruct (os_opendir o (sv_trace s) r) as [es|] eqn:E.
  - apply Hk; [by eapply Hentries|done].
  - by apply safe_answer.
Qed.

(** Steps through a handler. *)
Ltac safe_step :=
  first
    [ apply keeps_ret | apply safe_answer | apply safe_reply_stat | apply safe_memory
    | apply safe_new_handle; [done|done]
    | apply safe_remove
    | apply safe_set_all; done
    | apply safe_ensure_parent; by apply inside_on_the_way
    | apply safe_ensure_directory; by apply inside_on_the_way
    | apply safe_call; solve [done | by apply inside_on_the_way
        | match goal with H : forall d', Some _ = Some d' -> _ |- _ => by destruct (H _ eq_refl) end]
    | apply safe_calling; solve [done | by apply inside_on_the_way]
    | apply keeps_bind; [|intros ?]
    | match goal with |- keeps _ (match ?x with _ => _ end) => destruct x eqn:? end ].

Lemma safe_handle_request msg : safe (handle_request o alloc h msg).
Proof.
  destruct msg; open_request;
    try (apply safe_with_path; intros r Hr);
    try (apply safe_lookup; intros d Hd; destruct d as [[p fd|p es]|]; try apply safe_answer).
  - repeat safe_step.
  - repeat safe_step.
  - repeat safe_step.
  - apply (safe_opendir r (fun es => new_handle o alloc (SFTP_HANDLE_DIR r es) (Closedir r))); [done|].
    intros es Hes. by repeat safe_step.
  - destruct (Hd _ eq_refl) as [Hp Hes]. intros s Hs. unfold bind at 1.
    destruct (read_entries o p es [] s) as [page s1] eqn:E.
    destruct (safe_read_entries p es [] s s1 page Hp Hes Hs E) as [Hs1 Hes1].
    apply keeps_bind; [by apply safe_set|intros _|done]. destruct (fst page); apply safe_answer.
  - unfold ok_or_failure. repeat safe_step.
  - repeat safe_step.
  - repeat safe_step.
  - repeat safe_step.
  - repeat safe_step.
  - repeat safe_step.
  - repeat safe_step.
  - destruct (resolve h newpath) as [r'|] eqn:E2; [|apply safe_answer].
    apply resolve_inside in E2. apply keeps_bind; [by apply safe_call|intros; apply safe_answer].
  - repeat safe_step.
  - unfold ok_or_failure. repeat safe_step.
  - repeat safe_step.
  - repeat safe_step.
  - repeat safe_step.
Qed.

End Below.

(** C30: whatever a client asks and whatever the operating system answers, every
    path handed to it lies below the storage root, but for directories looked up
    or made on the way to such a path. *)
Theorem sftp_stays_below o alloc h msgs :
  peek (file_storage_root h) = c_slash ->
  (forall t p es, os_opendir o t p = Some es -> Forall entry_name es) ->
  Forall (call_ok h) (sv_trace (file_transfer_handle_sftp o alloc h msgs)).
Proof.
  intros Hroot Hentries. unfold file_transfer_handle_sftp.
  assert (forall s, server_ok h s ->
    server_ok h (fold_left (fun s m => snd (handle_request o alloc h m s)) msgs s)) as H.
  { induction msgs as [|m msgs IH]; intros s Hs; simpl; [done|].
    by apply IH, safe_handle_request. }
  apply H. split; [constructor|apply map_Forall_empty].
Qed.

(** *** Every request is answered once *)

Section Replies.
Context (o : os) (alloc : gmap Z sftp_handle_data -> option Z) (h : storage).

(** [m] adds [n] replies. *)
Definition replies {A} (n : nat) (m : M A) : Prop := forall s,
  exists l, sv_replies (snd (m s)) = sv_replies s ++ l /\ length l = n.

Lemma replies_ret {A} (a : A) : replies 0 (ret a).
Proof. intros s. exists []. by rewrite app_nil_r. Qed.

Lemma replies_bind {A B} n k (m : M A) (f : A -> M B) :
  replies n m -> (forall a, replies k (f a)) -> replies (n + k) (bind m f).
Proof.
  intros Hm Hf s. unfold bind. destruct (Hm s) as (l & Hl & <-). destruct (m s) as [a s']. simpl in Hl.
  destruct (Hf a s') as (l' & Hl' & <-). exists (l ++ l'). rewrite length_app.
  split; [|done]. by rewrite Hl', Hl, app_assoc.
Qed.

Lemma replies_then {A B} k (m : M A) (f : A -> M B) :
  replies 0 m -> (forall a, replies k (f a)) -> replies k (bind m f).
Proof. apply (replies_bind 0). Qed.

Lemma replies_quiet {A} (m : M A) : (forall s, sv_replies (snd (m s)) = sv_replies s) -> replies 0 m.
Proof. intros Hm s. exists []. by rewrite app_nil_r. Qed.

Lemma replies_answer r : replies 1 (answer r).
Proof. intros s. by exists [r]. Qed.

Create HintDb reply.
Hint Resolve replies_ret replies_answer : reply.
Hint Extern 1 (replies 0 (calling _ _)) => by apply replies_quiet : reply.
Hint Extern 1 (replies 0 (do_stat _ _)) => by apply replies_quiet : reply.
Hint Extern 1 (replies 0 (do_call _ _)) => by apply replies_quiet : reply.
Hint Extern 1 (replies 0 (have_memory _)) => by apply replies_quiet : reply.
Hint Extern 1 (replies 0 (lookup_handle _)) => by apply replies_quiet : reply.
Hint Extern 1 (replies 0 (set_handle _ _)) => by apply replies_quiet : reply.
Hint Extern 1 (replies 0 (remove_handle _)) => by apply replies_quiet : reply.
Hint Extern 1 (replies 1 (status _)) => apply replies_answer : reply.

Ltac reply_step :=
  repeat first
    [ solve [auto with reply]
    | apply replies_then; [|intros ?]
    | match goal with |- replies _ (match ?x with _ => _ end) => destruct x end ].

Lemma replies_make_missing p parents : replies 0 parents -> replies 0 (make_missing o p parents).
Proof. intros Hp. unfold make_missing. reply_step. Qed.

Lemma replies_ensure_parent fuel p : replies 0 (file_storage_ensure_parent o fuel p).
Proof.
  revert p; induction fuel as [|f IH]; intros [|c p]; simpl; try apply replies_ret.
  destruct (bytes_eqb _ _); [apply replies_ret|]. by apply replies_make_missing.
Qed.

Lemma replies_read_entries p es page : replies 0 (read_entries o p es page).
Proof.
  revert page; induction es as [|e es IH]; intros page; cbn [read_entries]; [apply replies_ret|].
  reply_step; done.
Qed.

Hint Resolve replies_ensure_parent replies_read_entries : reply.

Lemma replies_new_handle d c : replies 1 (new_handle o alloc d c).
Proof.
  unfold new_handle. apply replies_then; [auto with reply|]. intros m.
  destruct (negb m); [reply_step|]. intros s. destruct (alloc _).
  - by apply (replies_then 1); [apply replies_quiet|intros; apply replies_answer].
  - apply replies_answer.
Qed.

Lemma replies_with_path path k : (forall r, replies 1 (k r)) -> replies 1 (with_path h path k).
Proof. intros Hk. unfold with_path. destruct (resolve h path); [done|apply replies_answer]. Qed.

Lemma replies_set_all attr f g k : replies 1 (set_all o attr f g k).
Proof. unfold set_all. reply_step. Qed.

Hint Resolve replies_new_handle replies_set_all : reply.

Lemma replies_handle_request msg : replies 1 (handle_request o alloc h msg).
Proof.
  destruct msg; open_request; try (apply replies_with_path; intros r);
    unfold reply_stat, ok_or_failure, file_storage_ensure_directory; reply_step.
Qed.

End Replies.

(** Every request of a session, whatever it is and however it ends, is
    answered by exactly one reply. *)
Theorem one_reply_each o alloc h msgs :
  length (sv_replies (file_transfer_handle_sftp o alloc h msgs)) = length msgs.
Proof.
  unfold file_transfer_handle_sftp.
  assert (forall s, length (sv_replies
    (fold_left (fun s m => snd (handle_request o alloc h m s)) msgs s)) =
    (length (sv_replies s) + length msgs)%nat) as H.
  { induction msgs as [|m msgs IH]; intros s; simpl; [lia|]. rewrite IH.
    destruct (replies_handle_request o alloc h m s) as (l & -> & Hl).
    rewrite length_app. lia. }
  by rewrite H.
Qed.

(** *** A directory is listed whole *)

Section Listing.
Context (o : os) (alloc : gmap Z sftp_handle_data -> option Z) (h : storage).

(** The file system does not change while the directory is read. *)
Context (stat_of : bytes -> Z + stat_t) (Hstat : forall t p, os_stat o t p = stat_of p).

(** What there is to list: the entries but for the dots, those whose path is too
    long and those that cannot be looked up. *)
Definition listed_entry (path name : bytes) : option (bytes * attributes) :=
  if bytes_eqb name (lit ".") || bytes_eqb name (lit "..") then None
  else match path_buffer_join PATH_MAX path name with
       | None => None
       | Some full => match stat_of full with
                      | inr st => Some (name, sftp_attr_from_stat name st)
                      | inl _ => None
                      end
       end.

Definition listed (path : bytes) (entries : list bytes) : list (bytes * attributes) :=
  omap (listed_entry path) entries.

Lemma read_entries_spec path es page s : (length page < 100)%nat ->
  exists more rest s', read_entries o path es page s = ((page ++ more, rest), s') /\
    listed path es = more ++ listed path rest /\ (length (page ++ more) <= 100)%nat /\
    (length rest <= pred (length es))%nat /\
    (rest = [] \/ length (page ++ more) = 100%nat) /\
    sv_handles s' = sv_handles s /\ sv_replies s' = sv_replies s.
Proof.
  revert page s; induction es as [|e es IH]; intros page s Hp; cbn [read_entries].
  { exists [], [], s. rewrite app_nil_r. split_and!; auto. lia. }
  assert (forall s, listed_entry path e = None ->
    exists more rest s', read_entries o path es page s = ((page ++ more, rest), s') /\
      listed path (e :: es) = more ++ listed path rest /\ (length (page ++ more) <= 100)%nat /\
      (length rest <= pred (length (e :: es)))%nat /\
      (rest = [] \/ length (page ++ more) = 100%nat) /\
      sv_handles s' = sv_handles s /\ sv_replies s' = sv_replies s) as Hskip.
  { intros s0 He. destruct (IH page s0 Hp) as (more & rest & s' & -> & Hm & ? & ? & ?).
    exists more, rest, s'. split; [done|]. split; [unfold listed; cbn [omap list_omap]; by rewrite He|].
    simpl. split; [done|]. split; [lia|done]. }
  destruct (_ || _) eqn:Hdots.
  { apply Hskip. unfold listed_entry. by rewrite Hdots. }
  destruct (path_buffer_join PATH_MAX path e) as [full|] eqn:Hj.
  2:{ apply Hskip. unfold listed_entry. by rewrite Hdots, Hj. }
  unfold bind, do_stat, calling. rewrite Hstat. cbv zeta.
  set (s1 := {| sv_handles := _ |}). destruct (stat_of full) as [err|st] eqn:Hst.
  - destruct (Nat.leb_spec 100 (length page)); [lia|]. apply (Hskip s1).
    unfold listed_entry. by rewrite Hdots, Hj, Hst.
  - set (entry := (e, sftp_attr_from_stat e st)).
    assert (listed path (e :: es) = entry :: listed path es) as Hl.
    { unfold listed. cbn [omap list_omap]. unfold listed_entry at 1. by rewrite Hdots, Hj, Hst. }
    rewrite Hl. destruct (Nat.leb_spec 100 (length (page ++ [entry]))) as [H100|H100].
    + exists [entry], es, s1. rewrite length_app in *. simpl in *.
      split_and!; try done; lia.
    + destruct (IH (page ++ [entry]) s1 H100) as (more & rest & s' & -> & Hm & H1 & H2 & H3 & H4).
      rewrite <- app_assoc in *. exists (entry :: more), rest, s'.
      split; [done|]. split; [by rewrite Hm|]. split; [done|]. split; [simpl; lia|done].
Qed.

Definition names_of (r : reply) : list (bytes * attributes) :=
  match r with ReplyNames l => l | _ => [] end.

(** [n] times READDIR of one handle. *)
Definition read_dir (n : nat) (i : Z) (s : server) : server :=
  fold_left (fun s m => snd (handle_request o alloc h m s)) (replicate n (READDIR i)) s.

Lemma readdir_step i path es s : sv_handles s !! i = Some (SFTP_HANDLE_DIR path es) ->
  exists page rest s', snd (handle_request o alloc h (READDIR i) s) = s' /\
    listed path es = page ++ listed path rest /\ (length page <= 100)%nat /\
    (length rest <= pred (length es))%nat /\ (page = [] -> rest = []) /\
    sv_handles s' !! i = Some (SFTP_HANDLE_DIR path rest) /\
    sv_replies s' = sv_replies s ++ [match page with [] => ReplyStatus SSH_FX_EOF | l => ReplyNames l end].
Proof.
  intros Hi. open_request. unfold bind at 1, lookup_handle. rewrite Hi. cbv beta iota.
  destruct (read_entries_spec path es [] s) as (page & rest & s' & E & Hl & H1 & H2 & H3 & H4 & H5);
    [simpl; lia|].
  unfold bind at 1. rewrite E. cbn [app fst snd] in *. rewrite <- H5.
  exists page, rest. eexists. split; [done|]. split; [done|]. split; [done|]. split; [done|].
  split; [intros ->; by destruct H3|].
  unfold bind, set_handle. destruct page; (split; [apply lookup_insert_eq|done]).
Qed.

(** The names of the replies a run of READDIR adds. *)
Lemma read_dir_names n i path es s : sv_handles s !! i = Some (SFTP_HANDLE_DIR path es) ->
  (length es <= n)%nat ->
  exists rs, sv_replies (read_dir n i s) = sv_replies s ++ rs /\ flat_map names_of rs = listed path es /\
    Forall (fun r => (length (names_of r) <= 100)%nat) rs /\
    sv_handles (read_dir n i s) !! i = Some (SFTP_HANDLE_DIR path []).
Proof.
  revert es s; induction n as [|n IH]; intros es s Hi Hn.
  { destruct es; [|simpl in Hn; lia]. exists []. rewrite app_nil_r. done. }
  destruct (readdir_step i path es s Hi) as (page & rest & s' & Hs & Hl & Hp & Hr & Hpr & Hi' & Hrep).
  unfold read_dir. cbn [replicate fold_left]. rewrite Hs. fold (read_dir n i s').
  destruct (IH rest s' Hi') as (rs & -> & Hf & Hall & ->); [lia|].
  eexists (_ :: rs). rewrite Hrep, <- app_assoc. split; [done|]. split; [|split; [|done]].
  - simpl. rewrite Hf, Hl. by destruct page.
  - constructor; [by destruct page; simpl; [lia|]|done].
Qed.

End Listing.

(** Reading an open directory over and over, as often as it has entries,
    gives every file in it with its attributes exactly once, in order and in
    pages of at most a hundred; then the end is reported. *)
Theorem readdir_complete o alloc h stat_of n i path es s :
  (forall t p, os_stat o t p = stat_of p) ->
  sv_handles s !! i = Some (SFTP_HANDLE_DIR path es) -> (length es <= n)%nat ->
  exists rs, sv_replies (read_dir o alloc h n i s) = sv_replies s ++ rs /\
    flat_map names_of rs = listed stat_of path es /\
    Forall (fun r => (length (names_of r) <= 100)%nat) rs /\
    sv_replies (read_dir o alloc h (n + 1) i s) =
      sv_replies s ++ rs ++ [ReplyStatus SSH_FX_EOF].
Proof.
  intros Hst Hi Hn.
  destruct (read_dir_names o alloc h stat_of Hst n i path es s Hi Hn) as (rs & Hr & Hf & Hall & Hi').
  exists rs. split_and!; [done..|]. unfold read_dir. rewrite replicate_add, fold_left_app.
  fold (read_dir o alloc h n i s). simpl.
  destruct (readdir_step o alloc h stat_of Hst i path [] _ Hi')
    as (page & rest & s' & Hs & Hl & _ & _ & _ & _ & Hrep).
  unfold listed in Hl. simpl in Hl. symmetry in Hl. apply app_eq_nil in Hl as [-> _].
  cbn [handle_request] in Hs. rewrite Hs, Hrep, Hr. by rewrite <- app_assoc.
Qed.

(** *** What is left open *)

Section Closing.
Context (o : os) (alloc : gmap Z sftp_handle_data -> option Z) (h : storage).
Context (Hmemory : forall t, os_memory o t = true).

Definition closes (c : call) : bool := match c with Close _ | Closedir _ => true | _ => false end.

Definition nothing_closed (s : server) : Prop := Forall (fun c => closes c = false) (sv_trace s).

Lemma open_calling {A} c (f : list call -> A) : closes c = false -> keeps nothing_closed (calling c f).
Proof. intros Hc s Hs. apply Forall_app_2; [done|by constructor]. Qed.

Lemma open_quiet {A} (m : M A) : (forall s, sv_trace (snd (m s)) = sv_trace s) -> keeps nothing_closed m.
Proof. intros Hm s Hs. unfold nothing_closed. by rewrite Hm. Qed.

Ltac open_step :=
  repeat first
    [ apply keeps_ret
    | assumption
    | solve [by apply open_quiet]
    | solve [by apply open_calling]
    | apply keeps_bind; [|intros ?]
    | match goal with |- keeps _ (match ?x with _ => _ end) => destruct x end ].

Lemma open_make_missing p parents :
  keeps nothing_closed parents -> keeps nothing_closed (make_missing o p parents).
Proof. intros Hp. unfold make_missing, do_stat, do_call. open_step. Qed.

Lemma open_ensure_parent fuel p : keeps nothing_closed (file_storage_ensure_parent o fuel p).
Proof.
  revert p; induction fuel as [|f IH]; intros [|c p]; simpl; try apply keeps_ret.
  destruct (bytes_eqb _ _); [apply keeps_ret|]. by apply open_make_missing.
Qed.

Lemma open_read_entries p es page : keeps nothing_closed (read_entries o p es page).
Proof.
  revert page; induction es as [|e es IH]; intros page; cbn [read_entries]; [apply keeps_ret|].
  unfold do_stat. open_step; auto.
Qed.

Lemma open_new_handle d c : keeps nothing_closed (new_handle o alloc d c).
Proof.
  intros s Hs. unfold new_handle, bind, have_memory. rewrite Hmemory. cbn [negb].
  by destruct (alloc _).
Qed.

Lemma open_set_all attr f g k : (forall n, closes (f n) = false) -> (forall n, closes (g n) = false) ->
  (forall x y, closes (k x y) = false) -> keeps nothing_closed (set_all o attr f g k).
Proof. intros Hf Hg Hk. unfold set_all, do_call. open_step. Qed.

Lemma open_handle_request msg : (forall i, msg <> CLOSE i) ->
  keeps nothing_closed (handle_request o alloc h msg).
Proof.
  intros Hm. destruct msg; open_request; try (by destruct (Hm handle));
    unfold with_path, reply_stat, ok_or_failure, do_stat, do_call, file_storage_ensure_directory;
    repeat first [ apply open_new_handle | apply open_read_entries | apply open_ensure_parent
                 | apply open_make_missing | apply open_set_all; done
                 | apply keeps_ret | solve [by apply open_quiet] | solve [by apply open_calling]
                 | apply keeps_bind; [|intros ?]
                 | match goal with |- keeps _ (match ?x with _ => _ end) => destruct x end ].
Qed.

End Closing.

(** Only CLOSE closes: what a client has open when it disconnects stays open. *)
Theorem disconnect_closes_nothing o alloc h msgs :
  (forall t, os_memory o t = true) -> (forall i, ~ In (CLOSE i) msgs) ->
  Forall (fun c => closes c = false) (sv_trace (file_transfer_handle_sftp o alloc h msgs)).
Proof.
  intros Hmem Hmsgs. unfold file_transfer_handle_sftp.
  assert (forall s, nothing_closed s -> nothing_closed
    (fold_left (fun s m => snd (handle_request o alloc h m s)) msgs s)) as H.
  { induction msgs as [|m msgs IH]; intros s Hs; simpl; [done|]. apply IH.
    - intros i Hi. apply (Hmsgs i). by right.
    - apply open_handle_request; [done| |done]. intros i ->. apply (Hmsgs i). by left. }
  by apply H; constructor.
Qed.

End Sftp.

(** ** Samples *)

Module SftpSamples.
Import Sftp FileTransfer.TransferSamples.

Definition file_stat (size : Z) : stat_t :=
  {| st_isdir := false; st_isreg := true; st_islnk := false; st_mode := 33188; st_size := size;
     st_uid := 1000; st_gid := 1000; st_atime := 5; st_mtime := 6 |}.

(** A root with a file [a], a dangling name [b] and a file [c]. *)
Definition sample_stat (p : bytes) : Z + stat_t :=
  if bytes_eqb p (lit "/srv/files/a") then inr (file_stat 3)
  else if bytes_eqb p (lit "/srv/files/c") then inr (file_stat 4)
  else inl ENOENT.

Definition sample_os : os :=
  {| os_stat _ := sample_stat;
     os_lstat _ := sample_stat;
     os_opendir _ p := if bytes_eqb p (lit "/srv/files")
                       then Some (map lit [".."; "a"; "b"; "."; "c"]%string) else None;
     os_open t _ _ := 7 + Z.of_nat (length t);
     os_pread _ _ len _ := Some (take (Z.to_nat len) (lit "abc"));
     os_pwrite _ _ d _ := Z.of_nat (length d);
     os_fstat _ _ := Some (file_stat 3);
     os_done _ _ := 0;
     os_memory _ := true |}.

(** The first slot that is free. *)
Definition sample_alloc (m : gmap Z sftp_handle_data) : option Z :=
  List.find (fun i => match m !! i with None => true | Some _ => false end) (map Z.of_nat (seq 0 4)).

Definition sample_session : list request :=
  [REALPATH None; OPEN (Some (lit "/x/y")) 10; OPENDIR (Some (lit "/")); READDIR 1; READDIR 1;
   WRITE 0 0 (Some (lit "hi")); OPEN (Some (lit "../etc")) 1; CLOSE 1; CLOSE 5; UNSUPPORTED].

Example sample_replies :
  sv_replies (file_transfer_handle_sftp sample_os sample_alloc store sample_session) =
  [ReplyName (lit "/"); ReplyHandle (Some 0); ReplyHandle (Some 1);
   ReplyNames [(lit "a", sftp_attr_from_stat (lit "a") (file_stat 3));
               (lit "c", sftp_attr_from_stat (lit "c") (file_stat 4))];
   ReplyStatus 1; ReplyStatus 0; ReplyStatus 3; ReplyStatus 0; ReplyStatus 0; ReplyStatus 8].
Proof. vm_compute. reflexivity. Qed.

Lemma sample_entries t p es : os_opendir sample_os t p = Some es -> Forall entry_name es.
Proof.
  simpl. destruct (bytes_eqb _ _); [|done]. intros [= <-].
  assert (forall c, c <> c_dot -> c <> c_slash -> component_ok [c]) as Hok.
  { intros c Hd Hs. change (component_ok [c]) with
      ([c] <> [] /\ [c] <> [46] /\ [c] <> [46; 46] /\ ~ In c_slash [c] /\ (length [c] <= NAME_MAX)%nat).
    unfold NAME_MAX. simpl. split_and!; [done|congruence|done|by intros [?|[]]|lia]. }
  repeat apply Forall_cons_2; try apply Forall_nil_2;
    solve [by right; right; apply Hok | by left | by right; left].
Qed.

Lemma sftp_stays_below_witness :
  Forall (call_ok store)
    (sv_trace (file_transfer_handle_sftp sample_os sample_alloc store sample_session)).
Proof.
  apply (sftp_stays_below sample_os sample_alloc store sample_session);
    [reflexivity|exact sample_entries].
Defined.

Definition open_root : server :=
  {| sv_handles := {[ 1 := SFTP_HANDLE_DIR (lit "/srv/files") (map lit [".."; "a"; "b"; "."; "c"]%string) ]};
     sv_trace := []; sv_replies := [] |}.

Lemma readdir_complete_witness :
  exists rs, sv_replies (read_dir sample_os sample_alloc store 5 1 open_root) = [] ++ rs /\
    flat_map names_of rs =
      [(lit "a", sftp_attr_from_stat (lit "a") (file_stat 3));
       (lit "c", sftp_attr_from_stat (lit "c") (file_stat 4))] /\
    Forall (fun r => (length (names_of r) <= 100)%nat) rs /\
    sv_replies (read_dir sample_os sample_alloc store (5 + 1) 1 open_root) =
      [] ++ rs ++ [ReplyStatus SSH_FX_EOF].
Proof.
  apply (readdir_complete sample_os sample_alloc store sample_stat 5 1 (lit "/srv/files")
           (map lit [".."; "a"; "b"; "."; "c"]%string) open_root); [reflexivity..|simpl; lia].
Defined.

Lemma disconnect_closes_nothing_witness :
  Forall (fun c => closes c = false)
    (sv_trace (file_transfer_handle_sftp sample_os sample_alloc store [OPEN (Some (lit "a")) 1])).
Proof.
  apply (disconnect_closes_nothing sample_os sample_alloc store [OPEN (Some (lit "a")) 1]); [reflexivity|].
  intros i [H|H]; [discriminate H|exact H].
Defined.

Example open_when_left :
  sv_trace (file_transfer_handle_sftp sample_os sample_alloc store [OPEN (Some (lit "a")) 1]) =
  [Open (lit "/srv/files/a") 0].
Proof. vm_compute. reflexivity. Qed.

End SftpSamples.
