(* ===== verification/TextTools.v ===== *)
(** Text routines of the server: the placeholders that carry escape sequences
    through a translation and word wrapping ([src/translation_helpers.c]),
    message templates, searching and the digit-sum question
    ([src/host/core/text_utils.c]). *)

From Stdlib Require Import ZArith Lia String Ascii.
From stdpp Require Import prelude.
From S2P Require Import Prelude.

(** ** Placeholders for escape sequences *)

Module Placeholders.

Definition SSH_CHATTER_MAX_TRANSLATION_PLACEHOLDERS : nat := 32.
Definition SSH_CHATTER_PLACEHOLDER_TOKEN_LEN : nat := 16.
Definition SSH_CHATTER_PLACEHOLDER_SEQUENCE_LEN : nat := 64.

(** The placeholder and the sequence it stands for. *)
Record translation_placeholder := {
  placeholder : bytes;
  sequence : bytes
}.

Definition token (n : nat) : bytes := lit "[[ANSI" ++ dec (Z.of_nat n) ++ lit "]]".

Arguments token : simpl never.

(** [seq_char >= '@' && seq_char <= '~']: the byte that ends a CSI sequence,
    which is part of it. *)
Fixpoint skip_csi (p : bytes) : bytes * bytes :=
  match p with
  | [] => ([], [])
  | c :: t =>
      if (64 <=? c) && (c <=? 126) then ([c], t)
      else let '(s, r) := skip_csi t in (c :: s, r)
  end.

(** The sequence that starts with the ESC before [p], and what follows it. *)
Definition escape_sequence (p : bytes) : bytes * bytes :=
  match p with
  | [] => ([c_esc], [])
  | c :: t =>
      if c =? c_lbracket then let '(s, r) := skip_csi t in (c_esc :: c :: s, r)
      else ([c_esc; c], t)
  end.

(** The loop over the message: what is written from here on, and the
    placeholders that are added to the [stored] ones.  Every round consumes a
    byte. *)
Fixpoint prepare_go (fuel : nat) (message : bytes) (out_idx stored : nat) (sanitized_len : nat) :
    option (bytes * list translation_placeholder) :=
  match fuel, message with
  | _, [] => Some ([], [])
  | O, _ => None
  | S f, ch :: t =>
      if ch =? c_esc then
        if (SSH_CHATTER_MAX_TRANSLATION_PLACEHOLDERS <=? stored)%nat then None
        else
          let '(seq, rest) := escape_sequence t in
          if (SSH_CHATTER_PLACEHOLDER_SEQUENCE_LEN <=? length seq)%nat then None
          else if (SSH_CHATTER_PLACEHOLDER_TOKEN_LEN <=? length (token stored))%nat then None
          else if (sanitized_len <=? out_idx + length (token stored))%nat then None
          else match prepare_go f rest (out_idx + length (token stored)) (S stored) sanitized_len with
               | None => None
               | Some (out, phs) =>
                   Some (token stored ++ out, {| placeholder := token stored; sequence := seq |} :: phs)
               end
      else if (sanitized_len <=? out_idx + 1)%nat then None
      else match prepare_go f t (out_idx + 1) stored sanitized_len with
           | None => None
           | Some (out, phs) => Some (ch :: out, phs)
           end
  end.

Definition translation_prepare_text (message : bytes) (sanitized_len : nat) :
    option (bytes * list translation_placeholder) :=
  if (sanitized_len =? 0)%nat then None
  else prepare_go (length message) message 0 0 sanitized_len.

(** The first of the placeholders the text starts with. *)
Fixpoint find_placeholder (phs : list translation_placeholder) (text : bytes) :
    option translation_placeholder :=
  match phs with
  | [] => None
  | p :: t =>
      if (length (placeholder p) =? 0)%nat then find_placeholder t text
      else if is_prefix (placeholder p) text then Some p
      else find_placeholder t text
  end.

Fixpoint restore_go (fuel : nat) (translated : bytes) (out_idx output_len : nat)
    (phs : list translation_placeholder) : option bytes :=
  match fuel, translated with
  | _, [] => Some []
  | O, _ => None
  | S f, c :: t =>
      match find_placeholder phs translated with
      | Some p =>
          if (output_len <=? out_idx + length (sequence p))%nat then None
          else match restore_go f (drop (length (placeholder p)) translated)
                       (out_idx + length (sequence p)) output_len phs with
               | None => None
               | Some out => Some (sequence p ++ out)
               end
      | None =>
          if (output_len <=? out_idx + 1)%nat then None
          else match restore_go f t (out_idx + 1) output_len phs with
               | None => None
               | Some out => Some (c :: out)
               end
      end
  end.

Definition translation_restore_text (translated : bytes) (output_len : nat)
    (phs : list translation_placeholder) : option bytes :=
  if (output_len =? 0)%nat then None
  else restore_go (length translated) translated 0 output_len phs.

(** [@nt] at the start keeps a message from being translated. *)
Definition translation_strip_no_translate_prefix (message : bytes) (stripped_len : nat) : option bytes :=
  if (stripped_len =? 0)%nat then None
  else if negb (peek message =? c_at) then None
  else
    let first := nthb message 1 in
    let second := nthb message 2 in
    if negb (((first =? 110) || (first =? 78)) && ((second =? 116) || (second =? c_T))) then None
    else
      let trailing := nthb message 3 in
      if negb (trailing =? c_nul) && negb (isspace trailing) then None
      else Some (snprintf_text stripped_len (skip_while isspace (drop 3 message))).

(** *** The round trip *)

Lemma token_length n : (n < 32)%nat -> (length (token n) <= 10)%nat.
Proof.
  intros Hn. unfold token. rewrite !length_app. simpl.
  pose proof (dec_length (Z.of_nat n) 2 ltac:(lia) ltac:(lia)). lia.
Qed.

(** No token starts another. *)
Lemma token_prefix n k r : is_prefix (token n) (token k ++ r) = true ->
  (n < 32)%nat -> (k < 32)%nat -> n = k.
Proof.
  intros [u Hu]%is_prefix_spec Hn Hk. unfold token in Hu. rewrite <- !app_assoc in Hu.
  apply app_inv_head in Hu. apply (f_equal (fun s => fst (strtoul s))) in Hu.
  rewrite !strtoul_dec in Hu by (unfold ULONG_MAX; done || lia). simpl in Hu. lia.
Qed.

Definition opener : bytes := lit "[[ANSI".

(** A message that does not spell the start of a placeholder itself. *)
Definition unmarked (m : bytes) : Prop := forall t u, m <> t ++ opener ++ u.

Lemma unmarked_tail c m : unmarked (c :: m) -> unmarked m.
Proof. intros Hm t u ->. by apply (Hm (c :: t) u). Qed.

Lemma unmarked_app a m : unmarked (a ++ m) -> unmarked m.
Proof. induction a as [|c a IH]; simpl; [done|]. intros H%unmarked_tail. auto. Qed.

Lemma skip_csi_app p s r : skip_csi p = (s, r) -> p = s ++ r.
Proof.
  revert s r; induction p as [|c p IH]; intros s r; simpl; [by intros [= <- <-]|].
  destruct (_ && _); [by intros [= <- <-]|].
  destruct (skip_csi p) as [s' r']. intros [= <- <-]. simpl. f_equal. auto.
Qed.

Lemma escape_sequence_app t s r : escape_sequence t = (s, r) -> c_esc :: t = s ++ r /\ s <> [].
Proof.
  unfold escape_sequence. destruct t as [|c t]; [by intros [= <- <-]|].
  destruct (c =? c_lbracket).
  - destruct (skip_csi t) as [s' r'] eqn:E. apply skip_csi_app in E as ->. by intros [= <- <-].
  - by intros [= <- <-].
Qed.

(** A token does not start with the rest of an opener begun before it. *)
Lemma rest_not_opener j r : (1 <= j <= 5)%nat -> is_prefix (drop j opener) (opener ++ r) = false.
Proof. intros Hj. do 6 (destruct j as [|j]; [lia || reflexivity|]). lia. Qed.

Lemma token_opener k : token k = opener ++ dec (Z.of_nat k) ++ lit "]]".
Proof. done. Qed.

Lemma drop_opener j : (1 <= j <= 5)%nat -> exists c, drop j opener = c :: drop (S j) opener.
Proof. intros Hj. do 6 (destruct j as [|j]; [lia || by eexists|]). lia. Qed.

(** The rest of an opener at the front of what is written was there before. *)
Lemma prepare_rest j fuel m out_idx stored cap out phs :
  (1 <= j <= 6)%nat -> prepare_go fuel m out_idx stored cap = Some (out, phs) ->
  is_prefix (drop j opener) out = true -> is_prefix (drop j opener) m = true.
Proof.
  revert j m out_idx stored out phs; induction fuel as [|f IH]; intros j m out_idx stored out phs Hj Hp Ho.
  { destruct m; [|done]. by injection Hp as <- <-. }
  destruct (decide (j = 6%nat)) as [->|Hj6]; [done|].
  destruct m as [|c t]; [by injection Hp as <- <-|]. cbn [prepare_go] in Hp.
  destruct (Z.eqb_spec c c_esc) as [->|Hc].
  - exfalso. destruct (_ <=? stored)%nat; [done|]. destruct (escape_sequence t) as [seq rest].
    repeat (destruct (_ <=? _)%nat; [done|]).
    destruct (prepare_go f rest _ _ _) as [[out' phs']|]; [|done].
    assert (out = token stored ++ out') as -> by congruence.
    rewrite token_opener, <- app_assoc in Ho. by rewrite rest_not_opener in Ho by lia.
  - destruct (_ <=? _)%nat; [done|].
    destruct (prepare_go f t _ _ _) as [[out' phs']|] eqn:E; [|done]. injection Hp as <- _.
    destruct (drop_opener j) as [d Hd]; [lia|]. rewrite Hd in *. cbn [is_prefix] in *.
    apply andb_true_iff in Ho as [-> Ho]. apply (IH (S j)) in E; [done|lia|done].
Qed.

Definition numbered (phs : list translation_placeholder) : Prop :=
  (length phs <= 32)%nat /\ forall i p, phs !! i = Some p -> placeholder p = token i.

Lemma prepare_numbered fuel m out_idx stored cap out phs :
  prepare_go fuel m out_idx stored cap = Some (out, phs) ->
  (stored + length phs <= Nat.max 32 stored)%nat /\
  (forall i p, phs !! i = Some p -> placeholder p = token (stored + i)).
Proof.
  revert m out_idx stored out phs; induction fuel as [|f IH]; intros m out_idx stored out phs Hp.
  { destruct m; [|done]. injection Hp as <- <-. simpl. split; [lia|done]. }
  destruct m as [|c t]; [injection Hp as <- <-; simpl; split; [lia|done]|]. cbn [prepare_go] in Hp.
  destruct (c =? c_esc).
  - destruct (Nat.leb_spec SSH_CHATTER_MAX_TRANSLATION_PLACEHOLDERS stored); [done|].
    destruct (escape_sequence t) as [seq rest]. repeat (destruct (_ <=? _)%nat; [done|]).
    destruct (prepare_go f rest _ _ _) as [[out' phs']|] eqn:E; [|done]. injection Hp as <- <-.
    apply IH in E as [Hl Hn]. unfold SSH_CHATTER_MAX_TRANSLATION_PLACEHOLDERS in *.
    split; [simpl; lia|]. intros [|i] p Hi; simpl in Hi.
    + injection Hi as <-. by rewrite Nat.add_0_r.
    + apply Hn in Hi. by rewrite Nat.add_succ_r.
  - destruct (_ <=? _)%nat; [done|].
    destruct (prepare_go f t _ _ _) as [[out' phs']|] eqn:E; [|done]. injection Hp as <- <-. by apply IH in E.
Qed.

Lemma find_placeholder_skip l r text :
  (forall q, q ∈ l -> is_prefix (placeholder q) text = false) ->
  find_placeholder (l ++ r) text = find_placeholder r text.
Proof.
  induction l as [|q l IH]; intros Hl; [done|]. cbn [app find_placeholder].
  rewrite Hl by (by apply list_elem_of_here). rewrite IH; [by destruct (_ =? 0)%nat|].
  intros q' Hq'. apply Hl. by apply list_elem_of_further.
Qed.

Lemma find_placeholder_token phs i p r : numbered phs -> phs !! i = Some p ->
  find_placeholder phs (token i ++ r) = Some p.
Proof.
  intros [Hl Hn] Hi. apply lookup_lt_Some in Hi as Hlt.
  rewrite <- (take_drop_middle phs i p Hi). rewrite find_placeholder_skip.
  - cbn [find_placeholder]. rewrite (Hn i p Hi).
    destruct (Nat.eqb_spec (length (token i)) 0) as [E|_]; [by rewrite token_opener in E|].
    by rewrite is_prefix_app.
  - intros q [j Hj]%list_elem_of_lookup. apply lookup_lt_Some in Hj as Hji. rewrite length_take in Hji.
    rewrite lookup_take_lt in Hj by lia. rewrite (Hn j q Hj).
    apply not_true_iff_false. intros H%token_prefix; lia.
Qed.

Lemma find_placeholder_none phs c r : numbered phs -> is_prefix opener (c :: r) = false ->
  find_placeholder phs (c :: r) = None.
Proof.
  intros [_ Hn] Ho. rewrite <- (app_nil_r phs). apply find_placeholder_skip.
  intros q [j Hj]%list_elem_of_lookup. rewrite (Hn j q Hj), token_opener.
  apply not_true_iff_false. intros [u Hu]%is_prefix_spec.
  rewrite Hu, <- app_assoc, is_prefix_app in Ho. done.
Qed.

(** Restoring what the loop wrote gives the message back. *)
Lemma restore_prepared fuel m out_idx stored cap out phs pre fuel' idx' out_cap :
  prepare_go fuel m out_idx stored cap = Some (out, phs) -> unmarked m ->
  numbered (pre ++ phs) -> length pre = stored -> (length out <= fuel')%nat ->
  (idx' + length m < out_cap)%nat ->
  restore_go fuel' out idx' out_cap (pre ++ phs) = Some m.
Proof.
  revert m out_idx stored out phs pre fuel' idx'.
  induction fuel as [|f IH]; intros m out_idx stored out phs pre fuel' idx' Hp Hm Hn Hpre Hf Hcap.
  { destruct m; [|done]. injection Hp as <- <-. by destruct fuel'. }
  destruct m as [|c t]; [injection Hp as <- <-; by destruct fuel'|]. cbn [prepare_go] in Hp.
  destruct (Z.eqb_spec c c_esc) as [->|Hc].
  - destruct (_ <=? stored)%nat; [done|].
    destruct (escape_sequence t) as [seq rest] eqn:Hesc. repeat (destruct (_ <=? _)%nat; [done|]).
    destruct (prepare_go f rest _ _ _) as [[out' phs']|] eqn:E; [|done].
    set (p := {| placeholder := token stored; sequence := seq |}) in *.
    assert (out = token stored ++ out' /\ phs = p :: phs') as [-> ->] by (split; congruence).
    apply escape_sequence_app in Hesc as [Hseq Hne].
    rewrite Hseq in *. assert (0 < length seq)%nat by (destruct seq; [done|simpl; lia]).
    rewrite length_app in *. destruct fuel' as [|f']; [rewrite token_opener in Hf; simpl in Hf; lia|].
    assert ((pre ++ p :: phs') !! stored = Some p) as Hi by (subst stored; apply list_lookup_middle; done).
    pose proof (find_placeholder_token _ _ _ out' Hn Hi) as Hfind.
    destruct (token stored ++ out') as [|c0 t0] eqn:Htok; [by rewrite token_opener in Htok|].
    cbn [restore_go]. rewrite Hfind. rewrite <- Htok. cbn [placeholder sequence p].
    destruct (Nat.leb_spec out_cap (idx' + length seq)); [lia|]. rewrite drop_app_length.
    rewrite (cons_middle p pre phs'), app_assoc.
    rewrite (IH rest _ _ out' phs' (pre ++ [p]) f' _ E); [done| | | | |].
    + by apply unmarked_app in Hm.
    + by rewrite <- app_assoc.
    + rewrite length_app. simpl. lia.
    + rewrite token_opener, !length_app in Hf. simpl in Hf. lia.
    + lia.
  - destruct (_ <=? _)%nat; [done|].
    destruct (prepare_go f t _ _ _) as [[out' phs']|] eqn:E; [|done].
    assert (out = c :: out' /\ phs = phs') as [-> ->] by (split; congruence).
    destruct fuel' as [|f']; [simpl in Hf; lia|]. cbn [restore_go].
    rewrite find_placeholder_none.
    + simpl in Hcap. destruct (Nat.leb_spec out_cap (idx' + 1)); [lia|].
      rewrite (IH t _ _ out' phs' pre f' _ E); [done| |done|done|simpl in Hf; lia|lia].
      by apply unmarked_tail in Hm.
    + done.
    + apply not_true_iff_false. change opener with (c_lbracket :: drop 1 opener). cbn [is_prefix].
      intros [<-%Z.eqb_eq Ho]%andb_true_iff.
      eapply prepare_rest in Ho; [|split; [|]|exact E]; [|lia|lia].
      apply is_prefix_spec in Ho as [u ->]. by apply (Hm [] u).
Qed.

(** No escape byte is left in the text that is sent away. *)
Lemma prepared_plain fuel m out_idx stored cap out phs :
  prepare_go fuel m out_idx stored cap = Some (out, phs) -> ~ In c_esc out.
Proof.
  revert m out_idx stored out phs; induction fuel as [|f IH]; intros m out_idx stored out phs Hp.
  { destruct m; [|done]. injection Hp as <- <-. by intros []. }
  destruct m as [|c t]; [injection Hp as <- <-; by intros []|]. cbn [prepare_go] in Hp.
  destruct (Z.eqb_spec c c_esc) as [->|Hc].
  - destruct (Nat.leb_spec SSH_CHATTER_MAX_TRANSLATION_PLACEHOLDERS stored) as [|Hs]; [done|].
    destruct (escape_sequence t) as [seq rest]. repeat (destruct (_ <=? _)%nat; [done|]).
    destruct (prepare_go f rest _ _ _) as [[out' phs']|] eqn:E; [|done].
    assert (out = token stored ++ out') as -> by congruence. apply IH in E.
    rewrite in_app_iff. intros [Hin|?]; [|done]. rewrite token_opener, !in_app_iff in Hin.
    destruct Hin as [Hin|[Hin|Hin]].
    + vm_compute in Hin. by repeat (destruct Hin as [Hin|Hin]; [discriminate Hin|]).
    + unfold SSH_CHATTER_MAX_TRANSLATION_PLACEHOLDERS in Hs.
      destruct (dec_spec (Z.of_nat stored)) as (_ & Hd & _); [unfold ULONG_MAX; lia|].
      rewrite List.Forall_forall in Hd. apply Hd in Hin. vm_compute in Hin. done.
    + vm_compute in Hin. by repeat (destruct Hin as [Hin|Hin]; [discriminate Hin|]).
  - destruct (_ <=? _)%nat; [done|].
    destruct (prepare_go f t _ _ _) as [[out' phs']|] eqn:E; [|done].
    assert (out = c :: out') as -> by congruence. apply IH in E. by intros [?|?].
Qed.

(** C39: what is taken out of a message before it is translated is put back where
    it stood: the prepared text has no escape byte, and restoring it gives the
    message, for every message that does not spell the start of a placeholder,
    if the buffer holds it. *)
Theorem translate_roundtrip message sanitized_len sanitized phs output_len :
  translation_prepare_text message sanitized_len = Some (sanitized, phs) -> unmarked message ->
  (length message < output_len)%nat ->
  translation_restore_text sanitized output_len phs = Some message /\ ~ In c_esc sanitized.
Proof.
  unfold translation_prepare_text, translation_restore_text.
  destruct (_ =? 0)%nat; [done|]. intros Hp Hm Hl.
  destruct (Nat.eqb_spec output_len 0); [lia|].
  split; [|by eapply prepared_plain].
  destruct (prepare_numbered _ _ _ _ _ _ _ Hp) as [Hn1 Hn2].
  eapply (restore_prepared _ _ _ _ _ _ _ [] _ 0); [done|done| |done|done|done].
  split; [simpl in *; lia|done].
Qed.

End Placeholders.

(** ** Message templates *)

Module Template.

(** The loop of [session_format_template]: [out_index] bytes are written, the
    arguments are those left. *)
Fixpoint format_go (format : bytes) (args : list bytes) (out_index len : nat) : bytes :=
  match format with
  | [] => []
  | c :: t =>
      if (len <=? out_index + 1)%nat then []
      else
        match t with
        | d :: t' =>
            if (c =? c_percent) && (d =? c_s) then
              let replacement := match args with a :: _ => a | [] => [] end in
              let rep := take (len - out_index - 1) replacement in
              rep ++ format_go t' (drop 1 args) (out_index + length rep) len
            else if (c =? c_percent) && (d =? c_percent) then
              c_percent :: format_go t' args (out_index + 1) len
            else c :: format_go t args (out_index + 1) len
        | [] => c :: format_go t args (out_index + 1) len
        end
  end.

Definition session_format_template (format : bytes) (args : list bytes) (len : nat) : bytes :=
  format_go format args 0 len.

(** The text a template stands for, of any length. *)
Fixpoint rendered (format : bytes) (args : list bytes) : bytes :=
  match format with
  | [] => []
  | c :: t =>
      match t with
      | d :: t' =>
          if (c =? c_percent) && (d =? c_s) then
            match args with a :: _ => a | [] => [] end ++ rendered t' (drop 1 args)
          else if (c =? c_percent) && (d =? c_percent) then c_percent :: rendered t' args
          else c :: rendered t args
      | [] => c :: rendered t args
      end
  end.

Lemma format_go_take n format args out_index len : (length format <= n)%nat -> (out_index < len)%nat ->
  format_go format args out_index len = take (len - out_index - 1) (rendered format args).
Proof.
  revert format args out_index; induction n as [|n IH]; intros format args out_index Hn Hlen.
  { destruct format; [|simpl in Hn; lia]. simpl. by rewrite take_nil. }
  destruct format as [|c t]; [simpl; by rewrite take_nil|]. simpl in Hn. cbn [format_go].
  destruct (Nat.leb_spec len (out_index + 1)).
  { by replace (len - out_index - 1)%nat with 0%nat by lia. }
  assert (forall a, c :: format_go t a (out_index + 1) len =
                    take (len - out_index - 1) (c :: rendered t a)) as Hplain.
  { intros a. rewrite IH by lia. replace (len - out_index - 1)%nat with (S (len - (out_index + 1) - 1)) by lia.
    done. }
  destruct t as [|d t']; [apply Hplain|]. cbn [rendered]. simpl in Hn.
  destruct (_ && (d =? c_s)).
  - cbn zeta. set (r := match args with a :: _ => a | [] => [] end).
    destruct (Nat.le_gt_cases (len - out_index - 1) (length r)) as [Hr|Hr].
    + rewrite take_app_le by done. rewrite length_take, Nat.min_l by done.
      destruct t' as [|e t']; [by rewrite app_nil_r|]. cbn [format_go].
      destruct (Nat.leb_spec len (out_index + (len - out_index - 1) + 1)); [by rewrite app_nil_r|lia].
    + rewrite (take_ge r) by lia. rewrite take_app_ge by lia. f_equal.
      rewrite IH by lia. f_equal. lia.
  - destruct (_ && (d =? c_percent)); [|apply Hplain].
    rewrite IH by lia. by replace (len - out_index - 1)%nat with (S (len - (out_index + 1) - 1)) by lia.
Qed.

(** Formatting into a buffer gives the text of the template, its arguments
    put in for [%s] in order and empty where they run out, cut at the size of
    the buffer and nowhere else. *)
Theorem format_template_cut format args len : (0 < len)%nat ->
  session_format_template format args len = take (len - 1) (rendered format args).
Proof.
  intros Hl. unfold session_format_template. rewrite (format_go_take (length format)) by lia.
  f_equal. lia.
Qed.

End Template.

(** ** Searching regardless of case *)

Module Search.

(** The inner loop: [needle] at the front of [haystack], up to case. *)
Fixpoint matches_at (needle haystack : bytes) : bool :=
  match needle, haystack with
  | [], _ => true
  | n :: needle', h :: haystack' =>
      (tolower h =? tolower n) && matches_at needle' haystack'
  | _ :: _, [] => false
  end.

(** The outer loop over the positions; only as far as the needle still fits. *)
Fixpoint contains_go (needle haystack : bytes) : bool :=
  if (length haystack <? length needle)%nat then false
  else matches_at needle haystack ||
       match haystack with [] => false | _ :: t => contains_go needle t end.

Definition string_contains_case_insensitive (haystack needle : bytes) : bool :=
  match needle with [] => false | _ => contains_go needle haystack end.

Definition word_byte (c : Z) : bool := isalnum c || (c =? c_underscore).

(** The same loop with the byte before the position, if there is one. *)
Fixpoint token_go (needle : bytes) (prev : option Z) (haystack : bytes) : bool :=
  if (length haystack <? length needle)%nat then false
  else
    (matches_at needle haystack &&
     match prev with None => true | Some c => negb (word_byte c) end &&
     match drop (length needle) haystack with [] => true | c :: _ => negb (word_byte c) end)
    || match haystack with [] => false | c :: t => token_go needle (Some c) t end.

Definition string_contains_token_case_insensitive (haystack needle : bytes) : bool :=
  match needle with [] => false | _ => token_go needle None haystack end.

(** The first word of a banner, or all of it when there is none. *)
Definition session_extract_banner_token (banner : bytes) (len : nat) : bytes :=
  match banner with
  | [] => []
  | _ =>
      match take (len - 1) (take_while (fun c => negb (isspace c)) (skip_while isspace banner)) with
      | [] => take (len - 1) banner
      | w => w
      end
  end.

(** *** What the searches find *)

Lemma matches_at_spec needle haystack :
  matches_at needle haystack = true <->
  exists m r, haystack = m ++ r /\ map tolower m = map tolower needle.
Proof.
  revert haystack; induction needle as [|n needle IH]; intros haystack; simpl.
  - split; [|done]. intros _. by exists [], haystack.
  - destruct haystack as [|h t].
    + split; [done|]. intros (m & r & Hm & He). symmetry in Hm. by apply app_eq_nil in Hm as [-> ->].
    + rewrite andb_true_iff, Z.eqb_eq, IH. split.
      * intros [He (m & r & -> & Hm)]. exists (h :: m), r. simpl. by rewrite He, Hm.
      * intros ([|c m] & r & Hm & He); simpl in *; [done|]. simplify_eq/=. split; [done|]. by exists m, r.
Qed.

Lemma matches_at_length needle haystack : matches_at needle haystack = true ->
  (length needle <= length haystack)%nat.
Proof.
  intros (m & r & -> & Hm)%matches_at_spec. apply (f_equal (@length Z)) in Hm.
  rewrite !length_map in Hm. rewrite length_app. lia.
Qed.

(** An occurrence of the needle, up to case, between [a] and [r]. *)
Definition occurs (needle haystack a r : bytes) : Prop :=
  exists m, haystack = a ++ m ++ r /\ map tolower m = map tolower needle.

Definition boundary (o : option Z) : Prop :=
  match o with None => True | Some c => word_byte c = false end.

(** The last byte of a prefix, or the one before it all. *)
Definition byte_before (prev : option Z) (a : bytes) : option Z :=
  match last a with Some c => Some c | None => prev end.

Lemma token_go_spec needle prev haystack : needle <> [] ->
  token_go needle prev haystack = true <->
  exists a r, occurs needle haystack a r /\ boundary (byte_before prev a) /\ boundary (head r).
Proof.
  intros Hne. revert prev; induction haystack as [|h t IH]; intros prev.
  { split; [by destruct needle|]. intros (a & r & (m & Hh & Hm) & _).
    symmetry in Hh. apply app_eq_nil in Hh as [-> Hh]. apply app_eq_nil in Hh as [-> ->].
    symmetry in Hm. by apply map_eq_nil in Hm. }
  assert (matches_at needle (h :: t) && match prev with None => true | Some c => negb (word_byte c) end &&
     match drop (length needle) (h :: t) with [] => true | c :: _ => negb (word_byte c) end = true <->
     exists r, occurs needle (h :: t) [] r /\ boundary prev /\ boundary (head r)) as Hhere.
  { rewrite !andb_true_iff, matches_at_spec. split.
    - intros [[(m & r & Hht & Hm) Hp] Hn]. exists r. split; [by exists m|].
      assert (drop (length needle) (h :: t) = r) as Hd.
      { rewrite Hht. replace (length needle) with (length m); [by rewrite drop_app_length|].
        apply (f_equal (@length Z)) in Hm. by rewrite !length_map in Hm. }
      rewrite Hd in Hn. split; [destruct prev; [by apply negb_true_iff in Hp|done]|].
      destruct r; [done|]. by apply negb_true_iff in Hn.
    - intros (r & (m & Hht & Hm) & Hp & Hn). simpl in Hht.
      assert (drop (length needle) (h :: t) = r) as ->.
      { rewrite Hht. replace (length needle) with (length m); [by rewrite drop_app_length|].
        apply (f_equal (@length Z)) in Hm. by rewrite !length_map in Hm. }
      split; [split; [by exists m, r|]|].
      + destruct prev; [|done]. by apply negb_true_iff.
      + destruct r; [done|]. by apply negb_true_iff. }
  cbn [token_go]. destruct (Nat.ltb_spec (length (h :: t)) (length needle)) as [Hlt|Hlt].
  - split; [done|]. intros (a & r & (m & Hht & Hm) & _).
    apply (f_equal (@length Z)) in Hm, Hht. rewrite !length_map, !length_app in *. lia.
  - rewrite orb_true_iff, Hhere, IH. split.
    + intros [(r & Ho & Hp & Hn)|(a & r & (m & -> & Hm) & Hp & Hn)]; [by exists [], r|].
      exists (h :: a), r. split; [by exists m|]. split; [|done].
      unfold byte_before in *. by rewrite last_cons; destruct (last a).
    + intros ([|c a] & r & (m & Hht & Hm) & Hp & Hn); [left; exists r; by split; [exists m|]|].
      right. simplify_eq/=. exists a, r. split; [by exists m|]. split; [|done].
      unfold byte_before in *. by rewrite last_cons in Hp; destruct (last a).
Qed.

(** A token is found exactly when it occurs, up to the case of its letters,
    with no letter, digit or underscore right before or after it. *)
Theorem contains_token_exact haystack needle : needle <> [] ->
  string_contains_token_case_insensitive haystack needle = true <->
  exists a m r, haystack = a ++ m ++ r /\ map tolower m = map tolower needle /\
    boundary (last a) /\ boundary (head r).
Proof.
  intros Hne. unfold string_contains_token_case_insensitive.
  transitivity (token_go needle None haystack = true); [by destruct needle|].
  rewrite token_go_spec by done. split.
  - intros (a & r & (m & Hh & Hm) & Hp & Hn). exists a, m, r. split_and!; try done.
    unfold byte_before in Hp. by destruct (last a).
  - intros (a & m & r & Hh & Hm & Hp & Hn). exists a, r. split; [by exists m|]. split; [|done].
    unfold byte_before. by destruct (last a).
Qed.

Lemma contains_go_spec needle haystack : needle <> [] ->
  contains_go needle haystack = true <-> exists a r, occurs needle haystack a r.
Proof.
  intros Hne. induction haystack as [|h t IH].
  { split; [by destruct needle|]. intros (a & r & m & Hh & Hm).
    symmetry in Hh. apply app_eq_nil in Hh as [-> Hh]. apply app_eq_nil in Hh as [-> ->].
    symmetry in Hm. by apply map_eq_nil in Hm. }
  cbn [contains_go]. destruct (Nat.ltb_spec (length (h :: t)) (length needle)) as [Hlt|Hlt].
  - split; [done|]. intros (a & r & m & Hht & Hm).
    apply (f_equal (@length Z)) in Hm, Hht. rewrite !length_map, !length_app in *. lia.
  - rewrite orb_true_iff, IH, matches_at_spec. split.
    + intros [(m & r & Hht & Hm)|(a & r & m & -> & Hm)]; [by exists [], r, m|by exists (h :: a), r, m].
    + intros ([|c a] & r & m & Hht & Hm); [left; by exists m, r|]. right. simplify_eq/=. by exists a, r, m.
Qed.

End Search.

(** ** The digit-sum question *)

Module Captcha.

(** [unsigned] is 32 bits wide. *)
Definition session_prng_next (state : Z) : Z := u32 (state * 1664525 + 1013904223).

Record captcha_prompt_t := {
  question_en : bytes;
  question_ko : bytes;
  question_ru : bytes;
  question_zh : bytes;
  answer : bytes
}.

(** [raw] for digit [idx] in the long form, with the state it leaves. *)
Definition draw10 (state : option Z) (idx : Z) : Z * option Z :=
  match state with
  | Some s => let s := session_prng_next s in (s mod 10, Some s)
  | None => ((idx + 1) mod 10, None)
  end.

(** [raw] in the short form. *)
Definition draw9 (state : option Z) (idx : Z) : Z * option Z :=
  match state with
  | Some s => let s := session_prng_next s in (s mod 9 + 1, Some s)
  | None => ((idx + 1) mod 9 + 1, None)
  end.

Definition three (state : option Z) : list Z * option Z :=
  let '(a, state) := draw10 state 0 in
  let '(b, state) := draw10 state 1 in
  let '(c, state) := draw10 state 2 in
  ([a; b; c], state).

Definition sum_of (digits : list Z) : Z := fold_right Z.add 0 digits.

(** The attempts until three digits add up to less than ten. *)
Fixpoint attempts (n : nat) (digits : list Z) (state : option Z) : bool * list Z * option Z :=
  match n with
  | O => (false, digits, state)
  | S n' =>
      let '(digits, state) := three state in
      if sum_of digits <? 10 then (true, digits, state) else attempts n' digits state
  end.

(** What is too much is taken from the digits, the last first. *)
Fixpoint reduce (digits : list Z) (overflow : Z) : list Z * Z :=
  match digits with
  | [] => ([], overflow)
  | d :: t =>
      let '(t, overflow) := reduce t overflow in
      let reduction := if overflow <? d then overflow else d in
      ((d - reduction) :: t, overflow - reduction)
  end.

Definition three_digits (state : option Z) : list Z * option Z :=
  let '(valid, digits, state) := attempts 16 [0; 0; 0] state in
  if negb valid && (10 <=? sum_of digits) then
    let '(digits, _) := reduce digits (sum_of digits - 9) in
    if 10 <=? sum_of digits then ([3; 3; 3], state) else (digits, state)
  else (digits, state).

Definition two_digits (state : option Z) : list Z * option Z :=
  let '(a, state) := draw9 state 0 in
  let '(b, state) := draw9 state 1 in
  ([a; b], state).

Definition prompt_digits (state : option Z) : list Z * option Z :=
  match state with
  | None => three_digits None
  | Some s =>
      let s := session_prng_next s in
      if 2 + s mod 2 =? 3 then three_digits (Some s) else two_digits (Some s)
  end.

(** [expression]: its 64 bytes are more than the digits need. *)
Definition expression (digits : list Z) : bytes :=
  match digits with
  | [] => []
  | d :: t => dec d ++ flat_map (fun e => lit " + " ++ dec e) t
  end.

(** What the question starts with in each language. *)
Definition ask_en : bytes := lit "Add the digits: ".
Definition ask_ko : bytes := lit "다음 숫자들의 합은 얼마인가요? ".
Definition ask_ru : bytes := lit "Чему равна сумма цифр: ".
Definition ask_zh : bytes := lit "請計算以下數字的總和：".

Definition session_fill_digit_sum_prompt (state : option Z) : captcha_prompt_t * option Z :=
  let '(digits, state) := prompt_digits state in
  let e := take 63 (expression digits) in
  let q before := snprintf_text 256 (before ++ e ++ lit " = ?") in
  ({| question_en := q ask_en;
      question_ko := q ask_ko;
      question_ru := q ask_ru;
      question_zh := q ask_zh;
      answer := snprintf_text 64 (dec (sum_of digits)) |}, state).

Definition digit (d : Z) : Prop := 0 <= d <= 9.

Ltac digits := repeat apply Forall_cons_2; try apply Forall_nil_2; unfold digit in *; try lia; try done.

Lemma draw10_digit state idx d state' : draw10 state idx = (d, state') -> digit d.
Proof.
  unfold draw10, digit. destruct state as [s|]; intros [= <- _].
  - pose proof (Z.mod_pos_bound (session_prng_next s) 10). lia.
  - pose proof (Z.mod_pos_bound (idx + 1) 10). lia.
Qed.

Lemma three_spec state ds state' : three state = (ds, state') ->
  length ds = 3%nat /\ Forall digit ds.
Proof.
  unfold three. destruct (draw10 state 0) as [a s1] eqn:E1. destruct (draw10 s1 1) as [b s2] eqn:E2.
  destruct (draw10 s2 2) as [c s3] eqn:E3. intros [= <- _].
  apply draw10_digit in E1, E2, E3. split; [done|digits].
Qed.

Lemma attempts_spec n ds state v ds' state' : attempts n ds state = (v, ds', state') ->
  length ds = 3%nat -> Forall digit ds ->
  length ds' = 3%nat /\ Forall digit ds' /\ (v = true -> sum_of ds' < 10).
Proof.
  revert ds state; induction n as [|n IH]; intros ds state; simpl.
  - by intros [= <- <- _] ? ?.
  - destruct (three state) as [d s] eqn:E. apply three_spec in E as [Hl Hd].
    destruct (Z.ltb_spec (sum_of d) 10); [by intros [= <- <- _] ? ?|]. intros H' _ _. by eapply IH.
Qed.

Lemma sum_of_nonneg ds : Forall digit ds -> 0 <= sum_of ds.
Proof. induction 1 as [|d ds Hd _ IH]; simpl; unfold digit in *; lia. Qed.

Lemma reduce_spec ds over ds' over' : reduce ds over = (ds', over') -> Forall digit ds ->
  0 <= over -> length ds' = length ds /\ Forall digit ds' /\ 0 <= over' /\
  sum_of ds' - over' = sum_of ds - over /\ (0 < over' -> sum_of ds' = 0).
Proof.
  revert over ds' over'; induction ds as [|d ds IH]; intros over ds' over'; simpl.
  - intros [= <- <-] _ ?. repeat split; [constructor|done].
  - destruct (reduce ds over) as [t o] eqn:E. intros [= <- <-] [Hd Hds]%Forall_cons Ho.
    destruct (IH _ _ _ E Hds Ho) as (Hl & Ht & Ho' & Hs & Hz). unfold digit in Hd.
    pose proof (sum_of_nonneg t Ht). destruct (Z.ltb_spec o d); simpl;
      (split; [lia|]); (split; [constructor; unfold digit; [lia|done]|]); lia.
Qed.

Lemma three_digits_spec state ds state' : three_digits state = (ds, state') ->
  length ds = 3%nat /\ Forall digit ds /\ sum_of ds <= 9.
Proof.
  unfold three_digits. destruct (attempts 16 [0; 0; 0] state) as [[v d] s] eqn:E.
  apply attempts_spec in E as (Hl & Hd & Hv); [|done|digits].
  destruct v; simpl; [intros [= <- _]; specialize (Hv eq_refl); split_and!; auto; lia|].
  destruct (Z.leb_spec 10 (sum_of d)); [|intros [= <- _]; split_and!; auto; lia].
  destruct (reduce d (sum_of d - 9)) as [r o] eqn:Hr.
  apply reduce_spec in Hr as (Hrl & Hrd & Ho & Hs & Hz); [|done|lia].
  destruct (Z.leb_spec 10 (sum_of r)); intros [= <- _].
  - split; [done|]. split; [digits|simpl; lia].
  - split_and!; [congruence|done|lia].
Qed.

Lemma two_digits_spec s ds state' : two_digits (Some s) = (ds, state') ->
  length ds = 2%nat /\ Forall digit ds.
Proof.
  unfold two_digits, draw9. intros [= <- _]. split; [done|].
  set (x := session_prng_next s). set (y := session_prng_next x).
  pose proof (Z.mod_pos_bound x 9). pose proof (Z.mod_pos_bound y 9).
  digits.
Qed.

Lemma dec_digit d : digit d -> length (dec d) = 1%nat.
Proof.
  intros Hd. pose proof (dec_length d 1 ltac:(unfold digit in Hd; lia) ltac:(lia)).
  destruct (dec_spec d) as (Hne & _); [unfold digit, ULONG_MAX in *; lia|].
  destruct (dec d) as [|? [|? ?]]; simpl in *; [done|done|lia].
Qed.

Lemma expression_length ds : Forall digit ds -> (length (expression ds) <= 4 * length ds)%nat.
Proof.
  destruct 1 as [|d ds Hd Hds]; cbn [expression length]; [lia|]. rewrite length_app, dec_digit by done.
  assert (length (flat_map (fun e => lit " + " ++ dec e) ds) = 4 * length ds)%nat as ->; [|lia].
  induction Hds as [|e ds He _ IH]; cbn [flat_map length]; [done|].
  rewrite !length_app, dec_digit by done. change (length (lit " + ")) with 3%nat. lia.
Qed.

(** The question shows two or three digits, whole, in each language, and the
    answer it takes is their sum; three digits never add up to ten or more. *)
Theorem captcha_answer_right state p state' :
  session_fill_digit_sum_prompt state = (p, state') ->
  exists ds, Forall digit ds /\ (length ds = 2%nat \/ length ds = 3%nat /\ sum_of ds <= 9) /\
    question_en p = ask_en ++ expression ds ++ lit " = ?" /\
    question_ko p = ask_ko ++ expression ds ++ lit " = ?" /\
    question_ru p = ask_ru ++ expression ds ++ lit " = ?" /\
    question_zh p = ask_zh ++ expression ds ++ lit " = ?" /\
    answer p = dec (sum_of ds).
Proof.
  unfold session_fill_digit_sum_prompt. destruct (prompt_digits state) as [ds s] eqn:E.
  intros [<- <-]%pair_equal_spec. exists ds.
  assert (Forall digit ds /\ ((length ds = 2)%nat \/ (length ds = 3)%nat /\ sum_of ds <= 9)) as [Hd Hl].
  { unfold prompt_digits in E. destruct state as [x|].
    - destruct (_ =? 3); [apply three_digits_spec in E as (? & ? & ?)|apply two_digits_spec in E as [? ?]]; auto.
    - apply three_digits_spec in E as (? & ? & ?). auto. }
  pose proof (expression_length ds Hd) as Hlen.
  assert (length (dec (sum_of ds)) <= 20)%nat as Hdl.
  { apply dec_spec. pose proof (sum_of_nonneg ds Hd) as Hs. split; [done|].
    assert (sum_of ds <= 9 * Z.of_nat (length ds)); [|unfold ULONG_MAX; lia].
    clear -Hd. induction Hd as [|d ds Hd _ IH]; simpl sum_of; [done|]. unfold digit in *.
    rewrite length_cons. lia. }
  cbn [question_en question_ko question_ru question_zh answer]. rewrite (take_ge (expression ds)) by lia.
  assert (forall b, (length b <= 60)%nat ->
            snprintf_text 256 (b ++ expression ds ++ lit " = ?") = b ++ expression ds ++ lit " = ?") as Hq.
  { intros b Hb. apply take_ge. rewrite !length_app. change (length (lit " = ?")) with 4%nat. lia. }
  split; [done|]. split; [done|].
  repeat (split; [apply Hq; vm_compute; lia|]). apply take_ge. lia.
Qed.

End Captcha.

(** ** Samples *)

Module TextSamples.
Import Placeholders Template Search Captcha.

Definition coloured : bytes := [c_esc; 91; 51; 49; 109] ++ lit "hi" ++ [c_esc; 91; 48; 109].

Lemma translate_roundtrip_witness :
  translation_restore_text (lit "[[ANSI0]]hi[[ANSI1]]") 100
    [{| placeholder := lit "[[ANSI0]]"; sequence := [c_esc; 91; 51; 49; 109] |};
     {| placeholder := lit "[[ANSI1]]"; sequence := [c_esc; 91; 48; 109] |}] = Some coloured /\
  ~ In c_esc (lit "[[ANSI0]]hi[[ANSI1]]").
Proof.
  apply (translate_roundtrip coloured 200).
  - vm_compute. reflexivity.
  - intros t u H. apply (f_equal (fun s => strstr s opener)) in H.
    assert (is_Some (strstr (t ++ opener ++ u) opener)) as [x Hx]
      by (apply strstr_spec; by exists t, u).
    rewrite Hx in H. vm_compute in H. discriminate H.
  - vm_compute. lia.
Defined.

Lemma format_template_cut_witness :
  session_format_template (lit "%s: 100%% of %s%s") (map lit ["bob"; "it"]%string) 16 = lit "bob: 100% of it".
Proof. apply (format_template_cut (lit "%s: 100%% of %s%s") (map lit ["bob"; "it"]%string) 16). lia. Defined.

Lemma contains_token_exact_witness :
  string_contains_token_case_insensitive (lit "say HELLO, you") (lit "hello") = true <->
  exists a m r, lit "say HELLO, you" = a ++ m ++ r /\ map tolower m = map tolower (lit "hello") /\
    boundary (last a) /\ boundary (head r).
Proof. apply (contains_token_exact (lit "say HELLO, you") (lit "hello")). vm_compute. discriminate. Defined.

Lemma captcha_answer_right_witness :
  exists ds, Forall digit ds /\ (length ds = 2%nat \/ length ds = 3%nat /\ sum_of ds <= 9) /\
    question_en (fst (session_fill_digit_sum_prompt (Some 7))) = ask_en ++ expression ds ++ lit " = ?" /\
    question_ko (fst (session_fill_digit_sum_prompt (Some 7))) = ask_ko ++ expression ds ++ lit " = ?" /\
    question_ru (fst (session_fill_digit_sum_prompt (Some 7))) = ask_ru ++ expression ds ++ lit " = ?" /\
    question_zh (fst (session_fill_digit_sum_prompt (Some 7))) = ask_zh ++ expression ds ++ lit " = ?" /\
    answer (fst (session_fill_digit_sum_prompt (Some 7))) = dec (sum_of ds).
Proof.
  apply (captcha_answer_right (Some 7) _ (snd (session_fill_digit_sum_prompt (Some 7)))).
  apply surjective_pairing.
Defined.

Example captcha_shown :
  question_en (fst (session_fill_digit_sum_prompt (Some 7))) = lit "Add the digits: 4 + 5 = ?".
Proof. vm_compute. reflexivity. Qed.

End TextSamples.
