(* ===== verification/BbsEditor.v ===== *)
(** The full-screen editor of bulletin-board posts and ASCII art: the draft as
    one byte buffer with a cursor line ([src/host/output/bbs_editor.c]), the
    keys ([src/host/runtime/session_lifecycle.c], [src/host/output/history.c])
    and the capture of typed lines ([src/host/commands/bbs.c],
    [src/host/commands/art.c]). *)

From Stdlib Require Import ZArith Lia String Ascii.
From stdpp Require Import prelude.
From S2P Require Import Prelude FileTransfer.

Module Editor.

Definition SSH_CHATTER_BBS_BODY_LEN : nat := Z.to_nat 40960.
Definition SSH_CHATTER_BBS_VIEW_WINDOW : nat := 60.
Definition SSH_CHATTER_BBS_MAX_LINES : nat := 1000.
Definition SSH_CHATTER_ASCIIART_MAX_LINES : nat := 700.
Definition SSH_CHATTER_ASCIIART_BUFFER_LEN : nat := SSH_CHATTER_BBS_BODY_LEN.
Definition SSH_CHATTER_MAX_INPUT_LEN : nat := 1024.
Definition SSH_CHATTER_MESSAGE_LIMIT : nat := 4096.

Arguments SSH_CHATTER_BBS_BODY_LEN : simpl never.
Arguments SSH_CHATTER_ASCIIART_BUFFER_LEN : simpl never.
Arguments SSH_CHATTER_BBS_MAX_LINES : simpl never.
Arguments SSH_CHATTER_ASCIIART_MAX_LINES : simpl never.
Arguments SSH_CHATTER_MAX_INPUT_LEN : simpl never.
Arguments SSH_CHATTER_MESSAGE_LIMIT : simpl never.

Inductive session_editor_mode :=
  | SESSION_EDITOR_MODE_NONE
  | SESSION_EDITOR_MODE_BBS_CREATE
  | SESSION_EDITOR_MODE_BBS_EDIT
  | SESSION_EDITOR_MODE_ASCIIART.

(** The draft: [pending_bbs_body] up to [pending_bbs_body_length] (the byte
    after it is always the NUL), the number of its lines, the cursor and the
    input line. *)
Record draft := {
  editor_mode : session_editor_mode;
  body : bytes;
  line_count : nat;
  cursor_line : nat;
  editing_line : bool;
  input : bytes
}.

Definition with_body (d : draft) (b : bytes) : draft :=
  {| editor_mode := editor_mode d; body := b; line_count := line_count d;
     cursor_line := cursor_line d; editing_line := editing_line d; input := input d |}.

Definition with_input (d : draft) (i : bytes) : draft :=
  {| editor_mode := editor_mode d; body := body d; line_count := line_count d;
     cursor_line := cursor_line d; editing_line := editing_line d; input := i |}.

(** *** Lines of the buffer *)

(** [memchr]: the offset of the first [c]. *)
Fixpoint memchr (s : bytes) (c : Z) : option nat :=
  match s with
  | [] => None
  | x :: t => if x =? c then Some O else option_map S (memchr t c)
  end.

Definition count_lines (b : bytes) : nat :=
  if (0 <? length b)%nat then 1 + length (filter (fun c => c = c_lf) b) else 0.

Definition session_bbs_recalculate_line_count (d : draft) : draft :=
  let count := count_lines (body d) in
  if (count <? cursor_line d)%nat
  then {| editor_mode := editor_mode d; body := body d; line_count := count;
          cursor_line := count; editing_line := false; input := input d |}
  else {| editor_mode := editor_mode d; body := body d; line_count := count;
          cursor_line := cursor_line d; editing_line := editing_line d; input := input d |}.

(** The loop that skips [n] lines from [offset] on. *)
Fixpoint skip_lines (b : bytes) (n offset : nat) : option nat :=
  match n with
  | O => Some offset
  | S n' =>
      if (offset <? length b)%nat then
        match memchr (drop offset b) c_lf with
        | None => None
        | Some k => skip_lines b n' (offset + k + 1)
        end
      else Some offset
  end.

(** Start and length of a line. *)
Definition session_bbs_get_line_range (d : draft) (line_index : nat) : option (nat * nat) :=
  if (line_count d <=? line_index)%nat then None
  else
    match skip_lines (body d) line_index 0 with
    | None => None
    | Some offset =>
        if (length (body d) <? offset)%nat then None
        else
          let stop := match memchr (drop offset (body d)) c_lf with
                      | Some k => (offset + k)%nat
                      | None => length (body d)
                      end in
          Some (offset, (stop - offset)%nat)
    end.

(** The line as a C string, cut at a buffer of [length] bytes. *)
Definition session_bbs_copy_line (d : draft) (line_index len : nat) : bytes :=
  match session_bbs_get_line_range d line_index with
  | None => []
  | Some (start, line_length) =>
      let line_length := if (len <=? line_length)%nat then (len - 1)%nat else line_length in
      take line_length (drop start (body d))
  end.

Definition session_editor_body_capacity (m : session_editor_mode) : nat :=
  match m with
  | SESSION_EDITOR_MODE_ASCIIART => SSH_CHATTER_ASCIIART_BUFFER_LEN
  | _ => SSH_CHATTER_BBS_BODY_LEN
  end.

(** [None] stands for [SIZE_MAX], which no count of lines reaches. *)
Definition session_editor_max_lines (m : session_editor_mode) : option nat :=
  match m with
  | SESSION_EDITOR_MODE_ASCIIART => Some SSH_CHATTER_ASCIIART_MAX_LINES
  | SESSION_EDITOR_MODE_BBS_CREATE | SESSION_EDITOR_MODE_BBS_EDIT => Some SSH_CHATTER_BBS_MAX_LINES
  | SESSION_EDITOR_MODE_NONE => None
  end.

Definition at_line_limit (d : draft) : bool :=
  match session_editor_max_lines (editor_mode d) with
  | Some n => (n <=? line_count d)%nat
  | None => false
  end.

(** [memmove] of the tail and [memcpy] of the new bytes: [old] bytes at
    [start] are replaced by [new]. *)
Definition splice (b : bytes) (start old : nat) (new : bytes) : bytes :=
  take start b ++ new ++ drop (start + old) b.

(** *** Cursor and input line *)

Definition session_set_input_text (d : draft) (text : bytes) : draft :=
  with_input d (take (SSH_CHATTER_MAX_INPUT_LEN - 1) text).

Definition session_clear_input (d : draft) : draft := with_input d [].

Definition session_bbs_set_cursor (d : draft) (target : nat) (editing : bool) : draft :=
  let d := session_bbs_recalculate_line_count d in
  let count := line_count d in
  let target := if (count <? target)%nat then count else target in
  let '(target, editing) :=
    if editing && (count <=? target)%nat then (count, false) else (target, editing) in
  let d := {| editor_mode := editor_mode d; body := body d; line_count := count;
              cursor_line := target; editing_line := editing; input := input d |} in
  if editing && (target <? count)%nat
  then session_set_input_text d (session_bbs_copy_line d target SSH_CHATTER_MAX_INPUT_LEN)
  else session_set_input_text d [].

(** *** Messages *)

Definition is_ascii (m : session_editor_mode) : bool :=
  match m with SESSION_EDITOR_MODE_ASCIIART => true | _ => false end.

Definition length_limit_message (m : session_editor_mode) : bytes :=
  if is_ascii m then lit "ASCII art buffer is full. Additional text ignored."
  else lit "Post body length limit reached. Additional text ignored.".

Definition line_limit_message (m : session_editor_mode) : bytes :=
  if is_ascii m then lit "ASCII art line limit reached. Additional text ignored."
  else lit "Post line limit reached. Additional text ignored.".

Definition line_truncated_message (m : session_editor_mode) : bytes :=
  if is_ascii m then lit "Line truncated to fit within the ASCII art size limit."
  else lit "Line truncated to fit within the post size limit.".

(** *** Changing lines.  Each operation gives the draft, whether it did its
    work, and the status text. *)

Definition session_bbs_append_line (d : draft) (line : bytes) : draft * bool * bytes :=
  let m := editor_mode d in
  let capacity := session_editor_body_capacity m in
  if (capacity =? 0)%nat then (d, false, length_limit_message m)
  else if (capacity - 1 <=? length (body d))%nat then (d, false, length_limit_message m)
  else
    let d := session_bbs_recalculate_line_count d in
    if at_line_limit d then (d, false, line_limit_message m)
    else
      let available := (capacity - length (body d) - 1)%nat in
      if (available =? 0)%nat then (d, false, length_limit_message m)
      else
        let needs_newline := (0 <? length (body d))%nat in
        let b := if needs_newline then body d ++ [c_lf] else body d in
        let available := if needs_newline then (available - 1)%nat else available in
        let '(kept, status) :=
          if (available <? length line)%nat
          then (take available line, line_truncated_message m) else (line, []) in
        let d := session_bbs_recalculate_line_count (with_body d (b ++ kept)) in
        (session_bbs_set_cursor d (line_count d) false, true, status).

Definition session_bbs_insert_line (d : draft) (line_index : nat) (line : bytes) : draft * bool * bytes :=
  let m := editor_mode d in
  let d := session_bbs_recalculate_line_count d in
  let count := line_count d in
  if at_line_limit d then (d, false, line_limit_message m)
  else
    let line_index := if (count <? line_index)%nat then count else line_index in
    let capacity := session_editor_body_capacity m in
    if (capacity =? 0)%nat then (d, false, length_limit_message m)
    else
      let current_length := length (body d) in
      let available := (capacity - current_length - 1)%nat in
      if (available =? 0)%nat then (d, false, length_limit_message m)
      else
        match (if (line_index <? count)%nat
               then option_map fst (session_bbs_get_line_range d line_index)
               else Some current_length) with
        | None => (d, false, lit "Unable to locate the selected line.")
        | Some insert_offset =>
            let prefix := if (line_index =? count)%nat && (0 <? current_length)%nat then [c_lf] else [] in
            let suffix := if (line_index <? count)%nat then [c_lf] else [] in
            let overhead := (length prefix + length suffix)%nat in
            if (available <? length line + overhead)%nat then
              if (available <=? overhead)%nat then (d, false, length_limit_message m)
              else
                let kept := take (available - overhead) line in
                (session_bbs_recalculate_line_count
                   (with_body d (splice (body d) insert_offset 0 (prefix ++ kept ++ suffix))),
                 true, line_truncated_message m)
            else
              (session_bbs_recalculate_line_count
                 (with_body d (splice (body d) insert_offset 0 (prefix ++ line ++ suffix))),
               true, [])
        end.

(** What is left for a line of [old_length] bytes. *)
Definition max_allowed (d : draft) (old_length : nat) : nat :=
  let capacity := (session_editor_body_capacity (editor_mode d) - 1)%nat in
  let base_length := (length (body d) - old_length)%nat in
  if (base_length <? capacity)%nat then (capacity - base_length)%nat else 0.

Definition session_bbs_commit_edit_in_place (d : draft) : draft :=
  if negb (editing_line d) then d
  else
    let d := session_bbs_recalculate_line_count d in
    if (line_count d <=? cursor_line d)%nat then d
    else
      match session_bbs_get_line_range d (cursor_line d) with
      | None => d
      | Some (start, old_length) =>
          let new := take (max_allowed d old_length) (input d) in
          session_bbs_recalculate_line_count (with_body d (splice (body d) start old_length new))
      end.

Definition session_bbs_replace_line (d : draft) (line_index : nat) (line : bytes) : draft * bool * bytes :=
  let m := editor_mode d in
  let d := session_bbs_recalculate_line_count d in
  if (line_count d <=? line_index)%nat then (d, false, lit "Unable to locate the selected line.")
  else
    match session_bbs_get_line_range d line_index with
    | None => (d, false, lit "Unable to locate the selected line.")
    | Some (start, old_length) =>
        if (session_editor_body_capacity m =? 0)%nat then (d, false, [])
        else
          let allowed := max_allowed d old_length in
          let '(new, status) :=
            if (allowed <? length line)%nat then (take allowed line, line_truncated_message m)
            else (line, []) in
          let d := session_bbs_recalculate_line_count (with_body d (splice (body d) start old_length new)) in
          let updated_count := line_count d in
          if (line_index + 1 <=? updated_count)%nat
          then (session_bbs_set_cursor d (line_index + 1) false, true, status)
          else (session_bbs_set_cursor d updated_count false, true, status)
    end.

Definition session_bbs_remove_line_range (d : draft) (start stop : nat) : draft * bool * bytes :=
  let d := session_bbs_recalculate_line_count d in
  let count := line_count d in
  if (count =? 0)%nat || (count <=? start)%nat || (count <=? stop)%nat
  then (d, false, lit "No lines selected.")
  else
    let '(start, stop) := if (stop <? start)%nat then (stop, start) else (start, stop) in
    match session_bbs_get_line_range d start, session_bbs_get_line_range d stop with
    | Some (start_offset, _), Some (end_offset, end_length) =>
        let '(remove_start, remove_end) :=
          if (stop <? count - 1)%nat then (start_offset, (end_offset + end_length + 1)%nat)
          else if (0 <? start)%nat then ((start_offset - 1)%nat, (end_offset + end_length)%nat)
          else (start_offset, (end_offset + end_length)%nat) in
        let remove_end :=
          if (length (body d) <? remove_end)%nat then length (body d) else remove_end in
        (session_bbs_recalculate_line_count
           (with_body d (splice (body d) remove_start (remove_end - remove_start) [])), true, [])
    | _, _ => (d, false, [])
    end.

(** *** The clipboard *)

(** The loop over the [n] lines from [idx] on. *)
Fixpoint copy_lines_go (d : draft) (idx n len : nat) (buffer : bytes) (copied : nat) : bytes * nat :=
  match n with
  | O => (buffer, copied)
  | S n' =>
      let line := session_bbs_copy_line d idx SSH_CHATTER_MESSAGE_LIMIT in
      let newline := if (0 <? copied)%nat then [c_lf] else [] in
      if (len <=? length buffer + (length line + length newline))%nat then (buffer, copied)
      else copy_lines_go d (S idx) n' len (buffer ++ newline ++ line) (S copied)
  end.

(** The draft, the buffer, the lines copied and whether there are any. *)
Definition session_bbs_copy_line_range (d : draft) (start stop len : nat) : draft * bytes * nat * bool :=
  let d := session_bbs_recalculate_line_count d in
  let count := line_count d in
  if (count =? 0)%nat || (count <=? start)%nat || (count <=? stop)%nat then (d, [], 0%nat, false)
  else
    let '(start, stop) := if (stop <? start)%nat then (stop, start) else (start, stop) in
    let '(buffer, copied) := copy_lines_go d start (stop + 1 - start) len [] 0 in
    (d, buffer, copied, (0 <? copied)%nat).

(** The loop that inserts the lines of the copy; every round but the last
    passes a line break. *)
Fixpoint paste_go (fuel : nat) (d : draft) (insert_index : nat) (cursor : bytes) (inserted_any : bool)
    (status : bytes) : draft * nat * bool * bytes * bool :=
  match fuel, cursor with
  | O, _ | _, [] => (d, insert_index, inserted_any, status, true)
  | S f, _ =>
      let line := take_while (fun c => negb (c =? c_lf)) cursor in
      let '(d, ok, status) := session_bbs_insert_line d insert_index line in
      if negb ok then (d, insert_index, inserted_any, status, false)
      else
        match skip_while (fun c => negb (c =? c_lf)) cursor with
        | [] => (d, S insert_index, true, status, true)
        | _ :: rest => paste_go f d (S insert_index) rest true status
        end
  end.

Definition session_bbs_insert_clipboard (d : draft) (clipboard : bytes) (clipboard_length : nat)
    (status : bytes) : draft * bool * bytes :=
  if (clipboard_length =? 0)%nat then (d, false, lit "Clipboard is empty.")
  else
    let d := session_bbs_recalculate_line_count d in
    let insert_index :=
      if (line_count d <? cursor_line d)%nat then line_count d else cursor_line d in
    let clipboard_copy := snprintf_text SSH_CHATTER_BBS_BODY_LEN clipboard in
    let '(d, insert_index, inserted_any, status, completed) :=
      paste_go (S (length clipboard_copy)) d insert_index clipboard_copy false status in
    if completed then (session_bbs_set_cursor d insert_index false, inserted_any, status)
    else (d, inserted_any, status).

(** *** The editor of a session *)

(** The draft and the editor state around it.  A clipboard keeps its text, the
    length noted for it and the number of its lines apart. *)
Record editor := {
  dr : draft;
  bbs_editor_scroll_offset : nat;
  selection_start : nat;
  selection_start_set : bool;
  selection_end : nat;
  selection_end_set : bool;
  clipboard : bytes;
  clipboard_length : nat;
  clipboard_lines : nat;
  line_edit_mode : bool;
  line_edit_target : nat;
  search_active : bool;
  search_restore_line : nat;
  search_restore_editing : bool;
  search_restore_scroll : nat;
  terminal_height : nat
}.

Definition with_draft (e : editor) (d : draft) : editor :=
  {| dr := d; bbs_editor_scroll_offset := bbs_editor_scroll_offset e;
     selection_start := selection_start e; selection_start_set := selection_start_set e;
     selection_end := selection_end e; selection_end_set := selection_end_set e;
     clipboard := clipboard e; clipboard_length := clipboard_length e; clipboard_lines := clipboard_lines e;
     line_edit_mode := line_edit_mode e; line_edit_target := line_edit_target e;
     search_active := search_active e; search_restore_line := search_restore_line e;
     search_restore_editing := search_restore_editing e; search_restore_scroll := search_restore_scroll e;
     terminal_height := terminal_height e |}.

Definition with_scroll (e : editor) (offset : nat) : editor :=
  {| dr := dr e; bbs_editor_scroll_offset := offset;
     selection_start := selection_start e; selection_start_set := selection_start_set e;
     selection_end := selection_end e; selection_end_set := selection_end_set e;
     clipboard := clipboard e; clipboard_length := clipboard_length e; clipboard_lines := clipboard_lines e;
     line_edit_mode := line_edit_mode e; line_edit_target := line_edit_target e;
     search_active := search_active e; search_restore_line := search_restore_line e;
     search_restore_editing := search_restore_editing e; search_restore_scroll := search_restore_scroll e;
     terminal_height := terminal_height e |}.

Definition with_selection (e : editor) (start : nat) (start_set : bool) (stop : nat) (end_set : bool) : editor :=
  {| dr := dr e; bbs_editor_scroll_offset := bbs_editor_scroll_offset e;
     selection_start := start; selection_start_set := start_set;
     selection_end := stop; selection_end_set := end_set;
     clipboard := clipboard e; clipboard_length := clipboard_length e; clipboard_lines := clipboard_lines e;
     line_edit_mode := line_edit_mode e; line_edit_target := line_edit_target e;
     search_active := search_active e; search_restore_line := search_restore_line e;
     search_restore_editing := search_restore_editing e; search_restore_scroll := search_restore_scroll e;
     terminal_height := terminal_height e |}.

Definition with_clipboard (e : editor) (text : bytes) (len lines : nat) : editor :=
  {| dr := dr e; bbs_editor_scroll_offset := bbs_editor_scroll_offset e;
     selection_start := selection_start e; selection_start_set := selection_start_set e;
     selection_end := selection_end e; selection_end_set := selection_end_set e;
     clipboard := text; clipboard_length := len; clipboard_lines := lines;
     line_edit_mode := line_edit_mode e; line_edit_target := line_edit_target e;
     search_active := search_active e; search_restore_line := search_restore_line e;
     search_restore_editing := search_restore_editing e; search_restore_scroll := search_restore_scroll e;
     terminal_height := terminal_height e |}.

Definition with_line_edit_mode (e : editor) (b : bool) : editor :=
  {| dr := dr e; bbs_editor_scroll_offset := bbs_editor_scroll_offset e;
     selection_start := selection_start e; selection_start_set := selection_start_set e;
     selection_end := selection_end e; selection_end_set := selection_end_set e;
     clipboard := clipboard e; clipboard_length := clipboard_length e; clipboard_lines := clipboard_lines e;
     line_edit_mode := b; line_edit_target := line_edit_target e;
     search_active := search_active e; search_restore_line := search_restore_line e;
     search_restore_editing := search_restore_editing e; search_restore_scroll := search_restore_scroll e;
     terminal_height := terminal_height e |}.

Definition with_search (e : editor) (active : bool) (line : nat) (editing : bool) (scroll : nat) : editor :=
  {| dr := dr e; bbs_editor_scroll_offset := bbs_editor_scroll_offset e;
     selection_start := selection_start e; selection_start_set := selection_start_set e;
     selection_end := selection_end e; selection_end_set := selection_end_set e;
     clipboard := clipboard e; clipboard_length := clipboard_length e; clipboard_lines := clipboard_lines e;
     line_edit_mode := line_edit_mode e; line_edit_target := line_edit_target e;
     search_active := active; search_restore_line := line;
     search_restore_editing := editing; search_restore_scroll := scroll;
     terminal_height := terminal_height e |}.

(** *** The window on the draft *)

Definition session_bbs_editor_window (height : nat) (ascii_mode : bool) : nat :=
  if (height =? 0)%nat then SSH_CHATTER_BBS_VIEW_WINDOW
  else
    let reserved := ((if ascii_mode then 10 else 11) + 1)%nat in
    if (height <=? reserved)%nat then 1
    else
      let available := (height - reserved)%nat in
      if (available <? SSH_CHATTER_BBS_VIEW_WINDOW)%nat then available else SSH_CHATTER_BBS_VIEW_WINDOW.

(** The scroll offset [session_bbs_adjust_editor_scroll] leaves. *)
Definition session_bbs_adjust_editor_scroll (e : editor) (count window : nat) : editor :=
  let window := if (window =? 0)%nat then 1%nat else window in
  let include_insertion_line := negb (editing_line (dr e)) && (count <=? cursor_line (dr e))%nat in
  let effective := if include_insertion_line then S count else count in
  if (effective <=? window)%nat then with_scroll e 0
  else
    let max_offset := (effective - window)%nat in
    let offset := bbs_editor_scroll_offset e in
    let cursor := cursor_line (dr e) in
    let cursor := if (effective <=? cursor)%nat then (effective - 1)%nat else cursor in
    let offset :=
      if (cursor <? offset)%nat then cursor
      else if (offset + window <=? cursor)%nat then (cursor - window + 1)%nat
      else offset in
    with_scroll e (if (max_offset <? offset)%nat then max_offset else offset).

(** What [session_bbs_render_editor] changes in the editor. *)
Definition session_bbs_render_editor (e : editor) : editor :=
  let e := with_draft e (session_bbs_recalculate_line_count (dr e)) in
  session_bbs_adjust_editor_scroll e (line_count (dr e))
    (session_bbs_editor_window (terminal_height e) (is_ascii (editor_mode (dr e)))).

Definition BBS_EDITOR_LINE_PREC : nat := SSH_CHATTER_MESSAGE_LIMIT - 4.

(** The text shown for the line [idx]. *)
Definition shown_line (e : editor) (insertion_index idx : nat) : bytes :=
  let d := dr e in
  let line_buffer := session_bbs_copy_line d idx SSH_CHATTER_MESSAGE_LIMIT in
  let cursor_selected := editing_line d && (cursor_line d =? idx)%nat in
  let cursor_highlight := negb (editing_line d) && (insertion_index =? idx)%nat in
  let '(first, final) :=
    if (selection_end e <? selection_start e)%nat then (selection_end e, selection_start e)
    else (selection_start e, selection_end e) in
  let range_selected :=
    selection_start_set e && selection_end_set e && (first <=? idx)%nat && (idx <=? final)%nat in
  let prefix :=
    if cursor_selected then lit "> " else if cursor_highlight then lit "> "
    else if range_selected then lit "* " else lit "  " in
  snprintf_text SSH_CHATTER_MESSAGE_LIMIT
    (if cursor_selected then lit "> " ++ take BBS_EDITOR_LINE_PREC (input d) ++ [c_underscore]
     else match line_buffer with
          | [] => prefix
          | _ => prefix ++ take BBS_EDITOR_LINE_PREC line_buffer
          end).

(** The lines of the body that the rendering sends, for the state it leaves:
    the index of the line, [None] for the line of the prompt, and its text. *)
Definition render_body (e : editor) : list (option nat * bytes) :=
  let d := dr e in
  let count := line_count d in
  if (count =? 0)%nat then [(None, lit "> ")]
  else
    let window := session_bbs_editor_window (terminal_height e) (is_ascii (editor_mode d)) in
    let start := bbs_editor_scroll_offset e in
    let stop := Nat.min (start + window) count in
    let insertion_index := Nat.min (cursor_line d) count in
    map (fun idx => (Some idx, shown_line e insertion_index idx)) (seq start (stop - start))
    ++ (if (stop <=? insertion_index)%nat && (insertion_index =? count)%nat then
          [(None,
            if editing_line d
            then snprintf_text SSH_CHATTER_MESSAGE_LIMIT
                   (lit "> " ++ take BBS_EDITOR_LINE_PREC (input d) ++ [c_underscore])
            else lit "> ")]
        else []).

(** *** Opening a draft *)

(** What [session_bbs_reset_pending_post] leaves; the input line and the height
    of the terminal are not its. *)
Definition session_bbs_reset_pending_post (i : bytes) (height : nat) : editor :=
  {| dr := {| editor_mode := SESSION_EDITOR_MODE_NONE; body := []; line_count := 0; cursor_line := 0;
              editing_line := false; input := i |};
     bbs_editor_scroll_offset := 0; selection_start := 0; selection_start_set := false;
     selection_end := 0; selection_end_set := false;
     clipboard := []; clipboard_length := 0; clipboard_lines := 0;
     line_edit_mode := false; line_edit_target := 0;
     search_active := false; search_restore_line := 0; search_restore_editing := false;
     search_restore_scroll := 0; terminal_height := height |}.

(** The editor on a new draft ([text] empty) or on the body of a post, as
    [session_bbs_begin_post] and [session_bbs_begin_edit] show it. *)
Definition open_draft (m : session_editor_mode) (text i : bytes) (height : nat) : editor :=
  let e := session_bbs_reset_pending_post i height in
  session_bbs_render_editor
    (with_draft e {| editor_mode := m; body := take (SSH_CHATTER_BBS_BODY_LEN - 1) text;
                     line_count := line_count (dr e); cursor_line := cursor_line (dr e);
                     editing_line := editing_line (dr e); input := input (dr e) |}).

(** *** Searching and moving *)

(** The lines from [idx] on, [n] of them, until one has the keyword. *)
Fixpoint find_line (d : draft) (keyword : bytes) (idx n : nat) : option nat :=
  match n with
  | O => None
  | S n' =>
      match strstr (session_bbs_copy_line d idx SSH_CHATTER_MESSAGE_LIMIT) keyword with
      | Some _ => Some idx
      | None => find_line d keyword (S idx) n'
      end
  end.

(** Back to where the search was started. *)
Definition search_restore (e : editor) : editor :=
  with_scroll
    (with_draft e (session_bbs_set_cursor (dr e) (search_restore_line e) (search_restore_editing e)))
    (search_restore_scroll e).

Definition session_bbs_search_keyword (e : editor) (keyword : bytes) : editor * bool * bytes :=
  match keyword with
  | [] => (search_restore e, false, lit "Search canceled.")
  | _ =>
      let e := with_draft e (session_bbs_recalculate_line_count (dr e)) in
      let count := line_count (dr e) in
      if (count =? 0)%nat then (search_restore e, false, lit "No lines to search.")
      else
        let start_line := if (count <=? cursor_line (dr e))%nat then 0%nat else cursor_line (dr e) in
        match (match find_line (dr e) keyword start_line (count - start_line) with
               | Some idx => Some idx
               | None => find_line (dr e) keyword 0 start_line
               end) with
        | Some idx =>
            (with_draft e (session_bbs_set_cursor (dr e) idx true), true,
             lit "Found " ++ c_dquote :: keyword ++ c_dquote :: lit " on line "
               ++ dec (Z.of_nat idx + 1) ++ lit ".")
        | None =>
            (search_restore e, false, lit "No match for " ++ c_dquote :: keyword ++ c_dquote :: lit ".")
        end
  end.

(** Where an arrow key leads: the line and whether it is edited. *)
Definition arrow_target (up : bool) (count target : nat) (editing : bool) : nat * bool :=
  let target := if (count <? target)%nat then count else target in
  if up then
    ((target - 1)%nat, true)
  else if editing then
    if (target + 1 <? count)%nat then (S target, true) else (count, false)
  else (target, (target <? count)%nat).

Definition session_bbs_move_cursor (e : editor) (up : bool) : editor :=
  let e := with_line_edit_mode e false in
  let d := dr e in
  let d := if editing_line d then session_bbs_commit_edit_in_place d else d in
  let d := session_bbs_recalculate_line_count d in
  let count := line_count d in
  if (count =? 0)%nat
  then session_bbs_render_editor (with_draft e (session_bbs_set_cursor d 0 false))
  else
    let '(target, editing) := arrow_target up count (cursor_line d) (editing_line d) in
    session_bbs_render_editor (with_draft e (session_bbs_set_cursor d target editing)).

(** *** The lines that end a draft *)

Definition kSessionAsciiartTerminators : list bytes :=
  [lit ">/__ARTWORK_END>"; lit ">/__그림_끝>"; lit ">/__アート_終了>"; lit ">/__图像_结束>";
   lit ">/__АРТ_КОНЕЦ>"; lit ">/__KUNST_ENDE>"; lit ">/__ART_FIN>"; lit ">/__SZTUKA_KONIEC>"].

Definition kSessionBbsTerminators : list bytes :=
  [lit ">/__BBS_END>"; lit ">/__게시판_끝>"; lit ">/__掲示板_終了>"; lit ">/__公告板_结束>";
   lit ">/__ДОСКА_КОНЕЦ>"; lit ">/__BBS_ENDE>"; lit ">/__BBS_FIN>"; lit ">/__BBS_KONIEC>"].

Definition terminators (m : session_editor_mode) : list bytes :=
  if is_ascii m then kSessionAsciiartTerminators else kSessionBbsTerminators.

Definition session_editor_matches_terminator (m : session_editor_mode) (line : bytes) : bool :=
  existsb (bytes_eqb line) (terminators m).

(** [ui_language] counts the languages from English on; Korean is the default. *)
Definition session_editor_terminator (m : session_editor_mode) (ui_language : nat) : bytes :=
  nth ui_language (terminators m) (nth 1 (terminators m) []).

(** *** Typed lines and keys *)

(** What finishing the draft does ([session_bbs_commit_pending_post]) is given:
    [None] when the draft is done, else the editor it leaves. *)
Section Keys.
Context (session_bbs_commit_pending_post : editor -> option editor).

Definition session_bbs_capture_body_line (e : editor) (line : bytes) : option editor :=
  let trimmed := Paths.trim_whitespace_inplace (take (SSH_CHATTER_MESSAGE_LIMIT - 1) line) in
  if session_editor_matches_terminator (editor_mode (dr e)) trimmed
  then session_bbs_commit_pending_post e
  else
    let d := session_bbs_recalculate_line_count (dr e) in
    let inside := (cursor_line d <? line_count d)%nat in
    if editing_line d && inside then
      let '(d, updated, _) := session_bbs_replace_line d (cursor_line d) line in
      let e := with_line_edit_mode e false in
      if updated then
        let d := session_bbs_recalculate_line_count d in
        let next := cursor_line d in
        let d := if (next <? line_count d)%nat then session_bbs_set_cursor d next true else d in
        Some (session_bbs_render_editor (with_draft e d))
      else Some (session_bbs_render_editor (with_draft e d))
    else if negb (editing_line d) && inside then
      let '(d, updated, _) := session_bbs_insert_line d (cursor_line d) line in
      if updated
      then Some (session_bbs_render_editor (with_line_edit_mode
                   (with_draft e (session_bbs_set_cursor d (cursor_line d + 1) false)) false))
      else Some (session_bbs_render_editor (with_draft e d))
    else
      let '(d, updated, _) := session_bbs_append_line d line in
      Some (session_bbs_render_editor
              (with_line_edit_mode (with_draft e d) (if updated then false else line_edit_mode e))).

(** [session_capture_multiline_text] with this consumer: [line] is what was
    read of the line, [emitted] whether a line went before. *)
Fixpoint capture_go (e : editor) (text line : bytes) (emitted : bool) : option editor :=
  match text with
  | [] =>
      if (0 <? length line)%nat || negb emitted then session_bbs_capture_body_line e line else Some e
  | ch :: t =>
      if ch =? c_cr then
        match session_bbs_capture_body_line e line with
        | None => None
        | Some e =>
            match t with
            | c :: u => if c =? c_lf then capture_go e u [] true else capture_go e t [] true
            | [] => capture_go e t [] true
            end
        end
      else if ch =? c_lf then
        match session_bbs_capture_body_line e line with
        | None => None
        | Some e => capture_go e t [] true
        end
      else if (length line + 1 <? SSH_CHATTER_MAX_INPUT_LEN)%nat then capture_go e t (line ++ [ch]) emitted
      else capture_go e t line emitted
  end.

Definition session_bbs_capture_body_text (e : editor) (text : bytes) : option editor :=
  capture_go e text [] false.

(** [session_process_line] while a draft is open. *)
Definition session_process_line (e : editor) (line : bytes) : option editor :=
  session_bbs_capture_body_text e (snprintf_text SSH_CHATTER_MAX_INPUT_LEN line).

Definition clear_input_of (e : editor) : editor := with_draft e (session_clear_input (dr e)).

(** The keys the editor sees: [KeyText] is a printable byte in the encoding of
    the session, as it is put into the input line. *)
Inductive key :=
  | KeyUp
  | KeyDown
  | KeyCtrlF
  | KeyCtrlO
  | KeyCtrlQ
  | KeyCtrlR
  | KeyCtrlT
  | KeyCtrlL
  | KeyCtrlS (ui_language : nat)
  | KeyReturn
  | KeyLineFeed
  | KeyBackspace
  | KeyText (encoded : bytes).

Definition key_search (e : editor) : editor :=
  session_bbs_render_editor
    (clear_input_of
       (with_search e true (cursor_line (dr e)) (editing_line (dr e)) (bbs_editor_scroll_offset e))).

Definition key_insert (e : editor) : editor :=
  let insert_index := cursor_line (dr e) in
  let '(d, ok, _) := session_bbs_insert_line (dr e) insert_index (input (dr e)) in
  let d := if ok then session_bbs_set_cursor d (insert_index + 1) false else d in
  session_bbs_render_editor (clear_input_of (with_line_edit_mode (with_draft e d) false)).

Definition key_select (e : editor) : editor :=
  let e := with_draft e (session_bbs_recalculate_line_count (dr e)) in
  let count := line_count (dr e) in
  let e :=
    if (count =? 0)%nat then e
    else
      let anchor := cursor_line (dr e) in
      let anchor := if (count <=? anchor)%nat then (count - 1)%nat else anchor in
      with_selection e anchor true (selection_end e) false in
  session_bbs_render_editor (with_line_edit_mode e false).

Definition key_cut (e : editor) : editor :=
  let e := with_draft e (session_bbs_recalculate_line_count (dr e)) in
  let count := line_count (dr e) in
  let e :=
    if negb (selection_start_set e) || (count =? 0)%nat then e
    else
      let stop := cursor_line (dr e) in
      let stop := if (count <=? stop)%nat then (count - 1)%nat else stop in
      let start := selection_start e in
      let '(d, text, lines, ok) :=
        session_bbs_copy_line_range (dr e) start stop SSH_CHATTER_BBS_BODY_LEN in
      let e :=
        if ok then
          let e := with_clipboard e text (length text) lines in
          let '(d, ok, _) := session_bbs_remove_line_range d start stop in
          if ok then
            let d := session_bbs_recalculate_line_count d in
            let target := if (line_count d <? start)%nat then line_count d else start in
            with_draft e (session_bbs_set_cursor d target false)
          else with_draft e d
        else with_draft (with_clipboard e text (clipboard_length e) lines) d in
      with_selection e start false stop false in
  session_bbs_render_editor (clear_input_of (with_line_edit_mode e false)).

Definition key_paste (e : editor) : editor :=
  let '(d, _, _) := session_bbs_insert_clipboard (dr e) (clipboard e) (clipboard_length e) [] in
  session_bbs_render_editor (clear_input_of (with_line_edit_mode (with_draft e d) false)).

Definition key_apply (e : editor) : editor :=
  if line_edit_mode e then
    let target := if editing_line (dr e) then cursor_line (dr e) else line_edit_target e in
    let '(d, _, _) := session_bbs_replace_line (dr e) target (input (dr e)) in
    session_bbs_render_editor (clear_input_of (with_line_edit_mode (with_draft e d) false))
  else e.

Definition key_save (e : editor) (ui_language : nat) : option editor :=
  match (match input (dr e) with
         | [] => Some e
         | i => session_bbs_capture_body_text e i
         end) with
  | None => None
  | Some e' =>
      option_map clear_input_of
        (session_bbs_capture_body_line e' (session_editor_terminator (editor_mode (dr e)) ui_language))
  end.

(** CR and LF.  An empty line of an edited line is handled before the search. *)
Definition key_enter (e : editor) (cr : bool) : option editor :=
  if cr && editing_line (dr e) && (length (input (dr e)) =? 0)%nat then
    option_map clear_input_of (session_process_line e [])
  else if search_active e then
    let '(e, _, _) := session_bbs_search_keyword e (input (dr e)) in
    let e := with_search e false (search_restore_line e) (search_restore_editing e) (search_restore_scroll e) in
    Some (session_bbs_render_editor (clear_input_of e))
  else option_map clear_input_of (session_process_line e (input (dr e))).

(** [r] are the bytes before the end, the last first. *)
Fixpoint prev_char_go (r : bytes) (seq_len : nat) : nat :=
  match r with
  | [] => 1
  | b :: r' =>
      if negb (Z.land b 192 =? 128) then
        let expected :=
          if Z.land b 128 =? 0 then 1%nat
          else if Z.land b 224 =? 192 then 2%nat
          else if Z.land b 240 =? 224 then 3%nat
          else if Z.land b 248 =? 240 then 4%nat
          else 1%nat in
        if (seq_len <? expected)%nat then seq_len else expected
      else prev_char_go r' (S seq_len)
  end.

Definition session_utf8_prev_char_len (s : bytes) : nat :=
  match s with [] => 0 | _ => prev_char_go (rev s) 1 end.

Definition key_backspace (e : editor) : editor :=
  let d := dr e in
  let char_len := session_utf8_prev_char_len (input d) in
  let e :=
    if (length (input d) =? 0)%nat || (char_len =? 0)%nat || (length (input d) <? char_len)%nat then e
    else with_draft e (with_input d (take (length (input d) - char_len) (input d))) in
  if editing_line d && negb (search_active e) then session_bbs_render_editor e else e.

Definition key_text (e : editor) (encoded : bytes) : option editor :=
  match (if (SSH_CHATTER_MAX_INPUT_LEN <=? length (input (dr e)) + length encoded)%nat
         then option_map clear_input_of (session_process_line e (input (dr e)))
         else Some e) with
  | None => None
  | Some e =>
      if (length (input (dr e)) + length encoded <? SSH_CHATTER_MAX_INPUT_LEN)%nat then
        let e := with_draft e (with_input (dr e) (input (dr e) ++ encoded)) in
        Some (if editing_line (dr e) && negb (search_active e) then session_bbs_render_editor e else e)
      else Some e
  end.

Definition press (e : editor) (k : key) : option editor :=
  match k with
  | KeyUp => Some (session_bbs_move_cursor e true)
  | KeyDown => Some (session_bbs_move_cursor e false)
  | KeyCtrlF => Some (key_search e)
  | KeyCtrlO => Some (key_insert e)
  | KeyCtrlQ => Some (key_select e)
  | KeyCtrlR => Some (key_cut e)
  | KeyCtrlT => Some (key_paste e)
  | KeyCtrlL => Some (key_apply e)
  | KeyCtrlS ui_language => key_save e ui_language
  | KeyReturn => key_enter e true
  | KeyLineFeed => key_enter e false
  | KeyBackspace => Some (key_backspace e)
  | KeyText encoded => key_text e encoded
  end.

Fixpoint presses (e : editor) (ks : list key) : option editor :=
  match ks with
  | [] => Some e
  | k :: ks => match press e k with None => None | Some e => presses e ks end
  end.

End Keys.

(** ** The text as a list of lines *)

Definition plain (l : bytes) : Prop := c_lf ∉ l.

Fixpoint split_lines (b : bytes) : list bytes :=
  match b with
  | [] => [[]]
  | c :: t =>
      if c =? c_lf then [] :: split_lines t
      else match split_lines t with l :: ls => (c :: l) :: ls | [] => [[c]] end
  end.

(** The lines of a draft; the empty text has none. *)
Definition lines (b : bytes) : list bytes := match b with [] => [] | _ => split_lines b end.

Definition ended (ls : list bytes) : bytes := concat (map (fun l => l ++ [c_lf]) ls).
Definition begun (ls : list bytes) : bytes := concat (map (cons c_lf) ls).

Definition join (ls : list bytes) : bytes :=
  match ls with [] => [] | l :: ls => l ++ begun ls end.

(** One empty line is no line. *)
Definition canon (ls : list bytes) : list bytes := match ls with [[]] => [] | _ => ls end.

Lemma begun_cons l ls : begun (l :: ls) = c_lf :: l ++ begun ls.
Proof. done. Qed.

Lemma begun_join ls : ls <> [] -> begun ls = c_lf :: join ls.
Proof. by destruct ls. Qed.

Lemma ended_app l1 l2 : ended (l1 ++ l2) = ended l1 ++ ended l2.
Proof. unfold ended. by rewrite map_app, concat_app. Qed.

Lemma begun_app l1 l2 : begun (l1 ++ l2) = begun l1 ++ begun l2.
Proof. unfold begun. by rewrite map_app, concat_app. Qed.

Lemma ended_cons l ls : ended (l :: ls) = l ++ c_lf :: ended ls.
Proof. unfold ended. simpl. by rewrite <- app_assoc. Qed.

Lemma join_begun l1 l2 : l1 <> [] -> join (l1 ++ l2) = join l1 ++ begun l2.
Proof. destruct l1 as [|x l1]; [done|]. intros _. simpl. by rewrite begun_app, app_assoc. Qed.

Lemma join_split_at l1 x l2 : join (l1 ++ x :: l2) = ended l1 ++ x ++ begun l2.
Proof.
  induction l1 as [|y l1 IH]; [done|]. rewrite ended_cons, <- app_assoc. simpl. f_equal.
  rewrite begun_join by (by destruct l1). by rewrite IH.
Qed.

Lemma join_ended l1 x l2 : join (l1 ++ x :: l2) = ended l1 ++ join (x :: l2).
Proof. by rewrite join_split_at. Qed.

Lemma ended_join l1 : l1 <> [] -> ended l1 = join l1 ++ [c_lf].
Proof.
  destruct l1 as [|x l1]; [done|]. intros _. revert x; induction l1 as [|y l1 IH]; intros x.
  - unfold ended. simpl. by rewrite !app_nil_r.
  - rewrite ended_cons, IH. cbn [join]. rewrite begun_cons, <- !app_assoc. cbn [app].
    by rewrite <- app_assoc.
Qed.

Lemma split_lines_nonempty b : split_lines b <> [].
Proof. destruct b as [|c t]; simpl; [done|]. by destruct (c =? c_lf), (split_lines t). Qed.

Lemma join_split_lines b : join (split_lines b) = b.
Proof.
  induction b as [|c t IH]; [done|]. simpl. pose proof (split_lines_nonempty t) as Hne.
  destruct (Z.eqb_spec c c_lf) as [->|Hc].
  - destruct (split_lines t) as [|l ls]; [done|]. simpl. by rewrite begun_cons, <- IH.
  - destruct (split_lines t) as [|l ls]; [done|]. simpl in *. by rewrite IH.
Qed.

Lemma plain_nil : plain [].
Proof. apply not_elem_of_nil. Qed.

Lemma plain_cons c l : plain (c :: l) <-> c <> c_lf /\ plain l.
Proof. unfold plain. rewrite not_elem_of_cons. split; (intros [? ?]; split; [congruence|done]). Qed.

Lemma split_lines_plain b : Forall plain (split_lines b).
Proof.
  induction b as [|c t IH]; simpl; [constructor; [apply plain_nil|constructor]|].
  destruct (Z.eqb_spec c c_lf) as [->|Hc]; [constructor; [apply plain_nil|done]|].
  destruct IH as [|l ls Hl Hls]; (constructor; [|done]); apply plain_cons; split; try done.
  apply plain_nil.
Qed.

Lemma split_lines_plain_line l : plain l -> split_lines l = [l].
Proof.
  induction l as [|c l IH]; intros Hl; [done|]. apply plain_cons in Hl as [Hc Hl]. simpl.
  apply Z.eqb_neq in Hc. by rewrite Hc, IH.
Qed.

Lemma split_lines_line l t : plain l -> split_lines (l ++ c_lf :: t) = l :: split_lines t.
Proof.
  induction l as [|c l IH]; intros Hl; [done|]. apply plain_cons in Hl as [Hc Hl]. simpl.
  apply Z.eqb_neq in Hc. by rewrite Hc, IH.
Qed.

Lemma split_lines_join ls : Forall plain ls -> ls <> [] -> split_lines (join ls) = ls.
Proof.
  intros Hls. destruct Hls as [|x ls Hx Hls]; [done|]. intros _. revert x Hx.
  induction Hls as [|y ls Hy Hls IH]; intros x Hx.
  - simpl. rewrite app_nil_r. by apply split_lines_plain_line.
  - simpl. rewrite begun_cons, split_lines_line by done. f_equal. by apply (IH y).
Qed.

Lemma lines_join ls : Forall plain ls -> lines (join ls) = canon ls.
Proof.
  intros Hls. destruct ls as [|l ls]; [done|].
  assert (split_lines (join (l :: ls)) = l :: ls) as Hs by (by apply split_lines_join).
  unfold lines. destruct (join (l :: ls)) as [|c t] eqn:E.
  - destruct l; [|done]. by destruct ls.
  - rewrite Hs. destruct l; [|done]. destruct ls; [|done]. done.
Qed.

Lemma join_lines b : join (lines b) = b.
Proof. destruct b; [done|]. apply join_split_lines. Qed.

Lemma lines_plain b : Forall plain (lines b).
Proof. destruct b; [constructor|]. apply split_lines_plain. Qed.

Lemma canon_lines b : canon (lines b) = lines b.
Proof. rewrite <- (lines_join (lines b)) by apply lines_plain. by rewrite join_lines. Qed.

Lemma lines_nil b : lines b = [] -> b = [].
Proof. destruct b; [done|]. intros H. by apply split_lines_nonempty in H. Qed.

Lemma split_lines_count b : length (split_lines b) = S (length (filter (fun c => c = c_lf) b)).
Proof.
  induction b as [|c t IH]; [done|]. simpl. rewrite filter_cons.
  destruct (Z.eqb_spec c c_lf); destruct (decide (c = c_lf)); try done; simpl; [by rewrite IH|].
  destruct (split_lines t); simpl in *; done.
Qed.

Lemma count_lines_spec b : count_lines b = length (lines b).
Proof.
  unfold count_lines, lines. destruct b as [|c t]; [done|].
  by rewrite split_lines_count.
Qed.

(** *** Finding a line in the buffer *)

Lemma memchr_app l t : plain l -> memchr (l ++ c_lf :: t) c_lf = Some (length l).
Proof.
  induction l as [|c l IH]; intros Hl; [done|]. apply plain_cons in Hl as [Hc Hl]. simpl.
  apply Z.eqb_neq in Hc. by rewrite Hc, IH.
Qed.

Lemma memchr_plain l : plain l -> memchr l c_lf = None.
Proof.
  induction l as [|c l IH]; intros Hl; [done|]. apply plain_cons in Hl as [Hc Hl]. simpl.
  apply Z.eqb_neq in Hc. by rewrite Hc, IH.
Qed.

Lemma skip_lines_spec p l1 r : Forall plain l1 ->
  skip_lines (p ++ ended l1 ++ r) (length l1) (length p) = Some (length p + length (ended l1))%nat.
Proof.
  intros Hl; revert p; induction Hl as [|l l1 Hl Hl1 IH]; intros p.
  { unfold ended. simpl. f_equal. lia. }
  cbn [length skip_lines]. rewrite ended_cons, <- app_assoc. cbn [app].
  rewrite !length_app. cbn [length]. rewrite length_app.
  destruct (Nat.ltb_spec (length p) (length p + (length l + S (length (ended l1) + length r)))); [|lia].
  rewrite drop_app_length, memchr_app by done.
  specialize (IH (p ++ l ++ [c_lf])). rewrite !length_app in IH. cbn [length] in IH.
  rewrite <- !app_assoc in IH. cbn [app] in IH.
  replace (length p + length l + 1)%nat with (length p + (length l + 1))%nat by lia.
  rewrite IH. f_equal. lia.
Qed.

(** The draft is synchronised: the count is that of the text. *)
Definition counted (d : draft) : Prop := line_count d = length (lines (body d)).

Lemma lines_split b l1 x l2 : lines b = l1 ++ x :: l2 ->
  b = ended l1 ++ x ++ begun l2 /\ Forall plain l1 /\ plain x /\ Forall plain l2.
Proof.
  intros Hb. pose proof (join_lines b) as Hj. pose proof (lines_plain b) as Hp.
  rewrite Hb in Hj, Hp. rewrite join_split_at in Hj. apply Forall_app in Hp as [H1 [Hx H2]%Forall_cons].
  done.
Qed.

Lemma begun_memchr x l2 : plain x ->
  match memchr (x ++ begun l2) c_lf with Some k => k | None => length (x ++ begun l2) end = length x.
Proof.
  intros Hx. destruct l2 as [|y l2].
  - unfold begun. simpl. by rewrite app_nil_r, memchr_plain.
  - by rewrite begun_cons, memchr_app.
Qed.

Lemma line_range_spec d l1 x l2 : counted d -> lines (body d) = l1 ++ x :: l2 ->
  session_bbs_get_line_range d (length l1) = Some (length (ended l1), length x).
Proof.
  intros Hc Hl. pose proof (lines_split _ _ _ _ Hl) as (Hb & H1 & Hx & H2).
  unfold session_bbs_get_line_range. rewrite Hc, Hl, length_app. cbn [length].
  destruct (Nat.leb_spec (length l1 + S (length l2)) (length l1)); [lia|].
  pose proof (skip_lines_spec [] l1 (x ++ begun l2) H1) as Hs. cbn [app length] in Hs.
  rewrite <- Hb in Hs. rewrite Hs, Nat.add_0_l.
  assert (length (ended l1) <= length (body d))%nat as Hle by (rewrite Hb, length_app; lia).
  destruct (Nat.ltb_spec (length (body d)) (length (ended l1))); [lia|].
  assert (drop (length (ended l1)) (body d) = x ++ begun l2) as -> by (by rewrite Hb, drop_app_length).
  pose proof (begun_memchr x l2 Hx) as Hm.
  destruct (memchr (x ++ begun l2) c_lf) as [k|]; [subst k; repeat f_equal; lia|].
  rewrite Hb, length_app. repeat f_equal. rewrite Hm. lia.
Qed.

Lemma line_range_none d i : counted d -> (length (lines (body d)) <= i)%nat ->
  session_bbs_get_line_range d i = None.
Proof.
  intros Hc Hi. unfold session_bbs_get_line_range. rewrite Hc.
  by destruct (Nat.leb_spec (length (lines (body d))) i); [|lia].
Qed.

Lemma splice_middle (a x c new : bytes) :
  splice (a ++ x ++ c) (length a) (length x) new = a ++ new ++ c.
Proof.
  unfold splice. rewrite take_app_length, drop_app_add, drop_app_length. done.
Qed.

Lemma line_at b i x : lines b !! i = Some x ->
  exists l1 l2, lines b = l1 ++ x :: l2 /\ length l1 = i /\ take i (lines b) = l1 /\ drop (S i) (lines b) = l2.
Proof.
  intros Hi. exists (take i (lines b)), (drop (S i) (lines b)).
  split; [symmetry; by apply take_drop_middle|]. apply lookup_lt_Some in Hi. rewrite length_take.
  split; [lia|done].
Qed.

Lemma copy_line_spec d i x len : counted d -> lines (body d) !! i = Some x -> (0 < len)%nat ->
  session_bbs_copy_line d i len = take (len - 1) x.
Proof.
  intros Hc Hi Hlen. apply line_at in Hi as (l1 & l2 & Hl & <- & _). unfold session_bbs_copy_line.
  rewrite (line_range_spec d _ x _ Hc Hl).
  apply lines_split in Hl as (-> & _). rewrite drop_app_length.
  destruct (Nat.leb_spec len (length x)).
  - rewrite take_app_le by lia. done.
  - by rewrite take_app_length, (take_ge x) by lia.
Qed.

Lemma copy_line_none d i len : counted d -> lines (body d) !! i = None ->
  session_bbs_copy_line d i len = [].
Proof.
  intros Hc Hi. unfold session_bbs_copy_line. apply lookup_ge_None in Hi. by rewrite line_range_none.
Qed.

(** *** Counting again *)

Lemma recalc_counted d : counted (session_bbs_recalculate_line_count d).
Proof.
  unfold counted, session_bbs_recalculate_line_count.
  destruct (_ <? _)%nat; simpl; apply count_lines_spec.
Qed.

Lemma recalc_body d : body (session_bbs_recalculate_line_count d) = body d.
Proof. unfold session_bbs_recalculate_line_count. by destruct (_ <? _)%nat. Qed.

Lemma recalc_mode d : editor_mode (session_bbs_recalculate_line_count d) = editor_mode d.
Proof. unfold session_bbs_recalculate_line_count. by destruct (_ <? _)%nat. Qed.

Lemma recalc_input d : input (session_bbs_recalculate_line_count d) = input d.
Proof. unfold session_bbs_recalculate_line_count. by destruct (_ <? _)%nat. Qed.

Lemma recalc_cursor d :
  cursor_line (session_bbs_recalculate_line_count d) = Nat.min (cursor_line d) (length (lines (body d))).
Proof.
  unfold session_bbs_recalculate_line_count. rewrite count_lines_spec.
  destruct (Nat.ltb_spec (length (lines (body d))) (cursor_line d)); simpl; lia.
Qed.

Lemma recalc_id d : counted d -> (cursor_line d <= line_count d)%nat ->
  session_bbs_recalculate_line_count d = d.
Proof.
  unfold counted, session_bbs_recalculate_line_count. intros Hc Hle. rewrite count_lines_spec, <- Hc.
  destruct (Nat.ltb_spec (line_count d) (cursor_line d)); [lia|]. by destruct d.
Qed.

(** *** The cursor *)

Lemma set_cursor_body d t e : body (session_bbs_set_cursor d t e) = body d.
Proof.
  unfold session_bbs_set_cursor.
  destruct (e && _); simpl; [|destruct (e && _)]; simpl; apply recalc_body.
Qed.

Lemma set_cursor_mode d t e : editor_mode (session_bbs_set_cursor d t e) = editor_mode d.
Proof.
  unfold session_bbs_set_cursor.
  destruct (e && _); simpl; [|destruct (e && _)]; simpl; apply recalc_mode.
Qed.

(** The cursor line after [session_bbs_set_cursor], and whether it is edited. *)
Lemma set_cursor_spec d t e :
  let d' := session_bbs_set_cursor d t e in
  counted d' /\ cursor_line d' = Nat.min t (length (lines (body d))) /\
  editing_line d' = e && (t <? length (lines (body d)))%nat /\
  input d' = (if e && (t <? length (lines (body d)))%nat
              then take (SSH_CHATTER_MAX_INPUT_LEN - 1) (nth t (lines (body d)) []) else []).
Proof.
  unfold session_bbs_set_cursor. pose proof (recalc_counted d) as Hc.
  set (r := session_bbs_recalculate_line_count d) in *.
  assert (line_count r = length (lines (body d))) as Hn by (unfold counted in Hc; rewrite Hc; unfold r; by rewrite recalc_body).
  cbv zeta. rewrite Hn. set (n := length (lines (body d))) in *.
  assert (body r = body d) as Hb by apply recalc_body.
  destruct (Nat.ltb_spec n t) as [Ht|Ht].
  - rewrite Nat.leb_refl, andb_true_r. replace (t <? n)%nat with false by (symmetry; apply Nat.ltb_ge; lia).
    rewrite andb_false_r. destruct e; simpl; unfold counted; simpl; rewrite Hb; repeat split; unfold n; lia || done.
  - destruct (Nat.leb_spec n t) as [Htn|Htn].
    + replace (t <? n)%nat with false by (symmetry; apply Nat.ltb_ge; lia).
      rewrite andb_true_r, andb_false_r.
      destruct e; simpl; unfold counted; simpl; rewrite Hb; repeat split; unfold n; lia || done.
    + assert ((t <? n)%nat = true) as Htl by (apply Nat.ltb_lt; lia).
      rewrite Htl, andb_false_r, andb_true_r. destruct e; simpl; rewrite ?Htl.
      * unfold counted; simpl; rewrite Hb. repeat split; [unfold n; lia|].
        destruct (lookup_lt_is_Some_2 (lines (body d)) t) as [x Hx]; [done|].
        rewrite (copy_line_spec _ _ x); simpl; [|unfold counted; simpl; by rewrite ?Hb|by rewrite ?Hb|].
        -- rewrite take_take, Nat.min_id. f_equal. by rewrite (nth_lookup_Some _ _ _ _ Hx).
        -- unfold SSH_CHATTER_MAX_INPUT_LEN. lia.
      * unfold counted; simpl; rewrite Hb. repeat split; unfold n; lia.
Qed.

(** ** What the operations do to the lines *)

(** The bytes still free in a draft of these lines. *)
Definition room (ls : list bytes) : nat := SSH_CHATTER_BBS_BODY_LEN - 1 - length (join ls).

(** The line break a new line needs. *)
Definition overhead (ls : list bytes) : nat := match ls with [] => 0 | _ => 1 end.

Definition full_of_lines (m : session_editor_mode) (ls : list bytes) : bool :=
  match session_editor_max_lines m with Some n => (n <=? length ls)%nat | None => false end.

(** The operations on the lines; [None] where they refuse. *)
Definition doc_append (m : session_editor_mode) (ls : list bytes) (l : bytes) : option (list bytes) :=
  if (room ls =? 0)%nat || full_of_lines m ls then None
  else Some (ls ++ [take (room ls - overhead ls) l]).

Definition doc_insert (m : session_editor_mode) (ls : list bytes) (i : nat) (l : bytes) : option (list bytes) :=
  if (room ls =? 0)%nat || full_of_lines m ls ||
     (room ls <? length l + overhead ls)%nat && (room ls <=? overhead ls)%nat then None
  else Some (take i ls ++ take (room ls - overhead ls) l :: drop i ls).

Definition doc_replace (ls : list bytes) (i : nat) (l : bytes) : option (list bytes) :=
  match ls !! i with
  | None => None
  | Some x => Some (<[i := take (room ls + length x) l]> ls)
  end.

Definition doc_remove (ls : list bytes) (i j : nat) : option (list bytes) :=
  if (i <? length ls)%nat && (j <? length ls)%nat
  then Some (take (Nat.min i j) ls ++ drop (S (Nat.max i j)) ls) else None.

Definition fits (d : draft) : Prop := (length (body d) <= SSH_CHATTER_BBS_BODY_LEN - 1)%nat.

Lemma capacity_eq m : session_editor_body_capacity m = SSH_CHATTER_BBS_BODY_LEN.
Proof. by destruct m. Qed.

Lemma body_len_big : (4096 < SSH_CHATTER_BBS_BODY_LEN)%nat.
Proof. unfold SSH_CHATTER_BBS_BODY_LEN. lia. Qed.

#[local] Opaque SSH_CHATTER_BBS_BODY_LEN.

Lemma line_limit_spec d : counted d -> at_line_limit d = full_of_lines (editor_mode d) (lines (body d)).
Proof. unfold counted, at_line_limit, full_of_lines. by intros ->. Qed.

Lemma overhead_spec b : overhead (lines b) = (if (0 <? length b)%nat then 1 else 0)%nat.
Proof.
  destruct b as [|c t]; [done|]. change (overhead (split_lines (c :: t)) = 1%nat).
  pose proof (split_lines_nonempty (c :: t)). by destruct (split_lines (c :: t)).
Qed.

Lemma room_spec d : room (lines (body d)) = (SSH_CHATTER_BBS_BODY_LEN - length (body d) - 1)%nat.
Proof. unfold room. rewrite join_lines. lia. Qed.

Lemma plain_take n l : plain l -> plain (take n l).
Proof. intros Hl H%elem_of_take. destruct H as (i & H & _). apply Hl. by eapply list_elem_of_lookup_2. Qed.

Lemma body_join_app d l : (0 < length (body d))%nat ->
  body d ++ c_lf :: l = join (lines (body d) ++ [l]).
Proof.
  intros Hb. rewrite join_begun.
  - rewrite join_lines. unfold begun. simpl. by rewrite app_nil_r.
  - intros H%lines_nil. rewrite H in Hb. simpl in Hb. lia.
Qed.

(** Refused, with the text as it was. *)
Definition refused (d d' : draft) : Prop := body d' = body d /\ editor_mode d' = editor_mode d.

(** Done, with these lines. *)
Definition made (d d' : draft) (ls : list bytes) : Prop :=
  body d' = join ls /\ editor_mode d' = editor_mode d /\ counted d' /\ fits d'.

Definition outcome (d d' : draft) (ok : bool) (r : option (list bytes)) : Prop :=
  match r with
  | Some ls => ok = true /\ made d d' ls
  | None => ok = false /\ refused d d'
  end.

Lemma refused_recalc d : refused d (session_bbs_recalculate_line_count d).
Proof. split; [apply recalc_body|apply recalc_mode]. Qed.

#[local] Hint Resolve refused_recalc : core.

Lemma refused_refl d : refused d d.
Proof. done. Qed.

#[local] Hint Resolve refused_refl : core.

Lemma append_line_spec d l d' ok st : fits d ->
  session_bbs_append_line d l = (d', ok, st) ->
  outcome d d' ok (doc_append (editor_mode d) (lines (body d)) l) /\
  (ok = true -> cursor_line d' = length (lines (body d')) /\ editing_line d' = false /\ input d' = []).
Proof.
  intros Hf. unfold session_bbs_append_line. rewrite capacity_eq.
  pose proof body_len_big as Hbig. cbv zeta. rewrite line_limit_spec by apply recalc_counted.
  rewrite !recalc_body, recalc_mode. unfold doc_append. rewrite room_spec, overhead_spec.
  unfold fits in Hf.
  destruct (Nat.eqb_spec SSH_CHATTER_BBS_BODY_LEN 0); [lia|].
  destruct (Nat.leb_spec (SSH_CHATTER_BBS_BODY_LEN - 1) (length (body d))).
  { intros [= <- <- <-]. replace (SSH_CHATTER_BBS_BODY_LEN - length (body d) - 1)%nat with 0%nat by lia. by split. }
  destruct (Nat.eqb_spec (SSH_CHATTER_BBS_BODY_LEN - length (body d) - 1) 0) as [|_]; [lia|]. rewrite orb_false_l.
  destruct (full_of_lines _ _). { intros [= <- <- <-]. by split. }
  set (sp := if (0 <? length (body d))%nat then (SSH_CHATTER_BBS_BODY_LEN - length (body d) - 1 - 1)%nat
             else (SSH_CHATTER_BBS_BODY_LEN - length (body d) - 1)%nat).
  replace (SSH_CHATTER_BBS_BODY_LEN - length (body d) - 1 - (if (0 <? length (body d))%nat then 1 else 0))%nat with sp
    by (unfold sp; destruct (0 <? _)%nat; lia).
  assert ((if (0 <? length (body d))%nat then body d ++ [c_lf] else body d) ++ take sp l =
          join (lines (body d) ++ [take sp l])) as Hj.
  { destruct (Nat.ltb_spec 0 (length (body d))) as [Hb|Hb].
    - rewrite <- app_assoc. by apply body_join_app.
    - destruct (body d); [|simpl in Hb; lia]. simpl. by rewrite app_nil_r. }
  assert (length ((if (0 <? length (body d))%nat then body d ++ [c_lf] else body d) ++ take sp l) <= SSH_CHATTER_BBS_BODY_LEN - 1)%nat
    as Hlen.
  { unfold sp. destruct (0 <? length (body d))%nat; rewrite !length_app, length_take; simpl; lia. }
  rewrite Hj in Hlen.
  assert (forall st', (session_bbs_set_cursor (session_bbs_recalculate_line_count (with_body
            (session_bbs_recalculate_line_count d) (join (lines (body d) ++ [take sp l]))))
            (line_count (session_bbs_recalculate_line_count (with_body
            (session_bbs_recalculate_line_count d) (join (lines (body d) ++ [take sp l]))))) false, true, st') =
          (d', ok, st) ->
          outcome d d' ok (Some (lines (body d) ++ [take sp l])) /\
          (ok = true -> cursor_line d' = length (lines (body d')) /\ editing_line d' = false /\ input d' = [])) as Hdone.
  { intros st' [= <- <- _]. set (d1 := with_body _ _). set (r := session_bbs_recalculate_line_count d1).
    destruct (set_cursor_spec r (line_count r) false) as (Hc & Hcu & He & Hi).
    assert (body r = join (lines (body d) ++ [take sp l])) as Hbr by (unfold r; by rewrite recalc_body).
    assert (counted r) as Hcr by apply recalc_counted.
    split; [split; [done|]; unfold made, fits; rewrite set_cursor_body, set_cursor_mode|].
    - rewrite Hbr. split; [done|]. split; [unfold r; rewrite recalc_mode; simpl; apply recalc_mode|].
      split; [done|exact Hlen].
    - intros _. rewrite Hcu, He, Hi, set_cursor_body. unfold counted in Hcr. rewrite Hcr, Nat.min_id. done. }
  destruct (Nat.ltb_spec sp (length l)); cbv iota beta.
  - rewrite Hj. apply Hdone.
  - rewrite <- (take_ge l sp) at 1 2 by lia. rewrite Hj. apply Hdone.
Qed.

Lemma made_recalc d d0 b ls : editor_mode d0 = editor_mode d -> b = join ls ->
  (length b <= SSH_CHATTER_BBS_BODY_LEN - 1)%nat ->
  made d (session_bbs_recalculate_line_count (with_body d0 b)) ls.
Proof.
  intros Hm -> Hl. unfold made, fits. rewrite recalc_body, recalc_mode.
  split; [done|]. split; [done|]. split; [apply recalc_counted|done].
Qed.

(** Where a line is inserted: its offset in the text and what goes in. *)
Lemma insert_at d i l : counted d -> (i <= length (lines (body d)))%nat ->
  let ls := lines (body d) in
  exists offset,
    (if (i <? length ls)%nat then option_map fst (session_bbs_get_line_range d i)
     else Some (length (body d))) = Some offset /\
    splice (body d) offset 0
      ((if (i =? length ls)%nat && (0 <? length (body d))%nat then [c_lf] else []) ++ l ++
       (if (i <? length ls)%nat then [c_lf] else [])) = join (take i ls ++ l :: drop i ls) /\
    (length (if (i =? length ls)%nat && (0 <? length (body d))%nat then [c_lf] else []) +
     length (if (i <? length ls)%nat then [c_lf] else []) = overhead ls)%nat.
Proof.
  intros Hc Hi. cbv zeta. destruct (Nat.ltb_spec i (length (lines (body d)))) as [Hlt|Hge].
  - destruct (lookup_lt_is_Some_2 _ _ Hlt) as [x Hx].
    apply line_at in Hx as (l1 & l2 & Hl & Hil & Ht & _).
    pose proof (line_range_spec d l1 x l2 Hc Hl) as Hr. rewrite Hil in Hr. rewrite Hr. simpl.
    eexists. split; [done|].
    destruct (Nat.eqb_spec i (length (lines (body d)))) as [|_]; [lia|]. cbn [andb app length].
    split; [|rewrite Hl; by destruct l1].
    rewrite Ht. replace (drop i (lines (body d))) with (x :: l2).
    2: { by rewrite Hl, <- Hil, drop_app_length. }
    apply lines_split in Hl as (Hb & _). rewrite Hb, join_split_at, begun_cons.
    pose proof (splice_middle (ended l1) [] (x ++ begun l2) (l ++ [c_lf])) as Hs. cbn [app length] in Hs.
    rewrite Hs, <- !app_assoc. done.
  - assert (i = length (lines (body d))) as -> by lia. rewrite Nat.eqb_refl. cbn [andb].
    eexists. split; [done|]. rewrite firstn_all, drop_all, app_nil_r.
    pose proof (splice_middle (body d) [] []) as Hs. cbn [length app] in Hs. rewrite !app_nil_r in Hs.
    rewrite Hs. rewrite overhead_spec. destruct (Nat.ltb_spec 0 (length (body d))) as [Hb|Hb].
    + split; [|done]. cbn [app]. by rewrite app_nil_r, body_join_app.
    + destruct (body d); [|simpl in Hb; lia]. simpl. by rewrite !app_nil_r.
Qed.

Lemma insert_line_spec d i l d' ok st : fits d ->
  session_bbs_insert_line d i l = (d', ok, st) ->
  outcome d d' ok (doc_insert (editor_mode d) (lines (body d)) (Nat.min i (length (lines (body d)))) l).
Proof.
  intros Hf. unfold session_bbs_insert_line. cbv zeta. rewrite capacity_eq.
  pose proof body_len_big as Hbig. rewrite line_limit_spec by apply recalc_counted.
  pose proof (recalc_counted d) as Hc. pose proof (recalc_mode d) as Hm.
  assert (refused d (session_bbs_recalculate_line_count d)) as Hr by done.
  rewrite Hm. unfold counted in Hc. rewrite Hc.
  pose proof (insert_at (session_bbs_recalculate_line_count d)
                (Nat.min i (length (lines (body d))))) as Hat.
  rewrite recalc_body in *. set (r := session_bbs_recalculate_line_count d) in *.
  unfold doc_insert. rewrite room_spec. set (ls := lines (body d)) in *.
  destruct (full_of_lines _ _). { rewrite orb_true_r, orb_true_l. by intros [= <- <- <-]. }
  rewrite orb_false_r. destruct (Nat.eqb_spec SSH_CHATTER_BBS_BODY_LEN 0); [lia|].
  replace (if (length ls <? i)%nat then length ls else i) with (Nat.min i (length ls))
    by (destruct (Nat.ltb_spec (length ls) i); lia).
  set (k := Nat.min i (length ls)) in *. set (space := (SSH_CHATTER_BBS_BODY_LEN - length (body d) - 1)%nat).
  destruct (Nat.eqb_spec space 0) as [|Hsp]. { by intros [= <- <- <-]. }
  assert (forall w, exists offset,
    (if (k <? length ls)%nat then option_map fst (session_bbs_get_line_range r k)
     else Some (length (body d))) = Some offset /\
    splice (body d) offset 0 ((if (k =? length ls)%nat && (0 <? length (body d))%nat then [c_lf] else []) ++ w ++
        (if (k <? length ls)%nat then [c_lf] else [])) = join (take k ls ++ w :: drop k ls) /\
    (length (if (k =? length ls)%nat && (0 <? length (body d))%nat then [c_lf] else []) +
     length (if (k <? length ls)%nat then [c_lf] else []) = overhead ls)%nat) as Hat'.
  { intros w. apply (Hat w); [unfold counted, r; by rewrite recalc_body|unfold k; lia]. }
  assert (overhead ls <= 1)%nat as Ho by (unfold overhead; destruct ls; lia).
  assert (forall w offset, length w + overhead ls <= space ->
    splice (body d) offset 0 ((if (k =? length ls)%nat && (0 <? length (body d))%nat then [c_lf] else []) ++ w ++
        (if (k <? length ls)%nat then [c_lf] else [])) = join (take k ls ++ w :: drop k ls) ->
    (length (if (k =? length ls)%nat && (0 <? length (body d))%nat then [c_lf] else []) +
     length (if (k <? length ls)%nat then [c_lf] else []) = overhead ls)%nat ->
    made d (session_bbs_recalculate_line_count (with_body r (splice (body d) offset 0
       ((if (k =? length ls)%nat && (0 <? length (body d))%nat then [c_lf] else []) ++ w ++
        (if (k <? length ls)%nat then [c_lf] else []))))) (take k ls ++ w :: drop k ls))%nat as Hmade.
  { intros w offset Hw Hs Hov. apply made_recalc; [done|done|].
    unfold splice. rewrite Nat.add_0_r, app_assoc, (length_app _ (drop _ _)), !length_app.
    rewrite length_take, length_drop. unfold fits in Hf. lia. }
  destruct (Hat' (take (space - overhead ls) l)) as (offset & Hoff & Hs & Hov). rewrite Hoff, Hov.
  destruct (Nat.ltb_spec space (length l + overhead ls)) as [Hlt|Hge].
  - destruct (Nat.leb_spec space (overhead ls)); [by intros [= <- <- <-]|].
    intros [= <- <- <-]. split; [done|]. apply Hmade; [|done|done]. rewrite length_take. lia.
  - rewrite (take_ge l) in Hs |- * by lia. intros [= <- <- <-]. split; [done|]. by apply Hmade.
Qed.

Lemma replace_at d i x : counted d -> lines (body d) !! i = Some x ->
  exists start, session_bbs_get_line_range d i = Some (start, length x) /\
    forall new, splice (body d) start (length x) new = join (<[i := new]> (lines (body d))).
Proof.
  intros Hc Hx. apply line_at in Hx as (l1 & l2 & Hl & <- & _).
  exists (length (ended l1)). split; [by apply (line_range_spec d l1 x l2)|]. intros new.
  rewrite Hl, insert_app_r_alt, Nat.sub_diag by lia. cbn [insert list_insert].
  rewrite join_split_at. apply lines_split in Hl as (-> & _). apply splice_middle.
Qed.

Lemma line_length b i x : lines b !! i = Some x -> (length x <= length b)%nat.
Proof.
  intros Hx. apply line_at in Hx as (l1 & l2 & Hl & _). apply lines_split in Hl as (-> & _).
  rewrite !length_app. lia.
Qed.

Lemma max_allowed_spec d n : fits d -> (n <= length (body d))%nat ->
  max_allowed d n = (room (lines (body d)) + n)%nat.
Proof.
  intros Hf Hn. unfold max_allowed, fits in *. rewrite capacity_eq, room_spec. cbv zeta.
  destruct (Nat.ltb_spec (length (body d) - n) (SSH_CHATTER_BBS_BODY_LEN - 1)); lia.
Qed.

Lemma splice_length b start old new : (start + old <= length b)%nat ->
  length (splice b start old new) = (length b - old + length new)%nat.
Proof. intros H. unfold splice. rewrite !length_app, length_take, length_drop. lia. Qed.

Lemma range_bound d i start n : session_bbs_get_line_range d i = Some (start, n) ->
  (start + n <= length (body d))%nat.
Proof.
  unfold session_bbs_get_line_range. destruct (_ <=? _)%nat; [done|].
  destruct (skip_lines _ _ _) as [off|]; [|done].
  destruct (Nat.ltb_spec (length (body d)) off) as [|Hoff]; [done|]. intros [= <- <-].
  destruct (memchr (drop off (body d)) c_lf) as [k|] eqn:E; [|lia].
  assert (k < length (drop off (body d)))%nat.
  { clear Hoff. revert k E. generalize (drop off (body d)) as s.
    induction s as [|c s IH]; intros k; simpl; [done|].
    destruct (c =? c_lf); [intros [= <-]; lia|]. destruct (memchr s c_lf) as [j|]; [|done].
    intros [= <-]. specialize (IH j eq_refl). lia. }
  rewrite length_drop in *. lia.
Qed.

(** Putting [new], cut to what is left, in place of the line [i]. *)
Lemma replaced_made d d0 i x start new : fits d0 -> counted d0 -> editor_mode d0 = editor_mode d ->
  body d0 = body d -> lines (body d) !! i = Some x ->
  session_bbs_get_line_range d0 i = Some (start, length x) ->
  (forall w, splice (body d0) start (length x) w = join (<[i := w]> (lines (body d)))) ->
  made d (session_bbs_recalculate_line_count
            (with_body d0 (splice (body d0) start (length x) (take (max_allowed d0 (length x)) new))))
       (<[i := take (room (lines (body d)) + length x) new]> (lines (body d))).
Proof.
  intros Hf Hc Hm Hb Hx Hr Hs. pose proof (line_length _ _ _ Hx) as Hle.
  rewrite max_allowed_spec, Hb by (rewrite ?Hb; done). rewrite <- Hb at 1. rewrite Hb at 1.
  apply made_recalc; [done|rewrite <- Hb at 1; apply Hs|].
  apply range_bound in Hr. rewrite Hb in Hr. rewrite splice_length by done.
  rewrite length_take, room_spec. unfold fits in Hf. rewrite Hb in Hf. lia.
Qed.

Lemma fits_recalc d : fits d -> fits (session_bbs_recalculate_line_count d).
Proof. unfold fits. by rewrite recalc_body. Qed.

Lemma replace_line_spec d i l d' ok st : fits d ->
  session_bbs_replace_line d i l = (d', ok, st) ->
  outcome d d' ok (doc_replace (lines (body d)) i l) /\
  (ok = true -> cursor_line d' = Nat.min (S i) (length (lines (body d'))) /\
     editing_line d' = false /\ input d' = []).
Proof.
  intros Hf. unfold session_bbs_replace_line. cbv zeta. rewrite capacity_eq.
  pose proof body_len_big as Hbig. pose proof (recalc_counted d) as Hc.
  pose proof (recalc_body d) as Hb. pose proof (recalc_mode d) as Hm.
  pose proof (fits_recalc d Hf) as Hf'. assert (refused d (session_bbs_recalculate_line_count d)) by done.
  set (r := session_bbs_recalculate_line_count d) in *.
  replace (line_count r) with (length (lines (body d))) by (unfold counted in Hc; by rewrite Hc, Hb).
  unfold doc_replace. destruct (Nat.leb_spec (length (lines (body d))) i) as [Hge|Hlt].
  { intros [= <- <- <-]. rewrite (lookup_ge_None_2 _ _ Hge). by split. }
  destruct (lookup_lt_is_Some_2 _ _ Hlt) as [x Hx]. rewrite Hx.
  destruct (replace_at r i x Hc) as (start & Hr & Hs); [by rewrite Hb|]. rewrite Hr.
  destruct (Nat.eqb_spec SSH_CHATTER_BBS_BODY_LEN 0); [lia|].
  assert (forall w, splice (body r) start (length x) w = join (<[i := w]> (lines (body d)))) as Hs'
    by (intros w; rewrite Hs; by rewrite Hb).
  pose proof (replaced_made d r i x start l Hf' Hc Hm Hb Hx Hr Hs') as Hmade.
  set (a := max_allowed r (length x)) in *.
  set (done := session_bbs_recalculate_line_count _) in Hmade.
  assert (forall st' t, (session_bbs_set_cursor done t false, true, st') = (d', ok, st) ->
    t = Nat.min (S i) (line_count done) ->
    outcome d d' ok (Some (<[i:=take (room (lines (body d)) + length x) l]> (lines (body d)))) /\
    (ok = true -> cursor_line d' = Nat.min (S i) (length (lines (body d'))) /\
     editing_line d' = false /\ input d' = [])) as Hdone.
  { intros st' t [= <- <- _] Ht. destruct (set_cursor_spec done t false) as (Hc' & Hcu & He & Hi).
    destruct Hmade as (Hmb & Hmm & Hmc & Hmf).
    split; [split; [reflexivity|]; unfold made, fits; rewrite set_cursor_body, set_cursor_mode|].
    - by repeat split.
    - intros _. rewrite Hcu, He, Hi, set_cursor_body. unfold counted in Hmc. split; [|done].
      subst t. lia. }
  assert (forall st', ((if (i + 1 <=? line_count done)%nat then (session_bbs_set_cursor done (i + 1) false, true, st')
     else (session_bbs_set_cursor done (line_count done) false, true, st')) = (d', ok, st)) ->
    outcome d d' ok (Some (<[i:=take (room (lines (body d)) + length x) l]> (lines (body d)))) /\
    (ok = true -> cursor_line d' = Nat.min (S i) (length (lines (body d'))) /\
     editing_line d' = false /\ input d' = [])) as Hfin.
  { intros st'. destruct (Nat.leb_spec (i + 1) (line_count done)); intros He; apply (Hdone _ _ He); lia. }
  destruct (Nat.ltb_spec a (length l)) as [Hal|Hal]; [apply Hfin|].
  unfold done in Hfin. rewrite take_ge in Hfin by lia. apply Hfin.
Qed.

(** Saving the edited line, where it stands. *)
Lemma commit_spec d : fits d -> counted d -> (editing_line d = true -> (cursor_line d < line_count d)%nat) ->
  let d' := session_bbs_commit_edit_in_place d in
  if editing_line d then
    exists x, lines (body d) !! cursor_line d = Some x /\
      made d d' (<[cursor_line d := take (room (lines (body d)) + length x) (input d)]> (lines (body d)))
  else d' = d.
Proof.
  intros Hf Hc Hcur. unfold session_bbs_commit_edit_in_place. destruct (editing_line d) eqn:He; [|done].
  specialize (Hcur eq_refl). cbn [negb]. cbv zeta. rewrite recalc_id by (done || lia).
  destruct (Nat.leb_spec (line_count d) (cursor_line d)); [lia|].
  unfold counted in Hc. rewrite Hc in Hcur. destruct (lookup_lt_is_Some_2 _ _ Hcur) as [x Hx].
  exists x. split; [done|]. destruct (replace_at d _ x Hc Hx) as (start & Hr & Hs). rewrite Hr.
  by apply (replaced_made d d _ x).
Qed.

(** Lines [a] to [b] as the middle of the list. *)
Lemma range_split {A} (ls : list A) a b : (a <= b)%nat -> (b < length ls)%nat ->
  exists l1 m y l2, ls = l1 ++ m ++ y :: l2 /\ length l1 = a /\ (a + length m = b)%nat /\
    take a ls = l1 /\ drop (S b) ls = l2.
Proof.
  intros Hab Hb. destruct (lookup_lt_is_Some_2 _ _ Hb) as [y Hy].
  exists (take a ls), (drop a (take b ls)), y, (drop (S b) ls).
  rewrite length_drop, !length_take. split; [|split_and!; lia || done].
  rewrite <- (take_drop_middle ls b y Hy) at 1. rewrite <- (take_drop a (take b ls)) at 1.
  rewrite take_take, Nat.min_l by lia. by rewrite <- app_assoc.
Qed.

(** The bytes the removal takes out of the text. *)
Lemma removed_bytes d l1 m y l2 : lines (body d) = l1 ++ m ++ y :: l2 ->
  let start_offset := length (ended l1) in
  let end_offset := length (ended (l1 ++ m)) in
  let '(remove_start, remove_end) :=
    if (length (l1 ++ m) <? length (lines (body d)) - 1)%nat
    then (start_offset, (end_offset + length y + 1)%nat)
    else if (0 <? length l1)%nat then ((start_offset - 1)%nat, (end_offset + length y)%nat)
    else (start_offset, (end_offset + length y)%nat) in
  (remove_start <= remove_end <= length (body d))%nat /\
  splice (body d) remove_start (remove_end - remove_start) [] = join (l1 ++ l2).
Proof.
  intros Hl. cbv zeta. rewrite Hl. pose proof Hl as Hl'. rewrite app_assoc in Hl'.
  apply lines_split in Hl' as (Hb & _). rewrite Hb, !ended_app, !length_app. cbn [length].
  destruct l2 as [|z l2].
  - cbn [length]. destruct (Nat.ltb_spec (length l1 + length m) (length l1 + (length m + 1) - 1)); [lia|].
    rewrite app_nil_r. destruct l1 as [|x l1].
    + destruct (Nat.ltb_spec 0 (length (@nil bytes))) as [Hz|_]; [simpl in Hz; lia|].
      change (ended []) with (@nil Z). cbn [app length join].
      split; [unfold begun; simpl; lia|]. change (begun []) with (@nil Z).
      pose proof (splice_middle [] (ended m ++ y) [] []) as Hs. cbn [app length] in Hs.
      rewrite !app_nil_r, length_app in Hs. rewrite ?app_nil_r. by rewrite Nat.add_0_l, Nat.sub_0_r.
    + destruct (Nat.ltb_spec 0 (length (x :: l1))) as [_|Hz]; [|simpl in Hz; lia].
      rewrite (ended_join (x :: l1)) by done. rewrite length_app. cbn [length].
      change (begun []) with (@nil Z). rewrite app_nil_r. split; [rewrite ?length_app; simpl; lia|].
      pose proof (splice_middle (join (x :: l1)) (c_lf :: ended m ++ y) [] []) as Hs.
      rewrite !app_nil_r in Hs. cbn [length] in Hs. rewrite length_app in Hs.
      rewrite <- !app_assoc. cbn [app].
      replace (length (join (x :: l1)) + 1 - 1)%nat with (length (join (x :: l1))) by lia.
      replace (length (join (x :: l1)) + 1 + length (ended m) + length y - length (join (x :: l1)))%nat
        with (S (length (ended m) + length y)) by lia. exact Hs.
  - cbn [length].
    destruct (Nat.ltb_spec (length l1 + length m) (length l1 + (length m + S (S (length l2))) - 1)); [|lia].
    rewrite begun_cons. cbn [length]. rewrite !length_app. split; [lia|].
    pose proof (splice_middle (ended l1) (ended m ++ y ++ [c_lf]) (join (z :: l2)) []) as Hs.
    rewrite !length_app in Hs. cbn [length] in Hs.
    rewrite join_ended. rewrite <- !app_assoc in Hs |- *. cbn [app] in Hs |- *.
    replace (length (ended l1) + length (ended m) + length y + 1 - length (ended l1))%nat
      with (length (ended m) + (length y + 1))%nat by lia.
    rewrite <- (app_assoc y) in Hs. exact Hs.
Qed.

Lemma remove_range_spec d i j d' ok st : fits d ->
  session_bbs_remove_line_range d i j = (d', ok, st) ->
  outcome d d' ok (doc_remove (lines (body d)) i j).
Proof.
  intros Hf. unfold session_bbs_remove_line_range. cbv zeta. pose proof (recalc_counted d) as Hc.
  pose proof (recalc_body d) as Hb. pose proof (recalc_mode d) as Hm.
  pose proof (fits_recalc d Hf) as Hf'. assert (refused d (session_bbs_recalculate_line_count d)) by done.
  set (r := session_bbs_recalculate_line_count d) in *. pose proof Hc as Hn. unfold counted in Hn.
  rewrite Hn. unfold doc_remove. rewrite <- Hb. set (n := length (lines (body r))) in *.
  destruct (Nat.ltb_spec i n) as [Hi|Hi].
  2: { destruct (Nat.leb_spec n i); [|lia]. rewrite orb_true_r, orb_true_l. by intros [= <- <- <-]. }
  destruct (Nat.ltb_spec j n) as [Hj|Hj].
  2: { destruct (Nat.leb_spec n j); [|lia]. rewrite orb_true_r. by intros [= <- <- <-]. }
  destruct (Nat.eqb_spec n 0); [lia|]. destruct (Nat.leb_spec n i); [lia|].
  destruct (Nat.leb_spec n j); [lia|]. cbn [andb orb].
  replace (if (j <? i)%nat then (j, i) else (i, j)) with (Nat.min i j, Nat.max i j)
    by (destruct (Nat.ltb_spec j i); f_equal; lia).
  destruct (range_split (lines (body r)) (Nat.min i j) (Nat.max i j))
    as (l1 & m & y & l2 & Hl & Hl1 & Hm1 & Ht & Hd); [lia|unfold n in *; lia|].
  rewrite Ht, Hd. rewrite <- Hm1, <- Hl1.
  assert (exists x r2, lines (body r) = l1 ++ x :: r2) as (x & r2 & Hx).
  { rewrite Hl. destruct m as [|x m]; eexists _, _; done. }
  rewrite (line_range_spec r l1 x r2) by done.
  rewrite <- length_app. rewrite (line_range_spec r (l1 ++ m) y l2) by (rewrite <- ?app_assoc; done).
  pose proof (removed_bytes r l1 m y l2 Hl) as Hrem. cbv zeta in Hrem. fold n in Hrem.
  destruct (if (length (l1 ++ m) <? n - 1)%nat
            then (length (ended l1), (length (ended (l1 ++ m)) + length y + 1)%nat)
            else if (0 <? length l1)%nat then ((length (ended l1) - 1)%nat, (length (ended (l1 ++ m)) + length y)%nat)
            else (length (ended l1), (length (ended (l1 ++ m)) + length y)%nat)) as [from to].
  destruct Hrem as [Hle Hs]. destruct (Nat.ltb_spec (length (body r)) to); [lia|].
  intros [= <- <- <-]. split; [done|]. apply made_recalc; [done|done|].
  rewrite splice_length by lia. unfold fits in Hf'. simpl. lia.
Qed.

(** *** The draft implements a list of lines *)

Inductive edit :=
  | EditAppend (l : bytes)
  | EditInsert (i : nat) (l : bytes)
  | EditReplace (i : nat) (l : bytes)
  | EditRemove (i j : nat).

(** The text of an edit is a line. *)
Definition edit_ok (op : edit) : Prop :=
  match op with
  | EditAppend l | EditInsert _ l | EditReplace _ l => plain l
  | EditRemove _ _ => True
  end.

Definition run_edit (d : draft) (op : edit) : draft * bool :=
  match op with
  | EditAppend l => fst (session_bbs_append_line d l)
  | EditInsert i l => fst (session_bbs_insert_line d i l)
  | EditReplace i l => fst (session_bbs_replace_line d i l)
  | EditRemove i j => fst (session_bbs_remove_line_range d i j)
  end.

Definition doc_edit (m : session_editor_mode) (ls : list bytes) (op : edit) : option (list bytes) :=
  match op with
  | EditAppend l => doc_append m ls l
  | EditInsert i l => doc_insert m ls (Nat.min i (length ls)) l
  | EditReplace i l => doc_replace ls i l
  | EditRemove i j => doc_remove ls i j
  end.

(** A run of edits: the final state and which edits were done. *)
Fixpoint run_edits (d : draft) (ops : list edit) : draft * list bool :=
  match ops with
  | [] => (d, [])
  | op :: ops =>
      let '(d, ok) := run_edit d op in
      let '(d, oks) := run_edits d ops in (d, ok :: oks)
  end.

Fixpoint doc_edits (m : session_editor_mode) (ls : list bytes) (ops : list edit) : list bytes * list bool :=
  match ops with
  | [] => (ls, [])
  | op :: ops =>
      let '(ls, ok) :=
        match doc_edit m ls op with Some ls' => (canon ls', true) | None => (ls, false) end in
      let '(ls, oks) := doc_edits m ls ops in (ls, ok :: oks)
  end.

Lemma doc_edit_plain m ls op ls' : Forall plain ls -> edit_ok op -> doc_edit m ls op = Some ls' ->
  Forall plain ls'.
Proof.
  intros Hls Hop. destruct op as [l|i l|i l|i j]; simpl in *.
  - unfold doc_append. destruct (_ || _); [done|]. intros [= <-].
    apply Forall_app. split; [done|]. by apply Forall_singleton, plain_take.
  - unfold doc_insert. destruct (_ || _); [done|]. intros [= <-].
    apply Forall_app. split; [by apply Forall_take|]. constructor; [by apply plain_take|by apply Forall_drop].
  - unfold doc_replace. destruct (ls !! i); [|done]. intros [= <-].
    apply Forall_insert; [done|by apply plain_take].
  - unfold doc_remove. destruct (_ && _); [|done]. intros [= <-].
    apply Forall_app. split; [by apply Forall_take|by apply Forall_drop].
Qed.

Lemma run_edit_spec d op d' ok : fits d -> run_edit d op = (d', ok) ->
  outcome d d' ok (doc_edit (editor_mode d) (lines (body d)) op).
Proof.
  intros Hf. destruct op as [l|i l|i l|i j]; simpl.
  - destruct (session_bbs_append_line d l) as [[d1 ok1] st] eqn:E. intros [= <- <-].
    by apply append_line_spec in E as [? _].
  - destruct (session_bbs_insert_line d i l) as [[d1 ok1] st] eqn:E. intros [= <- <-].
    by apply insert_line_spec in E.
  - destruct (session_bbs_replace_line d i l) as [[d1 ok1] st] eqn:E. intros [= <- <-].
    by apply replace_line_spec in E as [? _].
  - destruct (session_bbs_remove_line_range d i j) as [[d1 ok1] st] eqn:E. intros [= <- <-].
    by apply remove_range_spec in E.
Qed.

(** C6: the byte buffer with its offsets implements a list of lines: any run of
    appending, inserting, replacing and removing changes the lines and reports
    success as the list operations do, which cut a line to the room left and
    refuse when the text or the number of lines is full; one empty line counts
    as none, and the text never outgrows its buffer. *)
Theorem draft_refines d ops : fits d -> Forall edit_ok ops ->
  let '(d', oks) := run_edits d ops in
  (lines (body d'), oks) = doc_edits (editor_mode d) (lines (body d)) ops /\ fits d'.
Proof.
  intros Hf Hops. revert d Hf; induction Hops as [|op ops Hop _ IH]; intros d Hf; [done|]. simpl.
  destruct (run_edit d op) as [d1 ok] eqn:E. apply run_edit_spec in E; [|done].
  destruct (doc_edit (editor_mode d) (lines (body d)) op) as [ls|] eqn:Ed.
  - destruct E as [-> (Hb & Hm & _ & Hf1)]. specialize (IH d1 Hf1).
    apply doc_edit_plain in Ed; [|apply lines_plain|done].
    rewrite Hm, Hb, lines_join in IH by done. destruct (run_edits d1 ops) as [d2 oks].
    destruct IH as [IH Hf2]. destruct (doc_edits _ (canon ls) ops) as [ls' oks'].
    split; [congruence|done].
  - destruct E as [-> [Hb Hm]]. assert (fits d1) as Hf1 by (unfold fits; by rewrite Hb).
    specialize (IH d1 Hf1). rewrite Hm, Hb in IH. destruct (run_edits d1 ops) as [d2 oks].
    destruct IH as [IH Hf2]. destruct (doc_edits _ (lines (body d)) ops) as [ls' oks'].
    split; [congruence|done].
Qed.

(** ** The editor stays well formed *)

Record draft_ok (d : draft) : Prop := {
  d_fits : fits d;
  d_counted : counted d;
  d_cursor : (cursor_line d <= line_count d)%nat;
  d_editing : editing_line d = true -> (cursor_line d < line_count d)%nat;
  d_input : (length (input d) <= SSH_CHATTER_MAX_INPUT_LEN - 1)%nat;
  d_plain : plain (input d)
}.

(** The selection starts at a line there is, or at the first. *)
Record editor_ok (e : editor) : Prop := {
  e_draft : draft_ok (dr e);
  e_length : clipboard_length e = length (clipboard e);
  e_clipboard : (length (clipboard e) <= SSH_CHATTER_BBS_BODY_LEN - 1)%nat;
  e_selection : selection_start_set e = true ->
    (selection_start e < Nat.max 1 (length (lines (body (dr e)))))%nat
}.

(** The lines of [d'] are not fewer, but that a last empty one is none. *)
Definition grows (d d' : draft) : Prop :=
  (Nat.max 1 (length (lines (body d))) <= Nat.max 1 (length (lines (body d'))))%nat.

Lemma grows_refl d : grows d d.
Proof. unfold grows. lia. Qed.

Lemma grows_body d d' : body d' = body d -> grows d d'.
Proof. unfold grows. intros ->. lia. Qed.

Lemma grows_trans d d' d'' : grows d d' -> grows d' d'' -> grows d d''.
Proof. unfold grows. lia. Qed.

Lemma canon_length ls : Nat.max 1 (length (canon ls)) = Nat.max 1 (length ls).
Proof. destruct ls as [|[|c l] [|y ls]]; done. Qed.

Lemma made_grows d d' ls : made d d' ls -> Forall plain ls -> (length (lines (body d)) <= length ls)%nat ->
  grows d d'.
Proof.
  intros (Hb & _) Hp Hl. unfold grows. rewrite Hb, lines_join, canon_length by done. lia.
Qed.

Lemma set_cursor_ok d t e : fits d -> draft_ok (session_bbs_set_cursor d t e).
Proof.
  intros Hf. destruct (set_cursor_spec d t e) as (Hc & Hcu & He & Hi).
  set (d' := session_bbs_set_cursor d t e) in *. pose proof Hc as Hn. unfold counted in Hn.
  assert (body d' = body d) as Hb by apply set_cursor_body. rewrite Hb in Hn.
  constructor; [unfold fits; by rewrite Hb|done|lia| | |].
  - rewrite He. intros [_ Ht%Nat.ltb_lt]%andb_true_iff. lia.
  - rewrite Hi. destruct (e && _); [rewrite length_take|simpl]; lia.
  - rewrite Hi. destruct (e && _); [|apply plain_nil]. apply plain_take.
    destruct (nth_in_or_default t (lines (body d)) []) as [Hin| ->]; [|apply plain_nil].
    pose proof (lines_plain (body d)) as Hp. rewrite List.Forall_forall in Hp. by apply Hp.
Qed.

Lemma recalc_draft_ok d : draft_ok d -> session_bbs_recalculate_line_count d = d.
Proof. intros []. by apply recalc_id. Qed.

Lemma clear_input_ok d : draft_ok d -> draft_ok (session_clear_input d).
Proof. intros [? ? ? ? ? ?]. constructor; simpl; try done; [lia|apply plain_nil]. Qed.

(** More lines under a draft keep it well formed. *)
Lemma more_lines_ok d b : draft_ok d -> (length b <= SSH_CHATTER_BBS_BODY_LEN - 1)%nat ->
  (length (lines (body d)) <= length (lines b))%nat ->
  draft_ok (session_bbs_recalculate_line_count (with_body d b)).
Proof.
  intros [Hf Hc Hcu He Hi Hp] Hb Hl. unfold counted in Hc. rewrite Hc in *.
  unfold session_bbs_recalculate_line_count. cbn [body with_body cursor_line]. rewrite count_lines_spec.
  destruct (Nat.ltb_spec (length (lines b)) (cursor_line d)); [lia|].
  constructor; simpl; try done; try lia. intros H'. specialize (He H'). lia.
Qed.

(** *** What is returned when an operation refuses *)

Definition same_or_recalc (d d' : draft) : Prop := d' = d \/ d' = session_bbs_recalculate_line_count d.

Lemma same_or_recalc_ok d d' : draft_ok d -> same_or_recalc d d' -> d' = d.
Proof. intros Hd [->| ->]; [done|by apply recalc_draft_ok]. Qed.

Ltac refuses := repeat case_match; intros; simplify_eq; first [by left|by right].

Lemma append_refuses d l d' st : session_bbs_append_line d l = (d', false, st) -> same_or_recalc d d'.
Proof. unfold session_bbs_append_line. cbv zeta. refuses. Qed.

Lemma insert_refuses d i l d' st : session_bbs_insert_line d i l = (d', false, st) -> same_or_recalc d d'.
Proof. unfold session_bbs_insert_line. cbv zeta. refuses. Qed.

Lemma replace_refuses d i l d' st : session_bbs_replace_line d i l = (d', false, st) -> same_or_recalc d d'.
Proof. unfold session_bbs_replace_line. cbv zeta. refuses. Qed.

Lemma insert_shape d i l d' st : session_bbs_insert_line d i l = (d', true, st) ->
  exists b, d' = session_bbs_recalculate_line_count (with_body (session_bbs_recalculate_line_count d) b).
Proof.
  unfold session_bbs_insert_line. cbv zeta. repeat case_match; intros; simplify_eq; by eexists.
Qed.

Lemma doc_grows m ls op ls' : doc_edit m ls op = Some ls' ->
  match op with EditRemove _ _ => False | _ => True end -> (length ls <= length ls')%nat.
Proof.
  destruct op as [l|i l|i l|i j]; simpl; intros H Hop; try done.
  - unfold doc_append in H. destruct (_ || _); [done|]. injection H as <-. rewrite length_app. lia.
  - unfold doc_insert in H. destruct (_ || _); [done|]. injection H as <-.
    rewrite length_app. cbn [length]. rewrite length_take, length_drop. lia.
  - unfold doc_replace in H. destruct (ls !! i); [|done]. injection H as <-. by rewrite length_insert.
Qed.

(** Refusing or doing, an edit that is no removal does not lose lines. *)
Lemma outcome_grows d d' ok op : edit_ok op -> match op with EditRemove _ _ => False | _ => True end ->
  outcome d d' ok (doc_edit (editor_mode d) (lines (body d)) op) -> grows d d'.
Proof.
  intros Hop Hk. destruct (doc_edit _ _ op) as [ls|] eqn:E; simpl.
  - intros [_ Hm]. eapply made_grows; [done| |by eapply doc_grows].
    by apply doc_edit_plain in E; [|apply lines_plain|].
  - intros [_ [Hb _]]. by apply grows_body.
Qed.

Lemma append_ok d l d' ok st : draft_ok d -> plain l -> session_bbs_append_line d l = (d', ok, st) ->
  draft_ok d' /\ grows d d'.
Proof.
  intros Hd Hl E. pose proof E as E'. apply append_line_spec in E' as [Ho Hcur]; [|apply Hd].
  split; [|by apply (outcome_grows d d' ok (EditAppend l))].
  destruct ok; [|by apply append_refuses in E as ->%same_or_recalc_ok].
  destruct (Hcur eq_refl) as (Hcu & He & Hi).
  change (doc_append _ _ l) with (doc_edit (editor_mode d) (lines (body d)) (EditAppend l)) in Ho.
  destruct (doc_edit _ _ _) as [ls|]; destruct Ho as [? Ho]; [|done]. destruct Ho as (Hb & Hm & Hc & Hf).
  constructor; [done|done| | | |]; rewrite ?Hi; unfold counted in Hc; simpl; try lia; [congruence|apply plain_nil].
Qed.

Lemma replace_ok d i l d' ok st : draft_ok d -> plain l -> session_bbs_replace_line d i l = (d', ok, st) ->
  draft_ok d' /\ grows d d'.
Proof.
  intros Hd Hl E. pose proof E as E'. apply replace_line_spec in E' as [Ho Hcur]; [|apply Hd].
  split; [|by apply (outcome_grows d d' ok (EditReplace i l))].
  destruct ok; [|by apply replace_refuses in E as ->%same_or_recalc_ok].
  destruct (Hcur eq_refl) as (Hcu & He & Hi).
  destruct (doc_replace _ _ _) as [ls|]; destruct Ho as [? Ho]; [|done]. destruct Ho as (Hb & Hm & Hc & Hf).
  constructor; [done|done| | | |]; rewrite ?Hi; unfold counted in Hc; simpl; try lia; [congruence|apply plain_nil].
Qed.

Lemma doc_insert_length m ls i l ls' : doc_insert m ls i l = Some ls' -> length ls' = S (length ls).
Proof.
  unfold doc_insert. destruct (_ || _); [done|]. intros [= <-].
  rewrite length_app. cbn [length]. rewrite length_take, length_drop. lia.
Qed.

Lemma insert_ok d i l d' ok st : draft_ok d -> plain l -> session_bbs_insert_line d i l = (d', ok, st) ->
  draft_ok d' /\ grows d d'.
Proof.
  intros Hd Hl E. pose proof E as E'. apply insert_line_spec in E' as Ho; [|apply Hd].
  split; [|by apply (outcome_grows d d' ok (EditInsert i l))].
  destruct ok; [|by apply insert_refuses in E as ->%same_or_recalc_ok].
  apply insert_shape in E as [b ->]. rewrite (recalc_draft_ok d Hd) in *.
  destruct (doc_insert _ _ _ _) as [ls|] eqn:Ed; destruct Ho as [? Ho]; [|done].
  pose proof (doc_insert_length _ _ _ _ _ Ed) as Hlen.
  apply (doc_edit_plain _ _ (EditInsert i l)) in Ed; [|apply lines_plain|done].
  destruct Ho as (Hb & _ & _ & Hf). unfold fits in Hf. rewrite recalc_body in Hb, Hf. simpl in Hb, Hf.
  apply more_lines_ok; [done|done|]. rewrite Hb, lines_join by done.
  destruct ls as [|[|c l'] [|y t]]; simpl in *; lia.
Qed.

Lemma commit_ok d : draft_ok d -> plain (input d) ->
  fits (session_bbs_commit_edit_in_place d) /\ grows d (session_bbs_commit_edit_in_place d).
Proof.
  intros Hd Hp. pose proof (commit_spec d (d_fits _ Hd) (d_counted _ Hd) (d_editing _ Hd)) as Hs.
  cbv zeta in Hs. destruct (editing_line d).
  - destruct Hs as (x & Hx & Hm). split; [apply Hm|]. eapply made_grows; [done| |by rewrite length_insert].
    apply Forall_insert; [apply lines_plain|by apply plain_take].
  - rewrite Hs. split; [apply Hd|apply grows_refl].
Qed.



Lemma with_draft_ok e d : editor_ok e -> draft_ok d -> grows (dr e) d -> editor_ok (with_draft e d).
Proof.
  intros [? ? ? Hs] Hd Hg. constructor; simpl; try done. intros H. specialize (Hs H). unfold grows in Hg. lia.
Qed.

Lemma render_ok e : editor_ok e -> editor_ok (session_bbs_render_editor e).
Proof.
  intros He. unfold session_bbs_render_editor, session_bbs_adjust_editor_scroll. cbv zeta.
  assert (forall n, editor_ok (with_scroll (with_draft e (session_bbs_recalculate_line_count (dr e))) n)) as Hs.
  { intros n. rewrite (recalc_draft_ok (dr e)) by apply He. destruct He. by constructor. }
  destruct (_ <=? _)%nat; apply Hs.
Qed.

Lemma line_edit_mode_ok e b : editor_ok e -> editor_ok (with_line_edit_mode e b).
Proof. intros []. by constructor. Qed.

Lemma search_ok e a l ed sc : editor_ok e -> editor_ok (with_search e a l ed sc).
Proof. intros []. by constructor. Qed.

Lemma clear_input_of_ok e : editor_ok e -> editor_ok (clear_input_of e).
Proof.
  intros He. apply with_draft_ok; [done|apply clear_input_ok, He|]. by apply grows_body.
Qed.

Lemma set_cursor_editor_ok e t ed : editor_ok e -> editor_ok (with_draft e (session_bbs_set_cursor (dr e) t ed)).
Proof.
  intros He. apply with_draft_ok; [done|apply set_cursor_ok, He|]. apply grows_body, set_cursor_body.
Qed.

Create HintDb editor.

#[local] Hint Resolve render_ok line_edit_mode_ok search_ok clear_input_of_ok set_cursor_editor_ok
  with_draft_ok : editor.

Lemma move_cursor_ok e up : editor_ok e -> editor_ok (session_bbs_move_cursor e up).
Proof.
  intros He. unfold session_bbs_move_cursor. cbn [dr with_line_edit_mode]. cbv zeta.
  set (d := if editing_line (dr e) then session_bbs_commit_edit_in_place (dr e) else dr e).
  assert (fits d /\ grows (dr e) d) as [Hf Hg].
  { unfold d. destruct (editing_line (dr e)); [apply commit_ok; apply He|].
    split; [apply He|apply grows_refl]. }
  assert (forall t ed, editor_ok (with_draft (with_line_edit_mode e false)
            (session_bbs_set_cursor (session_bbs_recalculate_line_count d) t ed))) as Hset.
  { intros t ed. apply with_draft_ok; [auto with editor|by apply set_cursor_ok, fits_recalc|].
    eapply grows_trans; [exact Hg|]. apply grows_body. rewrite set_cursor_body. apply recalc_body. }
  destruct (_ =? 0)%nat; [auto with editor|].
  destruct (arrow_target _ _ _ _) as [t ed]. auto with editor.
Qed.



(** *** Cutting *)

Lemma copy_lines_go_bound d idx n len buffer copied : (length buffer < len)%nat ->
  (length (fst (copy_lines_go d idx n len buffer copied)) < len)%nat /\
  (copied <= snd (copy_lines_go d idx n len buffer copied))%nat.
Proof.
  revert idx buffer copied; induction n as [|n IH]; intros idx buffer copied Hb; simpl; [done|].
  set (line := session_bbs_copy_line d idx _). set (nl := if (0 <? copied)%nat then [c_lf] else []).
  destruct (Nat.leb_spec len (length buffer + (length line + length nl))); [done|].
  destruct (IH (S idx) (buffer ++ nl ++ line) (S copied)); [rewrite !length_app; lia|]. split; [done|lia].
Qed.

Lemma copy_line_short d i len : (0 < len)%nat -> (length (session_bbs_copy_line d i len) <= len - 1)%nat.
Proof.
  intros Hlen. unfold session_bbs_copy_line. destruct (session_bbs_get_line_range d i) as [[s n]|]; simpl; [|lia].
  rewrite length_take. destruct (Nat.leb_spec len n); lia.
Qed.

(** Some line is copied when there are lines to copy. *)
Lemma copy_range_some d i j d' text n ok : draft_ok d -> (i < line_count d)%nat -> (j < line_count d)%nat ->
  session_bbs_copy_line_range d i j SSH_CHATTER_BBS_BODY_LEN = (d', text, n, ok) ->
  d' = d /\ ok = true /\ (length text <= SSH_CHATTER_BBS_BODY_LEN - 1)%nat /\
  copy_lines_go d (Nat.min i j) (Nat.max i j + 1 - Nat.min i j) SSH_CHATTER_BBS_BODY_LEN [] 0 = (text, n).
Proof.
  intros Hd Hi Hj. unfold session_bbs_copy_line_range. cbv zeta. rewrite recalc_draft_ok by done.
  destruct (Nat.eqb_spec (line_count d) 0); [lia|]. destruct (Nat.leb_spec (line_count d) i); [lia|].
  destruct (Nat.leb_spec (line_count d) j); [lia|]. cbn [orb].
  replace (if (j <? i)%nat then (j, i) else (i, j)) with (Nat.min i j, Nat.max i j)
    by (destruct (Nat.ltb_spec j i); f_equal; lia).
  destruct (copy_lines_go d (Nat.min i j) (Nat.max i j + 1 - Nat.min i j) SSH_CHATTER_BBS_BODY_LEN [] 0)
    as [t k] eqn:E. intros [= <- <- <- <-]. pose proof body_len_big as Hbig.
  pose proof (copy_lines_go_bound d (Nat.min i j) (Nat.max i j + 1 - Nat.min i j)
                SSH_CHATTER_BBS_BODY_LEN [] 0) as Hc.
  rewrite E in Hc. simpl in Hc. destruct Hc as [Hlen _]; [lia|].
  split; [done|]. split; [|split; [lia|done]].
  replace (Nat.max i j + 1 - Nat.min i j)%nat with (S (Nat.max i j - Nat.min i j)) in E by lia.
  simpl in E. pose proof (copy_line_short d (Nat.min i j) SSH_CHATTER_MESSAGE_LIMIT) as Hs.
  unfold SSH_CHATTER_MESSAGE_LIMIT in *.
  destruct (Nat.leb_spec SSH_CHATTER_BBS_BODY_LEN
              (length (session_bbs_copy_line d (Nat.min i j) 4096) + 0)); [lia|].
  match type of E with copy_lines_go ?a ?b ?c ?e ?f ?g = _ =>
    pose proof (copy_lines_go_bound a b c e f g) as Hc' end.
  rewrite E in Hc'. simpl in Hc'. destruct Hc' as [_ Hk]; [lia|]. by apply Nat.ltb_lt.
Qed.

Lemma selection_ok e : editor_ok e -> selection_start_set e = true -> line_count (dr e) <> 0%nat ->
  (selection_start e < line_count (dr e))%nat.
Proof.
  intros [[_ Hc _ _ _ _] _ _ Hs] Hset Hn. specialize (Hs Hset). unfold counted in Hc. lia.
Qed.

(** The cut, when there is a selection to cut. *)
Lemma key_cut_spec e : editor_ok e -> selection_start_set e = true -> line_count (dr e) <> 0%nat ->
  let start := selection_start e in
  let stop := Nat.min (cursor_line (dr e)) (line_count (dr e) - 1) in
  exists text n d st,
    copy_lines_go (dr e) (Nat.min start stop) (Nat.max start stop + 1 - Nat.min start stop)
      SSH_CHATTER_BBS_BODY_LEN [] 0 = (text, n) /\
    (length text <= SSH_CHATTER_BBS_BODY_LEN - 1)%nat /\
    session_bbs_remove_line_range (dr e) start stop = (d, true, st) /\
    key_cut e = session_bbs_render_editor (clear_input_of (with_line_edit_mode (with_selection
      (with_draft (with_clipboard e text (length text) n)
         (session_bbs_set_cursor (session_bbs_recalculate_line_count d)
            (Nat.min start (line_count (session_bbs_recalculate_line_count d))) false))
      start false stop false) false)).
Proof.
  intros He Hset Hn. cbv zeta. set (start := selection_start e).
  set (stop := Nat.min (cursor_line (dr e)) (line_count (dr e) - 1)).
  assert (with_draft e (session_bbs_recalculate_line_count (dr e)) = e) as Hr.
  { rewrite recalc_draft_ok by apply He. by destruct e. }
  pose proof (selection_ok e He Hset Hn) as Hsel. fold start in Hsel.
  assert (stop < line_count (dr e))%nat as Hstop by (unfold stop; lia).
  destruct (session_bbs_copy_line_range (dr e) start stop SSH_CHATTER_BBS_BODY_LEN) as [[[d0 text] n] ok] eqn:Ec.
  apply copy_range_some in Ec as Hc; [|apply He|done|done]. destruct Hc as (-> & -> & Hlen & Hgo).
  destruct (session_bbs_remove_line_range (dr e) start stop) as [[d ok] st] eqn:Er.
  apply remove_range_spec in Er as Ho; [|apply He]. unfold doc_remove in Ho.
  pose proof (d_counted _ (e_draft _ He)) as Hcount. unfold counted in Hcount. rewrite <- Hcount in Ho.
  destruct (Nat.ltb_spec start (line_count (dr e))); [|lia].
  destruct (Nat.ltb_spec stop (line_count (dr e))); [|lia]. destruct Ho as [-> _].
  exists text, n, d, st. split; [done|]. split; [done|]. split; [done|].
  unfold key_cut. rewrite Hr. cbv zeta. rewrite Hset. destruct (Nat.eqb_spec (line_count (dr e)) 0); [done|].
  cbn [negb orb].
  replace (if (line_count (dr e) <=? cursor_line (dr e))%nat then (line_count (dr e) - 1)%nat
           else cursor_line (dr e)) with stop
    by (unfold stop; destruct (Nat.leb_spec (line_count (dr e)) (cursor_line (dr e))); lia).
  fold start. rewrite Ec, Er.
  set (r := session_bbs_recalculate_line_count d).
  replace (if (line_count r <? start)%nat then line_count r else start) with (Nat.min start (line_count r))
    by (destruct (Nat.ltb_spec (line_count r) start); lia).
  done.
Qed.


Lemma with_selection_ok e start stop : editor_ok e ->
  (start < Nat.max 1 (length (lines (body (dr e)))))%nat -> editor_ok (with_selection e start true stop false).
Proof. intros [Hd Hl Hb Hs] Hlt. by constructor. Qed.


Section KeysOk.
Context (commit : editor -> option editor).
Hypothesis commit_keeps_ok : forall e e', editor_ok e -> commit e = Some e' -> editor_ok e'.

Lemma capture_line_ok e l e' : editor_ok e -> plain l -> session_bbs_capture_body_line commit e l = Some e' ->
  editor_ok e'.
Proof using commit_keeps_ok.
  intros He Hl. unfold session_bbs_capture_body_line. cbv zeta.
  destruct (session_editor_matches_terminator _ _); [by apply commit_keeps_ok|].
  rewrite recalc_draft_ok by apply He. destruct (editing_line (dr e) && _).
  - destruct (session_bbs_replace_line (dr e) _ l) as [[d ok] st] eqn:E.
    apply replace_ok in E as [Hd Hg]; [|apply He|done]. rewrite recalc_draft_ok by done.
    destruct ok; intros [= <-]; [|auto with editor].
    destruct (_ <? _)%nat; [|auto with editor]. apply render_ok, with_draft_ok; [auto with editor|apply set_cursor_ok, Hd|].
    eapply grows_trans; [exact Hg|]. apply grows_body, set_cursor_body.
  - destruct (negb (editing_line (dr e)) && _).
    + destruct (session_bbs_insert_line (dr e) _ l) as [[d ok] st] eqn:E.
      apply insert_ok in E as [Hd Hg]; [|apply He|done]. destruct ok; intros [= <-]; [|auto with editor].
      apply render_ok, line_edit_mode_ok, with_draft_ok; [done|apply set_cursor_ok, Hd|].
      eapply grows_trans; [exact Hg|]. apply grows_body, set_cursor_body.
    + destruct (session_bbs_append_line (dr e) l) as [[d ok] st] eqn:E.
      apply append_ok in E as [Hd Hg]; [|apply He|done]. intros [= <-]. auto with editor.
Qed.

Lemma capture_go_ok n e text line emitted e' : (length text <= n)%nat -> editor_ok e -> plain line ->
  capture_go commit e text line emitted = Some e' -> editor_ok e'.
Proof using commit_keeps_ok.
  revert e text line emitted; induction n as [|n IH]; intros e text line emitted Hn He Hl.
  - destruct text; [|simpl in Hn; lia]. cbn [capture_go].
    destruct (_ || _); [by apply capture_line_ok|by intros [= <-]].
  - destruct text as [|c t]; cbn [capture_go].
    { destruct (_ || _); [by apply capture_line_ok|by intros [= <-]]. }
    simpl in Hn. destruct (c =? c_cr).
    + destruct (session_bbs_capture_body_line commit e line) as [e1|] eqn:E; [|done].
      apply capture_line_ok in E; [|done|done].
      destruct t as [|c' u]; [|simpl in Hn; destruct (c' =? c_lf)];
        apply IH; simpl; (lia || done || apply plain_nil).
    + destruct (Z.eqb_spec c c_lf) as [|Hc].
      * destruct (session_bbs_capture_body_line commit e line) as [e1|] eqn:E; [|done].
        apply capture_line_ok in E; [|done|done]. apply IH; (lia || done || apply plain_nil).
      * destruct (_ <? _)%nat; apply IH; try (lia || done).
        unfold plain in *. intros [H|H]%elem_of_app; [done|]. apply list_elem_of_singleton in H. congruence.
Qed.

Lemma process_line_ok e l e' : editor_ok e -> session_process_line commit e l = Some e' -> editor_ok e'.
Proof using commit_keeps_ok. intros He. eapply capture_go_ok; [reflexivity|done|apply plain_nil]. Qed.

Lemma option_map_ok o e' : (forall e, o = Some e -> editor_ok e) -> option_map clear_input_of o = Some e' ->
  editor_ok e'.
Proof using Type. destruct o as [e|]; [|done]. intros H [= <-]. by apply clear_input_of_ok, H. Qed.


Lemma with_input_ok e i : editor_ok e -> plain i -> (length i <= SSH_CHATTER_MAX_INPUT_LEN - 1)%nat ->
  editor_ok (with_draft e (with_input (dr e) i)).
Proof using Type.
  intros He Hp Hl. apply with_draft_ok; [done| |by apply grows_body].
  destruct (e_draft _ He). by constructor.
Qed.



Lemma key_text_ok e t e' : editor_ok e -> plain t -> key_text commit e t = Some e' -> editor_ok e'.
Proof using commit_keeps_ok.
  intros He Ht. unfold key_text.
  destruct (if (_ <=? _)%nat then _ else _) as [e1|] eqn:E; [|done].
  assert (editor_ok e1) as He1.
  { destruct (_ <=? _)%nat; [|by injection E as <-]. eapply option_map_ok; [|exact E].
    intros e2. by apply process_line_ok. }
  destruct (Nat.ltb_spec (length (input (dr e1)) + length t) SSH_CHATTER_MAX_INPUT_LEN); [|by intros [= <-]].
  cbv zeta. assert (editor_ok (with_draft e1 (with_input (dr e1) (input (dr e1) ++ t)))) as Hi.
  { apply with_input_ok; [done| |rewrite length_app; lia].
    intros [H'|H']%elem_of_app; [by apply (d_plain _ (e_draft _ He1))|done]. }
  destruct (_ && _); intros [= <-]; auto with editor.
Qed.




End KeysOk.

(** ** Searching *)

(** A line shows the keyword within the bytes a search looks at. *)
Definition shows (keyword line : bytes) : Prop :=
  exists t u, take (SSH_CHATTER_MESSAGE_LIMIT - 1) line = t ++ keyword ++ u.

(** How far a line is from the line the search starts at, around the end. *)
Definition distance (from count idx : nat) : nat :=
  if (from <=? idx)%nat then (idx - from)%nat else (idx + count - from)%nat.

Lemma line_shows d keyword idx x : counted d -> lines (body d) !! idx = Some x ->
  is_Some (strstr (session_bbs_copy_line d idx SSH_CHATTER_MESSAGE_LIMIT) keyword) <-> shows keyword x.
Proof.
  intros Hc Hx. rewrite (copy_line_spec _ _ x) by (done || unfold SSH_CHATTER_MESSAGE_LIMIT; lia).
  apply strstr_spec.
Qed.

Lemma find_line_spec d keyword idx n : counted d -> (idx + n <= length (lines (body d)))%nat ->
  match find_line d keyword idx n with
  | Some i => (idx <= i < idx + n)%nat /\ (exists x, lines (body d) !! i = Some x /\ shows keyword x) /\
      forall j y, (idx <= j < i)%nat -> lines (body d) !! j = Some y -> ~ shows keyword y
  | None => forall j y, (idx <= j < idx + n)%nat -> lines (body d) !! j = Some y -> ~ shows keyword y
  end.
Proof.
  intros Hc. revert idx; induction n as [|n IH]; intros idx Hn; simpl; [intros j y ?; lia|].
  destruct (lookup_lt_is_Some_2 (lines (body d)) idx) as [x Hx]; [lia|].
  pose proof (line_shows d keyword idx x Hc Hx) as Hs.
  destruct (strstr _ keyword) as [r|] eqn:E.
  - split; [lia|]. split; [exists x; split; [done|by apply Hs]|]. intros j y ?; lia.
  - assert (~ shows keyword x) as Hno by (intros H; apply Hs in H; by destruct H).
    specialize (IH (S idx) ltac:(lia)). destruct (find_line d keyword (S idx) n) as [i|].
    + destruct IH as (Hi & Hex & Hbefore). split; [lia|]. split; [done|]. intros j y Hj Hy.
      destruct (decide (j = idx)) as [->|]; [by simplify_eq|]. apply (Hbefore j y); [lia|done].
    + intros j y Hj Hy. destruct (decide (j = idx)) as [->|]; [by simplify_eq|]. apply (IH j y); [lia|done].
Qed.

(** Where a search starts. *)
Definition search_from (d : draft) : nat :=
  if (line_count d <=? cursor_line d)%nat then 0%nat else cursor_line d.

Lemma search_spec e keyword e' ok st : editor_ok e -> keyword <> [] ->
  session_bbs_search_keyword e keyword = (e', ok, st) ->
  let ls := lines (body (dr e)) in
  (ok = true /\ exists i x, ls !! i = Some x /\ shows keyword x /\
     e' = with_draft e (session_bbs_set_cursor (dr e) i true) /\
     (forall j y, ls !! j = Some y -> shows keyword y ->
        distance (search_from (dr e)) (length ls) i <= distance (search_from (dr e)) (length ls) j)%nat)
  \/ (ok = false /\ e' = search_restore e /\ forall j y, ls !! j = Some y -> ~ shows keyword y).
Proof.
  intros He Hk. unfold session_bbs_search_keyword. destruct keyword as [|c k]; [done|]. clear Hk.
  set (keyword := c :: k).
  assert (with_draft e (session_bbs_recalculate_line_count (dr e)) = e) as ->.
  { rewrite recalc_draft_ok by apply He. by destruct e. }
  cbv zeta. pose proof (d_counted _ (e_draft _ He)) as Hc. pose proof Hc as Hn. unfold counted in Hn.
  rewrite Hn. fold (search_from (dr e)). set (ls := lines (body (dr e))) in *.
  destruct (Nat.eqb_spec (length ls) 0) as [H0|H0].
  { intros E. right. split_and!; [congruence|congruence|]. intros j y Hj. apply lookup_lt_Some in Hj. lia. }
  rewrite <- Hn. fold (search_from (dr e)). rewrite Hn.
  assert (search_from (dr e) < length ls)%nat as Hf.
  { unfold search_from. destruct (Nat.leb_spec (line_count (dr e)) (cursor_line (dr e))); lia. }
  set (from := search_from (dr e)) in *.
  pose proof (find_line_spec (dr e) keyword from (length ls - from) Hc) as H1. fold ls in H1.
  pose proof (find_line_spec (dr e) keyword 0 from Hc) as H2. fold ls in H2.
  specialize (H1 ltac:(lia)). specialize (H2 ltac:(lia)).
  assert (forall i x, ls !! i = Some x -> (i < length ls)%nat) as Hin by (intros i x; apply lookup_lt_Some).
  destruct (find_line (dr e) keyword from (length ls - from)) as [i|].
  - intros E. left. destruct H1 as (Hi & (x & Hx & Hs) & Hb). split; [congruence|]. exists i, x.
    split_and!; [done|done|congruence|]. intros j y Hj Hy. pose proof (Hin _ _ Hj). unfold distance.
    destruct (Nat.leb_spec from i); [|lia]. destruct (Nat.leb_spec from j); [|lia].
    destruct (Nat.le_gt_cases i j); [lia|]. destruct (Hb j y); [lia|done|done].
  - destruct (find_line (dr e) keyword 0 from) as [i|].
    + intros E. left. destruct H2 as (Hi & (x & Hx & Hs) & Hb). split; [congruence|]. exists i, x.
      split_and!; [done|done|congruence|]. intros j y Hj Hy. pose proof (Hin _ _ Hj). unfold distance.
      destruct (Nat.leb_spec from i); [lia|]. destruct (Nat.leb_spec from j).
      { destruct (H1 j y); [lia|done|done]. }
      destruct (Nat.le_gt_cases i j); [lia|]. destruct (Hb j y); [lia|done|done].
    + intros E. right. split_and!; [congruence|congruence|]. intros j y Hj. pose proof (Hin _ _ Hj).
      destruct (Nat.le_gt_cases from j); [apply (H1 j y); [lia|done]|apply (H2 j y); [lia|done]].
Qed.

(** A search goes to the first line that shows the keyword, from the cursor
    on and around the end, and opens it; when no line shows it, the cursor and
    the window are where the search was begun.  The text stays as it is. *)
Theorem search_finds_first e keyword e' ok st : editor_ok e -> keyword <> [] ->
  session_bbs_search_keyword e keyword = (e', ok, st) ->
  let ls := lines (body (dr e)) in
  body (dr e') = body (dr e) /\
  if ok then
    exists i x, ls !! i = Some x /\ shows keyword x /\
      cursor_line (dr e') = i /\ editing_line (dr e') = true /\
      (forall j y, ls !! j = Some y -> shows keyword y ->
         distance (search_from (dr e)) (length ls) i <= distance (search_from (dr e)) (length ls) j)%nat
  else
    (forall j y, ls !! j = Some y -> ~ shows keyword y) /\
    cursor_line (dr e') = Nat.min (search_restore_line e) (length ls) /\
    bbs_editor_scroll_offset e' = search_restore_scroll e.
Proof.
  intros He Hk E. cbv zeta. apply search_spec in E; [|done|done]. cbv zeta in E.
  destruct E as [[-> (i & x & Hx & Hs & -> & Hmin)]|(-> & -> & Hno)]; cbn [dr with_draft search_restore with_scroll].
  - split; [apply set_cursor_body|]. exists i, x.
    destruct (set_cursor_spec (dr e) i true) as (_ & Hcu & He' & _). apply lookup_lt_Some in Hx as Hlt.
    split_and!; [done|done|rewrite Hcu; lia| |done].
    rewrite He'. by apply Nat.ltb_lt.
  - split; [apply set_cursor_body|]. split_and!; [done| |done].
    by destruct (set_cursor_spec (dr e) (search_restore_line e) (search_restore_editing e)) as (_ & -> & _).
Qed.

(** ** The window *)

Lemma window_pos height ascii : (0 < session_bbs_editor_window height ascii)%nat.
Proof.
  unfold session_bbs_editor_window, SSH_CHATTER_BBS_VIEW_WINDOW. cbv zeta.
  destruct (height =? 0)%nat; [lia|]. destruct (Nat.leb_spec height ((if ascii then 10 else 11) + 1)); [lia|].
  destruct (_ <? 60)%nat; lia.
Qed.

(** Where the window lies after a rendering. *)
Lemma scroll_spec e w : editor_ok e -> (0 < w)%nat ->
  let e' := session_bbs_adjust_editor_scroll e (line_count (dr e)) w in
  dr e' = dr e /\ terminal_height e' = terminal_height e /\
  (bbs_editor_scroll_offset e' <= cursor_line (dr e) < bbs_editor_scroll_offset e' + w)%nat /\
  (bbs_editor_scroll_offset e' <= line_count (dr e))%nat.
Proof.
  intros He Hw. destruct (e_draft _ He) as [_ _ Hcu Hed _ _]. unfold session_bbs_adjust_editor_scroll. cbv zeta.
  destruct (Nat.eqb_spec w 0) as [|_]; [lia|].
  set (n := line_count (dr e)) in *. set (c := cursor_line (dr e)) in *.
  set (eff := if negb (editing_line (dr e)) && (n <=? c)%nat then S n else n).
  assert (c < eff <= S n)%nat as Heff.
  { unfold eff. destruct (editing_line (dr e)); simpl; [specialize (Hed eq_refl); lia|].
    destruct (Nat.leb_spec n c); lia. }
  destruct (Nat.leb_spec eff w); cbn [dr with_scroll bbs_editor_scroll_offset terminal_height];
    (split; [done|]; split; [done|]); [lia|].
  destruct (Nat.leb_spec eff c); [lia|].
  destruct (Nat.ltb_spec c (bbs_editor_scroll_offset e)); [destruct (Nat.ltb_spec (eff - w) c); lia|].
  destruct (Nat.leb_spec (bbs_editor_scroll_offset e + w) c);
    destruct (Nat.ltb_spec (eff - w) (bbs_editor_scroll_offset e));
    try destruct (Nat.ltb_spec (eff - w) (c - w + 1)); lia.
Qed.

(** The screen always has the cursor: a rendering shows consecutive lines
    of the text, not more than the window holds, among them the line of the
    cursor, or the line of the prompt when the cursor is behind the last. *)
Theorem cursor_always_shown e : editor_ok e ->
  let e' := session_bbs_render_editor e in
  let rows := map fst (render_body e') in
  (length rows <= session_bbs_editor_window (terminal_height e) (is_ascii (editor_mode (dr e))))%nat /\
  (exists k, rows = map Some (seq (bbs_editor_scroll_offset e') k) \/
             rows = map Some (seq (bbs_editor_scroll_offset e') k) ++ [None]) /\
  (if (cursor_line (dr e) <? line_count (dr e))%nat
   then Some (cursor_line (dr e)) else None) ∈ rows.
Proof.
  intros He. cbv zeta. unfold session_bbs_render_editor.
  assert (with_draft e (session_bbs_recalculate_line_count (dr e)) = e) as ->.
  { rewrite recalc_draft_ok by apply He. by destruct e. }
  set (w := session_bbs_editor_window (terminal_height e) (is_ascii (editor_mode (dr e)))).
  pose proof (window_pos (terminal_height e) (is_ascii (editor_mode (dr e)))) as Hw. fold w in Hw.
  destruct (scroll_spec e w He Hw) as (Hd & Hh & Hin & Hle).
  set (e' := session_bbs_adjust_editor_scroll e (line_count (dr e)) w) in *.
  destruct (e_draft _ He) as [_ _ Hcu Hed _ _].
  unfold render_body. rewrite Hd, Hh. fold w. set (n := line_count (dr e)) in *.
  set (off := bbs_editor_scroll_offset e') in *. set (c := cursor_line (dr e)) in *.
  destruct (Nat.eqb_spec n 0) as [H0|H0].
  { simpl. split; [lia|]. split; [exists 0%nat; by right|].
    destruct (Nat.ltb_spec c n); [lia|]. by apply list_elem_of_here. }
  cbv zeta. rewrite map_app, map_map. cbn [fst]. set (k := (Nat.min (off + w) n - off)%nat).
  rewrite (Nat.min_l c n) by done.
  destruct (Nat.ltb_spec c n) as [Hlt|Hge].
  - destruct (Nat.eqb_spec c n); [lia|]. rewrite andb_false_r, app_nil_r.
    rewrite length_map, length_seq. split; [unfold k; lia|]. split; [exists k; by left|].
    apply list_elem_of_In, in_map, in_seq. unfold k. lia.
  - assert (c = n) as -> by lia. rewrite Nat.eqb_refl, andb_true_r.
    destruct (Nat.leb_spec (Nat.min (off + w) n) n); [|lia].
    rewrite length_app, length_map, length_seq. split; [simpl; unfold k; lia|].
    split; [exists k; by right|]. apply list_elem_of_In, in_or_app. right. by left.
Qed.

(** ** Arrow keys *)

Lemma render_draft e : draft_ok (dr e) -> dr (session_bbs_render_editor e) = dr e.
Proof.
  intros He. unfold session_bbs_render_editor, session_bbs_adjust_editor_scroll. cbv zeta.
  destruct (_ <=? _)%nat; cbn [dr with_scroll with_draft]; by apply recalc_draft_ok.
Qed.

(** The lines after an arrow key: the input line is saved into the line that is
    edited, cut to the room there is. *)
Definition saved (d : draft) : list bytes :=
  let ls := lines (body d) in
  if editing_line d
  then <[cursor_line d := take (room ls + length (nth (cursor_line d) ls [])) (input d)]> ls
  else ls.

Lemma saved_plain d : plain (input d) -> Forall plain (saved d).
Proof.
  intros Hp. unfold saved. cbv zeta. destruct (editing_line d); [|apply lines_plain].
  apply Forall_insert; [apply lines_plain|by apply plain_take].
Qed.

Lemma commit_saves d : draft_ok d ->
  body (if editing_line d then session_bbs_commit_edit_in_place d else d) = join (saved d).
Proof.
  intros Hd. unfold saved. cbv zeta. pose proof (commit_spec d (d_fits _ Hd) (d_counted _ Hd) (d_editing _ Hd)) as Hc.
  cbv zeta in Hc. destruct (editing_line d); [|by rewrite join_lines].
  destruct Hc as (x & Hx & (-> & _)). by rewrite (nth_lookup_Some _ _ _ _ Hx).
Qed.

Lemma move_cursor_shape e up : editor_ok e ->
  exists d t ed, dr (session_bbs_move_cursor e up) = session_bbs_set_cursor d t ed /\
    body d = join (saved (dr e)) /\ fits d.
Proof.
  intros He. unfold session_bbs_move_cursor. cbn [dr with_line_edit_mode]. cbv zeta.
  pose proof (commit_saves (dr e) (e_draft _ He)) as Hb.
  set (d := if editing_line (dr e) then session_bbs_commit_edit_in_place (dr e) else dr e) in *.
  set (r := session_bbs_recalculate_line_count d).
  assert (fits r) as Hf.
  { apply fits_recalc. unfold d. destruct (editing_line (dr e)); [|apply He].
    apply commit_ok; [apply He|apply He]. }
  assert (body r = join (saved (dr e))) as Hbr by (unfold r; by rewrite recalc_body).
  destruct (_ =? 0)%nat; [|destruct (arrow_target _ _ _ _) as [t ed]];
    rewrite render_draft by (by apply set_cursor_ok); by eexists _, _, _.
Qed.

(** An arrow key saves the input line into the line that was edited, cut to
    the room there is, and changes no other line. *)
Theorem arrow_saves_edit e up : editor_ok e ->
  lines (body (dr (session_bbs_move_cursor e up))) = canon (saved (dr e)).
Proof.
  intros He. destruct (move_cursor_shape e up He) as (d & t & ed & -> & Hb & _).
  rewrite set_cursor_body, Hb. apply lines_join, saved_plain, He.
Qed.

(** The input line holds the line that is edited. *)
Definition in_sync (d : draft) : Prop :=
  editing_line d = true -> input d = nth (cursor_line d) (lines (body d)) [].

(** Every line fits the input buffer. *)
Definition short_lines (b : bytes) : Prop :=
  Forall (fun l : bytes => (length l <= SSH_CHATTER_MAX_INPUT_LEN - 1)%nat) (lines b).

Lemma set_cursor_sync d t ed : short_lines (body d) -> in_sync (session_bbs_set_cursor d t ed).
Proof.
  intros Hs He. rewrite set_cursor_body. destruct (set_cursor_spec d t ed) as (_ & Hcu & Hed & Hi).
  rewrite Hed in He. rewrite He in Hi. apply andb_true_iff in He as [_ Ht%Nat.ltb_lt].
  rewrite Hi, Hcu, Nat.min_l by lia. apply take_ge.
  destruct (lookup_lt_is_Some_2 _ _ Ht) as [x Hx]. rewrite (nth_lookup_Some _ _ _ _ Hx).
  unfold short_lines in Hs. rewrite Forall_forall in Hs. apply Hs. by eapply list_elem_of_lookup_2.
Qed.

Lemma saved_in_sync d : draft_ok d -> in_sync d -> saved d = lines (body d).
Proof.
  intros Hd Hs. unfold saved. cbv zeta. destruct (editing_line d) eqn:He; [|done].
  rewrite Hs by done. rewrite take_ge by lia.
  pose proof (d_editing _ Hd He) as Hlt. pose proof (d_counted _ Hd) as Hc. unfold counted in Hc. rewrite Hc in Hlt.
  destruct (lookup_lt_is_Some_2 _ _ Hlt) as [x Hx]. rewrite (nth_lookup_Some _ _ _ _ Hx).
  by apply list_insert_id.
Qed.

(** Walking over a text with the arrow keys leaves it as it is, when every
    line fits the input buffer. *)
Theorem walking_keeps_text (commit : editor -> option editor) e ks : editor_ok e -> in_sync (dr e) -> short_lines (body (dr e)) ->
  Forall (fun k => k = KeyUp \/ k = KeyDown) ks ->
  exists e', presses commit e ks = Some e' /\ body (dr e') = body (dr e).
Proof.
  intros He Hs Hl Hks. revert e He Hs Hl; induction Hks as [|k ks Hk _ IH]; intros e He Hs Hl; simpl; [eauto|].
  assert (exists up, press commit e k = Some (session_bbs_move_cursor e up)) as [up ->].
  { destruct Hk as [-> | ->]; eexists; reflexivity. }
  destruct (move_cursor_shape e up He) as (d & t & ed & Hd & Hb & _).
  rewrite saved_in_sync, join_lines in Hb by (done || apply He).
  destruct (IH (session_bbs_move_cursor e up)) as (e' & He' & Hb').
  - by apply move_cursor_ok.
  - rewrite Hd. apply set_cursor_sync. by rewrite Hb.
  - by rewrite Hd, set_cursor_body, Hb.
  - exists e'. by rewrite Hb', Hd, set_cursor_body, Hb.
Qed.

(** A search that finds something costs the line it finds: it opens the line
    with an empty input, and the next arrow key saves that input into it. *)
Theorem search_erases_line (commit : editor -> option editor) e (up : bool) : editor_ok e -> search_active e = true -> editing_line (dr e) = false ->
  input (dr e) <> [] -> Exists (shows (input (dr e))) (lines (body (dr e))) ->
  exists i x e', lines (body (dr e)) !! i = Some x /\ shows (input (dr e)) x /\
    presses commit e [KeyReturn; if up then KeyUp else KeyDown] = Some e' /\
    lines (body (dr e')) = canon (<[i := []]> (lines (body (dr e)))).
Proof.
  intros He Hsearch Hed Hk Hex. cbn [presses press]. unfold key_enter. rewrite Hed, andb_false_r, Hsearch.
  cbn [andb]. destruct (session_bbs_search_keyword e (input (dr e))) as [[e1 ok] st] eqn:E.
  apply search_spec in E; [|done|done]. cbv zeta in E.
  destruct E as [[-> (i & x & Hx & Hs & -> & _)]|(_ & _ & Hno)].
  2: { apply Exists_exists in Hex as (y & Hy & Hsy). apply list_elem_of_lookup in Hy as [j Hj].
       by destruct (Hno j y Hj). }
  exists i, x. set (d := session_bbs_set_cursor (dr e) i true).
  set (e1 := session_bbs_render_editor _).
  assert (editor_ok e1) as He1.
  { unfold e1. apply render_ok, clear_input_of_ok, search_ok, set_cursor_editor_ok, He. }
  assert (dr e1 = session_clear_input d) as Hd1.
  { unfold e1. rewrite render_draft; [done|]. apply clear_input_ok, set_cursor_ok, He. }
  assert (forall k, k = (if up then KeyUp else KeyDown) -> exists e',
    press commit e1 k = Some e' /\ e' = session_bbs_move_cursor e1 up) as Hpress.
  { intros k ->. destruct up; by eexists. }
  destruct (Hpress _ eq_refl) as (e' & -> & ->). eexists. split; [done|]. split; [done|]. split; [done|].
  destruct (move_cursor_shape e1 up He1) as (d2 & t & ed2 & -> & Hb & _).
  rewrite set_cursor_body, Hb, lines_join by (apply saved_plain, He1). f_equal.
  unfold saved. rewrite Hd1. cbn [editing_line session_clear_input with_input cursor_line body input].
  destruct (set_cursor_spec (dr e) i true) as (_ & Hcu & Hed' & _). apply lookup_lt_Some in Hx as Hlt.
  unfold d. rewrite Hed', Hcu, set_cursor_body, Nat.min_l by lia. apply Nat.ltb_lt in Hlt. rewrite Hlt. cbn [andb].
  by rewrite take_nil.
Qed.

(** Starting a search while a line is edited and giving it up with an empty
    keyword empties that line: the return key is taken for an empty line. *)
Theorem search_cancel_erases (commit : editor -> option editor) e : editor_ok e -> editing_line (dr e) = true ->
  exists e', presses commit e [KeyCtrlF; KeyReturn] = Some e' /\
    lines (body (dr e')) = canon (<[cursor_line (dr e) := []]> (lines (body (dr e)))).
Proof.
  intros He Hed. cbn [presses press]. unfold key_search.
  set (e0 := with_search _ _ _ _ _). set (e1 := session_bbs_render_editor (clear_input_of e0)).
  assert (draft_ok (session_clear_input (dr e))) as Hok by apply clear_input_ok, He.
  assert (dr e1 = session_clear_input (dr e)) as Hd1.
  { unfold e1. by rewrite render_draft. }
  unfold key_enter. rewrite Hd1. cbn [editing_line session_clear_input with_input input length]. rewrite Hed.
  cbn [andb Nat.eqb]. unfold session_process_line, session_bbs_capture_body_text.
  change (snprintf_text SSH_CHATTER_MAX_INPUT_LEN []) with (@nil Z). cbn [capture_go length Nat.ltb Nat.leb orb negb].
  unfold session_bbs_capture_body_line. cbv zeta.
  change (Paths.trim_whitespace_inplace (take (SSH_CHATTER_MESSAGE_LIMIT - 1) [])) with (@nil Z).
  assert (session_editor_matches_terminator (editor_mode (dr e1)) [] = false) as ->.
  { unfold session_editor_matches_terminator, terminators. by destruct (is_ascii _). }
  rewrite Hd1, recalc_draft_ok by done. cbn [editing_line session_clear_input with_input cursor_line line_count].
  rewrite Hed. pose proof (d_editing _ (e_draft _ He) Hed) as Hlt.
  destruct (Nat.ltb_spec (cursor_line (dr e)) (line_count (dr e))); [|lia]. cbn [andb].
  destruct (session_bbs_replace_line _ _ []) as [[d ok] st] eqn:E. pose proof E as Eok.
  apply replace_ok in Eok as [Hdok _]; [|done|apply plain_nil].
  apply replace_line_spec in E as [Ho _]; [|apply Hok].
  unfold doc_replace in Ho. cbn [body with_input session_clear_input] in Ho.
  pose proof (d_counted _ (e_draft _ He)) as Hc. unfold counted in Hc. rewrite Hc in Hlt.
  destruct (lookup_lt_is_Some_2 _ _ Hlt) as [x Hx]. rewrite Hx in Ho. destruct Ho as [-> (Hb & _)].
  rewrite take_nil in Hb. rewrite recalc_draft_ok by done.
  eexists. split; [reflexivity|]. cbn [dr clear_input_of with_draft session_clear_input with_input body].
  rewrite render_draft.
  - cbn [dr with_draft]. rewrite <- (lines_join (<[_:=[]]> _)), <- Hb.
    + by destruct (_ <? _)%nat; rewrite ?set_cursor_body.
    + apply Forall_insert; [apply lines_plain|apply plain_nil].
  - cbn [dr with_draft]. destruct (_ <? _)%nat; [apply set_cursor_ok|]; apply Hdok.
Qed.

(** ** Cutting and pasting *)

Lemma join_insert_length l1 x l2 : l1 ++ l2 <> [] ->
  length (join (l1 ++ x :: l2)) = (length (join (l1 ++ l2)) + length x + 1)%nat.
Proof.
  intros Hne. destruct l1 as [|y l1].
  - destruct l2 as [|z l2]; [done|]. simpl. rewrite begun_cons. rewrite !length_app. simpl. rewrite length_app. lia.
  - rewrite (join_begun (y :: l1) (x :: l2)), (join_begun (y :: l1) l2) by done.
    rewrite begun_cons, !length_app. cbn [length]. rewrite length_app. lia.
Qed.

Lemma canon_some ls : Exists (fun l => l <> []) ls -> canon ls = ls.
Proof.
  intros H. destruct ls as [|[|c l] [|y t]]; try done.
  by apply Exists_cons in H as [H|H%Exists_nil].
Qed.

(** Inserting a line where there is room for it. *)
Lemma insert_fits d l1 x l2 : draft_ok d -> plain x -> lines (body d) = l1 ++ l2 ->
  Exists (fun l => l <> []) (l1 ++ l2) ->
  (length (join (l1 ++ x :: l2)) <= SSH_CHATTER_BBS_BODY_LEN - 1)%nat ->
  full_of_lines (editor_mode d) (l1 ++ l2) = false ->
  exists d' st, session_bbs_insert_line d (length l1) x = (d', true, st) /\ draft_ok d' /\
    lines (body d') = l1 ++ x :: l2 /\ editor_mode d' = editor_mode d.
Proof.
  intros Hd Hx Hl Hne Hfit Hfull.
  destruct (session_bbs_insert_line d (length l1) x) as [[d' ok] st] eqn:E.
  pose proof E as Eok. apply insert_ok in Eok as [Hd' _]; [|done|done].
  apply insert_line_spec in E as Ho; [|apply Hd].
  assert (l1 ++ l2 <> []) as Hnil by (intros H; rewrite H in Hne; by apply Exists_nil in Hne).
  rewrite Hl, Nat.min_l in Ho by (rewrite length_app; lia). unfold doc_insert in Ho. rewrite Hfull, orb_false_r in Ho.
  rewrite join_insert_length in Hfit by done.
  assert (room (l1 ++ l2) = (SSH_CHATTER_BBS_BODY_LEN - 1 - length (join (l1 ++ l2)))%nat) as Hroom by done.
  assert (overhead (l1 ++ l2) = 1%nat) as Hov by (clear -Hnil; by destruct (l1 ++ l2)).
  rewrite Hov in Ho. destruct (Nat.eqb_spec (room (l1 ++ l2)) 0); [lia|].
  destruct (Nat.ltb_spec (room (l1 ++ l2)) (length x + 1)); [lia|]. cbn [orb andb] in Ho.
  rewrite take_app_length, drop_app_length, take_ge in Ho by lia. destruct Ho as [-> (Hb & Hm & _)].
  exists d', st. split_and!; [done|done| |done]. rewrite Hb, lines_join.
  - apply canon_some. apply Exists_app in Hne. apply Exists_app.
    destruct Hne as [?|?]; [by left|right; by right].
  - pose proof (lines_plain (body d)) as Hp. rewrite Hl in Hp. apply Forall_app in Hp as [H1 H2].
    apply Forall_app. by split; [|constructor].
Qed.

Definition breaks (c : Z) : bool := negb (c =? c_lf).

Lemma take_breaks x r : plain x -> take_while breaks (x ++ c_lf :: r) = x /\
  skip_while breaks (x ++ c_lf :: r) = c_lf :: r.
Proof.
  induction x as [|c x IH]; intros Hx; [done|]. apply plain_cons in Hx as [Hc Hx].
  unfold breaks in *. simpl. apply Z.eqb_neq in Hc. rewrite Hc. simpl.
  destruct IH as [IH1 IH2]; [done|]. by rewrite IH1, IH2.
Qed.

Lemma take_breaks_end x : plain x -> take_while breaks x = x /\ skip_while breaks x = [].
Proof.
  induction x as [|c x IH]; intros Hx; [done|]. apply plain_cons in Hx as [Hc Hx].
  unfold breaks in *. simpl. apply Z.eqb_neq in Hc. rewrite Hc. simpl.
  destruct IH as [IH1 IH2]; [done|]. by rewrite IH1, IH2.
Qed.

Lemma join_longer l1 x l2 : (length (join (l1 ++ l2)) <= length (join (l1 ++ x :: l2)))%nat.
Proof.
  destruct (decide (l1 ++ l2 = [])) as [->|]; [simpl; lia|]. rewrite join_insert_length by done. lia.
Qed.

Lemma join_part l1 m l2 : (length (join (l1 ++ l2)) <= length (join (l1 ++ m ++ l2)))%nat.
Proof.
  induction m as [|x m IH]; [done|]. simpl. pose proof (join_longer l1 x (m ++ l2)). lia.
Qed.

(** Pasting the text of [mid], the last of them not empty, puts the lines in. *)
Lemma paste_go_lines mid : forall d l1 l2 fuel any st, mid <> [] -> last mid <> Some [] -> draft_ok d ->
  Forall plain mid -> lines (body d) = l1 ++ l2 -> Exists (fun l => l <> []) (l1 ++ l2) ->
  (length (join (l1 ++ mid ++ l2)) <= SSH_CHATTER_BBS_BODY_LEN - 1)%nat ->
  (forall k, (k < length (l1 ++ mid ++ l2))%nat -> match session_editor_max_lines (editor_mode d) with
                                            | Some n => (k < n)%nat | None => True end) ->
  (length (join mid) < fuel)%nat ->
  exists d' st', paste_go fuel d (length l1) (join mid) any st = (d', (length l1 + length mid)%nat, true, st', true) /\
    draft_ok d' /\ lines (body d') = l1 ++ mid ++ l2.
Proof.
  induction mid as [|x mid IH]; intros d l1 l2 fuel any st Hne Hlast Hd Hp Hl Hex Hfit Hfull Hf; [done|].
  destruct fuel as [|f]; [lia|]. apply Forall_cons in Hp as [Hx Hp].
  destruct (insert_fits d l1 x l2) as (d1 & st1 & Hins & Hd1 & Hl1 & Hm1); try done.
  { pose proof (join_part (l1 ++ [x]) mid l2) as H. rewrite <- !app_assoc in H. cbn [app] in H, Hfit. lia. }
  { unfold full_of_lines. specialize (Hfull (length (l1 ++ l2))).
    destruct (session_editor_max_lines (editor_mode d)) as [n|]; [|done].
    apply Nat.leb_gt, Hfull. rewrite !length_app. cbn [length]. lia. }
  assert (join (x :: mid) <> []) as Hnn.
  { intros H. destruct mid; [|by destruct x]. simpl in H. rewrite app_nil_r in H. subst x. by apply Hlast. }
  destruct (join (x :: mid)) as [|c t] eqn:Ej; [done|]. cbn [paste_go]. rewrite <- Ej in *.
  destruct mid as [|y mid].
  - assert (join [x] = x) as Hjx by (simpl; apply app_nil_r). rewrite Hjx.
    destruct (take_breaks_end x Hx) as [Ht Hs]. unfold breaks in Ht, Hs. rewrite Ht, Hs, Hins. cbn [negb].
    exists d1, st1. split; [by rewrite Nat.add_1_r|]. done.
  - assert (join (x :: y :: mid) = x ++ c_lf :: join (y :: mid)) as Hjx by done.
    rewrite Hjx. destruct (take_breaks x (join (y :: mid)) Hx) as [Ht Hs]. unfold breaks in Ht, Hs.
    rewrite Ht, Hs, Hins. cbn [negb].
    destruct (IH d1 (l1 ++ [x]) l2 f true st1) as (d' & st' & Hgo & Hd' & Hl'); try done.
    + by rewrite <- app_assoc.
    + rewrite <- app_assoc. apply Exists_app in Hex. apply Exists_app. destruct Hex; [by left|right; by right].
    + by rewrite <- app_assoc.
    + intros k Hk. rewrite Hm1. apply Hfull. by rewrite <- app_assoc in Hk.
    + rewrite Hjx, length_app in Hf. simpl in Hf |- *. lia.
    + rewrite length_app in Hgo. cbn [length] in Hgo. rewrite Nat.add_1_r in Hgo.
      exists d', st'. split; [|split; [done|by rewrite <- app_assoc in Hl']].
      replace (length l1 + length (x :: y :: mid))%nat with (S (length l1) + length (y :: mid))%nat
        by (cbn [length]; lia). exact Hgo.
Qed.

Lemma copy_lines_go_join d l1 l2 len mid : forall prev, counted d ->
  lines (body d) = l1 ++ prev ++ mid ++ l2 ->
  Forall (fun l : bytes => (length l < SSH_CHATTER_MESSAGE_LIMIT)%nat) mid ->
  (length (join (prev ++ mid)) < len)%nat ->
  copy_lines_go d (length l1 + length prev) (length mid) len (join prev) (length prev) =
    (join (prev ++ mid), length (prev ++ mid)).
Proof.
  induction mid as [|x mid IH]; intros prev Hc Hl Hs Hlen; [by rewrite app_nil_r|].
  apply Forall_cons in Hs as [Hx Hs]. cbn [length copy_lines_go].
  assert (lines (body d) !! (length l1 + length prev)%nat = Some x) as Hi.
  { rewrite Hl, app_assoc, lookup_app_r, length_app, Nat.sub_diag; [done|rewrite length_app; lia]. }
  rewrite (copy_line_spec d _ x) by (done || unfold SSH_CHATTER_MESSAGE_LIMIT; lia).
  rewrite take_ge by lia.
  assert (join prev ++ (if (0 <? length prev)%nat then [c_lf] else []) ++ x = join (prev ++ [x])) as Hj.
  { destruct prev as [|p prev]; [simpl; by rewrite app_nil_r|]. rewrite join_begun by done.
    unfold begun. simpl. by rewrite app_nil_r. }
  pose proof (join_part (prev ++ [x]) mid []) as Hp. rewrite !app_nil_r, <- app_assoc in Hp. cbn [app] in Hp.
  rewrite <- Hj, !length_app in Hp.
  destruct (Nat.leb_spec len (length (join prev) +
    (length x + length (if (0 <? length prev)%nat then [c_lf] else [])))); [lia|].
  rewrite Hj. specialize (IH (prev ++ [x]) Hc). rewrite <- !app_assoc in IH. cbn [app] in IH.
  rewrite length_app in IH. cbn [length] in IH. rewrite Nat.add_1_r, <- plus_n_Sm in IH. by apply IH.
Qed.

Lemma key_cut_lines e l1 m y l2 : editor_ok e -> selection_start_set e = true ->
  lines (body (dr e)) = l1 ++ (m ++ [y]) ++ l2 -> selection_start e = length l1 ->
  (length l1 + length m = Nat.min (cursor_line (dr e)) (line_count (dr e) - 1))%nat ->
  Exists (fun l => l <> []) (l1 ++ l2) ->
  Forall (fun l : bytes => (length l < SSH_CHATTER_MESSAGE_LIMIT)%nat) (m ++ [y]) ->
  let e' := key_cut e in
  draft_ok (dr e') /\ lines (body (dr e')) = l1 ++ l2 /\ editor_mode (dr e') = editor_mode (dr e) /\
  cursor_line (dr e') = length l1 /\ clipboard e' = join (m ++ [y]) /\ clipboard_length e' = length (clipboard e').
Proof.
  intros He Hset Hl Hs Hstop Hex Hshort. cbv zeta.
  pose proof (d_counted _ (e_draft _ He)) as Hc. unfold counted in Hc.
  assert (line_count (dr e) = length l1 + (length m + 1) + length l2)%nat as Hn
    by (rewrite Hc, Hl, !length_app; cbn [length]; lia).
  destruct (key_cut_spec e He Hset) as (text & n & d & st & Hgo & Hlen & Hr & Heq); [lia|].
  rewrite Hs, <- Hstop in Hgo, Hr, Heq.
  rewrite Nat.min_l, Nat.max_r in Hgo by lia.
  replace (length l1 + length m + 1 - length l1)%nat with (length (m ++ [y])) in Hgo
    by (rewrite length_app; cbn [length]; lia).
  pose proof (copy_lines_go_join (dr e) l1 l2 SSH_CHATTER_BBS_BODY_LEN (m ++ [y]) [] (d_counted _ (e_draft _ He)) Hl Hshort) as Hj.
  cbn [app join length] in Hj. rewrite Nat.add_0_r in Hj.
  assert (length (join (m ++ [y])) < SSH_CHATTER_BBS_BODY_LEN)%nat as Hjl.
  { pose proof (d_fits _ (e_draft _ He)) as Hf. unfold fits in Hf. pose proof body_len_big.
    rewrite <- (join_lines (body (dr e))), Hl in Hf.
    pose proof (join_part [] l1 ((m ++ [y]) ++ l2)) as H1. cbn [app] in H1.
    pose proof (join_part (m ++ [y]) l2 []) as H2. rewrite !app_nil_r in H2. lia. }
  rewrite Hj in Hgo by done. assert (text = join (m ++ [y])) as -> by congruence.
  apply remove_range_spec in Hr; [|apply He]. unfold doc_remove in Hr. rewrite <- Hc in Hr.
  destruct (Nat.ltb_spec (length l1) (line_count (dr e))); [|lia].
  destruct (Nat.ltb_spec (length l1 + length m) (line_count (dr e))); [|lia]. cbn [andb] in Hr.
  rewrite Nat.min_l, Nat.max_r in Hr by lia. rewrite Hl in Hr.
  rewrite take_app_length in Hr.
  replace (drop (S (length l1 + length m)) (l1 ++ (m ++ [y]) ++ l2)) with l2 in Hr.
  2: { rewrite app_assoc. replace (S (length l1 + length m)) with (length (l1 ++ m ++ [y])).
       - by rewrite drop_app_length.
       - rewrite !length_app. cbn [length]. lia. }
  destruct Hr as [_ (Hb & Hm & Hdc & Hdf)].
  set (r := session_bbs_recalculate_line_count d) in *.
  assert (lines (body r) = l1 ++ l2) as Hlr.
  { unfold r. rewrite recalc_body, Hb, lines_join, canon_some; [done|done|].
    pose proof (lines_plain (body (dr e))) as Hp. rewrite Hl in Hp.
    apply Forall_app in Hp as [H1 [_ H2]%Forall_app]. by apply Forall_app. }
  assert (counted r) as Hcr by apply recalc_counted. unfold counted in Hcr. rewrite Hlr in Hcr.
  rewrite Nat.min_l in Heq by (rewrite Hcr, length_app; lia).
  set (r' := session_bbs_set_cursor r (length l1) false) in *.
  assert (draft_ok (session_clear_input r')) as Hok by (apply clear_input_ok, set_cursor_ok, fits_recalc, Hdf).
  destruct (set_cursor_spec r (length l1) false) as (_ & Hcu & _ & _).
  rewrite Heq. rewrite render_draft by exact Hok.
  split; [exact Hok|]. cbn [dr clear_input_of with_draft session_clear_input with_input body editor_mode cursor_line
    with_line_edit_mode with_selection].
  split; [unfold r'; by rewrite set_cursor_body|].
  split; [unfold r'; rewrite set_cursor_mode; unfold r; by rewrite recalc_mode|].
  split; [unfold r'; rewrite Hcu, Hlr, length_app; lia|].
  unfold session_bbs_render_editor, session_bbs_adjust_editor_scroll. cbv zeta. by destruct (_ <=? _)%nat.
Qed.

(** Cutting the selected lines and pasting them at once gives the text back,
    when the selection runs down to the cursor, its last line is not empty, none
    of its lines is longer than a search or a cut looks at, and other lines that
    are not all empty are left. *)
Theorem cut_then_paste e l1 m y l2 : editor_ok e -> selection_start_set e = true ->
  lines (body (dr e)) = l1 ++ (m ++ [y]) ++ l2 -> selection_start e = length l1 ->
  (length l1 + length m = Nat.min (cursor_line (dr e)) (line_count (dr e) - 1))%nat ->
  Exists (fun l => l <> []) (l1 ++ l2) -> y <> [] ->
  Forall (fun l : bytes => (length l < SSH_CHATTER_MESSAGE_LIMIT)%nat) (m ++ [y]) ->
  match session_editor_max_lines (editor_mode (dr e)) with
  | Some n => (line_count (dr e) <= n)%nat
  | None => True
  end ->
  body (dr (key_paste (key_cut e))) = body (dr e).
Proof.
  intros He Hset Hl Hs Hstop Hex Hy Hshort Hmax.
  destruct (key_cut_lines e l1 m y l2 He Hset Hl Hs Hstop Hex Hshort) as (Hok & Hl' & Hm & Hcu & Hclip & Hlen).
  pose proof (d_counted _ (e_draft _ He)) as Hc. unfold counted in Hc.
  pose proof (d_fits _ (e_draft _ He)) as Hf. unfold fits in Hf. rewrite <- (join_lines (body (dr e))), Hl in Hf.
  set (c := key_cut e) in *. unfold key_paste.
  assert (join (m ++ [y]) <> []) as Hne.
  { rewrite join_split_at. unfold begun. simpl. rewrite app_nil_r. intros [_ H]%app_eq_nil. done. }
  assert (take (SSH_CHATTER_BBS_BODY_LEN - 1) (clipboard c) = clipboard c) as Htake.
  { apply take_ge. rewrite Hclip. pose proof (join_part [] l1 ((m ++ [y]) ++ l2)) as H1. cbn [app] in H1.
    pose proof (join_part (m ++ [y]) l2 []) as H2. rewrite !app_nil_r in H2. lia. }
  destruct (paste_go_lines (m ++ [y]) (dr c) l1 l2 (S (length (clipboard c))) false []) as (d' & st' & Hgo & Hd' & Hld);
    try done.
  - by destruct m.
  - rewrite last_snoc. congruence.
  - pose proof (lines_plain (body (dr e))) as Hp. rewrite Hl in Hp.
    by apply Forall_app in Hp as [_ [Hp _]%Forall_app].
  - rewrite Hm. intros k Hk. rewrite <- Hl, <- Hc in Hk.
    destruct (session_editor_max_lines _); [lia|done].
  - rewrite Hclip. lia.
  - unfold session_bbs_insert_clipboard. rewrite Hlen, Hclip.
    destruct (Nat.eqb_spec (length (join (m ++ [y]))) 0) as [H0|_]; [by apply length_zero_iff_nil in H0|].
    cbv zeta. rewrite recalc_draft_ok by done. pose proof (d_cursor _ Hok).
    destruct (Nat.ltb_spec (line_count (dr c)) (cursor_line (dr c))); [lia|]. rewrite Hcu.
    unfold snprintf_text. rewrite <- Hclip, Htake. rewrite Hclip in Hgo |- *. rewrite Hgo.
    rewrite render_draft.
    + cbn [dr clear_input_of with_draft session_clear_input with_input body with_line_edit_mode].
      rewrite set_cursor_body, <- (join_lines (body d')), Hld, <- Hl. apply join_lines.
    + apply clear_input_ok, set_cursor_ok, Hd'.
Qed.

(** ** Typing a text *)

(** Behind the last line, with nothing typed. *)
Record resting (e : editor) : Prop := {
  r_ok : editor_ok e;
  r_editing : editing_line (dr e) = false;
  r_cursor : cursor_line (dr e) = line_count (dr e);
  r_input : input (dr e) = [];
  r_search : search_active e = false
}.

(** A line one can type: printable, not too long, and none that ends a draft. *)
Definition typed_line (m : session_editor_mode) (l : bytes) : Prop :=
  Forall (fun c => 32 <= c) l /\ (length l <= SSH_CHATTER_MAX_INPUT_LEN - 1)%nat /\
  session_editor_matches_terminator m
    (Paths.trim_whitespace_inplace (take (SSH_CHATTER_MESSAGE_LIMIT - 1) l)) = false.

Definition type_line (l : bytes) : list key := map (fun c => KeyText [c]) l ++ [KeyReturn].

Lemma presses_app commit e ks1 ks2 :
  presses commit e (ks1 ++ ks2) = match presses commit e ks1 with Some e => presses commit e ks2 | None => None end.
Proof. revert e; induction ks1 as [|k ks1 IH]; intros e; simpl; [done|]. by destruct (press commit e k). Qed.

Lemma printable_plain l : Forall (fun c => 32 <= c) l -> plain l.
Proof. induction 1 as [|c l Hc _ IH]; [apply plain_nil|]. apply plain_cons. split; [lia|done]. Qed.

(** The keys of a text, while no line is edited, only extend the input. *)
Lemma type_text commit e l : editing_line (dr e) = false ->
  (length (input (dr e)) + length l <= SSH_CHATTER_MAX_INPUT_LEN - 1)%nat ->
  presses commit e (map (fun c => KeyText [c]) l) =
    Some (match l with [] => e | _ => with_draft e (with_input (dr e) (input (dr e) ++ l)) end).
Proof.
  revert e; induction l as [|c l IH]; intros e He Hl; [done|]. cbn [map presses press length] in *.
  unfold key_text. cbn [length].
  destruct (Nat.leb_spec SSH_CHATTER_MAX_INPUT_LEN (length (input (dr e)) + 1)); [lia|].
  destruct (Nat.ltb_spec (length (input (dr e)) + 1) SSH_CHATTER_MAX_INPUT_LEN); [|lia].
  cbv zeta. cbn [dr with_draft editing_line with_input]. rewrite He. cbn [andb].
  rewrite IH; cbn [dr with_draft editing_line with_input input]; [|done|rewrite length_app; cbn [length]; lia].
  destruct l; [done|]. by rewrite <- app_assoc.
Qed.

(** A line without breaks goes to the consumer as a whole. *)
Lemma capture_go_line commit e l pre emitted : Forall (fun c => 32 <= c) l ->
  (length pre + length l <= SSH_CHATTER_MAX_INPUT_LEN - 1)%nat -> pre ++ l <> [] \/ emitted = false ->
  capture_go commit e l pre emitted = session_bbs_capture_body_line commit e (pre ++ l).
Proof.
  intros Hl; revert pre; induction Hl as [|c l Hc _ IH]; intros pre Hlen Hne; cbn [capture_go].
  - rewrite app_nil_r in *. destruct Hne as [Hne| ->]; [|by rewrite orb_true_r].
    destruct pre; [done|]. done.
  - destruct (Z.eqb_spec c c_cr); [lia|]. destruct (Z.eqb_spec c c_lf); [lia|]. cbn [length] in Hlen.
    destruct (Nat.ltb_spec (length pre + 1) SSH_CHATTER_MAX_INPUT_LEN); [|lia].
    rewrite IH, <- app_assoc; [done|rewrite length_app; cbn [length]; lia|]. left. by destruct pre.
Qed.

(** The return key behind the last line appends what was typed. *)
Lemma return_appends commit e l : editor_ok e -> editing_line (dr e) = false ->
  cursor_line (dr e) = line_count (dr e) -> input (dr e) = l -> search_active e = false ->
  typed_line (editor_mode (dr e)) l -> canon (lines (body (dr e)) ++ [l]) = lines (body (dr e)) ++ [l] ->
  (length (join (lines (body (dr e)) ++ [l])) <= SSH_CHATTER_BBS_BODY_LEN - 1)%nat ->
  full_of_lines (editor_mode (dr e)) (lines (body (dr e))) = false ->
  exists e', press commit e KeyReturn = Some e' /\ resting e' /\
    lines (body (dr e')) = lines (body (dr e)) ++ [l] /\ editor_mode (dr e') = editor_mode (dr e).
Proof.
  intros He Hed Hcur Hin Hse (Hpr & Hlen & Hterm) Hcan Hfit Hfull. cbn [press]. unfold key_enter.
  rewrite Hed, andb_false_r, Hse. cbn [andb]. unfold session_process_line, session_bbs_capture_body_text.
  unfold snprintf_text. rewrite Hin, take_ge by done.
  rewrite capture_go_line by (done || (cbn [length]; lia) || by right). cbn [app].
  unfold session_bbs_capture_body_line. cbv zeta. rewrite Hterm. rewrite recalc_draft_ok by apply He.
  rewrite Hcur, Nat.ltb_irrefl, Hed. cbn [andb negb].
  destruct (session_bbs_append_line (dr e) l) as [[d ok] st] eqn:E. pose proof E as Eok.
  apply append_ok in Eok as [Hd Hg]; [|apply He|by apply printable_plain].
  apply append_line_spec in E as [Ho Hpos]; [|apply He]. unfold doc_append in Ho. rewrite Hfull, orb_false_r in Ho.
  assert (overhead (lines (body (dr e))) + length l <= room (lines (body (dr e))))%nat as Hroom.
  { unfold room. pose proof (join_insert_length (lines (body (dr e))) l []) as Hj. rewrite app_nil_r in Hj.
    destruct (lines (body (dr e))) as [|x t]; [|rewrite Hj in Hfit by done; cbn [overhead]; lia].
    cbn [app join begun map concat] in Hfit. rewrite app_nil_r in Hfit. cbn [overhead join length]. lia. }
  assert (0 < room (lines (body (dr e))))%nat as Hpos'.
  { destruct (lines (body (dr e))) as [|x t]; [|cbn [overhead] in Hroom; lia].
    unfold room. cbn [join length]. pose proof body_len_big. lia. }
  destruct (Nat.eqb_spec (room (lines (body (dr e)))) 0); [lia|].
  rewrite take_ge in Ho by lia. destruct Ho as [-> (Hb & Hm & Hc & Hf)]. destruct (Hpos eq_refl) as (Hcu & Hed' & Hi).
  eexists. split; [reflexivity|].
  assert (editor_ok (with_line_edit_mode (with_draft e d) false)) as Hok.
  { apply line_edit_mode_ok. by apply with_draft_ok. }
  cbn [dr clear_input_of with_draft session_clear_input with_input body editor_mode].
  rewrite render_draft by exact Hd. cbn [dr with_line_edit_mode with_draft].
  split; [|split; [|exact Hm]].
  - constructor; [by apply clear_input_of_ok, render_ok| | |done|].
    + cbn [dr clear_input_of with_draft session_clear_input with_input editing_line]. by rewrite render_draft.
    + cbn [dr clear_input_of with_draft session_clear_input with_input cursor_line line_count].
      rewrite render_draft by exact Hd. cbn [dr with_line_edit_mode with_draft]. by rewrite Hcu, Hc.
    + cbn [search_active clear_input_of with_draft].
      unfold session_bbs_render_editor, session_bbs_adjust_editor_scroll. cbv zeta. by destruct (_ <=? _)%nat.
  - rewrite Hb, lines_join, Hcan; [done|]. apply Forall_app. split; [apply lines_plain|].
    by apply Forall_singleton, printable_plain.
Qed.

(** A text typed line by line into a new draft is the text of the draft, if
    it has room, does not start with an empty line and no line ends the draft. *)
Theorem typed_text_kept (commit : editor -> option editor) e ls : resting e -> body (dr e) = [] ->
  Forall (typed_line (editor_mode (dr e))) ls -> head ls <> Some [] ->
  (length (join ls) <= SSH_CHATTER_BBS_BODY_LEN - 1)%nat ->
  match session_editor_max_lines (editor_mode (dr e)) with Some n => (length ls <= n)%nat | None => True end ->
  exists e', presses commit e (concat (map type_line ls)) = Some e' /\ resting e' /\ body (dr e') = join ls.
Proof.
  intros Hr Hb Hls Hhd Hfit Hmax.
  assert (forall pre post e, ls = pre ++ post -> resting e -> lines (body (dr e)) = pre ->
    Forall (typed_line (editor_mode (dr e))) ls ->
    match session_editor_max_lines (editor_mode (dr e)) with Some n => (length ls <= n)%nat | None => True end ->
    exists e', presses commit e (concat (map type_line post)) = Some e' /\ resting e' /\ lines (body (dr e')) = ls)
    as Hgo.
  2: { destruct (Hgo [] ls e) as (e' & Hp & Hr' & Hl'); try done; [by rewrite Hb|].
       exists e'. split; [done|]. split; [done|]. by rewrite <- Hl', join_lines. }
  clear e Hr Hb Hls Hmax. intros pre post. revert pre.
  induction post as [|l post IH]; intros pre e Hsplit Hr Hl Hls Hmax.
  { exists e. rewrite app_nil_r in Hsplit. by subst pre. }
  cbn [map concat]. rewrite presses_app. unfold type_line at 1. rewrite presses_app.
  destruct Hr as [He Hed Hcu Hin Hse].
  assert (typed_line (editor_mode (dr e)) l) as Htl.
  { rewrite Forall_forall in Hls. apply Hls. rewrite Hsplit. apply elem_of_app. right. by apply list_elem_of_here. }
  rewrite type_text; [|done|rewrite Hin; cbn [length]; apply Htl].
  set (e1 := match l with [] => e | _ => with_draft e (with_input (dr e) (input (dr e) ++ l)) end).
  assert (dr e1 = with_input (dr e) l /\ search_active e1 = false) as [Hd1 Hse1].
  { unfold e1. rewrite Hin. destruct l; [split; [|done]|done]. by destruct (dr e) eqn:Edr; simpl in *; subst. }
  assert (editor_ok e1) as He1.
  { unfold e1. rewrite Hin. destruct l; [done|].
    apply with_input_ok; [done|apply printable_plain, Htl|apply Htl]. }
  destruct (return_appends commit e1 l) as (e2 & Hp2 & Hr2 & Hl2 & Hm2);
    rewrite ?Hd1; cbn [editing_line with_input cursor_line line_count input editor_mode body]; rewrite ?Hl; try done.
  - assert (head (pre ++ [l]) <> Some []) as Hh by (rewrite Hsplit in Hhd; by destruct pre).
    destruct pre as [|[|? ?] [|? ?]]; try done. by destruct l.
  - rewrite Hsplit in Hfit. rewrite (app_assoc pre [l] post : pre ++ l :: post = _) in Hfit.
    pose proof (join_part (pre ++ [l]) post []) as Hj. rewrite !app_nil_r in Hj. lia.
  - unfold full_of_lines. destruct (session_editor_max_lines _) as [n|]; [|done].
    apply Nat.leb_gt. rewrite Hsplit, length_app in Hmax. cbn [length] in Hmax. lia.
  - cbn [presses]. rewrite Hp2. rewrite Hd1 in Hl2, Hm2. cbn [body with_input editor_mode] in Hl2, Hm2.
    apply (IH (pre ++ [l])); [by rewrite <- app_assoc|done|by rewrite Hl2, Hl|by rewrite Hm2|by rewrite Hm2].
Qed.

(** A draft opens well formed, on its first line, with the text of the post. *)
Lemma open_draft_ok m text height : (length text <= SSH_CHATTER_BBS_BODY_LEN - 1)%nat ->
  let e := open_draft m text [] height in
  editor_ok e /\ body (dr e) = text /\ editor_mode (dr e) = m /\ cursor_line (dr e) = 0%nat /\
  editing_line (dr e) = false /\ (text = [] -> resting e).
Proof.
  intros Hl. cbv zeta. unfold open_draft. cbv zeta. rewrite take_ge by done.
  set (d := {| editor_mode := m; body := text; line_count := _; cursor_line := _; editing_line := _; input := _ |}).
  set (e0 := session_bbs_reset_pending_post [] height). pose proof body_len_big as Hbig.
  assert (session_bbs_recalculate_line_count d = {| editor_mode := m; body := text;
    line_count := length (lines text); cursor_line := 0; editing_line := false; input := [] |}) as Hr.
  { unfold session_bbs_recalculate_line_count. change (cursor_line d) with 0%nat. change (body d) with text.
    rewrite count_lines_spec. by destruct (Nat.ltb_spec (length (lines text)) 0); [lia|]. }
  assert (draft_ok (session_bbs_recalculate_line_count d)) as Hd.
  { rewrite Hr. constructor; cbn [cursor_line line_count editing_line input length];
      [done|done|lia|done|lia|apply plain_nil]. }
  assert (editor_ok (with_draft e0 (session_bbs_recalculate_line_count d))) as He0.
  { constructor; [done|done|simpl; lia|done]. }
  assert (session_bbs_render_editor (with_draft e0 d) =
          session_bbs_render_editor (with_draft e0 (session_bbs_recalculate_line_count d))) as ->.
  { unfold session_bbs_render_editor. cbn [with_draft dr]. by rewrite (recalc_draft_ok (session_bbs_recalculate_line_count d)). }
  pose proof (render_ok _ He0) as He. set (e := session_bbs_render_editor _) in *.
  assert (dr e = session_bbs_recalculate_line_count d) as Hde by (by apply render_draft).
  rewrite Hr in Hde. split; [done|]. rewrite Hde. cbn [body editor_mode cursor_line editing_line].
  do 4 (split; [done|]). intros Ht. constructor; rewrite ?Hde; cbn [editing_line cursor_line line_count input];
    [done|done|by rewrite Ht|done|].
  unfold e, session_bbs_render_editor, session_bbs_adjust_editor_scroll. cbv zeta. by destruct (_ <=? _)%nat.
Qed.

End Editor.

(** ** Concrete drafts *)

Module EditorSamples.
Import Editor.

#[local] Opaque SSH_CHATTER_BBS_BODY_LEN.

Definition poem : bytes := lit "one" ++ c_lf :: lit "two" ++ c_lf :: lit "three".

Definition post : editor := open_draft SESSION_EDITOR_MODE_BBS_EDIT poem [] 24.

Lemma poem_fits : (length poem <= SSH_CHATTER_BBS_BODY_LEN - 1)%nat.
Proof. pose proof body_len_big. change (length poem) with 13%nat. lia. Qed.

Lemma post_ok : editor_ok post /\ body (dr post) = poem /\ editing_line (dr post) = false.
Proof.
  destruct (open_draft_ok SESSION_EDITOR_MODE_BBS_EDIT poem 24 poem_fits) as (H & Hb & _ & _ & He & _).
  split; [exact H|]. split; [exact Hb|exact He].
Qed.

Lemma poem_lines : lines poem = [lit "one"; lit "two"; lit "three"].
Proof. by vm_compute. Qed.

Lemma plain_by b : forallb (fun c => negb (c =? c_lf)) b = true -> plain b.
Proof.
  induction b as [|c b IH]; [intros _; apply plain_nil|]. simpl.
  intros [Hc%negb_true_iff%Z.eqb_neq Hb]%andb_true_iff. apply plain_cons. auto.
Qed.

Lemma printable_by b : forallb (fun c => 32 <=? c) b = true -> Forall (fun c => 32 <= c) b.
Proof. intros H%forallb_Forall. eapply Forall_impl; [exact H|]. intros c. apply Z.leb_le. Qed.

(** No draft is finished in these samples. *)
Definition no_commit (e : editor) : option editor := None.

Lemma draft_refines_witness :
  let '(d', oks) := run_edits (dr post) [EditInsert 1 (lit "and"); EditReplace 0 (lit "uno"); EditRemove 3 2] in
  lines (body d') = [lit "uno"; lit "and"] /\ oks = [true; true; true].
Proof.
  assert (Hops : Forall edit_ok [EditInsert 1 (lit "and"); EditReplace 0 (lit "uno"); EditRemove 3 2]).
  { repeat apply Forall_cons_2; try apply Forall_nil_2; first [exact I|by apply plain_by]. }
  pose proof (draft_refines (dr post) _ (d_fits _ (e_draft _ (proj1 post_ok))) Hops) as H.
  destruct (run_edits _ _) as [d' oks]. destruct H as [H _].
  rewrite (proj1 (proj2 post_ok)), poem_lines in H.
  assert (doc_edits (editor_mode (dr post)) [lit "one"; lit "two"; lit "three"]
            [EditInsert 1 (lit "and"); EditReplace 0 (lit "uno"); EditRemove 3 2] =
          ([lit "uno"; lit "and"], [true; true; true])) as He by (by vm_compute).
  rewrite He in H. by apply pair_equal_spec in H.
Defined.

#[local] Opaque post.


Lemma search_finds_first_witness :
  exists e', fst (session_bbs_search_keyword post (lit "wo")) = (e', true) /\
    body (dr e') = poem /\ cursor_line (dr e') = 1%nat /\ editing_line (dr e') = true.
Proof.
  destruct (session_bbs_search_keyword post (lit "wo")) as [[e' ok] st] eqn:E.
  assert (ok = true) as ->.
  { transitivity (snd (fst (session_bbs_search_keyword post (lit "wo")))); [by rewrite E|by vm_compute]. }
  pose proof (search_finds_first post (lit "wo") e' true st (proj1 post_ok) ltac:(done) E) as H.
  cbv zeta in H. destruct H as [Hb (i & x & Hx & Hs & Hcu & He & _)].
  exists e'. split; [done|]. rewrite Hb, (proj1 (proj2 post_ok)). split; [done|]. split; [|done].
  transitivity (cursor_line (dr (fst (fst (session_bbs_search_keyword post (lit "wo"))))));
    [by rewrite E|by vm_compute].
Defined.

Lemma cursor_always_shown_witness :
  Some 0%nat ∈ map fst (render_body (session_bbs_render_editor post)).
Proof.
  pose proof (cursor_always_shown post (proj1 post_ok)) as H. cbv zeta in H. destruct H as (_ & _ & H).
  assert ((if (cursor_line (dr post) <? line_count (dr post))%nat then Some (cursor_line (dr post)) else None)
          = Some 0%nat) as He by (by vm_compute).
  by rewrite He in H.
Defined.

(** The post with its first line opened. *)
Definition first_open : editor := session_bbs_move_cursor post false.

Lemma first_open_ok : editor_ok first_open.
Proof. apply move_cursor_ok, post_ok. Qed.

Lemma arrow_saves_edit_witness :
  exists e', presses no_commit first_open [KeyText (lit "!")] = Some e' /\
    lines (body (dr (session_bbs_move_cursor e' false))) = [lit "one!"; lit "two"; lit "three"].
Proof.
  destruct (presses no_commit first_open [KeyText (lit "!")]) as [e'|] eqn:E; [|vm_compute in E; discriminate E].
  exists e'. split; [done|]. rewrite (arrow_saves_edit e' false).
  - transitivity (match presses no_commit first_open [KeyText (lit "!")] with
                  | Some e => canon (saved (dr e)) | None => [] end); [by rewrite E|by vm_compute].
  - cbn [presses press] in E. destruct (key_text no_commit first_open (lit "!")) as [e1|] eqn:E1; [|done].
    injection E as <-. refine (key_text_ok no_commit _ first_open (lit "!") e1 first_open_ok _ E1); [done|].
    by apply plain_by.
Defined.

Lemma walking_keeps_text_witness :
  exists e', presses no_commit post [KeyDown; KeyDown; KeyUp; KeyDown; KeyDown] = Some e' /\ body (dr e') = poem.
Proof.
  destruct (walking_keeps_text no_commit post [KeyDown; KeyDown; KeyUp; KeyDown; KeyDown]) as (e' & Hp & Hb).
  - apply post_ok.
  - intros H. by rewrite (proj2 (proj2 post_ok)) in H.
  - unfold short_lines. rewrite (proj1 (proj2 post_ok)), poem_lines.
    repeat apply Forall_cons_2; try apply Forall_nil_2; unfold SSH_CHATTER_MAX_INPUT_LEN; simpl; lia.
  - repeat apply Forall_cons_2; try apply Forall_nil_2; naive_solver.
  - exists e'. split; [done|]. by rewrite Hb, (proj1 (proj2 post_ok)).
Defined.

(** The post while a search for [two] is typed. *)
Definition searching : editor :=
  clear_input_of (with_search post true (cursor_line (dr post)) (editing_line (dr post)) 0).

Definition searching_two : editor := with_draft searching (with_input (dr searching) (lit "two")).

Lemma search_erases_line_witness :
  exists e', presses no_commit searching_two [KeyReturn; KeyDown] = Some e' /\
    lines (body (dr e')) = [lit "one"; []; lit "three"].
Proof.
  assert (Hb : lines (body (dr searching_two)) = [lit "one"; lit "two"; lit "three"]) by (by vm_compute).
  destruct (search_erases_line no_commit searching_two false) as (i & x & e' & Hx & Hs & Hp & Hl).
  - apply with_input_ok; [apply clear_input_of_ok, search_ok, post_ok|by apply plain_by|].
    unfold SSH_CHATTER_MAX_INPUT_LEN. simpl. lia.
  - done.
  - by vm_compute.
  - done.
  - rewrite Hb. apply Exists_cons_tl, Exists_cons_hd. exists [], []. by vm_compute.
  - cbv iota in Hp. exists e'. split; [exact Hp|].
    transitivity (match presses no_commit searching_two [KeyReturn; KeyDown] with
                  | Some e => lines (body (dr e)) | None => [] end); [by rewrite Hp|by vm_compute].
Defined.

(** The post with its first line selected and the cursor on the second. *)
Definition selected : editor := with_selection (session_bbs_move_cursor first_open false) 0 true 0 false.

Lemma selected_ok : editor_ok selected.
Proof. apply with_selection_ok; [apply move_cursor_ok, first_open_ok|lia]. Qed.

#[local] Opaque selected.

Lemma cut_then_paste_witness :
  body (dr (key_cut selected)) = lit "three" /\ body (dr (key_paste (key_cut selected))) = poem.
Proof.
  split; [by vm_compute|]. transitivity (body (dr selected)); [|by vm_compute].
  apply (cut_then_paste selected [] [lit "one"] (lit "two") [lit "three"] selected_ok).
  - by vm_compute.
  - by vm_compute.
  - by vm_compute.
  - by vm_compute.
  - by apply Exists_cons_hd.
  - intros H. by vm_compute in H.
  - repeat apply Forall_cons_2; try apply Forall_nil_2; unfold SSH_CHATTER_MESSAGE_LIMIT; simpl; lia.
  - assert (line_count (dr selected) = 3%nat) as -> by (by vm_compute).
    assert (editor_mode (dr selected) = SESSION_EDITOR_MODE_BBS_EDIT) as -> by (by vm_compute).
    unfold session_editor_max_lines, SSH_CHATTER_BBS_MAX_LINES. lia.
Defined.

Definition blank : editor := open_draft SESSION_EDITOR_MODE_BBS_CREATE [] [] 24.

Lemma blank_ok : resting blank /\ body (dr blank) = [] /\ editor_mode (dr blank) = SESSION_EDITOR_MODE_BBS_CREATE.
Proof.
  destruct (open_draft_ok SESSION_EDITOR_MODE_BBS_CREATE [] 24) as (_ & Hb & Hm & _ & _ & Hr); [apply Nat.le_0_l|].
  split; [exact (Hr eq_refl)|]. split; [exact Hb|exact Hm].
Qed.

#[local] Opaque blank.

Lemma typed_text_kept_witness :
  exists e', presses no_commit blank (concat (map type_line [lit "one"; []; lit "two"])) = Some e' /\
    body (dr e') = lit "one" ++ c_lf :: c_lf :: lit "two".
Proof.
  destruct blank_ok as (Hr & Hb & Hm).
  destruct (typed_text_kept no_commit blank [lit "one"; []; lit "two"] Hr Hb) as (e' & Hp & _ & He).
  - rewrite Hm.
    repeat apply Forall_cons_2; try apply Forall_nil_2; (split; [by apply printable_by|]);
      (split; [unfold SSH_CHATTER_MAX_INPUT_LEN; simpl; lia|by vm_compute]).
  - by vm_compute.
  - pose proof body_len_big. simpl. lia.
  - rewrite Hm. unfold session_editor_max_lines, SSH_CHATTER_BBS_MAX_LINES. simpl. lia.
  - exists e'. split; [exact Hp|exact He].
Defined.

End EditorSamples.
