(* ===== verification/BbsPosts.v ===== *)
(** The bulletin board: posts with their comments in arrays the posts point
    to, votes, flood limits, notifications, reports, mutes and the moderation
    log ([src/host/commands/bbs.c]), and the state file of the posts
    ([src/host/storage/bbs_storage.c], [src/host/transport/state_types.c]). *)

From Stdlib Require Import ZArith Lia String Ascii.
From stdpp Require Import prelude.
From S2P Require Import Prelude FileTransfer BbsEditor.

Module Posts.

Definition SSH_CHATTER_BBS_USERNAME_LEN : nat := 256.
Definition SSH_CHATTER_BBS_MAX_POSTS : nat := 256.
Definition SSH_CHATTER_BBS_TITLE_LEN : nat := 512.
Definition SSH_CHATTER_BBS_TAG_LEN : nat := 24.
Definition SSH_CHATTER_BBS_MAX_TAGS : nat := 4.
Definition SSH_CHATTER_BBS_MAX_COMMENTS : nat := 64.
Definition SSH_CHATTER_BBS_COMMENT_LEN : nat := 512.
Definition SSH_CHATTER_BBS_MAX_RATE_LIMITS : nat := 128.
Definition SSH_CHATTER_BBS_MAX_NOTIFICATIONS : nat := 256.
Definition SSH_CHATTER_BBS_MAX_REPORTS : nat := 256.
Definition SSH_CHATTER_BBS_MAX_MUTES : nat := 256.
Definition SSH_CHATTER_BBS_MAX_MODLOG : nat := 512.
Definition SSH_CHATTER_BBS_ID_SANE_MAX : Z := 1099511627776.
Definition SSH_CHATTER_BBS_MOD_FLAG_HIDDEN : Z := 1.
Definition SSH_CHATTER_BBS_MOD_FLAG_PINNED : Z := 2.
Definition SSH_CHATTER_BBS_DEFAULT_TAG : bytes := lit "general".

Arguments SSH_CHATTER_BBS_USERNAME_LEN : simpl never.
Arguments SSH_CHATTER_BBS_MAX_POSTS : simpl never.
Arguments SSH_CHATTER_BBS_TITLE_LEN : simpl never.
Arguments SSH_CHATTER_BBS_MAX_COMMENTS : simpl never.
Arguments SSH_CHATTER_BBS_COMMENT_LEN : simpl never.
Arguments SSH_CHATTER_BBS_MAX_NOTIFICATIONS : simpl never.
Arguments SSH_CHATTER_BBS_MAX_REPORTS : simpl never.
Arguments SSH_CHATTER_BBS_MAX_MUTES : simpl never.
Arguments SSH_CHATTER_BBS_MAX_MODLOG : simpl never.

(** *** Data *)

Record bbs_comment := {
  cm_author : bytes;
  cm_text : bytes;
  cm_created_at : Z;
  cm_edited_at : Z;
  cm_upvotes : Z;
  cm_downvotes : Z
}.

(** [comments] is a pointer: the number of an array of [comment_store]. *)
Record bbs_post := {
  in_use : bool;
  post_id : Z;
  board_id : Z;
  mod_flags : Z;
  author : bytes;
  title : bytes;
  body : bytes;
  tags : list bytes;
  tag_count : nat;
  created_at : Z;
  bumped_at : Z;
  upvotes : Z;
  downvotes : Z;
  comments : nat;
  comment_count : nat
}.

Record bbs_vote := {
  target_post_id : Z;
  target_comment_idx : Z;
  voter_username : bytes;
  vote_type : Z;
  vt_created_at : Z
}.

Record bbs_rate_limit_entry := {
  rl_username : bytes;
  last_comment_at : Z;
  last_post_at : Z
}.

Record bbs_notification := {
  nt_kind : Z;
  nt_to : bytes;
  nt_from : bytes;
  nt_post_id : Z;
  nt_comment_idx : Z;
  nt_created_at : Z
}.

Record bbs_report := {
  rp_post_id : Z;
  reporter : bytes;
  reason : bytes;
  status : Z;
  rp_created_at : Z
}.

Record bbs_mute := {
  mt_username : bytes;
  until : Z;
  muted_by : bytes;
  mt_created_at : Z
}.

Record bbs_modlog_entry := {
  ml_created_at : Z;
  ml_actor : bytes;
  ml_action : bytes;
  ml_target : bytes
}.

(** An entry of the state file; a comment of the file has the fields of a
    comment in memory. *)
Record bbs_state_post_entry_disk := {
  d_id : Z;
  d_board_id : Z;
  d_mod_flags : Z;
  d_created_at : Z;
  d_bumped_at : Z;
  d_upvotes : Z;
  d_downvotes : Z;
  d_tag_count : nat;
  d_comment_count : nat;
  d_author : bytes;
  d_title : bytes;
  d_body : bytes;
  d_tags : list bytes;
  d_comments : list bbs_comment
}.

(** The file: the two fields of its header that vary, and the entries that
    follow. *)
Record bbs_state_file := {
  post_count : nat;
  next_id : Z;
  entries : list bbs_state_post_entry_disk
}.

(** The part of the host the board uses.  An empty [bbs_posts] is the null
    pointer; its length is the capacity.  The arrays of the notifications,
    reports, mutes and log entries are allocated at their full capacity when
    first used; only their used parts are kept. *)
Record host := {
  bbs_posts : list bbs_post;
  comment_store : list (list bbs_comment);
  bbs_post_count : nat;
  next_bbs_id : Z;
  bbs_cache_loaded : bool;
  bbs_votes : list bbs_vote;
  bbs_vote_capacity : nat;
  bbs_rate_limits : list bbs_rate_limit_entry;
  bbs_notifications : list bbs_notification;
  bbs_reports : list bbs_report;
  bbs_mutes : list bbs_mute;
  bbs_modlog : list bbs_modlog_entry;
  bbs_comment_edit_enabled : bool;
  bbs_comment_delete_enabled : bool;
  operators_online : list bytes;
  state_file : option bbs_state_file
}.

(** *** Field updates *)

Definition set_votes (p : bbs_post) (up down : Z) : bbs_post :=
  {| in_use := in_use p; post_id := post_id p; board_id := board_id p; mod_flags := mod_flags p;
     author := author p; title := title p; body := body p; tags := tags p;
     tag_count := tag_count p; created_at := created_at p; bumped_at := bumped_at p;
     upvotes := up; downvotes := down; comments := comments p;
     comment_count := comment_count p |}.

Definition set_mod_flags (p : bbs_post) (f : Z) : bbs_post :=
  {| in_use := in_use p; post_id := post_id p; board_id := board_id p; mod_flags := f;
     author := author p; title := title p; body := body p; tags := tags p;
     tag_count := tag_count p; created_at := created_at p; bumped_at := bumped_at p;
     upvotes := upvotes p; downvotes := downvotes p; comments := comments p;
     comment_count := comment_count p |}.

Definition set_bumped (p : bbs_post) (t : Z) : bbs_post :=
  {| in_use := in_use p; post_id := post_id p; board_id := board_id p; mod_flags := mod_flags p;
     author := author p; title := title p; body := body p; tags := tags p;
     tag_count := tag_count p; created_at := created_at p; bumped_at := t;
     upvotes := upvotes p; downvotes := downvotes p; comments := comments p;
     comment_count := comment_count p |}.

Definition set_comment_count (p : bbs_post) (n : nat) : bbs_post :=
  {| in_use := in_use p; post_id := post_id p; board_id := board_id p; mod_flags := mod_flags p;
     author := author p; title := title p; body := body p; tags := tags p;
     tag_count := tag_count p; created_at := created_at p; bumped_at := bumped_at p;
     upvotes := upvotes p; downvotes := downvotes p; comments := comments p;
     comment_count := n |}.

Definition set_in_use (p : bbs_post) (b : bool) (i : Z) : bbs_post :=
  {| in_use := b; post_id := i; board_id := board_id p; mod_flags := mod_flags p;
     author := author p; title := title p; body := body p; tags := tags p;
     tag_count := tag_count p; created_at := created_at p; bumped_at := bumped_at p;
     upvotes := upvotes p; downvotes := downvotes p; comments := comments p;
     comment_count := comment_count p |}.

Definition set_text (p : bbs_post) (ti bo : bytes) (ts : list bytes) (n : nat) (t : Z) : bbs_post :=
  {| in_use := in_use p; post_id := post_id p; board_id := board_id p; mod_flags := mod_flags p;
     author := author p; title := ti; body := bo; tags := ts; tag_count := n;
     created_at := created_at p; bumped_at := t; upvotes := upvotes p;
     downvotes := downvotes p; comments := comments p; comment_count := comment_count p |}.

Definition set_origin (p : bbs_post) (b : Z) (a : bytes) : bbs_post :=
  {| in_use := in_use p; post_id := post_id p; board_id := b; mod_flags := mod_flags p; author := a;
     title := title p; body := body p; tags := tags p; tag_count := tag_count p;
     created_at := created_at p; bumped_at := bumped_at p; upvotes := upvotes p;
     downvotes := downvotes p; comments := comments p; comment_count := comment_count p |}.

Definition set_comment_votes (c : bbs_comment) (up down : Z) : bbs_comment :=
  {| cm_author := cm_author c; cm_text := cm_text c; cm_created_at := cm_created_at c;
     cm_edited_at := cm_edited_at c; cm_upvotes := up; cm_downvotes := down |}.

Definition set_comment_text (c : bbs_comment) (text : bytes) (t : Z) : bbs_comment :=
  {| cm_author := cm_author c; cm_text := text; cm_created_at := cm_created_at c;
     cm_edited_at := t; cm_upvotes := cm_upvotes c; cm_downvotes := cm_downvotes c |}.

Definition with_posts (h : host) (l : list bbs_post) : host :=
  {| bbs_posts := l; comment_store := comment_store h; bbs_post_count := bbs_post_count h;
     next_bbs_id := next_bbs_id h; bbs_cache_loaded := bbs_cache_loaded h;
     bbs_votes := bbs_votes h; bbs_vote_capacity := bbs_vote_capacity h;
     bbs_rate_limits := bbs_rate_limits h; bbs_notifications := bbs_notifications h;
     bbs_reports := bbs_reports h; bbs_mutes := bbs_mutes h; bbs_modlog := bbs_modlog h;
     bbs_comment_edit_enabled := bbs_comment_edit_enabled h;
     bbs_comment_delete_enabled := bbs_comment_delete_enabled h;
     operators_online := operators_online h; state_file := state_file h |}.

Definition with_store (h : host) (s : list (list bbs_comment)) : host :=
  {| bbs_posts := bbs_posts h; comment_store := s; bbs_post_count := bbs_post_count h;
     next_bbs_id := next_bbs_id h; bbs_cache_loaded := bbs_cache_loaded h;
     bbs_votes := bbs_votes h; bbs_vote_capacity := bbs_vote_capacity h;
     bbs_rate_limits := bbs_rate_limits h; bbs_notifications := bbs_notifications h;
     bbs_reports := bbs_reports h; bbs_mutes := bbs_mutes h; bbs_modlog := bbs_modlog h;
     bbs_comment_edit_enabled := bbs_comment_edit_enabled h;
     bbs_comment_delete_enabled := bbs_comment_delete_enabled h;
     operators_online := operators_online h; state_file := state_file h |}.

Definition with_counts (h : host) (n : nat) (next : Z) : host :=
  {| bbs_posts := bbs_posts h; comment_store := comment_store h; bbs_post_count := n;
     next_bbs_id := next; bbs_cache_loaded := bbs_cache_loaded h; bbs_votes := bbs_votes h;
     bbs_vote_capacity := bbs_vote_capacity h; bbs_rate_limits := bbs_rate_limits h;
     bbs_notifications := bbs_notifications h; bbs_reports := bbs_reports h;
     bbs_mutes := bbs_mutes h; bbs_modlog := bbs_modlog h;
     bbs_comment_edit_enabled := bbs_comment_edit_enabled h;
     bbs_comment_delete_enabled := bbs_comment_delete_enabled h;
     operators_online := operators_online h; state_file := state_file h |}.

Definition with_loaded (h : host) (b : bool) : host :=
  {| bbs_posts := bbs_posts h; comment_store := comment_store h;
     bbs_post_count := bbs_post_count h; next_bbs_id := next_bbs_id h; bbs_cache_loaded := b;
     bbs_votes := bbs_votes h; bbs_vote_capacity := bbs_vote_capacity h;
     bbs_rate_limits := bbs_rate_limits h; bbs_notifications := bbs_notifications h;
     bbs_reports := bbs_reports h; bbs_mutes := bbs_mutes h; bbs_modlog := bbs_modlog h;
     bbs_comment_edit_enabled := bbs_comment_edit_enabled h;
     bbs_comment_delete_enabled := bbs_comment_delete_enabled h;
     operators_online := operators_online h; state_file := state_file h |}.

Definition with_votes (h : host) (l : list bbs_vote) : host :=
  {| bbs_posts := bbs_posts h; comment_store := comment_store h;
     bbs_post_count := bbs_post_count h; next_bbs_id := next_bbs_id h;
     bbs_cache_loaded := bbs_cache_loaded h; bbs_votes := l;
     bbs_vote_capacity := bbs_vote_capacity h; bbs_rate_limits := bbs_rate_limits h;
     bbs_notifications := bbs_notifications h; bbs_reports := bbs_reports h;
     bbs_mutes := bbs_mutes h; bbs_modlog := bbs_modlog h;
     bbs_comment_edit_enabled := bbs_comment_edit_enabled h;
     bbs_comment_delete_enabled := bbs_comment_delete_enabled h;
     operators_online := operators_online h; state_file := state_file h |}.

Definition with_rate_limits (h : host) (l : list bbs_rate_limit_entry) : host :=
  {| bbs_posts := bbs_posts h; comment_store := comment_store h;
     bbs_post_count := bbs_post_count h; next_bbs_id := next_bbs_id h;
     bbs_cache_loaded := bbs_cache_loaded h; bbs_votes := bbs_votes h;
     bbs_vote_capacity := bbs_vote_capacity h; bbs_rate_limits := l;
     bbs_notifications := bbs_notifications h; bbs_reports := bbs_reports h;
     bbs_mutes := bbs_mutes h; bbs_modlog := bbs_modlog h;
     bbs_comment_edit_enabled := bbs_comment_edit_enabled h;
     bbs_comment_delete_enabled := bbs_comment_delete_enabled h;
     operators_online := operators_online h; state_file := state_file h |}.

Definition with_notifications (h : host) (l : list bbs_notification) : host :=
  {| bbs_posts := bbs_posts h; comment_store := comment_store h;
     bbs_post_count := bbs_post_count h; next_bbs_id := next_bbs_id h;
     bbs_cache_loaded := bbs_cache_loaded h; bbs_votes := bbs_votes h;
     bbs_vote_capacity := bbs_vote_capacity h; bbs_rate_limits := bbs_rate_limits h;
     bbs_notifications := l; bbs_reports := bbs_reports h; bbs_mutes := bbs_mutes h;
     bbs_modlog := bbs_modlog h; bbs_comment_edit_enabled := bbs_comment_edit_enabled h;
     bbs_comment_delete_enabled := bbs_comment_delete_enabled h;
     operators_online := operators_online h; state_file := state_file h |}.

Definition with_reports (h : host) (l : list bbs_report) : host :=
  {| bbs_posts := bbs_posts h; comment_store := comment_store h;
     bbs_post_count := bbs_post_count h; next_bbs_id := next_bbs_id h;
     bbs_cache_loaded := bbs_cache_loaded h; bbs_votes := bbs_votes h;
     bbs_vote_capacity := bbs_vote_capacity h; bbs_rate_limits := bbs_rate_limits h;
     bbs_notifications := bbs_notifications h; bbs_reports := l; bbs_mutes := bbs_mutes h;
     bbs_modlog := bbs_modlog h; bbs_comment_edit_enabled := bbs_comment_edit_enabled h;
     bbs_comment_delete_enabled := bbs_comment_delete_enabled h;
     operators_online := operators_online h; state_file := state_file h |}.

Definition with_mutes (h : host) (l : list bbs_mute) : host :=
  {| bbs_posts := bbs_posts h; comment_store := comment_store h;
     bbs_post_count := bbs_post_count h; next_bbs_id := next_bbs_id h;
     bbs_cache_loaded := bbs_cache_loaded h; bbs_votes := bbs_votes h;
     bbs_vote_capacity := bbs_vote_capacity h; bbs_rate_limits := bbs_rate_limits h;
     bbs_notifications := bbs_notifications h; bbs_reports := bbs_reports h; bbs_mutes := l;
     bbs_modlog := bbs_modlog h; bbs_comment_edit_enabled := bbs_comment_edit_enabled h;
     bbs_comment_delete_enabled := bbs_comment_delete_enabled h;
     operators_online := operators_online h; state_file := state_file h |}.

Definition with_modlog (h : host) (l : list bbs_modlog_entry) : host :=
  {| bbs_posts := bbs_posts h; comment_store := comment_store h;
     bbs_post_count := bbs_post_count h; next_bbs_id := next_bbs_id h;
     bbs_cache_loaded := bbs_cache_loaded h; bbs_votes := bbs_votes h;
     bbs_vote_capacity := bbs_vote_capacity h; bbs_rate_limits := bbs_rate_limits h;
     bbs_notifications := bbs_notifications h; bbs_reports := bbs_reports h;
     bbs_mutes := bbs_mutes h; bbs_modlog := l;
     bbs_comment_edit_enabled := bbs_comment_edit_enabled h;
     bbs_comment_delete_enabled := bbs_comment_delete_enabled h;
     operators_online := operators_online h; state_file := state_file h |}.

Definition with_file (h : host) (f : option bbs_state_file) : host :=
  {| bbs_posts := bbs_posts h; comment_store := comment_store h;
     bbs_post_count := bbs_post_count h; next_bbs_id := next_bbs_id h;
     bbs_cache_loaded := bbs_cache_loaded h; bbs_votes := bbs_votes h;
     bbs_vote_capacity := bbs_vote_capacity h; bbs_rate_limits := bbs_rate_limits h;
     bbs_notifications := bbs_notifications h; bbs_reports := bbs_reports h;
     bbs_mutes := bbs_mutes h; bbs_modlog := bbs_modlog h;
     bbs_comment_edit_enabled := bbs_comment_edit_enabled h;
     bbs_comment_delete_enabled := bbs_comment_delete_enabled h;
     operators_online := operators_online h; state_file := f |}.

(** *** Arrays *)

(** The first index that passes the test: the [for] loops that search. *)
Fixpoint find_index {A} (f : A -> bool) (l : list A) : option nat :=
  match l with
  | [] => None
  | x :: t => if f x then Some O else option_map S (find_index f t)
  end.

(** Appending to an array of [capacity] entries; when it is full the oldest
    entry is dropped first ([memmove] by one). *)
Definition push_bounded {A} (capacity : nat) (l : list A) (x : A) : list A :=
  (if (capacity <=? length l)%nat then drop 1 l else l) ++ [x].

(** Is this name the user's: [strncmp(a, b, SSH_CHATTER_USERNAME_LEN) == 0]. *)
Definition same_name (a b : bytes) : bool := strn_eq SSH_CHATTER_BBS_USERNAME_LEN a b.

Definition cut_name (s : bytes) : bytes := snprintf_text SSH_CHATTER_BBS_USERNAME_LEN s.

(** *** The posts *)

Definition blank_array : list bbs_comment :=
  replicate SSH_CHATTER_BBS_MAX_COMMENTS
    {| cm_author := []; cm_text := []; cm_created_at := 0; cm_edited_at := 0;
       cm_upvotes := 0; cm_downvotes := 0 |}.

(** A post as [calloc] leaves it, with its array. *)
Definition zero_post (array : nat) : bbs_post :=
  {| in_use := false; post_id := 0; board_id := 0; mod_flags := 0; author := []; title := [];
     body := []; tags := replicate SSH_CHATTER_BBS_MAX_TAGS []; tag_count := 0; created_at := 0;
     bumped_at := 0; upvotes := 0; downvotes := 0; comments := array; comment_count := 0 |}.

Definition host_bbs_storage_ready (h : host) : bool := (0 <? length (bbs_posts h))%nat.

Definition host_bbs_acquire_storage (h : host) : host :=
  if host_bbs_storage_ready h then h
  else
    let base := length (comment_store h) in
    with_loaded
      (with_store
         (with_posts h (map zero_post (seq base SSH_CHATTER_BBS_MAX_POSTS)))
         (comment_store h ++ replicate SSH_CHATTER_BBS_MAX_POSTS blank_array))
      false.

Definition bbs_post_has_required_fields (p : bbs_post) : bool :=
  if negb (in_use p) then false
  else if post_id p =? 0 then false
  else negb ((peek (author p) =? c_nul) || (peek (title p) =? c_nul)).

Definition is_post (i : Z) (p : bbs_post) : bool :=
  bbs_post_has_required_fields p && (post_id p =? i).

Definition host_find_bbs_post_locked (h : host) (i : Z) : option nat :=
  if negb (host_bbs_storage_ready h) || (i =? 0) || (SSH_CHATTER_BBS_ID_SANE_MAX <? i) then None
  else if (SSH_CHATTER_BBS_MAX_POSTS <? length (bbs_posts h))%nat then None
  else find_index (is_post i) (bbs_posts h).

(** The comments of a post: the array it points to. *)
Definition comments_of (h : host) (p : bbs_post) : list bbs_comment :=
  default [] (comment_store h !! comments p).

Definition write_comments (h : host) (p : bbs_post) (f : list bbs_comment -> list bbs_comment) : host :=
  with_store h (alter f (comments p) (comment_store h)).

Definition alter_post (h : host) (i : nat) (f : bbs_post -> bbs_post) : host :=
  with_posts h (alter f i (bbs_posts h)).

(** A comment slot made empty by an allocation, and by a reset of its post. *)
Definition blank_comment (c : bbs_comment) : bbs_comment :=
  {| cm_author := []; cm_text := []; cm_created_at := 0; cm_edited_at := cm_edited_at c;
     cm_upvotes := cm_upvotes c; cm_downvotes := cm_downvotes c |}.

Definition reset_comment (c : bbs_comment) : bbs_comment :=
  {| cm_author := []; cm_text := []; cm_created_at := 0; cm_edited_at := 0;
     cm_upvotes := cm_upvotes c; cm_downvotes := cm_downvotes c |}.

(** What an allocation and a reset write into the post itself. *)
Definition allocated_post (p : bbs_post) (i now : Z) : bbs_post :=
  {| in_use := true; post_id := i; board_id := board_id p; mod_flags := mod_flags p; author := [];
     title := []; body := []; tags := replicate SSH_CHATTER_BBS_MAX_TAGS []; tag_count := 0;
     created_at := now; bumped_at := now; upvotes := upvotes p; downvotes := downvotes p;
     comments := comments p; comment_count := 0 |}.

Definition reset_post (p : bbs_post) : bbs_post :=
  {| in_use := false; post_id := 0; board_id := board_id p; mod_flags := 0; author := [];
     title := []; body := []; tags := replicate SSH_CHATTER_BBS_MAX_TAGS []; tag_count := 0;
     created_at := 0; bumped_at := 0; upvotes := upvotes p; downvotes := downvotes p;
     comments := comments p; comment_count := 0 |}.

(** The slot of the new post, if there is one left. *)
Definition host_allocate_bbs_post_locked (h : host) (now : Z) : option (host * nat) :=
  if negb (host_bbs_storage_ready h) then None
  else
    match find_index (fun p => negb (in_use p)) (bbs_posts h) with
    | None => None
    | Some i =>
        match bbs_posts h !! i with
        | None => None
        | Some p =>
            let h := alter_post h i (fun p => allocated_post p (next_bbs_id h) now) in
            let h := write_comments h p (map blank_comment) in
            Some (with_counts h
                    (if (bbs_post_count h <? SSH_CHATTER_BBS_MAX_POSTS)%nat
                     then S (bbs_post_count h) else bbs_post_count h)
                    (u64 (next_bbs_id h + 1)), i)
        end
    end.

Definition host_reset_bbs_post (h : host) (i : nat) : host :=
  match bbs_posts h !! i with
  | None => h
  | Some p => write_comments (alter_post h i reset_post) p (map reset_comment)
  end.

(** The loop that moves the posts in use to the front: whole structures are
    copied, the pointers to their comments with them. *)
Fixpoint compact_go (n idx write_index : nat) (l : list bbs_post) : list bbs_post * nat :=
  match n with
  | O => (l, write_index)
  | S n' =>
      match l !! idx with
      | None => (l, write_index)
      | Some p =>
          if negb (in_use p) then compact_go n' (S idx) write_index l
          else compact_go n' (S idx) (S write_index)
                 (if (write_index =? idx)%nat then l else <[write_index:=p]> l)
      end
  end.

Definition host_clear_bbs_post_locked (h : host) (i : nat) : host :=
  if negb (host_bbs_storage_ready h) then h
  else
    let h := host_reset_bbs_post h i in
    let (l, write_index) := compact_go (length (bbs_posts h)) 0 0 (bbs_posts h) in
    let h := with_posts h l in
    let h := fold_left host_reset_bbs_post
               (seq write_index (length (bbs_posts h) - write_index)) h in
    with_counts h write_index (next_bbs_id h).

(** *** Text *)

(** [ESC [1G] and [[1G]: the sequences that move to the first column. *)
Definition host_column_reset_sequence_length (text : bytes) : nat :=
  if is_prefix (c_esc :: lit "[1G") text then 4
  else if is_prefix (lit "[1G") text then 3
  else 0.

(** Every round drops a sequence or keeps a byte, so as many rounds as there
    are bytes are enough. *)
Fixpoint strip_column_reset_go (fuel : nat) (src : bytes) : bytes :=
  match fuel, src with
  | O, _ => []
  | _, [] => []
  | S f, c :: t =>
      let skip := host_column_reset_sequence_length src in
      if (0 <? skip)%nat then strip_column_reset_go f (drop skip src)
      else c :: strip_column_reset_go f t
  end.

Definition host_strip_column_reset (text : bytes) : bytes :=
  strip_column_reset_go (length text) text.

(** *** The state file *)

(** A decoded entry as the reader makes it safe to use: strings ended inside
    their fields, times that are missing set. *)
Definition host_bbs_text_has_disallowed_controls (text : bytes) : bool :=
  existsb (fun v => negb ((v =? c_lf) || (v =? c_cr) || (v =? 9)) &&
                    ((v <? 32) || (v =? 127))) text.

Definition host_bbs_serialized_has_required_fields (s : bbs_state_post_entry_disk) : bool :=
  if d_id s =? 0 then false
  else negb ((peek (d_author s) =? c_nul) || (peek (d_title s) =? c_nul)).

Definition host_bbs_serialized_is_sane (s : bbs_state_post_entry_disk) (now : Z) : bool :=
  if host_bbs_text_has_disallowed_controls (d_author s) ||
     host_bbs_text_has_disallowed_controls (d_title s) then false
  else if (d_created_at s <? 946684800) || (d_bumped_at s <? d_created_at s) ||
          (now + 7 * 24 * 60 * 60 <? d_bumped_at s) then false
  else match strstr (d_title s) (lit "[BREAKING NEWS]") with Some _ => false | None => true end.

Definition serialized_comment (c : bbs_comment) : bbs_comment :=
  {| cm_author := cut_name (cm_author c);
     cm_text := snprintf_text SSH_CHATTER_BBS_COMMENT_LEN (cm_text c);
     cm_created_at := cm_created_at c; cm_edited_at := cm_edited_at c;
     cm_upvotes := cm_upvotes c; cm_downvotes := cm_downvotes c |}.

Definition serialize_post (h : host) (p : bbs_post) : bbs_state_post_entry_disk :=
  let tag_count := Nat.min (tag_count p) SSH_CHATTER_BBS_MAX_TAGS in
  let comment_count := Nat.min (comment_count p) SSH_CHATTER_BBS_MAX_COMMENTS in
  {| d_id := post_id p; d_board_id := board_id p; d_mod_flags := mod_flags p;
     d_created_at := created_at p; d_bumped_at := bumped_at p; d_upvotes := upvotes p;
     d_downvotes := downvotes p; d_tag_count := tag_count; d_comment_count := comment_count;
     d_author := cut_name (author p);
     d_title := snprintf_text SSH_CHATTER_BBS_TITLE_LEN (title p);
     d_body := snprintf_text Editor.SSH_CHATTER_BBS_BODY_LEN (body p);
     d_tags := map (snprintf_text SSH_CHATTER_BBS_TAG_LEN) (take tag_count (tags p));
     d_comments := map serialized_comment (take comment_count (comments_of h p)) |}.

Definition used (p : bbs_post) : Prop := in_use p = true.
#[export] Instance used_dec p : Decision (used p) := bool_eq_dec (in_use p) true.

Definition host_bbs_state_save_locked (h : host) : host :=
  if negb (host_bbs_storage_ready h) then h
  else
    let kept := filter used (bbs_posts h) in
    with_file h (Some {| post_count := length kept; next_id := next_bbs_id h;
                         entries := map (serialize_post h) kept |}).

Definition normalized_comment (now : Z) (c : bbs_comment) : bbs_comment :=
  {| cm_author := cut_name (cm_author c);
     cm_text := snprintf_text SSH_CHATTER_BBS_COMMENT_LEN (cm_text c);
     cm_created_at := if cm_created_at c <=? 0 then now else cm_created_at c;
     cm_edited_at := cm_edited_at c; cm_upvotes := cm_upvotes c; cm_downvotes := cm_downvotes c |}.

Definition normalize_entry (now : Z) (s : bbs_state_post_entry_disk) : bbs_state_post_entry_disk :=
  let created := if d_created_at s <=? 0 then now else d_created_at s in
  {| d_id := d_id s; d_board_id := d_board_id s; d_mod_flags := d_mod_flags s;
     d_created_at := created;
     d_bumped_at := if (d_bumped_at s <=? 0) || (d_bumped_at s <? created) then created
                    else d_bumped_at s;
     d_upvotes := d_upvotes s; d_downvotes := d_downvotes s; d_tag_count := d_tag_count s;
     d_comment_count := d_comment_count s;
     d_author := cut_name (d_author s);
     d_title := snprintf_text SSH_CHATTER_BBS_TITLE_LEN (d_title s);
     d_body := snprintf_text Editor.SSH_CHATTER_BBS_BODY_LEN (d_body s);
     d_tags := map (snprintf_text SSH_CHATTER_BBS_TAG_LEN) (d_tags s);
     d_comments := map (normalized_comment now) (d_comments s) |}.

(** The comment the loader stores, and the post. *)
Definition loaded_comment (c : bbs_comment) : bbs_comment :=
  {| cm_author := host_strip_column_reset (cut_name (cm_author c));
     cm_text := host_strip_column_reset (snprintf_text SSH_CHATTER_BBS_COMMENT_LEN (cm_text c));
     cm_created_at := cm_created_at c; cm_edited_at := cm_edited_at c;
     cm_upvotes := cm_upvotes c; cm_downvotes := cm_downvotes c |}.

Definition loaded_post (s : bbs_state_post_entry_disk) (array : nat) : bbs_post :=
  let tag_limit := Nat.min (d_tag_count s) SSH_CHATTER_BBS_MAX_TAGS in
  let texts := map (fun t => host_strip_column_reset (snprintf_text SSH_CHATTER_BBS_TAG_LEN t))
                 (take tag_limit (d_tags s)) in
  {| in_use := true; post_id := d_id s; board_id := d_board_id s; mod_flags := d_mod_flags s;
     author := host_strip_column_reset (cut_name (d_author s));
     title := host_strip_column_reset (snprintf_text SSH_CHATTER_BBS_TITLE_LEN (d_title s));
     body := host_strip_column_reset (snprintf_text Editor.SSH_CHATTER_BBS_BODY_LEN (d_body s));
     tags := texts ++ replicate (SSH_CHATTER_BBS_MAX_TAGS - length texts) [];
     tag_count := tag_limit; created_at := d_created_at s; bumped_at := d_bumped_at s;
     upvotes := d_upvotes s; downvotes := d_downvotes s; comments := array;
     comment_count := Nat.min (d_comment_count s) SSH_CHATTER_BBS_MAX_COMMENTS |}.

(** The posts and comments emptied before loading and after a failure. *)
Definition emptied_post (p : bbs_post) : bbs_post :=
  {| in_use := false; post_id := 0; board_id := 0; mod_flags := mod_flags p; author := [];
     title := []; body := []; tags := tags p; tag_count := 0; created_at := 0; bumped_at := 0;
     upvotes := 0; downvotes := 0; comments := comments p; comment_count := 0 |}.

Definition empty_board (h : host) : host :=
  with_counts
    (with_store
       (with_posts h (map emptied_post (bbs_posts h)))
       (fold_left (fun s p => alter (fun _ => blank_array) (comments p) s) (bbs_posts h)
          (comment_store h)))
    0 (next_bbs_id h).

(** The loop over the entries; [success] is false when the file ends before
    [post_count] entries were read. *)
Fixpoint load_go (n idx : nat) (es : list bbs_state_post_entry_disk) (h : host) (max_id now : Z)
  : host * Z * bool :=
  match n with
  | O => (h, max_id, true)
  | S n' =>
      match es with
      | [] => (h, max_id, false)
      | e :: es' =>
          let s := normalize_entry now e in
          if negb (host_bbs_serialized_has_required_fields s) ||
             negb (host_bbs_serialized_is_sane s now)
          then load_go n' (S idx) es' h max_id now
          else
            let max_id := Z.max max_id (d_id s) in
            if (length (bbs_posts h) <=? idx)%nat then load_go n' (S idx) es' h max_id now
            else
              match bbs_posts h !! bbs_post_count h with
              | None => load_go n' (S idx) es' h max_id now
              | Some p =>
                  let limit := Nat.min (d_comment_count s) SSH_CHATTER_BBS_MAX_COMMENTS in
                  let cs := map loaded_comment (take limit (d_comments s)) in
                  let h := alter_post h (bbs_post_count h) (fun p => loaded_post s (comments p)) in
                  let h := write_comments h p (fun a => cs ++ drop (length cs) a) in
                  load_go n' (S idx) es' (with_counts h (S (bbs_post_count h)) (next_bbs_id h))
                    max_id now
              end
      end
  end.

Definition host_bbs_state_load (h : host) (clock : Z) : host :=
  if negb (host_bbs_storage_ready h) then with_loaded h false
  else
    match state_file h with
    | None => with_loaded h true
    | Some f =>
        let now := if clock <=? 0 then 1 else clock in
        let '(h', max_id, success) := load_go (post_count f) 0 (entries f) (empty_board h) 0 now in
        let h' :=
          if success then
            with_counts h' (bbs_post_count h')
              (if (next_id f =? 0) || (next_id f <=? max_id) then u64 (max_id + 1) else next_id f)
          else with_counts (empty_board h') 0 1 in
        with_loaded h' true
    end.

Definition session_bbs_ensure_live_storage (h : host) (now : Z) : host * bool :=
  let h := host_bbs_acquire_storage h in
  let h := if bbs_cache_loaded h then h else host_bbs_state_load h now in
  (h, host_bbs_storage_ready h).

End Posts.

Module Queues.
Import Posts.

(** *** Flood limits *)

Definition host_bbs_rate_limit_find_locked (h : host) (username : bytes) : option nat :=
  find_index (fun e => same_name (rl_username e) username) (bbs_rate_limits h).

(** The search for the entry to evict, from [oldest = (time_t)-1]. *)
Fixpoint eviction_slot (l : list bbs_rate_limit_entry) (idx : nat) (oldest : Z) (slot : nat) : nat :=
  match l with
  | [] => slot
  | e :: t =>
      let stamp := if last_comment_at e <? last_post_at e then last_post_at e else last_comment_at e in
      if stamp <? oldest then eviction_slot t (S idx) stamp idx
      else eviction_slot t (S idx) oldest slot
  end.

Definition host_bbs_rate_limit_ensure_locked (h : host) (username : bytes) : option (host * nat) :=
  if peek username =? c_nul then None
  else
    match host_bbs_rate_limit_find_locked h username with
    | Some i => Some (h, i)
    | None =>
        let l := bbs_rate_limits h in
        let entry := {| rl_username := cut_name username; last_comment_at := 0; last_post_at := 0 |} in
        if (length l <? SSH_CHATTER_BBS_MAX_RATE_LIMITS)%nat
        then Some (with_rate_limits h (l ++ [entry]), length l)
        else
          let slot := eviction_slot l 0 (-1) 0 in
          Some (with_rate_limits h (<[slot:=entry]> l), slot)
    end.

Definition stamp_comment (t : Z) (e : bbs_rate_limit_entry) : bbs_rate_limit_entry :=
  {| rl_username := rl_username e; last_comment_at := t; last_post_at := last_post_at e |}.

Definition stamp_post (t : Z) (e : bbs_rate_limit_entry) : bbs_rate_limit_entry :=
  {| rl_username := rl_username e; last_comment_at := last_comment_at e; last_post_at := t |}.

Definition note_activity (h : host) (username : bytes)
  (f : bbs_rate_limit_entry -> bbs_rate_limit_entry) : host :=
  match host_bbs_rate_limit_ensure_locked h username with
  | None => h
  | Some (h, i) => with_rate_limits h (alter f i (bbs_rate_limits h))
  end.

(** *** Notifications *)

Definition host_bbs_notification_enqueue_locked (h : host) (kind : Z) (to from : bytes)
  (post comment_idx now : Z) : host :=
  if (peek to =? c_nul) || (peek from =? c_nul) then h
  else
    with_notifications h
      (push_bounded SSH_CHATTER_BBS_MAX_NOTIFICATIONS (bbs_notifications h)
         {| nt_kind := kind; nt_to := cut_name to; nt_from := cut_name from; nt_post_id := post;
            nt_comment_idx := comment_idx; nt_created_at := now |}).

Definition host_bbs_notification_drop_for_post_locked (h : host) (post : Z) : host :=
  with_notifications h (filter (fun n => nt_post_id n <> post) (bbs_notifications h)).

Definition name_char (c : Z) : bool := islower c || isupper c || isdigit c || (c =? c_underscore).

(** Every round moves past an [@], so as many rounds as there are bytes are
    enough. *)
Fixpoint scan_mentions_go (fuel : nat) (cursor : bytes) (names : list bytes) (max_names : nat)
  : list bytes :=
  match fuel with
  | O => names
  | S f =>
      if (peek cursor =? c_nul) || (max_names <=? length names)%nat then names
      else
        match strchr cursor c_at with
        | None => names
        | Some at_ =>
            let name_start := drop 1 at_ in
            let candidate := take (SSH_CHATTER_BBS_USERNAME_LEN - 1) (take_while name_char name_start) in
            match candidate with
            | [] => scan_mentions_go f name_start names max_names
            | _ =>
                scan_mentions_go f (drop (length candidate) name_start)
                  (if existsb (fun n => same_name n candidate) names then names
                   else names ++ [candidate])
                  max_names
            end
        end
  end.

Definition session_bbs_scan_mentions (text : bytes) (max_names : nat) : list bytes :=
  scan_mentions_go (length text) text [] max_names.

Section Mentions.
Context (user_data_load : bytes -> bool).

Definition session_bbs_notify_mentions_locked (h : host) (text actor : bytes)
  (post comment_idx now : Z) : host :=
  fold_left
    (fun h name =>
       if same_name name actor then h
       else if negb (user_data_load name) then h
       else host_bbs_notification_enqueue_locked h 1 name actor post comment_idx now)
    (session_bbs_scan_mentions text 8) h.

End Mentions.

(** *** Reports *)

Definition is_open_report (post : Z) (r : bbs_report) : bool :=
  (rp_post_id r =? post) && (status r =? 0).

Definition host_bbs_report_enqueue_locked (h : host) (post : Z) (who why : bytes) (now : Z)
  : option host :=
  if peek who =? c_nul then None
  else if existsb (fun r => is_open_report post r && same_name (reporter r) who) (bbs_reports h)
  then None
  else
    let l := bbs_reports h in
    let l :=
      if (SSH_CHATTER_BBS_MAX_REPORTS <=? length l)%nat then
        let victim := default O (find_index (fun r => negb (status r =? 0)) l) in
        take victim l ++ drop (S victim) l
      else l in
    Some (with_reports h
            (l ++ [{| rp_post_id := post; reporter := cut_name who;
                      reason := snprintf_text 128 why; status := 0; rp_created_at := now |}])).

Definition resolve_report (post : Z) (r : bbs_report) : bbs_report :=
  if is_open_report post r
  then {| rp_post_id := rp_post_id r; reporter := reporter r; reason := reason r; status := 1;
          rp_created_at := rp_created_at r |}
  else r.

Definition host_bbs_reports_resolve_for_post_locked (h : host) (post : Z) : host :=
  with_reports h (map (resolve_report post) (bbs_reports h)).

(** *** Mutes *)

Definition host_bbs_mute_find_locked (h : host) (username : bytes) : option nat :=
  find_index (fun m => same_name (mt_username m) username) (bbs_mutes h).

Definition host_bbs_mute_active_locked (h : host) (username : bytes) (now : Z) : bool :=
  match host_bbs_mute_find_locked h username with
  | None => false
  | Some i =>
      match bbs_mutes h !! i with
      | None => false
      | Some m => (until m =? 0) || (now <? until m)
      end
  end.

Definition host_bbs_mute_target_is_operator (h : host) (username : bytes) : bool :=
  existsb (fun n => same_name n username) (operators_online h).

Definition set_mute (t : Z) (by_ : bytes) (now : Z) (m : bbs_mute) : bbs_mute :=
  {| mt_username := mt_username m; until := t; muted_by := cut_name by_; mt_created_at := now |}.

Definition host_bbs_mute_set_locked (h : host) (username : bytes) (t : Z) (by_ : bytes) (now : Z) : host :=
  if peek username =? c_nul then h
  else
    match host_bbs_mute_find_locked h username with
    | Some i => with_mutes h (alter (set_mute t by_ now) i (bbs_mutes h))
    | None =>
        with_mutes h
          (push_bounded SSH_CHATTER_BBS_MAX_MUTES (bbs_mutes h)
             {| mt_username := cut_name username; until := t; muted_by := cut_name by_;
                mt_created_at := now |})
    end.

Definition host_bbs_mute_remove_locked (h : host) (username : bytes) : host * bool :=
  match host_bbs_mute_find_locked h username with
  | None => (h, false)
  | Some i => (with_mutes h (take i (bbs_mutes h) ++ drop (S i) (bbs_mutes h)), true)
  end.

(** *** The moderation log *)

Definition host_bbs_modlog_append_locked (h : host) (actor action target : bytes) (now : Z) : host :=
  with_modlog h
    (push_bounded SSH_CHATTER_BBS_MAX_MODLOG (bbs_modlog h)
       {| ml_created_at := now; ml_actor := cut_name actor; ml_action := snprintf_text 24 action;
          ml_target := cut_name target |}).

End Queues.

Module Commands.
Import Posts Queues.

Record user := { name : bytes; is_operator : bool; is_lan_operator : bool }.

(** The draft of the editor that a post is made from. *)
Record pending := {
  bbs_post_pending : bool;
  pending_mode : Editor.session_editor_mode;
  pending_bbs_edit_id : Z;
  pending_bbs_title : bytes;
  pending_bbs_tags : list bytes;
  pending_bbs_tag_count : nat;
  pending_bbs_body : bytes
}.

Definition no_pending : pending :=
  {| bbs_post_pending := false; pending_mode := Editor.SESSION_EDITOR_MODE_NONE;
     pending_bbs_edit_id := 0; pending_bbs_title := []; pending_bbs_tags := [];
     pending_bbs_tag_count := 0; pending_bbs_body := [] |}.

(** What a command does besides: a line or the usage of a subcommand is shown,
    a post with a notice, or the editor; a notice goes to the history of the
    room; a draft of ASCII art is finished. *)
Inductive effect :=
  | Line (text : bytes)
  | Usage (command : bytes)
  | RenderPost (p : bbs_post) (notice : bytes)
  | Announce (notice : bytes)
  | FinishArt
  | RenderEditor (notice : bytes).

(** *** Announcements *)

Definition compact_char (ch : Z) : Z := if (ch =? c_cr) || (ch =? c_lf) || (ch =? 9) then c_space else ch.

(** The loop of the preview over a buffer of [length] bytes: the bytes written,
    [last_space], and whether the text was cut. *)
Fixpoint preview_go (length : nat) (cursor output : bytes) (last_space : bool) : bytes * bool * bool :=
  match cursor with
  | [] => (output, last_space, false)
  | c :: t =>
      let ch := compact_char c in
      if ch <? 32 then preview_go length t output last_space
      else if (ch =? c_space) && last_space then preview_go length t output last_space
      else if (length <=? List.length output + 1)%nat then (output, ch =? c_space, true)
      else preview_go length t (output ++ [ch]) (ch =? c_space)
  end.

Definition session_bbs_compact_preview (input : bytes) (length : nat) : bytes :=
  if (length =? 0)%nat then []
  else
    let '(output, last_space, truncated) := preview_go length input [] true in
    let output := if last_space && (0 <? List.length output)%nat
                  then take (List.length output - 1) output else output in
    if truncated && (List.length output + 3 <? length)%nat
    then output ++ [c_dot; c_dot; c_dot] else output.

(** The notice of a post or comment: number, author, what was done, the title
    in quotes and the preview after its mark. *)
Definition announcement (number : Z) (who : bytes) (did : bytes) (what mark preview : bytes) : bytes :=
  let who := Paths.trim_whitespace_inplace (cut_name who) in
  let what := Paths.trim_whitespace_inplace (snprintf_text SSH_CHATTER_BBS_TITLE_LEN what) in
  snprintf_text Editor.SSH_CHATTER_MESSAGE_LIMIT
    (lit "* [bbs] #" ++ dec number ++ lit " " ++
     (if peek who =? c_nul then lit "unknown" else who) ++ did ++ [c_dquote] ++
     (if peek what =? c_nul then lit "(untitled)" else what) ++ [c_dquote] ++
     (if peek preview =? c_nul then [] else mark ++ preview)).

Definition session_bbs_announce_post (p : bbs_post) : bytes :=
  announcement (post_id p) (author p) (lit " posted ") (title p) (lit " --")
    (session_bbs_compact_preview (body p) 128).

Definition session_bbs_announce_comment (p : bbs_post) (c : bbs_comment) : bytes :=
  announcement (post_id p) (cm_author c) (lit " commented on ") (title p) (lit ": ")
    (session_bbs_compact_preview (cm_text c) 128).

Definition operator (u : user) : bool := is_operator u || is_lan_operator u.

Definition not_found : list effect := [Line (lit "No post exists with that identifier.")].
Definition unavailable : list effect := [Line (lit "BBS storage is unavailable.")].
Definition board_unavailable : list effect :=
  [Line (lit "The bulletin board is unavailable right now.")].

Definition session_bbs_mute_blocks_locked (u : user) (h : host) (now : Z) : bool :=
  if operator u then false else host_bbs_mute_active_locked h (name u) now.

(** *** Numbers in the arguments *)

Definition INT_MAX : Z := 2147483647.

(** [strtoull(p, &end, 10)] and whether [errno] is set: the digits stand for
    more than [ULLONG_MAX]. *)
Definition strtoull (p : bytes) : Z * bytes * bool :=
  let (v, rest) := strtoul p in
  let q := skip_while isspace p in
  let r := if (peek q =? c_minus) || (peek q =? c_plus) then drop 1 q else q in
  (v, rest, ULONG_MAX <? dval 0 (take_while isdigit r)).

(** [<post> <index>], the way the comment commands read them: [None] where
    they show their usage. *)
Definition comment_reference (arguments : bytes) : option (Z * Z * bytes) :=
  let '(post, rest, range) := strtoull arguments in
  if range || (length rest =? length arguments)%nat || negb (peek rest =? c_space) then None
  else
    let (idx, rest2) := match strtol rest with Some r => r | None => (0, rest) end in
    if (idx <? 0) || (INT_MAX <? idx) then None else Some (post, idx, rest2).

(** *** Votes *)

Definition is_vote (u : user) (post idx : Z) (v : bbs_vote) : bool :=
  (target_post_id v =? post) && (target_comment_idx v =? idx) &&
  bytes_eqb (voter_username v) (name u).

Definition with_type (t : Z) (v : bbs_vote) : bbs_vote :=
  {| target_post_id := target_post_id v; target_comment_idx := target_comment_idx v;
     voter_username := voter_username v; vote_type := t; vt_created_at := vt_created_at v |}.

(** The loop over the votes: [None] if the user voted the same before; else
    the type of the vote that is turned round, if there was one, and the
    table, where a new vote is only recorded while there is room. *)
Definition record_vote (h : host) (u : user) (post idx type now : Z)
  : option (option Z * list bbs_vote) :=
  let votes := bbs_votes h in
  match find_index (is_vote u post idx) votes with
  | Some k =>
      match votes !! k with
      | None => None
      | Some v =>
          if vote_type v =? type then None
          else Some (Some (vote_type v), alter (with_type type) k votes)
      end
  | None =>
      Some (None,
        if (length votes <? bbs_vote_capacity h)%nat
        then votes ++ [{| target_post_id := post; target_comment_idx := idx;
                          voter_username := cut_name (name u); vote_type := type;
                          vt_created_at := now |}]
        else votes)
  end.

Definition session_bbs_upvote (h : host) (u : user) (post now : Z) : host * list effect :=
  if post =? 0 then (h, [])
  else
    let (h, ok) := session_bbs_ensure_live_storage h now in
    if negb ok then (h, unavailable)
    else
      match host_find_bbs_post_locked h post with
      | None => (h, not_found)
      | Some i =>
          match record_vote h u post (-1) 1 now with
          | None => (h, [Line (lit "You already upvoted this post.")])
          | Some (old, votes) =>
              let h := with_votes h votes in
              let h := alter_post h i (fun p =>
                         set_votes p (upvotes p + 1)
                           (match old with Some _ => downvotes p - 1 | None => downvotes p end)) in
              (host_bbs_state_save_locked h, [Line (lit "Upvoted.")])
          end
      end.

Definition session_bbs_downvote (h : host) (u : user) (post now : Z) : host * list effect :=
  if post =? 0 then (h, [])
  else
    let (h, ok) := session_bbs_ensure_live_storage h now in
    if negb ok then (h, unavailable)
    else
      match host_find_bbs_post_locked h post with
      | None => (h, not_found)
      | Some i =>
          match record_vote h u post (-1) (-1) now with
          | None => (h, [Line (lit "You already downvoted this post.")])
          | Some (old, votes) =>
              let h := with_votes h votes in
              let h := alter_post h i (fun p =>
                         set_votes p
                           (match old with Some _ => upvotes p - 1 | None => upvotes p end)
                           (downvotes p + 1)) in
              (host_bbs_state_save_locked h, [Line (lit "Downvoted.")])
          end
      end.

(** The counters of a comment after a vote of the type, [old] turned round. *)
Definition voted_comment (old : option Z) (type : Z) (c : bbs_comment) : bbs_comment :=
  let c := match old with
           | Some t => if t =? 1 then set_comment_votes c (cm_upvotes c - 1) (cm_downvotes c)
                       else set_comment_votes c (cm_upvotes c) (cm_downvotes c - 1)
           | None => c
           end in
  if type =? 1 then set_comment_votes c (cm_upvotes c + 1) (cm_downvotes c)
  else set_comment_votes c (cm_upvotes c) (cm_downvotes c + 1).

Definition cmtvote_usage : list effect :=
  [Line (lit "Usage: /bbs cmtvote <post_id> <comment_idx> [up|down]")].

(** The post and the comment of an index below [comment_count]. *)
Definition find_comment (h : host) (post idx : Z) : option (nat * bbs_post) :=
  match host_find_bbs_post_locked h post with
  | None => None
  | Some i =>
      match bbs_posts h !! i with
      | None => None
      | Some p => if (idx <? 0) || (Z.of_nat (comment_count p) <=? idx) then None else Some (i, p)
      end
  end.

Definition session_bbs_cmtvote (h : host) (u : user) (arguments : bytes) (now : Z)
  : host * list effect :=
  match comment_reference arguments with
  | None => (h, cmtvote_usage)
  | Some (post, idx, rest) =>
      let dir := skip_while (fun c => c =? c_space) rest in
      if negb (peek rest =? c_space) || (peek dir =? c_nul) ||
         (negb (bytes_eqb (map tolower (take 2 dir)) (lit "up")) &&
          negb (bytes_eqb (map tolower (take 4 dir)) (lit "down")))
      then (h, cmtvote_usage)
      else
        let vote_dir := take 7 dir in
        let type := if bytes_eqb (map tolower vote_dir) (lit "up") then 1 else -1 in
        let (h, ok) := session_bbs_ensure_live_storage h now in
        if negb ok then (h, unavailable)
        else
          match find_comment h post idx with
          | None => (h, [Line (lit "Invalid post or comment index.")])
          | Some (_, p) =>
              match record_vote h u post idx type now with
              | None => (h, [Line (lit "You already voted this comment.")])
              | Some (old, votes) =>
                  let h := with_votes h votes in
                  let h := write_comments h p (alter (voted_comment old type) (Z.to_nat idx)) in
                  (host_bbs_state_save_locked h,
                   [Line (if type =? 1 then lit "Comment upvoted." else lit "Comment downvoted.")])
              end
          end
  end.

(** The votes after a comment is gone: those on it are dropped, those on later
    comments of the post follow them. *)
Definition shift_vote (v : bbs_vote) : bbs_vote :=
  {| target_post_id := target_post_id v; target_comment_idx := target_comment_idx v - 1;
     voter_username := voter_username v; vote_type := vote_type v;
     vt_created_at := vt_created_at v |}.

Fixpoint fix_votes (post removed : Z) (votes : list bbs_vote) : list bbs_vote :=
  match votes with
  | [] => []
  | v :: t =>
      if target_post_id v =? post then
        if target_comment_idx v =? removed then fix_votes post removed t
        else if removed <? target_comment_idx v then shift_vote v :: fix_votes post removed t
        else v :: fix_votes post removed t
      else v :: fix_votes post removed t
  end.

(** [memmove] over the removed comment; the slot of the last one keeps it. *)
Definition shift_comments (count removed : nat) (a : list bbs_comment) : list bbs_comment :=
  if (removed + 1 <? count)%nat
  then take removed a ++ take (count - removed - 1) (drop (removed + 1) a) ++ drop (count - 1) a
  else a.

Definition may_change (u : user) (author : bytes) : bool :=
  (peek author =? c_nul) || same_name author (name u) || operator u.

Definition session_bbs_cmtdel (h : host) (u : user) (arguments : bytes) (now : Z)
  : host * list effect :=
  if peek arguments =? c_nul then (h, [Usage (lit "cmtdel")])
  else if negb (bbs_comment_delete_enabled h) then (h, [Line (lit "Comment deletion is disabled.")])
  else
    match comment_reference arguments with
    | None => (h, [Usage (lit "cmtdel")])
    | Some (post, idx, rest) =>
        if negb ((peek rest =? c_nul) || (peek rest =? c_space)) then (h, [Usage (lit "cmtdel")])
        else
          let (h, ok) := session_bbs_ensure_live_storage h now in
          if negb ok then (h, unavailable)
          else
            match find_comment h post idx with
            | None => (h, [Line (lit "Invalid post or comment index.")])
            | Some (i, p) =>
                match comments_of h p !! Z.to_nat idx with
                | None => (h, [])
                | Some c =>
                    if negb (may_change u (cm_author c))
                    then (h, [Line (lit "Only the author or an operator may delete this comment.")])
                    else
                      let h := write_comments h p (shift_comments (comment_count p) (Z.to_nat idx)) in
                      let p' := set_comment_count p (comment_count p - 1) in
                      let h := alter_post h i (fun _ => p') in
                      let h := with_votes h (fix_votes post idx (bbs_votes h)) in
                      (host_bbs_state_save_locked h, [RenderPost p' (lit "Comment deleted.")])
                end
            end
    end.

Section Checked.
Context (session_security_check_text : bytes -> bytes -> bool).
Context (user_data_load : bytes -> bool).
Context (ui_language : nat).

(** *** Comments *)

(** The post and the text of a comment: [inl] what is shown instead. *)
Definition comment_arguments (view : option Z) (arguments : bytes) : list effect + Z * bytes :=
  let working := Paths.trim_whitespace_inplace
                   (take (Editor.SSH_CHATTER_MESSAGE_LIMIT - 1) arguments) in
  if peek working =? c_nul then inl [Usage (lit "comment")]
  else
    match strchr working 124 with
    | None => match view with Some i => inr (i, working) | None => inl [Usage (lit "comment")] end
    | Some sep =>
        let id_text := Paths.trim_whitespace_inplace (take (length working - length sep) working) in
        let comment_text := Paths.trim_whitespace_inplace (drop 1 sep) in
        if (peek id_text =? c_nul) || (peek comment_text =? c_nul) then inl [Usage (lit "comment")]
        else inr (fst (fst (strtoull id_text)), comment_text)
    end.

Definition too_fast (h : host) (u : user) (last : bbs_rate_limit_entry -> Z) (pause now : Z) : bool :=
  negb (operator u) &&
  match host_bbs_rate_limit_find_locked h (name u) with
  | None => false
  | Some i =>
      match bbs_rate_limits h !! i with
      | None => false
      | Some e => negb (last e =? 0) && (now - last e <? pause)
      end
  end.

Definition new_comment (u : user) (text : bytes) (now : Z) (c : bbs_comment) : bbs_comment :=
  {| cm_author := host_strip_column_reset (cut_name (name u));
     cm_text := host_strip_column_reset (take (SSH_CHATTER_BBS_COMMENT_LEN - 1) text);
     cm_created_at := now; cm_edited_at := 0; cm_upvotes := cm_upvotes c;
     cm_downvotes := cm_downvotes c |}.

(** The comment is appended and everyone concerned is told. *)
Definition append_comment (h : host) (u : user) (i : nat) (p : bbs_post) (text : bytes) (now : Z)
  : host * list effect :=
  let index := comment_count p in
  let p' := set_bumped (set_comment_count p (S index)) now in
  let h := alter_post h i (fun _ => p') in
  let h := write_comments h p (alter (new_comment u text now) index) in
  let h := if operator u then h else note_activity h (name u) (stamp_comment now) in
  match comments_of h p !! index with
  | None => (h, [])
  | Some c =>
      let h := if negb (peek (author p) =? c_nul) && negb (same_name (author p) (cm_author c))
               then host_bbs_notification_enqueue_locked h 0 (author p) (cm_author c) (post_id p)
                      (Z.of_nat index) now
               else h in
      let h := session_bbs_notify_mentions_locked user_data_load h (cm_text c) (cm_author c)
                 (post_id p) (Z.of_nat index) now in
      (host_bbs_state_save_locked h,
       [Announce (session_bbs_announce_comment p' c); RenderPost p' (lit "Comment added.")])
  end.

Definition session_bbs_add_comment (h : host) (u : user) (view : option Z) (arguments : bytes) (now : Z)
  : host * list effect :=
  match comment_arguments view arguments with
  | inl out => (h, out)
  | inr (post, text) =>
      if post =? 0 then (h, [Line (lit "Invalid post identifier.")])
      else if negb (session_security_check_text (lit "BBS comment")
                      (take SSH_CHATTER_BBS_COMMENT_LEN text)) then (h, [])
      else
        let (h, ok) := session_bbs_ensure_live_storage h now in
        if negb ok then (h, board_unavailable)
        else
          match host_find_bbs_post_locked h post with
          | None => (h, not_found)
          | Some i =>
              match bbs_posts h !! i with
              | None => (h, [])
              | Some p =>
                  if (SSH_CHATTER_BBS_MAX_COMMENTS <=? comment_count p)%nat
                  then (h, [Line (lit "This post has reached the comment limit.")])
                  else if session_bbs_mute_blocks_locked u h now
                  then (h, [Line (lit "You are muted and cannot post right now.")])
                  else if too_fast h u last_comment_at 3 now
                  then (h, [Line (lit "You are commenting too quickly. Try again in a moment.")])
                  else append_comment h u i p text now
              end
          end
  end.

Definition session_bbs_cmtedit (h : host) (u : user) (arguments : bytes) (now : Z)
  : host * list effect :=
  if peek arguments =? c_nul then (h, [Usage (lit "cmtedit")])
  else if negb (bbs_comment_edit_enabled h) then (h, [Line (lit "Comment editing is disabled.")])
  else
    match comment_reference arguments with
    | None => (h, [Usage (lit "cmtedit")])
    | Some (post, idx, rest) =>
        let text := Paths.trim_whitespace_inplace
                      (snprintf_text SSH_CHATTER_BBS_COMMENT_LEN
                         (skip_while (fun c => c =? c_space) rest)) in
        if negb (peek rest =? c_space) || (peek text =? c_nul) then (h, [Usage (lit "cmtedit")])
        else if negb (session_security_check_text (lit "BBS comment") text) then (h, [])
        else
          let (h, ok) := session_bbs_ensure_live_storage h now in
          if negb ok then (h, unavailable)
          else
            match find_comment h post idx with
            | None => (h, [Line (lit "Invalid post or comment index.")])
            | Some (_, p) =>
                match comments_of h p !! Z.to_nat idx with
                | None => (h, [])
                | Some c =>
                    if negb (may_change u (cm_author c))
                    then (h, [Line (lit "Only the author or an operator may edit this comment.")])
                    else
                      let h := write_comments h p
                                 (alter (fun c => set_comment_text c (host_strip_column_reset text) now)
                                    (Z.to_nat idx)) in
                      (host_bbs_state_save_locked h, [RenderPost p (lit "Comment updated.")])
                end
            end
    end.

(** *** Posts *)

Definition stripped_tags (ts : list bytes) (n : nat) (old : list bytes) : list bytes :=
  map (fun t => host_strip_column_reset (snprintf_text SSH_CHATTER_BBS_TAG_LEN t)) (take n ts) ++
  drop (length (take n ts)) old.

Definition edited_post (d : pending) (now : Z) (p : bbs_post) : bbs_post :=
  set_text p
    (host_strip_column_reset (snprintf_text SSH_CHATTER_BBS_TITLE_LEN (pending_bbs_title d)))
    (host_strip_column_reset (pending_bbs_body d))
    (stripped_tags (pending_bbs_tags d) (pending_bbs_tag_count d) (tags p))
    (pending_bbs_tag_count d) now.

Definition filled_post (d : pending) (u : user) (board : Z) (p : bbs_post) : bbs_post :=
  set_text
    (set_origin p (u16 board) (host_strip_column_reset (cut_name (name u))))
    (host_strip_column_reset (snprintf_text SSH_CHATTER_BBS_TITLE_LEN (pending_bbs_title d)))
    (host_strip_column_reset (pending_bbs_body d))
    (stripped_tags (pending_bbs_tags d) (pending_bbs_tag_count d) (tags p))
    (pending_bbs_tag_count d) (bumped_at p).

(** Only an author or operator edits: an empty author is no exception here. *)
Definition may_edit (u : user) (author : bytes) : bool := same_name author (name u) || operator u.

Definition commit_edit (h : host) (u : user) (d : pending) (now : Z) : host * pending * list effect :=
  match host_find_bbs_post_locked h (pending_bbs_edit_id d) with
  | None => (h, no_pending, [Line (lit "No post exists with that identifier anymore.")])
  | Some i =>
      match bbs_posts h !! i with
      | None => (h, no_pending, [])
      | Some p =>
          if negb (may_edit u (author p))
          then (h, no_pending, [Line (lit "Only the author or an operator may edit this post.")])
          else
            let p' := edited_post d now p in
            let h := alter_post h i (fun _ => p') in
            (host_bbs_state_save_locked h, no_pending, [RenderPost p' (lit "Post updated.")])
      end
  end.

(** The slot is taken before the author is looked at. *)
Definition commit_new (h : host) (u : user) (board : Z) (d : pending) (now : Z)
  : host * pending * list effect :=
  match host_allocate_bbs_post_locked h now with
  | None => (h, d, [Line (lit "The bulletin board is full right now.")])
  | Some (h, i) =>
      if negb (operator u) && session_bbs_mute_blocks_locked u h now
      then (h, no_pending, [Line (lit "You are muted and cannot post right now.")])
      else if too_fast h u last_post_at 30 now
      then (h, no_pending, [Line (lit "You are posting too quickly. Try again in a moment.")])
      else
        let h := alter_post h i (filled_post d u board) in
        let h := if operator u then h else note_activity h (name u) (stamp_post now) in
        match bbs_posts h !! i with
        | None => (h, no_pending, [])
        | Some p =>
            let h := session_bbs_notify_mentions_locked user_data_load h (title p) (author p)
                       (post_id p) (-1) now in
            let h := session_bbs_notify_mentions_locked user_data_load h (body p) (author p)
                       (post_id p) (-1) now in
            (host_bbs_state_save_locked h, no_pending,
             [Announce (session_bbs_announce_post p); RenderPost p (lit "Post created.")])
        end
  end.

Definition is_art (m : Editor.session_editor_mode) : bool :=
  match m with Editor.SESSION_EDITOR_MODE_ASCIIART => true | _ => false end.
Definition is_edit (m : Editor.session_editor_mode) : bool :=
  match m with Editor.SESSION_EDITOR_MODE_BBS_EDIT => true | _ => false end.

Definition session_bbs_commit_pending_post (h : host) (u : user) (board : Z) (d : pending) (now : Z)
  : host * pending * list effect :=
  if negb (bbs_post_pending d) then (h, d, [])
  else if is_art (pending_mode d) then (h, no_pending, [FinishArt])
  else if (length (pending_bbs_body d) =? 0)%nat
  then (h, no_pending, [Line (lit "Post body was empty. Draft discarded.")])
  else if negb (session_security_check_text (lit "BBS post") (pending_bbs_body d))
  then (h, no_pending, [])
  else
    let (h, ok) := session_bbs_ensure_live_storage h now in
    if negb ok then (h, no_pending, board_unavailable)
    else if is_edit (pending_mode d) then commit_edit h u d now
    else commit_new h u board d now.

Definition session_bbs_delete (h : host) (u : user) (post now : Z) : host * list effect :=
  if post =? 0 then (h, [Line (lit "Invalid post identifier.")])
  else
    let (h, ok) := session_bbs_ensure_live_storage h now in
    if negb ok then (h, board_unavailable)
    else
      match find_index (fun p => post_id p =? post) (bbs_posts h) with
      | None => (h, not_found)
      | Some i =>
          match bbs_posts h !! i with
          | None => (h, [])
          | Some p =>
              if negb (may_change u (author p))
              then (h, [Line (lit "Only the author or an operator may delete this post.")])
              else
                let h := alter_post h i (fun p => set_in_use p false 0) in
                let h := host_clear_bbs_post_locked h i in
                let h := host_bbs_notification_drop_for_post_locked h post in
                (host_bbs_state_save_locked h, [Line (lit "Post deleted.")])
          end
      end.

Definition session_bbs_regen_post (h : host) (post now : Z) : host * list effect :=
  if post =? 0 then (h, [])
  else
    let (h, ok) := session_bbs_ensure_live_storage h now in
    if negb ok then (h, board_unavailable)
    else
      match host_find_bbs_post_locked h post with
      | None => (h, not_found)
      | Some i =>
          match bbs_posts h !! i with
          | None => (h, [])
          | Some p =>
              let p' := set_bumped p now in
              (host_bbs_state_save_locked (alter_post h i (fun _ => p')),
               [RenderPost p' (lit "Post bumped to the top.")])
          end
      end.

(** *** Moderation *)

Definition session_bbs_require_operator (u : user) : bool := operator u.
Definition operators_only : list effect := [Line (lit "Only operators may use this command.")].

Definition session_bbs_report (h : host) (u : user) (arguments : bytes) (now : Z)
  : host * list effect :=
  let '(post, rest, range) := strtoull arguments in
  if (peek arguments =? c_nul) || range || (length rest =? length arguments)%nat ||
     negb ((peek rest =? c_nul) || (peek rest =? c_space))
  then (h, [Usage (lit "report")])
  else
    let why := Paths.trim_whitespace_inplace
                 (snprintf_text 128 (skip_while (fun c => c =? c_space) rest)) in
    if (0 <? length why)%nat && negb (session_security_check_text (lit "BBS report") why)
    then (h, [])
    else
      let (h, ok) := session_bbs_ensure_live_storage h now in
      if negb ok then (h, unavailable)
      else
        match host_find_bbs_post_locked h post with
        | None => (h, not_found)
        | Some _ =>
            match host_bbs_report_enqueue_locked h post (name u) why now with
            | None => (h, [Line (lit "You have already reported this post.")])
            | Some h => (host_bbs_state_save_locked h, [Line (lit "Report submitted. Thank you.")])
            end
        end.

Definition session_bbs_set_mod_flag (h : host) (u : user) (post flag : Z) (set : bool)
  (action confirmation : bytes) (now : Z) : host * list effect :=
  if negb (session_bbs_require_operator u) then (h, operators_only)
  else if post =? 0 then (h, [Line (lit "Invalid post identifier.")])
  else
    let (h, ok) := session_bbs_ensure_live_storage h now in
    if negb ok then (h, unavailable)
    else
      match host_find_bbs_post_locked h post with
      | None => (h, not_found)
      | Some i =>
          let h := alter_post h i (fun p =>
                     set_mod_flags p (if set then u8 (Z.lor (mod_flags p) flag)
                                      else u8 (Z.land (mod_flags p) (u8 (Z.lnot flag))))) in
          let h := if flag =? SSH_CHATTER_BBS_MOD_FLAG_HIDDEN
                   then host_bbs_modlog_append_locked
                          (host_bbs_reports_resolve_for_post_locked h post)
                          (name u) (lit "resolve") (lit "reports") now
                   else h in
          let h := host_bbs_modlog_append_locked h (name u) action (dec post) now in
          (host_bbs_state_save_locked h, [Line confirmation])
      end.

(** [strrchr(s, ' ')]: the text before the last space and the text after. *)
Fixpoint split_last_space (s : bytes) : option (bytes * bytes) :=
  match s with
  | [] => None
  | c :: t =>
      match split_last_space t with
      | Some (a, b) => Some (c :: a, b)
      | None => if c =? c_space then Some ([], t) else None
      end
  end.

(** The name and the text of the minutes of a mute, if any. *)
Definition mute_arguments (arguments : bytes) : bytes * option bytes :=
  let working := Paths.trim_whitespace_inplace (snprintf_text 128 arguments) in
  let cut :=
    match strchr working 124 with
    | Some sep => Some (take (length working - length sep) working, drop 1 sep)
    | None =>
        match split_last_space working with
        | Some (a, b) => if forallb isdigit b then Some (a, b) else None
        | None => None
        end
    end in
  match cut with
  | None => (working, None)
  | Some (a, b) => (Paths.trim_whitespace_inplace a, Some (Paths.trim_whitespace_inplace b))
  end.

(** Minutes from 1 to a year; [None] where the usage is shown. *)
Definition mute_until (minutes_text : option bytes) (now : Z) : option Z :=
  match minutes_text with
  | None | Some [] => Some 0
  | Some t =>
      match strtol t with
      | None => None
      | Some (minutes, rest) =>
          if negb (peek rest =? c_nul) || (minutes <=? 0) || (24 * 60 * 365 <? minutes) then None
          else Some (now + minutes * 60)
      end
  end.

Definition session_bbs_mute (h : host) (u : user) (arguments : bytes) (now : Z) : host * list effect :=
  if negb (session_bbs_require_operator u) then (h, operators_only)
  else if peek arguments =? c_nul then (h, [Usage (lit "mute")])
  else
    let (target, minutes_text) := mute_arguments arguments in
    if peek target =? c_nul then (h, [Usage (lit "mute")])
    else
      match mute_until minutes_text now with
      | None => (h, [Usage (lit "mute")])
      | Some t =>
          if host_bbs_mute_target_is_operator h target
          then (h, [Line (lit "Operators cannot be muted.")])
          else if negb (user_data_load target) then (h, [Line (lit "No such user.")])
          else
            let (h, ok) := session_bbs_ensure_live_storage h now in
            if negb ok then (h, unavailable)
            else
              let h := host_bbs_mute_set_locked h target t (name u) now in
              let h := host_bbs_modlog_append_locked h (name u) (lit "mute") target now in
              (host_bbs_state_save_locked h, [Line (lit "User muted.")])
      end.

Definition session_bbs_unmute (h : host) (u : user) (username : bytes) (now : Z) : host * list effect :=
  if negb (session_bbs_require_operator u) then (h, operators_only)
  else if peek username =? c_nul then (h, [Usage (lit "unmute")])
  else
    let (h, ok) := session_bbs_ensure_live_storage h now in
    if negb ok then (h, unavailable)
    else
      let (h, removed) := host_bbs_mute_remove_locked h username in
      if removed then
        (host_bbs_state_save_locked
           (host_bbs_modlog_append_locked h (name u) (lit "unmute") username now),
         [Line (lit "User unmuted.")])
      else (h, [Line (lit "No such user.")]).

(** *** Opening the editor *)

Definition already_composing (m : Editor.session_editor_mode) : bytes :=
  snprintf_text Editor.SSH_CHATTER_MESSAGE_LIMIT
    ((if is_art m then lit "You are already composing ASCII art. Finish it with "
      else lit "You are already composing a post. Finish it with ") ++
     Editor.session_editor_terminator m ui_language ++ lit ".").

Definition session_bbs_begin_edit (h : host) (u : user) (d : pending) (post now : Z)
  : host * pending * list effect :=
  if post =? 0 then (h, d, [Line (lit "Invalid post identifier.")])
  else if bbs_post_pending d
  then (h, d, [Line (already_composing (pending_mode d))])
  else
    let (h, ok) := session_bbs_ensure_live_storage h now in
    if negb ok then (h, d, board_unavailable)
    else
      match host_find_bbs_post_locked h post with
      | None => (h, d, not_found)
      | Some i =>
          match bbs_posts h !! i with
          | None => (h, d, [])
          | Some p =>
              if negb (may_edit u (author p))
              then (h, d, [Line (lit "Only the author or an operator may edit this post.")])
              else
                let n := Nat.min (tag_count p) SSH_CHATTER_BBS_MAX_TAGS in
                (h,
                 {| bbs_post_pending := true;
                    pending_mode := Editor.SESSION_EDITOR_MODE_BBS_EDIT;
                    pending_bbs_edit_id := post;
                    pending_bbs_title := snprintf_text SSH_CHATTER_BBS_TITLE_LEN (title p);
                    pending_bbs_tags := map (snprintf_text SSH_CHATTER_BBS_TAG_LEN) (take n (tags p));
                    pending_bbs_tag_count := n;
                    pending_bbs_body := take (Editor.SSH_CHATTER_BBS_BODY_LEN - 1) (body p) |},
                 [RenderEditor
                    (snprintf_text Editor.SSH_CHATTER_MESSAGE_LIMIT
                       (lit "Editing post #" ++ dec post ++ lit ". Finish with " ++
                        Editor.session_editor_terminator Editor.SESSION_EDITOR_MODE_BBS_EDIT
                          ui_language ++ lit " to save changes."))])
          end
      end.

Definition session_bbs_is_admin_only_tag (tag : bytes) : bool :=
  if peek tag =? c_nul then false
  else if bytes_eqb (map tolower tag) (lit "manual") || bytes_eqb (map tolower tag) (lit "notice")
  then true
  else bytes_eqb tag [236; 132; 164; 235; 170; 133; 236; 132; 156] ||
       bytes_eqb tag [234; 179; 181; 236; 167; 128].

(** The title and what follows it; [inl] when a quote is not closed. *)
Definition is_quote (c : Z) : bool := (c =? c_dquote) || (c =? 39).

Definition split_title (working : bytes) : unit + bytes * bytes :=
  let limit := (SSH_CHATTER_BBS_TITLE_LEN - 1)%nat in
  match strchr working 124 with
  | Some sep =>
      let title_part := Paths.trim_whitespace_inplace (take (length working - length sep) working) in
      let title_len := Nat.min (length title_part) SSH_CHATTER_BBS_TITLE_LEN in
      let title_part :=
        if (1 <? title_len)%nat && is_quote (peek title_part) &&
           (nthb title_part (title_len - 1) =? peek title_part)
        then Paths.trim_whitespace_inplace (drop 1 (take (title_len - 1) title_part))
        else title_part in
      inr (take limit title_part, Paths.trim_whitespace_inplace (drop 1 sep))
  | None =>
      if is_quote (peek working) then
        match strchr (drop 1 working) (peek working) with
        | None => inl tt
        | Some closing =>
            let n := (length (drop 1 working) - length closing)%nat in
            inr (take limit (take n (drop 1 working)),
                 Paths.trim_whitespace_inplace (drop 1 closing))
        end
      else
        let word := take_while (fun c => negb (isspace c)) working in
        inr (take limit word,
             Paths.trim_whitespace_inplace (drop (length word) working))
  end.

(** The tags: [inl] the reserved tag of someone who is no operator; else the
    first four and whether more were given. *)
Fixpoint collect_tags (u : user) (tokens : list bytes) (found : list bytes) (discarded : bool)
  : bytes + list bytes * bool :=
  match tokens with
  | [] => inr (found, discarded)
  | t :: rest =>
      if (length found <? SSH_CHATTER_BBS_MAX_TAGS)%nat then
        let tag_value := take (SSH_CHATTER_BBS_TAG_LEN - 1) t in
        if negb (is_operator u) && session_bbs_is_admin_only_tag tag_value then inl tag_value
        else collect_tags u rest (found ++ [tag_value]) discarded
      else collect_tags u rest found true
  end.

Definition post_usage : list effect :=
  [Usage (lit "post"); Line (lit "Use | to separate tags when the title has spaces.")].

Definition session_bbs_begin_post (h : host) (u : user) (d : pending) (arguments : bytes) (now : Z)
  : host * pending * list effect :=
  if bbs_post_pending d
  then (h, d, [Line (already_composing (pending_mode d))])
  else
    let (h, ok) := session_bbs_ensure_live_storage h now in
    if negb ok then (h, d, board_unavailable)
    else
      let working := Paths.trim_whitespace_inplace
                       (take (Editor.SSH_CHATTER_MESSAGE_LIMIT - 1) arguments) in
      if peek working =? c_nul then (h, no_pending, post_usage)
      else
        match split_title working with
        | inl _ => (h, no_pending, [Line (lit "Missing closing quote for the title.")])
        | inr (ti, rest) =>
            if peek ti =? c_nul
            then (h, no_pending, [Line (lit "A title is required to create a post.")])
            else
              match collect_tags u (strtok_all isspace rest) [] false with
              | inl tag =>
                  (h, no_pending,
                   [Line (lit "The '" ++ tag ++ lit "' tag is reserved for administrators.")])
              | inr (ts, discarded) =>
                  let defaulted := (length ts =? 0)%nat in
                  let ts := if defaulted then [SSH_CHATTER_BBS_DEFAULT_TAG] else ts in
                  (h,
                   {| bbs_post_pending := true;
                      pending_mode := Editor.SESSION_EDITOR_MODE_BBS_CREATE;
                      pending_bbs_edit_id := 0; pending_bbs_title := ti;
                      pending_bbs_tags := ts; pending_bbs_tag_count := length ts;
                      pending_bbs_body := [] |},
                   [RenderEditor
                      ((if defaulted
                        then lit "No tags provided; default tag 'general' applied." else []) ++
                       (if discarded
                        then (if defaulted then [c_lf] else []) ++
                             lit "Only the first four tags were kept. Extra tags were ignored."
                        else []))])
              end
        end.

(** *** Sequences of commands *)

(** The commands that can change the board; finishing a draft comes with the
    board that is selected and the draft. *)
Inductive command :=
  | Commit (board : Z) (d : pending)
  | Comment (view : option Z) (arguments : bytes)
  | Delete (post : Z)
  | Regen (post : Z)
  | Upvote (post : Z)
  | Downvote (post : Z)
  | CommentVote (arguments : bytes)
  | CommentEdit (arguments : bytes)
  | CommentDelete (arguments : bytes)
  | Report (arguments : bytes)
  | SetFlag (post flag : Z) (set : bool) (action confirmation : bytes)
  | Mute (arguments : bytes)
  | Unmute (username : bytes).

Definition execute (h : host) (u : user) (now : Z) (c : command) : host * list effect :=
  match c with
  | Commit board d =>
      let '(h, _, out) := session_bbs_commit_pending_post h u board d now in (h, out)
  | Comment view arguments => session_bbs_add_comment h u view arguments now
  | Delete post => session_bbs_delete h u post now
  | Regen post => session_bbs_regen_post h post now
  | Upvote post => session_bbs_upvote h u post now
  | Downvote post => session_bbs_downvote h u post now
  | CommentVote arguments => session_bbs_cmtvote h u arguments now
  | CommentEdit arguments => session_bbs_cmtedit h u arguments now
  | CommentDelete arguments => session_bbs_cmtdel h u arguments now
  | Report arguments => session_bbs_report h u arguments now
  | SetFlag post flag set action confirmation =>
      session_bbs_set_mod_flag h u post flag set action confirmation now
  | Mute arguments => session_bbs_mute h u arguments now
  | Unmute username => session_bbs_unmute h u username now
  end.

(** Who gives which command when. *)
Record event := { who : user; at_time : Z; given : command }.

Definition step (h : host) (e : event) : host := fst (execute h (who e) (at_time e) (given e)).
Definition run (h : host) (es : list event) : host := fold_left step es h.

End Checked.

End Commands.
