(* ===== verification/BbsBoard.v ===== *)
(** Theorems on the bulletin board of [BbsPosts]: every command is one of a few
    board steps, and what the steps keep; deletion, votes, mentions, refusals,
    and the state file read back. *)

From Stdlib Require Import ZArith Lia String Ascii.
From stdpp Require Import prelude.
From S2P Require Import Prelude FileTransfer BbsEditor BbsPosts.

Module Board.
Import Posts Queues Commands.

(** ** Theory *)

Lemma find_index_Some {A} (f : A -> bool) l i : find_index f l = Some i ->
  exists x, l !! i = Some x /\ f x = true /\ (forall j y, (j < i)%nat -> l !! j = Some y -> f y = false).
Proof.
  revert i. induction l as [|x l IH]; intros i; simpl; [done|].
  destruct (f x) eqn:Hf.
  - intros [= <-]. exists x. repeat split; [done|]. intros j y Hj. lia.
  - destruct (find_index f l) as [k|]; [|done]. simpl. intros [= <-].
    destruct (IH k eq_refl) as (y & Hy & Hfy & Hlt). exists y. repeat split; [done..|].
    intros [|j] z Hj Hz; simplify_eq/=; [done|]. apply (Hlt j z); [lia|done].
Qed.

Lemma find_index_None {A} (f : A -> bool) l : find_index f l = None <-> Forall (fun x => f x = false) l.
Proof.
  induction l as [|x l IH]; simpl; [by split|]. destruct (f x) eqn:Hf.
  - split; [done|]. intros H. apply Forall_cons in H as [? _]. congruence.
  - rewrite Forall_cons, <- IH. destruct (find_index f l); simpl; [|by split].
    split; [done|]. by intros [_ ?].
Qed.

Lemma length_push_bounded {A} cap (l : list A) x :
  (0 < cap)%nat -> (length l <= cap)%nat -> (length (push_bounded cap l x) <= cap)%nat.
Proof.
  intros Hc Hl. unfold push_bounded. rewrite length_app. simpl.
  destruct (Nat.leb_spec cap (length l)); rewrite ?length_drop; lia.
Qed.

Lemma same_name_refl a : same_name a a = true.
Proof. apply bytes_eqb_refl. Qed.

Definition live (h : host) : Prop :=
  host_bbs_storage_ready h = true /\ bbs_cache_loaded h = true.

Lemma ensure_live h now : live h -> session_bbs_ensure_live_storage h now = (h, true).
Proof.
  intros [Hr Hl]. unfold session_bbs_ensure_live_storage, host_bbs_acquire_storage.
  by rewrite Hr, Hl, Hr.
Qed.

(** *** The part of the host that is the board itself *)

Definition same_board (h h' : host) : Prop :=
  bbs_posts h' = bbs_posts h /\ comment_store h' = comment_store h /\ bbs_votes h' = bbs_votes h /\
  next_bbs_id h' = next_bbs_id h /\ bbs_vote_capacity h' = bbs_vote_capacity h /\
  bbs_cache_loaded h' = bbs_cache_loaded h.

Lemma same_board_refl h : same_board h h.
Proof. done. Qed.

Ltac board_eq := unfold same_board; split_and!; reflexivity.

Lemma same_board_trans h1 h2 h3 : same_board h1 h2 -> same_board h2 h3 -> same_board h1 h3.
Proof. unfold same_board. intuition congruence. Qed.

Lemma save_board h : same_board h (host_bbs_state_save_locked h).
Proof. unfold host_bbs_state_save_locked. case_match; board_eq. Qed.

Lemma enqueue_board h k to from post idx now :
  same_board h (host_bbs_notification_enqueue_locked h k to from post idx now).
Proof. unfold host_bbs_notification_enqueue_locked. case_match; board_eq. Qed.

Lemma notify_board known h text actor post idx now :
  same_board h (session_bbs_notify_mentions_locked known h text actor post idx now).
Proof.
  unfold session_bbs_notify_mentions_locked.
  generalize (session_bbs_scan_mentions text 8). intros l. revert h.
  induction l as [|x l IHl]; intros h; simpl; [board_eq|].
  eapply same_board_trans; [|apply IHl]. case_match; [board_eq|].
  case_match; [board_eq|]. apply enqueue_board.
Qed.

Lemma activity_board h n f : same_board h (note_activity h n f).
Proof.
  unfold note_activity, host_bbs_rate_limit_ensure_locked.
  destruct (peek n =? c_nul); [board_eq|].
  destruct (host_bbs_rate_limit_find_locked h n); [board_eq|].
  destruct (_ <? _)%nat; board_eq.
Qed.

Lemma append_log_board h a b c now : same_board h (host_bbs_modlog_append_locked h a b c now).
Proof. board_eq. Qed.

Lemma report_board h post a b now h' :
  host_bbs_report_enqueue_locked h post a b now = Some h' -> same_board h h'.
Proof.
  unfold host_bbs_report_enqueue_locked. case_match; [done|]. case_match; [done|].
  intros [= <-]. board_eq.
Qed.

Lemma mute_set_board h a t b now : same_board h (host_bbs_mute_set_locked h a t b now).
Proof.
  unfold host_bbs_mute_set_locked. repeat case_match; board_eq.
Qed.

Lemma mute_remove_board h a h' b : host_bbs_mute_remove_locked h a = (h', b) -> same_board h h'.
Proof.
  unfold host_bbs_mute_remove_locked. case_match; intros [= <- _]; board_eq.
Qed.

Create HintDb board.
#[local] Hint Resolve same_board_refl save_board enqueue_board notify_board activity_board
  append_log_board report_board mute_set_board mute_remove_board : board.

(** *** Board steps *)

Definition voted_post (old : option Z) (type : Z) (p : bbs_post) : bbs_post :=
  let lost c := match old with Some _ => c - 1 | None => c end in
  if type =? 1 then set_votes p (upvotes p + 1) (lost (downvotes p))
  else set_votes p (lost (upvotes p)) (downvotes p + 1).

Definition removes (c : command) : bool :=
  match c with Delete _ | CommentDelete _ => true | _ => false end.

(** What one command may do to the board, and on what terms; [rm]: the command
    is one that removes something. *)
Inductive board_step (u : user) (rm : bool) (h h' : host) : Prop :=
  | step_quiet : same_board h h' -> board_step u rm h h'
  | step_vote post i type old votes now :
      host_find_bbs_post_locked h post = Some i -> type = 1 \/ type = -1 ->
      record_vote h u post (-1) type now = Some (old, votes) ->
      same_board (alter_post (with_votes h votes) i (voted_post old type)) h' ->
      board_step u rm h h'
  | step_comment_vote post idx i p type old votes now :
      find_comment h post idx = Some (i, p) -> type = 1 \/ type = -1 ->
      record_vote h u post idx type now = Some (old, votes) ->
      same_board (write_comments (with_votes h votes) p (alter (voted_comment old type) (Z.to_nat idx))) h' ->
      board_step u rm h h'
  | step_comment post i p text now :
      host_find_bbs_post_locked h post = Some i -> bbs_posts h !! i = Some p ->
      (comment_count p < SSH_CHATTER_BBS_MAX_COMMENTS)%nat ->
      session_bbs_mute_blocks_locked u h now = false ->
      same_board
        (write_comments (alter_post h i (fun _ => set_bumped (set_comment_count p (S (comment_count p))) now))
           p (alter (new_comment u text now) (comment_count p))) h' ->
      board_step u rm h h'
  | step_comment_text post idx i p c text now :
      find_comment h post idx = Some (i, p) -> comments_of h p !! Z.to_nat idx = Some c ->
      may_change u (cm_author c) = true ->
      same_board (write_comments h p (alter (fun c => set_comment_text c text now) (Z.to_nat idx))) h' ->
      board_step u rm h h'
  | step_comment_gone post idx i p c :
      rm = true ->
      find_comment h post idx = Some (i, p) -> comments_of h p !! Z.to_nat idx = Some c ->
      may_change u (cm_author c) = true ->
      same_board
        (with_votes
           (alter_post (write_comments h p (shift_comments (comment_count p) (Z.to_nat idx))) i
              (fun _ => set_comment_count p (comment_count p - 1)))
           (fix_votes post idx (bbs_votes h))) h' ->
      board_step u rm h h'
  | step_edit post i p d now :
      host_find_bbs_post_locked h post = Some i -> bbs_posts h !! i = Some p ->
      may_edit u (author p) = true ->
      same_board (alter_post h i (fun _ => edited_post d now p)) h' ->
      board_step u rm h h'
  | step_bump post i p now :
      host_find_bbs_post_locked h post = Some i -> bbs_posts h !! i = Some p ->
      same_board (alter_post h i (fun _ => set_bumped p now)) h' ->
      board_step u rm h h'
  | step_flag post i f :
      host_find_bbs_post_locked h post = Some i -> operator u = true ->
      same_board (alter_post h i (fun p => set_mod_flags p (f (mod_flags p)))) h' ->
      board_step u rm h h'
  | step_slot h1 i now :
      host_allocate_bbs_post_locked h now = Some (h1, i) -> same_board h1 h' ->
      board_step u rm h h'
  | step_post h1 i now d board :
      host_allocate_bbs_post_locked h now = Some (h1, i) ->
      session_bbs_mute_blocks_locked u h now = false ->
      same_board (alter_post h1 i (filled_post d u board)) h' ->
      board_step u rm h h'
  | step_delete post i p :
      rm = true ->
      post <> 0 -> find_index (fun p => post_id p =? post) (bbs_posts h) = Some i ->
      bbs_posts h !! i = Some p -> may_change u (author p) = true ->
      same_board (host_clear_bbs_post_locked (alter_post h i (fun p => set_in_use p false 0)) i) h' ->
      board_step u rm h h'.

Section Steps.
Context (session_security_check_text : bytes -> bytes -> bool).
Context (user_data_load : bytes -> bool).

Abbreviation commit_post := (session_bbs_commit_pending_post session_security_check_text user_data_load).
Abbreviation add_comment := (session_bbs_add_comment session_security_check_text user_data_load).

Lemma upvote_step u rm h post now : live h -> board_step u rm h (fst (session_bbs_upvote h u post now)).
Proof.
  intros Hl. unfold session_bbs_upvote. case_match; [by apply step_quiet|].
  rewrite (ensure_live _ _ Hl). cbn [negb].
  destruct (host_find_bbs_post_locked h post) as [i|] eqn:Hf; [|by apply step_quiet].
  destruct (record_vote _ _ _ _ _ _) as [[old votes]|] eqn:Hv; [|by apply step_quiet].
  cbn [fst]. eapply (step_vote u rm h _ post i 1 old votes now); [done|by left|done|apply save_board].
Qed.

Lemma downvote_step u rm h post now : live h -> board_step u rm h (fst (session_bbs_downvote h u post now)).
Proof.
  intros Hl. unfold session_bbs_downvote. case_match; [by apply step_quiet|].
  rewrite (ensure_live _ _ Hl). cbn [negb].
  destruct (host_find_bbs_post_locked h post) as [i|] eqn:Hf; [|by apply step_quiet].
  destruct (record_vote _ _ _ _ _ _) as [[old votes]|] eqn:Hv; [|by apply step_quiet].
  cbn [fst]. eapply (step_vote u rm h _ post i (-1) old votes now); [done|by right|done|apply save_board].
Qed.

Lemma cmtvote_step u rm h args now : live h -> board_step u rm h (fst (session_bbs_cmtvote h u args now)).
Proof.
  intros Hl. unfold session_bbs_cmtvote.
  destruct (comment_reference args) as [[[post idx] rest]|]; [|by apply step_quiet].
  case_match; [by apply step_quiet|]. rewrite (ensure_live _ _ Hl). cbn [negb].
  destruct (find_comment h post idx) as [[i p]|] eqn:Hf; [|by apply step_quiet].
  destruct (record_vote _ _ _ _ _ _) as [[old votes]|] eqn:Hv; [|by apply step_quiet].
  eapply (step_comment_vote u rm h _ post idx i p _ old votes now); [done| |exact Hv|apply save_board].
  case_match; [left|right]; reflexivity.
Qed.

Lemma cmtdel_step u h args now : live h -> board_step u true h (fst (session_bbs_cmtdel h u args now)).
Proof.
  intros Hl. unfold session_bbs_cmtdel. case_match; [by apply step_quiet|].
  case_match; [by apply step_quiet|].
  destruct (comment_reference args) as [[[post idx] rest]|]; [|by apply step_quiet].
  case_match; [by apply step_quiet|]. rewrite (ensure_live _ _ Hl). cbn [negb].
  destruct (find_comment h post idx) as [[i p]|] eqn:Hf; [|by apply step_quiet].
  destruct (comments_of h p !! Z.to_nat idx) as [c|] eqn:Hc; [|by apply step_quiet].
  destruct (may_change u (cm_author c)) eqn:Hm; [|by apply step_quiet]. cbn [negb].
  by eapply (step_comment_gone u true h _ post idx i p c); [..|apply save_board].
Qed.

Lemma cmtedit_step u rm h args now : live h ->
  board_step u rm h (fst (session_bbs_cmtedit session_security_check_text h u args now)).
Proof.
  intros Hl. unfold session_bbs_cmtedit. case_match; [by apply step_quiet|].
  case_match; [by apply step_quiet|].
  destruct (comment_reference args) as [[[post idx] rest]|]; [|by apply step_quiet].
  case_match; [by apply step_quiet|]. case_match; [by apply step_quiet|].
  rewrite (ensure_live _ _ Hl). cbn [negb].
  destruct (find_comment h post idx) as [[i p]|] eqn:Hf; [|by apply step_quiet].
  destruct (comments_of h p !! Z.to_nat idx) as [c|] eqn:Hc; [|by apply step_quiet].
  destruct (may_change u (cm_author c)) eqn:Hm; [|by apply step_quiet]. cbn [negb].
  by eapply (step_comment_text u rm h _ post idx i p c); [..|apply save_board].
Qed.

Lemma regen_step u rm h post now : live h -> board_step u rm h (fst (session_bbs_regen_post h post now)).
Proof.
  intros Hl. unfold session_bbs_regen_post. case_match; [by apply step_quiet|].
  rewrite (ensure_live _ _ Hl). cbn [negb].
  destruct (host_find_bbs_post_locked h post) as [i|] eqn:Hf; [|by apply step_quiet].
  destruct (bbs_posts h !! i) as [p|] eqn:Hp; [|by apply step_quiet].
  by eapply (step_bump u rm h _ post i p now); [..|apply save_board].
Qed.

Lemma delete_step u h post now : live h -> board_step u true h (fst (session_bbs_delete h u post now)).
Proof.
  intros Hl. unfold session_bbs_delete. case_match; [by apply step_quiet|]. bprop.
  rewrite (ensure_live _ _ Hl). cbn [negb].
  destruct (find_index _ (bbs_posts h)) as [i|] eqn:Hf; [|by apply step_quiet].
  destruct (bbs_posts h !! i) as [p|] eqn:Hp; [|by apply step_quiet].
  destruct (may_change u (author p)) eqn:Hm; [|by apply step_quiet]. cbn [negb].
  eapply (step_delete u true h _ post i p); [done..|].
  eapply same_board_trans; [|apply save_board]. board_eq.
Qed.

Lemma report_step u rm h args now : live h ->
  board_step u rm h (fst (session_bbs_report session_security_check_text h u args now)).
Proof.
  intros Hl. unfold session_bbs_report. destruct (strtoull args) as [[post rest] range].
  case_match; [by apply step_quiet|]. case_match; [by apply step_quiet|].
  rewrite (ensure_live _ _ Hl). cbn [negb]. case_match; [|by apply step_quiet].
  destruct (host_bbs_report_enqueue_locked _ _ _ _ _) as [h1|] eqn:Hr; [|by apply step_quiet].
  apply step_quiet. eapply same_board_trans; [by eapply report_board|apply save_board].
Qed.

Lemma flag_step u rm h post flag set a c now : live h ->
  board_step u rm h (fst (session_bbs_set_mod_flag h u post flag set a c now)).
Proof.
  intros Hl. unfold session_bbs_set_mod_flag, session_bbs_require_operator.
  destruct (operator u) eqn:Hu; [|by apply step_quiet]. cbn [negb].
  case_match; [by apply step_quiet|]. rewrite (ensure_live _ _ Hl). cbn [negb].
  destruct (host_find_bbs_post_locked h post) as [i|] eqn:Hf; [|by apply step_quiet].
  eapply (step_flag u rm h _ post i
            (fun m => if set then u8 (Z.lor m flag) else u8 (Z.land m (u8 (Z.lnot flag))))); [done..|].
  cbn [fst]. eapply same_board_trans; [|apply save_board].
  destruct (flag =? _); board_eq.
Qed.

Lemma mute_step u rm h args now : live h ->
  board_step u rm h (fst (session_bbs_mute user_data_load h u args now)).
Proof.
  intros Hl. unfold session_bbs_mute. case_match; [by apply step_quiet|].
  case_match; [by apply step_quiet|]. destruct (mute_arguments args) as [target minutes].
  case_match; [by apply step_quiet|]. case_match; [|by apply step_quiet].
  case_match; [by apply step_quiet|]. case_match; [by apply step_quiet|].
  rewrite (ensure_live _ _ Hl). cbn [negb fst]. apply step_quiet.
  eapply same_board_trans; [apply mute_set_board|].
  eapply same_board_trans; [|apply save_board]. board_eq.
Qed.

Lemma unmute_step u rm h name now : live h -> board_step u rm h (fst (session_bbs_unmute h u name now)).
Proof.
  intros Hl. unfold session_bbs_unmute. case_match; [by apply step_quiet|].
  case_match; [by apply step_quiet|]. rewrite (ensure_live _ _ Hl). cbn [negb].
  destruct (host_bbs_mute_remove_locked h name) as [h1 b] eqn:Hm.
  apply mute_remove_board in Hm. destruct b; cbn [fst]; apply step_quiet; [|done].
  eapply same_board_trans; [done|]. eapply same_board_trans; [|apply save_board].
  board_eq.
Qed.

Lemma comment_step u rm h view args now : live h ->
  board_step u rm h (fst (add_comment h u view args now)).
Proof.
  intros Hl. unfold session_bbs_add_comment.
  destruct (comment_arguments view args) as [out|[post text]]; [by apply step_quiet|].
  case_match; [by apply step_quiet|]. case_match; [by apply step_quiet|].
  rewrite (ensure_live _ _ Hl). cbn [negb].
  destruct (host_find_bbs_post_locked h post) as [i|] eqn:Hf; [|by apply step_quiet].
  destruct (bbs_posts h !! i) as [p|] eqn:Hp; [|by apply step_quiet].
  case_match; [by apply step_quiet|]. bprop.
  destruct (session_bbs_mute_blocks_locked u h now) eqn:Hm; [by apply step_quiet|].
  case_match; [by apply step_quiet|].
  apply (step_comment u rm h _ post i p text now); [done..|].
  unfold append_comment. set (h1 := write_comments _ _ _).
  assert (same_board h1 (if operator u then h1 else note_activity h1 (name u) (stamp_comment now))) as Hact
    by (destruct (operator u); auto with board).
  set (h2 := if operator u then _ else _) in *. clearbody h2. eapply same_board_trans; [done|].
  destruct (comments_of h2 p !! comment_count p) as [c|]; [|done]. cbn [fst].
  eapply same_board_trans; [|apply save_board]. eapply same_board_trans; [|apply notify_board].
  case_match; auto with board.
Qed.

Lemma edit_step u rm h d now : board_step u rm h (fst (fst (commit_edit h u d now))).
Proof.
  unfold commit_edit.
  destruct (host_find_bbs_post_locked h _) as [i|] eqn:Hf; [|by apply step_quiet].
  destruct (bbs_posts h !! i) as [p|] eqn:Hp; [|by apply step_quiet].
  destruct (may_edit u (author p)) eqn:Hm; [|by apply step_quiet]. cbn [negb fst].
  by eapply (step_edit u rm h _ _ i p d now); [..|apply save_board].
Qed.

Lemma allocate_mutes h now h1 i : host_allocate_bbs_post_locked h now = Some (h1, i) ->
  bbs_mutes h1 = bbs_mutes h.
Proof.
  unfold host_allocate_bbs_post_locked. case_match; [done|].
  destruct (find_index _ _) as [k|]; [|done]. destruct (_ !! k); [|done]. by intros [= <- <-].
Qed.

Lemma post_step u rm h board d now :
  board_step u rm h (fst (fst (commit_new user_data_load h u board d now))).
Proof.
  unfold commit_new.
  destruct (host_allocate_bbs_post_locked h now) as [[h1 i]|] eqn:Ha; [|by apply step_quiet].
  destruct (negb (operator u) && session_bbs_mute_blocks_locked u h1 now) eqn:Hm;
    [by eapply (step_slot u rm h _ h1 i now)|].
  case_match; [by eapply (step_slot u rm h _ h1 i now)|].
  apply (step_post u rm h _ h1 i now d board); [done| |].
  { unfold session_bbs_mute_blocks_locked, host_bbs_mute_active_locked, host_bbs_mute_find_locked in *.
    rewrite (allocate_mutes _ _ _ _ Ha) in Hm. by destruct (operator u). }
  set (h2 := alter_post h1 i _).
  assert (same_board h2 (if operator u then h2 else note_activity h2 (name u) (stamp_post now))) as Hact
    by (destruct (operator u); auto with board).
  set (h3 := if operator u then _ else _) in *. clearbody h3. eapply same_board_trans; [done|].
  destruct (bbs_posts h3 !! i) as [p|]; [|done]. cbn [fst].
  eapply same_board_trans; [|apply save_board]. eapply same_board_trans; apply notify_board.
Qed.

Lemma commit_step u rm h board d now : live h -> board_step u rm h (fst (fst (commit_post h u board d now))).
Proof.
  intros Hl. unfold session_bbs_commit_pending_post. do 4 (case_match; [by apply step_quiet|]).
  rewrite (ensure_live _ _ Hl). cbn [negb]. case_match; [apply edit_step|apply post_step].
Qed.

Lemma execute_step h e : live h ->
  board_step (who e) (removes (given e)) h (step session_security_check_text user_data_load h e).
Proof.
  intros Hl. unfold step. destruct e as [u now []]; cbn [who at_time given execute].
  - pose proof (commit_step u false h board d now Hl) as Hs. by destruct (commit_post _ _ _ _ _) as [[? ?] ?].
  - by apply comment_step.
  - by apply delete_step.
  - by apply regen_step.
  - by apply upvote_step.
  - by apply downvote_step.
  - by apply cmtvote_step.
  - by apply cmtedit_step.
  - by apply cmtdel_step.
  - by apply report_step.
  - by apply flag_step.
  - by apply mute_step.
  - by apply unmute_step.
Qed.

End Steps.
Lemma alter_known {A} (f : A -> A) (l : list A) (i : nat) x : l !! i = Some x -> alter f i l = <[i:=f x]> l.
Proof. intros Hx. rewrite list_insert_alter. apply list_alter_ext; [|done]. congruence. Qed.

(** *** The packing of the posts *)

Lemma compact_spec n idx w l l' w' :
  (w <= idx)%nat -> (idx + n = length l)%nat -> compact_go n idx w l = (l', w') ->
  w' = (w + length (filter used (drop idx l)))%nat /\
  l' = take w l ++ filter used (drop idx l) ++ drop w' l.
Proof.
  revert idx w l. induction n as [|n IH]; intros idx w l Hw Hn; simpl.
  - intros [= <- <-]. rewrite (drop_ge l idx) by lia. simpl. rewrite Nat.add_0_r. split; [done|].
    by rewrite take_drop.
  - destruct (l !! idx) as [p|] eqn:Hp; [|apply lookup_ge_None in Hp; lia].
    rewrite (drop_S l p idx Hp).
    destruct (in_use p) eqn:Hu; simpl;
      [rewrite filter_cons_True by done|rewrite filter_cons_False by (unfold used; by rewrite Hu)].
    + intros Hc. assert (length l = length (<[w:=p]> l)) as Hlen by (by rewrite length_insert).
      assert ((if (w =? idx)%nat then l else <[w:=p]> l) = <[w:=p]> l) as Hins
        by (case_match; bprop; [subst; by rewrite list_insert_id|done]).
      rewrite Hins in Hc. apply IH in Hc as [-> ->]; [|lia..].
      rewrite !drop_insert_lt by lia. split; [simpl; lia|].
      rewrite (take_S_r _ w p) by (apply list_lookup_insert_eq; lia).
      rewrite take_insert_ge by lia. rewrite <- app_assoc. simpl.
      replace (w + S (length (filter used (drop (S idx) l))))%nat
        with (S w + length (filter used (drop (S idx) l)))%nat by lia. done.
    + intros Hc. apply IH in Hc as [-> ->]; [done|lia..].
Qed.

Lemma filter_used_reset l : filter used (map reset_post l) = [].
Proof. induction l as [|p l IH]; simpl; [done|]. by rewrite filter_cons_False by done. Qed.

Lemma reset_slots_posts k n h :
  (k + n <= length (bbs_posts h))%nat ->
  bbs_posts (fold_left host_reset_bbs_post (seq k n) h) =
  take k (bbs_posts h) ++ map reset_post (take n (drop k (bbs_posts h))) ++ drop (k + n) (bbs_posts h).
Proof.
  revert k h. induction n as [|n IH]; intros k h Hk; simpl.
  - by rewrite Nat.add_0_r, take_drop.
  - destruct (lookup_lt_is_Some_2 (bbs_posts h) k ltac:(lia)) as [p Hp].
    unfold host_reset_bbs_post at 2. rewrite Hp. set (h1 := write_comments _ _ _).
    assert (bbs_posts h1 = <[k:=reset_post p]> (bbs_posts h)) as H1
      by (by apply alter_known).
    rewrite IH, H1 by (rewrite H1, length_insert; lia).
    rewrite (take_S_r _ k (reset_post p)) by (apply list_lookup_insert_eq; lia).
    rewrite take_insert_ge, !drop_insert_lt by lia. rewrite (drop_S _ p k Hp). simpl.
    rewrite <- app_assoc. simpl. by rewrite Nat.add_succ_r.
Qed.

Definition without (i : nat) (l : list bbs_post) : list bbs_post := take i l ++ drop (S i) l.

Lemma filter_used_cleared i l : (i < length l)%nat ->
  filter used (alter reset_post i l) = filter used (without i l).
Proof.
  intros Hi. destruct (lookup_lt_is_Some_2 l i Hi) as [p Hp]. unfold without.
  rewrite (alter_known _ _ _ _ Hp), insert_take_drop, !filter_app by done.
  by rewrite filter_cons_False by done.
Qed.

Lemma resets_keep js h :
  let h' := fold_left host_reset_bbs_post js h in
  bbs_votes h' = bbs_votes h /\ next_bbs_id h' = next_bbs_id h /\
  bbs_vote_capacity h' = bbs_vote_capacity h /\ bbs_cache_loaded h' = bbs_cache_loaded h /\
  bbs_notifications h' = bbs_notifications h.
Proof.
  revert h. induction js as [|j js IHjs]; intros h; [done|]. cbv zeta. simpl.
  destruct (IHjs (host_reset_bbs_post h j)) as (-> & -> & -> & -> & ->).
  unfold host_reset_bbs_post. by case_match.
Qed.

Lemma clear_posts h i :
  host_bbs_storage_ready h = true -> (i < length (bbs_posts h))%nat ->
  let l := alter reset_post i (bbs_posts h) in
  bbs_posts (host_clear_bbs_post_locked h i) =
    filter used l ++ map reset_post (drop (length (filter used l)) l) /\
  bbs_post_count (host_clear_bbs_post_locked h i) = length (filter used l) /\
  bbs_notifications (host_clear_bbs_post_locked h i) = bbs_notifications h.
Proof.
  intros Hr Hi l. unfold host_clear_bbs_post_locked. rewrite Hr. cbn [negb].
  destruct (lookup_lt_is_Some_2 _ _ Hi) as [p Hp]. set (h1 := host_reset_bbs_post h i).
  assert (bbs_posts h1 = l /\ bbs_notifications h1 = bbs_notifications h) as [-> Hn]
    by (unfold h1, host_reset_bbs_post; by rewrite Hp).
  destruct (compact_go (length l) 0 0 l) as [l2 w] eqn:Hc.
  apply compact_spec in Hc as [Hw Hl2]; [|lia..]. rewrite drop_0, take_0 in *. simpl in Hw, Hl2.
  assert (length (filter used l) <= length l)%nat as Hle by apply length_filter.
  assert (length l2 = length l) as Hlen by (subst; rewrite length_app, length_drop; lia).
  split_and!; [|done|].
  - cbn [bbs_posts with_counts]. rewrite reset_slots_posts by (cbn; lia). cbn [bbs_posts with_posts].
    rewrite Hlen. subst w l2. rewrite take_app_length', drop_app_length' by done.
    rewrite take_ge, (drop_ge (_ ++ _)) by (rewrite ?length_app, ?length_drop; lia).
    by rewrite app_nil_r.
  - cbn [bbs_notifications with_counts]. rewrite <- Hn.
    apply (resets_keep _ (with_posts h1 l2)).
Qed.

Lemma delete_posts h i p :
  host_bbs_storage_ready h = true -> bbs_posts h !! i = Some p ->
  let h' := host_clear_bbs_post_locked (alter_post h i (fun p => set_in_use p false 0)) i in
  let kept := filter used (without i (bbs_posts h)) in
  bbs_posts h' = kept ++ map reset_post (drop (length kept) (alter reset_post i (bbs_posts h))) /\
  bbs_post_count h' = length kept /\ bbs_notifications h' = bbs_notifications h.
Proof.
  intros Hr Hp. pose proof (lookup_lt_Some _ _ _ Hp) as Hi.
  destruct (clear_posts (alter_post h i (fun p => set_in_use p false 0)) i) as (H1 & H2 & H3).
  { unfold host_bbs_storage_ready in *. cbn. by rewrite length_alter. }
  { cbn. by rewrite length_alter. }
  cbn [bbs_posts alter_post with_posts] in H1, H2.
  assert (alter reset_post i (alter (fun p => set_in_use p false 0) i (bbs_posts h)) =
          alter reset_post i (bbs_posts h)) as Ha by (by rewrite list_alter_alter_eq).
  rewrite Ha, filter_used_cleared in H1, H2 by done. split_and!; [exact H1|exact H2|exact H3].
Qed.

(** *** Comment arrays *)

Lemma comments_of_write h q f p :
  comments_of (write_comments h q f) p =
  if decide (comments q = comments p) then from_option f [] (comment_store h !! comments p)
  else comments_of h p.
Proof.
  unfold comments_of, write_comments. cbn. rewrite list_lookup_alter.
  destruct (decide _) as [->|]; [|done]. by destruct (comment_store h !! comments p).
Qed.

Definition blank (c : bbs_comment) : Prop := cm_author c = [] /\ cm_text c = [].

Lemma reset_array_blank a : Forall blank (map reset_comment a).
Proof. by apply Forall_map, Forall_true. Qed.

Lemma reset_keeps_blank h i p :
  Forall blank (comments_of h p) -> Forall blank (comments_of (host_reset_bbs_post h i) p).
Proof.
  intros Hb. unfold host_reset_bbs_post. destruct (bbs_posts h !! i) as [q|]; [|done].
  rewrite comments_of_write. case_decide; [|done]. cbn.
  destruct (comment_store h !! comments p); cbn; [apply reset_array_blank|constructor].
Qed.

Lemma resets_keep_blank js h p :
  Forall blank (comments_of h p) -> Forall blank (comments_of (fold_left host_reset_bbs_post js h) p).
Proof. revert h. induction js; intros h Hb; simpl; [done|]. auto using reset_keeps_blank. Qed.

Lemma reset_slots_blank k n h j p :
  (k <= j < k + n)%nat -> bbs_posts h !! j = Some p ->
  Forall blank (comments_of (fold_left host_reset_bbs_post (seq k n) h) p).
Proof.
  revert k h. induction n as [|n IH]; intros k h Hj Hp; simpl; [lia|].
  destruct (decide (j = k)) as [->|].
  - apply resets_keep_blank. unfold host_reset_bbs_post. rewrite Hp, comments_of_write.
    rewrite decide_True by done. cbn.
    destruct (comment_store h !! comments p); cbn; [apply reset_array_blank|constructor].
  - apply IH; [lia|]. unfold host_reset_bbs_post. case_match; [|done]. cbn.
    by rewrite list_lookup_alter_ne.
Qed.

Lemma deleted_wipes h i j p q :
  host_bbs_storage_ready h = true -> bbs_posts h !! i = Some p -> bbs_posts h !! j = Some q ->
  i <> j -> (length (filter used (without i (bbs_posts h))) <= j)%nat ->
  Forall blank
    (comments_of (host_clear_bbs_post_locked (alter_post h i (fun p => set_in_use p false 0)) i) q).
Proof.
  intros Hr Hp Hq Hij Hk. set (h0 := alter_post _ _ _).
  assert (host_bbs_storage_ready h0 = true) as Hr0
    by (unfold host_bbs_storage_ready in *; cbn; by rewrite length_alter).
  unfold host_clear_bbs_post_locked. rewrite Hr0. cbn [negb].
  assert (bbs_posts h0 !! i = Some (set_in_use p false 0)) as Hp0
    by (cbn; by rewrite list_lookup_alter_eq, Hp).
  unfold host_reset_bbs_post at 1 2. rewrite Hp0. set (h1 := write_comments _ _ _).
  assert (bbs_posts h1 = alter reset_post i (bbs_posts h)) as Hl1
    by (cbn; by rewrite list_alter_alter_eq). rewrite !Hl1.
  destruct (compact_go _ 0 0 _) as [l2 w] eqn:Hc. rewrite length_alter in Hc.
  apply compact_spec in Hc as [Hw Hl2]; [|lia|by rewrite length_alter]. rewrite drop_0 in *. simpl in Hw, Hl2.
  pose proof (lookup_lt_Some _ _ _ Hp) as Hi. pose proof (lookup_lt_Some _ _ _ Hq) as Hj.
  rewrite filter_used_cleared in * by done.
  change (comments_of (with_counts ?a ?b ?c) q) with (comments_of a q).
  apply (reset_slots_blank _ _ _ j).
  - cbn. subst l2 w. rewrite length_app, length_drop, length_alter. lia.
  - cbn. subst l2 w. rewrite lookup_app_r, lookup_drop by lia.
    rewrite list_lookup_alter_ne by lia. rewrite <- Hq. f_equal. lia.
Qed.


(** Deleting a post wipes the comments of the last post of the board, if
    that stands after the deleted one: the post keeps its number of comments,
    but every one has lost its author and its text.  The packed copy shares
    its comment array with the slot it came from, which is reset. *)
Theorem delete_wipes_last h u post now i j p q :
  live h -> post <> 0 -> find_index (fun p => post_id p =? post) (bbs_posts h) = Some i ->
  bbs_posts h !! i = Some p -> may_change u (author p) = true ->
  bbs_posts h !! j = Some q -> used q -> (i < j)%nat ->
  Forall (fun r => in_use r = false) (drop (S j) (bbs_posts h)) ->
  let h' := fst (session_bbs_delete h u post now) in
  q ∈ bbs_posts h' /\ Forall blank (comments_of h' q).
Proof.
  intros Hl Hz Hf Hp Hm Hq Hu Hij Hlast. unfold session_bbs_delete.
  apply Z.eqb_neq in Hz. rewrite Hz, (ensure_live _ _ Hl), Hf, Hp, Hm. cbn [negb fst]. cbv zeta.
  destruct (delete_posts h i p (proj1 Hl) Hp) as (H1 & _). cbv zeta in *.
  set (h2 := host_clear_bbs_post_locked _ _) in *.
  pose proof (save_board (host_bbs_notification_drop_for_post_locked h2 post)) as (Hs & Hst & _).
  set (h3 := host_bbs_state_save_locked _) in *.
  assert (comments_of h3 q = comments_of h2 q) as -> by (unfold comments_of; by rewrite Hst).
  rewrite Hs. change (bbs_posts (host_bbs_notification_drop_for_post_locked h2 post)) with (bbs_posts h2).
  assert (q ∈ without i (bbs_posts h)) as Hin.
  { unfold without. apply elem_of_app. right. apply list_elem_of_lookup.
    exists (j - S i)%nat. rewrite lookup_drop. rewrite <- Hq. f_equal. lia. }
  split.
  - rewrite H1. apply elem_of_app. left. by apply list_elem_of_filter.
  - apply (deleted_wipes h i j p q); [apply Hl|done..|lia|].
    unfold without. rewrite filter_app, length_app.
    pose proof (length_filter used (take i (bbs_posts h))) as L1. rewrite length_take in L1.
    rewrite <- (take_drop (j - i) (drop (S i) (bbs_posts h))), filter_app, length_app, drop_drop.
    pose proof (length_filter used (take (j - i) (drop (S i) (bbs_posts h)))) as L2.
    rewrite length_take in L2.
    replace (S i + (j - i))%nat with (S j) by lia.
    assert (filter used (drop (S j) (bbs_posts h)) = []) as ->; [|simpl; lia].
    induction Hlast as [|r l Hr _ IH]; [done|].
    rewrite filter_cons_False by (unfold used; congruence). done.
Qed.

(** *** Steps keep the storage *)

Lemma allocate_posts h now h1 i : host_allocate_bbs_post_locked h now = Some (h1, i) ->
  exists p, bbs_posts h !! i = Some p /\ in_use p = false /\
    bbs_posts h1 = <[i:=allocated_post p (next_bbs_id h) now]> (bbs_posts h) /\
    comment_store h1 = alter (map blank_comment) (comments p) (comment_store h) /\
    bbs_votes h1 = bbs_votes h /\ bbs_vote_capacity h1 = bbs_vote_capacity h /\
    bbs_cache_loaded h1 = bbs_cache_loaded h /\ next_bbs_id h1 = u64 (next_bbs_id h + 1).
Proof.
  unfold host_allocate_bbs_post_locked. case_match; [done|].
  destruct (find_index _ _) as [k|] eqn:Hf; [|done].
  apply find_index_Some in Hf as (p & Hp & Hu & _). rewrite Hp. intros [= <- <-]. bprop.
  exists p. split_and!; try done. by apply (alter_known (fun q => allocated_post q _ now)).
Qed.

Lemma board_live h h' : same_board h h' -> live h -> live h'.
Proof.
  intros (Hp & _ & _ & _ & _ & Hl) [H1 H2].
  unfold live, host_bbs_storage_ready in *. by rewrite Hp, Hl.
Qed.

Lemma length_live h h' : length (bbs_posts h') = length (bbs_posts h) ->
  bbs_cache_loaded h' = bbs_cache_loaded h -> live h -> live h'.
Proof. intros Hp Hl [H1 H2]. unfold live, host_bbs_storage_ready in *. by rewrite Hp, Hl. Qed.

(** The host after a deletion, the notifications apart. *)
Lemma cleared_keeps h i p :
  host_bbs_storage_ready h = true -> bbs_posts h !! i = Some p ->
  let h' := host_clear_bbs_post_locked (alter_post h i (fun p => set_in_use p false 0)) i in
  length (bbs_posts h') = length (bbs_posts h) /\ bbs_votes h' = bbs_votes h /\
  next_bbs_id h' = next_bbs_id h /\ bbs_vote_capacity h' = bbs_vote_capacity h /\
  bbs_cache_loaded h' = bbs_cache_loaded h.
Proof.
  intros Hr Hp. destruct (delete_posts h i p Hr Hp) as (H1 & _). cbv zeta in *. split.
  { rewrite H1, length_app, length_map, length_drop, length_alter.
    assert (length (filter used (without i (bbs_posts h))) <= length (bbs_posts h))%nat; [|lia].
    etrans; [apply length_filter|]. unfold without. rewrite length_app, length_take, length_drop. lia. }
  clear H1. set (h0 := alter_post _ _ _).
  assert (host_bbs_storage_ready h0 = true) as Hr0
    by (unfold host_bbs_storage_ready in *; cbn; by rewrite length_alter).
  unfold host_clear_bbs_post_locked. rewrite Hr0. cbn [negb].
  destruct (compact_go _ _ _ _) as [l2 w]. cbn [bbs_votes next_bbs_id bbs_vote_capacity bbs_cache_loaded with_counts].
  destruct (resets_keep (seq w (length (bbs_posts (with_posts (host_reset_bbs_post h0 i) l2)) - w))
              (with_posts (host_reset_bbs_post h0 i) l2)) as (-> & -> & -> & -> & _).
  cbn. unfold host_reset_bbs_post. by case_match.
Qed.

Lemma step_live u rm h h' : board_step u rm h h' -> live h -> live h'.
Proof.
  intros Hs Hl. destruct Hs as
    [Hb|? ? ? ? ? ? _ _ _ Hb|? ? ? ? ? ? ? ? _ _ _ Hb|? ? ? ? ? _ _ _ _ Hb|? ? ? ? ? ? ? _ _ _ Hb
    |? ? ? ? ? _ _ _ _ Hb|? ? ? ? ? _ _ _ Hb|? ? ? ? _ _ Hb|? ? ? _ _ Hb|h1 i now Ha Hb
    |h1 i now d board Ha _ Hb|post i p _ _ _ Hp _ Hb];
    (eapply board_live; [exact Hb|]).
  all: try (eapply length_live; [..|exact Hl]; [cbn; rewrite ?length_alter; done|done]).
  - apply allocate_posts in Ha as (p & _ & _ & H1 & _ & _ & _ & H2 & _).
    eapply length_live; [by rewrite H1, length_insert|done|done].
  - apply allocate_posts in Ha as (p & _ & _ & H1 & _ & _ & _ & H2 & _).
    eapply length_live; [cbn; by rewrite length_alter, H1, length_insert|done|done].
  - destruct (cleared_keeps h i p (proj1 Hl) Hp) as (H1 & _ & _ & _ & H2).
    by eapply length_live.
Qed.

(** *** What others wrote *)

(** What a post shows besides its votes, comments and activity. *)
Definition face (p : bbs_post) : Z * Z * Z * bytes * bytes * bytes * list bytes * Z :=
  (post_id p, board_id p, mod_flags p, author p, title p, body p, take (tag_count p) (tags p),
   created_at p).

Definition by_others (u : user) (p : bbs_post) : Prop :=
  bbs_post_has_required_fields p = true /\ same_name (author p) (name u) = false.

Definition faces_of_others (u : user) (l : list bbs_post) := map face (filter (by_others u) l).

Lemma faces_alter u f i l :
  (forall p, l !! i = Some p ->
     (face (f p) = face p /\ bbs_post_has_required_fields (f p) = bbs_post_has_required_fields p) \/
     (~ by_others u p /\ ~ by_others u (f p))) ->
  faces_of_others u (alter f i l) = faces_of_others u l.
Proof.
  intros Hf. destruct (l !! i) as [p|] eqn:Hp.
  - rewrite (alter_known _ _ _ _ Hp). unfold faces_of_others.
    rewrite insert_take_drop by (by eapply lookup_lt_Some).
    rewrite <- (take_drop_middle l i p Hp) at 3. rewrite !filter_app, !map_app. f_equal.
    destruct (Hf p eq_refl) as [[H1 H2]|[H1 H2]].
    + assert (author (f p) = author p) as Ha by (unfold face in H1; congruence).
      destruct (decide (by_others u p)) as [Hd|Hd].
      * rewrite !filter_cons_True; [simpl; by rewrite H1|done|].
        unfold by_others in *. by rewrite H2, Ha.
      * rewrite !filter_cons_False; [done|done|]. unfold by_others in *. by rewrite H2, Ha.
    + by rewrite !filter_cons_False by done.
  - rewrite <- (list_alter_ext id f l l i); [|congruence|done]. by rewrite list_alter_id.
Qed.

Lemma find_post h post i : host_find_bbs_post_locked h post = Some i ->
  exists p, bbs_posts h !! i = Some p /\ bbs_post_has_required_fields p = true /\ post_id p = post.
Proof.
  unfold host_find_bbs_post_locked. case_match; [done|]. case_match; [done|].
  intros (p & Hp & Hf & _)%find_index_Some. unfold is_post in Hf. bprop. destruct Hf. eauto.
Qed.

Lemma required_used p : bbs_post_has_required_fields p = true -> used p.
Proof. unfold bbs_post_has_required_fields, used. by destruct (in_use p). Qed.

Lemma faces_used u l : faces_of_others u (filter used l) = faces_of_others u l.
Proof.
  unfold faces_of_others. f_equal. induction l as [|p l IHl]; [done|].
  destruct (decide (used p)) as [Hu|Hu].
  - rewrite (filter_cons_True used) by done. rewrite !filter_cons. case_decide; by rewrite IHl.
  - rewrite (filter_cons_False used), IHl by done. rewrite filter_cons_False; [done|].
    intros [Hr _]. by apply required_used in Hr.
Qed.

Lemma faces_unused u l : Forall (fun p => in_use p = false) l -> faces_of_others u l = [].
Proof.
  intros Hl. rewrite <- faces_used. induction Hl as [|p l Hp _ IHl]; [done|].
  rewrite filter_cons_False by (unfold used; congruence). done.
Qed.

Lemma faces_app u l k : faces_of_others u (l ++ k) = faces_of_others u l ++ faces_of_others u k.
Proof. unfold faces_of_others. by rewrite filter_app, map_app. Qed.

(** The name is one the board stores as it is. *)
Definition plain_name (u : user) : Prop :=
  (length (name u) < SSH_CHATTER_BBS_USERNAME_LEN)%nat /\ host_strip_column_reset (name u) = name u.

Lemma cut_plain u : (length (name u) < SSH_CHATTER_BBS_USERNAME_LEN)%nat -> cut_name (name u) = name u.
Proof. intros Hn. unfold cut_name, snprintf_text. apply take_ge. lia. Qed.

Lemma step_others u rm h h' :
  live h -> operator u = false -> plain_name u -> board_step u rm h h' ->
  faces_of_others u (bbs_posts h') = faces_of_others u (bbs_posts h).
Proof.
  intros Hl Ho [Hn Hstrip] Hs. destruct Hs as
    [Hb|post i type old votes now Hf _ _ Hb|? ? ? ? ? ? ? ? _ _ _ Hb|post i p text now _ Hp _ _ Hb|? ? ? ? ? ? ? _ _ _ Hb
    |post idx i p c _ Hf _ _ Hb|post i p d now _ Hp Hm Hb|post i p now _ Hp Hb|? ? ? _ Hop _|h1 i now Ha Hb
    |h1 i now d board Ha _ Hb|post i p _ _ _ Hp Hm Hb];
    try (destruct Hb as (-> & _)); try congruence; try done.
  - cbn. apply faces_alter. intros p Hp. left. unfold voted_post. by case_match.
  - cbn. apply faces_alter. intros p' Hp'. rewrite Hp in Hp'. simplify_eq. by left.
  - unfold find_comment in Hf. destruct (host_find_bbs_post_locked h post) as [k|]; [|done].
    destruct (bbs_posts h !! k) as [q|] eqn:Hq; [|done]. case_match; [done|]. simplify_eq.
    cbn. apply faces_alter. intros p' Hp'. rewrite Hq in Hp'. simplify_eq. by left.
  - cbn. apply faces_alter. intros p' Hp'. rewrite Hp in Hp'. simplify_eq. right.
    unfold may_edit in Hm. rewrite Ho, orb_false_r in Hm.
    split; intros [_ Hsame]; cbn in Hsame; congruence.
  - cbn. apply faces_alter. intros p' Hp'. rewrite Hp in Hp'. simplify_eq. by left.
  - apply allocate_posts in Ha as (p & Hp & Hu & H1 & _). rewrite H1.
    rewrite <- (alter_known (fun p => allocated_post p (next_bbs_id h) now) _ _ _ Hp).
    apply faces_alter. intros p' Hp'. rewrite Hp in Hp'. simplify_eq. right.
    split; intros [Hr _]; [apply required_used in Hr; unfold used in Hr; congruence|].
    unfold bbs_post_has_required_fields in Hr. cbn in Hr. by case_match.
  - apply allocate_posts in Ha as (p & Hp & Hu & H1 & _). cbn. rewrite H1.
    rewrite <- (alter_known (fun p => allocated_post p (next_bbs_id h) now) _ _ _ Hp), list_alter_alter_eq.
    apply faces_alter. intros p' Hp'. rewrite Hp in Hp'. simplify_eq. right.
    split; intros [Hr Hsame]; [apply required_used in Hr; unfold used in Hr; congruence|].
    cbn in Hsame. rewrite cut_plain, Hstrip, same_name_refl in Hsame by done. done.
  - destruct (delete_posts h i p (proj1 Hl) Hp) as (-> & _). cbv zeta.
    rewrite faces_app, faces_used, (faces_unused _ (map reset_post _))
      by (by apply Forall_map, Forall_true).
    rewrite app_nil_r. unfold without. rewrite <- (take_drop_middle _ _ _ Hp) at 3.
    rewrite !faces_app. f_equal. unfold faces_of_others. f_equal.
    rewrite filter_cons_False; [done|]. intros [Hr Hsame].
    unfold may_change in Hm. rewrite Ho, Hsame, !orb_false_r in Hm.
    unfold bbs_post_has_required_fields in Hr. rewrite Hm in Hr. repeat case_match; done.
Qed.

Lemma execute_live check known h e : live h -> live (step check known h e).
Proof. intros Hl. eapply step_live; [by apply execute_step|done]. Qed.

(** C18: Whatever commands someone who is no operator gives, whatever the
    drafts, texts and arguments, the posts of everyone else keep their number,
    board, flags, author, title, body, tags and date, and none is lost or
    changes its place among them. *)
Theorem others_posts_safe check known h u es :
  live h -> operator u = false -> plain_name u -> Forall (fun e => who e = u) es ->
  faces_of_others u (bbs_posts (run check known h es)) = faces_of_others u (bbs_posts h).
Proof.
  intros Hl Ho Hn Hes. revert h Hl. induction Hes as [|e es He _ IHes]; intros h Hl; [done|].
  unfold run in *. simpl. rewrite IHes by (by apply execute_live).
  eapply step_others; [done..|]. rewrite <- He. by apply execute_step.
Qed.

(** *** One vote each *)

Definition vote_key (v : bbs_vote) : Z * Z * bytes :=
  (target_post_id v, target_comment_idx v, voter_username v).

Definition fixed_key (post removed : Z) (k : Z * Z * bytes) : option (Z * Z * bytes) :=
  let '(p, i, n) := k in
  if p =? post then
    if i =? removed then None
    else if removed <? i then Some (p, i - 1, n) else Some k
  else Some k.

Lemma fix_votes_keys post r votes :
  map vote_key (fix_votes post r votes) = omap (fixed_key post r) (map vote_key votes).
Proof.
  induction votes as [|v l IHl]; [done|]. csimpl. unfold vote_key at 2. cbn [fixed_key].
  repeat case_match; simpl; by rewrite ?IHl.
Qed.

Lemma NoDup_omap_inj {A B} (f : A -> option B) l :
  (forall x y z, f x = Some z -> f y = Some z -> x = y) -> NoDup l -> NoDup (omap f l).
Proof.
  intros Hf. induction 1 as [|x l Hx _ IHl]; csimpl; [constructor|].
  destruct (f x) as [z|] eqn:Hz; [|done]. apply NoDup_cons_2; [|done].
  rewrite list_elem_of_omap. intros (y & Hy & Hfy). by rewrite (Hf x y z Hz Hfy) in Hx.
Qed.

Lemma fixed_key_inj post r x y z :
  fixed_key post r x = Some z -> fixed_key post r y = Some z -> x = y.
Proof.
  destruct x as [[p i] n], y as [[q j] m]. unfold fixed_key.
  repeat case_match; bprop; intros; simplify_eq; try done; try lia;
    try (f_equal; f_equal; lia).
Qed.

Lemma with_type_keys t k votes :
  map vote_key (alter (with_type t) k votes) = map vote_key votes.
Proof.
  revert k. induction votes as [|v l IHl]; intros [|k]; try done. simpl. f_equal. apply IHl.
Qed.

Lemma record_vote_keys h u post idx type now old votes :
  (length (name u) < SSH_CHATTER_BBS_USERNAME_LEN)%nat ->
  record_vote h u post idx type now = Some (old, votes) ->
  NoDup (map vote_key (bbs_votes h)) -> NoDup (map vote_key votes).
Proof.
  intros Hn. unfold record_vote. destruct (find_index _ _) as [k|] eqn:Hf.
  - destruct (_ !! k); [|done]. case_match; [done|]. intros [= <- <-]. by rewrite with_type_keys.
  - intros [= <- <-] Hd. case_match; [|done]. rewrite map_app. apply NoDup_app.
    split_and!; [done| |apply NoDup_singleton].
    intros k Hk Hin%list_elem_of_singleton. subst k. apply list_elem_of_fmap in Hk as (v & Hk & Hv).
    apply find_index_None in Hf. rewrite Forall_forall in Hf. specialize (Hf v Hv).
    unfold is_vote, vote_key in *. cbn in Hk. rewrite cut_plain in Hk by done. injection Hk as H1 H2 H3.
    rewrite <- H1, <- H2, <- H3, !Z.eqb_refl, bytes_eqb_refl in Hf. done.
Qed.

Lemma step_keys u rm h h' :
  live h -> (length (name u) < SSH_CHATTER_BBS_USERNAME_LEN)%nat -> board_step u rm h h' ->
  NoDup (map vote_key (bbs_votes h)) -> NoDup (map vote_key (bbs_votes h')).
Proof.
  intros Hl Hn Hs Hd. destruct Hs as
    [Hb|post i type old votes now _ _ Hv Hb|post idx i p type old votes now _ _ Hv Hb|? ? ? ? ? _ _ _ _ Hb
    |? ? ? ? ? ? ? _ _ _ Hb|post idx i p c _ _ _ _ Hb|? ? ? ? ? _ _ _ Hb|? ? ? ? _ _ Hb|? ? ? _ _ Hb
    |h1 i now Ha Hb|h1 i now d board Ha _ Hb|post i p _ _ _ Hp _ Hb];
    destruct Hb as (_ & _ & -> & _); try done.
  - by eapply record_vote_keys.
  - by eapply record_vote_keys.
  - cbn. rewrite fix_votes_keys. apply NoDup_omap_inj; [apply fixed_key_inj|done].
  - by apply allocate_posts in Ha as (? & _ & _ & _ & _ & -> & _).
  - apply allocate_posts in Ha as (? & _ & _ & _ & _ & Hv & _). cbn. by rewrite Hv.
  - by destruct (cleared_keeps h i p (proj1 Hl) Hp) as (_ & -> & _).
Qed.

(** C20: Whatever commands are given by whom, the vote table never holds two
    votes of one user on one post or on one comment, also after comments were
    deleted and the votes on later ones moved. *)
Theorem one_vote_each check known h es :
  live h -> Forall (fun e => length (name (who e)) < SSH_CHATTER_BBS_USERNAME_LEN)%nat es ->
  NoDup (map vote_key (bbs_votes h)) -> NoDup (map vote_key (bbs_votes (run check known h es))).
Proof.
  intros Hl Hes. revert h Hl. induction Hes as [|e es He _ IHes]; intros h Hl Hd; [done|].
  unfold run in *. simpl. apply IHes; [by apply execute_live|].
  eapply step_keys; [done|exact He| |done]. by apply execute_step.
Qed.

(** *** Counting votes *)

Definition vote_for (post idx type : Z) (v : bbs_vote) : Prop :=
  target_post_id v = post /\ target_comment_idx v = idx /\ vote_type v = type.
#[local] Instance vote_for_dec post idx type v : Decision (vote_for post idx type v) :=
  and_dec _ _.

Definition count (votes : list bbs_vote) (post idx type : Z) : Z :=
  Z.of_nat (length (filter (vote_for post idx type) votes)).

Lemma count_app l k post idx type : count (l ++ k) post idx type = count l post idx type + count k post idx type.
Proof. unfold count. rewrite filter_app, length_app. lia. Qed.

Lemma count_cons v l post idx type :
  count (v :: l) post idx type =
  (if (target_post_id v =? post) && (target_comment_idx v =? idx) && (vote_type v =? type) then 1 else 0) +
  count l post idx type.
Proof.
  unfold count. rewrite filter_cons. case_decide as Hd; unfold vote_for in Hd.
  - destruct Hd as (-> & -> & ->). rewrite !Z.eqb_refl. simpl. lia.
  - case_match; bprop; [|simpl; lia]. exfalso. apply Hd. intuition congruence.
Qed.

Lemma count_none l post idx type :
  Forall (fun v => target_post_id v <> post) l -> count l post idx type = 0.
Proof.
  induction 1 as [|v l Hv _ IHl]; [done|]. rewrite count_cons, IHl.
  apply Z.eqb_neq in Hv. by rewrite Hv.
Qed.

(** How a vote recorded changes the numbers. *)
Definition delta (post idx type : Z) (old : option Z) (q k t : Z) : Z :=
  if (q =? post) && (k =? idx) then
    if t =? type then 1 else match old with Some _ => -1 | None => 0 end
  else 0.

Definition types_ok (votes : list bbs_vote) : Prop :=
  Forall (fun v => vote_type v = 1 \/ vote_type v = -1) votes.

Lemma record_vote_counts h u post idx type now old votes :
  types_ok (bbs_votes h) -> type = 1 \/ type = -1 ->
  (length (bbs_votes h) < bbs_vote_capacity h)%nat ->
  record_vote h u post idx type now = Some (old, votes) ->
  (forall q k t, t = 1 \/ t = -1 ->
     count votes q k t = count (bbs_votes h) q k t + delta post idx type old q k t) /\
  types_ok votes /\ (forall t, old = Some t -> t = - type) /\
  (length votes <= S (length (bbs_votes h)))%nat /\
  (forall n, post < n -> Forall (fun v => target_post_id v < n) (bbs_votes h) ->
     Forall (fun v => target_post_id v < n) votes).
Proof.
  intros Hok Hty Hroom. unfold record_vote. destruct (find_index _ _) as [i|] eqn:Hf.
  - apply find_index_Some in Hf as (v & Hv & Hiv & _). rewrite Hv. case_match; [done|]. bprop.
    intros [= <- <-]. unfold is_vote in Hiv. bprop. destruct Hiv as [[H1 H2] _].
    pose proof (Forall_lookup_1 _ _ _ _ Hok Hv) as Hvt. cbn in Hvt.
    rewrite (alter_known _ _ _ _ Hv), insert_take_drop by (by eapply lookup_lt_Some).
    split_and!.
    + intros q k t Ht. rewrite <- (take_drop_middle _ _ _ Hv) at 3. rewrite !count_app, !count_cons.
      unfold delta. cbn [target_post_id target_comment_idx vote_type with_type].
      rewrite H1, H2, (Z.eqb_sym post q), (Z.eqb_sym idx k), (Z.eqb_sym type t).
      destruct ((q =? post) && (k =? idx)); cbn [andb]; [|lia].
      destruct (Z.eqb_spec t type), (Z.eqb_spec (vote_type v) t); lia.
    + unfold types_ok. rewrite Forall_app. split; [by apply Forall_take|].
      constructor; [done|by apply Forall_drop].
    + intros t [= <-]. lia.
    + rewrite length_app, length_take. simpl. rewrite length_drop. pose proof (lookup_lt_Some _ _ _ Hv). lia.
    + intros n Hn Hall. apply Forall_app. split; [by apply Forall_take|].
      constructor; [cbn; congruence|by apply Forall_drop].
  - apply Nat.ltb_lt in Hroom. rewrite Hroom. intros [= <- <-]. split_and!.
    + intros q k t Ht. rewrite count_app, count_cons. unfold delta.
      cbn [target_post_id target_comment_idx vote_type]. change (count [] q k t) with 0.
      rewrite (Z.eqb_sym post q), (Z.eqb_sym idx k), (Z.eqb_sym type t).
      destruct ((q =? post) && (k =? idx)); cbn [andb]; [|lia]. destruct (Z.eqb_spec t type); lia.
    + unfold types_ok. rewrite Forall_app. split; [done|]. by constructor.
    + done.
    + rewrite length_app. simpl. lia.
    + intros n Hn Hall. apply Forall_app. split; [done|]. by constructor.
Qed.

(** The counters of every post and comment in use are the votes recorded for
    them; what is free counts nothing. *)
Record tallied (h : host) : Prop := {
  t_apart : forall i j p q, bbs_posts h !! i = Some p -> bbs_posts h !! j = Some q ->
      comments p = comments q -> i = j;
  t_ids : forall i j p q, bbs_posts h !! i = Some p -> bbs_posts h !! j = Some q ->
      used p -> used q -> post_id p = post_id q -> i = j;
  t_next : 0 < next_bbs_id h /\
      forall i p, bbs_posts h !! i = Some p -> used p -> 0 < post_id p < next_bbs_id h;
  t_types : types_ok (bbs_votes h);
  t_targets : Forall (fun v => target_post_id v < next_bbs_id h) (bbs_votes h);
  t_post : forall i p, bbs_posts h !! i = Some p -> used p ->
      upvotes p = count (bbs_votes h) (post_id p) (-1) 1 /\
      downvotes p = count (bbs_votes h) (post_id p) (-1) (-1);
  t_comment : forall i p k c, bbs_posts h !! i = Some p -> used p -> comments_of h p !! k = Some c ->
      cm_upvotes c = count (bbs_votes h) (post_id p) (Z.of_nat k) 1 /\
      cm_downvotes c = count (bbs_votes h) (post_id p) (Z.of_nat k) (-1);
  t_free : forall i p, bbs_posts h !! i = Some p -> ~ used p ->
      upvotes p = 0 /\ downvotes p = 0 /\
      forall k c, comments_of h p !! k = Some c -> cm_upvotes c = 0 /\ cm_downvotes c = 0
}.

(** Posts and comments as the count sees them. *)
Definition post_count_view (p : bbs_post) : bool * Z * Z * Z * nat :=
  (in_use p, post_id p, upvotes p, downvotes p, comments p).
Definition comment_count_view (c : bbs_comment) : Z * Z := (cm_upvotes c, cm_downvotes c).

Lemma tallied_view h h' :
  map post_count_view (bbs_posts h') = map post_count_view (bbs_posts h) ->
  map (map comment_count_view) (comment_store h') = map (map comment_count_view) (comment_store h) ->
  bbs_votes h' = bbs_votes h -> next_bbs_id h' = next_bbs_id h -> tallied h -> tallied h'.
Proof.
  intros Hp Hs Hv Hn Ht.
  assert (forall i p', bbs_posts h' !! i = Some p' -> exists p, bbs_posts h !! i = Some p /\
            post_count_view p = post_count_view p') as Hpost.
  { intros i p' Hi. assert (map post_count_view (bbs_posts h') !! i = Some (post_count_view p')) as Hm
      by (by rewrite list_lookup_fmap, Hi).
    rewrite Hp, list_lookup_fmap in Hm. destruct (bbs_posts h !! i) as [p|]; [|done].
    exists p. split; [done|]. change (Some (post_count_view p) = Some (post_count_view p')) in Hm. congruence. }
  assert (forall a k c', default [] (comment_store h' !! a) !! k = Some c' ->
            exists c, default [] (comment_store h !! a) !! k = Some c /\
              comment_count_view c = comment_count_view c') as Hcom.
  { intros a k c' Hc. destruct (comment_store h' !! a) as [l'|] eqn:Ha; [|done]. cbn in Hc.
    assert (map (map comment_count_view) (comment_store h') !! a = Some (map comment_count_view l')) as Hm
      by (by rewrite list_lookup_fmap, Ha).
    rewrite Hs, list_lookup_fmap in Hm. destruct (comment_store h !! a) as [l|]; [|done]. cbn in *.
    assert (map comment_count_view l !! k = Some (comment_count_view c')) as Hk
      by (injection Hm as ->; by rewrite list_lookup_fmap, Hc).
    rewrite list_lookup_fmap in Hk. destruct (l !! k) as [c|]; [|done].
    exists c. split; [done|]. change (Some (comment_count_view c) = Some (comment_count_view c')) in Hk. congruence. }
  unfold post_count_view, comment_count_view, comments_of, used in *.
  split; rewrite ?Hv, ?Hn.
  - intros i j p q (p0 & Hi & ?)%Hpost (q0 & Hj & ?)%Hpost ?.
    apply (t_apart h Ht i j p0 q0); [done|done|congruence].
  - intros i j p q (p0 & Hi & ?)%Hpost (q0 & Hj & ?)%Hpost Hu1 Hu2 ?.
    apply (t_ids h Ht i j p0 q0); unfold used; congruence.
  - split; [apply (t_next h Ht)|]. intros i p (p0 & Hi & Heq)%Hpost Hu.
    assert (0 < post_id p0 < next_bbs_id h) by (eapply (t_next h Ht); eauto; unfold used; congruence).
    injection Heq as _ Hid _ _ _. by rewrite <- Hid.
  - apply (t_types h Ht).
  - apply (t_targets h Ht).
  - intros i p (p0 & Hi & Heq)%Hpost Hu. injection Heq as Hu' Hid Hup Hdown _.
    rewrite <- Hid, <- Hup, <- Hdown. eapply (t_post h Ht); eauto. unfold used. congruence.
  - intros i p k c (p0 & Hi & Heq)%Hpost Hu (c0 & Hc & Hceq)%Hcom. injection Heq as Hu' Hid _ _ Hptr.
    injection Hceq as <- <-. rewrite <- Hid. eapply (t_comment h Ht); eauto; unfold used, comments_of; congruence.
  - intros i p (p0 & Hi & Heq)%Hpost Hu. injection Heq as Hu' _ Hup Hdown Hptr.
    rewrite <- Hup, <- Hdown. destruct (t_free h Ht i p0 Hi) as (H1 & H2 & H3);
      [unfold used; congruence|]. split_and!; [done..|].
    intros k c (c0 & Hc & Hceq)%Hcom. injection Hceq as <- <-. apply (H3 k).
    unfold comments_of. congruence.
Qed.

Lemma board_view h h' : same_board h h' -> tallied h -> tallied h'.
Proof. intros (Hp & Hs & Hv & Hn & _) Ht. apply (tallied_view h h'); congruence. Qed.

Lemma alter_view_post f i l :
  (forall p, l !! i = Some p -> post_count_view (f p) = post_count_view p) ->
  map post_count_view (alter f i l) = map post_count_view l.
Proof.
  revert i. induction l as [|p l IHl]; intros [|i] Hf; try done; simpl; f_equal.
  - by apply Hf.
  - by apply IHl.
Qed.

Lemma alter_view_array f a s :
  (forall l, s !! a = Some l -> map comment_count_view (f l) = map comment_count_view l) ->
  map (map comment_count_view) (alter f a s) = map (map comment_count_view) s.
Proof.
  revert a. induction s as [|l s IHs]; intros [|a] Hf; try done; simpl; f_equal.
  - by apply Hf.
  - by apply IHs.
Qed.

Lemma alter_view_comment f k l :
  (forall c, comment_count_view (f c) = comment_count_view c) ->
  map comment_count_view (alter f k l) = map comment_count_view l.
Proof.
  intros Hf. revert k. induction l as [|c l IHl]; intros [|k]; try done; simpl.
  - by rewrite Hf.
  - f_equal. apply IHl.
Qed.

(** *** Votes keep the tally *)

Lemma tallied_vote h u i p post type now old votes :
  bbs_posts h !! i = Some p -> used p -> post_id p = post -> type = 1 \/ type = -1 ->
  (length (bbs_votes h) < bbs_vote_capacity h)%nat ->
  record_vote h u post (-1) type now = Some (old, votes) -> tallied h ->
  tallied (alter_post (with_votes h votes) i (voted_post old type)).
Proof.
  intros Hp Hu Hid Hty Hroom Hv Ht.
  destruct (record_vote_counts _ _ _ _ _ _ _ _ (t_types h Ht) Hty Hroom Hv) as (Hc & Hok & Hold & _ & Htg).
  assert (map (fun q => (in_use q, post_id q, comments q))
            (alter (voted_post old type) i (bbs_posts h)) =
          map (fun q => (in_use q, post_id q, comments q)) (bbs_posts h)) as Hsame.
  { rewrite (alter_known _ _ _ _ Hp). rewrite insert_take_drop by (by eapply lookup_lt_Some).
    rewrite <- (take_drop_middle _ _ _ Hp) at 3. rewrite !map_app. simpl.
    unfold voted_post. by destruct (type =? 1). }
  set (h' := alter_post _ _ _).
  assert (forall j q', bbs_posts h' !! j = Some q' -> exists q, bbs_posts h !! j = Some q /\
            in_use q' = in_use q /\ post_id q' = post_id q /\ comments q' = comments q /\
            q' = if decide (i = j) then voted_post old type q else q) as Hpost.
  { intros j q' Hj. cbn in Hj. rewrite list_lookup_alter in Hj.
    case_decide as Hij; [|by exists q']. subst j. rewrite Hp in Hj. injection Hj as <-.
    exists p. unfold voted_post. by destruct (type =? 1). }
  assert (forall q, comments_of h' q = comments_of h q) as Hcom by done.
  split; change (bbs_votes h') with votes; change (next_bbs_id h') with (next_bbs_id h).
  - intros j k p1 p2 (q1 & Hj & _ & _ & Hc1 & _)%Hpost (q2 & Hk & _ & _ & Hc2 & _)%Hpost Heq.
    apply (t_apart h Ht j k q1 q2); [done|done|congruence].
  - intros j k p1 p2 (q1 & Hj & Hu1 & Hi1 & _)%Hpost (q2 & Hk & Hu2 & Hi2 & _)%Hpost H1 H2 Heq.
    apply (t_ids h Ht j k q1 q2); unfold used in *; congruence.
  - split; [apply (t_next h Ht)|]. intros j q' (q & Hj & Hu' & -> & _)%Hpost H1.
    apply (proj2 (t_next h Ht) j); unfold used in *; congruence.
  - done.
  - apply Htg; [|apply (t_targets h Ht)]. subst post. by apply (proj2 (t_next h Ht) i).
  - intros j q' (q & Hj & Hu' & Hi' & _ & Hq)%Hpost H1. rewrite !Hc by lia. rewrite Hi'.
    destruct (t_post h Ht j q Hj) as [Hup Hdown]; [unfold used in *; congruence|].
    rewrite <- Hup, <- Hdown. unfold delta. subst q'. case_decide as Hij.
    + subst j. rewrite Hp in Hj. injection Hj as <-. rewrite Hid, !Z.eqb_refl. cbn [andb].
      unfold voted_post. destruct Hty as [-> | ->]; cbn; destruct old; lia.
    + assert (post_id q <> post) as Hne.
      { intros Heq. apply Hij. apply (t_ids h Ht i j p q); unfold used in *; congruence. }
      apply Z.eqb_neq in Hne. rewrite Hne. cbn [andb]. lia.
  - intros j q' k c (q & Hj & Hu' & Hi' & Hptr & _)%Hpost H1 Hk. rewrite Hcom in Hk.
    rewrite !Hc by lia. rewrite Hi'. unfold comments_of in Hk. rewrite Hptr in Hk.
    destruct (t_comment h Ht j q k c Hj) as [<- <-]; [unfold used in *; congruence|done|].
    unfold delta. replace (Z.of_nat k =? -1) with false by (symmetry; apply Z.eqb_neq; lia).
    rewrite andb_false_r. lia.
  - intros j q' (q & Hj & Hu' & _ & Hptr & Hq)%Hpost H1.
    assert (i <> j) as Hij.
    { intros ->. rewrite Hp in Hj. injection Hj as <-. unfold used in *. congruence. }
    rewrite decide_False in Hq by done. subst q'. by apply (t_free h Ht j).
Qed.

Lemma tallied_comment_vote h u i p post idx type now old votes :
  bbs_posts h !! i = Some p -> used p -> post_id p = post -> 0 <= idx -> type = 1 \/ type = -1 ->
  (length (bbs_votes h) < bbs_vote_capacity h)%nat ->
  record_vote h u post idx type now = Some (old, votes) -> tallied h ->
  tallied (write_comments (with_votes h votes) p (alter (voted_comment old type) (Z.to_nat idx))).
Proof.
  intros Hp Hu Hid Hidx Hty Hroom Hv Ht.
  destruct (record_vote_counts _ _ _ _ _ _ _ _ (t_types h Ht) Hty Hroom Hv) as (Hc & Hok & Hold & _ & Htg).
  set (h' := write_comments _ _ _).
  assert (forall j q k c', bbs_posts h !! j = Some q -> comments_of h' q !! k = Some c' ->
            exists c, comments_of h q !! k = Some c /\
              c' = if decide (i = j /\ Z.to_nat idx = k) then voted_comment old type c else c) as Hcom.
  { intros j q k c' Hj. unfold h'. rewrite comments_of_write.
    change (comments_of (with_votes h votes) q) with (comments_of h q).
    change (comment_store (with_votes h votes)) with (comment_store h).
    destruct (decide (comments p = comments q)) as [Heq|Hne].
    - pose proof (t_apart h Ht i j p q Hp Hj Heq) as ->. unfold comments_of.
      destruct (comment_store h !! comments q) as [a|]; [|done]. cbn.
      rewrite list_lookup_alter. destruct (decide (Z.to_nat idx = k)) as [<-|Hk].
      + destruct (a !! Z.to_nat idx) as [c|]; [|done]. intros [= <-]. exists c.
        by rewrite decide_True.
      + intros Hak. exists c'. split; [done|]. rewrite decide_False; [done|]. by intros [_ ?].
    - intros Hk. exists c'. rewrite decide_False; [done|]. intros [-> _]. congruence. }
  split; change (bbs_votes h') with votes; change (next_bbs_id h') with (next_bbs_id h);
    change (bbs_posts h') with (bbs_posts h); try apply Ht.
  - done.
  - apply Htg; [|apply (t_targets h Ht)]. subst post. by apply (proj2 (t_next h Ht) i).
  - intros j q Hj H1. rewrite !Hc by lia. destruct (t_post h Ht j q Hj H1) as [<- <-].
    unfold delta. replace (-1 =? idx) with false by (symmetry; apply Z.eqb_neq; lia).
    rewrite andb_false_r. lia.
  - intros j q k c' Hj H1 (c & Hk & ->)%(Hcom j q); [|done]. rewrite !Hc by lia.
    destruct (t_comment h Ht j q k c Hj H1 Hk) as [<- <-]. unfold delta. case_decide as Hd.
    + destruct Hd as [-> <-]. rewrite Hj in Hp. injection Hp as <-. rewrite Hid, Z2Nat.id by lia.
      rewrite !Z.eqb_refl. cbn [andb]. unfold voted_comment.
      destruct old as [t|]; [rewrite (Hold t eq_refl)|]; destruct Hty as [-> | ->];
        change (- (1) =? 1) with false; change (- (-1) =? 1) with true; cbn; lia.
    + assert (((post_id q =? post) && (Z.of_nat k =? idx)) = false) as ->; [|lia].
      apply andb_false_iff. destruct (Z.eqb_spec (post_id q) post) as [He|]; [right|by left].
      apply Z.eqb_neq. intros <-. apply Hd. split; [|lia].
      apply (t_ids h Ht i j p q); congruence.
  - intros j q Hj H1. destruct (t_free h Ht j q Hj H1) as (H2 & H3 & H4). split_and!; [done..|].
    intros k c' (c & Hk & ->)%(Hcom j q); [|done]. rewrite decide_False; [by eapply H4|].
    intros [-> _]. congruence.
Qed.

(** A free slot taken and perhaps filled: it gets the next number, which no
    vote is for. *)
Lemma tallied_allocate h now h1 i :
  host_allocate_bbs_post_locked h now = Some (h1, i) ->
  next_bbs_id h + 1 < 18446744073709551616 -> tallied h -> tallied h1.
Proof.
  intros (p & Hp & Hu & Hp1 & Hs1 & Hv1 & _ & _ & Hn1)%allocate_posts Hmax Ht.
  destruct (t_next h Ht) as [Hpos Hnext].
  rewrite Z.mod_small in Hn1 by lia.
  assert (forall j q', bbs_posts h1 !! j = Some q' ->
            (j = i /\ q' = allocated_post p (next_bbs_id h) now) \/
            (j <> i /\ bbs_posts h !! j = Some q')) as Hpost.
  { intros j q'. rewrite Hp1. destruct (decide (i = j)) as [<-|Hij].
    - rewrite list_lookup_insert_eq by (by eapply lookup_lt_Some). intros [= <-]. by left.
    - rewrite list_lookup_insert_ne by done. intros Hj. right. done. }
  assert (forall j q k c', bbs_posts h !! j = Some q -> comments_of h1 q !! k = Some c' ->
            exists c, comments_of h q !! k = Some c /\ comment_count_view c' = comment_count_view c) as Hcom.
  { intros j q k c' Hj. unfold comments_of. rewrite Hs1, list_lookup_alter. case_decide.
    - destruct (comment_store h !! comments p) as [a|] eqn:Ha; [|done]. cbn. rewrite list_lookup_fmap.
      intros Hk. destruct (a !! k) as [c|] eqn:Hak; [|done]. injection Hk as <-.
      exists c. split; [|done]. assert (comments q = comments p) as -> by congruence. by rewrite Ha.
    - intros Hk. by exists c'. }
  assert (~ used p) as Hfree by (unfold used; congruence).
  destruct (t_free h Ht i p Hp Hfree) as (Hup & Hdown & Hzero).
  assert (forall k t, count (bbs_votes h) (next_bbs_id h) k t = 0) as Hnone.
  { intros k t. apply count_none. eapply Forall_impl; [apply (t_targets h Ht)|]. cbn. intros; lia. }
  split; rewrite ?Hv1, ?Hn1.
  - intros j k q1 q2 [[-> ->]|[Hj Hq1]]%Hpost [[-> ->]|[Hk Hq2]]%Hpost Heq; try done; cbn in Heq.
    + by apply (t_apart h Ht i k p q2).
    + by apply (t_apart h Ht j i q1 p).
    + by apply (t_apart h Ht j k q1 q2).
  - intros j k q1 q2 [[-> ->]|[Hj Hq1]]%Hpost [[-> ->]|[Hk Hq2]]%Hpost H1 H2 Heq; try done; cbn in Heq.
    + specialize (Hnext _ _ Hq2 H2). lia.
    + specialize (Hnext _ _ Hq1 H1). lia.
    + by apply (t_ids h Ht j k q1 q2).
  - split; [lia|]. intros j q' [[-> ->]|[Hj Hq]]%Hpost H1; cbn; [lia|].
    specialize (Hnext _ _ Hq H1). lia.
  - apply Ht.
  - eapply Forall_impl; [apply (t_targets h Ht)|]. cbn. intros; lia.
  - intros j q' [[-> ->]|[Hj Hq]]%Hpost H1; cbn; [rewrite !Hnone; lia|]. by apply (t_post h Ht j).
  - intros j q' k c [[-> ->]|[Hj Hq]]%Hpost H1 Hk.
    + change (comments_of h1 (allocated_post p (next_bbs_id h) now)) with (comments_of h1 p) in Hk.
      apply (Hcom i p) in Hk as (c0 & Hk & [= -> ->]); [|done]. cbn. rewrite !Hnone. by eapply Hzero.
    + apply (Hcom j q') in Hk as (c0 & Hk & [= -> ->]); [|done]. by apply (t_comment h Ht j).
  - intros j q' [[-> ->]|[Hj Hq]]%Hpost H1; [by destruct H1|].
    destruct (t_free h Ht j q' Hq H1) as (H2 & H3 & H4). split_and!; [done..|].
    intros k c (c0 & Hk & [= -> ->])%(Hcom j q'); [|done]. by eapply H4.
Qed.

Lemma find_comment_spec h post idx i p : find_comment h post idx = Some (i, p) ->
  bbs_posts h !! i = Some p /\ used p /\ post_id p = post /\ 0 <= idx < Z.of_nat (comment_count p).
Proof.
  unfold find_comment. destruct (host_find_bbs_post_locked h post) as [k|] eqn:Hf; [|done].
  apply find_post in Hf as (q & Hq & Hr & Hid). rewrite Hq. case_match; [done|]. bprop.
  intros [= <- <-]. by apply required_used in Hr.
Qed.

(** What [tallied_view] asks of a step that changes neither counters nor
    pointers. *)
Lemma step_view h h' :
  bbs_votes h' = bbs_votes h -> next_bbs_id h' = next_bbs_id h ->
  bbs_vote_capacity h' = bbs_vote_capacity h ->
  map post_count_view (bbs_posts h') = map post_count_view (bbs_posts h) ->
  map (map comment_count_view) (comment_store h') = map (map comment_count_view) (comment_store h) ->
  tallied h ->
  tallied h' /\ (length (bbs_votes h') <= S (length (bbs_votes h)))%nat /\
  next_bbs_id h' <= next_bbs_id h + 1 /\ bbs_vote_capacity h' = bbs_vote_capacity h.
Proof.
  intros Hv Hn Hc Hp Hs Ht. split; [by eapply tallied_view|]. rewrite Hv, Hn, Hc. split_and!; lia.
Qed.

Lemma step_tallied u h h' :
  (length (bbs_votes h) < bbs_vote_capacity h)%nat -> next_bbs_id h + 1 < 18446744073709551616 ->
  board_step u false h h' -> tallied h ->
  tallied h' /\ (length (bbs_votes h') <= S (length (bbs_votes h)))%nat /\
  next_bbs_id h' <= next_bbs_id h + 1 /\ bbs_vote_capacity h' = bbs_vote_capacity h.
Proof.
  intros Hroom Hmax Hs Ht. pose proof (proj1 (t_next h Ht)) as Hpos. destruct Hs as
    [Hb|post i type old votes now Hf Hty Hv Hb|post idx i p type old votes now Hf Hty Hv Hb
    |post i p text now _ Hp _ _ Hb|post idx i p c text now _ _ _ Hb|? ? ? ? ? [=]
    |post i p d now _ Hp _ Hb|post i p now _ Hp Hb|post i f _ _ Hb|h1 i now Ha Hb
    |h1 i now d board Ha _ Hb|? ? ? [=]];
    (assert (forall h1, same_board h1 h' ->
       tallied h1 /\ (length (bbs_votes h1) <= S (length (bbs_votes h)))%nat /\
       next_bbs_id h1 <= next_bbs_id h + 1 /\ bbs_vote_capacity h1 = bbs_vote_capacity h ->
       tallied h' /\ (length (bbs_votes h') <= S (length (bbs_votes h)))%nat /\
       next_bbs_id h' <= next_bbs_id h + 1 /\ bbs_vote_capacity h' = bbs_vote_capacity h) as Hto
      by (intros h0 Hb0 (H1 & H2 & H3 & H4); split; [by eapply board_view|];
          destruct Hb0 as (_ & _ & -> & -> & -> & _); done);
     apply (Hto _ Hb); clear Hto Hb).
  - split_and!; [done|lia|lia|done].
  - apply find_post in Hf as (p & Hp & Hr & Hid). apply required_used in Hr. split.
    + by eapply tallied_vote.
    + destruct (record_vote_counts _ _ _ _ _ _ _ _ (t_types h Ht) Hty Hroom Hv) as (_ & _ & _ & Hl & _).
      cbn. split_and!; [done|lia|done].
  - apply find_comment_spec in Hf as (Hp & Hu & Hid & Hidx). split.
    + eapply tallied_comment_vote; try done; lia.
    + destruct (record_vote_counts _ _ _ _ _ _ _ _ (t_types h Ht) Hty Hroom Hv) as (_ & _ & _ & Hl & _).
      cbn. split_and!; [done|lia|done].
  - apply step_view; try done; cbn.
    + apply alter_view_post. intros q Hq. rewrite Hp in Hq. by injection Hq as <-.
    + apply alter_view_array. intros l _. by apply alter_view_comment.
  - apply step_view; try done; cbn. apply alter_view_array. intros l _. by apply alter_view_comment.
  - apply step_view; try done; cbn. apply alter_view_post. intros q Hq. rewrite Hp in Hq. by injection Hq as <-.
  - apply step_view; try done; cbn. apply alter_view_post. intros q Hq. rewrite Hp in Hq. by injection Hq as <-.
  - apply step_view; try done; cbn. by apply alter_view_post.
  - pose proof (tallied_allocate _ _ _ _ Ha Hmax Ht) as H1.
    apply allocate_posts in Ha as (_ & _ & _ & _ & _ & Hv & Hc & _ & Hn).
    rewrite Z.mod_small in Hn by lia. rewrite Hv, Hc, Hn. split_and!; [done|lia|lia|done].
  - pose proof (tallied_allocate _ _ _ _ Ha Hmax Ht) as H1.
    apply allocate_posts in Ha as (_ & _ & _ & _ & _ & Hv & Hc & _ & Hn).
    rewrite Z.mod_small in Hn by lia. rewrite <- Hv, <- Hc. split_and!; cbn; [|lia|lia|done].
    apply (tallied_view h1); try done. cbn. by apply alter_view_post.
Qed.

(** C19: As long as nothing is deleted and the vote table has room, every post
    shows as many up-votes and down-votes as the table holds for it, and so
    does every comment, whoever posts, comments, edits, votes, changes a vote,
    flags or mutes in whatever order. *)
Theorem votes_counted check known h es :
  live h -> tallied h -> Forall (fun e => removes (given e) = false) es ->
  (length (bbs_votes h) + length es <= bbs_vote_capacity h)%nat ->
  next_bbs_id h + Z.of_nat (length es) < 18446744073709551616 ->
  tallied (run check known h es).
Proof.
  intros Hl Ht Hes. revert h Hl Ht. induction Hes as [|e es He _ IHes]; intros h Hl Ht Hroom Hmax; [done|].
  unfold run in *. simpl in *. pose proof (execute_step check known h e Hl) as Hs. rewrite He in Hs.
  destruct (step_tallied (who e) h (step check known h e)) as (H1 & H2 & H3 & H4); [lia|lia|done|done|].
  apply IHes; [by apply execute_live|done|rewrite H4; lia|lia].
Qed.

(** A board just set up is tallied. *)
Lemma lookup_seq_zero b n i p : map zero_post (seq b n) !! i = Some p -> p = zero_post (b + i).
Proof.
  rewrite list_lookup_fmap. destruct (seq b n !! i) as [k|] eqn:Hk; [|done].
  apply lookup_seq in Hk as [-> _]. by intros [= <-].
Qed.

Lemma tallied_fresh h :
  bbs_posts h = [] -> bbs_votes h = [] -> 0 < next_bbs_id h -> tallied (host_bbs_acquire_storage h).
Proof.
  intros Hp Hv Hn. unfold host_bbs_acquire_storage, host_bbs_storage_ready. rewrite Hp.
  change (0 <? length (@nil bbs_post))%nat with false. cbn [negb].
  set (b := length (comment_store h)).
  split; cbn [bbs_posts bbs_votes next_bbs_id with_loaded with_store with_posts]; rewrite ?Hv.
  - intros i j p q ->%lookup_seq_zero ->%lookup_seq_zero. cbn. lia.
  - by intros i j p q ->%lookup_seq_zero _ ?.
  - split; [done|]. by intros i p ->%lookup_seq_zero ?.
  - constructor.
  - constructor.
  - by intros i p ->%lookup_seq_zero ?.
  - by intros i p k c ->%lookup_seq_zero ?.
  - intros i p Hi _. pose proof (lookup_lt_Some _ _ _ Hi) as Hlt. rewrite length_map, length_seq in Hlt.
    apply lookup_seq_zero in Hi as ->. split_and!; [done..|]. intros k c. unfold comments_of.
    cbn [comment_store comments zero_post with_loaded with_store with_posts].
    rewrite lookup_app_r by lia. replace (b + i - length (comment_store h))%nat with i by lia.
    rewrite lookup_replicate_2 by done. cbn. intros (-> & _)%lookup_replicate. done.
Qed.

(** *** Refusals *)

Definition free_slots (h : host) : nat := length (filter (fun p => in_use p = false) (bbs_posts h)).

Lemma free_slots_allocate h now h1 i :
  host_allocate_bbs_post_locked h now = Some (h1, i) -> free_slots h = S (free_slots h1).
Proof.
  intros (p & Hp & Hu & Hp1 & _)%allocate_posts. unfold free_slots. rewrite Hp1.
  rewrite insert_take_drop by (by eapply lookup_lt_Some).
  rewrite <- (take_drop_middle _ _ _ Hp) at 1. rewrite !filter_app, !length_app.
  rewrite filter_cons_True, filter_cons_False by done. simpl. lia.
Qed.

Lemma same_free h h' : same_board h h' -> free_slots h' = free_slots h.
Proof. intros (Hp & _). unfold free_slots. by rewrite Hp. Qed.

(** The draft of a muted user is refused and thrown away, and no post that
    can be read changes.  But the refusal takes a free slot of the board with
    it, in use without author or title. *)
Theorem muted_posts_refused check known h u board d now :
  live h -> operator u = false -> session_bbs_mute_blocks_locked u h now = true ->
  bbs_post_pending d = true -> is_art (pending_mode d) = false -> is_edit (pending_mode d) = false ->
  pending_bbs_body d <> [] -> check (lit "BBS post") (pending_bbs_body d) = true ->
  (0 < free_slots h)%nat ->
  let '(h', d', out) := session_bbs_commit_pending_post check known h u board d now in
  out = [Line (lit "You are muted and cannot post right now.")] /\ d' = no_pending /\
  filter (fun p => bbs_post_has_required_fields p = true) (bbs_posts h') =
    filter (fun p => bbs_post_has_required_fields p = true) (bbs_posts h) /\
  S (free_slots h') = free_slots h.
Proof.
  intros Hl Ho Hm Hp Ha He Hb Hc Hfree. unfold session_bbs_commit_pending_post.
  rewrite Hp, Ha, He, Hc. cbn [negb]. destruct (length (pending_bbs_body d) =? 0)%nat eqn:Hlen.
  { bprop. by destruct (pending_bbs_body d). }
  rewrite (ensure_live _ _ Hl). cbn [negb]. unfold commit_new.
  destruct (host_allocate_bbs_post_locked h now) as [[h1 i]|] eqn:Hal.
  - pose proof (free_slots_allocate _ _ _ _ Hal) as Hfs. pose proof (allocate_mutes _ _ _ _ Hal) as Hmu.
    assert (session_bbs_mute_blocks_locked u h1 now = true) as ->.
    { unfold session_bbs_mute_blocks_locked, host_bbs_mute_active_locked, host_bbs_mute_find_locked in *.
      by rewrite Hmu. }
    rewrite Ho. cbn [negb andb]. split_and!; [done|done| |done].
    apply allocate_posts in Hal as (p & Hpi & Hu & -> & _).
    rewrite insert_take_drop by (by eapply lookup_lt_Some).
    rewrite <- (take_drop_middle _ _ _ Hpi) at 3. rewrite !filter_app. f_equal.
    rewrite !filter_cons_False; [done| |].
    + intros Hr%required_used. unfold used in Hr. congruence.
    + unfold bbs_post_has_required_fields. cbn. by case_match.
  - exfalso. unfold host_allocate_bbs_post_locked in Hal. rewrite (proj1 Hl) in Hal. cbn [negb] in Hal.
    destruct (find_index _ _) as [k|] eqn:Hf.
    { apply find_index_Some in Hf as (x & Hx & _). by rewrite Hx in Hal. }
    apply find_index_None in Hf. unfold free_slots in Hfree.
    assert (filter (fun p => in_use p = false) (bbs_posts h) = []) as Hnil; [|rewrite Hnil in Hfree; simpl in Hfree; lia].
    clear -Hf. induction Hf as [|x l Hx _ IHl]; [done|]. rewrite filter_cons_False by (by destruct (in_use x)). done.
Qed.

(** *** Mentions *)

(** The names after each [@] of a text: up to 255 letters, digits and
    underscores, at least one. *)
Fixpoint mention_tokens (text : bytes) : list bytes :=
  match text with
  | [] => []
  | c :: t =>
      if c =? c_at then
        match take (SSH_CHATTER_BBS_USERNAME_LEN - 1) (take_while name_char t) with
        | [] => mention_tokens t
        | n => n :: mention_tokens t
        end
      else mention_tokens t
  end.

(** Names added one after the other unless they are there. *)
Definition add_name (names : list bytes) (n : bytes) : list bytes :=
  if existsb (fun m => same_name m n) names then names else names ++ [n].
Definition first_ones (names tokens : list bytes) : list bytes := fold_left add_name tokens names.

Lemma first_ones_app names tokens : exists s, first_ones names tokens = names ++ s.
Proof.
  revert names. induction tokens as [|n l IHl]; intros names; simpl; [exists []; by rewrite app_nil_r|].
  destruct (IHl (add_name names n)) as [s Hs]. rewrite Hs. unfold add_name. case_match; [eauto|].
  exists ([n] ++ s). by rewrite app_assoc.
Qed.

Lemma mention_skip a b : Forall (fun c => (c =? c_at) = false) a -> mention_tokens (a ++ b) = mention_tokens b.
Proof. induction 1 as [|c a Hc _ IHa]; simpl; [done|]. by rewrite Hc. Qed.

Lemma strchr_parts s c : match strchr s c with
  | Some r => exists a, s = a ++ r /\ Forall (fun d => (d =? c) = false) a /\ exists t, r = c :: t
  | None => Forall (fun d => (d =? c) = false) s
  end.
Proof.
  induction s as [|d s IHs]; simpl; [constructor|]. destruct (Z.eqb_spec d c) as [->|Hd].
  - exists []. eauto.
  - apply Z.eqb_neq in Hd. destruct (strchr s c) as [r|]; [|by constructor].
    destruct IHs as (a & -> & Ha & Ht). exists (d :: a). split; [done|]. split; [by constructor|done].
Qed.

Lemma take_while_spec f s : exists r, s = take_while f s ++ r /\ Forall (fun c => f c = true) (take_while f s).
Proof.
  exists (skip_while f s). split; [by rewrite take_skip_while|].
  induction s as [|c s IHs]; simpl; [constructor|]. destruct (f c) eqn:Hf; [by constructor|constructor].
Qed.

Lemma candidate_spec s : exists r,
  let n := take (SSH_CHATTER_BBS_USERNAME_LEN - 1) (take_while name_char s) in
  s = n ++ r /\ drop (length n) s = r /\ Forall (fun c => (c =? c_at) = false) n.
Proof.
  destruct (take_while_spec name_char s) as (r & Hs & Hall). set (w := take_while name_char s) in *.
  set (k := (SSH_CHATTER_BBS_USERNAME_LEN - 1)%nat). exists (drop k w ++ r). cbv zeta.
  assert (s = take k w ++ drop k w ++ r) as Heq by (by rewrite app_assoc, take_drop).
  split_and!; [done|rewrite Heq at 1; by rewrite drop_app_length|].
  apply Forall_take. eapply Forall_impl; [exact Hall|]. intros c Hc. unfold name_char, islower, isupper, isdigit in Hc.
  bprop. lia.
Qed.

Lemma scan_go_spec fuel cursor names max :
  (length cursor <= fuel)%nat -> (length names <= max)%nat -> Forall (fun c => c <> 0) cursor ->
  scan_mentions_go fuel cursor names max = take max (first_ones names (mention_tokens cursor)).
Proof.
  revert cursor names. induction fuel as [|f IHf]; intros cursor names Hf Hn Hz.
  { destruct cursor; [|simpl in Hf; lia]. simpl. by rewrite take_ge. }
  simpl. destruct (peek cursor =? c_nul) eqn:Hp.
  { destruct cursor as [|c t]; [simpl; by rewrite take_ge|]. apply Forall_cons in Hz as [Hc _].
    cbn in Hp. bprop. congruence. }
  cbn [orb]. destruct (Nat.leb_spec max (length names)) as [Hfull|Hroom].
  { destruct (first_ones_app names (mention_tokens cursor)) as [s ->].
    rewrite take_app_le by lia. rewrite take_ge by lia. done. }
  pose proof (strchr_parts cursor c_at) as Hsp. destruct (strchr cursor c_at) as [r|].
  2: { rewrite <- (app_nil_r cursor), mention_skip by done. simpl. by rewrite take_ge by lia. }
  destruct Hsp as (a & -> & Ha & t & ->). rewrite mention_skip by done. simpl.
  rewrite drop_0. apply Forall_app in Hz as [_ Hz]. apply Forall_cons in Hz as [_ Hz].
  rewrite length_app in Hf. simpl in Hf. destruct (candidate_spec t) as (r & Ht & Hdrop & Hat).
  destruct (take _ (take_while name_char t)) as [|x n] eqn:Hc; [apply IHf; [lia|lia|done]|].
  rewrite Hdrop. assert (mention_tokens t = mention_tokens r) as -> by (rewrite Ht; by apply mention_skip).
  rewrite Ht in Hf, Hz. rewrite length_app in Hf. apply Forall_app in Hz as [_ Hz].
  rewrite IHf; [by unfold first_ones, add_name; simpl|lia| |done].
  case_match; [lia|]. rewrite length_app. simpl. lia.
Qed.

(** The names a text mentions are found as they should be: the scan over
    the text gives the distinct names after an [@], in the order of their
    first appearance, up to the number asked for. *)
Theorem mentions_exact text max_names :
  Forall (fun c => c <> 0) text ->
  session_bbs_scan_mentions text max_names = take max_names (first_ones [] (mention_tokens text)).
Proof. intros Hz. apply scan_go_spec; [done|simpl; lia|done]. Qed.

(** *** Previews *)

Lemma preview_go_cut n cursor output ls o ls' :
  preview_go n cursor output ls = (o, ls', true) -> (n <= length o + 1)%nat.
Proof.
  revert output ls. induction cursor as [|c t IHt]; intros output ls; simpl; [done|].
  case_match; [apply IHt|]. case_match; [apply IHt|].
  destruct (Nat.leb_spec n (length output + 1)); [by intros [= <- _]|apply IHt].
Qed.

(** The three dots that should mark a preview as cut are never there: when
    the text was cut no room is left for them. *)
Theorem preview_never_elided input n :
  session_bbs_compact_preview input n =
  let '(output, last_space, _) := preview_go n input [] true in
  if (n =? 0)%nat then []
  else if last_space && (0 <? length output)%nat then take (length output - 1) output else output.
Proof.
  unfold session_bbs_compact_preview. destruct (preview_go n input [] true) as [[o ls] tr] eqn:Hp.
  destruct (n =? 0)%nat; [done|]. destruct tr; [|by rewrite andb_false_l].
  apply preview_go_cut in Hp. cbv zeta.
  assert (((length (if ls && (0 <? length o)%nat then take (length o - 1) o else o) + 3 <? n)%nat) = false) as ->; [|done].
  apply Nat.ltb_ge. destruct (Nat.ltb_spec 0 (length o)); destruct ls; cbn [andb];
    rewrite ?length_take; lia.
Qed.

(** *** The state file *)




















(** *** Slots that keep their counters *)

(** A comment written after one was deleted starts with votes nobody
    cast: it takes over the counters of the comment that was last before the
    deletion, whose slot it uses. *)
Theorem new_comment_inherits known h u i p post idx text now c :
  find_comment h post idx = Some (i, p) -> comments_of h p !! (comment_count p - 1)%nat = Some c ->
  let p1 := set_comment_count p (comment_count p - 1) in
  let h1 := with_votes
              (alter_post (write_comments h p (shift_comments (comment_count p) (Z.to_nat idx))) i (fun _ => p1))
              (fix_votes post idx (bbs_votes h)) in
  let h2 := fst (append_comment known h1 u i p1 text now) in
  cm_upvotes <$> comments_of h2 p1 !! comment_count p1 = Some (cm_upvotes c) /\
  cm_downvotes <$> comments_of h2 p1 !! comment_count p1 = Some (cm_downvotes c).
Proof.
  intros Hf Hc p1 h1 h2. apply find_comment_spec in Hf as (Hp & _ & _ & Hidx).
  set (h3 := write_comments (alter_post h1 i (fun _ => set_bumped (set_comment_count p1 (S (comment_count p1))) now))
               p1 (alter (new_comment u text now) (comment_count p1))).
  assert (comment_store h2 = comment_store h3) as Hst.
  { unfold h2, append_comment. fold h3.
    assert (same_board h3 (if operator u then h3 else note_activity h3 (name u) (stamp_comment now))) as Hact
      by (destruct (operator u); auto with board).
    set (h4 := if operator u then _ else _) in *. clearbody h4.
    destruct (comments_of h4 p1 !! comment_count p1) as [c'|]; [|cbn [fst]; by destruct Hact as (_ & -> & _)].
    cbn [fst]. match goal with |- comment_store ?x = _ => assert (same_board h3 x) as Hx end;
      [|by destruct Hx as (_ & -> & _)].
    eapply same_board_trans; [done|]. eapply same_board_trans; [|apply save_board].
    eapply same_board_trans; [|apply notify_board]. case_match; auto with board. }
  assert (comments_of h3 p1 !! comment_count p1 = Some (new_comment u text now c)) as Hnew.
  { unfold h3. rewrite comments_of_write, decide_True by done. unfold comments_of in Hc.
    change (comment_store (alter_post h1 i _) !! comments p1) with
      (alter (shift_comments (comment_count p) (Z.to_nat idx)) (comments p) (comment_store h) !! comments p).
    rewrite list_lookup_alter_eq. destruct (comment_store h !! comments p) as [a|]; [|done]. cbn [fmap option_fmap option_map from_option].
    rewrite list_lookup_alter_eq. cbn [default] in Hc. change (id a) with a in Hc. change (comment_count p1) with (comment_count p - 1)%nat.
    assert (shift_comments (comment_count p) (Z.to_nat idx) a !! (comment_count p - 1)%nat = Some c) as ->; [|done].
    unfold shift_comments. destruct (Nat.ltb_spec (Z.to_nat idx + 1) (comment_count p)); [|done].
    pose proof (lookup_lt_Some _ _ _ Hc) as Hlt.
    rewrite lookup_app_r by (rewrite length_take; lia). rewrite length_take, Nat.min_l by lia.
    rewrite lookup_app_r by (rewrite length_take, length_drop; lia).
    rewrite length_take, length_drop, Nat.min_l by lia. rewrite lookup_drop. rewrite <- Hc. f_equal. lia. }
  assert (comments_of h2 p1 = comments_of h3 p1) as -> by (unfold comments_of; by rewrite Hst).
  rewrite Hnew. done.
Qed.

(** *** Small print *)

Lemma eviction_none l idx slot :
  Forall (fun e => -1 <= last_comment_at e /\ -1 <= last_post_at e) l -> eviction_slot l idx (-1) slot = slot.
Proof.
  revert idx. induction l as [|e l IHl]; intros idx Hl; [done|]. apply Forall_cons in Hl as [He Hl]. simpl.
  assert (((if last_comment_at e <? last_post_at e then last_post_at e else last_comment_at e) <? -1) = false) as ->
    by (apply Z.ltb_ge; case_match; lia). by apply IHl.
Qed.

(** When the table of flood limits is full the entry given up is always the
    first one, however recent: no time is before the [-1] the search for the
    oldest entry starts from. *)
Theorem first_limit_evicted h username :
  peek username <> c_nul -> host_bbs_rate_limit_find_locked h username = None ->
  (SSH_CHATTER_BBS_MAX_RATE_LIMITS <= length (bbs_rate_limits h))%nat ->
  Forall (fun e => 0 <= last_comment_at e /\ 0 <= last_post_at e) (bbs_rate_limits h) ->
  option_map snd (host_bbs_rate_limit_ensure_locked h username) = Some O.
Proof.
  intros Hn Hf Hfull Hl. unfold host_bbs_rate_limit_ensure_locked. apply Z.eqb_neq in Hn. rewrite Hn, Hf.
  replace (length _ <? _)%nat with false by (symmetry; by apply Nat.ltb_ge). cbn. f_equal.
  apply eviction_none. eapply Forall_impl; [exact Hl|]. cbn. lia.
Qed.

(** [cmtdel 5 all] names comment 0 of post 5: a missing index reads as zero. *)
Theorem missing_index_is_zero : comment_reference (lit "5 all") = Some (5, 0, lit " all").
Proof. by vm_compute. Qed.

Lemma full_table_records_nothing h u post idx type now :
  (bbs_vote_capacity h <= length (bbs_votes h))%nat -> find_index (is_vote u post idx) (bbs_votes h) = None ->
  record_vote h u post idx type now = Some (None, bbs_votes h).
Proof.
  intros Hfull Hf. unfold record_vote. rewrite Hf.
  by replace (length _ <? _)%nat with false by (symmetry; by apply Nat.ltb_ge).
Qed.

(** Once the vote table is full a user without a recorded vote adds one to the
    post with every command. *)
Theorem unlimited_votes h u post now i p :
  live h -> post <> 0 -> (bbs_vote_capacity h <= length (bbs_votes h))%nat ->
  find_index (is_vote u post (-1)) (bbs_votes h) = None ->
  host_find_bbs_post_locked h post = Some i -> bbs_posts h !! i = Some p ->
  let h' := fst (session_bbs_upvote h u post now) in
  upvotes <$> bbs_posts h' !! i = Some (upvotes p + 1) /\ bbs_votes h' = bbs_votes h.
Proof.
  intros Hl Hz Hfull Hnone Hf Hp. unfold session_bbs_upvote. apply Z.eqb_neq in Hz.
  rewrite Hz, (ensure_live _ _ Hl), Hf, full_table_records_nothing by done. cbn [negb fst]. cbv zeta.
  match goal with |- context [host_bbs_state_save_locked ?x] => destruct (save_board x) as (-> & _ & -> & _) end.
  cbn. by rewrite list_lookup_alter_eq, Hp.
Qed.

End Board.

(** ** Samples *)

Module BoardSamples.
Import Posts Queues Commands Board.

Definition now : Z := 1000000000.

Definition alice : user := {| name := lit "alice"; is_operator := false; is_lan_operator := false |}.
Definition bob : user := {| name := lit "bob"; is_operator := false; is_lan_operator := false |}.
Definition carol : user := {| name := lit "carol"; is_operator := false; is_lan_operator := false |}.

Definition post (i : Z) (who what : bytes) (array comments : nat) : bbs_post :=
  {| in_use := true; post_id := i; board_id := 0; mod_flags := 0; author := who; title := what;
     body := lit "text"; tags := [lit "general"; []; []; []]; tag_count := 1; created_at := now;
     bumped_at := now; upvotes := 0; downvotes := 0; Posts.comments := array;
     comment_count := comments |}.

Definition remark (who what : bytes) (up : Z) : bbs_comment :=
  {| cm_author := who; cm_text := what; cm_created_at := now; cm_edited_at := 0; cm_upvotes := up;
     cm_downvotes := 0 |}.
Definition nothing : bbs_comment := remark [] [] 0.

Definition first_post : bbs_post := post 1 (lit "alice") (lit "one") 0 0.
Definition second_post : bbs_post := post 2 (lit "bob") (lit "two") 1 2.

Definition sample_votes : list bbs_vote :=
  [{| target_post_id := 2; target_comment_idx := 1; voter_username := lit "carol"; vote_type := 1;
      vt_created_at := now |}].

(** Two posts, the second with two comments, and a free slot. *)
Definition board : host :=
  {| bbs_posts := [first_post; second_post; zero_post 2];
     comment_store := [[nothing; nothing]; [remark (lit "alice") (lit "hi") 0; remark (lit "carol") (lit "yes") 1];
                       [nothing; nothing]];
     bbs_post_count := 2; next_bbs_id := 3; bbs_cache_loaded := true; bbs_votes := sample_votes;
     bbs_vote_capacity := 50; bbs_rate_limits := []; bbs_notifications := []; bbs_reports := [];
     bbs_mutes := [{| mt_username := lit "bob"; until := 0; muted_by := lit "root"; mt_created_at := now |}];
     bbs_modlog := []; bbs_comment_edit_enabled := true; bbs_comment_delete_enabled := true;
     operators_online := []; state_file := None |}.

Definition anything (what text : bytes) : bool := true.
Definition nobody (n : bytes) : bool := false.

Definition draft_of (what : bytes) : pending :=
  {| bbs_post_pending := true; pending_mode := Editor.SESSION_EDITOR_MODE_BBS_CREATE;
     pending_bbs_edit_id := 0; pending_bbs_title := what; pending_bbs_tags := [lit "general"];
     pending_bbs_tag_count := 1; pending_bbs_body := lit "a text" |}.

Definition said (u : user) (t : Z) (c : command) : event := {| who := u; at_time := t; given := c |}.

Lemma board_live_sample : live board.
Proof. done. Qed.


Lemma delete_wipes_last_witness :
  Forall blank (comments_of (fst (session_bbs_delete board alice 1 now)) second_post).
Proof.
  apply (delete_wipes_last board alice 1 now 0 1 first_post second_post);
    [done|done|by vm_compute|done|by vm_compute|done|done|lia|].
  simpl. by constructor.
Defined.

Definition mischief : list event :=
  [said carol now (Delete 1); said carol now (Upvote 1); said carol now (Commit 0 (draft_of (lit "three")));
   said carol now (CommentEdit (lit "2 0 no")); said carol now (SetFlag 1 1 true (lit "hide") []);
   said carol (now + 5) (Delete 3)].

Lemma others_posts_safe_witness :
  faces_of_others carol (bbs_posts (run anything nobody board mischief)) = [face first_post; face second_post].
Proof.
  rewrite (others_posts_safe anything nobody board carol mischief);
    [by vm_compute|done|done| |by repeat constructor].
  split; [vm_compute; lia|by vm_compute].
Defined.

Lemma one_vote_each_witness :
  NoDup (map vote_key (bbs_votes (run anything nobody board
    [said alice now (Upvote 2); said alice now (CommentVote (lit "2 1 up"));
     said alice now (CommentDelete (lit "2 0")); said alice now (CommentVote (lit "2 0 down"))]))).
Proof.
  apply one_vote_each; [done| |vm_compute; apply NoDup_singleton].
  repeat (constructor; [vm_compute; lia|]). constructor.
Defined.

(** A board just set up. *)
Definition no_board : host :=
  {| bbs_posts := []; comment_store := []; bbs_post_count := 0; next_bbs_id := 1;
     bbs_cache_loaded := false; bbs_votes := []; bbs_vote_capacity := 50; bbs_rate_limits := [];
     bbs_notifications := []; bbs_reports := []; bbs_mutes := []; bbs_modlog := [];
     bbs_comment_edit_enabled := true; bbs_comment_delete_enabled := true; operators_online := [];
     state_file := None |}.

Definition new_board : host := with_loaded (host_bbs_acquire_storage no_board) true.

Definition ballots : list event :=
  [said alice now (Commit 0 (draft_of (lit "one"))); said bob now (Upvote 1); said carol now (Upvote 1);
   said bob (now + 1) (Downvote 1); said bob (now + 9) (Comment None (lit "1|well"))].

Lemma votes_counted_witness : tallied (run anything nobody new_board ballots).
Proof.
  apply votes_counted.
  - split; by vm_compute.
  - apply (tallied_view (host_bbs_acquire_storage no_board) new_board); [done..|]. by apply tallied_fresh.
  - by repeat constructor.
  - vm_compute. lia.
  - by vm_compute.
Defined.

Lemma muted_posts_refused_witness :
  let '(h', _, out) := session_bbs_commit_pending_post anything nobody board bob 0 (draft_of (lit "new")) now in
  out = [Line (lit "You are muted and cannot post right now.")] /\ S (free_slots h') = 1%nat.
Proof.
  pose proof (muted_posts_refused anything nobody board bob 0 (draft_of (lit "new")) now) as H.
  destruct (session_bbs_commit_pending_post _ _ _ _ _ _ _) as [[h' d'] out].
  destruct H as (-> & _ & _ & ->); try done. vm_compute. lia.
Defined.

Lemma mentions_exact_witness :
  session_bbs_scan_mentions (lit "@bob and @carol, not @ or @bob") 8 = [lit "bob"; lit "carol"].
Proof.
  rewrite mentions_exact; [by vm_compute|]. vm_compute.
  repeat (apply Forall_cons_2; [done|]). apply Forall_nil_2.
Defined.





Lemma new_comment_inherits_witness :
  cm_upvotes <$> comments_of (fst (append_comment nobody
    (with_votes (alter_post (write_comments board second_post (shift_comments 2 0)) 1
       (fun _ => set_comment_count second_post 1)) (fix_votes 2 0 sample_votes))
    bob 1 (set_comment_count second_post 1) (lit "new") now)) (set_comment_count second_post 1) !! 1%nat = Some 1.
Proof.
  apply (new_comment_inherits nobody board bob 1 second_post 2 0 (lit "new") now
           (remark (lit "carol") (lit "yes") 1)); by vm_compute.
Defined.

End BoardSamples.
