(* ===== verification/BbsListing.v ===== *)
(** What the bulletin board shows: the listing with its filters, orders, pages
    and topics, the posts of a topic, the search, and the notices of the
    dashboard ([src/host/commands/bbs.c]). *)

From Stdlib Require Import ZArith Lia String Ascii Permutation Sorted.
From stdpp Require Import prelude.
From S2P Require Import Prelude FileTransfer BbsEditor BbsPosts BbsBoard.

Module Listing.
Import Posts Queues Commands.

Record bbs_listing := {
  l_id : Z;
  l_board_id : Z;
  l_mod_flags : Z;
  l_title : bytes;
  l_author : bytes;
  l_tags : list bytes;
  l_created_at : Z;
  l_bumped_at : Z;
  l_comment_count : nat;
  l_upvotes : Z;
  l_downvotes : Z
}.

(** [l_tags] holds the first [tag_count] tags. *)
Definition listing_of (p : bbs_post) : bbs_listing :=
  {| l_id := post_id p; l_board_id := board_id p; l_mod_flags := mod_flags p;
     l_title := snprintf_text SSH_CHATTER_BBS_TITLE_LEN (title p); l_author := cut_name (author p);
     l_tags := map (snprintf_text SSH_CHATTER_BBS_TAG_LEN) (take (tag_count p) (tags p));
     l_created_at := created_at p; l_bumped_at := bumped_at p; l_comment_count := comment_count p;
     l_upvotes := upvotes p; l_downvotes := downvotes p |}.

Definition listing_of_entry (s : bbs_state_post_entry_disk) : bbs_listing :=
  {| l_id := d_id s; l_board_id := d_board_id s; l_mod_flags := d_mod_flags s;
     l_title := snprintf_text SSH_CHATTER_BBS_TITLE_LEN (d_title s); l_author := cut_name (d_author s);
     l_tags := map (snprintf_text SSH_CHATTER_BBS_TAG_LEN) (take (d_tag_count s) (d_tags s));
     l_created_at := d_created_at s; l_bumped_at := d_bumped_at s;
     l_comment_count := d_comment_count s; l_upvotes := d_upvotes s; l_downvotes := d_downvotes s |}.

(** The reader of the listing bounds the counts as well. *)
Definition session_bbs_normalize_serialized_entry (now : Z) (s : bbs_state_post_entry_disk)
  : bbs_state_post_entry_disk :=
  let s := normalize_entry now s in
  {| d_id := d_id s; d_board_id := d_board_id s; d_mod_flags := d_mod_flags s;
     d_created_at := d_created_at s; d_bumped_at := d_bumped_at s; d_upvotes := d_upvotes s;
     d_downvotes := d_downvotes s; d_tag_count := Nat.min (d_tag_count s) SSH_CHATTER_BBS_MAX_TAGS;
     d_comment_count := Nat.min (d_comment_count s) SSH_CHATTER_BBS_MAX_COMMENTS;
     d_author := d_author s; d_title := d_title s; d_body := d_body s; d_tags := d_tags s;
     d_comments := d_comments s |}.

(** The loop over the entries of the file, until the list is full. *)
Fixpoint collect_from_state (n : nat) (es : list bbs_state_post_entry_disk) (now : Z)
  (found : list bbs_listing) : list bbs_listing :=
  match n, es with
  | O, _ | _, [] => found
  | S n', e :: es' =>
      if (SSH_CHATTER_BBS_MAX_POSTS <=? length found)%nat then found
      else
        let s := session_bbs_normalize_serialized_entry now e in
        if negb (host_bbs_serialized_has_required_fields s) || negb (host_bbs_serialized_is_sane s now)
        then collect_from_state n' es' now found
        else collect_from_state n' es' now (found ++ [listing_of_entry s])
  end.

Definition session_bbs_collect_listings (h : host) (clock : Z) : list bbs_listing :=
  if host_bbs_storage_ready h && bbs_cache_loaded h then
    take SSH_CHATTER_BBS_MAX_POSTS
      (map listing_of (filter (fun p => bbs_post_has_required_fields p = true) (bbs_posts h)))
  else
    match state_file h with
    | None => []
    | Some f => collect_from_state (post_count f) (entries f) (if clock <=? 0 then 1 else clock) []
    end.

Definition is_hidden (e : bbs_listing) : bool :=
  negb (Z.land (l_mod_flags e) SSH_CHATTER_BBS_MOD_FLAG_HIDDEN =? 0).
Definition is_pinned (e : bbs_listing) : bool :=
  negb (Z.land (l_mod_flags e) SSH_CHATTER_BBS_MOD_FLAG_PINNED =? 0).

(** The copying loop that drops hidden posts for those who are no operators. *)
Definition without_hidden (u : user) (l : list bbs_listing) : list bbs_listing :=
  if operator u then l else filter (fun e => is_hidden e = false) l.

(** *** The arguments of [list] *)

Inductive sort_mode := SORT_BUMPED | SORT_HOT | SORT_TOP | SORT_NEW.

Record list_request := { list_all : bool; requested_page : Z; sorting : sort_mode }.

Definition strcase_eqb (a b : bytes) : bool := bytes_eqb (map tolower a) (map tolower b).

Definition read_token (r : list_request) (token : bytes) : list_request :=
  if strcase_eqb token (lit "all")
  then {| list_all := true; requested_page := requested_page r; sorting := sorting r |}
  else if strcase_eqb token (lit "hot")
  then {| list_all := list_all r; requested_page := requested_page r; sorting := SORT_HOT |}
  else if strcase_eqb token (lit "top")
  then {| list_all := list_all r; requested_page := requested_page r; sorting := SORT_TOP |}
  else if strcase_eqb token (lit "new")
  then {| list_all := list_all r; requested_page := requested_page r; sorting := SORT_NEW |}
  else
    let '(parsed, rest, range) := strtoull token in
    if negb range && negb (length rest =? length token)%nat && (peek rest =? c_nul) && (0 <? parsed)
    then {| list_all := list_all r; requested_page := parsed; sorting := sorting r |}
    else r.

Definition read_list_arguments (arguments : bytes) : list_request :=
  fold_left read_token
    (strtok_all (fun c => c =? c_space) (Paths.trim_whitespace_inplace (snprintf_text 128 arguments)))
    {| list_all := false; requested_page := 1; sorting := SORT_BUMPED |}.

(** *** The insertion sorts *)

(** [swap]: does [key] move in front of [prev]? *)
Definition score (e : bbs_listing) : Z := l_upvotes e - l_downvotes e.
Definition hot_score (e : bbs_listing) : Z := score e * 2 + Z.of_nat (l_comment_count e).

Definition swap (m : sort_mode) (prev key : bbs_listing) : bool :=
  if negb (Bool.eqb (is_pinned prev) (is_pinned key)) then is_pinned key
  else
    match m with
    | SORT_HOT =>
        if hot_score prev <? hot_score key then true
        else (hot_score prev =? hot_score key) && (l_bumped_at prev <? l_bumped_at key)
    | SORT_TOP =>
        if score prev <? score key then true
        else (score prev =? score key) && (l_bumped_at prev <? l_bumped_at key)
    | SORT_NEW => l_created_at prev <? l_created_at key
    | SORT_BUMPED => l_bumped_at prev <? l_bumped_at key
    end.

(** The inner loop on the sorted part, read from its end: entries that [key]
    moves in front of are passed. *)
Fixpoint insert_back {A} (swap : A -> A -> bool) (sorted_rev : list A) (key : A) : list A :=
  match sorted_rev with
  | [] => [key]
  | prev :: t => if swap prev key then prev :: insert_back swap t key else key :: sorted_rev
  end.

Definition insertion_sort {A} (swap : A -> A -> bool) (l : list A) : list A :=
  rev (fold_left (insert_back swap) l []).

(** *** Pages *)

Definition page_size : nat := 20.

Definition total_pages (count : nat) : nat := (count + page_size - 1) / page_size.

Definition page_of (page : nat) (l : list bbs_listing) : list bbs_listing :=
  take page_size (drop ((page - 1) * page_size) l).

(** *** Topics *)

Record bbs_topic_group := { topic_name : bytes; members : list bbs_listing }.

Definition topic_of (e : bbs_listing) : bytes :=
  match l_tags e with [] => SSH_CHATTER_BBS_DEFAULT_TAG | t :: _ => t end.

(** The entry joins the first topic of its name, or opens one. *)
Fixpoint join_topic (topics : list bbs_topic_group) (e : bbs_listing) : list bbs_topic_group :=
  match topics with
  | [] => [{| topic_name := snprintf_text SSH_CHATTER_BBS_TAG_LEN (topic_of e); members := [e] |}]
  | t :: rest =>
      if strcase_eqb (topic_name t) (topic_of e)
      then {| topic_name := topic_name t; members := members t ++ [e] |} :: rest
      else t :: join_topic rest e
  end.

(** [strcasecmp(a, b) > 0]. *)
Fixpoint strcase_gt (a b : bytes) : bool :=
  match a, b with
  | [], _ => false
  | _ :: _, [] => true
  | x :: a', y :: b' =>
      if tolower x =? tolower y then strcase_gt a' b' else tolower y <? tolower x
  end.

Definition group_topics (l : list bbs_listing) : list bbs_topic_group :=
  insertion_sort (fun prev key => strcase_gt (topic_name prev) (topic_name key))
    (fold_left join_topic l []).

(** *** Lines *)

Section Shown.
Context (bbs_format_time : Z -> bytes).

(** [%d]. *)
Definition dec_signed (n : Z) : bytes := if n <? 0 then c_minus :: dec (- n) else dec n.

Definition marker (e : bbs_listing) : bytes :=
  if is_hidden e then c_esc :: lit "[1;31m[hidden]" ++ c_esc :: lit "[0m "
  else if is_pinned e then c_esc :: lit "[1;33m[pinned]" ++ c_esc :: lit "[0m "
  else [].

Definition stats (e : bbs_listing) : bytes :=
  snprintf_text 96
    (marker e ++ c_esc :: lit "[1;32mScore: " ++ dec_signed (score e) ++ c_esc :: lit "[0m " ++
     c_esc :: lit "[1;36mComments: " ++ dec (Z.of_nat (l_comment_count e)) ++ c_esc :: lit "[0m").

(** The tags joined by commas, as long as they fit the buffer. *)
Fixpoint join_tags (tags : list bytes) (first : bool) (tag_buffer : bytes) : bytes :=
  match tags with
  | [] => tag_buffer
  | t :: rest =>
      if (Editor.SSH_CHATTER_MESSAGE_LIMIT <=? length tag_buffer + length t + 2)%nat then tag_buffer
      else join_tags rest false (tag_buffer ++ (if first then [] else [c_comma]) ++ t)
  end.

Definition entry_line (e : bbs_listing) : bytes :=
  let who := if peek (l_author e) =? c_nul then lit "anon" else l_author e in
  snprintf_text Editor.SSH_CHATTER_MESSAGE_LIMIT
    (stats e ++ lit " #" ++ dec (l_id e) ++ lit " [" ++ bbs_format_time (l_bumped_at e) ++ lit "] " ++
     take 80 (l_title e) ++ lit " | " ++ who ++ lit " | " ++
     match l_tags e with [] => lit "(no tags)" | ts => take 80 (join_tags ts true []) end).

(** What goes to the screen; the localised footer is given by its numbers and
    the argument that shows the next page. *)
Inductive screen_item :=
  | Separator (title : bytes)
  | Entry (e : bbs_listing) (line : bytes)
  | Text (line : bytes)
  | PageFooter (current total : nat) (next : option (bytes * nat))
  | NewPosts (count : nat)
  | Notice (n : bbs_notification).

Definition sort_name (m : sort_mode) : bytes :=
  match m with
  | SORT_HOT => lit "hot" | SORT_TOP => lit "top" | SORT_NEW => lit "new" | SORT_BUMPED => lit "bumped"
  end.

Definition show_topic (t : bbs_topic_group) : list screen_item :=
  Separator (lit "Topic: " ++ take (SSH_CHATTER_BBS_TAG_LEN - 1) (topic_name t)) ::
  map (fun e => Entry e (entry_line e)) (members t).

Definition green (t : bytes) : bytes := c_esc :: lit "[1;32m" ++ t ++ c_esc :: lit "[0m".
Definition green_quoted (t : bytes) : bytes := lit "'" ++ green t ++ lit "'".

Definition tips : list bytes :=
  [lit "--------------------------------------------------";
   lit "[Tip] Share your thoughts on the board!";
   lit " - Write a post:  Type " ++ green_quoted (lit "post <title>");
   lit " - Read a post:   Type " ++ green_quoted (lit "read <id>");
   lit " - Comment:       Type " ++ green_quoted (lit "comment <id>|<text>") ++ lit " (:N quotes, @nick mentions)";
   lit " - Vote:          Type " ++ green_quoted (lit "upvote <id>") ++ lit " / " ++ green_quoted (lit "downvote <id>") ++
     lit " ('cmtvote <id> <idx> up|down' for comments)";
   lit " - Fix comments:  Type " ++ green_quoted (lit "cmtedit <id> <idx> <text>") ++ lit " / " ++
     green_quoted (lit "cmtdel <id> <idx>");
   lit "--------------------------------------------------"].

(** The posts the listing is about. *)
Definition listed_posts (h : host) (u : user) (board clock : Z) (r : list_request) : list bbs_listing :=
  let l := without_hidden u (session_bbs_collect_listings h clock) in
  if list_all r then l else filter (fun e => l_board_id e = board) l.

(** [boards]: numbers and names; [terminator]: what ends a draft. *)
Definition session_bbs_list (h : host) (u : user) (boards : list (Z * bytes)) (board clock : Z)
  (terminator arguments : bytes) : list screen_item :=
  let r := read_list_arguments arguments in
  let l := listed_posts h u board clock r in
  if (length l =? 0)%nat
  then [Text (snprintf_text Editor.SSH_CHATTER_MESSAGE_LIMIT
                (lit "The bulletin board is empty. Use /bbs post <title> [tags...] to write something. Finish drafts with "
                 ++ terminator ++ lit "."))]
  else
    let total := total_pages (length l) in
    if Z.of_nat total <? requested_page r then [Text (lit "No posts on that page.")]
    else
      let page := Z.to_nat (requested_page r) in
      let entries := page_of page (insertion_sort (swap (sorting r)) l) in
      let heading :=
        if list_all r then lit "BBS Posts (All Boards / Sort: " ++ sort_name (sorting r) ++ lit ")"
        else
          let board_name := match List.find (fun b => fst b =? board) boards with
                            | Some b => snd b | None => lit "general" end in
          lit "BBS Posts (Board: " ++ board_name ++ lit " / Sort: " ++ sort_name (sorting r) ++ lit ")" in
      Separator (snprintf_text 128 heading) ::
      concat (map show_topic (group_topics entries)) ++
      (if (1 <? total)%nat then
         [PageFooter page total
            (if (page <? total)%nat
             then Some (if list_all r then lit "all" else sort_name (sorting r), S page) else None)]
       else []) ++
      Separator (lit "End") :: map Text tips.

(** The posts of a topic, with the last activity first. *)
Fixpoint topic_tags (ts : list bytes) (tag_buffer : bytes) : bytes :=
  match ts with
  | [] => tag_buffer
  | t :: rest =>
      if peek t =? c_nul then topic_tags rest tag_buffer
      else if (Editor.SSH_CHATTER_MESSAGE_LIMIT <=? length tag_buffer + length t + 2)%nat then tag_buffer
      else topic_tags rest (tag_buffer ++ (if (0 <? length tag_buffer)%nat then [c_comma] else []) ++ t)
  end.

Definition topic_line (e : bbs_listing) : bytes :=
  snprintf_text Editor.SSH_CHATTER_MESSAGE_LIMIT
    (lit "#" ++ dec (l_id e) ++ lit " [" ++ bbs_format_time (l_bumped_at e) ++ lit "] " ++ take 80 (l_title e) ++
     (if (length (l_tags e) <=? 1)%nat then [] else lit "|" ++ take 80 (topic_tags (l_tags e) []))).

Definition session_bbs_list_topic (h : host) (u : user) (clock : Z) (topic : bytes) : list screen_item :=
  let working_topic := Paths.trim_whitespace_inplace (snprintf_text SSH_CHATTER_BBS_TAG_LEN topic) in
  if peek working_topic =? c_nul then [Text (lit "Specify a topic to read.")]
  else
    let l := without_hidden u (session_bbs_collect_listings h clock) in
    if (length l =? 0)%nat then [Text (lit "The bulletin board is empty.")]
    else
      let found := filter (fun e => strcase_eqb (topic_of e) working_topic = true)
                     (insertion_sort (fun prev key => l_bumped_at prev <? l_bumped_at key) l) in
      Separator (snprintf_text Editor.SSH_CHATTER_MESSAGE_LIMIT (lit "BBS Topic: " ++ working_topic)) ::
      map (fun e => Entry e (topic_line e)) found ++
      (if (length found =? 0)%nat
       then [Text (snprintf_text Editor.SSH_CHATTER_MESSAGE_LIMIT
                     (lit "No posts found for topic '" ++ working_topic ++ lit "'."))]
       else []) ++
      [Separator (lit "End")].

(** *** One post *)

(** The post and the comments as they are read from the file: flags, votes and
    dates of editing are not taken over. *)
Definition state_comment (c : bbs_comment) : bbs_comment :=
  {| cm_author := cut_name (cm_author c); cm_text := snprintf_text SSH_CHATTER_BBS_COMMENT_LEN (cm_text c);
     cm_created_at := cm_created_at c; cm_edited_at := 0; cm_upvotes := 0; cm_downvotes := 0 |}.

Definition state_post (s : bbs_state_post_entry_disk) : bbs_post * list bbs_comment :=
  ({| in_use := true; post_id := d_id s; board_id := 0; mod_flags := 0; author := cut_name (d_author s);
      title := snprintf_text SSH_CHATTER_BBS_TITLE_LEN (d_title s);
      body := snprintf_text Editor.SSH_CHATTER_BBS_BODY_LEN (d_body s);
      tags := map (snprintf_text SSH_CHATTER_BBS_TAG_LEN) (take (d_tag_count s) (d_tags s));
      tag_count := d_tag_count s; created_at := d_created_at s; bumped_at := d_bumped_at s;
      upvotes := 0; downvotes := 0; comments := 0; comment_count := d_comment_count s |},
   map state_comment (take (d_comment_count s) (d_comments s))).

Fixpoint find_in_state (n : nat) (es : list bbs_state_post_entry_disk) (now i : Z)
  : option (bbs_post * list bbs_comment) :=
  match n, es with
  | O, _ | _, [] => None
  | S n', e :: es' =>
      let s := session_bbs_normalize_serialized_entry now e in
      if negb (host_bbs_serialized_has_required_fields s) || negb (host_bbs_serialized_is_sane s now) ||
         negb (d_id s =? i)
      then find_in_state n' es' now i
      else Some (state_post s)
  end.

Definition session_bbs_load_post_from_state (h : host) (clock i : Z) : option (bbs_post * list bbs_comment) :=
  if i =? 0 then None
  else
    match state_file h with
    | None => None
    | Some f => find_in_state (post_count f) (entries f) (if clock <=? 0 then 1 else clock) i
    end.

Definition session_bbs_load_post (h : host) (clock i : Z) : option (bbs_post * list bbs_comment) :=
  if (i =? 0) || (SSH_CHATTER_BBS_ID_SANE_MAX <? i) then None
  else
    let from_file := session_bbs_load_post_from_state h clock i in
    if host_bbs_storage_ready h && bbs_cache_loaded h then
      match host_find_bbs_post_locked h i with
      | None => from_file
      | Some k =>
          match bbs_posts h !! k with
          | None => from_file
          | Some p => Some (p, comments_of h p)
          end
      end
    else from_file.

(** What a reader sees of a post: nothing, the shell of a hidden post, or the
    post with its comments. *)
Inductive sight := NoPost | Removed (i : Z) | Sees (p : bbs_post) (cs : list bbs_comment).

Definition session_bbs_render_post (u : user) (p : bbs_post) (cs : list bbs_comment) : sight :=
  if negb (Z.land (mod_flags p) SSH_CHATTER_BBS_MOD_FLAG_HIDDEN =? 0) && negb (operator u)
  then Removed (post_id p) else Sees p cs.

Definition session_bbs_read (h : host) (u : user) (clock i : Z) : sight :=
  match session_bbs_load_post h clock i with
  | None => NoPost
  | Some (p, cs) => session_bbs_render_post u p cs
  end.

(** *** Search *)

(** [strcasestr(s, k) != NULL]. *)
Definition contains_case (s k : bytes) : bool :=
  match strstr (map tolower s) (map tolower k) with Some _ => true | None => false end.

Definition post_matches (p : bbs_post) (keyword : bytes) : bool :=
  contains_case (title p) keyword || contains_case (body p) keyword || contains_case (author p) keyword ||
  existsb (fun t => strcase_eqb t keyword) (take (tag_count p) (tags p)).

Definition matches (h : host) (clock : Z) (keyword : bytes) (e : bbs_listing) : bool :=
  match session_bbs_load_post h clock (l_id e) with
  | None => false
  | Some (p, _) => post_matches p keyword
  end.

Definition search_results (h : host) (u : user) (clock : Z) (keyword : bytes) : list bbs_listing :=
  filter (fun e => matches h clock keyword e = true) (without_hidden u (session_bbs_collect_listings h clock)).

Definition session_bbs_search_posts (h : host) (u : user) (clock : Z) (arguments : bytes) : list screen_item :=
  let keyword := Paths.trim_whitespace_inplace (snprintf_text 128 arguments) in
  if (peek arguments =? c_nul) || (peek keyword =? c_nul) then [Text (lit "Usage: search <keyword>")]
  else
    let results := search_results h u clock keyword in
    Separator (snprintf_text 256 (lit "Search Results for: '" ++ keyword ++ lit "' (" ++
                 dec (Z.of_nat (length results)) ++ lit " found)")) ::
    (if (length results =? 0)%nat then [Text (lit "No posts found matching the keyword.")]
     else map (fun e => Entry e (entry_line e)) results) ++
    [Separator (lit "End")].

End Shown.

(** *** The dashboard *)

Record bbs_read_mark := { rm_username : bytes; last_read_at : Z }.

Definition SSH_CHATTER_BBS_MAX_READMARKS : nat := 512.

(** The notices of the user are shown and taken off the queue; the posts
    active since the last visit are counted; the visit is noted. *)
Definition dashboard (h : host) (marks : list bbs_read_mark) (u : user) (now : Z)
  : host * list bbs_read_mark * list screen_item :=
  let mine := filter (fun n => same_name (nt_to n) (name u) = true) (bbs_notifications h) in
  let rest := filter (fun n => same_name (nt_to n) (name u) = false) (bbs_notifications h) in
  let notices := if (0 <? length mine)%nat
                 then Text (lit "--- Notifications ---") :: map Notice mine else [] in
  let mark := find_index (fun m => same_name (rm_username m) (name u)) marks in
  let last := match mark with
              | Some i => match marks !! i with Some m => last_read_at m | None => 0 end
              | None => 0
              end in
  let fresh := length (filter (fun p => in_use p = true /\ last < bumped_at p) (bbs_posts h)) in
  let news := if (0 <? last) && (0 <? fresh)%nat then [NewPosts fresh] else [] in
  let stamp m := {| rm_username := rm_username m; last_read_at := now |} in
  let marks :=
    match mark with
    | Some i => alter stamp i marks
    | None =>
        if (length marks <? SSH_CHATTER_BBS_MAX_READMARKS)%nat
        then marks ++ [{| rm_username := cut_name (name u); last_read_at := now |}] else marks
    end in
  (with_notifications h rest, marks, notices ++ news).

End Listing.

Module ListingTheory.
Import Posts Queues Commands Listing.

(** ** Insertion sort *)

Section InsertionSort.
Context {A : Type} (swap : A -> A -> bool).

Lemma insert_back_perm l k : insert_back swap l k ≡ₚ k :: l.
Proof.
  induction l as [|x l IHl]; simpl; [done|]. case_match; [|done].
  rewrite IHl. by apply Permutation_swap.
Qed.

Lemma insertion_sort_perm l : insertion_sort swap l ≡ₚ l.
Proof.
  unfold insertion_sort. rewrite <- Permutation_rev.
  assert (forall acc, fold_left (insert_back swap) l acc ≡ₚ acc ++ l) as H; [|apply (H [])].
  induction l as [|x l IHl]; intros acc; simpl; [by rewrite app_nil_r|].
  rewrite IHl, insert_back_perm. simpl. by rewrite Permutation_middle.
Qed.

(** [x] may stand before [y]. *)
Definition before (x y : A) : Prop := swap x y = false.

Context (swap_asym : forall x y, swap x y = true -> swap y x = false).
Context (swap_trans : forall x y z, before x y -> before y z -> before x z).

(** The sorted part, read backwards. *)
Lemma insert_back_sorted l k :
  StronglySorted (fun x y => before y x) l -> StronglySorted (fun x y => before y x) (insert_back swap l k).
Proof.
  induction 1 as [|x l Hl IHl Hx]; simpl; [by repeat constructor|].
  destruct (swap x k) eqn:Hs.
  - constructor; [done|]. rewrite Forall_forall in *. intros y Hy.
    rewrite insert_back_perm in Hy. apply elem_of_cons in Hy as [-> |Hy]; [by apply swap_asym|by apply Hx].
  - constructor; [by constructor|]. constructor; [done|].
    eapply Forall_impl; [exact Hx|]. intros y Hy. cbn in Hy. eapply swap_trans; [exact Hy|done].
Qed.

Lemma strongly_sorted_rev (R : A -> A -> Prop) l :
  StronglySorted (fun x y => R y x) l -> StronglySorted R (rev l).
Proof.
  induction 1 as [|x l Hl IHl Hx]; simpl; [constructor|].
  assert (forall a b, StronglySorted R a -> Forall (fun y => R y b) a -> StronglySorted R (a ++ [b])) as Happ.
  { intros a b. induction 1 as [|y a Ha IHa Hy]; intros Hb; simpl; [by repeat constructor|].
    apply Forall_cons in Hb as [Hyb Hb]. constructor; [by apply IHa|].
    apply Forall_app. split; [done|]. by repeat constructor. }
  apply Happ; [done|]. apply Forall_forall. intros y Hy. rewrite Forall_forall in Hx. apply Hx.
  by rewrite (Permutation_rev l).
Qed.

Lemma insertion_sort_sorted l : StronglySorted before (insertion_sort swap l).
Proof.
  unfold insertion_sort. apply strongly_sorted_rev.
  assert (forall acc, StronglySorted (fun x y => before y x) acc ->
            StronglySorted (fun x y => before y x) (fold_left (insert_back swap) l acc)) as H;
    [|apply H; constructor].
  induction l as [|x l IHl]; intros acc Ha; simpl; [done|]. by apply IHl, insert_back_sorted.
Qed.

End InsertionSort.

(** The order as a rank: pinned first, then the two criteria. *)
Definition rank (m : sort_mode) (e : bbs_listing) : Z * Z * Z :=
  let top := if is_pinned e then 1 else 0 in
  match m with
  | SORT_HOT => (top, hot_score e, l_bumped_at e)
  | SORT_TOP => (top, score e, l_bumped_at e)
  | SORT_NEW => (top, l_created_at e, 0)
  | SORT_BUMPED => (top, l_bumped_at e, 0)
  end.

Definition rank_lt (a b : Z * Z * Z) : Prop :=
  let '(a1, a2, a3) := a in let '(b1, b2, b3) := b in
  a1 < b1 \/ a1 = b1 /\ (a2 < b2 \/ a2 = b2 /\ a3 < b3).

Lemma swap_rank m x y : swap m x y = true <-> rank_lt (rank m x) (rank m y).
Proof.
  unfold swap, rank, rank_lt. destruct (is_pinned x), (is_pinned y), m; cbn [Bool.eqb negb]; try (split; [done|lia]);
    try case_match; bprop; rewrite ?andb_true_iff, ?Z.ltb_lt, ?Z.eqb_eq; try (split; intros; done || lia).
Qed.

Lemma before_rank m x y : before (swap m) x y <-> ~ rank_lt (rank m x) (rank m y).
Proof. unfold before. rewrite <- swap_rank. by destruct (swap m x y). Qed.

Lemma swap_asym m x y : swap m x y = true -> swap m y x = false.
Proof.
  rewrite swap_rank. intros H. apply before_rank. revert H. unfold rank_lt.
  destruct (rank m x) as [[? ?] ?], (rank m y) as [[? ?] ?]. lia.
Qed.

Lemma swap_trans m x y z : before (swap m) x y -> before (swap m) y z -> before (swap m) x z.
Proof.
  rewrite !before_rank. unfold rank_lt.
  destruct (rank m x) as [[? ?] ?], (rank m y) as [[? ?] ?], (rank m z) as [[? ?] ?]. lia.
Qed.

(** ** Pages *)

Lemma pages_cover l n : (length l <= n * page_size)%nat ->
  concat (map (fun k => page_of k l) (seq 1 n)) = l.
Proof.
  intros Hl. unfold page_of.
  assert (forall m o, (length l <= (o + m) * page_size)%nat ->
            concat (map (fun k => take page_size (drop ((k - 1) * page_size) l)) (seq (S o) m)) =
            drop (o * page_size) l) as H; [|rewrite (H n O); [done|lia]].
  induction m as [|m IHm]; intros o Ho; simpl; [rewrite drop_ge; [done|lia]|].
  rewrite IHm by lia. rewrite Nat.sub_0_r. rewrite <- (take_drop page_size (drop (o * page_size) l)) at 2.
  f_equal. rewrite drop_drop. f_equal. lia.
Qed.

Lemma total_pages_enough n : (n <= total_pages n * page_size)%nat.
Proof.
  unfold total_pages, page_size. pose proof (Nat.div_mod_eq (n + 20 - 1) 20).
  pose proof (Nat.mod_upper_bound (n + 20 - 1) 20). lia.
Qed.

Lemma join_topic_perm ts e :
  concat (map members (join_topic ts e)) ≡ₚ e :: concat (map members ts).
Proof.
  induction ts as [|t ts IHts]; simpl; [done|]. case_match; simpl.
  - rewrite <- app_assoc. simpl. by rewrite <- Permutation_middle.
  - rewrite IHts. by rewrite <- Permutation_middle.
Qed.

Lemma group_topics_perm l : concat (map members (group_topics l)) ≡ₚ l.
Proof.
  unfold group_topics. rewrite (Permutation_map members (insertion_sort_perm _ _)).
  assert (forall ts, concat (map members (fold_left join_topic l ts)) ≡ₚ concat (map members ts) ++ l) as H;
    [|apply (H [])].
  induction l as [|e l IHl]; intros ts; simpl; [by rewrite app_nil_r|].
  rewrite IHl, join_topic_perm. simpl. by rewrite Permutation_middle.
Qed.

(** The posts a screen shows. *)
Definition entries_shown (out : list screen_item) : list bbs_listing :=
  omap (fun s => match s with Entry e _ => Some e | _ => None end) out.

Lemma entries_app a b : entries_shown (a ++ b) = entries_shown a ++ entries_shown b.
Proof. apply omap_app. Qed.

Lemma entries_map f l : entries_shown (map (fun e => Entry e (f e)) l) = l.
Proof. induction l as [|e l IHl]; [done|]. csimpl. by f_equal. Qed.

Lemma entries_topics fmt ts : entries_shown (concat (map (show_topic fmt) ts)) = concat (map members ts).
Proof.
  induction ts as [|t ts IHts]; [done|]. simpl map. cbn [concat].
  rewrite entries_app, IHts. f_equal. unfold show_topic. csimpl. apply entries_map.
Qed.

Lemma entries_texts l : entries_shown (map Text l) = [].
Proof. induction l as [|t l IHl]; [done|]. by csimpl. Qed.

Lemma entries_footer (b : bool) a t n : entries_shown (if b then [PageFooter a t n] else []) = [].
Proof. by destruct b. Qed.

Lemma list_entries fmt h u boards board clock term args r :
  read_list_arguments args = r ->
  let l := listed_posts h u board clock r in
  l <> [] -> 0 < requested_page r <= Z.of_nat (total_pages (length l)) ->
  entries_shown (session_bbs_list fmt h u boards board clock term args) ≡ₚ
    page_of (Z.to_nat (requested_page r)) (insertion_sort (swap (sorting r)) l).
Proof.
  intros <- l Hne Hpage. unfold session_bbs_list. fold l.
  destruct (length l =? 0)%nat eqn:Hz; [bprop; by destruct l|].
  replace (_ <? requested_page _) with false by (symmetry; apply Z.ltb_ge; lia).
  rewrite app_comm_cons, entries_app. cbn [app].
  change (entries_shown (Separator ?a :: ?b)) with (entries_shown b).
  rewrite entries_topics, entries_app.
  change (entries_shown (Separator (lit "End") :: map Text tips)) with (entries_shown (map Text tips)).
  rewrite entries_footer, entries_texts, !app_nil_r. apply group_topics_perm.
Qed.

(** C22: Every post the listing is about is shown on exactly one of its pages,
    and each page holds at most twenty: the pages together are the selected
    posts, none missing and none twice, in whatever order is asked for. *)
Theorem every_post_listed fmt h u boards board clock term (args : nat -> bytes) all m :
  let r k := {| list_all := all; requested_page := Z.of_nat k; sorting := m |} in
  let l := listed_posts h u board clock (r 1%nat) in
  let n := total_pages (length l) in
  l <> [] -> (forall k, (1 <= k <= n)%nat -> read_list_arguments (args k) = r k) ->
  concat (map (fun k => entries_shown (session_bbs_list fmt h u boards board clock term (args k))) (seq 1 n)) ≡ₚ l /\
  Forall (fun k => (length (entries_shown (session_bbs_list fmt h u boards board clock term (args k))) <= 20)%nat)
    (seq 1 n).
Proof.
  intros r l n Hne Hargs.
  assert (forall k, (1 <= k <= n)%nat ->
            entries_shown (session_bbs_list fmt h u boards board clock term (args k)) ≡ₚ
            page_of k (insertion_sort (swap m) l)) as Hk.
  { intros k Hk. rewrite (list_entries fmt h u boards board clock term (args k) (r k)); [|by apply Hargs|done|].
    - cbn [requested_page sorting r]. by rewrite Nat2Z.id.
    - cbn [requested_page r]. change (listed_posts h u board clock (r k)) with l. fold n. lia. }
  split.
  - etrans; [|apply (insertion_sort_perm (swap m))].
    rewrite <- (pages_cover (insertion_sort (swap m) l) n).
    2: { rewrite (Permutation_length (insertion_sort_perm (swap m) l)). apply total_pages_enough. }
    assert (forall o, (1 <= o)%nat -> forall c, (o + c <= S n)%nat ->
      concat (map (fun k => entries_shown (session_bbs_list fmt h u boards board clock term (args k))) (seq o c)) ≡ₚ
      concat (map (fun k => page_of k (insertion_sort (swap m) l)) (seq o c))) as H; [|apply H; lia].
    intros o Ho c. revert o Ho. induction c as [|c IHc]; intros o Ho Hc; simpl; [done|].
    rewrite IHc by lia. by rewrite Hk by lia.
  - apply Forall_forall. intros k Hin. apply elem_of_seq in Hin.
    rewrite (Permutation_length (Hk k ltac:(lia))). unfold page_of. rewrite length_take. unfold page_size. lia.
Qed.

(** *** The order within a topic *)

Lemma join_topic_sublist ts e l :
  Forall (fun t => members t `sublist_of` l) ts ->
  Forall (fun t => members t `sublist_of` l ++ [e]) (join_topic ts e).
Proof.
  induction 1 as [|t ts Ht Hts IHts]; simpl.
  - constructor; [|constructor]. simpl. by apply sublist_inserts_l.
  - assert (Forall (fun t => members t `sublist_of` l ++ [e]) ts) as Hts'
      by (eapply Forall_impl; [exact Hts|]; intros; by apply sublist_inserts_r).
    case_match; constructor; simpl; try done; [by apply sublist_app|by apply sublist_inserts_r].
Qed.

Lemma group_topics_sublist l : Forall (fun t => members t `sublist_of` l) (group_topics l).
Proof.
  unfold group_topics. rewrite insertion_sort_perm.
  assert (forall ts k, Forall (fun t => members t `sublist_of` k) ts ->
            Forall (fun t => members t `sublist_of` k ++ l) (fold_left join_topic l ts)) as H;
    [|apply (H [] []); constructor].
  induction l as [|e l IHl]; intros ts k Hts; simpl; [by rewrite app_nil_r|].
  rewrite (app_assoc k [e] l : k ++ e :: l = _). by apply IHl, join_topic_sublist.
Qed.

Lemma sorted_sublist {A} (R : A -> A -> Prop) l k : k `sublist_of` l -> StronglySorted R l -> StronglySorted R k.
Proof.
  induction 1 as [|x k l Hs IHs|x k l Hs IHs]; intros Hl; [done| |].
  - apply StronglySorted_inv in Hl as [Hl Hx]. constructor; [by apply IHs|].
    apply Forall_forall. intros y Hy. rewrite Forall_forall in Hx. apply Hx.
    by eapply elem_of_sublist.
  - apply StronglySorted_inv in Hl as [Hl _]. by apply IHs.
Qed.

(** On every page the posts of a topic stand in the order asked for:
    pinned ones first, then by score, creation or last activity. *)
Theorem topics_in_order m page l :
  Forall (fun t => StronglySorted (before (swap m)) (members t))
    (group_topics (page_of page (insertion_sort (swap m) l))).
Proof.
  eapply Forall_impl; [apply group_topics_sublist|]. intros t Ht. cbn in Ht.
  eapply sorted_sublist; [exact Ht|]. unfold page_of.
  eapply sorted_sublist; [apply sublist_take|]. eapply sorted_sublist; [apply sublist_drop|].
  apply insertion_sort_sorted; [apply swap_asym|apply swap_trans].
Qed.

(** ** Hidden posts *)

Lemma without_hidden_ok u l : operator u = false -> Forall (fun e => is_hidden e = false) (without_hidden u l).
Proof. intros Ho. unfold without_hidden. rewrite Ho. apply Forall_forall. by intros e [? _]%list_elem_of_filter. Qed.

Lemma Forall_kept (P Q : bbs_listing -> Prop) `{forall e, Decision (Q e)} l : Forall P l -> Forall P (filter Q l).
Proof. intros Hl. apply Forall_forall. rewrite Forall_forall in Hl. by intros e [_ ?%Hl]%list_elem_of_filter. Qed.

Lemma selected_visible h u board clock r :
  operator u = false -> Forall (fun e => is_hidden e = false) (listed_posts h u board clock r).
Proof.
  intros Ho. unfold listed_posts. case_match; [by apply without_hidden_ok|].
  apply Forall_kept. by apply without_hidden_ok.
Qed.

Lemma Forall_sorted (P : bbs_listing -> Prop) sw l : Forall P l -> Forall P (insertion_sort sw l).
Proof. intros Hl. by rewrite insertion_sort_perm. Qed.

Lemma list_visible fmt h u boards board clock term args :
  operator u = false ->
  Forall (fun e => is_hidden e = false) (entries_shown (session_bbs_list fmt h u boards board clock term args)).
Proof.
  intros Ho. set (r := read_list_arguments args). set (l := listed_posts h u board clock r).
  unfold session_bbs_list. fold r l. case_match; [constructor|]. case_match; [constructor|].
  rewrite app_comm_cons, entries_app. change (entries_shown (Separator ?a :: ?b)) with (entries_shown b).
  rewrite entries_topics, entries_app.
  change (entries_shown (Separator (lit "End") :: map Text tips)) with (entries_shown (map Text tips)).
  rewrite entries_footer, entries_texts, !app_nil_r. rewrite group_topics_perm. unfold page_of. apply Forall_take, Forall_drop, Forall_sorted, selected_visible. done.
Qed.

Lemma topic_visible fmt h u clock topic :
  operator u = false ->
  Forall (fun e => is_hidden e = false) (entries_shown (session_bbs_list_topic fmt h u clock topic)).
Proof.
  intros Ho. unfold session_bbs_list_topic. case_match; [constructor|]. case_match; [constructor|].
  change (entries_shown (Separator ?a :: ?b)) with (entries_shown b).
  rewrite entries_app, entries_map. apply Forall_app. split; [|case_match; constructor].
  apply Forall_kept, Forall_sorted, without_hidden_ok. done.
Qed.

Lemma search_visible fmt h u clock args :
  operator u = false ->
  Forall (fun e => is_hidden e = false) (entries_shown (session_bbs_search_posts fmt h u clock args)).
Proof.
  intros Ho. unfold session_bbs_search_posts. case_match; [constructor|].
  change (entries_shown (Separator ?a :: ?b)) with (entries_shown b). rewrite entries_app.
  apply Forall_app. split; [|constructor]. case_match; [constructor|]. rewrite entries_map.
  apply Forall_kept, without_hidden_ok. done.
Qed.

(** C23: Whoever is no operator sees no hidden post: not in a listing, not in a
    topic, not among the results of a search, whatever is asked for, and a
    post of the loaded board that is read by its number only as removed. *)
Theorem hidden_not_shown fmt h u boards board clock term args i p k :
  operator u = false ->
  Forall (fun e => is_hidden e = false)
    (entries_shown (session_bbs_list fmt h u boards board clock term args) ++
     entries_shown (session_bbs_list_topic fmt h u clock args) ++
     entries_shown (session_bbs_search_posts fmt h u clock args)) /\
  (host_bbs_storage_ready h = true -> bbs_cache_loaded h = true ->
   host_find_bbs_post_locked h i = Some k -> bbs_posts h !! k = Some p ->
   Z.land (mod_flags p) SSH_CHATTER_BBS_MOD_FLAG_HIDDEN <> 0 ->
   session_bbs_read h u clock i = Removed (post_id p)).
Proof.
  intros Ho. split.
  - rewrite !Forall_app. split_and!; [by apply list_visible|by apply topic_visible|by apply search_visible].
  - intros Hr Hc Hf Hp Hh. unfold session_bbs_read, session_bbs_load_post.
    assert ((i =? 0) || (SSH_CHATTER_BBS_ID_SANE_MAX <? i) = false) as ->.
    { unfold host_find_bbs_post_locked in Hf. rewrite Hr in Hf. cbn [negb orb] in Hf. by case_match. }
    rewrite Hr, Hc, Hf, Hp. cbn [andb]. unfold session_bbs_render_post. apply Z.eqb_neq in Hh.
    by rewrite Hh, Ho.
Qed.

(** A hidden post of a board that is not in memory is shown to everyone
    who reads it by its number: the file is read without its flags. *)
Theorem hidden_read_from_file h u clock i f e rest :
  bbs_cache_loaded h = false -> state_file h = Some f -> entries f = e :: rest -> post_count f <> O ->
  d_id e = i -> 0 < i <= SSH_CHATTER_BBS_ID_SANE_MAX -> 0 < clock ->
  let s := session_bbs_normalize_serialized_entry clock e in
  host_bbs_serialized_has_required_fields s = true -> host_bbs_serialized_is_sane s clock = true ->
  session_bbs_read h u clock i = Sees (fst (state_post s)) (snd (state_post s)).
Proof.
  intros Hc Hf He Hn Hid Hi Hclock s Hreq Hsane. unfold session_bbs_read, session_bbs_load_post.
  replace (i =? 0) with false by (symmetry; apply Z.eqb_neq; lia).
  replace (SSH_CHATTER_BBS_ID_SANE_MAX <? i) with false by (symmetry; apply Z.ltb_ge; lia).
  rewrite Hc, andb_false_r. cbn [orb]. unfold session_bbs_load_post_from_state.
  replace (i =? 0) with false by (symmetry; apply Z.eqb_neq; lia). rewrite Hf, He.
  destruct (post_count f) as [|n]; [done|]. cbn [find_in_state].
  replace (clock <=? 0) with false by (symmetry; apply Z.leb_gt; lia). fold s.
  change (d_id s) with (d_id e). rewrite Hreq, Hsane, Hid, Z.eqb_refl. done.
Qed.

(** ** Notices *)

(** The dashboard hands a user the notices addressed to that user, all of
    them, in their order and once: they are gone afterwards, and what is
    addressed to others stays as it was. *)
Theorem notices_once h marks u now :
  let '(h', _, out) := dashboard h marks u now in
  omap (fun s => match s with Notice n => Some n | _ => None end) out =
    filter (fun n => same_name (nt_to n) (name u) = true) (bbs_notifications h) /\
  filter (fun n => same_name (nt_to n) (name u) = true) (bbs_notifications h') = [] /\
  filter (fun n => same_name (nt_to n) (name u) = false) (bbs_notifications h') =
    filter (fun n => same_name (nt_to n) (name u) = false) (bbs_notifications h).
Proof.
  unfold dashboard. set (mine := filter _ _). split_and!.
  - rewrite omap_app. match goal with |- ?a ++ ?b = _ => assert (b = []) as -> by (by case_match) end.
    rewrite app_nil_r. destruct mine as [|n l]; [done|]. cbn [length Nat.ltb Nat.leb]. csimpl. f_equal.
    induction l as [|x l IHl]; [done|]. csimpl. by f_equal.
  - cbn [bbs_notifications with_notifications]. induction (bbs_notifications h) as [|n l IHl]; [done|].
    rewrite filter_cons. case_decide as Hd; [|done]. by rewrite filter_cons_False by congruence.
  - cbn [bbs_notifications with_notifications]. induction (bbs_notifications h) as [|n l IHl]; [done|].
    rewrite filter_cons. case_decide as Hd; [|done]. by rewrite filter_cons_True, IHl.
Qed.

End ListingTheory.

(** ** Samples *)

Module ListingSamples.
Import Posts Queues Commands Listing ListingTheory Board BoardSamples.

Definition no_time (t : Z) : bytes := [].

Definition both_pages (k : nat) : bytes := lit "all " ++ dec (Z.of_nat k).

Lemma every_post_listed_witness :
  concat (map (fun k => entries_shown (session_bbs_list no_time board carol [] 0 now [] (both_pages k))) (seq 1 1)) ≡ₚ
  [listing_of first_post; listing_of second_post].
Proof.
  apply (every_post_listed no_time board carol [] 0 now [] both_pages true SORT_BUMPED); [by vm_compute|].
  intros k Hk. change (1 <= k <= 1)%nat in Hk. assert (k = 1%nat) as -> by lia. by vm_compute.
Defined.

(** The second post hidden. *)
Definition hidden_post : bbs_post := set_mod_flags second_post SSH_CHATTER_BBS_MOD_FLAG_HIDDEN.
Definition hiding : host := with_posts board [first_post; hidden_post; zero_post 2].

Lemma hidden_not_shown_witness :
  Forall (fun e => is_hidden e = false) (entries_shown (session_bbs_list no_time hiding carol [] 0 now [] (lit "all"))) /\
  session_bbs_read hiding carol now 2 = Removed 2.
Proof.
  destruct (hidden_not_shown no_time hiding carol [] 0 now [] (lit "all") 2 hidden_post 1) as [H1 H2]; [done|].
  split; [by apply Forall_app in H1 as [? _]|]. apply H2; by vm_compute.
Defined.

Definition released : host :=
  with_file (with_loaded (with_posts hiding []) false) (state_file (host_bbs_state_save_locked
    (with_posts board [hidden_post; first_post; zero_post 2]))).

Lemma hidden_read_from_file_witness :
  match session_bbs_read released carol now 2 with Sees p _ => body p = body hidden_post | _ => False end.
Proof.
  destruct (state_file released) as [f|] eqn:Hf; [|done].
  rewrite (hidden_read_from_file released carol now 2 f (serialize_post board hidden_post)
             [serialize_post board first_post]); try by vm_compute.
  - injection Hf as <-. by vm_compute.
  - injection Hf as <-. by vm_compute.
Defined.

(** A pinned post under a topic whose name comes later. *)
Definition zoo : bbs_post :=
  set_mod_flags (set_text first_post (lit "pinned one") (lit "text") [lit "zoo"; []; []; []] 1 now)
    SSH_CHATTER_BBS_MOD_FLAG_PINNED.

(** A pinned post does not stand on top of the listing when its topic does
    not. *)
Theorem pinned_not_on_top :
  map l_id (entries_shown (session_bbs_list no_time (with_posts board [zoo; second_post; zero_post 2])
              carol [] 0 now [] (lit "all"))) = [2; 1] /\
  is_pinned (listing_of zoo) = true /\ is_pinned (listing_of second_post) = false.
Proof. split_and!; by vm_compute. Qed.

End ListingSamples.
