(* ===== verification/IpRules.v ===== *)
(** Client-version / IP rules: [src/host/core/ip_ban.c].  Module [Cidr] holds
    the CIDR parsing and membership of [host_parse_ipv4_cidr],
    [host_parse_ipv6_cidr] and [host_cidr_contains_ip] that the ban list of
    [HostBans] also uses; module [Rules] the table of version patterns with
    networks, its growth, its loading and the decision it gives.

    [inet_pton] is an operation of the interface [InetPton]; the allocator is
    the pair of [Allocator].  An IPv4 address is its value in host order, an
    IPv6 address the list of its 16 bytes. *)

From Stdlib Require Import ZArith Lia String Ascii.
From stdpp Require Import prelude.
From S2P Require Import Prelude.

(** [inet_pton(AF_INET, ...)] followed by [ntohl], and [inet_pton(AF_INET6, ...)]. *)
Class InetPton := {
  inet_pton4 : bytes -> option Z;
  inet_pton6 : bytes -> option (list Z)
}.

(** What an address that parses is: 32 bits, or 16 bytes. *)
Class InetPtonOk `{InetPton} := {
  inet_pton4_range s a : inet_pton4 s = Some a -> 0 <= a < 4294967296;
  inet_pton6_shape s a : inet_pton6 s = Some a -> length a = 16%nat /\ Forall byte_ok a
}.

(** Whether a request of the program to its allocator succeeds: an array of [n]
    elements ([sshc_gc_calloc], [sshc_gc_realloc]), a copy ([sshc_strdup]). *)
Class Allocator := {
  array_alloc_ok : Z -> bool;
  strdup_ok : bytes -> bool
}.

Definition SSH_CHATTER_IP_LEN : nat := 64.
Definition SSH_CHATTER_CIDR_TEXT_LEN : nat := 64.
Definition SSH_CHATTER_VERSION_NOTE_LEN : nat := 96.
Definition SSH_CHATTER_VERSION_PATTERN_LEN : Z := 16384.
Definition SSH_CHATTER_MAX_VERSION_IP_BANS : Z := 8192.

Definition host_trim_whitespace (text : bytes) : bytes :=
  strip_trailing isspace (skip_while isspace text).

Module Cidr.
Section Cidr.
Context `{InetPton}.

(** The text before the slash and the prefix length after it. *)
Definition split_cidr (cidr : bytes) (max_prefix : Z) : option (bytes * Z) :=
  if negb (Z.of_nat (length cidr) <? Z.of_nat SSH_CHATTER_CIDR_TEXT_LEN) then None else
  match strchr cidr c_slash with
  | None => None
  | Some slash =>
      match strtol (drop 1 slash) with
      | None => None
      | Some (prefix_long, _) =>
          if (prefix_long <? 0) || (max_prefix <? prefix_long) then None
          else Some (take_while (fun c => negb (c =? c_slash)) cidr, prefix_long)
      end
  end.

Definition ipv4_mask (prefix : Z) : Z :=
  if prefix =? 0 then 0 else u32 (Z.shiftl 4294967295 (32 - prefix)).

(** The network and the mask. *)
Definition host_parse_ipv4_cidr (cidr : bytes) : option (Z * Z) :=
  match split_cidr cidr 32 with
  | None => None
  | Some (buffer, prefix) =>
      match inet_pton4 buffer with
      | None => None
      | Some address =>
          let mask := ipv4_mask prefix in
          Some (Z.land address mask, mask)
      end
  end.

(** The mask loop over the [n] bytes left. *)
Fixpoint ipv6_mask_go (n : nat) (remaining : Z) : list Z :=
  match n with
  | O => []
  | S n' =>
      if 8 <=? remaining then 255 :: ipv6_mask_go n' (remaining - 8)
      else if 0 <? remaining then u8 (Z.shiftl 255 (8 - remaining)) :: ipv6_mask_go n' 0
      else 0 :: ipv6_mask_go n' remaining
  end.

Definition host_parse_ipv6_cidr (cidr : bytes) : option (list Z * list Z) :=
  match split_cidr cidr 128 with
  | None => None
  | Some (buffer, prefix) =>
      match inet_pton6 buffer with
      | None => None
      | Some address =>
          let mask := ipv6_mask_go 16 prefix in
          Some (zip_with Z.land address mask, mask)
      end
  end.

Definition ipv4_in (network mask : Z) (ip : bytes) : bool :=
  match inet_pton4 ip with
  | None => false
  | Some ip_value => Z.land ip_value mask =? network
  end.

Definition ipv6_in (network mask : list Z) (ip : bytes) : bool :=
  match inet_pton6 ip with
  | None => false
  | Some address => bool_decide (zip_with Z.land address mask = network)
  end.

Definition host_cidr_contains_ip (cidr_text ip : bytes) : bool :=
  if bytes_eqb ip [] then false
  else match host_parse_ipv4_cidr cidr_text with
       | Some (network, mask) => ipv4_in network mask ip
       | None =>
           match host_parse_ipv6_cidr cidr_text with
           | Some (network, mask) => ipv6_in network mask ip
           | None => false
           end
       end.

(** ** Lemmas *)

Lemma split_cidr_printed a p max :
  ~ In c_slash a -> 0 <= p <= max -> max <= LONG_MAX ->
  Z.of_nat (length (a ++ c_slash :: dec p)) < Z.of_nat SSH_CHATTER_CIDR_TEXT_LEN ->
  split_cidr (a ++ c_slash :: dec p) max = Some (a, p).
Proof.
  intros Ha Hp Hmax Hlen. unfold split_cidr.
  apply Z.ltb_lt in Hlen. rewrite Hlen. cbn [negb]. rewrite strchr_app by done. psimp.
  rewrite <- (app_nil_r (dec p)) at 1. rewrite strtol_dec by (done || lia).
  assert ((p <? 0) || (max <? p) = false) as -> by (apply orb_false_iff; lia).
  f_equal. f_equal. apply take_while_stop; [|done].
  apply Forall_forall. intros x Hx%list_elem_of_In. apply negb_true_iff, Z.eqb_neq.
  by intros ->.
Qed.

Lemma ipv4_mask_high p : 0 <= p <= 32 ->
  ipv4_mask p = Z.shiftl (Z.ones 32) (32 - p) mod 2 ^ 32.
Proof.
  intros Hp. unfold ipv4_mask. destruct (Z.eqb_spec p 0) as [->|]; [reflexivity|]. done.
Qed.

(** The number of leading bits a prefix of [p] bits covers in byte [i]. *)
Definition prefix_bits (p : Z) (i : nat) : Z := Z.max 0 (Z.min 8 (p - 8 * Z.of_nat i)).

Definition mask_byte (k : Z) : Z := Z.shiftl (Z.ones 8) (8 - k) mod 2 ^ 8.

Lemma ipv6_mask_go_spec n p : 0 <= p ->
  ipv6_mask_go n p = map (fun i => mask_byte (prefix_bits p i)) (seq 0 n).
Proof.
  revert p; induction n as [|n IH]; intros p Hp; [done|].
  cbn [ipv6_mask_go seq map]. rewrite <- seq_shift, map_map.
  assert (forall q, 0 <= q -> (forall i, prefix_bits p (S i) = prefix_bits q i) ->
    map (fun i => mask_byte (prefix_bits p (S i))) (seq 0 n) = ipv6_mask_go n q) as Htl.
  { intros q Hq Heq. rewrite IH by done. apply map_ext. intros i. by rewrite Heq. }
  unfold prefix_bits at 1. destruct (Z.leb_spec 8 p) as [H8|H8].
  - rewrite (Htl (p - 8)) by (lia || (intros i; unfold prefix_bits; lia)).
    replace (Z.max 0 _) with 8 by lia. done.
  - rewrite (Htl 0) by (lia || (intros i; unfold prefix_bits; lia)).
    replace (Z.max 0 _) with p by lia. destruct (Z.ltb_spec 0 p); [done|].
    replace p with 0 by lia. done.
Qed.

(** Two addresses agree on their first [p] bits. *)
Definition same_prefix6 (p : Z) (x y : list Z) : Prop :=
  forall i a b, x !! i = Some a -> y !! i = Some b ->
    a / 2 ^ (8 - prefix_bits p i) = b / 2 ^ (8 - prefix_bits p i).

Lemma mask6_eq p (x y : list Z) :
  length x = 16%nat -> length y = 16%nat -> Forall byte_ok x -> Forall byte_ok y -> 0 <= p ->
  (zip_with Z.land x (ipv6_mask_go 16 p) = zip_with Z.land y (ipv6_mask_go 16 p)
   <-> same_prefix6 p x y).
Proof.
  intros Hx Hy Bx By Hp. rewrite ipv6_mask_go_spec by done.
  assert (forall (i : nat), (i < 16)%nat ->
    map (fun i => mask_byte (prefix_bits p i)) (seq 0 16) !! i =
    Some (mask_byte (prefix_bits p i))) as Hm.
  { intros i Hi. rewrite list_lookup_fmap, lookup_seq_lt by done. done. }
  assert (forall (i : nat) a b, x !! i = Some a -> y !! i = Some b ->
    (Z.land a (mask_byte (prefix_bits p i)) = Z.land b (mask_byte (prefix_bits p i)) <->
     a / 2 ^ (8 - prefix_bits p i) = b / 2 ^ (8 - prefix_bits p i))) as Hb.
  { intros i a b Ha Hb. eapply Forall_lookup_1 in Ha, Hb; [|done..].
    rewrite <- Z.eqb_eq, <- Z.eqb_eq. unfold mask_byte, byte_ok in *.
    rewrite land_high_mask_eqb; [done|unfold prefix_bits; lia|lia|lia]. }
  split.
  - intros Heq i a b Ha Hb'. apply (Hb i a b Ha Hb').
    assert (i < 16)%nat as Hi by (rewrite <- Hx; by eapply lookup_lt_Some).
    apply (f_equal (fun l : list Z => l !! i)) in Heq.
    rewrite !lookup_zip_with, Ha, Hb', Hm in Heq by done. by injection Heq.
  - intros Hs. apply list_eq. intros i. rewrite !lookup_zip_with.
    destruct (x !! i) as [a|] eqn:Ha.
    + assert (i < 16)%nat as Hi by (rewrite <- Hx; by eapply lookup_lt_Some).
      destruct (lookup_lt_is_Some_2 y i ltac:(lia)) as [b Hb'].
      rewrite Hb', Hm by done. simpl. f_equal. apply (Hb i a b Ha Hb'). by apply Hs.
    + apply lookup_ge_None in Ha. by rewrite (proj2 (lookup_ge_None y i)) by lia.
Qed.

(** An IPv4 address is in the network [a/p] exactly when it has the same
    first [p] bits as [a], for every prefix length from 0 to 32. *)
Theorem cidr4_contains {OK : InetPtonOk} a p n ip x :
  ~ In c_slash a -> 0 <= p <= 32 ->
  Z.of_nat (length (a ++ c_slash :: dec p)) < Z.of_nat SSH_CHATTER_CIDR_TEXT_LEN ->
  inet_pton4 a = Some n -> ip <> [] -> inet_pton4 ip = Some x ->
  host_cidr_contains_ip (a ++ c_slash :: dec p) ip =
  (x / 2 ^ (32 - p) =? n / 2 ^ (32 - p)).
Proof.
  intros Ha Hp Hlen Hn Hip Hx. unfold host_cidr_contains_ip, host_parse_ipv4_cidr.
  rewrite (proj2 (bytes_eqb_neq ip [])) by done.
  rewrite split_cidr_printed by (done || (unfold LONG_MAX; lia)). rewrite Hn.
  unfold ipv4_in. rewrite Hx, ipv4_mask_high by done.
  apply inet_pton4_range in Hn, Hx. apply land_high_mask_eqb; lia.
Qed.

(** An IPv6 address is in the network [a/p] exactly when the two agree on
    their first [p] bits, for every prefix length from 0 to 128. *)
Theorem cidr6_contains {OK : InetPtonOk} a p n ip x :
  ~ In c_slash a -> 0 <= p <= 128 ->
  Z.of_nat (length (a ++ c_slash :: dec p)) < Z.of_nat SSH_CHATTER_CIDR_TEXT_LEN ->
  inet_pton4 a = None -> inet_pton6 a = Some n -> ip <> [] -> inet_pton6 ip = Some x ->
  host_cidr_contains_ip (a ++ c_slash :: dec p) ip = true <-> same_prefix6 p x n.
Proof.
  intros Ha Hp Hlen Hn4 Hn Hip Hx. unfold host_cidr_contains_ip.
  rewrite (proj2 (bytes_eqb_neq ip [])) by done.
  assert (host_parse_ipv4_cidr (a ++ c_slash :: dec p) = None) as ->.
  { unfold host_parse_ipv4_cidr. destruct (split_cidr _ 32) as [[b q]|] eqn:E; [|done].
    assert (b = a) as ->; [|by rewrite Hn4].
    revert E. unfold split_cidr. repeat case_match; try done. intros [= <- _].
    apply take_while_stop; [|done]. apply Forall_forall. intros c Hc%list_elem_of_In.
    apply negb_true_iff, Z.eqb_neq. by intros ->. }
  unfold host_parse_ipv6_cidr.
  rewrite split_cidr_printed by (done || (unfold LONG_MAX; lia)). rewrite Hn.
  unfold ipv6_in. rewrite Hx, bool_decide_eq_true.
  apply inet_pton6_shape in Hn as [Hn1 Hn2]. apply inet_pton6_shape in Hx as [Hx1 Hx2].
  apply mask6_eq; done || lia.
Qed.

End Cidr.
End Cidr.
Import Cidr.

Module Rules.

Inductive version_pattern_match :=
  | VERSION_PATTERN_MATCH_ANY | VERSION_PATTERN_MATCH_EXACT | VERSION_PATTERN_MATCH_PREFIX
  | VERSION_PATTERN_MATCH_SUFFIX | VERSION_PATTERN_MATCH_SUBSTRING.

#[export] Instance version_pattern_match_eq_dec : EqDecision version_pattern_match.
Proof. solve_decision. Defined.

Record version_ip_ban_rule := {
  r_in_use : bool;
  r_match_mode : version_pattern_match;
  r_original_pattern : bytes;
  r_normalized_pattern : bytes;
  r_cidr_text : bytes;
  r_note : bytes;
  r_is_ipv6 : bool;
  r_ipv4_network : Z;
  r_ipv4_mask : Z;
  r_ipv6_network : list Z;
  r_ipv6_mask : list Z
}.

(** The rule table of the host: the [rule_count] rules in use, the capacity of
    the array, and whether it is allocated. *)
Record rule_table := {
  t_rules : list version_ip_ban_rule;
  t_capacity : Z;
  t_allocated : bool
}.

Definition rule_count (t : rule_table) : Z := Z.of_nat (length (t_rules t)).

(** A copy cut to a buffer of [n] bytes. *)
Definition cut (n : Z) (s : bytes) : bytes := take (Z.to_nat (n - 1)) s.

(** The pattern without its stars, the trimmed original, and the mode. *)
Definition host_version_ip_parse_pattern (pattern : bytes) (normalized_len original_len : Z) :
    option (bytes * bytes * version_pattern_match) :=
  if SSH_CHATTER_VERSION_PATTERN_LEN <=? Z.of_nat (length pattern) then None else
  let trimmed := host_trim_whitespace pattern in
  match trimmed with
  | [] => None
  | first :: _ =>
      let original := cut original_len trimmed in
      let leading_star := first =? c_star in
      let trailing_star := match last trimmed with Some c => c =? c_star | None => false end in
      if leading_star && trailing_star && (length trimmed =? 1)%nat
      then Some ([], original, VERSION_PATTERN_MATCH_ANY)
      else
        let body := if trailing_star then take (length trimmed - 1) trimmed else trimmed in
        let body := if leading_star then drop 1 body else body in
        match body with
        | [] => Some ([], original, VERSION_PATTERN_MATCH_ANY)
        | _ =>
            if existsb (fun c => c =? c_star) body then None
            else if normalized_len =? 0 then None
            else
              Some (cut normalized_len body, original,
                    if leading_star && trailing_star then VERSION_PATTERN_MATCH_SUBSTRING
                    else if leading_star then VERSION_PATTERN_MATCH_SUFFIX
                    else if trailing_star then VERSION_PATTERN_MATCH_PREFIX
                    else VERSION_PATTERN_MATCH_EXACT)
        end
  end.

Section Rules.
Context `{InetPton} `{Allocator}.

(** The version half of [host_version_ip_rule_matches]; a client may have sent
    no version string. *)
Definition version_matches (mode : version_pattern_match) (normalized : bytes)
    (version : option bytes) : bool :=
  match mode, version with
  | VERSION_PATTERN_MATCH_ANY, _ => true
  | _, None => false
  | VERSION_PATTERN_MATCH_EXACT, Some v => bytes_eqb v normalized
  | VERSION_PATTERN_MATCH_PREFIX, Some v =>
      let prefix := take (Z.to_nat SSH_CHATTER_VERSION_PATTERN_LEN) normalized in
      (0 <? length prefix)%nat && is_prefix prefix v
  | VERSION_PATTERN_MATCH_SUFFIX, Some v =>
      let suffix := take (Z.to_nat SSH_CHATTER_VERSION_PATTERN_LEN) normalized in
      ((0 <? length suffix) && (length suffix <=? length v))%nat &&
      bytes_eqb (drop (length v - length suffix) v) suffix
  | VERSION_PATTERN_MATCH_SUBSTRING, Some v =>
      negb (bytes_eqb normalized []) &&
      match strstr v normalized with Some _ => true | None => false end
  end.

Definition host_version_ip_rule_matches (rule : version_ip_ban_rule) (version : option bytes)
    (ip : bytes) : bool :=
  if negb (r_in_use rule) || bytes_eqb ip [] then false
  else if negb (version_matches (r_match_mode rule) (r_normalized_pattern rule) version)
  then false
  else if negb (r_is_ipv6 rule) then ipv4_in (r_ipv4_network rule) (r_ipv4_mask rule) ip
  else ipv6_in (r_ipv6_network rule) (r_ipv6_mask rule) ip.

(** The doubling loop of [host_version_ip_rules_reserve]; 14 rounds take any
    positive capacity past the maximum of 8192. *)
Fixpoint grow_capacity (fuel : nat) (cap min_capacity : Z) : Z :=
  match fuel with
  | O => cap
  | S f =>
      if (cap <? min_capacity) && (cap <? SSH_CHATTER_MAX_VERSION_IP_BANS)
      then grow_capacity f (cap * 2) min_capacity
      else cap
  end.

Definition host_version_ip_rules_reserve (t : rule_table) (min_capacity : Z) :
    bool * rule_table :=
  if (min_capacity <=? t_capacity t) && t_allocated t then (true, t)
  else
    let new_capacity := if 0 <? t_capacity t then t_capacity t else 16 in
    let new_capacity := grow_capacity 14 new_capacity min_capacity in
    let new_capacity := if SSH_CHATTER_MAX_VERSION_IP_BANS <? new_capacity
                        then SSH_CHATTER_MAX_VERSION_IP_BANS else new_capacity in
    if new_capacity <? min_capacity then (false, t)
    else if negb (array_alloc_ok new_capacity) then (false, t)
    else (true, {| t_rules := t_rules t;
                   t_capacity := new_capacity; t_allocated := true |}).

Definition host_version_ip_rules_prepare (t : rule_table) : bool * rule_table :=
  let empty t := {| t_rules := []; t_capacity := t_capacity t; t_allocated := t_allocated t |} in
  if negb (t_allocated t) || (t_capacity t =? 0) then
    let (ok, t) := host_version_ip_rules_reserve t 16 in
    if ok then (true, empty t) else (false, t)
  else (true, empty t).

(** The rule of [host_version_ip_rule_add] that is already in the table. *)
Definition same_rule (r existing : version_ip_ban_rule) : bool :=
  r_in_use existing &&
  bool_decide (r_match_mode existing = r_match_mode r) &&
  strn_eq (Z.to_nat SSH_CHATTER_VERSION_PATTERN_LEN)
    (r_normalized_pattern existing) (r_normalized_pattern r) &&
  Bool.eqb (r_is_ipv6 existing) (r_is_ipv6 r) &&
  (if negb (r_is_ipv6 r)
   then (r_ipv4_network existing =? r_ipv4_network r) && (r_ipv4_mask existing =? r_ipv4_mask r)
   else bool_decide (r_ipv6_network existing = r_ipv6_network r) &&
        bool_decide (r_ipv6_mask existing = r_ipv6_mask r)).

(** [memcpy] of a note into its buffer; an absent or empty note is [None]. *)
Definition note_text (note : option bytes) : option bytes :=
  match note with
  | Some (c :: t) => Some (take (SSH_CHATTER_VERSION_NOTE_LEN - 1) (c :: t))
  | _ => None
  end.

Definition with_note (n : bytes) (r : version_ip_ban_rule) : version_ip_ban_rule :=
  {| r_in_use := r_in_use r; r_match_mode := r_match_mode r;
     r_original_pattern := r_original_pattern r; r_normalized_pattern := r_normalized_pattern r;
     r_cidr_text := r_cidr_text r; r_note := n; r_is_ipv6 := r_is_ipv6 r;
     r_ipv4_network := r_ipv4_network r; r_ipv4_mask := r_ipv4_mask r;
     r_ipv6_network := r_ipv6_network r; r_ipv6_mask := r_ipv6_mask r |}.

(** The rule a pattern and a network make. *)
Definition make_rule (pattern cidr : bytes) (note : option bytes) : option version_ip_ban_rule :=
  match host_version_ip_parse_pattern pattern SSH_CHATTER_VERSION_PATTERN_LEN
          SSH_CHATTER_VERSION_PATTERN_LEN with
  | None => None
  | Some (normalized, original, match_mode) =>
      if negb (Z.of_nat (length cidr) <? Z.of_nat SSH_CHATTER_CIDR_TEXT_LEN) then None
      else
        let cidr_trimmed := host_trim_whitespace cidr in
        if bytes_eqb cidr_trimmed [] then None
        else
          let rule v6 n4 m4 n6 m6 :=
            Some {| r_in_use := true; r_match_mode := match_mode;
                    r_original_pattern := original; r_normalized_pattern := normalized;
                    r_cidr_text := cidr_trimmed; r_note := default [] (note_text note);
                    r_is_ipv6 := v6; r_ipv4_network := n4; r_ipv4_mask := m4;
                    r_ipv6_network := n6; r_ipv6_mask := m6 |} in
          match host_parse_ipv4_cidr cidr_trimmed with
          | Some (network, mask) => rule false network mask [] []
          | None =>
              match host_parse_ipv6_cidr cidr_trimmed with
              | Some (network, mask) => rule true 0 0 network mask
              | None => None
              end
          end
  end.

Definition host_version_ip_rule_add (t : rule_table) (pattern cidr : bytes)
    (note : option bytes) : bool * rule_table :=
  if SSH_CHATTER_MAX_VERSION_IP_BANS <=? rule_count t then (false, t)
  else
    let (ok, t) := host_version_ip_rules_reserve t (rule_count t + 1) in
    if negb ok then (false, t)
    else
      match make_rule pattern cidr note with
      | None => (false, t)
      | Some rule =>
          match list_find (fun e => same_rule rule e = true) (t_rules t) with
          | Some (idx, existing) =>
              (true,
               match note_text note with
               | Some n => {| t_rules := <[idx := with_note n existing]> (t_rules t);
                              t_capacity := t_capacity t; t_allocated := t_allocated t |}
               | None => t
               end)
          | None =>
              if negb (strdup_ok (r_original_pattern rule)) ||
                 negb (strdup_ok (r_normalized_pattern rule))
              then (false, t)
              else (true, {| t_rules := t_rules t ++ [rule]; t_capacity := t_capacity t;
                             t_allocated := t_allocated t |})
          end
      end.

Definition rule_separator (c : Z) : bool := (c =? c_comma) || (c =? 59) || (c =? c_lf).

(** One entry [pattern@cidr#note] of the environment variable. *)
Definition load_env_token (t : rule_table) (token : bytes) : rule_table :=
  let trimmed := host_trim_whitespace token in
  if bytes_eqb trimmed [] then t
  else
    let note_part := match strchr trimmed c_hash with
                     | Some h => Some (host_trim_whitespace (drop 1 h))
                     | None => None
                     end in
    let trimmed := take_while (fun c => negb (c =? c_hash)) trimmed in
    match strchr trimmed c_at with
    | None => t
    | Some sep =>
        let pattern := host_trim_whitespace (take_while (fun c => negb (c =? c_at)) trimmed) in
        let cidr := host_trim_whitespace (drop 1 sep) in
        if bytes_eqb pattern [] || bytes_eqb cidr [] then t
        else
          let note := match note_part with
                      | Some (c :: n) => c :: n
                      | _ => lit "custom rule"
                      end in
          snd (host_version_ip_rule_add t pattern cidr (Some note))
    end.

Definition host_version_ip_rules_load_env (t : rule_table) (env : option bytes) : rule_table :=
  match env with
  | None | Some [] => t
  | Some e => if negb (strdup_ok e) then t
              else fold_left load_env_token (strtok_all rule_separator e) t
  end.

(** The first rule that applies to a client. *)
Definition host_version_ip_should_ban (t : rule_table) (version : option bytes) (ip : bytes) :
    option version_ip_ban_rule :=
  if bytes_eqb ip [] then None
  else match list_find
               (fun r => r_in_use r && host_version_ip_rule_matches r version ip = true)
               (t_rules t) with
       | Some (_, r) => Some r
       | None => None
       end.

Definition kVersionIpBanSeeds : list (bytes * bytes * bytes) := [
  (lit "SSH-2.0-Go*", lit "34.80.0.0/12", lit "");
  (lit "SSH-2.0-Go*", lit "34.96.0.0/14", lit "");
  (lit "SSH-2.0-paramiko_*", lit "52.78.0.0/15", lit "");
  (lit "SSH-2.0-AsyncSSH_*", lit "20.214.0.0/15", lit "");
  (lit "SSH-2.0-libssh_0.4*", lit "0.0.0.0/0", lit "");
  (lit "SSH-2.0-libssh_0.5*", lit "0.0.0.0/0", lit "");
  (lit "SSH-2.0-libssh_0.6*", lit "0.0.0.0/0", lit "");
  (lit "SSH-2.0-libssh_0.7*", lit "0.0.0.0/0", lit "");
  (lit "SSH-2.0-libssh_0.8*", lit "0.0.0.0/0", lit "");
  (lit "SSH-2.0-libssh_0.9*", lit "0.0.0.0/0", lit "");
  (lit "SSH-2.0-paramiko*", lit "3.0.0.0/8", lit "");
  (lit "SSH-2.0-paramiko_1.*", lit "0.0.0.0/0", lit "");
  (lit "SSH-2.0-paramiko_2.*", lit "44.0.0.0/8", lit "");
  (lit "SSH-2.0-JSch*", lit "35.0.0.0/8", lit "");
  (lit "SSH-2.0-JSch_0.1.55", lit "0.0.0.0/0", lit "");
  (lit "SSH-2.0-JSch_0.1.53", lit "0.0.0.0/0", lit "");
  (lit "SSH-2.0-JSch_0.1.54", lit "0.0.0.0/0", lit "");
  (lit "SSH-2.0-PuTTY*", lit "23.0.0.0/8", lit "");
  (lit "SSH-2.0-PuTTY_Release_0.6*", lit "52.0.0.0/8", lit "");
  (lit "SSH-2.0-PuTTY_Release_0.7*", lit "104.0.0.0/8", lit "");
  (lit "SSH-2.0-masscan*", lit "0.0.0.0/0", lit "");
  (lit "SSH-2.0-Nmap*", lit "0.0.0.0/0", lit "");
  (lit "SSH-2.0-Go-SSH*", lit "0.0.0.0/0", lit "");
  (lit "SSH-2.0-Python-requests*", lit "0.0.0.0/0", lit "");
  (lit "SSH-2.0-PHPSecLib*", lit "0.0.0.0/0", lit "");
  (lit "SSH-2.0-Dropbear*", lit "0.0.0.0/0", lit "");
  (lit "SSH-2.0-BlackRose*", lit "0.0.0.0/0", lit "");
  (lit "SSH-2.0-PumaBot*", lit "0.0.0.0/0", lit "");
  (lit "SSH-2.0-SSH-Client-v1.*", lit "0.0.0.0/0", lit "");
  (lit "SSH-2.0-sshj*", lit "0.0.0.0/0", lit "");
  (lit "SSH-2.0-Java*", lit "13.0.0.0/8", lit "");
  (lit "SSH-2.0-Python*", lit "104.0.0.0/8", lit "");
  (lit "SSH-2.0-Curl*", lit "172.0.0.0/8", lit "");
  (lit "SSH-2.0-Ruby*", lit "18.0.0.0/8", lit "");
  (lit "SSH-2.0-SSH*", lit "134.0.0.0/8", lit "");
  (lit "SSH-1.99*", lit "0.0.0.0/0", lit "");
  (lit "", lit "0.0.0.0/0", lit "");
  (lit "SSH-2.0-Go*", lit "147.0.0.0/8", lit "");
  (lit "SSH-2.0-Python*", lit "13.0.0.0/8", lit "");
  (lit "SSH-2.0-libssh*", lit "192.0.0.0/8", lit "");
  (lit "SSH-2.0-paramiko*", lit "172.0.0.0/8", lit "");
  (lit "SSH-2.0-JSch*", lit "10.0.0.0/8", lit "");
  (lit "SSH-2.0-Curl*", lit "103.0.0.0/8", lit "");
  (lit "SSH-2.0-Go*", lit "167.0.0.0/8", lit "");
  (lit "SSH-2.0-paramiko*", lit "69.0.0.0/8", lit "");
  (lit "SSH-2.0-libssh*", lit "173.0.0.0/8", lit "");
  (lit "SSH-2.0-JSch*", lit "216.0.0.0/8", lit "");
  (lit "SSH-2.0-Python*", lit "185.0.0.0/8", lit "");
  (lit "SSH-2.0-SSH-2.0-libssh*", lit "0.0.0.0/0", lit "");
  (lit "SSH-2.0-paramiko_paramiko*", lit "0.0.0.0/0", lit "");
  (lit "SSH-2.0-Jakarta*", lit "0.0.0.0/0", lit "");
  (lit "SSH-2.0-ssh.net*", lit "0.0.0.0/0", lit "");
  (lit "SSH-2.0-Mina*", lit "0.0.0.0/0", lit "");
  (lit "SSH-2.0-Tectia*", lit "0.0.0.0/0", lit "");
  (lit "SSH-2.0-Ganymed*", lit "0.0.0.0/0", lit "");
  (lit "SSH-2.0-NSSHS*", lit "0.0.0.0/0", lit "");
  (lit "SSH-2.0-F-Secure*", lit "0.0.0.0/0", lit "");
  (lit "SSH-2.0-SecureCRT*", lit "0.0.0.0/0", lit "");
  (lit "SSH-2.0-Unknown*", lit "0.0.0.0/0", lit "");
  (lit "SSH-2.0-SshTunnel*", lit "0.0.0.0/0", lit "");
  (lit "SSH-2.0-paramiko*", lit "199.0.0.0/8", lit "");
  (lit "SSH-2.0-paramiko*", lit "207.0.0.0/8", lit "");
  (lit "SSH-2.0-paramiko*", lit "85.0.0.0/8", lit "");
  (lit "SSH-2.0-Python*", lit "199.0.0.0/8", lit "");
  (lit "SSH-2.0-Go*", lit "199.0.0.0/8", lit "");
  (lit "SSH-2.0-Java*", lit "199.0.0.0/8", lit "");
  (lit "SSH-2.0-Go*", lit "85.0.0.0/8", lit "");
  (lit "SSH-2.0-Python*", lit "85.0.0.0/8", lit "")
].

Definition host_version_ip_rules_init (t : rule_table) (env : option bytes) : rule_table :=
  let (ok, t) := host_version_ip_rules_prepare t in
  if negb ok then t
  else
    let t := fold_left
      (fun t '(pattern, cidr, note) => snd (host_version_ip_rule_add t pattern cidr (Some note)))
      kVersionIpBanSeeds t in
    host_version_ip_rules_load_env t env.

(** ** Patterns *)

(** A literal piece of a version pattern: no star, no white space around it. *)
Definition literal (p : bytes) : Prop :=
  p <> [] /\ Forall (fun c => c <> c_star) p /\ isspace (peek p) = false /\
  isspace (default 0 (last p)) = false /\ Z.of_nat (length p) < SSH_CHATTER_VERSION_PATTERN_LEN - 2.

Definition with_stars (leading trailing : bool) (p : bytes) : bytes :=
  (if leading then [c_star] else []) ++ p ++ (if trailing then [c_star] else []).

Definition star_mode (leading trailing : bool) : version_pattern_match :=
  match leading, trailing with
  | false, false => VERSION_PATTERN_MATCH_EXACT
  | false, true => VERSION_PATTERN_MATCH_PREFIX
  | true, false => VERSION_PATTERN_MATCH_SUFFIX
  | true, true => VERSION_PATTERN_MATCH_SUBSTRING
  end.

Lemma trim_id s : isspace (peek s) = false -> isspace (default 0 (last s)) = false ->
  host_trim_whitespace s = s.
Proof.
  intros H1 H2. unfold host_trim_whitespace, strip_trailing.
  rewrite (skip_while_stop _ s) by done. destruct s as [|c s _] using rev_ind; [done|].
  rewrite last_snoc in H2. simpl in H2. rewrite rev_app_distr. simpl. rewrite H2.
  simpl. by rewrite rev_involutive.
Qed.

Lemma with_stars_ends l r p : literal p ->
  isspace (peek (with_stars l r p)) = false /\
  isspace (default 0 (last (with_stars l r p))) = false /\
  (exists c t, with_stars l r p = c :: t /\ (c =? c_star) = l) /\
  (match last (with_stars l r p) with Some c => c =? c_star | None => false end) = r.
Proof.
  intros (Hne & Hall & H1 & H2 & _). unfold with_stars.
  destruct p as [|c p _] using rev_ind; [done|]. rewrite last_snoc in H2. simpl in H2.
  assert ((c =? c_star) = false) as Hc
    by (apply Z.eqb_neq; apply Forall_app in Hall as [_ Hall]; by inversion Hall).
  assert (exists d t, p ++ [c] = d :: t /\ (d =? c_star) = false) as (d & t & Hd & Hds).
  { destruct p as [|d p]; [by exists c, []|]. exists d, (p ++ [c]). split; [done|].
    apply Z.eqb_neq. by inversion Hall. }
  split_and!.
  - destruct l; [done|]. simpl. by rewrite Hd in H1 |- *.
  - destruct r; rewrite ?app_nil_r, ?app_assoc, !last_snoc; done.
  - rewrite Hd. destruct l; simpl; eauto.
  - destruct r; rewrite ?app_nil_r, ?app_assoc, !last_snoc; done.
Qed.

Lemma literal_no_star p : literal p -> existsb (fun c => c =? c_star) p = false.
Proof.
  intros (_ & Hall & _). apply not_true_iff_false. rewrite existsb_exists.
  intros (c & Hc%list_elem_of_In & ->%Z.eqb_eq).
  rewrite Forall_forall in Hall. by apply (Hall c_star).
Qed.

Lemma parse_pattern_stars l r p : literal p ->
  host_version_ip_parse_pattern (with_stars l r p) SSH_CHATTER_VERSION_PATTERN_LEN
    SSH_CHATTER_VERSION_PATTERN_LEN = Some (p, with_stars l r p, star_mode l r).
Proof.
  intros Hp. pose proof (with_stars_ends l r p Hp) as (H1 & H2 & (c & t & Hct & Hl) & Hr).
  pose proof (literal_no_star p Hp) as Hns. destruct Hp as (Hne & _ & _ & _ & Hlen).
  assert (length (with_stars l r p) = length p + Nat.b2n l + Nat.b2n r)%nat as Hws
    by (unfold with_stars; rewrite !length_app; destruct l, r; simpl; lia).
  unfold host_version_ip_parse_pattern.
  destruct (Z.leb_spec SSH_CHATTER_VERSION_PATTERN_LEN (Z.of_nat (length (with_stars l r p))));
    [destruct l, r; simpl in *; lia|].
  rewrite trim_id, Hr by done. rewrite Hct at 1. rewrite Hl.
  assert ((length (with_stars l r p) =? 1)%nat = false \/ l && r = false) as Hone.
  { destruct p; [done|]. destruct l, r; simpl in *; auto. }
  replace (l && r && (length (with_stars l r p) =? 1)%nat) with false
    by (destruct Hone as [->| ->]; by rewrite ?andb_false_r).
  set (body := if l then _ else _).
  assert (body = p) as ->.
  { unfold body, with_stars. destruct l, r; rewrite ?app_nil_r; simpl; try done.
    - rewrite length_app; simpl. replace (length p + 1 - 0)%nat with (S (length p)) by lia.
      simpl. rewrite take_app_length. done.
    - rewrite length_app; simpl. replace (length p + 1 - 1)%nat with (length p) by lia.
      by rewrite take_app_length. }
  destruct p as [|d p]; [done|]. rewrite Hns.
  unfold cut. rewrite !take_ge by (destruct l, r; simpl in *; lia). by destruct l, r.
Qed.
(** A pattern with stars means what it shows: a version it applies to is the
    literal piece, with anything before it where a star leads and anything after
    it where a star trails. *)
Theorem pattern_meaning l r p v : literal p ->
  exists n o m,
    host_version_ip_parse_pattern (with_stars l r p) SSH_CHATTER_VERSION_PATTERN_LEN
      SSH_CHATTER_VERSION_PATTERN_LEN = Some (n, o, m) /\
    (version_matches m n (Some v) = true <->
     exists a b, v = a ++ p ++ b /\ (l = false -> a = []) /\ (r = false -> b = [])).
Proof.
  intros Hp. exists p, (with_stars l r p), (star_mode l r).
  split; [by apply parse_pattern_stars|]. destruct Hp as (Hne & _ & _ & _ & Hlen).
  assert (take (Z.to_nat SSH_CHATTER_VERSION_PATTERN_LEN) p = p) as Ht by (apply take_ge; lia).
  assert (0 < length p)%nat as Hpos by (destruct p; simpl; [done|lia]).
  destruct l, r; cbn [star_mode version_matches]; rewrite ?Ht.
  - rewrite (proj2 (bytes_eqb_neq p [])) by done. cbn [negb andb].
    pose proof (strstr_spec v p) as Hs. destruct (strstr v p) eqn:E.
    + split; [|done]. intros _. destruct (proj1 Hs) as (a & b & ->); eauto.
      exists a, b. split_and!; done.
    + split; [done|]. intros (a & b & -> & _).
      destruct (proj2 Hs) as [? Hx]; [eauto|done].
  - rewrite !andb_true_iff, !Nat.ltb_lt, Nat.leb_le, bytes_eqb_eq. split.
    + intros ((_ & Hle) & Hd). exists (take (length v - length p) v), [].
      rewrite app_nil_r. split_and!; [|done..]. rewrite <- (take_drop (length v - length p) v) at 1.
      by rewrite Hd.
    + intros (a & b & -> & _ & Hb). rewrite Hb, app_nil_r by done. rewrite length_app.
      split_and!; [lia..|]. replace (_ - _)%nat with (length a) by lia. by rewrite drop_app_length.
  - rewrite andb_true_iff, Nat.ltb_lt, is_prefix_spec. split.
    + intros (_ & t & ->). exists [], t. by split_and!.
    + intros (a & b & -> & Ha & _). rewrite Ha by done. eauto.
  - rewrite bytes_eqb_eq. split.
    + intros ->. exists [], []. by rewrite app_nil_r.
    + intros (a & b & -> & Ha & Hb). rewrite Ha, Hb by done. by rewrite app_nil_r.
Qed.

(** ** The rule table *)

Definition rule_ok (r : version_ip_ban_rule) : Prop :=
  r_in_use r = true /\ Z.of_nat (length (r_normalized_pattern r)) < SSH_CHATTER_VERSION_PATTERN_LEN.

(** What the code relies on between calls: the rules fit the array, the array
    its maximum, and an array that was never allocated holds nothing. *)
Definition table_wf (t : rule_table) : Prop :=
  Forall rule_ok (t_rules t) /\ rule_count t <= t_capacity t /\
  0 <= t_capacity t <= SSH_CHATTER_MAX_VERSION_IP_BANS /\
  (t_allocated t = false -> t_rules t = []).

(** A rule of the table applies to the client. *)
Definition banned (t : rule_table) (v : option bytes) (ip : bytes) : Prop :=
  is_Some (host_version_ip_should_ban t v ip).

Lemma banned_iff t v ip : Forall rule_ok (t_rules t) ->
  banned t v ip <-> Exists (fun r => host_version_ip_rule_matches r v ip = true) (t_rules t).
Proof.
  intros Hok. unfold banned, host_version_ip_should_ban.
  destruct (bytes_eqb ip []) eqn:E.
  - split; [by intros [? ?]|]. intros (r & _ & Hr)%Exists_exists. revert Hr.
    unfold host_version_ip_rule_matches. by rewrite E, orb_true_r.
  - split.
    + destruct (list_find _ _) as [[i r]|] eqn:F; [|by intros [? ?]].
      apply list_find_Some in F as (Hi & Hr & _).
      intros _. apply Exists_exists. exists r. split; [by eapply list_elem_of_lookup_2|].
      by apply andb_true_iff in Hr as [_ ->].
    + intros (r & Hin & Hr)%Exists_exists.
      destruct (list_find_elem_of
        (fun r => r_in_use r && host_version_ip_rule_matches r v ip = true) (t_rules t) r)
        as [[i r'] ->]; eauto.
      rewrite Hr, andb_true_r. rewrite Forall_forall in Hok. by apply Hok.
Qed.

Lemma grow_capacity_spec fuel cap m :
  0 < cap <= SSH_CHATTER_MAX_VERSION_IP_BANS -> m <= SSH_CHATTER_MAX_VERSION_IP_BANS ->
  SSH_CHATTER_MAX_VERSION_IP_BANS <= cap * 2 ^ Z.of_nat fuel ->
  let c := grow_capacity fuel cap m in
  m <= c /\ cap <= c /\ (SSH_CHATTER_MAX_VERSION_IP_BANS < c -> c < 2 * SSH_CHATTER_MAX_VERSION_IP_BANS).
Proof.
  unfold SSH_CHATTER_MAX_VERSION_IP_BANS.
  revert cap; induction fuel as [|f IH]; intros cap Hc Hm Hf; cbn [grow_capacity].
  - simpl in Hf. lia.
  - rewrite Nat2Z.inj_succ, Z.pow_succ_r in Hf by lia.
    unfold SSH_CHATTER_MAX_VERSION_IP_BANS.
    destruct ((cap <? m) && (cap <? 8192)) eqn:E; bprop; [|lia].
    destruct (Z.leb_spec (cap * 2) 8192); [destruct (IH (cap * 2)) as (? & ? & ?); lia|].
    destruct f; cbn [grow_capacity]; [lia|].
    unfold SSH_CHATTER_MAX_VERSION_IP_BANS.
    assert ((cap * 2 <? m) = false) as -> by lia. cbn [andb]. lia.
Qed.

Lemma reserve_wf t m ok t' : table_wf t -> m <= SSH_CHATTER_MAX_VERSION_IP_BANS ->
  host_version_ip_rules_reserve t m = (ok, t') ->
  table_wf t' /\ t_rules t' = t_rules t /\
  (ok = true -> m <= t_capacity t' /\ t_allocated t' = true).
Proof.
  intros (Hok & Hcnt & Hcap & Hal) Hm. unfold host_version_ip_rules_reserve.
  destruct ((m <=? t_capacity t) && t_allocated t) eqn:E.
  { intros [= <- <-]. bprop. unfold table_wf. split_and!; auto; lia. }
  set (c0 := if 0 <? t_capacity t then t_capacity t else 16).
  assert (0 < c0 <= SSH_CHATTER_MAX_VERSION_IP_BANS /\ t_capacity t <= c0) as [Hc0 Hc1]
    by (unfold c0, SSH_CHATTER_MAX_VERSION_IP_BANS in *; case_match; bprop; lia).
  destruct (grow_capacity_spec 14 c0 m Hc0 Hm) as (H1 & H2 & _);
    [unfold SSH_CHATTER_MAX_VERSION_IP_BANS; lia|].
  set (c := if SSH_CHATTER_MAX_VERSION_IP_BANS <? _ then _ else _).
  assert (m <= c /\ c0 <= c /\ c <= SSH_CHATTER_MAX_VERSION_IP_BANS) as (H3 & H4 & H5)
    by (unfold c; case_match; bprop; lia).
  clearbody c. destruct (c <? m) eqn:Ecm; bprop; [lia|].
  destruct (array_alloc_ok c); cbn [negb]; intros [= <- <-]; unfold table_wf;
    split_and!; simpl; auto; unfold rule_count in *; simpl; lia || done.
Qed.

Lemma cut_length n s : 0 < n -> Z.of_nat (length (cut n s)) < n.
Proof. intros. unfold cut. rewrite length_take. lia. Qed.

Lemma parse_pattern_length pattern n o m :
  host_version_ip_parse_pattern pattern SSH_CHATTER_VERSION_PATTERN_LEN
    SSH_CHATTER_VERSION_PATTERN_LEN = Some (n, o, m) ->
  Z.of_nat (length n) < SSH_CHATTER_VERSION_PATTERN_LEN.
Proof.
  pose proof (fun s => cut_length SSH_CHATTER_VERSION_PATTERN_LEN s ltac:(done)) as Hcut.
  unfold host_version_ip_parse_pattern.
  destruct (_ <=? _); [done|]. destruct (host_trim_whitespace pattern) as [|f t]; [done|].
  destruct (_ && _ && _); [by intros [= <- _ _]|].
  match goal with |- match ?b with _ => _ end = _ -> _ => destruct b end;
    [by intros [= <- _ _]|].
  destruct (existsb _ _); [done|]. destruct (_ =? 0); [done|]. intros [= <- _ _]. apply Hcut.
Qed.

Lemma make_rule_ok pattern cidr note r : make_rule pattern cidr note = Some r -> rule_ok r.
Proof.
  unfold make_rule. destruct (host_version_ip_parse_pattern _ _ _) as [[[n o] m]|] eqn:E; [|done].
  assert (Z.of_nat (length n) < SSH_CHATTER_VERSION_PATTERN_LEN).
  { by eapply parse_pattern_length. }
  repeat case_match; try done; intros [= <-]; by split.
Qed.

Lemma strn_eq_all m a b : Z.of_nat (length a) < m -> Z.of_nat (length b) < m ->
  strn_eq (Z.to_nat m) a b = true -> a = b.
Proof. intros. unfold strn_eq in *. rewrite bytes_eqb_eq, !take_ge in * by lia. done. Qed.

Lemma same_rule_matches r e v ip : rule_ok r -> rule_ok e -> same_rule r e = true ->
  host_version_ip_rule_matches r v ip = host_version_ip_rule_matches e v ip.
Proof.
  intros [Hr Hlr] [He Hle] Hs. unfold same_rule in Hs. rewrite !andb_true_iff in Hs.
  destruct Hs as ((((_ & Hm%bool_decide_eq_true) & Hn) & H6%eqb_prop) & Hnet).
  apply strn_eq_all in Hn; [|done..].
  unfold host_version_ip_rule_matches. rewrite Hr, He, Hm, Hn, H6.
  destruct (r_is_ipv6 r); cbn [negb] in Hnet |- *; bprop; destruct Hnet as [Ha Hb].
  all: by rewrite Ha, Hb.
Qed.

Lemma with_note_matches n r v ip :
  host_version_ip_rule_matches (with_note n r) v ip = host_version_ip_rule_matches r v ip.
Proof. done. Qed.

(** The clients a rule would add. *)
Definition new_bans (pattern cidr : bytes) (note v : option bytes) (ip : bytes) : Prop :=
  exists r, make_rule pattern cidr note = Some r /\ host_version_ip_rule_matches r v ip = true.

Lemma banned_same t t0 v ip : table_wf t -> table_wf t0 -> t_rules t0 = t_rules t ->
  banned t0 v ip <-> banned t v ip.
Proof. intros H1 H2 Heq. rewrite !banned_iff, Heq; [done|apply H1|apply H2]. Qed.

Lemma note_update t i e n v ip : table_wf t -> t_rules t !! i = Some e ->
  let t' := {| t_rules := <[i:=with_note n e]> (t_rules t); t_capacity := t_capacity t;
               t_allocated := t_allocated t |} in
  table_wf t' /\ (banned t' v ip <-> banned t v ip).
Proof.
  intros (Hok & Hcnt & Hc & Hal) Hi t'. eapply Forall_lookup_1 in Hok as He; [|exact Hi].
  assert (Forall rule_ok (t_rules t')) as Hok' by (apply Forall_insert; [done|]; by destruct He).
  split.
  - unfold table_wf, rule_count in *; simpl. rewrite length_insert. split_and!; try done; [lia..|].
    intros Hf. by rewrite Hal in Hi by done.
  - rewrite !banned_iff by done. simpl. by apply (Exists_insert_iff _ _ _ e).
Qed.

Lemma append_rule t r v ip : table_wf t -> rule_ok r -> rule_count t + 1 <= t_capacity t ->
  t_allocated t = true ->
  let t' := {| t_rules := t_rules t ++ [r]; t_capacity := t_capacity t;
               t_allocated := t_allocated t |} in
  table_wf t' /\
  (banned t' v ip <-> banned t v ip \/ host_version_ip_rule_matches r v ip = true).
Proof.
  intros (Hok & Hcnt & Hc & Hal) Hr Hcap Hal' t'.
  assert (Forall rule_ok (t_rules t')) as Hok' by (apply Forall_app; split; [done|by apply Forall_singleton]).
  split.
  - unfold table_wf, rule_count in *; simpl. rewrite length_app; simpl.
    split_and!; try done; [lia..|congruence].
  - rewrite !banned_iff by done. simpl. rewrite Exists_app, Exists_cons, Exists_nil. tauto.
Qed.

Lemma rule_add_spec t pattern cidr note v ip : table_wf t ->
  let (ok, t') := host_version_ip_rule_add t pattern cidr note in
  table_wf t' /\
  (banned t' v ip <-> banned t v ip \/ (ok = true /\ new_bans pattern cidr note v ip)).
Proof.
  intros Hwf. unfold host_version_ip_rule_add.
  assert (forall t0, table_wf t0 -> t_rules t0 = t_rules t -> table_wf t0 /\
    (banned t0 v ip <-> banned t v ip \/ (false = true /\ new_bans pattern cidr note v ip)))
    as Hfail.
  { intros t0 Hw Hr. split; [done|]. rewrite (banned_same t) by done. intuition discriminate. }
  destruct (Z.leb_spec SSH_CHATTER_MAX_VERSION_IP_BANS (rule_count t)) as [|Hc]; [by apply Hfail|].
  destruct (host_version_ip_rules_reserve t (rule_count t + 1)) as [ok t1] eqn:E.
  apply reserve_wf in E as (Hwf1 & Hr & Hcap); [|done|lia].
  destruct ok; cbn [negb]; [|by apply Hfail]. destruct (Hcap eq_refl) as [Hcap1 Hal].
  destruct (make_rule pattern cidr note) as [rule|] eqn:Emk; [|by apply Hfail].
  apply make_rule_ok in Emk as Hrule.
  assert (new_bans pattern cidr note v ip <-> host_version_ip_rule_matches rule v ip = true) as Hnew
    by (unfold new_bans; rewrite Emk; split; [by intros (? & [= <-] & ?)|eauto]).
  pose proof (banned_same t t1 v ip Hwf Hwf1 Hr) as Hsame. destruct (list_find _ _) as [[i e]|] eqn:F.
  - apply list_find_Some in F as (Hi & Hs & _).
    eapply Forall_lookup_1 in Hi as He; [|apply Hwf1].
    assert (new_bans pattern cidr note v ip -> banned t1 v ip) as Hsub.
    { rewrite Hnew, (same_rule_matches rule e) by done. intros Hm. apply banned_iff; [apply Hwf1|].
      apply Exists_exists. exists e. split; [by eapply list_elem_of_lookup_2|done]. }
    destruct (note_text note) as [n|]; [|split; [done|tauto]].
    destruct (note_update t1 i e n v ip) as [? Hu]; [done..|]. split; [done|tauto].
  - destruct (negb (strdup_ok _) || _).
    + by apply Hfail.
    + destruct (append_rule t1 rule v ip) as [? Hu]; try done.
      { unfold rule_count in *. rewrite Hr. lia. }
      split; [done|tauto].
Qed.

(** C24: [host_version_ip_rule_add] keeps the table well formed and changes who is
    banned exactly as its result says: on success the clients of the new rule
    and no others join, on failure nobody does.  This covers the rule that was
    already there, whose entry only gets the new note. *)
Theorem rule_add_effect t pattern cidr note : table_wf t ->
  let (ok, t') := host_version_ip_rule_add t pattern cidr note in
  table_wf t' /\
  forall v ip, banned t' v ip <->
    banned t v ip \/ (ok = true /\ new_bans pattern cidr note v ip).
Proof.
  intros Hwf. pose proof (fun v ip => rule_add_spec t pattern cidr note v ip Hwf) as Hs.
  destruct (host_version_ip_rule_add t pattern cidr note) as [ok t'].
  split; [apply (Hs None [])|apply Hs].
Qed.

(** ** Loading *)

Lemma rule_add_ok t pattern cidr note :
  (forall n, array_alloc_ok n = true) -> (forall s, strdup_ok s = true) ->
  table_wf t -> rule_count t < SSH_CHATTER_MAX_VERSION_IP_BANS ->
  let (ok, t') := host_version_ip_rule_add t pattern cidr note in
  rule_count t' <= rule_count t + 1 /\
  (is_Some (make_rule pattern cidr note) -> ok = true).
Proof.
  intros Ha Hd Hwf Hc. unfold host_version_ip_rule_add. apply Z.leb_gt in Hc as Hc'. rewrite Hc'.
  destruct (host_version_ip_rules_reserve t (rule_count t + 1)) as [ok t1] eqn:E.
  assert (ok = true) as ->.
  { pose proof Hwf as (_ & _ & Hcap & _). revert E. unfold host_version_ip_rules_reserve.
    rewrite Ha. destruct (_ && _); [by intros [= <- _]|].
    set (c0 := if 0 <? t_capacity t then t_capacity t else 16).
    destruct (grow_capacity_spec 14 c0 (rule_count t + 1)) as (H1 & _);
      [unfold c0, SSH_CHATTER_MAX_VERSION_IP_BANS in *; case_match; bprop; lia| lia |
       unfold c0, SSH_CHATTER_MAX_VERSION_IP_BANS in *; case_match; bprop; lia|].
    destruct (SSH_CHATTER_MAX_VERSION_IP_BANS <? _);
      match goal with |- context [?c <? rule_count t + 1] =>
        destruct (Z.ltb_spec c (rule_count t + 1)) end;
      [lia|by intros [= <- _]|lia|by intros [= <- _]]. }
  apply reserve_wf in E as (_ & Hr & _); [|done|lia]. cbn [negb].
  assert (rule_count t1 = rule_count t) as Hn by (unfold rule_count; by rewrite Hr).
  destruct (make_rule pattern cidr note); [|split; [lia|by intros [? [=]]]].
  destruct (list_find _ _) as [[i e]|].
  - split; [|done]. destruct (note_text note); [|lia].
    unfold rule_count in *. simpl. rewrite length_insert. lia.
  - rewrite !Hd. cbn [negb orb]. split; [|done]. unfold rule_count in *. simpl.
    rewrite length_app. simpl. lia.
Qed.

Definition add_entry (t : rule_table) '(pattern, cidr, note) : rule_table :=
  snd (host_version_ip_rule_add t pattern cidr (Some note)).

Definition entry_bans '(pattern, cidr, note) (v : option bytes) (ip : bytes) : Prop :=
  new_bans pattern cidr (Some note) v ip.

Lemma add_entries_bans entries t v ip :
  (forall n, array_alloc_ok n = true) -> (forall s, strdup_ok s = true) ->
  table_wf t -> rule_count t + Z.of_nat (length entries) <= SSH_CHATTER_MAX_VERSION_IP_BANS ->
  banned (fold_left add_entry entries t) v ip <->
  banned t v ip \/ Exists (fun e => entry_bans e v ip) entries.
Proof.
  intros Ha Hd. revert t; induction entries as [|[[p c] n] entries IH]; intros t Hwf Hc.
  { simpl. rewrite Exists_nil. tauto. }
  cbn [fold_left add_entry length] in *.
  pose proof (rule_add_spec t p c (Some n) v ip Hwf) as Hs.
  pose proof (rule_add_ok t p c (Some n) Ha Hd Hwf ltac:(lia)) as Hok.
  destruct (host_version_ip_rule_add t p c (Some n)) as [ok t']. simpl.
  destruct Hs as [Hwf' Hb], Hok as [Hc' Hok]. rewrite IH by (done || lia).
  rewrite Hb, Exists_cons. cbn [entry_bans]. split; [tauto|].
  intros [|[Hn|]]; [tauto| |tauto]. left; right. split; [|done].
  apply Hok. destruct Hn as (r & -> & _). eauto.
Qed.

(** The entry a token of the environment variable stands for: the text before
    the [#] holds the pattern and, after the [@], the network; the note is what
    follows the [#]. *)
Definition env_entry (token : bytes) : option (bytes * bytes * bytes) :=
  let trimmed := host_trim_whitespace token in
  let head := take_while (fun c => negb (c =? c_hash)) trimmed in
  let pattern := host_trim_whitespace (take_while (fun c => negb (c =? c_at)) head) in
  match strchr head c_at with
  | None => None
  | Some sep =>
      let cidr := host_trim_whitespace (drop 1 sep) in
      if bytes_eqb pattern [] || bytes_eqb cidr [] then None
      else Some (pattern, cidr,
                 match strchr trimmed c_hash with
                 | Some h => match host_trim_whitespace (drop 1 h) with
                             | [] => lit "custom rule"
                             | note => note
                             end
                 | None => lit "custom rule"
                 end)
  end.

Definition env_entries (env : option bytes) : list (bytes * bytes * bytes) :=
  match env with
  | None => []
  | Some e => omap env_entry (strtok_all rule_separator e)
  end.

Lemma load_env_token_eq t token :
  load_env_token t token = match env_entry token with Some e => add_entry t e | None => t end.
Proof.
  unfold load_env_token, env_entry. destruct (bytes_eqb (host_trim_whitespace token) []) eqn:E;
    [apply bool_decide_eq_true in E; by rewrite E|clear E].
  destruct (strchr (take_while _ _) c_at) as [sep|]; [|done].
  destruct (_ || _); [done|]. cbn [add_entry].
  destruct (strchr (host_trim_whitespace token) c_hash) as [h|]; [|done].
  by destruct (host_trim_whitespace (drop 1 h)).
Qed.

Lemma load_tokens_eq tokens t :
  fold_left load_env_token tokens t = fold_left add_entry (omap env_entry tokens) t.
Proof.
  revert t; induction tokens as [|token tokens IH]; intros t; [done|].
  cbn [fold_left omap list_omap]. rewrite load_env_token_eq, IH.
  by destruct (env_entry token).
Qed.

Lemma load_env_eq t env : (forall s, strdup_ok s = true) ->
  host_version_ip_rules_load_env t env = fold_left add_entry (env_entries env) t.
Proof.
  intros Hd. destruct env as [[|c e]|]; [done| |done].
  unfold host_version_ip_rules_load_env, env_entries. rewrite Hd. apply load_tokens_eq.
Qed.

(** When memory does not run out, the table that [host_version_ip_rules_init]
    builds bans a client exactly when one of the built-in seeds or one of the
    entries of the environment variable does: no rule is lost to the growth of
    the table, to a malformed entry or to another rule. *)
Theorem init_bans_seeds env v ip :
  (forall n, array_alloc_ok n = true) -> (forall s, strdup_ok s = true) ->
  Z.of_nat (length (kVersionIpBanSeeds ++ env_entries env)) <= SSH_CHATTER_MAX_VERSION_IP_BANS ->
  let t := {| t_rules := []; t_capacity := 0; t_allocated := false |} in
  banned (host_version_ip_rules_init t env) v ip <->
  Exists (fun e => entry_bans e v ip) (kVersionIpBanSeeds ++ env_entries env).
Proof.
  intros Ha Hd Hn t. unfold host_version_ip_rules_init, host_version_ip_rules_prepare, t.
  cbn -[kVersionIpBanSeeds host_version_ip_rule_add host_version_ip_rules_load_env]. rewrite Ha.
  cbn -[kVersionIpBanSeeds host_version_ip_rule_add host_version_ip_rules_load_env].
  rewrite load_env_eq by done.
  match goal with |- banned (fold_left _ _ (fold_left _ _ ?t0)) _ _ <-> _ => set (t1 := t0) end.
  change (banned (fold_left add_entry (env_entries env) (fold_left add_entry kVersionIpBanSeeds t1))
    v ip <-> Exists (fun e => entry_bans e v ip) (kVersionIpBanSeeds ++ env_entries env)).
  rewrite <- fold_left_app, add_entries_bans; [|done|done| |].
  - rewrite (banned_iff t1) by constructor.
    split; [by intros [?%Exists_nil|]|by right].
  - unfold table_wf, rule_count; simpl. split_and!; (done || constructor || lia).
  - exact Hn.
Qed.
End Rules.
End Rules.

(** ** Samples: the interfaces at work on concrete addresses *)

Module Samples.
Import Rules.

(** Dotted quads, and two IPv6 addresses. *)
Definition quad (s : bytes) : option Z :=
  match map strtol (strtok_all (fun c => c =? c_dot) s) with
  | [Some (a, []); Some (b, []); Some (c, []); Some (d, [])] =>
      if forallb (fun x => (0 <=? x) && (x <=? 255)) [a; b; c; d]
      then Some (((a * 256 + b) * 256 + c) * 256 + d) else None
  | _ => None
  end.

Definition six (s : bytes) : option (list Z) :=
  if bytes_eqb s (lit "2001:db8::") then Some ([32; 1; 13; 184] ++ replicate 12 0)
  else if bytes_eqb s (lit "2001:db8::7") then Some ([32; 1; 13; 184] ++ replicate 11 0 ++ [7])
  else None.

#[local] Instance pton : InetPton := {| inet_pton4 := quad; inet_pton6 := six |}.

#[local] Instance pton_ok : InetPtonOk.
Proof.
  split; simpl.
  - intros s a. unfold quad. repeat case_match; try done. intros [= <-].
    match goal with H : forallb _ _ = true |- _ => cbn [forallb] in H; bprop end. lia.
  - intros s a. unfold six. repeat case_match; try done; intros [= <-]; split;
      [done|repeat constructor; unfold byte_ok; lia..].
Qed.

#[local] Instance alloc : Allocator :=
  {| array_alloc_ok := fun _ => true; strdup_ok := fun _ => true |}.

Lemma cidr4_contains_witness :
  host_cidr_contains_ip (lit "34.80.0.0/12") (lit "34.95.1.2") = true /\
  host_cidr_contains_ip (lit "34.80.0.0" ++ c_slash :: dec 12) (lit "34.95.1.2") =
  (576651522 / 2 ^ (32 - 12) =? 575668224 / 2 ^ (32 - 12)).
Proof.
  split; [vm_compute; reflexivity|].
  apply (cidr4_contains (lit "34.80.0.0") 12 575668224 (lit "34.95.1.2") 576651522);
    try (vm_compute; reflexivity); try lia; [vm_compute; intuition discriminate|discriminate].
Defined.

Lemma cidr6_contains_witness :
  host_cidr_contains_ip (lit "2001:db8::" ++ c_slash :: dec 121) (lit "2001:db8::7") = true.
Proof.
  apply (cidr6_contains (lit "2001:db8::") 121 ([32; 1; 13; 184] ++ replicate 12 0)
    (lit "2001:db8::7") ([32; 1; 13; 184] ++ replicate 11 0 ++ [7]));
    try (vm_compute; reflexivity); try lia; [vm_compute; intuition discriminate|discriminate|].
  intros i a b Ha Hb. do 16 (destruct i as [|i]; [simplify_eq/=; vm_compute; reflexivity|]).
  discriminate Ha.
Defined.

Lemma pattern_meaning_witness : exists n o m,
  host_version_ip_parse_pattern (lit "*libssh*") SSH_CHATTER_VERSION_PATTERN_LEN
    SSH_CHATTER_VERSION_PATTERN_LEN = Some (n, o, m) /\
  (version_matches m n (Some (lit "SSH-2.0-libssh_0.9")) = true <->
   exists a b, lit "SSH-2.0-libssh_0.9" = a ++ lit "libssh" ++ b /\
     (true = false -> a = []) /\ (true = false -> b = [])).
Proof.
  apply (pattern_meaning true true (lit "libssh")).
  split_and!; try (vm_compute; reflexivity); [discriminate|].
  repeat constructor; vm_compute; discriminate.
Defined.

Definition empty_table : rule_table :=
  {| t_rules := []; t_capacity := 0; t_allocated := false |}.

Lemma rule_add_effect_witness :
  let (ok, t') := host_version_ip_rule_add empty_table (lit "SSH-2.0-Go*") (lit "10.0.0.0/8") None in
  table_wf t' /\
  forall v ip, banned t' v ip <->
    banned empty_table v ip \/
    (ok = true /\ new_bans (lit "SSH-2.0-Go*") (lit "10.0.0.0/8") None v ip).
Proof.
  apply (rule_add_effect empty_table). split_and!; try done; vm_compute; discriminate.
Defined.

(** An environment of two rules, one of them malformed. *)
Definition sample_env : option bytes := Some (lit " SSH-2.0-Foo* @ 10.0.0.0/8 # lab;bogus").

Lemma init_bans_seeds_witness :
  env_entries sample_env = [(lit "SSH-2.0-Foo*", lit "10.0.0.0/8", lit "lab")] /\
  (banned (host_version_ip_rules_init empty_table sample_env) (Some (lit "SSH-2.0-Foo_1"))
     (lit "10.9.9.9") <->
   Exists (fun seed => entry_bans seed (Some (lit "SSH-2.0-Foo_1")) (lit "10.9.9.9"))
     (kVersionIpBanSeeds ++ env_entries sample_env)).
Proof.
  split; [vm_compute; reflexivity|].
  apply init_bans_seeds; [reflexivity|reflexivity|vm_compute; discriminate].
Defined.
End Samples.
