(* ===== verification/HostGuard.v ===== *)
(** The guards of the host against floods: the clock arithmetic of
    [src/host/transport/keys.c], the connection guard of
    [src/host/transport/connection_guard.c], the join activity, join delay and
    suspicion counters of [src/host/runtime/user_commands.c], the ASCII art
    cooldown of [src/host/commands/art.c] and the operator grants of
    [src/host/transport/session_setup.c].

    A table is the list of its entries with the capacity of its array.  Every
    operation takes the reading of the clock it uses; the lock around each
    operation makes it one step.  Times are far from the limits of [time_t]. *)

From Stdlib Require Import ZArith Lia String Ascii Sorted.
From stdpp Require Import prelude.
From S2P Require Import Prelude IpRules.

Definition SSH_CHATTER_USERNAME_LEN : nat := 256.
Definition SSH_CHATTER_MAX_GRANTS : Z := 128.
Definition SSH_CHATTER_JOIN_RAPID_WINDOW_NS : Z := 60000000000.
Definition SSH_CHATTER_JOIN_KICK_WINDOW_NS : Z := 60000000000.
Definition SSH_CHATTER_JOIN_KICK_THRESHOLD : Z := 20.
Definition SSH_CHATTER_JOIN_ACTIVITY_RETENTION_NS : Z := 300 * 1000000000.
Definition SSH_CHATTER_JOIN_BAR_MAX : Z := 17.
Definition SSH_CHATTER_ASCIIART_COOLDOWN_SECONDS : Z := 600.
Definition SSH_CHATTER_CONNECTION_GUARD_WINDOW_NS : Z := 5000000000.
Definition SSH_CHATTER_CONNECTION_GUARD_THRESHOLD : Z := 8.
Definition SSH_CHATTER_CONNECTION_GUARD_BLOCK_BASE_NS : Z := 2000000000.
Definition SSH_CHATTER_CONNECTION_GUARD_BLOCK_STEP_NS : Z := 2000000000.
Definition SSH_CHATTER_CONNECTION_GUARD_BLOCK_MAX_NS : Z := 60000000000.
Definition SSH_CHATTER_CONNECTION_GUARD_RETENTION_NS : Z := 300000000000.
Definition SSH_CHATTER_CONNECTION_GUARD_BAN_THRESHOLD : Z := 5.
Definition SSH_CHATTER_SUSPICIOUS_EVENT_WINDOW_NS : Z := 300000000000.
Definition SSH_CHATTER_SUSPICIOUS_EVENT_THRESHOLD : Z := 2.

(** ** Clock arithmetic *)

Module Time.

Record timespec := { tv_sec : Z; tv_nsec : Z }.

#[export] Instance timespec_eq_dec : EqDecision timespec.
Proof. solve_decision. Defined.

Definition zero : timespec := {| tv_sec := 0; tv_nsec := 0 |}.

(** [tv_sec != 0 || tv_nsec != 0]. *)
Definition is_set (t : timespec) : bool := negb (tv_sec t =? 0) || negb (tv_nsec t =? 0).

Definition timespec_diff (finish start : timespec) : timespec :=
  let sec := tv_sec finish - tv_sec start in
  let nsec := tv_nsec finish - tv_nsec start in
  let '(sec, nsec) := if nsec <? 0 then (sec - 1, nsec + 1000000000) else (sec, nsec) in
  let '(sec, nsec) := if sec <? 0 then (0, 0) else (sec, nsec) in
  {| tv_sec := sec; tv_nsec := nsec |}.

Definition timespec_to_ns (t : timespec) : Z := tv_sec t * 1000000000 + tv_nsec t.

Definition carry (t : timespec) : timespec :=
  if 1000000000 <=? tv_nsec t
  then {| tv_sec := tv_sec t + tv_nsec t ÷ 1000000000; tv_nsec := Z.rem (tv_nsec t) 1000000000 |}
  else t.

Definition timespec_add_ns (start : timespec) (nanoseconds : Z) : timespec :=
  if nanoseconds <? 0 then start
  else carry {| tv_sec := tv_sec start + nanoseconds ÷ 1000000000;
                tv_nsec := tv_nsec start + Z.rem nanoseconds 1000000000 |}.

Definition timespec_add_ms (start : timespec) (milliseconds : Z) : timespec :=
  carry {| tv_sec := tv_sec start + milliseconds ÷ 1000;
           tv_nsec := tv_nsec start + Z.rem milliseconds 1000 * 1000000 |}.

Definition timespec_compare (lhs rhs : timespec) : Z :=
  if tv_sec lhs <? tv_sec rhs then -1
  else if tv_sec rhs <? tv_sec lhs then 1
  else if tv_nsec lhs <? tv_nsec rhs then -1
  else if tv_nsec rhs <? tv_nsec lhs then 1
  else 0.

(** A reading of the clock: nanoseconds in range, and not the zero that marks
    an unset field. *)
Definition normal (t : timespec) : Prop := 0 <= tv_nsec t < 1000000000.
Definition reading (t : timespec) : Prop := normal t /\ 0 <= tv_sec t /\ is_set t = true.

Lemma diff_ns a b : normal a -> normal b ->
  timespec_to_ns (timespec_diff a b) = Z.max 0 (timespec_to_ns a - timespec_to_ns b).
Proof.
  unfold normal, timespec_to_ns, timespec_diff. intros.
  repeat (case_match; simplify_eq); bprop; simpl; lia.
Qed.

Lemma diff_normal a b : normal a -> normal b -> normal (timespec_diff a b).
Proof.
  unfold normal, timespec_diff. intros.
  repeat (case_match; simplify_eq); bprop; simpl; lia.
Qed.

Lemma carry_ns t : 0 <= tv_nsec t -> timespec_to_ns (carry t) = timespec_to_ns t /\ normal (carry t).
Proof.
  unfold normal, timespec_to_ns, carry. intros. case_match; bprop; simpl; [|lia].
  rewrite Z.quot_div_nonneg, Z.rem_mod_nonneg by lia.
  pose proof (Z.div_mod (tv_nsec t) 1000000000). pose proof (Z.mod_pos_bound (tv_nsec t) 1000000000).
  lia.
Qed.

Lemma add_ns_spec t n : normal t -> 0 <= n ->
  timespec_to_ns (timespec_add_ns t n) = timespec_to_ns t + n /\ normal (timespec_add_ns t n).
Proof.
  unfold timespec_add_ns. intros Ht Hn. destruct (Z.ltb_spec n 0); [lia|].
  rewrite Z.quot_div_nonneg, Z.rem_mod_nonneg by lia.
  pose proof (Z.div_mod n 1000000000). pose proof (Z.mod_pos_bound n 1000000000).
  unfold normal in *. edestruct carry_ns as [-> ?]; [|split; [|done]];
    unfold timespec_to_ns; simpl; lia.
Qed.

Lemma add_ms_spec t n : normal t -> 0 <= n ->
  timespec_to_ns (timespec_add_ms t n) = timespec_to_ns t + n * 1000000 /\
  normal (timespec_add_ms t n).
Proof.
  unfold timespec_add_ms. intros Ht Hn.
  rewrite Z.quot_div_nonneg, Z.rem_mod_nonneg by lia.
  pose proof (Z.div_mod n 1000). pose proof (Z.mod_pos_bound n 1000).
  unfold normal in *. edestruct carry_ns as [-> ?]; [|split; [|done]];
    unfold timespec_to_ns; simpl; lia.
Qed.

(** The comparison of two times is that of their nanoseconds. *)
Lemma compare_gt a b : normal a -> normal b ->
  (0 <? timespec_compare a b) = (timespec_to_ns b <? timespec_to_ns a).
Proof.
  unfold normal, timespec_to_ns, timespec_compare. intros.
  apply eq_true_iff_eq. rewrite Z.ltb_lt. repeat case_match; bprop; lia.
Qed.

Lemma compare_lt a b : normal a -> normal b ->
  (timespec_compare a b <? 0) = (timespec_to_ns a <? timespec_to_ns b).
Proof.
  unfold normal, timespec_to_ns, timespec_compare. intros.
  apply eq_true_iff_eq. rewrite Z.ltb_lt. repeat case_match; bprop; lia.
Qed.

Lemma is_set_ns t : normal t -> 0 <= tv_sec t -> is_set t = (0 <? timespec_to_ns t).
Proof.
  unfold normal, is_set, timespec_to_ns. intros. apply eq_true_iff_eq.
  rewrite orb_true_iff, !negb_true_iff, !Z.eqb_neq, Z.ltb_lt. lia.
Qed.

End Time.
Import Time.

(** ** Tables of entries keyed by an address *)

(** What the connection guard and the join activity share: an entry carries its
    address, and a fresh entry is zero but for it. *)
Class Keyed (E : Type) := {
  key : E -> bytes;
  fresh : bytes -> E;
  key_fresh ip : key (fresh ip) = ip
}.

Record ip_table (E : Type) := { it_entries : list E; it_capacity : Z }.
Arguments it_entries {E}.
Arguments it_capacity {E}.

Definition it_count {E} (t : ip_table E) : Z := Z.of_nat (length (it_entries t)).

Module Table.
Section Table.
Context {E : Type} `{Keyed E} `{Allocator}.

Definition same_ip (stored ip : bytes) : bool := strn_eq SSH_CHATTER_IP_LEN stored ip.

(** The index of the first entry of an address. *)
Fixpoint find_ip (l : list E) (ip : bytes) : option nat :=
  match l with
  | [] => None
  | e :: l => if same_ip (key e) ip then Some O else S <$> find_ip l ip
  end.

(** The entry of an address, appended (in an array that doubles from [base])
    where there is none; [None] when the array cannot grow. *)
Definition ensure_ip (base : Z) (t : ip_table E) (ip : bytes) : option nat * ip_table E :=
  if bytes_eqb ip [] then (None, t)
  else match find_ip (it_entries t) ip with
  | Some i => (Some i, t)
  | None =>
      let append t :=
        (Some (length (it_entries t)),
         {| it_entries := it_entries t ++ [fresh (take (SSH_CHATTER_IP_LEN - 1) ip)];
            it_capacity := it_capacity t |}) in
      if it_capacity t <=? it_count t then
        let new_capacity := if 0 <? it_capacity t then it_capacity t * 2 else base in
        if negb (array_alloc_ok new_capacity) then (None, t)
        else append {| it_entries := it_entries t; it_capacity := new_capacity |}
      else append t
  end.

Definition update_at (t : ip_table E) (i : nat) (e : E) : ip_table E :=
  {| it_entries := <[i := e]> (it_entries t); it_capacity := it_capacity t |}.

(** ** Lemmas: the table as a map from addresses *)

Definition entry_of (l : list E) (ip : bytes) : option E :=
  match find_ip l ip with Some i => l !! i | None => None end.

(** Every stored address fits its buffer, and no two entries share one. *)
Definition keys_ok (l : list E) : Prop :=
  NoDup (map key l) /\ Forall (fun e => (length (key e) < SSH_CHATTER_IP_LEN)%nat) l.

Definition table_ok (t : ip_table E) : Prop :=
  keys_ok (it_entries t) /\ it_count t <= it_capacity t.

(** An address a client can have: it is not empty and fits its buffer. *)
Definition ip_ok (ip : bytes) : Prop := ip <> [] /\ (length ip < SSH_CHATTER_IP_LEN)%nat.

Lemma same_ip_eq a b : (length a < SSH_CHATTER_IP_LEN)%nat -> (length b < SSH_CHATTER_IP_LEN)%nat ->
  same_ip a b = true <-> a = b.
Proof.
  intros. unfold same_ip, strn_eq. rewrite !take_ge by lia. apply bytes_eqb_eq.
Qed.

Lemma find_ip_lookup l ip i : keys_ok l -> ip_ok ip ->
  find_ip l ip = Some i <-> exists e, l !! i = Some e /\ key e = ip.
Proof.
  intros [Hnd Hlen] [_ Hip]. revert i; induction l as [|e l IH]; intros i; simpl.
  { split; [done|]. by intros (? & [=] & _). }
  inversion Hnd as [|? ? Hni Hnd']; inversion Hlen as [|? ? He Hlen']; simplify_eq.
  destruct (same_ip (key e) ip) eqn:Es.
  - apply same_ip_eq in Es; [|done..]. split; [intros [= <-]; by exists e|].
    intros (e' & Hi & He'). destruct i as [|i]; [done|]. exfalso. apply Hni.
    simpl in Hi. rewrite Es, <- He'. apply list_elem_of_fmap. exists e'.
    split; [done|by eapply list_elem_of_lookup_2].
  - assert (key e <> ip) as Hne by (intros Heq; apply same_ip_eq in Heq; [congruence|done..]).
    rewrite fmap_Some. split.
    + intros (j & Hj & ->). by apply (IH Hnd' Hlen') in Hj.
    + intros (e' & Hi & He'). destruct i as [|i]; simplify_eq/=. exists i. split; [|done].
      apply (IH Hnd' Hlen'). eauto.
Qed.

Lemma entry_of_spec l ip e : keys_ok l -> ip_ok ip ->
  entry_of l ip = Some e <-> e ∈ l /\ key e = ip.
Proof.
  intros Hl Hip. unfold entry_of. destruct (find_ip l ip) as [i|] eqn:F.
  - apply find_ip_lookup in F as (e' & Hi & Hk); [|done..]. rewrite Hi. split.
    + intros [= <-]. split; [by eapply list_elem_of_lookup_2|done].
    + intros [Hin Hke]. apply list_elem_of_lookup in Hin as [j Hj].
      destruct (proj2 (find_ip_lookup l ip j Hl Hip)) ; [eauto|].
      assert (find_ip l ip = Some i) by (apply find_ip_lookup; eauto).
      assert (find_ip l ip = Some j) by (apply find_ip_lookup; eauto). congruence.
  - split; [done|]. intros [Hin Hke]. apply list_elem_of_lookup in Hin as [j Hj].
    assert (find_ip l ip = Some j) by (apply find_ip_lookup; eauto). congruence.
Qed.

Lemma entry_of_None l ip : keys_ok l -> ip_ok ip ->
  entry_of l ip = None <-> forall e, e ∈ l -> key e <> ip.
Proof.
  intros Hl Hip. split.
  - intros Hn e Hin Hk. assert (entry_of l ip = Some e) by (by apply entry_of_spec). congruence.
  - intros Hall. destruct (entry_of l ip) as [e|] eqn:He; [|done].
    apply entry_of_spec in He as [Hin Hk]; [|done..]. by destruct (Hall e).
Qed.

(** Two tables with the same entries, in any order, are the same map. *)
Lemma entry_of_perm l l' ip : keys_ok l -> l ≡ₚ l' -> ip_ok ip ->
  keys_ok l' /\ entry_of l' ip = entry_of l ip.
Proof.
  intros Hl Hp Hip. assert (keys_ok l') as Hl'.
  { destruct Hl as [Hnd Hf]. split; [by rewrite <- Hp|by rewrite <- Hp]. }
  split; [done|]. apply option_eq. intros e. rewrite !entry_of_spec by done. by rewrite Hp.
Qed.

(** What a filter that may change entries but not their keys leaves. *)
Lemma entry_of_omap (f : E -> option E) l ip :
  (forall e e', f e = Some e' -> key e' = key e) -> keys_ok l -> ip_ok ip ->
  keys_ok (omap f l) /\ entry_of (omap f l) ip = (entry_of l ip ≫= f).
Proof.
  intros Hf Hl Hip. assert (keys_ok (omap f l)) as Hl'.
  { destruct Hl as [Hnd Hlen]. split.
    - assert (map key (omap f l) `sublist_of` map key l) as Hsub.
      { clear -Hf. induction l as [|e l IH]; simpl; [done|].
        destruct (f e) eqn:He; simpl; [rewrite (Hf _ _ He); by constructor|by constructor]. }
      by eapply sublist_NoDup.
    - apply Forall_forall. intros e' (e & Hin & He)%list_elem_of_omap.
      rewrite (Hf _ _ He). rewrite Forall_forall in Hlen. by apply Hlen. }
  split; [done|]. apply option_eq. intros e'. rewrite entry_of_spec, bind_Some by done. split.
  - intros [(e & Hin & He)%list_elem_of_omap Hk]. exists e. split; [|done].
    apply entry_of_spec; [done..|]. split; [done|]. by rewrite <- (Hf _ _ He).
  - intros (e & He & Hfe). apply entry_of_spec in He as [Hin Hk]; [|done..].
    split; [apply list_elem_of_omap; eauto|]. by rewrite (Hf _ _ Hfe).
Qed.

Lemma keys_ok_insert l i e e' : keys_ok l -> l !! i = Some e -> key e' = key e ->
  keys_ok (<[i := e']> l).
Proof.
  intros [Hnd Hlen] Hi Hk. split.
  - change (NoDup (key <$> <[i:=e']> l)). rewrite list_fmap_insert, Hk.
    rewrite list_insert_id; [done|]. by rewrite list_lookup_fmap, Hi.
  - apply Forall_insert; [done|]. rewrite Hk. by apply (Forall_lookup_1 _ _ _ _ Hlen Hi).
Qed.

Lemma entry_of_insert l i e e' ip : keys_ok l -> l !! i = Some e -> key e' = key e -> ip_ok ip ->
  entry_of (<[i := e']> l) ip = if decide (ip = key e) then Some e' else entry_of l ip.
Proof.
  intros Hl Hi Hk Hip. pose proof (keys_ok_insert _ _ _ _ Hl Hi Hk) as Hl'.
  apply lookup_lt_Some in Hi as Hlt.
  destruct (decide _) as [->|Hne].
  - apply entry_of_spec; [done..|]. split; [|done]. eapply list_elem_of_lookup_2.
    by apply list_lookup_insert_eq.
  - apply option_eq. intros x. rewrite !entry_of_spec by done.
    assert (key x = ip -> x ∈ <[i:=e']> l <-> x ∈ l) as Hx; [|tauto].
    intros Hkx. rewrite !list_elem_of_lookup. apply exist_proper. intros j.
    destruct (decide (i = j)) as [<-|]; [|by rewrite list_lookup_insert_ne].
    rewrite list_lookup_insert_eq, Hi by done. split; intros [= ->]; congruence.
Qed.

(** [ensure_ip] gives the entry of the address, the one it had or a fresh one,
    and changes no other. *)
Lemma ensure_spec base t ip : table_ok t -> ip_ok ip -> 0 < base ->
  match ensure_ip base t ip with
  | (Some i, t') =>
      table_ok t' /\
      it_entries t' !! i = Some (default (fresh ip) (entry_of (it_entries t) ip)) /\
      key (default (fresh ip) (entry_of (it_entries t) ip)) = ip /\
      forall ip', ip_ok ip' -> ip' <> ip ->
        entry_of (it_entries t') ip' = entry_of (it_entries t) ip'
  | (None, t') => t' = t /\ exists n, array_alloc_ok n = false
  end.
Proof.
  intros [Hl Hc] Hip Hbase. unfold ensure_ip.
  rewrite (proj2 (bytes_eqb_neq ip [])) by apply Hip.
  destruct (find_ip (it_entries t) ip) as [i|] eqn:F.
  { unfold entry_of. rewrite F. apply find_ip_lookup in F as (e & Hi & Hk); [|done..].
    rewrite Hi. simpl. split_and!; eauto. by split. }
  assert (entry_of (it_entries t) ip = None) as Hnone by (unfold entry_of; by rewrite F).
  rewrite Hnone. cbn [default]. destruct Hip as [Hne Hlen].
  rewrite (take_ge ip) by (unfold SSH_CHATTER_IP_LEN in *; lia).
  assert (keys_ok (it_entries t ++ [fresh ip])) as Hl'.
  { destruct Hl as [Hnd Hf]. split.
    - rewrite map_app. apply NoDup_app. split_and!; [done| |apply NoDup_singleton].
      intros k Hk Hk1. simpl in Hk1. rewrite key_fresh in Hk1.
      apply list_elem_of_singleton in Hk1 as ->. apply list_elem_of_fmap in Hk as (e & Hke & Hin).
      by apply (proj1 (entry_of_None _ _ (conj Hnd Hf) (conj Hne Hlen)) Hnone e Hin).
    - apply Forall_app. split; [done|]. apply Forall_singleton. by rewrite key_fresh. }
  assert (forall cap, it_count t < cap ->
    let t' := {| it_entries := it_entries t ++ [fresh ip]; it_capacity := cap |} in
    table_ok t' /\ it_entries t' !! length (it_entries t) = Some (fresh ip) /\
    key (fresh ip) = ip /\
    forall ip', ip_ok ip' -> ip' <> ip ->
      entry_of (it_entries t') ip' = entry_of (it_entries t) ip') as Happ.
  { intros cap Hcap. unfold table_ok, it_count in *; simpl. rewrite length_app; simpl.
    split_and!; [done|lia| |apply key_fresh|].
    - rewrite lookup_app_r, Nat.sub_diag by lia. done.
    - intros ip' Hip' Hne'. apply option_eq. intros e. rewrite !entry_of_spec by done.
      rewrite elem_of_app, list_elem_of_singleton.
      split; [|by intros []; auto]. intros [[Hin| ->] <-]; [done|]. by rewrite key_fresh in Hne'. }
  destruct (Z.leb_spec (it_capacity t) (it_count t)).
  - destruct (array_alloc_ok _) eqn:Ea; cbn [negb]; [|eauto].
    apply Happ. simpl. destruct (Z.ltb_spec 0 (it_capacity t)); unfold it_count in *; lia.
  - by apply Happ.
Qed.

End Table.
End Table.
Import Table.

(** ** The connection guard *)

Module Guard.

Record guard_entry := {
  ge_ip : bytes;
  ge_window_start : timespec;
  ge_attempts : Z;
  ge_blocked_until : timespec;
  ge_block_count : Z;
  ge_last_seen : timespec
}.

#[export] Instance guard_keyed : Keyed guard_entry := {|
  key := ge_ip;
  fresh ip := {| ge_ip := ip; ge_window_start := zero; ge_attempts := 0;
                 ge_blocked_until := zero; ge_block_count := 0; ge_last_seen := zero |};
  key_fresh _ := eq_refl
|}.

Record guard_result := {
  g_blocked : bool;
  g_escalate_ban : bool;
  g_blocked_until : timespec;
  g_attempt_count : Z;
  g_block_count : Z
}.

Definition no_result : guard_result :=
  {| g_blocked := false; g_escalate_ban := false; g_blocked_until := zero;
     g_attempt_count := 0; g_block_count := 0 |}.

(** The loop that compacts the entries still worth keeping. *)
Definition keep_guard (now : timespec) (e : guard_entry) : option guard_entry :=
  if bytes_eqb (ge_ip e) [] then None
  else if is_set (ge_last_seen e) &&
          (SSH_CHATTER_CONNECTION_GUARD_RETENTION_NS <?
             timespec_to_ns (timespec_diff now (ge_last_seen e)))
  then None
  else Some e.

Definition host_connection_guard_prune_locked (t : ip_table guard_entry) (now : timespec) :
    ip_table guard_entry :=
  {| it_entries := omap (keep_guard now) (it_entries t); it_capacity := it_capacity t |}.

(** The window of attempts an attempt at [now] belongs to. *)
Definition open_window (e : guard_entry) (now : timespec) : guard_entry :=
  let restart block_count :=
    {| ge_ip := ge_ip e; ge_window_start := now; ge_attempts := 0;
       ge_blocked_until := ge_blocked_until e; ge_block_count := block_count;
       ge_last_seen := ge_last_seen e |} in
  if negb (is_set (ge_window_start e)) then restart (ge_block_count e)
  else
    let window_ns := timespec_to_ns (timespec_diff now (ge_window_start e)) in
    if SSH_CHATTER_CONNECTION_GUARD_WINDOW_NS <? window_ns
    then restart (if SSH_CHATTER_CONNECTION_GUARD_RETENTION_NS <? window_ns
                  then 0 else ge_block_count e)
    else e.

Definition penalty_ns (block_count : Z) : Z :=
  let penalty := SSH_CHATTER_CONNECTION_GUARD_BLOCK_BASE_NS +
    (if 0 <? block_count then block_count - 1 else 0) *
      SSH_CHATTER_CONNECTION_GUARD_BLOCK_STEP_NS in
  if SSH_CHATTER_CONNECTION_GUARD_BLOCK_MAX_NS <? penalty
  then SSH_CHATTER_CONNECTION_GUARD_BLOCK_MAX_NS else penalty.

(** What an attempt at [now] does to the entry of its address. *)
Definition guard_step (e : guard_entry) (now : timespec) : guard_result * guard_entry :=
  if is_set (ge_blocked_until e) && (0 <? timespec_compare (ge_blocked_until e) now) then
    ({| g_blocked := true; g_escalate_ban := false; g_blocked_until := ge_blocked_until e;
        g_attempt_count := ge_attempts e; g_block_count := ge_block_count e |},
     {| ge_ip := ge_ip e; ge_window_start := ge_window_start e; ge_attempts := ge_attempts e;
        ge_blocked_until := ge_blocked_until e; ge_block_count := ge_block_count e;
        ge_last_seen := now |})
  else
    let e := open_window {| ge_ip := ge_ip e; ge_window_start := ge_window_start e;
                            ge_attempts := ge_attempts e; ge_blocked_until := zero;
                            ge_block_count := ge_block_count e; ge_last_seen := now |} now in
    let attempts := if ge_attempts e <? SIZE_MAX then ge_attempts e + 1 else ge_attempts e in
    if SSH_CHATTER_CONNECTION_GUARD_THRESHOLD <=? attempts then
      let block_count := if ge_block_count e <? UINT_MAX
                         then ge_block_count e + 1 else ge_block_count e in
      let blocked_until := timespec_add_ns now (penalty_ns block_count) in
      ({| g_blocked := true;
          g_escalate_ban := SSH_CHATTER_CONNECTION_GUARD_BAN_THRESHOLD <=? block_count;
          g_blocked_until := blocked_until; g_attempt_count := attempts;
          g_block_count := block_count |},
       {| ge_ip := ge_ip e; ge_window_start := now; ge_attempts := 0;
          ge_blocked_until := blocked_until; ge_block_count := block_count;
          ge_last_seen := now |})
    else
      ({| g_blocked := false; g_escalate_ban := false; g_blocked_until := zero;
          g_attempt_count := attempts; g_block_count := ge_block_count e |},
       {| ge_ip := ge_ip e; ge_window_start := ge_window_start e; ge_attempts := attempts;
          ge_blocked_until := ge_blocked_until e; ge_block_count := ge_block_count e;
          ge_last_seen := ge_last_seen e |}).

Section Guard.
Context `{Allocator}.

Definition host_find_connection_guard_locked (t : ip_table guard_entry) (ip : bytes) :
    option nat := find_ip (it_entries t) ip.

Definition host_ensure_connection_guard_locked (t : ip_table guard_entry) (ip : bytes) :
    option nat * ip_table guard_entry := ensure_ip 16 t ip.

Definition host_connection_guard_register (t : ip_table guard_entry) (ip : bytes)
    (now : timespec) : guard_result * ip_table guard_entry :=
  if bytes_eqb ip [] then (no_result, t)
  else
    let t := host_connection_guard_prune_locked t now in
    match host_ensure_connection_guard_locked t ip with
    | (None, t) => (no_result, t)
    | (Some i, t) =>
        match it_entries t !! i with
        | None => (no_result, t)
        | Some e => let (r, e) := guard_step e now in (r, update_at t i e)
        end
    end.

(** ** The table implements one automaton per address *)

Lemma keep_guard_key now e e' : keep_guard now e = Some e' -> key e' = key e.
Proof. unfold keep_guard. repeat case_match; by intros [= ->]. Qed.

Lemma guard_step_key e now : key (snd (guard_step e now)) = key e.
Proof. unfold guard_step, open_window. repeat case_match; done. Qed.

(** What is left at [now] of the state of an address. *)
Definition guard_state (t : ip_table guard_entry) (now : timespec) (ip : bytes) :
    option guard_entry := entry_of (it_entries t) ip ≫= keep_guard now.

Lemma prune_ok t now ip : table_ok t -> ip_ok ip ->
  table_ok (host_connection_guard_prune_locked t now) /\
  entry_of (it_entries (host_connection_guard_prune_locked t now)) ip = guard_state t now ip.
Proof.
  intros [Hl Hc] Hip.
  destruct (entry_of_omap (keep_guard now) (it_entries t) ip (keep_guard_key now) Hl Hip)
    as [Hl' Heq].
  split; [|done]. split; [done|]. unfold it_count in *; simpl.
  pose proof (length_omap_le (keep_guard now) (it_entries t)). lia.
Qed.

(** C5: an attempt runs the automaton of its own address on what is left of
    that address's state, or on a fresh entry, and returns what the automaton
    says; every other address only loses the entries that aged out.  When the
    array cannot grow nothing is recorded and nothing is blocked. *)
Theorem guard_refines t ip now : table_ok t -> ip_ok ip ->
  let (r, t') := host_connection_guard_register t ip now in
  let e := default (fresh ip) (guard_state t now ip) in
  table_ok t' /\
  (forall ip', ip_ok ip' -> ip' <> ip ->
     entry_of (it_entries t') ip' = guard_state t now ip') /\
  ((r, entry_of (it_entries t') ip) = (fst (guard_step e now), Some (snd (guard_step e now))) \/
   (r = no_result /\ entry_of (it_entries t') ip = guard_state t now ip /\
    exists n, array_alloc_ok n = false)).
Proof.
  intros Ht Hip. unfold host_connection_guard_register.
  rewrite (proj2 (bytes_eqb_neq ip [])) by apply Hip.
  destruct (prune_ok t now ip Ht Hip) as [Ht1 He1].
  pose proof (ensure_spec 16 _ ip Ht1 Hip ltac:(lia)) as Hs. rewrite He1 in Hs.
  unfold host_ensure_connection_guard_locked.
  destruct (ensure_ip 16 (host_connection_guard_prune_locked t now) ip) as [[i|] t2].
  - destruct Hs as (Ht2 & Hi & Hk & Hother). rewrite Hi.
    set (e := default (fresh ip) (guard_state t now ip)) in *.
    pose proof (guard_step_key e now) as Hkey.
    destruct (guard_step e now) as [r e']. simpl in Hkey |- *.
    split_and!.
    + destruct Ht2 as [Hl2 Hc2]. split; [by eapply keys_ok_insert|].
      unfold it_count in *; simpl. by rewrite length_insert.
    + intros ip' Hip' Hne. rewrite (entry_of_insert _ i e) by (done || apply Ht2).
      rewrite decide_False by congruence. rewrite Hother by done.
      by apply prune_ok.
    + left. f_equal. rewrite (entry_of_insert _ i e) by (done || apply Ht2).
      by rewrite decide_True by congruence.
  - destruct Hs as [-> Hn]. split_and!; [done| |by right].
    intros ip' Hip' _. by apply prune_ok.
Qed.

End Guard.

(** ** The automaton *)

(** An attempt in a run of attempts at the given times, and the entry left. *)
Fixpoint guard_run (e : guard_entry) (times : list timespec) : list guard_result * guard_entry :=
  match times with
  | [] => ([], e)
  | now :: times =>
      let (r, e) := guard_step e now in
      let (rs, e) := guard_run e times in (r :: rs, e)
  end.

(** The entry of an address that is not blocked, with [n] attempts in a window
    that started at [w]. *)
Definition counting (e : guard_entry) (w : timespec) (n : Z) : Prop :=
  ge_window_start e = w /\ ge_attempts e = n /\ ge_blocked_until e = zero.

Definition in_window (w now : timespec) : Prop :=
  reading now /\
  timespec_to_ns now - timespec_to_ns w <= SSH_CHATTER_CONNECTION_GUARD_WINDOW_NS.

Lemma open_window_in e w n now : counting e w n -> reading w -> in_window w now ->
  open_window e now = e.
Proof.
  intros (Hw & _ & _) (Hnw & _ & Hset) [(Hnn & _) Hle]. unfold open_window.
  rewrite Hw, Hset, diff_ns by done. cbn [negb].
  unfold SSH_CHATTER_CONNECTION_GUARD_WINDOW_NS in *.
  match goal with |- context [?a <? ?b] => destruct (Z.ltb_spec a b) end; [lia|done].
Qed.

Lemma step_counts e w n now : counting e w n -> reading w -> in_window w now -> 0 <= n < 7 ->
  let (r, e') := guard_step e now in
  g_blocked r = false /\ counting e' w (n + 1) /\ ge_block_count e' = ge_block_count e.
Proof.
  intros Hc Hw Hin Hn. unfold guard_step. pose proof Hc as (He & Ha & Hb). rewrite Hb.
  cbn [is_set zero tv_sec tv_nsec Z.eqb negb orb andb].
  rewrite (open_window_in _ w n) by done. cbn [ge_attempts ge_block_count ge_window_start]. rewrite Ha.
  rewrite (proj2 (Z.ltb_lt n SIZE_MAX)) by (unfold SIZE_MAX; lia).
  rewrite (proj2 (Z.leb_gt _ _)) by (unfold SSH_CHATTER_CONNECTION_GUARD_THRESHOLD; lia).
  by split_and!.
Qed.

Lemma run_counts times e w n : counting e w n -> reading w -> Forall (in_window w) times ->
  0 <= n -> n + Z.of_nat (length times) <= 7 ->
  let (rs, e') := guard_run e times in
  Forall (fun r => g_blocked r = false) rs /\ counting e' w (n + Z.of_nat (length times)) /\
  ge_block_count e' = ge_block_count e.
Proof.
  revert e n; induction times as [|now times IH]; intros e n Hc Hw Hall Hn Hlen.
  { simpl. rewrite Z.add_0_r. by split_and!. }
  inversion Hall as [|? ? Hin Hall']; subst. cbn [guard_run length] in *.
  pose proof (step_counts e w n now Hc Hw Hin ltac:(lia)) as Hs.
  destruct (guard_step e now) as [r e1]. destruct Hs as (Hr & Hc1 & Hb1).
  pose proof (IH e1 (n + 1) Hc1 Hw Hall' ltac:(lia) ltac:(lia)) as IH1.
  destruct (guard_run e1 times) as [rs e2]. destruct IH1 as (Hrs & Hc2 & Hb2).
  split_and!; [by constructor| |congruence].
  by replace (n + Z.of_nat (S (length times))) with (n + 1 + Z.of_nat (length times)) by lia.
Qed.

Lemma open_window_first e w : is_set (ge_window_start e) = false ->
  open_window e w = {| ge_ip := ge_ip e; ge_window_start := w; ge_attempts := 0;
    ge_blocked_until := ge_blocked_until e; ge_block_count := ge_block_count e;
    ge_last_seen := ge_last_seen e |}.
Proof. intros Hs. unfold open_window. by rewrite Hs. Qed.

Lemma step_first e w : reading w -> ge_blocked_until e = zero ->
  is_set (ge_window_start e) = false ->
  let (r, e') := guard_step e w in
  g_blocked r = false /\ counting e' w 1 /\ ge_block_count e' = ge_block_count e.
Proof.
  intros Hw Hb Hs. unfold guard_step. rewrite Hb.
  cbn [is_set zero tv_sec tv_nsec Z.eqb negb orb andb].
  rewrite open_window_first by done. by split_and!.
Qed.

Lemma penalty_spec k : 1 <= k -> penalty_ns k = Z.min (2 * k) 60 * 1000000000.
Proof.
  intros Hk. unfold penalty_ns, SSH_CHATTER_CONNECTION_GUARD_BLOCK_BASE_NS,
    SSH_CHATTER_CONNECTION_GUARD_BLOCK_STEP_NS, SSH_CHATTER_CONNECTION_GUARD_BLOCK_MAX_NS.
  destruct (Z.ltb_spec 0 k); [|lia].
  match goal with |- context [?a <? ?b] => destruct (Z.ltb_spec a b) end; lia.
Qed.

(** A burst from one address.  The first seven attempts inside five seconds
    pass; the eighth blocks the address for two seconds, two more for every
    block before it, a minute at most; it asks for a ban from the fifth block
    on. *)
Theorem burst_blocks e w times last : reading w -> ge_blocked_until e = zero ->
  is_set (ge_window_start e) = false -> 0 <= ge_block_count e < UINT_MAX ->
  length times = 6%nat -> Forall (in_window w) times -> in_window w last ->
  let k := ge_block_count e + 1 in
  let (rs, e') := guard_run e (w :: times) in
  let (r, e'') := guard_step e' last in
  Forall (fun r => g_blocked r = false) rs /\
  g_blocked r = true /\ g_block_count r = k /\ g_escalate_ban r = (5 <=? k) /\
  timespec_to_ns (g_blocked_until r) =
    timespec_to_ns last + Z.min (2 * k) 60 * 1000000000 /\
  ge_blocked_until e'' = g_blocked_until r.
Proof.
  intros Hw Hb Hs Hk Hlen Hall Hlast k. cbn [guard_run].
  pose proof (step_first e w Hw Hb Hs) as H1.
  destruct (guard_step e w) as [r1 e1]. destruct H1 as (Hr1 & Hc1 & Hb1).
  pose proof (run_counts times e1 w 1 Hc1 Hw Hall ltac:(lia) ltac:(lia)) as H2.
  destruct (guard_run e1 times) as [rs e2]. destruct H2 as (Hr2 & Hc2 & Hb2).
  rewrite Hlen in Hc2. pose proof Hc2 as (Hw2 & Ha2 & Hz2).
  unfold guard_step. rewrite Hz2. cbn [is_set zero tv_sec tv_nsec Z.eqb negb orb andb].
  rewrite (open_window_in _ w 7) by done. cbn [ge_attempts ge_block_count]. rewrite Ha2.
  cbn -[UINT_MAX timespec_add_ns penalty_ns timespec_to_ns Z.mul].
  rewrite Hb2, Hb1, (proj2 (Z.ltb_lt _ UINT_MAX)) by lia. fold k.
  split_and!; try done; [by constructor|].
  cbn [g_blocked_until]. edestruct add_ns_spec as [-> _]; [apply Hlast| |].
  - rewrite penalty_spec; lia.
  - by rewrite penalty_spec by lia.
Qed.

(** A blocked address stays blocked until its time and no longer: every
    attempt before the time is refused and changes nothing but when the address
    was last seen, and at the time itself the block is gone. *)
Theorem block_holds e now : reading now -> reading (ge_blocked_until e) ->
  0 <= ge_attempts e < 7 -> 
  let (r, e') := guard_step e now in
  if timespec_to_ns now <? timespec_to_ns (ge_blocked_until e)
  then g_blocked r = true /\ g_escalate_ban r = false /\
       g_blocked_until r = ge_blocked_until e /\ ge_last_seen e' = now /\
       ge_blocked_until e' = ge_blocked_until e /\ ge_block_count e' = ge_block_count e /\
       ge_attempts e' = ge_attempts e /\ ge_window_start e' = ge_window_start e
  else g_blocked r = false /\ ge_blocked_until e' = zero.
Proof.
  intros (Hn & _) (Hb & _ & Hs) Ha. unfold guard_step. rewrite Hs, compare_gt by done.
  cbn [andb]. destruct (timespec_to_ns now <? _); [by split_and!|].
  assert (0 <= ge_attempts (open_window {| ge_ip := ge_ip e;
    ge_window_start := ge_window_start e; ge_attempts := ge_attempts e;
    ge_blocked_until := zero; ge_block_count := ge_block_count e; ge_last_seen := now |} now) < 7
    /\ ge_blocked_until (open_window {| ge_ip := ge_ip e;
    ge_window_start := ge_window_start e; ge_attempts := ge_attempts e;
    ge_blocked_until := zero; ge_block_count := ge_block_count e; ge_last_seen := now |} now) = zero)
    as [Ho Hz] by (unfold open_window; repeat case_match; simpl; (split; [lia|done])).
  rewrite (proj2 (Z.ltb_lt _ SIZE_MAX)) by (unfold SIZE_MAX; lia).
  rewrite (proj2 (Z.leb_gt _ _)) by (unfold SSH_CHATTER_CONNECTION_GUARD_THRESHOLD; lia).
  by split.
Qed.
End Guard.

(** ** Join activity *)

Module Join.

Record join_entry := {
  je_ip : bytes;
  je_last_username : bytes;
  je_last_attempt : timespec;
  je_rapid_attempts : Z;
  je_same_name_attempts : Z;
  je_join_window_start : timespec;
  je_join_window_attempts : Z;
  je_last_suspicious : timespec;
  je_suspicious_events : Z;
  je_asciiart_has_cooldown : bool;
  je_last_asciiart_post : timespec
}.

#[export] Instance join_keyed : Keyed join_entry := {|
  key := je_ip;
  fresh ip := {| je_ip := ip; je_last_username := []; je_last_attempt := zero;
                 je_rapid_attempts := 0; je_same_name_attempts := 0;
                 je_join_window_start := zero; je_join_window_attempts := 0;
                 je_last_suspicious := zero; je_suspicious_events := 0;
                 je_asciiart_has_cooldown := false; je_last_asciiart_post := zero |};
  key_fresh _ := eq_refl
|}.

Definition set_asciiart (flag : bool) (post : timespec) (e : join_entry) : join_entry :=
  {| je_ip := je_ip e; je_last_username := je_last_username e;
     je_last_attempt := je_last_attempt e; je_rapid_attempts := je_rapid_attempts e;
     je_same_name_attempts := je_same_name_attempts e;
     je_join_window_start := je_join_window_start e;
     je_join_window_attempts := je_join_window_attempts e;
     je_last_suspicious := je_last_suspicious e;
     je_suspicious_events := je_suspicious_events e;
     je_asciiart_has_cooldown := flag; je_last_asciiart_post := post |}.

Definition set_suspicious (events : Z) (when : timespec) (e : join_entry) : join_entry :=
  {| je_ip := je_ip e; je_last_username := je_last_username e;
     je_last_attempt := je_last_attempt e; je_rapid_attempts := je_rapid_attempts e;
     je_same_name_attempts := je_same_name_attempts e;
     je_join_window_start := je_join_window_start e;
     je_join_window_attempts := je_join_window_attempts e;
     je_last_suspicious := when; je_suspicious_events := events;
     je_asciiart_has_cooldown := je_asciiart_has_cooldown e;
     je_last_asciiart_post := je_last_asciiart_post e |}.

(** The part of the host the operations below work on. *)
Record join_state := {
  js_activity : ip_table join_entry;
  js_guard : ip_table Guard.guard_entry;
  js_grants : list bytes;
  js_throttle_initialised : bool;
  js_next_join_ready : timespec;
  js_progress_length : Z
}.

Definition with_activity (h : join_state) (t : ip_table join_entry) : join_state :=
  {| js_activity := t; js_guard := js_guard h; js_grants := js_grants h;
     js_throttle_initialised := js_throttle_initialised h;
     js_next_join_ready := js_next_join_ready h; js_progress_length := js_progress_length h |}.

Definition with_guard (h : join_state) (t : ip_table Guard.guard_entry) : join_state :=
  {| js_activity := js_activity h; js_guard := t; js_grants := js_grants h;
     js_throttle_initialised := js_throttle_initialised h;
     js_next_join_ready := js_next_join_ready h; js_progress_length := js_progress_length h |}.

Definition host_ip_has_grant_locked (grants : list bytes) (ip : bytes) : bool :=
  if bytes_eqb ip [] then false else existsb (fun g => same_ip g ip) grants.

Definition host_add_operator_grant_locked (grants : list bytes) (ip : bytes) :
    bool * list bytes :=
  if bytes_eqb ip [] then (false, grants)
  else if host_ip_has_grant_locked grants ip then (true, grants)
  else if SSH_CHATTER_MAX_GRANTS <=? Z.of_nat (length grants) then (false, grants)
  else (true, grants ++ [take (SSH_CHATTER_IP_LEN - 1) ip]).

(** Whether an entry is kept at [now], and how: too old an ASCII art post is
    forgotten. *)
Definition keep_join (now : timespec) (e : join_entry) : option join_entry :=
  if negb (is_set (je_last_attempt e)) then None
  else if SSH_CHATTER_JOIN_ACTIVITY_RETENTION_NS <=?
            timespec_to_ns (timespec_diff now (je_last_attempt e)) then None
  else if je_asciiart_has_cooldown e &&
          (SSH_CHATTER_JOIN_ACTIVITY_RETENTION_NS <=?
             timespec_to_ns (timespec_diff now (je_last_asciiart_post e)))
  then Some (set_asciiart false (je_last_asciiart_post e) e)
  else Some e.

(** The loop: an entry to remove is overwritten by the last one, and the same
    index is looked at again. *)
Fixpoint prune_join_go (fuel : nat) (now : timespec) (l : list join_entry) (idx : nat) :
    list join_entry :=
  match fuel with
  | O => l
  | S fuel =>
      match l !! idx with
      | None => l
      | Some e =>
          match keep_join now e with
          | Some e => prune_join_go fuel now (<[idx := e]> l) (S idx)
          | None =>
              let l := match last l with Some x => <[idx := x]> l | None => l end in
              prune_join_go fuel now (removelast l) idx
          end
      end
  end.

Inductive host_join_attempt_result :=
  HOST_JOIN_ATTEMPT_OK | HOST_JOIN_ATTEMPT_KICK | HOST_JOIN_ATTEMPT_BAN.

Section Join.
Context `{Allocator}.

Definition host_find_join_activity_locked (t : ip_table join_entry) (ip : bytes) : option nat :=
  find_ip (it_entries t) ip.

Definition host_prune_join_activity_locked (t : ip_table join_entry) (now : timespec) :
    ip_table join_entry :=
  if it_count t =? 0 then t
  else
    let l := prune_join_go (length (it_entries t)) now (it_entries t) 0 in
    let count := Z.of_nat (length l) in
    if count =? 0 then {| it_entries := []; it_capacity := 0 |}
    else if (8 <? it_capacity t) && (count <=? it_capacity t / 2) then
      let new_capacity := it_capacity t / 2 in
      let new_capacity := if new_capacity <? 8 then 8 else new_capacity in
      let new_capacity := if new_capacity <? count then count else new_capacity in
      if array_alloc_ok new_capacity
      then {| it_entries := l; it_capacity := new_capacity |}
      else {| it_entries := l; it_capacity := it_capacity t |}
    else {| it_entries := l; it_capacity := it_capacity t |}.

Definition host_ensure_join_activity_locked (t : ip_table join_entry) (ip : bytes) :
    option nat * ip_table join_entry := ensure_ip 8 t ip.

(** The wait before the join and the length of its progress bar. *)
Definition host_prepare_join_delay (h : join_state) (now : timespec) :
    (timespec * Z) * join_state :=
  let ready := if js_throttle_initialised h then js_next_join_ready h else now in
  let progress := if js_throttle_initialised h then js_progress_length h else 0 in
  let wait := if timespec_compare now ready <? 0 then timespec_diff ready now else zero in
  let base := if 0 <? timespec_compare ready now then ready else now in
  let progress := progress mod SSH_CHATTER_JOIN_BAR_MAX + 1 in
  ((wait, progress),
   {| js_activity := js_activity h; js_guard := js_guard h; js_grants := js_grants h;
      js_throttle_initialised := true; js_next_join_ready := timespec_add_ms base 100;
      js_progress_length := progress |}).

(** What a join attempt at [now] does to the entry of its address. *)
Definition join_step (e : join_entry) (username : option bytes) (now : timespec) : join_entry :=
  let diff_ns := timespec_to_ns (timespec_diff now (je_last_attempt e)) in
  let within_window := is_set (je_last_attempt e) &&
                       (diff_ns <=? SSH_CHATTER_JOIN_RAPID_WINDOW_NS) in
  let rapid := if within_window then u64 (je_rapid_attempts e + 1) else 1 in
  let '(same_name, last_username) :=
    match username with
    | Some (c :: u) =>
        if within_window && strn_eq SSH_CHATTER_USERNAME_LEN (je_last_username e) (c :: u)
        then (u64 (je_same_name_attempts e + 1), je_last_username e)
        else (1, take (SSH_CHATTER_USERNAME_LEN - 1) (c :: u))
    | _ => (if within_window then u64 (je_same_name_attempts e + 1) else 1, je_last_username e)
    end in
  let '(window_start, window_attempts) :=
    if negb (is_set (je_join_window_start e)) then (now, 1)
    else if SSH_CHATTER_JOIN_KICK_WINDOW_NS <?
              timespec_to_ns (timespec_diff now (je_join_window_start e))
    then (now, 1)
    else (je_join_window_start e,
          if je_join_window_attempts e <? SIZE_MAX then je_join_window_attempts e + 1
          else je_join_window_attempts e) in
  {| je_ip := je_ip e; je_last_username := last_username; je_last_attempt := now;
     je_rapid_attempts := rapid; je_same_name_attempts := same_name;
     je_join_window_start := window_start; je_join_window_attempts := window_attempts;
     je_last_suspicious := je_last_suspicious e; je_suspicious_events := je_suspicious_events e;
     je_asciiart_has_cooldown := je_asciiart_has_cooldown e;
     je_last_asciiart_post := je_last_asciiart_post e |}.

(** The guard registers the attempt with its own reading of the clock. *)
Definition host_register_join_attempt (h : join_state) (username : option bytes) (ip : bytes)
    (now guard_now : timespec) : host_join_attempt_result * join_state :=
  if bytes_eqb ip [] then (HOST_JOIN_ATTEMPT_OK, h)
  else
    let t := host_prune_join_activity_locked (js_activity h) now in
    match host_ensure_join_activity_locked t ip with
    | (None, t) => (HOST_JOIN_ATTEMPT_OK, with_activity h t)
    | (Some i, t) =>
        match it_entries t !! i with
        | None => (HOST_JOIN_ATTEMPT_OK, with_activity h t)
        | Some e =>
            let e := join_step e username now in
            let h := with_activity h (update_at t i e) in
            let exempt_ip := host_ip_has_grant_locked (js_grants h) ip in
            let kick_ip := negb exempt_ip &&
              (SSH_CHATTER_JOIN_KICK_THRESHOLD <=? je_join_window_attempts e) in
            if negb exempt_ip && kick_ip then (HOST_JOIN_ATTEMPT_KICK, h)
            else
              let (_, g) :=
                Guard.host_connection_guard_register (js_guard h) ip guard_now in
              (HOST_JOIN_ATTEMPT_OK, with_guard h g)
        end
    end.

(** The number of suspicious events of an address, [SSH_CHATTER_SUSPICIOUS_EVENT_THRESHOLD]
    at most; the code's result is always false. *)
Definition host_register_suspicious_activity (h : join_state) (ip : bytes) (now : timespec) :
    Z * join_state :=
  if bytes_eqb ip [] then (0, h)
  else
    match host_ensure_join_activity_locked (js_activity h) ip with
    | (None, t) => (0, with_activity h t)
    | (Some i, t) =>
        match it_entries t !! i with
        | None => (0, with_activity h t)
        | Some e =>
            let events :=
              if is_set (je_last_suspicious e) &&
                 (SSH_CHATTER_SUSPICIOUS_EVENT_WINDOW_NS <?
                    timespec_to_ns (timespec_diff now (je_last_suspicious e)))
              then 0 else je_suspicious_events e in
            let events := if events <? SSH_CHATTER_SUSPICIOUS_EVENT_THRESHOLD
                          then events + 1 else SSH_CHATTER_SUSPICIOUS_EVENT_THRESHOLD in
            (events, with_activity h (update_at t i (set_suspicious events now e)))
        end
    end.

(** Whether an address must wait before its next ASCII art, and the seconds. *)
Definition host_asciiart_cooldown_active (h : join_state) (ip : bytes) (now : timespec) :
    (bool * Z) * join_state :=
  if bytes_eqb ip [] then ((false, 0), h)
  else
    match host_find_join_activity_locked (js_activity h) ip with
    | None => ((false, 0), h)
    | Some i =>
        match it_entries (js_activity h) !! i with
        | None => ((false, 0), h)
        | Some e =>
            if je_asciiart_has_cooldown e then
              let post := je_last_asciiart_post e in
              let expiry := {| tv_sec := tv_sec post + SSH_CHATTER_ASCIIART_COOLDOWN_SECONDS;
                               tv_nsec := tv_nsec post |} in
              if 0 <=? timespec_compare now expiry
              then ((false, 0),
                    with_activity h (update_at (js_activity h) i (set_asciiart false post e)))
              else
                let diff := timespec_diff expiry now in
                let remaining := if 0 <? tv_nsec diff then tv_sec diff + 1 else tv_sec diff in
                ((true, if remaining <? 0 then 0 else remaining), h)
            else ((false, 0), h)
        end
    end.

Definition host_asciiart_register_post (h : join_state) (ip : bytes) (when : timespec) :
    join_state :=
  if bytes_eqb ip [] then h
  else
    match host_ensure_join_activity_locked (js_activity h) ip with
    | (None, t) => with_activity h t
    | (Some i, t) =>
        match it_entries t !! i with
        | None => with_activity h t
        | Some e => with_activity h (update_at t i (set_asciiart true when e))
        end
    end.

(** ** Pruning *)

Lemma removelast_snoc {A} (l : list A) x : removelast (l ++ [x]) = l.
Proof. rewrite removelast_app by done. simpl. by rewrite app_nil_r. Qed.

Lemma prune_go_app fuel now a r : (length r <= fuel)%nat ->
  prune_join_go fuel now (a ++ r) (length a) ≡ₚ a ++ omap (keep_join now) r.
Proof.
  revert a r; induction fuel as [|fuel IH]; intros a r Hlen.
  { destruct r; simpl in *; [by rewrite app_nil_r|lia]. }
  cbn [prune_join_go]. destruct r as [|e r].
  { rewrite lookup_ge_None_2 by (rewrite app_nil_r; lia). done. }
  rewrite list_lookup_middle by done. csimpl. simpl in Hlen.
  destruct (keep_join now e) as [e'|].
  - rewrite insert_app_r_alt, Nat.sub_diag by lia. simpl.
    rewrite (cons_middle e' a r), (app_assoc a [e'] r).
    replace (S (length a)) with (length (a ++ [e'])) by (rewrite length_app; simpl; lia).
    rewrite IH by lia. by rewrite <- app_assoc.
  - destruct r as [|x r _] using rev_ind.
    + rewrite last_snoc, insert_app_r_alt, Nat.sub_diag by lia.
      change (<[0%nat:=e]> [e]) with [e]. rewrite removelast_snoc.
      specialize (IH a [] ltac:(simpl; lia)). by rewrite app_nil_r in IH.
    + rewrite app_comm_cons, (app_assoc a), last_snoc, <- app_assoc.
      rewrite insert_app_r_alt, Nat.sub_diag by lia.
      change (<[0%nat:=x]> ((e :: r) ++ [x])) with ((x :: r) ++ [x]).
      rewrite (app_assoc a), removelast_snoc.
      rewrite length_app in Hlen. simpl in Hlen. rewrite IH by (simpl; lia).
      rewrite omap_app. csimpl. apply Permutation_app_head.
      destruct (keep_join now x); csimpl; rewrite ?app_nil_r; [|done].
      apply Permutation_cons_append.
Qed.

Lemma keep_join_key now e e' : keep_join now e = Some e' -> key e' = key e.
Proof. unfold keep_join. repeat case_match; by intros [= <-]. Qed.

Lemma prune_join_spec t now : it_count t <= it_capacity t ->
  let t' := host_prune_join_activity_locked t now in
  it_entries t' ≡ₚ omap (keep_join now) (it_entries t) /\
  it_count t' <= it_capacity t' <= it_capacity t.
Proof.
  intros Hc. unfold host_prune_join_activity_locked, it_count in *.
  destruct (it_entries t) as [|e0 l0] eqn:El; [simpl; rewrite El; csimpl; split; [done|lia]|].
  rewrite <- El in *. clear e0 l0 El.
  destruct (Z.eqb_spec (Z.of_nat (length (it_entries t))) 0) as [H0|H0].
  { destruct (it_entries t) as [|? ?]; [|simpl in *; lia]. split; [done|simpl in *; lia]. }
  pose proof (prune_go_app (length (it_entries t)) now [] (it_entries t) (le_n _)) as Hp.
  simpl in Hp. set (l := prune_join_go _ _ _ _) in *. clearbody l.
  assert (length l <= length (it_entries t))%nat as Hle by (rewrite Hp; apply length_omap_le).
  assert (0 <= it_capacity t / 2 <= it_capacity t) by
    (split; [apply Z.div_pos; lia|apply Z.div_le_upper_bound; lia]).
  destruct (Z.eqb_spec (Z.of_nat (length l)) 0).
  { destruct l; [|simpl in *; lia]. simpl. split; [done|lia]. }
  destruct ((8 <? it_capacity t) && _) eqn:E; bprop; simpl; [|split; [done|lia]].
  case_match; simpl; split; try done; repeat case_match; bprop; lia.
Qed.

Lemma prune_join_ok t now ip : table_ok t -> ip_ok ip ->
  let t' := host_prune_join_activity_locked t now in
  table_ok t' /\ entry_of (it_entries t') ip = (entry_of (it_entries t) ip ≫= keep_join now).
Proof.
  intros [Hl Hc] Hip t'. destruct (prune_join_spec t now Hc) as (Hp & Hc' & _).
  destruct (entry_of_omap (keep_join now) (it_entries t) ip (keep_join_key now) Hl Hip) as [Ho He].
  destruct (entry_of_perm _ (it_entries t') ip Ho (symmetry Hp) Hip) as [Hl' He'].
  split; [by split|]. by rewrite He', He.
Qed.

(** Pruning leaves, in some order, exactly the entries whose last attempt is
    known and less than five minutes old, with the ASCII art mark of an old post
    cleared; the array still holds them, and it never grows. *)
Theorem prune_join_exact t now : table_ok t ->
  let t' := host_prune_join_activity_locked t now in
  it_entries t' ≡ₚ omap (keep_join now) (it_entries t) /\
  it_count t' <= it_capacity t' <= it_capacity t /\
  forall ip, ip_ok ip ->
    entry_of (it_entries t') ip = (entry_of (it_entries t) ip ≫= keep_join now).
Proof.
  intros Ht t'. destruct (prune_join_spec t now) as [? ?]; [apply Ht|]. subst t'.
  split_and!; [done|lia..|]. intros ip Hip. by apply prune_join_ok.
Qed.

(** ** Joining *)

Lemma join_step_key e u now : key (join_step e u now) = key e.
Proof. unfold join_step. repeat case_match; done. Qed.

(** The state of the address of an attempt, at the attempt. *)
Definition join_state_of (h : join_state) (now : timespec) (ip : bytes) : join_entry :=
  default (fresh ip) (entry_of (it_entries (js_activity h)) ip ≫= keep_join now).

Lemma register_spec h u ip now gnow : (forall n, array_alloc_ok n = true) ->
  table_ok (js_activity h) -> ip_ok ip ->
  let (r, h') := host_register_join_attempt h u ip now gnow in
  let e' := join_step (join_state_of h now ip) u now in
  table_ok (js_activity h') /\ js_grants h' = js_grants h /\
  entry_of (it_entries (js_activity h')) ip = Some e' /\
  (forall ip', ip_ok ip' -> ip' <> ip ->
     entry_of (it_entries (js_activity h')) ip' =
       (entry_of (it_entries (js_activity h)) ip' ≫= keep_join now)) /\
  r = if negb (host_ip_has_grant_locked (js_grants h) ip) &&
         (SSH_CHATTER_JOIN_KICK_THRESHOLD <=? je_join_window_attempts e')
      then HOST_JOIN_ATTEMPT_KICK else HOST_JOIN_ATTEMPT_OK.
Proof.
  intros Ha Ht Hip. unfold host_register_join_attempt.
  rewrite (proj2 (bytes_eqb_neq ip [])) by apply Hip.
  destruct (prune_join_ok (js_activity h) now ip Ht Hip) as [Ht1 He1].
  pose proof (ensure_spec 8 _ ip Ht1 Hip ltac:(lia)) as Hs. rewrite He1 in Hs.
  unfold host_ensure_join_activity_locked.
  destruct (ensure_ip 8 (host_prune_join_activity_locked (js_activity h) now) ip) as [[i|] t2];
    [|destruct Hs as (_ & n & Hn); by rewrite Ha in Hn].
  destruct Hs as (Ht2 & Hi & Hk & Hother). fold (join_state_of h now ip) in Hi, Hk.
  rewrite Hi. set (e := join_state_of h now ip) in *.
  pose proof (join_step_key e u now) as Hkey. set (e' := join_step e u now) in *. clearbody e'.
  set (h1 := with_activity h (update_at t2 i e')).
  assert (table_ok (js_activity h1) /\ js_grants h1 = js_grants h /\
    entry_of (it_entries (js_activity h1)) ip = Some e' /\
    forall ip', ip_ok ip' -> ip' <> ip ->
      entry_of (it_entries (js_activity h1)) ip' =
       (entry_of (it_entries (js_activity h)) ip' ≫= keep_join now)) as Hh1.
  { split_and!; [| done | |].
    - destruct Ht2 as [Hl2 Hc2]. split; [by eapply keys_ok_insert|].
      unfold it_count in *; simpl. by rewrite length_insert.
    - simpl. rewrite (entry_of_insert _ i e) by (done || apply Ht2).
      by rewrite decide_True by congruence.
    - intros ip' Hip' Hne. simpl. rewrite (entry_of_insert _ i e) by (done || apply Ht2).
      rewrite decide_False by congruence. rewrite Hother by done. by apply prune_join_ok. }
  assert (js_grants h1 = js_grants h) as -> by done.
  destruct (host_ip_has_grant_locked (js_grants h) ip); cbn [negb andb].
  - destruct (Guard.host_connection_guard_register _ _ _). by destruct Hh1 as (? & ? & ? & ?).
  - destruct (SSH_CHATTER_JOIN_KICK_THRESHOLD <=? _); [by destruct Hh1 as (? & ? & ? & ?)|].
    destruct (Guard.host_connection_guard_register _ _ _). by destruct Hh1 as (? & ? & ? & ?).
Qed.

(** A run of join attempts of one address, each with its two clock readings. *)
Fixpoint join_run (h : join_state) (u : option bytes) (ip : bytes)
    (times : list (timespec * timespec)) : list host_join_attempt_result * join_state :=
  match times with
  | [] => ([], h)
  | (now, gnow) :: times =>
      let (r, h) := host_register_join_attempt h u ip now gnow in
      let (rs, h) := join_run h u ip times in (r :: rs, h)
  end.

Definition in_kick_window (w now : timespec) : Prop :=
  reading now /\ timespec_to_ns now - timespec_to_ns w <= SSH_CHATTER_JOIN_KICK_WINDOW_NS.

(** The address has made [n] attempts since its window opened at [w]. *)
Definition window_count (h : join_state) (ip : bytes) (w : timespec) (n : Z) : Prop :=
  exists e, entry_of (it_entries (js_activity h)) ip = Some e /\
    je_join_window_start e = w /\ je_join_window_attempts e = n /\
    reading (je_last_attempt e) /\ timespec_to_ns w <= timespec_to_ns (je_last_attempt e).

Definition verdict (n : Z) : host_join_attempt_result :=
  if SSH_CHATTER_JOIN_KICK_THRESHOLD <=? n then HOST_JOIN_ATTEMPT_KICK else HOST_JOIN_ATTEMPT_OK.

Lemma keep_join_recent e now : reading now -> reading (je_last_attempt e) ->
  timespec_to_ns now - timespec_to_ns (je_last_attempt e) <
    SSH_CHATTER_JOIN_ACTIVITY_RETENTION_NS ->
  exists e', keep_join now e = Some e' /\ je_join_window_start e' = je_join_window_start e /\
    je_join_window_attempts e' = je_join_window_attempts e /\
    je_last_attempt e' = je_last_attempt e.
Proof.
  intros (Hn & _) (Hl & _ & Hs) Hlt. unfold keep_join. rewrite Hs, diff_ns by done. cbn [negb].
  rewrite (proj2 (Z.leb_gt _ _)) by (unfold SSH_CHATTER_JOIN_ACTIVITY_RETENTION_NS in *; lia).
  case_match; eauto.
Qed.

Lemma join_step_counts e u now w n : reading w -> in_kick_window w now ->
  je_join_window_start e = w -> je_join_window_attempts e = n -> 0 <= n < SIZE_MAX ->
  let e' := join_step e u now in
  je_join_window_start e' = w /\ je_join_window_attempts e' = n + 1 /\ je_last_attempt e' = now.
Proof.
  intros (Hw & _ & Hws) [(Hn & _) Hle] H1 H2 Hlt. unfold join_step.
  rewrite H1, H2, Hws, (diff_ns now w) by done.
  cbn [negb]. unfold SSH_CHATTER_JOIN_KICK_WINDOW_NS in *.
  rewrite (proj2 (Z.ltb_ge _ _)) by lia. rewrite (proj2 (Z.ltb_lt _ _)) by lia.
  by repeat case_match; simplify_eq.
Qed.

Lemma join_run_counts h u ip w n times : (forall n, array_alloc_ok n = true) ->
  table_ok (js_activity h) -> ip_ok ip -> reading w ->
  host_ip_has_grant_locked (js_grants h) ip = false ->
  window_count h ip w n -> 0 <= n -> n + Z.of_nat (length times) < SIZE_MAX ->
  Forall (fun t => in_kick_window w t.1 /\ timespec_to_ns w <= timespec_to_ns t.1) times ->
  fst (join_run h u ip times) =
  map (fun i => verdict (n + 1 + Z.of_nat i)) (seq 0 (length times)).
Proof.
  intros Ha. revert h n; induction times as [|[now gnow] times IH];
    intros h n Ht Hip Hw Hg Hc Hn Hlen Hall; [done|].
  inversion Hall as [|? ? [Hin Hge] Hall']; subst. simpl in Hin, Hge.
  cbn [join_run length seq map] in *. rewrite <- seq_shift, map_map.
  pose proof (register_spec h u ip now gnow Ha Ht Hip) as Hs.
  destruct (host_register_join_attempt h u ip now gnow) as [r h1].
  destruct Hs as (Ht1 & Hg1 & He1 & _ & ->). rewrite <- Hg1 in Hg.
  destruct Hc as (e & He & Hws & Hwn & Hla & Hlw).
  destruct (keep_join_recent e now) as (e1 & Hk & Hws1 & Hwn1 & Hla1); [apply Hin|done| |].
  { unfold in_kick_window, SSH_CHATTER_JOIN_KICK_WINDOW_NS,
      SSH_CHATTER_JOIN_ACTIVITY_RETENTION_NS in *. lia. }
  assert (join_state_of h now ip = e1) as Hst by (unfold join_state_of; by rewrite He; simpl; rewrite Hk).
  rewrite Hst in *.
  destruct (join_step_counts e1 u now w n Hw Hin) as (Hs1 & Hs2 & Hs3); [congruence..|lia|].
  specialize (IH h1 (n + 1) Ht1 Hip Hw Hg). rewrite <- Hg1, Hg, Hs2.
  destruct (join_run h1 u ip times) as [rs h2]. simpl in *. f_equal.
  - by rewrite Z.add_0_r.
  - rewrite IH; [|eexists; split_and!; [exact He1|done..|by rewrite Hs3; apply Hin|by rewrite Hs3]|lia..|done].
    apply map_ext. intros i. f_equal. lia.
Qed.

(** An address that is new to the host and holds no operator grant may join
    nineteen times within a minute; the twentieth join and every later one in
    that minute is kicked. *)
Theorem kick_after_twenty h u ip w gw times : (forall n, array_alloc_ok n = true) ->
  table_ok (js_activity h) -> ip_ok ip -> reading w ->
  entry_of (it_entries (js_activity h)) ip = None ->
  host_ip_has_grant_locked (js_grants h) ip = false ->
  Forall (fun t => in_kick_window w t.1 /\ timespec_to_ns w <= timespec_to_ns t.1) times ->
  Z.of_nat (length times) < 1000000000 ->
  fst (join_run h u ip ((w, gw) :: times)) =
  map (fun i => if 19 <=? Z.of_nat i then HOST_JOIN_ATTEMPT_KICK else HOST_JOIN_ATTEMPT_OK)
    (seq 0 (S (length times))).
Proof.
  intros Ha Ht Hip Hw Hnone Hg Hall Hlen. cbn [join_run].
  pose proof (register_spec h u ip w gw Ha Ht Hip) as Hs.
  destruct (host_register_join_attempt h u ip w gw) as [r h1].
  destruct Hs as (Ht1 & Hg1 & He1 & _ & Hr).
  assert (join_state_of h w ip = fresh ip) as Hst by (unfold join_state_of; by rewrite Hnone).
  rewrite Hst in *.
  assert (je_join_window_start (join_step (fresh ip) u w) = w /\
    je_join_window_attempts (join_step (fresh ip) u w) = 1 /\
    je_last_attempt (join_step (fresh ip) u w) = w) as (H1 & H2 & H3)
    by (unfold join_step; repeat case_match; simplify_eq/=; done).
  pose proof (join_run_counts h1 u ip w 1 times Ha Ht1 Hip Hw) as Hrun.
  rewrite Hg1 in Hrun. rewrite Hg, H2 in Hr. subst r.
  destruct (join_run h1 u ip times) as [rs h2]. simpl in *. f_equal.
  rewrite Hrun; [|done| |lia| |done].
  - rewrite <- seq_shift, map_map. apply map_ext. intros i. unfold verdict.
    unfold SSH_CHATTER_JOIN_KICK_THRESHOLD. repeat case_match; bprop; lia || done.
  - eexists. split_and!; [exact He1|done..|by rewrite H3|by rewrite H3].
  - unfold SIZE_MAX. lia.
Qed.

(** ** The join delay *)

(** The instants, in nanoseconds, at which a series of joins may enter the room:
    each waits from its reading of the clock. *)
Fixpoint entry_times (h : join_state) (times : list timespec) : list Z :=
  match times with
  | [] => []
  | now :: times =>
      let '((wait, _), h) := host_prepare_join_delay h now in
      (timespec_to_ns now + timespec_to_ns wait) :: entry_times h times
  end.

Definition throttle_ok (h : join_state) : Prop :=
  0 <= js_progress_length h /\ (js_throttle_initialised h = true -> normal (js_next_join_ready h)).

Lemma join_delay_spec h now : throttle_ok h -> normal now ->
  let '((wait, progress), h') := host_prepare_join_delay h now in
  let entry := timespec_to_ns now + timespec_to_ns wait in
  throttle_ok h' /\ js_throttle_initialised h' = true /\
  1 <= progress <= SSH_CHATTER_JOIN_BAR_MAX /\ normal wait /\
  entry = (if js_throttle_initialised h
           then Z.max (timespec_to_ns now) (timespec_to_ns (js_next_join_ready h))
           else timespec_to_ns now) /\
  timespec_to_ns (js_next_join_ready h') = entry + 100000000.
Proof.
  intros [Hp Hr] Hn. unfold host_prepare_join_delay.
  set (ready := if js_throttle_initialised h then _ else now).
  assert (normal ready) as Hready by (unfold ready; case_match; auto).
  rewrite compare_lt, compare_gt by done.
  assert (normal zero) as Hz by (unfold normal, zero; simpl; lia).
  match goal with |- context [?x mod SSH_CHATTER_JOIN_BAR_MAX] =>
    pose proof (Z.mod_pos_bound x SSH_CHATTER_JOIN_BAR_MAX ltac:(done)) end.
  assert ((if js_throttle_initialised h
           then Z.max (timespec_to_ns now) (timespec_to_ns (js_next_join_ready h))
           else timespec_to_ns now) = Z.max (timespec_to_ns now) (timespec_to_ns ready)) as ->
    by (unfold ready; destruct (js_throttle_initialised h); lia).
  clearbody ready. unfold throttle_ok.
  cbn [js_throttle_initialised js_next_join_ready js_progress_length].
  destruct (Z.ltb_spec (timespec_to_ns now) (timespec_to_ns ready)).
  - destruct (add_ms_spec ready 100) as [Ha Hb]; [done|lia|].
    rewrite diff_ns by done. split_and!; try done; try lia. by apply diff_normal.
  - destruct (add_ms_spec now 100) as [Ha Hb]; [done|lia|].
    change (timespec_to_ns zero) with 0. split_and!; try done; lia.
Qed.

Lemma entry_times_after h times : throttle_ok h -> js_throttle_initialised h = true ->
  Forall normal times ->
  Forall (fun x => timespec_to_ns (js_next_join_ready h) <= x) (entry_times h times) /\
  StronglySorted (fun a b => a + 100000000 <= b) (entry_times h times).
Proof.
  revert h; induction times as [|now times IH]; intros h Hok Hi Hall; cbn [entry_times].
  { split; constructor. }
  inversion Hall; subst. pose proof (join_delay_spec h now Hok ltac:(done)) as Hs.
  destruct (host_prepare_join_delay h now) as [[wait p] h1].
  destruct Hs as (Hok1 & Hi1 & _ & _ & He & Hr). rewrite Hi in He.
  destruct (IH h1 Hok1 Hi1 ltac:(done)) as [Hf Hsort]. rewrite Hr in Hf.
  split; constructor; [lia| |done|]; (eapply Forall_impl; [exact Hf|]); simpl; lia.
Qed.

(** Joins are let in one at a time, at least a tenth of a second apart,
    whatever the clock reads when they arrive. *)
Theorem joins_are_spaced h times : throttle_ok h -> Forall normal times ->
  StronglySorted (fun a b => a + 100000000 <= b) (entry_times h times).
Proof.
  intros Hok Hall. destruct times as [|now times]; [constructor|]. cbn [entry_times].
  inversion Hall; subst. pose proof (join_delay_spec h now Hok ltac:(done)) as Hs.
  destruct (host_prepare_join_delay h now) as [[wait p] h1].
  destruct Hs as (Hok1 & Hi1 & _ & _ & _ & Hr).
  destruct (entry_times_after h1 times) as [Hf Hsort]; [done..|]. rewrite Hr in Hf. by constructor.
Qed.

(** ** The ASCII art cooldown *)

Lemma register_post_spec h ip when : (forall n, array_alloc_ok n = true) ->
  table_ok (js_activity h) -> ip_ok ip ->
  let h' := host_asciiart_register_post h ip when in
  table_ok (js_activity h') /\
  entry_of (it_entries (js_activity h')) ip =
    Some (set_asciiart true when
            (default (fresh ip) (entry_of (it_entries (js_activity h)) ip))).
Proof.
  intros Ha Ht Hip. unfold host_asciiart_register_post.
  rewrite (proj2 (bytes_eqb_neq ip [])) by apply Hip.
  pose proof (ensure_spec 8 _ ip Ht Hip ltac:(lia)) as Hs.
  unfold host_ensure_join_activity_locked.
  destruct (ensure_ip 8 (js_activity h) ip) as [[i|] t2];
    [|destruct Hs as (_ & n & Hn); by rewrite Ha in Hn].
  destruct Hs as (Ht2 & Hi & Hk & _). rewrite Hi.
  set (e := default (fresh ip) (entry_of (it_entries (js_activity h)) ip)) in *. clearbody e.
  simpl. split.
  - destruct Ht2 as [Hl2 Hc2]. split; [by eapply keys_ok_insert|].
    unfold it_count in *; simpl. by rewrite length_insert.
  - rewrite (entry_of_insert _ i e) by (done || apply Ht2). by rewrite decide_True by congruence.
Qed.

(** After a post, and as long as the entry is not pruned, the address waits
    exactly ten minutes; the seconds shown are the time left, rounded up. *)
Theorem cooldown_ten_minutes h ip when now : (forall n, array_alloc_ok n = true) ->
  table_ok (js_activity h) -> ip_ok ip -> reading when -> reading now ->
  let left := timespec_to_ns when + 600 * 1000000000 - timespec_to_ns now in
  fst (host_asciiart_cooldown_active (host_asciiart_register_post h ip when) ip now) =
  if 0 <? left then (true, (left + 999999999) / 1000000000) else (false, 0).
Proof.
  intros Ha Ht Hip (Hw & _) (Hn & _) left.
  destruct (register_post_spec h ip when Ha Ht Hip) as [Ht' He].
  unfold host_asciiart_cooldown_active, host_find_join_activity_locked.
  rewrite (proj2 (bytes_eqb_neq ip [])) by apply Hip.
  unfold entry_of in He. destruct (find_ip _ ip) as [i|]; [|done]. rewrite He.
  cbn [set_asciiart je_asciiart_has_cooldown je_last_asciiart_post].
  set (expiry := {| tv_sec := _; tv_nsec := _ |}).
  assert (timespec_to_ns expiry = timespec_to_ns when + 600 * 1000000000) as Hns
    by (unfold timespec_to_ns, expiry, SSH_CHATTER_ASCIIART_COOLDOWN_SECONDS; simpl; lia).
  assert (normal expiry) as Hex by (unfold normal, expiry in *; simpl; lia).
  assert ((0 <=? timespec_compare now expiry) = negb (0 <? left)) as ->.
  { pose proof (compare_lt now expiry Hn Hex) as Hlt. unfold left. rewrite <- Hns.
    destruct (Z.ltb_spec (timespec_compare now expiry) 0);
      destruct (Z.ltb_spec (timespec_to_ns now) (timespec_to_ns expiry)); try done;
      destruct (Z.leb_spec 0 (timespec_compare now expiry)); try lia;
      destruct (Z.ltb_spec 0 (timespec_to_ns expiry - timespec_to_ns now)); simpl; lia || done. }
  destruct (Z.ltb_spec 0 left) as [Hl|]; cbn [negb fst]; [|done].
  pose proof (diff_ns expiry now Hex Hn) as Hd. pose proof (diff_normal expiry now Hex Hn) as Hdn.
  rewrite Hns in Hd. fold left in Hd. rewrite Z.max_r in Hd by lia.
  unfold normal, timespec_to_ns in Hd, Hdn. f_equal.
  destruct (Z.ltb_spec 0 (tv_nsec (timespec_diff expiry now)));
    match goal with |- context [?a <? 0] => destruct (Z.ltb_spec a 0) end;
    apply (Z.div_unique_pos _ _ _ (left + 999999999 - 1000000000 *
      ((left + 999999999) / 1000000000))) || idtac; 
    pose proof (Z.div_mod (left + 999999999) 1000000000);
    pose proof (Z.mod_pos_bound (left + 999999999) 1000000000); lia.
Qed.

(** But a post from an address that has no join on record does not outlive
    the next join from anywhere: pruning takes an entry without a join for an
    empty one, and the address may post again at once. *)
Theorem cooldown_lost_at_next_join h ip when other u now gnow later :
  (forall n, array_alloc_ok n = true) ->
  table_ok (js_activity h) -> ip_ok ip -> ip_ok other -> other <> ip ->
  entry_of (it_entries (js_activity h)) ip = None ->
  let h' := host_asciiart_register_post h ip when in
  let (_, h'') := host_register_join_attempt h' u other now gnow in
  fst (host_asciiart_cooldown_active h'' ip later) = (false, 0).
Proof.
  intros Ha Ht Hip Hio Hne Hnone. 
  destruct (register_post_spec h ip when Ha Ht Hip) as [Ht' He]. rewrite Hnone in He.
  pose proof (register_spec _ u other now gnow Ha Ht' Hio) as Hs. cbv zeta in *.
  destruct (host_register_join_attempt _ u other now gnow) as [r h''].
  destruct Hs as (Ht'' & _ & _ & Hother & _).
  specialize (Hother ip Hip ltac:(congruence)). rewrite He in Hother.
  cbn in Hother. unfold host_asciiart_cooldown_active, host_find_join_activity_locked.
  rewrite (proj2 (bytes_eqb_neq ip [])) by apply Hip.
  unfold entry_of in Hother. destruct (find_ip _ ip); [|done]. by rewrite Hother.
Qed.
End Join.
End Join.

(** ** Samples *)

Module GuardSamples.
Import Guard Join.

#[local] Instance alloc : Allocator :=
  {| array_alloc_ok := fun _ => true; strdup_ok := fun _ => true |}.

Definition at_ms (ms : Z) : timespec :=
  {| tv_sec := 100 + ms / 1000; tv_nsec := ms mod 1000 * 1000000 |}.

Lemma reading_at ms : 0 <= ms -> reading (at_ms ms).
Proof.
  intros. pose proof (Z.mod_pos_bound ms 1000). pose proof (Z.div_pos ms 1000).
  unfold reading, normal, is_set, at_ms; simpl. split_and!; [lia..|].
  rewrite orb_true_iff, !negb_true_iff, !Z.eqb_neq. lia.
Qed.

Definition client : bytes := lit "10.0.0.7".
Definition stranger : bytes := lit "10.0.0.8".

Lemma client_ok : ip_ok client.
Proof. split; [discriminate|vm_compute; lia]. Qed.

Lemma stranger_ok : ip_ok stranger.
Proof. split; [discriminate|vm_compute; lia]. Qed.

Definition no_entries {E} : ip_table E := {| it_entries := []; it_capacity := 0 |}.

Lemma no_entries_ok {E} `{Keyed E} : table_ok (@no_entries E).
Proof. split; [split; constructor|]. done. Qed.

Lemma guard_refines_witness :
  let t := no_entries in
  let (r, t') := host_connection_guard_register t client (at_ms 0) in
  let e := default (fresh client) (guard_state t (at_ms 0) client) in
  table_ok t' /\
  (forall ip', ip_ok ip' -> ip' <> client ->
     entry_of (it_entries t') ip' = guard_state t (at_ms 0) ip') /\
  ((r, entry_of (it_entries t') client) =
     (fst (guard_step e (at_ms 0)), Some (snd (guard_step e (at_ms 0)))) \/
   (r = no_result /\ entry_of (it_entries t') client = guard_state t (at_ms 0) client /\
    exists n, array_alloc_ok n = false)).
Proof. exact (guard_refines no_entries client (at_ms 0) no_entries_ok client_ok). Defined.

Lemma burst_blocks_witness :
  let k := ge_block_count (fresh client) + 1 in
  let (rs, e') := guard_run (fresh client) (at_ms 0 :: replicate 6 (at_ms 900)) in
  let (r, e'') := guard_step e' (at_ms 4000) in
  Forall (fun r => g_blocked r = false) rs /\
  g_blocked r = true /\ g_block_count r = k /\ g_escalate_ban r = (5 <=? k) /\
  timespec_to_ns (g_blocked_until r) =
    timespec_to_ns (at_ms 4000) + Z.min (2 * k) 60 * 1000000000 /\
  ge_blocked_until e'' = g_blocked_until r.
Proof.
  refine (burst_blocks (fresh client) (at_ms 0) (replicate 6 (at_ms 900)) (at_ms 4000)
            _ eq_refl eq_refl _ eq_refl _ _).
  - apply reading_at; lia.
  - split; vm_compute; congruence.
  - repeat constructor; vm_compute; congruence.
  - split; [apply reading_at; lia|vm_compute; discriminate].
Defined.

Definition blocked_entry : guard_entry :=
  {| ge_ip := client; ge_window_start := at_ms 0; ge_attempts := 0;
     ge_blocked_until := at_ms 2000; ge_block_count := 1; ge_last_seen := at_ms 0 |}.

Lemma block_holds_witness :
  let (r, e') := guard_step blocked_entry (at_ms 1999) in
  if timespec_to_ns (at_ms 1999) <? timespec_to_ns (ge_blocked_until blocked_entry)
  then g_blocked r = true /\ g_escalate_ban r = false /\
       g_blocked_until r = ge_blocked_until blocked_entry /\ ge_last_seen e' = at_ms 1999 /\
       ge_blocked_until e' = ge_blocked_until blocked_entry /\
       ge_block_count e' = ge_block_count blocked_entry /\
       ge_attempts e' = ge_attempts blocked_entry /\
       ge_window_start e' = ge_window_start blocked_entry
  else g_blocked r = false /\ ge_blocked_until e' = zero.
Proof. apply (block_holds blocked_entry); [apply reading_at; lia..|simpl; lia]. Defined.

Definition quiet_host : join_state :=
  {| js_activity := no_entries; js_guard := no_entries; js_grants := [];
     js_throttle_initialised := false; js_next_join_ready := zero; js_progress_length := 0 |}.

Definition old_entry : join_entry :=
  set_asciiart true (at_ms 0) (join_step (fresh client) None (at_ms 0)).

Definition one_entry : ip_table join_entry := {| it_entries := [old_entry]; it_capacity := 8 |}.

Lemma one_entry_ok : table_ok one_entry.
Proof.
  split; [split|done].
  - apply NoDup_singleton.
  - apply Forall_singleton. vm_compute. lia.
Qed.

Lemma prune_join_exact_witness :
  let t' := host_prune_join_activity_locked one_entry (at_ms 300000) in
  it_entries t' = [] /\
  (it_entries t' ≡ₚ omap (keep_join (at_ms 300000)) (it_entries one_entry) /\
   it_count t' <= it_capacity t' <= it_capacity one_entry /\
   forall ip, ip_ok ip ->
     entry_of (it_entries t') ip =
       (entry_of (it_entries one_entry) ip ≫= keep_join (at_ms 300000))).
Proof. split; [vm_compute; reflexivity|]. apply (prune_join_exact one_entry _ one_entry_ok). Defined.

Lemma kick_after_twenty_witness :
  fst (join_run quiet_host None client
         ((at_ms 0, at_ms 0) :: replicate 19 (at_ms 500, at_ms 500))) =
  map (fun i => if 19 <=? Z.of_nat i then HOST_JOIN_ATTEMPT_KICK else HOST_JOIN_ATTEMPT_OK)
    (seq 0 20).
Proof.
  apply (kick_after_twenty quiet_host None client (at_ms 0) (at_ms 0)
           (replicate 19 (at_ms 500, at_ms 500))); try reflexivity;
    try apply no_entries_ok; try apply client_ok; try (apply reading_at; lia).
  apply Forall_forall. intros x Hx%elem_of_replicate_inv. subst x. simpl.
  split; [split; [apply reading_at; lia|]|]; vm_compute; discriminate.
Defined.

Lemma joins_are_spaced_witness :
  entry_times quiet_host [at_ms 0; at_ms 0; at_ms 30; at_ms 900] =
    [100000000000; 100100000000; 100200000000; 100900000000] /\
  StronglySorted (fun a b => a + 100000000 <= b)
    (entry_times quiet_host [at_ms 0; at_ms 0; at_ms 30; at_ms 900]).
Proof.
  split; [vm_compute; reflexivity|]. apply joins_are_spaced.
  - split; [simpl; lia|discriminate].
  - repeat constructor; vm_compute; congruence.
Defined.

Lemma cooldown_ten_minutes_witness :
  fst (host_asciiart_cooldown_active (host_asciiart_register_post quiet_host client (at_ms 0))
         client (at_ms 1500)) = (true, 599).
Proof.
  apply (cooldown_ten_minutes quiet_host client (at_ms 0) (at_ms 1500)); try reflexivity;
    try apply no_entries_ok; try apply client_ok; apply reading_at; lia.
Defined.

Lemma cooldown_lost_at_next_join_witness :
  let h' := host_asciiart_register_post quiet_host client (at_ms 0) in
  let (_, h'') := host_register_join_attempt h' None stranger (at_ms 10) (at_ms 10) in
  fst (host_asciiart_cooldown_active h'' client (at_ms 20)) = (false, 0).
Proof.
  apply (cooldown_lost_at_next_join quiet_host client (at_ms 0) stranger); try reflexivity;
    try apply no_entries_ok; try apply client_ok; try apply stranger_ok. discriminate.
Defined.
End GuardSamples.
