(* ===== verification/DdialServer.v ===== *)
(** The byte streams of a dial-in session: the output buffer of
    [src/host/ddial/server.c] with its pacing, and the input buffer with the
    cutting into lines.

    The lock around the output buffer makes each operation one step.  What
    [send] answers and what the clock says are arguments. *)

From Stdlib Require Import ZArith Lia String Ascii.
From stdpp Require Import prelude.
From S2P Require Import Prelude DdialProtocol HostGuard.
Import Wire Time.

(** ** The output buffer *)

Module Output.

Definition LINE_BUFFER : nat := 4096 + 4.
Definition OUT_SIZE : nat := 4096 * 8.

(** [baud] is [mv.baud]; [out_len] is the length of [out_buf]. *)
Record output := {
  out_buf : bytes;
  pace_start : nat;
  pace_len : nat;
  pace_cps : Z;
  pace_last : timespec;
  baud_last : timespec;
  baud : Z;
}.

Definition fresh : output :=
  {| out_buf := []; pace_start := 0; pace_len := 0; pace_cps := 0;
     pace_last := zero; baud_last := zero; baud := 0 |}.

(** What of [data] finds room. *)
Definition room (o : output) (data : bytes) : bytes := take (OUT_SIZE - length (out_buf o)) data.

Definition ddial_session_write_raw (o : output) (data : bytes) : output :=
  {| out_buf := out_buf o ++ room o data; pace_start := pace_start o; pace_len := pace_len o;
     pace_cps := pace_cps o; pace_last := pace_last o; baud_last := baud_last o; baud := baud o |}.

Definition ddial_session_write_paced (o : output) (now : timespec) (data : bytes) (rate : Z) : output :=
  let start := length (out_buf o) in
  let data := room o data in
  if (length data =? 0)%nat then o
  else
    let cps := if 10 <=? rate then rate / 10 else 1 in
    let buf := out_buf o ++ data in
    if (pace_len o =? 0)%nat then
      {| out_buf := buf; pace_start := start; pace_len := length buf - start; pace_cps := cps;
         pace_last := now; baud_last := baud_last o; baud := baud o |}
    else
      {| out_buf := buf; pace_start := pace_start o; pace_len := length buf - pace_start o;
         pace_cps := if cps <? pace_cps o then cps else pace_cps o;
         pace_last := pace_last o; baud_last := baud_last o; baud := baud o |}.

(** The text is cut to its buffer; a text that is longer makes the C code read
    past it, but every caller takes it from a buffer of 4096 bytes. *)
Definition ddial_session_write_line (o : output) (text : bytes) : output :=
  ddial_session_write_raw o (snprintf_text LINE_BUFFER (text ++ crlf)).

(** The milliseconds between two readings, as the division of [long] gives
    them. *)
Definition elapsed_ms (last now : timespec) : Z :=
  Z.max 0 ((tv_sec now - tv_sec last) * 1000 + (tv_nsec now - tv_nsec last) ÷ 1000000).

(** The bytes allowed, and the reading to count from the next time. *)
Definition ddial_session_budget (last : timespec) (cps : Z) (now : timespec) : Z * timespec :=
  let budget := u64 (cps * elapsed_ms last now) / 1000 in
  (budget, if 0 <? budget then now else last).

(** What [send] answers: it took some bytes, was interrupted, or failed. *)
Inductive answer := Sent (n : nat) | Interrupted | Failed.

(** The loop around [send]; it never takes more than it is offered.  The
    answers end with a failure. *)
Fixpoint send_go (answers : list answer) (sent limit : nat) : nat :=
  if (limit <=? sent)%nat then sent
  else
    match answers with
    | [] | Failed :: _ | Sent O :: _ => sent
    | Interrupted :: t => send_go t sent limit
    | Sent n :: t => send_go t (sent + Nat.min n (limit - sent)) limit
    end.

Definition at_most (budget : Z) (n : nat) : nat := Z.to_nat (Z.min budget (Z.of_nat n)).

(** How many bytes may go out now by the paced region, and its clock. *)
Definition pace_limit (o : output) (last now : timespec) : nat * timespec :=
  if (pace_len o =? 0)%nat then (length (out_buf o), last)
  else if (0 <? pace_start o)%nat then (pace_start o, last)
  else
    let (budget, last) := ddial_session_budget last (pace_cps o) now in
    (at_most budget (pace_len o), last).

(** The same by the rate of the session. *)
Definition baud_limit (o : output) (limit : nat) (last now : timespec) : nat * timespec :=
  if negb (baud o =? 0) && (0 <? limit)%nat then
    let (budget, last) := ddial_session_budget last (baud o / 10) now in
    (at_most budget limit, last)
  else (limit, last).

(** The state after a flush and the bytes that went out. *)
Definition ddial_session_flush (o : output) (now : timespec) (answers : list answer) : output * bytes :=
  let idle := (length (out_buf o) =? 0)%nat in
  let (limit, paced_at) := pace_limit o (if idle then now else pace_last o) now in
  let (limit, baud_at) := baud_limit o limit (if idle then now else baud_last o) now in
  let sent := send_go answers 0 limit in
  let (start, len) :=
    if (pace_len o =? 0)%nat then (pace_start o, pace_len o)
    else if (sent <=? pace_start o)%nat then ((pace_start o - sent)%nat, pace_len o)
    else (0%nat, (pace_len o - (sent - pace_start o))%nat) in
  ({| out_buf := drop sent (out_buf o); pace_start := start; pace_len := len; pace_cps := pace_cps o;
      pace_last := paced_at; baud_last := baud_at; baud := baud o |}, take sent (out_buf o)).

Definition set_baud (o : output) (rate : Z) : output :=
  {| out_buf := out_buf o; pace_start := pace_start o; pace_len := pace_len o; pace_cps := pace_cps o;
     pace_last := pace_last o; baud_last := baud_last o; baud := rate |}.

(** Giving up the limits before the last flush of a session. *)
Definition drained (o : output) : output :=
  {| out_buf := out_buf o; pace_start := pace_start o; pace_len := 0; pace_cps := pace_cps o;
     pace_last := pace_last o; baud_last := baud_last o; baud := 0 |}.

(** ** What happens to a session's output *)

Inductive event :=
  | Write (data : bytes)
  | Paced (now : timespec) (data : bytes) (rate : Z)
  | Flush (now : timespec) (answers : list answer)
  | SetBaud (rate : Z).

Definition step (o : output) (e : event) : output * bytes :=
  match e with
  | Write data => (ddial_session_write_raw o data, [])
  | Paced now data rate => (ddial_session_write_paced o now data rate, [])
  | Flush now answers => ddial_session_flush o now answers
  | SetBaud rate => (set_baud o rate, [])
  end.

(** The state and everything that went out. *)
Fixpoint run (o : output) (es : list event) : output * bytes :=
  match es with
  | [] => (o, [])
  | e :: t => let (o, w) := step o e in let (o, w') := run o t in (o, w ++ w')
  end.

Definition data_of (e : event) : bytes :=
  match e with Write data | Paced _ data _ => data | _ => [] end.

End Output.

(** ** The input buffer *)

Module Input.

Definition DDIAL_SESSION_INPUT_BUF : nat := 4096.
Definition DDIAL_MAX_LINE_LEN : nat := 1024.
Definition CHUNK : nat := 1024.

(** The place of the first CR LF. *)
Fixpoint find_crlf (buf : bytes) : option nat :=
  match buf with
  | a :: (b :: _) as t => if (a =? c_cr) && (b =? c_lf) then Some 0%nat else S <$> find_crlf t
  | _ => None
  end.

Fixpoint find_lf (buf : bytes) : option nat :=
  match buf with
  | [] => None
  | a :: t => if a =? c_lf then Some 0%nat else S <$> find_lf t
  end.

(** The place and length of the end of the first line. *)
Definition find_eol (buf : bytes) : option (nat * nat) :=
  match find_crlf buf with
  | Some i => Some (i, 2%nat)
  | None => match find_lf buf with Some i => Some (i, 1%nat) | None => None end
  end.

Definition cut_len (line_len : nat) : nat :=
  if (DDIAL_MAX_LINE_LEN <=? line_len)%nat then (DDIAL_MAX_LINE_LEN - 1)%nat else line_len.

(** A CR at the end goes, and the line ends at its first NUL. *)
Definition without_cr (line : bytes) : bytes :=
  match rev line with c :: r => if c =? c_cr then rev r else line | [] => line end.

Definition c_string (line : bytes) : bytes := take_while (fun c => negb (c =? c_nul)) line.

(** The lines handed to [ddial_session_process_line], and what stays in the
    buffer.  A turn of the loop takes at least one byte. *)
Fixpoint process_go (fuel : nat) (buf : bytes) : list bytes * bytes :=
  match fuel with
  | O => ([], buf)
  | S fuel =>
      match find_eol buf with
      | None => ([], buf)
      | Some (line_len, eol_len) =>
          let line_len := cut_len line_len in
          let line := c_string (without_cr (take line_len buf)) in
          let (ls, rest) := process_go fuel (drop (line_len + eol_len) buf) in
          (line :: ls, rest)
      end
  end.

Definition ddial_session_process_input (buf : bytes) : list bytes * bytes :=
  process_go (S (length buf)) buf.

(** One turn of the loop of [ddial_session_thread] that has received a
    chunk. *)
Definition receive (buf chunk : bytes) : list bytes * bytes :=
  let filtered := ddial_filter_telnet_iac chunk CHUNK in
  ddial_session_process_input (buf ++ take (DDIAL_SESSION_INPUT_BUF - length buf) filtered).

(** All chunks that arrive. *)
Fixpoint receive_all (buf : bytes) (chunks : list bytes) : list bytes * bytes :=
  match chunks with
  | [] => ([], buf)
  | c :: t =>
      let (ls, buf) := receive buf c in
      let (ls', buf) := receive_all buf t in (ls ++ ls', buf)
  end.

End Input.

(** ** What goes out *)

Module OutputTheory.
Import Output.

Local Arguments OUT_SIZE : simpl never.
Local Arguments ddial_session_budget : simpl never.

(** The paced region lies within the buffer, and the buffer within its size. *)
Record wf (o : output) : Prop := {
  wf_size : (length (out_buf o) <= OUT_SIZE)%nat;
  wf_pace : (0 < pace_len o)%nat -> (pace_start o + pace_len o <= length (out_buf o))%nat;
}.

Lemma send_go_le answers sent limit : (sent <= limit)%nat -> (send_go answers sent limit <= limit)%nat.
Proof.
  revert sent; induction answers as [|a t IH]; simpl; intros sent H; case_match; try lia.
  destruct a as [[|n]| |]; try lia; apply IH; lia.
Qed.

Lemma pace_limit_le o last now : wf o -> (fst (pace_limit o last now) <= length (out_buf o))%nat.
Proof.
  intros [H1 H2]. unfold pace_limit.
  destruct (Nat.eqb_spec (pace_len o) 0); simpl; [lia|]. specialize (H2 ltac:(lia)).
  destruct (Nat.ltb_spec 0 (pace_start o)); simpl; [lia|].
  destruct (ddial_session_budget last (pace_cps o) now). simpl. unfold at_most. lia.
Qed.

Lemma baud_limit_le o limit last now : (fst (baud_limit o limit last now) <= limit)%nat.
Proof.
  unfold baud_limit. case_match; simpl; [|lia].
  destruct (ddial_session_budget last (baud o / 10) now). simpl. unfold at_most. lia.
Qed.

(** A flush sends what the limits and the network leave of the front of the
    buffer. *)
Lemma flush_spec o now answers o' w : wf o -> ddial_session_flush o now answers = (o', w) ->
  exists sent, (sent <= length (out_buf o))%nat /\ w = take sent (out_buf o) /\
    out_buf o' = drop sent (out_buf o) /\ wf o' /\ baud o' = baud o.
Proof.
  intros Hw. unfold ddial_session_flush.
  pose proof (pace_limit_le o (if (length (out_buf o) =? 0)%nat then now else pace_last o) now Hw) as Hp.
  destruct (pace_limit o _ now) as [limit paced_at]. simpl in Hp.
  pose proof (baud_limit_le o limit (if (length (out_buf o) =? 0)%nat then now else baud_last o) now) as Hb.
  destruct (baud_limit o limit _ now) as [limit' baud_at]. simpl in Hb.
  pose proof (send_go_le answers 0 limit' ltac:(lia)) as Hs. set (sent := send_go answers 0 limit') in *.
  destruct Hw as [H1 H2].
  destruct (Nat.eqb_spec (pace_len o) 0);
    [|destruct (Nat.leb_spec sent (pace_start o))]; intros [= <- <-];
    exists sent; (split_and!; [lia|done|done| |done]);
    split; simpl; rewrite length_drop; lia.
Qed.

Lemma room_prefix o data : room o data `prefix_of` data.
Proof. exists (drop (OUT_SIZE - length (out_buf o)) data). symmetry. apply take_drop. Qed.

Lemma room_all o data : (length data <= OUT_SIZE - length (out_buf o))%nat -> room o data = data.
Proof. apply take_ge. Qed.

(** Each step appends what finds room and takes what goes out from the
    front. *)
Lemma step_spec o e o' w : wf o -> step o e = (o', w) ->
  wf o' /\ w ++ out_buf o' = out_buf o ++ room o (data_of e).
Proof.
  intros Hw. destruct Hw as [H1 H2] eqn:Hw'. clear Hw'.
  assert (forall data, (length (out_buf o ++ room o data) <= OUT_SIZE)%nat) as Hr.
  { intros data. unfold room. rewrite length_app, length_take. lia. }
  destruct e as [data|now data rate|now answers|rate]; simpl.
  - intros [= <- <-]. split; [|done]. specialize (Hr data).
    split; simpl; [done|]. rewrite length_app. lia.
  - intros [= <- <-]. unfold ddial_session_write_paced.
    destruct (Nat.eqb_spec (length (room o data)) 0) as [E|E].
    { split; [done|]. apply nil_length_inv in E. by rewrite E, app_nil_r. }
    specialize (Hr data).
    destruct (Nat.eqb_spec (pace_len o) 0); (split; [|done]); split; simpl; try done;
      rewrite length_app in *; lia.
  - intros E. destruct (flush_spec o now answers o' w Hw E) as (s & Hs & -> & -> & Hw' & _).
    split; [done|]. by rewrite take_drop, (room_all o []), app_nil_r by (simpl; lia).
  - intros [= <- <-]. rewrite (room_all o []), app_nil_r by (simpl; lia). split; [|done]. by split.
Qed.

(** C10: The terminal of a session gets what was written to it, byte by byte and
    in order, whatever the pacing, the network and the clock do: what went out
    and what waits are together the writes, each cut to the room it found, and
    nothing is cut while the buffer has room for all of it. *)
Theorem terminal_gets_stream o es o' w : wf o -> run o es = (o', w) ->
  wf o' /\
  exists kept, Forall2 (fun k e => k `prefix_of` data_of e) kept es /\
    w ++ out_buf o' = out_buf o ++ concat kept /\
    ((length (out_buf o) + length (concat (map data_of es)) <= OUT_SIZE)%nat -> kept = map data_of es).
Proof.
  revert o w; induction es as [|e es IH]; simpl; intros o w Hw E.
  { injection E as <- <-. split; [done|]. exists []. by rewrite app_nil_r. }
  destruct (step o e) as [o1 w1] eqn:E1. destruct (run o1 es) as [o2 w2] eqn:E2. injection E as <- <-.
  destruct (step_spec o e o1 w1 Hw E1) as [Hw1 H1].
  destruct (IH o1 w2 Hw1 E2) as (Hw2 & kept & Hk & H2 & H3). split; [done|].
  exists (room o (data_of e) :: kept). split_and!.
  - by constructor; [apply room_prefix|].
  - simpl. by rewrite <- app_assoc, H2, !app_assoc, H1.
  - rewrite length_app. intros Hl. rewrite (room_all o (data_of e)) in * by lia. f_equal. apply H3.
    apply (f_equal length) in H1. rewrite !length_app in H1. lia.
Qed.

(** ** The rate of the session *)

Lemma elapsed_upper last now : timespec_to_ns last <= timespec_to_ns now ->
  elapsed_ms last now * 1000000 <= timespec_to_ns now - timespec_to_ns last + 1000000.
Proof.
  unfold elapsed_ms, timespec_to_ns. intros H.
  pose proof (Z.quot_rem' (tv_nsec now - tv_nsec last) 1000000).
  pose proof (Z.rem_bound_abs (tv_nsec now - tv_nsec last) 1000000 ltac:(done)). lia.
Qed.

Lemma elapsed_lower last now ms : 0 <= ms ->
  ms * 1000000 <= timespec_to_ns now - timespec_to_ns last -> ms <= elapsed_ms last now.
Proof.
  unfold elapsed_ms, timespec_to_ns. intros H0 H.
  pose proof (Z.quot_rem' (tv_nsec now - tv_nsec last) 1000000).
  pose proof (Z.rem_bound_abs (tv_nsec now - tv_nsec last) 1000000 ltac:(done)). lia.
Qed.

Definition flush_times (es : list event) : list timespec :=
  omap (fun e => match e with Flush now _ => Some now | _ => None end) es.

Definition keeps_baud (e : event) : Prop := match e with SetBaud _ => False | _ => True end.

(** The readings come in order, from [last] on. *)
Fixpoint in_order (last : timespec) (ts : list timespec) : Prop :=
  match ts with
  | [] => True
  | t :: ts => timespec_to_ns last <= timespec_to_ns t /\ in_order t ts
  end.

Lemma in_order_le a b ts : timespec_to_ns a <= timespec_to_ns b -> in_order b ts -> in_order a ts.
Proof. destruct ts; simpl; [done|]. intros ? [? ?]. split; [lia|done]. Qed.

Lemma baud_limit_rate o limit last now l at_ : 0 < baud o -> timespec_to_ns last <= timespec_to_ns now ->
  baud_limit o limit last now = (l, at_) ->
  timespec_to_ns last <= timespec_to_ns at_ <= timespec_to_ns now /\
  Z.of_nat l * 1000000000 <= baud o / 10 * (timespec_to_ns at_ - timespec_to_ns last + 1000000).
Proof.
  intros Hb Ht. assert (0 <= baud o / 10) as Hc by (apply Z.div_pos; lia).
  unfold baud_limit, ddial_session_budget. assert ((baud o =? 0) = false) as -> by lia.
  set (cps := baud o / 10) in *. cbn [negb andb].
  destruct (Nat.ltb_spec 0 limit) as [Hl|Hl]; intros [= <- <-].
  2: { assert (limit = 0%nat) as -> by lia. split; [lia|].
       change (Z.of_nat 0 * 1000000000) with 0. apply Z.mul_nonneg_nonneg; lia. }
  pose proof (elapsed_upper last now Ht) as Hu.
  assert (0 <= elapsed_ms last now) as He by (unfold elapsed_ms; lia).
  set (ms := elapsed_ms last now) in *.
  assert (u64 (cps * ms) <= cps * ms) as Hm by (apply Z.mod_le; lia).
  assert (0 <= u64 (cps * ms)) as Hm0 by (apply Z.mod_pos_bound; lia).
  set (x := u64 (cps * ms)) in *. pose proof (Z.mul_div_le x 1000 ltac:(lia)).
  assert (Z.of_nat (at_most (x / 1000) limit) <= Z.max 0 (x / 1000)) by (unfold at_most; lia).
  assert (cps * (ms * 1000000) <= cps * (timespec_to_ns now - timespec_to_ns last + 1000000))
    by (apply Z.mul_le_mono_nonneg_l; lia).
  destruct (Z.ltb_spec 0 (x / 1000)); (split; [lia|]); [lia|].
  assert (Z.of_nat (at_most (x / 1000) limit) = 0) as -> by lia. apply Z.mul_nonneg_nonneg; lia.
Qed.

(** One flush sends no more than the time since [baud_last] allows. *)
Lemma flush_rate o now answers o' w : wf o -> 0 < baud o ->
  timespec_to_ns (baud_last o) <= timespec_to_ns now ->
  ddial_session_flush o now answers = (o', w) ->
  timespec_to_ns (baud_last o) <= timespec_to_ns (baud_last o') <= timespec_to_ns now /\
  Z.of_nat (length w) * 1000000000 <=
    baud o / 10 * (timespec_to_ns (baud_last o') - timespec_to_ns (baud_last o) + 1000000).
Proof.
  intros Hw Hb Ht. unfold ddial_session_flush.
  destruct (pace_limit o _ now) as [limit paced_at].
  set (last := if (length (out_buf o) =? 0)%nat then now else baud_last o).
  assert (timespec_to_ns (baud_last o) <= timespec_to_ns last <= timespec_to_ns now) as Hl
    by (unfold last; case_match; lia).
  destruct (baud_limit o limit last now) as [l at_] eqn:EB.
  destruct (baud_limit_rate o limit last now l at_ Hb ltac:(lia) EB) as [Ha Hr].
  pose proof (send_go_le answers 0 l ltac:(lia)) as Hs. revert Hs.
  generalize (send_go answers 0 l). intros sent Hs.
  destruct (if (pace_len o =? 0)%nat then _ else _). intros [= <- <-]. cbn [baud_last].
  split; [lia|]. assert (0 <= baud o / 10) by (apply Z.div_pos; lia).
  assert (baud o / 10 * (timespec_to_ns at_ - timespec_to_ns last + 1000000) <=
          baud o / 10 * (timespec_to_ns at_ - timespec_to_ns (baud_last o) + 1000000))
    by (apply Z.mul_le_mono_nonneg_l; lia).
  rewrite length_take. lia.
Qed.

(** C15: A session with a baud rate never gets more bytes than a tenth of the
    rate allows for the time that passed, but for the rounding of a
    millisecond at each flush, whatever is written to it and however the
    network takes it. *)
Theorem baud_bound o es o' w last : wf o -> 0 < baud o -> Forall keeps_baud es ->
  in_order (baud_last o) (flush_times es ++ [last]) -> run o es = (o', w) ->
  Z.of_nat (length w) * 1000000000 <=
    baud o / 10 * (timespec_to_ns last - timespec_to_ns (baud_last o)
                   + 1000000 * Z.of_nat (length (flush_times es))).
Proof.
  intros Hw Hb Hk Ho E.
  cut (timespec_to_ns (baud_last o') <= timespec_to_ns last /\
       Z.of_nat (length w) * 1000000000 <=
       baud o / 10 * (timespec_to_ns (baud_last o') - timespec_to_ns (baud_last o)
                      + 1000000 * Z.of_nat (length (flush_times es)))).
  { assert (0 <= baud o / 10) by (apply Z.div_pos; lia). nia. }
  revert o w Hw Hb Hk Ho E; induction es as [|e es IH]; intros o w Hw Hb Hk Ho E.
  { simpl in *. injection E as <- <-. simpl. lia. }
  simpl in E. destruct (step o e) as [o1 w1] eqn:E1. destruct (run o1 es) as [o2 w2] eqn:E2.
  injection E as <- <-. destruct (step_spec o e o1 w1 Hw E1) as [Hw1 _].
  apply Forall_cons in Hk as [Hk1 Hk]. rewrite length_app.
  assert (0 <= baud o / 10) as Hc by (apply Z.div_pos; lia).
  destruct e as [data|now data rate|now answers|rate]; simpl in E1, Ho; [| | |done].
  - injection E1 as <- <-. exact (IH _ _ Hw1 Hb Hk Ho E2).
  - injection E1 as <- <-.
    assert (baud (ddial_session_write_paced o now data rate) = baud o /\
            baud_last (ddial_session_write_paced o now data rate) = baud_last o) as [B1 B2]
      by (unfold ddial_session_write_paced; repeat case_match; done).
    rewrite <- B1, <- B2 in *. exact (IH _ _ Hw1 Hb Hk Ho E2).
  - destruct (flush_spec o now answers o1 w1 Hw E1) as (_ & _ & _ & _ & _ & B1).
    destruct Ho as [Ho1 Ho2]. destruct (flush_rate o now answers o1 w1 Hw Hb Ho1 E1) as [[T1 T2] R].
    destruct (IH o1 w2 Hw1 ltac:(lia) Hk (in_order_le _ _ _ T2 Ho2) E2) as [T3 R2].
    rewrite B1 in R2. split; [done|]. change (flush_times (Flush now answers :: es)) with (now :: flush_times es).
    simpl length. nia.
Qed.

(** ** Nothing waits for ever *)

Lemma send_all n limit : (limit <= n)%nat -> send_go [Sent n] 0 limit = limit.
Proof. intros H. simpl. destruct (Nat.leb_spec limit 0); [lia|]. destruct n; [lia|]. case_match; lia. Qed.

Definition readable (t : timespec) : Prop := 0 <= timespec_to_ns t <= 4294967295 * 1000000000.

(** After [g] milliseconds there is a budget for a byte. *)
Lemma budget_positive last cps now g : 0 <= g -> 1000 <= cps * g -> cps <= 65535 ->
  readable last -> readable now -> timespec_to_ns last + g * 1000000 <= timespec_to_ns now ->
  ddial_session_budget last cps now = (cps * elapsed_ms last now / 1000, now) /\
  1 <= cps * elapsed_ms last now / 1000.
Proof.
  intros Hg Hc Hm Hl Hn Ht. unfold ddial_session_budget, readable in *.
  assert (0 < cps) by nia.
  pose proof (elapsed_lower last now g Hg ltac:(lia)) as Hlo.
  pose proof (elapsed_upper last now ltac:(lia)) as Hup.
  set (ms := elapsed_ms last now) in *.
  assert (cps * ms <= 65535 * 4294967295001) by (apply Z.mul_le_mono_nonneg; lia).
  assert (cps * g <= cps * ms) by (apply Z.mul_le_mono_nonneg_l; lia).
  rewrite Z.mod_small by lia.
  assert (1 <= cps * ms / 1000) by (apply Z.div_le_lower_bound; lia).
  split; [|done]. f_equal. destruct (Z.ltb_spec 0 (cps * ms / 1000)); [done|lia].
Qed.

(** The rates of a session allow a byte every [g] milliseconds. *)
Definition rates_allow (g : Z) (o : output) : Prop :=
  ((0 < pace_len o)%nat -> 1000 <= pace_cps o * g /\ pace_cps o <= 65535) /\
  (baud o <> 0 -> 1000 <= baud o / 10 * g /\ 0 <= baud o <= 65535).

Definition clocks_before (g : Z) (o : output) (t : timespec) : Prop :=
  readable (pace_last o) /\ readable (baud_last o) /\ readable t /\
  timespec_to_ns (pace_last o) + g * 1000000 <= timespec_to_ns t /\
  timespec_to_ns (baud_last o) + g * 1000000 <= timespec_to_ns t.

Lemma pace_limit_progress o g now : wf o -> 0 <= g -> out_buf o <> [] -> rates_allow g o ->
  clocks_before g o now ->
  (0 < fst (pace_limit o (pace_last o) now))%nat /\
  (snd (pace_limit o (pace_last o) now) = pace_last o \/ snd (pace_limit o (pace_last o) now) = now).
Proof.
  intros [H1 H2] Hg Hne [Ha _] (C1 & _ & C3 & C4 & _). unfold pace_limit.
  assert (0 < length (out_buf o))%nat by (destruct (out_buf o); [done|simpl; lia]).
  destruct (Nat.eqb_spec (pace_len o) 0); [by auto|].
  destruct (Nat.ltb_spec 0 (pace_start o)); [by auto|].
  destruct (Ha ltac:(lia)) as [A1 A2].
  destruct (budget_positive (pace_last o) (pace_cps o) now g) as [-> B]; try done.
  simpl. unfold at_most. split; [lia|by right].
Qed.

Lemma baud_limit_progress o g limit now : 0 <= g -> (0 < limit)%nat -> rates_allow g o ->
  clocks_before g o now ->
  (0 < fst (baud_limit o limit (baud_last o) now))%nat /\
  (snd (baud_limit o limit (baud_last o) now) = baud_last o \/ snd (baud_limit o limit (baud_last o) now) = now).
Proof.
  intros Hg Hl [_ Hb] (_ & C2 & C3 & _ & C5). unfold baud_limit.
  destruct (Z.eqb_spec (baud o) 0) as [E|E]; [by auto|].
  destruct (Nat.ltb_spec 0 limit); [|lia]. cbn [negb andb]. destruct (Hb E) as [B1 B2].
  destruct (budget_positive (baud_last o) (baud o / 10) now g) as [-> B]; try done; [dlia|].
  simpl. unfold at_most. split; [lia|by right].
Qed.

Lemma flush_progress o g now o' w : wf o -> 0 <= g -> out_buf o <> [] -> rates_allow g o ->
  clocks_before g o now -> ddial_session_flush o now [Sent OUT_SIZE] = (o', w) ->
  (length (out_buf o') < length (out_buf o))%nat /\ rates_allow g o' /\
  readable (pace_last o') /\ readable (baud_last o') /\
  timespec_to_ns (pace_last o') <= timespec_to_ns now /\ timespec_to_ns (baud_last o') <= timespec_to_ns now.
Proof.
  intros Hw Hg Hne Hr Hc. unfold ddial_session_flush.
  assert (0 < length (out_buf o))%nat by (destruct (out_buf o); [done|simpl; lia]).
  destruct (Nat.eqb_spec (length (out_buf o)) 0); [lia|].
  destruct (pace_limit_progress o g now Hw Hg Hne Hr Hc) as [P1 P2].
  pose proof (pace_limit_le o (pace_last o) now Hw) as P3.
  destruct (pace_limit o (pace_last o) now) as [limit paced_at]. simpl in P1, P2, P3.
  destruct (baud_limit_progress o g limit now Hg P1 Hr Hc) as [B1 B2].
  pose proof (baud_limit_le o limit (baud_last o) now) as B3.
  destruct (baud_limit o limit (baud_last o) now) as [l baud_at]. simpl in B1, B2, B3.
  destruct Hw as [Hw1 _]. rewrite send_all by lia.
  destruct (if (pace_len o =? 0)%nat then _ else _) as [start len] eqn:EL. intros [= <- <-]. simpl.
  assert (len <= pace_len o)%nat by (repeat case_match; simplify_eq; lia).
  destruct Hc as (C1 & C2 & C3 & C4 & C5). destruct Hr as [R1 R2]. rewrite length_drop.
  split; [lia|]. split; [split; simpl; [intros; apply R1; lia|done]|].
  destruct P2 as [-> | ->], B2 as [-> | ->]; split_and!; try done; lia.
Qed.

(** The flushes come at least [g] milliseconds after each other. *)
Fixpoint spaced (g : Z) (last : timespec) (ts : list timespec) : Prop :=
  match ts with
  | [] => True
  | t :: ts => readable t /\ timespec_to_ns last + g * 1000000 <= timespec_to_ns t /\ spaced g t ts
  end.

Definition flushes (ts : list timespec) : list event := map (fun t => Flush t [Sent OUT_SIZE]) ts.

Lemma drains_from o g ts last : wf o -> 0 <= g -> rates_allow g o ->
  readable (pace_last o) -> readable (baud_last o) ->
  timespec_to_ns (pace_last o) <= timespec_to_ns last -> timespec_to_ns (baud_last o) <= timespec_to_ns last ->
  spaced g last ts -> (length (out_buf o) <= length ts)%nat -> out_buf (fst (run o (flushes ts))) = [].
Proof.
  revert o last; induction ts as [|t ts IH]; simpl; intros o last Hw Hg Hr Hp Hb Lp Lb Hs Hl.
  { by apply nil_length_inv; lia. }
  destruct Hs as (S1 & S2 & S3).
  destruct (ddial_session_flush o t [Sent OUT_SIZE]) as [o1 w1] eqn:E1.
  destruct (flush_spec o t [Sent OUT_SIZE] o1 w1 Hw E1) as (sent & Q1 & _ & Q3 & Hw1 & Q4).
  destruct (run o1 (flushes ts)) as [o2 w2] eqn:E2. change (out_buf (fst (o2, w2)) = []).
  replace o2 with (fst (run o1 (flushes ts))) by (by rewrite E2).
  destruct (decide (out_buf o = [])) as [En|En].
  - assert (out_buf o1 = []) as E3 by (by rewrite Q3, En, drop_nil).
    assert (E4 : forall es o, wf o -> out_buf o = [] -> out_buf (fst (run o (flushes es))) = []).
    { clear. induction es as [|e es IH]; simpl; intros o Hw H; [done|].
      destruct (ddial_session_flush o e [Sent OUT_SIZE]) as [o1 w1] eqn:E1.
      destruct (flush_spec o e [Sent OUT_SIZE] o1 w1 Hw E1) as (sent & _ & _ & Q3 & Hw1 & _).
      rewrite H, drop_nil in Q3. specialize (IH o1 Hw1 Q3). by destruct (run o1 (flushes es)). }
    by apply E4.
  - destruct (flush_progress o g t o1 w1) as (F1 & F2 & F3 & F4 & F5 & F6); try done.
    { unfold clocks_before. split_and!; try done; lia. }
    apply (IH o1 t); try done. lia.
Qed.

(** C25: Whatever waits for a session goes out: when the terminal takes what it
    is offered and the flushes come far enough apart for one byte at the rates
    of the session, the buffer is empty after as many flushes as it held
    bytes. *)
Theorem output_drains o g ts last : wf o -> 0 <= g -> rates_allow g o ->
  readable (pace_last o) -> readable (baud_last o) ->
  timespec_to_ns (pace_last o) <= timespec_to_ns last -> timespec_to_ns (baud_last o) <= timespec_to_ns last ->
  spaced g last ts -> (length (out_buf o) <= length ts)%nat ->
  exists o', run o (flushes ts) = (o', out_buf o) /\ out_buf o' = [].
Proof.
  intros Hw Hg Hr Hp Hb Lp Lb Hs Hl.
  pose proof (drains_from o g ts last Hw Hg Hr Hp Hb Lp Lb Hs Hl) as Hd.
  assert (H : forall es o, wf o -> snd (run o (flushes es)) ++ out_buf (fst (run o (flushes es))) = out_buf o).
  { clear. induction es as [|t es IH]; simpl; intros o Hw; [done|].
    destruct (ddial_session_flush o t [Sent OUT_SIZE]) as [o1 w1] eqn:E1.
    destruct (flush_spec o t [Sent OUT_SIZE] o1 w1 Hw E1) as (sent & _ & -> & Q3 & Hw1 & _).
    specialize (IH o1 Hw1). destruct (run o1 (flushes es)) as [o2 w2]. simpl in *.
    by rewrite <- app_assoc, IH, Q3, take_drop. }
  specialize (H ts o Hw). destruct (run o (flushes ts)) as [o' w']. simpl in *.
  exists o'. split; [|done]. f_equal. by rewrite Hd, app_nil_r in H.
Qed.

End OutputTheory.

(** ** What comes in *)

Module InputTheory.
Import Input.

Local Arguments DDIAL_SESSION_INPUT_BUF : simpl never.
Local Arguments DDIAL_MAX_LINE_LEN : simpl never.
Local Arguments CHUNK : simpl never.

Inductive ending := CrLf | Lf.

Definition eol (e : ending) : bytes := match e with CrLf => [c_cr; c_lf] | Lf => [c_lf] end.

(** A byte of a line: no NUL, LF, CR or IAC. *)
Definition text_byte (c : Z) : Prop := c <> c_nul /\ c <> c_lf /\ c <> c_cr /\ c <> 255.

Definition line_ok (l : bytes) : Prop := Forall text_byte l /\ (length l < DDIAL_MAX_LINE_LEN)%nat.

Definition stream (e : ending) (ls : list bytes) : bytes := concat (map (fun l => l ++ eol e) ls).

(** What can stand in the buffer between two reads. *)
Definition pending (e : ending) (q : bytes) : Prop :=
  Forall (fun c => c <> c_lf /\ (e = Lf -> c <> c_cr)) q.

Lemma find_crlf_none buf : Forall (fun c => c <> c_lf) buf \/ Forall (fun c => c <> c_cr) buf ->
  find_crlf buf = None.
Proof.
  induction buf as [|a [|b t] IH]; [done..|].
  intros H. change (find_crlf (a :: b :: t)) with
    (if (a =? c_cr) && (b =? c_lf) then Some 0%nat else S <$> find_crlf (b :: t)).
  rewrite IH by (destruct H as [H|H]; [left|right]; by apply Forall_cons in H as [_ H]).
  assert ((a =? c_cr) && (b =? c_lf) = false) as ->; [|done].
  destruct H as [H|H]; apply Forall_cons in H as [H1 H]; [apply Forall_cons in H as [H2 _]|]; lia.
Qed.

Lemma find_lf_none buf : Forall (fun c => c <> c_lf) buf -> find_lf buf = None.
Proof.
  induction 1 as [|a t Ha _ IH]; [done|]. simpl. rewrite IH.
  by destruct (Z.eqb_spec a c_lf).
Qed.

Lemma find_crlf_line l rest : Forall (fun c => c <> c_cr) l ->
  find_crlf (l ++ [c_cr; c_lf] ++ rest) = Some (length l).
Proof.
  induction 1 as [|a t Ha Ht IH]; [done|]. simpl app in *.
  destruct (t ++ c_cr :: c_lf :: rest) as [|b u] eqn:E; [by destruct t|].
  change (find_crlf (a :: b :: u)) with (if (a =? c_cr) && (b =? c_lf) then Some 0%nat else S <$> find_crlf (b :: u)).
  rewrite IH. by assert ((a =? c_cr) = false) as -> by lia.
Qed.

Lemma find_lf_line l rest : Forall (fun c => c <> c_lf) l -> find_lf (l ++ c_lf :: rest) = Some (length l).
Proof.
  induction 1 as [|a t Ha _ IH]; [done|]. simpl. rewrite IH. by assert ((a =? c_lf) = false) as -> by lia.
Qed.

Lemma text_not (P : Z -> Prop) l : Forall text_byte l -> (forall c, text_byte c -> P c) -> Forall P l.
Proof. intros H HP. eapply Forall_impl; [exact H|done]. Qed.

Ltac text_byte_tac := eapply text_not; [eassumption|]; unfold text_byte; intros ? (?&?&?&?); cbn beta; tauto.

Lemma eol_of_line e l rest : Forall text_byte l -> (e = Lf -> Forall (fun c => c <> c_cr) rest) ->
  find_eol (l ++ eol e ++ rest) = Some (length l, length (eol e)).
Proof.
  intros Hl Hr. unfold find_eol. destruct e.
  - rewrite find_crlf_line; [done|]. text_byte_tac.
  - rewrite find_crlf_none.
    + change (eol Lf ++ rest) with (c_lf :: rest). rewrite find_lf_line; [done|].
      text_byte_tac.
    + right. apply Forall_app. split; [text_byte_tac|].
      apply Forall_app. split; [by repeat constructor|by apply Hr].
Qed.

Lemma stream_cons e l ls : stream e (l :: ls) = l ++ eol e ++ stream e ls.
Proof. unfold stream. simpl. by rewrite <- app_assoc. Qed.

Lemma stream_app e ls1 ls2 : stream e (ls1 ++ ls2) = stream e ls1 ++ stream e ls2.
Proof. unfold stream. by rewrite map_app, concat_app. Qed.

Lemma stream_no_cr ls : Forall line_ok ls -> Forall (fun c => c <> c_cr) (stream Lf ls).
Proof.
  induction 1 as [|l ls [Hl _] _ IH]; [by constructor|]. rewrite stream_cons, !Forall_app. split_and!; [|by repeat constructor|done].
  text_byte_tac.
Qed.

Lemma clean_line l : Forall text_byte l -> c_string (without_cr l) = l.
Proof.
  intros H. assert (without_cr l = l) as ->.
  { unfold without_cr. destruct (rev l) as [|c r] eqn:E; [done|].
    assert (In c l) as Hc by (apply in_rev; rewrite E; by left). rewrite Forall_forall in H.
    destruct (H c) as (_ & _ & Hn & _); [by apply list_elem_of_In|]. by assert ((c =? c_cr) = false) as -> by lia. }
  apply take_while_all. eapply Forall_impl; [exact H|]. intros c (Hc & _). simpl. lia.
Qed.

(** The lines that are complete come out, what is pending stays. *)
Lemma process_stream e ls q fuel : Forall line_ok ls -> pending e q ->
  (length (stream e ls ++ q) < fuel)%nat -> process_go fuel (stream e ls ++ q) = (ls, q).
Proof.
  intros Hls Hq. revert fuel; induction Hls as [|l ls [Hl Hn] Hls IH]; intros fuel Hf.
  - destruct fuel; [done|]. cbn [process_go stream map concat app]. unfold find_eol.
    rewrite find_crlf_none, find_lf_none; [done| |left]; (eapply Forall_impl; [exact Hq|]; by intros ? [? ?]).
  - destruct fuel; [lia|]. rewrite stream_cons, <- !app_assoc in *. cbn [process_go].
    rewrite eol_of_line; [|done|].
    2: { intros ->. apply Forall_app. split; [by apply stream_no_cr|]. eapply Forall_impl; [exact Hq|]. cbn beta. intros ? [? H]. by apply H. }
    unfold cut_len. destruct (Nat.leb_spec DDIAL_MAX_LINE_LEN (length l)); [lia|].
    rewrite take_app_length, clean_line by done.
    rewrite app_assoc, drop_app_length' by (by rewrite length_app).
    rewrite IH; [done|]. rewrite !length_app in Hf. rewrite length_app. destruct e; simpl in Hf; lia.
Qed.

(** Whatever part of the stream has come is some complete lines and a pending
    one. *)
Lemma stream_prefix e ls p s : Forall line_ok ls -> p ++ s = stream e ls ->
  exists k q, p = stream e (take k ls) ++ q /\ pending e q /\ (length q <= DDIAL_MAX_LINE_LEN)%nat /\
    q ++ s = stream e (drop k ls).
Proof.
  intros H. revert p; induction H as [|l ls [Hl Hn] Hls IH]; intros p E.
  { exists 0%nat, []. apply app_eq_nil in E as [-> ->]. split_and!; [done|by constructor|simpl; lia|done]. }
  rewrite stream_cons in E.
  destruct (Nat.le_gt_cases (length (l ++ eol e)) (length p)) as [Hp|Hp].
  - rewrite app_assoc in E.
    assert (p = (l ++ eol e) ++ drop (length (l ++ eol e)) p) as E1.
    { rewrite <- (take_drop (length (l ++ eol e)) p) at 1. f_equal.
      apply (f_equal (take (length (l ++ eol e)))) in E. rewrite take_app_length, take_app_le in E by done. done. }
    rewrite E1, <- !app_assoc in E. apply app_inv_head in E. apply app_inv_head in E.
    destruct (IH _ E) as (k & q & Q1 & Q2 & Q3 & Q4). exists (S k), q. split_and!; try done.
    rewrite E1, Q1. change (take (S k) (l :: ls)) with (l :: take k ls). by rewrite stream_cons, !app_assoc.
  - exists 0%nat, p. split_and!; [done| | |].
    + assert (p `prefix_of` l ++ removelast (eol e)) as [u Hu].
      { assert (l ++ eol e = (l ++ removelast (eol e)) ++ [c_lf]) as E2 by (destruct e; by rewrite <- app_assoc).
        exists (drop (length p) (l ++ removelast (eol e))).
        apply (f_equal (take (length p))) in E. rewrite take_app_length, app_assoc, E2, <- app_assoc, take_app_le in E
          by (rewrite E2, length_app in Hp; simpl in Hp; lia).
        by rewrite E at 1; rewrite take_drop. }
      assert (Forall (fun c => c <> c_lf /\ (e = Lf -> c <> c_cr)) (l ++ removelast (eol e))) as F.
      { apply Forall_app. split; [text_byte_tac|]. by destruct e; repeat constructor. }
      rewrite Hu in F. by apply Forall_app in F as [F _].
    + rewrite length_app in Hp. destruct e; simpl in Hp; lia.
    + change (drop 0 (l :: ls)) with (l :: ls). by rewrite stream_cons.
Qed.

Lemma stream_plain e ls : Forall line_ok ls -> Forall (fun c => c <> 255) (stream e ls).
Proof.
  induction 1 as [|l ls [Hl _] _ IH]; [by constructor|]. rewrite stream_cons, !Forall_app.
  split_and!; [text_byte_tac|by destruct e; repeat constructor|done].
Qed.

Lemma filter_plain c : Forall (fun c => c <> 255) c -> (length c < CHUNK)%nat ->
  ddial_filter_telnet_iac c CHUNK = c.
Proof.
  unfold ddial_filter_telnet_iac. generalize CHUNK. intros n H. revert n.
  induction H as [|a t Ha _ IH]; intros n Hl; simpl in Hl; (destruct n; [lia|]); [done|].
  cbn [telnet_iac_go]. assert ((a =? 255) = false) as -> by lia. destruct n; [lia|]. cbn [negb]. f_equal. apply IH; lia.
Qed.

(** C16: However the typed text is cut into reads shorter than the buffer of one
    read, the session is handed exactly its lines, in order, as long as they
    are shorter than the line buffer and end alike, all in CR LF or all in
    LF. *)
Theorem lines_however_cut e ls chunks : Forall line_ok ls -> Forall (fun c => (length c < CHUNK)%nat) chunks ->
  concat chunks = stream e ls -> receive_all [] chunks = (ls, []).
Proof.
  intros Hls Hc. cut (forall buf, pending e buf -> (length buf <= DDIAL_MAX_LINE_LEN)%nat ->
    buf ++ concat chunks = stream e ls -> receive_all buf chunks = (ls, [])).
  { intros H E. apply H; [by constructor|simpl; lia|done]. }
  revert ls Hls; induction Hc as [|c chunks Hc _ IH]; intros ls Hls buf Hp Hb E.
  - simpl in *. rewrite app_nil_r in E. subst buf. destruct ls as [|l ls]; [done|].
    rewrite stream_cons in Hp. unfold pending in Hp. rewrite !Forall_app in Hp. destruct Hp as (_ & Hp & _).
    exfalso. destruct e; repeat apply Forall_cons in Hp as [? Hp]; tauto.
  - cbn [receive_all concat] in *. unfold receive.
    rewrite app_assoc in E.
    assert (Forall (fun c => c <> 255) c) as Hplain.
    { pose proof (stream_plain e ls Hls) as F. rewrite <- E, !Forall_app in F. tauto. }
    rewrite filter_plain, take_ge by (done || (unfold CHUNK, DDIAL_SESSION_INPUT_BUF, DDIAL_MAX_LINE_LEN in *; lia)).
    destruct (stream_prefix e ls (buf ++ c) _ Hls E) as (k & q & Q1 & Q2 & Q3 & Q4).
    unfold ddial_session_process_input. rewrite Q1, process_stream; [|by apply Forall_take|done|lia].
    rewrite (IH (drop k ls)); [by rewrite take_drop|by apply Forall_drop|done|done|done].
Qed.

(** C40: A line end that does not come within the first 4096 bytes never comes:
    from then on the session is handed no line any more, whatever is typed. *)
Theorem long_line_deafens chunks more : Forall (fun c => (length c < CHUNK)%nat) chunks ->
  Forall (fun c => c <> c_lf /\ c <> 255) (concat chunks) ->
  (DDIAL_SESSION_INPUT_BUF <= length (concat chunks))%nat ->
  receive_all [] (chunks ++ more) = ([], take DDIAL_SESSION_INPUT_BUF (concat chunks)).
Proof.
  intros Hc Hn Hl.
  assert (Hfull : forall buf cs, (DDIAL_SESSION_INPUT_BUF <= length buf)%nat -> Forall (fun c => c <> c_lf) buf ->
    receive_all buf cs = ([], buf)).
  { intros buf cs Hb Hf. induction cs as [|c cs IH]; [done|]. cbn [receive_all]. unfold receive.
    replace (DDIAL_SESSION_INPUT_BUF - length buf)%nat with 0%nat by lia. rewrite take_0, app_nil_r.
    unfold ddial_session_process_input. cbn [process_go]. unfold find_eol.
    rewrite find_crlf_none, find_lf_none by auto. by rewrite IH. }
  cut (forall buf, Forall (fun c => c <> c_lf) buf -> (length buf <= DDIAL_SESSION_INPUT_BUF)%nat ->
    (DDIAL_SESSION_INPUT_BUF <= length (buf ++ concat chunks))%nat ->
    receive_all buf (chunks ++ more) = ([], take DDIAL_SESSION_INPUT_BUF (buf ++ concat chunks))).
  { intros H. apply (H []); [by constructor|simpl; lia|done]. }
  clear Hl. induction Hc as [|c cs Hc _ IH]; intros buf Hb Hb1 Hb2.
  - simpl in *. rewrite app_nil_r in *. rewrite take_ge by lia. by apply Hfull.
  - simpl app in *. cbn [concat receive_all] in *. apply Forall_app in Hn as [Hn1 Hn2]. unfold receive.
    rewrite filter_plain; [|eapply Forall_impl; [exact Hn1|cbn beta; tauto]|done].
    set (buf' := buf ++ take (DDIAL_SESSION_INPUT_BUF - length buf) c).
    assert (Forall (fun c => c <> c_lf) buf') as Hb'.
    { apply Forall_app. split; [done|]. apply Forall_take. eapply Forall_impl; [exact Hn1|cbn beta; tauto]. }
    unfold ddial_session_process_input. cbn [process_go]. unfold find_eol.
    rewrite find_crlf_none, find_lf_none by auto.
    destruct (Nat.le_gt_cases (length c) (DDIAL_SESSION_INPUT_BUF - length buf)) as [Hle|Hgt].
    + unfold buf' in *. rewrite take_ge in * by lia. rewrite !length_app in *. rewrite app_assoc.
      rewrite IH; [done|done|done|rewrite length_app; lia|rewrite !length_app; lia].
    + rewrite Hfull; [|unfold buf'; rewrite length_app, length_take; lia|done].
      f_equal. unfold buf'. rewrite app_assoc, take_app_le by (rewrite length_app; lia).
      by rewrite take_app, (take_ge buf) by lia.
Qed.

(** A line of the line buffer's size or more is handed over cut, and the two
    bytes after the cut are taken for its end. *)
Theorem long_line_loses_bytes l rest : Forall (fun c => c <> c_cr /\ c <> c_lf /\ c <> c_nul) l ->
  (DDIAL_MAX_LINE_LEN <= length l)%nat ->
  exists fuel, ddial_session_process_input (l ++ crlf ++ rest) =
    let (ls, q) := process_go fuel (drop (DDIAL_MAX_LINE_LEN + 1) (l ++ crlf ++ rest)) in
    (take (DDIAL_MAX_LINE_LEN - 1) l :: ls, q).
Proof.
  intros Hl Hn. exists (length (l ++ crlf ++ rest)). unfold ddial_session_process_input. cbn [process_go].
  assert (find_eol (l ++ crlf ++ rest) = Some (length l, 2%nat)) as ->.
  { unfold find_eol. change (crlf ++ rest) with ([c_cr; c_lf] ++ rest). rewrite find_crlf_line; [done|].
    eapply Forall_impl; [exact Hl|cbn beta; tauto]. }
  unfold cut_len. destruct (Nat.leb_spec DDIAL_MAX_LINE_LEN (length l)); [|lia].
  assert (0 < DDIAL_MAX_LINE_LEN)%nat by (unfold DDIAL_MAX_LINE_LEN; lia).
  replace (DDIAL_MAX_LINE_LEN - 1 + 2)%nat with (DDIAL_MAX_LINE_LEN + 1)%nat by lia.
  rewrite take_app_le by lia. set (t := take (DDIAL_MAX_LINE_LEN - 1) l).
  assert (c_string (without_cr t) = t) as ->; [|done].
  assert (Forall (fun c => c <> c_cr /\ c <> c_lf /\ c <> c_nul) t) as Ht by by apply Forall_take.
  assert (without_cr t = t) as ->.
  { unfold without_cr. destruct (rev t) as [|c r] eqn:E; [done|].
    assert (In c t) as Hc by (apply in_rev; rewrite E; by left). rewrite Forall_forall in Ht.
    destruct (Ht c) as (Hcr & _); [by apply list_elem_of_In|]. by assert ((c =? c_cr) = false) as -> by lia. }
  apply take_while_all. eapply Forall_impl; [exact Ht|]. simpl. intros c Hc. lia.
Qed.

(** Two lines with different ends that come in one read are one line, with the
    first end inside; in two reads they are two. *)
Example mixed_endings :
  fst (receive_all [] [[c_a; c_lf; c_e; c_cr; c_lf]]) = [[c_a; c_lf; c_e]] /\
  fst (receive_all [] [[c_a; c_lf]; [c_e; c_cr; c_lf]]) = [[c_a]; [c_e]].
Proof. done. Qed.

(** A read that fills its buffer loses its last byte in the telnet filter. *)
Theorem full_read_loses_byte c : Forall (fun c => c <> 255) c -> length c = CHUNK ->
  ddial_filter_telnet_iac c CHUNK = take (CHUNK - 1) c.
Proof.
  unfold ddial_filter_telnet_iac. generalize CHUNK. intros n H. revert n.
  induction H as [|a t Ha Ht IH]; intros n Hl; simpl in Hl; subst n; [done|].
  cbn [telnet_iac_go]. assert ((a =? 255) = false) as -> by lia. cbn [negb].
  destruct t as [|b t]; [done|]. simpl length in *. rewrite (IH (S (length t))) by done.
  simpl. by rewrite Nat.sub_0_r.
Qed.

End InputTheory.

(** ** Samples *)

Module ServerSamples.
Import Output OutputTheory Input InputTheory.

Definition at_ms (ms : Z) : timespec := {| tv_sec := ms / 1000; tv_nsec := ms mod 1000 * 1000000 |}.

(** A slow terminal: a line is written, part of it goes out at 300 baud. *)
Definition slow : output :=
  {| out_buf := []; pace_start := 0; pace_len := 0; pace_cps := 0;
     pace_last := at_ms 1000; baud_last := at_ms 1000; baud := 300 |}.

Definition slow_events : list event :=
  [Write (lit "hello, world"); Flush (at_ms 1100) [Sent 100]; Paced (at_ms 1110) (lit " and good night") 1200;
   Flush (at_ms 1200) [Interrupted; Sent 2; Sent 100]; Flush (at_ms 1300) []].

Example slow_run : snd (run slow slow_events) = lit "hello," /\
  out_buf (fst (run slow slow_events)) = lit " world and good night".
Proof. vm_compute. done. Qed.

Lemma slow_wf : wf slow.
Proof. split; simpl; lia. Qed.

Lemma terminal_gets_stream_witness :
  let (o', w) := run slow slow_events in
  wf o' /\ exists kept, Forall2 (fun k e => k `prefix_of` data_of e) kept slow_events /\
    w ++ out_buf o' = concat kept.
Proof.
  destruct (run slow slow_events) as [o' w] eqn:E.
  destruct (terminal_gets_stream slow slow_events o' w slow_wf E) as (H1 & kept & H2 & H3 & _).
  split; [exact H1|]. exists kept. split; [exact H2|exact H3].
Defined.

Lemma baud_bound_witness :
  Z.of_nat (length (snd (run slow slow_events))) * 1000000000 <= 30 * (300 * 1000000 + 1000000 * 3).
Proof.
  destruct (run slow slow_events) as [o' w] eqn:E.
  refine (baud_bound slow slow_events o' w (at_ms 1300) slow_wf _ _ _ E); [done|by repeat constructor|vm_compute; repeat split; discriminate].
Defined.

Definition waiting : output :=
  {| out_buf := lit "good night"; pace_start := 2; pace_len := 8; pace_cps := 30;
     pace_last := at_ms 900; baud_last := at_ms 1000; baud := 300 |}.

Lemma waiting_wf : wf waiting.
Proof. split; [|intros _]; apply Nat.leb_le; by vm_compute. Qed.

Lemma output_drains_witness :
  exists o', run waiting (flushes (map (fun i => at_ms (1000 + 100 * Z.of_nat i)) (seq 1 10))) = (o', lit "good night") /\
    out_buf o' = [].
Proof.
  refine (output_drains waiting 100 _ (at_ms 1000) waiting_wf _ _ _ _ _ _ _ _); try (vm_compute; repeat split; discriminate).
  apply Nat.leb_le. vm_compute. done.
Defined.

Definition typed : list bytes := [lit "alice"; []; lit "/s"].

Lemma typed_ok : Forall line_ok typed.
Proof. unfold typed, line_ok, text_byte. apply (bool_decide_unpack _). by vm_compute. Qed.

Lemma lines_however_cut_witness :
  receive_all [] [lit "al"; lit "ice" ++ [c_cr]; [c_lf; c_cr; c_lf; c_slash]; lit "s"; [c_cr]; [c_lf]] = (typed, []).
Proof.
  apply (lines_however_cut CrLf); [exact typed_ok| |done].
  unfold CHUNK. apply (bool_decide_unpack _). by vm_compute.
Defined.

Lemma long_line_deafens_witness :
  fst (receive_all [] (replicate 5 (replicate 1000 c_a) ++ [[c_cr; c_lf]; lit "/q"; [c_cr; c_lf]])) = [].
Proof.
  rewrite (long_line_deafens (replicate 5 (replicate 1000 c_a))); [done| | |].
  - apply Forall_replicate. rewrite length_replicate. unfold CHUNK. lia.
  - apply (Forall_impl (fun c => c = c_a)); [|intros ? ->; lia].
    apply Forall_concat, Forall_replicate, Forall_replicate. done.
  - by apply Nat.leb_le.
Defined.

End ServerSamples.
