(* ===== verification/DdialText.v ===== *)
(** What the command layer of the dial-in station does to texts: the line
    lists, numbers, mentions, fun transformations and colours of
    [src/host/ddial/magviz.c].

    Strings are byte lists without their terminator; [rand] is a list of the
    numbers drawn. *)

From Stdlib Require Import ZArith Lia String Ascii.
From stdpp Require Import prelude gmap.
From S2P Require Import Prelude DdialProtocol.
Import Wire.

(** ** Line lists *)

Module Slots.

Definition DDIAL_MV_SLOT_LIST : nat := 16.

Abbreviation slot_list := (list Z).

Definition mv_list_contains (l : slot_list) (v : Z) : bool := existsb (Z.eqb v) l.

Definition mv_list_add (l : slot_list) (v : Z) : slot_list * bool :=
  if mv_list_contains l v then (l, true)
  else if (DDIAL_MV_SLOT_LIST <=? length l)%nat then (l, false)
  else (l ++ [v], true).

(** The first entry with the value is replaced by the last one. *)
Fixpoint find_slot (l : slot_list) (v : Z) : option nat :=
  match l with
  | [] => None
  | x :: t => if x =? v then Some 0%nat else S <$> find_slot t v
  end.

Definition mv_list_remove (l : slot_list) (v : Z) : slot_list * bool :=
  match find_slot l v with
  | Some i => (take (length l - 1) (<[i := nth (length l - 1) l 0]> l), true)
  | None => (l, false)
  end.

Definition mv_list_toggle (l : slot_list) (v : Z) : slot_list * bool :=
  let (l, removed) := mv_list_remove l v in
  if removed then (l, false) else mv_list_add l v.

(** A decimal number below [2 ^ 32], and what follows it. *)
Fixpoint parse_uint_go (s : bytes) (value : Z) : option (Z * bytes) :=
  match s with
  | c :: t =>
      if isdigit c then
        let value := value * 10 + (c - c_0) in
        if 4294967295 <? value then None else parse_uint_go t value
      else Some (value, s)
  | [] => Some (value, [])
  end.

Definition mv_parse_uint (p : bytes) : option (Z * bytes) :=
  if isdigit (peek p) then parse_uint_go p 0 else None.

(** The numbers of ["#,#,#"] and what follows them. *)
Fixpoint parse_csv_go (fuel : nat) (s : bytes) (l : slot_list) : slot_list * bytes :=
  match fuel with
  | O => (l, s)
  | S fuel =>
      match mv_parse_uint s with
      | None => (l, s)
      | Some (v, s) =>
          let l := if v =? 0 then l else fst (mv_list_add l v) in
          if peek s =? c_comma then parse_csv_go fuel (drop 1 s) l else (l, s)
      end
  end.

Definition mv_parse_slot_csv (p : bytes) : slot_list * bytes := parse_csv_go (S (length p)) p [].

Definition mv_skip_ws (p : bytes) : bytes := skip_while (fun c => (c =? c_space) || (c =? 9)) p.

End Slots.

(** ** Messages *)

Module Text.
Import Slots.

Definition DDIAL_MV_TEXT_LIMIT : nat := 512.

Definition isalpha (c : Z) : bool := isupper c || islower c.

(** [strncasecmp (s, p, strlen (p)) == 0]. *)
Definition case_prefix (p s : bytes) : bool := is_prefix (map tolower p) (map tolower s).

Fixpoint mentions_go (body handle : bytes) : bool :=
  match body with
  | [] => false
  | c :: t =>
      (c =? c_at) && case_prefix handle t && negb (isalnum (nthb t (length handle))) || mentions_go t handle
  end.

Definition mv_mentions (body handle : bytes) : bool :=
  negb (length handle =? 0)%nat && mentions_go body handle.

(** [mv_out_put] and [mv_out_putn]. *)
Definition mv_out_put (cap : nat) (buf s : bytes) : bytes := buf ++ take (cap - length buf - 1) s.

Definition k_mv_lorem : list bytes :=
  map lit ["lorem"; "ipsum"; "dolor"; "sit"; "amet"; "consectetur"; "adipiscing"; "elit"; "sed"; "do";
           "eiusmod"; "tempor"; "incididunt"; "ut"; "labore"; "et"; "dolore"; "magna"; "aliqua"; "enim";
           "minim"; "veniam"; "quis"; "nostrud"; "exercitation"; "ullamco"; "laboris"; "nisi"; "aliquip"]%string.

(** The next random number; the list stands for the endless sequence of
    [rand] and continues with 0. *)
Definition draw (rand : list Z) : Z * list Z := match rand with [] => (0, []) | r :: t => (r, t) end.

Fixpoint lorem_go (cap : nat) (src : bytes) (rand : list Z) (in_word : bool) (out : bytes) : bytes :=
  match src with
  | [] => out
  | c :: t =>
      if isspace c then lorem_go cap t rand false (mv_out_put cap out [c])
      else if in_word then lorem_go cap t rand true out
      else
        let (r, rand) := draw rand in
        lorem_go cap t rand true (mv_out_put cap out (nth (Z.to_nat (r mod 29)) k_mv_lorem []))
  end.

Definition mv_lorem (src : bytes) (cap : nat) (rand : list Z) : bytes := lorem_go cap src rand false [].

(** A byte that continues a character of UTF-8. *)
Definition continues (c : Z) : bool := Z.land c 192 =? 128.

(** The characters of a text: each starts at a byte that continues none, but
    for the first. *)
Fixpoint chars (s : bytes) : list bytes :=
  match s with
  | [] => []
  | c :: t =>
      match chars t with
      | [] => [[c]]
      | g :: gs => if continues (peek g) then (c :: g) :: gs else [c] :: g :: gs
      end
  end.

(** The loop walks from the end, so each round finds the last character. *)
Definition mv_reverse (s : bytes) : bytes :=
  if (DDIAL_MV_TEXT_LIMIT * 2 <=? length s)%nat then s else concat (rev (chars s)).

Definition swap (s : bytes) (i j : nat) : bytes := <[i := nth j s 0]> (<[j := nth i s 0]> s).

(** The loop over [k], from the last inner letter down to the third. *)
Fixpoint shuffle_go (k : nat) (word : bytes) (rand : list Z) : bytes * list Z :=
  match k with
  | O | S O => (word, rand)
  | S k' =>
      let (r, rand) := draw rand in
      shuffle_go k' (swap word k (1 + Z.to_nat (r mod Z.of_nat k))) rand
  end.

Definition shuffle_word (word : bytes) (rand : list Z) : bytes * list Z :=
  if (3 <? length word)%nat then shuffle_go (length word - 2) word rand else (word, rand).

Fixpoint scramble_go (fuel : nat) (s : bytes) (rand : list Z) : bytes :=
  match fuel with
  | O => s
  | S fuel =>
      match s with
      | [] => []
      | c :: t =>
          if isalpha c then
            let (word, rand) := shuffle_word (take_while isalpha s) rand in
            word ++ scramble_go fuel (skip_while isalpha s) rand
          else c :: scramble_go fuel t rand
      end
  end.

Definition mv_scramble (s : bytes) (rand : list Z) : bytes := scramble_go (length s) s rand.

Fixpoint alternate_go (s : bytes) (upper : bool) : bytes :=
  match s with
  | [] => []
  | c :: t =>
      if isalpha c then (if upper then toupper c else tolower c) :: alternate_go t (negb upper)
      else c :: alternate_go t upper
  end.

Definition mv_alternate_case (s : bytes) : bytes := alternate_go s true.

(** [handle_of] is [mv_slot_handle]. *)
Fixpoint resolve_go (fuel : nat) (handle_of : Z -> option bytes) (cap : nat) (src out : bytes) : bytes :=
  match fuel with
  | O => out
  | S fuel =>
      match src with
      | [] => out
      | c :: t =>
          let plain := resolve_go fuel handle_of cap t (mv_out_put cap out [c]) in
          if (c =? c_at) && isdigit (peek t) then
            match mv_parse_uint t with
            | Some (slot, q) =>
                if slot <=? UINT16_MAX then
                  match handle_of slot with
                  | Some handle =>
                      resolve_go fuel handle_of cap q (mv_out_put cap (mv_out_put cap out [c_at]) handle)
                  | None => plain
                  end
                else plain
            | None => plain
            end
          else plain
      end
  end.

Definition mv_resolve_mentions (handle_of : Z -> option bytes) (src : bytes) (cap : nat) : bytes :=
  resolve_go (length src) handle_of cap src [].

End Text.

(** ** Colours *)

Module Colour.
Import Slots Text.

Record mv_rgb := { r_ : Z; g_ : Z; b_ : Z }.

Definition black : mv_rgb := {| r_ := 0; g_ := 0; b_ := 0 |}.

Definition mv_hexval (c : Z) : option Z :=
  if (48 <=? c) && (c <=? 57) then Some (c - 48)
  else
    let c := tolower c in
    if (97 <=? c) && (c <=? 102) then Some (c - 97 + 10) else None.

Definition mv_hex6 (s : bytes) : option mv_rgb :=
  match mv_hexval (nthb s 0), mv_hexval (nthb s 1), mv_hexval (nthb s 2),
        mv_hexval (nthb s 3), mv_hexval (nthb s 4), mv_hexval (nthb s 5) with
  | Some v0, Some v1, Some v2, Some v3, Some v4, Some v5 =>
      Some {| r_ := v0 * 16 + v1; g_ := v2 * 16 + v3; b_ := v4 * 16 + v5 |}
  | _, _, _, _, _, _ => None
  end.

(** The colour of the xterm palette for a 24-bit colour. *)
Definition mv_ansi256 (c : mv_rgb) : Z :=
  let max := Z.max (r_ c) (Z.max (g_ c) (b_ c)) in
  let min := Z.min (r_ c) (Z.min (g_ c) (b_ c)) in
  if max - min <? 12 then
    if max <? 8 then 16 else if 238 <? max then 231 else 232 + (max - 8) / 10
  else
    let r := (r_ c * 5 + 127) / 255 in
    let g := (g_ c * 5 + 127) / 255 in
    let b := (b_ c * 5 + 127) / 255 in
    16 + 36 * r + 6 * g + b.

Inductive mv_color_mode :=
  | MV_COLOR_NONE | MV_COLOR_SOLID | MV_COLOR_GRADIENT | MV_COLOR_RAINBOW | MV_COLOR_SPARKLE | MV_COLOR_WAVE.

#[export] Instance mv_color_mode_eq_dec : EqDecision mv_color_mode.
Proof. solve_decision. Defined.

Inductive marker := Italic | Bold | Underline | Hash (rgb : mv_rgb).

(** The marker a text starts with, and its length. *)
Definition mv_is_marker (p : bytes) : option (marker * nat) :=
  if (peek p =? 92) && (nthb p 1 =? 105) then Some (Italic, 2%nat)
  else if (peek p =? 92) && (nthb p 1 =? 98) then Some (Bold, 2%nat)
  else if (peek p =? 92) && (nthb p 1 =? 117) then Some (Underline, 2%nat)
  else if (peek p =? c_hash) && (7 <=? length p)%nat then
    match mv_hex6 (drop 1 p) with Some rgb => Some (Hash rgb, 7%nat) | None => None end
  else None.

(** [\033[38;5;#m] and the other attributes. *)
Definition csi (s : bytes) : bytes := c_esc :: c_lbracket :: s.
Definition sgr_color (idx : Z) : bytes := csi (lit "38;5;" ++ dec idx ++ lit "m").
Definition sgr (s : string) : bytes := csi (lit s).

Definition lead (c : Z) : bool := negb (continues c).

(** The letters that take a colour. *)
Fixpoint visible_go (fuel : nat) (p : bytes) : nat :=
  match fuel with
  | O => 0%nat
  | S fuel =>
      match p with
      | [] => 0%nat
      | c :: t =>
          match mv_is_marker p with
          | Some (_, skip) => visible_go fuel (drop skip p)
          | None => Nat.add (if lead c && negb (c =? c_space) then 1%nat else 0%nat) (visible_go fuel t)
          end
      end
  end.

(** What [mv_render] keeps while it walks over the text. *)
Record pen := {
  italic : bool;
  bold : bool;
  underline : bool;
  manual : bool;
  index : nat;
  last_color : option Z;
}.

Definition new_pen : pen :=
  {| italic := false; bold := false; underline := false; manual := false; index := 0; last_color := None |}.

(** A marker changes the pen and puts an attribute out. *)
Definition mark (p : pen) (m : marker) : pen * bytes :=
  match m with
  | Italic =>
      ({| italic := negb (italic p); bold := bold p; underline := underline p; manual := manual p;
          index := index p; last_color := last_color p |}, if italic p then sgr "23m" else sgr "3m")
  | Bold =>
      ({| italic := italic p; bold := negb (bold p); underline := underline p; manual := manual p;
          index := index p; last_color := last_color p |}, if bold p then sgr "22m" else sgr "1m")
  | Underline =>
      ({| italic := italic p; bold := bold p; underline := negb (underline p); manual := manual p;
          index := index p; last_color := last_color p |}, if underline p then sgr "24m" else sgr "4m")
  | Hash rgb =>
      ({| italic := italic p; bold := bold p; underline := underline p; manual := true;
          index := index p; last_color := last_color p |}, sgr_color (mv_ansi256 rgb))
  end.

Section Render.

(** The colour of a letter under a mode, from its index and the number of
    letters: computed in floating point, for the sparkle from [rand]. *)
Context (letter_color : mv_color_mode -> mv_rgb -> mv_rgb -> nat -> nat -> mv_rgb).

(** A letter may change the colour. *)
Definition touch (mode : mv_color_mode) (a b : mv_rgb) (visible : nat) (p : pen) (c : Z) : pen * bytes :=
  let next (last : option Z) :=
    {| italic := italic p; bold := bold p; underline := underline p; manual := manual p;
       index := S (index p); last_color := last |} in
  if lead c && negb (c =? c_space) then
    if negb (manual p) && negb (bool_decide (mode = MV_COLOR_NONE)) && negb (bool_decide (mode = MV_COLOR_SOLID)) then
      let idx := mv_ansi256 (letter_color mode a b (index p) visible) in
      if bool_decide (last_color p = Some idx) then (next (last_color p), []) else (next (Some idx), sgr_color idx)
    else (next (last_color p), [])
  else (p, []).

Fixpoint render_go (fuel : nat) (mode : mv_color_mode) (a b : mv_rgb) (visible styled_cap plain_cap : nat)
  (text : bytes) (p : pen) (styled plain : bytes) : bytes * bytes :=
  match fuel with
  | O => (styled, plain)
  | S fuel =>
      match text with
      | [] => (styled, plain)
      | c :: t =>
          match mv_is_marker text with
          | Some (m, skip) =>
              let (p, s) := mark p m in
              render_go fuel mode a b visible styled_cap plain_cap (drop skip text) p
                (mv_out_put styled_cap styled s) plain
          | None =>
              let (p, s) := touch mode a b visible p c in
              let styled := if (length s =? 0)%nat then styled else mv_out_put styled_cap styled s in
              render_go fuel mode a b visible styled_cap plain_cap t p
                (mv_out_put styled_cap styled [c]) (mv_out_put plain_cap plain [c])
          end
      end
  end.

(** The styled and the plain text. *)
Definition mv_render (text : bytes) (mode : mv_color_mode) (a b : mv_rgb) (styled_cap plain_cap : nat)
  : bytes * bytes :=
  let styled := if bool_decide (mode = MV_COLOR_SOLID) then mv_out_put styled_cap [] (sgr_color (mv_ansi256 a)) else [] in
  let (styled, plain) :=
    render_go (length text) mode a b (visible_go (length text) text) styled_cap plain_cap text new_pen styled [] in
  ((if (0 <? length styled)%nat then mv_out_put styled_cap styled (sgr "0m") else styled), plain).

(** The display form and the plain form of a coloured handle. *)
Definition mv_render_handle (spec : bytes) (dcap pcap : nat) : bytes * bytes :=
  mv_render spec MV_COLOR_NONE black black dcap pcap.

End Render.

Definition mv_parse_color_spec (spec : bytes) : mv_color_mode * mv_rgb * mv_rgb :=
  let spec := if peek spec =? c_hash then drop 1 spec else spec in
  match mv_hex6 spec with
  | None => (MV_COLOR_NONE, black, black)
  | Some a =>
      let comma := drop 6 spec in
      let second := if peek (drop 1 comma) =? c_hash then drop 2 comma else drop 1 comma in
      match (if peek comma =? c_comma then mv_hex6 second else None) with
      | Some b => (MV_COLOR_GRADIENT, a, b)
      | None => (MV_COLOR_SOLID, a, a)
      end
  end.

Definition mv_strip_ansi (src : bytes) (cap : nat) : bytes := ddial_strip_ansi src cap.

End Colour.

(** ** What the helpers do *)

Module TextTheory.
Import Slots Text Colour.

Local Arguments DDIAL_MV_SLOT_LIST : simpl never.
Local Arguments isalpha : simpl never.

Lemma contains_spec l v : mv_list_contains l v = true <-> v ∈ l.
Proof.
  unfold mv_list_contains. rewrite existsb_exists. split.
  - intros (x & Hx & E). apply Z.eqb_eq in E as ->. by apply list_elem_of_In.
  - intros H. exists v. split; [by apply list_elem_of_In|apply Z.eqb_refl].
Qed.

Lemma find_slot_spec l v i : find_slot l v = Some i -> l !! i = Some v.
Proof.
  revert i; induction l as [|x t IH]; simpl; intros i; [done|].
  destruct (Z.eqb_spec x v) as [->|]; [by intros [= <-]|].
  destruct (find_slot t v) as [j|]; [|done]. intros [= <-]. by apply IH.
Qed.

Lemma find_slot_none l v : find_slot l v = None -> v ∉ l.
Proof.
  induction l as [|x t IH]; simpl; [intros _; apply not_elem_of_nil|].
  destruct (Z.eqb_spec x v); [done|]. destruct (find_slot t v); [done|].
  intros _. apply not_elem_of_cons. split; [done|by apply IH].
Qed.

(** Taking an entry out of a list leaves a list of the others. *)
Lemma remove_perm l v i : find_slot l v = Some i -> l ≡ₚ v :: fst (mv_list_remove l v).
Proof.
  intros E. unfold mv_list_remove. rewrite E. simpl. apply find_slot_spec in E.
  assert (l <> []) as Hne by by destruct l.
  destruct (exists_last Hne) as (u & z & ->). rewrite length_app. cbn [length].
  replace (length u + 1 - 1)%nat with (length u) by lia.
  rewrite app_nth2, Nat.sub_diag by lia. cbn [nth].
  destruct (decide (i < length u)%nat) as [Hi|Hi].
  - rewrite insert_app_l by done. rewrite take_app_length' by (by rewrite length_insert).
    rewrite lookup_app_l in E by done. rewrite <- (take_drop_middle u i v E) at 1.
    rewrite insert_take_drop by done. rewrite Permutation_app_comm. simpl.
    rewrite <- !Permutation_middle. apply Permutation_swap.
  - pose proof (lookup_lt_Some _ _ _ E) as Hl. rewrite length_app in Hl. cbn [length] in Hl.
    replace i with (length u) in * by lia. rewrite lookup_app_r, Nat.sub_diag in E by lia. injection E as ->.
    rewrite insert_app_r_alt, Nat.sub_diag, take_app_length by lia. by rewrite Permutation_app_comm.
Qed.

(** A line list is a set of at most 16 numbers: adding, removing and
    toggling change the set as they should, an added number is in it unless
    the list is full, and no number is in it twice. *)
Theorem slots_are_a_set l v : NoDup l -> (length l <= DDIAL_MV_SLOT_LIST)%nat ->
  (mv_list_contains l v = true <-> v ∈ l) /\
  (forall l' b, mv_list_add l v = (l', b) ->
     NoDup l' /\ (length l' <= DDIAL_MV_SLOT_LIST)%nat /\
     (b = false -> l' = l /\ length l = DDIAL_MV_SLOT_LIST /\ v ∉ l) /\
     (b = true -> forall x, x ∈ l' <-> x ∈ l \/ x = v)) /\
  (forall l' b, mv_list_remove l v = (l', b) ->
     NoDup l' /\ (length l' <= DDIAL_MV_SLOT_LIST)%nat /\ (b = true <-> v ∈ l) /\
     forall x, x ∈ l' <-> x ∈ l /\ x <> v) /\
  (forall l' b, mv_list_toggle l v = (l', b) ->
     if decide (v ∈ l) then b = false /\ forall x, x ∈ l' <-> x ∈ l /\ x <> v
     else mv_list_add l v = (l', b)).
Proof.
  intros Hd Hl.
  assert (Hrem : forall l' b, mv_list_remove l v = (l', b) ->
     NoDup l' /\ (length l' <= DDIAL_MV_SLOT_LIST)%nat /\ (b = true <-> v ∈ l) /\
     forall x, x ∈ l' <-> x ∈ l /\ x <> v).
  { intros l' b E. destruct (find_slot l v) as [i|] eqn:F.
    - pose proof (remove_perm l v i F) as Hp. rewrite E in Hp. simpl in Hp.
      unfold mv_list_remove in E. rewrite F in E. injection E as _ <-.
      pose proof Hd as Hd'. rewrite Hp in Hd'. apply NoDup_cons in Hd' as [Hv Hd'].
      apply Permutation_length in Hp as Hpl. simpl in Hpl. split_and!; [done|lia| |].
      + split; [|done]. intros _. apply find_slot_spec in F. by eapply list_elem_of_lookup_2.
      + intros x. rewrite Hp, elem_of_cons. split; [intros Hx; split; [by right|by intros ->]|].
        intros [[->|Hx] Hn]; done.
    - unfold mv_list_remove in E. rewrite F in E. injection E as <- <-. apply find_slot_none in F.
      split_and!; [done|done|by split|]. intros x. split; [intros Hx; split; [done|by intros ->]|by intros [? _]]. }
  split; [apply contains_spec|]. split; [|split; [exact Hrem|]].
  - intros l' b E. unfold mv_list_add in E. destruct (mv_list_contains l v) eqn:C.
    { injection E as <- <-. apply contains_spec in C. split_and!; [done|done|done|].
      intros _ x. split; [by left|by intros [?| ->]]. }
    assert (v ∉ l) as Hv by (rewrite <- contains_spec; by rewrite C).
    destruct (Nat.leb_spec DDIAL_MV_SLOT_LIST (length l)); injection E as <- <-.
    { split_and!; [done|done| |done]. intros _. split_and!; [done|lia|done]. }
    split_and!; [|rewrite length_app; simpl; lia|done|].
    + apply NoDup_app. split_and!; [done| |apply NoDup_singleton].
      intros x Hx Hx'. apply list_elem_of_singleton in Hx' as ->. done.
    + intros _ x. by rewrite elem_of_app, list_elem_of_singleton.
  - intros l' b E. unfold mv_list_toggle in E. destruct (mv_list_remove l v) as [l1 b1] eqn:R.
    destruct (Hrem l1 b1 eq_refl) as (_ & _ & Hb & Hx). destruct (decide (v ∈ l)) as [Hv|Hv].
    + assert (b1 = true) as -> by (by apply Hb). by injection E as <- <-.
    + destruct b1; [exfalso; apply Hv, Hb; done|].
      assert (l1 = l) as ->; [|done]. unfold mv_list_remove in R. destruct (find_slot l v); by simplify_eq.
Qed.

(** ** Mentions *)

Lemma case_prefix_spec p s : case_prefix p s = true <->
  exists h t, s = h ++ t /\ length h = length p /\ map tolower h = map tolower p.
Proof.
  unfold case_prefix. rewrite is_prefix_spec. split.
  - intros [u E]. exists (take (length p) s), (drop (length p) s).
    assert (length p <= length s)%nat as Hl
      by (apply (f_equal length) in E; rewrite length_app, !length_map in E; lia).
    split_and!; [by rewrite take_drop|by rewrite length_take; lia|].
    rewrite <- (take_drop (length p) s), map_app in E.
    apply (f_equal (take (length p))) in E.
    rewrite !take_app_length' in E by (rewrite length_map, ?length_take; lia). done.
  - intros (h & t & -> & _ & E). exists (map tolower t). by rewrite map_app, E.
Qed.

(** A message mentions a handle exactly when somewhere in it the handle
    stands after an @, in any case of letters, and neither a letter nor a
    digit follows it. *)
Theorem mention_found body handle : handle <> [] ->
  mv_mentions body handle = true <->
  exists a h b, body = a ++ [c_at] ++ h ++ b /\ length h = length handle /\
    map tolower h = map tolower handle /\ isalnum (peek b) = false.
Proof.
  intros Hne. unfold mv_mentions. destruct handle as [|c0 h0]; [done|]. set (handle := c0 :: h0) in *.
  change (negb (length handle =? 0)%nat) with true. cbn [andb]. induction body as [|c t IH].
  { simpl. split; [done|]. by intros ([|] & ? & ? & ? & _). }
  cbn [mentions_go]. rewrite orb_true_iff, IH, !andb_true_iff, negb_true_iff, Z.eqb_eq, case_prefix_spec. split.
  - intros [[[-> (h & b & -> & Hl & Hh)] Hn]|(a & h & b & -> & Hl & Hh & Hn)].
    + exists [], h, b. split_and!; try done. unfold nthb in Hn. rewrite app_nth2, Hl, Nat.sub_diag in Hn by lia.
      by destruct b.
    + by exists (c :: a), h, b.
  - intros (a & h & b & E & Hl & Hh & Hn). destruct a as [|x a]; simpl in E; injection E as -> ->.
    + left. split; [split; [done|by exists h, b]|]. unfold nthb. rewrite app_nth2, Hl, Nat.sub_diag by lia.
      by destruct b.
    + right. by exists a, h, b.
Qed.

(** ** Reversing *)

Lemma chars_concat s : concat (chars s) = s.
Proof.
  induction s as [|c t IH]; [done|]. simpl. destruct (chars t) as [|g gs] eqn:E; simpl in *; [by rewrite <- IH|].
  case_match; simpl; by rewrite IH.
Qed.

(** A character: a byte that starts one, with bytes that continue it. *)
Definition is_char (g : bytes) : Prop :=
  match g with [] => False | c :: t => continues c = false /\ Forall (fun x => continues x = true) t end.

Lemma chars_are s : match s with [] => True | c :: _ => continues c = false end -> Forall is_char (chars s).
Proof.
  assert (H : forall s, match chars s with
    | [] => s = []
    | g :: gs => Forall is_char gs /\ peek g = peek s /\ g <> [] /\ Forall (fun x => continues x = true) (tail g)
    end).
  { clear. induction s as [|c t IH]; [done|]. simpl. destruct (chars t) as [|g gs]; [by repeat constructor|].
    destruct IH as (H1 & H2 & H3 & H4). destruct (continues (peek g)) eqn:E; [|split_and!; try done].
    - split_and!; [done|done|done|]. destruct g as [|x g]; [done|]. simpl in *. by constructor.
    - constructor; [|done]. destruct g; [done|]. by split. }
  specialize (H s). destruct s as [|c t]; [done|]. intros Hc. destruct (chars (c :: t)) as [|g gs]; [done|].
  destruct H as (H1 & H2 & H3 & H4). constructor; [|done]. destruct g; [done|]. simpl in *. by subst.
Qed.

Lemma chars_app g s : is_char g -> match s with [] => True | c :: _ => continues c = false end ->
  chars (g ++ s) = g :: chars s.
Proof.
  destruct g as [|c g]; [done|]. intros [Hc Hg] Hs. revert c Hc; induction Hg as [|x g Hx Hg IH]; intros c Hc.
  - simpl. destruct s as [|d s]; [done|]. simpl in Hs.
    assert (exists gs h, chars (d :: s) = h :: gs /\ peek h = d) as (gs & h & E & P).
    { simpl. destruct (chars s) as [|h gs]; [by eauto|]. case_match; eauto. }
    by rewrite E, P, Hs.
  - change ((c :: x :: g) ++ s) with (c :: (x :: g) ++ s). cbn [chars].
    assert (exists gs, chars ((x :: g) ++ s) = (x :: g) :: gs /\ gs = chars s) as (gs & E & ->).
    { clear IH Hc c Hx. revert x; induction Hg as [|y g Hy Hg IH]; intros x.
      - simpl. destruct s as [|d s]; [by eexists|]. simpl in Hs.
        assert (exists gs h, chars (d :: s) = h :: gs /\ peek h = d) as (gs & h & E & P).
        { simpl. destruct (chars s) as [|h gs]; [by eauto|]. case_match; eauto. }
        rewrite E, P, Hs. by eexists.
      - change ((x :: y :: g) ++ s) with (x :: (y :: g) ++ s). cbn [chars].
        destruct (IH y) as (gs & E & ->). rewrite E. cbn [peek]. rewrite Hy. by eexists. }
    rewrite E. cbn [peek]. by rewrite Hx.
Qed.

Lemma chars_of_concat gs : Forall is_char gs -> chars (concat gs) = gs.
Proof.
  induction 1 as [|g gs Hg Hgs IH]; [done|]. simpl. rewrite chars_app; [by rewrite IH|done|].
  destruct Hgs as [|h gs' Hh]; [done|]. simpl. destruct h; [done|]. by destruct Hh.
Qed.

Lemma length_concat_rev (gs : list bytes) : length (concat (rev gs)) = length (concat gs).
Proof.
  induction gs as [|g gs IH]; [done|]. simpl. rewrite concat_app, !length_app, IH. simpl. rewrite app_nil_r. lia.
Qed.

(** Reversing a message keeps its characters whole, and reversing it again
    gives it back, when it starts with a character. *)
Theorem reverse_twice s : match s with [] => True | c :: _ => continues c = false end ->
  chars (mv_reverse s) = (if (DDIAL_MV_TEXT_LIMIT * 2 <=? length s)%nat then chars s else rev (chars s)) /\
  mv_reverse (mv_reverse s) = s.
Proof.
  intros Hs. unfold mv_reverse at 1. destruct (Nat.leb_spec (DDIAL_MV_TEXT_LIMIT * 2) (length s)) as [H|H].
  { split; [done|]. unfold mv_reverse.
    destruct (Nat.leb_spec (DDIAL_MV_TEXT_LIMIT * 2) (length s)); [|lia].
    by destruct (Nat.leb_spec (DDIAL_MV_TEXT_LIMIT * 2) (length s)); [|lia]. }
  assert (chars (concat (rev (chars s))) = rev (chars s)) as E.
  { apply chars_of_concat. apply Forall_rev. by apply chars_are. }
  assert (length (concat (rev (chars s))) = length s) as El.
  { rewrite <- (chars_concat s) at 2. apply length_concat_rev. }
  split; [done|]. unfold mv_reverse. destruct (Nat.leb_spec (DDIAL_MV_TEXT_LIMIT * 2) (length s)); [lia|].
  rewrite El. destruct (Nat.leb_spec (DDIAL_MV_TEXT_LIMIT * 2) (length s)); [lia|].
  rewrite E, rev_involutive. apply chars_concat.
Qed.

(** ** Scrambling *)

Definition transpose (i j x : nat) : nat := if decide (x = i) then j else if decide (x = j) then i else x.

Lemma swap_lookup s i j x : (i < length s)%nat -> (j < length s)%nat ->
  swap s i j !! x = s !! transpose i j x.
Proof.
  intros Hi Hj. unfold swap, transpose.
  assert (forall k, (k < length s)%nat -> Some (nth k s 0) = s !! k) as Hn.
  { intros k Hk. destruct (lookup_lt_is_Some_2 s k Hk) as [y Hy]. rewrite Hy. f_equal.
    by apply nth_lookup_Some with (d := 0) in Hy. }
  destruct (decide (x = i)) as [->|H1].
  { rewrite list_lookup_insert_eq by (by rewrite length_insert). by apply Hn. }
  rewrite list_lookup_insert_ne by done. destruct (decide (x = j)) as [->|H2].
  - rewrite list_lookup_insert_eq by done. by apply Hn.
  - by rewrite list_lookup_insert_ne.
Qed.

Lemma letters_swapped s i j : (i < length s)%nat -> (j < length s)%nat -> swap s i j ≡ₚ s.
Proof.
  intros Hi Hj. apply Permutation_inj. split.
  - unfold swap. by rewrite !length_insert.
  - exists (transpose i j). split.
    + intros x y. unfold transpose. repeat case_decide; subst; congruence.
    + intros x. by apply swap_lookup.
Qed.

(** Shuffling up to [k] permutes the letters and leaves the first one and
    those after [k]. *)
Lemma shuffle_go_spec k word rand : (S k < length word)%nat ->
  let w' := fst (shuffle_go k word rand) in
  w' ≡ₚ word /\ forall x, x = 0%nat \/ (k < x)%nat -> w' !! x = word !! x.
Proof.
  revert word rand; induction k as [|k IH]; intros word rand Hk; [done|].
  destruct k as [|k]; [done|]. set (n := S k) in *.
  change (shuffle_go (S n) word rand) with
    (let (r, rand) := draw rand in shuffle_go n (swap word (S n) (1 + Z.to_nat (r mod Z.of_nat (S n)))) rand).
  destruct (draw rand) as [r rand']. pose proof (Z.mod_pos_bound r (Z.of_nat (S n)) ltac:(lia)) as Hm.
  set (j := (1 + Z.to_nat (r mod Z.of_nat (S n)))%nat).
  assert (1 <= j <= S n)%nat as Hj by (unfold j; lia).
  pose proof (letters_swapped word (S n) j ltac:(lia) ltac:(lia)) as Hp.
  destruct (IH (swap word (S n) j) rand') as [H1 H2]; [rewrite (Permutation_length Hp); lia|].
  split; [by rewrite H1|]. intros x Hx. rewrite H2 by lia. rewrite swap_lookup by lia.
  unfold transpose. repeat case_decide; lia || done.
Qed.

Lemma shuffle_word_spec word rand :
  let w' := fst (shuffle_word word rand) in
  w' ≡ₚ word /\ forall x, x = 0%nat \/ (length word <= S x)%nat -> w' !! x = word !! x.
Proof.
  unfold shuffle_word. destruct (Nat.ltb_spec 3 (length word)); [|done].
  destruct (shuffle_go_spec (length word - 2) word rand) as [H1 H2]; [lia|].
  split; [done|]. intros x Hx. apply H2. lia.
Qed.

Definition letter_at (s : bytes) (i : nat) : bool := match s !! i with Some c => isalpha c | None => false end.

Definition letter_before (s : bytes) (i : nat) : bool := match i with O => false | S j => letter_at s j end.

(** A place inside a word: a letter between two letters. *)
Definition inner (s : bytes) (i : nat) : bool := letter_before s i && letter_at s i && letter_at s (S i).

Lemma letter_at_app w r i : letter_at (w ++ r) i = if decide (i < length w)%nat then letter_at w i else letter_at r (i - length w).
Proof. unfold letter_at. case_decide; [by rewrite lookup_app_l|by rewrite lookup_app_r by lia]. Qed.

Lemma letter_at_all w i : Forall (fun c => isalpha c = true) w -> (i < length w)%nat -> letter_at w i = true.
Proof.
  intros Hw Hi. unfold letter_at. destruct (lookup_lt_is_Some_2 w i Hi) as [c E]. rewrite E.
  rewrite Forall_lookup in Hw. by eapply Hw.
Qed.

Lemma taken_pass f p : Forall (fun c => f c = true) (take_while f p).
Proof. induction p as [|c t IH]; [by constructor|]. simpl. destruct (f c) eqn:E; by constructor. Qed.

Lemma skip_while_stops f p : f c_nul = false -> f (peek (skip_while f p)) = false.
Proof. intros H. induction p as [|x u IH]; [done|]. simpl. by destruct (f x) eqn:E. Qed.

(** Scrambling a message keeps its bytes and moves none but the inner
    letters of words. *)
Theorem scramble_keeps s rand :
  mv_scramble s rand ≡ₚ s /\
  forall i, inner s i = false -> mv_scramble s rand !! i = s !! i.
Proof.
  unfold mv_scramble. assert (length s <= length s)%nat as Hf by lia. revert Hf. generalize (length s) at 2 3 4.
  intros fuel. revert s rand; induction fuel as [|fuel IH]; intros s rand Hf; [done|].
  destruct s as [|c t]; [done|]. cbn [scramble_go]. destruct (isalpha c) eqn:Hc.
  - pose proof (take_skip_while isalpha (c :: t)) as Es. pose proof (taken_pass isalpha (c :: t)) as Ha.
    assert (0 < length (take_while isalpha (c :: t)))%nat as Hw by (simpl; rewrite Hc; simpl; lia).
    assert (isalpha (peek (skip_while isalpha (c :: t))) = false) as Hr.
    { by apply skip_while_stops. }
    revert Es Ha Hw Hr. generalize (take_while isalpha (c :: t)) (skip_while isalpha (c :: t)). intros w r Es Ha Hw Hr.
    pose proof (shuffle_word_spec w rand) as Hsh. destruct (shuffle_word w rand) as [w' rand']. simpl in Hsh.
    destruct Hsh as [H1 H2]. rewrite <- Es in *. rewrite length_app in Hf.
    destruct (IH r rand' ltac:(lia)) as [H3 H4]. pose proof (Permutation_length H1) as Hlen.
    split; [by rewrite H1, H3|]. intros i Hi. destruct (decide (i < length w)%nat) as [Hlt|Hge].
    + rewrite !lookup_app_l by lia. apply H2. unfold inner in Hi. rewrite !letter_at_app in Hi.
      destruct (decide (S i < length w)%nat); [|lia]. left. destruct i as [|j]; [done|exfalso].
      cbn [letter_before] in Hi. rewrite letter_at_app in Hi. repeat case_decide; try lia.
      by rewrite !letter_at_all in Hi by (done || lia).
    + rewrite !lookup_app_r by lia. rewrite Hlen. apply H4. unfold inner in *. rewrite !letter_at_app in Hi.
      repeat case_decide; try lia. replace (S i - length w)%nat with (S (i - length w)) in Hi by lia.
      destruct i as [|j]; [lia|]. cbn [letter_before] in Hi. rewrite letter_at_app in Hi. case_decide.
      * replace (S j - length w)%nat with 0%nat by lia. done.
      * replace (S j - length w)%nat with (S (j - length w)) in * by lia. done.
  - simpl in Hf. destruct (IH t rand ltac:(lia)) as [H3 H4]. split; [by rewrite H3|].
    intros [|i] Hi; [done|]. simpl. apply H4. unfold inner in *. simpl in Hi. destruct i; [done|]. done.
Qed.

(** ** Colours *)

Definition byte_rgb (c : mv_rgb) : Prop := 0 <= r_ c < 256 /\ 0 <= g_ c < 256 /\ 0 <= b_ c < 256.

(** Every colour is one of the palette above the 16 of the terminal. *)
Lemma ansi256_range c : byte_rgb c -> 16 <= mv_ansi256 c <= 255.
Proof.
  intros (Hr & Hg & Hb). unfold mv_ansi256.
  destruct (Z.ltb_spec (Z.max (r_ c) (Z.max (g_ c) (b_ c)) - Z.min (r_ c) (Z.min (g_ c) (b_ c))) 12) as [H|H].
  - destruct (Z.ltb_spec (Z.max (r_ c) (Z.max (g_ c) (b_ c))) 8); [lia|].
    destruct (Z.ltb_spec 238 (Z.max (r_ c) (Z.max (g_ c) (b_ c)))); [lia|]. dlia.
  - dlia.
Qed.

Lemma hexval_range c v : mv_hexval c = Some v -> 0 <= v <= 15.
Proof. unfold mv_hexval. intros. cases; lia. Qed.

Lemma hex6_bytes s c : mv_hex6 s = Some c -> byte_rgb c.
Proof.
  unfold mv_hex6. intros H.
  destruct (mv_hexval (nthb s 0)) as [v0|] eqn:E0, (mv_hexval (nthb s 1)) as [v1|] eqn:E1,
    (mv_hexval (nthb s 2)) as [v2|] eqn:E2, (mv_hexval (nthb s 3)) as [v3|] eqn:E3,
    (mv_hexval (nthb s 4)) as [v4|] eqn:E4, (mv_hexval (nthb s 5)) as [v5|] eqn:E5; try done.
  injection H as <-. unfold byte_rgb. simpl.
  apply hexval_range in E0, E1, E2, E3, E4, E5. lia.
Qed.

(** A piece of output that shows [q], whatever follows it. *)
Definition shows (s q : bytes) : Prop :=
  forall room rest, strip_ansi_go room (s ++ rest) = take room q ++ strip_ansi_go (room - length q) rest.

Lemma strip_no_room s : strip_ansi_go 0 s = [].
Proof. by destruct s. Qed.

Lemma shows_nil : shows [] [].
Proof. intros room rest. simpl. by rewrite take_nil, Nat.sub_0_r. Qed.

Lemma shows_app s q s' q' : shows s q -> shows s' q' -> shows (s ++ s') (q ++ q').
Proof.
  intros H H' room rest. rewrite <- app_assoc, H, H', length_app, take_app, <- app_assoc. do 2 f_equal.
  f_equal. lia.
Qed.

Lemma shows_char c : ansi_noise c = false -> shows [c] [c].
Proof.
  intros Hc [|room] rest; [by rewrite !strip_no_room|]. simpl. unfold ansi_noise in Hc.
  rewrite <- orb_assoc in Hc. apply orb_false_iff in Hc as [H1 H2]. by rewrite H1, H2, take_nil, ?Nat.sub_0_r.
Qed.

Lemma after_csi_app s c rest : Forall (fun x => csi_final x = false) s -> csi_final c = true ->
  after_csi (s ++ c :: rest) = rest.
Proof. induction 1 as [|x s Hx _ IH]; intros Hc; simpl; [by rewrite Hc|]. rewrite Hx. by apply IH. Qed.

Lemma shows_csi s c : Forall (fun x => csi_final x = false) s -> csi_final c = true ->
  shows (csi (s ++ [c])) [].
Proof.
  intros Hs Hc [|room] rest; [by rewrite !strip_no_room|]. unfold csi. rewrite take_nil. simpl app at 1. rewrite Nat.sub_0_r.
  rewrite strip_ansi_csi. rewrite <- app_assoc. change ([c] ++ rest) with (c :: rest). by rewrite (after_csi_app s c rest).
Qed.

Lemma shows_color idx : 0 <= idx <= 255 -> shows (sgr_color idx) [].
Proof.
  intros H. unfold sgr_color. rewrite app_assoc. apply shows_csi; [|done]. apply Forall_app. split.
  - by repeat constructor.
  - destruct (dec_spec idx) as (_ & Hd & _); [unfold ULONG_MAX; lia|].
    eapply Forall_impl; [exact Hd|]. unfold isdigit, csi_final. intros c Hc. cbn beta in Hc. lia.
Qed.

Lemma color_length idx : 0 <= idx <= 255 -> (length (sgr_color idx) <= 11)%nat.
Proof.
  intros H. unfold sgr_color, csi. simpl. rewrite !length_app.
  pose proof (dec_length idx 3 ltac:(lia) ltac:(lia)). simpl. lia.
Qed.

(** A text without its markers. *)
Fixpoint unmarked_go (fuel : nat) (text : bytes) : bytes :=
  match fuel, text with
  | S fuel, c :: t =>
      match mv_is_marker text with
      | Some (_, skip) => unmarked_go fuel (drop skip text)
      | None => c :: unmarked_go fuel t
      end
  | _, _ => []
  end.

Definition without_markers (text : bytes) : bytes := unmarked_go (length text) text.

Lemma unmarked_length fuel text : (length (unmarked_go fuel text) <= length text)%nat.
Proof.
  revert text; induction fuel as [|fuel IH]; intros [|c t]; try (simpl; lia). cbn [unmarked_go].
  destruct (mv_is_marker (c :: t)) as [[m skip]|].
  - etrans; [apply IH|]. rewrite length_drop. lia.
  - simpl. pose proof (IH t). lia.
Qed.

Lemma put_fits cap buf s : (length buf + length s < cap)%nat -> mv_out_put cap buf s = buf ++ s.
Proof. intros H. unfold mv_out_put. by rewrite take_ge by lia. Qed.

Definition marker_ok (m : marker) : Prop := match m with Hash rgb => byte_rgb rgb | _ => True end.

Lemma is_marker_ok p m skip : mv_is_marker p = Some (m, skip) -> marker_ok m /\ (0 < skip)%nat.
Proof.
  unfold mv_is_marker. intros H. repeat case_match; simplify_eq; (split; [simpl; eauto using hex6_bytes|lia]).
Qed.

Lemma shows_sgr s :
  match rev (lit s) with c :: r => csi_final c && forallb (fun x => negb (csi_final x)) r | [] => false end = true ->
  shows (sgr s) [].
Proof.
  unfold sgr. destruct (rev (lit s)) as [|c r] eqn:E; [done|]. intros [H1 H2]%andb_prop.
  rewrite <- (rev_involutive (lit s)), E. apply (shows_csi (rev r) c); [|done].
  apply Forall_rev, Forall_forall. intros x Hx. rewrite forallb_forall in H2.
  apply negb_true_iff, H2. by apply list_elem_of_In.
Qed.

Lemma mark_shows p m : marker_ok m ->
  shows (snd (mark p m)) [] /\ (length (snd (mark p m)) <= 11)%nat.
Proof.
  destruct m as [| | |rgb]; simpl; intros Hm.
  4: { apply ansi256_range in Hm. split; [apply shows_color|apply color_length]; lia. }
  all: case_match; (split; [by apply shows_sgr|simpl; lia]).
Qed.

Section Styled.

Context (letter_color : mv_color_mode -> mv_rgb -> mv_rgb -> nat -> nat -> mv_rgb).
Context (letters_are_bytes : forall mode a b i n, byte_rgb (letter_color mode a b i n)).

Lemma touch_shows mode a b n p c :
  shows (snd (touch letter_color mode a b n p c)) [] /\ (length (snd (touch letter_color mode a b n p c)) <= 11)%nat.
Proof.
  unfold touch. pose proof (ansi256_range _ (letters_are_bytes mode a b (index p) n)).
  repeat case_match; simpl; split; try lia; try apply shows_nil; [apply shows_color|apply color_length]; lia.
Qed.

Lemma render_go_spec fuel mode a b n scap pcap text p styled plain s' p' :
  Forall (fun c => ansi_noise c = false) text -> shows styled plain ->
  (length styled + 12 * length text + 5 <= scap)%nat -> (length plain + length text < pcap)%nat ->
  render_go letter_color fuel mode a b n scap pcap text p styled plain = (s', p') ->
  shows s' p' /\ p' = plain ++ unmarked_go fuel text /\ (length s' <= length styled + 12 * length text)%nat.
Proof.
  revert text p styled plain; induction fuel as [|fuel IH]; intros text p styled plain Hn Hs Hl Hp E.
  { simpl in E. injection E as <- <-. rewrite app_nil_r. split_and!; [done|done|lia]. }
  destruct text as [|c t]; [simpl in E; injection E as <- <-; rewrite app_nil_r; split_and!; [done|done|lia]|].
  cbn [render_go unmarked_go] in *. cbn [length] in *.
  destruct (mv_is_marker (c :: t)) as [[m skip]|] eqn:M.
  - destruct (is_marker_ok _ _ _ M) as [Hm Hk]. destruct (mark_shows p m Hm) as [H1 H2].
    destruct (mark p m) as [p1 s1]. cbn [snd] in *.
    assert (length (drop skip (c :: t)) <= length t)%nat as Hd by (rewrite length_drop; simpl; lia).
    rewrite put_fits in E by lia.
    destruct (IH (drop skip (c :: t)) p1 (styled ++ s1) plain) as (R1 & R2 & R3);
      [by apply Forall_drop|rewrite <- (app_nil_r plain); by apply shows_app|rewrite length_app; lia|lia|exact E|].
    rewrite length_app in R3. split_and!; [done|done|lia].
  - apply Forall_cons in Hn as [Hc Ht]. destruct (touch_shows mode a b n p c) as [H1 H2].
    destruct (touch letter_color mode a b n p c) as [p1 s1]. cbn [snd] in *.
    assert ((if (length s1 =? 0)%nat then styled else mv_out_put scap styled s1) = styled ++ s1) as Es.
    { destruct (Nat.eqb_spec (length s1) 0) as [E0|_]; [apply nil_length_inv in E0; by rewrite E0, app_nil_r|].
      apply put_fits. lia. }
    rewrite Es in E. rewrite (put_fits scap (styled ++ s1)) in E by (rewrite length_app; simpl; lia).
    rewrite put_fits in E by (simpl; lia).
    destruct (IH t p1 ((styled ++ s1) ++ [c]) (plain ++ [c]) Ht) as (R1 & R2 & R3).
    + apply shows_app; [|by apply shows_char]. rewrite <- (app_nil_r plain). by apply shows_app.
    + rewrite !length_app. simpl. lia.
    + rewrite length_app. simpl. lia.
    + exact E.
    + rewrite !length_app in R3. simpl in R3. split_and!; [done|by rewrite R2, <- app_assoc|lia].
Qed.

(** C32: Whatever the colours and markers, a message that fits its buffers shows
    on a terminal exactly the plain text that the link and the AI members get,
    which is the message without its markers. *)
Theorem styled_shows_plain text mode a b scap pcap :
  Forall (fun c => ansi_noise c = false) text -> byte_rgb a ->
  (12 * length text + 17 <= scap)%nat -> (length text < pcap)%nat ->
  let (styled, plain) := mv_render letter_color text mode a b scap pcap in
  mv_strip_ansi styled scap = plain /\ plain = without_markers text.
Proof.
  intros Hn Ha Hl Hp. unfold mv_render.
  set (first := if bool_decide (mode = MV_COLOR_SOLID) then _ else _).
  assert (shows first [] /\ (length first <= 11)%nat) as [H1 H2].
  { unfold first. case_bool_decide; [|split; [apply shows_nil|simpl; lia]].
    apply ansi256_range in Ha. pose proof (color_length (mv_ansi256 a) ltac:(lia)).
    rewrite put_fits by (cbn [length]; lia). split; [apply shows_color; lia|done]. }
  destruct (render_go _ _ _ _ _ _ _ _ _ _ _ _) as [styled plain] eqn:E.
  edestruct render_go_spec as (R1 & R2 & R3); [exact Hn|exact H1| | |exact E|]; [lia|simpl; lia|].
  simpl in R2. split; [|done]. unfold mv_strip_ansi, ddial_strip_ansi.
  pose proof (unmarked_length (length text) text) as Hu.
  assert (shows (if (0 <? length styled)%nat then mv_out_put scap styled (sgr "0m") else styled) plain) as Hs.
  { destruct (Nat.ltb_spec 0 (length styled)); [|done]. rewrite put_fits by (simpl; lia).
    rewrite <- (app_nil_r plain). apply shows_app; [done|]. by apply shows_sgr. }
  specialize (Hs (scap - 1)%nat []). rewrite app_nil_r in Hs. rewrite Hs, take_ge by (rewrite R2; lia).
  replace (strip_ansi_go _ []) with (@nil Z) by (by destruct (scap - 1 - length plain)%nat).
  apply app_nil_r.
Qed.

End Styled.

End TextTheory.

(** ** Samples *)

Module TextSamples.
Import Slots Text Colour TextTheory.

Definition demo_text : bytes := lit "say \bhi\b to #FF0000red @Alice!".

Definition red : mv_rgb := {| r_ := 255; g_ := 0; b_ := 0 |}.
Definition teal : mv_rgb := {| r_ := 0; g_ := 128; b_ := 128 |}.

Definition two_colors (mode : mv_color_mode) (a b : mv_rgb) (i n : nat) : mv_rgb := if Nat.even i then red else teal.

Example plain_of_demo :
  snd (mv_render two_colors demo_text MV_COLOR_GRADIENT red teal 4096 1024) = lit "say hi to red @Alice!".
Proof. vm_compute. done. Qed.

Lemma styled_shows_plain_witness :
  let (styled, plain) := mv_render two_colors demo_text MV_COLOR_SOLID red teal 4096 1024 in
  mv_strip_ansi styled 4096 = plain /\ plain = without_markers demo_text.
Proof.
  refine (styled_shows_plain two_colors _ demo_text MV_COLOR_SOLID red teal 4096 1024 _ _ _ _).
  - intros. unfold byte_rgb, two_colors, red, teal. case_match; simpl; lia.
  - apply (bool_decide_unpack _). by vm_compute.
  - unfold byte_rgb, red. simpl. lia.
  - apply Nat.leb_le. by vm_compute.
  - apply Nat.ltb_lt. by vm_compute.
Defined.

Lemma slots_are_a_set_witness :
  mv_list_remove [3; 7; 12] 3 = ([12; 7], true) /\ (7 ∈ [12; 7] <-> 7 ∈ [3; 7; 12] /\ 7 <> 3).
Proof.
  split; [done|].
  destruct (slots_are_a_set [3; 7; 12] 3) as (_ & _ & H & _).
  - apply (bool_decide_unpack _). by vm_compute.
  - apply Nat.leb_le. by vm_compute.
  - destruct (H [12; 7] true eq_refl) as (_ & _ & _ & Hx). apply Hx.
Defined.

Lemma mention_found_witness :
  mv_mentions demo_text (lit "alice") = true /\
  exists a h b, demo_text = a ++ [c_at] ++ h ++ b /\ map tolower h = map tolower (lit "alice").
Proof.
  split; [by vm_compute|].
  destruct (proj1 (mention_found demo_text (lit "alice") ltac:(done)) ltac:(by vm_compute)) as (a & h & b & E & _ & H & _).
  by exists a, h, b.
Defined.

Lemma reverse_twice_witness : mv_reverse (lit "abc") = lit "cba" /\ mv_reverse (mv_reverse (lit "abc")) = lit "abc".
Proof. split; [by vm_compute|]. apply (reverse_twice (lit "abc")). by vm_compute. Defined.

End TextSamples.
