(* ===== verification/DdialSession.v ===== *)
(** The sessions of the dial-in station, and the state its command layer shares:
    [src/host/ddial/server.c], [magviz.h] and the first half of [magviz.c].

    A session is known by its number; the pointer comparisons of the C code are
    comparisons of these.  One operation is one step: the registry lock and the
    lock of the shared tables are left out.  What leaves the station for the
    chat room, the AI members, the link and the members of the chat is recorded
    in the order in which it is handed over. *)

From Stdlib Require Import ZArith Lia String Ascii.
From stdpp Require Import prelude.
From S2P Require Import Prelude DdialProtocol HostGuard DdialServer DdialText DdialMembers.
Import Output Slots Text.

(** ** Data *)

Module Session.

Definition SSH_CHATTER_MESSAGE_LIMIT : nat := 4096.
Definition DDIAL_MAX_CHANNEL : Z := 4.
Definition DDIAL_DEFAULT_CHANNEL : Z := 1.
Definition DDIAL_MV_MAX_CHANNEL : Z := 999.
Definition DDIAL_MV_GUEST_MAX_CHANNEL : Z := 4.
Definition DDIAL_MV_ROOM_CHANNEL : Z := 1.
Definition DDIAL_MV_MENTION_LOG : nat := 20.
Definition DDIAL_MV_CODE_LIMIT : nat := 2048.
Definition DDIAL_MV_VISITORS : nat := 30.
Definition DDIAL_MV_META_MAX : nat := 64.
Definition DDIAL_MV_BOOT_MAX : nat := 64.
Definition DDIAL_MV_VANISH_MAX : nat := 32.
Definition DDIAL_MV_VANISH_SECONDS : Z := 30.
Definition DDIAL_MV_BOOT_SECONDS : Z := 600.
Definition DDIAL_MV_SENTRY_WINDOW : Z := 10.
Definition DDIAL_MV_SENTRY_LIMIT : Z := 6.
Definition DDIAL_MV_BEEP_PM : Z := 1.
Definition DDIAL_MV_BEEP_MENTION : Z := 2.
Definition DDIAL_MV_BEEP_LOGIN : Z := 4.
Definition DDIAL_MV_BEEP_CHAT : Z := 8.
Definition DDIAL_MV_BEEP_BUZZ : Z := 16.

(** The channel a session has on the link. *)
Definition DDIAL_MV_LINK_CHANNEL (ch : Z) : Z :=
  if (1 <=? ch) && (ch <=? DDIAL_MAX_CHANNEL) then ch else DDIAL_DEFAULT_CHANNEL.

(** What the command layer keeps for a session; the rate of [/baud] is kept
    with the output buffer.  [code_len] is the length of [code_buf]. *)
Record ddial_mv_session := {
  v_member_no : Z;
  v_cosysop : bool;
  v_full_muted : bool;
  v_display_handle : bytes;
  v_msg_color : bytes;
  v_prefix : bytes;
  v_postfix : bytes;
  v_status : bytes;
  v_badges_on : bool;
  v_lorem_on : bool;
  v_reverse_on : bool;
  v_scramble_on : bool;
  v_replies_on : bool;
  v_auto_slash : bool;
  v_font : bytes;
  v_voice_on : bool;
  v_voice_echo : bool;
  v_notify_on : bool;
  v_remember_on : bool;
  v_beep_on : bool;
  v_beep_volume : Z;
  v_beep_events : Z;
  v_auto_pm : slot_list;
  v_ignore_slots : slot_list;
  v_ignore_members : slot_list;
  v_squelch_slots : slot_list;
  v_null_slots : slot_list;
  v_monitored : slot_list;
  v_last_monitor : Z;
  v_code_capture : bool;
  v_code_buf : bytes;
  v_profile_capture : bool;
  v_mentions : list bytes;
  v_mention_head : nat;
  v_mention_count : nat;
  v_quit_deadline : Z;
  v_quit_last_tick : Z;
  v_quit_msg : bytes;
  v_login_time : Z;
  v_channel_joined_at : Z;
  v_messages_sent : Z;
  v_sentry_window_start : Z;
  v_sentry_window_count : Z;
}.

Definition zero_mv : ddial_mv_session :=
  {| v_member_no := 0; v_cosysop := false; v_full_muted := false; v_display_handle := []; v_msg_color := []; v_prefix
  := []; v_postfix := []; v_status := []; v_badges_on := false; v_lorem_on := false; v_reverse_on := false;
  v_scramble_on := false; v_replies_on := false; v_auto_slash := false; v_font := []; v_voice_on := false;
  v_voice_echo := false; v_notify_on := false; v_remember_on := false; v_beep_on := false; v_beep_volume := 0;
  v_beep_events := 0; v_auto_pm := []; v_ignore_slots := []; v_ignore_members := []; v_squelch_slots := [];
  v_null_slots := []; v_monitored := []; v_last_monitor := 0; v_code_capture := false; v_code_buf := [];
  v_profile_capture := false; v_mentions := replicate DDIAL_MV_MENTION_LOG []; v_mention_head := 0%nat;
  v_mention_count := 0%nat; v_quit_deadline := 0; v_quit_last_tick := 0; v_quit_msg := []; v_login_time := 0;
  v_channel_joined_at := 0; v_messages_sent := 0; v_sentry_window_start := 0; v_sentry_window_count := 0 |}.

Record ddial_session := {
  ss_id : Z;
  ss_slot : Z;
  ss_handle : bytes;
  ss_channel : Z;
  ss_logged_in : bool;
  ss_should_exit : bool;
  ss_out : output;
  ss_mv : ddial_mv_session;
}.

Definition no_session : ddial_session :=
  {| ss_id := 0; ss_slot := 0; ss_handle := []; ss_channel := 0; ss_logged_in := false; ss_should_exit := false;
     ss_out := fresh; ss_mv := zero_mv |}.

(** A member of the chat that holds a line of the station. *)
Record chat_link := { cl_slot : Z; cl_handle : bytes; cl_username : bytes }.

Record channel_meta := { me_channel : Z; me_topic : bytes; me_question : bytes; me_asker : bytes }.

Record boot := { bo_channel : Z; bo_handle : bytes; bo_until : Z }.

Record visit := { vi_handle : bytes; vi_member : Z; vi_when : Z; vi_logon : bool }.

(** [va_used] stands for a [host] that is not null. *)
Record vanish := { va_used : bool; va_channel : Z; va_due : Z; va_handle : bytes; va_room_line : bytes }.

(** What leaves the station. *)
Inductive effect :=
  | ToRoom (line : bytes)
  | ForgetRoom (line : bytes)
  | ToAi (handle plain : bytes)
  | ToLink (slot : Z) (handle : bytes) (channel : Z) (wire : bytes)
  | LinkLogin (slot channel : Z) (member : bool) (handle : bytes) (number : Z)
  | LinkLogout (slot channel : Z) (member : bool) (handle : bytes) (number : Z)
  | LinkPrivate (target slot : Z) (handle body : bytes)
  | ToChatter (username : bytes) (slot : Z) (handle body : bytes) (action : bool)
  | MailChatter (from name body : bytes).

Abbreviation store := DdialMembers.Members.store.

Record station := {
  sessions : list ddial_session;
  links : list chat_link;
  metas : list channel_meta;
  boots : list boot;
  visitors : list visit;
  visitor_head : nat;
  visitor_count : nat;
  vanishing : list vanish;
  sentry : bool;
  roll : store;
  effects : list effect;
}.

(** ** Changing a field *)

Definition set_v_member_no (m : ddial_mv_session) (v : Z) : ddial_mv_session :=
  {| v_member_no := v; v_cosysop := v_cosysop m; v_full_muted := v_full_muted m; v_display_handle :=
  v_display_handle m; v_msg_color := v_msg_color m; v_prefix := v_prefix m; v_postfix := v_postfix m; v_status :=
  v_status m; v_badges_on := v_badges_on m; v_lorem_on := v_lorem_on m; v_reverse_on := v_reverse_on m;
  v_scramble_on := v_scramble_on m; v_replies_on := v_replies_on m; v_auto_slash := v_auto_slash m; v_font :=
  v_font m; v_voice_on := v_voice_on m; v_voice_echo := v_voice_echo m; v_notify_on := v_notify_on m;
  v_remember_on := v_remember_on m; v_beep_on := v_beep_on m; v_beep_volume := v_beep_volume m; v_beep_events :=
  v_beep_events m; v_auto_pm := v_auto_pm m; v_ignore_slots := v_ignore_slots m; v_ignore_members :=
  v_ignore_members m; v_squelch_slots := v_squelch_slots m; v_null_slots := v_null_slots m; v_monitored :=
  v_monitored m; v_last_monitor := v_last_monitor m; v_code_capture := v_code_capture m; v_code_buf := v_code_buf
  m; v_profile_capture := v_profile_capture m; v_mentions := v_mentions m; v_mention_head := v_mention_head m;
  v_mention_count := v_mention_count m; v_quit_deadline := v_quit_deadline m; v_quit_last_tick := v_quit_last_tick
  m; v_quit_msg := v_quit_msg m; v_login_time := v_login_time m; v_channel_joined_at := v_channel_joined_at m;
  v_messages_sent := v_messages_sent m; v_sentry_window_start := v_sentry_window_start m; v_sentry_window_count :=
  v_sentry_window_count m |}.

Definition set_v_cosysop (m : ddial_mv_session) (v : bool) : ddial_mv_session :=
  {| v_member_no := v_member_no m; v_cosysop := v; v_full_muted := v_full_muted m; v_display_handle :=
  v_display_handle m; v_msg_color := v_msg_color m; v_prefix := v_prefix m; v_postfix := v_postfix m; v_status :=
  v_status m; v_badges_on := v_badges_on m; v_lorem_on := v_lorem_on m; v_reverse_on := v_reverse_on m;
  v_scramble_on := v_scramble_on m; v_replies_on := v_replies_on m; v_auto_slash := v_auto_slash m; v_font :=
  v_font m; v_voice_on := v_voice_on m; v_voice_echo := v_voice_echo m; v_notify_on := v_notify_on m;
  v_remember_on := v_remember_on m; v_beep_on := v_beep_on m; v_beep_volume := v_beep_volume m; v_beep_events :=
  v_beep_events m; v_auto_pm := v_auto_pm m; v_ignore_slots := v_ignore_slots m; v_ignore_members :=
  v_ignore_members m; v_squelch_slots := v_squelch_slots m; v_null_slots := v_null_slots m; v_monitored :=
  v_monitored m; v_last_monitor := v_last_monitor m; v_code_capture := v_code_capture m; v_code_buf := v_code_buf
  m; v_profile_capture := v_profile_capture m; v_mentions := v_mentions m; v_mention_head := v_mention_head m;
  v_mention_count := v_mention_count m; v_quit_deadline := v_quit_deadline m; v_quit_last_tick := v_quit_last_tick
  m; v_quit_msg := v_quit_msg m; v_login_time := v_login_time m; v_channel_joined_at := v_channel_joined_at m;
  v_messages_sent := v_messages_sent m; v_sentry_window_start := v_sentry_window_start m; v_sentry_window_count :=
  v_sentry_window_count m |}.

Definition set_v_full_muted (m : ddial_mv_session) (v : bool) : ddial_mv_session :=
  {| v_member_no := v_member_no m; v_cosysop := v_cosysop m; v_full_muted := v; v_display_handle :=
  v_display_handle m; v_msg_color := v_msg_color m; v_prefix := v_prefix m; v_postfix := v_postfix m; v_status :=
  v_status m; v_badges_on := v_badges_on m; v_lorem_on := v_lorem_on m; v_reverse_on := v_reverse_on m;
  v_scramble_on := v_scramble_on m; v_replies_on := v_replies_on m; v_auto_slash := v_auto_slash m; v_font :=
  v_font m; v_voice_on := v_voice_on m; v_voice_echo := v_voice_echo m; v_notify_on := v_notify_on m;
  v_remember_on := v_remember_on m; v_beep_on := v_beep_on m; v_beep_volume := v_beep_volume m; v_beep_events :=
  v_beep_events m; v_auto_pm := v_auto_pm m; v_ignore_slots := v_ignore_slots m; v_ignore_members :=
  v_ignore_members m; v_squelch_slots := v_squelch_slots m; v_null_slots := v_null_slots m; v_monitored :=
  v_monitored m; v_last_monitor := v_last_monitor m; v_code_capture := v_code_capture m; v_code_buf := v_code_buf
  m; v_profile_capture := v_profile_capture m; v_mentions := v_mentions m; v_mention_head := v_mention_head m;
  v_mention_count := v_mention_count m; v_quit_deadline := v_quit_deadline m; v_quit_last_tick := v_quit_last_tick
  m; v_quit_msg := v_quit_msg m; v_login_time := v_login_time m; v_channel_joined_at := v_channel_joined_at m;
  v_messages_sent := v_messages_sent m; v_sentry_window_start := v_sentry_window_start m; v_sentry_window_count :=
  v_sentry_window_count m |}.

Definition set_v_display_handle (m : ddial_mv_session) (v : bytes) : ddial_mv_session :=
  {| v_member_no := v_member_no m; v_cosysop := v_cosysop m; v_full_muted := v_full_muted m; v_display_handle :=
  v; v_msg_color := v_msg_color m; v_prefix := v_prefix m; v_postfix := v_postfix m; v_status := v_status m;
  v_badges_on := v_badges_on m; v_lorem_on := v_lorem_on m; v_reverse_on := v_reverse_on m; v_scramble_on :=
  v_scramble_on m; v_replies_on := v_replies_on m; v_auto_slash := v_auto_slash m; v_font := v_font m; v_voice_on
  := v_voice_on m; v_voice_echo := v_voice_echo m; v_notify_on := v_notify_on m; v_remember_on := v_remember_on m;
  v_beep_on := v_beep_on m; v_beep_volume := v_beep_volume m; v_beep_events := v_beep_events m; v_auto_pm :=
  v_auto_pm m; v_ignore_slots := v_ignore_slots m; v_ignore_members := v_ignore_members m; v_squelch_slots :=
  v_squelch_slots m; v_null_slots := v_null_slots m; v_monitored := v_monitored m; v_last_monitor :=
  v_last_monitor m; v_code_capture := v_code_capture m; v_code_buf := v_code_buf m; v_profile_capture :=
  v_profile_capture m; v_mentions := v_mentions m; v_mention_head := v_mention_head m; v_mention_count :=
  v_mention_count m; v_quit_deadline := v_quit_deadline m; v_quit_last_tick := v_quit_last_tick m; v_quit_msg :=
  v_quit_msg m; v_login_time := v_login_time m; v_channel_joined_at := v_channel_joined_at m; v_messages_sent :=
  v_messages_sent m; v_sentry_window_start := v_sentry_window_start m; v_sentry_window_count :=
  v_sentry_window_count m |}.

Definition set_v_msg_color (m : ddial_mv_session) (v : bytes) : ddial_mv_session :=
  {| v_member_no := v_member_no m; v_cosysop := v_cosysop m; v_full_muted := v_full_muted m; v_display_handle :=
  v_display_handle m; v_msg_color := v; v_prefix := v_prefix m; v_postfix := v_postfix m; v_status := v_status m;
  v_badges_on := v_badges_on m; v_lorem_on := v_lorem_on m; v_reverse_on := v_reverse_on m; v_scramble_on :=
  v_scramble_on m; v_replies_on := v_replies_on m; v_auto_slash := v_auto_slash m; v_font := v_font m; v_voice_on
  := v_voice_on m; v_voice_echo := v_voice_echo m; v_notify_on := v_notify_on m; v_remember_on := v_remember_on m;
  v_beep_on := v_beep_on m; v_beep_volume := v_beep_volume m; v_beep_events := v_beep_events m; v_auto_pm :=
  v_auto_pm m; v_ignore_slots := v_ignore_slots m; v_ignore_members := v_ignore_members m; v_squelch_slots :=
  v_squelch_slots m; v_null_slots := v_null_slots m; v_monitored := v_monitored m; v_last_monitor :=
  v_last_monitor m; v_code_capture := v_code_capture m; v_code_buf := v_code_buf m; v_profile_capture :=
  v_profile_capture m; v_mentions := v_mentions m; v_mention_head := v_mention_head m; v_mention_count :=
  v_mention_count m; v_quit_deadline := v_quit_deadline m; v_quit_last_tick := v_quit_last_tick m; v_quit_msg :=
  v_quit_msg m; v_login_time := v_login_time m; v_channel_joined_at := v_channel_joined_at m; v_messages_sent :=
  v_messages_sent m; v_sentry_window_start := v_sentry_window_start m; v_sentry_window_count :=
  v_sentry_window_count m |}.

Definition set_v_prefix (m : ddial_mv_session) (v : bytes) : ddial_mv_session :=
  {| v_member_no := v_member_no m; v_cosysop := v_cosysop m; v_full_muted := v_full_muted m; v_display_handle :=
  v_display_handle m; v_msg_color := v_msg_color m; v_prefix := v; v_postfix := v_postfix m; v_status := v_status
  m; v_badges_on := v_badges_on m; v_lorem_on := v_lorem_on m; v_reverse_on := v_reverse_on m; v_scramble_on :=
  v_scramble_on m; v_replies_on := v_replies_on m; v_auto_slash := v_auto_slash m; v_font := v_font m; v_voice_on
  := v_voice_on m; v_voice_echo := v_voice_echo m; v_notify_on := v_notify_on m; v_remember_on := v_remember_on m;
  v_beep_on := v_beep_on m; v_beep_volume := v_beep_volume m; v_beep_events := v_beep_events m; v_auto_pm :=
  v_auto_pm m; v_ignore_slots := v_ignore_slots m; v_ignore_members := v_ignore_members m; v_squelch_slots :=
  v_squelch_slots m; v_null_slots := v_null_slots m; v_monitored := v_monitored m; v_last_monitor :=
  v_last_monitor m; v_code_capture := v_code_capture m; v_code_buf := v_code_buf m; v_profile_capture :=
  v_profile_capture m; v_mentions := v_mentions m; v_mention_head := v_mention_head m; v_mention_count :=
  v_mention_count m; v_quit_deadline := v_quit_deadline m; v_quit_last_tick := v_quit_last_tick m; v_quit_msg :=
  v_quit_msg m; v_login_time := v_login_time m; v_channel_joined_at := v_channel_joined_at m; v_messages_sent :=
  v_messages_sent m; v_sentry_window_start := v_sentry_window_start m; v_sentry_window_count :=
  v_sentry_window_count m |}.

Definition set_v_postfix (m : ddial_mv_session) (v : bytes) : ddial_mv_session :=
  {| v_member_no := v_member_no m; v_cosysop := v_cosysop m; v_full_muted := v_full_muted m; v_display_handle :=
  v_display_handle m; v_msg_color := v_msg_color m; v_prefix := v_prefix m; v_postfix := v; v_status := v_status
  m; v_badges_on := v_badges_on m; v_lorem_on := v_lorem_on m; v_reverse_on := v_reverse_on m; v_scramble_on :=
  v_scramble_on m; v_replies_on := v_replies_on m; v_auto_slash := v_auto_slash m; v_font := v_font m; v_voice_on
  := v_voice_on m; v_voice_echo := v_voice_echo m; v_notify_on := v_notify_on m; v_remember_on := v_remember_on m;
  v_beep_on := v_beep_on m; v_beep_volume := v_beep_volume m; v_beep_events := v_beep_events m; v_auto_pm :=
  v_auto_pm m; v_ignore_slots := v_ignore_slots m; v_ignore_members := v_ignore_members m; v_squelch_slots :=
  v_squelch_slots m; v_null_slots := v_null_slots m; v_monitored := v_monitored m; v_last_monitor :=
  v_last_monitor m; v_code_capture := v_code_capture m; v_code_buf := v_code_buf m; v_profile_capture :=
  v_profile_capture m; v_mentions := v_mentions m; v_mention_head := v_mention_head m; v_mention_count :=
  v_mention_count m; v_quit_deadline := v_quit_deadline m; v_quit_last_tick := v_quit_last_tick m; v_quit_msg :=
  v_quit_msg m; v_login_time := v_login_time m; v_channel_joined_at := v_channel_joined_at m; v_messages_sent :=
  v_messages_sent m; v_sentry_window_start := v_sentry_window_start m; v_sentry_window_count :=
  v_sentry_window_count m |}.

Definition set_v_status (m : ddial_mv_session) (v : bytes) : ddial_mv_session :=
  {| v_member_no := v_member_no m; v_cosysop := v_cosysop m; v_full_muted := v_full_muted m; v_display_handle :=
  v_display_handle m; v_msg_color := v_msg_color m; v_prefix := v_prefix m; v_postfix := v_postfix m; v_status :=
  v; v_badges_on := v_badges_on m; v_lorem_on := v_lorem_on m; v_reverse_on := v_reverse_on m; v_scramble_on :=
  v_scramble_on m; v_replies_on := v_replies_on m; v_auto_slash := v_auto_slash m; v_font := v_font m; v_voice_on
  := v_voice_on m; v_voice_echo := v_voice_echo m; v_notify_on := v_notify_on m; v_remember_on := v_remember_on m;
  v_beep_on := v_beep_on m; v_beep_volume := v_beep_volume m; v_beep_events := v_beep_events m; v_auto_pm :=
  v_auto_pm m; v_ignore_slots := v_ignore_slots m; v_ignore_members := v_ignore_members m; v_squelch_slots :=
  v_squelch_slots m; v_null_slots := v_null_slots m; v_monitored := v_monitored m; v_last_monitor :=
  v_last_monitor m; v_code_capture := v_code_capture m; v_code_buf := v_code_buf m; v_profile_capture :=
  v_profile_capture m; v_mentions := v_mentions m; v_mention_head := v_mention_head m; v_mention_count :=
  v_mention_count m; v_quit_deadline := v_quit_deadline m; v_quit_last_tick := v_quit_last_tick m; v_quit_msg :=
  v_quit_msg m; v_login_time := v_login_time m; v_channel_joined_at := v_channel_joined_at m; v_messages_sent :=
  v_messages_sent m; v_sentry_window_start := v_sentry_window_start m; v_sentry_window_count :=
  v_sentry_window_count m |}.

Definition set_v_badges_on (m : ddial_mv_session) (v : bool) : ddial_mv_session :=
  {| v_member_no := v_member_no m; v_cosysop := v_cosysop m; v_full_muted := v_full_muted m; v_display_handle :=
  v_display_handle m; v_msg_color := v_msg_color m; v_prefix := v_prefix m; v_postfix := v_postfix m; v_status :=
  v_status m; v_badges_on := v; v_lorem_on := v_lorem_on m; v_reverse_on := v_reverse_on m; v_scramble_on :=
  v_scramble_on m; v_replies_on := v_replies_on m; v_auto_slash := v_auto_slash m; v_font := v_font m; v_voice_on
  := v_voice_on m; v_voice_echo := v_voice_echo m; v_notify_on := v_notify_on m; v_remember_on := v_remember_on m;
  v_beep_on := v_beep_on m; v_beep_volume := v_beep_volume m; v_beep_events := v_beep_events m; v_auto_pm :=
  v_auto_pm m; v_ignore_slots := v_ignore_slots m; v_ignore_members := v_ignore_members m; v_squelch_slots :=
  v_squelch_slots m; v_null_slots := v_null_slots m; v_monitored := v_monitored m; v_last_monitor :=
  v_last_monitor m; v_code_capture := v_code_capture m; v_code_buf := v_code_buf m; v_profile_capture :=
  v_profile_capture m; v_mentions := v_mentions m; v_mention_head := v_mention_head m; v_mention_count :=
  v_mention_count m; v_quit_deadline := v_quit_deadline m; v_quit_last_tick := v_quit_last_tick m; v_quit_msg :=
  v_quit_msg m; v_login_time := v_login_time m; v_channel_joined_at := v_channel_joined_at m; v_messages_sent :=
  v_messages_sent m; v_sentry_window_start := v_sentry_window_start m; v_sentry_window_count :=
  v_sentry_window_count m |}.

Definition set_v_lorem_on (m : ddial_mv_session) (v : bool) : ddial_mv_session :=
  {| v_member_no := v_member_no m; v_cosysop := v_cosysop m; v_full_muted := v_full_muted m; v_display_handle :=
  v_display_handle m; v_msg_color := v_msg_color m; v_prefix := v_prefix m; v_postfix := v_postfix m; v_status :=
  v_status m; v_badges_on := v_badges_on m; v_lorem_on := v; v_reverse_on := v_reverse_on m; v_scramble_on :=
  v_scramble_on m; v_replies_on := v_replies_on m; v_auto_slash := v_auto_slash m; v_font := v_font m; v_voice_on
  := v_voice_on m; v_voice_echo := v_voice_echo m; v_notify_on := v_notify_on m; v_remember_on := v_remember_on m;
  v_beep_on := v_beep_on m; v_beep_volume := v_beep_volume m; v_beep_events := v_beep_events m; v_auto_pm :=
  v_auto_pm m; v_ignore_slots := v_ignore_slots m; v_ignore_members := v_ignore_members m; v_squelch_slots :=
  v_squelch_slots m; v_null_slots := v_null_slots m; v_monitored := v_monitored m; v_last_monitor :=
  v_last_monitor m; v_code_capture := v_code_capture m; v_code_buf := v_code_buf m; v_profile_capture :=
  v_profile_capture m; v_mentions := v_mentions m; v_mention_head := v_mention_head m; v_mention_count :=
  v_mention_count m; v_quit_deadline := v_quit_deadline m; v_quit_last_tick := v_quit_last_tick m; v_quit_msg :=
  v_quit_msg m; v_login_time := v_login_time m; v_channel_joined_at := v_channel_joined_at m; v_messages_sent :=
  v_messages_sent m; v_sentry_window_start := v_sentry_window_start m; v_sentry_window_count :=
  v_sentry_window_count m |}.

Definition set_v_reverse_on (m : ddial_mv_session) (v : bool) : ddial_mv_session :=
  {| v_member_no := v_member_no m; v_cosysop := v_cosysop m; v_full_muted := v_full_muted m; v_display_handle :=
  v_display_handle m; v_msg_color := v_msg_color m; v_prefix := v_prefix m; v_postfix := v_postfix m; v_status :=
  v_status m; v_badges_on := v_badges_on m; v_lorem_on := v_lorem_on m; v_reverse_on := v; v_scramble_on :=
  v_scramble_on m; v_replies_on := v_replies_on m; v_auto_slash := v_auto_slash m; v_font := v_font m; v_voice_on
  := v_voice_on m; v_voice_echo := v_voice_echo m; v_notify_on := v_notify_on m; v_remember_on := v_remember_on m;
  v_beep_on := v_beep_on m; v_beep_volume := v_beep_volume m; v_beep_events := v_beep_events m; v_auto_pm :=
  v_auto_pm m; v_ignore_slots := v_ignore_slots m; v_ignore_members := v_ignore_members m; v_squelch_slots :=
  v_squelch_slots m; v_null_slots := v_null_slots m; v_monitored := v_monitored m; v_last_monitor :=
  v_last_monitor m; v_code_capture := v_code_capture m; v_code_buf := v_code_buf m; v_profile_capture :=
  v_profile_capture m; v_mentions := v_mentions m; v_mention_head := v_mention_head m; v_mention_count :=
  v_mention_count m; v_quit_deadline := v_quit_deadline m; v_quit_last_tick := v_quit_last_tick m; v_quit_msg :=
  v_quit_msg m; v_login_time := v_login_time m; v_channel_joined_at := v_channel_joined_at m; v_messages_sent :=
  v_messages_sent m; v_sentry_window_start := v_sentry_window_start m; v_sentry_window_count :=
  v_sentry_window_count m |}.

Definition set_v_scramble_on (m : ddial_mv_session) (v : bool) : ddial_mv_session :=
  {| v_member_no := v_member_no m; v_cosysop := v_cosysop m; v_full_muted := v_full_muted m; v_display_handle :=
  v_display_handle m; v_msg_color := v_msg_color m; v_prefix := v_prefix m; v_postfix := v_postfix m; v_status :=
  v_status m; v_badges_on := v_badges_on m; v_lorem_on := v_lorem_on m; v_reverse_on := v_reverse_on m;
  v_scramble_on := v; v_replies_on := v_replies_on m; v_auto_slash := v_auto_slash m; v_font := v_font m;
  v_voice_on := v_voice_on m; v_voice_echo := v_voice_echo m; v_notify_on := v_notify_on m; v_remember_on :=
  v_remember_on m; v_beep_on := v_beep_on m; v_beep_volume := v_beep_volume m; v_beep_events := v_beep_events m;
  v_auto_pm := v_auto_pm m; v_ignore_slots := v_ignore_slots m; v_ignore_members := v_ignore_members m;
  v_squelch_slots := v_squelch_slots m; v_null_slots := v_null_slots m; v_monitored := v_monitored m;
  v_last_monitor := v_last_monitor m; v_code_capture := v_code_capture m; v_code_buf := v_code_buf m;
  v_profile_capture := v_profile_capture m; v_mentions := v_mentions m; v_mention_head := v_mention_head m;
  v_mention_count := v_mention_count m; v_quit_deadline := v_quit_deadline m; v_quit_last_tick := v_quit_last_tick
  m; v_quit_msg := v_quit_msg m; v_login_time := v_login_time m; v_channel_joined_at := v_channel_joined_at m;
  v_messages_sent := v_messages_sent m; v_sentry_window_start := v_sentry_window_start m; v_sentry_window_count :=
  v_sentry_window_count m |}.

Definition set_v_replies_on (m : ddial_mv_session) (v : bool) : ddial_mv_session :=
  {| v_member_no := v_member_no m; v_cosysop := v_cosysop m; v_full_muted := v_full_muted m; v_display_handle :=
  v_display_handle m; v_msg_color := v_msg_color m; v_prefix := v_prefix m; v_postfix := v_postfix m; v_status :=
  v_status m; v_badges_on := v_badges_on m; v_lorem_on := v_lorem_on m; v_reverse_on := v_reverse_on m;
  v_scramble_on := v_scramble_on m; v_replies_on := v; v_auto_slash := v_auto_slash m; v_font := v_font m;
  v_voice_on := v_voice_on m; v_voice_echo := v_voice_echo m; v_notify_on := v_notify_on m; v_remember_on :=
  v_remember_on m; v_beep_on := v_beep_on m; v_beep_volume := v_beep_volume m; v_beep_events := v_beep_events m;
  v_auto_pm := v_auto_pm m; v_ignore_slots := v_ignore_slots m; v_ignore_members := v_ignore_members m;
  v_squelch_slots := v_squelch_slots m; v_null_slots := v_null_slots m; v_monitored := v_monitored m;
  v_last_monitor := v_last_monitor m; v_code_capture := v_code_capture m; v_code_buf := v_code_buf m;
  v_profile_capture := v_profile_capture m; v_mentions := v_mentions m; v_mention_head := v_mention_head m;
  v_mention_count := v_mention_count m; v_quit_deadline := v_quit_deadline m; v_quit_last_tick := v_quit_last_tick
  m; v_quit_msg := v_quit_msg m; v_login_time := v_login_time m; v_channel_joined_at := v_channel_joined_at m;
  v_messages_sent := v_messages_sent m; v_sentry_window_start := v_sentry_window_start m; v_sentry_window_count :=
  v_sentry_window_count m |}.

Definition set_v_auto_slash (m : ddial_mv_session) (v : bool) : ddial_mv_session :=
  {| v_member_no := v_member_no m; v_cosysop := v_cosysop m; v_full_muted := v_full_muted m; v_display_handle :=
  v_display_handle m; v_msg_color := v_msg_color m; v_prefix := v_prefix m; v_postfix := v_postfix m; v_status :=
  v_status m; v_badges_on := v_badges_on m; v_lorem_on := v_lorem_on m; v_reverse_on := v_reverse_on m;
  v_scramble_on := v_scramble_on m; v_replies_on := v_replies_on m; v_auto_slash := v; v_font := v_font m;
  v_voice_on := v_voice_on m; v_voice_echo := v_voice_echo m; v_notify_on := v_notify_on m; v_remember_on :=
  v_remember_on m; v_beep_on := v_beep_on m; v_beep_volume := v_beep_volume m; v_beep_events := v_beep_events m;
  v_auto_pm := v_auto_pm m; v_ignore_slots := v_ignore_slots m; v_ignore_members := v_ignore_members m;
  v_squelch_slots := v_squelch_slots m; v_null_slots := v_null_slots m; v_monitored := v_monitored m;
  v_last_monitor := v_last_monitor m; v_code_capture := v_code_capture m; v_code_buf := v_code_buf m;
  v_profile_capture := v_profile_capture m; v_mentions := v_mentions m; v_mention_head := v_mention_head m;
  v_mention_count := v_mention_count m; v_quit_deadline := v_quit_deadline m; v_quit_last_tick := v_quit_last_tick
  m; v_quit_msg := v_quit_msg m; v_login_time := v_login_time m; v_channel_joined_at := v_channel_joined_at m;
  v_messages_sent := v_messages_sent m; v_sentry_window_start := v_sentry_window_start m; v_sentry_window_count :=
  v_sentry_window_count m |}.

Definition set_v_font (m : ddial_mv_session) (v : bytes) : ddial_mv_session :=
  {| v_member_no := v_member_no m; v_cosysop := v_cosysop m; v_full_muted := v_full_muted m; v_display_handle :=
  v_display_handle m; v_msg_color := v_msg_color m; v_prefix := v_prefix m; v_postfix := v_postfix m; v_status :=
  v_status m; v_badges_on := v_badges_on m; v_lorem_on := v_lorem_on m; v_reverse_on := v_reverse_on m;
  v_scramble_on := v_scramble_on m; v_replies_on := v_replies_on m; v_auto_slash := v_auto_slash m; v_font := v;
  v_voice_on := v_voice_on m; v_voice_echo := v_voice_echo m; v_notify_on := v_notify_on m; v_remember_on :=
  v_remember_on m; v_beep_on := v_beep_on m; v_beep_volume := v_beep_volume m; v_beep_events := v_beep_events m;
  v_auto_pm := v_auto_pm m; v_ignore_slots := v_ignore_slots m; v_ignore_members := v_ignore_members m;
  v_squelch_slots := v_squelch_slots m; v_null_slots := v_null_slots m; v_monitored := v_monitored m;
  v_last_monitor := v_last_monitor m; v_code_capture := v_code_capture m; v_code_buf := v_code_buf m;
  v_profile_capture := v_profile_capture m; v_mentions := v_mentions m; v_mention_head := v_mention_head m;
  v_mention_count := v_mention_count m; v_quit_deadline := v_quit_deadline m; v_quit_last_tick := v_quit_last_tick
  m; v_quit_msg := v_quit_msg m; v_login_time := v_login_time m; v_channel_joined_at := v_channel_joined_at m;
  v_messages_sent := v_messages_sent m; v_sentry_window_start := v_sentry_window_start m; v_sentry_window_count :=
  v_sentry_window_count m |}.

Definition set_v_voice_on (m : ddial_mv_session) (v : bool) : ddial_mv_session :=
  {| v_member_no := v_member_no m; v_cosysop := v_cosysop m; v_full_muted := v_full_muted m; v_display_handle :=
  v_display_handle m; v_msg_color := v_msg_color m; v_prefix := v_prefix m; v_postfix := v_postfix m; v_status :=
  v_status m; v_badges_on := v_badges_on m; v_lorem_on := v_lorem_on m; v_reverse_on := v_reverse_on m;
  v_scramble_on := v_scramble_on m; v_replies_on := v_replies_on m; v_auto_slash := v_auto_slash m; v_font :=
  v_font m; v_voice_on := v; v_voice_echo := v_voice_echo m; v_notify_on := v_notify_on m; v_remember_on :=
  v_remember_on m; v_beep_on := v_beep_on m; v_beep_volume := v_beep_volume m; v_beep_events := v_beep_events m;
  v_auto_pm := v_auto_pm m; v_ignore_slots := v_ignore_slots m; v_ignore_members := v_ignore_members m;
  v_squelch_slots := v_squelch_slots m; v_null_slots := v_null_slots m; v_monitored := v_monitored m;
  v_last_monitor := v_last_monitor m; v_code_capture := v_code_capture m; v_code_buf := v_code_buf m;
  v_profile_capture := v_profile_capture m; v_mentions := v_mentions m; v_mention_head := v_mention_head m;
  v_mention_count := v_mention_count m; v_quit_deadline := v_quit_deadline m; v_quit_last_tick := v_quit_last_tick
  m; v_quit_msg := v_quit_msg m; v_login_time := v_login_time m; v_channel_joined_at := v_channel_joined_at m;
  v_messages_sent := v_messages_sent m; v_sentry_window_start := v_sentry_window_start m; v_sentry_window_count :=
  v_sentry_window_count m |}.

Definition set_v_voice_echo (m : ddial_mv_session) (v : bool) : ddial_mv_session :=
  {| v_member_no := v_member_no m; v_cosysop := v_cosysop m; v_full_muted := v_full_muted m; v_display_handle :=
  v_display_handle m; v_msg_color := v_msg_color m; v_prefix := v_prefix m; v_postfix := v_postfix m; v_status :=
  v_status m; v_badges_on := v_badges_on m; v_lorem_on := v_lorem_on m; v_reverse_on := v_reverse_on m;
  v_scramble_on := v_scramble_on m; v_replies_on := v_replies_on m; v_auto_slash := v_auto_slash m; v_font :=
  v_font m; v_voice_on := v_voice_on m; v_voice_echo := v; v_notify_on := v_notify_on m; v_remember_on :=
  v_remember_on m; v_beep_on := v_beep_on m; v_beep_volume := v_beep_volume m; v_beep_events := v_beep_events m;
  v_auto_pm := v_auto_pm m; v_ignore_slots := v_ignore_slots m; v_ignore_members := v_ignore_members m;
  v_squelch_slots := v_squelch_slots m; v_null_slots := v_null_slots m; v_monitored := v_monitored m;
  v_last_monitor := v_last_monitor m; v_code_capture := v_code_capture m; v_code_buf := v_code_buf m;
  v_profile_capture := v_profile_capture m; v_mentions := v_mentions m; v_mention_head := v_mention_head m;
  v_mention_count := v_mention_count m; v_quit_deadline := v_quit_deadline m; v_quit_last_tick := v_quit_last_tick
  m; v_quit_msg := v_quit_msg m; v_login_time := v_login_time m; v_channel_joined_at := v_channel_joined_at m;
  v_messages_sent := v_messages_sent m; v_sentry_window_start := v_sentry_window_start m; v_sentry_window_count :=
  v_sentry_window_count m |}.

Definition set_v_notify_on (m : ddial_mv_session) (v : bool) : ddial_mv_session :=
  {| v_member_no := v_member_no m; v_cosysop := v_cosysop m; v_full_muted := v_full_muted m; v_display_handle :=
  v_display_handle m; v_msg_color := v_msg_color m; v_prefix := v_prefix m; v_postfix := v_postfix m; v_status :=
  v_status m; v_badges_on := v_badges_on m; v_lorem_on := v_lorem_on m; v_reverse_on := v_reverse_on m;
  v_scramble_on := v_scramble_on m; v_replies_on := v_replies_on m; v_auto_slash := v_auto_slash m; v_font :=
  v_font m; v_voice_on := v_voice_on m; v_voice_echo := v_voice_echo m; v_notify_on := v; v_remember_on :=
  v_remember_on m; v_beep_on := v_beep_on m; v_beep_volume := v_beep_volume m; v_beep_events := v_beep_events m;
  v_auto_pm := v_auto_pm m; v_ignore_slots := v_ignore_slots m; v_ignore_members := v_ignore_members m;
  v_squelch_slots := v_squelch_slots m; v_null_slots := v_null_slots m; v_monitored := v_monitored m;
  v_last_monitor := v_last_monitor m; v_code_capture := v_code_capture m; v_code_buf := v_code_buf m;
  v_profile_capture := v_profile_capture m; v_mentions := v_mentions m; v_mention_head := v_mention_head m;
  v_mention_count := v_mention_count m; v_quit_deadline := v_quit_deadline m; v_quit_last_tick := v_quit_last_tick
  m; v_quit_msg := v_quit_msg m; v_login_time := v_login_time m; v_channel_joined_at := v_channel_joined_at m;
  v_messages_sent := v_messages_sent m; v_sentry_window_start := v_sentry_window_start m; v_sentry_window_count :=
  v_sentry_window_count m |}.

Definition set_v_remember_on (m : ddial_mv_session) (v : bool) : ddial_mv_session :=
  {| v_member_no := v_member_no m; v_cosysop := v_cosysop m; v_full_muted := v_full_muted m; v_display_handle :=
  v_display_handle m; v_msg_color := v_msg_color m; v_prefix := v_prefix m; v_postfix := v_postfix m; v_status :=
  v_status m; v_badges_on := v_badges_on m; v_lorem_on := v_lorem_on m; v_reverse_on := v_reverse_on m;
  v_scramble_on := v_scramble_on m; v_replies_on := v_replies_on m; v_auto_slash := v_auto_slash m; v_font :=
  v_font m; v_voice_on := v_voice_on m; v_voice_echo := v_voice_echo m; v_notify_on := v_notify_on m;
  v_remember_on := v; v_beep_on := v_beep_on m; v_beep_volume := v_beep_volume m; v_beep_events := v_beep_events
  m; v_auto_pm := v_auto_pm m; v_ignore_slots := v_ignore_slots m; v_ignore_members := v_ignore_members m;
  v_squelch_slots := v_squelch_slots m; v_null_slots := v_null_slots m; v_monitored := v_monitored m;
  v_last_monitor := v_last_monitor m; v_code_capture := v_code_capture m; v_code_buf := v_code_buf m;
  v_profile_capture := v_profile_capture m; v_mentions := v_mentions m; v_mention_head := v_mention_head m;
  v_mention_count := v_mention_count m; v_quit_deadline := v_quit_deadline m; v_quit_last_tick := v_quit_last_tick
  m; v_quit_msg := v_quit_msg m; v_login_time := v_login_time m; v_channel_joined_at := v_channel_joined_at m;
  v_messages_sent := v_messages_sent m; v_sentry_window_start := v_sentry_window_start m; v_sentry_window_count :=
  v_sentry_window_count m |}.

Definition set_v_beep_on (m : ddial_mv_session) (v : bool) : ddial_mv_session :=
  {| v_member_no := v_member_no m; v_cosysop := v_cosysop m; v_full_muted := v_full_muted m; v_display_handle :=
  v_display_handle m; v_msg_color := v_msg_color m; v_prefix := v_prefix m; v_postfix := v_postfix m; v_status :=
  v_status m; v_badges_on := v_badges_on m; v_lorem_on := v_lorem_on m; v_reverse_on := v_reverse_on m;
  v_scramble_on := v_scramble_on m; v_replies_on := v_replies_on m; v_auto_slash := v_auto_slash m; v_font :=
  v_font m; v_voice_on := v_voice_on m; v_voice_echo := v_voice_echo m; v_notify_on := v_notify_on m;
  v_remember_on := v_remember_on m; v_beep_on := v; v_beep_volume := v_beep_volume m; v_beep_events :=
  v_beep_events m; v_auto_pm := v_auto_pm m; v_ignore_slots := v_ignore_slots m; v_ignore_members :=
  v_ignore_members m; v_squelch_slots := v_squelch_slots m; v_null_slots := v_null_slots m; v_monitored :=
  v_monitored m; v_last_monitor := v_last_monitor m; v_code_capture := v_code_capture m; v_code_buf := v_code_buf
  m; v_profile_capture := v_profile_capture m; v_mentions := v_mentions m; v_mention_head := v_mention_head m;
  v_mention_count := v_mention_count m; v_quit_deadline := v_quit_deadline m; v_quit_last_tick := v_quit_last_tick
  m; v_quit_msg := v_quit_msg m; v_login_time := v_login_time m; v_channel_joined_at := v_channel_joined_at m;
  v_messages_sent := v_messages_sent m; v_sentry_window_start := v_sentry_window_start m; v_sentry_window_count :=
  v_sentry_window_count m |}.

Definition set_v_beep_volume (m : ddial_mv_session) (v : Z) : ddial_mv_session :=
  {| v_member_no := v_member_no m; v_cosysop := v_cosysop m; v_full_muted := v_full_muted m; v_display_handle :=
  v_display_handle m; v_msg_color := v_msg_color m; v_prefix := v_prefix m; v_postfix := v_postfix m; v_status :=
  v_status m; v_badges_on := v_badges_on m; v_lorem_on := v_lorem_on m; v_reverse_on := v_reverse_on m;
  v_scramble_on := v_scramble_on m; v_replies_on := v_replies_on m; v_auto_slash := v_auto_slash m; v_font :=
  v_font m; v_voice_on := v_voice_on m; v_voice_echo := v_voice_echo m; v_notify_on := v_notify_on m;
  v_remember_on := v_remember_on m; v_beep_on := v_beep_on m; v_beep_volume := v; v_beep_events := v_beep_events
  m; v_auto_pm := v_auto_pm m; v_ignore_slots := v_ignore_slots m; v_ignore_members := v_ignore_members m;
  v_squelch_slots := v_squelch_slots m; v_null_slots := v_null_slots m; v_monitored := v_monitored m;
  v_last_monitor := v_last_monitor m; v_code_capture := v_code_capture m; v_code_buf := v_code_buf m;
  v_profile_capture := v_profile_capture m; v_mentions := v_mentions m; v_mention_head := v_mention_head m;
  v_mention_count := v_mention_count m; v_quit_deadline := v_quit_deadline m; v_quit_last_tick := v_quit_last_tick
  m; v_quit_msg := v_quit_msg m; v_login_time := v_login_time m; v_channel_joined_at := v_channel_joined_at m;
  v_messages_sent := v_messages_sent m; v_sentry_window_start := v_sentry_window_start m; v_sentry_window_count :=
  v_sentry_window_count m |}.

Definition set_v_beep_events (m : ddial_mv_session) (v : Z) : ddial_mv_session :=
  {| v_member_no := v_member_no m; v_cosysop := v_cosysop m; v_full_muted := v_full_muted m; v_display_handle :=
  v_display_handle m; v_msg_color := v_msg_color m; v_prefix := v_prefix m; v_postfix := v_postfix m; v_status :=
  v_status m; v_badges_on := v_badges_on m; v_lorem_on := v_lorem_on m; v_reverse_on := v_reverse_on m;
  v_scramble_on := v_scramble_on m; v_replies_on := v_replies_on m; v_auto_slash := v_auto_slash m; v_font :=
  v_font m; v_voice_on := v_voice_on m; v_voice_echo := v_voice_echo m; v_notify_on := v_notify_on m;
  v_remember_on := v_remember_on m; v_beep_on := v_beep_on m; v_beep_volume := v_beep_volume m; v_beep_events :=
  v; v_auto_pm := v_auto_pm m; v_ignore_slots := v_ignore_slots m; v_ignore_members := v_ignore_members m;
  v_squelch_slots := v_squelch_slots m; v_null_slots := v_null_slots m; v_monitored := v_monitored m;
  v_last_monitor := v_last_monitor m; v_code_capture := v_code_capture m; v_code_buf := v_code_buf m;
  v_profile_capture := v_profile_capture m; v_mentions := v_mentions m; v_mention_head := v_mention_head m;
  v_mention_count := v_mention_count m; v_quit_deadline := v_quit_deadline m; v_quit_last_tick := v_quit_last_tick
  m; v_quit_msg := v_quit_msg m; v_login_time := v_login_time m; v_channel_joined_at := v_channel_joined_at m;
  v_messages_sent := v_messages_sent m; v_sentry_window_start := v_sentry_window_start m; v_sentry_window_count :=
  v_sentry_window_count m |}.

Definition set_v_auto_pm (m : ddial_mv_session) (v : slot_list) : ddial_mv_session :=
  {| v_member_no := v_member_no m; v_cosysop := v_cosysop m; v_full_muted := v_full_muted m; v_display_handle :=
  v_display_handle m; v_msg_color := v_msg_color m; v_prefix := v_prefix m; v_postfix := v_postfix m; v_status :=
  v_status m; v_badges_on := v_badges_on m; v_lorem_on := v_lorem_on m; v_reverse_on := v_reverse_on m;
  v_scramble_on := v_scramble_on m; v_replies_on := v_replies_on m; v_auto_slash := v_auto_slash m; v_font :=
  v_font m; v_voice_on := v_voice_on m; v_voice_echo := v_voice_echo m; v_notify_on := v_notify_on m;
  v_remember_on := v_remember_on m; v_beep_on := v_beep_on m; v_beep_volume := v_beep_volume m; v_beep_events :=
  v_beep_events m; v_auto_pm := v; v_ignore_slots := v_ignore_slots m; v_ignore_members := v_ignore_members m;
  v_squelch_slots := v_squelch_slots m; v_null_slots := v_null_slots m; v_monitored := v_monitored m;
  v_last_monitor := v_last_monitor m; v_code_capture := v_code_capture m; v_code_buf := v_code_buf m;
  v_profile_capture := v_profile_capture m; v_mentions := v_mentions m; v_mention_head := v_mention_head m;
  v_mention_count := v_mention_count m; v_quit_deadline := v_quit_deadline m; v_quit_last_tick := v_quit_last_tick
  m; v_quit_msg := v_quit_msg m; v_login_time := v_login_time m; v_channel_joined_at := v_channel_joined_at m;
  v_messages_sent := v_messages_sent m; v_sentry_window_start := v_sentry_window_start m; v_sentry_window_count :=
  v_sentry_window_count m |}.

Definition set_v_ignore_slots (m : ddial_mv_session) (v : slot_list) : ddial_mv_session :=
  {| v_member_no := v_member_no m; v_cosysop := v_cosysop m; v_full_muted := v_full_muted m; v_display_handle :=
  v_display_handle m; v_msg_color := v_msg_color m; v_prefix := v_prefix m; v_postfix := v_postfix m; v_status :=
  v_status m; v_badges_on := v_badges_on m; v_lorem_on := v_lorem_on m; v_reverse_on := v_reverse_on m;
  v_scramble_on := v_scramble_on m; v_replies_on := v_replies_on m; v_auto_slash := v_auto_slash m; v_font :=
  v_font m; v_voice_on := v_voice_on m; v_voice_echo := v_voice_echo m; v_notify_on := v_notify_on m;
  v_remember_on := v_remember_on m; v_beep_on := v_beep_on m; v_beep_volume := v_beep_volume m; v_beep_events :=
  v_beep_events m; v_auto_pm := v_auto_pm m; v_ignore_slots := v; v_ignore_members := v_ignore_members m;
  v_squelch_slots := v_squelch_slots m; v_null_slots := v_null_slots m; v_monitored := v_monitored m;
  v_last_monitor := v_last_monitor m; v_code_capture := v_code_capture m; v_code_buf := v_code_buf m;
  v_profile_capture := v_profile_capture m; v_mentions := v_mentions m; v_mention_head := v_mention_head m;
  v_mention_count := v_mention_count m; v_quit_deadline := v_quit_deadline m; v_quit_last_tick := v_quit_last_tick
  m; v_quit_msg := v_quit_msg m; v_login_time := v_login_time m; v_channel_joined_at := v_channel_joined_at m;
  v_messages_sent := v_messages_sent m; v_sentry_window_start := v_sentry_window_start m; v_sentry_window_count :=
  v_sentry_window_count m |}.

Definition set_v_ignore_members (m : ddial_mv_session) (v : slot_list) : ddial_mv_session :=
  {| v_member_no := v_member_no m; v_cosysop := v_cosysop m; v_full_muted := v_full_muted m; v_display_handle :=
  v_display_handle m; v_msg_color := v_msg_color m; v_prefix := v_prefix m; v_postfix := v_postfix m; v_status :=
  v_status m; v_badges_on := v_badges_on m; v_lorem_on := v_lorem_on m; v_reverse_on := v_reverse_on m;
  v_scramble_on := v_scramble_on m; v_replies_on := v_replies_on m; v_auto_slash := v_auto_slash m; v_font :=
  v_font m; v_voice_on := v_voice_on m; v_voice_echo := v_voice_echo m; v_notify_on := v_notify_on m;
  v_remember_on := v_remember_on m; v_beep_on := v_beep_on m; v_beep_volume := v_beep_volume m; v_beep_events :=
  v_beep_events m; v_auto_pm := v_auto_pm m; v_ignore_slots := v_ignore_slots m; v_ignore_members := v;
  v_squelch_slots := v_squelch_slots m; v_null_slots := v_null_slots m; v_monitored := v_monitored m;
  v_last_monitor := v_last_monitor m; v_code_capture := v_code_capture m; v_code_buf := v_code_buf m;
  v_profile_capture := v_profile_capture m; v_mentions := v_mentions m; v_mention_head := v_mention_head m;
  v_mention_count := v_mention_count m; v_quit_deadline := v_quit_deadline m; v_quit_last_tick := v_quit_last_tick
  m; v_quit_msg := v_quit_msg m; v_login_time := v_login_time m; v_channel_joined_at := v_channel_joined_at m;
  v_messages_sent := v_messages_sent m; v_sentry_window_start := v_sentry_window_start m; v_sentry_window_count :=
  v_sentry_window_count m |}.

Definition set_v_squelch_slots (m : ddial_mv_session) (v : slot_list) : ddial_mv_session :=
  {| v_member_no := v_member_no m; v_cosysop := v_cosysop m; v_full_muted := v_full_muted m; v_display_handle :=
  v_display_handle m; v_msg_color := v_msg_color m; v_prefix := v_prefix m; v_postfix := v_postfix m; v_status :=
  v_status m; v_badges_on := v_badges_on m; v_lorem_on := v_lorem_on m; v_reverse_on := v_reverse_on m;
  v_scramble_on := v_scramble_on m; v_replies_on := v_replies_on m; v_auto_slash := v_auto_slash m; v_font :=
  v_font m; v_voice_on := v_voice_on m; v_voice_echo := v_voice_echo m; v_notify_on := v_notify_on m;
  v_remember_on := v_remember_on m; v_beep_on := v_beep_on m; v_beep_volume := v_beep_volume m; v_beep_events :=
  v_beep_events m; v_auto_pm := v_auto_pm m; v_ignore_slots := v_ignore_slots m; v_ignore_members :=
  v_ignore_members m; v_squelch_slots := v; v_null_slots := v_null_slots m; v_monitored := v_monitored m;
  v_last_monitor := v_last_monitor m; v_code_capture := v_code_capture m; v_code_buf := v_code_buf m;
  v_profile_capture := v_profile_capture m; v_mentions := v_mentions m; v_mention_head := v_mention_head m;
  v_mention_count := v_mention_count m; v_quit_deadline := v_quit_deadline m; v_quit_last_tick := v_quit_last_tick
  m; v_quit_msg := v_quit_msg m; v_login_time := v_login_time m; v_channel_joined_at := v_channel_joined_at m;
  v_messages_sent := v_messages_sent m; v_sentry_window_start := v_sentry_window_start m; v_sentry_window_count :=
  v_sentry_window_count m |}.

Definition set_v_null_slots (m : ddial_mv_session) (v : slot_list) : ddial_mv_session :=
  {| v_member_no := v_member_no m; v_cosysop := v_cosysop m; v_full_muted := v_full_muted m; v_display_handle :=
  v_display_handle m; v_msg_color := v_msg_color m; v_prefix := v_prefix m; v_postfix := v_postfix m; v_status :=
  v_status m; v_badges_on := v_badges_on m; v_lorem_on := v_lorem_on m; v_reverse_on := v_reverse_on m;
  v_scramble_on := v_scramble_on m; v_replies_on := v_replies_on m; v_auto_slash := v_auto_slash m; v_font :=
  v_font m; v_voice_on := v_voice_on m; v_voice_echo := v_voice_echo m; v_notify_on := v_notify_on m;
  v_remember_on := v_remember_on m; v_beep_on := v_beep_on m; v_beep_volume := v_beep_volume m; v_beep_events :=
  v_beep_events m; v_auto_pm := v_auto_pm m; v_ignore_slots := v_ignore_slots m; v_ignore_members :=
  v_ignore_members m; v_squelch_slots := v_squelch_slots m; v_null_slots := v; v_monitored := v_monitored m;
  v_last_monitor := v_last_monitor m; v_code_capture := v_code_capture m; v_code_buf := v_code_buf m;
  v_profile_capture := v_profile_capture m; v_mentions := v_mentions m; v_mention_head := v_mention_head m;
  v_mention_count := v_mention_count m; v_quit_deadline := v_quit_deadline m; v_quit_last_tick := v_quit_last_tick
  m; v_quit_msg := v_quit_msg m; v_login_time := v_login_time m; v_channel_joined_at := v_channel_joined_at m;
  v_messages_sent := v_messages_sent m; v_sentry_window_start := v_sentry_window_start m; v_sentry_window_count :=
  v_sentry_window_count m |}.

Definition set_v_monitored (m : ddial_mv_session) (v : slot_list) : ddial_mv_session :=
  {| v_member_no := v_member_no m; v_cosysop := v_cosysop m; v_full_muted := v_full_muted m; v_display_handle :=
  v_display_handle m; v_msg_color := v_msg_color m; v_prefix := v_prefix m; v_postfix := v_postfix m; v_status :=
  v_status m; v_badges_on := v_badges_on m; v_lorem_on := v_lorem_on m; v_reverse_on := v_reverse_on m;
  v_scramble_on := v_scramble_on m; v_replies_on := v_replies_on m; v_auto_slash := v_auto_slash m; v_font :=
  v_font m; v_voice_on := v_voice_on m; v_voice_echo := v_voice_echo m; v_notify_on := v_notify_on m;
  v_remember_on := v_remember_on m; v_beep_on := v_beep_on m; v_beep_volume := v_beep_volume m; v_beep_events :=
  v_beep_events m; v_auto_pm := v_auto_pm m; v_ignore_slots := v_ignore_slots m; v_ignore_members :=
  v_ignore_members m; v_squelch_slots := v_squelch_slots m; v_null_slots := v_null_slots m; v_monitored := v;
  v_last_monitor := v_last_monitor m; v_code_capture := v_code_capture m; v_code_buf := v_code_buf m;
  v_profile_capture := v_profile_capture m; v_mentions := v_mentions m; v_mention_head := v_mention_head m;
  v_mention_count := v_mention_count m; v_quit_deadline := v_quit_deadline m; v_quit_last_tick := v_quit_last_tick
  m; v_quit_msg := v_quit_msg m; v_login_time := v_login_time m; v_channel_joined_at := v_channel_joined_at m;
  v_messages_sent := v_messages_sent m; v_sentry_window_start := v_sentry_window_start m; v_sentry_window_count :=
  v_sentry_window_count m |}.

Definition set_v_last_monitor (m : ddial_mv_session) (v : Z) : ddial_mv_session :=
  {| v_member_no := v_member_no m; v_cosysop := v_cosysop m; v_full_muted := v_full_muted m; v_display_handle :=
  v_display_handle m; v_msg_color := v_msg_color m; v_prefix := v_prefix m; v_postfix := v_postfix m; v_status :=
  v_status m; v_badges_on := v_badges_on m; v_lorem_on := v_lorem_on m; v_reverse_on := v_reverse_on m;
  v_scramble_on := v_scramble_on m; v_replies_on := v_replies_on m; v_auto_slash := v_auto_slash m; v_font :=
  v_font m; v_voice_on := v_voice_on m; v_voice_echo := v_voice_echo m; v_notify_on := v_notify_on m;
  v_remember_on := v_remember_on m; v_beep_on := v_beep_on m; v_beep_volume := v_beep_volume m; v_beep_events :=
  v_beep_events m; v_auto_pm := v_auto_pm m; v_ignore_slots := v_ignore_slots m; v_ignore_members :=
  v_ignore_members m; v_squelch_slots := v_squelch_slots m; v_null_slots := v_null_slots m; v_monitored :=
  v_monitored m; v_last_monitor := v; v_code_capture := v_code_capture m; v_code_buf := v_code_buf m;
  v_profile_capture := v_profile_capture m; v_mentions := v_mentions m; v_mention_head := v_mention_head m;
  v_mention_count := v_mention_count m; v_quit_deadline := v_quit_deadline m; v_quit_last_tick := v_quit_last_tick
  m; v_quit_msg := v_quit_msg m; v_login_time := v_login_time m; v_channel_joined_at := v_channel_joined_at m;
  v_messages_sent := v_messages_sent m; v_sentry_window_start := v_sentry_window_start m; v_sentry_window_count :=
  v_sentry_window_count m |}.

Definition set_v_code_capture (m : ddial_mv_session) (v : bool) : ddial_mv_session :=
  {| v_member_no := v_member_no m; v_cosysop := v_cosysop m; v_full_muted := v_full_muted m; v_display_handle :=
  v_display_handle m; v_msg_color := v_msg_color m; v_prefix := v_prefix m; v_postfix := v_postfix m; v_status :=
  v_status m; v_badges_on := v_badges_on m; v_lorem_on := v_lorem_on m; v_reverse_on := v_reverse_on m;
  v_scramble_on := v_scramble_on m; v_replies_on := v_replies_on m; v_auto_slash := v_auto_slash m; v_font :=
  v_font m; v_voice_on := v_voice_on m; v_voice_echo := v_voice_echo m; v_notify_on := v_notify_on m;
  v_remember_on := v_remember_on m; v_beep_on := v_beep_on m; v_beep_volume := v_beep_volume m; v_beep_events :=
  v_beep_events m; v_auto_pm := v_auto_pm m; v_ignore_slots := v_ignore_slots m; v_ignore_members :=
  v_ignore_members m; v_squelch_slots := v_squelch_slots m; v_null_slots := v_null_slots m; v_monitored :=
  v_monitored m; v_last_monitor := v_last_monitor m; v_code_capture := v; v_code_buf := v_code_buf m;
  v_profile_capture := v_profile_capture m; v_mentions := v_mentions m; v_mention_head := v_mention_head m;
  v_mention_count := v_mention_count m; v_quit_deadline := v_quit_deadline m; v_quit_last_tick := v_quit_last_tick
  m; v_quit_msg := v_quit_msg m; v_login_time := v_login_time m; v_channel_joined_at := v_channel_joined_at m;
  v_messages_sent := v_messages_sent m; v_sentry_window_start := v_sentry_window_start m; v_sentry_window_count :=
  v_sentry_window_count m |}.

Definition set_v_code_buf (m : ddial_mv_session) (v : bytes) : ddial_mv_session :=
  {| v_member_no := v_member_no m; v_cosysop := v_cosysop m; v_full_muted := v_full_muted m; v_display_handle :=
  v_display_handle m; v_msg_color := v_msg_color m; v_prefix := v_prefix m; v_postfix := v_postfix m; v_status :=
  v_status m; v_badges_on := v_badges_on m; v_lorem_on := v_lorem_on m; v_reverse_on := v_reverse_on m;
  v_scramble_on := v_scramble_on m; v_replies_on := v_replies_on m; v_auto_slash := v_auto_slash m; v_font :=
  v_font m; v_voice_on := v_voice_on m; v_voice_echo := v_voice_echo m; v_notify_on := v_notify_on m;
  v_remember_on := v_remember_on m; v_beep_on := v_beep_on m; v_beep_volume := v_beep_volume m; v_beep_events :=
  v_beep_events m; v_auto_pm := v_auto_pm m; v_ignore_slots := v_ignore_slots m; v_ignore_members :=
  v_ignore_members m; v_squelch_slots := v_squelch_slots m; v_null_slots := v_null_slots m; v_monitored :=
  v_monitored m; v_last_monitor := v_last_monitor m; v_code_capture := v_code_capture m; v_code_buf := v;
  v_profile_capture := v_profile_capture m; v_mentions := v_mentions m; v_mention_head := v_mention_head m;
  v_mention_count := v_mention_count m; v_quit_deadline := v_quit_deadline m; v_quit_last_tick := v_quit_last_tick
  m; v_quit_msg := v_quit_msg m; v_login_time := v_login_time m; v_channel_joined_at := v_channel_joined_at m;
  v_messages_sent := v_messages_sent m; v_sentry_window_start := v_sentry_window_start m; v_sentry_window_count :=
  v_sentry_window_count m |}.

Definition set_v_profile_capture (m : ddial_mv_session) (v : bool) : ddial_mv_session :=
  {| v_member_no := v_member_no m; v_cosysop := v_cosysop m; v_full_muted := v_full_muted m; v_display_handle :=
  v_display_handle m; v_msg_color := v_msg_color m; v_prefix := v_prefix m; v_postfix := v_postfix m; v_status :=
  v_status m; v_badges_on := v_badges_on m; v_lorem_on := v_lorem_on m; v_reverse_on := v_reverse_on m;
  v_scramble_on := v_scramble_on m; v_replies_on := v_replies_on m; v_auto_slash := v_auto_slash m; v_font :=
  v_font m; v_voice_on := v_voice_on m; v_voice_echo := v_voice_echo m; v_notify_on := v_notify_on m;
  v_remember_on := v_remember_on m; v_beep_on := v_beep_on m; v_beep_volume := v_beep_volume m; v_beep_events :=
  v_beep_events m; v_auto_pm := v_auto_pm m; v_ignore_slots := v_ignore_slots m; v_ignore_members :=
  v_ignore_members m; v_squelch_slots := v_squelch_slots m; v_null_slots := v_null_slots m; v_monitored :=
  v_monitored m; v_last_monitor := v_last_monitor m; v_code_capture := v_code_capture m; v_code_buf := v_code_buf
  m; v_profile_capture := v; v_mentions := v_mentions m; v_mention_head := v_mention_head m; v_mention_count :=
  v_mention_count m; v_quit_deadline := v_quit_deadline m; v_quit_last_tick := v_quit_last_tick m; v_quit_msg :=
  v_quit_msg m; v_login_time := v_login_time m; v_channel_joined_at := v_channel_joined_at m; v_messages_sent :=
  v_messages_sent m; v_sentry_window_start := v_sentry_window_start m; v_sentry_window_count :=
  v_sentry_window_count m |}.

Definition set_v_mentions (m : ddial_mv_session) (v : list bytes) : ddial_mv_session :=
  {| v_member_no := v_member_no m; v_cosysop := v_cosysop m; v_full_muted := v_full_muted m; v_display_handle :=
  v_display_handle m; v_msg_color := v_msg_color m; v_prefix := v_prefix m; v_postfix := v_postfix m; v_status :=
  v_status m; v_badges_on := v_badges_on m; v_lorem_on := v_lorem_on m; v_reverse_on := v_reverse_on m;
  v_scramble_on := v_scramble_on m; v_replies_on := v_replies_on m; v_auto_slash := v_auto_slash m; v_font :=
  v_font m; v_voice_on := v_voice_on m; v_voice_echo := v_voice_echo m; v_notify_on := v_notify_on m;
  v_remember_on := v_remember_on m; v_beep_on := v_beep_on m; v_beep_volume := v_beep_volume m; v_beep_events :=
  v_beep_events m; v_auto_pm := v_auto_pm m; v_ignore_slots := v_ignore_slots m; v_ignore_members :=
  v_ignore_members m; v_squelch_slots := v_squelch_slots m; v_null_slots := v_null_slots m; v_monitored :=
  v_monitored m; v_last_monitor := v_last_monitor m; v_code_capture := v_code_capture m; v_code_buf := v_code_buf
  m; v_profile_capture := v_profile_capture m; v_mentions := v; v_mention_head := v_mention_head m;
  v_mention_count := v_mention_count m; v_quit_deadline := v_quit_deadline m; v_quit_last_tick := v_quit_last_tick
  m; v_quit_msg := v_quit_msg m; v_login_time := v_login_time m; v_channel_joined_at := v_channel_joined_at m;
  v_messages_sent := v_messages_sent m; v_sentry_window_start := v_sentry_window_start m; v_sentry_window_count :=
  v_sentry_window_count m |}.

Definition set_v_mention_head (m : ddial_mv_session) (v : nat) : ddial_mv_session :=
  {| v_member_no := v_member_no m; v_cosysop := v_cosysop m; v_full_muted := v_full_muted m; v_display_handle :=
  v_display_handle m; v_msg_color := v_msg_color m; v_prefix := v_prefix m; v_postfix := v_postfix m; v_status :=
  v_status m; v_badges_on := v_badges_on m; v_lorem_on := v_lorem_on m; v_reverse_on := v_reverse_on m;
  v_scramble_on := v_scramble_on m; v_replies_on := v_replies_on m; v_auto_slash := v_auto_slash m; v_font :=
  v_font m; v_voice_on := v_voice_on m; v_voice_echo := v_voice_echo m; v_notify_on := v_notify_on m;
  v_remember_on := v_remember_on m; v_beep_on := v_beep_on m; v_beep_volume := v_beep_volume m; v_beep_events :=
  v_beep_events m; v_auto_pm := v_auto_pm m; v_ignore_slots := v_ignore_slots m; v_ignore_members :=
  v_ignore_members m; v_squelch_slots := v_squelch_slots m; v_null_slots := v_null_slots m; v_monitored :=
  v_monitored m; v_last_monitor := v_last_monitor m; v_code_capture := v_code_capture m; v_code_buf := v_code_buf
  m; v_profile_capture := v_profile_capture m; v_mentions := v_mentions m; v_mention_head := v; v_mention_count :=
  v_mention_count m; v_quit_deadline := v_quit_deadline m; v_quit_last_tick := v_quit_last_tick m; v_quit_msg :=
  v_quit_msg m; v_login_time := v_login_time m; v_channel_joined_at := v_channel_joined_at m; v_messages_sent :=
  v_messages_sent m; v_sentry_window_start := v_sentry_window_start m; v_sentry_window_count :=
  v_sentry_window_count m |}.

Definition set_v_mention_count (m : ddial_mv_session) (v : nat) : ddial_mv_session :=
  {| v_member_no := v_member_no m; v_cosysop := v_cosysop m; v_full_muted := v_full_muted m; v_display_handle :=
  v_display_handle m; v_msg_color := v_msg_color m; v_prefix := v_prefix m; v_postfix := v_postfix m; v_status :=
  v_status m; v_badges_on := v_badges_on m; v_lorem_on := v_lorem_on m; v_reverse_on := v_reverse_on m;
  v_scramble_on := v_scramble_on m; v_replies_on := v_replies_on m; v_auto_slash := v_auto_slash m; v_font :=
  v_font m; v_voice_on := v_voice_on m; v_voice_echo := v_voice_echo m; v_notify_on := v_notify_on m;
  v_remember_on := v_remember_on m; v_beep_on := v_beep_on m; v_beep_volume := v_beep_volume m; v_beep_events :=
  v_beep_events m; v_auto_pm := v_auto_pm m; v_ignore_slots := v_ignore_slots m; v_ignore_members :=
  v_ignore_members m; v_squelch_slots := v_squelch_slots m; v_null_slots := v_null_slots m; v_monitored :=
  v_monitored m; v_last_monitor := v_last_monitor m; v_code_capture := v_code_capture m; v_code_buf := v_code_buf
  m; v_profile_capture := v_profile_capture m; v_mentions := v_mentions m; v_mention_head := v_mention_head m;
  v_mention_count := v; v_quit_deadline := v_quit_deadline m; v_quit_last_tick := v_quit_last_tick m; v_quit_msg
  := v_quit_msg m; v_login_time := v_login_time m; v_channel_joined_at := v_channel_joined_at m; v_messages_sent
  := v_messages_sent m; v_sentry_window_start := v_sentry_window_start m; v_sentry_window_count :=
  v_sentry_window_count m |}.

Definition set_v_quit_deadline (m : ddial_mv_session) (v : Z) : ddial_mv_session :=
  {| v_member_no := v_member_no m; v_cosysop := v_cosysop m; v_full_muted := v_full_muted m; v_display_handle :=
  v_display_handle m; v_msg_color := v_msg_color m; v_prefix := v_prefix m; v_postfix := v_postfix m; v_status :=
  v_status m; v_badges_on := v_badges_on m; v_lorem_on := v_lorem_on m; v_reverse_on := v_reverse_on m;
  v_scramble_on := v_scramble_on m; v_replies_on := v_replies_on m; v_auto_slash := v_auto_slash m; v_font :=
  v_font m; v_voice_on := v_voice_on m; v_voice_echo := v_voice_echo m; v_notify_on := v_notify_on m;
  v_remember_on := v_remember_on m; v_beep_on := v_beep_on m; v_beep_volume := v_beep_volume m; v_beep_events :=
  v_beep_events m; v_auto_pm := v_auto_pm m; v_ignore_slots := v_ignore_slots m; v_ignore_members :=
  v_ignore_members m; v_squelch_slots := v_squelch_slots m; v_null_slots := v_null_slots m; v_monitored :=
  v_monitored m; v_last_monitor := v_last_monitor m; v_code_capture := v_code_capture m; v_code_buf := v_code_buf
  m; v_profile_capture := v_profile_capture m; v_mentions := v_mentions m; v_mention_head := v_mention_head m;
  v_mention_count := v_mention_count m; v_quit_deadline := v; v_quit_last_tick := v_quit_last_tick m; v_quit_msg
  := v_quit_msg m; v_login_time := v_login_time m; v_channel_joined_at := v_channel_joined_at m; v_messages_sent
  := v_messages_sent m; v_sentry_window_start := v_sentry_window_start m; v_sentry_window_count :=
  v_sentry_window_count m |}.

Definition set_v_quit_last_tick (m : ddial_mv_session) (v : Z) : ddial_mv_session :=
  {| v_member_no := v_member_no m; v_cosysop := v_cosysop m; v_full_muted := v_full_muted m; v_display_handle :=
  v_display_handle m; v_msg_color := v_msg_color m; v_prefix := v_prefix m; v_postfix := v_postfix m; v_status :=
  v_status m; v_badges_on := v_badges_on m; v_lorem_on := v_lorem_on m; v_reverse_on := v_reverse_on m;
  v_scramble_on := v_scramble_on m; v_replies_on := v_replies_on m; v_auto_slash := v_auto_slash m; v_font :=
  v_font m; v_voice_on := v_voice_on m; v_voice_echo := v_voice_echo m; v_notify_on := v_notify_on m;
  v_remember_on := v_remember_on m; v_beep_on := v_beep_on m; v_beep_volume := v_beep_volume m; v_beep_events :=
  v_beep_events m; v_auto_pm := v_auto_pm m; v_ignore_slots := v_ignore_slots m; v_ignore_members :=
  v_ignore_members m; v_squelch_slots := v_squelch_slots m; v_null_slots := v_null_slots m; v_monitored :=
  v_monitored m; v_last_monitor := v_last_monitor m; v_code_capture := v_code_capture m; v_code_buf := v_code_buf
  m; v_profile_capture := v_profile_capture m; v_mentions := v_mentions m; v_mention_head := v_mention_head m;
  v_mention_count := v_mention_count m; v_quit_deadline := v_quit_deadline m; v_quit_last_tick := v; v_quit_msg :=
  v_quit_msg m; v_login_time := v_login_time m; v_channel_joined_at := v_channel_joined_at m; v_messages_sent :=
  v_messages_sent m; v_sentry_window_start := v_sentry_window_start m; v_sentry_window_count :=
  v_sentry_window_count m |}.

Definition set_v_quit_msg (m : ddial_mv_session) (v : bytes) : ddial_mv_session :=
  {| v_member_no := v_member_no m; v_cosysop := v_cosysop m; v_full_muted := v_full_muted m; v_display_handle :=
  v_display_handle m; v_msg_color := v_msg_color m; v_prefix := v_prefix m; v_postfix := v_postfix m; v_status :=
  v_status m; v_badges_on := v_badges_on m; v_lorem_on := v_lorem_on m; v_reverse_on := v_reverse_on m;
  v_scramble_on := v_scramble_on m; v_replies_on := v_replies_on m; v_auto_slash := v_auto_slash m; v_font :=
  v_font m; v_voice_on := v_voice_on m; v_voice_echo := v_voice_echo m; v_notify_on := v_notify_on m;
  v_remember_on := v_remember_on m; v_beep_on := v_beep_on m; v_beep_volume := v_beep_volume m; v_beep_events :=
  v_beep_events m; v_auto_pm := v_auto_pm m; v_ignore_slots := v_ignore_slots m; v_ignore_members :=
  v_ignore_members m; v_squelch_slots := v_squelch_slots m; v_null_slots := v_null_slots m; v_monitored :=
  v_monitored m; v_last_monitor := v_last_monitor m; v_code_capture := v_code_capture m; v_code_buf := v_code_buf
  m; v_profile_capture := v_profile_capture m; v_mentions := v_mentions m; v_mention_head := v_mention_head m;
  v_mention_count := v_mention_count m; v_quit_deadline := v_quit_deadline m; v_quit_last_tick := v_quit_last_tick
  m; v_quit_msg := v; v_login_time := v_login_time m; v_channel_joined_at := v_channel_joined_at m;
  v_messages_sent := v_messages_sent m; v_sentry_window_start := v_sentry_window_start m; v_sentry_window_count :=
  v_sentry_window_count m |}.

Definition set_v_login_time (m : ddial_mv_session) (v : Z) : ddial_mv_session :=
  {| v_member_no := v_member_no m; v_cosysop := v_cosysop m; v_full_muted := v_full_muted m; v_display_handle :=
  v_display_handle m; v_msg_color := v_msg_color m; v_prefix := v_prefix m; v_postfix := v_postfix m; v_status :=
  v_status m; v_badges_on := v_badges_on m; v_lorem_on := v_lorem_on m; v_reverse_on := v_reverse_on m;
  v_scramble_on := v_scramble_on m; v_replies_on := v_replies_on m; v_auto_slash := v_auto_slash m; v_font :=
  v_font m; v_voice_on := v_voice_on m; v_voice_echo := v_voice_echo m; v_notify_on := v_notify_on m;
  v_remember_on := v_remember_on m; v_beep_on := v_beep_on m; v_beep_volume := v_beep_volume m; v_beep_events :=
  v_beep_events m; v_auto_pm := v_auto_pm m; v_ignore_slots := v_ignore_slots m; v_ignore_members :=
  v_ignore_members m; v_squelch_slots := v_squelch_slots m; v_null_slots := v_null_slots m; v_monitored :=
  v_monitored m; v_last_monitor := v_last_monitor m; v_code_capture := v_code_capture m; v_code_buf := v_code_buf
  m; v_profile_capture := v_profile_capture m; v_mentions := v_mentions m; v_mention_head := v_mention_head m;
  v_mention_count := v_mention_count m; v_quit_deadline := v_quit_deadline m; v_quit_last_tick := v_quit_last_tick
  m; v_quit_msg := v_quit_msg m; v_login_time := v; v_channel_joined_at := v_channel_joined_at m; v_messages_sent
  := v_messages_sent m; v_sentry_window_start := v_sentry_window_start m; v_sentry_window_count :=
  v_sentry_window_count m |}.

Definition set_v_channel_joined_at (m : ddial_mv_session) (v : Z) : ddial_mv_session :=
  {| v_member_no := v_member_no m; v_cosysop := v_cosysop m; v_full_muted := v_full_muted m; v_display_handle :=
  v_display_handle m; v_msg_color := v_msg_color m; v_prefix := v_prefix m; v_postfix := v_postfix m; v_status :=
  v_status m; v_badges_on := v_badges_on m; v_lorem_on := v_lorem_on m; v_reverse_on := v_reverse_on m;
  v_scramble_on := v_scramble_on m; v_replies_on := v_replies_on m; v_auto_slash := v_auto_slash m; v_font :=
  v_font m; v_voice_on := v_voice_on m; v_voice_echo := v_voice_echo m; v_notify_on := v_notify_on m;
  v_remember_on := v_remember_on m; v_beep_on := v_beep_on m; v_beep_volume := v_beep_volume m; v_beep_events :=
  v_beep_events m; v_auto_pm := v_auto_pm m; v_ignore_slots := v_ignore_slots m; v_ignore_members :=
  v_ignore_members m; v_squelch_slots := v_squelch_slots m; v_null_slots := v_null_slots m; v_monitored :=
  v_monitored m; v_last_monitor := v_last_monitor m; v_code_capture := v_code_capture m; v_code_buf := v_code_buf
  m; v_profile_capture := v_profile_capture m; v_mentions := v_mentions m; v_mention_head := v_mention_head m;
  v_mention_count := v_mention_count m; v_quit_deadline := v_quit_deadline m; v_quit_last_tick := v_quit_last_tick
  m; v_quit_msg := v_quit_msg m; v_login_time := v_login_time m; v_channel_joined_at := v; v_messages_sent :=
  v_messages_sent m; v_sentry_window_start := v_sentry_window_start m; v_sentry_window_count :=
  v_sentry_window_count m |}.

Definition set_v_messages_sent (m : ddial_mv_session) (v : Z) : ddial_mv_session :=
  {| v_member_no := v_member_no m; v_cosysop := v_cosysop m; v_full_muted := v_full_muted m; v_display_handle :=
  v_display_handle m; v_msg_color := v_msg_color m; v_prefix := v_prefix m; v_postfix := v_postfix m; v_status :=
  v_status m; v_badges_on := v_badges_on m; v_lorem_on := v_lorem_on m; v_reverse_on := v_reverse_on m;
  v_scramble_on := v_scramble_on m; v_replies_on := v_replies_on m; v_auto_slash := v_auto_slash m; v_font :=
  v_font m; v_voice_on := v_voice_on m; v_voice_echo := v_voice_echo m; v_notify_on := v_notify_on m;
  v_remember_on := v_remember_on m; v_beep_on := v_beep_on m; v_beep_volume := v_beep_volume m; v_beep_events :=
  v_beep_events m; v_auto_pm := v_auto_pm m; v_ignore_slots := v_ignore_slots m; v_ignore_members :=
  v_ignore_members m; v_squelch_slots := v_squelch_slots m; v_null_slots := v_null_slots m; v_monitored :=
  v_monitored m; v_last_monitor := v_last_monitor m; v_code_capture := v_code_capture m; v_code_buf := v_code_buf
  m; v_profile_capture := v_profile_capture m; v_mentions := v_mentions m; v_mention_head := v_mention_head m;
  v_mention_count := v_mention_count m; v_quit_deadline := v_quit_deadline m; v_quit_last_tick := v_quit_last_tick
  m; v_quit_msg := v_quit_msg m; v_login_time := v_login_time m; v_channel_joined_at := v_channel_joined_at m;
  v_messages_sent := v; v_sentry_window_start := v_sentry_window_start m; v_sentry_window_count :=
  v_sentry_window_count m |}.

Definition set_v_sentry_window_start (m : ddial_mv_session) (v : Z) : ddial_mv_session :=
  {| v_member_no := v_member_no m; v_cosysop := v_cosysop m; v_full_muted := v_full_muted m; v_display_handle :=
  v_display_handle m; v_msg_color := v_msg_color m; v_prefix := v_prefix m; v_postfix := v_postfix m; v_status :=
  v_status m; v_badges_on := v_badges_on m; v_lorem_on := v_lorem_on m; v_reverse_on := v_reverse_on m;
  v_scramble_on := v_scramble_on m; v_replies_on := v_replies_on m; v_auto_slash := v_auto_slash m; v_font :=
  v_font m; v_voice_on := v_voice_on m; v_voice_echo := v_voice_echo m; v_notify_on := v_notify_on m;
  v_remember_on := v_remember_on m; v_beep_on := v_beep_on m; v_beep_volume := v_beep_volume m; v_beep_events :=
  v_beep_events m; v_auto_pm := v_auto_pm m; v_ignore_slots := v_ignore_slots m; v_ignore_members :=
  v_ignore_members m; v_squelch_slots := v_squelch_slots m; v_null_slots := v_null_slots m; v_monitored :=
  v_monitored m; v_last_monitor := v_last_monitor m; v_code_capture := v_code_capture m; v_code_buf := v_code_buf
  m; v_profile_capture := v_profile_capture m; v_mentions := v_mentions m; v_mention_head := v_mention_head m;
  v_mention_count := v_mention_count m; v_quit_deadline := v_quit_deadline m; v_quit_last_tick := v_quit_last_tick
  m; v_quit_msg := v_quit_msg m; v_login_time := v_login_time m; v_channel_joined_at := v_channel_joined_at m;
  v_messages_sent := v_messages_sent m; v_sentry_window_start := v; v_sentry_window_count := v_sentry_window_count
  m |}.

Definition set_v_sentry_window_count (m : ddial_mv_session) (v : Z) : ddial_mv_session :=
  {| v_member_no := v_member_no m; v_cosysop := v_cosysop m; v_full_muted := v_full_muted m; v_display_handle :=
  v_display_handle m; v_msg_color := v_msg_color m; v_prefix := v_prefix m; v_postfix := v_postfix m; v_status :=
  v_status m; v_badges_on := v_badges_on m; v_lorem_on := v_lorem_on m; v_reverse_on := v_reverse_on m;
  v_scramble_on := v_scramble_on m; v_replies_on := v_replies_on m; v_auto_slash := v_auto_slash m; v_font :=
  v_font m; v_voice_on := v_voice_on m; v_voice_echo := v_voice_echo m; v_notify_on := v_notify_on m;
  v_remember_on := v_remember_on m; v_beep_on := v_beep_on m; v_beep_volume := v_beep_volume m; v_beep_events :=
  v_beep_events m; v_auto_pm := v_auto_pm m; v_ignore_slots := v_ignore_slots m; v_ignore_members :=
  v_ignore_members m; v_squelch_slots := v_squelch_slots m; v_null_slots := v_null_slots m; v_monitored :=
  v_monitored m; v_last_monitor := v_last_monitor m; v_code_capture := v_code_capture m; v_code_buf := v_code_buf
  m; v_profile_capture := v_profile_capture m; v_mentions := v_mentions m; v_mention_head := v_mention_head m;
  v_mention_count := v_mention_count m; v_quit_deadline := v_quit_deadline m; v_quit_last_tick := v_quit_last_tick
  m; v_quit_msg := v_quit_msg m; v_login_time := v_login_time m; v_channel_joined_at := v_channel_joined_at m;
  v_messages_sent := v_messages_sent m; v_sentry_window_start := v_sentry_window_start m; v_sentry_window_count :=
  v |}.

Definition set_ss_slot (m : ddial_session) (v : Z) : ddial_session :=
  {| ss_id := ss_id m; ss_slot := v; ss_handle := ss_handle m; ss_channel := ss_channel m; ss_logged_in :=
  ss_logged_in m; ss_should_exit := ss_should_exit m; ss_out := ss_out m; ss_mv := ss_mv m |}.

Definition set_ss_handle (m : ddial_session) (v : bytes) : ddial_session :=
  {| ss_id := ss_id m; ss_slot := ss_slot m; ss_handle := v; ss_channel := ss_channel m; ss_logged_in :=
  ss_logged_in m; ss_should_exit := ss_should_exit m; ss_out := ss_out m; ss_mv := ss_mv m |}.

Definition set_ss_channel (m : ddial_session) (v : Z) : ddial_session :=
  {| ss_id := ss_id m; ss_slot := ss_slot m; ss_handle := ss_handle m; ss_channel := v; ss_logged_in :=
  ss_logged_in m; ss_should_exit := ss_should_exit m; ss_out := ss_out m; ss_mv := ss_mv m |}.

Definition set_ss_logged_in (m : ddial_session) (v : bool) : ddial_session :=
  {| ss_id := ss_id m; ss_slot := ss_slot m; ss_handle := ss_handle m; ss_channel := ss_channel m; ss_logged_in :=
  v; ss_should_exit := ss_should_exit m; ss_out := ss_out m; ss_mv := ss_mv m |}.

Definition set_ss_should_exit (m : ddial_session) (v : bool) : ddial_session :=
  {| ss_id := ss_id m; ss_slot := ss_slot m; ss_handle := ss_handle m; ss_channel := ss_channel m; ss_logged_in :=
  ss_logged_in m; ss_should_exit := v; ss_out := ss_out m; ss_mv := ss_mv m |}.

Definition set_ss_out (m : ddial_session) (v : output) : ddial_session :=
  {| ss_id := ss_id m; ss_slot := ss_slot m; ss_handle := ss_handle m; ss_channel := ss_channel m; ss_logged_in :=
  ss_logged_in m; ss_should_exit := ss_should_exit m; ss_out := v; ss_mv := ss_mv m |}.

Definition set_ss_mv (m : ddial_session) (v : ddial_mv_session) : ddial_session :=
  {| ss_id := ss_id m; ss_slot := ss_slot m; ss_handle := ss_handle m; ss_channel := ss_channel m; ss_logged_in :=
  ss_logged_in m; ss_should_exit := ss_should_exit m; ss_out := ss_out m; ss_mv := v |}.

Definition set_sessions (m : station) (v : list ddial_session) : station :=
  {| sessions := v; links := links m; metas := metas m; boots := boots m; visitors := visitors m; visitor_head :=
  visitor_head m; visitor_count := visitor_count m; vanishing := vanishing m; sentry := sentry m; roll := roll m;
  effects := effects m |}.

Definition set_links (m : station) (v : list chat_link) : station :=
  {| sessions := sessions m; links := v; metas := metas m; boots := boots m; visitors := visitors m; visitor_head
  := visitor_head m; visitor_count := visitor_count m; vanishing := vanishing m; sentry := sentry m; roll := roll
  m; effects := effects m |}.

Definition set_metas (m : station) (v : list channel_meta) : station :=
  {| sessions := sessions m; links := links m; metas := v; boots := boots m; visitors := visitors m; visitor_head
  := visitor_head m; visitor_count := visitor_count m; vanishing := vanishing m; sentry := sentry m; roll := roll
  m; effects := effects m |}.

Definition set_boots (m : station) (v : list boot) : station :=
  {| sessions := sessions m; links := links m; metas := metas m; boots := v; visitors := visitors m; visitor_head
  := visitor_head m; visitor_count := visitor_count m; vanishing := vanishing m; sentry := sentry m; roll := roll
  m; effects := effects m |}.

Definition set_visitors (m : station) (v : list visit) : station :=
  {| sessions := sessions m; links := links m; metas := metas m; boots := boots m; visitors := v; visitor_head :=
  visitor_head m; visitor_count := visitor_count m; vanishing := vanishing m; sentry := sentry m; roll := roll m;
  effects := effects m |}.

Definition set_visitor_head (m : station) (v : nat) : station :=
  {| sessions := sessions m; links := links m; metas := metas m; boots := boots m; visitors := visitors m;
  visitor_head := v; visitor_count := visitor_count m; vanishing := vanishing m; sentry := sentry m; roll := roll
  m; effects := effects m |}.

Definition set_visitor_count (m : station) (v : nat) : station :=
  {| sessions := sessions m; links := links m; metas := metas m; boots := boots m; visitors := visitors m;
  visitor_head := visitor_head m; visitor_count := v; vanishing := vanishing m; sentry := sentry m; roll := roll
  m; effects := effects m |}.

Definition set_vanishing (m : station) (v : list vanish) : station :=
  {| sessions := sessions m; links := links m; metas := metas m; boots := boots m; visitors := visitors m;
  visitor_head := visitor_head m; visitor_count := visitor_count m; vanishing := v; sentry := sentry m; roll :=
  roll m; effects := effects m |}.

Definition set_sentry (m : station) (v : bool) : station :=
  {| sessions := sessions m; links := links m; metas := metas m; boots := boots m; visitors := visitors m;
  visitor_head := visitor_head m; visitor_count := visitor_count m; vanishing := vanishing m; sentry := v; roll :=
  roll m; effects := effects m |}.

Definition set_roll (m : station) (v : store) : station :=
  {| sessions := sessions m; links := links m; metas := metas m; boots := boots m; visitors := visitors m;
  visitor_head := visitor_head m; visitor_count := visitor_count m; vanishing := vanishing m; sentry := sentry m;
  roll := v; effects := effects m |}.

Definition set_effects (m : station) (v : list effect) : station :=
  {| sessions := sessions m; links := links m; metas := metas m; boots := boots m; visitors := visitors m;
  visitor_head := visitor_head m; visitor_count := visitor_count m; vanishing := vanishing m; sentry := sentry m;
  roll := roll m; effects := v |}.

(** ** Sessions of the registry *)

Definition find_session (st : station) (id : Z) : option ddial_session :=
  find (fun s => ss_id s =? id) (sessions st).

Definition the (st : station) (id : Z) : ddial_session :=
  match find_session st id with Some s => s | None => no_session end.

Definition upd (st : station) (id : Z) (f : ddial_session -> ddial_session) : station :=
  set_sessions st (map (fun s => if ss_id s =? id then f s else s) (sessions st)).

Definition upd_mv (st : station) (id : Z) (f : ddial_mv_session -> ddial_mv_session) : station :=
  upd st id (fun s => set_ss_mv s (f (ss_mv s))).

(** [host_ddial_foreach_session] with a callback that keeps nothing. *)
Definition foreach (st : station) (f : ddial_session -> ddial_session) : station :=
  set_sessions st (map f (sessions st)).

Definition emit (st : station) (e : effect) : station := set_effects st (effects st ++ [e]).

Definition write (s : ddial_session) (data : bytes) : ddial_session :=
  set_ss_out s (ddial_session_write_raw (ss_out s) data).

Definition write_line (s : ddial_session) (text : bytes) : ddial_session :=
  set_ss_out s (ddial_session_write_line (ss_out s) text).

(** [mv_line] with its text already put together, which is cut to the buffer. *)
Definition mv_line (s : ddial_session) (text : bytes) : ddial_session :=
  write_line s (snprintf_text SSH_CHATTER_MESSAGE_LIMIT text).

Definition say (st : station) (id : Z) (text : bytes) : station := upd st id (fun s => mv_line s text).

Definition mv_is_member (s : ddial_session) : bool := negb (v_member_no (ss_mv s) =? 0).

Definition mv_handle (s : ddial_session) : bytes :=
  if (0 <? length (v_display_handle (ss_mv s)))%nat then v_display_handle (ss_mv s) else ss_handle s.

Definition mv_bell (s : ddial_session) (event : Z) : ddial_session :=
  let v := ss_mv s in
  if v_beep_on v && (0 <? v_beep_volume v) && negb (Z.land (v_beep_events v) event =? 0)
  then write s [c_bel] else s.

(** What a step reads of the outside: the clocks, the local time as [%H:%M] and
    as month and day, the numbers drawn, and the random salt of a password. *)
Record clock := {
  now : Z;
  mono : Time.timespec;
  hour_minute : bytes;
  month_day : Z * Z;
  lorem_draws : list Z;
  scramble_draws : list Z;
  fun_draw : Z;
  fresh_salt : option bytes;
}.

(** The lowest line number without an 8 or 9 that no session and no member of
    the chat holds. *)
Definition slot_used (st : station) (slot : Z) : bool :=
  existsb (fun s => ss_slot s =? slot) (sessions st) || existsb (fun l => cl_slot l =? slot) (links st).

Fixpoint allocate_go (fuel : nat) (st : station) (candidate : Z) : Z :=
  match fuel with
  | O => candidate
  | S fuel =>
      if negb (Wire.ddial_slot_is_valid candidate) then allocate_go fuel st (u16 (candidate + 1))
      else if negb (slot_used st candidate) || (candidate =? UINT16_MAX) then candidate
      else allocate_go fuel st (u16 (candidate + 1))
  end.

(** 65535 turns see every candidate. *)
Definition ddial_allocate_slot_locked (st : station) : Z := allocate_go (Z.to_nat 65535) st 1.

(** A new connection: its number is new to the registry, its line the first
    free one. *)
Definition host_ddial_register_session (st : station) (id : Z) : station :=
  let s := set_ss_channel (set_ss_slot {| ss_id := id; ss_slot := 0; ss_handle := []; ss_channel := 0;
             ss_logged_in := false; ss_should_exit := false; ss_out := fresh; ss_mv := zero_mv |}
             (ddial_allocate_slot_locked st)) DDIAL_DEFAULT_CHANNEL in
  set_sessions st (s :: sessions st).

Definition host_ddial_unregister_session (st : station) (id : Z) : station :=
  set_sessions st (filter (fun s => ss_id s <> id) (sessions st)).

Definition host_ddial_chat_link_username (st : station) (slot : Z) : option bytes :=
  cl_username <$> find (fun l => cl_slot l =? slot) (links st).

(** The first session that is logged in and passes a test. *)
Definition find_logged (st : station) (f : ddial_session -> bool) : option ddial_session :=
  find (fun s => ss_logged_in s && f s) (sessions st).

Definition mv_find_member (st : station) (number : Z) : option ddial_session :=
  find_logged st (fun s => negb (number =? 0) && (v_member_no (ss_mv s) =? number)).

Definition mv_find_handle (st : station) (handle : bytes) : option ddial_session :=
  find_logged st (fun s => Members.same_nocase (ss_handle s) handle).

Definition at_slot (slot : Z) (s : ddial_session) : bool := ss_slot s =? slot.

(** The handle on a line, of a session or a member of the chat. *)
Definition mv_slot_handle (st : station) (slot : Z) : option bytes :=
  match find_logged st (at_slot slot) with
  | Some s => Some (ss_handle s)
  | None => host_ddial_chat_link_username st slot
  end.

End Session.
