(* ===== verification/DdialChat.v ===== *)
(** The chat of the dial-in station: who a public line reaches, the public and
    private messages of a session, the flood guard and the vanishing messages
    of [src/host/ddial/magviz.c], and the entrances of
    [src/host/ddial/integration.c] for lines of the link. *)

From Stdlib Require Import ZArith Lia String Ascii.
From stdpp Require Import prelude.
From S2P Require Import Prelude DdialProtocol HostGuard DdialServer DdialText DdialMembers DdialSession.
Import Output Slots Text Colour Session.

Module Chat.

(** ** Public lines *)

Record ddial_mv_public := {
  p_channel : Z;
  p_from_slot : Z;
  p_from_member : Z;
  p_line : bytes;
  p_plain_body : option bytes;
  p_members_only : bool;
  p_system : bool;
  p_pace_baud : Z;
}.

Definition system_line (channel : Z) (line : bytes) : ddial_mv_public :=
  {| p_channel := channel; p_from_slot := 0; p_from_member := 0; p_line := line; p_plain_body := None;
     p_members_only := false; p_system := true; p_pace_baud := 0 |}.

Definition mentions_in (body : option bytes) (handle : bytes) : bool :=
  match body with Some b => mv_mentions b handle | None => false end.

Definition mv_add_mention (c : clock) (s : ddial_session) (text : bytes) : ddial_session :=
  let v := ss_mv s in
  let plain := mv_strip_ansi text SSH_CHATTER_MESSAGE_LIMIT in
  let entry := snprintf_text 160 (hour_minute c ++ [c_space] ++ plain) in
  let v := set_v_mentions v (<[v_mention_head v := entry]> (v_mentions v)) in
  let v := set_v_mention_head v ((v_mention_head v + 1) mod DDIAL_MV_MENTION_LOG)%nat in
  set_ss_mv s (if (v_mention_count v <? DDIAL_MV_MENTION_LOG)%nat
               then set_v_mention_count v (v_mention_count v + 1)%nat else v).

(** The early returns of [mv_deliver_cb]: whether a session gets a public line. *)
Definition on_channel (pub : ddial_mv_public) (rec : ddial_session) : bool :=
  (p_channel pub =? 0) || (ss_channel rec =? p_channel pub).

Definition own_line (pub : ddial_mv_public) (rec : ddial_session) : bool :=
  negb (p_from_slot pub =? 0) && (p_from_slot pub =? ss_slot rec).

Definition mentioned (pub : ddial_mv_public) (rec : ddial_session) : bool :=
  negb (p_system pub) && negb (own_line pub rec) && mentions_in (p_plain_body pub) (ss_handle rec).

Definition hears (pub : ddial_mv_public) (rec : ddial_session) : bool :=
  ss_logged_in rec &&
  (on_channel pub rec || mv_list_contains (v_monitored (ss_mv rec)) (p_channel pub)) &&
  negb (p_members_only pub && negb (mv_is_member rec)) &&
  (p_system pub || own_line pub rec ||
   negb (negb (p_from_slot pub =? 0) && mv_list_contains (v_ignore_slots (ss_mv rec)) (p_from_slot pub)) &&
   negb (negb (p_from_member pub =? 0) && mv_list_contains (v_ignore_members (ss_mv rec)) (p_from_member pub)) &&
   negb (negb (v_replies_on (ss_mv rec)) &&
         match p_plain_body pub with Some b => peek b =? c_at | None => false end &&
         negb (mentioned pub rec))).

(** The text it gets: the line, without colours if it asked for that, marked
    with its channel if it is only monitored. *)
Definition delivered_text (pub : ddial_mv_public) (rec : ddial_session) : bytes :=
  let line := if negb (p_from_slot pub =? 0) && mv_list_contains (v_null_slots (ss_mv rec)) (p_from_slot pub)
              then mv_strip_ansi (p_line pub) SSH_CHATTER_MESSAGE_LIMIT else p_line pub in
  snprintf_text (SSH_CHATTER_MESSAGE_LIMIT + 32)
    ((if on_channel pub rec then [] else lit "[T" ++ dec (p_channel pub) ++ lit "] ") ++ line ++ Wire.crlf).

Definition mv_deliver_cb (c : clock) (pub : ddial_mv_public) (rec : ddial_session) : ddial_session :=
  if hears pub rec then
    let text := delivered_text pub rec in
    let rec' :=
      set_ss_out rec
        (if p_pace_baud pub =? 0 then ddial_session_write_raw (ss_out rec) text
         else ddial_session_write_paced (ss_out rec) (mono c) text (p_pace_baud pub)) in
    if mentioned pub rec then mv_bell (mv_add_mention c rec' (p_line pub)) DDIAL_MV_BEEP_MENTION
    else if negb (p_system pub) && negb (own_line pub rec) then mv_bell rec' DDIAL_MV_BEEP_CHAT
    else rec'
  else rec.

Definition host_ddial_deliver_public (c : clock) (st : station) (pub : ddial_mv_public) : station :=
  foreach st (mv_deliver_cb c pub).

Definition mv_notice_channel (c : clock) (st : station) (channel : Z) (text : bytes) : station :=
  host_ddial_deliver_public c st (system_line channel text).

(** ** The flood guard *)

Definition mv_sentry_check (c : clock) (st : station) (id : Z) : station * bool :=
  let s := the st id in
  if negb (sentry st) || mv_is_member s then (st, true)
  else
    let st :=
      if DDIAL_MV_SENTRY_WINDOW <? now c - v_sentry_window_start (ss_mv s)
      then upd_mv st id (fun v => set_v_sentry_window_count (set_v_sentry_window_start v (now c)) 0) else st in
    let count := u32 (v_sentry_window_count (ss_mv (the st id)) + 1) in
    let st := upd_mv st id (fun v => set_v_sentry_window_count v count) in
    if DDIAL_MV_SENTRY_LIMIT <? count then
      let st := upd_mv st id (fun v => set_v_full_muted v true) in
      let st := say st id (lit "* Sentry: you have been muted for flooding.") in
      let note := snprintf_text 128 (lit "* Sentry muted line #" ++ dec (ss_slot s) ++ lit " (" ++ ss_handle s ++ lit ").") in
      (mv_notice_channel c st 0 note, false)
    else (st, true).

(** ** Vanishing messages *)

Definition no_vanish : vanish :=
  {| va_used := false; va_channel := 0; va_due := 0; va_handle := []; va_room_line := [] |}.

Fixpoint schedule_go (l : list vanish) (x : vanish) : list vanish :=
  match l with
  | [] => []
  | v :: t => if va_used v then v :: schedule_go t x else x :: t
  end.

Definition mv_schedule_vanish (c : clock) (st : station) (channel : Z) (handle room_line : bytes) : station :=
  set_vanishing st (schedule_go (vanishing st)
    {| va_used := true; va_channel := channel; va_due := now c + DDIAL_MV_VANISH_SECONDS;
       va_handle := snprintf_text Members.DDIAL_MAX_HANDLE_LEN handle;
       va_room_line := snprintf_text SSH_CHATTER_MESSAGE_LIMIT room_line |}).

(** ** Public chat *)

Record mv_chat_opts := {
  local_only : bool;
  members_only : bool;
  action : bool;
  uno : bool;
  block : bool;
  no_transform : bool;
  anim : Z;
  pace_baud : Z;
}.

Definition no_opts : mv_chat_opts :=
  {| local_only := false; members_only := false; action := false; uno := false; block := false;
     no_transform := false; anim := 0; pace_baud := 0 |}.

Section PublicChat.

Context (letter_color : mv_color_mode -> mv_rgb -> mv_rgb -> nat -> nat -> mv_rgb).

Definition BODY : nat := DDIAL_MV_TEXT_LIMIT * 2.

(** The text after the extras of its first character, with the colour mode they
    choose and whether it vanishes. *)
Definition leading_extras (raw : bytes) : bytes * mv_color_mode * bool :=
  let rest := snprintf_text BODY (drop 1 raw) in
  if (peek raw =? 96) && (1 <? length raw)%nat then (mv_alternate_case rest, MV_COLOR_NONE, false)
  else if (peek raw =? c_tilde) && (1 <? length raw)%nat then (rest, MV_COLOR_RAINBOW, false)
  else if (peek raw =? c_comma) && (1 <? length raw)%nat then (rest, MV_COLOR_NONE, true)
  else (snprintf_text BODY raw, MV_COLOR_NONE, false).

(** The transformations the session has switched on. *)
Definition transformed (c : clock) (v : ddial_mv_session) (body : bytes) : bytes :=
  let body := if v_lorem_on v then snprintf_text BODY (mv_lorem body BODY (lorem_draws c)) else body in
  let body := if v_reverse_on v then mv_reverse body else body in
  if v_scramble_on v then mv_scramble body (scramble_draws c) else body.

Definition affixed (v : ddial_mv_session) (body : bytes) : bytes :=
  let pre := v_prefix v in
  let post := v_postfix v in
  if (0 <? length pre)%nat || (0 <? length post)%nat then
    snprintf_text BODY (pre ++ (if (0 <? length pre)%nat then [c_space] else []) ++ body ++
                        (if (0 <? length post)%nat then [c_space] else []) ++ post)
  else body.

(** The body of a message, its colours, and whether it vanishes. *)
Definition compose (c : clock) (st : station) (s : ddial_session) (raw : bytes) (o : mv_chat_opts)
  : bytes * (mv_color_mode * mv_rgb * mv_rgb) * bool :=
  if block o || no_transform o then (snprintf_text BODY raw, (MV_COLOR_NONE, black, black), false)
  else
    let '(body, mode, vanish) := leading_extras raw in
    let v := ss_mv s in
    let body := transformed c v body in
    let body := if action o then body else affixed v body in
    let body := snprintf_text BODY (mv_resolve_mentions (mv_slot_handle st) body BODY) in
    let '(mode, a, b) :=
      if bool_decide (mode = MV_COLOR_NONE) then mv_parse_color_spec (v_msg_color v) else (mode, black, black) in
    let mode := if anim o =? 2 then MV_COLOR_RAINBOW else if anim o =? 3 then MV_COLOR_WAVE
                else if anim o =? 5 then MV_COLOR_SPARKLE else mode in
    let body := if anim o =? 3 then mv_alternate_case body else body in
    (body, (mode, a, b), vanish).

(** The tiles of [/u]. *)
Fixpoint tiles (body : bytes) (k : nat) (out : bytes) : bytes :=
  match body with
  | [] => out
  | c :: t =>
      if c =? c_space then tiles t k (mv_out_put SSH_CHATTER_MESSAGE_LIMIT out (lit "  "))
      else
        let bg := nth (k mod 4) [lit "41"; lit "43"; lit "42"; lit "44"] [] in
        let tile := snprintf_text 32 (csi (lit "1;97;" ++ bg ++ lit "m ") ++ [toupper c; c_space] ++ sgr "0m") in
        tiles t (S k) (mv_out_put SSH_CHATTER_MESSAGE_LIMIT out tile)
  end.

(** The text for terminals and the plain text. *)
Definition styled_and_plain (o : mv_chat_opts) (body : bytes) (colors : mv_color_mode * mv_rgb * mv_rgb) : bytes * bytes :=
  if uno o then (tiles body 0 [], body)
  else if block o then (snprintf_text SSH_CHATTER_MESSAGE_LIMIT body, body)
  else
    let '(mode, a, b) := colors in
    let (styled, plain) := mv_render letter_color body mode a b SSH_CHATTER_MESSAGE_LIMIT BODY in
    (if anim o =? 4
     then snprintf_text SSH_CHATTER_MESSAGE_LIMIT (snprintf_text SSH_CHATTER_MESSAGE_LIMIT (sgr "5m" ++ styled ++ sgr "0m"))
     else styled, plain).

(** The line as the terminals of the station see it. *)
Definition chat_line (s : ddial_session) (channel : Z) (o : mv_chat_opts) (vanish : bool) (styled : bytes) : bytes :=
  let bo := if mv_is_member s then lit "[" else lit "(" in
  let bc := if mv_is_member s then lit "]" else lit ")" in
  let sym := if mv_is_member s then lit "*" else [] in
  let head := [c_hash] ++ dec (ss_slot s) ++ bo ++ lit "T" ++ dec channel ++ [c_colon] in
  snprintf_text SSH_CHATTER_MESSAGE_LIMIT
    (if action o then head ++ lit "* " ++ mv_handle s ++ [c_space] ++ styled ++ bc
     else if block o then head ++ mv_handle s ++ sym ++ bc ++ lit " code:" ++ Wire.crlf ++ styled
     else head ++ mv_handle s ++ sym ++ bc ++ [c_space] ++ styled ++
          (if vanish then [c_space] ++ sgr "2m" ++ lit "(vanishes in 30s)" ++ sgr "0m" else [])).

Definition mv_public_chat (c : clock) (st : station) (id channel : Z) (raw : bytes) (o : mv_chat_opts) : station :=
  let raw := mv_skip_ws raw in
  if (length raw =? 0)%nat then st
  else if v_full_muted (ss_mv (the st id)) then say st id (lit "* You are muted.")
  else
    let (st, pass) := mv_sentry_check c st id in
    if negb pass then st
    else
      let s := the st id in
      let '(body, colors, vanish) := compose c st s raw o in
      let (styled, plain) := styled_and_plain o body colors in
      let pace := if (anim o =? 1) && (pace_baud o =? 0) then 300 else pace_baud o in
      let line := chat_line s channel o vanish styled in
      let st := host_ddial_deliver_public c st
                  {| p_channel := channel; p_from_slot := ss_slot s; p_from_member := v_member_no (ss_mv s);
                     p_line := line; p_plain_body := Some plain; p_members_only := members_only o;
                     p_system := false; p_pace_baud := pace |} in
      let shared := negb (local_only o) && negb (members_only o) in
      let in_room := shared && (channel =? DDIAL_MV_ROOM_CHANNEL) in
      let st := if in_room then emit st (ToRoom line) else st in
      let st := if in_room && negb (action o) && negb (block o) then emit st (ToAi (ss_handle s) plain) else st in
      let st :=
        if shared && (channel <=? DDIAL_MAX_CHANNEL) && negb (block o) then
          emit st (ToLink (ss_slot s) (ss_handle s) (DDIAL_MV_LINK_CHANNEL channel)
                     (snprintf_text (BODY + 8) (if action o then lit "* " ++ plain else plain)))
        else st in
      let st := if vanish then mv_schedule_vanish c st channel (ss_handle s) (if in_room then line else []) else st in
      upd_mv st id (fun v => set_v_messages_sent v (u32 (v_messages_sent v + 1))).

End PublicChat.

(** ** Private messages *)

Section Private.

(** Whether the member of the chat with a name can be reached, by an AI member
    that answers or at a session. *)
Context (reached : bytes -> bool).

Definition mv_private_to_chatter (st : station) (slot from_slot : Z) (from_handle body : bytes) (action : bool)
  : station * bool :=
  match host_ddial_chat_link_username st slot with
  | None => (st, false)
  | Some username =>
      if reached username then (emit st (ToChatter username from_slot from_handle body action), true) else (st, false)
  end.

Definition mv_private_one (st : station) (id slot : Z) (body : bytes) (action : bool) : station :=
  let s := the st id in
  let text := snprintf_text SSH_CHATTER_MESSAGE_LIMIT
                (if action then lit "P#" ++ dec (ss_slot s) ++ lit "(* " ++ ss_handle s ++ [c_space] ++ body ++ lit ")"
                 else lit "P#" ++ dec (ss_slot s) ++ lit "(" ++ ss_handle s ++ lit ") " ++ body) in
  match find_logged st (at_slot slot) with
  | Some t =>
      if mv_list_contains (v_squelch_slots (ss_mv t)) (ss_slot s)
      then say st id (lit "* Line #" ++ dec slot ++ lit " is not accepting your messages.")
      else
        let st := upd st (ss_id t) (fun t => mv_bell (write_line t text) DDIAL_MV_BEEP_PM) in
        say st id (lit "* Sent to #" ++ dec slot ++ lit " (" ++ ss_handle t ++ lit ").")
  | None =>
      match host_ddial_chat_link_username st slot with
      | Some username =>
          let (st', sent) := mv_private_to_chatter st slot (ss_slot s) (ss_handle s) body action in
          if sent then say st' id (lit "* Sent to #" ++ dec slot ++ lit " (" ++ username ++ lit ", Chatter).")
          else
            say (emit st (LinkPrivate slot (ss_slot s) (ss_handle s) body)) id
              (lit "* Sent to #" ++ dec slot ++ lit " over the Station Link (if connected).")
      | None =>
          say (emit st (LinkPrivate slot (ss_slot s) (ss_handle s) body)) id
            (lit "* Sent to #" ++ dec slot ++ lit " over the Station Link (if connected).")
      end
  end.

Definition mv_private (st : station) (id : Z) (to : slot_list) (body : bytes) (action : bool) : station :=
  let body := mv_skip_ws body in
  if (length body =? 0)%nat then say st id (lit "* Usage: /p# message")
  else if v_full_muted (ss_mv (the st id)) then say st id (lit "* You are muted.")
  else
    fold_left (fun st slot => if slot <=? UINT16_MAX then mv_private_one st id slot body action else st) to st.

(** ** Lines of the link and of the chat *)

Definition host_ddial_deliver_private_line (st : station) (target_slot : Z) (display_line : bytes) : station * bool :=
  if (target_slot =? 0) || (length display_line =? 0)%nat then (st, false)
  else
    let (fits, formatted) := snprintf (SSH_CHATTER_MESSAGE_LIMIT + 4) (display_line ++ Wire.crlf) in
    if negb fits then (st, false)
    else
      match find_logged st (at_slot target_slot) with
      | Some t => (upd st (ss_id t) (fun t => write t formatted), true)
      | None => (st, false)
      end.

Definition host_ddial_deliver_link_private (st : station) (target_slot from_slot channel : Z)
  (from_handle message : bytes) : station :=
  let display := snprintf_text SSH_CHATTER_MESSAGE_LIMIT
                   (lit "P#" ++ dec from_slot ++ lit "[T" ++ dec channel ++ [c_colon] ++ from_handle ++ lit ") " ++ message) in
  let (st', delivered) := host_ddial_deliver_private_line st target_slot display in
  if delivered then st'
  else fst (mv_private_to_chatter st target_slot from_slot from_handle message false).

(** A private message of a member of the chat; [roster_slot] is what the
    roster knows of the name. *)
Definition host_ddial_relay_private (st : station) (from_slot : Z) (from_name target_handle message : bytes)
  (roster_slot : option Z) : station * bool :=
  let text := snprintf_text SSH_CHATTER_MESSAGE_LIMIT
                (lit "P#" ++ dec from_slot ++ lit "(" ++ from_name ++ lit ") " ++ message) in
  match mv_find_handle st target_handle with
  | Some t =>
      if mv_list_contains (v_squelch_slots (ss_mv t)) from_slot then (st, true)
      else (upd st (ss_id t) (fun t => mv_bell (write_line t text) DDIAL_MV_BEEP_PM), true)
  | None =>
      match roster_slot with
      | Some slot => (emit st (LinkPrivate slot from_slot from_name message), true)
      | None => (st, false)
      end
  end.

End Private.

Definition is_local_handle (st : station) (handle : bytes) (include_chat_links : bool) : bool :=
  negb (length handle =? 0)%nat &&
  (existsb (fun s => ss_logged_in s && Members.same_nocase (ss_handle s) handle) (sessions st) ||
   include_chat_links && existsb (fun l => Members.same_nocase (cl_handle l) handle) (links st)).

(** A public line of the link, unless its speaker is one of the station's
    own. *)
Definition relay_upstream_line (c : clock) (st : station) (line : bytes) : station :=
  if (length line =? 0)%nat then st
  else
    match Wire.ddial_parse_incoming_chat line Members.DDIAL_MAX_HANDLE_LEN with
    | None => st
    | Some i =>
        let who := Wire.ic_identity i in
        let channel := Wire.id_channel who in
        if is_local_handle st (Wire.id_handle who) true then st
        else
          host_ddial_deliver_public c st
            {| p_channel := if (1 <=? channel) && (channel <=? DDIAL_MAX_CHANNEL) then channel else DDIAL_DEFAULT_CHANNEL;
               p_from_slot := 0; p_from_member := 0; p_line := line; p_plain_body := Some (Wire.ic_message i);
               p_members_only := false; p_system := false; p_pace_baud := 0 |}
    end.

(** A message from one line to another in the form of the classic protocol. *)
Definition host_ddial_send_private (st : station) (target_slot from_slot : Z) (from_handle message : bytes)
  : station * bool :=
  if (target_slot =? 0) || (from_slot =? 0) then (st, false)
  else
    let (fits, formatted) := Wire.ddial_format_private SSH_CHATTER_MESSAGE_LIMIT from_slot from_handle message in
    if negb fits then (st, false)
    else
      match find_logged st (at_slot target_slot) with
      | Some t => (upd st (ss_id t) (fun t => write t formatted), true)
      | None => (st, false)
      end.

(** A line for every connection, also those at the login prompt. *)
Definition host_ddial_broadcast_to_sessions (st : station) (message : bytes) : station :=
  if (length message =? 0)%nat then st else foreach st (fun s => write s message).

Definition host_ddial_broadcast_system (st : station) (message : bytes) : station :=
  let clean := Wire.ddial_strip_ansi message SSH_CHATTER_MESSAGE_LIMIT in
  if (length clean =? 0)%nat then st
  else
    let (fits, formatted) := snprintf (SSH_CHATTER_MESSAGE_LIMIT + 16) (lit "* " ++ clean ++ Wire.crlf) in
    if fits then host_ddial_broadcast_to_sessions st formatted else st.

(** ** Members of the chat on lines of the station *)

Definition host_ddial_chat_link_add (st : station) (display_name username : bytes) : station * Z :=
  if (length display_name =? 0)%nat then (st, 0)
  else
    let handle := Wire.ddial_sanitize_handle display_name Members.DDIAL_MAX_HANDLE_LEN in
    if (length handle =? 0)%nat then (st, 0)
    else
      let slot := ddial_allocate_slot_locked st in
      let l := {| cl_slot := slot; cl_handle := snprintf_text Members.DDIAL_MAX_HANDLE_LEN handle;
                  cl_username := snprintf_text 256 username |} in
      (emit (set_links st (l :: links st)) (LinkLogin slot DDIAL_DEFAULT_CHANNEL true handle 0), slot).

Fixpoint remove_link (l : list chat_link) (slot : Z) : list chat_link * option chat_link :=
  match l with
  | [] => ([], None)
  | x :: t => if cl_slot x =? slot then (t, Some x) else let (t, r) := remove_link t slot in (x :: t, r)
  end.

Definition host_ddial_chat_link_remove (st : station) (slot : Z) : station :=
  if slot =? 0 then st
  else
    match remove_link (links st) slot with
    | (l, Some x) =>
        let st := set_links st l in
        if (0 <? length (cl_handle x))%nat
        then emit st (LinkLogout slot DDIAL_DEFAULT_CHANNEL true (cl_handle x) 0) else st
    | (_, None) => st
    end.

End Chat.
