(* ===== verification/DdialCommands.v ===== *)
(** The commands of the dial-in station: logging in and out, the members'
    records behind a session, channels, moderation, preferences, mail and the
    dispatcher of [src/host/ddial/magviz.c], and the step of a session in
    [src/host/ddial/server.c]. *)

From Stdlib Require Import ZArith Lia String Ascii.
From stdpp Require Import prelude.
From S2P Require Import Prelude DdialProtocol HostGuard DdialServer DdialText DdialMembers DdialSession DdialChat.
Import Output Slots Text Colour Session Chat Members.

Module Commands.

(** ** Dates *)

(** [%#d] of [sscanf]: blanks, a sign and digits, at most [width] of them. *)
Definition scan_int (width : nat) (p : bytes) : option (Z * bytes) :=
  let p := skip_while isspace p in
  let signed := (peek p =? c_minus) || (peek p =? c_plus) in
  let room := if signed then (width - 1)%nat else width in
  let q := if signed then drop 1 p else p in
  let ds := take_while isdigit (take room q) in
  if (length ds =? 0)%nat then None
  else Some (if peek p =? c_minus then - dval 0 ds else dval 0 ds, drop (length ds) q).

(** Year, month and day. *)
Definition mv_valid_date (s : bytes) : option (Z * Z * Z) :=
  if negb (length s =? 10)%nat || negb (nthb s 4 =? c_minus) || negb (nthb s 7 =? c_minus) then None
  else
    match scan_int 4 s with
    | None => None
    | Some (y, p) =>
        if negb (peek p =? c_minus) then None
        else
          match scan_int 2 (drop 1 p) with
          | None => None
          | Some (m, p) =>
              if negb (peek p =? c_minus) then None
              else
                match scan_int 2 (drop 1 p) with
                | None => None
                | Some (d, _) =>
                    if (1900 <=? y) && (y <=? 2100) && (1 <=? m) && (m <=? 12) && (1 <=? d) && (d <=? 31)
                    then Some (y, m, d) else None
                end
          end
    end.

(** ** Tables of the station *)

Definition no_meta (channel : Z) : channel_meta :=
  {| me_channel := channel; me_topic := []; me_question := []; me_asker := [] |}.

(** The entry of a channel; a free one has channel 0. *)
Fixpoint meta_index (l : list channel_meta) (channel : Z) (i : nat) : option nat :=
  match l with
  | [] => None
  | m :: t => if me_channel m =? channel then Some i else meta_index t channel (S i)
  end.

Definition mv_meta_locked (l : list channel_meta) (channel : Z) (create : bool) : list channel_meta * option nat :=
  match meta_index l channel 0 with
  | Some i => (l, Some i)
  | None =>
      match (if create then meta_index l 0 0 else None) with
      | Some i => (<[i := no_meta channel]> l, Some i)
      | None => (l, None)
      end
  end.

Definition mv_record_visit (c : clock) (st : station) (s : ddial_session) (logon : bool) : station :=
  let v := {| vi_handle := ss_handle s; vi_member := v_member_no (ss_mv s); vi_when := now c; vi_logon := logon |} in
  let st := set_visitors st (<[visitor_head st := v]> (visitors st)) in
  let st := set_visitor_head st ((visitor_head st + 1) mod DDIAL_MV_VISITORS)%nat in
  if (visitor_count st <? DDIAL_MV_VISITORS)%nat then set_visitor_count st (visitor_count st + 1)%nat else st.

Definition mv_is_booted (c : clock) (st : station) (channel : Z) (handle : bytes) : bool :=
  existsb (fun b => (bo_channel b =? channel) && (now c <? bo_until b) && same_nocase (bo_handle b) handle) (boots st).

(** The first entry that is over, or the first of all. *)
Fixpoint boot_pick (l : list boot) (now : Z) (i : nat) : nat :=
  match l with
  | [] => 0%nat
  | b :: t => if bo_until b <=? now then i else boot_pick t now (S i)
  end.

Definition mv_add_boot (c : clock) (st : station) (channel : Z) (handle : bytes) : station :=
  set_boots st (<[boot_pick (boots st) (now c) 0 :=
    {| bo_channel := channel; bo_handle := snprintf_text DDIAL_MAX_HANDLE_LEN handle;
       bo_until := now c + DDIAL_MV_BOOT_SECONDS |}]> (boots st)).

(** [CHATTER_DDIAL_COSYSOPS] names a member number. *)
Fixpoint env_go (fuel : nat) (p : bytes) (member_no : Z) : bool :=
  match fuel with
  | O => false
  | S fuel =>
      match p with
      | [] => false
      | _ =>
          match mv_parse_uint (skip_while (fun c => negb (isdigit c)) p) with
          | None => false
          | Some (v, q) => (v =? member_no) || env_go fuel q member_no
          end
      end
  end.

Definition mv_env_cosysop (env : option bytes) (member_no : Z) : bool :=
  match env with
  | Some e => negb (member_no =? 0) && env_go (S (length e)) e member_no
  | None => false
  end.

(** The session that is on a channel for the longest time. *)
Definition mv_first (st : station) (channel : Z) : option ddial_session :=
  fold_left (fun first s =>
    if ss_logged_in s && (ss_channel s =? channel) then
      match first with
      | Some f => if v_channel_joined_at (ss_mv s) <? v_channel_joined_at (ss_mv f) then Some s else first
      | None => Some s
      end
    else first) (sessions st) None.

Definition mv_is_moderator (st : station) (id channel : Z) : bool :=
  v_cosysop (ss_mv (the st id)) ||
  match mv_first st channel with Some s => ss_id s =? id | None => false end.

(** ** The record behind a session *)

Section Station.

(** The key derivation, the environment variable, the colours of letters, who
    of the chat can be reached, the mail bridge to the chat (an error, or
    none), what [localtime_r] and [strftime] make of a time, the GIF search,
    and what the listings print. *)
Context (derive : bytes -> bytes -> option bytes).
Context (cosysops_env : option bytes).
Context (letter_color : mv_color_mode -> mv_rgb -> mv_rgb -> nat -> nat -> mv_rgb).
Context (reached : bytes -> bool).
Context (chatter_mail : bytes -> bytes -> option bytes).
Context (format_time : Z -> bytes).
Context (gif_of : bytes -> option bytes).
Context (giphy_key : bool).

Definition chat := mv_public_chat letter_color.

Definition get_member (st : station) (number : Z) : station * option ddial_member :=
  let (r, m) := ddial_member_get (roll st) number in (set_roll st r, m).

Definition put_member (st : station) (m : ddial_member) : station :=
  set_roll st (fst (ddial_member_put (roll st) m)).

(** [mv_require_member]: the session is a member, or is told to become one. *)
Definition for_member (st : station) (id : Z) (k : station) : station :=
  if mv_is_member (the st id) then k
  else say st id (lit "* That command is for members. Type /signup <password> to join (it's free).").

Definition mv_apply_member (s : ddial_session) (m : ddial_member) : ddial_session :=
  let v := ss_mv s in
  let v := set_v_member_no v (m_number m) in
  let v := set_v_cosysop v (m_cosysop m || mv_env_cosysop cosysops_env (m_number m)) in
  let s := set_ss_handle s (snprintf_text DDIAL_MAX_HANDLE_LEN (m_handle m)) in
  let v := set_v_display_handle v
             (if (0 <? length (m_handle_color m))%nat
              then fst (mv_render_handle letter_color (m_handle_color m) 256 DDIAL_MAX_HANDLE_LEN) else []) in
  let v := set_v_msg_color v (snprintf_text 16 (m_msg_color m)) in
  let v := set_v_prefix v (snprintf_text 48 (m_prefix m)) in
  let v := set_v_postfix v (snprintf_text 48 (m_postfix m)) in
  let v := set_v_status v (snprintf_text 96 (m_status m)) in
  let v := set_v_font v (snprintf_text 48 (m_font m)) in
  let v := set_v_beep_on v (m_beep_on m) in
  let v := set_v_beep_volume v (m_beep_volume m) in
  let v := set_v_beep_events v (m_beep_events m) in
  let v := set_v_badges_on v (m_badges_on m) in
  let v := set_v_replies_on v (m_replies_on m) in
  let v := set_v_auto_slash v (m_auto_slash m) in
  let v := set_v_voice_on v (m_voice_on m) in
  let v := set_v_notify_on v (m_notify_on m) in
  set_ss_out (set_ss_mv s v) (Output.set_baud (ss_out s) (m_baud m)).

(** The record of a member with the preferences of a session. *)
Definition with_preferences (s : ddial_session) (m : ddial_member) : ddial_member :=
  let v := ss_mv s in
  let m := set_msg_color m (snprintf_text 16 (v_msg_color v)) in
  let m := set_prefix m (snprintf_text 48 (v_prefix v)) in
  let m := set_postfix m (snprintf_text 48 (v_postfix v)) in
  let m := set_status m (snprintf_text 96 (v_status v)) in
  let m := set_font m (snprintf_text 48 (v_font v)) in
  let m := set_beep_on m (v_beep_on v) in
  let m := set_beep_volume m (v_beep_volume v) in
  let m := set_beep_events m (v_beep_events v) in
  let m := Members.set_baud m (Output.baud (ss_out s)) in
  let m := set_badges_on m (v_badges_on v) in
  let m := set_replies_on m (v_replies_on v) in
  let m := set_auto_slash m (v_auto_slash v) in
  let m := set_voice_on m (v_voice_on v) in
  set_notify_on m (v_notify_on v).

Definition mv_save_member (st : station) (id : Z) : station :=
  let s := the st id in
  if negb (mv_is_member s) then st
  else
    match get_member st (v_member_no (ss_mv s)) with
    | (st, None) => st
    | (st, Some m) => put_member st (with_preferences s m)
    end.

(** [mv_load_self] and what follows it. *)
Definition with_self (st : station) (id : Z) (k : station -> ddial_member -> station) : station :=
  match get_member st (v_member_no (ss_mv (the st id))) with
  | (st, Some m) => k st m
  | (st, None) => say st id (lit "* Member record not found.")
  end.

(** ** Login and logout *)

Definition mv_defaults (c : clock) (s : ddial_session) : ddial_session :=
  let v := zero_mv in
  let v := set_v_beep_on v true in
  let v := set_v_beep_volume v 100 in
  let v := set_v_beep_events v (Z.lor DDIAL_MV_BEEP_PM (Z.lor DDIAL_MV_BEEP_MENTION DDIAL_MV_BEEP_BUZZ)) in
  let v := set_v_badges_on v true in
  let v := set_v_replies_on v true in
  let v := set_v_auto_slash v true in
  let v := set_v_login_time v (now c) in
  let v := set_v_channel_joined_at v (now c) in
  set_ss_out (set_ss_mv s v) (Output.set_baud (ss_out s) 0).

Definition offline_line (m : ddial_mail) : bytes :=
  lit "* Message from " ++ ml_from_handle m ++ lit " (#" ++ dec (ml_from m) ++ lit ") at " ++
  format_time (ml_sent m) ++ lit ": " ++ ml_text m.

Definition mv_today_is_bday (c : clock) (bday : bytes) : bool :=
  match mv_valid_date bday with
  | Some (_, m, d) => (fst (month_day c) =? m) && (snd (month_day c) =? d)
  | None => false
  end.

(** What a session sends the link about itself. *)
Definition link_login (s : ddial_session) : effect :=
  LinkLogin (ss_slot s) (DDIAL_MV_LINK_CHANNEL (ss_channel s)) (mv_is_member s) (ss_handle s) (u16 (v_member_no (ss_mv s))).

Definition link_logout (s : ddial_session) : effect :=
  LinkLogout (ss_slot s) (DDIAL_MV_LINK_CHANNEL (ss_channel s)) (mv_is_member s) (ss_handle s) (u16 (v_member_no (ss_mv s))).

(** The greeting of a member, with the notes that waited. *)
Definition greet_member (c : clock) (st : station) (id : Z) (member : ddial_member) : station :=
  let m := set_last_seen (set_logins member (u32 (m_logins member + 1))) (now c) in
  let st := put_member st m in
  let st := upd st id (fun s => mv_apply_member s m) in
  let s := the st id in
  let st := say st id (lit "Welcome back, " ++ ss_handle s ++ lit " (member #" ++ dec (m_number m) ++
                       lit "). You are on line #" ++ dec (ss_slot s) ++ lit ", channel " ++ dec (ss_channel s) ++ lit ".") in
  let (r, notes) := ddial_mail_visit (roll st) (m_number m) true true in
  let st := fold_left (fun st n => say st id (offline_line n)) notes (set_roll st r) in
  let (r, letters) := ddial_mail_visit (roll st) (m_number m) false false in
  let st := set_roll st r in
  let mail := Z.of_nat (length letters) in
  let st := if 0 <? mail
            then say st id (lit "* You have " ++ dec mail ++ lit " email" ++ (if mail =? 1 then [] else lit "s") ++
                            lit ". Type /e to read.") else st in
  let baud := Output.baud (ss_out (the st id)) in
  if baud =? 0 then st else say st id (lit "* Baud rate is " ++ dec baud ++ lit ".").

Definition greet_guest (st : station) (id : Z) : station :=
  let s := the st id in
  let st := say st id (lit "Welcome, " ++ ss_handle s ++ lit ". You are on line #" ++ dec (ss_slot s) ++
                       lit ", channel " ++ dec (ss_channel s) ++ lit " (guest).") in
  say st id (lit "Type /i for help, /s for who's online, /signup <password> to become a member.").

Definition mv_finish_login (c : clock) (st : station) (id : Z) (member : option ddial_member) : station :=
  let st := upd st id (fun s =>
              set_ss_mv (set_ss_channel (set_ss_logged_in s true) DDIAL_DEFAULT_CHANNEL)
                        (set_v_channel_joined_at (ss_mv s) (now c))) in
  let st := match member with Some m => greet_member c st id m | None => greet_guest st id end in
  let s := the st id in
  let st := mv_record_visit c st s true in
  let note := snprintf_text SSH_CHATTER_MESSAGE_LIMIT
                (lit "* #" ++ dec (ss_slot s) ++ [c_space] ++ ss_handle s ++ lit " has dialed in.") in
  let pub line members := {| p_channel := 0; p_from_slot := ss_slot s; p_from_member := 0; p_line := line;
               p_plain_body := None; p_members_only := members; p_system := true; p_pace_baud := 0 |} in
  let st := host_ddial_deliver_public c st (pub note false) in
  let st := emit st (ToRoom note) in
  let st :=
    match member with
    | Some m =>
        if mv_today_is_bday c (m_bday m)
        then host_ddial_deliver_public c st
               (pub (snprintf_text SSH_CHATTER_MESSAGE_LIMIT
                       (sgr "1;95m" ++ lit "*** Happy birthday, " ++ ss_handle s ++ lit "! ***" ++ sgr "0m")) true)
        else st
    | None => st
    end in
  emit st (link_login (the st id)).

(** The password of a login line, and the command after it. *)
Definition login_password (p : bytes) : bytes * option bytes :=
  if peek p =? c_colon then
    let p := drop 1 p in
    match strchr p c_colon with
    | Some colon => (take 127 (take (length p - length colon) p), Some (drop 1 colon))
    | None => (take 127 p, None)
    end
  else (snprintf_text 128 p, None).

(** The station after a line at the handle prompt, and the command to run once
    the member is logged in. *)
Definition ddial_mv_login_line (c : clock) (st : station) (id : Z) (line : bytes) : station * option bytes :=
  let line := mv_skip_ws line in
  let tell st text := (upd st id (fun s => write_line s text), None) in
  if (length line =? 0)%nat then tell st (lit "Invalid handle. Try again.")
  else
    let as_member :=
      match mv_parse_uint line with
      | Some (number, p) => if (0 <? length p)%nat then Some (number, p) else None
      | None => None
      end in
    let (st, known) :=
      match as_member with
      | Some (number, _) => let (st, m) := get_member st number in (st, bool_decide (is_Some m))
      | None => (st, false)
      end in
    match (if known then as_member else None) with
    | Some (number, p) =>
        let (password, after) := login_password p in
        let (r, member) := ddial_member_authenticate derive (roll st) number password in
        let st := set_roll st r in
        match member with
        | None => tell st (lit "Invalid member login.")
        | Some m =>
            match mv_find_member st number with
            | Some _ => tell st (lit "That member is already online.")
            | None =>
                (mv_finish_login c (upd st id (mv_defaults c)) id (Some m),
                 match after with Some a => if (0 <? length a)%nat then Some a else None | None => None end)
            end
        end
    | None =>
        let clean := Wire.ddial_sanitize_handle line DDIAL_MAX_HANDLE_LEN in
        if (length clean =? 0)%nat then tell st (lit "Invalid handle. Try again.")
        else
          let (r, owner) := ddial_member_owner_of (roll st) clean in
          let st := set_roll st r in
          if negb (owner =? 0) then
            (say st id (lit "'" ++ clean ++ lit "' is a registered handle. Log in with " ++ dec owner ++
                        lit "<password> or pick another handle."), None)
          else
            match mv_find_handle st clean with
            | Some _ => tell st (lit "That handle is in use. Try another.")
            | None =>
                (mv_finish_login c
                   (upd st id (fun s => mv_defaults c (set_ss_handle s (snprintf_text DDIAL_MAX_HANDLE_LEN clean)))) id None,
                 None)
            end
    end.

Definition ddial_mv_on_logout (c : clock) (st : station) (id : Z) : station :=
  let s := the st id in
  if negb (ss_logged_in s) then st
  else
    let st := mv_record_visit c st s false in
    let st :=
      if mv_is_member s then
        let st :=
          match get_member st (v_member_no (ss_mv s)) with
          | (st, Some m) =>
              put_member st (set_messages (set_last_seen m (now c)) (u32 (m_messages m + v_messages_sent (ss_mv s))))
          | (st, None) => st
          end in
        upd_mv st id (fun v => set_v_messages_sent v 0)
      else st in
    let quit := v_quit_msg (ss_mv s) in
    let note := snprintf_text SSH_CHATTER_MESSAGE_LIMIT
                  (lit "* #" ++ dec (ss_slot s) ++ [c_space] ++ ss_handle s ++
                   (if (0 <? length quit)%nat then lit " has hung up: " ++ quit else lit " has hung up.")) in
    let st := host_ddial_deliver_public c st
                {| p_channel := 0; p_from_slot := ss_slot s; p_from_member := 0; p_line := note;
                   p_plain_body := None; p_members_only := false; p_system := true; p_pace_baud := 0 |} in
    emit st (ToRoom note).

(** The end of [ddial_session_thread]: the session is announced as gone and
    taken out of the registry. *)
Definition hang_up (c : clock) (st : station) (id : Z) : station :=
  let s := the st id in
  let st :=
    if ss_logged_in s && (0 <? length (ss_handle s))%nat
    then emit (ddial_mv_on_logout c st id) (link_logout (the (ddial_mv_on_logout c st id) id)) else st in
  host_ddial_unregister_session st id.

(** Counting down to the end of a session. *)
Definition countdown (c : clock) (st : station) (id : Z) : station :=
  let s := the st id in
  let v := ss_mv s in
  if negb (v_quit_deadline v =? 0) && negb (now c =? v_quit_last_tick v) then
    let st := upd_mv st id (fun v => set_v_quit_last_tick v (now c)) in
    let left := v_quit_deadline v - now c in
    if left <=? 0 then
      upd st id (fun s => set_ss_should_exit (write_line s (lit "Goodbye!")) true)
    else
      mv_notice_channel c st (ss_channel s)
        (snprintf_text 96 (lit "* " ++ ss_handle s ++ lit " leaves in " ++ dec left ++ lit "..."))
  else st.

Definition is_due (c : clock) (v : vanish) : bool := va_used v && (va_due v <=? now c).

Definition ddial_mv_tick (c : clock) (st : station) (id : Z) : station :=
  let st := countdown c st id in
  let due := List.filter (is_due c) (vanishing st) in
  let st := set_vanishing st
              (map (fun v => if is_due c v then
                 {| va_used := false; va_channel := va_channel v; va_due := va_due v; va_handle := va_handle v;
                    va_room_line := va_room_line v |} else v) (vanishing st)) in
  fold_left (fun st v =>
    let st := if (0 <? length (va_room_line v))%nat then emit st (ForgetRoom (va_room_line v)) else st in
    mv_notice_channel c st (va_channel v)
      (snprintf_text 128 (sgr "2m" ++ lit "* A message from " ++ va_handle v ++ lit " has vanished." ++ sgr "0m")))
    due st.

(** ** Channels *)

Definition mv_show_topic (st : station) (id channel : Z) : station :=
  match snd (mv_meta_locked (metas st) channel false) with
  | Some i =>
      match metas st !! i with
      | Some m =>
          let st := if (0 <? length (me_topic m))%nat then say st id (lit "* Topic: " ++ me_topic m) else st in
          if (0 <? length (me_question m))%nat
          then say st id (lit "* Open question from " ++ me_asker m ++ lit ": " ++ me_question m ++ lit " (/answer to reply)")
          else st
      | None => st
      end
  | None => st
  end.

Definition tuned_note (s : ddial_session) (what : bytes) : bytes :=
  snprintf_text 128 (lit "* #" ++ dec (ss_slot s) ++ [c_space] ++ ss_handle s ++ what).

Definition mv_tune (c : clock) (st : station) (id channel : Z) : station :=
  let s := the st id in
  if (channel <? 1) || (DDIAL_MV_MAX_CHANNEL <? channel) then say st id (lit "* Channels are 1-999.")
  else if negb (mv_is_member s) && (DDIAL_MV_GUEST_MAX_CHANNEL <? channel) then
    say st id (lit "* Guests may use channels 1-4. /signup for more.")
  else if mv_is_booted c st channel (ss_handle s) then
    say st id (lit "* You were booted from channel " ++ dec channel ++ lit "; try later.")
  else if ss_channel s =? channel then say st id (lit "* You are already on channel " ++ dec channel ++ lit ".")
  else
    let st := mv_notice_channel c st (ss_channel s) (tuned_note s (lit " tuned out.")) in
    let st := upd st id (fun s => set_ss_mv (set_ss_channel s channel) (set_v_channel_joined_at (ss_mv s) (now c))) in
    let st := mv_notice_channel c st channel (tuned_note s (lit " tuned in.")) in
    let st := say st id (lit "* Tuned to channel " ++ dec channel ++
                (if channel =? DDIAL_MV_ROOM_CHANNEL then lit " (shared with the Chatter room)"
                 else if channel <=? DDIAL_MAX_CHANNEL then lit " (linked)" else lit " (local)") ++ lit ".") in
    mv_show_topic st id channel.

(** The channels with someone on them, in the order they are found, 64 at most:
    also the commands that post to all of them. *)
Definition mv_spaces_add (l : list (Z * nat)) (channel : Z) : list (Z * nat) :=
  if existsb (fun x => x.1 =? channel) l
  then map (fun x => if x.1 =? channel then (x.1, S x.2) else x) l
  else if (length l <? DDIAL_MV_META_MAX)%nat then l ++ [(channel, 1%nat)] else l.

Definition spaces (st : station) : list (Z * nat) :=
  fold_left (fun l _ => mv_spaces_add l DDIAL_MV_ROOM_CHANNEL) (links st)
    (fold_left (fun l s => if ss_logged_in s then mv_spaces_add l (ss_channel s) else l) (sessions st) []).

Definition mv_cmd_spaces (c : clock) (st : station) (id : Z) (arg : bytes) : station :=
  let l := spaces st in
  let arg := mv_skip_ws arg in
  if (0 <? length arg)%nat then
    for_member st id (fold_left (fun st x => chat c st id x.1 arg no_opts) l st)
  else
    fold_left (fun st x =>
      let topic := match snd (mv_meta_locked (metas st) x.1 false) with
                   | Some i => match metas st !! i with Some m => me_topic m | None => [] end
                   | None => []
                   end in
      say st id (lit " T" ++ dec x.1 ++ concat (replicate (4 - length (dec x.1)) [c_space]) ++ [c_space] ++
                 dec (Z.of_nat x.2) ++ lit " user" ++ (if (x.2 =? 1)%nat then [] else lit "s") ++
                 (if (0 <? length topic)%nat then lit " - " else []) ++ topic))
      l (say st id (lit "Active spaces:")).

Definition set_meta (st : station) (channel : Z) (f : channel_meta -> channel_meta) : station :=
  let (l, i) := mv_meta_locked (metas st) channel true in
  set_metas st (match i with Some i => alter f i l | None => l end).

Definition mv_cmd_topic (c : clock) (st : station) (id : Z) (arg : bytes) : station :=
  let arg := mv_skip_ws arg in
  let s := the st id in
  if (length arg =? 0)%nat then mv_show_topic st id (ss_channel s)
  else
    let st := set_meta st (ss_channel s) (fun m =>
                {| me_channel := me_channel m; me_topic := snprintf_text 160 arg; me_question := me_question m;
                   me_asker := me_asker m |}) in
    mv_notice_channel c st (ss_channel s)
      (snprintf_text 256 (lit "* " ++ ss_handle s ++ lit " suggests a topic: " ++ arg)).

Definition mv_cmd_ask (c : clock) (st : station) (id : Z) (arg : bytes) : station :=
  let arg := mv_skip_ws arg in
  let s := the st id in
  if (length arg =? 0)%nat then mv_show_topic st id (ss_channel s)
  else
    let st := set_meta st (ss_channel s) (fun m =>
                {| me_channel := me_channel m; me_topic := me_topic m; me_question := snprintf_text 256 arg;
                   me_asker := snprintf_text DDIAL_MAX_HANDLE_LEN (ss_handle s) |}) in
    mv_notice_channel c st (ss_channel s)
      (snprintf_text 384 (lit "? " ++ ss_handle s ++ lit " asks the channel: " ++ arg ++ lit "  (/answer <msg>)")).

Definition mv_cmd_answer (c : clock) (st : station) (id : Z) (arg : bytes) : station :=
  let arg := mv_skip_ws arg in
  let s := the st id in
  let question := match snd (mv_meta_locked (metas st) (ss_channel s) false) with
                  | Some i => match metas st !! i with Some m => me_question m | None => [] end
                  | None => []
                  end in
  if (length question =? 0)%nat then say st id (lit "* There is no open question. Ask one with /ask.")
  else if (length arg =? 0)%nat then say st id (lit "* Usage: /answer <message>")
  else
    mv_notice_channel c st (ss_channel s)
      (snprintf_text 640 (lit "! " ++ ss_handle s ++ lit " answers " ++ [c_dquote] ++ question ++ [c_dquote] ++ lit ": " ++ arg)).

(** ** Preferences *)

Definition mv_toggle_msg (st : station) (id : Z) (get : ddial_mv_session -> bool)
  (set : ddial_mv_session -> bool -> ddial_mv_session) (arg label : bytes) : station :=
  let arg := mv_skip_ws arg in
  let old := get (ss_mv (the st id)) in
  let new := if peek arg =? c_plus then true else if peek arg =? c_minus then false
             else if same_nocase arg (lit "show") then old else negb old in
  let st := upd_mv st id (fun v => set v new) in
  let st := say st id (lit "* " ++ label ++ (if new then lit " on." else lit " off.")) in
  mv_save_member st id.

Definition k_mv_beep_events : list (bytes * Z) :=
  [(lit "pm", DDIAL_MV_BEEP_PM); (lit "mention", DDIAL_MV_BEEP_MENTION); (lit "login", DDIAL_MV_BEEP_LOGIN);
   (lit "chat", DDIAL_MV_BEEP_CHAT); (lit "buzz", DDIAL_MV_BEEP_BUZZ)].

Definition say_all (st : station) (id : Z) (texts : list bytes) : station :=
  fold_left (fun st t => say st id t) texts st.

Definition mv_cmd_beep (st : station) (id : Z) (arg : bytes) : station :=
  let v := ss_mv (the st id) in
  if peek arg =? c_question then
    say_all st id
      ([lit "Beep is " ++ (if v_beep_on v then lit "on" else lit "off") ++ lit ", volume " ++ dec (v_beep_volume v) ++
        lit "%. Events:"] ++
       map (fun e => [c_space] ++ e.1 ++ concat (replicate (8 - length e.1) [c_space]) ++ [c_space] ++
                     (if Z.land (v_beep_events v) e.2 =? 0 then lit "off" else lit "on")) k_mv_beep_events ++
       [lit "Use /b+<event> or /b-<event>, e.g. /b+login"])
  else if (peek arg =? c_plus) || (peek arg =? c_minus) then
    match List.find (fun e => same_nocase (drop 1 arg) e.1) k_mv_beep_events with
    | None => say st id (lit "* Unknown event. Type /b? for the list.")
    | Some (name, bit) =>
        let on := peek arg =? c_plus in
        let st := upd_mv st id (fun v => set_v_beep_events v
                    (if on then Z.lor (v_beep_events v) bit else Z.land (v_beep_events v) (255 - bit))) in
        let st := say st id (lit "* Beep on " ++ name ++ (if on then lit " on." else lit " off.")) in
        mv_save_member st id
    end
  else
    let st := upd_mv st id (fun v => set_v_beep_on v (negb (v_beep_on v))) in
    let st := say st id (lit "* Beep " ++ (if negb (v_beep_on v) then lit "on." else lit "off.")) in
    mv_save_member st id.

Definition mv_cmd_color (st : station) (id : Z) (arg : bytes) : station :=
  let arg := mv_skip_ws arg in
  if (length arg =? 0)%nat then
    mv_save_member (say (upd_mv st id (fun v => set_v_msg_color v [])) id (lit "* Message colour cleared.")) id
  else
    let '(mode, a, b) := mv_parse_color_spec arg in
    if bool_decide (mode = MV_COLOR_NONE) then say st id (lit "* Usage: /cRRGGBB or /cRRGGBB,RRGGBB (gradient)")
    else
      let s := if peek arg =? c_hash then drop 1 arg else arg in
      let c2 := if nthb s 7 =? c_hash then drop 8 s else drop 7 s in
      let spec := snprintf_text 16 (if bool_decide (mode = MV_COLOR_GRADIENT)
                                    then take 6 s ++ [c_comma] ++ take 6 c2 else take 6 s) in
      let st := upd_mv st id (fun v => set_v_msg_color v (snprintf_text 16 spec)) in
      let styled := fst (mv_render letter_color (lit "This is your new colour.") mode a b 256 128) in
      mv_save_member (say st id (lit "* " ++ styled)) id.

Definition mv_cmd_affix (st : station) (id : Z) (set : ddial_mv_session -> bytes -> ddial_mv_session) (cap : nat)
  (arg label : bytes) : station :=
  let arg := mv_skip_ws arg in
  let st := upd_mv st id (fun v => set v (snprintf_text cap arg)) in
  let st := say st id (lit "* " ++ label ++ (if (0 <? length arg)%nat then lit " set." else lit " cleared.")) in
  mv_save_member st id.

Definition mv_cmd_quit (c : clock) (st : station) (id : Z) (arg : bytes) : station :=
  if peek arg =? c_plus then
    let st := upd_mv st id (fun v => set_v_quit_deadline (set_v_quit_msg v (snprintf_text 128 (mv_skip_ws (drop 1 arg))))
                                       (now c + 10)) in
    say st id (lit "* Leaving in 10 seconds.")
  else
    let st := upd_mv st id (fun v => set_v_quit_msg v (snprintf_text 128 (mv_skip_ws arg))) in
    upd st id (fun s => set_ss_should_exit (write_line s (lit "Goodbye!")) true).

Definition mv_cmd_baud (st : station) (id : Z) (arg : bytes) : station :=
  match mv_parse_uint (mv_skip_ws arg) with
  | None => say st id (lit "* Baud rate is " ++ dec (Output.baud (ss_out (the st id))) ++
                       lit ". Set with /baud 0|300|600|1200|2400|9600")
  | Some (rate, _) =>
      if negb (existsb (Z.eqb rate) [0; 300; 600; 1200; 2400; 9600])
      then say st id (lit "* Choose 0 (fast), 300, 600, 1200, 2400 or 9600.")
      else
        let st := upd st id (fun s => set_ss_out s (Output.set_baud (ss_out s) rate)) in
        let st := say st id (if rate =? 0 then lit "* Baud: full speed." else lit "* Baud set to " ++ dec rate ++ lit ".") in
        mv_save_member st id
  end.

(** ** Moderation *)

Definition mv_cmd_ignore (st : station) (id : Z) (arg : bytes) : station :=
  if (peek arg =? c_plus) || (peek arg =? c_minus) then
    match mv_parse_uint (drop 1 arg) with
    | None => say st id (lit "* Usage: /ig+<member#> or /ig-<member#>")
    | Some (n, _) =>
        if peek arg =? c_plus then
          say (upd_mv st id (fun v => set_v_ignore_members v (fst (mv_list_add (v_ignore_members v) n)))) id
            (lit "* Ignoring member #" ++ dec n ++ lit ".")
        else
          say (upd_mv st id (fun v =>
                 set_v_ignore_slots (set_v_ignore_members v (fst (mv_list_remove (v_ignore_members v) n)))
                                    (fst (mv_list_remove (v_ignore_slots v) n)))) id
            (lit "* No longer ignoring #" ++ dec n ++ lit ".")
    end
  else
    match mv_parse_uint arg with
    | None => say st id (lit "* Usage: /ig<line#>, /ig+<member#>, /ig-<member#>")
    | Some (n, _) =>
        let (l, on) := mv_list_toggle (v_ignore_slots (ss_mv (the st id))) n in
        say (upd_mv st id (fun v => set_v_ignore_slots v l)) id
          (if on then lit "* Ignoring public messages from line #" ++ dec n ++ lit "."
           else lit "* Showing public messages from line #" ++ dec n ++ lit " again.")
    end.

Definition mv_cmd_slot_toggle (st : station) (id : Z) (arg : bytes) (get : ddial_mv_session -> slot_list)
  (set : ddial_mv_session -> slot_list -> ddial_mv_session) (on off usage : bytes) : station :=
  match mv_parse_uint arg with
  | None => say st id usage
  | Some (n, _) =>
      let (l, added) := mv_list_toggle (get (ss_mv (the st id))) n in
      say (upd_mv st id (fun v => set v l)) id
        (lit "* " ++ (if added then on else off) ++ lit " line #" ++ dec n ++ lit ".")
  end.

(** The number after a moderation command, if it is that of a line. *)
Definition line_number (arg : bytes) : option Z :=
  match mv_parse_uint arg with
  | Some (slot, _) => if UINT16_MAX <? slot then None else Some slot
  | None => None
  end.

Definition mv_cmd_full_mute (st : station) (id : Z) (arg : bytes) : station :=
  if negb (v_cosysop (ss_mv (the st id))) then say st id (lit "* Only CoSysops can full-mute.")
  else
    match line_number arg with
    | None => say st id (lit "* Usage: /xx<line#>")
    | Some slot =>
        match find_logged st (at_slot slot) with
        | None => say st id (lit "* Nobody on line #" ++ dec slot ++ lit ".")
        | Some t =>
            if mv_is_member t then say st id (lit "* Full mute applies to guests only.")
            else
              let muted := negb (v_full_muted (ss_mv t)) in
              let st := upd_mv st (ss_id t) (fun v => set_v_full_muted v muted) in
              let st := say st (ss_id t) (if muted then lit "* You have been muted by a CoSysop."
                                          else lit "* You have been unmuted.") in
              say st id (lit "* Line #" ++ dec slot ++ (if muted then lit " muted." else lit " unmuted."))
        end
    end.

Definition mv_cmd_boot (c : clock) (st : station) (id : Z) (arg : bytes) : station :=
  let s := the st id in
  let channel := ss_channel s in
  match line_number arg with
  | None => say st id (lit "* Usage: /tb<line#>")
  | Some slot =>
      if (channel =? DDIAL_MV_ROOM_CHANNEL) && negb (v_cosysop (ss_mv s)) then
        say st id (lit "* Nobody can be booted from the main channel.")
      else if negb (mv_is_moderator st id channel) then
        say st id (lit "* Only the channel moderator (first person in) can boot.")
      else
        let absent := say st id (lit "* Line #" ++ dec slot ++ lit " is not on your channel.") in
        match find_logged st (at_slot slot) with
        | None => absent
        | Some t =>
            if negb (ss_channel t =? channel) || (ss_id t =? id) then absent
            else if v_cosysop (ss_mv t) then say st id (lit "* CoSysops cannot be booted.")
            else
              let st := upd st (ss_id t) (fun t =>
                          mv_line (set_ss_mv (set_ss_channel t DDIAL_MV_ROOM_CHANNEL)
                                     (set_v_channel_joined_at (ss_mv t) (now c)))
                            (lit "* You were booted from channel " ++ dec channel ++ lit " by " ++ ss_handle s ++ lit ".")) in
              let st := mv_add_boot c st channel (ss_handle t) in
              mv_notice_channel c st channel
                (snprintf_text 128 (lit "* #" ++ dec slot ++ [c_space] ++ ss_handle t ++ lit " was booted from the channel."))
        end
  end.

Definition mv_cmd_kick (st : station) (id : Z) (arg : bytes) : station :=
  let s := the st id in
  if negb (v_cosysop (ss_mv s)) then say st id (lit "* Only CoSysops can disconnect users.")
  else
    match line_number (mv_skip_ws arg) with
    | None => say st id (lit "* Usage: /k<line#>")
    | Some slot =>
        let nobody := say st id (lit "* Nobody to disconnect on line #" ++ dec slot ++ lit ".") in
        match find_logged st (at_slot slot) with
        | None => nobody
        | Some t =>
            if ss_id t =? id then nobody
            else
              upd st (ss_id t) (fun t =>
                let t := write_line t (lit "* You have been disconnected by a CoSysop.") in
                set_ss_should_exit
                  (set_ss_mv t (set_v_quit_msg (ss_mv t) (snprintf_text 128 (lit "disconnected by " ++ ss_handle s)))) true)
        end
    end.

Definition mv_cmd_sentry (c : clock) (st : station) (id : Z) (arg : bytes) : station :=
  let arg := mv_skip_ws arg in
  let s := the st id in
  if (peek arg =? c_plus) || (peek arg =? c_minus) then
    if negb (v_cosysop (ss_mv s)) then say st id (lit "* Only CoSysops can change Sentry.")
    else
      let st := set_sentry st (peek arg =? c_plus) in
      mv_notice_channel c st 0
        (snprintf_text 96 (lit "* Sentry " ++ (if peek arg =? c_plus then lit "activated" else lit "deactivated") ++
                           lit " by " ++ ss_handle s ++ lit "."))
  else say st id (lit "* Sentry is " ++ (if sentry st then lit "on" else lit "off") ++ lit " (auto-mutes flooding guests).").

(** Making a member a CoSysop, or no longer one; without the right it is the
    list. *)
Definition cosysop_change (st : station) (id : Z) (arg : bytes) : station :=
  let missing st := say st id (lit "* No such member.") in
  match mv_parse_uint (drop 1 arg) with
  | None => missing st
  | Some (no, _) =>
      match get_member st no with
      | (st, None) => missing st
      | (st, Some m) =>
          let on := peek arg =? c_plus in
          let st := put_member st (set_cosysop m on) in
          let st := foreach st (fun s =>
                      if ss_logged_in s && (v_member_no (ss_mv s) =? no)
                      then set_ss_mv s (set_v_cosysop (ss_mv s) (on || mv_env_cosysop cosysops_env no)) else s) in
          say st id (lit "* Member #" ++ dec no ++ (if on then lit " is now" else lit " is no longer") ++ lit " a CoSysop.")
      end
  end.

(** ** Members *)

Definition mv_cmd_signup (c : clock) (st : station) (id : Z) (password : bytes) : station :=
  let password := mv_skip_ws password in
  let s := the st id in
  if mv_is_member s then
    say st id (lit "* You are already member #" ++ dec (v_member_no (ss_mv s)) ++ lit ".")
  else if (length password =? 0)%nat then
    say st id (lit "* Usage: /signup <password>  (registers your current handle)")
  else
    match ddial_member_signup derive (roll st) (ss_handle s) password (fresh_salt c) (now c) with
    | (r, inr err) => say (set_roll st r) id (lit "* Signup failed: " ++ snprintf_text 128 err)
    | (r, inl no) =>
        let st := set_roll st r in
        let st :=
          match get_member st no with
          | (st, Some m) => upd (put_member st (set_logins m 1)) id (fun s => mv_apply_member s (set_logins m 1))
          | (st, None) => st
          end in
        let st := say st id (lit "* Welcome aboard! You are member #" ++ dec no ++ lit ".") in
        let st := say st id (lit "* Next time log in with: " ++ dec no ++ lit "<password>   (or " ++ dec no ++ lit ":<password>)") in
        let s := the st id in
        mv_notice_channel c st (ss_channel s)
          (snprintf_text 128 (lit "* " ++ ss_handle s ++ lit " is now member #" ++ dec no ++ lit "."))
    end.

(** The handle a session takes, once it is known to be free. *)
Definition take_handle (c : clock) (st : station) (id : Z) (arg clean display : bytes) (colored : bool) : station :=
  let old := ss_handle (the st id) in
  let st := emit st (link_logout (the st id)) in
  let st := upd st id (fun s =>
              set_ss_mv (set_ss_handle s (snprintf_text DDIAL_MAX_HANDLE_LEN clean))
                (set_v_display_handle (ss_mv s) (snprintf_text 256 (if colored then display else [])))) in
  let st := emit st (link_login (the st id)) in
  let s := the st id in
  let st :=
    if mv_is_member s then
      match get_member st (v_member_no (ss_mv s)) with
      | (st, Some m) =>
          put_member st (set_handle_color (set_handle m (snprintf_text DDIAL_MAX_HANDLE_LEN clean))
                           (snprintf_text 160 (if colored then arg else [])))
      | (st, None) => st
      end
    else st in
  if bytes_eqb old clean then say st id (lit "* Handle updated.")
  else
    mv_notice_channel c st (ss_channel s)
      (snprintf_text 160 (lit "* #" ++ dec (ss_slot s) ++ [c_space] ++ old ++ lit " is now " ++ clean ++ lit ".")).

(** A new handle by its text; [arg] is not empty. *)
Definition change_handle (c : clock) (st : station) (id : Z) (arg : bytes) : station :=
  let colored := peek arg =? c_hash in
  let go (display plain : bytes) :=
    let clean := Wire.ddial_sanitize_handle plain DDIAL_MAX_HANDLE_LEN in
    if (length clean =? 0)%nat then say st id (lit "* Invalid handle.")
    else
      let (r, owner) := ddial_member_owner_of (roll st) clean in
      let st := set_roll st r in
      if negb (owner =? 0) && negb (owner =? v_member_no (ss_mv (the st id))) then
        say st id (lit "* '" ++ clean ++ lit "' belongs to member #" ++ dec owner ++ lit ".")
      else
        match mv_find_handle st clean with
        | Some other =>
            if ss_id other =? id then take_handle c st id arg clean display colored
            else say st id (lit "* '" ++ clean ++ lit "' is in use.")
        | None => take_handle c st id arg clean display colored
        end in
  if colored then
    for_member st id
      (let (display, plain) := mv_render_handle letter_color arg 256 (DDIAL_MAX_HANDLE_LEN * 2) in go display plain)
  else go [] (snprintf_text (DDIAL_MAX_HANDLE_LEN * 2) arg).

(** [/h]: a call for a saved handle calls itself with the text that was saved,
    and never returns when that leads back to it. *)
Fixpoint mv_cmd_handle (fuel : nat) (c : clock) (st : station) (id : Z) (arg : bytes) : option station :=
  match fuel with
  | O => None
  | S fuel =>
      let arg := mv_skip_ws arg in
      if peek arg =? c_question then
        Some (for_member st id (with_self st id (fun st m =>
          fold_left (fun st i =>
            let h := nth i (m_saved_handles m) [] in
            if (0 <? length h)%nat then say st id (lit " /h" ++ dec (Z.of_nat (S i)) ++ lit "  " ++ h) else st)
            (seq 0 DDIAL_MV_SAVED_HANDLES) (say st id (lit "Saved handles:")))))
      else if (c_1 <=? peek arg) && (peek arg <=? c_9) && ((nthb arg 1 =? c_eq) || (length arg =? 1)%nat) then
        let slot := Z.to_nat (peek arg - c_1) in
        if negb (mv_is_member (the st id)) then Some (for_member st id st)
        else
          match get_member st (v_member_no (ss_mv (the st id))) with
          | (st, None) => Some (say st id (lit "* Member record not found."))
          | (st, Some m) =>
              if nthb arg 1 =? c_eq then
                let clean := Wire.ddial_sanitize_handle (drop 2 arg) DDIAL_MAX_HANDLE_LEN in
                let st := put_member st (set_saved_handle m slot (snprintf_text DDIAL_MAX_HANDLE_LEN clean)) in
                Some (say st id (lit "* Saved handle " ++ dec (Z.of_nat (S slot)) ++ lit ": " ++
                                 (if (0 <? length clean)%nat then clean else lit "(cleared)")))
              else
                let saved := nth slot (m_saved_handles m) [] in
                if (length saved =? 0)%nat then
                  Some (say st id (lit "* Handle " ++ dec (Z.of_nat (S slot)) ++ lit " is empty. Save one with /h" ++
                                   dec (Z.of_nat (S slot)) ++ lit "=Name"))
                else mv_cmd_handle fuel c st id (snprintf_text DDIAL_MAX_HANDLE_LEN saved)
          end
      else if (length arg =? 0)%nat then Some st
      else Some (change_handle c st id arg)
  end.

(** ** Profile, box and birthday *)

Definition mv_cmd_profile (st : station) (id : Z) (arg : bytes) : station :=
  if peek arg =? c_eq then
    for_member st id
      (let text := mv_skip_ws (drop 1 arg) in
       if (length text =? 0)%nat then
         say (upd_mv st id (fun v => set_v_profile_capture v true)) id (lit "* Type your profile on the next line:")
       else
         with_self st id (fun st m =>
           say (put_member st (set_profile m (snprintf_text 512 text))) id (lit "* Profile saved.")))
  else st.

Definition mv_cmd_box (st : station) (id : Z) (arg : bytes) : station :=
  if peek arg =? c_eq then
    for_member st id (with_self st id (fun st m =>
      let text := mv_skip_ws (drop 1 arg) in
      if same_nocase text (lit "rotate") then
        let on := negb (m_box_rotate m) in
        put_member (say st id (if on then lit "* Box rotation on." else lit "* Box rotation off.")) (set_box_rotate m on)
      else
        put_member (say st id (if (0 <? length text)%nat then lit "* Message box saved (use | between lines)."
                               else lit "* Message box cleared.")) (set_box m (snprintf_text 512 text))))
  else st.

Definition mv_cmd_bday (st : station) (id : Z) (arg : bytes) : station :=
  with_self st id (fun st m =>
    let arg := mv_skip_ws arg in
    if same_nocase arg (lit "remove") then
      put_member (say st id (lit "* Birthday removed.")) (set_bday_countdown (set_bday m []) false)
    else if bytes_eqb arg [c_plus] || bytes_eqb arg [c_minus] then
      if (length (m_bday m) =? 0)%nat then say st id (lit "* Set your birthday first: /bday YYYY-MM-DD")
      else
        let on := peek arg =? c_plus in
        put_member (say st id (if on then lit "* Birthday countdown shown." else lit "* Birthday countdown hidden."))
          (set_bday_countdown m on)
    else if (length arg =? 0)%nat then
      say st id (if (0 <? length (m_bday m))%nat then lit "* Your birthday: " ++ m_bday m else lit "* No birthday set.")
    else
      match mv_valid_date arg with
      | Some _ =>
          put_member (say st id (lit "* Birthday saved. Only members see a notice on the day; your age stays private."))
            (set_bday m (snprintf_text 11 arg))
      | None => say st id (lit "* Usage: /bday YYYY-MM-DD, /bday+, /bday-, /bdayRemove")
      end).

(** ** Mail *)

Definition trim (s : bytes) : bytes := strip_trailing isspace (skip_while isspace s).

(** A letter to a member, who is told when online. *)
Definition send_letter (c : clock) (st : station) (id to : Z) (text : bytes) : station :=
  let s := the st id in
  let p := mv_skip_ws text in
  if (length p =? 0)%nat then say st id (lit "* Usage: /e=<member#> <message>")
  else
    let (r, mail) := ddial_mail_send (roll st) to (v_member_no (ss_mv s)) (Some (ss_handle s)) p false (now c) in
    let st := set_roll st r in
    if mail =? 0 then say st id (lit "* No member #" ++ dec to ++ lit " (or mailbox full).")
    else
      let st := say st id (lit "* Email sent to member #" ++ dec to ++ lit ".") in
      foreach st (fun t =>
        if ss_logged_in t && (v_member_no (ss_mv t) =? to)
        then mv_bell (write_line t (lit "* You have new email. Type /e.")) DDIAL_MV_BEEP_PM else t).

(** The name and the message of a letter by name. *)
Definition letter_by_name (p : bytes) : bytes * bytes :=
  let sep := match strchr p 124 with
             | Some q => q
             | None => skip_while (fun c => negb (c =? c_space)) p
             end in
  (trim (take 255 (take (length p - length sep) p)),
   match sep with [] => [] | _ :: t => mv_skip_ws t end).

Definition mv_cmd_email (c : clock) (st : station) (id : Z) (arg : bytes) : station :=
  if peek arg =? c_question then st
  else
    for_member st id
      (let no := v_member_no (ss_mv (the st id)) in
       if peek arg =? c_eq then
         match mv_parse_uint (drop 1 arg) with
         | Some (to, p) => send_letter c st id to p
         | None =>
             let (name, msg) := letter_by_name (drop 1 arg) in
             if (length name =? 0)%nat || (length msg =? 0)%nat then
               say st id (lit "* Usage: /e=<member#> <message> or /e=<name>|<message>")
             else
               let (r, to) := ddial_member_owner_of (roll st) name in
               let st := set_roll st r in
               if to =? 0 then
                 match chatter_mail name msg with
                 | Some error => say st id (lit "* " ++ error)
                 | None => say (emit st (MailChatter (ss_handle (the st id)) name msg)) id
                             (lit "* Email sent to " ++ name ++ lit " (Chatter).")
                 end
               else send_letter c st id to msg
         end
       else if peek arg =? c_minus then
         if same_nocase (drop 1 arg) (lit "all") then
           let (r, n) := ddial_mail_delete (roll st) no 0 in
           say (set_roll st r) id (lit "* Deleted " ++ dec (Z.of_nat n) ++ lit " email" ++ (if (n =? 1)%nat then lit "." else lit "s."))
         else
           match mv_parse_uint (drop 1 arg) with
           | Some (mail, _) =>
               if mail =? 0 then say st id (lit "* Usage: /e-<email#> or /e-all")
               else
                 let (r, n) := ddial_mail_delete (roll st) no mail in
                 say (set_roll st r) id (if (0 <? n)%nat then lit "* Email deleted." else lit "* No such email.")
           | None => say st id (lit "* Usage: /e-<email#> or /e-all")
           end
       else st).

Definition buzzed (s : ddial_session) (text : bytes) (t : ddial_session) : ddial_session :=
  let t := mv_line t (lit "* BUZZ! " ++ ss_handle s ++ lit " (#" ++ dec (ss_slot s) ++ lit ") is calling you" ++
                      (if (0 <? length text)%nat then lit ": " else lit ".") ++ text) in
  let v := ss_mv t in
  if v_beep_on v && (0 <? v_beep_volume v) && negb (Z.land (v_beep_events v) DDIAL_MV_BEEP_BUZZ =? 0)
  then write t [c_bel; c_bel; c_bel] else t.

Definition mv_cmd_offline (c : clock) (st : station) (id : Z) (arg : bytes) (buzz : bool) : station :=
  let s := the st id in
  match mv_parse_uint (mv_skip_ws arg) with
  | None => say st id (if buzz then lit "* Usage: /buzz <member#> [message]" else lit "* Usage: /o<member#> <message>")
  | Some (to, p) =>
      let p := mv_skip_ws p in
      if negb buzz && (length p =? 0)%nat then say st id (lit "* Usage: /o<member#> <message>")
      else
        match get_member st to with
        | (st, None) => say st id (lit "* No member #" ++ dec to ++ lit ".")
        | (st, Some m) =>
            let note st text :=
              set_roll st (fst (ddial_mail_send (roll st) to (v_member_no (ss_mv s)) (Some (ss_handle s)) text true (now c))) in
            if buzz then
              match find_logged st (fun t => v_member_no (ss_mv t) =? to) with
              | Some t => say (upd st (ss_id t) (buzzed s p)) id (lit "* Buzzed " ++ m_handle m ++ lit ".")
              | None =>
                  say (note st (snprintf_text DDIAL_MV_TEXT_LIMIT
                         (lit "BUZZ - come online!" ++ (if (0 <? length p)%nat then [c_space] else []) ++ p))) id
                    (lit "* " ++ m_handle m ++ lit " is offline; the buzz waits for their next login.")
              end
            else say (note st p) id (lit "* " ++ m_handle m ++ lit " will get your message at next login.")
        end
  end.

(** ** Fun *)

Definition k_mv_jokes : list bytes := map lit
  ["I told my modem a joke. It didn't get it; the carrier was lost.";
   "Why did the BBS sysop go broke? Too many free downloads.";
   "There are 10 kinds of people: those who read binary and those who don't.";
   "My 300 baud modem is so slow, it downloads in sepia.";
   "Why do programmers prefer dark mode? Light attracts bugs.";
   "I would tell a UDP joke, but you might not get it.";
   "A SQL query walks into a bar, walks up to two tables and asks: may I join you?";
   "Why was the computer cold? It left its Windows open.";
   "Knock knock. Race condition. Who's there?";
   "I changed my password to 'incorrect' so it tells me when I forget it.";
   "The FidoNet mailer called at 3am. It was a wrong zone.";
   "Why did the ANSI artist break up? Too many escape sequences.";
   "Hardware: the part of a computer you can kick.";
   "I'd tell a TCP joke, but I'd have to keep repeating it until you got it.";
   "Sysop's law: the user who crashes the board is always on long distance.";
   "How many sysops does it take to change a bulb? None, it's a hardware problem.";
   "My BBS has 99 problems, but a busy signal ain't one. Oh wait.";
   "Why did the handle cross the channel? To get to the other /t.";
   "Real modems don't need error correction; they just yell louder.";
   "Ctrl+Z: the original undo button for your life choices."]%string.

Definition k_mv_8ball : list bytes := map lit
  ["It is certain."; "It is decidedly so."; "Without a doubt."; "Yes, definitely."; "You may rely on it.";
   "As I see it, yes."; "Most likely."; "Outlook good."; "Yes."; "Signs point to yes."; "Reply hazy, try again.";
   "Ask again later."; "Better not tell you now."; "Cannot predict now."; "Concentrate and ask again.";
   "Don't count on it."; "My reply is no."; "My sources say no."; "Outlook not so good."; "Very doubtful."]%string.

Definition as_is : mv_chat_opts :=
  {| local_only := false; members_only := false; action := false; uno := false; block := false;
     no_transform := true; anim := 0; pace_baud := 0 |}.

Definition as_action (transform : bool) : mv_chat_opts :=
  {| local_only := false; members_only := false; action := true; uno := false; block := false;
     no_transform := negb transform; anim := 0; pace_baud := 0 |}.

Definition as_block : mv_chat_opts :=
  {| local_only := false; members_only := false; action := false; uno := false; block := true;
     no_transform := false; anim := 0; pace_baud := 0 |}.

Definition as_uno : mv_chat_opts :=
  {| local_only := false; members_only := false; action := false; uno := true; block := false;
     no_transform := false; anim := 0; pace_baud := 0 |}.

Definition as_anim (n : Z) : mv_chat_opts :=
  {| local_only := false; members_only := false; action := false; uno := false; block := false;
     no_transform := false; anim := n; pace_baud := 0 |}.

Definition as_paced (rate : Z) : mv_chat_opts :=
  {| local_only := false; members_only := false; action := false; uno := false; block := false;
     no_transform := false; anim := 0; pace_baud := rate |}.

Definition as_local : mv_chat_opts :=
  {| local_only := true; members_only := false; action := false; uno := false; block := false;
     no_transform := false; anim := 0; pace_baud := 0 |}.

Definition as_members : mv_chat_opts :=
  {| local_only := false; members_only := true; action := false; uno := false; block := false;
     no_transform := false; anim := 0; pace_baud := 0 |}.

Definition here (c : clock) (st : station) (id : Z) (text : bytes) (o : mv_chat_opts) : station :=
  chat c st id (ss_channel (the st id)) text o.

Definition mv_cmd_joke (c : clock) (st : station) (id : Z) (arg : bytes) : station :=
  let idx := match mv_parse_uint arg with
             | Some (n, _) => if (1 <=? n) && (n <=? 20) then n - 1 else fun_draw c mod 20
             | None => fun_draw c mod 20
             end in
  here c st id (snprintf_text 256 (lit "Joke #" ++ dec (idx + 1) ++ lit ": " ++ nth (Z.to_nat idx) k_mv_jokes [])) as_is.

Definition mv_cmd_8ball (c : clock) (st : station) (id : Z) (question : bytes) : station :=
  let question := mv_skip_ws question in
  if (length question =? 0)%nat then say st id (lit "* Usage: /8ball <question>")
  else
    here c st id
      (snprintf_text DDIAL_MV_TEXT_LIMIT
         (lit "asks the Magic 8-Ball " ++ [c_dquote] ++ question ++ [c_dquote] ++ lit " ... " ++
          nth (Z.to_nat (fun_draw c mod 20)) k_mv_8ball [])) (as_action false).

Definition mv_cmd_taco (c : clock) (st : station) (id : Z) (msg : bytes) : station :=
  let msg := mv_skip_ws msg in
  here c st id
    (snprintf_text SSH_CHATTER_MESSAGE_LIMIT
       (sgr "33m" ++ lit "   ,~~~~~~~~~," ++ sgr "0m" ++ Wire.crlf ++
        sgr "33m" ++ lit "  /" ++ sgr "32m" ++ lit "~*~*~*~*~*" ++ sgr "33m" ++ lit "\" ++ sgr "0m" ++ lit "  " ++
        (if (0 <? length msg)%nat then msg else lit "Taco time!") ++ Wire.crlf ++
        sgr "33m" ++ lit " (" ++ sgr "31m" ++ lit "@" ++ sgr "32m" ++ lit "~" ++ sgr "31m" ++ lit "@" ++ sgr "32m" ++
        lit "~" ++ sgr "31m" ++ lit "@" ++ sgr "32m" ++ lit "~" ++ sgr "31m" ++ lit "@" ++ sgr "32m" ++ lit "~" ++
        sgr "31m" ++ lit "@" ++ sgr "33m" ++ lit ")" ++ sgr "0m" ++ Wire.crlf ++
        sgr "33m" ++ lit "  \_________/" ++ sgr "0m")) as_block.

Definition mv_cmd_giphy (c : clock) (st : station) (id : Z) (keyword : bytes) : station :=
  let keyword := mv_skip_ws keyword in
  if (length keyword =? 0)%nat then say st id (lit "* Usage: /giphy <keyword>")
  else if negb giphy_key then
    say st id (lit "* GIF search is not configured on this station (CHATTER_GIPHY_API_KEY).")
  else
    match gif_of keyword with
    | None => say st id (lit "* No GIF found for '" ++ keyword ++ lit "'.")
    | Some gif => here c st id (snprintf_text 768 (lit "[GIF: " ++ keyword ++ lit "] " ++ gif)) as_is
    end.

(** ** Code blocks *)

Definition mv_code_finish (c : clock) (st : station) (id : Z) : station :=
  let st := upd_mv st id (fun v => set_v_code_capture v false) in
  let code := v_code_buf (ss_mv (the st id)) in
  if (length code =? 0)%nat then say st id (lit "* Code block discarded (empty).")
  else upd_mv (here c st id code as_block) id (fun v => set_v_code_buf v []).

Definition mv_code_append (c : clock) (st : station) (id : Z) (line : bytes) : station :=
  let code := v_code_buf (ss_mv (the st id)) in
  if (DDIAL_MV_CODE_LIMIT - length code <? length line + 3)%nat then
    mv_code_finish c (say st id (lit "* Code block is full; finishing it.")) id
  else
    upd_mv st id (fun v =>
      set_v_code_buf v (code ++ (if (0 <? length code)%nat then Wire.crlf else []) ++ line)).

(** ** The dispatcher *)

(** [mv_is]: what follows the command word, if the line starts with it and it
    does not run into another letter. *)
Definition mv_is (cmd : bytes) (name : string) : option bytes :=
  let n := lit name in
  if negb (case_prefix n cmd) then None
  else if isalpha (nthb n (length n - 1)) && isalpha (nthb cmd (length n)) then None
  else Some (drop (length n) cmd).

(** A command of the session with what follows its word. *)
Inductive command :=
  | Nothing (** only prints to the session *)
  | AutoSlash (on : bool) | EightBall (r : bytes) | PacedChat (rate : Z) (r : bytes)
  | VoiceEcho | Voice (r : bytes) | Topic (r : bytes) | Taco (r : bytes) | Spaces (r : bytes) | SignUp (r : bytes)
  | SentryCmd (r : bytes) | ScrambleCmd (r : bytes) | ReverseCmd (r : bytes) | Remember (r : bytes)
  | Postfix (r : bytes) | Prefix (r : bytes) | NullCmd (r : bytes) | LoremCmd (r : bytes) | Giphy (r : bytes)
  | Font (r : bytes) | Code (r : bytes) | Cls | Buzz (r : bytes) | Bday (r : bytes) | Baud (r : bytes)
  | Anim (r : bytes) | Answer (r : bytes) | Ask (r : bytes) | Joke (r : bytes) | Cosysops (r : bytes)
  | Replies (r : bytes) | Status (r : bytes) | SendTo (r : bytes) | Boot (r : bytes) | Ignore (r : bytes)
  | FullMute (r : bytes) | BeepVolume (r : bytes) | Badges (r : bytes) | MembersChat (r : bytes)
  | LocalChat (r : bytes) | Password (r : bytes) | Color (r : bytes) | Box (r : bytes) | HandleCmd (r : bytes)
  | PrivateCmd (r : bytes) | Profile (r : bytes) | BeepCmd (r : bytes) | Quit (r : bytes) | Tune (r : bytes)
  | ActCmd (r : bytes) | Offline (r : bytes) | EmailCmd (r : bytes) | Notify (r : bytes) | Uno (r : bytes)
  | Squelch (r : bytes) | Kick (r : bytes).

Definition voice_command (r : bytes) : command :=
  let r := mv_skip_ws r in
  if peek r =? c_question then Nothing else if case_prefix (lit "echo") r then VoiceEcho else Voice r.

(** The words of the dispatcher, in its order. *)
Definition long_words : list (string * (bytes -> command)) :=
  [("whois", fun _ => Nothing);
   ("voice", voice_command);
   ("topic", Topic); ("taco", Taco); ("stats", fun _ => Nothing); ("spaces", Spaces); ("signup", SignUp);
   ("sentry", SentryCmd); ("scramble", ScrambleCmd); ("reverse", ReverseCmd); ("remember", Remember);
   ("post", Postfix); ("pre", Prefix); ("null", NullCmd); ("lorem", LoremCmd); ("image", fun _ => Nothing);
   ("help", fun _ => Nothing); ("giphy", Giphy); ("forgot", fun _ => Nothing); ("font", Font);
   ("define", fun _ => Nothing); ("code", Code); ("cls", fun _ => Cls); ("buzz", Buzz); ("bior", fun _ => Nothing);
   ("bdayremove", fun _ => Bday (lit "remove")); ("bday", Bday); ("baud", Baud); ("anim", Anim);
   ("answer", Answer); ("ask", Ask); ("jk", Joke); ("ls", fun _ => Nothing); ("sm", fun _ => Nothing);
   ("sc", Cosysops); ("re", Replies); ("ai", fun _ => Nothing); ("us", Status); ("ts", SendTo); ("tb", Boot);
   ("ig", Ignore); ("xx", FullMute); ("bv", BeepVolume); ("bg", Badges); ("pv", MembersChat); ("ps", LocalChat);
   ("pw=", Password)]%string.

Definition letters : list (string * (bytes -> command)) :=
  [("i", fun _ => Nothing); ("h", HandleCmd); ("s", fun _ => Nothing); ("w", fun _ => Nothing); ("p", PrivateCmd);
   ("r", Profile); ("b", BeepCmd); ("q", Quit); ("t", Tune); ("j", Tune); ("a", ActCmd); ("o", Offline);
   ("e", EmailCmd); ("n", Notify); ("d", fun _ => Nothing); ("u", Uno); ("x", Squelch); ("k", Kick);
   ("v", fun _ => Nothing)]%string.

Fixpoint first_word (l : list (string * (bytes -> command))) (cmd : bytes) : option command :=
  match l with
  | [] => None
  | (name, k) :: t => match mv_is cmd name with Some r => Some (k r) | None => first_word t cmd end
  end.

(** Whether a [c] starts a colour: nothing, [#], a blank, or six hexadecimal
    digits. *)
Definition is_color (cmd : bytes) : bool :=
  (tolower (peek cmd) =? 99) &&
  ((length cmd =? 1)%nat || (nthb cmd 1 =? c_hash) || (nthb cmd 1 =? c_space) ||
   ((7 <=? length cmd)%nat &&
    forallb (fun i => bool_decide (is_Some (mv_hexval (nthb cmd i)))) [1; 2; 3; 4; 5; 6]%nat &&
    ((length cmd =? 7)%nat || (nthb cmd 7 =? c_comma)))).

Definition is_box (cmd : bytes) : bool :=
  (tolower (peek cmd) =? 109) &&
  ((length cmd =? 1)%nat || (nthb cmd 1 =? c_eq) || isdigit (nthb cmd 1) ||
   (isalpha (nthb cmd 1) && negb (isalpha (nthb cmd 2)))).

(** The command a line after its slash stands for; none if the classic parser
    has to look at it. *)
Definition find_command (cmd : bytes) : option command :=
  let first :=
    if bool_decide (is_Some (mv_is cmd "?m")) || bool_decide (is_Some (mv_is cmd "@?")) then Some Nothing
    else if bytes_eqb cmd [c_plus] || bytes_eqb cmd [c_minus] then Some (AutoSlash (peek cmd =? c_plus))
    else
      first_word [("8ball", EightBall); ("300", PacedChat (u16 (atoi cmd))); ("1200", PacedChat (u16 (atoi cmd)));
                  ("2400", PacedChat (u16 (atoi cmd)))]%string cmd in
  match first with
  | Some k => Some k
  | None =>
      match first_word long_words cmd with
      | Some k => Some k
      | None =>
          if is_color cmd then Some (Color (drop 1 cmd))
          else if is_box cmd then Some (Box (drop 1 cmd))
          else first_word letters cmd
      end
  end.

(** A message sent with a flag switched on for it alone. *)
Definition with_flag (c : clock) (st : station) (id : Z) (get : ddial_mv_session -> bool)
  (set : ddial_mv_session -> bool -> ddial_mv_session) (r label : bytes) : station :=
  if (0 <? length (mv_skip_ws r))%nat then
    let saved := get (ss_mv (the st id)) in
    let st := upd_mv st id (fun v => set v true) in
    let st := here c st id r no_opts in
    upd_mv st id (fun v => set v saved)
  else mv_toggle_msg st id get set [] label.

Definition mv_cmd_font (st : station) (id : Z) (r : bytes) : station :=
  let r := mv_skip_ws r in
  if (length r =? 0)%nat then st
  else
    let st := upd_mv st id (fun v => set_v_font v (snprintf_text 48 r)) in
    mv_save_member (say st id (lit "* Font preference saved: " ++ v_font (ss_mv (the st id)))) id.

Definition mv_cmd_code (c : clock) (st : station) (id : Z) (r : bytes) : station :=
  let r := mv_skip_ws r in
  if (0 <? length r)%nat then here c st id r as_block
  else
    say (upd_mv st id (fun v => set_v_code_buf (set_v_code_capture v true) [])) id
      (lit "* Paste your code. End with /code (or a line with a single '.').").

Definition mv_cmd_anim (c : clock) (st : station) (id : Z) (r : bytes) : station :=
  match mv_parse_uint r with
  | Some (n, p) =>
      if (n <? 1) || (5 <? n) then say st id (lit "* Usage: /anim<1-5> <message>")
      else if (length (mv_skip_ws p) =? 0)%nat then
        say st id (lit "* /anim" ++ dec n ++ lit " is " ++
                   nth (Z.to_nat (n - 1)) [lit "typewriter"; lit "rainbow"; lit "wave"; lit "blink"; lit "sparkle"] [] ++
                   lit ". Try: /anim" ++ dec n ++ lit " hello")
      else here c st id p (as_anim n)
  | None => say st id (lit "* Usage: /anim<1-5> <message>")
  end.

(** [/ts]: to a channel that is monitored or tuned to. *)
Definition mv_cmd_send_to (c : clock) (st : station) (id : Z) (r : bytes) : station :=
  let s := the st id in
  match mv_parse_uint r with
  | None => say st id (lit "* Usage: /ts<channel#> <message>")
  | Some (ch, p) =>
      if negb (mv_list_contains (v_monitored (ss_mv s)) ch) && negb (ch =? ss_channel s) then
        say st id (lit "* Monitor channel " ++ dec ch ++ lit " first (/t+" ++ dec ch ++ lit ").")
      else chat c (upd_mv st id (fun v => set_v_last_monitor v (u16 ch))) id (u16 ch) p no_opts
  end.

Definition mv_cmd_beep_volume (st : station) (id : Z) (r : bytes) : station :=
  match mv_parse_uint r with
  | Some (v, _) =>
      if 100 <? v then say st id (lit "* Usage: /bv<0-100>")
      else
        mv_save_member
          (say (upd_mv st id (fun m => set_v_beep_volume m v)) id
             (lit "* Beep volume " ++ dec v ++ lit "%" ++ (if v =? 0 then lit " (silent)" else []))) id
  | None => say st id (lit "* Usage: /bv<0-100>")
  end.

Definition mv_cmd_password (c : clock) (st : station) (id : Z) (r : bytes) : station :=
  let (s, ok) := ddial_member_set_password derive (roll st) (v_member_no (ss_mv (the st id))) (mv_skip_ws r) (fresh_salt c) in
  say (set_roll st s) id (if ok then lit "* Password changed."
                          else lit "* Password must be 4+ characters without spaces or ':'.").

(** [/p]: to a list of lines, to those of [/p=], or setting these. *)
Definition mv_cmd_private (st : station) (id : Z) (r : bytes) : station :=
  let auto := v_auto_pm (ss_mv (the st id)) in
  if peek r =? c_eq then
    for_member st id
      (let l := fst (mv_parse_slot_csv (drop 1 r)) in
       say (upd_mv st id (fun v => set_v_auto_pm v l)) id
         (if (length l =? 0)%nat then lit "* Auto /p reset."
          else lit "* /p <message> now goes to " ++ dec (Z.of_nat (length l)) ++ lit " line" ++
               (if (length l =? 1)%nat then lit "." else lit "s.")))
  else if isdigit (peek r) then
    let (slots, p) := mv_parse_slot_csv r in
    if (1 <? length slots)%nat && negb (mv_is_member (the st id)) then for_member st id st
    else mv_private reached st id slots p false
  else if (0 <? length auto)%nat then mv_private reached st id auto r false
  else say st id (lit "* Usage: /p<line#> <message>").

(** [/t+] and [/t-]. *)
Definition mv_cmd_monitor (c : clock) (st : station) (id : Z) (r : bytes) : station :=
  for_member st id
    (let s := the st id in
     let usage := say st id (lit "* Usage: /t+<channel#> or /t-<channel#>") in
     match mv_parse_uint (drop 1 r) with
     | None => usage
     | Some (ch, _) =>
         if (ch <? 1) || (DDIAL_MV_MAX_CHANNEL <? ch) then usage
         else if peek r =? c_plus then
           if mv_is_booted c st ch (ss_handle s) then
             say st id (lit "* You were booted from channel " ++ dec ch ++ lit ".")
           else
             let (l, added) := mv_list_add (v_monitored (ss_mv s)) ch in
             if added then
               say (upd_mv st id (fun v => set_v_last_monitor (set_v_monitored v l) ch)) id
                 (lit "* Monitoring channel " ++ dec ch ++ lit ". Send with /ts" ++ dec ch ++ lit " <msg> or ;<msg>.")
             else say st id (lit "* You can monitor up to 16 channels.")
         else
           let (l, _) := mv_list_remove (v_monitored (ss_mv s)) ch in
           say (upd_mv st id (fun v =>
                  let v := set_v_monitored v l in
                  if v_last_monitor v =? ch then set_v_last_monitor v (peek l) else v)) id
             (lit "* Stopped monitoring channel " ++ dec ch ++ lit ".")
     end).

Definition mv_cmd_tune (c : clock) (st : station) (id : Z) (r : bytes) : station :=
  if peek r =? c_question then st
  else if (peek r =? c_plus) || (peek r =? c_minus) then mv_cmd_monitor c st id r
  else match mv_parse_uint r with Some (ch, _) => mv_tune c st id ch | None => st end.

Definition mv_cmd_act (c : clock) (st : station) (id : Z) (r : bytes) : station :=
  for_member st id
    (if isdigit (peek r) then
       let (slots, p) := mv_parse_slot_csv r in mv_private reached st id slots p true
     else if (0 <? length (mv_skip_ws r))%nat then here c st id r (as_action true)
     else say st id (lit "* Usage: /a <action>  or  /a<line#> <action>")).

(** The commands only members have. *)
Definition needs_member (k : command) : bool :=
  match k with
  | EightBall _ | PacedChat _ _ | Topic _ | Taco _ | ScrambleCmd _ | ReverseCmd _ | Postfix _ | Prefix _ | NullCmd _
  | LoremCmd _ | Code _ | Buzz _ | Bday _ | Anim _ | Answer _ | Ask _ | Status _ | SendTo _ | Boot _ | Ignore _
  | FullMute _ | MembersChat _ | Password _ | Color _ | ActCmd _ | Offline _ | Uno _ | Squelch _ => true
  | _ => false
  end.

(** What a command does once membership is no obstacle; none if it never
    returns. *)
Definition do_command (fuel : nat) (c : clock) (st : station) (id : Z) (k : command) : option station :=
  match k with
  | HandleCmd r => mv_cmd_handle fuel c st id r
  | Nothing => Some st
  | AutoSlash on =>
      Some (mv_save_member (say (upd_mv st id (fun v => set_v_auto_slash v on)) id
              (lit "* Auto // commands " ++ (if on then lit "on" else lit "off") ++ lit " (both / and // always work here).")) id)
  | EightBall r => Some (mv_cmd_8ball c st id r)
  | PacedChat rate r => Some (here c st id r (as_paced rate))
  | VoiceEcho => Some (mv_toggle_msg st id v_voice_echo set_v_voice_echo [] (lit "Voice echo"))
  | Voice r => Some (mv_toggle_msg st id v_voice_on set_v_voice_on r (lit "Text-to-speech (GUI clients)"))
  | Topic r => Some (mv_cmd_topic c st id r)
  | Taco r => Some (mv_cmd_taco c st id r)
  | Spaces r => Some (mv_cmd_spaces c st id r)
  | SignUp r => Some (mv_cmd_signup c st id r)
  | SentryCmd r => Some (mv_cmd_sentry c st id r)
  | ScrambleCmd r => Some (with_flag c st id v_scramble_on set_v_scramble_on r (lit "Scramble"))
  | ReverseCmd r => Some (with_flag c st id v_reverse_on set_v_reverse_on r (lit "Reverse"))
  | Remember r =>
      Some (mv_toggle_msg st id v_remember_on set_v_remember_on r
              (lit "Remember sign-in (GUI clients; terminals can log in with ###password)"))
  | Postfix r => Some (mv_cmd_affix st id set_v_postfix 48 r (lit "Postfix"))
  | Prefix r => Some (mv_cmd_affix st id set_v_prefix 48 r (lit "Prefix"))
  | NullCmd r =>
      Some (mv_cmd_slot_toggle st id r v_null_slots set_v_null_slots (lit "Colour nullified for")
              (lit "Colour restored for") (lit "* Usage: /null<line#>"))
  | LoremCmd r => Some (mv_toggle_msg st id v_lorem_on set_v_lorem_on r (lit "Lorem ipsum"))
  | Giphy r => Some (mv_cmd_giphy c st id r)
  | Font r => Some (mv_cmd_font st id r)
  | Code r => Some (mv_cmd_code c st id r)
  | Cls => Some (upd st id (fun s => write s (csi (lit "2J") ++ csi (lit "H"))))
  | Buzz r => Some (mv_cmd_offline c st id r true)
  | Bday r => Some (mv_cmd_bday st id r)
  | Baud r => Some (mv_cmd_baud st id r)
  | Anim r => Some (mv_cmd_anim c st id r)
  | Answer r => Some (mv_cmd_answer c st id r)
  | Ask r => Some (mv_cmd_ask c st id r)
  | Joke r => Some (mv_cmd_joke c st id r)
  | Cosysops r =>
      let arg := mv_skip_ws r in
      Some (if ((peek arg =? c_plus) || (peek arg =? c_minus)) && v_cosysop (ss_mv (the st id))
            then cosysop_change st id arg else st)
  | Replies r => Some (mv_toggle_msg st id v_replies_on set_v_replies_on r (lit "Replies"))
  | Status r => Some (mv_cmd_affix st id set_v_status 96 r (lit "Status"))
  | SendTo r => Some (mv_cmd_send_to c st id r)
  | Boot r => Some (mv_cmd_boot c st id r)
  | Ignore r => Some (mv_cmd_ignore st id r)
  | FullMute r => Some (mv_cmd_full_mute st id r)
  | BeepVolume r => Some (mv_cmd_beep_volume st id r)
  | Badges r => Some (mv_toggle_msg st id v_badges_on set_v_badges_on r (lit "Badges"))
  | MembersChat r => Some (here c st id r as_members)
  | LocalChat r => Some (here c st id r as_local)
  | Password r => Some (mv_cmd_password c st id r)
  | Color r => Some (mv_cmd_color st id r)
  | Box r => Some (mv_cmd_box st id r)
  | PrivateCmd r => Some (mv_cmd_private st id r)
  | Profile r => Some (mv_cmd_profile st id r)
  | BeepCmd r => Some (mv_cmd_beep st id r)
  | Quit r => Some (mv_cmd_quit c st id r)
  | Tune r => Some (mv_cmd_tune c st id r)
  | ActCmd r => Some (mv_cmd_act c st id r)
  | Offline r => Some (mv_cmd_offline c st id r false)
  | EmailCmd r => Some (mv_cmd_email c st id r)
  | Notify r =>
      Some (mv_toggle_msg st id v_notify_on set_v_notify_on r
              (lit "Browser notifications (GUI clients; terminals use /b beeps)"))
  | Uno r =>
      Some (if (length (mv_skip_ws r) =? 0)%nat then say st id (lit "* Usage: /u <message>")
            else here c st id (mv_skip_ws r) as_uno)
  | Squelch r =>
      Some (mv_cmd_slot_toggle st id r v_squelch_slots set_v_squelch_slots (lit "Squelched private messages from")
              (lit "Accepting private messages from") (lit "* Usage: /x<line#>"))
  | Kick r => Some (mv_cmd_kick st id r)
  end.

(** More calls of [/h] than there are saved handles never end. *)
Definition HANDLE_CALLS : nat := 11.

Definition perform (c : clock) (st : station) (id : Z) (k : command) : option station :=
  if needs_member k && negb (mv_is_member (the st id)) then Some (for_member st id st)
  else do_command HANDLE_CALLS c st id k.

(** A muted session may only leave. *)
Definition may_leave (text : bytes) : bool :=
  (peek text =? c_slash) && (tolower (nthb text 1) =? 113) && negb (isalpha (nthb text 2)).

(** What [ddial_mv_dispatch] does with a line: nothing, when the classic parser
    gets it. *)
Inductive dispatched := Declined | Done (st : option station).

Definition ddial_mv_dispatch (c : clock) (st : station) (id : Z) (line : bytes) : dispatched :=
  let v := ss_mv (the st id) in
  if v_code_capture v then
    let t := mv_skip_ws line in
    Done (Some (if same_nocase t (lit "/code") || same_nocase t (lit "/end") || bytes_eqb t [c_dot]
                then mv_code_finish c st id else mv_code_append c st id line))
  else if v_profile_capture v then
    Done (Some (mv_cmd_profile (upd_mv st id (fun v => set_v_profile_capture v false)) id
                  (snprintf_text (DDIAL_MV_TEXT_LIMIT + 2) (c_eq :: line))))
  else
    let text := mv_skip_ws line in
    if v_full_muted v && (0 <? length text)%nat && negb (may_leave text) then
      Done (Some (say st id (lit "* You are muted.")))
    else if peek text =? 59 then
      Done (Some (if v_last_monitor v =? 0 then say st id (lit "* Monitor a channel first with /t+#.")
                  else chat c st id (v_last_monitor v) (drop 1 text) no_opts))
    else if negb (peek text =? c_slash) then Done (Some (chat c st id (ss_channel (the st id)) text no_opts))
    else
      let cmd := drop 1 text in
      let cmd := if peek cmd =? c_slash then drop 1 cmd else cmd in
      match find_command cmd with
      | Some k => Done (perform c st id k)
      | None => Declined
      end.

(** A line of a session that is logged in. *)
Definition process_command (c : clock) (st : station) (id : Z) (line : bytes) : option station :=
  match ddial_mv_dispatch c st id line with
  | Done st => st
  | Declined =>
      match Wire.ddial_parse_command line with
      | (Wire.DDIAL_CMD_CHAT, Some msg) => Some (chat c st id (ss_channel (the st id)) (Wire.pm_body msg) no_opts)
      | (Wire.DDIAL_CMD_HELP, _) => Some st
      | (Wire.DDIAL_CMD_QUIT, _) => Some (upd st id (fun s => set_ss_should_exit s true))
      | _ => Some (upd st id (fun s => write_line s (lit "Unknown command. Type /i for help.")))
      end
  end.

Definition ddial_session_process_line (c : clock) (st : station) (id : Z) (line : bytes) : option station :=
  if negb (ss_logged_in (the st id)) then
    match ddial_mv_login_line c st id line with
    | (st, Some after) => process_command c st id after
    | (st, None) => Some st
    end
  else process_command c st id line.

(** ** The life of the station *)

Inductive event :=
  | Dial (id : Z)
  | Line (id : Z) (line : bytes)
  | Tick (id : Z)
  | HangUp (id : Z)
  | ChatJoins (display_name username : bytes)
  | ChatLeaves (slot : Z)
  | FromLink (line : bytes)
  | PrivateFromLink (target_slot from_slot channel : Z) (from_handle message : bytes)
  | PrivateFromChat (from_slot : Z) (from_name target_handle message : bytes) (roster_slot : option Z)
  | Broadcast (message : bytes).

(** One event at the station, with what the clock says. *)
Definition step (c : clock) (st : station) (e : event) : option station :=
  match e with
  | Dial id => Some (host_ddial_register_session st id)
  | Line id line => ddial_session_process_line c st id line
  | Tick id => Some (if ss_logged_in (the st id) then ddial_mv_tick c st id else st)
  | HangUp id => Some (hang_up c st id)
  | ChatJoins display_name username => Some (fst (host_ddial_chat_link_add st display_name username))
  | ChatLeaves slot => Some (host_ddial_chat_link_remove st slot)
  | FromLink line => Some (relay_upstream_line c st line)
  | PrivateFromLink target from channel handle message =>
      Some (host_ddial_deliver_link_private reached st target from channel handle message)
  | PrivateFromChat from name target message slot => Some (fst (host_ddial_relay_private st from name target message slot))
  | Broadcast message => Some (host_ddial_broadcast_system st message)
  end.

End Station.

End Commands.
