(* ===== verification/DdialPolicy.v ===== *)
(** What the dial-in station promises about who is who: an automaton over the
    registry alone, in which every move carries its guard.

    A [face] is what the others can tell of a session, the [book] is the roll
    of members as far as names and rights go.  [act] lists the moves there are;
    [well] is what all of them keep.  DdialStation shows that the command layer
    of the station makes no other moves. *)

From Stdlib Require Import ZArith Lia String Ascii.
From stdpp Require Import prelude.
From S2P Require Import Prelude DdialProtocol HostGuard DdialServer DdialText DdialMembers DdialSession.
Import Slots TextTheory Session Members.

Module Policy.

(** ** The registry *)

Record face := {
  f_id : Z;
  f_slot : Z;
  f_handle : bytes;
  f_channel : Z;
  f_on : bool;
  f_member : Z;
  f_cosysop : bool;
  f_muted : bool;
  f_monitored : slot_list;
}.

Record entry := { e_number : Z; e_handle : bytes; e_cosysop : bool }.

Record registry := { faces : list face; chatters : list Z; book : list entry }.

Definition is_guest (x : face) : bool := f_member x =? 0.

Definition same_name (a b : bytes) : Prop := map tolower a = map tolower b.

Definition who (r : registry) (id : Z) : option face := List.find (fun x => f_id x =? id) (faces r).

(** Who goes by a name, who holds a number. *)
Definition called (r : registry) (h : bytes) : option face :=
  List.find (fun x => f_on x && same_nocase (f_handle x) h) (faces r).

Definition holding (r : registry) (n : Z) : option face :=
  List.find (fun x => f_on x && (negb (n =? 0) && (f_member x =? n))) (faces r).

(** The member a name belongs to, 0 if there is none. *)
Definition owner (b : list entry) (h : bytes) : Z :=
  match List.find (fun e => same_nocase (e_handle e) h) b with Some e => e_number e | None => 0 end.

(** A line is taken; the last line of all is the one that may be shared. *)
Definition line_free (r : registry) (slot : Z) : Prop :=
  slot <> UINT16_MAX -> ~ In slot (map f_slot (faces r)) /\ ~ In slot (chatters r).

(** ** The moves *)

Definition with_faces (r : registry) (l : list face) : registry :=
  {| faces := l; chatters := chatters r; book := book r |}.

Definition with_chatters (r : registry) (l : list Z) : registry :=
  {| faces := faces r; chatters := l; book := book r |}.

Definition with_book (r : registry) (b : list entry) : registry :=
  {| faces := faces r; chatters := chatters r; book := b |}.

Definition change (r : registry) (id : Z) (f : face -> face) : registry :=
  with_faces r (map (fun x => if f_id x =? id then f x else x) (faces r)).

Definition change_entry (b : list entry) (n : Z) (f : entry -> entry) : list entry :=
  map (fun e => if e_number e =? n then f e else e) b.

Definition newcomer (id slot : Z) : face :=
  {| f_id := id; f_slot := slot; f_handle := []; f_channel := DDIAL_DEFAULT_CHANNEL; f_on := false; f_member := 0;
     f_cosysop := false; f_muted := false; f_monitored := [] |}.

(** A session that has just logged in. *)
Definition entered (h : bytes) (n : Z) (cosysop : bool) (x : face) : face :=
  {| f_id := f_id x; f_slot := f_slot x; f_handle := h; f_channel := DDIAL_DEFAULT_CHANNEL; f_on := true;
     f_member := n; f_cosysop := cosysop; f_muted := false; f_monitored := [] |}.

Definition tuned (ch : Z) (x : face) : face :=
  {| f_id := f_id x; f_slot := f_slot x; f_handle := f_handle x; f_channel := ch; f_on := f_on x;
     f_member := f_member x; f_cosysop := f_cosysop x; f_muted := f_muted x; f_monitored := f_monitored x |}.

Definition watching (l : slot_list) (x : face) : face :=
  {| f_id := f_id x; f_slot := f_slot x; f_handle := f_handle x; f_channel := f_channel x; f_on := f_on x;
     f_member := f_member x; f_cosysop := f_cosysop x; f_muted := f_muted x; f_monitored := l |}.

Definition gagged (b : bool) (x : face) : face :=
  {| f_id := f_id x; f_slot := f_slot x; f_handle := f_handle x; f_channel := f_channel x; f_on := f_on x;
     f_member := f_member x; f_cosysop := f_cosysop x; f_muted := b; f_monitored := f_monitored x |}.

Definition named (h : bytes) (x : face) : face :=
  {| f_id := f_id x; f_slot := f_slot x; f_handle := h; f_channel := f_channel x; f_on := f_on x;
     f_member := f_member x; f_cosysop := f_cosysop x; f_muted := f_muted x; f_monitored := f_monitored x |}.

Definition enrolled (n : Z) (cosysop : bool) (x : face) : face :=
  {| f_id := f_id x; f_slot := f_slot x; f_handle := f_handle x; f_channel := f_channel x; f_on := f_on x;
     f_member := n; f_cosysop := cosysop; f_muted := f_muted x; f_monitored := f_monitored x |}.

Definition promoted (b : bool) (x : face) : face :=
  {| f_id := f_id x; f_slot := f_slot x; f_handle := f_handle x; f_channel := f_channel x; f_on := f_on x;
     f_member := f_member x; f_cosysop := b; f_muted := f_muted x; f_monitored := f_monitored x |}.

Definition entry_named (h : bytes) (e : entry) : entry :=
  {| e_number := e_number e; e_handle := h; e_cosysop := e_cosysop e |}.

Definition entry_promoted (b : bool) (e : entry) : entry :=
  {| e_number := e_number e; e_handle := e_handle e; e_cosysop := b |}.

Section Moves.

(** The members the environment makes CoSysops. *)
Context (env : Z -> bool).

(** What a session does while it is there. *)
Inductive act (r : registry) : registry -> Prop :=
  | GuestIn id x h :
      who r id = Some x -> f_on x = false -> (length h < DDIAL_MAX_HANDLE_LEN)%nat ->
      owner (book r) h = 0 -> called r h = None ->
      act r (change r id (entered h 0 false))
  | MemberIn id x e :
      who r id = Some x -> f_on x = false ->
      In e (book r) -> holding r (e_number e) = None ->
      act r (change r id (entered (e_handle e) (e_number e) (e_cosysop e || env (e_number e))))
  | Tunes id x ch :
      who r id = Some x -> 1 <= ch <= DDIAL_MV_MAX_CHANNEL ->
      (is_guest x = true -> ch <= DDIAL_MV_GUEST_MAX_CHANNEL) ->
      act r (change r id (tuned ch))
  | Boots id x by_ y :
      who r id = Some x -> who r by_ = Some y -> by_ <> id -> f_channel x = f_channel y ->
      f_cosysop x = false -> (f_channel y = DDIAL_MV_ROOM_CHANNEL -> f_cosysop y = true) ->
      act r (change r id (tuned DDIAL_MV_ROOM_CHANNEL))
  | Watches id x ch l :
      who r id = Some x -> is_guest x = false ->
      l = fst (mv_list_remove (f_monitored x) ch) \/
      1 <= ch <= DDIAL_MV_MAX_CHANNEL /\ l = fst (mv_list_add (f_monitored x) ch) ->
      act r (change r id (watching l))
  | FloodMutes id x :
      who r id = Some x -> is_guest x = true -> act r (change r id (gagged true))
  | Mutes id x by_ y b :
      who r id = Some x -> is_guest x = true -> who r by_ = Some y -> f_cosysop y = true ->
      act r (change r id (gagged b))
  | Renames id x h :
      who r id = Some x -> f_on x = true -> (length h < DDIAL_MAX_HANDLE_LEN)%nat ->
      owner (book r) h = 0 \/ owner (book r) h = f_member x ->
      match called r h with Some y => f_id y = id | None => True end ->
      act r (with_book (change r id (named h))
               (if is_guest x then book r else change_entry (book r) (f_member x) (entry_named h)))
  | Enrols id x :
      who r id = Some x -> f_on x = true -> is_guest x = true -> f_muted x = false ->
      owner (book r) (f_handle x) = 0 -> (length (book r) < DDIAL_MEMBER_MAX)%nat ->
      let n := 1 + Z.of_nat (length (book r)) in
      act r (with_book (change r id (enrolled n (env n)))
               (book r ++ [{| e_number := n; e_handle := f_handle x; e_cosysop := false |}]))
  | Promotes by_ y n b :
      who r by_ = Some y -> f_cosysop y = true -> In n (map e_number (book r)) ->
      act r (with_book (with_faces r (map (fun x => if f_on x && (f_member x =? n) then promoted (b || env n) x else x)
                                        (faces r)))
               (change_entry (book r) n (entry_promoted b))).

(** Coming and going. *)
Inductive come_go (r : registry) : registry -> Prop :=
  | Arrive id slot :
      ~ In id (map f_id (faces r)) -> line_free r slot ->
      come_go r (with_faces r (newcomer id slot :: faces r))
  | Leave id :
      come_go r (with_faces r (filter (fun x => f_id x <> id) (faces r)))
  | ChatterIn slot :
      line_free r slot -> come_go r (with_chatters r (slot :: chatters r))
  | ChatterOut l1 slot l2 :
      chatters r = l1 ++ slot :: l2 -> come_go r (with_chatters r (l1 ++ l2)).

Definition move (r r' : registry) : Prop := act r r' \/ come_go r r'.

(** ** What every move keeps *)

(** What a session watches: channels there are, each once, sixteen at most. *)
Definition watched_ok (l : slot_list) : Prop :=
  Forall (fun ch => 1 <= ch <= DDIAL_MV_MAX_CHANNEL) l /\ NoDup l /\ (length l <= DDIAL_MV_SLOT_LIST)%nat.

(** A session and the book fit together. *)
Record proper (b : list entry) (x : face) : Prop := {
  p_range : 1 <= f_channel x <= DDIAL_MV_MAX_CHANNEL;
  (** A guest stays on the four linked channels, has no rights, watches no
      channel, and has no member's name. *)
  p_guest : is_guest x = true ->
    f_channel x <= DDIAL_MV_GUEST_MAX_CHANNEL /\ f_cosysop x = false /\ f_monitored x = [] /\
    (f_on x = true -> forall e, In e b -> ~ same_name (e_handle e) (f_handle x));
  (** A member is logged in, cannot be muted, goes by the name in the book, and
      is a CoSysop if the book or the environment says so. *)
  p_member : is_guest x = false ->
    f_on x = true /\ f_muted x = false /\
    exists e, In e b /\ e_number e = f_member x /\ e_handle e = f_handle x /\
              f_cosysop x = e_cosysop e || env (f_member x);
  p_watched : watched_ok (f_monitored x);
  p_short : (length (f_handle x) < DDIAL_MAX_HANDLE_LEN)%nat;
}.

Record book_ok (b : list entry) : Prop := {
  b_numbers : map e_number b = seqZ 1 (Z.of_nat (length b));
  b_few : (length b <= DDIAL_MEMBER_MAX)%nat;
  b_names : forall e f, In e b -> In f b -> same_name (e_handle e) (e_handle f) -> e_number e = e_number f;
  b_short : Forall (fun e => (length (e_handle e) < DDIAL_MAX_HANDLE_LEN)%nat) b;
}.

Record well (r : registry) : Prop := {
  w_ids : NoDup (map f_id (faces r));
  w_book : book_ok (book r);
  w_proper : Forall (proper (book r)) (faces r);
  (** No two go by one name. *)
  w_names : forall x y, In x (faces r) -> In y (faces r) -> f_on x = true -> f_on y = true ->
    same_name (f_handle x) (f_handle y) -> f_id x = f_id y;
  (** A line has one holder, unless it is the last. *)
  w_lines : forall x y, In x (faces r) -> In y (faces r) -> f_slot x = f_slot y -> f_slot x <> UINT16_MAX ->
    f_id x = f_id y;
  w_apart : forall x, In x (faces r) -> In (f_slot x) (chatters r) -> f_slot x = UINT16_MAX;
  w_chatters : NoDup (filter (fun s => s <> UINT16_MAX) (chatters r));
}.

End Moves.

End Policy.

Module PolicyTheory.
Import Policy.

(** ** Looking up *)

Lemma same_nocase_spec a b : same_nocase a b = true <-> same_name a b.
Proof. apply bytes_eqb_eq. Qed.

Lemma who_in r id x : who r id = Some x -> In x (faces r) /\ f_id x = id.
Proof. intros [H E]%List.find_some. bprop. done. Qed.

Lemma nodup_map_inj {A B} (f : A -> B) l x y : NoDup (map f l) -> In x l -> In y l -> f x = f y -> x = y.
Proof.
  intros Hn. induction l as [|z l IH]; [done|]. cbn [map] in Hn. apply NoDup_cons in Hn as [Hz Hn].
  intros [->|Hx] [->|Hy] E; [done| | |by apply IH].
  - exfalso. apply Hz, list_elem_of_In. rewrite E. by apply in_map.
  - exfalso. apply Hz, list_elem_of_In. rewrite <- E. by apply in_map.
Qed.

Lemma only_one r x y : NoDup (map f_id (faces r)) -> In x (faces r) -> In y (faces r) -> f_id x = f_id y -> x = y.
Proof. apply nodup_map_inj. Qed.

Lemma who_eq r id x y : NoDup (map f_id (faces r)) -> who r id = Some x -> In y (faces r) -> f_id y = id -> y = x.
Proof. intros Hn [Hx E]%who_in Hy Ey. eapply only_one; [done..|]. congruence. Qed.

Lemma called_none r h : called r h = None -> forall x, In x (faces r) -> f_on x = true -> ~ same_name (f_handle x) h.
Proof.
  intros H x Hx Hon Hs. pose proof (List.find_none _ _ H x Hx) as F. cbn in F.
  rewrite Hon in F. apply same_nocase_spec in Hs. by rewrite Hs in F.
Qed.

Lemma holding_none r n : holding r n = None -> n <> 0 -> forall x, In x (faces r) -> f_on x = true -> f_member x <> n.
Proof.
  intros H Hn x Hx Hon E. pose proof (List.find_none _ _ H x Hx) as F. cbn in F.
  apply Z.eqb_neq in Hn. by rewrite Hon, E, Z.eqb_refl, Hn in F.
Qed.

Lemma number_positive b e : book_ok b -> In e b -> 1 <= e_number e.
Proof.
  intros Hb He. apply (in_map e_number) in He. rewrite (b_numbers _ Hb) in He.
  apply list_elem_of_In, elem_of_seqZ in He. lia.
Qed.

Lemma same_number b e f : book_ok b -> In e b -> In f b -> e_number e = e_number f -> e = f.
Proof.
  intros Hb. apply nodup_map_inj. rewrite (b_numbers _ Hb). apply NoDup_seqZ.
Qed.

Lemma owner_cases b h :
  owner b h = 0 /\ (book_ok b -> forall e, In e b -> ~ same_name (e_handle e) h) \/
  exists e, In e b /\ same_name (e_handle e) h /\ owner b h = e_number e.
Proof.
  unfold owner. destruct (List.find _ b) as [e|] eqn:F.
  - right. apply List.find_some in F as [He Hs]. exists e. split; [done|]. split; [by apply same_nocase_spec|done].
  - left. split; [done|]. intros _ e He Hs. apply same_nocase_spec in Hs.
    pose proof (List.find_none _ _ F e He) as Hf. cbn in Hf. congruence.
Qed.

Lemma owner_zero b h : book_ok b -> owner b h = 0 -> forall e, In e b -> ~ same_name (e_handle e) h.
Proof.
  intros Hb H. destruct (owner_cases b h) as [[_ F]|(e & He & _ & E)]; [by apply F|].
  pose proof (number_positive _ _ Hb He). lia.
Qed.

Lemma owner_self b h n : book_ok b -> owner b h = 0 \/ owner b h = n ->
  forall e, In e b -> same_name (e_handle e) h -> e_number e = n.
Proof.
  intros Hb H e He Hs. destruct (owner_cases b h) as [[_ F]|(f & Hf & Hs' & E)]; [by destruct (F Hb e He)|].
  pose proof (number_positive _ _ Hb Hf). destruct H as [H|H]; [lia|].
  rewrite <- H, E. apply (b_names _ Hb); [done..|]. unfold same_name in *. congruence.
Qed.

(** Nobody is logged in twice. *)
Lemma once env r x y : well env r -> In x (faces r) -> In y (faces r) -> is_guest x = false ->
  f_member x = f_member y -> f_id x = f_id y.
Proof.
  intros W Hx Hy Hg E. assert (is_guest y = false) as Hg' by (unfold is_guest in *; by rewrite <- E).
  pose proof (w_proper _ _ W) as P. rewrite Forall_forall in P.
  destruct (p_member _ _ _ (P x ltac:(by apply list_elem_of_In)) Hg) as (Hx1 & _ & e & He & Hen & Heh & _).
  destruct (p_member _ _ _ (P y ltac:(by apply list_elem_of_In)) Hg') as (Hy1 & _ & f & Hf & Hfn & Hfh & _).
  apply (w_names _ _ W); [done..|]. assert (e = f) as -> by (eapply same_number; [apply W|done..|congruence]).
  unfold same_name. congruence.
Qed.

(** ** One session changes *)

Lemma well_map env r g b :
  well env r -> book_ok b ->
  (forall x, In x (faces r) -> f_id (g x) = f_id x /\ f_slot (g x) = f_slot x /\ proper env b (g x)) ->
  (forall x y, In x (faces r) -> In y (faces r) -> f_on (g x) = true -> f_on (g y) = true ->
     same_name (f_handle (g x)) (f_handle (g y)) -> f_id x = f_id y) ->
  well env (with_book (with_faces r (map g (faces r))) b).
Proof.
  intros W Hb Hg Hn. constructor; cbn [faces book chatters with_book with_faces].
  - rewrite map_map. rewrite (map_ext_in _ f_id); [apply W|]. intros x Hx. apply Hg, Hx.
  - done.
  - apply Forall_forall. intros z Hz. apply list_elem_of_In, in_map_iff in Hz as (x & <- & Hx). apply Hg, Hx.
  - intros x y (x0 & <- & Hx)%in_map_iff (y0 & <- & Hy)%in_map_iff. destruct (Hg x0 Hx) as [-> _].
    destruct (Hg y0 Hy) as [-> _]. by apply Hn.
  - intros x y (x0 & <- & Hx)%in_map_iff (y0 & <- & Hy)%in_map_iff. destruct (Hg x0 Hx) as (-> & -> & _).
    destruct (Hg y0 Hy) as (-> & -> & _). by apply (w_lines _ _ W).
  - intros x (x0 & <- & Hx)%in_map_iff. destruct (Hg x0 Hx) as (_ & -> & _). by apply (w_apart _ _ W).
  - apply W.
Qed.

Lemma well_change env r id x f b :
  well env r -> who r id = Some x -> book_ok b ->
  (forall y, f_id (f y) = f_id y /\ f_slot (f y) = f_slot y) ->
  (forall y, In y (faces r) -> f_id y <> id -> proper env b y) ->
  proper env b (f x) ->
  (f_on (f x) = true -> forall y, In y (faces r) -> f_on y = true -> same_name (f_handle y) (f_handle (f x)) -> f_id y = id) ->
  well env (with_book (change r id f) b).
Proof.
  intros W Hw Hb Hf Ho Hx Hn. apply (well_map env r); [done..| |].
  - intros y Hy. destruct (f_id y =? id) eqn:E; bprop; [|by split_and!; [..|apply Ho]].
    destruct (Hf y). split_and!; [done..|]. by rewrite (who_eq _ _ _ _ (w_ids _ _ W) Hw Hy E).
  - intros y z Hy Hz. destruct (who_in _ _ _ Hw) as [Hx1 Hx2].
    destruct (f_id y =? id) eqn:Ey, (f_id z =? id) eqn:Ez; bprop; [by intros; congruence| | |by apply (w_names _ _ W)].
    + rewrite (who_eq _ _ _ _ (w_ids _ _ W) Hw Hy Ey). intros H1 H2 H3.
      rewrite Hx2. symmetry. by apply Hn; [| | |symmetry].
    + rewrite (who_eq _ _ _ _ (w_ids _ _ W) Hw Hz Ez). intros H1 H2 H3. rewrite Hx2. by apply Hn.
Qed.

(** A change of one session that leaves its name and the book alone. *)
Lemma well_touch env r id x f :
  well env r -> who r id = Some x ->
  (forall y, f_id (f y) = f_id y /\ f_slot (f y) = f_slot y /\ f_handle (f y) = f_handle y /\ f_on (f y) = f_on y) ->
  proper env (book r) (f x) ->
  well env (change r id f).
Proof.
  intros W Hw Hf Hx. destruct (who_in _ _ _ Hw) as [Hx1 Hx2].
  replace (change r id f) with (with_book (change r id f) (book r)) by (by destruct r).
  pose proof (w_proper _ _ W) as P. rewrite Forall_forall in P.
  apply (well_change env r id x); [done..|apply W| | |done|].
  - intros y. by destruct (Hf y) as (-> & -> & _).
  - intros y Hy _. by apply P, list_elem_of_In.
  - destruct (Hf x) as (_ & _ & -> & ->). intros Hon y Hy Hyon Hs. rewrite <- Hx2. by apply (w_names _ _ W).
Qed.

Lemma proper_of env r id x : well env r -> who r id = Some x -> proper env (book r) x.
Proof.
  intros W [Hx _]%who_in. pose proof (w_proper _ _ W) as P. rewrite Forall_forall in P. by apply P, list_elem_of_In.
Qed.

Lemma proper_watch env b x l : proper env b x -> is_guest x = false ->
  watched_ok l ->
  proper env b (watching l x).
Proof. intros [] Hg Hl. constructor; cbn; try done. unfold is_guest in *. cbn. congruence. Qed.

Lemma proper_tune env b x ch : proper env b x -> 1 <= ch <= DDIAL_MV_MAX_CHANNEL ->
  (is_guest x = true -> ch <= DDIAL_MV_GUEST_MAX_CHANNEL) -> proper env b (tuned ch x).
Proof. intros [Hr Hg Hm Hwd Hsh] H1 H2. constructor; cbn; try done. intros G. destruct (Hg G) as (_ & ?). auto. Qed.

Lemma proper_gag env b x v : proper env b x -> is_guest x = true -> proper env b (gagged v x).
Proof. intros [Hr Hg Hm Hwd Hsh] G. constructor; cbn; try done. unfold is_guest in *. cbn. congruence. Qed.

(** ** Each move *)

Lemma arrive_ok env r id slot : well env r -> ~ In id (map f_id (faces r)) -> line_free r slot ->
  well env (with_faces r (newcomer id slot :: faces r)).
Proof.
  intros W Hi Hl. constructor; cbn [faces book chatters with_faces].
  - cbn. apply NoDup_cons. split; [by rewrite list_elem_of_In|apply W].
  - apply W.
  - apply Forall_cons. split; [|apply W].
    constructor; cbn; try done; [split_and!; [by apply List.Forall_nil|by apply NoDup_nil|cbn; lia]|unfold DDIAL_MAX_HANDLE_LEN; lia].
  - intros x y [<-|Hx] [<-|Hy]; cbn; [done..|]. by apply (w_names _ _ W).
  - intros x y [<-|Hx] [<-|Hy]; cbn; [done| | |by apply (w_lines _ _ W)].
    + intros -> Hs. destruct (Hl Hs) as [[] _]. by apply in_map.
    + intros <- Hs. destruct (Hl Hs) as [[] _]. by apply in_map.
  - intros x [<-|Hx]; cbn; [|by apply (w_apart _ _ W)]. intros Hs.
    destruct (decide (slot = UINT16_MAX)) as [|Hne]; [done|]. by destruct (Hl Hne) as [_ []].
  - apply W.
Qed.

Lemma NoDup_filtered {A B} (f : A -> B) (P : A -> Prop) `{forall x, Decision (P x)} l :
  NoDup (map f l) -> NoDup (map f (filter P l)).
Proof.
  intros Hn. eapply sublist_NoDup; [exact Hn|]. change (f <$> filter P l `sublist_of` f <$> l).
  apply fmap_sublist, sublist_filter.
Qed.

Lemma leave_ok env r id : well env r -> well env (with_faces r (filter (fun x => f_id x <> id) (faces r))).
Proof.
  intros W. assert (forall x, In x (filter (fun x => f_id x <> id) (faces r)) -> In x (faces r)) as Hin.
  { intros x. rewrite <- !list_elem_of_In, list_elem_of_filter. by intros []. }
  constructor; cbn [faces book chatters with_faces]; [|apply W| | | | |apply W].
  - apply NoDup_filtered, W.
  - pose proof (w_proper _ _ W) as P. rewrite Forall_forall in *. intros x Hx%list_elem_of_In%Hin.
    by apply P, list_elem_of_In.
  - intros x y Hx%Hin Hy%Hin. by apply (w_names _ _ W).
  - intros x y Hx%Hin Hy%Hin. by apply (w_lines _ _ W).
  - intros x Hx%Hin. by apply (w_apart _ _ W).
Qed.

Lemma chatter_in_ok env r slot : well env r -> line_free r slot -> well env (with_chatters r (slot :: chatters r)).
Proof.
  intros W Hl. constructor; cbn [faces book chatters with_chatters]; [apply W..| |].
  - intros x Hx [E|Hc]; [|by apply (w_apart _ _ W)].
    destruct (decide (f_slot x = UINT16_MAX)) as [|Hne]; [done|]. rewrite <- E in Hne.
    destruct (Hl Hne) as [[] _]. rewrite E. by apply in_map.
  - rewrite filter_cons. destruct (decide _) as [Hne|]; [|apply W]. apply NoDup_cons. split; [|apply W].
    intros [_ Hc]%list_elem_of_filter. destruct (Hl Hne) as [_ []]. by apply list_elem_of_In.
Qed.

Lemma chatter_out_ok env r l1 slot l2 : well env r -> chatters r = l1 ++ slot :: l2 ->
  well env (with_chatters r (l1 ++ l2)).
Proof.
  intros W E. constructor; cbn [faces book chatters with_chatters]; [apply W..| |].
  - intros x Hx Hc. apply (w_apart _ _ W); [done|]. rewrite E. rewrite in_app_iff in *. cbn. tauto.
  - pose proof (w_chatters _ _ W) as Hn. eapply sublist_NoDup; [exact Hn|]. rewrite E, !filter_app.
    apply sublist_app; [done|]. rewrite filter_cons. destruct (decide _); [by apply sublist_cons|done].
Qed.

(** A session that comes in under a name no other has. *)
Lemma enter_ok env r id x h n c :
  well env r -> who r id = Some x -> proper env (book r) (entered h n c x) ->
  (forall y, In y (faces r) -> f_on y = true -> ~ same_name (f_handle y) h) ->
  well env (change r id (entered h n c)).
Proof.
  intros W Hw Hp Hn.
  replace (change r id (entered h n c)) with (with_book (change r id (entered h n c)) (book r)) by (by destruct r).
  pose proof (w_proper _ _ W) as P. rewrite Forall_forall in P.
  apply (well_change env r id x); [done..|apply W|done| |done|].
  - intros y Hy _. by apply P, list_elem_of_In.
  - cbn. intros _ y Hy Hon Hs. by destruct (Hn y Hy Hon).
Qed.

Lemma nothing_watched : watched_ok [].
Proof. split_and!; [constructor|constructor|cbn; lia]. Qed.

Lemma guest_in_ok env r id x h :
  well env r -> who r id = Some x -> (length h < DDIAL_MAX_HANDLE_LEN)%nat ->
  owner (book r) h = 0 -> called r h = None -> well env (change r id (entered h 0 false)).
Proof.
  intros W Hw Hl Ho Hc. apply (enter_ok env r id x); [done..| |by apply called_none].
  constructor; cbn; try done; [|apply nothing_watched].
  intros _. split_and!; [done..|]. intros _ e He. eapply owner_zero; [apply W|done|done].
Qed.

Lemma member_in_ok env r id x e :
  well env r -> who r id = Some x -> In e (book r) -> holding r (e_number e) = None ->
  well env (change r id (entered (e_handle e) (e_number e) (e_cosysop e || env (e_number e)))).
Proof.
  intros W Hw He Hh. pose proof (number_positive _ _ (w_book _ _ W) He) as Hp.
  apply (enter_ok env r id x); [done..| |].
  - constructor; cbn; try done; [|by eauto 8|apply nothing_watched|].
    + unfold is_guest. cbn. intros E. bprop. lia.
    + pose proof (b_short _ (w_book _ _ W)) as Hs. rewrite Forall_forall in Hs. by apply Hs, list_elem_of_In.
  - intros y Hy Hon Hs. pose proof (w_proper _ _ W) as P. rewrite Forall_forall in P.
    specialize (P y ltac:(by apply list_elem_of_In)). destruct (is_guest y) eqn:G.
    + destruct (p_guest _ _ _ P G) as (_ & _ & _ & Hno). by apply (Hno Hon e He).
    + destruct (p_member _ _ _ P G) as (_ & _ & f & Hf & Hfn & Hfh & _).
      eapply holding_none; [exact Hh|lia|exact Hy|done|]. rewrite <- Hfn.
      apply (b_names _ (w_book _ _ W)); [done..|]. by rewrite Hfh.
Qed.

Lemma unwatch_ok l v : watched_ok l -> watched_ok (fst (mv_list_remove l v)).
Proof.
  intros (H1 & H2 & H3). destruct (find_slot l v) as [i|] eqn:E.
  - pose proof (remove_perm l v i E) as Hp. unfold watched_ok.
    rewrite Hp in H1, H2, H3. apply NoDup_cons in H2 as [_ H2]. apply Forall_cons in H1 as [_ H1].
    cbn [length] in H3. split_and!; [done..|lia].
  - unfold mv_list_remove. by rewrite E.
Qed.

Lemma watch_more l v : watched_ok l -> 1 <= v <= DDIAL_MV_MAX_CHANNEL -> watched_ok (fst (mv_list_add l v)).
Proof.
  intros (H1 & H2 & H3) Hv. unfold mv_list_add. destruct (mv_list_contains l v) eqn:E; [done|].
  destruct (DDIAL_MV_SLOT_LIST <=? length l)%nat eqn:El; bprop; [done|]. cbn. split_and!.
  - by apply Forall_app_2; [|apply Forall_singleton].
  - apply NoDup_app. split_and!; [done| |apply NoDup_singleton]. intros x Hx ->%list_elem_of_singleton.
    apply contains_spec in Hx. congruence.
  - rewrite length_app. cbn. lia.
Qed.

Lemma watch_ok env r id x ch l :
  well env r -> who r id = Some x -> is_guest x = false ->
  l = fst (mv_list_remove (f_monitored x) ch) \/
  1 <= ch <= DDIAL_MV_MAX_CHANNEL /\ l = fst (mv_list_add (f_monitored x) ch) ->
  well env (change r id (watching l)).
Proof.
  intros W Hw Hg Hl. pose proof (proper_of _ _ _ _ W Hw) as P.
  apply (well_touch env r id x); [done..|]. apply proper_watch; [done..|].
  destruct Hl as [->|[Hr ->]]; [by apply unwatch_ok, P|by apply watch_more; [apply P|]].
Qed.

(** ** A book that changes *)

Lemma change_entry_in b n f e : In e (change_entry b n f) <->
  exists e0, In e0 b /\ e = (if e_number e0 =? n then f e0 else e0).
Proof. unfold change_entry. rewrite in_map_iff. split; intros (e0 & H1 & H2); eauto. Qed.

Lemma change_entry_numbers b n f : (forall e, e_number (f e) = e_number e) ->
  map e_number (change_entry b n f) = map e_number b.
Proof. intros H. unfold change_entry. rewrite map_map. apply map_ext. intros e. by case_match. Qed.

(** An entry changes its name, or its rights. *)
Lemma change_entry_ok b n f : book_ok b -> (forall e, e_number (f e) = e_number e) ->
  (forall e, In e b -> e_number e = n -> (length (e_handle (f e)) < DDIAL_MAX_HANDLE_LEN)%nat) ->
  (forall e d, In e b -> In d b -> e_number e = n -> same_name (e_handle d) (e_handle (f e)) -> e_number d = n) ->
  book_ok (change_entry b n f).
Proof.
  intros Hb Hf Hs Hn. constructor.
  - rewrite change_entry_numbers by done. unfold change_entry. rewrite length_map. apply Hb.
  - unfold change_entry. rewrite length_map. apply Hb.
  - intros e d (e0 & He & ->)%change_entry_in (d0 & Hd & ->)%change_entry_in.
    destruct (e_number e0 =? n) eqn:E1, (e_number d0 =? n) eqn:E2; bprop; rewrite ?Hf; intros H; [congruence| | |].
    + rewrite E1. symmetry. by apply (Hn e0 d0); [..|symmetry].
    + rewrite E2. by apply (Hn d0 e0).
    + by apply (b_names _ Hb).
  - apply Forall_forall. intros e (e0 & He & ->)%list_elem_of_In%change_entry_in.
    destruct (e_number e0 =? n) eqn:E1; bprop; [by apply Hs|].
    pose proof (b_short _ Hb) as H. rewrite Forall_forall in H. by apply H, list_elem_of_In.
Qed.

(** What is left of a session that the change of an entry is not about. *)
Lemma proper_change env b n f x : book_ok b -> (forall e, e_number (f e) = e_number e) ->
  (is_guest x = true -> f_on x = true -> forall e, In e b -> e_number e = n ->
     ~ same_name (e_handle (f e)) (f_handle x)) ->
  f_member x <> n -> proper env b x -> proper env (change_entry b n f) x.
Proof.
  intros Hb Hf Hno Hm P. constructor; [apply P| | |apply P|apply P].
  - intros G. destruct (p_guest _ _ _ P G) as (H1 & H2 & H3 & H4). split_and!; [done..|].
    intros Hon e (e0 & He & ->)%change_entry_in. destruct (e_number e0 =? n) eqn:E; bprop; [by apply Hno|by apply H4].
  - intros G. destruct (p_member _ _ _ P G) as (H1 & H2 & e & He & Hen & Heh & Hec). split_and!; [done..|].
    exists e. split_and!; [|done..]. apply change_entry_in. exists e. split; [done|].
    destruct (e_number e =? n) eqn:E; bprop; [congruence|done].
Qed.

Lemma rename_ok env r id x h :
  well env r -> who r id = Some x -> f_on x = true -> (length h < DDIAL_MAX_HANDLE_LEN)%nat ->
  owner (book r) h = 0 \/ owner (book r) h = f_member x ->
  match called r h with Some y => f_id y = id | None => True end ->
  well env (with_book (change r id (named h))
              (if is_guest x then book r else change_entry (book r) (f_member x) (entry_named h))).
Proof.
  intros W Hw Hon Hl Ho Hc. pose proof (proper_of _ _ _ _ W Hw) as P. destruct (who_in _ _ _ Hw) as [Hx1 Hx2].
  pose proof (owner_self _ _ _ (w_book _ _ W) Ho) as Hself.
  assert (forall y, In y (faces r) -> f_on y = true -> same_name (f_handle y) h -> f_id y = id) as Hfree.
  { intros y Hy Hyon Hs. destruct (called r h) as [z|] eqn:E; [|by destruct (called_none _ _ E y Hy Hyon)].
    unfold called in E. apply List.find_some in E as [Hz Ez]. bprop. destruct Ez as [Hzon Hzs%same_nocase_spec].
    rewrite <- Hc. apply (w_names _ _ W); [done..|]. unfold same_name in *. congruence. }
  pose proof (w_proper _ _ W) as Pa. rewrite Forall_forall in Pa.
  destruct (is_guest x) eqn:G.
  - apply (well_change env r id x); [done..|apply W|done| | |].
    + intros y Hy _. by apply Pa, list_elem_of_In.
    + destruct (p_guest _ _ _ P G) as (H1 & H2 & H3 & _). constructor; cbn; try apply P; [|unfold is_guest in *; cbn; congruence|done].
      intros _. split_and!; [done..|]. intros _ e He Hs. pose proof (number_positive _ _ (w_book _ _ W) He).
      pose proof (Hself e He Hs). unfold is_guest in G. bprop. lia.
    + cbn. intros _. done.
  - destruct (p_member _ _ _ P G) as (H1 & H2 & e & He & Hen & Heh & Hec).
    apply (well_change env r id x); [done..| |done| | |by cbn; intros _].
    + apply change_entry_ok; [apply W|done|done|]. cbn. intros e0 d _ Hd _ Hs. by apply Hself.
    + intros y Hy Hyid. apply proper_change; [apply W|done| | |by apply Pa, list_elem_of_In].
      * cbn. intros _ Hyon _ _ _ Hs. apply Hyid, Hfree; [done..|by symmetry].
      * intros Hm. apply Hyid. rewrite <- Hx2. symmetry. by apply (once env r x y).
    + constructor; cbn; [apply P| | |apply P|done].
      * unfold is_guest in *. cbn. congruence.
      * intros _. split_and!; [done..|]. exists (entry_named h e). split_and!; [|done..].
        apply change_entry_in. exists e. split; [done|]. by rewrite Hen, Z.eqb_refl.
Qed.

Lemma sign_up_ok env r id x :
  well env r -> who r id = Some x -> f_on x = true -> is_guest x = true -> f_muted x = false ->
  owner (book r) (f_handle x) = 0 -> (length (book r) < DDIAL_MEMBER_MAX)%nat ->
  let n := 1 + Z.of_nat (length (book r)) in
  well env (with_book (change r id (enrolled n (env n)))
              (book r ++ [{| e_number := n; e_handle := f_handle x; e_cosysop := false |}])).
Proof.
  intros W Hw Hon G Hm Ho Hf n. pose proof (proper_of _ _ _ _ W Hw) as P. destruct (who_in _ _ _ Hw) as [Hx1 Hx2].
  pose proof (owner_zero _ _ (w_book _ _ W) Ho) as Hfree.
  pose proof (w_proper _ _ W) as Pa. rewrite Forall_forall in Pa.
  apply (well_change env r id x); [done..| |done| | |].
  - destruct (w_book _ _ W) as [B1 B2 B3 B4]. constructor.
    + rewrite map_app, B1, length_app. cbn [map length]. rewrite Nat2Z.inj_add, seqZ_app by lia. done.
    + rewrite length_app. cbn. lia.
    + intros e f He Hfe. apply in_app_iff in He, Hfe.
      destruct He as [He|[<-|[]]], Hfe as [Hfe|[<-|[]]]; cbn; intros Hs; [by apply B3| | |done].
      * by destruct (Hfree e He).
      * by destruct (Hfree f Hfe).
    + apply Forall_app_2; [done|]. apply Forall_singleton. cbn. apply P.
  - intros y Hy Hyid. specialize (Pa y ltac:(by apply list_elem_of_In)). constructor; try apply Pa.
    + intros Gy. destruct (p_guest _ _ _ Pa Gy) as (H1 & H2 & H3 & H4). split_and!; [done..|].
      intros Hyon e [He|[<-|[]]]%in_app_iff; [by apply H4|]. cbn. intros Hs. apply Hyid. rewrite <- Hx2.
      apply (w_names _ _ W); [done..|by symmetry].
    + intros Gy. destruct (p_member _ _ _ Pa Gy) as (H1 & H2 & e & He & Hr). split_and!; [done..|].
      exists e. split; [apply in_app_iff; by left|done].
  - constructor; cbn; try apply P.
    + unfold is_guest. cbn. intros E. bprop. lia.
    + intros _. split_and!; [done..|]. eexists. split; [apply in_app_iff; right; by left|]. done.
  - cbn. intros _ y Hy Hyon Hs. rewrite <- Hx2. by apply (w_names _ _ W).
Qed.

Lemma promote_ok env r n b :
  well env r -> In n (map e_number (book r)) ->
  well env (with_book (with_faces r (map (fun x => if f_on x && (f_member x =? n) then promoted (b || env n) x else x)
                                       (faces r)))
              (change_entry (book r) n (entry_promoted b))).
Proof.
  intros W Hn. pose proof (w_proper _ _ W) as Pa. rewrite Forall_forall in Pa.
  apply in_map_iff in Hn as (e & Hen & He). pose proof (number_positive _ _ (w_book _ _ W) He) as Hp.
  apply well_map; [done| | |].
  - apply change_entry_ok; [apply W|done| |].
    + cbn. intros d Hd _. pose proof (b_short _ (w_book _ _ W)) as Hs. rewrite Forall_forall in Hs.
      by apply Hs, list_elem_of_In.
    + cbn. intros d f Hd Hfe <-. by apply (b_names _ (w_book _ _ W)).
  - intros x Hx. specialize (Pa x ltac:(by apply list_elem_of_In)).
    split_and!; [by case_match..|]. destruct (f_member x =? n) eqn:E; bprop.
    + assert (is_guest x = false) as G by (apply Z.eqb_neq; lia).
      destruct (p_member _ _ _ Pa G) as (H1 & H2 & f & Hf & Hfn & Hfh & Hfc). rewrite H1. cbn [andb].
      constructor; cbn; try apply Pa; [unfold is_guest in *; cbn; congruence|]. intros _. split_and!; [done..|].
      exists (entry_promoted b f). split_and!; [|done..|cbn; congruence].
      apply change_entry_in. exists f. split; [done|]. by rewrite Hfn, E, Z.eqb_refl.
    + rewrite andb_false_r. apply proper_change; [apply W|done| |done|done].
      cbn. intros G Hon d Hd _. destruct (p_guest _ _ _ Pa G) as (_ & _ & _ & H4). by apply H4.
  - intros x y Hx Hy. assert (forall z, f_on (if f_on z && (f_member z =? n) then promoted (b || env n) z else z) = f_on z /\
      f_handle (if f_on z && (f_member z =? n) then promoted (b || env n) z else z) = f_handle z) as K by (intros; by case_match).
    destruct (K x) as [-> ->], (K y) as [-> ->]. by apply (w_names _ _ W).
Qed.

(** ** All moves *)

Lemma act_keeps env r r' : act env r r' -> well env r -> well env r'.
Proof.
  intros A W. destruct A; [by eapply guest_in_ok|by eapply member_in_ok| | |by eapply watch_ok| | |by eapply rename_ok|
    by apply sign_up_ok|by apply promote_ok].
  - eapply well_touch; [done..|]. apply proper_tune; [by eapply proper_of|done|done].
  - eapply well_touch; [done..|]. apply proper_tune; [by eapply proper_of|done|done].
  - eapply well_touch; [done..|]. apply proper_gag; [by eapply proper_of|done].
  - eapply well_touch; [done..|]. apply proper_gag; [by eapply proper_of|done].
Qed.

Lemma acts_keep env r r' : rtc (act env) r r' -> well env r -> well env r'.
Proof. induction 1; [done|]. intros W. eauto using act_keeps. Qed.

Lemma come_go_keeps env r r' : come_go r r' -> well env r -> well env r'.
Proof.
  intros A W. destruct A; [by apply arrive_ok|by apply leave_ok|by apply chatter_in_ok|by eapply chatter_out_ok].
Qed.

Lemma move_keeps env r r' : move env r r' -> well env r -> well env r'.
Proof. intros [A|A]; [by apply act_keeps|by apply come_go_keeps]. Qed.

Lemma acts_move env r r' : rtc (act env) r r' -> rtc (move env) r r'.
Proof. apply rtc_subrel. by left. Qed.

(** ** Nobody is logged out but by leaving *)

Lemma who_change r id i f : (forall y, f_id (f y) = f_id y) ->
  who (change r id f) i = (fun x => if f_id x =? id then f x else x) <$> who r i.
Proof.
  intros Hf. unfold who, change. cbn [faces with_faces]. induction (faces r) as [|y l IH]; [done|].
  cbn [map List.find]. destruct (f_id y =? id) eqn:E; rewrite ?Hf; destruct (f_id y =? i); try done; cbn; by rewrite E.
Qed.

Definition is_on (r : registry) (id : Z) : Prop := exists x, who r id = Some x /\ f_on x = true.

Lemma change_on r id i f : (forall y, f_id (f y) = f_id y /\ (f_on y = true -> f_on (f y) = true)) ->
  is_on r i -> is_on (change r id f) i.
Proof.
  intros Hf (x & Hx & Hon). exists (if f_id x =? id then f x else x).
  split; [rewrite who_change by (intros; apply Hf); by rewrite Hx|]. case_match; [by apply Hf|done].
Qed.

Lemma act_on env r r' i : act env r r' -> is_on r i -> is_on r' i.
Proof.
  destruct 1 as [| | | | | | | | |by_ y n b Hw Hc Hn]; try (apply change_on; by intros).
  intros (x & Hx & Hon). exists (if f_on x && (f_member x =? n) then promoted (b || env n) x else x).
  split; [|by case_match]. unfold who in *. cbn [faces with_book with_faces]. clear Hw Hn. induction (faces r) as [|z l IH]; [done|].
  cbn [map List.find] in *. destruct (f_on z && (f_member z =? n)) eqn:E; cbn [f_id promoted];
    (destruct (f_id z =? i); [injection Hx as ->; by rewrite E|by apply IH]).
Qed.

Lemma acts_on env r r' i : rtc (act env) r r' -> is_on r i -> is_on r' i.
Proof. induction 1; [done|]. eauto using act_on. Qed.

End PolicyTheory.
