(* ===== verification/DdialStation.v ===== *)
(** The dial-in station as a whole: every event makes only moves of the
    automaton of DdialPolicy, and what is said reaches those it is meant for.

    Module Refinement shows the first, over the names, numbers, lines, channels
    and rights of the sessions; module Privacy the second, over what sessions
    are sent and what leaves the station. *)

From Stdlib Require Import ZArith Lia String Ascii.
From stdpp Require Import prelude.
From S2P Require Import Prelude DdialProtocol HostGuard DdialServer DdialText DdialMembers DdialRoll DdialSession DdialChat.
From S2P Require Import DdialCommands DdialPolicy.
Import Output Slots Text Colour Members Roll Session Chat Commands Policy PolicyTheory.

(** ** The registry of a station *)

Module View.

Definition face_of (s : ddial_session) : face :=
  {| f_id := ss_id s; f_slot := ss_slot s; f_handle := ss_handle s; f_channel := ss_channel s; f_on := ss_logged_in s;
     f_member := v_member_no (ss_mv s); f_cosysop := v_cosysop (ss_mv s); f_muted := v_full_muted (ss_mv s);
     f_monitored := v_monitored (ss_mv s) |}.

Definition entry_of (m : ddial_member) : entry :=
  {| e_number := m_number m; e_handle := m_handle m; e_cosysop := m_cosysop m |}.

Definition book_of (r : store) : list entry := map entry_of (g_ddial_members (ddial_members_ensure_loaded_locked r)).

Definition view (st : station) : registry :=
  {| faces := map face_of (sessions st); chatters := map cl_slot (links st); book := book_of (roll st) |}.

(** A station nobody has dialled into, with whatever members its files hold. *)
Definition idle (st : station) : Prop := sessions st = [] /\ links st = [] /\ book_ok (book_of (roll st)).

(** The sessions an event can come from. *)
Definition enabled (st : station) (e : event) : Prop :=
  match e with
  | Dial id => ~ In id (map ss_id (sessions st))
  | Line id _ | Tick id | HangUp id => In id (map ss_id (sessions st))
  | _ => True
  end.

End View.

Module Refinement.
Import View.

(** ** What changes nothing the others can tell *)

Definition quiet (f : ddial_session -> ddial_session) : Prop := forall s, face_of (f s) = face_of s.

Lemma view_upd_in st id f g : (forall s, In s (sessions st) -> ss_id s = id -> face_of (f s) = g (face_of s)) ->
  view (upd st id f) = change (view st) id g.
Proof.
  intros H. unfold view, change, upd, with_faces. cbn. f_equal. rewrite !map_map. apply map_ext_in.
  intros s Hs. cbn. destruct (ss_id s =? id) eqn:E; bprop; [by apply H|done].
Qed.

Lemma view_upd st id f g : (forall s, ss_id s = id -> face_of (f s) = g (face_of s)) ->
  view (upd st id f) = change (view st) id g.
Proof. intros H. apply view_upd_in. intros s _. apply H. Qed.

Lemma change_id r id : change r id (fun x => x) = r.
Proof. destruct r. unfold change, with_faces. cbn. f_equal. rewrite <- map_id. apply map_ext. intros x. by case_match. Qed.

Lemma view_upd_quiet st id f : (forall s, ss_id s = id -> face_of (f s) = face_of s) -> view (upd st id f) = view st.
Proof. intros H. rewrite (view_upd st id f (fun x => x)), change_id; [done|]. exact H. Qed.

Lemma view_foreach st f : (forall s, In s (sessions st) -> face_of (f s) = face_of s) -> view (foreach st f) = view st.
Proof. intros H. unfold view, foreach. cbn. f_equal. rewrite map_map. by apply map_ext_in. Qed.

Lemma quiet_line text : quiet (fun s => mv_line s text).
Proof. done. Qed.

Lemma face_bell s e : face_of (mv_bell s e) = face_of s.
Proof. unfold mv_bell. by case_match. Qed.

Lemma face_mention c s text : face_of (mv_add_mention c s text) = face_of s.
Proof. unfold mv_add_mention. by case_match. Qed.

Lemma face_deliver c pub s : face_of (mv_deliver_cb c pub s) = face_of s.
Proof.
  unfold mv_deliver_cb. destruct (hears pub s); [|done]. destruct (mentioned pub s); [by rewrite face_bell, face_mention|].
  case_match; [by rewrite face_bell|done].
Qed.

Lemma view_say st id t : view (say st id t) = view st.
Proof. by apply view_upd_quiet. Qed.

Lemma view_emit st e : view (emit st e) = view st.
Proof. done. Qed.

Lemma view_deliver c st pub : view (host_ddial_deliver_public c st pub) = view st.
Proof. apply view_foreach. intros s _. apply face_deliver. Qed.

Lemma view_notice c st ch t : view (mv_notice_channel c st ch t) = view st.
Proof. apply view_deliver. Qed.

Lemma view_upd_mv st id f :
  (forall v, v_member_no (f v) = v_member_no v /\ v_cosysop (f v) = v_cosysop v /\ v_full_muted (f v) = v_full_muted v /\
             v_monitored (f v) = v_monitored v) -> view (upd_mv st id f) = view st.
Proof.
  intros H. apply view_upd_quiet. intros s _. unfold face_of. cbn. destruct (H (ss_mv s)) as (-> & -> & -> & ->). done.
Qed.

(** The roll seen through the book. *)
Lemma ensure_loaded r : g_ddial_members_loaded (ddial_members_ensure_loaded_locked r) = true.
Proof. unfold ddial_members_ensure_loaded_locked. destruct (g_ddial_members_loaded r) eqn:E; [done|]. by repeat case_match. Qed.

Lemma ensure_twice r : ddial_members_ensure_loaded_locked (ddial_members_ensure_loaded_locked r) = ddial_members_ensure_loaded_locked r.
Proof. apply ensure_loaded_id, ensure_loaded. Qed.

Lemma book_ensure r : book_of (ddial_members_ensure_loaded_locked r) = book_of r.
Proof. unfold book_of. by rewrite ensure_twice. Qed.

Lemma book_loaded r : g_ddial_members_loaded r = true -> book_of r = map entry_of (g_ddial_members r).
Proof. intros H. unfold book_of. by rewrite ensure_loaded_id. Qed.

Lemma view_set_roll st r : book_of r = book_of (roll st) -> view (set_roll st r) = view st.
Proof. intros H. unfold view. cbn. by rewrite H. Qed.

Lemma get_member_spec st n :
  exists r, get_member st n = (set_roll st (ddial_members_ensure_loaded_locked (roll st)), r) /\
  match r with
  | Some m => In (entry_of m) (book_of (roll st)) /\ m_number m = n
  | None => ~ In n (map e_number (book_of (roll st)))
  end.
Proof.
  unfold get_member, ddial_member_get. cbn. eexists. split; [done|].
  pose proof (find_no_spec (ddial_members_ensure_loaded_locked (roll st)) n) as H.
  destruct (ddial_member_find_no_locked _ n) as [[k m]|]; cbn.
  - destruct H as [Hk Hn]. split; [|done]. apply in_map, list_elem_of_In. by eapply list_elem_of_lookup_2.
  - unfold book_of. rewrite map_map. intros (m & Hm & Hin)%in_map_iff. rewrite Forall_forall in H.
    apply (H m); [by apply list_elem_of_In|done].
Qed.

Lemma view_get st n : view (fst (get_member st n)) = view st.
Proof. apply view_set_roll, book_ensure. Qed.

Definition looked_up (st : station) (n : Z) : option ddial_member := snd (get_member st n).

Lemma entry_kept l k m m0 : l !! k = Some m0 -> entry_of m = entry_of m0 -> map entry_of (<[k:=m]> l) = map entry_of l.
Proof.
  intros Hk He. change (entry_of <$> <[k:=m]> l = entry_of <$> l). rewrite list_fmap_insert. apply list_insert_id.
  by rewrite list_lookup_fmap, Hk, He.
Qed.

(** A record that is put back with its name and rights as they were. *)
Lemma view_put st m m0 : looked_up st (m_number m) = Some m0 -> entry_of m = entry_of m0 ->
  view (put_member st m) = view st.
Proof.
  unfold looked_up, get_member, ddial_member_get. cbn. intros H He. apply view_set_roll.
  unfold ddial_member_put. pose proof (find_no_spec (ddial_members_ensure_loaded_locked (roll st)) (m_number m)) as F.
  destruct (ddial_member_find_no_locked _ _) as [[k x]|]; [|done]. cbn in H. injection H as ->. destruct F as [Hk _].
  cbn [fst]. rewrite book_loaded by apply ensure_loaded. cbn. unfold book_of. by eapply entry_kept.
Qed.

Lemma looked_up_again st n m : looked_up st n = Some m -> m_number m = n ->
  looked_up (fst (get_member st n)) (m_number m) = Some m.
Proof.
  intros H <-. unfold looked_up, get_member, ddial_member_get in *. cbn in *. by rewrite ensure_twice.
Qed.

Lemma looked_up_number st n m : looked_up st n = Some m -> m_number m = n.
Proof.
  destruct (get_member_spec st n) as (r & E & H). unfold looked_up. rewrite E. cbn. intros ->. by destruct H.
Qed.

(** ** The tables of members and letters *)

Lemma book_owner r h : book_of (fst (ddial_member_owner_of r h)) = book_of r.
Proof. apply book_ensure. Qed.

Lemma book_authenticate derive r n p : book_of (fst (ddial_member_authenticate derive r n p)) = book_of r.
Proof. apply book_ensure. Qed.

Lemma book_visit r to offline consume : book_of (fst (ddial_mail_visit r to offline consume)) = book_of r.
Proof.
  unfold ddial_mail_visit. destruct (sift _ _) as [kept hit]. case_match; cbn [fst]; [|apply book_ensure].
  rewrite book_loaded by apply ensure_loaded. done.
Qed.

Lemma book_send r to from name text offline now :
  book_of (fst (ddial_mail_send r to from name text offline now)) = book_of r.
Proof.
  unfold ddial_mail_send. repeat (case_match; cbn [fst]); try apply book_ensure.
  all: rewrite book_loaded by apply ensure_loaded; done.
Qed.

Lemma book_delete r to id : book_of (fst (ddial_mail_delete r to id)) = book_of r.
Proof.
  unfold ddial_mail_delete. destruct (sift _ _) as [kept hit]. case_match; cbn [fst]; [|apply book_ensure].
  rewrite book_loaded by apply ensure_loaded. done.
Qed.

Lemma book_set_password derive r n p salt : book_of (fst (ddial_member_set_password derive r n p salt)) = book_of r.
Proof.
  unfold ddial_member_set_password. destruct (password_error p); [done|].
  pose proof (find_no_spec (ddial_members_ensure_loaded_locked r) n) as F.
  destruct (ddial_member_find_no_locked _ _) as [[k x]|]; [|apply book_ensure].
  destruct F as [Hk _]. destruct salt as [salt|]; [|apply book_ensure].
  destruct (derive p salt); cbn [fst]; (rewrite book_loaded by apply ensure_loaded); by eapply entry_kept.
Qed.

(** ** Reaching by moves *)

Section Moves.

Context (derive : bytes -> bytes -> option bytes).
Context (cosysops_env : option bytes).
Context (letter_color : mv_color_mode -> mv_rgb -> mv_rgb -> nat -> nat -> mv_rgb).
Context (reached : bytes -> bool).
Context (chatter_mail : bytes -> bytes -> option bytes).
Context (format_time : Z -> bytes).
Context (gif_of : bytes -> option bytes).
Context (giphy_key : bool).

Abbreviation env := (mv_env_cosysop cosysops_env).

Definition moves (a : registry) (st : station) : Prop := rtc (act env) a (view st).

Context (a : registry).

Lemma moves_view st st' : view st' = view st -> moves a st -> moves a st'.
Proof. unfold moves. by intros ->. Qed.

Lemma moves_act st st' : act env (view st) (view st') -> moves a st -> moves a st'.
Proof. intros H1 H2. eapply rtc_r; eauto. Qed.

Lemma moves_get st n : moves a st -> moves a (fst (get_member st n)).
Proof. apply moves_view, view_get. Qed.

Lemma moves_fold {A} (f : station -> A -> station) l st :
  (forall st x, moves a st -> moves a (f st x)) -> moves a st -> moves a (fold_left f l st).
Proof. intros Hf. revert st. induction l as [|x l IH]; intros st H; [done|]. cbn. by apply IH, Hf. Qed.

Lemma who_view st id : who (view st) id = face_of <$> find_session st id.
Proof.
  unfold who, find_session. cbn [faces view]. induction (sessions st) as [|s l IH]; [done|]. cbn.
  by destruct (ss_id s =? id).
Qed.

(** A session that is there, or a change without effect. *)
Lemma absent_change st id f : find_session st id = None -> view (upd st id f) = view st.
Proof.
  intros H. unfold view, upd. cbn. f_equal. f_equal. rewrite <- map_id. apply map_ext_in. intros s Hs.
  pose proof (List.find_none _ _ H s Hs) as E. cbn in E. by rewrite E.
Qed.

Lemma who_the st id s : find_session st id = Some s -> who (view st) id = Some (face_of (the st id)) /\ the st id = s.
Proof. intros H. rewrite who_view. unfold the. by rewrite H. Qed.

Lemma moves_save st id : moves a st -> moves a (mv_save_member st id).
Proof.
  intros H. unfold mv_save_member. destruct (negb _); [done|].
  set (n := v_member_no (ss_mv (the st id))). pose proof (moves_get st n H) as Hg.
  pose proof (looked_up_again st n) as Hl. pose proof (looked_up_number st n) as Hn. unfold looked_up in Hl, Hn.
  destruct (get_member st n) as [st' [m|]] eqn:E; cbn [fst snd] in *; [|done].
  specialize (Hn m eq_refl). specialize (Hl m eq_refl Hn). eapply moves_view; [|exact Hg]. by eapply view_put.
Qed.

Lemma moves_sentry c st id : moves a st -> moves a (fst (mv_sentry_check c st id)).
Proof.
  intros H. unfold mv_sentry_check. destruct (negb (sentry st) || mv_is_member (the st id)) eqn:Em; [done|]. bprop.
  destruct Em as [_ Em]. unfold mv_is_member in Em. cbv zeta.
  set (st1 := if _ <? _ then _ else st). assert (view st1 = view st) as H1 by (subst st1; case_match; [by apply view_upd_mv|done]).
  set (n := u32 _). set (st2 := upd_mv st1 id _). assert (view st2 = view st) as H2 by (subst st2; by rewrite view_upd_mv).
  case_match; cbn [fst]; [|by eapply moves_view].
  eapply moves_view; [apply view_notice|]. eapply moves_view; [apply view_say|].
  destruct (find_session st2 id) as [s|] eqn:E.
  - destruct (who_the _ _ _ E) as [Hw Es]. eapply moves_act; [|by eapply moves_view; [exact H2|]].
    unfold upd_mv. rewrite (view_upd _ _ _ (gagged true)) by done.
    eapply FloodMutes; [exact Hw|]. rewrite H2, who_view in Hw. unfold the in Em.
    destruct (find_session st id) as [s0|]; [|done]. cbn in Hw.
    assert (face_of (the st2 id) = face_of s0) as -> by congruence. unfold is_guest. cbn. by bprop.
  - eapply moves_view; [by apply absent_change|]. by eapply moves_view.
Qed.

Lemma moves_say st id t : moves a st -> moves a (say st id t).
Proof. by apply moves_view, view_say. Qed.

Lemma moves_emit st e : moves a st -> moves a (emit st e).
Proof. done. Qed.

Lemma moves_deliver c st pub : moves a st -> moves a (host_ddial_deliver_public c st pub).
Proof. by apply moves_view, view_deliver. Qed.

Lemma moves_notice c st ch t : moves a st -> moves a (mv_notice_channel c st ch t).
Proof. by apply moves_view, view_notice. Qed.

Lemma moves_upd_mv st id f :
  (forall v, v_member_no (f v) = v_member_no v /\ v_cosysop (f v) = v_cosysop v /\ v_full_muted (f v) = v_full_muted v /\
             v_monitored (f v) = v_monitored v) -> moves a st -> moves a (upd_mv st id f).
Proof. intros H. by apply moves_view, view_upd_mv. Qed.

Lemma moves_upd st id f : quiet f -> moves a st -> moves a (upd st id f).
Proof. intros H. apply moves_view, view_upd_quiet. intros s _. apply H. Qed.

Lemma moves_foreach st f : quiet f -> moves a st -> moves a (foreach st f).
Proof. intros H. apply moves_view, view_foreach. intros s _. apply H. Qed.

Lemma moves_member st id k : moves a st -> moves a k -> moves a (for_member st id k).
Proof. intros H1 H2. unfold for_member. case_match; [done|by apply moves_say]. Qed.

(** Tests and pairs, without touching what stands behind them. *)
Lemma moves_if (b : bool) x y : (b = true -> moves a x) -> (b = false -> moves a y) -> moves a (if b then x else y).
Proof. destruct b; auto. Qed.

Lemma moves_pair {A B} (p : A * B) (f : A -> B -> station) :
  (forall x y, p = (x, y) -> moves a (f x y)) -> moves a (let (x, y) := p in f x y).
Proof. destruct p; auto. Qed.

Lemma moves_option {A} (o : option A) (f : A -> station) st :
  (forall x, o = Some x -> moves a (f x)) -> (o = None -> moves a st) ->
  moves a (match o with Some x => f x | None => st end).
Proof. destruct o; auto. Qed.

(** One step through the text of an operation: a [let], a test, or an operation
    that has been walked through before. *)
Ltac walk_rule :=
  first [ simple apply moves_say | simple apply moves_emit | simple apply moves_notice | simple apply moves_deliver
        | simple apply moves_save | simple apply moves_get | simple apply moves_sentry | simple apply moves_member
        | simple apply moves_fold; [intros ? ? ?|] | simple apply moves_upd_mv; [by intros; repeat case_match|]
        | simple apply moves_upd; [by intros ?; repeat case_match|] ].

Ltac walk_step :=
  lazymatch goal with
  | |- moves _ (let x := ?e in @?b x) =>
      lazymatch type of e with
      | station =>
          let H := fresh "M" in let K := fresh "K" in
          assert (moves a e) as H;
          [|enough (forall st', moves a st' -> moves a (b st')) as K; [exact (K e H)|clear H; cbv beta; intros ? ?]]
      | _ => let y := eval cbv beta in (b e) in change (moves a y)
      end
  | |- moves _ (let (s, p) := mv_sentry_check ?c ?st ?id in _) =>
      let H := fresh "M" in assert (moves a (fst (mv_sentry_check c st id))) as H;
      [|revert H; destruct (mv_sentry_check c st id) as [? ?]; intros H; cbn [fst] in H]
  | |- moves _ (match get_member ?st ?n with (_, _) => _ end) =>
      let H := fresh "M" in assert (moves a (fst (get_member st n))) as H;
      [|destruct (get_member st n) as [? [?|]]; cbn [fst] in H]
  | |- moves _ (match ?p with (x, y) => @?f x y end) =>
      let K := fresh "K" in
      enough (forall x y, p = (x, y) -> moves a (f x y)) as K; [exact (moves_pair p f K)|cbv beta; intros ? ? ?]
  | |- moves _ (match ?o with Some x => @?f x | None => ?y end) =>
      refine (moves_option o f y _ _); [cbv beta; intros ? ?|intros ?]
  | |- moves _ (if _ then _ else _) => simple apply moves_if; intros ?
  | |- moves _ (match ?x with _ => _ end) => destruct x
  | |- moves _ _ => walk_rule
  end.

Ltac walk := repeat first [done | walk_step].


Abbreviation chat := (Commands.chat letter_color).

Lemma moves_chat c st id ch raw o : moves a st -> moves a (chat c st id ch raw o).
Proof.
  intros H. cbv beta delta [Commands.chat mv_public_chat]. walk.
Qed.
Ltac walk_rule ::=
  first [ simple apply moves_say | simple apply moves_emit | simple apply moves_notice | simple apply moves_deliver
        | simple apply moves_save | simple apply moves_get | simple apply moves_sentry | simple apply moves_member
        | simple apply moves_chat
        | simple apply moves_fold; [intros ? ? ?|] | simple apply moves_upd_mv; [by intros; repeat case_match|]
        | simple apply moves_upd; [by intros ?; repeat case_match|] ].

(** ** Commands that change no name, channel or right *)

Lemma moves_here c st id t o : moves a st -> moves a (here letter_color c st id t o).
Proof. apply moves_chat. Qed.

Lemma moves_show_topic st id ch : moves a st -> moves a (mv_show_topic st id ch).
Proof. intros H. cbv beta delta [mv_show_topic]. walk. Qed.

Lemma moves_spaces c st id r : moves a st -> moves a (mv_cmd_spaces letter_color c st id r).
Proof. intros H. cbv beta delta [mv_cmd_spaces]. walk. Qed.

Lemma moves_set_meta st ch f : moves a st -> moves a (set_meta st ch f).
Proof. intros H. cbv beta delta [set_meta]. walk. Qed.

Lemma moves_topic c st id r : moves a st -> moves a (mv_cmd_topic c st id r).
Proof. intros H. cbv beta delta [mv_cmd_topic]. walk; auto using moves_show_topic, moves_set_meta. Qed.

Lemma moves_ask c st id r : moves a st -> moves a (mv_cmd_ask c st id r).
Proof. intros H. cbv beta delta [mv_cmd_ask]. walk; auto using moves_show_topic, moves_set_meta. Qed.

Lemma moves_answer c st id r : moves a st -> moves a (mv_cmd_answer c st id r).
Proof. intros H. cbv beta delta [mv_cmd_answer]. walk. Qed.

(** A switch of a session that is none of its rights. *)
Definition harmless {A} (set : ddial_mv_session -> A -> ddial_mv_session) : Prop :=
  forall v b, v_member_no (set v b) = v_member_no v /\ v_cosysop (set v b) = v_cosysop v /\
              v_full_muted (set v b) = v_full_muted v /\ v_monitored (set v b) = v_monitored v.

Lemma moves_toggle st id get set r label : harmless set -> moves a st -> moves a (mv_toggle_msg st id get set r label).
Proof. intros Hs H. cbv beta delta [mv_toggle_msg]. walk. Qed.

Lemma moves_beep st id r : moves a st -> moves a (mv_cmd_beep st id r).
Proof. intros H. cbv beta delta [mv_cmd_beep say_all]. walk. Qed.

Lemma moves_color st id r : moves a st -> moves a (mv_cmd_color letter_color st id r).
Proof. intros H. cbv beta delta [mv_cmd_color]. walk. Qed.

Lemma moves_affix st id set cap r label : harmless set -> moves a st -> moves a (mv_cmd_affix st id set cap r label).
Proof. intros Hs H. cbv beta delta [mv_cmd_affix]. walk. Qed.

Lemma moves_quit c st id r : moves a st -> moves a (mv_cmd_quit c st id r).
Proof. intros H. cbv beta delta [mv_cmd_quit]. walk. Qed.

Lemma moves_baud st id r : moves a st -> moves a (mv_cmd_baud st id r).
Proof. intros H. cbv beta delta [mv_cmd_baud]. walk. Qed.

Lemma moves_ignore st id r : moves a st -> moves a (mv_cmd_ignore st id r).
Proof. intros H. cbv beta delta [mv_cmd_ignore]. walk. Qed.

Lemma moves_slot_toggle st id r get set on off usage :
  harmless set -> moves a st -> moves a (mv_cmd_slot_toggle st id r get set on off usage).
Proof. intros Hs H. cbv beta delta [mv_cmd_slot_toggle]. walk. Qed.

Lemma moves_kick st id r : moves a st -> moves a (mv_cmd_kick st id r).
Proof. intros H. cbv beta delta [mv_cmd_kick]. walk. Qed.

Lemma moves_sentry_cmd c st id r : moves a st -> moves a (mv_cmd_sentry c st id r).
Proof. intros H. cbv beta delta [mv_cmd_sentry]. walk. Qed.

(** ** Commands that use the roll *)

Lemma moves_set_roll st r : book_of r = book_of (roll st) -> moves a st -> moves a (set_roll st r).
Proof. intros H. apply moves_view, view_set_roll, H. Qed.

Lemma moves_put st m m0 : looked_up st (m_number m) = Some m0 -> entry_of m = entry_of m0 ->
  moves a st -> moves a (put_member st m).
Proof. intros H He. apply moves_view. by eapply view_put. Qed.

Lemma moves_with_self st id k : moves a st ->
  (forall st' m, moves a st' -> looked_up st' (m_number m) = Some m -> moves a (k st' m)) ->
  moves a (with_self st id k).
Proof.
  intros H Hk. unfold with_self. set (n := v_member_no (ss_mv (the st id))). pose proof (moves_get st n H) as Hg.
  pose proof (looked_up_again st n) as Hl. pose proof (looked_up_number st n) as Hn. unfold looked_up in Hl, Hn.
  destruct (get_member st n) as [st' [m|]] eqn:E; cbn [fst snd] in *; [|by apply moves_say].
  apply Hk; [done|]. by apply Hl, Hn.
Qed.

Ltac same_book :=
  try match goal with
  | E : _ = (?x, _) |- book_of ?x = _ => apply (f_equal fst) in E; cbn [fst] in E; rewrite <- E
  end;
  first [apply book_owner | apply book_delete | apply book_send | apply book_visit | apply book_set_password
        | apply book_authenticate].

Ltac walk_rule ::=
  first [ simple apply moves_say | simple apply moves_emit | simple apply moves_notice | simple apply moves_deliver
        | simple apply moves_save | simple apply moves_get | simple apply moves_sentry | simple apply moves_member
        | simple apply moves_chat | simple apply moves_here | simple apply moves_toggle; [done|]
        | simple apply moves_set_roll; [by same_book|]
        | simple eapply moves_put; [eassumption|reflexivity|]
        | simple apply moves_with_self; [|intros ? ? ? ?]
        | simple apply moves_foreach; [by intros ?; repeat (case_match; try done; rewrite ?face_bell)|]
        | simple apply moves_fold; [intros ? ? ?|] | simple apply moves_upd_mv; [by intros; repeat case_match|]
        | simple apply moves_upd; [by intros ?; repeat (case_match; try done; rewrite ?face_bell)|] ].

Lemma moves_profile st id r : moves a st -> moves a (mv_cmd_profile st id r).
Proof. intros H. cbv beta delta [mv_cmd_profile]. walk. Qed.

Lemma moves_box st id r : moves a st -> moves a (mv_cmd_box st id r).
Proof. intros H. cbv beta delta [mv_cmd_box]. walk. Qed.

Lemma moves_bday st id r : moves a st -> moves a (mv_cmd_bday st id r).
Proof. intros H. cbv beta delta [mv_cmd_bday]. walk. Qed.

Lemma moves_letter c st id to text : moves a st -> moves a (send_letter c st id to text).
Proof. intros H. cbv beta delta [send_letter]. walk. Qed.

Lemma moves_email c st id r : moves a st -> moves a (mv_cmd_email chatter_mail c st id r).
Proof. intros H. cbv beta delta [mv_cmd_email]. walk; by apply moves_letter. Qed.

Lemma quiet_buzzed s text : quiet (buzzed s text).
Proof. intros t. unfold buzzed. by case_match. Qed.

Lemma moves_offline c st id r buzz : moves a st -> moves a (mv_cmd_offline c st id r buzz).
Proof. intros H. cbv beta delta [mv_cmd_offline]. walk. apply moves_upd; [apply quiet_buzzed|done]. Qed.

Lemma moves_joke c st id r : moves a st -> moves a (mv_cmd_joke letter_color c st id r).
Proof. intros H. cbv beta delta [mv_cmd_joke]. walk. Qed.

Lemma moves_8ball c st id r : moves a st -> moves a (mv_cmd_8ball letter_color c st id r).
Proof. intros H. cbv beta delta [mv_cmd_8ball]. walk. Qed.

Lemma moves_taco c st id r : moves a st -> moves a (mv_cmd_taco letter_color c st id r).
Proof. intros H. cbv beta delta [mv_cmd_taco]. walk. Qed.

Lemma moves_giphy c st id r : moves a st -> moves a (mv_cmd_giphy letter_color gif_of giphy_key c st id r).
Proof. intros H. cbv beta delta [mv_cmd_giphy]. walk. Qed.

Lemma moves_code_finish c st id : moves a st -> moves a (mv_code_finish letter_color c st id).
Proof. intros H. cbv beta delta [mv_code_finish]. walk. Qed.

Lemma moves_code_append c st id r : moves a st -> moves a (mv_code_append letter_color c st id r).
Proof. intros H. cbv beta delta [mv_code_append]. walk. apply moves_code_finish. walk. Qed.

Lemma moves_flag c st id get set r label : harmless set -> moves a st ->
  moves a (with_flag letter_color c st id get set r label).
Proof. intros Hs H. cbv beta delta [with_flag]. walk. Qed.

Lemma moves_font st id r : moves a st -> moves a (mv_cmd_font st id r).
Proof. intros H. cbv beta delta [mv_cmd_font]. walk. Qed.

Lemma moves_code c st id r : moves a st -> moves a (mv_cmd_code letter_color c st id r).
Proof. intros H. cbv beta delta [mv_cmd_code]. walk. Qed.

Lemma moves_anim c st id r : moves a st -> moves a (mv_cmd_anim letter_color c st id r).
Proof. intros H. cbv beta delta [mv_cmd_anim]. walk. Qed.

Lemma moves_send_to c st id r : moves a st -> moves a (mv_cmd_send_to letter_color c st id r).
Proof. intros H. cbv beta delta [mv_cmd_send_to]. walk. Qed.

Lemma moves_beep_volume st id r : moves a st -> moves a (mv_cmd_beep_volume st id r).
Proof. intros H. cbv beta delta [mv_cmd_beep_volume]. walk. Qed.

Lemma moves_password c st id r : moves a st -> moves a (mv_cmd_password derive c st id r).
Proof. intros H. cbv beta delta [mv_cmd_password]. walk. Qed.

Lemma moves_to_chatter st slot from h body act_ : moves a st -> moves a (fst (mv_private_to_chatter reached st slot from h body act_)).
Proof. intros H. unfold mv_private_to_chatter. by repeat case_match. Qed.

Lemma moves_private_one st id slot body act_ : moves a st -> moves a (mv_private_one reached st id slot body act_).
Proof.
  intros H. unfold mv_private_one. destruct (find_logged _ _) as [t|].
  - walk.
  - destruct (host_ddial_chat_link_username st slot); [|walk].
    pose proof (moves_to_chatter st slot (ss_slot (the st id)) (ss_handle (the st id)) body act_ H) as Hc.
    destruct (mv_private_to_chatter _ _ _ _ _ _ _) as [st' sent]. cbn [fst] in Hc. walk.
Qed.

Lemma moves_private st id to body act_ : moves a st -> moves a (mv_private reached st id to body act_).
Proof. intros H. cbv beta delta [mv_private]. walk. by apply moves_private_one. Qed.

Lemma moves_private_cmd st id r : moves a st -> moves a (mv_cmd_private reached st id r).
Proof. intros H. cbv beta delta [mv_cmd_private]. walk; by apply moves_private. Qed.

Lemma moves_act_cmd c st id r : moves a st -> moves a (mv_cmd_act letter_color reached c st id r).
Proof. intros H. cbv beta delta [mv_cmd_act]. walk; by apply moves_private. Qed.

(** ** Commands that change the registry *)

(** The registry the session started from is in order, so all that follow
    are. *)
Context (orderly : well env a).

Lemma still_well st : moves a st -> well env (view st).
Proof. intros H. by eapply acts_keep. Qed.

Definition present (st : station) (id : Z) : Prop := who (view st) id = Some (face_of (the st id)).

Lemma present_view st st' id : view st' = view st -> present st id -> present st' id.
Proof.
  intros E. unfold present, the. rewrite !who_view. destruct (find_session st id) eqn:F; [|done]. intros _.
  pose proof (who_view st' id) as W. rewrite E, who_view, F in W. destruct (find_session st' id); [done|]. done.
Qed.

Lemma present_in st id : In id (map ss_id (sessions st)) -> present st id.
Proof.
  intros H. unfold present. rewrite who_view. unfold the, find_session.
  destruct (List.find _ (sessions st)) as [s|] eqn:F; [done|].
  apply in_map_iff in H as (s & <- & Hs). pose proof (List.find_none _ _ F s Hs) as E. cbn in E. bprop. done.
Qed.

Lemma member_guest s : mv_is_member s = negb (is_guest (face_of s)).
Proof. done. Qed.

Lemma found st f t : moves a st -> find_logged st f = Some t ->
  who (view st) (ss_id t) = Some (face_of t) /\ ss_logged_in t = true /\ f t = true.
Proof.
  intros H [Hin Ht]%List.find_some. bprop. destruct Ht as [Hon Hf]. split_and!; [|done..].
  assert (present st (ss_id t)) as P by (by apply present_in, in_map). unfold present in P. rewrite P. f_equal.
  symmetry. eapply who_eq; [apply still_well, H|exact P|by apply (in_map face_of)|done].
Qed.

Lemma moves_change st id f g : (forall s, ss_id s = id -> face_of (f s) = g (face_of s)) -> moves a st ->
  act env (view st) (change (view st) id g) -> moves a (upd st id f).
Proof. intros Hf H Ha. eapply moves_act; [|exact H]. by rewrite (view_upd _ _ _ g). Qed.

Lemma moves_tune c st id ch : present st id -> moves a st -> moves a (mv_tune c st id ch).
Proof.
  intros Hp H. cbv beta zeta delta [mv_tune]. rewrite member_guest, negb_involutive.
  destruct ((ch <? 1) || _) eqn:E1; [by apply moves_say|]. destruct (is_guest _ && _) eqn:E2; [by apply moves_say|].
  destruct (mv_is_booted _ _ _ _); [by apply moves_say|]. destruct (_ =? ch); [by apply moves_say|].
  apply moves_show_topic, moves_say, moves_notice. apply (moves_change _ _ _ (tuned ch)); [done|by apply moves_notice|].
  rewrite view_notice. eapply Tunes; [exact Hp|bprop; lia|].
  intros G. rewrite G in E2. bprop. cbn in E2. bprop. lia.
Qed.

Lemma moves_monitor c st id r : present st id -> moves a st -> moves a (mv_cmd_monitor c st id r).
Proof.
  intros Hp H. cbv beta zeta delta [mv_cmd_monitor for_member]. rewrite member_guest.
  destruct (is_guest _) eqn:G; cbn [negb]; [by apply moves_say|].
  destruct (mv_parse_uint _) as [[ch p]|]; [|by apply moves_say].
  destruct ((ch <? 1) || _) eqn:E1; [by apply moves_say|]. bprop. destruct E1 as [E1 E2].
  destruct (peek r =? c_plus).
  - destruct (mv_is_booted _ _ _ _); [by apply moves_say|].
    destruct (mv_list_add _ ch) as [l added] eqn:El. destruct added; [|by apply moves_say]. apply moves_say.
    apply (moves_change _ _ _ (watching l)); [done..|].
    eapply (Watches _ _ _ _ ch); [exact Hp|done|]. right. split; [lia|]. cbn. by rewrite El.
  - destruct (mv_list_remove _ ch) as [l removed] eqn:El. apply moves_say.
    apply (moves_change _ _ _ (watching l)); [|done|].
    { intros s _. cbv zeta. unfold face_of, watching. cbn. by case_match. }
    eapply (Watches _ _ _ _ ch); [exact Hp|done|]. left. cbn. by rewrite El.
Qed.

Lemma moves_tune_cmd c st id r : present st id -> moves a st -> moves a (mv_cmd_tune c st id r).
Proof.
  intros Hp H. unfold mv_cmd_tune. repeat case_match; [done|by apply moves_monitor|by apply moves_tune|done].
Qed.

Lemma moves_full_mute st id r : present st id -> moves a st -> moves a (mv_cmd_full_mute st id r).
Proof.
  intros Hp H. cbv beta zeta delta [mv_cmd_full_mute]. destruct (v_cosysop _) eqn:Ec; cbn [negb]; [|by apply moves_say].
  destruct (line_number r) as [slot|]; [|by apply moves_say].
  destruct (find_logged st (at_slot slot)) as [t|] eqn:F; [|by apply moves_say]. rewrite member_guest.
  destruct (is_guest _) eqn:G; cbn [negb]; [|by apply moves_say]. apply moves_say, moves_say.
  destruct (found _ _ _ H F) as (Hw & _). 
  apply (moves_change _ _ _ (gagged (negb (v_full_muted (ss_mv t))))); [done..|].
  eapply (Mutes _ _ _ _ id); [exact Hw|done|exact Hp|done].
Qed.

Lemma moves_boot c st id r : present st id -> moves a st -> moves a (mv_cmd_boot c st id r).
Proof.
  intros Hp H. cbv beta zeta delta [mv_cmd_boot]. destruct (line_number r) as [slot|]; [|by apply moves_say].
  destruct (_ && _) eqn:E1; [by apply moves_say|].
  destruct (mv_is_moderator _ _ _); cbn [negb]; [|by apply moves_say].
  destruct (find_logged st (at_slot slot)) as [t|] eqn:F; [|by apply moves_say].
  destruct (_ || _) eqn:E2; [by apply moves_say|]. destruct (v_cosysop (ss_mv t)) eqn:Et; [by apply moves_say|].
  destruct (found _ _ _ H F) as (Hw & _). apply moves_notice.
  assert (moves a (upd st (ss_id t) (fun t => mv_line (set_ss_mv (set_ss_channel t DDIAL_MV_ROOM_CHANNEL)
            (set_v_channel_joined_at (ss_mv t) (now c)))
            (lit "* You were booted from channel " ++ dec (ss_channel (the st id)) ++ lit " by " ++
             ss_handle (the st id) ++ lit ".")))) as Hm; [|exact Hm].
  apply (moves_change _ _ _ (tuned DDIAL_MV_ROOM_CHANNEL)); [done..|]. bprop.
  destruct E2 as [E2 E3]. eapply (Boots _ _ _ _ id); [exact Hw|exact Hp|congruence|done|done|].
  cbn. intros Hr. destruct (v_cosysop (ss_mv (the st id))); [done|]. rewrite Hr in E1. by destruct E1.
Qed.

(** ** The book of the roll *)

Lemma find_go_find {A} (f : A -> bool) l i : snd <$> find_go f l i = List.find f l.
Proof. revert i; induction l as [|x l IH]; intros i; [done|]. cbn. destruct (f x); [done|apply IH]. Qed.

Lemma find_map {A B} (g : A -> B) f l : List.find f (map g l) = g <$> List.find (fun x => f (g x)) l.
Proof. induction l as [|x l IH]; [done|]. cbn. by destruct (f (g x)). Qed.

Lemma owner_book r h : ddial_member_owner_of r h = (ddial_members_ensure_loaded_locked r, owner (book_of r) h).
Proof.
  unfold ddial_member_owner_of, owner, book_of, ddial_member_find_handle_locked. f_equal. rewrite find_map. cbn.
  rewrite <- (find_go_find _ _ 0). destruct (find_go _ _ 0) as [[k m]|]; done.
Qed.

Lemma called_view st h : called (view st) h = face_of <$> mv_find_handle st h.
Proof. unfold called, mv_find_handle, find_logged. apply find_map. Qed.

Lemma holding_view st n : holding (view st) n = face_of <$> mv_find_member st n.
Proof. unfold holding, mv_find_member, find_logged. apply find_map. Qed.

Lemma change_entry_insert b k e x : NoDup (map e_number b) -> b !! k = Some e -> e_number x = e_number e ->
  <[k:=x]> b = change_entry b (e_number e) (fun _ => x).
Proof.
  intros Hn. revert k. induction b as [|y l IH]; intros k Hk Hx; [done|]. cbn [map] in Hn.
  apply NoDup_cons in Hn as [Hy Hn]. unfold change_entry in *. cbn [map]. destruct k as [|k]; cbn in Hk.
  - injection Hk as ->. rewrite Z.eqb_refl. cbn. f_equal. rewrite <- map_id at 1. apply map_ext_in. intros z Hz.
    destruct (e_number z =? e_number e) eqn:E; bprop; [|done]. exfalso. apply Hy. rewrite <- E.
    by apply list_elem_of_In, in_map.
  - change (<[S k:=x]> (y :: l)) with (y :: <[k:=x]> l). rewrite (IH Hn k Hk Hx). destruct (e_number y =? e_number e) eqn:E; bprop; [|done]. exfalso. apply Hy.
    rewrite E. apply list_elem_of_In, in_map, list_elem_of_In. by eapply list_elem_of_lookup_2.
Qed.

(** Putting a record back changes its entry. *)
Lemma book_put r m : NoDup (map e_number (book_of r)) ->
  book_of (fst (ddial_member_put r m)) = change_entry (book_of r) (m_number m) (fun _ => entry_of m).
Proof.
  intros Hn. unfold ddial_member_put. pose proof (find_no_spec (ddial_members_ensure_loaded_locked r) (m_number m)) as F.
  destruct (ddial_member_find_no_locked _ _) as [[k x]|]; cbn [fst].
  - destruct F as [Hk Hx]. rewrite book_loaded by apply ensure_loaded. cbn [g_ddial_members ddial_members_save_locked with_files with_members].
    change (map entry_of (<[k:=m]> (g_ddial_members (ddial_members_ensure_loaded_locked r))))
      with (entry_of <$> <[k:=m]> (g_ddial_members (ddial_members_ensure_loaded_locked r))). rewrite list_fmap_insert.
    rewrite <- Hx. apply (change_entry_insert (book_of r) k (entry_of x)); [done| |by cbn; congruence].
    unfold book_of. change (map entry_of ?l) with (entry_of <$> l). by rewrite list_lookup_fmap, Hk.
  - rewrite book_ensure. unfold change_entry. rewrite <- map_id at 1. apply map_ext_in. intros e He.
    unfold book_of in He. apply in_map_iff in He as (x & <- & Hx). rewrite Forall_forall in F. cbn.
    destruct (m_number x =? m_number m) eqn:E; bprop; [|done]. exfalso. by apply (F x); [apply list_elem_of_In|].
Qed.

Lemma numbers_nodup b : book_ok b -> NoDup (map e_number b).
Proof. intros H. rewrite (b_numbers _ H). apply NoDup_seqZ. Qed.

Lemma change_entry_ext b n f g : (forall e, In e b -> e_number e = n -> f e = g e) -> change_entry b n f = change_entry b n g.
Proof. intros H. apply map_ext_in. intros e He. destruct (e_number e =? n) eqn:E; bprop; [by apply H|done]. Qed.

Lemma view_of_put st m : NoDup (map e_number (book (view st))) ->
  view (put_member st m) = with_book (view st) (change_entry (book (view st)) (m_number m) (fun _ => entry_of m)).
Proof. intros W. unfold view, with_book. cbn. by rewrite book_put. Qed.

Lemma short_text h : (length h < DDIAL_MAX_HANDLE_LEN)%nat -> snprintf_text DDIAL_MAX_HANDLE_LEN h = h.
Proof. intros H. unfold snprintf_text. apply take_ge. unfold DDIAL_MAX_HANDLE_LEN in *. lia. Qed.

(** Becoming a member. *)
Lemma signup_book r h p salt now : book_ok (book_of r) -> (length h < DDIAL_MAX_HANDLE_LEN)%nat ->
  match ddial_member_signup derive r h p salt now with
  | (r', inr _) => book_of r' = book_of r
  | (r', inl n) =>
      n = 1 + Z.of_nat (length (book_of r)) /\ owner (book_of r) h = 0 /\
      (length (book_of r) < DDIAL_MEMBER_MAX)%nat /\
      book_of r' = book_of r ++ [{| e_number := n; e_handle := h; e_cosysop := false |}]
  end.
Proof.
  intros Hb Hh. unfold ddial_member_signup. destruct (password_error p); [done|].
  pose proof (owner_book r h) as Ho. unfold ddial_member_owner_of in Ho. injection Ho as Ho.
  destruct (ddial_member_find_handle_locked _ h) as [[k m]|]; [apply book_ensure|].
  destruct (DDIAL_MEMBER_MAX <=? _)%nat eqn:Ef; [apply book_ensure|]. destruct salt as [salt|]; [|apply book_ensure].
  destruct (derive p salt) as [hash|]; [|apply book_ensure]. bprop.
  assert (length (book_of r) = length (g_ddial_members (ddial_members_ensure_loaded_locked r))) as El
    by (unfold book_of; apply length_map).
  assert (next_number (g_ddial_members (ddial_members_ensure_loaded_locked r)) = 1 + Z.of_nat (length (book_of r))) as En.
  { rewrite El. apply next_number_seq; [|lia|unfold DDIAL_MEMBER_MAX in *; lia].
    rewrite <- El, <- (b_numbers _ Hb). unfold book_of. by rewrite map_map. }
  split_and!; [done|done|by rewrite El|]. rewrite book_loaded by apply ensure_loaded.
  cbn [g_ddial_members ddial_members_save_locked with_files with_members]. rewrite map_app. f_equal. cbn [map]. f_equal.
  unfold entry_of, new_member. cbn [m_number m_handle m_cosysop]. by rewrite short_text.
Qed.

Lemma unique_face st id s : well env (view st) -> present st id -> In s (sessions st) -> ss_id s = id ->
  face_of s = face_of (the st id).
Proof. intros W Hp Hs E. eapply who_eq; [apply W|exact Hp|by apply (in_map face_of)|done]. Qed.

(** What a session takes from its record. *)
Lemma face_apply s m : face_of (mv_apply_member cosysops_env letter_color s m) =
  named (snprintf_text DDIAL_MAX_HANDLE_LEN (m_handle m))
    (enrolled (m_number m) (m_cosysop m || env (m_number m)) (face_of s)).
Proof. done. Qed.

Lemma moves_cosysop st id r : present st id -> v_cosysop (ss_mv (the st id)) = true -> moves a st ->
  moves a (cosysop_change cosysops_env st id r).
Proof.
  intros Hp Hc H. unfold cosysop_change. cbv zeta. destruct (mv_parse_uint _) as [[no p]|]; [|by apply moves_say].
  destruct (get_member_spec st no) as (o & -> & Ho). pose proof (still_well _ H) as W.
  set (st1 := set_roll st _). assert (view st1 = view st) as E1 by apply view_set_roll, book_ensure.
  assert (moves a st1) as H1 by (by eapply moves_view).
  destruct o as [m|]; [|by apply moves_say]. destruct Ho as [Hin Hn]. apply moves_say.
  set (on := peek r =? c_plus). eapply moves_act; [|exact H1].
  assert (view (foreach (put_member st1 (set_cosysop m on))
     (fun s => if ss_logged_in s && (v_member_no (ss_mv s) =? no)
               then set_ss_mv s (set_v_cosysop (ss_mv s) (on || mv_env_cosysop cosysops_env no)) else s)) =
     with_book (with_faces (view st1) (map (fun x => if f_on x && (f_member x =? no)
                  then promoted (on || mv_env_cosysop cosysops_env no) x else x) (faces (view st1))))
       (change_entry (book (view st1)) no (entry_promoted on))) as ->.
  { transitivity (with_book (with_faces (view st1) (map (fun x => if f_on x && (f_member x =? no)
                  then promoted (on || mv_env_cosysop cosysops_env no) x else x) (faces (view st1))))
                 (book (view (put_member st1 (set_cosysop m on))))).
    - unfold view, with_book, with_faces, foreach. cbn. f_equal. rewrite !map_map. apply map_ext. intros s.
      cbn. by case_match.
    - f_equal. rewrite view_of_put by (rewrite E1; apply numbers_nodup, W). cbn. rewrite Hn. apply change_entry_ext. intros e He Hen.
      change (In e (book (view st1))) in He. rewrite E1 in He.
      assert (e = entry_of m) as -> by (eapply same_number; [apply W|done|done|by rewrite Hen, <- Hn]). done. }
  rewrite E1. eapply (Promotes _ _ id); [exact Hp|done|]. apply in_map_iff. by exists (entry_of m).
Qed.

Lemma moves_signup c st id r : present st id -> ss_logged_in (the st id) = true -> v_full_muted (ss_mv (the st id)) = false ->
  moves a st -> moves a (mv_cmd_signup derive cosysops_env letter_color c st id r).
Proof.
  intros Hp Hon Hm H. unfold mv_cmd_signup. cbv zeta. rewrite member_guest.
  destruct (is_guest _) eqn:G; cbn [negb]; [|by apply moves_say].
  destruct (length _ =? 0)%nat; [by apply moves_say|].
  pose proof (still_well _ H) as W. pose proof (proper_of _ _ _ _ W Hp) as P.
  pose proof (signup_book (roll st) (ss_handle (the st id)) (mv_skip_ws r) (fresh_salt c) (now c) (w_book _ _ W) (p_short _ _ _ P)) as S.
  destruct (ddial_member_signup _ _ _ _ _ _) as [r' [no|err]]; [|by apply moves_say, moves_set_roll].
  destruct S as (Hno & Ho & Hf & Hb). apply moves_notice, moves_say, moves_say.
  set (st1 := set_roll st r').
  assert (view st1 = with_book (view st) (book (view st) ++ [{| e_number := no; e_handle := ss_handle (the st id); e_cosysop := false |}])) as E1
    by (unfold view, with_book; cbn; by rewrite Hb).
  pose proof (Enrols env (view st) id (face_of (the st id)) Hp Hon G Hm Ho Hf) as A. cbv zeta in A.
  change (length (book (view st))) with (length (book_of (roll st))) in A. rewrite <- Hno in A.
  pose proof (act_keeps _ _ _ A W) as W'. cbn [book with_book] in W'.
  destruct (get_member_spec st1 no) as (o & Eg & Hg). pose proof (looked_up_again st1 no) as Hl. unfold looked_up in Hl at 1.
  rewrite Eg in *. cbn [fst snd] in Hl. set (st2 := set_roll st1 _) in *.
  assert (view st2 = view st1) as E2 by apply view_set_roll, book_ensure.
  change (book_of (roll st1)) with (book (view st1)) in Hg; rewrite E1 in Hg. cbn [book with_book] in Hg.
  destruct o as [m|].
  2:{ destruct Hg. rewrite map_app. apply in_app_iff. right. by left. }
  destruct Hg as [Hin Hn]. specialize (Hl m eq_refl Hn).
  assert (entry_of m = {| e_number := no; e_handle := ss_handle (the st id); e_cosysop := false |}) as Em.
  { eapply same_number; [apply (w_book _ _ W')|exact Hin|apply in_app_iff; right; by left|done]. }
  injection Em as _ Eh Ec.
  eapply moves_act; [|exact H]. match goal with |- act _ _ (view ?s) => replace (view s) with
    (with_book (change (view st) id (enrolled no (env no)))
       (book (view st) ++ [{| e_number := no; e_handle := ss_handle (the st id); e_cosysop := false |}])); [exact A|] end.
  symmetry. pose proof (view_put st2 (set_logins m 1) m Hl eq_refl) as Ep. rewrite E2, E1 in Ep.
  erewrite view_upd_in; [rewrite Ep; reflexivity|]. intros s Hs Hi.
  rewrite face_apply, (unique_face _ _ _ W Hp Hs Hi). cbn [m_handle m_number m_cosysop set_logins].
  by rewrite Eh, Ec, Hn, short_text by apply P.
Qed.

Lemma the_who st id x : who (view st) id = Some x -> face_of (the st id) = x /\ present st id.
Proof.
  intros Hw. unfold present. rewrite Hw. rewrite who_view in Hw. unfold the.
  destruct (find_session st id); [|done]. cbn in Hw. injection Hw as ->. done.
Qed.

Lemma who_changed r id x f : who r id = Some x -> (forall y, f_id (f y) = f_id y) -> who (change r id f) id = Some (f x).
Proof.
  intros Hw Hf. unfold who, change in *. cbn [faces with_faces]. induction (faces r) as [|y l IH]; [done|].
  cbn [map List.find] in *. destruct (f_id y =? id) eqn:E; rewrite ?Hf, E; [|by apply IH]. by injection Hw as ->.
Qed.

(** A name that is free, or one's own. *)
Lemma moves_take_handle c st id r clean display colored :
  present st id -> ss_logged_in (the st id) = true -> (length clean < DDIAL_MAX_HANDLE_LEN)%nat ->
  owner (book (view st)) clean = 0 \/ owner (book (view st)) clean = v_member_no (ss_mv (the st id)) ->
  match mv_find_handle st clean with Some t => ss_id t = id | None => True end ->
  moves a st -> moves a (take_handle c st id r clean display colored).
Proof.
  intros Hp Hon Hl Ho Hf H. unfold take_handle. cbv zeta. pose proof (still_well _ H) as W.
  match goal with |- context [upd (emit st ?e) id ?f] => set (st1 := upd (emit st e) id f) end.
  assert (view st1 = change (view st) id (named clean)) as E1.
  { subst st1. apply (view_upd (emit st _)). intros s _. unfold face_of, named. cbn [ss_id ss_slot ss_handle ss_channel
      ss_logged_in ss_mv set_ss_mv set_ss_handle]. by rewrite short_text. }
  assert (Hf' : match called (view st) clean with Some y => f_id y = id | None => True end)
    by (rewrite called_view; destruct (mv_find_handle st clean); done).
  pose proof (Renames env (view st) id _ clean Hp Hon Hl Ho Hf') as A. pose proof (act_keeps _ _ _ A W) as W'.
  destruct (the_who st1 id (named clean (face_of (the st id)))) as [Et _]; [by rewrite E1; apply who_changed|].
  set (st2 := emit st1 _). change (the st2 id) with (the st1 id). rewrite (member_guest (the st1 id)), Et.
  change (is_guest (named clean (face_of (the st id)))) with (is_guest (face_of (the st id))) in *.
  match goal with |- moves a (if _ then say ?s _ _ else _) => assert (moves a s) as H3 end.
  { destruct (is_guest (face_of (the st id))) eqn:G; cbn [negb].
    - eapply moves_act; [|exact H]. change (view st2) with (view st1). rewrite E1. exact A.
    - pose proof (proper_of _ _ _ _ W Hp) as P. destruct (p_member _ _ _ P G) as (_ & _ & e & He & Hen & _).
      change (v_member_no (ss_mv (the st1 id))) with (f_member (face_of (the st1 id))). rewrite Et.
      destruct (get_member_spec st2 (f_member (named clean (face_of (the st id))))) as (o & -> & Hg).
      change (book_of (roll st2)) with (book (view st1)) in Hg. rewrite E1 in Hg. cbn [f_member named] in *.
      destruct o as [m|]; [|destruct Hg; rewrite <- Hen; by apply in_map]. destruct Hg as [Hin Hn].
      eapply moves_act; [|exact H]. set (st3 := set_roll st2 _).
      assert (view st3 = change (view st) id (named clean)) as E3
        by (rewrite <- E1; apply (view_set_roll st2), book_ensure).
      rewrite view_of_put by (rewrite E3; apply numbers_nodup, W). rewrite E3.
      cbn [m_number set_handle_color set_handle]. rewrite Hn. cbn [book with_faces change].
      erewrite change_entry_ext; [exact A|]. intros d Hd Hdn.
      assert (d = entry_of m) as -> by (eapply same_number; [apply W|done|done|by rewrite Hdn, <- Hn]).
      unfold entry_of, entry_named. cbn [m_number m_handle m_cosysop set_handle_color set_handle e_number e_handle e_cosysop].
      by rewrite short_text. }
  destruct (bytes_eqb _ _); [by apply moves_say|by apply moves_notice].
Qed.



Lemma sanitized_short src : (length (Wire.ddial_sanitize_handle src DDIAL_MAX_HANDLE_LEN) < DDIAL_MAX_HANDLE_LEN)%nat.
Proof.
  unfold Wire.ddial_sanitize_handle. eapply Nat.le_lt_trans; [apply Wire.sanitize_go_length|].
  unfold DDIAL_MAX_HANDLE_LEN, Wire.DDIAL_MAX_HANDLE_WIRE_LEN. lia.
Qed.

Lemma moves_change_handle c st id r : present st id -> ss_logged_in (the st id) = true -> moves a st ->
  moves a (change_handle letter_color c st id r).
Proof.
  intros Hp Hon H. unfold change_handle. cbv zeta.
  assert (forall display plain,
    let clean := Wire.ddial_sanitize_handle plain DDIAL_MAX_HANDLE_LEN in
    moves a (if (length clean =? 0)%nat then say st id (lit "* Invalid handle.")
      else let (r0, owner) := ddial_member_owner_of (roll st) clean in
        if negb (owner =? 0) && negb (owner =? v_member_no (ss_mv (the (set_roll st r0) id)))
        then say (set_roll st r0) id (lit "* '" ++ clean ++ lit "' belongs to member #" ++ dec owner ++ lit ".")
        else match mv_find_handle (set_roll st r0) clean with
             | Some other =>
                 if ss_id other =? id then take_handle c (set_roll st r0) id r clean display (peek r =? c_hash)
                 else say (set_roll st r0) id (lit "* '" ++ clean ++ lit "' is in use.")
             | None => take_handle c (set_roll st r0) id r clean display (peek r =? c_hash)
             end)) as Hgo.
  { intros display plain clean. destruct (length clean =? 0)%nat; [by apply moves_say|]. rewrite owner_book.
    set (st1 := set_roll st _). assert (view st1 = view st) as E1 by apply view_set_roll, book_ensure.
    assert (moves a st1) as H1 by (by eapply moves_view).
    destruct (negb _ && _) eqn:Eo; [by apply moves_say|].
    assert (Ho : owner (book (view st1)) clean = 0 \/ owner (book (view st1)) clean = v_member_no (ss_mv (the st1 id))).
    { rewrite E1. change (book (view st)) with (book_of (roll st)). bprop. lia. }
    assert (present st1 id) as P1 by (by eapply present_view).
    pose proof (sanitized_short plain) as Hl. fold clean in Hl.
    destruct (mv_find_handle st1 clean) as [other|] eqn:Ef.
    - destruct (ss_id other =? id) eqn:Ei; [|by apply moves_say]. bprop.
      apply moves_take_handle; [done..| |done]. by rewrite Ef.
    - apply moves_take_handle; [done..| |done]. by rewrite Ef. }
  destruct (peek r =? c_hash) eqn:Eh; [|apply Hgo]. apply moves_member; [done|].
  destruct (mv_render_handle _ _ _ _) as [display plain]. apply Hgo.
Qed.

Lemma moves_some st st' : Some st = Some st' -> moves a st -> moves a st'.
Proof. by intros E; injection E as ->. Qed.

Lemma moves_handle fuel c st id r st' : present st id -> ss_logged_in (the st id) = true -> moves a st ->
  mv_cmd_handle letter_color fuel c st id r = Some st' -> moves a st'.
Proof.
  revert st r. induction fuel as [|fuel IH]; intros st r Hp Hon H; [done|]. cbn [mv_cmd_handle].
  destruct (peek _ =? c_question); [intros E; apply (moves_some _ _ E); walk|].
  destruct (_ && _ && _); [|destruct (length _ =? 0)%nat; intros E; apply (moves_some _ _ E); [done|by apply moves_change_handle]].
  destruct (negb _); [intros E; apply (moves_some _ _ E); walk|].
  destruct (get_member_spec st (v_member_no (ss_mv (the st id)))) as (o & Eg & Hg).
  pose proof (looked_up_again st (v_member_no (ss_mv (the st id)))) as Hl. unfold looked_up in Hl at 1. rewrite Eg in *.
  cbn [fst snd] in Hl. set (st1 := set_roll st _) in *.
  assert (view st1 = view st) as E1 by apply view_set_roll, book_ensure.
  assert (moves a st1) as H1 by (by eapply moves_view).
  destruct o as [m|]; [|intros E; apply (moves_some _ _ E); walk]. destruct Hg as [_ Hn]. specialize (Hl m eq_refl Hn).
  destruct (nthb _ 1 =? c_eq); [intros E; apply (moves_some _ _ E); apply moves_say; by eapply moves_put|].
  destruct (length _ =? 0)%nat; [intros E; apply (moves_some _ _ E); walk|]. apply IH; [by eapply present_view|done|done].
Qed.

(** ** Logging in and out *)

Definition logged (c : clock) (s : ddial_session) : ddial_session :=
  set_ss_mv (set_ss_channel (set_ss_logged_in s true) DDIAL_DEFAULT_CHANNEL) (set_v_channel_joined_at (ss_mv s) (now c)).

Lemma moves_record c st s on : moves a st -> moves a (mv_record_visit c st s on).
Proof. intros H. unfold mv_record_visit. by case_match. Qed.

Lemma moves_finish c st id member :
  moves a (match member with
           | Some m => greet_member cosysops_env letter_color format_time c (upd st id (logged c)) id m
           | None => greet_guest (upd st id (logged c)) id
           end) ->
  moves a (mv_finish_login cosysops_env letter_color format_time c st id member).
Proof.
  intros H. cbv beta delta [mv_finish_login]. change (fun s => set_ss_mv _ _) with (logged c).
  lazymatch goal with |- moves _ (let x := ?e in @?b x) => let y := eval cbv beta in (b e) in change (moves a y) end.
  walk; by apply moves_record.
Qed.

Lemma upd_upd st id f g : (forall s, ss_id (f s) = ss_id s) -> upd (upd st id f) id g = upd st id (fun s => g (f s)).
Proof.
  intros Hf. unfold upd. destruct st. cbn. unfold set_sessions. cbn. f_equal. rewrite map_map. apply map_ext. intros s.
  destruct (ss_id s =? id) eqn:E; rewrite ?Hf, E; done.
Qed.

Lemma moves_guest_in c st id h : present st id -> ss_logged_in (the st id) = false ->
  (length h < DDIAL_MAX_HANDLE_LEN)%nat -> owner (book (view st)) h = 0 -> mv_find_handle st h = None -> moves a st ->
  moves a (mv_finish_login cosysops_env letter_color format_time c
             (upd st id (fun s => mv_defaults c (set_ss_handle s (snprintf_text DDIAL_MAX_HANDLE_LEN h)))) id None).
Proof.
  intros Hp Hon Hl Ho Hf H. apply moves_finish. cbv beta zeta delta [greet_guest]. apply moves_say, moves_say.
  rewrite upd_upd by done. apply (moves_change _ _ _ (entered h 0 false)); [|done|].
  - intros s _. unfold logged, entered, mv_defaults, face_of. cbn [ss_id ss_slot ss_handle ss_channel ss_logged_in ss_mv
      set_ss_mv set_ss_channel set_ss_logged_in set_ss_out set_ss_handle]. by rewrite short_text.
  - eapply GuestIn; [exact Hp|done..|]. by rewrite called_view, Hf.
Qed.

(** The record of a member that logs in, and the session with what it holds. *)
Definition counted (c : clock) (m : ddial_member) : ddial_member :=
  set_last_seen (set_logins m (u32 (m_logins m + 1))) (now c).

Definition admitted (c : clock) (st : station) (id : Z) (m : ddial_member) : station :=
  upd (put_member st (counted c m)) id
    (fun s => mv_apply_member cosysops_env letter_color (logged c (mv_defaults c s)) (counted c m)).

Lemma moves_greeting c st id m : moves a (admitted c st id m) ->
  moves a (mv_finish_login cosysops_env letter_color format_time c (upd st id (mv_defaults c)) id (Some m)).
Proof.
  intros H. apply moves_finish. cbv beta delta [greet_member]. rewrite upd_upd by done.
  do 3 (lazymatch goal with |- moves _ (let x := ?e in @?b x) => let y := eval cbv beta in (b e) in change (moves a y) end).
  change (set_last_seen _ _) with (counted c m). walk.
  match goal with |- moves _ (upd (put_member (upd st id ?f) _) id ?g) =>
    change (moves a (upd (upd (put_member st (counted c m)) id f) id g)) end.
  by rewrite upd_upd.
Qed.

Lemma admitted_act c st id m : well env (view st) -> present st id -> ss_logged_in (the st id) = false ->
  looked_up st (m_number m) = Some m -> mv_find_member st (m_number m) = None ->
  act env (view st) (view (admitted c st id m)) /\ is_on (view (admitted c st id m)) id.
Proof.
  intros W Hp Hon Hl Hf.
  assert (In (entry_of m) (book (view st))) as Hin.
  { destruct (get_member_spec st (m_number m)) as (o & Eg & Hg). unfold looked_up in Hl. rewrite Eg in Hl. cbn in Hl.
    rewrite Hl in Hg. by destruct Hg. }
  assert (view (admitted c st id m) = change (view st) id (entered (m_handle m) (m_number m) (m_cosysop m || env (m_number m)))) as ->.
  { rewrite <- (view_put st (counted c m) m Hl eq_refl). apply view_upd. intros s _. rewrite face_apply.
    unfold counted, logged, entered, mv_defaults, face_of, named, enrolled.
    cbn [m_handle m_number m_cosysop set_logins set_last_seen].
    rewrite short_text; [done|]. pose proof (b_short _ (w_book _ _ W)) as Hs. rewrite Forall_forall in Hs.
    apply (Hs (entry_of m)). by apply list_elem_of_In. }
  split; [|eexists; split; [by apply who_changed|done]].
  apply (MemberIn env (view st) id _ (entry_of m) Hp Hon Hin). by rewrite holding_view; cbn; rewrite Hf.
Qed.

(** What a login line leads to: nothing new, a guest, or a member. *)
Definition login_result (c : clock) (st : station) (id : Z) (o : station * option bytes) : Prop :=
  snd o = None /\ moves a (fst o) \/
  exists st' m, present st' id /\ moves a st' /\ ss_logged_in (the st' id) = false /\
    looked_up st' (m_number m) = Some m /\ mv_find_member st' (m_number m) = None /\
    fst o = mv_finish_login cosysops_env letter_color format_time c (upd st' id (mv_defaults c)) id (Some m).

Lemma moves_login c st id line : present st id -> ss_logged_in (the st id) = false -> moves a st ->
  login_result c st id (ddial_mv_login_line derive cosysops_env letter_color format_time c st id line).
Proof.
  intros Hp Hon H. unfold ddial_mv_login_line. cbv zeta.
  assert (forall st' text, moves a st' -> login_result c st id (upd st' id (fun s => write_line s text), None)) as Htell
    by (intros; left; split; [done|by apply moves_upd]).
  destruct (length _ =? 0)%nat; [by apply Htell|].
  set (as_member := match mv_parse_uint _ with Some _ => _ | None => _ end).
  set (look := match as_member with Some (number, _) => _ | None => (st, false) end).
  assert (exists st1 known, look = (st1, known) /\ view st1 = view st /\ (forall i, the st1 i = the st i)) as (st1 & known & El & E1 & Et).
  { subst look. destruct as_member as [[n p]|]; [|by eauto]. destruct (get_member_spec st n) as (o & -> & _).
    eexists _, _. split; [done|]. split; [apply view_set_roll, book_ensure|done]. }
  rewrite El. clear look El. assert (moves a st1) as H1 by (by eapply moves_view).
  assert (present st1 id) as P1 by (by eapply present_view).
  destruct (if known then as_member else None) as [[number p]|].
  - destruct (login_password p) as [password after].
    pose proof (book_authenticate derive (roll st1) number password) as Hb.
    destruct (ddial_member_authenticate derive (roll st1) number password) as [r o] eqn:Ea. cbn [fst] in Hb.
    assert (view (set_roll st1 r) = view st1) as E2 by (by apply view_set_roll).
    assert (moves a (set_roll st1 r)) as H2 by (by eapply moves_view).
    destruct o as [m|]; [|by apply Htell].
    assert (looked_up (set_roll st1 r) (m_number m) = Some m /\ m_number m = number) as [Hl Hn].
    { unfold ddial_member_authenticate in Ea. cbv zeta in Ea. injection Ea as <- Eo.
      pose proof (find_no_spec (ddial_members_ensure_loaded_locked (roll st1)) number) as F.
      destruct (ddial_member_find_no_locked _ number) as [[k m0]|] eqn:Ef; [|done]. destruct F as [Hk Hn].
      destruct (derive password (m_salt m0)); [|done]. destruct (bytes_eqb _ _); [|done]. injection Eo as <-.
      split; [|done]. unfold looked_up, get_member, ddial_member_get. cbn. by rewrite ensure_twice, Hn, Ef. }
    destruct (mv_find_member (set_roll st1 r) number) as [t|] eqn:Ef; [by apply Htell|].
    right. exists (set_roll st1 r), m. split_and!; [by eapply present_view|done| |done|by rewrite Hn|done].
    change (the (set_roll st1 r) id) with (the st1 id). by rewrite Et.
  - set (clean := Wire.ddial_sanitize_handle _ _). destruct (length clean =? 0)%nat; [by apply Htell|].
    rewrite owner_book. set (st2 := set_roll st1 _).
    assert (view st2 = view st1) as E2 by apply view_set_roll, book_ensure.
    assert (moves a st2) as H2 by (by eapply moves_view).
    destruct (owner _ clean =? 0) eqn:Eo; cbn [negb]; [|left; split; [done|by apply moves_say]].
    destruct (mv_find_handle st2 clean) as [t|] eqn:Ef; [by apply Htell|]. bprop.
    left. split; [done|]. apply moves_guest_in; [by eapply present_view| |apply sanitized_short| |done|done].
    + change (the st2 id) with (the st1 id). by rewrite Et.
    + by rewrite E2.
Qed.

(** ** The commands together *)

Ltac harmless := by intros ? ?.

Lemma moves_command fuel c st id k st' :
  present st id -> ss_logged_in (the st id) = true ->
  (forall r, k = SignUp r -> v_full_muted (ss_mv (the st id)) = false) -> moves a st ->
  do_command derive cosysops_env letter_color reached chatter_mail gif_of giphy_key fuel c st id k = Some st' ->
  moves a st'.
Proof.
  intros Hp Hon Hm H. destruct k; cbn [do_command]; try (intros E; apply (moves_some _ _ E); clear E).
  - done.
  - walk.
  - by apply moves_8ball.
  - by apply moves_here.
  - apply moves_toggle; [harmless|done].
  - apply moves_toggle; [harmless|done].
  - by apply moves_topic.
  - by apply moves_taco.
  - by apply moves_spaces.
  - apply moves_signup; [done|done| |done]. by eapply Hm.
  - by apply moves_sentry_cmd.
  - apply moves_flag; [harmless|done].
  - apply moves_flag; [harmless|done].
  - apply moves_toggle; [harmless|done].
  - apply moves_affix; [harmless|done].
  - apply moves_affix; [harmless|done].
  - apply moves_slot_toggle; [harmless|done].
  - apply moves_toggle; [harmless|done].
  - by apply moves_giphy.
  - by apply moves_font.
  - by apply moves_code.
  - walk.
  - by apply moves_offline.
  - by apply moves_bday.
  - by apply moves_baud.
  - by apply moves_anim.
  - by apply moves_answer.
  - by apply moves_ask.
  - by apply moves_joke.
  - cbv zeta. destruct (_ && _) eqn:E; [|done]. bprop. apply moves_cosysop; [done|tauto|done].
  - apply moves_toggle; [harmless|done].
  - apply moves_affix; [harmless|done].
  - by apply moves_send_to.
  - by apply moves_boot.
  - by apply moves_ignore.
  - by apply moves_full_mute.
  - by apply moves_beep_volume.
  - apply moves_toggle; [harmless|done].
  - by apply moves_here.
  - by apply moves_here.
  - by apply moves_password.
  - by apply moves_color.
  - by apply moves_box.
  - by apply moves_handle.
  - by apply moves_private_cmd.
  - by apply moves_profile.
  - by apply moves_beep.
  - by apply moves_quit.
  - by apply moves_tune_cmd.
  - by apply moves_act_cmd.
  - by apply moves_offline.
  - by apply moves_email.
  - apply moves_toggle; [harmless|done].
  - walk.
  - apply moves_slot_toggle; [harmless|done].
  - by apply moves_kick.
Qed.

(** *** The way out of a muted session *)

Lemma not_this name c t : tolower c = 113 ->
  match lit name with x :: _ => tolower x <> 113 | [] => False end -> mv_is (c :: t) name = None.
Proof.
  intros Hc Hn. unfold mv_is, case_prefix. destruct (lit name) as [|x l]; [done|].
  cbn [map is_prefix]. rewrite Hc. apply Z.eqb_neq in Hn. by rewrite Hn.
Qed.

Definition elsewhere (e : string * (bytes -> command)) : bool :=
  match lit e.1 with x :: _ => negb (tolower x =? 113) | [] => false end.

Lemma no_first_word l c t : tolower c = 113 -> forallb elsewhere l = true -> first_word l (c :: t) = None.
Proof.
  intros Hc. induction l as [|[name k] l IH]; [done|]. cbn [forallb first_word]. intros [H1 H2]%andb_true_iff.
  rewrite not_this; [by apply IH|done|]. unfold elsewhere in H1. cbn [fst] in H1. destruct (lit name); [done|]. by bprop.
Qed.

Lemma first_word_app l1 l2 cmd : first_word l1 cmd = None -> first_word (l1 ++ l2) cmd = first_word l2 cmd.
Proof.
  induction l1 as [|[name k] l1 IH]; [done|]. cbn [first_word app]. destruct (mv_is cmd name); [done|apply IH].
Qed.

(** A muted session is let through with [/q], which is read as nothing else. *)
Lemma quit_found c t : tolower c = 113 -> isalpha (nthb t 0) = false -> find_command (c :: t) = Some (Quit t).
Proof.
  intros Hc Ha. unfold find_command. rewrite !not_this by (done || by vm_compute). cbn [bool_decide].
  assert (bytes_eqb (c :: t) [c_plus] = false) as -> by (apply bytes_eqb_neq; intros [= -> _]; done).
  assert (bytes_eqb (c :: t) [c_minus] = false) as -> by (apply bytes_eqb_neq; intros [= -> _]; done).
  rewrite (no_first_word long_words) by (done || by vm_compute).
  assert (is_color (c :: t) = false) as -> by (unfold is_color; cbn [peek]; by rewrite Hc).
  assert (is_box (c :: t) = false) as -> by (unfold is_box; cbn [peek]; by rewrite Hc).
  rewrite (no_first_word [_; _; _; _]) by (done || by vm_compute).
  change letters with (take 7 letters ++ drop 7 letters).
  rewrite first_word_app by (apply no_first_word; [done|by vm_compute]).
  change (drop 7 letters) with (("q"%string, Quit) :: drop 8 letters). cbn [first_word].
  assert (mv_is (c :: t) "q" = Some t) as ->; [|done]. unfold mv_is, case_prefix.
  change (lit "q") with [113]. cbn [map is_prefix]. rewrite Hc. change (tolower 113 =? 113) with true. cbn [andb negb length].
  unfold nthb in *. change (nth 1 (c :: t) c_nul) with (nth 0 t c_nul). by rewrite Ha, andb_false_r.
Qed.

Lemma may_leave_quits text : may_leave text = true -> exists r,
  find_command (if peek (drop 1 text) =? c_slash then drop 1 (drop 1 text) else drop 1 text) = Some (Quit r).
Proof.
  unfold may_leave. destruct text as [|x [|b t]]; cbn [peek drop nthb]; intros E; bprop; destruct E as [[H1 H2] H3].
  - done.
  - done.
  - unfold nthb in H2, H3. cbn [nth] in H2, H3. destruct (b =? c_slash) eqn:Eb; bprop; [by subst b|].
    exists t. apply quit_found; [done|]. destruct t; [done|]. exact H3.
Qed.
Lemma moves_done st st' : Done (Some st) = Done (Some st') -> moves a st -> moves a st'.
Proof. by intros E; injection E as ->. Qed.

Lemma moves_dispatched c st id line st' : present st id -> ss_logged_in (the st id) = true -> moves a st ->
  ddial_mv_dispatch derive cosysops_env letter_color reached chatter_mail gif_of giphy_key c st id line = Done (Some st') ->
  moves a st'.
Proof.
  intros Hp Hon H. unfold ddial_mv_dispatch. cbv zeta. destruct (v_code_capture _).
  { intros E. apply (moves_done _ _ E). case_match; [by apply moves_code_finish|by apply moves_code_append]. }
  destruct (v_profile_capture _).
  { intros E. apply (moves_done _ _ E). apply moves_profile. walk. }
  set (text := mv_skip_ws line).
  destruct (v_full_muted _ && _ && _) eqn:Em; [intros E; apply (moves_done _ _ E); walk|].
  destruct (peek text =? 59).
  { intros E. apply (moves_done _ _ E). walk. }
  destruct (peek text =? c_slash) eqn:Es; cbn [negb]; [|intros E; apply (moves_done _ _ E); walk].
  destruct (find_command _) as [k|] eqn:Ek; [|done]. intros E. injection E as E. unfold perform in E.
  destruct (needs_member k && _); [apply (moves_some _ _ E); walk|]. eapply moves_command; [done|done| |done|exact E].
  intros r ->. destruct (v_full_muted (ss_mv (the st id))) eqn:Ef; [|done]. cbn [andb] in Em.
  destruct (may_leave text) eqn:El.
  - destruct (may_leave_quits _ El) as [r' Er]. rewrite Er in Ek. done.
  - destruct text; [done|]. cbn in Em. done.
Qed.

Lemma moves_process c st id line st' : present st id -> ss_logged_in (the st id) = true -> moves a st ->
  process_command derive cosysops_env letter_color reached chatter_mail gif_of giphy_key c st id line = Some st' ->
  moves a st'.
Proof.
  intros Hp Hon H. unfold process_command. destruct (ddial_mv_dispatch _ _ _ _ _ _ _ _ _ _ _) as [|o] eqn:Ed.
  - destruct (Wire.ddial_parse_command line) as [k m]. destruct k, m; intros E; apply (moves_some _ _ E); walk.
  - intros ->. by eapply moves_dispatched.
Qed.

(** ** Events that no session causes *)

Lemma moves_countdown c st id : moves a st -> moves a (countdown c st id).
Proof. intros H. cbv beta delta [countdown]. walk. Qed.

Lemma moves_tick c st id : moves a st -> moves a (ddial_mv_tick c st id).
Proof. intros H. cbv beta delta [ddial_mv_tick]. walk. by apply moves_countdown. Qed.

Lemma moves_logout c st id : moves a st -> moves a (ddial_mv_on_logout c st id).
Proof.
  intros H. unfold ddial_mv_on_logout. cbv zeta. destruct (negb _); [done|]. apply moves_emit, moves_deliver.
  pose proof (moves_record c st (the st id) false H) as H1. destruct (mv_is_member _); [|done].
  apply moves_upd_mv; [done|]. set (st1 := mv_record_visit c st (the st id) false) in *.
  set (n := v_member_no _). pose proof (moves_get st1 n H1) as Hg.
  pose proof (looked_up_again st1 n) as Hl. pose proof (looked_up_number st1 n) as Hn. unfold looked_up in Hl, Hn.
  destruct (get_member st1 n) as [st2 [m|]]; cbn [fst snd] in *; [|done].
  apply (moves_put _ _ m); [apply (Hl m eq_refl), Hn, eq_refl|done|done].
Qed.

Lemma moves_relay c st line : moves a st -> moves a (relay_upstream_line c st line).
Proof. intros H. cbv beta delta [relay_upstream_line]. walk. Qed.

Lemma moves_private_line st slot text : moves a st -> moves a (fst (host_ddial_deliver_private_line st slot text)).
Proof.
  intros H. unfold host_ddial_deliver_private_line. destruct (_ || _); [done|]. destruct (snprintf _ _) as [fits out].
  destruct (negb fits); [done|]. destruct (find_logged _ _); cbn [fst]; [walk|done].
Qed.

Lemma moves_link_private st target from ch h text : moves a st ->
  moves a (host_ddial_deliver_link_private reached st target from ch h text).
Proof.
  intros H. unfold host_ddial_deliver_link_private. cbv zeta.
  match goal with |- context [host_ddial_deliver_private_line st target ?d] =>
    pose proof (moves_private_line st target d H) as Hd end.
  destruct (host_ddial_deliver_private_line _ _ _) as [st' []]; cbn [fst] in Hd; [done|by apply moves_to_chatter].
Qed.

Lemma moves_relay_private st from name h text slot : moves a st ->
  moves a (fst (host_ddial_relay_private st from name h text slot)).
Proof.
  intros H. unfold host_ddial_relay_private. destruct (mv_find_handle _ _).
  - case_match; cbn [fst]; [done|]. apply moves_upd; [intros s; by rewrite face_bell|done].
  - by destruct slot.
Qed.

Lemma moves_broadcast st text : moves a st -> moves a (host_ddial_broadcast_system st text).
Proof.
  intros H. unfold host_ddial_broadcast_system. cbv zeta. destruct (_ =? _)%nat; [done|]. destruct (snprintf _ _) as [fits out].
  destruct fits; [|done]. unfold host_ddial_broadcast_to_sessions. destruct (_ =? _)%nat; [done|]. by apply moves_foreach.
Qed.

End Moves.

(** ** Steps of the station *)

Section Steps.

Context (derive : bytes -> bytes -> option bytes).
Context (cosysops_env : option bytes).
Context (letter_color : mv_color_mode -> mv_rgb -> mv_rgb -> nat -> nat -> mv_rgb).
Context (reached : bytes -> bool).
Context (chatter_mail : bytes -> bytes -> option bytes).
Context (format_time : Z -> bytes).
Context (gif_of : bytes -> option bytes).
Context (giphy_key : bool).

Abbreviation env := (mv_env_cosysop cosysops_env).
Abbreviation process_line := (ddial_session_process_line derive cosysops_env letter_color reached chatter_mail format_time gif_of giphy_key).
Abbreviation step := (Commands.step derive cosysops_env letter_color reached chatter_mail format_time gif_of giphy_key).

Lemma on_present st id : is_on (view st) id -> present st id /\ ss_logged_in (the st id) = true.
Proof.
  intros (x & Hx & Hon). destruct (the_who _ _ _ Hx) as [E P]. split; [done|]. by rewrite <- E in Hon.
Qed.

Lemma line_moves c st id line st' : well env (view st) -> present st id ->
  process_line c st id line = Some st' -> rtc (act env) (view st) (view st').
Proof.
  intros W Hp. unfold ddial_session_process_line. assert (moves cosysops_env (view st) st) as H0 by apply rtc_refl.
  destruct (ss_logged_in (the st id)) eqn:Hon; cbn [negb].
  { by apply moves_process. }
  pose proof (moves_login derive cosysops_env letter_color format_time (view st) c st id line Hp Hon H0) as L.
  destruct (ddial_mv_login_line _ _ _ _ _ _ _ _) as [st1 after].
  destruct L as [[Ha L]|(st2 & m & P2 & H2 & Hon2 & Hl & Hf & E)]; cbn [fst snd] in *.
  { subst after. intros [= <-]. exact L. }
  pose proof (still_well cosysops_env (view st) W _ H2) as W2.
  destruct (admitted_act cosysops_env letter_color c st2 id m W2 P2 Hon2 Hl Hf) as [A Hin].
  assert (moves cosysops_env (view (admitted cosysops_env letter_color c st2 id m)) st1) as H3
    by (rewrite E; apply moves_greeting, rtc_refl).
  assert (moves cosysops_env (view st) st1) as H4 by (unfold moves in *; etrans; [exact H2|]; eapply rtc_l; [exact A|exact H3]).
  destruct after as [line2|]; [|by intros [= <-]].
  destruct (on_present st1 id) as [P1 Hon1]; [by eapply acts_on; [exact H3|]|]. by apply moves_process.
Qed.

(** ** Lines are given out once *)

Lemma slot_used_view st slot : slot_used st slot = false <->
  ~ In slot (map f_slot (faces (view st))) /\ ~ In slot (chatters (view st)).
Proof.
  unfold slot_used, view. cbn. rewrite orb_false_iff, map_map. cbn. split.
  - intros [H1 H2]. split; intros (x & E & Hx)%in_map_iff.
    + assert (existsb (fun s => ss_slot s =? slot) (sessions st) = true); [|congruence].
      apply existsb_exists. exists x. split; [done|]. by apply Z.eqb_eq.
    + assert (existsb (fun l => cl_slot l =? slot) (links st) = true); [|congruence].
      apply existsb_exists. exists x. split; [done|]. by apply Z.eqb_eq.
  - intros [H1 H2]. split; apply not_true_iff_false; intros (x & Hx & E%Z.eqb_eq)%existsb_exists.
    + apply H1, in_map_iff. by exists x.
    + apply H2, in_map_iff. by exists x.
Qed.

Lemma allocate_free fuel st slot : 0 < slot -> 65535 < slot + Z.of_nat fuel -> slot <= 65535 ->
  line_free (view st) (allocate_go fuel st slot).
Proof.
  revert slot. induction fuel as [|fuel IH]; intros slot H0 H1 H2; [lia|]. cbn [allocate_go].
  assert (slot < 65535 -> line_free (view st) (allocate_go fuel st (u16 (slot + 1)))) as Hn
    by (intros; rewrite Z.mod_small by lia; apply IH; lia).
  assert (slot = 65535 -> Wire.ddial_slot_is_valid slot = true) as Hv by (by intros ->).
  destruct (negb (Wire.ddial_slot_is_valid slot)) eqn:E; bprop; [apply Hn; destruct (decide (slot = 65535)); [|lia]; by rewrite Hv in E|].
  destruct (negb (slot_used st slot) || (slot =? UINT16_MAX)) eqn:E2.
  - intros Hne. apply slot_used_view. bprop. destruct E2; [done|congruence].
  - bprop. apply Hn. unfold UINT16_MAX in E2. lia.
Qed.

Lemma line_allocated st : line_free (view st) (ddial_allocate_slot_locked st).
Proof. apply allocate_free; lia. Qed.

Lemma register_moves st id : ~ In id (map ss_id (sessions st)) -> come_go (view st) (view (host_ddial_register_session st id)).
Proof.
  intros H. change (view (host_ddial_register_session st id)) with
    (with_faces (view st) (newcomer id (ddial_allocate_slot_locked st) :: faces (view st))).
  apply Arrive; [|apply line_allocated]. unfold view. cbn. by rewrite map_map.
Qed.

Lemma remove_link_spec l slot : match remove_link l slot with
  | (l', Some x) => exists l1 l2, l = l1 ++ x :: l2 /\ l' = l1 ++ l2 /\ cl_slot x = slot
  | (l', None) => l' = l
  end.
Proof.
  induction l as [|x t IH]; [done|]. cbn. destruct (cl_slot x =? slot) eqn:E; bprop.
  - by exists [], t.
  - destruct (remove_link t slot) as [t' [y|]]; [|by rewrite IH].
    destruct IH as (l1 & l2 & -> & -> & Hy). by exists (x :: l1), l2.
Qed.

(** The lines of members of the chat. *)
Lemma chat_moves st e st' c : (exists d u, e = ChatJoins d u) \/ (exists slot, e = ChatLeaves slot) ->
  step c st e = Some st' -> view st' = view st \/ come_go (view st) (view st').
Proof.
  intros [(d & u & ->)|(slot & ->)]; cbn [Commands.step]; intros [= <-].
  - unfold host_ddial_chat_link_add. cbv zeta. destruct (_ =? _)%nat; [by left|]. destruct (_ =? _)%nat; [by left|].
    right. cbn [fst]. set (slot := ddial_allocate_slot_locked st).
    apply (ChatterIn (view st) slot). apply line_allocated.
  - unfold host_ddial_chat_link_remove. destruct (slot =? 0); [by left|].
    pose proof (remove_link_spec (links st) slot) as R. destruct (remove_link (links st) slot) as [l [x|]]; [|by left].
    destruct R as (l1 & l2 & E & -> & Hx). right.
    assert (come_go (view st) (view (set_links st (l1 ++ l2)))) as Hc; [|by case_match].
    change (view (set_links st (l1 ++ l2))) with (with_chatters (view st) (map cl_slot (l1 ++ l2))). rewrite map_app.
    apply (ChatterOut _ _ (cl_slot x)). unfold view. cbn. by rewrite E, map_app.
Qed.

Lemma hang_up_moves c st id : well env (view st) -> rtc (move env) (view st) (view (hang_up c st id)).
Proof.
  intros W. unfold hang_up. cbv zeta. match goal with |- context [host_ddial_unregister_session ?s id] => set (st1 := s) end.
  assert (moves cosysops_env (view st) st1) as H.
  { subst st1. case_match; [|apply rtc_refl]. apply moves_emit, moves_logout, rtc_refl. }
  eapply rtc_r; [by apply acts_move|]. right.
  replace (view (host_ddial_unregister_session st1 id)) with
    (with_faces (view st1) (filter (fun x => f_id x <> id) (faces (view st1)))); [apply Leave|].
  unfold view, with_faces, host_ddial_unregister_session. cbn. f_equal.
  induction (sessions st1) as [|s l IH]; [done|]. cbn [map]. rewrite !filter_cons. cbn [f_id face_of].
  destruct (decide (ss_id s <> id)); [cbn [map]|]; by rewrite IH.
Qed.

Lemma step_moves c st e st' : well env (view st) -> enabled st e -> step c st e = Some st' ->
  rtc (move env) (view st) (view st').
Proof.
  intros W He Hs. assert (moves cosysops_env (view st) st) as H0 by apply rtc_refl.
  destruct e; cbn [enabled Commands.step] in *;
    try (injection Hs as <-; apply acts_move; first [by apply moves_relay|by apply moves_link_private|
           by apply moves_relay_private|by apply moves_broadcast]).
  - injection Hs as <-. apply rtc_once. right. by apply register_moves.
  - apply acts_move. eapply line_moves; [done|by apply present_in|exact Hs].
  - injection Hs as <-. apply acts_move. destruct (ss_logged_in _); [by apply moves_tick|done].
  - injection Hs as <-. by apply hang_up_moves.
  - destruct (chat_moves st (ChatJoins display_name username) st' c) as [-> |A]; [by eauto|done|apply rtc_refl|].
    apply rtc_once. by right.
  - destruct (chat_moves st (ChatLeaves slot) st' c) as [-> |A]; [by eauto|done|apply rtc_refl|].
    apply rtc_once. by right.
Qed.

(** One event after the other, each from a session there is. *)
Definition happens (st st' : station) : Prop := exists c e, enabled st e /\ step c st e = Some st'.

Lemma idle_well st : idle st -> well env (view st).
Proof.
  intros (Hs & Hl & Hb). unfold view. rewrite Hs, Hl. constructor; cbn; [by apply NoDup_nil|done|by apply List.Forall_nil| | | |].
  - by intros ? ? [].
  - by intros ? ? [].
  - by intros ? [].
  - by apply NoDup_nil.
Qed.

Lemma happens_moves st st' : rtc happens st st' -> well env (view st) ->
  rtc (move env) (view st) (view st') /\ well env (view st').
Proof.
  induction 1 as [|st st1 st' (c & e & He & Hs) _ IH]; intros W; [done|].
  pose proof (step_moves _ _ _ _ W He Hs) as M. assert (well env (view st1)) as W1.
  { clear -M W. induction M; [done|]. eauto using move_keeps. }
  destruct (IH W1) as [M2 W2]. split; [by etrans|done].
Qed.

(** C3: Whatever sessions, the chat and the link do at the station, the names,
    numbers, lines, channels and rights of the sessions and the book of members
    change by the moves of the policy alone, each within its guard. *)
Theorem station_follows_policy st st' : idle st -> rtc happens st st' -> rtc (move env) (view st) (view st').
Proof. intros Hi Hr. by apply happens_moves; [|apply idle_well]. Qed.

(** C4: At every moment no two sessions go by one name, no guest has the name of
    a member, guests stay on the four linked channels without rights, a member
    is logged in once under the recorded name with the recorded rights and is
    never muted, and a line has one holder. *)
Theorem registry_in_order st st' : idle st -> rtc happens st st' -> well env (view st').
Proof. intros Hi Hr. by apply (happens_moves st); [|apply idle_well]. Qed.

End Steps.

End Refinement.
