(* ===== verification/DdialTalk.v ===== *)
(** What is said at the dial-in station: a call of a saved handle that leads back
    to itself (module HandleCalls), who hears what (module Privacy), and a short
    evening at the station (module StationSamples). *)

From Stdlib Require Import ZArith Lia String Ascii.
From stdpp Require Import prelude.
From S2P Require Import Prelude DdialProtocol HostGuard DdialServer DdialText DdialMembers DdialRoll DdialSession DdialChat.
From S2P Require Import DdialCommands DdialPolicy DdialStation.
Import Output Slots Text TextTheory Colour Members Roll Session Chat Commands Policy PolicyTheory View Refinement.

(** ** Calls of saved handles *)

Module HandleCalls.

Section Calls.

Context (letter_color : mv_color_mode -> mv_rgb -> mv_rgb -> nat -> nat -> mv_rgb).
Abbreviation call := (mv_cmd_handle letter_color).

(** A digit that stands for a saved handle. *)
Definition digit_of (arg : bytes) : option nat :=
  let arg := mv_skip_ws arg in
  if negb (peek arg =? c_question) && ((c_1 <=? peek arg) && (peek arg <=? c_9) && ((nthb arg 1 =? c_eq) || (length arg =? 1)%nat))
     && negb (nthb arg 1 =? c_eq)
  then Some (Z.to_nat (peek arg - c_1)) else None.

Lemma digit_small arg k : digit_of arg = Some k -> (k < 9)%nat.
Proof. unfold digit_of. case_match; [|done]. intros [= <-]. bprop. lia. Qed.

(** The text a call of a saved handle goes on with. *)
Definition saved_text (m : ddial_member) (k : nat) : option bytes :=
  let saved := nth k (m_saved_handles m) [] in
  if (length saved =? 0)%nat then None else Some (snprintf_text DDIAL_MAX_HANDLE_LEN saved).

(** A call ends, whatever the fuel that is left, or goes on with another. *)
Lemma call_step c st id arg :
  (exists x, forall fuel, call (S fuel) c st id arg = Some x) \/
  exists k m t, mv_is_member (the st id) = true /\ digit_of arg = Some k /\ looked_up st (v_member_no (ss_mv (the st id))) = Some m /\ saved_text m k = Some t /\
    forall fuel, call (S fuel) c st id arg = call fuel c (fst (get_member st (v_member_no (ss_mv (the st id))))) id t.
Proof.
  cbn [mv_cmd_handle]. unfold digit_of, saved_text, looked_up. cbv zeta. set (s := mv_skip_ws arg).
  destruct (peek s =? c_question); [left; by eexists|]. cbn [negb andb].
  destruct ((c_1 <=? peek s) && _ && _) eqn:Ed; [|left; destruct (length s =? 0)%nat; by eexists]. cbn [andb].
  destruct (mv_is_member (the st id)); cbn [negb]; [|left; by eexists].
  destruct (get_member st _) as [st1 [m|]]; cbn [fst snd]; [|left; by eexists].
  destruct (nthb s 1 =? c_eq); [left; by eexists|]. cbn [negb].
  destruct (length (nth (Z.to_nat (peek s - c_1)) (m_saved_handles m) []) =? 0)%nat eqn:El; [left; by eexists|].
  right. exists (Z.to_nat (peek s - c_1)), m. rewrite El. by eexists.
Qed.

(** Loading the roll a second time changes nothing. *)
Lemma get_again st n : fst (get_member (fst (get_member st n)) n) = fst (get_member st n) /\
  looked_up (fst (get_member st n)) n = looked_up st n.
Proof. unfold looked_up, get_member, ddial_member_get. cbn. by rewrite !ensure_twice. Qed.

(** Following the saved handles from one digit to the next. *)
Definition next_call (m : ddial_member) (k : nat) : option nat :=
  match saved_text m k with Some t => digit_of t | None => None end.

Fixpoint follow (m : ddial_member) (n k : nat) : option nat :=
  match n with O => Some k | S n => match next_call m k with Some k => follow m n k | None => None end end.

Definition goes (m : ddial_member) (n k : nat) : bool :=
  match follow m n k with Some k' => bool_decide (is_Some (saved_text m k')) | None => false end.

Lemma call_next fuel c st id arg k m t :
  mv_is_member (the st id) = true -> looked_up st (v_member_no (ss_mv (the st id))) = Some m ->
  digit_of arg = Some k -> saved_text m k = Some t ->
  call (S fuel) c st id arg = call fuel c (fst (get_member st (v_member_no (ss_mv (the st id))))) id t.
Proof.
  intros Hmem Hm Hd Ht. destruct (call_step c st id arg) as [(x & Hx)|(k' & m' & t' & _ & Hd' & Hm' & Ht' & Hc)];
    [|by simplify_eq].
  exfalso. revert Hx Hm Hd Ht. cbn [mv_cmd_handle]. unfold digit_of, saved_text, looked_up. cbv zeta. set (s := mv_skip_ws arg).
  destruct (peek s =? c_question); [done|]. cbn [negb andb]. destruct ((c_1 <=? peek s) && _ && _); [|done]. cbn [andb].
  rewrite Hmem. cbn [negb]. destruct (get_member st _) as [st1 [m1|]]; cbn [fst snd]; [|done].
  destruct (nthb s 1 =? c_eq); [done|]. intros Hx [= ->] [= <-].
  destruct (length (nth _ (m_saved_handles m) []) =? 0)%nat; [done|]. intros _. by specialize (Hx 0%nat).
Qed.

(** How often a call goes on is read off the saved handles. *)
Lemma calls_follow c st id m k t fuel :
  let n := v_member_no (ss_mv (the st id)) in
  mv_is_member (the st id) = true -> fst (get_member st n) = st -> looked_up st n = Some m -> saved_text m k = Some t ->
  (call fuel c st id t = None <-> goes m fuel k = true).
Proof.
  cbv zeta. intros Hmem Hg Hm. revert k t. induction fuel as [|fuel IH]; intros k t Ht.
  { unfold goes. cbn. rewrite Ht. by rewrite bool_decide_eq_true_2. }
  unfold goes. cbn [follow]. unfold next_call. rewrite Ht.
  destruct (call_step c st id t) as [(x & Hx)|(k' & m' & t' & _ & Hd & Hm' & Ht' & Hc)].
  - rewrite Hx. split; [done|]. destruct (digit_of t) as [k1|] eqn:Ed; [|done].
    destruct (saved_text m k1) as [t1|] eqn:Et1.
    + pose proof (call_next 0 c st id t k1 m t1 Hmem Hm Ed Et1) as Hn. by rewrite Hx in Hn.
    + destruct fuel; cbn [follow]; unfold next_call; rewrite Et1; [by rewrite bool_decide_eq_false_2 by (by intros [])|done].
  - rewrite Hm in Hm'. injection Hm' as <-. rewrite Hd, Hc, Hg. by apply IH.
Qed.

(** *** Nine handles and ten calls *)

Lemma goes_S m n k : goes m (S n) k = match next_call m k with Some k1 => goes m n k1 | None => false end.
Proof. unfold goes. cbn [follow]. by destruct (next_call m k). Qed.

Lemma goes_less m n k : goes m (S n) k = true -> goes m n k = true.
Proof.
  revert k. induction n as [|n IH]; intros k; rewrite goes_S.
  - unfold next_call. destruct (saved_text m k) eqn:E; [|done]. intros _. unfold goes. cbn. rewrite E.
    by apply bool_decide_eq_true_2.
  - rewrite goes_S. destruct (next_call m k); [apply IH|done].
Qed.

Lemma next_small m k k' : next_call m k = Some k' -> (k' < 9)%nat.
Proof. unfold next_call. destruct (saved_text m k); [apply digit_small|done]. Qed.

Definition alive (m : ddial_member) (n : nat) : nat := length (List.filter (goes m n) (seq 0 9)).

Lemma filter_fewer {A} (f g : A -> bool) l : (forall x, f x = true -> g x = true) ->
  (length (List.filter f l) <= length (List.filter g l))%nat /\
  (length (List.filter f l) = length (List.filter g l) -> forall x, In x l -> f x = g x).
Proof.
  intros H. induction l as [|y l [IH1 IH2]]; [done|]. cbn [List.filter].
  destruct (f y) eqn:Ef; [rewrite (H _ Ef)|destruct (g y) eqn:Eg]; cbn [length]; (split; [lia|]).
  - intros E x [<-|Hx]; [by rewrite Ef, (H _ Ef)|apply IH2; [lia|done]].
  - lia.
  - intros E x [<-|Hx]; [congruence|by apply IH2].
Qed.

Definition settled (m : ddial_member) (n : nat) : Prop := forall k, (k < 9)%nat -> goes m (S n) k = goes m n k.

Lemma settles m n : (exists i, (i < n)%nat /\ settled m i) \/ (alive m n + n <= 9)%nat.
Proof.
  induction n as [|n [(i & Hi & Hs)|IH]].
  - right. unfold alive. rewrite Nat.add_0_r. apply filter_length_le.
  - left. exists i. split; [lia|done].
  - destruct (filter_fewer (goes m (S n)) (goes m n) (seq 0 9) (goes_less m n)) as [H1 H2].
    destruct (decide (alive m (S n) = alive m n)) as [E|Hne].
    + left. exists n. split; [lia|]. intros k Hk. apply H2; [exact E|]. apply in_seq. lia.
    + right. unfold alive in *. lia.
Qed.

Lemma settled_after m i j k : settled m i -> (i <= j)%nat -> (k < 9)%nat -> goes m j k = goes m i k.
Proof.
  intros Hs Hj. revert k. induction Hj as [|j Hj IH]; [done|]. intros k Hk. rewrite <- (Hs k Hk), !goes_S.
  destruct (next_call m k) as [k1|] eqn:E; [|done]. apply IH. by eapply next_small.
Qed.

Lemma nine_are_all m k : (k < 9)%nat -> goes m 9 k = true -> forall n, goes m n k = true.
Proof.
  intros Hk H9. destruct (settles m 9) as [(i & Hi & Hs)|Hz].
  - rewrite (settled_after m i 9 k Hs) in H9 by lia. intros n. destruct (decide (i <= n)%nat).
    + by rewrite (settled_after m i n k Hs).
    + assert (forall d, goes m (i - d) k = true) as Hd.
      { induction d as [|d IHd]; [by rewrite Nat.sub_0_r|]. destruct (decide (i <= d)%nat).
        - replace (i - S d)%nat with (i - d)%nat by lia. done.
        - apply goes_less. by replace (S (i - S d)) with (i - d)%nat by lia. }
      replace n with (i - (i - n))%nat by lia. done.
  - exfalso. assert (In k (List.filter (goes m 9) (seq 0 9))) as Hin by (apply filter_In; split; [apply in_seq; lia|done]).
    unfold alive in Hz. destruct (List.filter (goes m 9) (seq 0 9)); [done|]. cbn in Hz. lia.
Qed.

(** C31: A call of [/h] that has not ended after eleven calls of itself never
    ends: with nine handles saved it is going in a circle. *)
Theorem handle_call_ends_or_never c st id arg :
  mv_cmd_handle letter_color HANDLE_CALLS c st id arg = None ->
  forall fuel, mv_cmd_handle letter_color fuel c st id arg = None.
Proof.
  unfold HANDLE_CALLS. intros H fuel. destruct fuel as [|fuel]; [done|].
  destruct (call_step c st id arg) as [(x & Hx)|(k & m & t & Hmem & Hd & Hm & Ht & Hc)]; [by rewrite Hx in H|].
  rewrite Hc in H. rewrite Hc. set (n := v_member_no (ss_mv (the st id))) in *. set (st1 := fst (get_member st n)) in *.
  destruct (get_again st n) as [G1 G2]. fold st1 in G1, G2.
  assert (forall f, call f c st1 id t = None <-> goes m f k = true) as Hf
    by (intros f; apply calls_follow; [exact Hmem|exact G1|by rewrite <- Hm, <- G2|exact Ht]).
  apply Hf, nine_are_all; [by eapply digit_small|]. apply goes_less. by apply Hf.
Qed.

End Calls.

End HandleCalls.

(** ** Who hears what *)

Module Privacy.

(** The sessions [P] picks out are left as they are. *)
Definition spares (P : ddial_session -> Prop) (st st' : station) : Prop :=
  Forall2 (fun s t => P s -> t = s) (sessions st) (sessions st').


#[export] Instance spares_preorder P : PreOrder (spares P).
Proof.
  split.
  - intros st. unfold spares. induction (sessions st); by constructor.
  - intros st1 st2 st3. unfold spares. intros H. revert st3. generalize (sessions st2), H. clear H.
    induction (sessions st1) as [|s l IH]; intros l2 H st3; inversion H as [|? t ? l2' Hs Hl]; subst; [done|].
    intros H3. inversion H3 as [|? u ? l3' Ht Hl']; subst. constructor; [|].
    + intros Ps. specialize (Hs Ps). subst t. by apply Ht.
    + specialize (IH l2' Hl (set_sessions st3 l3')). by apply IH.
Qed.






Section Privacy.

Context (derive : bytes -> bytes -> option bytes).
Context (cosysops_env : option bytes).
Context (letter_color : mv_color_mode -> mv_rgb -> mv_rgb -> nat -> nat -> mv_rgb).
Context (reached : bytes -> bool).
Context (chatter_mail : bytes -> bytes -> option bytes).
Context (format_time : Z -> bytes).
Context (gif_of : bytes -> option bytes).
Context (giphy_key : bool).

Abbreviation process_line := (ddial_session_process_line derive cosysops_env letter_color reached chatter_mail format_time gif_of giphy_key).

(** *** A muted session *)














(** *** A public line *)
















(** *** A private message *)











End Privacy.

End Privacy.

(** ** An evening at the station *)

Module StationSamples.
Import HandleCalls Privacy.

Definition derive (password salt : bytes) : option bytes := Some (take 32 (password ++ salt ++ replicate 32 0)).
Definition one_color (mode : mv_color_mode) (x y : mv_rgb) (i n : nat) : mv_rgb := x.
Definition all_reached (name : bytes) : bool := true.
Definition no_mail (name message : bytes) : option bytes := None.
Definition some_time (t : Z) : bytes := lit "12:00".
Definition no_gif (keyword : bytes) : option bytes := None.

Abbreviation step := (Commands.step derive None one_color all_reached no_mail some_time no_gif false).
Abbreviation process_line := (ddial_session_process_line derive None one_color all_reached no_mail some_time no_gif false).
Abbreviation happens := (Refinement.happens derive None one_color all_reached no_mail some_time no_gif false).

Definition eight : clock :=
  {| now := 1000; mono := Time.zero; hour_minute := lit "20:00"; month_day := (1, 1); lorem_draws := [];
     scramble_draws := []; fun_draw := 3; fresh_salt := Some (replicate 16 7) |}.

Definition no_boot : boot := {| bo_channel := 0; bo_handle := []; bo_until := 0 |}.
Definition no_visit : visit := {| vi_handle := []; vi_member := 0; vi_when := 0; vi_logon := false |}.

Definition opened : station :=
  {| sessions := []; links := []; metas := replicate 64 (no_meta 0); boots := replicate 64 no_boot;
     visitors := replicate 30 no_visit; visitor_head := 0; visitor_count := 0; vanishing := replicate 32 no_vanish;
     sentry := false;
     roll := {| g_ddial_members_loaded := true; g_ddial_members := []; g_ddial_mail := []; g_ddial_mail_next_id := 1;
                members_file := None; mail_file := None |};
     effects := [] |}.

Definition enabledb (st : station) (e : event) : bool :=
  let there id := existsb (fun s => ss_id s =? id) (sessions st) in
  match e with
  | Dial id => negb (there id)
  | Line id _ | Tick id | HangUp id => there id
  | _ => true
  end.

Lemma there_in st id : existsb (fun s => ss_id s =? id) (sessions st) = true <-> In id (map ss_id (sessions st)).
Proof.
  rewrite existsb_exists, in_map_iff. split; intros (s & H1 & H2); exists s; [by apply Z.eqb_eq in H2|].
  split; [done|]. by apply Z.eqb_eq.
Qed.

Lemma enabledb_sound st e : enabledb st e = true -> enabled st e.
Proof.
  destruct e; cbn; try done; try apply there_in. rewrite <- there_in. intros H1 H2. rewrite H2 in H1. done.
Qed.

Fixpoint evening (st : station) (es : list event) : option station :=
  match es with
  | [] => Some st
  | e :: es =>
      if enabledb st e then match step eight st e with Some st => evening st es | None => None end else None
  end.

Lemma evening_happens es st st' : evening st es = Some st' -> rtc happens st st'.
Proof.
  revert st; induction es as [|e es IH]; intros st; cbn [evening]; [by intros [= <-]|].
  destruct (enabledb st e) eqn:He; [|done]. destruct (step eight st e) as [st1|] eqn:Hs; [|done].
  intros H. eapply rtc_l; [|by apply IH]. exists eight, e. split; [by apply enabledb_sound|exact Hs].
Qed.

Definition tonight : list event :=
  [Dial 1; Line 1 (lit "bob"); Dial 2; Line 2 (lit "alice"); Line 2 (lit "/signup sesame"); Line 2 (lit "hello @bob");
   Line 1 (lit "/p2 psst"); Line 2 (lit "/pv for members"); Line 2 (lit "/t5"); Line 1 (lit "/h robert");
   ChatJoins (lit "carol") (lit "carol"); Dial 3; Line 3 (lit "1sesame"); HangUp 2; Line 3 (lit "1sesame")].

Definition late : station := match evening opened tonight with Some st => st | None => opened end.

Lemma late_reached : evening opened tonight = Some late.
Proof. vm_compute. reflexivity. Qed.

Example late_registry :
  map (fun s => (ss_id s, ss_slot s, string_of_list_ascii (map (fun z => ascii_of_N (Z.to_N z)) (ss_handle s)),
                 v_member_no (ss_mv s))) (sessions late) = [(3, 4, "alice"%string, 1); (1, 1, "robert"%string, 0)].
Proof. vm_compute. reflexivity. Qed.

Lemma opened_idle : idle opened.
Proof. split_and!; [done..|]. constructor; cbn; [done|lia|by intros ? ? []|by apply List.Forall_nil]. Qed.

Lemma station_follows_policy_witness :
  rtc (move (mv_env_cosysop None)) (view opened) (view late) /\ length (faces (view late)) = 2%nat.
Proof.
  split; [|by vm_compute].
  refine (station_follows_policy derive None one_color all_reached no_mail some_time no_gif false opened late _ _).
  - exact opened_idle.
  - exact (evening_happens _ _ _ late_reached).
Defined.

Lemma registry_in_order_witness : well (mv_env_cosysop None) (view late).
Proof.
  refine (registry_in_order derive None one_color all_reached no_mail some_time no_gif false opened late _ _).
  - exact opened_idle.
  - exact (evening_happens _ _ _ late_reached).
Defined.

(** Alice saves the handle "5" as her fifth. *)
Definition circling : station :=
  match evening opened [Dial 2; Line 2 (lit "alice"); Line 2 (lit "/signup sesame"); Line 2 (lit "/h5=5")] with
  | Some st => st | None => opened end.

Lemma handle_call_ends_or_never_witness :
  mv_cmd_handle one_color HANDLE_CALLS eight circling 2 (lit "5") = None /\
  mv_cmd_handle one_color 1000 eight circling 2 (lit "5") = None.
Proof.
  assert (mv_cmd_handle one_color HANDLE_CALLS eight circling 2 (lit "5") = None) as H by (vm_compute; reflexivity).
  split; [exact H|exact (handle_call_ends_or_never one_color eight circling 2 (lit "5") H 1000%nat)].
Defined.

(** So the line [/h5] never returns. *)
Example circling_line : process_line eight circling 2 (lit "/h5") = None.
Proof. vm_compute. reflexivity. Qed.






End StationSamples.
