(* ===== verification/HostBans.v ===== *)
(** The ban list and the protected addresses: [src/host/core/system_config.c]
    (wildcards, protected addresses), [src/host/runtime/user_commands.c] (asking,
    adding and removing bans) and the reload of [src/host/security/vote_ban.c].
    Both arrays have a fixed capacity and are allocated when the host starts; the
    ban array is taken to be there, the protected array is asked for again by the
    code.  The files themselves are not modelled: the reload starts from the
    entries it read. *)

From Stdlib Require Import ZArith Lia String Ascii.
From stdpp Require Import prelude.
From S2P Require Import Prelude IpRules HostGuard.
Import Cidr.

Definition SSH_CHATTER_MAX_BANS : Z := 16384.
Definition SSH_CHATTER_MAX_PROTECTED_IPS : nat := 16.

Module Bans.

Record host_ban_entry := { ban_username : bytes; ban_ip : bytes }.

Record ban_state := {
  bs_bans : list host_ban_entry;
  bs_protected_ips : list bytes;
  bs_protected_allocated : bool
}.

Definition ip_same (a b : bytes) : bool := strn_eq SSH_CHATTER_IP_LEN a b.
Definition name_same (a b : bytes) : bool := strn_eq SSH_CHATTER_USERNAME_LEN a b.

Definition host_address_is_wildcard (address : option bytes) : bool :=
  match address with
  | None | Some [] => true
  | Some a =>
      if bytes_eqb a (lit "*") || bytes_eqb a (lit "0.0.0.0") || bytes_eqb a (lit "::") ||
         bytes_eqb a (lit "::0")
      then true
      else forallb (fun c => (c =? c_colon) || (c =? c_dot) || (c =? 48)) a
  end.

Definition host_is_protected_ip_unlocked (h : ban_state) (ip : bytes) : bool :=
  if bytes_eqb ip [] then false
  else existsb (fun p => ip_same p ip) (take SSH_CHATTER_MAX_PROTECTED_IPS (bs_protected_ips h)).

Section Bans.
Context `{InetPton} `{Allocator}.

Definition host_protected_ips_ensure (h : ban_state) : ban_state :=
  if bs_protected_allocated h then h
  else {| bs_bans := bs_bans h; bs_protected_ips := bs_protected_ips h;
          bs_protected_allocated := array_alloc_ok (Z.of_nat SSH_CHATTER_MAX_PROTECTED_IPS) |}.

Definition host_protected_ip_add_unlocked (h : ban_state) (ip : bytes) : bool * ban_state :=
  let trimmed := host_trim_whitespace (take SSH_CHATTER_IP_LEN ip) in
  if bytes_eqb trimmed [] then (false, h)
  else
    let normalized := take (SSH_CHATTER_IP_LEN - 1) trimmed in
    if host_address_is_wildcard (Some normalized) then (false, h)
    else if host_is_protected_ip_unlocked h normalized then (true, h)
    else if (SSH_CHATTER_MAX_PROTECTED_IPS <=? length (bs_protected_ips h))%nat then (false, h)
    else
      let h := host_protected_ips_ensure h in
      if negb (bs_protected_allocated h) then (false, h)
      else (true, {| bs_bans := bs_bans h; bs_protected_ips := bs_protected_ips h ++ [normalized];
                     bs_protected_allocated := true |}).

(** The addresses of [CHATTER_PROTECTED_IPS], and those always protected. *)
Definition load_protected_token (h : ban_state) (token : bytes) : ban_state :=
  let working := take (SSH_CHATTER_IP_LEN - 1) token in
  let trimmed := host_trim_whitespace working in
  if bytes_eqb trimmed [] then h else snd (host_protected_ip_add_unlocked h trimmed).

Definition host_protected_ips_load_from_env (h : ban_state) (env : option bytes) : ban_state :=
  match env with
  | None | Some [] => h
  | Some e => if negb (array_alloc_ok (Z.of_nat (length e) + 1)) then h
              else fold_left load_protected_token (strtok_all (fun c => c =? c_comma) e) h
  end.

Definition host_protected_ips_bootstrap (h : ban_state) (env : option bytes) : ban_state :=
  let h := fold_left (fun h ip => snd (host_protected_ip_add_unlocked h ip))
             [lit "127.0.0.1"; lit "::1"; lit "192.168.0.1"] h in
  host_protected_ips_load_from_env h env.

(** Whether one ban entry applies to an address. *)
Definition ban_applies (h : ban_state) (ip : bytes) (e : host_ban_entry) : bool :=
  if bytes_eqb (ban_ip e) [] then false
  else if host_is_protected_ip_unlocked h (ban_ip e) then false
  else match strchr (ban_ip e) c_slash with
       | Some _ => host_cidr_contains_ip (ban_ip e) ip
       | None => ip_same (ban_ip e) ip
       end.

Definition host_is_ip_banned (h : ban_state) (ip : bytes) : bool :=
  if bytes_eqb ip [] then false
  else if host_is_protected_ip_unlocked h ip then false
  else existsb (ban_applies h ip) (bs_bans h).

Definition host_is_username_banned (h : ban_state) (username : bytes) : bool :=
  if bytes_eqb username [] then false
  else existsb (fun e => name_same (ban_username e) username) (bs_bans h).

(** A network that covers a protected address. *)
Definition covers_protected (h : ban_state) (ip : bytes) : bool :=
  existsb (host_cidr_contains_ip ip)
    (take SSH_CHATTER_MAX_PROTECTED_IPS (bs_protected_ips h)).

Definition has_slash (ip : bytes) : bool :=
  match strchr ip c_slash with Some _ => true | None => false end.

Definition with_bans (h : ban_state) (l : list host_ban_entry) : ban_state :=
  {| bs_bans := l; bs_protected_ips := bs_protected_ips h;
     bs_protected_allocated := bs_protected_allocated h |}.

(** A ban of a name, an address or both; absent and empty texts are the same. *)
Definition host_add_ban_entry (h : ban_state) (username ip : bytes) : bool * ban_state :=
  let h := host_protected_ips_ensure h in
  if SSH_CHATTER_MAX_BANS <=? Z.of_nat (length (bs_bans h)) then (false, h)
  else if negb (bytes_eqb ip []) && host_is_protected_ip_unlocked h ip then (true, h)
  else if negb (bytes_eqb ip []) && has_slash ip && covers_protected h ip then (true, h)
  else if existsb (fun e =>
            (negb (bytes_eqb username []) && name_same (ban_username e) username) ||
            (negb (bytes_eqb ip []) && ip_same (ban_ip e) ip)) (bs_bans h)
  then (true, h)
  else
    (true, with_bans h (bs_bans h ++
       [{| ban_username := take (SSH_CHATTER_USERNAME_LEN - 1) username;
           ban_ip := take (SSH_CHATTER_IP_LEN - 1) ip |}])).

(** The first entry of a name or address goes, the later ones move up. *)
Fixpoint remove_first (token : bytes) (l : list host_ban_entry) : option (list host_ban_entry) :=
  match l with
  | [] => None
  | e :: l =>
      if name_same (ban_username e) token || ip_same (ban_ip e) token then Some l
      else match remove_first token l with Some l => Some (e :: l) | None => None end
  end.

Definition host_remove_ban_entry (h : ban_state) (token : bytes) : bool * ban_state :=
  if bytes_eqb token [] then (false, h)
  else match remove_first token (bs_bans h) with
       | Some l => (true, with_bans h l)
       | None => (false, h)
       end.

(** The loop of [host_ban_state_load] over the entries of the file. *)
Fixpoint load_bans (h : ban_state) (count : Z) (entries : list host_ban_entry) :
    list host_ban_entry :=
  match entries with
  | [] => []
  | e :: entries =>
      if SSH_CHATTER_MAX_BANS <=? count then []
      else if negb (bytes_eqb (ban_ip e) []) && host_is_protected_ip_unlocked h (ban_ip e)
      then load_bans h count entries
      else if negb (bytes_eqb (ban_ip e) []) && has_slash (ban_ip e) &&
              covers_protected h (ban_ip e)
      then load_bans h count entries
      else {| ban_username := take (SSH_CHATTER_USERNAME_LEN - 1) (ban_username e);
              ban_ip := take (SSH_CHATTER_IP_LEN - 1) (ban_ip e) |} ::
           load_bans h (count + 1) entries
  end.

Definition host_ban_state_load (h : ban_state) (entries : list host_ban_entry) : ban_state :=
  let h := host_protected_ips_ensure h in
  with_bans h (load_bans h 0 entries).

(** ** Lemmas *)

Lemma ensure_same h :
  bs_bans (host_protected_ips_ensure h) = bs_bans h /\
  bs_protected_ips (host_protected_ips_ensure h) = bs_protected_ips h.
Proof. unfold host_protected_ips_ensure. by case_match. Qed.

(** Only the protected addresses count in the questions about addresses. *)
Lemma protected_ext h h' ip : bs_protected_ips h' = bs_protected_ips h ->
  host_is_protected_ip_unlocked h' ip = host_is_protected_ip_unlocked h ip.
Proof. unfold host_is_protected_ip_unlocked. by intros ->. Qed.

Lemma covers_ext h h' ip : bs_protected_ips h' = bs_protected_ips h ->
  covers_protected h' ip = covers_protected h ip.
Proof. unfold covers_protected. by intros ->. Qed.

Lemma applies_ext h h' ip e : bs_protected_ips h' = bs_protected_ips h ->
  ban_applies h' ip e = ban_applies h ip e.
Proof. intros Heq. unfold ban_applies. by rewrite (protected_ext h h') by done. Qed.

Lemma banned_ext h h' ip : bs_protected_ips h' = bs_protected_ips h -> bs_bans h' = bs_bans h ->
  host_is_ip_banned h' ip = host_is_ip_banned h ip.
Proof.
  intros Hp Hb. unfold host_is_ip_banned. rewrite (protected_ext h h'), Hb by done.
  repeat case_match; try done. apply existsb_ext. intros e. by apply applies_ext.
Qed.

(** The entry an addition stores. *)
Definition stored (username ip : bytes) : host_ban_entry :=
  {| ban_username := take (SSH_CHATTER_USERNAME_LEN - 1) username;
     ban_ip := take (SSH_CHATTER_IP_LEN - 1) ip |}.

(** Why an addition may succeed and store nothing: the target is protected, or a
    ban of the name or the address is already there. *)
Definition nothing_to_add (h : ban_state) (username ip : bytes) : bool :=
  (negb (bytes_eqb ip []) && host_is_protected_ip_unlocked h ip) ||
  (negb (bytes_eqb ip []) && has_slash ip && covers_protected h ip) ||
  existsb (fun e =>
    (negb (bytes_eqb username []) && name_same (ban_username e) username) ||
    (negb (bytes_eqb ip []) && ip_same (ban_ip e) ip)) (bs_bans h).

Lemma add_spec h username ip :
  let (ok, h') := host_add_ban_entry h username ip in
  bs_protected_ips h' = bs_protected_ips h /\
  ok = (Z.of_nat (length (bs_bans h)) <? SSH_CHATTER_MAX_BANS) /\
  bs_bans h' = bs_bans h ++
    (if ok && negb (nothing_to_add h username ip) then [stored username ip] else []).
Proof.
  unfold host_add_ban_entry, nothing_to_add. destruct (ensure_same h) as [Hb Hp].
  set (h1 := host_protected_ips_ensure h) in *.
  rewrite Hb, (protected_ext h h1), (covers_ext h h1) by done.
  rewrite Z.leb_antisym. destruct (_ <? SSH_CHATTER_MAX_BANS); cbn [negb];
    [|split_and!; [done..|by rewrite Hb, app_nil_r]].
  destruct (_ && host_is_protected_ip_unlocked h ip); cbn [orb negb andb];
    [split_and!; [done..|by rewrite Hb, app_nil_r]|].
  destruct (_ && covers_protected h ip); cbn [orb negb andb];
    [split_and!; [done..|by rewrite Hb, app_nil_r]|].
  destruct (existsb _ (bs_bans h)); cbn [orb negb andb];
    split_and!; try done; by rewrite Hb, app_nil_r.
Qed.

(** Adding a ban changes who is banned by exactly the entry it stores: an
    address is banned afterwards when it was before, or when an entry was stored
    that applies to it and the address is not protected. *)
Theorem add_ban_effect h username ip x : x <> [] ->
  let (ok, h') := host_add_ban_entry h username ip in
  host_is_ip_banned h' x =
  host_is_ip_banned h x ||
  (ok && negb (nothing_to_add h username ip) && negb (host_is_protected_ip_unlocked h x) &&
   ban_applies h x (stored username ip)).
Proof.
  intros Hx. pose proof (add_spec h username ip) as Hs.
  destruct (host_add_ban_entry h username ip) as [ok h']. destruct Hs as (Hp & _ & Hb).
  unfold host_is_ip_banned. rewrite (proj2 (bytes_eqb_neq x [])) by done.
  rewrite (protected_ext h h'), Hb by done.
  destruct (host_is_protected_ip_unlocked h x); cbn [negb];
    [by rewrite andb_false_r|]. rewrite andb_true_r, existsb_app.
  assert (forall l, existsb (ban_applies h' x) l = existsb (ban_applies h x) l) as Hext
    by (intros; apply existsb_ext; intros; by apply applies_ext).
  rewrite !Hext. destruct (ok && _); simpl; by rewrite ?orb_false_r.
Qed.

Lemma remove_first_app token l e :
  forallb (fun e => negb (name_same (ban_username e) token || ip_same (ban_ip e) token)) l = true ->
  name_same (ban_username e) token || ip_same (ban_ip e) token = true ->
  remove_first token (l ++ [e]) = Some l.
Proof.
  intros Hl He. induction l as [|a l IH]; simpl in *; [by rewrite He|].
  apply andb_true_iff in Hl as [->%negb_true_iff Hl]. by rewrite IH.
Qed.

(** Lifting a ban undoes adding it: where no earlier entry mentions the
    address, removing it after it was added gives the list there was. *)
Theorem remove_undoes_add h username ip :
  ip <> [] -> (length ip < SSH_CHATTER_IP_LEN)%nat -> nothing_to_add h username ip = false ->
  Z.of_nat (length (bs_bans h)) < SSH_CHATTER_MAX_BANS ->
  forallb (fun e => negb (name_same (ban_username e) ip || ip_same (ban_ip e) ip)) (bs_bans h)
    = true ->
  let (ok, h') := host_add_ban_entry h username ip in
  let (ok', h'') := host_remove_ban_entry h' ip in
  ok = true /\ ok' = true /\ bs_bans h'' = bs_bans h /\ bs_protected_ips h'' = bs_protected_ips h.
Proof.
  intros Hne Hlen Hno Hc Hall. pose proof (add_spec h username ip) as Hs.
  destruct (host_add_ban_entry h username ip) as [ok h']. destruct Hs as (Hp & Hok & Hb).
  rewrite (proj2 (Z.ltb_lt _ _) Hc) in Hok. subst ok. rewrite Hno in Hb. cbn in Hb.
  unfold host_remove_ban_entry. rewrite (proj2 (bytes_eqb_neq ip [])) by done.
  rewrite Hb, remove_first_app; [done|done|].
  unfold ip_same, strn_eq. cbn [stored ban_ip]. rewrite (take_ge ip) by (unfold SSH_CHATTER_IP_LEN in *; lia).
  by rewrite bytes_eqb_refl, orb_true_r.
Qed.

(** A ban list as the program leaves it: it fits, its texts fit, and no entry
    meets a protected address. *)
Definition ban_ok (h : ban_state) (e : host_ban_entry) : Prop :=
  (length (ban_username e) < SSH_CHATTER_USERNAME_LEN)%nat /\
  (length (ban_ip e) < SSH_CHATTER_IP_LEN)%nat /\
  host_is_protected_ip_unlocked h (ban_ip e) = false /\
  (has_slash (ban_ip e) = true -> covers_protected h (ban_ip e) = false).

Definition bans_ok (h : ban_state) : Prop :=
  Z.of_nat (length (bs_bans h)) <= SSH_CHATTER_MAX_BANS /\ Forall (ban_ok h) (bs_bans h).

Lemma ban_ok_ext h h' e : bs_protected_ips h' = bs_protected_ips h -> ban_ok h e -> ban_ok h' e.
Proof.
  intros Hp. unfold ban_ok. by rewrite (protected_ext h h'), (covers_ext h h') by done.
Qed.

Lemma load_bans_ok h l c : Forall (ban_ok h) l -> 0 <= c ->
  c + Z.of_nat (length l) <= SSH_CHATTER_MAX_BANS -> load_bans h c l = l.
Proof.
  intros Hl. revert c; induction Hl as [|[u i] l (Hu & Hi & Hp & Hcov) _ IH]; intros c Hc Hlen; [done|].
  simpl in *. rewrite (proj2 (Z.leb_gt _ _)) by lia. rewrite Hp, andb_false_r.
  assert (negb (bytes_eqb i []) && has_slash i && covers_protected h i = false) as ->.
  { destruct (has_slash i); [rewrite Hcov by done|]; by rewrite ?andb_false_r. }
  rewrite IH by lia. by rewrite !take_ge by (unfold SSH_CHATTER_USERNAME_LEN, SSH_CHATTER_IP_LEN in *; lia).
Qed.

(** The ban list survives a restart: adding keeps the list free of bans that
    meet a protected address, and reloading the entries of such a list gives the
    same list. *)
Theorem bans_survive_reload h username ip : bans_ok h -> (length ip < SSH_CHATTER_IP_LEN)%nat ->
  let (_, h') := host_add_ban_entry h username ip in
  bans_ok h' /\ bs_bans (host_ban_state_load h' (bs_bans h')) = bs_bans h'.
Proof.
  intros [Hc Hf] Hlen. pose proof (add_spec h username ip) as Hs.
  destruct (host_add_ban_entry h username ip) as [ok h']. destruct Hs as (Hp & Hok & Hb).
  assert (bans_ok h') as [Hc' Hf'].
  { split.
    - rewrite Hb, length_app. destruct ok; bprop; case_match; simpl; try lia;
        symmetry in Hok; apply Z.ltb_lt in Hok; lia.
    - rewrite Hb. apply Forall_app. split; [by eapply Forall_impl; [|intros; eapply ban_ok_ext]|].
      destruct (ok && _) eqn:E; [|constructor]. apply Forall_singleton. bprop.
      destruct E as [_ E]. unfold nothing_to_add in E. apply orb_false_iff in E as [E _].
      apply orb_false_iff in E as [E1 E2]. unfold ban_ok, stored. cbn [ban_username ban_ip].
      rewrite (take_ge ip) by (unfold SSH_CHATTER_IP_LEN in *; lia).
      rewrite (protected_ext h h'), (covers_ext h h') by done.
      rewrite length_take. split_and!; [unfold SSH_CHATTER_USERNAME_LEN; lia|done| |].
      + destruct ip; [done|]. by destruct (host_is_protected_ip_unlocked h _).
      + intros Hsl. rewrite Hsl in E2. destruct ip; [done|]. by destruct (covers_protected h _). }
  split; [by split|]. unfold host_ban_state_load. simpl. apply load_bans_ok; [|lia..].
  eapply Forall_impl; [exact Hf'|]. intros e. apply ban_ok_ext, ensure_same.
Qed.

(** The code's own report can mislead: banning a new address together with a
    name that is banned already is reported as done, and stores nothing. *)
Theorem add_ban_reports_done h username ip :
  Z.of_nat (length (bs_bans h)) < SSH_CHATTER_MAX_BANS ->
  host_is_username_banned h username = true ->
  let (ok, h') := host_add_ban_entry h username ip in
  ok = true /\ bs_bans h' = bs_bans h /\
  forall x, host_is_ip_banned h' x = host_is_ip_banned h x.
Proof.
  intros Hc Hu. pose proof (add_spec h username ip) as Hs.
  destruct (host_add_ban_entry h username ip) as [ok h']. destruct Hs as (Hp & Hok & Hb).
  rewrite (proj2 (Z.ltb_lt _ _) Hc) in Hok. subst ok.
  assert (nothing_to_add h username ip = true) as Hn.
  { unfold nothing_to_add. apply orb_true_iff. right. unfold host_is_username_banned in Hu.
    destruct (bytes_eqb username []); [done|]. apply existsb_exists in Hu as (e & He & Hm).
    apply existsb_exists. exists e. split; [done|]. by rewrite Hm. }
  rewrite Hn, app_nil_r in Hb. split_and!; [done|done|]. intros x. by apply banned_ext.
Qed.
End Bans.
End Bans.

(** ** Samples *)

Module BanSamples.
Import Bans.

#[local] Existing Instances Samples.pton Samples.alloc.

Definition sample : ban_state :=
  {| bs_bans := [{| ban_username := lit "mallory"; ban_ip := [] |}];
     bs_protected_ips := [lit "127.0.0.1"]; bs_protected_allocated := true |}.

Lemma add_ban_effect_witness :
  let (ok, h') := host_add_ban_entry sample [] (lit "10.0.0.0/8") in
  host_is_ip_banned h' (lit "10.9.9.9") =
  host_is_ip_banned sample (lit "10.9.9.9") ||
  (ok && negb (nothing_to_add sample [] (lit "10.0.0.0/8")) &&
   negb (host_is_protected_ip_unlocked sample (lit "10.9.9.9")) &&
   ban_applies sample (lit "10.9.9.9") (stored [] (lit "10.0.0.0/8"))).
Proof. apply add_ban_effect. discriminate. Defined.

Lemma remove_undoes_add_witness :
  let (ok, h') := host_add_ban_entry sample (lit "eve") (lit "10.1.1.1") in
  let (ok', h'') := host_remove_ban_entry h' (lit "10.1.1.1") in
  ok = true /\ ok' = true /\ bs_bans h'' = bs_bans sample /\
  bs_protected_ips h'' = bs_protected_ips sample.
Proof.
  apply remove_undoes_add; [discriminate|vm_compute; lia|vm_compute; reflexivity|reflexivity|].
  vm_compute; reflexivity.
Defined.

Lemma bans_survive_reload_witness :
  let (_, h') := host_add_ban_entry sample [] (lit "10.0.0.0/8") in
  bans_ok h' /\ bs_bans (host_ban_state_load h' (bs_bans h')) = bs_bans h'.
Proof.
  apply bans_survive_reload; [|vm_compute; lia]. split; [vm_compute; discriminate|].
  repeat constructor; vm_compute; lia || done.
Defined.

Lemma add_ban_reports_done_witness :
  let (ok, h') := host_add_ban_entry sample (lit "mallory") (lit "10.1.1.1") in
  ok = true /\ bs_bans h' = bs_bans sample /\
  forall x, host_is_ip_banned h' x = host_is_ip_banned sample x.
Proof. apply add_ban_reports_done; vm_compute; reflexivity. Defined.
End BanSamples.
