(* ===== verification/DisplayModel.v ===== *)
(** The display model of the terminal client: [src/display_model.c] with
    [src/include/ssh_chatter/display_model.h], and its sibling client of the same
    storage, [src/include/ssh_chatter/abstract_byte_buffer.h].

    The storage ([ttak_abstract_alloc], [_resize], [_map], [_free]) is code of a
    submodule: the interface [Storage] states what its clients rely on.  Module
    [Wrap] is the wrapping of one message, [Display] the model over the storage,
    [ByteBuffer] the growing text buffer.

    A text is read up to its terminator; a multi-byte character cut off by the
    terminator is measured as if zeros followed it. *)

From Stdlib Require Import ZArith Lia String Ascii Sorted.
From stdpp Require Import prelude.
From S2P Require Import Prelude.

(** ** Storage *)

(** A block of cells of [cell_size] bytes each; offsets and sizes are in bytes, as
    the code passes them.  Every request may fail.  [cells] is what a block holds,
    for the laws only. *)
Class Storage (C : Type) (cell_size : Z) := {
  block : Type;
  storage_alloc : Z -> option block;
  storage_resize : block -> Z -> option block;
  storage_read : block -> Z -> Z -> option (list C);
  storage_write : block -> Z -> list C -> option block;
  cells : block -> list C
}.

Class StorageOk (C : Type) (cell_size : Z) `{Storage C cell_size} := {
  alloc_cells n b : 0 <= n -> storage_alloc (n * cell_size) = Some b ->
    length (cells b) = Z.to_nat n;
  resize_cells b n b' : Z.of_nat (length (cells b)) <= n ->
    storage_resize b (n * cell_size) = Some b' ->
    length (cells b') = Z.to_nat n /\ take (length (cells b)) (cells b') = cells b;
  read_cells b i n l : storage_read b (i * cell_size) (n * cell_size) = Some l ->
    l = take (Z.to_nat n) (drop (Z.to_nat i) (cells b)) /\
    i + n <= Z.of_nat (length (cells b));
  write_cells b i l b' : 0 <= i -> storage_write b (i * cell_size) l = Some b' ->
    i + Z.of_nat (length l) <= Z.of_nat (length (cells b)) /\
    cells b' = take (Z.to_nat i) (cells b) ++ l ++ drop (Z.to_nat i + length l) (cells b)
}.

(** ** Wrapping *)

Module Wrap.

Definition DISPLAY_LINE_TEXT_MAX : Z := 4096.

Record display_line := { dl_message_id : Z; dl_subline_index : Z; dl_text : bytes }.

(** The bytes of an escape sequence before its final byte. *)
Definition csi_middle (c : Z) : bool := (32 <=? c) && (c <? 64).

Definition wide3 (cp : Z) : bool :=
  ((4352 <=? cp) && (cp <=? 4447)) || (cp =? 9001) || (cp =? 9002) ||
  ((11904 <=? cp) && (cp <=? 12350)) || ((12352 <=? cp) && (cp <=? 42191)) ||
  ((44032 <=? cp) && (cp <=? 55203)) || ((63744 <=? cp) && (cp <=? 64255)) ||
  ((65040 <=? cp) && (cp <=? 65135)) || ((65281 <=? cp) && (cp <=? 65376)) ||
  ((65504 <=? cp) && (cp <=? 65510)).

Definition wide4 (cp : Z) : bool := (131072 <=? cp) && (cp <=? 196605).

(** The length and the columns of the sequence a lead byte announces. *)
Definition lead_shape (s : bytes) : nat * Z :=
  let b i := nthb s i in
  if Z.land (b 0%nat) 224 =? 192 then (2%nat, 1)
  else if Z.land (b 0%nat) 240 =? 224 then
    let cp := Z.lor (Z.lor (Z.shiftl (Z.land (b 0%nat) 15) 12)
                           (Z.shiftl (Z.land (b 1%nat) 63) 6)) (Z.land (b 2%nat) 63) in
    (3%nat, if wide3 cp then 2 else 1)
  else if Z.land (b 0%nat) 248 =? 240 then
    let cp := Z.lor (Z.lor (Z.lor (Z.shiftl (Z.land (b 0%nat) 7) 18)
                                  (Z.shiftl (Z.land (b 1%nat) 63) 12))
                           (Z.shiftl (Z.land (b 2%nat) 63) 6)) (Z.land (b 3%nat) 63) in
    (4%nat, if wide4 cp then 2 else 1)
  else (1%nat, 1).

(** The sequence ends early at the terminator or at a byte that does not
    continue it. *)
Fixpoint valid_length (rest : bytes) (i byte_len : nat) : nat :=
  match rest with
  | [] => byte_len
  | c :: rest =>
      if (i <? byte_len)%nat then
        if negb (Z.land c 192 =? 128) then i else valid_length rest (S i) byte_len
      else byte_len
  end.

(** The columns of the character at [p] and what follows it. *)
Definition utf8_char_width (p : bytes) : Z * bytes :=
  match p with
  | [] => (0, [])
  | c :: t =>
      if (c =? c_esc) && (nthb p 1 =? c_lbracket) then
        (0, drop 1 (skip_while csi_middle (drop 2 p)))
      else if c <? 128 then ((if 32 <=? c then 1 else 0), t)
      else
        let (byte_len, display_cols) := lead_shape p in
        (display_cols, drop (valid_length t 1 byte_len) p)
  end.

(** [memcpy] of a character into the line, dropped when the line is full. *)
Definition copy_char (out char : bytes) : bytes :=
  if Z.of_nat (length out) + Z.of_nat (length char) <? DISPLAY_LINE_TEXT_MAX - 1
  then out ++ char else out.

(** The inner loop: the text of one line and the cursor after it. *)
Fixpoint fill_line (fuel : nat) (width : Z) (cursor : bytes) (col : Z) (out : bytes) :
    bytes * bytes :=
  match fuel, cursor with
  | S fuel, c :: _ =>
      if c =? c_lf then (out, cursor)
      else
        let (cw, next) := utf8_char_width cursor in
        let char := take (length cursor - length next) cursor in
        if (width <? col + cw) && (0 <? col) then (out, cursor)
        else if (width <? cw) && (col =? 0) then (copy_char out char, next)
        else fill_line fuel width next (col + cw) (copy_char out char)
  | _, _ => (out, cursor)
  end.

Fixpoint wrap_go (fuel : nat) (width message_id : Z) (cursor : bytes) (subline : Z)
    (out_capacity : nat) : list display_line :=
  match fuel, cursor, out_capacity with
  | S fuel, _ :: _, S room =>
      let (text, cursor) := fill_line (length cursor) width cursor 0 [] in
      let cursor := match cursor with c :: t => if c =? c_lf then t else cursor | [] => [] end in
      {| dl_message_id := message_id; dl_subline_index := subline; dl_text := text |} ::
        wrap_go fuel width message_id cursor (u16 (subline + 1)) room
  | _, _, _ => []
  end.

(** Each line takes at least one byte of the text, so its length is fuel enough. *)
Definition display_model_wrap_line (text : option bytes) (width message_id : Z)
    (out_capacity : nat) : list display_line :=
  match text with
  | None => []
  | Some text =>
      if (width =? 0) || (out_capacity =? 0)%nat then []
      else
        match wrap_go (length text) width message_id text 0 out_capacity with
        | [] => [{| dl_message_id := message_id; dl_subline_index := 0; dl_text := [] |}]
        | lines => lines
        end
  end.

(** ** Every line fits the width, and nothing is lost *)

Lemma valid_length_bounds rest i n : (i <= n)%nat -> (i <= valid_length rest i n <= n)%nat.
Proof.
  revert i; induction rest as [|c rest IH]; intros i Hi; simpl; [lia|].
  destruct (Nat.ltb_spec i n); [|lia]. destruct (negb _); [lia|]. specialize (IH (S i)). lia.
Qed.

Lemma char_width_suffix p : p <> [] ->
  let (cw, next) := utf8_char_width p in
  0 <= cw <= 2 /\ exists char, char <> [] /\ p = char ++ next.
Proof.
  intros Hp. destruct p as [|c t]; [done|]. unfold utf8_char_width.
  destruct ((c =? c_esc) && _) eqn:E.
  { split; [lia|]. apply andb_true_iff in E as [_ E].
    destruct t as [|d t]; [done|]. change (drop 2 (c :: d :: t)) with t.
    assert (exists u, t = u ++ drop 1 (skip_while csi_middle t)) as (u & Hu).
    { clear. induction t as [|a t IH]; simpl; [by exists []|].
      destruct (csi_middle a); [|by exists [a]].
      destruct IH as (u & Hu). exists (a :: u). simpl. by f_equal. }
    exists (c :: d :: u). split; [done|]. cbn [app]. by rewrite <- Hu. }
  destruct (c <? 128).
  { split; [case_match; lia|]. by exists [c]. }
  destruct (lead_shape (c :: t)) as [n cols] eqn:El.
  assert ((1 <= n)%nat /\ 0 <= cols <= 2) as [Hn Hcols].
  { revert El. unfold lead_shape. repeat case_match; intros [= <- <-]; lia. }
  split; [done|]. pose proof (valid_length_bounds t 1 n Hn).
  destruct (valid_length t 1 n) as [|k]; [lia|].
  exists (c :: take k t). split; [done|]. simpl. by rewrite take_drop.
Qed.

(** A character as the code measures it: its bytes and its columns. *)
Definition is_char (bw : bytes * Z) : Prop :=
  fst bw <> [] /\ 0 <= snd bw <= 2 /\
  exists next, utf8_char_width (fst bw ++ next) = (snd bw, next).

Definition columns (chars : list (bytes * Z)) : Z := fold_right Z.add 0 (map snd chars).
Definition glue (chars : list (bytes * Z)) : bytes := mjoin (map fst chars).

(** A line that fits: its columns are within the width, or it is one character
    wider than the whole width, after characters without columns. *)
Definition fits (width : Z) (chars : list (bytes * Z)) : Prop :=
  columns chars <= width \/
  exists zs bw, chars = zs ++ [bw] /\ columns zs = 0 /\ width < snd bw.

Lemma columns_snoc chars bw : columns (chars ++ [bw]) = columns chars + snd bw.
Proof.
  unfold columns. rewrite map_app, fold_right_app. simpl.
  induction (map snd chars); simpl in *; lia.
Qed.

Lemma glue_snoc chars bw : glue (chars ++ [bw]) = glue chars ++ fst bw.
Proof. unfold glue. rewrite map_app, join_app. simpl. by rewrite app_nil_r. Qed.

Lemma cut_char (cursor char next : bytes) : cursor = char ++ next ->
  take (length cursor - length next) cursor = char.
Proof.
  intros ->. rewrite length_app. replace (_ - _)%nat with (length char) by lia.
  by rewrite take_app_length.
Qed.

Lemma fill_line_spec fuel width cursor chars :
  1 <= width -> (length cursor <= fuel)%nat -> Forall is_char chars ->
  columns chars <= width ->
  Z.of_nat (length (glue chars) + length cursor) < DISPLAY_LINE_TEXT_MAX - 1 ->
  let (text, rest) := fill_line fuel width cursor (columns chars) (glue chars) in
  exists more, text = glue (chars ++ more) /\ cursor = glue more ++ rest /\
    Forall is_char (chars ++ more) /\ fits width (chars ++ more) /\
    (chars = [] -> peek cursor <> c_lf -> cursor <> [] -> more <> []).
Proof.
  intros Hw. revert cursor chars; induction fuel as [|fuel IH]; intros cursor chars Hf Hall Hcol Hlen;
    cbn [fill_line].
  { exists []. rewrite app_nil_r. split_and!; try done; [by left|]. by destruct cursor; simpl in *; [|lia]. }
  destruct cursor as [|c t].
  { exists []. rewrite app_nil_r. split_and!; try done. by left. }
  destruct (Z.eqb_spec c c_lf) as [->|Hc].
  { exists []. rewrite app_nil_r. split_and!; try done. by left. }
  pose proof (char_width_suffix (c :: t) ltac:(done)) as Hch.
  destruct (utf8_char_width (c :: t)) as [cw next] eqn:Ew.
  destruct Hch as (Hcw & char & Hne & Hct). rewrite (cut_char _ char next) by done.
  assert (is_char (char, cw)) as Hic by (split_and!; [done|simpl; lia..|exists next; simpl; by rewrite <- Hct]).
  assert (0 <= columns chars) as Hpos.
  { clear -Hall. unfold columns. induction Hall as [|[b w] l (_ & Hb & _) _ IH]; simpl in *; lia. }
  assert (copy_char (glue chars) char = glue (chars ++ [(char, cw)])) as Hcopy.
  { unfold copy_char. rewrite glue_snoc. rewrite Hct, length_app in Hlen.
    by rewrite (proj2 (Z.ltb_lt _ _)) by lia. }
  rewrite Hcopy. destruct ((width <? columns chars + cw) && (0 <? columns chars)) eqn:E1.
  { exists []. rewrite app_nil_r. split_and!; try done; [by left|].
    intros -> _ _. cbn in E1. by rewrite andb_false_r in E1. }
  assert (Forall is_char (chars ++ [(char, cw)])) as Hall'
    by (apply Forall_app; split; [done|by apply Forall_singleton]).
  destruct ((width <? cw) && (columns chars =? 0)) eqn:E2.
  - exists [(char, cw)]. split_and!; try done.
    + rewrite Hct. unfold glue. simpl. by rewrite app_nil_r.
    + right. exists chars, (char, cw). bprop. split_and!; [done|lia|simpl; lia].
  - assert (columns (chars ++ [(char, cw)]) <= width) as Hcol'.
    { rewrite columns_snoc. simpl. destruct (Z.ltb_spec width (columns chars + cw)); [|done].
      simpl in E1. destruct (Z.ltb_spec 0 (columns chars)); [done|].
      destruct (Z.ltb_spec width cw), (Z.eqb_spec (columns chars) 0); simpl in E2; lia || done. }
    specialize (IH next (chars ++ [(char, cw)])). rewrite columns_snoc in IH. cbn [snd] in IH.
    rewrite columns_snoc in Hcol'. cbn [snd] in Hcol'.
    assert (length (c :: t) = length char + length next)%nat as Hl by (by rewrite Hct, length_app).
    destruct char as [|c0 char0]; [done|]. simpl in Hl. simpl in Hf.
    specialize (IH ltac:(lia) Hall' Hcol').
    rewrite glue_snoc, length_app in IH. cbn [fst length] in IH.
    rewrite <- glue_snoc with (bw := (c0 :: char0, cw)) in IH.
    specialize (IH ltac:(simpl in Hlen; lia)).
    destruct (fill_line fuel width next _ _) as [text rest].
    destruct IH as (more & Ht & Hn & Ha & Hfit & _). rewrite <- app_assoc in Ht, Ha, Hfit.
    exists ((c0 :: char0, cw) :: more). split_and!; try done.
    rewrite Hct, Hn. unfold glue. simpl. by rewrite app_assoc.
Qed.

(** What a line leaves out of the text: a line feed or nothing. *)
Definition line_end (e : bytes) : Prop := e = [] \/ e = [c_lf].

Definition line_ok (width message_id : Z) (l : display_line) : Prop :=
  dl_message_id l = message_id /\
  exists chars, dl_text l = glue chars /\ Forall is_char chars /\ fits width chars.

Lemma wrap_go_spec fuel width id cursor subline room :
  1 <= width -> (length cursor <= fuel)%nat ->
  Z.of_nat (length cursor) < DISPLAY_LINE_TEXT_MAX - 1 ->
  let lines := wrap_go fuel width id cursor subline room in
  Forall (line_ok width id) lines /\
  ((length lines < room)%nat ->
   exists ends, length ends = length lines /\ Forall line_end ends /\
     cursor = mjoin (zip_with app (map dl_text lines) ends)).
Proof.
  intros Hw. revert cursor subline room; induction fuel as [|fuel IH];
    intros cursor subline room Hf Hlen; cbn [wrap_go].
  { split; [constructor|]. intros _. exists []. destruct cursor; simpl in *; [|lia].
    split_and!; [done|constructor|done]. }
  destruct cursor as [|c t].
  { split; [constructor|]. intros _. exists []. split_and!; [done|constructor|done]. }
  destruct room as [|room]; [split; [constructor|simpl; lia]|].
  pose proof (fill_line_spec (length (c :: t)) width (c :: t) [] Hw (le_n _) (proj2 (Forall_nil _) I)) as Hs.
  cbn [columns glue map fold_right length] in Hs.
  specialize (Hs ltac:(unfold columns; simpl; lia) Hlen).
  change (columns []) with 0 in Hs. change (glue []) with (@nil Z) in Hs.
  cbn [length] in Hs |- *.
  destruct (fill_line (S (length t)) width (c :: t) 0 []) as [text rest].
  destruct Hs as (more & Ht & Hct & Hall & Hfit & Hmore). simpl in Ht, Hall, Hfit.
  set (rest' := match rest with d :: u => if d =? c_lf then u else rest | [] => [] end).
  assert (exists e, line_end e /\ rest = e ++ rest') as (e & He & Hr).
  { unfold rest'. destruct rest as [|d u]; [exists []; split; [by left|done]|].
    destruct (Z.eqb_spec d c_lf) as [->|]; [exists [c_lf]; split; [by right|done]|].
    exists []; split; [by left|done]. }
  assert (length rest' < length (c :: t))%nat as Hshort.
  { destruct more as [|[b w] more].
    - destruct (decide (c = c_lf)) as [->|Hc]; [|by destruct Hmore].
      change (c_lf :: t = rest) in Hct. unfold rest'. rewrite <- Hct. simpl. lia.
    - rewrite Hct, Hr, !length_app. apply Forall_cons in Hall as [(Hb & _) _]. destruct b; [done|].
      unfold glue. simpl. lia. }
  simpl in Hf. specialize (IH rest' (u16 (subline + 1)) room ltac:(simpl in Hshort; lia)).
  simpl in Hshort, Hlen. specialize (IH ltac:(lia)).
  destruct IH as [IH1 IH2]. split.
  - constructor; [|done]. split; [done|]. exists more. by split_and!.
  - cbn [length map zip_with]. intros Hroom. destruct IH2 as (ends & Hl & Hends & Hrest); [lia|].
    exists (e :: ends). split_and!; [simpl; by rewrite Hl|by constructor|].
    clearbody rest'. rewrite Hct, Hr, Hrest at 1. simpl. rewrite Ht, <- app_assoc. done.
Qed.

(** A message of less than 4095 bytes is wrapped into lines that fit the
    terminal: each line is made of whole characters that take at most the width,
    or is one character that is wider than the terminal on its own.  When the
    lines do not fill the array they were given, they hold the whole message: only
    line feeds are left out. *)
Theorem wrap_line_fits text width id cap : 1 <= width -> (0 < cap)%nat ->
  Z.of_nat (length text) < DISPLAY_LINE_TEXT_MAX - 1 ->
  let lines := display_model_wrap_line (Some text) width id cap in
  (1 <= length lines)%nat /\
  Forall (line_ok width id) lines /\
  ((length lines < cap)%nat ->
   exists ends, length ends = length lines /\ Forall line_end ends /\
     text = mjoin (zip_with app (map dl_text lines) ends)).
Proof.
  intros Hw Hcap Hlen. unfold display_model_wrap_line.
  rewrite (proj2 (Z.eqb_neq _ _)), (proj2 (Nat.eqb_neq _ _)) by lia. cbn [orb].
  destruct (wrap_go_spec (length text) width id text 0 cap Hw (le_n _) Hlen) as [H1 H2].
  destruct (wrap_go (length text) width id text 0 cap) as [|l lines].
  - split_and!; [simpl; lia| |].
    + constructor; [|constructor]. split; [done|]. exists []. split_and!; [done|constructor|].
      left. unfold columns. simpl. lia.
    + intros _. destruct H2 as (ends & Hl & _ & Ht); [simpl; lia|].
      exists [[]]. split_and!; [done|by repeat constructor|]. simpl in *.
      by destruct ends.
  - split_and!; [simpl; lia|done|done].
Qed.
End Wrap.
Import Wrap.

(** ** The model *)

Module Display.

Inductive display_view_mode := VIEW_FOLLOW_TAIL | VIEW_MANUAL_SCROLL.

Record display_view_anchor := { va_message_id : Z; va_subline_index : Z }.

#[export] Instance display_view_anchor_eq_dec : EqDecision display_view_anchor.
Proof. solve_decision. Defined.

Record display_visible_frame := {
  vf_lines : list display_line;
  vf_count : Z;
  vf_first_global_index : Z;
  vf_at_tail : bool;
  vf_at_head : bool
}.

Definition wrap_room : nat := 256.

Section Display.
Context (line_size : Z) `{Storage display_line line_size}.

Record display_model := {
  dm_storage : option block;
  dm_line_count : Z;
  dm_line_capacity : Z;
  dm_layout_width : Z;
  dm_dirty : bool;
  dm_mode : display_view_mode;
  dm_anchor : display_view_anchor;
  dm_last_visible_start : Z;
  dm_last_viewport_height : Z;
  dm_has_last_visible_frame : bool
}.

Definition no_anchor : display_view_anchor := {| va_message_id := 0; va_subline_index := 0 |}.

Definition empty_model : display_model :=
  {| dm_storage := None; dm_line_count := 0; dm_line_capacity := 0; dm_layout_width := 0;
     dm_dirty := false; dm_mode := VIEW_FOLLOW_TAIL; dm_anchor := no_anchor;
     dm_last_visible_start := 0; dm_last_viewport_height := 0;
     dm_has_last_visible_frame := false |}.

(** The fields the layout changes, and those the view changes. *)
Definition with_lines (m : display_model) (storage : option block) (count capacity : Z) :
    display_model :=
  {| dm_storage := storage; dm_line_count := count; dm_line_capacity := capacity;
     dm_layout_width := dm_layout_width m; dm_dirty := dm_dirty m; dm_mode := dm_mode m;
     dm_anchor := dm_anchor m; dm_last_visible_start := dm_last_visible_start m;
     dm_last_viewport_height := dm_last_viewport_height m;
     dm_has_last_visible_frame := dm_has_last_visible_frame m |}.

Definition with_layout (m : display_model) (width : Z) (dirty : bool) : display_model :=
  {| dm_storage := dm_storage m; dm_line_count := dm_line_count m;
     dm_line_capacity := dm_line_capacity m; dm_layout_width := width; dm_dirty := dirty;
     dm_mode := dm_mode m; dm_anchor := dm_anchor m;
     dm_last_visible_start := dm_last_visible_start m;
     dm_last_viewport_height := dm_last_viewport_height m;
     dm_has_last_visible_frame := dm_has_last_visible_frame m |}.

Definition with_view (m : display_model) (mode : display_view_mode) (anchor : display_view_anchor) :
    display_model :=
  {| dm_storage := dm_storage m; dm_line_count := dm_line_count m;
     dm_line_capacity := dm_line_capacity m; dm_layout_width := dm_layout_width m;
     dm_dirty := dm_dirty m; dm_mode := mode; dm_anchor := anchor;
     dm_last_visible_start := dm_last_visible_start m;
     dm_last_viewport_height := dm_last_viewport_height m;
     dm_has_last_visible_frame := dm_has_last_visible_frame m |}.

Definition with_frame (m : display_model) (has : bool) (start height : Z) : display_model :=
  {| dm_storage := dm_storage m; dm_line_count := dm_line_count m;
     dm_line_capacity := dm_line_capacity m; dm_layout_width := dm_layout_width m;
     dm_dirty := dm_dirty m; dm_mode := dm_mode m; dm_anchor := dm_anchor m;
     dm_last_visible_start := start; dm_last_viewport_height := height;
     dm_has_last_visible_frame := has |}.

Definition display_model_effective_viewport (m : display_model) (fallback_lines : Z) : Z :=
  let vp := if 0 <? dm_last_viewport_height m then dm_last_viewport_height m
            else fallback_lines in
  if vp =? 0 then 1 else vp.

Definition display_model_storage_bytes (line_count : Z) : Z := line_count * line_size.

Definition display_model_view_lines (m : display_model) (start_line line_count : Z) :
    option (list display_line) :=
  match dm_storage m with
  | None => None
  | Some b => storage_read b (display_model_storage_bytes start_line)
                             (display_model_storage_bytes line_count)
  end.

(** The view for writing, and the copy into it that every caller makes. *)
Definition display_model_view_lines_mut (m : display_model) (start_line : Z)
    (lines : list display_line) : option block :=
  match dm_storage m with
  | None => None
  | Some b => storage_write b (display_model_storage_bytes start_line) lines
  end.

(** The doubling loop; [None] when it would overflow.  From 1 on, 64 doublings
    pass the size of the address space. *)
Fixpoint double_until (fuel : nat) (cap needed : Z) : option Z :=
  match fuel with
  | O => None
  | S fuel =>
      if cap <? needed then
        if SIZE_MAX / 2 <? cap then None else double_until fuel (cap * 2) needed
      else Some cap
  end.

Definition display_model_ensure_capacity (m : display_model) (needed_capacity : Z) :
    bool * display_model :=
  if needed_capacity <=? dm_line_capacity m then (true, m)
  else
    let new_cap := if dm_line_capacity m =? 0 then 64 else dm_line_capacity m in
    match double_until 65 new_cap needed_capacity, dm_storage m with
    | Some new_cap, Some b =>
        match storage_resize b (display_model_storage_bytes new_cap) with
        | Some b => (true, with_lines m (Some b) (dm_line_count m) new_cap)
        | None => (false, m)
        end
    | _, _ => (false, m)
    end.

Definition display_model_init (initial_capacity : Z) : bool * display_model :=
  let initial_capacity := if initial_capacity =? 0 then 64 else initial_capacity in
  match storage_alloc (initial_capacity * line_size) with
  | None => (false, empty_model)
  | Some b => (true, with_lines empty_model (Some b) 0 initial_capacity)
  end.

Definition display_model_destroy (m : display_model) : display_model := empty_model.

(** One message's lines written after those there are. *)
Definition push_lines (m : display_model) (wrapped : list display_line) : bool * display_model :=
  let count := Z.of_nat (length wrapped) in
  let (ok, m) := display_model_ensure_capacity m (dm_line_count m + count) in
  if negb ok then (false, m)
  else
    match display_model_view_lines_mut m (dm_line_count m) wrapped with
    | None => (false, m)
    | Some b => (true, with_lines m (Some b) (dm_line_count m + count) (dm_line_capacity m))
    end.

Fixpoint recompute_go (m : display_model) (messages : list (Z * bytes)) (width : Z) :
    bool * display_model :=
  match messages with
  | [] => (true, m)
  | (id, text) :: messages =>
      let (ok, m) := push_lines m (display_model_wrap_line (Some text) width id wrap_room) in
      if ok then recompute_go m messages width else (false, m)
  end.

Definition display_model_recompute_layout (m : display_model) (messages : list (Z * bytes))
    (width : Z) : bool * display_model :=
  let m := with_layout (with_lines m (dm_storage m) 0 (dm_line_capacity m)) width (dm_dirty m) in
  let clean m := with_layout m (dm_layout_width m) false in
  if (length messages =? 0)%nat || (width =? 0) then (true, clean m)
  else
    let (ok, m) := recompute_go m messages width in
    if ok then (true, clean m) else (false, m).

Definition display_model_append_message (m : display_model) (message_id : Z) (text : bytes)
    (width : Z) : bool * display_model :=
  if width =? 0 then (false, m)
  else
    let (ok, m) := push_lines m (display_model_wrap_line (Some text) width message_id wrap_room) in
    if ok then (true, with_layout m width (dm_dirty m)) else (false, m).

(** The first line of the array that satisfies a test. *)
Fixpoint first_index (f : display_line -> bool) (lines : list display_line) (i : Z) : option Z :=
  match lines with
  | [] => None
  | l :: lines => if f l then Some i else first_index f lines (i + 1)
  end.

(** The three searches of [display_model_resolve_anchor] over the lines. *)
Definition resolve_in (lines : list display_line) (a : display_view_anchor) : Z :=
  match first_index (fun l => (dl_message_id l =? va_message_id a) &&
                              (dl_subline_index l =? va_subline_index a)) lines 0 with
  | Some i => i
  | None =>
      match first_index (fun l => dl_message_id l =? va_message_id a) lines 0 with
      | Some i => i
      | None =>
          match first_index (fun l => va_message_id a <=? dl_message_id l) lines 0 with
          | Some i => i
          | None => Z.of_nat (length lines) - 1
          end
      end
  end.

Definition display_model_resolve_anchor (m : display_model) (a : display_view_anchor) : Z :=
  if dm_line_count m =? 0 then SIZE_MAX
  else match display_model_view_lines m 0 (dm_line_count m) with
       | None => SIZE_MAX
       | Some lines => resolve_in lines a
       end.

Definition empty_frame (at_tail at_head : bool) : display_visible_frame :=
  {| vf_lines := []; vf_count := 0; vf_first_global_index := 0;
     vf_at_tail := at_tail; vf_at_head := at_head |}.

Definition display_model_compute_visible (m : display_model) (viewport_height : Z) :
    display_visible_frame * display_model :=
  if (dm_line_count m =? 0) || (viewport_height =? 0)
  then (empty_frame true true, with_frame m false 0 viewport_height)
  else
    let vp := viewport_height in
    let total := dm_line_count m in
    let last_page := if vp <? total then total - vp else 0 in
    let '(first, count, at_tail, at_head) :=
      match dm_mode m with
      | VIEW_FOLLOW_TAIL => (last_page, total - last_page, true, last_page =? 0)
      | VIEW_MANUAL_SCROLL =>
          let anchor_idx := display_model_resolve_anchor m (dm_anchor m) in
          let anchor_idx := if anchor_idx =? SIZE_MAX then last_page else anchor_idx in
          let anchor_idx := if total <? anchor_idx + vp then last_page else anchor_idx in
          let count := total - anchor_idx in
          let count := if vp <? count then vp else count in
          (anchor_idx, count, total <=? anchor_idx + count, anchor_idx =? 0)
      end in
    match display_model_view_lines m first count with
    | None => (empty_frame true true, m)
    | Some lines =>
        ({| vf_lines := lines; vf_count := count; vf_first_global_index := first;
            vf_at_tail := at_tail; vf_at_head := at_head |},
         with_frame m true first viewport_height)
    end.

Definition display_model_follow_tail (m : display_model) : display_model :=
  with_frame (with_view m VIEW_FOLLOW_TAIL no_anchor) false 0 (dm_last_viewport_height m).

Definition line_anchor (l : display_line) : display_view_anchor :=
  {| va_message_id := dl_message_id l; va_subline_index := dl_subline_index l |}.

Definition display_model_scroll_up (m : display_model) (lines : Z) : display_model :=
  if (dm_line_count m =? 0) || (lines =? 0) then m
  else
    let total := dm_line_count m in
    let viewport := display_model_effective_viewport m lines in
    let viewport := if total <? viewport then total else viewport in
    let last_page := if viewport <? total then total - viewport else 0 in
    let '(current_idx, m) :=
      match dm_mode m with
      | VIEW_FOLLOW_TAIL =>
          (if dm_has_last_visible_frame m then dm_last_visible_start m else last_page,
           with_view m VIEW_MANUAL_SCROLL (dm_anchor m))
      | VIEW_MANUAL_SCROLL =>
          let i := display_model_resolve_anchor m (dm_anchor m) in
          (if i =? SIZE_MAX then last_page else i, m)
      end in
    let current_idx := if lines <=? current_idx then current_idx - lines else 0 in
    match display_model_view_lines m current_idx 1 with
    | Some (l :: _) => with_view m (dm_mode m) (line_anchor l)
    | _ => m
    end.

Definition display_model_scroll_down (m : display_model) (lines : Z) : display_model :=
  if (dm_line_count m =? 0) || (lines =? 0) then m
  else
    match dm_mode m with
    | VIEW_FOLLOW_TAIL => m
    | VIEW_MANUAL_SCROLL =>
        let current_idx := display_model_resolve_anchor m (dm_anchor m) in
        let total := dm_line_count m in
        let viewport := display_model_effective_viewport m lines in
        let viewport := if total <? viewport then total else viewport in
        if current_idx =? SIZE_MAX then display_model_follow_tail m
        else
          let max_top := if viewport <? total then total - viewport else 0 in
          if max_top =? 0 then display_model_follow_tail m
          else
            let new_idx := current_idx + lines in
            if max_top <=? new_idx then display_model_follow_tail m
            else match display_model_view_lines m new_idx 1 with
                 | Some (l :: _) => with_view m (dm_mode m) (line_anchor l)
                 | _ => display_model_follow_tail m
                 end
    end.

(** ** Refinement: the model is the list of its lines *)

Context `{!StorageOk display_line line_size}.

Definition lines_of (m : display_model) : list display_line :=
  match dm_storage m with
  | Some b => take (Z.to_nat (dm_line_count m)) (cells b)
  | None => []
  end.

(** The array has its capacity, and holds the lines. *)
Definition model_ok (m : display_model) : Prop :=
  exists b, dm_storage m = Some b /\ Z.of_nat (length (cells b)) = dm_line_capacity m /\
    0 <= dm_line_count m <= dm_line_capacity m.

Lemma lines_length m : model_ok m -> Z.of_nat (length (lines_of m)) = dm_line_count m.
Proof. intros (b & Hb & Hc & Hn). unfold lines_of. rewrite Hb, length_take. lia. Qed.

Lemma double_until_spec fuel cap needed c : double_until fuel cap needed = Some c ->
  0 < cap -> needed <= c /\ cap <= c.
Proof.
  revert cap; induction fuel as [|fuel IH]; intros cap Heq Hc; [done|]. cbn [double_until] in Heq.
  destruct (Z.ltb_spec cap needed).
  - destruct (SIZE_MAX / 2 <? cap); [done|]. apply IH in Heq; lia.
  - injection Heq as <-. lia.
Qed.

Lemma ensure_capacity_spec m n : model_ok m ->
  let (ok, m') := display_model_ensure_capacity m n in
  model_ok m' /\ lines_of m' = lines_of m /\ dm_line_count m' = dm_line_count m /\
  dm_mode m' = dm_mode m /\ dm_anchor m' = dm_anchor m /\
  (ok = true -> n <= dm_line_capacity m').
Proof.
  intros Hok. pose proof Hok as (b & Hb & Hc & Hn). unfold display_model_ensure_capacity.
  destruct (Z.leb_spec n (dm_line_capacity m)); [by split_and!|].
  destruct (double_until _ _ _) as [c|] eqn:Hd; [|by split_and!].
  apply double_until_spec in Hd; [|case_match; bprop; lia]. rewrite Hb.
  destruct (storage_resize b _) as [b'|] eqn:Hr; [|by split_and!].
  assert (dm_line_capacity m <= c) by (destruct Hd as [_ Hd]; case_match; bprop; lia).
  apply resize_cells in Hr as [Hl Ht]; [|lia]. split_and!; try done.
  - exists b'. simpl. split_and!; [done|lia..].
  - unfold lines_of. simpl. rewrite Hb. rewrite <- Ht. rewrite take_take. f_equal. lia.
  - simpl. intros _. lia.
Qed.

Lemma push_lines_spec m wrapped : model_ok m ->
  let (ok, m') := push_lines m wrapped in
  model_ok m' /\ dm_mode m' = dm_mode m /\ dm_anchor m' = dm_anchor m /\
  lines_of m' = lines_of m ++ (if ok then wrapped else []).
Proof.
  intros Hok. unfold push_lines.
  pose proof (ensure_capacity_spec m (dm_line_count m + Z.of_nat (length wrapped)) Hok) as Hs.
  destruct (display_model_ensure_capacity m _) as [ok m1].
  destruct Hs as (Hok1 & Hl & Hn1 & Hm & Ha & Hcap).
  destruct ok; cbn [negb]; [|by rewrite app_nil_r]. specialize (Hcap eq_refl).
  destruct Hok1 as (b & Hb & Hc & Hn). unfold display_model_view_lines_mut. rewrite Hb.
  destruct (storage_write b _ wrapped) as [b'|] eqn:Hw;
    [|rewrite app_nil_r; split_and!; [by exists b|done..]].
  apply write_cells in Hw as [Hfit Hcells]; [|lia]. split_and!; try done.
  - exists b'. simpl. split_and!; [done| |lia..].
    rewrite Hcells, !length_app, length_take, length_drop. lia.
  - rewrite <- Hl. unfold lines_of at 1. simpl. rewrite Hcells, app_assoc.
    assert (take (Z.to_nat (dm_line_count m1)) (cells b) = lines_of m1) as Htake
      by (unfold lines_of; by rewrite Hb).
    rewrite Htake. apply take_app_length'. rewrite length_app.
    assert (Z.of_nat (length (lines_of m1)) = dm_line_count m1)
      by (apply lines_length; by exists b). lia.
Qed.

(** Appending a message adds its wrapped lines after those there are, or
    fails and leaves the lines and the view as they were. *)
Theorem append_message_appends m id text width : model_ok m -> 1 <= width ->
  let (ok, m') := display_model_append_message m id text width in
  model_ok m' /\ dm_mode m' = dm_mode m /\ dm_anchor m' = dm_anchor m /\
  lines_of m' = lines_of m ++
    (if ok then display_model_wrap_line (Some text) width id wrap_room else []).
Proof.
  intros Hok Hw. unfold display_model_append_message. rewrite (proj2 (Z.eqb_neq _ _)) by lia.
  pose proof (push_lines_spec m (display_model_wrap_line (Some text) width id wrap_room) Hok) as Hs.
  by destruct (push_lines m _) as [[] m'].
Qed.

Definition wrap_all (messages : list (Z * bytes)) (width : Z) : list display_line :=
  mjoin (map (fun '(id, text) => display_model_wrap_line (Some text) width id wrap_room) messages).

Lemma recompute_go_spec m messages width : model_ok m ->
  let (ok, m') := recompute_go m messages width in
  model_ok m' /\ dm_mode m' = dm_mode m /\ dm_anchor m' = dm_anchor m /\
  (ok = true -> lines_of m' = lines_of m ++ wrap_all messages width).
Proof.
  revert m; induction messages as [|[id text] messages IH]; intros m Hok; cbn [recompute_go].
  { split_and!; try done. intros _. unfold wrap_all. simpl. by rewrite app_nil_r. }
  pose proof (push_lines_spec m (display_model_wrap_line (Some text) width id wrap_room) Hok) as Hs.
  destruct (push_lines m _) as [[] m1]; destruct Hs as (Hok1 & Hm & Ha & Hl); [|by split_and!].
  specialize (IH m1 Hok1). destruct (recompute_go m1 messages width) as [ok m2].
  destruct IH as (Hok2 & Hm2 & Ha2 & Hl2). split_and!; [done|congruence..|].
  intros ->. rewrite Hl2, Hl, <- app_assoc by done. done.
Qed.

(** C36: the incremental layout agrees with the full one.  Laying out the whole
    log again and appending messages one by one to a fresh layout lead to the same
    lines: those of every message in the order of the log. *)
Theorem layout_of_log m messages id text width : model_ok m -> 1 <= width ->
  let (ok1, m1) := display_model_recompute_layout m messages width in
  let (ok2, m2) := display_model_append_message m1 id text width in
  let (ok3, m3) := display_model_recompute_layout m (messages ++ [(id, text)]) width in
  (ok1 = true -> lines_of m1 = wrap_all messages width) /\
  (ok1 = true -> ok2 = true -> ok3 = true -> lines_of m2 = lines_of m3).
Proof.
  intros Hok Hw.
  assert (forall msgs, let (ok, m') := display_model_recompute_layout m msgs width in
    model_ok m' /\ (ok = true -> lines_of m' = wrap_all msgs width)) as Hrec.
  { intros msgs. unfold display_model_recompute_layout. rewrite (proj2 (Z.eqb_neq width 0)) by lia.
    rewrite orb_false_r. set (m0 := with_layout _ width _).
    assert (model_ok m0) as Hok0.
    { destruct Hok as (b & Hb & Hc & Hn). exists b. simpl. split_and!; [done|lia..]. }
    assert (lines_of m0 = []) as Hl0
      by (unfold lines_of; simpl; by destruct (dm_storage m)).
    destruct (Nat.eqb_spec (length msgs) 0) as [Hz|Hz].
    { destruct msgs; [|done]. split; [exact Hok0|]. intros _. exact Hl0. }
    pose proof (recompute_go_spec m0 msgs width Hok0) as Hs.
    destruct (recompute_go m0 msgs width) as [[] m']; destruct Hs as (Hok' & _ & _ & Hl);
      (split; [exact Hok'|]); [|done].
    intros _. rewrite Hl0 in Hl. by apply Hl. }
  pose proof (Hrec messages) as H1. pose proof (Hrec (messages ++ [(id, text)])) as H3.
  destruct (display_model_recompute_layout m messages width) as [ok1 m1].
  destruct (display_model_recompute_layout m (messages ++ _) width) as [ok3 m3].
  destruct H1 as [Hok1 Hl1], H3 as [_ Hl3].
  unfold display_model_append_message. rewrite (proj2 (Z.eqb_neq width 0)) by lia.
  pose proof (push_lines_spec m1 (display_model_wrap_line (Some text) width id wrap_room) Hok1) as Hs.
  destruct (push_lines m1 _) as [[] m2]; destruct Hs as (_ & _ & _ & Hl2); (split; [done|]).
  - intros -> _ ->. unfold lines_of at 1. simpl. fold (lines_of m2).
    rewrite Hl2, Hl1, Hl3 by done. unfold wrap_all. rewrite map_app, join_app. simpl.
    by rewrite app_nil_r.
  - done.
Qed.
(** ** The view *)

(** A first index is that of the first line that satisfies the test. *)
Lemma first_index_Some f ls i l : ls !! i = Some l -> f l = true ->
  (forall j x, (j < i)%nat -> ls !! j = Some x -> f x = false) ->
  forall k, first_index f ls k = Some (k + Z.of_nat i).
Proof.
  revert i; induction ls as [|x ls IH]; intros i Hi Hl Hbefore k; [done|]. cbn [first_index].
  destruct i as [|i].
  - injection Hi as ->. rewrite Hl. f_equal. lia.
  - rewrite (Hbefore 0%nat x) by (done || lia). rewrite (IH i) by (done ||
      (intros j y Hj Hy; apply (Hbefore (S j)); [lia|done])). f_equal. lia.
Qed.

Lemma first_index_bounds f ls k i : first_index f ls k = Some i ->
  k <= i < k + Z.of_nat (length ls).
Proof.
  revert k; induction ls as [|x ls IH]; intros k; cbn [first_index length]; [done|].
  destruct (f x); [intros [= <-]; lia|]. intros Hi%IH. lia.
Qed.

Lemma first_index_in f ls l k : l ∈ ls -> f l = true -> first_index f ls k <> None.
Proof.
  intros Hin Hf. revert k. induction ls as [|x ls IH]; intros k; cbn [first_index].
  - by apply not_elem_of_nil in Hin.
  - apply elem_of_cons in Hin as [->|Hin]; [by rewrite Hf|].
    destruct (f x); [done|]. by apply IH.
Qed.

Lemma first_index_app f ls more k i : first_index f ls k = Some i ->
  first_index f (ls ++ more) k = Some i.
Proof.
  revert k; induction ls as [|x ls IH]; intros k; cbn [first_index app]; [done|].
  destruct (f x); [done|]. apply IH.
Qed.

Lemma resolve_in_bounds ls a : ls <> [] -> 0 <= resolve_in ls a < Z.of_nat (length ls).
Proof.
  intros Hne. unfold resolve_in. assert (0 < length ls)%nat by (destruct ls; simpl; [done|lia]).
  repeat case_match; repeat match goal with H : first_index _ _ _ = Some _ |- _ =>
    apply first_index_bounds in H end; lia.
Qed.

(** A line's own anchor finds it, where no two lines share an anchor. *)
Lemma resolve_line ls i l : NoDup (map line_anchor ls) -> ls !! i = Some l ->
  resolve_in ls (line_anchor l) = Z.of_nat i.
Proof.
  intros Hnd Hi. unfold resolve_in. rewrite (first_index_Some _ ls i l); [lia|done| |].
  - simpl. by rewrite !Z.eqb_refl.
  - intros j x Hj Hx. apply not_true_iff_false. rewrite andb_true_iff, !Z.eqb_eq. simpl.
    intros [H1 H2]. assert (j = i); [|lia].
    apply (NoDup_lookup (map line_anchor ls) j i (line_anchor l) Hnd);
      change (map line_anchor ls) with (line_anchor <$> ls); rewrite list_lookup_fmap.
    + rewrite Hx. unfold line_anchor. simpl. by rewrite H1, H2.
    + by rewrite Hi.
Qed.

(** What the view relies on: a read inside the array succeeds, and the number of
    lines is not the code's mark for a failed search. *)
Definition view_ok (m : display_model) : Prop :=
  model_ok m /\ dm_line_count m < SIZE_MAX /\
  forall b i n, dm_storage m = Some b -> 0 <= i -> 0 <= n ->
    i + n <= Z.of_nat (length (cells b)) ->
    is_Some (storage_read b (i * line_size) (n * line_size)).

Lemma view_lines_spec m i n : view_ok m -> 0 <= i -> 0 <= n -> i + n <= dm_line_count m ->
  display_model_view_lines m i n = Some (take (Z.to_nat n) (drop (Z.to_nat i) (lines_of m))).
Proof.
  intros ((b & Hb & Hc & Hcnt) & _ & Hread) Hi Hn Hin. unfold display_model_view_lines, lines_of.
  rewrite Hb. destruct (Hread b i n Hb Hi Hn ltac:(lia)) as [l Hl].
  unfold display_model_storage_bytes. rewrite Hl. apply read_cells in Hl as [-> _].
  f_equal. rewrite skipn_firstn_comm, take_take. f_equal. lia.
Qed.

Lemma resolve_anchor_spec m a : view_ok m -> 0 < dm_line_count m ->
  display_model_resolve_anchor m a = resolve_in (lines_of m) a /\
  0 <= resolve_in (lines_of m) a < dm_line_count m.
Proof.
  intros Hok Hpos. unfold display_model_resolve_anchor.
  rewrite (proj2 (Z.eqb_neq _ _)) by lia. rewrite view_lines_spec by (done || lia).
  pose proof (lines_length m ltac:(apply Hok)) as Hl.
  rewrite drop_0, take_ge by lia. split; [done|]. rewrite <- Hl. apply resolve_in_bounds.
  intros Hnil. rewrite Hnil in Hl. simpl in Hl. lia.
Qed.

(** The first line of the window on a model: the last page when following the
    tail, the line of the anchor otherwise, moved up where less than a page
    follows it. *)
Definition top_line (m : display_model) (vp : Z) : Z :=
  let last_page := Z.max 0 (dm_line_count m - vp) in
  match dm_mode m with
  | VIEW_FOLLOW_TAIL => last_page
  | VIEW_MANUAL_SCROLL => Z.min (resolve_in (lines_of m) (dm_anchor m)) last_page
  end.

Lemma compute_visible_spec m vp : view_ok m -> 0 < dm_line_count m -> 1 <= vp ->
  let top := top_line m vp in
  let count := Z.min vp (dm_line_count m) in
  display_model_compute_visible m vp =
  ({| vf_lines := take (Z.to_nat count) (drop (Z.to_nat top) (lines_of m));
      vf_count := count; vf_first_global_index := top;
      vf_at_tail := top + count =? dm_line_count m; vf_at_head := top =? 0 |},
   with_frame m true top vp).
Proof.
  intros Hok Hpos Hvp top count. unfold display_model_compute_visible.
  rewrite (proj2 (Z.eqb_neq (dm_line_count m) _)), (proj2 (Z.eqb_neq vp _)) by lia. cbn [orb].
  destruct (resolve_anchor_spec m (dm_anchor m) Hok Hpos) as [Hres Hbound].
  rewrite Hres. destruct Hok as (Hok & Hmax & Hread).
  set (r := resolve_in (lines_of m) (dm_anchor m)) in *.
  rewrite (proj2 (Z.eqb_neq r SIZE_MAX)) by lia.
  assert ((if vp <? dm_line_count m then dm_line_count m - vp else 0) =
          Z.max 0 (dm_line_count m - vp)) as Hpage by (case_match; bprop; lia).
  rewrite Hpage.
  assert (0 <= top /\ top + count <= dm_line_count m) as [Ht0 Ht1]
    by (unfold top, top_line, count; fold r; destruct (dm_mode m); lia).
  destruct (dm_mode m) eqn:Hmode.
  - assert (top = Z.max 0 (dm_line_count m - vp)) as Htop by (unfold top, top_line; by rewrite Hmode).
    rewrite <- Htop. replace (dm_line_count m - top) with count by (unfold count; lia).
    rewrite view_lines_spec by (done || lia). f_equal. f_equal. symmetry. apply Z.eqb_eq.
    unfold count. lia.
  - assert (top = Z.min r (Z.max 0 (dm_line_count m - vp))) as Htop
      by (unfold top, top_line; by rewrite Hmode).
    assert ((if dm_line_count m <? r + vp then Z.max 0 (dm_line_count m - vp) else r) = top) as ->
      by (destruct (Z.ltb_spec (dm_line_count m) (r + vp)); lia).
    assert ((if vp <? dm_line_count m - top then vp else dm_line_count m - top) = count) as ->
      by (unfold count; destruct (Z.ltb_spec vp (dm_line_count m - top)); lia).
    rewrite view_lines_spec by (done || lia). f_equal. f_equal.
    apply eq_true_iff_eq. rewrite Z.leb_le, Z.eqb_eq. lia.
Qed.

(** What is shown is a full page, or all there is: the frame's lines are those
    of the window the view asks for, inside the model's lines, and its two flags
    say whether the window touches the ends. *)
Theorem visible_window m vp : view_ok m -> 0 < dm_line_count m -> 1 <= vp ->
  let (f, m') := display_model_compute_visible m vp in
  Z.of_nat (length (vf_lines f)) = Z.min vp (dm_line_count m) /\
  (exists before after, lines_of m = before ++ vf_lines f ++ after /\
     Z.of_nat (length before) = vf_first_global_index f /\
     vf_at_head f = bool_decide (before = []) /\ vf_at_tail f = bool_decide (after = [])) /\
  (dm_mode m = VIEW_FOLLOW_TAIL -> vf_at_tail f = true) /\ lines_of m' = lines_of m.
Proof.
  intros Hok Hpos Hvp. rewrite compute_visible_spec by done. cbv zeta.
  pose proof (lines_length m ltac:(apply Hok)) as Hlen.
  destruct (resolve_anchor_spec m (dm_anchor m) Hok Hpos) as [_ Hbound].
  set (count := Z.min vp (dm_line_count m)). set (top := top_line m vp).
  assert (0 <= top /\ top + count <= dm_line_count m) as [Ht0 Ht1]
    by (unfold top, top_line, count; destruct (dm_mode m); lia).
  cbn [vf_lines vf_first_global_index vf_at_head vf_at_tail]. split_and!; [| | |done].
  - rewrite length_take, length_drop. lia.
  - exists (take (Z.to_nat top) (lines_of m)), (drop (Z.to_nat top + Z.to_nat count) (lines_of m)).
    split_and!.
    + by rewrite <- drop_drop, take_drop, take_drop.
    + rewrite length_take. lia.
    + apply eq_true_iff_eq. rewrite Z.eqb_eq, bool_decide_eq_true.
      rewrite <- length_zero_iff_nil, length_take. lia.
    + apply eq_true_iff_eq. rewrite Z.eqb_eq, bool_decide_eq_true.
      rewrite <- length_zero_iff_nil, length_drop. lia.
  - intros Hm. apply Z.eqb_eq. unfold top, top_line, count. rewrite Hm. lia.
Qed.

Lemma first_index_lookup m i : view_ok m -> 0 <= i < dm_line_count m ->
  exists l, lines_of m !! Z.to_nat i = Some l /\ display_model_view_lines m i 1 = Some [l].
Proof.
  intros Hok Hi. pose proof (lines_length m ltac:(apply Hok)) as Hlen.
  destruct (lookup_lt_is_Some_2 (lines_of m) (Z.to_nat i) ltac:(lia)) as [l Hl].
  exists l. split; [done|]. rewrite view_lines_spec by (done || lia).
  rewrite (drop_S _ l) by done. done.
Qed.

Lemma view_ok_view m mode a : view_ok m -> view_ok (with_view m mode a).
Proof. done. Qed.

(** The window on a model whose anchor was set to one of its lines. *)
Lemma top_line_anchor m i vp : view_ok m -> NoDup (map line_anchor (lines_of m)) ->
  forall l, lines_of m !! Z.to_nat i = Some l -> 0 <= i ->
  top_line (with_view m VIEW_MANUAL_SCROLL (line_anchor l)) vp =
    Z.min i (Z.max 0 (dm_line_count m - vp)).
Proof.
  intros Hok Hnd l Hl Hi. unfold top_line. cbn [dm_mode with_view dm_anchor dm_line_count].
  change (lines_of (with_view m VIEW_MANUAL_SCROLL (line_anchor l))) with (lines_of m).
  rewrite (resolve_line _ (Z.to_nat i)) by done. lia.
Qed.

Definition first_shown (m : display_model) (vp : Z) : Z :=
  vf_first_global_index (fst (display_model_compute_visible m vp)).

Lemma first_shown_top m vp : view_ok m -> 0 < dm_line_count m -> 1 <= vp ->
  first_shown m vp = top_line m vp.
Proof. intros. unfold first_shown. by rewrite compute_visible_spec. Qed.

(** Where the window is when scrolling starts. *)
Definition current_line (m : display_model) : Z :=
  match dm_mode m with
  | VIEW_FOLLOW_TAIL => dm_last_visible_start m
  | VIEW_MANUAL_SCROLL => resolve_in (lines_of m) (dm_anchor m)
  end.

Lemma scroll_up_spec m k : view_ok m -> 1 <= k -> dm_has_last_visible_frame m = true ->
  0 <= current_line m < dm_line_count m ->
  exists l, lines_of m !! Z.to_nat (Z.max 0 (current_line m - k)) = Some l /\
    display_model_scroll_up m k = with_view m VIEW_MANUAL_SCROLL (line_anchor l).
Proof.
  intros Hok Hk Hhas Hcur.
  destruct (first_index_lookup m (Z.max 0 (current_line m - k)) Hok ltac:(lia)) as (l & Hl & Hv).
  exists l. split; [done|]. unfold display_model_scroll_up.
  rewrite (proj2 (Z.eqb_neq (dm_line_count m) _)), (proj2 (Z.eqb_neq k _)) by lia. cbn [orb].
  destruct (resolve_anchor_spec m (dm_anchor m) Hok ltac:(lia)) as [Hres _].
  assert (forall t, 0 <= t -> (if k <=? t then t - k else 0) = Z.max 0 (t - k)) as Hmove
    by (intros t Ht; case_match; bprop; lia).
  unfold current_line in *. destruct (dm_mode m) eqn:Hm.
  - rewrite Hhas, Hmove by lia.
    change (display_model_view_lines (with_view m VIEW_MANUAL_SCROLL (dm_anchor m)))
      with (display_model_view_lines m). by rewrite Hv.
  - rewrite Hres, (proj2 (Z.eqb_neq _ SIZE_MAX)) by (destruct Hok as (_ & ? & _); lia).
    by rewrite Hmove, Hv, ?Hm by lia.
Qed.

Lemma scroll_down_spec m k : view_ok m -> 0 < dm_line_count m -> 1 <= k ->
  dm_mode m = VIEW_MANUAL_SCROLL -> 1 <= dm_last_viewport_height m ->
  let i := resolve_in (lines_of m) (dm_anchor m) + k in
  if i <? Z.max 0 (dm_line_count m - dm_last_viewport_height m)
  then exists l, lines_of m !! Z.to_nat i = Some l /\
         display_model_scroll_down m k = with_view m VIEW_MANUAL_SCROLL (line_anchor l)
  else display_model_scroll_down m k = display_model_follow_tail m.
Proof.
  intros Hok Hpos Hk Hm Hvp i. unfold display_model_scroll_down.
  rewrite (proj2 (Z.eqb_neq (dm_line_count m) _)), (proj2 (Z.eqb_neq k _)) by lia. cbn [orb].
  destruct (resolve_anchor_spec m (dm_anchor m) Hok Hpos) as [Hres Hb]. rewrite Hm, Hres.
  rewrite (proj2 (Z.eqb_neq _ SIZE_MAX)) by (destruct Hok as (_ & ? & _); lia). fold i.
  unfold display_model_effective_viewport.
  rewrite (proj2 (Z.ltb_lt 0 (dm_last_viewport_height m))) by lia.
  rewrite (proj2 (Z.eqb_neq (dm_last_viewport_height m) _)) by lia.
  set (vp := dm_last_viewport_height m) in *. set (total := dm_line_count m) in *.
  assert ((if (if total <? vp then total else vp) <? total
           then total - (if total <? vp then total else vp) else 0) = Z.max 0 (total - vp)) as ->
    by (destruct (Z.ltb_spec total vp); case_match; bprop; lia).
  destruct (Z.ltb_spec i (Z.max 0 (total - vp))) as [Hlt|Hge].
  - destruct (first_index_lookup m i Hok ltac:(subst total; lia)) as (l & Hl & Hv).
    exists l. split; [done|]. rewrite (proj2 (Z.eqb_neq (Z.max 0 (total - vp)) _)) by lia.
    rewrite (proj2 (Z.leb_gt _ _)) by lia. by rewrite Hv, ?Hm.
  - destruct (_ =? 0); [done|]. by rewrite (proj2 (Z.leb_le _ _)) by lia.
Qed.

(** Scrolling moves the window by the lines asked for.  From a page that was
    shown, scrolling up shows the page that starts that many lines earlier, or the
    first page; scrolling down shows the one that many lines later, or the last
    page. *)
Theorem scrolling_moves m vp k : view_ok m -> 0 < dm_line_count m -> 1 <= vp -> 1 <= k ->
  NoDup (map line_anchor (lines_of m)) ->
  (dm_mode m = VIEW_MANUAL_SCROLL ->
   resolve_in (lines_of m) (dm_anchor m) + vp <= dm_line_count m) ->
  let (f, m') := display_model_compute_visible m vp in
  first_shown (display_model_scroll_up m' k) vp = Z.max 0 (vf_first_global_index f - k) /\
  first_shown (display_model_scroll_down m' k) vp =
    Z.min (vf_first_global_index f + k) (Z.max 0 (dm_line_count m - vp)).
Proof.
  intros Hok Hpos Hvp Hk Hnd Hpage. rewrite compute_visible_spec by done.
  destruct (resolve_anchor_spec m (dm_anchor m) Hok Hpos) as [_ Hbound].
  set (top := top_line m vp). set (m' := with_frame m true top vp).
  assert (view_ok m') as Hok' by exact Hok.
  assert (current_line m' = top /\ 0 <= top < dm_line_count m /\
          top <= Z.max 0 (dm_line_count m - vp)) as (Hcur & Ht0 & Ht1).
  { unfold current_line, m'. cbn [dm_mode with_frame dm_last_visible_start dm_anchor].
    change (lines_of (with_frame m true top vp)) with (lines_of m).
    unfold top, top_line. destruct (dm_mode m); [lia|]. specialize (Hpage eq_refl). lia. }
  cbn [vf_first_global_index]. split.
  - destruct (scroll_up_spec m' k) as (l & Hl & ->); [done..|by rewrite Hcur|].
    rewrite Hcur in Hl. rewrite first_shown_top by (done || lia).
    rewrite (top_line_anchor m' (Z.max 0 (top - k)) vp) by (done || lia).
    change (dm_line_count m') with (dm_line_count m). lia.
  - destruct (dm_mode m) eqn:Hm.
    + assert (display_model_scroll_down m' k = m') as ->.
      { unfold display_model_scroll_down. case_match; [done|]. unfold m'. simpl. by rewrite Hm. }
      rewrite first_shown_top by (done || lia). unfold top_line, top, top_line.
      unfold m'. cbn [dm_mode with_frame dm_line_count]. rewrite Hm. lia.
    + assert (resolve_in (lines_of m') (dm_anchor m') = top) as Hr.
      { rewrite <- Hcur. unfold current_line. change (dm_mode m') with (dm_mode m). by rewrite Hm. }
      pose proof (scroll_down_spec m' k Hok' Hpos Hk Hm ltac:(simpl; lia)) as Hs.
      rewrite Hr in Hs. cbv zeta in Hs.
      change (dm_line_count m') with (dm_line_count m) in Hs.
      change (dm_last_viewport_height m') with vp in Hs.
      destruct (Z.ltb_spec (top + k) (Z.max 0 (dm_line_count m - vp))).
      * destruct Hs as (l & Hl & ->). rewrite first_shown_top by (done || lia).
        rewrite (top_line_anchor m' (top + k) vp) by (done || lia).
        change (dm_line_count m') with (dm_line_count m). lia.
      * rewrite Hs, first_shown_top by (done || lia). unfold top_line. simpl. lia.
Qed.

(** A reader is not moved by what others write: the line of an anchor that is
    in the model keeps its place when messages are appended. *)
Theorem anchor_stays m id text width l : view_ok m -> 1 <= width -> l ∈ lines_of m ->
  let (ok, m') := display_model_append_message m id text width in
  resolve_in (lines_of m') (line_anchor l) = resolve_in (lines_of m) (line_anchor l) /\
  dm_anchor m' = dm_anchor m /\ dm_mode m' = dm_mode m.
Proof.
  intros Hok Hw Hin.
  unfold display_model_append_message. rewrite (proj2 (Z.eqb_neq width 0)) by lia.
  pose proof (push_lines_spec m (display_model_wrap_line (Some text) width id wrap_room)
                ltac:(apply Hok)) as Hs.
  destruct (push_lines m _) as [ok m1]. destruct Hs as (_ & Hm & Ha & Hl).
  assert (resolve_in (lines_of m1) (line_anchor l) = resolve_in (lines_of m) (line_anchor l)) as Hr.
  { rewrite Hl. unfold resolve_in.
    set (f := fun x => (dl_message_id x =? _) && _).
    destruct (first_index f (lines_of m) 0) as [i|] eqn:E;
      [by rewrite (first_index_app _ _ _ _ i E)|].
    exfalso. assert (f l = true) as Hf by (unfold f; simpl; by rewrite !Z.eqb_refl).
    by apply (first_index_in f (lines_of m) l 0). }
  by destruct ok.
Qed.
End Display.
End Display.

(** ** The growing text buffer *)

Module ByteBuffer.
Section ByteBuffer.
Context `{StorageOk Z 1}.

Record sshc_abstract_byte_buffer := {
  bb_storage : option block;
  bb_length : Z;
  bb_capacity : Z
}.

Definition sshc_abstract_byte_buffer_init : sshc_abstract_byte_buffer :=
  {| bb_storage := None; bb_length := 0; bb_capacity := 0 |}.

Definition sshc_abstract_byte_buffer_free (buffer : sshc_abstract_byte_buffer) :
    sshc_abstract_byte_buffer :=
  {| bb_storage := None; bb_length := 0; bb_capacity := 0 |}.

Definition sshc_abstract_byte_buffer_reserve_total (buffer : sshc_abstract_byte_buffer)
    (total_bytes : Z) : bool * sshc_abstract_byte_buffer :=
  if total_bytes <=? bb_capacity buffer then (true, buffer)
  else
    let new_cap := if 0 <? bb_capacity buffer then bb_capacity buffer else 256 in
    match Display.double_until 65 new_cap total_bytes with
    | None => (false, buffer)
    | Some new_cap =>
        let grown := match bb_storage buffer with
                     | None => storage_alloc new_cap
                     | Some b => storage_resize b new_cap
                     end in
        match grown with
        | None => (false, buffer)
        | Some b => (true, {| bb_storage := Some b; bb_length := bb_length buffer;
                              bb_capacity := new_cap |})
        end
    end.

Definition sshc_abstract_byte_buffer_append (buffer : sshc_abstract_byte_buffer)
    (data : bytes) : bool * sshc_abstract_byte_buffer :=
  let length := Z.of_nat (length data) in
  let (ok, buffer) :=
    sshc_abstract_byte_buffer_reserve_total buffer (u64 (bb_length buffer + length + 1)) in
  if negb ok then (false, buffer)
  else
    match bb_storage buffer with
    | None => (false, buffer)
    | Some b =>
        match storage_write b (bb_length buffer) (data ++ [0]) with
        | None => (false, buffer)
        | Some b => (true, {| bb_storage := Some b; bb_length := bb_length buffer + length;
                              bb_capacity := bb_capacity buffer |})
        end
    end.

Definition sshc_abstract_byte_buffer_map_cstr (buffer : sshc_abstract_byte_buffer) :
    option bytes :=
  match bb_storage buffer with
  | None => None
  | Some b => storage_read b 0 (bb_length buffer + 1)
  end.

Definition sshc_abstract_byte_buffer_copy_out (buffer : sshc_abstract_byte_buffer)
    (length : Z) : option bytes :=
  if bb_length buffer + 1 <? length then None
  else match bb_storage buffer with
       | None => None
       | Some b => storage_read b 0 length
       end.

(** The text of a buffer, and a buffer that holds it with its terminator. *)
Definition holds (buffer : sshc_abstract_byte_buffer) (text : bytes) : Prop :=
  bb_length buffer = Z.of_nat (length text) /\
  match bb_storage buffer with
  | None => text = [] /\ bb_capacity buffer = 0
  | Some b =>
      Z.of_nat (length (cells b)) = bb_capacity buffer /\ 0 < bb_capacity buffer /\
      (exists rest, cells b = text ++ rest) /\
      (text <> [] -> exists rest, cells b = text ++ 0 :: rest)
  end.

Lemma reserve_spec buffer text total : holds buffer text ->
  let (ok, buffer') := sshc_abstract_byte_buffer_reserve_total buffer total in
  holds buffer' text /\ (ok = true -> total <= bb_capacity buffer').
Proof.
  intros [Hl Hs]. unfold sshc_abstract_byte_buffer_reserve_total.
  destruct (Z.leb_spec total (bb_capacity buffer)); [by split|].
  destruct (Display.double_until _ _ _) as [c|] eqn:Hd; [|by split].
  apply Display.double_until_spec in Hd; [|case_match; bprop; lia].
  destruct (bb_storage buffer) as [b|] eqn:Hb.
  - destruct Hs as (Hc & Hpos & Htext & Hnul).
    destruct (storage_resize b c) as [b'|] eqn:Hr; [|split; [|done]].
    + rewrite <- (Z.mul_1_r c) in Hr.
      apply resize_cells in Hr as [Hl' Ht]; [|rewrite Hc; case_match; bprop; lia].
      split; [|simpl; lia]. split; [done|]. simpl. rewrite Hl'.
      assert (cells b' = cells b ++ drop (length (cells b)) (cells b')) as Hpre
        by (rewrite <- Ht at 1; by rewrite take_drop).
      split_and!; [lia|lia| |].
      * destruct Htext as (rest & Hrest). rewrite Hpre, Hrest, <- app_assoc. eauto.
      * intros Hne. destruct (Hnul Hne) as (rest & Hrest). rewrite Hpre, Hrest, <- app_assoc.
        simpl. eauto.
    + split; [done|]. by rewrite Hb.
  - destruct Hs as [-> Hc]. destruct (storage_alloc c) as [b|] eqn:Ha; [|split; [|done]].
    + rewrite <- (Z.mul_1_r c) in Ha. apply alloc_cells in Ha; [|lia].
      split; [|simpl; lia]. split; [done|]. simpl. rewrite Ha.
      split_and!; [lia|destruct Hd; case_match; bprop; lia|by exists (cells b)|done].
    + split; [done|]. by rewrite Hb.
Qed.

(** The buffer is a string that grows: appending adds the data to the text and
    keeps the terminator behind it, or fails and loses nothing; mapping a buffer
    that has text gives the text and its terminator. *)
Theorem buffer_append buffer text data : holds buffer text ->
  Z.of_nat (length text) + Z.of_nat (length data) + 1 < 2 ^ 64 ->
  let (ok, buffer') := sshc_abstract_byte_buffer_append buffer data in
  let text' := if ok then text ++ data else text in
  holds buffer' text' /\
  forall view, sshc_abstract_byte_buffer_map_cstr buffer' = Some view -> text' <> [] ->
    view = text' ++ [0].
Proof.
  intros Hh Hlen. unfold sshc_abstract_byte_buffer_append.
  assert (forall bf t, holds bf t -> holds bf t /\
    forall view, sshc_abstract_byte_buffer_map_cstr bf = Some view -> t <> [] ->
    view = t ++ [0]) as Hview.
  { intros bf t Hbf. split; [done|]. intros view. destruct Hbf as [Hl Hs].
    unfold sshc_abstract_byte_buffer_map_cstr. destruct (bb_storage bf) as [b|]; [|done].
    intros Hr Hne. rewrite <- (Z.mul_1_r (_ + 1)), <- (Z.mul_1_r 0) in Hr.
    apply read_cells in Hr as [-> _]. destruct Hs as (_ & _ & _ & Hnul).
    destruct (Hnul Hne) as (rest & ->). 
    change (0 :: rest) with ([0] ++ rest). rewrite drop_0, app_assoc.
    apply take_app_length'. rewrite length_app. simpl. lia. }
  pose proof Hh as [Hl _].
  rewrite Z.mod_small by lia.
  pose proof (reserve_spec buffer text (bb_length buffer + Z.of_nat (length data) + 1) Hh) as Hs.
  assert (bb_length (snd (sshc_abstract_byte_buffer_reserve_total buffer
            (bb_length buffer + Z.of_nat (length data) + 1))) = bb_length buffer) as Hsame
    by (unfold sshc_abstract_byte_buffer_reserve_total; repeat case_match; done).
  destruct (sshc_abstract_byte_buffer_reserve_total buffer _) as [ok b1].
  simpl in Hsame. destruct Hs as [Hh1 Hcap]. destruct ok; cbn [negb]; [|by apply Hview].
  specialize (Hcap eq_refl). destruct (bb_storage b1) as [b|] eqn:Hb; [|by apply Hview].
  destruct (storage_write b (bb_length b1) _) as [b'|] eqn:Hw; [|by apply Hview].
  apply Hview. rewrite <- (Z.mul_1_r (bb_length b1)) in Hw.
  apply write_cells in Hw as [Hfit Hcells]; [|lia].
  destruct Hh1 as [Hl1 Hs1]. rewrite Hb in Hs1.
  destruct Hs1 as (Hc & Hpos & (rest & Hrest) & _).
  assert (take (Z.to_nat (bb_length b1)) (cells b) = text) as Htake
    by (rewrite Hrest; apply take_app_length'; lia).
  rewrite Htake in Hcells.
  split; [simpl; rewrite length_app; lia|]. cbn [bb_storage bb_capacity]. split_and!.
  - rewrite <- Hc, Hcells, !length_app, length_drop. rewrite !length_app in Hfit. simpl in *. lia.
  - done.
  - rewrite Hcells. eexists. rewrite <- !app_assoc. done.
  - intros _. rewrite Hcells. eexists. rewrite <- !app_assoc. done.
Qed.
End ByteBuffer.
End ByteBuffer.

(** ** Samples *)

Module DisplaySamples.
Import Display.

(** A storage that never fails: a block is the list of its cells. *)
Section ListStorage.
Context {C : Type} (size : Z) (blank : C).

Definition list_block_alloc (n : Z) : option (list C) := Some (replicate (Z.to_nat (n / size)) blank).

Definition list_block_resize (b : list C) (n : Z) : option (list C) :=
  Some (take (Z.to_nat (n / size)) b ++ replicate (Z.to_nat (n / size) - length b) blank).

Definition list_block_read (b : list C) (off n : Z) : option (list C) :=
  if off / size + n / size <=? Z.of_nat (length b)
  then Some (take (Z.to_nat (n / size)) (drop (Z.to_nat (off / size)) b)) else None.

Definition list_block_write (b : list C) (off : Z) (l : list C) : option (list C) :=
  let i := Z.to_nat (off / size) in
  if (i + length l <=? length b)%nat then Some (take i b ++ l ++ drop (i + length l) b) else None.

#[local] Instance list_storage : Storage C size := {|
  storage_alloc := list_block_alloc; storage_resize := list_block_resize;
  storage_read := list_block_read; storage_write := list_block_write; cells := fun b => b |}.

Lemma list_storage_ok : 0 < size -> StorageOk C size.
Proof.
  intros Hs. split; cbn; unfold list_block_alloc, list_block_resize, list_block_read,
    list_block_write; intros; rewrite ?Z.div_mul in * by lia; simplify_eq.
  - by rewrite length_replicate.
  - rewrite length_app, length_take, length_replicate. split; [lia|].
    rewrite (take_ge b) by lia. by rewrite take_app_length.
  - case_match; simplify_eq; bprop. split; [done|lia].
  - case_match; simplify_eq; bprop. split; [lia|done].
Qed.
End ListStorage.

Definition blank_line : display_line :=
  {| dl_message_id := 0; dl_subline_index := 0; dl_text := [] |}.

#[local] Instance lines_storage : Storage display_line 4112 := list_storage 4112 blank_line.
#[local] Instance lines_storage_ok : StorageOk display_line 4112 := list_storage_ok 4112 blank_line eq_refl.
#[local] Instance text_storage : Storage Z 1 := list_storage 1 0.
#[local] Instance text_storage_ok : StorageOk Z 1 := list_storage_ok 1 0 eq_refl.

Lemma wrap_line_fits_witness :
  map dl_text (display_model_wrap_line (Some (lit "hello world")) 5 7 256) =
    [lit "hello"; lit " worl"; lit "d"] /\
  let lines := display_model_wrap_line (Some (lit "hello world")) 5 7 256 in
  (1 <= length lines)%nat /\ Forall (line_ok 5 7) lines /\
  ((length lines < 256)%nat ->
   exists ends, length ends = length lines /\ Forall line_end ends /\
     lit "hello world" = mjoin (zip_with app (map dl_text lines) ends)).
Proof.
  split; [vm_compute; reflexivity|]. apply wrap_line_fits; [lia|lia|vm_compute; reflexivity].
Defined.

Definition started : display_model 4112 := snd (display_model_init 4112 0).

Lemma started_ok : model_ok 4112 started.
Proof. exists (replicate 64 blank_line). split_and!; [reflexivity|reflexivity|done..]. Qed.

Lemma append_message_appends_witness :
  let (ok, m') := display_model_append_message 4112 started 3 (lit "hi") 80 in
  model_ok 4112 m' /\ dm_mode 4112 m' = dm_mode 4112 started /\
  dm_anchor 4112 m' = dm_anchor 4112 started /\
  lines_of 4112 m' = lines_of 4112 started ++
    (if ok then display_model_wrap_line (Some (lit "hi")) 80 3 wrap_room else []).
Proof. apply (append_message_appends 4112); [exact started_ok|lia]. Defined.

Lemma layout_of_log_witness :
  let log := [(1, lit "one"); (2, lit "two")] in
  let (ok1, m1) := display_model_recompute_layout 4112 started log 80 in
  let (ok2, m2) := display_model_append_message 4112 m1 3 (lit "three") 80 in
  let (ok3, m3) := display_model_recompute_layout 4112 started (log ++ [(3, lit "three")]) 80 in
  (ok1 = true -> lines_of 4112 m1 = wrap_all log 80) /\
  (ok1 = true -> ok2 = true -> ok3 = true -> lines_of 4112 m2 = lines_of 4112 m3).
Proof. apply (layout_of_log 4112); [exact started_ok|lia]. Defined.

(** Six lines of three messages. *)
Definition six : display_model 4112 :=
  snd (display_model_recompute_layout 4112 started
         [(1, lit "aabb"); (2, lit "ccdd"); (3, lit "eeff")] 2).

Lemma list_reads_total m : dm_storage 4112 m <> None -> forall b i n,
  dm_storage 4112 m = Some b -> 0 <= i -> 0 <= n -> i + n <= Z.of_nat (length (cells b)) ->
  is_Some (storage_read b (i * 4112) (n * 4112)).
Proof.
  intros _ b i n _ Hi Hn Hle. cbn in *. unfold list_block_read. rewrite !Z.div_mul by lia.
  rewrite (proj2 (Z.leb_le _ _)) by lia. eauto.
Qed.

Lemma six_ok : view_ok 4112 six.
Proof.
  split_and!.
  - exists (default [] (dm_storage 4112 six)). split_and!; vm_compute; congruence.
  - vm_compute. reflexivity.
  - apply list_reads_total. vm_compute. discriminate.
Qed.

Lemma visible_window_witness :
  let (f, m') := display_model_compute_visible 4112 six 4 in
  Z.of_nat (length (vf_lines f)) = Z.min 4 (dm_line_count 4112 six) /\
  (exists before after, lines_of 4112 six = before ++ vf_lines f ++ after /\
     Z.of_nat (length before) = vf_first_global_index f /\
     vf_at_head f = bool_decide (before = []) /\ vf_at_tail f = bool_decide (after = [])) /\
  (dm_mode 4112 six = VIEW_FOLLOW_TAIL -> vf_at_tail f = true) /\
  lines_of 4112 m' = lines_of 4112 six.
Proof. apply (visible_window 4112); [exact six_ok|vm_compute; reflexivity|lia]. Defined.

Lemma scrolling_moves_witness :
  let (f, m') := display_model_compute_visible 4112 six 2 in
  first_shown 4112 (display_model_scroll_up 4112 m' 3) 2 =
    Z.max 0 (vf_first_global_index f - 3) /\
  first_shown 4112 (display_model_scroll_down 4112 m' 3) 2 =
    Z.min (vf_first_global_index f + 3) (Z.max 0 (dm_line_count 4112 six - 2)).
Proof.
  apply (scrolling_moves 4112); [exact six_ok|vm_compute; reflexivity|lia|lia| |discriminate].
  apply (bool_decide_unpack _). vm_compute. exact I.
Defined.

Lemma anchor_stays_witness :
  let l := {| dl_message_id := 2; dl_subline_index := 1; dl_text := lit "dd" |} in
  let (ok, m') := display_model_append_message 4112 six 4 (lit "news") 80 in
  resolve_in (lines_of 4112 m') (line_anchor l) = resolve_in (lines_of 4112 six) (line_anchor l) /\
  dm_anchor 4112 m' = dm_anchor 4112 six /\ dm_mode 4112 m' = dm_mode 4112 six.
Proof.
  apply (anchor_stays 4112); [exact six_ok|lia|]. apply list_elem_of_lookup_2 with 3%nat.
  vm_compute. reflexivity.
Defined.

Lemma buffer_append_witness :
  let (ok, buffer') := ByteBuffer.sshc_abstract_byte_buffer_append
    ByteBuffer.sshc_abstract_byte_buffer_init (lit "hi") in
  let text' := if ok then [] ++ lit "hi" else [] in
  ByteBuffer.holds buffer' text' /\
  forall view, ByteBuffer.sshc_abstract_byte_buffer_map_cstr buffer' = Some view ->
    text' <> [] -> view = text' ++ [0].
Proof. apply ByteBuffer.buffer_append; [by split|vm_compute; reflexivity]. Defined.
End DisplaySamples.
