(* ===== verification/Jwt.v ===== *)
(** Web tokens of [src/utils/jwt.c]: base64url without padding, the tokens the
    JSON interface hands out and the check of a token that comes back.  The keyed
    hash of libcrypto is a parameter; the clock is an argument, and so is what the
    heap holds behind the decoded payload, which the code reads as a C string
    without having terminated it. *)

From Stdlib Require Import ZArith Lia String Ascii.
From stdpp Require Import prelude.
From S2P Require Import Prelude.

(** [HMAC(EVP_sha256(), secret, data)]: the bytes of the code. *)
Class Hmac := { hmac_sha256 : bytes -> bytes -> bytes }.

(** A digest is a string of bytes. *)
Class HmacOk `{Hmac} := { hmac_bytes secret data : Forall byte_ok (hmac_sha256 secret data) }.

Module Base64.

(** The alphabet, with the blank the source has after it. *)
Definition base64_chars : bytes :=
  lit "ABCDEFGHIJKLMNOPQRSTUVWXYZabcdefghijklmnopqrstuvwxyz0123456789-_ ".

Definition sextet_char (v : Z) : Z := nth (Z.to_nat v) base64_chars 0.

(** The four characters of a triple of octets. *)
Definition encode_triple (octet_a octet_b octet_c : Z) : bytes :=
  let triple := u32 (Z.shiftl octet_a 16 + Z.shiftl octet_b 8 + octet_c) in
  map (fun k => sextet_char (Z.land (Z.shiftr triple k) 63)) [18; 12; 6; 0].

(** The loop reads octets that are not there as 0. *)
Fixpoint encode_go (input : bytes) : bytes :=
  match input with
  | [] => []
  | [a] => encode_triple a 0 0
  | [a; b] => encode_triple a b 0
  | a :: b :: c :: input => encode_triple a b c ++ encode_go input
  end.

Definition pad_count (length : nat) : nat := ((3 - length mod 3) mod 3)%nat.

Definition base64url_encode (input : bytes) : bytes :=
  let output := encode_go input in
  take (length output - pad_count (length input)) output.

(** The decoding table; what is not in the alphabet is [(uint32_t)-1]. *)
Definition value (c : Z) : Z :=
  if (65 <=? c) && (c <=? 90) then c - 65
  else if (97 <=? c) && (c <=? 122) then c - 97 + 26
  else if (48 <=? c) && (c <=? 57) then c - 48 + 52
  else if c =? 45 then 62
  else if c =? 95 then 63
  else UINT_MAX.

Definition decode_quad (a b c d : Z) : bytes :=
  let triple := u32 (u32 (Z.shiftl a 18) + u32 (Z.shiftl b 12) + u32 (Z.shiftl c 6) + d) in
  [Z.land (Z.shiftr triple 16) 255; Z.land (Z.shiftr triple 8) 255; Z.land triple 255].

Fixpoint decode_go (input : bytes) : bytes :=
  match input with
  | [] => []
  | [a] => decode_quad (value a) 0 0 0
  | [a; b] => decode_quad (value a) (value b) 0 0
  | [a; b; c] => decode_quad (value a) (value b) (value c) 0
  | a :: b :: c :: d :: input =>
      decode_quad (value a) (value b) (value c) (value d) ++ decode_go input
  end.

Definition padding (len : nat) : nat :=
  if (len mod 4 =? 2)%nat then 2 else if (len mod 4 =? 3)%nat then 1 else 0.

(** The bytes written to the buffer, and [*out_len]. *)
Definition base64url_decode (input : bytes) : bytes * nat :=
  let len := length input in
  let decoded_len := (len * 3 / 4)%nat in
  (take (decoded_len + padding len) (decode_go input), decoded_len).

(** ** Decoding undoes encoding *)

Lemma value_char v : 0 <= v < 64 -> value (sextet_char v) = v.
Proof.
  intros Hv. assert (forallb (fun v => value (sextet_char v) =? v) (seqZ 0 64) = true) as Hall
    by (vm_compute; reflexivity).
  rewrite forallb_forall in Hall. apply Z.eqb_eq. apply Hall.
  apply list_elem_of_In. apply elem_of_seqZ. lia.
Qed.

(** The sextets of a triple, as quotients. *)
Lemma sextets a b c : byte_ok a -> byte_ok b -> byte_ok c ->
  let t := a * 65536 + b * 256 + c in
  encode_triple a b c =
  [sextet_char (t / 262144); sextet_char (t / 4096 mod 64); sextet_char (t / 64 mod 64);
   sextet_char (t mod 64)].
Proof.
  intros Ha Hb Hc t. unfold byte_ok in Ha, Hb, Hc. unfold encode_triple.
  rewrite !Z.shiftl_mul_pow2 by lia.
  change (2 ^ 16) with 65536. change (2 ^ 8) with 256. fold t.
  rewrite Z.mod_small by (unfold t; lia). cbn [map].
  change 63 with (Z.ones 6). rewrite !Z.land_ones, !Z.shiftr_div_pow2 by lia.
  change (2 ^ 18) with 262144. change (2 ^ 12) with 4096. change (2 ^ 6) with 64.
  change (2 ^ 0) with 1. rewrite Z.div_1_r.
  rewrite (Z.mod_small (t / 262144)) by (unfold t; dlia). done.
Qed.

Lemma encode_triple_length a b c : length (encode_triple a b c) = 4%nat.
Proof. done. Qed.

Lemma decode_quad_spec p q r s : 0 <= p < 64 -> 0 <= q < 64 -> 0 <= r < 64 -> 0 <= s < 64 ->
  let t := p * 262144 + q * 4096 + r * 64 + s in
  decode_quad p q r s = [t / 65536; t / 256 mod 256; t mod 256].
Proof.
  intros Hp Hq Hr Hs t. unfold decode_quad. rewrite !Z.shiftl_mul_pow2 by lia.
  change (2 ^ 18) with 262144. change (2 ^ 12) with 4096. change (2 ^ 6) with 64.
  rewrite (Z.mod_small (p * 262144)), (Z.mod_small (q * 4096)), (Z.mod_small (r * 64)) by lia.
  fold t. rewrite (Z.mod_small t 4294967296) by (unfold t; lia).
  change 255 with (Z.ones 8). rewrite !Z.land_ones, !Z.shiftr_div_pow2 by lia.
  change (2 ^ 16) with 65536. change (2 ^ 8) with 256.
  rewrite (Z.mod_small (t / 65536)) by (unfold t; dlia). done.
Qed.

Lemma quad_of_triple a b c : byte_ok a -> byte_ok b -> byte_ok c ->
  let t := a * 65536 + b * 256 + c in
  decode_quad (t / 262144) (t / 4096 mod 64) (t / 64 mod 64) (t mod 64) = [a; b; c].
Proof.
  intros Ha Hb Hc t. unfold byte_ok in Ha, Hb, Hc.
  rewrite decode_quad_spec by (unfold t; dlia). cbv zeta.
  assert (t / 262144 * 262144 + t / 4096 mod 64 * 4096 + t / 64 mod 64 * 64 + t mod 64 = t) as ->
    by (unfold t; dlia).
  f_equal; [|f_equal; [|f_equal]]; unfold t; dlia.
Qed.

(** Induction three octets at a time. *)
Lemma triple_ind (P : bytes -> Prop) :
  P [] -> (forall a, P [a]) -> (forall a b, P [a; b]) ->
  (forall a b c s, P s -> P (a :: b :: c :: s)) -> forall s, P s.
Proof.
  intros H0 H1 H2 H3. fix IH 1. intros [|a [|b [|c s]]]; [exact H0|apply H1|apply H2|apply H3, IH].
Qed.

Lemma pad_count_3 n : pad_count (3 + n) = pad_count n.
Proof.
  unfold pad_count. replace (3 + n)%nat with (n + 1 * 3)%nat by lia. by rewrite Nat.Div0.mod_add.
Qed.

Lemma pad_count_le s : (pad_count (length s) <= length (encode_go s))%nat.
Proof.
  destruct s as [|a [|b [|c s]]]; cbn; try lia.
Qed.

Lemma encode_step a b c s :
  base64url_encode (a :: b :: c :: s) = encode_triple a b c ++ base64url_encode s.
Proof.
  unfold base64url_encode. change (length (a :: b :: c :: s)) with (3 + length s)%nat.
  rewrite pad_count_3. cbn [encode_go]. rewrite length_app, encode_triple_length.
  pose proof (pad_count_le s).
  replace (4 + length (encode_go s) - pad_count (length s))%nat
    with (length (encode_triple a b c) + (length (encode_go s) - pad_count (length s)))%nat
    by (rewrite encode_triple_length; lia).
  by rewrite take_app_add.
Qed.

(** The text is as long as it has to be. *)
Lemma encode_length s : exists k r, (length s = 3 * k + r /\ r < 3 /\
  length (base64url_encode s) = 4 * k + (if r =? 0 then 0 else r + 1))%nat.
Proof.
  induction s as [|a|a b|a b c s (k & r & Hs & Hr & He)] using triple_ind.
  - exists O, O. cbn. lia.
  - exists O, 1%nat. cbn. lia.
  - exists O, 2%nat. cbn. lia.
  - exists (S k), r. rewrite encode_step, length_app, encode_triple_length, He. cbn [length].
    split_and!; [lia|lia|]. destruct (r =? 0)%nat; lia.
Qed.

Lemma decoded_len_spec k r : (r < 3)%nat ->
  ((4 * k + (if (r =? 0)%nat then 0 else r + 1)) * 3 / 4 = 3 * k + r)%nat.
Proof.
  intros Hr. destruct r as [|[|[|]]]; cbn [Nat.eqb]; [..|lia]; symmetry;
    [apply (Nat.div_unique _ _ _ 0)|apply (Nat.div_unique _ _ _ 2)|
     apply (Nat.div_unique _ _ _ 1)]; lia.
Qed.

Lemma decode_quad_app a b c s : byte_ok a -> byte_ok b -> byte_ok c ->
  decode_go (encode_triple a b c ++ s) = a :: b :: c :: decode_go s.
Proof.
  intros Ha Hb Hc. rewrite sextets by done. cbn [app decode_go].
  unfold byte_ok in *.
  rewrite !value_char by dlia. by rewrite quad_of_triple.
Qed.

Lemma decode_encode s : Forall byte_ok s ->
  decode_go (base64url_encode s) = s ++ replicate (pad_count (length s)) 0.
Proof.
  induction s as [|a|a b|a b c s IH] using triple_ind.
  - done.
  - intros [Ha _]%Forall_cons. unfold base64url_encode. cbn [encode_go].
    rewrite sextets by (unfold byte_ok in *; done || lia).
    cbn -[sextet_char value decode_quad Z.div Z.modulo Z.mul Z.add].
    unfold byte_ok in *. rewrite !value_char by dlia.
    pose proof (quad_of_triple a 0 0) as Hq. unfold byte_ok in Hq.
    rewrite <- (Hq ltac:(lia) ltac:(lia) ltac:(lia)).
    f_equal; dlia.
  - intros [Ha [Hb _]%Forall_cons]%Forall_cons. unfold base64url_encode. cbn [encode_go].
    rewrite sextets by (unfold byte_ok in *; done || lia).
    cbn -[sextet_char value decode_quad Z.div Z.modulo Z.mul Z.add].
    unfold byte_ok in *. rewrite !value_char by dlia.
    pose proof (quad_of_triple a b 0) as Hq. unfold byte_ok in Hq.
    rewrite <- (Hq ltac:(lia) ltac:(lia) ltac:(lia)).
    f_equal; dlia.
  - intros [Ha [Hb [Hc Hs]%Forall_cons]%Forall_cons]%Forall_cons.
    rewrite encode_step, decode_quad_app, IH by done.
    change (length (a :: b :: c :: s)) with (3 + length s)%nat. by rewrite pad_count_3.
Qed.

(** What the decoder writes for an encoded string. *)
Lemma decoded_bytes s : Forall byte_ok s ->
  fst (base64url_decode (base64url_encode s)) = s ++ replicate (pad_count (length s)) 0.
Proof.
  intros Hs. unfold base64url_decode. rewrite decode_encode by done.
  destruct (encode_length s) as (k & r & Hl & Hr & He). rewrite He. apply take_ge.
  rewrite length_app, length_replicate, decoded_len_spec, Hl by done.
  assert (pad_count (3 * k + r) <= padding (4 * k + (if r =? 0 then 0 else r + 1)))%nat; [|lia].
  unfold pad_count, padding.
  rewrite (Nat.add_comm (3 * k)), (Nat.mul_comm 3 k), Nat.Div0.mod_add.
  rewrite (Nat.add_comm (4 * k)), (Nat.mul_comm 4 k), Nat.Div0.mod_add.
  destruct r as [|[|[|]]]; [cbn; lia|cbn; lia|cbn; lia|lia].
Qed.

(** Base64url loses nothing: what was encoded decodes to the same bytes with
    the same length, for every string of bytes.  Behind them the decoder has
    written a zero for every octet the last group lacks, so the result is
    terminated as a C string unless the length is a multiple of three. *)
Theorem base64url_roundtrip s : Forall byte_ok s ->
  base64url_decode (base64url_encode s) = (s ++ replicate (pad_count (length s)) 0, length s).
Proof.
  intros Hs. pose proof (decoded_bytes s Hs) as Hd.
  destruct (base64url_decode (base64url_encode s)) as [data n] eqn:E. cbn [fst] in Hd.
  rewrite Hd. f_equal. unfold base64url_decode in E. injection E as _ <-.
  destruct (encode_length s) as (k & r & Hl & Hr & He). rewrite He, Hl. by apply decoded_len_spec.
Qed.

(** The characters are those of the alphabet: neither a dot nor a NUL. *)
Definition url_char (c : Z) : Prop := isalnum c = true \/ c = c_minus \/ c = c_underscore.

Lemma sextet_url v : 0 <= v < 64 -> url_char (sextet_char v).
Proof.
  intros Hv. assert (forallb (fun v => isalnum (sextet_char v) || (sextet_char v =? 45) ||
    (sextet_char v =? 95)) (seqZ 0 64) = true) as Hall by (vm_compute; reflexivity).
  rewrite forallb_forall in Hall. specialize (Hall v).
  rewrite <- list_elem_of_In, elem_of_seqZ in Hall. specialize (Hall ltac:(lia)).
  unfold url_char. bprop. tauto.
Qed.

Lemma encode_triple_url a b c : Forall url_char (encode_triple a b c).
Proof.
  unfold encode_triple. apply Forall_map, Forall_forall. intros k _. apply sextet_url.
  change 63 with (Z.ones 6). rewrite Z.land_ones by lia. apply Z.mod_pos_bound. lia.
Qed.

Lemma encode_url s : Forall url_char (base64url_encode s).
Proof.
  unfold base64url_encode. apply Forall_take.
  induction s as [|a|a b|a b c s IH] using triple_ind; cbn [encode_go]; [constructor|..];
    [apply encode_triple_url|apply encode_triple_url|].
  apply Forall_app. split; [apply encode_triple_url|done].
Qed.
End Base64.
Import Base64.

Module Token.

Abbreviation dot := c_dot (only parsing).

Definition quoted (s : bytes) : bytes := c_dquote :: s ++ [c_dquote].

(** [%ld]. *)
Definition sdec (n : Z) : bytes := if n <? 0 then c_minus :: dec (- n) else dec n.

Definition header_json : bytes :=
  lit "{" ++ quoted (lit "alg") ++ lit ":" ++ quoted (lit "HS256") ++ lit "," ++
  quoted (lit "typ") ++ lit ":" ++ quoted (lit "JWT") ++ lit "}".

(** The text of the payload before it is cut to its buffer of 256 bytes. *)
Definition payload_text (username : bytes) (iat exp : Z) : bytes :=
  lit "{" ++ quoted (lit "sub") ++ lit ":" ++ quoted username ++ lit "," ++
  quoted (lit "iat") ++ lit ":" ++ sdec iat ++ lit "," ++
  quoted (lit "exp") ++ lit ":" ++ sdec exp ++ lit "}".

Section Token.
Context `{Hmac}.

(** The part of a token that is signed, and the token. *)
Definition signature_input (header_b64 payload_b64 : bytes) : bytes :=
  header_b64 ++ lit "." ++ payload_b64.

Definition signature (secret input : bytes) : bytes := base64url_encode (hmac_sha256 secret input).

Definition jwt_generate (secret username : bytes) (expiry_seconds now : Z) : bytes :=
  let header_b64 := base64url_encode header_json in
  let payload_json := snprintf_text 256 (payload_text username now (now + expiry_seconds)) in
  let payload_b64 := base64url_encode payload_json in
  let input := signature_input header_b64 payload_b64 in
  input ++ lit "." ++ signature secret input.

Definition atol (p : bytes) : Z := match strtol p with Some (v, _) => v | None => 0 end.

(** The checks on the payload: [None] when it has expired, else the name, if there
    is one. *)
Definition read_claims (json_str : bytes) (now : Z) : option (option bytes) :=
  let expired :=
    match strstr json_str (quoted (lit "exp") ++ lit ":") with
    | Some exp_key => atol (drop 6 exp_key) <? now
    | None => false
    end in
  if expired then None
  else Some (match strstr json_str (quoted (lit "sub") ++ lit ":" ++ [c_dquote]) with
             | Some sub_key =>
                 let start := drop 7 sub_key in
                 match strchr start c_dquote with
                 | Some finish => Some (take (length start - length finish) start)
                 | None => None
                 end
             | None => None
             end).

(** [heap] is the memory behind the decoded bytes; the code reads the payload up
    to the first NUL.  The result is [None] for a refused token, else the name. *)
Definition jwt_verify (secret token : bytes) (now : Z) (heap : bytes) : option (option bytes) :=
  match strchr token dot with
  | None => None
  | Some dot1 =>
      match strchr (drop 1 dot1) dot with
      | None => None
      | Some dot2 =>
          let header_b64 := take (length token - length dot1) token in
          let payload_b64 := take (length dot1 - 1 - length dot2) (drop 1 dot1) in
          if negb (bytes_eqb (signature secret (signature_input header_b64 payload_b64))
                     (drop 1 dot2))
          then None
          else
            let (payload_json, _) := base64url_decode payload_b64 in
            read_claims (take_while (fun c => negb (c =? 0)) (payload_json ++ heap)) now
      end
  end.

(** ** What is read back from a token *)


Lemma take_before {A} (a b : list A) : take (length (a ++ b) - length b) (a ++ b) = a.
Proof. rewrite length_app, Nat.add_sub. apply take_app_length. Qed.

Lemma split_token h p s : ~ In dot h -> ~ In dot p ->
  let token := h ++ dot :: p ++ dot :: s in
  strchr token dot = Some (dot :: p ++ dot :: s) /\
  strchr (p ++ dot :: s) dot = Some (dot :: s) /\
  take (length token - length (dot :: p ++ dot :: s)) token = h /\
  take (length (dot :: p ++ dot :: s) - 1 - length (dot :: s)) (p ++ dot :: s) = p.
Proof.
  intros Hh Hp token. split_and!.
  - by apply strchr_app.
  - by apply strchr_app.
  - apply take_before.
  - replace (length (dot :: p ++ dot :: s) - 1)%nat with (length (p ++ dot :: s)) by (simpl; lia).
    apply take_before.
Qed.

(** The answer for a token whose parts are known. *)
Lemma verify_parts secret h p s now heap : ~ In dot h -> ~ In dot p ->
  jwt_verify secret (h ++ dot :: p ++ dot :: s) now heap =
  if negb (bytes_eqb (signature secret (signature_input h p)) s) then None
  else read_claims (take_while (fun c => negb (c =? 0)) (fst (base64url_decode p) ++ heap)) now.
Proof.
  intros Hh Hp. destruct (split_token h p s Hh Hp) as (H1 & H2 & H3 & H4).
  unfold jwt_verify. rewrite H1. change (drop 1 (dot :: p ++ dot :: s)) with (p ++ dot :: s).
  rewrite H2, H3, H4. change (drop 1 (dot :: s)) with s.
  by destruct (base64url_decode p).
Qed.

Lemma url_no_dot s : Forall url_char s -> ~ In dot s.
Proof.
  rewrite Forall_forall. intros Hs Hin%list_elem_of_In%Hs. destruct Hin as [E|[E|E]]; by vm_compute in E.
Qed.

Lemma generate_parts secret username expiry now :
  jwt_generate secret username expiry now =
  let h := base64url_encode header_json in
  let p := base64url_encode (snprintf_text 256 (payload_text username now (now + expiry))) in
  h ++ dot :: p ++ dot :: signature secret (signature_input h p).
Proof. unfold jwt_generate, signature_input. cbv zeta. by rewrite <- !app_assoc. Qed.


(** ** The payload *)

Lemma strstr_skip c s q p : c <> q -> strstr (c :: s) (q :: p) = strstr s (q :: p).
Proof. intros Hc. cbn. rewrite (proj2 (Z.eqb_neq q c)) by congruence. done. Qed.

Lemma strstr_skip_all a s q p : ~ In q a -> strstr (a ++ s) (q :: p) = strstr s (q :: p).
Proof.
  induction a as [|c a IH]; [done|]. simpl app. intros Hin.
  rewrite strstr_skip by (intros ->; apply Hin; by left). apply IH. intros H0. apply Hin. by right.
Qed.

(** A key cannot match at the quote that opens a quoted text, unless the text is
    that key with the same byte behind it. *)
Lemma key_not_text q w x a y r : a <> w \/ x <> y -> ~ In q w -> ~ In q a ->
  is_prefix (w ++ [q; x]) (a ++ q :: y :: r) = false.
Proof.
  revert a; induction w as [|c w IH]; intros [|d a] Hne Hw Ha; simpl.
  - rewrite Z.eqb_refl. simpl. destruct (Z.eqb_spec x y); [|done]. by destruct Hne.
  - rewrite (proj2 (Z.eqb_neq q d)); [done|]. intros ->. apply Ha. by left.
  - rewrite (proj2 (Z.eqb_neq c q)); [done|]. intros ->. apply Hw. by left.
  - destruct (Z.eqb_spec c d) as [->|]; [|done]. simpl. apply IH.
    + destruct Hne as [Hne|]; [left; congruence|by right].
    + intros Hin. apply Hw. by right.
    + intros Hin. apply Ha. by right.
Qed.

(** So the search for a key steps over a quoted text and the byte behind it. *)
Lemma skip_quoted e w x text y r : let key := quoted (e :: w) ++ [x] in
  text <> e :: w \/ x <> y -> ~ In c_dquote (e :: w) -> ~ In c_dquote text ->
  y <> e -> y <> c_dquote ->
  strstr (quoted text ++ y :: r) key = strstr r key.
Proof.
  intros key Hne Hw Ht Hye Hyq. unfold key, quoted. cbn [app]. rewrite <- !app_assoc. cbn [app].
  assert (forall s, is_prefix (e :: w ++ [c_dquote; x]) s = false ->
    strstr (c_dquote :: s) (c_dquote :: e :: w ++ [c_dquote; x]) =
    strstr s (c_dquote :: e :: w ++ [c_dquote; x])) as Hskip.
  { intros s Hs. change (strstr (34 :: s) (34 :: e :: w ++ [34; x])) with
      (if (34 =? 34) && is_prefix (e :: w ++ [34; x]) s then Some (34 :: s)
       else strstr s (34 :: e :: w ++ [34; x])). by rewrite Hs. }
  rewrite Hskip by (by apply (key_not_text c_dquote (e :: w))).
  rewrite strstr_skip_all by done.
  rewrite Hskip by (cbn [is_prefix]; by rewrite (proj2 (Z.eqb_neq e y)) by congruence).
  by rewrite strstr_skip by done.
Qed.

(** The payload up to the end of the name. *)
Definition sub_prefix (name rest : bytes) : bytes :=
  lit "{" ++ quoted (lit "sub") ++ lit ":" ++ quoted name ++ lit "," ++ rest.

(** The first [exp] behind the name decides. *)
Lemma claims_spec name rest exp more now : ~ In c_dquote name ->
  strstr rest (quoted (lit "exp") ++ lit ":") =
    Some (quoted (lit "exp") ++ lit ":" ++ dec exp ++ more) ->
  0 <= exp <= LONG_MAX -> isdigit (peek more) = false ->
  read_claims (sub_prefix name rest) now = if exp <? now then None else Some (Some name).
Proof.
  intros Hq Hrest Hexp Hmore. unfold read_claims.
  assert (strstr (sub_prefix name rest) (quoted (lit "exp") ++ lit ":") =
    Some (quoted (lit "exp") ++ lit ":" ++ dec exp ++ more)) as ->.
  { rewrite <- Hrest. unfold sub_prefix.
    change (lit "{" ++ quoted (lit "sub") ++ lit ":" ++ quoted name ++ lit "," ++ rest)
      with (123 :: quoted [115; 117; 98] ++ 58 :: quoted name ++ 44 :: rest).
    change (quoted (lit "exp") ++ lit ":") with (quoted [101; 120; 112] ++ [58]).
    etrans; [by apply (strstr_skip 123 _ 34 [101; 120; 112; 34; 58])|].
    etrans; [apply (skip_quoted 101 [120; 112] 58 [115; 117; 98] 58); [by left|cbn; lia..]|].
    apply (skip_quoted 101 [120; 112] 58 name 44); [by right|cbn; lia|done|done|done]. }
  change (drop 6 (quoted (lit "exp") ++ lit ":" ++ dec exp ++ more)) with (dec exp ++ more).
  unfold atol. rewrite strtol_dec by done. destruct (exp <? now); [done|].
  f_equal. unfold sub_prefix.
  change (strstr _ _) with (Some (quoted (lit "sub") ++ lit ":" ++ quoted name ++ lit "," ++ rest)).
  cbv iota. change (drop 7 _) with ((name ++ [c_dquote]) ++ lit "," ++ rest).
  rewrite <- app_assoc. cbn [app]. rewrite strchr_app by done. f_equal. apply take_before.
Qed.

(** A signed payload is read as it was written, when the text fits its buffer and
    the byte behind it is zero. *)
Lemma verify_generated secret username expiry now t h `{!HmacOk} :
  cstr_ok (payload_text username now (now + expiry)) ->
  (length (payload_text username now (now + expiry)) < 256)%nat ->
  jwt_verify secret (jwt_generate secret username expiry now) t (0 :: h) =
  read_claims (payload_text username now (now + expiry)) t.
Proof.
  intros Hb Hl. rewrite generate_parts. cbv zeta.
  rewrite verify_parts by apply url_no_dot, encode_url. rewrite bytes_eqb_refl. cbn [negb].
  unfold snprintf_text. rewrite take_ge by lia. set (json := payload_text _ _ _) in *.
  rewrite decoded_bytes by (eapply Forall_impl; [exact Hb|]; unfold byte_ok; simpl; lia).
  assert (exists r, replicate (pad_count (length json)) 0 ++ 0 :: h = 0 :: r) as [r Hr]
    by (destruct (pad_count (length json)); simpl; eauto).
  rewrite <- app_assoc, Hr, take_while_stop; [done| |done].
  eapply Forall_impl; [exact Hb|]. intros c Hc. simpl in Hc. bprop. lia.
Qed.

Lemma cstr_app a b : cstr_ok (a ++ b) <-> cstr_ok a /\ cstr_ok b.
Proof. apply Forall_app. Qed.

Lemma cstr_lit s : forallb (fun c => (0 <? c) && (c <? 256)) (lit s) = true -> cstr_ok (lit s).
Proof.
  rewrite forallb_Forall. intros Hs. eapply Forall_impl; [exact Hs|]. intros c. simpl. bprop. tauto.
Qed.

Lemma cstr_dec n : 0 <= n <= ULONG_MAX -> cstr_ok (dec n).
Proof.
  intros (_ & Hd & _)%dec_spec. eapply Forall_impl; [exact Hd|]. intros c. unfold isdigit.
  simpl. bprop. lia.
Qed.

Lemma cstr_cons c s : 0 < c < 256 -> cstr_ok s -> cstr_ok (c :: s).
Proof. by constructor. Qed.

(** Texts put together from literals, digits and known strings. *)
Ltac cstr := repeat first [assumption | by constructor | apply cstr_cons; [lia|] |
  by apply cstr_lit | apply cstr_app; split].

Lemma payload_cstr username iat exp : cstr_ok username -> 0 <= iat <= LONG_MAX ->
  0 <= exp <= LONG_MAX -> cstr_ok (payload_text username iat exp).
Proof.
  intros Hu Hi He. unfold payload_text, quoted, sdec.
  rewrite (proj2 (Z.ltb_ge iat 0)), (proj2 (Z.ltb_ge exp 0)) by lia.
  assert (cstr_ok (dec iat) /\ cstr_ok (dec exp)) as [H1 H2]
    by (split; apply cstr_dec; unfold LONG_MAX, ULONG_MAX in *; lia).
  cstr.
Qed.

Lemma dec_no_quote n : 0 <= n <= ULONG_MAX -> ~ In c_dquote (dec n).
Proof.
  intros (_ & Hd & _)%dec_spec Hin%list_elem_of_In. rewrite Forall_forall in Hd.
  by specialize (Hd _ Hin).
Qed.

Lemma payload_sub username iat exp : 0 <= iat -> 0 <= exp ->
  payload_text username iat exp =
  sub_prefix username (quoted (lit "iat") ++ lit ":" ++ dec iat ++ lit "," ++
    quoted (lit "exp") ++ lit ":" ++ dec exp ++ lit "}").
Proof.
  intros Hi He. unfold payload_text, sub_prefix, sdec.
  by rewrite (proj2 (Z.ltb_ge iat 0)), (proj2 (Z.ltb_ge exp 0)) by lia.
Qed.

(** A token does what it says.  For a name without quotes whose payload fits
    the buffer, the token that is handed out is accepted up to the second it
    expires and with the name it was made for, and refused after that. *)
Theorem token_accepted secret username expiry now t h `{!HmacOk} :
  cstr_ok username -> ~ In c_dquote username ->
  0 <= now <= LONG_MAX -> 0 <= now + expiry <= LONG_MAX ->
  (length (payload_text username now (now + expiry)) < 256)%nat ->
  jwt_verify secret (jwt_generate secret username expiry now) t (0 :: h) =
  if now + expiry <? t then None else Some (Some username).
Proof.
  intros Hu Hq Hn He Hl. rewrite verify_generated by (done || by apply payload_cstr).
  rewrite payload_sub by lia. apply (claims_spec _ _ _ (lit "}")); [done| |done|done].
  etrans; [apply (skip_quoted 101 [120; 112] 58 [105; 97; 116] 58); [by left|cbn; lia..]|].
  etrans; [apply strstr_skip_all, dec_no_quote; unfold LONG_MAX, ULONG_MAX in *; lia|].
  etrans; [by apply (strstr_skip 44 _ 34 [101; 120; 112; 34; 58])|].
  reflexivity.
Qed.

(** A name that carries an expiry of its own. *)
Definition forged_name (name : bytes) (far : Z) : bytes :=
  name ++ [c_dquote] ++ lit "," ++ quoted (lit "exp") ++ lit ":" ++ dec far ++ lit "," ++
  quoted (lit "x") ++ lit ":" ++ [c_dquote].

(** But a name is not escaped.  Whoever asks for a token under a name that
    closes the string and writes an [exp] of its own is given one that is good
    until the time of their choice, whatever expiry the server meant. *)
Theorem expiry_forged secret name far expiry now t h `{!HmacOk} :
  cstr_ok name -> ~ In c_dquote name ->
  0 <= now <= LONG_MAX -> 0 <= now + expiry <= LONG_MAX -> 0 <= far <= LONG_MAX ->
  (length (payload_text (forged_name name far) now (now + expiry)) < 256)%nat ->
  jwt_verify secret (jwt_generate secret (forged_name name far) expiry now) t (0 :: h) =
  if far <? t then None else Some (Some name).
Proof.
  intros Hu Hq Hn He Hf Hl. rewrite verify_generated; [|done| |done].
  - rewrite payload_sub by lia. unfold sub_prefix, forged_name.
    match goal with |- read_claims ?json t = _ =>
      replace json with (sub_prefix name (quoted (lit "exp") ++ lit ":" ++ dec far ++ lit "," ++
        quoted (lit "x") ++ lit ":" ++ quoted [] ++ lit "," ++
        quoted (lit "iat") ++ lit ":" ++ dec now ++ lit "," ++
        quoted (lit "exp") ++ lit ":" ++ dec (now + expiry) ++ lit "}")) end.
    + eapply claims_spec; [done|cbn [strstr]; reflexivity|done|done].
    + unfold sub_prefix, quoted. lits. cbn [app]. rewrite <- !app_assoc. cbn [app].
      by rewrite <- !app_assoc.
  - apply payload_cstr; [|done|done]. unfold forged_name, quoted.
    assert (cstr_ok (dec far)) by (apply cstr_dec; unfold LONG_MAX, ULONG_MAX in *; lia).
    cstr.
Qed.
End Token.
End Token.

(** ** Samples: a toy keyed hash *)

Module JwtSamples.
Import Token.

#[local] Instance toy_hmac : Hmac :=
  {| hmac_sha256 secret data := map (fun k => (fold_left Z.add (secret ++ data) 0 * k) mod 256) [1; 7] |}.

#[local] Instance toy_hmac_ok : HmacOk.
Proof.
  split. intros secret data. simpl. repeat constructor; apply Z.mod_pos_bound; lia.
Defined.

Lemma base64url_roundtrip_witness :
  base64url_encode (lit "Rocq") = lit "Um9jcQ" /\
  base64url_decode (base64url_encode (lit "Rocq")) = (lit "Rocq" ++ [0; 0], 4%nat).
Proof.
  split; [vm_compute; reflexivity|].
  apply (base64url_roundtrip (lit "Rocq")). unfold byte_ok. vm_compute. repeat constructor; discriminate.
Defined.

Definition alice : bytes := lit "alice".
Definition login : Z := 1700000000.
Definition day : Z := 86400.

Lemma token_accepted_witness :
  jwt_verify (lit "key") (jwt_generate (lit "key") alice day login) (login + day) (0 :: []) =
    Some (Some alice) /\
  jwt_verify (lit "key") (jwt_generate (lit "key") alice day login) (login + day + 1) (0 :: []) =
    None.
Proof.
  assert (cstr_ok alice) as Ha by (by apply cstr_lit).
  split.
  - rewrite (token_accepted (lit "key") alice day login (login + day) []); [reflexivity|done|..];
      unfold login, day, LONG_MAX; try lia; vm_compute; intuition (discriminate || lia).
  - rewrite (token_accepted (lit "key") alice day login (login + day + 1) []); [reflexivity|done|..];
      unfold login, day, LONG_MAX; try lia; vm_compute; intuition (discriminate || lia).
Defined.


Lemma expiry_forged_witness :
  jwt_verify (lit "key") (jwt_generate (lit "key") (forged_name alice 9999999999) day login)
    (login + 1000 * day) (0 :: []) = Some (Some alice).
Proof.
  rewrite (expiry_forged (lit "key") alice 9999999999 day login (login + 1000 * day) []);
    [reflexivity|by apply cstr_lit|..];
    unfold login, day, LONG_MAX; try lia; vm_compute; intuition (discriminate || lia).
Defined.
End JwtSamples.
