(* ===== verification/Othello.v ===== *)
(** Othello: the rules of [src/host/games/othello.c] (rays, flips, scores, moves),
    its table of multiplayer slots and its waiting queue.  Module [Board] is the
    rules over the 8x8 board, row by row as the C array has it; module [Slots] the
    slots and the ring buffer of waiting sessions, a session being its number. *)

From Stdlib Require Import ZArith Lia String Ascii.
From stdpp Require Import prelude.
From S2P Require Import Prelude.

Module Board.

Definition SSH_CHATTER_OTHELLO_BOARD_SIZE : Z := 8.

Inductive othello_cell := EMPTY | RED | GREEN.

#[export] Instance othello_cell_eq_dec : EqDecision othello_cell.
Proof. solve_decision. Defined.

Abbreviation board := (list othello_cell).

Record othello_game_state := {
  og_board : board;
  og_player_turn : bool;
  og_game_over : bool;
  og_consecutive_passes : Z;
  og_red_score : Z;
  og_green_score : Z;
  og_last_player_row : Z;
  og_last_player_col : Z;
  og_last_ai_row : Z;
  og_last_ai_col : Z;
  og_awaiting_mode_selection : bool;
  og_awaiting_difficulty_selection : bool;
  og_difficulty_level : Z;
  og_multiplayer : bool;
  og_awaiting_opponent : bool;
  og_slot_index : Z;
  og_player_number : Z
}.


Definition kOthelloDirections : list (Z * Z) :=
  [(-1, -1); (-1, 0); (-1, 1); (0, -1); (0, 1); (1, -1); (1, 0); (1, 1)].

Definition in_bounds (row col : Z) : bool :=
  (0 <=? row) && (row <? SSH_CHATTER_OTHELLO_BOARD_SIZE) &&
  (0 <=? col) && (col <? SSH_CHATTER_OTHELLO_BOARD_SIZE).

Definition index (row col : Z) : nat := Z.to_nat (row * SSH_CHATTER_OTHELLO_BOARD_SIZE + col).

Definition cell_at (b : board) (row col : Z) : othello_cell := nth (index row col) b EMPTY.

Definition set_cell (b : board) (row col : Z) (v : othello_cell) : board := <[index row col := v]> b.

Definition opponent_of (player : othello_cell) : othello_cell :=
  match player with RED => GREEN | _ => RED end.

(** The walk along a ray; it leaves the board within eight steps. *)
Fixpoint direction_go (fuel : nat) (b : board) (r c drow dcol : Z) (player : othello_cell)
    (count : Z) : Z :=
  match fuel with
  | O => 0
  | S fuel =>
      if in_bounds r c then
        let cell := cell_at b r c in
        if bool_decide (cell = opponent_of player)
        then direction_go fuel b (r + drow) (c + dcol) drow dcol player (count + 1)
        else if bool_decide (cell = player) && (0 <? count) then count
        else 0
      else 0
  end.

Definition session_game_othello_direction_count (b : board) (row col drow dcol : Z)
    (player : othello_cell) : Z :=
  direction_go 8 b (row + drow) (col + dcol) drow dcol player 0.

Definition session_game_othello_count_flips (b : board) (row col : Z) (player : othello_cell) : Z :=
  if negb (in_bounds row col) then 0
  else if negb (bool_decide (cell_at b row col = EMPTY)) then 0
  else fold_left (fun total '(drow, dcol) =>
         total + session_game_othello_direction_count b row col drow dcol player)
         kOthelloDirections 0.

(** The rows and columns the loops run over. *)
Definition all_squares : list (Z * Z) :=
  flat_map (fun row => map (fun col => (row, col)) (seqZ 0 SSH_CHATTER_OTHELLO_BOARD_SIZE))
    (seqZ 0 SSH_CHATTER_OTHELLO_BOARD_SIZE).

(** The red and the green discs. *)
Definition session_game_othello_count_scores (b : board) : Z * Z :=
  fold_left (fun '(red, green) '(row, col) =>
    match cell_at b row col with
    | RED => (red + 1, green)
    | GREEN => (red, green + 1)
    | EMPTY => (red, green)
    end) all_squares (0, 0).

Definition with_board (s : othello_game_state) (b : board) : othello_game_state :=
  {| og_board := b; og_player_turn := og_player_turn s; og_game_over := og_game_over s;
     og_consecutive_passes := og_consecutive_passes s;
     og_red_score := fst (session_game_othello_count_scores b);
     og_green_score := snd (session_game_othello_count_scores b);
     og_last_player_row := og_last_player_row s; og_last_player_col := og_last_player_col s;
     og_last_ai_row := og_last_ai_row s; og_last_ai_col := og_last_ai_col s;
     og_awaiting_mode_selection := og_awaiting_mode_selection s;
     og_awaiting_difficulty_selection := og_awaiting_difficulty_selection s;
     og_difficulty_level := og_difficulty_level s; og_multiplayer := og_multiplayer s;
     og_awaiting_opponent := og_awaiting_opponent s; og_slot_index := og_slot_index s;
     og_player_number := og_player_number s |}.

Definition session_game_othello_reset_state : othello_game_state :=
  let mid := SSH_CHATTER_OTHELLO_BOARD_SIZE / 2 in
  let b := replicate 64 EMPTY in
  let b := set_cell b (mid - 1) (mid - 1) GREEN in
  let b := set_cell b mid mid GREEN in
  let b := set_cell b (mid - 1) mid RED in
  let b := set_cell b mid (mid - 1) RED in
  {| og_board := b; og_player_turn := true; og_game_over := false;
     og_consecutive_passes := 0;
     og_red_score := fst (session_game_othello_count_scores b);
     og_green_score := snd (session_game_othello_count_scores b);
     og_last_player_row := -1; og_last_player_col := -1;
     og_last_ai_row := -1; og_last_ai_col := -1;
     og_awaiting_mode_selection := false; og_awaiting_difficulty_selection := false;
     og_difficulty_level := 5; og_multiplayer := false; og_awaiting_opponent := false;
     og_slot_index := -1; og_player_number := 0 |}.

Definition session_game_othello_copy_core (dest src : othello_game_state) : othello_game_state :=
  {| og_board := og_board src; og_player_turn := og_player_turn src;
     og_game_over := og_game_over src; og_consecutive_passes := og_consecutive_passes src;
     og_red_score := og_red_score src; og_green_score := og_green_score src;
     og_last_player_row := og_last_player_row src; og_last_player_col := og_last_player_col src;
     og_last_ai_row := og_last_ai_row src; og_last_ai_col := og_last_ai_col src;
     og_awaiting_mode_selection := og_awaiting_mode_selection dest;
     og_awaiting_difficulty_selection := og_awaiting_difficulty_selection dest;
     og_difficulty_level := og_difficulty_level dest; og_multiplayer := og_multiplayer dest;
     og_awaiting_opponent := og_awaiting_opponent dest; og_slot_index := og_slot_index dest;
     og_player_number := og_player_number dest |}.

(** The loop that turns [count] discs along a ray. *)
Fixpoint paint_ray (count : nat) (b : board) (r c drow dcol : Z) (player : othello_cell) : board :=
  match count with
  | O => b
  | S count =>
      if in_bounds r c
      then paint_ray count (set_cell b r c player) (r + drow) (c + dcol) drow dcol player
      else b
  end.

Definition flip_direction (row col : Z) (player : othello_cell) (b : board) '(drow, dcol) : board :=
  let count := session_game_othello_direction_count b row col drow dcol player in
  if count <=? 0 then b
  else paint_ray (Z.to_nat count) b (row + drow) (col + dcol) drow dcol player.

Definition session_game_othello_apply_move (s : othello_game_state) (row col : Z)
    (player : othello_cell) : othello_game_state :=
  if negb (in_bounds row col) then s
  else with_board s (fold_left (flip_direction row col player) kOthelloDirections
                       (set_cell (og_board s) row col player)).



Definition session_game_othello_format_coordinate (row col : Z) : bytes :=
  if negb (in_bounds row col) then lit "-" else [97 + col; 49 + row].

(** ** The rules *)

(** A ray from a square: [n] opposing discs, one after the other, then one of the
    player's. *)
Definition outflanks (b : board) (row col drow dcol : Z) (player : othello_cell) (n : Z) : Prop :=
  1 <= n /\
  (forall k, 1 <= k <= n -> in_bounds (row + k * drow) (col + k * dcol) = true /\
                            cell_at b (row + k * drow) (col + k * dcol) = opponent_of player) /\
  in_bounds (row + (n + 1) * drow) (col + (n + 1) * dcol) = true /\
  cell_at b (row + (n + 1) * drow) (col + (n + 1) * dcol) = player.

Definition legal (b : board) (row col : Z) (player : othello_cell) : Prop :=
  in_bounds row col = true /\ cell_at b row col = EMPTY /\
  exists drow dcol n, In (drow, dcol) kOthelloDirections /\ outflanks b row col drow dcol player n.

Lemma opponent_neq player : player <> EMPTY -> opponent_of player <> player.
Proof. by destruct player. Qed.

Lemma in_bounds_spec r c : in_bounds r c = true <-> 0 <= r < 8 /\ 0 <= c < 8.
Proof. unfold in_bounds, SSH_CHATTER_OTHELLO_BOARD_SIZE. rewrite !andb_true_iff. lia. Qed.

Lemma ray_leaves row col drow dcol : In (drow, dcol) kOthelloDirections ->
  in_bounds row col = true -> in_bounds (row + 8 * drow) (col + 8 * dcol) = false.
Proof.
  intros Hd Hin. apply not_true_iff_false. rewrite in_bounds_spec in *.
  cbn in Hd. repeat destruct Hd as [[= <- <-]|Hd]; try done; lia.
Qed.

(** The walk at its [k]-th step, after [k - 1] opposing discs. *)
Lemma direction_go_spec fuel b row col drow dcol player k :
  player <> EMPTY -> In (drow, dcol) kOthelloDirections -> in_bounds row col = true ->
  1 <= k -> Z.of_nat fuel = 9 - k ->
  (forall j, 1 <= j < k -> in_bounds (row + j * drow) (col + j * dcol) = true /\
     cell_at b (row + j * drow) (col + j * dcol) = opponent_of player) ->
  let n := direction_go fuel b (row + k * drow) (col + k * dcol) drow dcol player (k - 1) in
  (0 < n -> outflanks b row col drow dcol player n) /\ 0 <= n /\
  (forall m, outflanks b row col drow dcol player m -> n = m).
Proof.
  intros Hp Hd Hin. pose proof (opponent_neq player Hp) as Hopp.
  revert k; induction fuel as [|fuel IH]; intros k Hk Hf Hrun; cbn [direction_go].
  { destruct (Hrun 8 ltac:(lia)) as [Hb _]. by rewrite ray_leaves in Hb. }
  assert (forall m, outflanks b row col drow dcol player m -> k - 1 <= m) as Hlong.
  { intros m (Hm & _ & _ & Hc). destruct (Z_lt_le_dec m (k - 1)) as [Hlt|]; [|done].
    destruct (Hrun (m + 1) ltac:(lia)) as [_ Ho]. congruence. }
  assert (forall m, outflanks b row col drow dcol player m -> m = k - 1 \/
    (in_bounds (row + k * drow) (col + k * dcol) = true /\
     cell_at b (row + k * drow) (col + k * dcol) = opponent_of player)) as Hnext.
  { intros m Hm. specialize (Hlong m Hm). destruct (decide (m = k - 1)); [by left|right].
    destruct Hm as (_ & Hm & _). apply Hm. lia. }
  assert (forall m, outflanks b row col drow dcol player m -> m = k - 1 ->
    in_bounds (row + k * drow) (col + k * dcol) = true /\
    cell_at b (row + k * drow) (col + k * dcol) = player) as Hlast.
  { intros m (_ & _ & Hb & Hc) ->. by replace (k - 1 + 1) with k in Hb, Hc by lia. }
  destruct (in_bounds (row + k * drow) (col + k * dcol)) eqn:Hb;
    [|split_and!; [lia|lia|]; intros m Hm; destruct (Hnext m Hm) as [Heq|[? _]]; [|done];
      by destruct (Hlast m Hm Heq)].
  case_bool_decide as Hc.
  - specialize (IH (k + 1) ltac:(lia) ltac:(lia)).
    replace (row + (k + 1) * drow) with (row + k * drow + drow) in IH by lia.
    replace (col + (k + 1) * dcol) with (col + k * dcol + dcol) in IH by lia.
    replace (k + 1 - 1) with (k - 1 + 1) in IH by lia. apply IH.
    intros j Hj. destruct (decide (j = k)) as [->|]; [done|]. apply Hrun. lia.
  - case_bool_decide as Hc2; cbn [andb].
    + destruct (Z.ltb_spec 0 (k - 1)).
      * assert (outflanks b row col drow dcol player (k - 1)) as Ho.
        { split_and!; [lia|intros j Hj; apply Hrun; lia|..];
            by replace (k - 1 + 1) with k by lia. }
        split_and!; [done|lia|]. intros m Hm. destruct (Hnext m Hm) as [|[_ ?]]; congruence.
      * split_and!; [lia|lia|]. intros m Hm. destruct (Hnext m Hm) as [->|[_ ?]]; [|congruence].
        destruct Hm as [? _]. lia.
    + split_and!; [lia|lia|]. intros m Hm. destruct (Hnext m Hm) as [Heq|[_ ?]]; [|congruence].
      by destruct (Hlast m Hm Heq).
Qed.

Lemma direction_count_spec b row col drow dcol player :
  player <> EMPTY -> In (drow, dcol) kOthelloDirections -> in_bounds row col = true ->
  let n := session_game_othello_direction_count b row col drow dcol player in
  (0 < n -> outflanks b row col drow dcol player n) /\ 0 <= n /\
  (forall m, outflanks b row col drow dcol player m -> n = m).
Proof.
  intros Hp Hd Hin. unfold session_game_othello_direction_count.
  pose proof (direction_go_spec 8 b row col drow dcol player 1 Hp Hd Hin) as H1.
  rewrite !Z.mul_1_l in H1. apply H1; lia.
Qed.

(** The sum of the rays is positive exactly when one of them is. *)
Lemma sum_rays (f : Z * Z -> Z) ds a : (forall d, In d ds -> 0 <= f d) ->
  let total := fold_left (fun total d => total + f d) ds a in
  a <= total /\ (a < total <-> exists d, In d ds /\ 0 < f d).
Proof.
  revert a; induction ds as [|d ds IH]; intros a Hf; simpl.
  { split; [lia|]. split; [lia|]. by intros (? & [] & _). }
  destruct (IH (a + f d)) as [H1 H2]; [intros; apply Hf; by right|].
  pose proof (Hf d (or_introl eq_refl)). split; [lia|]. split.
  - intros Hlt. destruct (Z_lt_le_dec 0 (f d)); [exists d; auto|].
    destruct (proj1 H2) as (d' & Hd' & Hp); [lia|]. exists d'; auto.
  - intros (d' & [<-|Hd'] & Hp); [lia|]. assert (a + f d < fold_left (fun t d => t + f d) ds (a + f d))
      by (apply H2; eauto). lia.
Qed.

Lemma count_flips_spec b row col player : player <> EMPTY ->
  0 <= session_game_othello_count_flips b row col player /\
  (0 < session_game_othello_count_flips b row col player <-> legal b row col player).
Proof.
  intros Hp. unfold session_game_othello_count_flips, legal.
  destruct (in_bounds row col) eqn:Hin; cbn [negb]; [|split; [lia|]; split; [lia|by intros []]].
  case_bool_decide as Hc; cbn [negb]; [|split; [lia|]; split; [lia|by intros (_ & ? & _)]].
  set (f := fun d : Z * Z => session_game_othello_direction_count b row col (fst d) (snd d) player).
  assert (fold_left (fun total '(drow, dcol) =>
      total + session_game_othello_direction_count b row col drow dcol player) kOthelloDirections 0 =
    fold_left (fun total d => total + f d) kOthelloDirections 0) as ->
    by (apply fold_left_ext; by intros ? []).
  destruct (sum_rays f kOthelloDirections 0) as [H0 H1].
  { intros [dr dc] Hd. by apply direction_count_spec. }
  split; [done|]. rewrite H1. split.
  - intros ([dr dc] & Hd & Hpos). split_and!; [done..|]. exists dr, dc, (f (dr, dc)).
    split; [done|]. by apply direction_count_spec.
  - intros (_ & _ & dr & dc & n & Hd & Ho). exists (dr, dc). split; [done|].
    destruct (direction_count_spec b row col dr dc player Hp Hd Hin) as (_ & _ & Hu).
    unfold f. simpl. rewrite (Hu n Ho). by destruct Ho as [? _]; lia.
Qed.




(** ** Scores *)

(** The discs of a colour on a board. *)
Definition discs (v : othello_cell) (b : board) : Z :=
  Z.of_nat (length (List.filter (fun x => bool_decide (x = v)) b)).

Lemma discs_cons v x b : discs v (x :: b) = (if decide (x = v) then 1 else 0) + discs v b.
Proof. unfold discs. simpl. case_bool_decide; case_decide; simpl; lia || done. Qed.

Lemma discs_app v a b : discs v (a ++ b) = discs v a + discs v b.
Proof. induction a as [|x a IH]; simpl; [done|]. rewrite !discs_cons, IH. lia. Qed.

Lemma discs_insert v b i x y : b !! i = Some y ->
  discs v (<[i := x]> b) =
  discs v b + (if decide (x = v) then 1 else 0) - (if decide (y = v) then 1 else 0).
Proof.
  intros Hi. rewrite (insert_take_drop b i x) by (by eapply lookup_lt_Some).
  transitivity (discs v (take i b ++ y :: drop (S i) b) + (if decide (x = v) then 1 else 0) -
                (if decide (y = v) then 1 else 0)).
  - rewrite !discs_app, !discs_cons. lia.
  - by rewrite take_drop_middle.
Qed.

Definition board_ok (b : board) : Prop := length b = 64%nat.

Lemma all_squares_index : map (fun '(r, c) => index r c) all_squares = seq 0 64.
Proof. vm_compute. reflexivity. Qed.

Definition tally (acc : Z * Z) (x : othello_cell) : Z * Z :=
  let (red, green) := acc in
  match x with RED => (red + 1, green) | GREEN => (red, green + 1) | EMPTY => (red, green) end.

Lemma tally_discs b acc : fold_left tally b acc = (fst acc + discs RED b, snd acc + discs GREEN b).
Proof.
  revert acc; induction b as [|x b IH]; intros [red green]; cbn [fold_left].
  { unfold discs. simpl. f_equal; lia. }
  rewrite IH, !discs_cons. destruct x; simpl; f_equal; lia.
Qed.

Lemma fold_left_map {A B C} (f : A -> C -> A) (g : B -> C) l a :
  fold_left f (map g l) a = fold_left (fun x y => f x (g y)) l a.
Proof. revert a. induction l as [|y l IH]; intros a; simpl; [done|]. apply IH. Qed.

Lemma count_scores_discs b : board_ok b ->
  session_game_othello_count_scores b = (discs RED b, discs GREEN b).
Proof.
  intros Hb. unfold session_game_othello_count_scores.
  transitivity (fold_left tally (map (fun '(r, c) => cell_at b r c) all_squares) (0, 0)).
  { rewrite fold_left_map. apply fold_left_ext. intros [red green] [r c]. done. }
  assert (map (fun '(r, c) => cell_at b r c) all_squares = b) as ->.
  { transitivity (map (fun i => nth i b EMPTY) (map (fun '(r, c) => index r c) all_squares)).
    { rewrite map_map. apply map_ext. by intros [r c]. }
    rewrite all_squares_index, <- Hb. clear. induction b as [|x b IH]; [done|].
    cbn [length seq map nth]. rewrite <- seq_shift, map_map. f_equal. exact IH. }
  by rewrite tally_discs.
Qed.

Lemma index_bound r c : in_bounds r c = true -> (index r c < 64)%nat.
Proof. rewrite in_bounds_spec. unfold index, SSH_CHATTER_OTHELLO_BOARD_SIZE. lia. Qed.

Lemma index_inj r c r' c' : in_bounds r c = true -> in_bounds r' c' = true ->
  index r c = index r' c' -> r = r' /\ c = c'.
Proof. rewrite !in_bounds_spec. unfold index, SSH_CHATTER_OTHELLO_BOARD_SIZE. lia. Qed.

Lemma cell_lookup b r c : board_ok b -> in_bounds r c = true ->
  b !! index r c = Some (cell_at b r c).
Proof.
  intros Hb Hin. apply index_bound in Hin. unfold cell_at.
  destruct (lookup_lt_is_Some_2 b (index r c) ltac:(unfold board_ok in *; lia)) as [x Hx].
  by rewrite (nth_lookup_Some _ _ _ _ Hx).
Qed.

Lemma cell_set b r c v r' c' : board_ok b -> in_bounds r c = true -> in_bounds r' c' = true ->
  cell_at (set_cell b r c v) r' c' =
  if decide (r = r' /\ c = c') then v else cell_at b r' c'.
Proof.
  intros Hb Hin Hin'. unfold cell_at, set_cell. rewrite !nth_lookup.
  pose proof (index_bound r c Hin). unfold board_ok in Hb. case_decide as Hd.
  - destruct Hd as [-> ->]. by rewrite list_lookup_insert_eq by lia.
  - rewrite list_lookup_insert_ne; [done|]. intros Heq. apply Hd. by apply index_inj.
Qed.

Lemma set_board_ok b r c v : board_ok b -> board_ok (set_cell b r c v).
Proof. unfold board_ok, set_cell. by rewrite length_insert. Qed.

Lemma discs_set v b r c x : board_ok b -> in_bounds r c = true ->
  discs v (set_cell b r c x) =
  discs v b + (if decide (x = v) then 1 else 0) - (if decide (cell_at b r c = v) then 1 else 0).
Proof. intros. apply discs_insert. by apply cell_lookup. Qed.

(** Squares of a ray. *)
Definition ray (row col : Z) (d : Z * Z) (k : Z) : Z * Z := (row + k * fst d, col + k * snd d).

Lemma ray_inj row col d j k : In d kOthelloDirections -> ray row col d j = ray row col d k -> j = k.
Proof.
  intros Hd [= H1 H2]. cbn in Hd. repeat destruct Hd as [<-|Hd]; try done; simpl in *; lia.
Qed.

Lemma rays_disjoint row col d d' j k : In d kOthelloDirections -> In d' kOthelloDirections ->
  d <> d' -> 1 <= j -> 1 <= k -> ray row col d j <> ray row col d' k.
Proof.
  intros Hd Hd' Hne Hj Hk [= H1 H2]. cbn in Hd, Hd'.
  repeat destruct Hd as [<-|Hd]; try done;
    repeat destruct Hd' as [<-|Hd']; try done; simpl in *; lia.
Qed.

Definition same_ray (b b' : board) (row col : Z) (d : Z * Z) : Prop :=
  forall k, 1 <= k -> let (r, c) := ray row col d k in in_bounds r c = true ->
    cell_at b r c = cell_at b' r c.

Lemma direction_ext b b' row col d player : same_ray b b' row col d ->
  session_game_othello_direction_count b row col (fst d) (snd d) player =
  session_game_othello_direction_count b' row col (fst d) (snd d) player.
Proof.
  intros Hs. unfold session_game_othello_direction_count.
  assert (forall fuel k n, 1 <= k ->
    direction_go fuel b (row + k * fst d) (col + k * snd d) (fst d) (snd d) player n =
    direction_go fuel b' (row + k * fst d) (col + k * snd d) (fst d) (snd d) player n) as Hgo.
  { induction fuel as [|fuel IH]; intros k n Hk; cbn [direction_go]; [done|].
    destruct (in_bounds _ _) eqn:Hb; [|done]. specialize (Hs k Hk Hb). cbn in Hs. rewrite Hs.
    case_bool_decide; [|done].
    replace (row + k * fst d + fst d) with (row + (k + 1) * fst d) by lia.
    replace (col + k * snd d + snd d) with (col + (k + 1) * snd d) by lia. apply IH. lia. }
  specialize (Hgo 8%nat 1 0 ltac:(lia)). by rewrite !Z.mul_1_l in Hgo.
Qed.

(** Turning the discs of a ray from its [k]-th square on. *)
Lemma paint_ray_spec n b row col d player k :
  board_ok b -> player <> EMPTY -> In d kOthelloDirections -> 1 <= k ->
  (forall j, k <= j < k + Z.of_nat n -> let (r, c) := ray row col d j in
     in_bounds r c = true /\ cell_at b r c = opponent_of player) ->
  let b' := paint_ray n b (row + k * fst d) (col + k * snd d) (fst d) (snd d) player in
  board_ok b' /\
  discs player b' = discs player b + Z.of_nat n /\
  discs (opponent_of player) b' = discs (opponent_of player) b - Z.of_nat n /\
  (forall r c, in_bounds r c = true -> (forall j, k <= j -> ray row col d j <> (r, c)) ->
     cell_at b' r c = cell_at b r c).
Proof.
  intros Hb Hp Hd. pose proof (opponent_neq player Hp) as Hopp.
  revert b k Hb; induction n as [|n IH]; intros b k Hb Hk Hrun; cbn [paint_ray].
  { split_and!; [done|lia|lia|done]. }
  destruct (Hrun k ltac:(lia)) as [Hin Hc]. cbn in Hin, Hc. rewrite Hin.
  set (b1 := set_cell b (row + k * fst d) (col + k * snd d) player).
  replace (row + k * fst d + fst d) with (row + (k + 1) * fst d) by lia.
  replace (col + k * snd d + snd d) with (col + (k + 1) * snd d) by lia.
  destruct (IH b1 (k + 1)) as (Hb' & H1 & H2 & H3).
  - by apply set_board_ok.
  - lia.
  - intros j Hj. destruct (Hrun j ltac:(lia)) as [Hinj Hcj]. cbn. split; [done|].
    unfold b1. rewrite cell_set by done. rewrite decide_False; [done|].
    intros [Hr Hcc]. assert (k = j); [|lia].
    apply (ray_inj row col d); [done|]. unfold ray. by f_equal.
  - split_and!; [done| | |].
    + rewrite H1. unfold b1. rewrite discs_set by done. rewrite Hc.
      rewrite decide_True, decide_False by done. lia.
    + rewrite H2. unfold b1. rewrite discs_set by done. rewrite Hc.
      rewrite decide_False, decide_True by done. lia.
    + intros r c Hrc Hne. rewrite H3 by (done || (intros j Hj; apply Hne; lia)).
      unfold b1. rewrite cell_set by done. rewrite decide_False; [done|].
      intros [<- <-]. by apply (Hne k); [lia|].
Qed.

(** The discs the rays of [ds] turn. *)
Definition turned (b : board) (row col : Z) (player : othello_cell) (ds : list (Z * Z)) : Z :=
  fold_right (fun d n =>
    session_game_othello_direction_count b row col (fst d) (snd d) player + n) 0 ds.

Lemma flip_direction_spec b row col player d :
  board_ok b -> player <> EMPTY -> In d kOthelloDirections -> in_bounds row col = true ->
  let n := session_game_othello_direction_count b row col (fst d) (snd d) player in
  let b' := flip_direction row col player b d in
  board_ok b' /\ 0 <= n /\
  discs player b' = discs player b + n /\
  discs (opponent_of player) b' = discs (opponent_of player) b - n /\
  (forall r c, in_bounds r c = true -> (forall j, 1 <= j -> ray row col d j <> (r, c)) ->
     cell_at b' r c = cell_at b r c).
Proof.
  intros Hb Hp Hd Hin. destruct d as [dr dc]. cbn [fst snd].
  destruct (direction_count_spec b row col dr dc player Hp Hd Hin) as (Ho & H0 & _).
  unfold flip_direction. set (n := session_game_othello_direction_count b row col dr dc player) in *.
  destruct (Z.leb_spec n 0).
  { split_and!; [done|lia|lia|lia|done]. }
  destruct (Ho ltac:(lia)) as (_ & Hrun & _).
  pose proof (paint_ray_spec (Z.to_nat n) b row col (dr, dc) player 1 Hb Hp Hd ltac:(lia)) as Hs.
  cbn [fst snd] in Hs. rewrite !Z.mul_1_l, Z2Nat.id in Hs by lia.
  destruct Hs as (H1 & H2 & H3 & H4); [intros j Hj; apply Hrun; lia|].
  by split_and!.
Qed.

Lemma flip_all_spec ds b b0 row col player :
  NoDup ds -> (forall d, In d ds -> In d kOthelloDirections) ->
  board_ok b -> player <> EMPTY -> in_bounds row col = true ->
  (forall d, In d ds -> same_ray b b0 row col d) ->
  let b' := fold_left (flip_direction row col player) ds b in
  board_ok b' /\
  discs player b' = discs player b + turned b0 row col player ds /\
  discs (opponent_of player) b' = discs (opponent_of player) b - turned b0 row col player ds.
Proof.
  intros Hnd. revert b; induction Hnd as [|d ds Hni Hnd IH]; intros b Hds Hb Hp Hin Hsame.
  { simpl. split_and!; [done|lia|lia]. }
  cbn [fold_left turned fold_right].
  destruct (flip_direction_spec b row col player d) as (Hb1 & H0 & H1 & H2 & H3);
    [done|done|apply Hds; by left|done|].
  rewrite (direction_ext b b0) in H1, H2 by (apply Hsame; by left).
  destruct (IH (flip_direction row col player b d)) as (Hb' & H4 & H5);
    [intros; apply Hds; by right|done|done|done| |].
  - intros d' Hd' k Hk. destruct (ray row col d' k) as [r c] eqn:Hr. intros Hrc.
    rewrite H3; [|done|].
    + specialize (Hsame d' (or_intror Hd') k Hk). rewrite Hr in Hsame. by apply Hsame.
    + intros j Hj Heq. rewrite <- Hr in Heq.
      apply (rays_disjoint row col d d' j k); try done; [apply Hds; by left|apply Hds; by right|].
      intros ->. by apply Hni, list_elem_of_In.
  - fold (turned b0 row col player ds) in *. split_and!; [done|lia|lia].
Qed.

Lemma count_flips_turned b row col player : in_bounds row col = true ->
  cell_at b row col = EMPTY ->
  session_game_othello_count_flips b row col player =
  turned b row col player kOthelloDirections.
Proof.
  intros Hin Hc. unfold session_game_othello_count_flips. rewrite Hin. cbn [negb].
  rewrite bool_decide_eq_true_2 by done. cbn [negb kOthelloDirections fold_left turned fold_right fst snd].
  lia.
Qed.

Definition score_of (s : othello_game_state) (player : othello_cell) : Z :=
  match player with RED => og_red_score s | _ => og_green_score s end.

(** A state whose scores are those of its board. *)
Definition scored (s : othello_game_state) : Prop :=
  board_ok (og_board s) /\
  og_red_score s = discs RED (og_board s) /\ og_green_score s = discs GREEN (og_board s).

(** A legal move scores what it turns: the player gains the disc played and
    every disc the move offered to turn, the opponent loses exactly those, and the
    scores kept in the state stay those of the board.  Turning one ray never
    changes what another ray turns. *)
Theorem apply_move_scores s row col player : scored s -> player <> EMPTY ->
  legal (og_board s) row col player ->
  let n := session_game_othello_count_flips (og_board s) row col player in
  let s' := session_game_othello_apply_move s row col player in
  1 <= n /\ scored s' /\
  score_of s' player = score_of s player + n + 1 /\
  score_of s' (opponent_of player) = score_of s (opponent_of player) - n.
Proof.
  intros (Hb & Hr & Hg) Hp Hl n s'.
  assert (1 <= n) as Hn by (pose proof (count_flips_spec (og_board s) row col player Hp); unfold n; 
    assert (0 < session_game_othello_count_flips (og_board s) row col player) by (by apply H); lia).
  destruct Hl as (Hin & Hc & _).
  assert (n = turned (og_board s) row col player kOthelloDirections) as Hnt
    by (by apply count_flips_turned).
  set (b1 := set_cell (og_board s) row col player).
  assert (board_ok b1) as Hb1 by (by apply set_board_ok).
  destruct (flip_all_spec kOthelloDirections b1 (og_board s) row col player)
    as (Hb' & H1 & H2); try done.
  { apply (bool_decide_unpack _). vm_compute. exact I. }
  { intros d Hd k Hk. destruct (ray row col d k) as [r c] eqn:Hray. intros Hrc.
    unfold b1. rewrite cell_set by done. rewrite decide_False; [done|]. intros [-> ->].
    assert (ray r c d k = ray r c d 0) as Heq by (rewrite Hray; unfold ray; f_equal; lia).
    apply ray_inj in Heq; [lia|done]. }
  unfold b1 in H1, H2. rewrite discs_set, Hc in H1, H2 by done.
  rewrite decide_True, decide_False in H1 by done.
  rewrite decide_False, decide_False in H2 by (try done; by destruct player).
  assert (s' = with_board s (fold_left (flip_direction row col player) kOthelloDirections b1)) as ->
    by (unfold s', session_game_othello_apply_move; by rewrite Hin).
  split; [done|]. unfold scored. rewrite <- Hnt in H1, H2.
  cbn [with_board og_board og_red_score og_green_score]. fold b1 in H1, H2.
  set (b' := fold_left _ _ b1) in *. rewrite count_scores_discs by done. cbn [fst snd].
  split; [done|].
  destruct player; [done| |]; cbn [score_of opponent_of with_board og_red_score og_green_score] in *;
    rewrite count_scores_discs by done; cbn [fst snd]; lia.
Qed.
End Board.

Module Slots.
Import Board.

Definition SSH_CHATTER_OTHELLO_MAX_WAIT_QUEUE : Z := 1024.

Record othello_multiplayer_slot := {
  sl_in_use : bool;
  sl_active : bool;
  sl_awaiting_second_player : bool;
  sl_slot_id : Z;
  sl_owner : bytes;
  sl_state : othello_game_state;
  sl_players : option Z * option Z
}.

(** What the queue reads and writes of a session. *)
Record player_session := {
  ps_owner_is_host : bool;
  ps_name : bytes;
  ps_game_active : bool;
  ps_slot_queued : bool;
  ps_othello : othello_game_state
}.

(** The array of waiting sessions, with where it starts and ends. *)
Record wait_queue := {
  wq_ring : list (option Z);
  wq_head : Z;
  wq_tail : Z;
  wq_count : Z
}.

Record othello_host := {
  oh_slots : list othello_multiplayer_slot;
  oh_slot_mask : Z;
  oh_queue : wait_queue;
  oh_sessions : Z -> player_session
}.

Definition with_waiting (s : othello_game_state) (slot_index player_number : Z) (turn over : bool) :
    othello_game_state :=
  {| og_board := og_board s; og_player_turn := turn; og_game_over := over;
     og_consecutive_passes := og_consecutive_passes s; og_red_score := og_red_score s;
     og_green_score := og_green_score s; og_last_player_row := og_last_player_row s;
     og_last_player_col := og_last_player_col s; og_last_ai_row := og_last_ai_row s;
     og_last_ai_col := og_last_ai_col s; og_awaiting_mode_selection := false;
     og_awaiting_difficulty_selection := og_awaiting_difficulty_selection s;
     og_difficulty_level := og_difficulty_level s; og_multiplayer := true;
     og_awaiting_opponent := true; og_slot_index := slot_index;
     og_player_number := player_number |}.

Definition host_othello_slot_by_id_locked (slots : list othello_multiplayer_slot) (slot_id : Z) :
    option othello_multiplayer_slot :=
  if (slot_id <=? 0) || (Z.of_nat (length slots) <? slot_id) then None
  else slots !! Z.to_nat (slot_id - 1).

(** The first slot that is free. *)
Fixpoint free_slot (slots : list othello_multiplayer_slot) (idx : nat) : option nat :=
  match slots with
  | [] => None
  | s :: slots => if sl_in_use s then free_slot slots (S idx) else Some idx
  end.

Definition opened (s : othello_multiplayer_slot) (owner_name : bytes) : othello_multiplayer_slot :=
  let state := session_game_othello_reset_state in
  {| sl_in_use := true; sl_active := false; sl_awaiting_second_player := true;
     sl_slot_id := sl_slot_id s; sl_owner := take 255 owner_name;
     sl_state := with_waiting state (sl_slot_id s) 0 (og_player_turn state) (og_game_over state);
     sl_players := (None, None) |}.

Definition host_othello_allocate_slot_locked (h : othello_host) (owner_name : bytes) :
    option nat * othello_host :=
  match free_slot (oh_slots h) 0 with
  | None => (None, h)
  | Some idx =>
      match oh_slots h !! idx with
      | None => (None, h)
      | Some s =>
          (Some idx,
           {| oh_slots := <[idx := opened s owner_name]> (oh_slots h);
              oh_slot_mask := if (idx <? 64)%nat
                              then Z.lor (oh_slot_mask h) (Z.shiftl 1 (Z.of_nat idx))
                              else oh_slot_mask h;
              oh_queue := oh_queue h; oh_sessions := oh_sessions h |})
      end
  end.

Definition ring_pos (q : wait_queue) (idx : Z) : nat :=
  Z.to_nat ((wq_head q + idx) mod SSH_CHATTER_OTHELLO_MAX_WAIT_QUEUE).

(** The sessions waiting, in order. *)
Definition waiting (q : wait_queue) : list (option Z) :=
  map (fun i => default None (wq_ring q !! ring_pos q (Z.of_nat i)))
    (seq 0 (Z.to_nat (wq_count q))).

Definition host_othello_queue_push_locked (q : wait_queue) (ctx : Z) : bool * wait_queue :=
  if SSH_CHATTER_OTHELLO_MAX_WAIT_QUEUE <=? wq_count q then (false, q)
  else if existsb (fun x => bool_decide (x = Some ctx)) (waiting q) then (true, q)
  else (true, {| wq_ring := <[Z.to_nat (wq_tail q) := Some ctx]> (wq_ring q);
                 wq_head := wq_head q;
                 wq_tail := (wq_tail q + 1) mod SSH_CHATTER_OTHELLO_MAX_WAIT_QUEUE;
                 wq_count := wq_count q + 1 |}).

(** The head of the queue taken off. *)
Definition queue_pop (q : wait_queue) : option Z * wait_queue :=
  (default None (wq_ring q !! Z.to_nat (wq_head q)),
   {| wq_ring := <[Z.to_nat (wq_head q) := None]> (wq_ring q);
      wq_head := (wq_head q + 1) mod SSH_CHATTER_OTHELLO_MAX_WAIT_QUEUE;
      wq_tail := wq_tail q; wq_count := wq_count q - 1 |}).

Definition with_queue (h : othello_host) (q : wait_queue) : othello_host :=
  {| oh_slots := oh_slots h; oh_slot_mask := oh_slot_mask h; oh_queue := q;
     oh_sessions := oh_sessions h |}.

Definition eligible (h : othello_host) (x : option Z) : bool :=
  match x with
  | None => false
  | Some ctx => ps_owner_is_host (oh_sessions h ctx) && negb (ps_game_active (oh_sessions h ctx))
  end.

(** The session that gets the slot, put on it as its first player. *)
Definition seat (h : othello_host) (idx : nat) (ctx : Z) : othello_host :=
  match oh_slots h !! idx with
  | None => h
  | Some s =>
      let p := oh_sessions h ctx in
      let state := session_game_othello_copy_core (ps_othello p) (sl_state s) in
      {| oh_slots := <[idx := {| sl_in_use := sl_in_use s; sl_active := sl_active s;
                                 sl_awaiting_second_player := sl_awaiting_second_player s;
                                 sl_slot_id := sl_slot_id s; sl_owner := sl_owner s;
                                 sl_state := sl_state s;
                                 sl_players := (Some ctx, snd (sl_players s)) |}]> (oh_slots h);
         oh_slot_mask := oh_slot_mask h; oh_queue := oh_queue h;
         oh_sessions := fun x =>
           if x =? ctx
           then {| ps_owner_is_host := ps_owner_is_host p; ps_name := ps_name p;
                   ps_game_active := true; ps_slot_queued := false;
                   ps_othello := with_waiting state (sl_slot_id s) 0 false false |}
           else oh_sessions h x |}
  end.

(** The loop of [host_othello_try_promote_queue_locked]; each round takes one
    session off the queue. *)
Fixpoint promote_go (fuel : nat) (h : othello_host) : option Z * othello_host :=
  match fuel with
  | O => (None, h)
  | S fuel =>
      if 0 <? wq_count (oh_queue h) then
        let (queued, q) := queue_pop (oh_queue h) in
        let h := with_queue h q in
        match queued with
        | Some ctx =>
            if eligible h (Some ctx) then
              match host_othello_allocate_slot_locked h (ps_name (oh_sessions h ctx)) with
              | (None, h) => (None, h)
              | (Some idx, h) => (Some ctx, seat h idx ctx)
              end
            else promote_go fuel h
        | None => promote_go fuel h
        end
      else (None, h)
  end.

Definition host_othello_try_promote_queue_locked (h : othello_host) : option Z * othello_host :=
  promote_go (Z.to_nat (wq_count (oh_queue h))) h.

Definition closed (s : othello_multiplayer_slot) : othello_multiplayer_slot :=
  {| sl_in_use := false; sl_active := false; sl_awaiting_second_player := false;
     sl_slot_id := sl_slot_id s; sl_owner := []; sl_state := session_game_othello_reset_state;
     sl_players := (None, None) |}.

Definition host_othello_release_slot_locked (h : othello_host) (idx : nat) :
    option Z * othello_host :=
  match oh_slots h !! idx with
  | None => (None, h)
  | Some s =>
      host_othello_try_promote_queue_locked
        {| oh_slots := <[idx := closed s]> (oh_slots h);
           oh_slot_mask := if (0 <? sl_slot_id s) && (sl_slot_id s <=? 64)
                           then Z.land (oh_slot_mask h)
                                  (Z.lxor (Z.shiftl 1 (sl_slot_id s - 1)) 18446744073709551615)
                           else oh_slot_mask h;
           oh_queue := oh_queue h; oh_sessions := oh_sessions h |}
  end.

(** ** The ring is a queue *)

Definition queue_ok (q : wait_queue) : Prop :=
  length (wq_ring q) = 1024%nat /\ 0 <= wq_head q < 1024 /\ 0 <= wq_count q <= 1024 /\
  wq_tail q = (wq_head q + wq_count q) mod 1024.

Lemma waiting_length q : length (waiting q) = Z.to_nat (wq_count q).
Proof. unfold waiting. by rewrite length_map, length_seq. Qed.

Lemma ring_pos_inj q i j : 0 <= i < 1024 -> 0 <= j < 1024 -> ring_pos q i = ring_pos q j -> i = j.
Proof.
  unfold ring_pos, SSH_CHATTER_OTHELLO_MAX_WAIT_QUEUE. intros Hi Hj Heq.
  pose proof (Z.mod_pos_bound (wq_head q + i) 1024 ltac:(lia)).
  pose proof (Z.mod_pos_bound (wq_head q + j) 1024 ltac:(lia)).
  apply Z2Nat.inj in Heq; [|lia..].
  pose proof (Z.div_mod (wq_head q + i) 1024 ltac:(lia)).
  pose proof (Z.div_mod (wq_head q + j) 1024 ltac:(lia)). lia.
Qed.

Lemma ring_pos_bound q i : (ring_pos q i < 1024)%nat.
Proof.
  unfold ring_pos, SSH_CHATTER_OTHELLO_MAX_WAIT_QUEUE.
  pose proof (Z.mod_pos_bound (wq_head q + i) 1024 ltac:(lia)). lia.
Qed.

(** The array of waiting sessions is a queue without doubles: a session that
    is not waiting goes to the end, one that waits keeps its place, and only a
    queue of 1024 refuses. *)
Theorem queue_push_fifo q ctx : queue_ok q ->
  let (ok, q') := host_othello_queue_push_locked q ctx in
  queue_ok q' /\
  ok = (wq_count q <? 1024) /\
  waiting q' = if ok && negb (bool_decide (Some ctx ∈ waiting q))
               then waiting q ++ [Some ctx] else waiting q.
Proof.
  intros Hq. pose proof Hq as (Hlen & Hh & Hc & Ht).
  unfold host_othello_queue_push_locked, SSH_CHATTER_OTHELLO_MAX_WAIT_QUEUE.
  rewrite Z.leb_antisym. destruct (Z.ltb_spec (wq_count q) 1024) as [Hroom|]; cbn [negb]; [|done].
  assert (existsb (fun x => bool_decide (x = Some ctx)) (waiting q) =
          bool_decide (Some ctx ∈ waiting q)) as ->.
  { apply eq_true_iff_eq. rewrite existsb_exists, bool_decide_eq_true. split.
    - by intros (x & Hx%list_elem_of_In & ->%bool_decide_eq_true).
    - intros Hx. exists (Some ctx). split; [by apply list_elem_of_In|by apply bool_decide_eq_true]. }
  case_bool_decide as Hin; cbn [negb andb]; [done|].
  split_and!; [|done|].
  - unfold queue_ok. cbn [wq_ring wq_head wq_tail wq_count]. rewrite length_insert, Ht.
    split_and!; [done|lia..|]. rewrite Z.add_mod_idemp_l by lia. f_equal. lia.
  - unfold waiting at 1. cbn [wq_ring wq_count].
    replace (Z.to_nat (wq_count q + 1)) with (Z.to_nat (wq_count q) + 1)%nat by lia.
    rewrite seq_app, map_app. cbn [seq map].
    assert (Z.to_nat (wq_tail q) = ring_pos q (wq_count q)) as Hpos by (by rewrite Ht).
    rewrite Hpos. unfold waiting. f_equal.
    + apply map_ext_in. intros i [_ Hi]%in_seq.
      unfold ring_pos at 1. cbn [wq_head]. fold (ring_pos q (Z.of_nat i)).
      rewrite list_lookup_insert_ne; [done|]. intros Heq.
      apply ring_pos_inj in Heq; lia.
    + f_equal. unfold ring_pos at 1. cbn [wq_head].
      replace (Z.of_nat (0 + Z.to_nat (wq_count q))) with (wq_count q) by lia.
      fold (ring_pos q (wq_count q)).
      rewrite list_lookup_insert_eq; [done|]. rewrite Hlen. apply ring_pos_bound.
Qed.

Lemma queue_pop_spec q : queue_ok q -> 0 < wq_count q ->
  let (x, q') := queue_pop q in
  queue_ok q' /\ wq_count q' = wq_count q - 1 /\ waiting q = x :: waiting q'.
Proof.
  intros (Hlen & Hh & Hc & Ht) Hpos. unfold queue_pop, SSH_CHATTER_OTHELLO_MAX_WAIT_QUEUE.
  split_and!; [|done|].
  - unfold queue_ok. cbn [wq_ring wq_head wq_tail wq_count]. rewrite length_insert.
    pose proof (Z.mod_pos_bound (wq_head q + 1) 1024 ltac:(lia)).
    split_and!; [done|lia..|]. rewrite Ht, Z.add_mod_idemp_l by lia. f_equal. lia.
  - unfold waiting. cbn [wq_ring wq_count].
    replace (Z.to_nat (wq_count q)) with (S (Z.to_nat (wq_count q - 1))) by lia.
    cbn [seq map]. f_equal.
    + unfold ring_pos, SSH_CHATTER_OTHELLO_MAX_WAIT_QUEUE. rewrite Z.add_0_r, Z.mod_small by lia. done.
    + rewrite <- seq_shift, map_map. apply map_ext_in. intros i [_ Hi]%in_seq.
      unfold ring_pos at 2. cbn [wq_head]. unfold SSH_CHATTER_OTHELLO_MAX_WAIT_QUEUE.
      rewrite Z.add_mod_idemp_l by lia.
      replace (wq_head q + 1 + Z.of_nat i) with (wq_head q + Z.of_nat (S i)) by lia.
      change (Z.to_nat ((wq_head q + Z.of_nat (S i)) mod 1024)) with (ring_pos q (Z.of_nat (S i))).
      rewrite list_lookup_insert_ne; [done|].
      assert (Z.to_nat (wq_head q) = ring_pos q 0) as ->
        by (unfold ring_pos, SSH_CHATTER_OTHELLO_MAX_WAIT_QUEUE; by rewrite Z.add_0_r, Z.mod_small by lia).
      intros Heq%ring_pos_inj; lia.
Qed.

Lemma eligible_queue h q x : eligible (with_queue h q) x = eligible h x.
Proof. done. Qed.

Lemma free_slot_spec slots k i : free_slot slots k = Some i ->
  exists s, (k <= i)%nat /\ slots !! (i - k)%nat = Some s /\ sl_in_use s = false.
Proof.
  revert k; induction slots as [|s slots IH]; intros k; simpl; [done|].
  destruct (sl_in_use s) eqn:Hs.
  - intros (s' & Hle & Hi & Hf)%IH. exists s'.
    replace (i - k)%nat with (S (i - S k)) by lia. split_and!; [lia|done|done].
  - intros [= <-]. exists s. by rewrite Nat.sub_diag.
Qed.

Lemma promote_go_spec fuel h idx : queue_ok (oh_queue h) ->
  wq_count (oh_queue h) <= Z.of_nat fuel -> free_slot (oh_slots h) 0 = Some idx ->
  let (seated, h') := promote_go fuel h in
  queue_ok (oh_queue h') /\
  match seated with
  | Some ctx => exists before after,
      waiting (oh_queue h) = before ++ Some ctx :: after /\
      Forall (fun x => eligible h x = false) before /\ eligible h (Some ctx) = true /\
      waiting (oh_queue h') = after /\
      exists s, oh_slots h' !! idx = Some s /\ sl_in_use s = true /\
        sl_players s = (Some ctx, None) /\
        forall j, j <> idx -> oh_slots h' !! j = oh_slots h !! j
  | None => Forall (fun x => eligible h x = false) (waiting (oh_queue h)) /\
            waiting (oh_queue h') = [] /\ oh_slots h' = oh_slots h
  end.
Proof.
  revert h; induction fuel as [|fuel IH]; intros h Hq Hf Hfree; cbn [promote_go].
  { assert (waiting (oh_queue h) = []) as ->
      by (apply nil_length_inv; rewrite waiting_length; lia). by split_and!. }
  destruct (Z.ltb_spec 0 (wq_count (oh_queue h))).
  2: { assert (waiting (oh_queue h) = []) as ->
      by (apply nil_length_inv; rewrite waiting_length; lia). by split_and!. }
  pose proof (queue_pop_spec (oh_queue h) Hq ltac:(done)) as Hpop.
  destruct (queue_pop (oh_queue h)) as [x q]. destruct Hpop as (Hq' & Hc' & ->).
  set (h1 := with_queue h q).
  assert (eligible h x = false ->
    let (seated, h') := promote_go fuel h1 in
    queue_ok (oh_queue h') /\
    match seated with
    | Some ctx => exists before after,
        x :: waiting q = before ++ Some ctx :: after /\
        Forall (fun x => eligible h x = false) before /\ eligible h (Some ctx) = true /\
        waiting (oh_queue h') = after /\
        exists s, oh_slots h' !! idx = Some s /\ sl_in_use s = true /\
          sl_players s = (Some ctx, None) /\
          forall j, j <> idx -> oh_slots h' !! j = oh_slots h !! j
    | None => Forall (fun x => eligible h x = false) (x :: waiting q) /\
              waiting (oh_queue h') = [] /\ oh_slots h' = oh_slots h
    end) as Hskip.
  { intros Hx. specialize (IH h1 Hq' ltac:(simpl; lia) Hfree).
    destruct (promote_go fuel h1) as [[ctx|] h']; destruct IH as [Hq2 IH]; (split; [done|]).
    - destruct IH as (before & after & Heq & Hb & Hrest). exists (x :: before), after.
      split_and!; [cbn; by f_equal|by constructor|apply Hrest..].
    - destruct IH as (Hall & Hrest). split; [by constructor|done]. }
  destruct x as [ctx|]; [|by apply Hskip].
  change (eligible h1 (Some ctx)) with (eligible h (Some ctx)).
  destruct (eligible h (Some ctx)) eqn:He; [|by apply Hskip].
  unfold host_othello_allocate_slot_locked. change (oh_slots h1) with (oh_slots h).
  rewrite Hfree. pose proof (free_slot_spec _ _ _ Hfree) as (s & _ & Hs & _).
  rewrite Nat.sub_0_r in Hs. rewrite Hs. apply lookup_lt_Some in Hs as Hlt.
  unfold seat. cbn [oh_slots]. rewrite list_lookup_insert_eq by done.
  cbn [oh_queue oh_slots]. split; [done|]. exists [], (waiting q).
  split_and!; [done|constructor|done|done|]. eexists.
  rewrite list_lookup_insert_eq by (by rewrite length_insert). split_and!; [done..|].
  intros j Hj. by rewrite !list_lookup_insert_ne.
Qed.

(** A slot that is given back goes to the session that has waited longest among
    those that can still play: it is seated there as first player, those before
    it, who cannot, leave the queue, those after it keep their order, and no
    other slot changes.  When nobody can play the queue is left empty. *)
Theorem release_promotes_first h idx s : queue_ok (oh_queue h) ->
  oh_slots h !! idx = Some s -> (forall j, (j < idx)%nat -> exists t, oh_slots h !! j = Some t /\ sl_in_use t = true) ->
  let (seated, h') := host_othello_release_slot_locked h idx in
  queue_ok (oh_queue h') /\
  match seated with
  | Some ctx => exists before after,
      waiting (oh_queue h) = before ++ Some ctx :: after /\
      Forall (fun x => eligible h x = false) before /\ eligible h (Some ctx) = true /\
      waiting (oh_queue h') = after /\
      exists s', oh_slots h' !! idx = Some s' /\ sl_in_use s' = true /\
        sl_players s' = (Some ctx, None) /\
        forall j, j <> idx -> oh_slots h' !! j = oh_slots h !! j
  | None => Forall (fun x => eligible h x = false) (waiting (oh_queue h)) /\
            waiting (oh_queue h') = [] /\ oh_slots h' = <[idx := closed s]> (oh_slots h)
  end.
Proof.
  intros Hq Hs Hbefore. unfold host_othello_release_slot_locked. rewrite Hs.
  set (h1 := {| oh_slots := _; oh_slot_mask := _; oh_queue := _; oh_sessions := _ |}).
  assert (free_slot (oh_slots h1) 0 = Some idx) as Hfree.
  { apply lookup_lt_Some in Hs as Hlt. unfold h1. cbn [oh_slots].
    assert (forall l k i, (i < length l)%nat ->
      (forall j, (j < i)%nat -> exists t, l !! j = Some t /\ sl_in_use t = true) ->
      free_slot (<[i := closed s]> l) k = Some (k + i)%nat) as Hgen; [|by apply Hgen].
    clear. induction l as [|t l IH]; intros k i Hi Hj; simpl in Hi; [lia|].
    destruct i as [|i]; simpl; [f_equal; lia|].
    destruct (Hj 0%nat ltac:(lia)) as (t' & [= <-] & ->). rewrite IH by
      (lia || (intros j Hlt; apply (Hj (S j)); lia)). f_equal. lia. }
  pose proof (promote_go_spec (Z.to_nat (wq_count (oh_queue h1))) h1 idx Hq) as Hp.
  unfold host_othello_try_promote_queue_locked.
  specialize (Hp ltac:(destruct Hq as (_ & _ & ? & _); simpl; lia) Hfree).
  destruct (promote_go _ h1) as [[ctx|] h']; [|exact Hp].
  destruct Hp as (Hq' & before & after & Hw & Hb & He & Ha & s' & Hs' & Hu & Hpl & Hother).
  split; [done|]. exists before, after. split_and!; try done. exists s'. split_and!; try done.
  intros j Hj. rewrite Hother by done. unfold h1. cbn [oh_slots]. by rewrite list_lookup_insert_ne.
Qed.
End Slots.

(** ** Samples *)

Module OthelloSamples.
Import Board Slots.

Definition start : othello_game_state := session_game_othello_reset_state.

Lemma start_legal : legal (og_board start) 2 3 GREEN \/ legal (og_board start) 2 3 RED.
Proof.
  right. split_and!; [reflexivity|vm_compute; reflexivity|]. exists 1, 0, 1.
  split; [by do 6 right; left|]. split_and!; [lia| |vm_compute; reflexivity..].
  intros k Hk. assert (k = 1) as -> by lia. split; vm_compute; reflexivity.
Qed.


Lemma apply_move_scores_witness :
  let n := session_game_othello_count_flips (og_board start) 2 3 RED in
  let s' := session_game_othello_apply_move start 2 3 RED in
  1 <= n /\ scored s' /\
  score_of s' RED = score_of start RED + n + 1 /\
  score_of s' (opponent_of RED) = score_of start (opponent_of RED) - n.
Proof.
  apply (apply_move_scores start 2 3 RED); [|discriminate|].
  - split_and!; vm_compute; reflexivity.
  - destruct start_legal as [H|H]; [|exact H].
    exfalso. assert (0 < session_game_othello_count_flips (og_board start) 2 3 GREEN) as Hc
      by (by apply count_flips_spec). vm_compute in Hc. discriminate.
Defined.

Definition empty_queue : wait_queue :=
  {| wq_ring := replicate 1024 None; wq_head := 0; wq_tail := 0; wq_count := 0 |}.

Lemma empty_queue_ok : queue_ok empty_queue.
Proof. unfold queue_ok. split_and!; vm_compute; congruence. Qed.

Lemma queue_push_fifo_witness :
  let (ok, q') := host_othello_queue_push_locked empty_queue 5 in
  queue_ok q' /\ ok = (wq_count empty_queue <? 1024) /\
  waiting q' = if ok && negb (bool_decide (Some 5 ∈ waiting empty_queue))
               then waiting empty_queue ++ [Some 5] else waiting empty_queue.
Proof. apply queue_push_fifo, empty_queue_ok. Defined.

Definition one_slot : othello_multiplayer_slot :=
  {| sl_in_use := true; sl_active := true; sl_awaiting_second_player := false;
     sl_slot_id := 1; sl_owner := lit "ann"; sl_state := start; sl_players := (Some 1, Some 2) |}.

(** Session 7 has started another game; session 8 waits behind it. *)
Definition busy_host : othello_host :=
  {| oh_slots := [one_slot]; oh_slot_mask := 1;
     oh_queue := snd (host_othello_queue_push_locked
                        (snd (host_othello_queue_push_locked empty_queue 7)) 8);
     oh_sessions := fun ctx => {| ps_owner_is_host := true; ps_name := lit "guest";
       ps_game_active := ctx =? 7; ps_slot_queued := true; ps_othello := start |} |}.

Lemma busy_queue_ok : queue_ok (oh_queue busy_host).
Proof.
  cbn [busy_host oh_queue]. unfold queue_ok. split_and!; vm_compute; congruence.
Qed.

Lemma release_promotes_first_witness :
  fst (host_othello_release_slot_locked busy_host 0) = Some 8 /\
  let (seated, h') := host_othello_release_slot_locked busy_host 0 in
  queue_ok (oh_queue h') /\
  match seated with
  | Some ctx => exists before after,
      waiting (oh_queue busy_host) = before ++ Some ctx :: after /\
      Forall (fun x => eligible busy_host x = false) before /\
      eligible busy_host (Some ctx) = true /\
      waiting (oh_queue h') = after /\
      exists s', oh_slots h' !! 0%nat = Some s' /\ sl_in_use s' = true /\
        sl_players s' = (Some ctx, None) /\
        forall j, j <> 0%nat -> oh_slots h' !! j = oh_slots busy_host !! j
  | None => Forall (fun x => eligible busy_host x = false) (waiting (oh_queue busy_host)) /\
            waiting (oh_queue h') = [] /\
            oh_slots h' = <[0%nat := closed one_slot]> (oh_slots busy_host)
  end.
Proof.
  split; [vm_compute; reflexivity|].
  apply (release_promotes_first busy_host 0 one_slot busy_queue_ok eq_refl). lia.
Defined.
End OthelloSamples.
