(* ===== verification/Tetris.v ===== *)
(** Tetris: the piece bag with its random numbers, positions, gravity, locking,
    clearing of lines and rounds of [src/host/games/tetris.c], with the piece
    shapes of [src/host/transport/color_and_palette.c].  A game is its Tetris
    state with the random state of its session; every reading of the clock is an
    argument.  The handlers around these operations, with their checks of an
    active and uncamouflaged game, are in [TetrisInput]; the drawing and the
    messages are left out. *)

From Stdlib Require Import ZArith Lia String Ascii.
From stdpp Require Import prelude.
From S2P Require Import Prelude HostGuard.
Import Time.

Module Tetris.

Definition SSH_CHATTER_TETRIS_WIDTH : Z := 15.
Definition SSH_CHATTER_TETRIS_HEIGHT : Z := 20.
Definition SSH_CHATTER_TETROMINO_SIZE : Z := 4.
Definition SSH_CHATTER_TETRIS_GRAVITY_THRESHOLD : Z := 5.
Definition SSH_CHATTER_TETRIS_GRAVITY_RATE : Z := 1.
Definition SSH_CHATTER_TETRIS_GRAVITY_INTERVAL_NS : Z := 100000000.
Definition SSH_CHATTER_TETRIS_LINES_PER_ROUND : Z := 10.
Definition SSH_CHATTER_TETRIS_MAX_ROUNDS : Z := 3.

Definition TETROMINO_SHAPES : list (list bytes) := [
  [lit "....####........"; lit "..#...#...#...#.";
   lit "....####........"; lit "..#...#...#...#."];
  [lit "#...###........."; lit ".##..#...#......";
   lit "....###...#....."; lit ".#...#..##......"];
  [lit "..#.###........."; lit ".#...#...##.....";
   lit "....###.#......."; lit "##...#...#......"];
  [lit ".##..##........."; lit ".##..##.........";
   lit ".##..##........."; lit ".##..##........."];
  [lit ".##.##.........."; lit ".#...##...#.....";
   lit ".##.##.........."; lit ".#...##...#....."];
  [lit ".#..###........."; lit ".#...##..#......";
   lit "....###..#......"; lit ".#..##...#......"];
  [lit "##...##........."; lit "..#..##..#......";
   lit "##...##........."; lit "..#..##..#......"]
].

Record tetris_game_state := {
  tg_board : list (list Z);
  tg_current_piece : Z;
  tg_rotation : Z;
  tg_row : Z;
  tg_column : Z;
  tg_next_piece : Z;
  tg_score : Z;
  tg_lines_cleared : Z;
  tg_game_over : bool;
  tg_bag : list Z;
  tg_bag_index : nat;
  tg_gravity_counter : Z;
  tg_gravity_threshold : Z;
  tg_gravity_rate : Z;
  tg_timer_initialized : bool;
  tg_timer_last : timespec;
  tg_timer_accumulator_ns : Z;
  tg_round : Z;
  tg_next_round_line_goal : Z;
  tg_escape_active : bool;
  tg_escape_buffer : bytes  (* the bytes up to [input_escape_length] *)
}.

(** The game, and the random state it draws from. *)
Record game := { g_tetris : tetris_game_state; g_rng_state : Z; g_rng_seeded : bool }.

(** Records with some fields changed. *)
Definition with_piece (s : tetris_game_state) (piece rotation row column : Z) : tetris_game_state :=
  {| tg_board := tg_board s; tg_current_piece := piece; tg_rotation := rotation;
     tg_row := row; tg_column := column; tg_next_piece := tg_next_piece s;
     tg_score := tg_score s; tg_lines_cleared := tg_lines_cleared s;
     tg_game_over := tg_game_over s; tg_bag := tg_bag s; tg_bag_index := tg_bag_index s;
     tg_gravity_counter := tg_gravity_counter s; tg_gravity_threshold := tg_gravity_threshold s;
     tg_gravity_rate := tg_gravity_rate s; tg_timer_initialized := tg_timer_initialized s;
     tg_timer_last := tg_timer_last s; tg_timer_accumulator_ns := tg_timer_accumulator_ns s;
     tg_round := tg_round s; tg_next_round_line_goal := tg_next_round_line_goal s;
     tg_escape_active := tg_escape_active s; tg_escape_buffer := tg_escape_buffer s |}.

Definition with_bag (s : tetris_game_state) (bag : list Z) (bag_index : nat) (next : Z) :
    tetris_game_state :=
  {| tg_board := tg_board s; tg_current_piece := tg_current_piece s;
     tg_rotation := tg_rotation s; tg_row := tg_row s; tg_column := tg_column s;
     tg_next_piece := next; tg_score := tg_score s; tg_lines_cleared := tg_lines_cleared s;
     tg_game_over := tg_game_over s; tg_bag := bag; tg_bag_index := bag_index;
     tg_gravity_counter := tg_gravity_counter s; tg_gravity_threshold := tg_gravity_threshold s;
     tg_gravity_rate := tg_gravity_rate s; tg_timer_initialized := tg_timer_initialized s;
     tg_timer_last := tg_timer_last s; tg_timer_accumulator_ns := tg_timer_accumulator_ns s;
     tg_round := tg_round s; tg_next_round_line_goal := tg_next_round_line_goal s;
     tg_escape_active := tg_escape_active s; tg_escape_buffer := tg_escape_buffer s |}.

Definition with_board (s : tetris_game_state) (board : list (list Z)) (score lines : Z)
    (over : bool) : tetris_game_state :=
  {| tg_board := board; tg_current_piece := tg_current_piece s;
     tg_rotation := tg_rotation s; tg_row := tg_row s; tg_column := tg_column s;
     tg_next_piece := tg_next_piece s; tg_score := score; tg_lines_cleared := lines;
     tg_game_over := over; tg_bag := tg_bag s; tg_bag_index := tg_bag_index s;
     tg_gravity_counter := tg_gravity_counter s; tg_gravity_threshold := tg_gravity_threshold s;
     tg_gravity_rate := tg_gravity_rate s; tg_timer_initialized := tg_timer_initialized s;
     tg_timer_last := tg_timer_last s; tg_timer_accumulator_ns := tg_timer_accumulator_ns s;
     tg_round := tg_round s; tg_next_round_line_goal := tg_next_round_line_goal s;
     tg_escape_active := tg_escape_active s; tg_escape_buffer := tg_escape_buffer s |}.

Definition with_gravity (s : tetris_game_state) (counter threshold : Z) (initialized : bool)
    (last : timespec) (accumulator : Z) : tetris_game_state :=
  {| tg_board := tg_board s; tg_current_piece := tg_current_piece s;
     tg_rotation := tg_rotation s; tg_row := tg_row s; tg_column := tg_column s;
     tg_next_piece := tg_next_piece s; tg_score := tg_score s;
     tg_lines_cleared := tg_lines_cleared s; tg_game_over := tg_game_over s;
     tg_bag := tg_bag s; tg_bag_index := tg_bag_index s; tg_gravity_counter := counter;
     tg_gravity_threshold := threshold; tg_gravity_rate := tg_gravity_rate s;
     tg_timer_initialized := initialized; tg_timer_last := last;
     tg_timer_accumulator_ns := accumulator; tg_round := tg_round s;
     tg_next_round_line_goal := tg_next_round_line_goal s;
     tg_escape_active := tg_escape_active s; tg_escape_buffer := tg_escape_buffer s |}.

Definition with_round (s : tetris_game_state) (round goal : Z) : tetris_game_state :=
  {| tg_board := tg_board s; tg_current_piece := tg_current_piece s;
     tg_rotation := tg_rotation s; tg_row := tg_row s; tg_column := tg_column s;
     tg_next_piece := tg_next_piece s; tg_score := tg_score s;
     tg_lines_cleared := tg_lines_cleared s; tg_game_over := tg_game_over s;
     tg_bag := tg_bag s; tg_bag_index := tg_bag_index s;
     tg_gravity_counter := tg_gravity_counter s; tg_gravity_threshold := tg_gravity_threshold s;
     tg_gravity_rate := tg_gravity_rate s; tg_timer_initialized := tg_timer_initialized s;
     tg_timer_last := tg_timer_last s; tg_timer_accumulator_ns := tg_timer_accumulator_ns s;
     tg_round := round; tg_next_round_line_goal := goal;
     tg_escape_active := tg_escape_active s; tg_escape_buffer := tg_escape_buffer s |}.

Definition with_escape (s : tetris_game_state) (active : bool) (buffer : bytes) :
    tetris_game_state :=
  {| tg_board := tg_board s; tg_current_piece := tg_current_piece s;
     tg_rotation := tg_rotation s; tg_row := tg_row s; tg_column := tg_column s;
     tg_next_piece := tg_next_piece s; tg_score := tg_score s;
     tg_lines_cleared := tg_lines_cleared s; tg_game_over := tg_game_over s;
     tg_bag := tg_bag s; tg_bag_index := tg_bag_index s;
     tg_gravity_counter := tg_gravity_counter s; tg_gravity_threshold := tg_gravity_threshold s;
     tg_gravity_rate := tg_gravity_rate s; tg_timer_initialized := tg_timer_initialized s;
     tg_timer_last := tg_timer_last s; tg_timer_accumulator_ns := tg_timer_accumulator_ns s;
     tg_round := tg_round s; tg_next_round_line_goal := tg_next_round_line_goal s;
     tg_escape_active := active; tg_escape_buffer := buffer |}.

Definition with_tetris (g : game) (s : tetris_game_state) : game :=
  {| g_tetris := s; g_rng_state := g_rng_state g; g_rng_seeded := g_rng_seeded g |}.

(** ** Random numbers and the bag *)

(** [clock_seed] is what the clock and the addresses of the session and its host
    make when the generator is first used. *)
Definition session_game_seed_rng (clock_seed : Z) (g : game) : game :=
  if g_rng_seeded g then g
  else {| g_tetris := g_tetris g;
          g_rng_state := if clock_seed =? 0 then 11400714819323198485 else clock_seed;
          g_rng_seeded := true |}.

Definition session_game_random (clock_seed : Z) (g : game) : Z * game :=
  let g := session_game_seed_rng clock_seed g in
  let x := g_rng_state g in
  let x := Z.lxor x (Z.shiftr x 12) in
  let x := Z.lxor x (u64 (Z.shiftl x 25)) in
  let x := Z.lxor x (Z.shiftr x 27) in
  let result := u64 (x * 2685821657736338717) in
  (u32 (Z.shiftr result 32),
   {| g_tetris := g_tetris g; g_rng_state := x; g_rng_seeded := g_rng_seeded g |}).

Definition session_game_random_range (clock_seed : Z) (g : game) (max : Z) : Z * game :=
  if max <=? 0 then (0, g)
  else let (r, g) := session_game_random clock_seed g in (r mod max, g).

Definition swap_cells (bag : list Z) (i j : nat) : list Z :=
  let temp := nth i bag 0 in <[j := temp]> (<[i := nth j bag 0]> bag).

(** The shuffle, from index [idx] down to 1. *)
Fixpoint shuffle_go (clock_seed : Z) (idx : nat) (bag : list Z) (g : game) : list Z * game :=
  match idx with
  | O => (bag, g)
  | S lower =>
      let (swap_index, g) := session_game_random_range clock_seed g (Z.of_nat idx + 1) in
      shuffle_go clock_seed lower (swap_cells bag idx (Z.to_nat swap_index)) g
  end.

Definition session_game_tetris_fill_bag (clock_seed : Z) (g : game) : game :=
  let (bag, g) := shuffle_go clock_seed 6 (seqZ 0 7) g in
  with_tetris g (with_bag (g_tetris g) bag 0 (tg_next_piece (g_tetris g))).

Definition session_game_tetris_take_piece (clock_seed : Z) (g : game) : Z * game :=
  let g := if (7 <=? tg_bag_index (g_tetris g))%nat
           then session_game_tetris_fill_bag clock_seed g else g in
  let s := g_tetris g in
  (nth (tg_bag_index s) (tg_bag s) 0,
   with_tetris g (with_bag s (tg_bag s) (S (tg_bag_index s)) (tg_next_piece s))).

(** ** Rounds and the reset *)

Definition session_game_tetris_apply_round_settings (s : tetris_game_state) : tetris_game_state :=
  let s := if tg_round s =? 0 then with_round s 1 (tg_next_round_line_goal s) else s in
  let reduction := if 0 <? tg_round s then tg_round s - 1 else 0 in
  let base_threshold := SSH_CHATTER_TETRIS_GRAVITY_THRESHOLD in
  let threshold := if base_threshold <=? reduction then 1 else base_threshold - reduction in
  let threshold := if threshold =? 0 then 1 else threshold in
  with_gravity s 0 threshold false zero 0.

Definition empty_row : list Z := replicate (Z.to_nat SSH_CHATTER_TETRIS_WIDTH) 0.

Definition session_game_tetris_reset : tetris_game_state :=
  session_game_tetris_apply_round_settings
    {| tg_board := replicate (Z.to_nat SSH_CHATTER_TETRIS_HEIGHT) empty_row;
       tg_current_piece := -1; tg_rotation := 0; tg_row := 0; tg_column := 0;
       tg_next_piece := 0; tg_score := 0; tg_lines_cleared := 0; tg_game_over := false;
       tg_bag := seqZ 0 7; tg_bag_index := 0; tg_gravity_counter := 0;
       tg_gravity_threshold := 0; tg_gravity_rate := SSH_CHATTER_TETRIS_GRAVITY_RATE;
       tg_timer_initialized := false; tg_timer_last := zero; tg_timer_accumulator_ns := 0;
       tg_round := 1; tg_next_round_line_goal := SSH_CHATTER_TETRIS_LINES_PER_ROUND;
       tg_escape_active := false; tg_escape_buffer := [] |}.

(** ** Positions *)

Definition session_game_tetris_cell_occupied (piece rotation row column : Z) : bool :=
  if (piece <? 0) || (7 <=? piece) then false
  else
    let rotation := Z.land rotation 3 in
    if (row <? 0) || (SSH_CHATTER_TETROMINO_SIZE <=? row) || (column <? 0) ||
       (SSH_CHATTER_TETROMINO_SIZE <=? column) then false
    else
      let shape := nth (Z.to_nat rotation) (nth (Z.to_nat piece) TETROMINO_SHAPES []) [] in
      let value := nthb shape (Z.to_nat (row * SSH_CHATTER_TETROMINO_SIZE + column)) in
      negb (value =? c_dot) && negb (value =? 0).

(** The cells of the 4x4 square of a piece. *)
Definition piece_square : list (Z * Z) :=
  flat_map (fun r => map (fun c => (r, c)) (seqZ 0 SSH_CHATTER_TETROMINO_SIZE))
    (seqZ 0 SSH_CHATTER_TETROMINO_SIZE).

Definition cell_at (board : list (list Z)) (row column : Z) : Z :=
  nth (Z.to_nat column) (nth (Z.to_nat row) board []) 0.

(** One cell of the piece in the way of nothing. *)
Definition cell_free (board : list (list Z)) (board_row board_col : Z) : bool :=
  if (board_col <? 0) || (SSH_CHATTER_TETRIS_WIDTH <=? board_col) then false
  else if SSH_CHATTER_TETRIS_HEIGHT <=? board_row then false
  else if board_row <? 0 then true
  else cell_at board board_row board_col =? 0.

Definition session_game_tetris_position_valid (board : list (list Z))
    (piece rotation row column : Z) : bool :=
  forallb (fun '(r, c) =>
    if negb (session_game_tetris_cell_occupied piece rotation r c) then true
    else cell_free board (row + r) (column + c)) piece_square.

Definition session_game_tetris_spawn_piece (clock_seed : Z) (g : game) : bool * game :=
  let s := g_tetris g in
  let s := with_piece s (tg_next_piece s) 0 0 (SSH_CHATTER_TETRIS_WIDTH / 2 - 2) in
  let s := with_gravity s 0 (tg_gravity_threshold s) false (tg_timer_last s) 0 in
  let s := with_escape s false [] in
  let (next, g) := session_game_tetris_take_piece clock_seed (with_tetris g s) in
  let s := g_tetris g in
  let s := with_bag s (tg_bag s) (tg_bag_index s) next in
  if negb (session_game_tetris_position_valid (tg_board s) (tg_current_piece s)
             (tg_rotation s) (tg_row s) (tg_column s))
  then (false, with_tetris g (with_board s (tg_board s) (tg_score s) (tg_lines_cleared s) true))
  else (true, with_tetris g s).

Definition session_game_tetris_move (g : game) (drow dcol : Z) : bool * game :=
  let s := g_tetris g in
  if tg_current_piece s <? 0 then (false, g)
  else
    let new_row := tg_row s + drow in
    let new_col := tg_column s + dcol in
    if negb (session_game_tetris_position_valid (tg_board s) (tg_current_piece s)
               (tg_rotation s) new_row new_col)
    then (false, g)
    else (true, with_tetris g (with_piece s (tg_current_piece s) (tg_rotation s) new_row new_col)).

Definition session_game_tetris_rotate (g : game) : bool * game :=
  let s := g_tetris g in
  if tg_current_piece s <? 0 then (false, g)
  else
    let new_rotation := Z.land (tg_rotation s + 1) 3 in
    if negb (session_game_tetris_position_valid (tg_board s) (tg_current_piece s)
               new_rotation (tg_row s) (tg_column s))
    then (false, g)
    else (true, with_tetris g (with_piece s (tg_current_piece s) new_rotation (tg_row s)
                                 (tg_column s))).

(** ** Lines *)

Definition row_full (row : list Z) : bool :=
  forallb (fun col => negb (nth (Z.to_nat col) row 0 =? 0)) (seqZ 0 SSH_CHATTER_TETRIS_WIDTH).

(** The rows above [move_row] copied down by one, then an empty row at the top. *)
Fixpoint shift_rows (move_row : nat) (board : list (list Z)) : list (list Z) :=
  match move_row with
  | O => board
  | S above => shift_rows above (<[move_row := nth above board []]> board)
  end.

Definition remove_row (row : nat) (board : list (list Z)) : list (list Z) :=
  <[O := empty_row]> (shift_rows row board).

(** The loop over the rows; the row of a removed line is looked at again. *)
Fixpoint clear_go (fuel : nat) (board : list (list Z)) (row : nat) (removed : Z) :
    list (list Z) * Z :=
  match fuel with
  | O => (board, removed)
  | S fuel =>
      if Z.of_nat row <? SSH_CHATTER_TETRIS_HEIGHT then
        if row_full (nth row board [])
        then clear_go fuel (remove_row row board) row (removed + 1)
        else clear_go fuel board (S row) removed
      else (board, removed)
  end.

Definition session_game_tetris_clear_lines (board : list (list Z)) : list (list Z) * Z :=
  clear_go 40 board 0 0.

(** At most two rounds are left to reach. *)
Fixpoint round_progress_go (fuel : nat) (s : tetris_game_state) : tetris_game_state :=
  match fuel with
  | O => s
  | S fuel =>
      if (tg_round s <? SSH_CHATTER_TETRIS_MAX_ROUNDS) &&
         (tg_next_round_line_goal s <=? tg_lines_cleared s)
      then round_progress_go fuel (session_game_tetris_apply_round_settings
             (with_round s (tg_round s + 1)
                (tg_next_round_line_goal s + SSH_CHATTER_TETRIS_LINES_PER_ROUND)))
      else s
  end.

Definition session_game_tetris_handle_round_progress (s : tetris_game_state) : tetris_game_state :=
  round_progress_go 3 s.

Definition set_cell (board : list (list Z)) (row column v : Z) : list (list Z) :=
  <[Z.to_nat row := <[Z.to_nat column := v]> (nth (Z.to_nat row) board [])]> board.

Definition lock_cell (s : tetris_game_state) (board : list (list Z)) '(r, c) : list (list Z) :=
  if negb (session_game_tetris_cell_occupied (tg_current_piece s) (tg_rotation s) r c) then board
  else
    let board_row := tg_row s + r in
    let board_col := tg_column s + c in
    if (board_row <? 0) || (SSH_CHATTER_TETRIS_HEIGHT <=? board_row) || (board_col <? 0) ||
       (SSH_CHATTER_TETRIS_WIDTH <=? board_col) then board
    else set_cell board board_row board_col (tg_current_piece s + 1).

Definition session_game_tetris_lock_piece (clock_seed : Z) (g : game) : game :=
  let s := g_tetris g in
  if tg_current_piece s <? 0 then g
  else
    let board := fold_left (lock_cell s) piece_square (tg_board s) in
    let (board, cleared) := session_game_tetris_clear_lines board in
    let s := if 0 <? cleared
             then session_game_tetris_handle_round_progress
                    (with_board s board (u32 (tg_score s + cleared * 10))
                       (u32 (tg_lines_cleared s + cleared)) (tg_game_over s))
             else with_board s board (tg_score s) (tg_lines_cleared s) (tg_game_over s) in
    let (ok, g) := session_game_tetris_spawn_piece clock_seed (with_tetris g s) in
    let s := g_tetris g in
    if ok then g
    else with_tetris g (with_board s (tg_board s) (tg_score s) (tg_lines_cleared s) true).

Definition session_game_tetris_soft_drop (clock_seed : Z) (g : game) : bool * game :=
  let (moved, g) := session_game_tetris_move g 1 0 in
  if moved then (true, g) else (false, session_game_tetris_lock_piece clock_seed g).

(** The hard drop: a piece leaves the board's 20 rows after 24 steps at most. *)
Fixpoint hard_drop_go (clock_seed : Z) (fuel : nat) (g : game) : option game :=
  match fuel with
  | O => None
  | S fuel =>
      let (moved, g) := session_game_tetris_soft_drop clock_seed g in
      if moved then hard_drop_go clock_seed fuel g else Some g
  end.

Definition with_counter (g : game) (counter threshold : Z) : game :=
  let s := g_tetris g in
  with_tetris g (with_gravity s counter threshold (tg_timer_initialized s) (tg_timer_last s)
                   (tg_timer_accumulator_ns s)).

(** The gravity loop: each round lowers the counter or ends the loop. *)
Fixpoint gravity_go (clock_seed : Z) (fuel : nat) (g : game) (moved : bool) : bool * game :=
  match fuel with
  | O => (moved, g)
  | S fuel =>
      let s := g_tetris g in
      if tg_gravity_threshold s <=? tg_gravity_counter s then
        let (dropped, g) := session_game_tetris_soft_drop clock_seed g in
        let s := g_tetris g in
        if negb dropped then (moved, with_counter g 0 (tg_gravity_threshold s))
        else
          let g := with_counter g (tg_gravity_counter s - tg_gravity_threshold s)
                     (tg_gravity_threshold s) in
          if tg_game_over (g_tetris g) then (true, g) else gravity_go clock_seed fuel g true
      else (moved, g)
  end.

Definition session_game_tetris_apply_gravity (clock_seed : Z) (g : game) (ticks : Z) :
    bool * game :=
  let s := g_tetris g in
  if tg_game_over s || (ticks =? 0) then (false, g)
  else
    let threshold := if tg_gravity_threshold s =? 0
                     then SSH_CHATTER_TETRIS_GRAVITY_THRESHOLD else tg_gravity_threshold s in
    let counter := u32 (tg_gravity_counter s + ticks) in
    gravity_go clock_seed (Z.to_nat counter + 1) (with_counter g counter threshold) false.

Definition session_game_tetris_update_timer (clock_seed : Z) (g : game) (now : timespec)
    (accelerate : bool) : bool * game :=
  let s := g_tetris g in
  if tg_game_over s then (false, g)
  else
    let accumulator :=
      if negb (tg_timer_initialized s) then tg_timer_accumulator_ns s
      else
        let last := tg_timer_last s in
        let sec := tv_sec now - tv_sec last in
        let nsec := tv_nsec now - tv_nsec last in
        let '(sec, nsec) := if nsec <? 0 then (sec - 1, nsec + 1000000000) else (sec, nsec) in
        if (0 <? sec) || (0 <? nsec)
        then u64 (tg_timer_accumulator_ns s + u64 (u64 sec * 1000000000 + u64 nsec))
        else tg_timer_accumulator_ns s in
    (* the loop that takes the interval off the accumulator while it fits *)
    let interval := SSH_CHATTER_TETRIS_GRAVITY_INTERVAL_NS in
    let ticks := u32 (accumulator / interval * tg_gravity_rate s) in
    let accumulator := accumulator mod interval in
    let g := with_tetris g (with_gravity s (tg_gravity_counter s) (tg_gravity_threshold s) true
                              now accumulator) in
    let ticks := if accelerate then u32 (ticks + tg_gravity_rate s + tg_gravity_threshold s)
                 else ticks in
    if ticks =? 0 then (false, g)
    else session_game_tetris_apply_gravity clock_seed g ticks.

(** The part of [session_game_start_tetris] that sets the game up. *)
Definition start_game (clock_seed : Z) (g : game) : bool * game :=
  let g := session_game_seed_rng clock_seed (with_tetris g session_game_tetris_reset) in
  let g := session_game_tetris_fill_bag clock_seed g in
  let (next, g) := session_game_tetris_take_piece clock_seed g in
  let s := g_tetris g in
  let s := with_bag s (tg_bag s) (tg_bag_index s) next in
  let s := with_board s (tg_board s) (tg_score s) (tg_lines_cleared s) false in
  session_game_tetris_spawn_piece clock_seed (with_tetris g s).

(** ** The bag deals every piece *)

Lemma insert_perm (l : list Z) i x y : l !! i = Some x -> y :: l ≡ₚ x :: <[i := y]> l.
Proof.
  intros Hi. rewrite (insert_take_drop l i y) by (by eapply lookup_lt_Some).
  rewrite <- (take_drop_middle l i x) at 1 by done.
  rewrite <- !Permutation_middle. constructor.
Qed.

Lemma swap_perm bag i j : (i < length bag)%nat -> (j < length bag)%nat ->
  swap_cells bag i j ≡ₚ bag.
Proof.
  intros Hi Hj. unfold swap_cells.
  destruct (lookup_lt_is_Some_2 bag i Hi) as [x Hx], (lookup_lt_is_Some_2 bag j Hj) as [y Hy].
  rewrite (nth_lookup_Some _ _ _ _ Hx), (nth_lookup_Some _ _ _ _ Hy).
  pose proof (insert_perm bag i x y Hx) as H1.
  assert (<[i := y]> bag !! j = Some y) as Hy'.
  { destruct (decide (i = j)) as [<-|]; [by rewrite list_lookup_insert_eq|by rewrite list_lookup_insert_ne]. }
  pose proof (insert_perm (<[i := y]> bag) j y x Hy') as H2.
  rewrite H2 in H1. by apply Permutation_cons_inv in H1.
Qed.

Lemma random_range_bound seed g m : 0 < m ->
  0 <= fst (session_game_random_range seed g m) < m.
Proof.
  intros Hm. unfold session_game_random_range. rewrite (proj2 (Z.leb_gt _ _)) by lia.
  destruct (session_game_random seed g) as [r g']. simpl. apply Z.mod_pos_bound. lia.
Qed.

Lemma shuffle_perm seed idx bag g : (idx < length bag)%nat ->
  fst (shuffle_go seed idx bag g) ≡ₚ bag.
Proof.
  revert bag g; induction idx as [|idx IH]; intros bag g Hlen; cbn [shuffle_go]; [done|].
  pose proof (random_range_bound seed g (Z.of_nat (S idx) + 1) ltac:(lia)) as Hr.
  destruct (session_game_random_range seed g _) as [r g']. simpl in Hr.
  assert (swap_cells bag (S idx) (Z.to_nat r) ≡ₚ bag) as Hs by (apply swap_perm; lia).
  rewrite IH; [done|]. rewrite Hs. lia.
Qed.

(** Drawing does not touch the game but for its bag. *)
Lemma shuffle_tetris seed idx bag g : g_tetris (snd (shuffle_go seed idx bag g)) = g_tetris g.
Proof.
  revert bag g; induction idx as [|idx IH]; intros bag g; cbn [shuffle_go]; [done|].
  unfold session_game_random_range. destruct (_ <=? 0); [apply IH|].
  unfold session_game_random, session_game_seed_rng.
  destruct (g_rng_seeded g); rewrite IH; done.
Qed.

Definition bag_ok (s : tetris_game_state) : Prop :=
  tg_bag s ≡ₚ seqZ 0 7 /\ (tg_bag_index s <= 7)%nat.

Lemma fill_bag_spec seed g :
  exists bag, g_tetris (session_game_tetris_fill_bag seed g) =
    with_bag (g_tetris g) bag 0 (tg_next_piece (g_tetris g)) /\ bag ≡ₚ seqZ 0 7.
Proof.
  unfold session_game_tetris_fill_bag.
  pose proof (shuffle_perm seed 6 (seqZ 0 7) g ltac:(rewrite length_seqZ; lia)) as Hp.
  pose proof (shuffle_tetris seed 6 (seqZ 0 7) g) as Ht.
  destruct (shuffle_go seed 6 (seqZ 0 7) g) as [bag g']. simpl in *. exists bag. by rewrite Ht.
Qed.

Lemma take_piece_spec seed g : bag_ok (g_tetris g) ->
  let (piece, g') := session_game_tetris_take_piece seed g in
  exists bag i, (i < 7)%nat /\ bag ≡ₚ seqZ 0 7 /\ bag !! i = Some piece /\ 0 <= piece < 7 /\
    g_tetris g' = with_bag (g_tetris g) bag (S i) (tg_next_piece (g_tetris g)) /\
    ((tg_bag_index (g_tetris g) < 7)%nat -> bag = tg_bag (g_tetris g) /\ i = tg_bag_index (g_tetris g)) /\
    (tg_bag_index (g_tetris g) = 7%nat -> i = O).
Proof.
  intros [Hbag Hi]. unfold session_game_tetris_take_piece.
  assert (forall bag i, bag ≡ₚ seqZ 0 7 -> (i < 7)%nat ->
    bag !! i = Some (nth i bag 0) /\ 0 <= nth i bag 0 < 7) as Hnth.
  { intros bag i Hp Hlt. assert (length bag = 7%nat) as Hl by (rewrite Hp; apply length_seqZ).
    destruct (lookup_lt_is_Some_2 bag i ltac:(lia)) as [x Hx].
    rewrite (nth_lookup_Some _ _ _ _ Hx). split; [done|].
    apply list_elem_of_lookup_2 in Hx. rewrite Hp in Hx. apply elem_of_seqZ in Hx. lia. }
  destruct (Nat.leb_spec 7 (tg_bag_index (g_tetris g))) as [H7|H7].
  - destruct (fill_bag_spec seed g) as (bag & -> & Hp). cbn.
    destruct (Hnth bag 0%nat Hp ltac:(lia)) as [H1 H2].
    exists bag, 0%nat. split_and!; try done; lia.
  - destruct (Hnth (tg_bag (g_tetris g)) (tg_bag_index (g_tetris g)) Hbag H7) as [H1 H2].
    exists (tg_bag (g_tetris g)), (tg_bag_index (g_tetris g)).
    split_and!; try done; lia.
Qed.

Fixpoint deal (seed : Z) (n : nat) (g : game) : list Z * game :=
  match n with
  | O => ([], g)
  | S n => let (p, g) := session_game_tetris_take_piece seed g in
           let (ps, g) := deal seed n g in (p :: ps, g)
  end.

Lemma deal_rest seed n g : bag_ok (g_tetris g) -> (tg_bag_index (g_tetris g) + n <= 7)%nat ->
  fst (deal seed n g) = take n (drop (tg_bag_index (g_tetris g)) (tg_bag (g_tetris g))).
Proof.
  revert g; induction n as [|n IH]; intros g Hok Hn; [done|]. cbn [deal].
  pose proof (take_piece_spec seed g Hok) as Hs.
  destruct (session_game_tetris_take_piece seed g) as [p g1].
  destruct Hs as (bag & i & Hi & Hp & Hx & _ & Hg & Hsame & _).
  destruct (Hsame ltac:(lia)) as [-> ->].
  specialize (IH g1). rewrite Hg in IH. cbn [with_bag tg_bag tg_bag_index] in IH.
  specialize (IH ltac:(split; simpl; [done|lia]) ltac:(lia)).
  destruct (deal seed n g1) as [ps g2]. cbn [fst] in *.
  rewrite IH, (drop_S _ _ _ Hx). done.
Qed.

Lemma deal_S seed n g : deal seed (S n) g =
  let (p, g) := session_game_tetris_take_piece seed g in
  let (ps, g) := deal seed n g in (p :: ps, g).
Proof. reflexivity. Qed.

(** The dealer is fair.  Each time a bag is used up, the next seven pieces are
    the seven tetrominoes in some order, whatever the random numbers. *)
Theorem deal_seven seed g : bag_ok (g_tetris g) -> tg_bag_index (g_tetris g) = 7%nat ->
  fst (deal seed 7 g) ≡ₚ seqZ 0 7.
Proof.
  intros Hok Hi. rewrite deal_S. pose proof (take_piece_spec seed g Hok) as Hs.
  destruct (session_game_tetris_take_piece seed g) as [p g1].
  destruct Hs as (bag & i & _ & Hp & Hx & _ & Hg & _ & H0).
  rewrite (H0 Hi) in *. pose proof (deal_rest seed 6 g1) as Hd. rewrite Hg in Hd.
  specialize (Hd ltac:(split; simpl; [done|lia]) ltac:(simpl; lia)).
  destruct (deal seed 6 g1) as [ps g2]. cbn [fst with_bag tg_bag tg_bag_index] in Hd |- *.
  assert (length bag = 7%nat) as Hl by (rewrite Hp; apply length_seqZ).
  rewrite take_ge in Hd by (rewrite length_drop; lia). rewrite Hd, <- Hp.
  rewrite <- (drop_S _ _ _ Hx). by rewrite drop_0.
Qed.

(** ** Clearing lines *)

Lemma nth_row (b : list (list Z)) i : (i < length b)%nat -> b !! i = Some (nth i b []).
Proof.
  intros Hi. destruct (lookup_lt_is_Some_2 b i Hi) as [r Hr].
  by rewrite (nth_lookup_Some _ _ _ _ Hr).
Qed.

Lemma shift_rows_spec k (b : list (list Z)) : (k < length b)%nat ->
  <[O := empty_row]> (shift_rows k b) = empty_row :: take k b ++ drop (S k) b.
Proof.
  revert b; induction k as [|k IH]; intros b Hk; cbn [shift_rows].
  { destruct b; simpl in *; [lia|done]. }
  rewrite IH by (rewrite length_insert; lia). f_equal.
  rewrite take_insert_ge by lia. rewrite (drop_S (<[S k := nth k b []]> b) (nth k b []) (S k))
    by (by rewrite list_lookup_insert_eq by lia).
  rewrite drop_insert_lt by lia.
  rewrite (take_S_r b k (nth k b [])) by (apply nth_row; lia). by rewrite <- app_assoc.
Qed.

Lemma row_full_empty : row_full empty_row = false.
Proof. vm_compute. reflexivity. Qed.

Definition not_full (b : list (list Z)) : list (list Z) := List.filter (fun r => negb (row_full r)) b.

Definition full_rows (b : list (list Z)) : nat := length (List.filter row_full b).

Lemma not_full_app a b : not_full (a ++ b) = not_full a ++ not_full b.
Proof. apply List.filter_app. Qed.

Lemma full_rows_app a b : full_rows (a ++ b) = (full_rows a + full_rows b)%nat.
Proof. unfold full_rows. by rewrite List.filter_app, length_app. Qed.

Lemma not_full_all b : full_rows b = O -> not_full b = b.
Proof.
  induction b as [|r b IH]; [done|]. unfold full_rows, not_full in *. simpl.
  destruct (row_full r); [done|]. simpl. intros H. by rewrite IH.
Qed.

Lemma clear_go_spec fuel b row removed :
  length b = 20%nat -> full_rows (take row b) = O -> (row <= 20)%nat ->
  (20 - row + full_rows b <= fuel)%nat ->
  clear_go fuel b row removed =
  (replicate (full_rows b) empty_row ++ not_full b, removed + Z.of_nat (full_rows b)).
Proof.
  revert b row removed; induction fuel as [|fuel IH]; intros b row removed Hlen Htop Hrow Hfuel;
    cbn [clear_go]; unfold SSH_CHATTER_TETRIS_HEIGHT.
  - assert (row = 20%nat) as -> by lia. assert (full_rows b = O) as H0 by lia.
    rewrite H0, not_full_all by done. simpl. f_equal. lia.
  - destruct (Z.ltb_spec (Z.of_nat row) 20) as [Hlt|Hge].
    + pose proof (nth_row b row ltac:(lia)) as Hr.
      assert (full_rows b = (full_rows [nth row b []] + full_rows (drop (S row) b))%nat) as Hcount.
      { rewrite <- (take_drop row b) at 1. rewrite full_rows_app, Htop.
        rewrite (drop_S _ _ _ Hr). cbn [Nat.add].
        change (nth row b [] :: drop (S row) b) with ([nth row b []] ++ drop (S row) b).
        apply full_rows_app. }
      destruct (row_full (nth row b [])) eqn:Hfull.
      * unfold remove_row. rewrite shift_rows_spec by lia.
        assert (full_rows [nth row b []] = 1%nat) as H1 by (unfold full_rows; simpl; by rewrite Hfull).
        set (b' := empty_row :: take row b ++ drop (S row) b).
        assert (full_rows b' = full_rows (drop (S row) b)) as Hb'.
        { unfold b'. change (empty_row :: ?l) with ([empty_row] ++ l).
          rewrite !full_rows_app, Htop. unfold full_rows at 1. cbn [List.filter].
          by rewrite row_full_empty. }
        assert (full_rows b = S (full_rows b')) as Hsb by (rewrite Hcount, H1, Hb'; done).
        rewrite IH; [|unfold b'; simpl; rewrite length_app, length_take, length_drop; lia| |lia|lia].
        -- rewrite Hsb. f_equal; [|lia].
           assert (not_full b' = empty_row :: not_full b) as ->.
           { unfold b'. change (empty_row :: ?l) with ([empty_row] ++ l) at 1.
             rewrite !not_full_app. unfold not_full at 1. cbn [List.filter].
             rewrite row_full_empty. cbn [negb app]. f_equal.
             rewrite <- not_full_app. rewrite <- (take_drop_middle b row _ Hr) at 3.
             rewrite !not_full_app. f_equal. unfold not_full. cbn [List.filter]. by rewrite Hfull. }
           rewrite replicate_S_end, <- app_assoc. done.
        -- unfold b'. destruct row as [|row]; [done|]. cbn [take].
           change (empty_row :: ?l) with ([empty_row] ++ l).
           rewrite full_rows_app. unfold full_rows at 1. cbn [List.filter].
           rewrite row_full_empty. cbn [length Nat.add].
           rewrite take_app_le by (rewrite length_take; lia). rewrite take_take.
           rewrite Nat.min_l by lia.
           assert (full_rows (take (S row) b) = (full_rows (take row b) + full_rows [nth row b []])%nat) as Hs
             by (rewrite (take_S_r b row (nth row b [])) by (apply nth_row; lia); apply full_rows_app).
           lia.
      * assert (full_rows [nth row b []] = 0%nat) as H1 by (unfold full_rows; simpl; by rewrite Hfull).
        apply IH; [done| |lia|lia].
        rewrite (take_S_r b row (nth row b [])) by done. rewrite full_rows_app. lia.
    + assert (row = 20%nat) as -> by lia.
      assert (full_rows b = O) as H0 by (rewrite take_ge in Htop by lia; done).
      rewrite H0, not_full_all by done. simpl. f_equal. lia.
Qed.

(** Clearing takes out exactly the full lines: the other rows keep their order
    and come to rest at the bottom, as many empty rows come in at the top, and
    the count returned is that of the lines taken out. *)
Theorem clear_lines_exact b : length b = 20%nat ->
  session_game_tetris_clear_lines b =
  (replicate (full_rows b) empty_row ++ not_full b, Z.of_nat (full_rows b)).
Proof.
  intros Hb. unfold session_game_tetris_clear_lines.
  assert (full_rows b <= 20)%nat by (unfold full_rows; rewrite <- Hb; apply List.filter_length_le).
  rewrite (clear_go_spec 40 b 0 0) by (done || lia). f_equal.
Qed.

(** ** The invariant of a game *)

Ltac tsimp := cbn [g_tetris g_rng_state g_rng_seeded with_tetris with_piece with_bag with_board
  with_gravity with_round with_escape tg_board tg_current_piece tg_rotation tg_row tg_column tg_next_piece
  tg_score tg_lines_cleared tg_game_over tg_bag tg_bag_index tg_gravity_counter
  tg_gravity_threshold tg_gravity_rate tg_timer_initialized tg_timer_last
  tg_timer_accumulator_ns tg_round tg_next_round_line_goal tg_escape_active tg_escape_buffer] in *.

Definition board_ok (b : list (list Z)) : Prop :=
  length b = 20%nat /\ Forall (fun r => length r = 15%nat /\ Forall (fun v => 0 <= v <= 7) r) b.

(** The piece lies on the board or above it, on empty cells. *)
Definition placed (s : tetris_game_state) : Prop :=
  session_game_tetris_position_valid (tg_board s) (tg_current_piece s) (tg_rotation s)
    (tg_row s) (tg_column s) = true.

(** No arrow sequence has been begun, or its first byte or two are held. *)
Definition escape_ok (s : tetris_game_state) : Prop :=
  tg_escape_active s = false /\ tg_escape_buffer s = [] \/
  tg_escape_active s = true /\ (tg_escape_buffer s = [27] \/ tg_escape_buffer s = [27; 91]).

Definition shape_ok (s : tetris_game_state) : Prop :=
  board_ok (tg_board s) /\ -1 <= tg_current_piece s < 7 /\ 0 <= tg_rotation s < 4 /\
  0 <= tg_row s /\ 0 <= tg_next_piece s < 7 /\ bag_ok s /\
  1 <= tg_gravity_threshold s <= 5 /\ 0 <= tg_gravity_counter s /\ tg_gravity_rate s = 1 /\
  1 <= tg_round s <= 3 /\ tg_next_round_line_goal s = 10 * tg_round s /\ escape_ok s.

Ltac shape := unfold shape_ok, bag_ok, escape_ok in *; tsimp; destruct_and?; split_and?;
  first [done | lia | assumption | by left].

Definition tetris_ok (s : tetris_game_state) : Prop :=
  shape_ok s /\ (tg_game_over s = false -> 0 <= tg_current_piece s -> placed s).

Lemma set_cell_ok b r c v : board_ok b -> 0 <= v <= 7 -> board_ok (set_cell b r c v).
Proof.
  intros [Hl Hf] Hv. unfold set_cell. split; [by rewrite length_insert|].
  destruct (decide (Z.to_nat r < length b)%nat) as [Hr|Hr].
  - pose proof (nth_row b (Z.to_nat r) Hr) as Hrow.
    destruct (Forall_lookup_1 _ _ _ _ Hf Hrow) as [H1 H2].
    apply Forall_insert; [done|]. split; [by rewrite length_insert|by apply Forall_insert].
  - rewrite list_insert_ge by lia. done.
Qed.

Lemma lock_cells_ok s squares b : board_ok b -> -1 <= tg_current_piece s < 7 ->
  board_ok (fold_left (lock_cell s) squares b).
Proof.
  revert b; induction squares as [|[r c] squares IH]; intros b Hb Hp; [done|].
  cbn [fold_left]. apply IH; [|done]. unfold lock_cell. repeat case_match; try done.
  apply set_cell_ok; [done|lia].
Qed.

Lemma clear_lines_ok b : board_ok b ->
  let (b', n) := session_game_tetris_clear_lines b in board_ok b' /\ 0 <= n <= 20.
Proof.
  intros [Hl Hf]. unfold session_game_tetris_clear_lines.
  assert (full_rows b <= 20)%nat by (unfold full_rows; rewrite <- Hl; apply List.filter_length_le).
  rewrite (clear_go_spec 40 b 0 0) by (done || lia). split; [|lia]. split.
  - rewrite length_app, length_replicate.
    assert (full_rows b + length (not_full b) = length b)%nat; [|lia].
    clear. unfold full_rows, not_full. induction b as [|r b IH]; [done|].
    simpl. destruct (row_full r); simpl; lia.
  - apply Forall_app. split.
    + apply Forall_replicate. split; [done|]. apply Forall_replicate. lia.
    + apply Forall_forall. intros r [Hr _]%list_elem_of_In%filter_In.
      rewrite Forall_forall in Hf. by apply Hf, list_elem_of_In.
Qed.

Lemma round_settings_spec s : 1 <= tg_round s ->
  session_game_tetris_apply_round_settings s =
  with_gravity s 0 (Z.max 1 (6 - tg_round s)) false zero 0.
Proof.
  intros Hr. unfold session_game_tetris_apply_round_settings, SSH_CHATTER_TETRIS_GRAVITY_THRESHOLD.
  rewrite (proj2 (Z.eqb_neq (tg_round s) 0)) by lia. cbv zeta.
  destruct (Z.ltb_spec 0 (tg_round s)); [|lia]. f_equal.
  destruct (Z.leb_spec 5 (tg_round s - 1)); [cbn; lia|].
  destruct (Z.eqb_spec (5 - (tg_round s - 1)) 0); lia.
Qed.

Lemma round_progress_ok fuel s : shape_ok s -> shape_ok (round_progress_go fuel s) /\
  tg_board (round_progress_go fuel s) = tg_board s.
Proof.
  revert s; induction fuel as [|fuel IH]; intros s Hok; cbn [round_progress_go]; [done|].
  destruct (_ && _) eqn:E; [|done]. apply andb_true_iff in E as [E _].
  unfold SSH_CHATTER_TETRIS_MAX_ROUNDS in E. apply Z.ltb_lt in E.
  match goal with |- shape_ok (round_progress_go fuel ?x) /\ _ =>
    assert (shape_ok x /\ tg_board x = tg_board s) as [H1 H2]; [|rewrite <- H2; by apply IH] end.
  destruct Hok as (H1 & H2 & H3 & H4 & H5 & H6 & H7 & H8 & H9 & H10 & H11 & H12).
  rewrite round_settings_spec by (cbn; lia). split; [|done].
  unfold SSH_CHATTER_TETRIS_LINES_PER_ROUND. clear IH. shape.
Qed.

Lemma spawn_ok seed g : shape_ok (g_tetris g) ->
  let (ok, g') := session_game_tetris_spawn_piece seed g in
  tetris_ok (g_tetris g') /\ 0 <= tg_current_piece (g_tetris g') /\
  (ok = false -> tg_game_over (g_tetris g') = true).
Proof.
  intros (H1 & H2 & H3 & H4 & H5 & H6 & H7 & H8 & H9 & H10 & H11 & H12).
  unfold session_game_tetris_spawn_piece.
  match goal with |- context [session_game_tetris_take_piece seed ?x] => set (g1 := x) end.
  pose proof (take_piece_spec seed g1 H6) as Hs.
  destruct (session_game_tetris_take_piece seed g1) as [next g2].
  destruct Hs as (bag & i & Hi & Hp & _ & Hnext & Hg2 & _). rewrite Hg2.
  unfold g1. tsimp.
  assert (bag_ok (with_bag (g_tetris g) bag (S i) next)) as Hbag by (split; cbn; [done|lia]).
  destruct (session_game_tetris_position_valid _ _ _ _ _) eqn:Hv; cbn [negb].
  - split_and!; [|tsimp; lia|done]. split; [|tsimp; intros _ _; exact Hv].
    shape.
  - split_and!; [|tsimp; lia|done]. split; [|done].
    shape.
Qed.

Lemma lock_ok seed g : tetris_ok (g_tetris g) ->
  tetris_ok (g_tetris (session_game_tetris_lock_piece seed g)).
Proof.
  intros [Hs Hp]. unfold session_game_tetris_lock_piece.
  destruct (tg_current_piece (g_tetris g) <? 0); [by split|].
  pose proof Hs as (H1 & H2 & H3 & H4 & H5 & H6 & H7 & H8 & H9 & H10 & H11 & H12).
  pose proof (clear_lines_ok _ (lock_cells_ok (g_tetris g) piece_square _ H1 H2)) as Hc.
  destruct (session_game_tetris_clear_lines _) as [b n]. destruct Hc as [Hb Hn].
  assert (forall score lines, shape_ok (with_board (g_tetris g) b score lines
    (tg_game_over (g_tetris g)))) as Hok.
  { intros. shape. }
  match goal with |- context [session_game_tetris_spawn_piece seed ?x] => set (g1 := x) end.
  assert (shape_ok (g_tetris g1)) as Hg1.
  { unfold g1. destruct (0 <? n); cbn [g_tetris with_tetris]; [|apply Hok].
    unfold session_game_tetris_handle_round_progress. by apply round_progress_ok. }
  pose proof (spawn_ok seed g1 Hg1) as Hsp.
  destruct (session_game_tetris_spawn_piece seed g1) as [[] g2];
    destruct Hsp as ([Hs2 Hp2] & _ & _); [by split|].
  split; [|done]. clear Hok Hg1. shape.
Qed.

Lemma move_ok g drow dcol : 0 <= drow -> tetris_ok (g_tetris g) ->
  let (moved, g') := session_game_tetris_move g drow dcol in
  tetris_ok (g_tetris g') /\
  tg_gravity_counter (g_tetris g') = tg_gravity_counter (g_tetris g) /\
  tg_gravity_threshold (g_tetris g') = tg_gravity_threshold (g_tetris g) /\
  (moved = true -> placed (g_tetris g') /\ 0 <= tg_current_piece (g_tetris g') /\
     tg_row (g_tetris g') = tg_row (g_tetris g) + drow).
Proof.
  intros Hd Hok. unfold session_game_tetris_move.
  destruct (Z.ltb_spec (tg_current_piece (g_tetris g)) 0); [by split_and!|].
  destruct (session_game_tetris_position_valid _ _ _ _ _) eqn:Hv; cbn [negb]; [|by split_and!].
  destruct Hok as [Hs _]. split_and!; try done. split.
  - shape.
  - intros _ _. exact Hv.
Qed.

Lemma rotate_ok g : tetris_ok (g_tetris g) -> tetris_ok (g_tetris (snd (session_game_tetris_rotate g))).
Proof.
  intros Hok. unfold session_game_tetris_rotate.
  destruct (_ <? 0); [done|].
  destruct (session_game_tetris_position_valid _ _ _ _ _) eqn:Hv; cbn [negb]; [|done].
  destruct Hok as [Hs _]. split; [|intros _ _; exact Hv].
  change 3 with (Z.ones 2). rewrite Z.land_ones by lia.
  pose proof (Z.mod_pos_bound (tg_rotation (g_tetris g) + 1) (2 ^ 2) ltac:(lia)).
  change (2 ^ 2) with 4 in *. shape.
Qed.

Lemma soft_drop_ok seed g : tetris_ok (g_tetris g) ->
  let (moved, g') := session_game_tetris_soft_drop seed g in
  tetris_ok (g_tetris g') /\
  (moved = true -> placed (g_tetris g') /\ 0 <= tg_current_piece (g_tetris g') /\
     tg_row (g_tetris g') = tg_row (g_tetris g) + 1 /\
     tg_gravity_counter (g_tetris g') = tg_gravity_counter (g_tetris g) /\
     tg_gravity_threshold (g_tetris g') = tg_gravity_threshold (g_tetris g)).
Proof.
  intros Hok. unfold session_game_tetris_soft_drop.
  pose proof (move_ok g 1 0 ltac:(lia) Hok) as Hm.
  destruct (session_game_tetris_move g 1 0) as [[] g1]; destruct Hm as (Hok1 & Hc & Ht & Hm).
  - destruct (Hm eq_refl) as (? & ? & ?). by split_and!.
  - split; [by apply lock_ok|done].
Qed.

(** A placed piece touches one of the twenty rows. *)
Lemma placed_row s : shape_ok s -> placed s -> 0 <= tg_current_piece s -> tg_row s < 20.
Proof.
  intros (_ & Hp & Hr & _) Hv Hpos. unfold placed, session_game_tetris_position_valid in Hv.
  assert (forallb (fun p => forallb (fun r => existsb (fun '(i, j) =>
    session_game_tetris_cell_occupied p r i j) piece_square) (seqZ 0 4)) (seqZ 0 7) = true) as Hall
    by (vm_compute; reflexivity).
  rewrite forallb_forall in Hall.
  specialize (Hall (tg_current_piece s) ltac:(apply list_elem_of_In, elem_of_seqZ; lia)).
  rewrite forallb_forall in Hall.
  specialize (Hall (tg_rotation s) ltac:(apply list_elem_of_In, elem_of_seqZ; lia)).
  apply existsb_exists in Hall as ([i j] & Hin & Hocc).
  rewrite forallb_forall in Hv. specialize (Hv (i, j) Hin). cbn beta iota in Hv. rewrite Hocc in Hv.
  cbn [negb] in Hv. unfold cell_free, SSH_CHATTER_TETRIS_HEIGHT in Hv.
  destruct (_ || _); [done|]. destruct (Z.leb_spec 20 (tg_row s + i)); [done|].
  assert (0 <= i); [|lia]. unfold piece_square in Hin. apply in_flat_map in Hin as (i' & Hi' & Hij).
  apply in_map_iff in Hij as (j' & [= <- <-] & _). apply list_elem_of_In, elem_of_seqZ in Hi'. lia.
Qed.

Lemma hard_drop_go_ok seed fuel g : tetris_ok (g_tetris g) -> (1 <= fuel)%nat ->
  20 - tg_row (g_tetris g) <= Z.of_nat fuel ->
  exists g', hard_drop_go seed fuel g = Some g' /\ tetris_ok (g_tetris g').
Proof.
  revert g; induction fuel as [|fuel IH]; intros g Hok H1 Hf; [lia|]. cbn [hard_drop_go].
  pose proof (soft_drop_ok seed g Hok) as Hs.
  destruct (session_game_tetris_soft_drop seed g) as [[] g1]; destruct Hs as [Hok1 Hm]; [|eauto].
  destruct (Hm eq_refl) as (Hpl & Hpos & Hrow & _).
  pose proof (placed_row (g_tetris g1) ltac:(apply Hok1) Hpl Hpos). apply IH; [done|lia..].
Qed.

Lemma with_counter_ok g counter threshold : tetris_ok (g_tetris g) -> 0 <= counter ->
  1 <= threshold <= 5 -> tetris_ok (g_tetris (with_counter g counter threshold)).
Proof. intros [Hs Hp] Hc Ht. split; [|exact Hp]. unfold with_counter. shape. Qed.

(** Gravity has done its work: the counter is spent, or the game is over. *)
Definition settled (s : tetris_game_state) : Prop :=
  tg_game_over s = true \/ tg_gravity_counter s < tg_gravity_threshold s.

Lemma gravity_go_ok seed fuel g moved : tetris_ok (g_tetris g) ->
  tg_gravity_counter (g_tetris g) < Z.of_nat fuel ->
  let (_, g') := gravity_go seed fuel g moved in
  tetris_ok (g_tetris g') /\ settled (g_tetris g').
Proof.
  revert g moved; induction fuel as [|fuel IH]; intros g moved Hok Hf.
  { exfalso. destruct Hok as [Hs _]. shape. }
  cbn [gravity_go].
  destruct (Z.leb_spec (tg_gravity_threshold (g_tetris g)) (tg_gravity_counter (g_tetris g)));
    [|split; [done|by right]].
  assert (forall g, tetris_ok (g_tetris g) -> 1 <= tg_gravity_threshold (g_tetris g) <= 5 /\
    0 <= tg_gravity_counter (g_tetris g)) as Hth by (intros ? [Hs _]; shape).
  pose proof (Hth g Hok) as [Ht Hc].
  pose proof (soft_drop_ok seed g Hok) as Hs.
  destruct (session_game_tetris_soft_drop seed g) as [[] g1]; destruct Hs as [Hok1 Hm]; cbn [negb].
  - destruct (Hm eq_refl) as (_ & _ & _ & Hc1 & Ht1). rewrite Hc1, Ht1.
    set (g2 := with_counter g1 _ _).
    assert (tetris_ok (g_tetris g2)) as Hok2 by (apply with_counter_ok; [done|lia..]).
    destruct (tg_game_over (g_tetris g2)) eqn:Ho; [split; [done|by left]|].
    apply IH; [done|]. unfold g2, with_counter. tsimp. lia.
  - pose proof (Hth g1 Hok1) as [Ht1 _]. split; [by apply with_counter_ok|].
    right. unfold with_counter. tsimp. lia.
Qed.

Lemma apply_gravity_ok seed g ticks : tetris_ok (g_tetris g) ->
  let (_, g') := session_game_tetris_apply_gravity seed g ticks in
  tetris_ok (g_tetris g') /\ (tg_game_over (g_tetris g) = false -> ticks <> 0 -> settled (g_tetris g')).
Proof.
  intros Hok. unfold session_game_tetris_apply_gravity.
  destruct (tg_game_over (g_tetris g)) eqn:Ho; cbn [orb]; [by split|].
  destruct (Z.eqb_spec ticks 0); [by split|].
  assert (1 <= tg_gravity_threshold (g_tetris g) <= 5) as Ht by (destruct Hok as [Hs _]; shape).
  rewrite (proj2 (Z.eqb_neq (tg_gravity_threshold (g_tetris g)) 0)) by lia.
  pose proof (Z.mod_pos_bound (tg_gravity_counter (g_tetris g) + ticks) 4294967296 ltac:(lia)) as Hb.
  set (counter := u32 (tg_gravity_counter (g_tetris g) + ticks)) in *.
  pose proof (gravity_go_ok seed (Z.to_nat counter + 1)
    (with_counter g counter (tg_gravity_threshold (g_tetris g))) false) as Hg.
  specialize (Hg ltac:(apply with_counter_ok; [done|lia..]) ltac:(unfold with_counter; tsimp; lia)).
  destruct (gravity_go _ _ _ _) as [m g']. by destruct Hg.
Qed.

Lemma update_timer_ok seed g now accelerate : tetris_ok (g_tetris g) ->
  tetris_ok (g_tetris (snd (session_game_tetris_update_timer seed g now accelerate))).
Proof.
  intros Hok. unfold session_game_tetris_update_timer.
  destruct (tg_game_over (g_tetris g)); [done|]. cbv zeta.
  match goal with |- context [with_gravity ?s ?c ?t true now ?a] =>
    set (g1 := with_tetris g (with_gravity s c t true now a)) end.
  assert (tetris_ok (g_tetris g1)) as Hok1.
  { destruct Hok as [Hs Hp]. split; [|exact Hp]. unfold g1. shape. }
  clearbody g1. match goal with |- context [(if ?t =? 0 then _ else _)] => generalize t end.
  intros ticks. destruct (ticks =? 0); [done|].
  pose proof (apply_gravity_ok seed g1 ticks Hok1) as Hg.
  destruct (session_game_tetris_apply_gravity seed g1 ticks) as [m g']. apply Hg.
Qed.

Lemma start_ok seed g : tetris_ok (g_tetris (snd (start_game seed g))).
Proof.
  unfold start_game.
  set (g0 := session_game_seed_rng seed (with_tetris g session_game_tetris_reset)).
  assert (g_tetris g0 = session_game_tetris_reset) as H0
    by (unfold g0, session_game_seed_rng; by case_match).
  destruct (fill_bag_spec seed g0) as (bag & Hg1 & Hp). rewrite H0 in Hg1.
  set (g1 := session_game_tetris_fill_bag seed g0) in *. clearbody g1.
  pose proof (take_piece_spec seed g1) as Hs. rewrite Hg1 in Hs.
  specialize (Hs ltac:(split; tsimp; [done|lia])).
  destruct (session_game_tetris_take_piece seed g1) as [next g2].
  destruct Hs as (bag' & i & Hi & Hp' & _ & Hn & Hg2 & _). rewrite Hg2.
  match goal with |- context [session_game_tetris_spawn_piece seed ?x] => set (g3 := x) end.
  assert (shape_ok (g_tetris g3)) as Hg3.
  { unfold g3. unfold session_game_tetris_reset. rewrite round_settings_spec by (tsimp; lia).
    unfold shape_ok, bag_ok, board_ok, escape_ok. tsimp. split_and!; try done; try lia; try by left.
    all: try (unfold SSH_CHATTER_TETRIS_GRAVITY_RATE, SSH_CHATTER_TETRIS_LINES_PER_ROUND; lia).
    apply Forall_replicate. split; [done|]. apply Forall_replicate. lia. }
  pose proof (spawn_ok seed g3 Hg3) as Hsp.
  destruct (session_game_tetris_spawn_piece seed g3) as [ok g4]. apply Hsp.
Qed.

(** The loops of a game end.  A hard drop lands after at most 24 steps, and
    gravity stops with its counter below the threshold of the round, or with the
    game over. *)
Theorem loops_end seed g ticks : tetris_ok (g_tetris g) ->
  (exists g', hard_drop_go seed 24 g = Some g' /\ tetris_ok (g_tetris g')) /\
  (tg_game_over (g_tetris g) = false -> ticks <> 0 ->
   settled (g_tetris (snd (session_game_tetris_apply_gravity seed g ticks)))).
Proof.
  intros Hok. split.
  - apply hard_drop_go_ok; [done|lia|]. destruct Hok as [(_ & _ & _ & ? & _) _]. lia.
  - pose proof (apply_gravity_ok seed g ticks Hok) as Hg.
    destruct (session_game_tetris_apply_gravity seed g ticks) as [m g']. apply Hg.
Qed.
End Tetris.

(** ** Samples *)

Module TetrisSamples.
Import Tetris.

Definition new_session : game :=
  {| g_tetris := session_game_tetris_reset; g_rng_state := 0; g_rng_seeded := false |}.

Definition fresh_game : game := snd (start_game 12345 new_session).

(** A game whose bag is used up. *)
Definition spent_bag : game :=
  with_tetris new_session (with_bag session_game_tetris_reset (seqZ 0 7) 7 0).

Lemma deal_seven_witness : fst (deal 12345 7 spent_bag) ≡ₚ seqZ 0 7.
Proof.
  apply deal_seven; unfold bag_ok, spent_bag; tsimp;
    [split; [apply Permutation_refl|lia]|reflexivity].
Defined.

Definition two_full : list (list Z) :=
  replicate 16 empty_row ++ [replicate 15 3; 1 :: replicate 14 0; replicate 15 2; 0 :: replicate 14 5].

Lemma clear_lines_exact_witness :
  snd (session_game_tetris_clear_lines two_full) = 2 /\
  session_game_tetris_clear_lines two_full =
  (replicate (full_rows two_full) empty_row ++ not_full two_full, Z.of_nat (full_rows two_full)).
Proof. split; [vm_compute; reflexivity|]. apply clear_lines_exact. reflexivity. Defined.

Lemma fresh_game_ok : tetris_ok (g_tetris fresh_game).
Proof. apply start_ok. Qed.

Lemma loops_end_witness :
  (exists g', hard_drop_go 12345 24 fresh_game = Some g' /\ tetris_ok (g_tetris g')) /\
  (tg_game_over (g_tetris fresh_game) = false -> 9 <> 0 ->
   settled (g_tetris (snd (session_game_tetris_apply_gravity 12345 fresh_game 9)))).
Proof. exact (loops_end 12345 fresh_game 9 fresh_game_ok). Defined.
End TetrisSamples.
