(* ===== verification/TetrisInput.v ===== *)
(** The Tetris of a session: keys, arrow sequences, typed lines, the timeouts of
    the read loop, the hidden ("camouflaged") screen, starting and suspending, of
    [src/host/games/tetris.c], [misc.c] and [gonu.c].  The operations work on the
    session's game record; what they draw and write is left out, and every reading
    of the clock is an argument. *)

From Stdlib Require Import ZArith Lia String Ascii.
From stdpp Require Import prelude relations.
From S2P Require Import Prelude HostGuard Tetris.
Import Time Tetris.

Module TetrisInput.

Inductive session_game_type :=
  SESSION_GAME_NONE | SESSION_GAME_TETRIS | SESSION_GAME_LIARGAME | SESSION_GAME_ALPHA |
  SESSION_GAME_OTHELLO | SESSION_GAME_GONU.

#[export] Instance session_game_type_eq_dec : EqDecision session_game_type.
Proof. solve_decision. Defined.

Inductive tetris_input_action :=
  TETRIS_INPUT_NONE | TETRIS_INPUT_MOVE_LEFT | TETRIS_INPUT_MOVE_RIGHT | TETRIS_INPUT_ROTATE |
  TETRIS_INPUT_SOFT_DROP | TETRIS_INPUT_HARD_DROP.

#[export] Instance tetris_input_action_eq_dec : EqDecision tetris_input_action.
Proof. solve_decision. Defined.

(** The part of [session_game_state_t] the Tetris of a session works on: the live
    game with the random state, and the copy that is kept while the game is
    hidden.  Both states are allocated when a game is started. *)
Record session := {
  ss_game : game;
  ss_saved : tetris_game_state;
  ss_active : bool;
  ss_type : session_game_type;
  ss_camouflaged : bool
}.

Definition with_game (s : session) (g : game) : session :=
  {| ss_game := g; ss_saved := ss_saved s; ss_active := ss_active s; ss_type := ss_type s;
     ss_camouflaged := ss_camouflaged s |}.

(** The guard all the handlers start with. *)
Definition in_tetris (s : session) : bool :=
  bool_decide (ss_type s = SESSION_GAME_TETRIS) && ss_active s.

Definition over (s : session) : bool := tg_game_over (g_tetris (ss_game s)).

(** [session_game_suspend]: a Tetris game is reset; the copy and the camouflage
    flag are left as they are. *)
Definition session_game_suspend (s : session) : session :=
  if negb (ss_active s) then s
  else
    {| ss_game := if bool_decide (ss_type s = SESSION_GAME_TETRIS)
                  then with_tetris (ss_game s) session_game_tetris_reset else ss_game s;
       ss_saved := ss_saved s; ss_active := false; ss_type := SESSION_GAME_NONE;
       ss_camouflaged := ss_camouflaged s |}.

(** The timer as the camouflage leaves it. *)
Definition stop_timer (t : tetris_game_state) : tetris_game_state :=
  with_gravity t (tg_gravity_counter t) (tg_gravity_threshold t) false (tg_timer_last t) 0.

(** [session_game_toggle_camouflage] as far as Tetris is concerned; the other
    games keep copies of their own. *)
Definition session_game_toggle_camouflage (s : session) : session :=
  if negb (ss_active s) then s
  else
    let tetris := bool_decide (ss_type s = SESSION_GAME_TETRIS) in
    if ss_camouflaged s then
      {| ss_game := if tetris then with_tetris (ss_game s) (stop_timer (ss_saved s)) else ss_game s;
         ss_saved := ss_saved s; ss_active := true; ss_type := ss_type s;
         ss_camouflaged := false |}
    else
      let live := g_tetris (ss_game s) in
      {| ss_game := if tetris then with_tetris (ss_game s) (stop_timer live) else ss_game s;
         ss_saved := if tetris then stop_timer live else ss_saved s;
         ss_active := true; ss_type := ss_type s; ss_camouflaged := true |}.

Section Handlers.
(** What the random generator would be seeded with, were it not yet. *)
Context (seed : Z).

(** The timer call of a handler, on the session. *)
Definition run_timer (s : session) (now : timespec) (accelerate : bool) : bool * session :=
  let (moved, g) := session_game_tetris_update_timer seed (ss_game s) now accelerate in
  (moved, with_game s g).

Definition session_game_tetris_process_timeout (s : session) (now : timespec) : bool * session :=
  if negb (in_tetris s) then (false, s)
  else if ss_camouflaged s
  then (false, with_game s (with_tetris (ss_game s) (stop_timer (g_tetris (ss_game s)))))
  else
    let (redraw, s) := run_timer s now false in
    if over s then (true, session_game_suspend s) else (redraw, s).

(** The switch of [session_game_tetris_process_action]; a hard drop drops until
    the piece is locked, which [Tetris.hard_drop_go_ok] shows takes 24 steps at
    most. *)
Definition act (g : game) (action : tetris_input_action) : game :=
  match action with
  | TETRIS_INPUT_MOVE_LEFT => snd (session_game_tetris_move g 0 (-1))
  | TETRIS_INPUT_MOVE_RIGHT => snd (session_game_tetris_move g 0 1)
  | TETRIS_INPUT_ROTATE => snd (session_game_tetris_rotate g)
  | TETRIS_INPUT_HARD_DROP => default g (hard_drop_go seed 24 g)
  | TETRIS_INPUT_SOFT_DROP | TETRIS_INPUT_NONE => g
  end.

(** [now1] and [now2] are the clock at the timer calls before and after the
    action. *)
Definition session_game_tetris_process_action (s : session) (action : tetris_input_action)
    (now1 now2 : timespec) : bool * session :=
  if negb (in_tetris s) then (false, s)
  else if ss_camouflaged s then (true, s)
  else if bool_decide (action = TETRIS_INPUT_NONE) then (false, s)
  else if over s then (true, session_game_suspend s)
  else
    let (_, s) := run_timer s now1 false in
    if over s then (true, session_game_suspend s)
    else
      let s := with_game s (act (ss_game s) action) in
      let accelerate := bool_decide (action = TETRIS_INPUT_SOFT_DROP) in
      let manual_drop := bool_decide (action = TETRIS_INPUT_HARD_DROP) in
      if over s then (true, session_game_suspend s)
      else
        let s := if accelerate then snd (run_timer s now2 true)
                 else if negb manual_drop then snd (run_timer s now2 false)
                 else s in
        if over s then (true, session_game_suspend s) else (true, s).

Definition escape (s : session) (active : bool) (buffer : bytes) : session :=
  with_game s (with_tetris (ss_game s) (with_escape (g_tetris (ss_game s)) active buffer)).

Definition SSH_CHATTER_TETRIS_ESCAPE_BUFFER_LEN : nat := 64.

(** The key an arrow sequence ends with. *)
Definition arrow (final : Z) : tetris_input_action :=
  if final =? 65 then TETRIS_INPUT_ROTATE
  else if final =? 66 then TETRIS_INPUT_SOFT_DROP
  else if final =? 67 then TETRIS_INPUT_MOVE_RIGHT
  else if final =? 68 then TETRIS_INPUT_MOVE_LEFT
  else TETRIS_INPUT_NONE.

(** A byte that arrives in an escape sequence. *)
Definition escape_input (s : session) (ch : Z) (now1 now2 : timespec) : session :=
  let t := g_tetris (ss_game s) in
  let buffer := if (length (tg_escape_buffer t) <? SSH_CHATTER_TETRIS_ESCAPE_BUFFER_LEN)%nat
                then tg_escape_buffer t ++ [ch] else tg_escape_buffer t in
  let bracket := nthb buffer 1 =? c_lbracket in
  if (length buffer =? 2)%nat && bracket then escape s true buffer
  else if (3 <=? length buffer)%nat && bracket then
    let action := arrow (nthb buffer (length buffer - 1)) in
    let s := escape s false [] in
    if negb (bool_decide (action = TETRIS_INPUT_NONE)) && negb (ss_camouflaged s)
    then snd (session_game_tetris_process_action s action now1 now2) else s
  else escape s false [].

(** The action of a lower-case key. *)
Definition key_action (lowered : Z) : tetris_input_action :=
  if lowered =? 97 then TETRIS_INPUT_MOVE_LEFT
  else if lowered =? 100 then TETRIS_INPUT_MOVE_RIGHT
  else if lowered =? 119 then TETRIS_INPUT_ROTATE
  else if lowered =? 115 then TETRIS_INPUT_SOFT_DROP
  else if lowered =? c_space then TETRIS_INPUT_HARD_DROP
  else TETRIS_INPUT_NONE.

(** Whether the byte was taken, and the session. *)
Definition session_game_tetris_process_raw_input (s : session) (ch : Z) (now1 now2 : timespec) :
    bool * session :=
  if negb (in_tetris s) then (false, s)
  else
    let camouflaged := ss_camouflaged s in
    if (ch =? 1) || (ch =? 3) || (ch =? 26) || (ch =? 19) then (false, s)
    else if tg_escape_active (g_tetris (ss_game s)) then (true, escape_input s ch now1 now2)
    else if ch =? c_esc then (true, escape s true [ch])
    else if (ch =? c_cr) || (ch =? c_lf) then (true, s)
    else if ch =? 18 then
      (true, if camouflaged then s
             else snd (session_game_tetris_process_action s TETRIS_INPUT_ROTATE now1 now2))
    else
      let lowered := tolower ch in
      if lowered =? 116 then (true, session_game_toggle_camouflage s)
      else if camouflaged then (true, s)
      else if negb (bool_decide (key_action lowered = TETRIS_INPUT_NONE))
      then (true, snd (session_game_tetris_process_action s (key_action lowered) now1 now2))
      else if ch <? 32 then (false, s)
      else (true, s).

(** A line typed at the prompt. *)
Definition session_game_tetris_handle_line (s : session) (line : bytes) (now1 now2 : timespec) :
    session :=
  if negb (in_tetris s) then s
  else if over s then session_game_suspend s
  else
    let command := map tolower (strip_trailing isspace (skip_while isspace (take 31 line))) in
    if bytes_eqb command [] then snd (session_game_tetris_process_timeout s now1)
    else if bytes_eqb command (lit "help") then s
    else if bytes_eqb command (lit "drop")
    then snd (session_game_tetris_process_action s TETRIS_INPUT_HARD_DROP now1 now2)
    else s.

(** [session_game_start_tetris] once the player has chosen a language. *)
Definition session_game_start_tetris (s : session) : session :=
  let (ok, g) := start_game seed (ss_game s) in
  {| ss_game := g; ss_saved := ss_saved s; ss_active := ok;
     ss_type := if ok then SESSION_GAME_TETRIS else SESSION_GAME_NONE;
     ss_camouflaged := ss_camouflaged s |}.

(** ** What the handlers keep *)

Lemma with_escape_ok t active buffer : tetris_ok t ->
  active = false /\ buffer = [] \/ active = true /\ (buffer = [27] \/ buffer = [27; 91]) ->
  tetris_ok (with_escape t active buffer).
Proof. intros [Hs Hp] He. split; [|exact Hp]. shape. Qed.

Lemma stop_timer_ok t : tetris_ok t -> tetris_ok (stop_timer t).
Proof. intros [Hs Hp]. split; [|exact Hp]. unfold stop_timer. shape. Qed.

Lemma stop_timer_idem t : stop_timer (stop_timer t) = stop_timer t.
Proof. by destruct t. Qed.

Lemma act_ok g a : tetris_ok (g_tetris g) -> tetris_ok (g_tetris (act g a)).
Proof.
  intros Hok. destruct a; cbn [act]; try done.
  - pose proof (move_ok g 0 (-1) ltac:(lia) Hok) as Hm.
    destruct (session_game_tetris_move g 0 (-1)). by destruct Hm.
  - pose proof (move_ok g 0 1 ltac:(lia) Hok) as Hm.
    destruct (session_game_tetris_move g 0 1). by destruct Hm.
  - by apply rotate_ok.
  - destruct (hard_drop_go_ok seed 24 g Hok) as (g1 & -> & H2); [lia| |done].
    destruct Hok as [(_ & _ & _ & ? & _) _]. lia.
Qed.

(** The invariant of a session: a running game is a game of Tetris, and a hidden
    one has a good copy, made while no arrow sequence was under way. *)
Definition session_ok (s : session) : Prop :=
  (in_tetris s = true -> tetris_ok (g_tetris (ss_game s))) /\
  (ss_camouflaged s = true -> tetris_ok (ss_saved s)).

Lemma with_game_ok s g : session_ok s -> tetris_ok (g_tetris g) -> session_ok (with_game s g).
Proof. intros [_ Hs] Hg. by split. Qed.

Lemma suspend_ok s : session_ok s -> session_ok (session_game_suspend s).
Proof.
  unfold session_game_suspend. intros Hok. destruct (ss_active s); [|done].
  cbn [negb]. destruct Hok as [_ Hs]. by split.
Qed.

Lemma run_timer_ok s now accelerate : session_ok s -> in_tetris s = true ->
  session_ok (snd (run_timer s now accelerate)) /\
  in_tetris (snd (run_timer s now accelerate)) = true.
Proof.
  intros Hok Hin. unfold run_timer.
  pose proof (update_timer_ok seed (ss_game s) now accelerate (proj1 Hok Hin)) as Ht.
  destruct (session_game_tetris_update_timer _ _ _ _) as [m g]. split; [|done].
  by apply with_game_ok.
Qed.

Lemma timeout_ok s now : session_ok s ->
  session_ok (snd (session_game_tetris_process_timeout s now)).
Proof.
  intros Hok. unfold session_game_tetris_process_timeout.
  destruct (in_tetris s) eqn:Hin; cbn [negb]; [|done].
  destruct (ss_camouflaged s).
  - apply with_game_ok; [done|]. by apply stop_timer_ok, Hok.
  - destruct (run_timer_ok s now false Hok Hin) as [Ht _].
    destruct (run_timer s now false) as [r s1]. destruct (over s1); [by apply suspend_ok|done].
Qed.

Lemma action_ok s a now1 now2 : session_ok s ->
  session_ok (snd (session_game_tetris_process_action s a now1 now2)).
Proof.
  intros Hok. unfold session_game_tetris_process_action.
  destruct (in_tetris s) eqn:Hin; cbn [negb]; [|done].
  destruct (ss_camouflaged s); [done|]. destruct (bool_decide _); [done|].
  destruct (over s); [by apply suspend_ok|].
  destruct (run_timer_ok s now1 false Hok Hin) as [H1 Hin1].
  destruct (run_timer s now1 false) as [r s1]. cbn [snd] in *.
  destruct (over s1); [by apply suspend_ok|]. cbv zeta.
  assert (session_ok (with_game s1 (act (ss_game s1) a))) as H2
    by (apply with_game_ok; [done|]; by apply act_ok, H1).
  set (s2 := with_game s1 _) in *.
  assert (in_tetris s2 = true) as Hin2 by done. clearbody s2.
  destruct (over s2); [by apply suspend_ok|].
  match goal with |- context [over ?x] => assert (session_ok x) as H3 end.
  { destruct (bool_decide _); [by apply run_timer_ok|].
    destruct (negb _); [by apply run_timer_ok|done]. }
  match goal with |- context [over ?x] => set (s3 := x) in * end. clearbody s3.
  destruct (over s3); [by apply suspend_ok|done].
Qed.

Lemma toggle_ok s : session_ok s -> in_tetris s = true ->
  session_ok (session_game_toggle_camouflage s).
Proof.
  intros [Hg Hs] Hin. specialize (Hg Hin). unfold session_game_toggle_camouflage.
  unfold in_tetris in Hin. apply andb_true_iff in Hin as [Ht Ha]. rewrite Ha, Ht. cbn [negb].
  destruct (ss_camouflaged s); split; cbn -[tetris_ok stop_timer]; intros _;
    try (by apply stop_timer_ok); try (by apply stop_timer_ok, Hs); by apply Hs.
Qed.

Lemma escape_session_ok s active buffer : session_ok s -> in_tetris s = true ->
  active = false /\ buffer = [] \/ active = true /\ (buffer = [27] \/ buffer = [27; 91]) ->
  session_ok (escape s active buffer).
Proof. intros Hok Hin He. apply with_game_ok; [done|]. apply with_escape_ok; [by apply Hok|done]. Qed.

(** What an arrow sequence under way can hold. *)
Lemma escape_held s : session_ok s -> in_tetris s = true ->
  tg_escape_active (g_tetris (ss_game s)) = true ->
  tg_escape_buffer (g_tetris (ss_game s)) = [27] \/
  tg_escape_buffer (g_tetris (ss_game s)) = [27; 91].
Proof.
  intros Hok Hin Ha. destruct (proj1 Hok Hin) as [(_ & _ & _ & _ & _ & _ & _ & _ & _ & _ & _ & He) _].
  destruct He as [[H _]|[_ H]]; [congruence|done].
Qed.

(** A byte after the escape, and one after the bracket. *)
Lemma escape_second s ch now1 now2 : tg_escape_buffer (g_tetris (ss_game s)) = [27] ->
  escape_input s ch now1 now2 = if ch =? c_lbracket then escape s true [27; ch] else escape s false [].
Proof.
  intros Hb. unfold escape_input. rewrite Hb. cbn.
  destruct (ch =? 91); done.
Qed.

Lemma escape_third s ch now1 now2 : tg_escape_buffer (g_tetris (ss_game s)) = [27; 91] ->
  escape_input s ch now1 now2 =
  if negb (bool_decide (arrow ch = TETRIS_INPUT_NONE)) && negb (ss_camouflaged s)
  then snd (session_game_tetris_process_action (escape s false []) (arrow ch) now1 now2)
  else escape s false [].
Proof. intros Hb. unfold escape_input. rewrite Hb. done. Qed.

Lemma escape_input_ok s ch now1 now2 : session_ok s -> in_tetris s = true ->
  tg_escape_active (g_tetris (ss_game s)) = true -> session_ok (escape_input s ch now1 now2).
Proof.
  intros Hok Hin Ha. destruct (escape_held s Hok Hin Ha) as [Hb|Hb].
  - rewrite escape_second by done.
    destruct (Z.eqb_spec ch 91) as [->|]; apply escape_session_ok; try done; [right|left]; eauto.
  - rewrite escape_third by done. destruct (_ && _); [apply action_ok|];
      apply escape_session_ok; try done; by left.
Qed.

Lemma raw_input_ok s ch now1 now2 : session_ok s ->
  session_ok (snd (session_game_tetris_process_raw_input s ch now1 now2)).
Proof.
  intros Hok. unfold session_game_tetris_process_raw_input.
  destruct (in_tetris s) eqn:Hin; cbn [negb]; [|done].
  destruct (_ || _ || _ || _); [done|].
  destruct (tg_escape_active _) eqn:Ha; [by apply escape_input_ok|].
  destruct (Z.eqb_spec ch 27) as [->|]; [apply escape_session_ok; try done; right; eauto|].
  destruct (_ || _); [done|].
  destruct (ch =? 18); [destruct (ss_camouflaged s); [done|by apply action_ok]|].
  destruct (tolower ch =? 116); [by apply toggle_ok|].
  destruct (ss_camouflaged s); [done|].
  destruct (negb _); [by apply action_ok|]. by destruct (ch <? 32).
Qed.

Lemma handle_line_ok s line now1 now2 : session_ok s ->
  session_ok (session_game_tetris_handle_line s line now1 now2).
Proof.
  intros Hok. unfold session_game_tetris_handle_line.
  destruct (in_tetris s); cbn [negb]; [|done]. destruct (over s); [by apply suspend_ok|].
  cbv zeta. destruct (bytes_eqb _ []); [by apply timeout_ok|].
  destruct (bytes_eqb _ _); [done|]. destruct (bytes_eqb _ _); [by apply action_ok|done].
Qed.

Lemma start_tetris_ok s : session_ok s -> session_ok (session_game_start_tetris s).
Proof.
  intros [_ Hs]. unfold session_game_start_tetris.
  pose proof (start_ok seed (ss_game s)) as Hg.
  destruct (start_game seed (ss_game s)) as [ok g]. by split.
Qed.

(** What can happen to the session's Tetris. *)
Inductive session_step : session -> session -> Prop :=
  | step_key s ch now1 now2 :
      session_step s (snd (session_game_tetris_process_raw_input s ch now1 now2))
  | step_timeout s now : session_step s (snd (session_game_tetris_process_timeout s now))
  | step_line s line now1 now2 :
      session_step s (session_game_tetris_handle_line s line now1 now2)
  | step_suspend s : session_step s (session_game_suspend s)
  | step_start s : session_step s (session_game_start_tetris s).

Lemma session_step_ok s s' : session_step s s' -> session_ok s -> session_ok s'.
Proof.
  intros [] Hok; [by apply raw_input_ok|by apply timeout_ok|by apply handle_line_ok|
    by apply suspend_ok|by apply start_tetris_ok].
Qed.

(** C35: however a session plays, it plays Tetris.  After any keys, lines,
    timeouts, suspensions and starts, in any order and at any time: the board of
    a running game has its 15 by 20 cells of known colours, its bag the seven
    pieces, its round, line goal and gravity their bounds; until the game is over
    the falling piece lies inside the walls on empty cells; and of an arrow
    sequence no more than its first two bytes are held. *)
Theorem session_stays_ok s0 s : rtc session_step s0 s ->
  ss_active s0 = false -> ss_camouflaged s0 = false ->
  session_ok s.
Proof.
  intros Hsteps Ha Hc. assert (session_ok s0) as Hok.
  { unfold session_ok, in_tetris. rewrite Ha, Hc, andb_false_r. done. }
  clear Ha Hc. induction Hsteps as [|x y z Hxy _ IH]; [done|].
  by apply IH, (session_step_ok x).
Qed.

(** ** Keys *)

(** Some bytes typed one after another. *)
Definition feed (s : session) (chs : bytes) (now1 now2 : timespec) : session :=
  fold_left (fun s ch => snd (session_game_tetris_process_raw_input s ch now1 now2)) chs s.

Lemma feed_steps s chs now1 now2 : rtc session_step s (feed s chs now1 now2).
Proof.
  revert s; induction chs as [|ch chs IH]; intros s; [constructor|].
  unfold feed. cbn [fold_left]. eapply rtc_l; [apply (step_key s ch now1 now2)|]. apply IH.
Qed.

Definition idle (s : session) : Prop :=
  tg_escape_active (g_tetris (ss_game s)) = false /\ tg_escape_buffer (g_tetris (ss_game s)) = [].

Lemma escape_back s active buffer : idle s -> escape (escape s active buffer) false [] = s.
Proof.
  intros [Ha Hb]. destruct s as [[t r d] sv a ty c]. destruct t. cbn in Ha, Hb. subst. done.
Qed.

Lemma raw_escape s now1 now2 : in_tetris s = true -> idle s ->
  snd (session_game_tetris_process_raw_input s 27 now1 now2) = escape s true [27].
Proof.
  intros Hin [Ha _]. unfold session_game_tetris_process_raw_input. by rewrite Hin, Ha.
Qed.

Lemma raw_in_escape s ch now1 now2 : in_tetris s = true ->
  tg_escape_active (g_tetris (ss_game s)) = true -> ch ∉ [1; 3; 26; 19] ->
  session_game_tetris_process_raw_input s ch now1 now2 = (true, escape_input s ch now1 now2).
Proof.
  intros Hin Ha Hch. unfold session_game_tetris_process_raw_input. rewrite Hin, Ha. cbn [negb].
  destruct (_ || _) eqn:E; [|done]. exfalso. apply Hch. bprop; subst; set_solver.
Qed.

(** The keys do what they are for.  In a running game a letter, in either
    case, the space bar and an arrow key are exactly one call of the action they
    stand for, Ctrl+R turns the piece, and an unknown arrow sequence is swallowed
    without a trace. *)
Theorem keys_act s now1 now2 : in_tetris s = true -> ss_camouflaged s = false -> idle s ->
  (forall ch, ch <> 18 -> key_action (tolower ch) <> TETRIS_INPUT_NONE ->
     session_game_tetris_process_raw_input s ch now1 now2 =
     (true, snd (session_game_tetris_process_action s (key_action (tolower ch)) now1 now2))) /\
  session_game_tetris_process_raw_input s 18 now1 now2 =
  (true, snd (session_game_tetris_process_action s TETRIS_INPUT_ROTATE now1 now2)) /\
  (forall final, final ∉ [1; 3; 26; 19] ->
     feed s [27; c_lbracket; final] now1 now2 =
     if decide (arrow final = TETRIS_INPUT_NONE) then s
     else snd (session_game_tetris_process_action s (arrow final) now1 now2)).
Proof.
  intros Hin Hc Hidle. split_and!.
  - intros ch H18 Hk. unfold session_game_tetris_process_raw_input.
    rewrite Hin, Hc. rewrite (proj1 Hidle). cbn [negb].
    assert (97 <= tolower ch <= 122 \/ tolower ch = 32) as Hr.
    { revert Hk. unfold key_action. repeat case_match; bprop; try lia; done. }
    assert (32 <= ch) as Hch by (revert Hr; unfold tolower, isupper; case_match; bprop; lia).
    rewrite (proj2 (Z.eqb_neq ch 1)), (proj2 (Z.eqb_neq ch 3)), (proj2 (Z.eqb_neq ch 26)),
      (proj2 (Z.eqb_neq ch 19)), (proj2 (Z.eqb_neq ch 27)), (proj2 (Z.eqb_neq ch 13)),
      (proj2 (Z.eqb_neq ch 10)), (proj2 (Z.eqb_neq ch 18)) by lia. cbn [orb].
    assert ((tolower ch =? 116) = false) as ->.
    { apply Z.eqb_neq. intros E. rewrite E in Hk. done. }
    by rewrite (bool_decide_false _ Hk).
  - unfold session_game_tetris_process_raw_input. rewrite Hin, Hc. by rewrite (proj1 Hidle).
  - intros final Hf. unfold feed. cbn [fold_left]. rewrite raw_escape by done.
    rewrite (raw_in_escape (escape s true [27])), escape_second by (done || set_solver).
    cbn [snd Z.eqb Pos.eqb].
    change (escape (escape s true [27]) true [27; 91]) with (escape s true [27; 91]).
    rewrite raw_in_escape, escape_third by done. cbn [snd].
    rewrite escape_back by done. cbn [ss_camouflaged escape with_game].
    rewrite Hc, andb_true_r.
    destruct (decide (arrow final = TETRIS_INPUT_NONE)) as [E|E];
      [by rewrite bool_decide_true|by rewrite bool_decide_false].
Qed.

(** ** Hiding the game *)

(** What can go on while the game is hidden. *)
Inductive hidden_step : session -> session -> Prop :=
  | hidden_key s ch now1 now2 s' :
      s' = snd (session_game_tetris_process_raw_input s ch now1 now2) ->
      ss_camouflaged s' = true -> hidden_step s s'
  | hidden_timeout s now : hidden_step s (snd (session_game_tetris_process_timeout s now))
  | hidden_line s line now1 now2 : over s = false ->
      hidden_step s (session_game_tetris_handle_line s line now1 now2).

(** What hiding keeps: the copy, and whether the game is over. *)
Definition hidden_from (saved : tetris_game_state) (g : game) (s : session) : Prop :=
  ss_saved s = saved /\ in_tetris s = true /\ ss_camouflaged s = true /\
  g_rng_state (ss_game s) = g_rng_state g /\ g_rng_seeded (ss_game s) = g_rng_seeded g.

Lemma escape_hidden saved g s active buffer :
  hidden_from saved g s -> hidden_from saved g (escape s active buffer).
Proof. intros (? & ? & ? & ? & ?). by split_and!. Qed.

Lemma timeout_hidden saved g s now : hidden_from saved g s ->
  hidden_from saved g (snd (session_game_tetris_process_timeout s now)).
Proof.
  intros (? & Hin & Hc & ? & ?). unfold session_game_tetris_process_timeout. rewrite Hin, Hc.
  by split_and!.
Qed.

Lemma action_hidden s a now1 now2 : in_tetris s = true -> ss_camouflaged s = true ->
  snd (session_game_tetris_process_action s a now1 now2) = s.
Proof. intros Hin Hc. unfold session_game_tetris_process_action. by rewrite Hin, Hc. Qed.

Lemma hidden_step_keeps saved g s s' : hidden_step s s' -> hidden_from saved g s ->
  hidden_from saved g s'.
Proof.
  intros Hstep Hh. pose proof Hh as (_ & Hin & Hc & _ & _).
  destruct Hstep as [s ch now1 now2 s' -> Hc'|s now|s line now1 now2 Ho].
  - revert Hc'. unfold session_game_tetris_process_raw_input. rewrite Hin, Hc. cbn [negb].
    destruct (_ || _ || _ || _); [done|].
    destruct (tg_escape_active _).
    { intros _. cbn [snd]. unfold escape_input. cbn [ss_camouflaged escape with_game].
      rewrite Hc, andb_false_r. destruct (_ && _); [by apply escape_hidden|].
      destruct (_ && _); by apply escape_hidden. }
    destruct (ch =? 27); [intros _; by apply escape_hidden|].
    destruct (_ || _); [done|]. destruct (ch =? 18); [done|].
    destruct (tolower ch =? 116); [|done]. cbn [snd].
    unfold session_game_toggle_camouflage. unfold in_tetris in Hin.
    apply andb_true_iff in Hin as [_ ->]. rewrite Hc. done.
  - by apply timeout_hidden.
  - unfold session_game_tetris_handle_line. rewrite Hin, Ho. cbv zeta.
    destruct (bytes_eqb _ []); [by apply timeout_hidden|].
    destruct (bytes_eqb _ _); [done|]. destruct (bytes_eqb _ _); [|done].
    by rewrite action_hidden.
Qed.

(** Hiding the game freezes it.  Whatever keys are typed while the game is
    hidden and however long that takes, showing it again gives back the board,
    piece, bag, score, round and random state it was hidden with; only its timer
    is stopped and starts anew. *)
Theorem camouflage_freezes s s' now1 now2 : in_tetris s = true -> ss_camouflaged s = false ->
  idle s ->
  rtc hidden_step (snd (session_game_tetris_process_raw_input s 116 now1 now2)) s' ->
  session_game_toggle_camouflage s' =
  {| ss_game := with_tetris (ss_game s) (stop_timer (g_tetris (ss_game s)));
     ss_saved := stop_timer (g_tetris (ss_game s)); ss_active := true;
     ss_type := SESSION_GAME_TETRIS; ss_camouflaged := false |}.
Proof.
  intros Hin Hc [Ha _]. unfold session_game_tetris_process_raw_input. rewrite Hin, Ha. cbn.
  set (h := session_game_toggle_camouflage s).
  assert (hidden_from (stop_timer (g_tetris (ss_game s))) (ss_game s) h) as Hh.
  { unfold h, session_game_toggle_camouflage. unfold in_tetris in *.
    apply andb_true_iff in Hin as [Ht Hact]. rewrite Ht, Hact, Hc. split_and!; try done.
    unfold in_tetris. cbn. by rewrite Ht. }
  clearbody h. intros Hsteps.
  assert (hidden_from (stop_timer (g_tetris (ss_game s))) (ss_game s) s') as Hh'.
  { induction Hsteps as [|x y z Hxy _ IH]; [done|]. by eapply IH, hidden_step_keeps. }
  destruct Hh' as (Hsv & Hin' & Hc' & Hr & Hd). unfold session_game_toggle_camouflage.
  unfold in_tetris in Hin'. apply andb_true_iff in Hin' as [Ht Hact].
  rewrite Ht, Hact, Hc', Hsv, stop_timer_idem. cbn [negb]. apply bool_decide_eq_true in Ht.
  rewrite Ht. unfold with_tetris. by rewrite Hr, Hd.
Qed.

(** ** A hidden game that is suspended *)

Lemma take_piece_escape g :
  tg_escape_active (g_tetris (snd (session_game_tetris_take_piece seed g))) =
  tg_escape_active (g_tetris g).
Proof.
  unfold session_game_tetris_take_piece. destruct (_ <=? _)%nat; [|done].
  destruct (fill_bag_spec seed g) as (bag & Hg & _). cbn [snd g_tetris with_tetris].
  by rewrite Hg.
Qed.

Lemma spawn_escape g :
  tg_escape_active (g_tetris (snd (session_game_tetris_spawn_piece seed g))) = false.
Proof.
  unfold session_game_tetris_spawn_piece.
  match goal with |- context [session_game_tetris_take_piece seed ?x] =>
    pose proof (take_piece_escape x) as Ht; destruct (session_game_tetris_take_piece seed x) end.
  cbn in Ht. destruct (negb _); exact Ht.
Qed.

Lemma start_escape g : tg_escape_active (g_tetris (snd (start_game seed g))) = false.
Proof. unfold start_game. destruct (session_game_tetris_take_piece _ _). apply spawn_escape. Qed.

(** A game that is suspended while it is hidden leaves the camouflage flag and its
    copy behind.  The next game then starts hidden (its keys are dead, its clock
    stands still), and the key that should show it puts the suspended game in its
    place. *)
Theorem hidden_game_returns s now1 now2 :
  in_tetris s = true -> ss_camouflaged s = true ->
  let s1 := session_game_start_tetris (session_game_suspend s) in
  ss_active s1 = true ->
  ss_camouflaged s1 = true /\
  (forall a, session_game_tetris_process_action s1 a now1 now2 = (true, s1)) /\
  g_tetris (ss_game (snd (session_game_tetris_process_raw_input s1 116 now1 now2))) =
  stop_timer (ss_saved s).
Proof.
  intros Hin Hc. unfold in_tetris in Hin. apply andb_true_iff in Hin as [Ht Ha].
  assert (session_game_suspend s =
    {| ss_game := with_tetris (ss_game s) session_game_tetris_reset; ss_saved := ss_saved s;
       ss_active := false; ss_type := SESSION_GAME_NONE; ss_camouflaged := true |}) as ->.
  { unfold session_game_suspend. by rewrite Ha, Ht, Hc. }
  unfold session_game_start_tetris. cbn [ss_game ss_saved ss_camouflaged].
  pose proof (start_escape (with_tetris (ss_game s) session_game_tetris_reset)) as He.
  destruct (start_game seed _) as [ok g]. cbn [snd] in He. cbv zeta. cbn [ss_active]. intros ->.
  split_and!; [done|done|]. unfold session_game_tetris_process_raw_input.
  cbn [in_tetris ss_active ss_type ss_game ss_camouflaged]. by rewrite He.
Qed.
End Handlers.
End TetrisInput.

(** ** Samples *)

Module InputSamples.
Import TetrisSamples TetrisInput.

Definition at_second (sec : Z) : timespec := {| tv_sec := sec; tv_nsec := 0 |}.

Definition no_game : session :=
  {| ss_game := new_session; ss_saved := session_game_tetris_reset; ss_active := false;
     ss_type := SESSION_GAME_NONE; ss_camouflaged := false |}.

Definition playing : session := session_game_start_tetris 12345 no_game.

(** Two keys into a game: to the left, and an arrow up. *)
Definition two_keys : session :=
  feed 12345 playing (lit "a" ++ [27] ++ lit "[A") (at_second 1) (at_second 1).

Lemma session_stays_ok_witness :
  session_ok two_keys /\ tg_rotation (g_tetris (ss_game two_keys)) = 1.
Proof.
  split; [|vm_compute; reflexivity].
  apply (session_stays_ok 12345 no_game); [|reflexivity|reflexivity].
  eapply rtc_l; [apply step_start|].
  unfold two_keys, playing. apply feed_steps.
Defined.

Lemma keys_act_witness :
  session_game_tetris_process_raw_input 12345 playing 65 (at_second 1) (at_second 1) =
  (true, snd (session_game_tetris_process_action 12345 playing TETRIS_INPUT_MOVE_LEFT
                (at_second 1) (at_second 1))).
Proof.
  change TETRIS_INPUT_MOVE_LEFT with (key_action (tolower 65)).
  refine (proj1 (keys_act 12345 playing (at_second 1) (at_second 1) _ _ _) 65 _ _);
    [vm_compute; reflexivity|vm_compute; reflexivity|split; vm_compute; reflexivity|lia|done].
Defined.

(** Hidden, and some keys typed by a colleague. *)
Definition hidden : session :=
  snd (session_game_tetris_process_raw_input 12345 playing 116 (at_second 1) (at_second 1)).

Lemma camouflage_freezes_witness :
  session_game_toggle_camouflage
    (snd (session_game_tetris_process_raw_input 12345 hidden 32 (at_second 7) (at_second 8))) =
  {| ss_game := with_tetris (ss_game playing) (stop_timer (g_tetris (ss_game playing)));
     ss_saved := stop_timer (g_tetris (ss_game playing)); ss_active := true;
     ss_type := SESSION_GAME_TETRIS; ss_camouflaged := false |}.
Proof.
  apply (camouflage_freezes 12345 playing _ (at_second 1) (at_second 1));
    [vm_compute; reflexivity|vm_compute; reflexivity|split; vm_compute; reflexivity|].
  apply rtc_once. eapply hidden_key; [reflexivity|vm_compute; reflexivity].
Defined.

(** The game of [playing] comes back in the place of the one started after it. *)
Lemma hidden_game_returns_witness :
  g_tetris (ss_game (snd (session_game_tetris_process_raw_input 12345
    (session_game_start_tetris 12345 (session_game_suspend hidden)) 116
    (at_second 9) (at_second 9)))) = stop_timer (ss_saved hidden).
Proof.
  refine (proj2 (proj2 (hidden_game_returns 12345 hidden (at_second 9) (at_second 9) _ _ _)));
    vm_compute; reflexivity.
Defined.
End InputSamples.
